(* ===== verification/_CoqProject ===== *)
-Q . S2P
Prelude.v
WStream.v
ListStream.v
Message.v
ClientMsg.v
ServerMsg.v
VarMsg.v
SessionMsg.v
WindowMsg.v
MsgTable.v
TableFacts.v
Pipe.v
Transport.v
TransportFacts.v
Queue.v
Delivery.v
Outbound.v
OutboundFacts.v
Pipeline.v
PipelineFacts.v
Instances.v
Msgpack.v
MsgpackFacts.v
RpcPack.v
RpcMsg.v
RpcTable.v
RpcFacts.v
ProtocolTheorems.v
TransportTheorems.v
PipelineTheorems.v
RpcTheorems.v
RpcContext.v
RpcThreads.v
RpcThreadsFacts.v
RpcRuns.v
RpcCalm.v
RpcProgress.v
RpcInstances.v
RpcCoreTheorems.v
RpcPipe.v
RpcPipeFacts.v
RpcServerFacts.v
RpcPipeTheorems.v
Encoder.v
EncoderFacts.v
Bitmap.v
BitmapFacts.v
CoreTheorems.v
Channels.v
ChannelFacts.v
ChannelTheorems.v
FuseTypes.v
FuseTable.v
FuseCallbacks.v
FuseHandlers.v
FuseRepr.v
FuseTree.v
FuseOps.v
FuseSync.v
FuseRun.v
FuseRequests.v
FuseReaddir.v
FuseInvariant.v
FuseCompletions.v
FuseMoves.v
FuseListing.v
FuseTheorems.v
Display.v
DisplayFacts.v
DisplayTheorems.v
Session.v
SessionFacts.v
SessionTheorems.v
Clipboard.v
ClipboardTheorems.v
X11.v
X11Facts.v
X11Cursor.v
X11Draw.v
X11Theorems.v
