(* ===== verification/Prelude.v ===== *)
(** * FreeRDS: a verification development

    FreeRDS serves RDP clients from sessions that run behind named pipes.  A
    session module (an X server, for instance) produces drawing messages; the
    core process receives them over the pipe, collects them per frame and draws
    them to the RDP client; input events travel the other way.  This library
    models the part that moves the messages: their wire format and tables
    (freerds/backend/protocol.c, include/freerds/backend.h), the transport that
    sends and receives them (freerds/backend/transport.c,
    freerds/backend/outbound.c) and the pipeline that queues, packs and
    processes them in the core (freerds/core/pipeline.c).  It also models the
    messages of the RPC between the core and the session manager
    (freerds/rpc/msg.c, freerds/rpc/pack.c) down to the bundled msgpack
    (external/msgpack), the threads that exchange them (freerds/core/rpc.c,
    freerds/rpc/rpc.c), and in the core the encoder and the bitmap updates
    (freerds/core/encoder.c, freerds/core/core.c), the virtual channels
    (freerds/core/channels.c), the display and the life of a connection
    (freerds/core/client.c, backend.c, process.c), the file system over the
    drives that an RDP client redirects (channels/rdpdr/rdpdr_fuse.c), and on
    the other side of the pipe the X11 module (module/X11/service).

    ** How the model reads

    A C function is a Rocq function of the same name.  An integer is a [Z]; the
    conversion to the width of its C type is written out ([u16], [u32], [i32]
    below).  Undefined behaviour (a read or a store outside of a block, an
    index outside of a table, a call through [NULL]) is [None], so that
    "defined" is part of what a theorem states.  A function that works on a
    stream is a computation of the state monad [SM] (WStream.v); a backend
    function takes the backend and returns it changed.  A message struct is a
    [MSG B]: the common fields and a record [B] with the remaining ones.  A
    pointer to bytes is [option (list Z)], the block it points to.  Memory
    allocation succeeds.  What the C code leaves uninitialised is a parameter
    ([common0], [server_locals], [client_locals]).

    WinPR and FreeRDP are not part of the repository.  What the code uses of
    them is a class of operations with a class of laws that state their
    documented behaviour: [WStream] (streams), [Pipe] ([ReadFile] and
    [WriteFile] on a byte-mode pipe, which may move fewer bytes than asked
    for), [Collections] (linked lists and message queues), [Dictionary]
    (dictionaries and queues), [HashTable], [PeerData] (the data of a virtual
    channel), [Region16] (pixel regions),
    [WindowOrder] and [CodecBits] (flag bits), [Compression] (codecs), [Peer]
    (the RDP peer), [WClipboard] and [XAtoms] (the clipboard), [XServer],
    [XRegion], [InputFlags] and [CursorFormat] (what the X11 module uses of the X
    server and of its headers), and the record [World] (the user, the clock,
    memory, and whether the servers of drives and clipboard accept a command).
    ListStream.v, Instances.v, RpcInstances.v and the theorem files have
    executable instances of all of them, on which the witnesses run.

    Where threads share data, the code is split at its operations on the shared
    data; a run is a sequence of such steps, of any threads in any order
    ([run] in RpcThreads.v, [server_run] in RpcServerFacts.v, [channel_run] in
    Channels.v, [acts] in DisplayFacts.v, [fuse_run] in
    FuseRun.v, [x11_runs] in X11Facts.v).  Objects that
    threads share by pointer (packets, the stacks of callers, channels, the
    requests of the file system) live in a map from numbers to objects, and
    using one that has been freed is undefined.

    ** Files

    - Prelude.v: widths, little-endian encoding ([le], [le_val]), writing into
      a buffer ([splice]), hint databases.
    - WStream.v: the stream interface, the monad, and the three judgements the
      message proofs use: [writes m bs a] (m appends bs), [reads m bs a] (m
      consumes bs) and [safe n m] (m stays inside the stream).
    - ListStream.v: a stream on lists.
    - Message.v: the common header, the message types, and the classes
      [Encoder] and [Codec], the contract between a message and its users: what
      the writer emits, its length, and what the reader recovers.
    - ClientMsg.v, ServerMsg.v, VarMsg.v, SessionMsg.v, WindowMsg.v: one module
      per message with struct, reader, writer and its [Encoder]/[Codec]
      instances; VarMsg.v has the messages with variable parts.
    - MsgTable.v: copy and free functions, the message definitions, the two
      tables and the dispatching functions; TableFacts.v lifts the contracts of
      the messages through the tables.
    - Pipe.v: [freerds_named_pipe_read] and [freerds_named_pipe_write].
    - Transport.v: the backend, its interfaces, [freerds_transport_receive] and
      the dispatch; TransportFacts.v: how a message is assembled from reads.
    - Queue.v: the receiver as an abstract queue of messages (class
      [Protocol]), refined by [freerds_transport_receive]; Delivery.v: the
      instances for server messages and for client messages.
    - Outbound.v: the functions of the outbound interfaces; OutboundFacts.v:
      what they put on the pipe, and both ends of a pipe together.
    - Pipeline.v: the pipeline of the core; PipelineFacts.v: its lemmas.
    - Msgpack.v: the packer functions and the unpacker's state machine;
      MsgpackFacts.v: the encoding of scalars and arrays, totality and decoding.
    - RpcPack.v: the helpers of freerds/rpc/pack.c; RpcMsg.v: one module per RPC
      message; RpcTable.v: the table and its functions; RpcFacts.v: the lemmas.
    - RpcContext.v: the functions of freerds/core/rpc.c; RpcThreads.v: its
      thread and its callers side by side; RpcThreadsFacts.v, RpcRuns.v: the
      invariant of all runs; RpcCalm.v, RpcProgress.v: runs without timeouts
      and failures, in which every step is defined; RpcInstances.v: a concrete
      server.
    - RpcPipe.v: freerds/rpc/rpc.c; RpcPipeFacts.v: the receiver and its
      reference [deframe]; RpcServerFacts.v: sending and the clients of a
      server.
    - Encoder.v: freerds/core/encoder.c; EncoderFacts.v: its invariant;
      Bitmap.v: [freerds_send_bitmap_update] and [freerds_send_surface_bits];
      BitmapFacts.v: tiles and fragments.
    - Channels.v: freerds/core/channels.c with its threads; ChannelFacts.v: the
      invariant.
    - FuseTypes.v: the data of rdpdr_fuse.c and the monads; FuseTable.v: the
      functions on the table of inodes; FuseCallbacks.v: the completions that
      the RDP client's answers call, and the queue of opendir requests;
      FuseHandlers.v: the callbacks of libfuse.
    - FuseRepr.v: the table as a finite map; FuseTree.v: the invariant that it
      is a tree; FuseOps.v: what each function does to it; FuseSync.v: a
      listing; FuseRun.v: paths, and the machine of requests,
      completions and announcements; FuseRequests.v: every request has one
      owner; FuseReaddir.v: readdir; FuseInvariant.v, FuseCompletions.v,
      FuseMoves.v: the invariant of the machine and its safe runs;
      FuseListing.v: the runs of a listing and of a refused one.
    - Clipboard.v: the clipboard plugin (cliprdr_plugin.c) and its runs.
    - Display.v: freerds/core/client.c with the shared framebuffer, activation
      and input (process.c); DisplayFacts.v: its runs, their invariant, the
      attachments, and a frame from the pipeline to the client.
    - Session.v: connectors, notifications and the thread of a connection
      (backend.c, process.c) as owners of objects; SessionFacts.v: ownership.
    - X11.v: the X11 module: the framebuffer in shared memory, updates, areas,
      input, modes, the size of the screen, its service and its start;
      X11Facts.v: areas, buttons, locks, the protocol [view_step] and the
      invariant of its runs; X11Cursor.v: the pointer; X11Draw.v: the drawing
      operations of rdpGCOps.c, rdpDraw.c and rdpWindow.c and what they report.
    - ProtocolTheorems.v, TransportTheorems.v, PipelineTheorems.v,
      RpcTheorems.v, RpcCoreTheorems.v, RpcPipeTheorems.v, CoreTheorems.v,
      ChannelTheorems.v, FuseTheorems.v, ClipboardTheorems.v, DisplayTheorems.v,
      SessionTheorems.v, X11Theorems.v: the properties, each with an instance at
      a concrete input.

    ** What is shown

    - Wire format: whatever the dispatching writer emits is framed (its length
      field counts its bytes) and is read back; the reader of every message but
      two stays inside the stream on arbitrary bytes; copying a received
      message is exact and copies are released completely, except for the
      logon message.
    - Transport: the write loop ends and sends everything or fails after a
      prefix; any number of calls of [freerds_transport_receive], for every way
      the pipe cuts the bytes into reads, hands a prefix of the peer's messages
      to the interface, in order and once each, and all of them when reads keep
      delivering; input events likewise; a sequence of calls of the outbound
      interface at one end becomes the same sequence of calls at the other, for
      the functions whose messages are written and read back.
    - Pipeline: queueing appends an equal copy; packing keeps the messages
      without a rectangle in order and, for rectangles that 16 bits can hold,
      covers every drawn pixel with one paint message inside the desktop;
      processing hands every message to the proxy
      once and releases it.
    - RPC: every message that is packed is unpacked to itself; unpacking returns
      on arbitrary bytes, stays inside its buffer, and accepts exactly the arrays
      that start with the fields of the message; one message reads behind a
      short array.
    - Calls of the manager: in every interleaving a call that succeeds has the
      response to its own request; without timeouts no thread touches data that
      another has released; requests of the manager reach their connection.
    - RPC pipes: the receiver computes a reference that takes one byte at a
      time; a broadcast reaches every client of the server.
    - Encoder and bitmap updates: codec bits, contexts, frames and tile buffers
      agree; tiles lie in the framebuffer, do not overlap, and cover the
      rectangle exactly under a condition that is stated; the distribution over
      updates sends everything in order, or never ends.
    - Channels: a GUID gets one socket at most, and only after it was handed
      out; as long as no opening times out, no thread uses a freed channel,
      except for data of the client after a failed read has freed it; other data
      of the client goes to the socket of its channel.
    - Redirected drives: in every run the table stays a tree in which every
      inode has its parent and every directory its count, and every callback
      and completion is defined, up to the conditions that [action_ok] lists
      (the release of an open file and the completion of an opening whose
      [fuse_file_info] is gone are undefined, as is shown too);
      every request is answered once at most and, while it is not, is owned by
      exactly one pending command or queue; a listing leaves exactly the
      entries that the client has; readdir passes every entry once; paths are
      those of the tree; the recursive deletion ends and removes the subtree.
    - Display: in every order of what a module sends and the client does, under
      the conditions of [acts_ok] on messages and framebuffers, painting stays
      inside the attached framebuffer and the tile buffers; a framebuffer is
      attached once at most and detached in the end; what is drawn reaches the
      client as bitmaps that cover it.
    - Connections: without a switch of sessions every object of a connection
      is released exactly once; a switch frees the endpoint twice.
    - Clipboard: the targets that are announced stand for the formats of the
      client; while the X server and the client keep to [event_ok], every
      request for the selection and every request of the client is answered
      once; text is passed on.
    - X11 module: in every run, from its arguments on, with screen sizes in the
      range of RandR and room in the table of modes, every step is defined and
      its messages follow an abstract protocol whose conditions are those that
      the display of the core relies on ([fb_fits], [paint_fits]); what the
      operations of the X server draw on a visible window is sent, within the
      clipping regions that are sent with it, as long as the orders fit the 16
      bits of the protocol; the pointer is drawn pixel by
      pixel; buttons are a set and locks are those of the client; a 65th mode is
      written past the table.
    - The behaviours that are defects: reads and stores out of bounds,
      misreadings, lost messages and bytes that should not be sent are stated
      as theorems about the same definitions.

    ** Bounds

    [pipe_write_loop] has fuel; the function runs it with as much fuel as there
    are bytes, and every iteration consumes one at least
    ([named_pipe_write_spec] in Pipe.v shows that it never runs out).  The loop
    of the unpacker has as much fuel as there are bytes, and every iteration
    advances ([execute_loop_total] in MsgpackFacts.v).  Theorems on a number of
    calls ([receive_times], [process_times]) quantify over the number or give
    one that suffices.  Lengths are below 2^31 where an [int] carries them; the
    alignment theorems take desktops up to 2^15 pixels, RDP's limit being
    lower, so that no 16-bit or 32-bit sum wraps around.  [fragment_loop] has
    fuel: twice the number of bitmaps suffices when it ends at all
    ([fragment_spec] in BitmapFacts.v), and no fuel does otherwise.  The loops
    over transactions and ports run as often as there are transactions and
    ports.  [path_loop] makes 4096 turns, more than the path buffer has room for
    names; [recursive_delete] has the number of entries as fuel
    ([recursive_delete_removes_subtree]); [opendir_loop] one more than the
    queue is long.  [update_fuel] is twice the size of the grid, which suffices
    ([send_updates_ok] in DisplayFacts.v, under [tile_bound], that the codecs
    bound the size of a tile); the loop over [ServerQueue] makes ten
    turns as in the code.  A call of the RPC context is one of the four stubs
    with fields in range.  A handler that the transport calls is assumed to leave
    the inbound side of its backend alone.
    [rdpModeSelect] and [rdpRRScreenSetSize] call themselves once at most: fuel 2
    ([mode_select_ok], [set_size_ok] in X11Facts.v).  The screen of the X11
    module has 1 to 16384 pixels a side, the range of its RandR extension, and
    24 or 32 bits; shared memory segments get new numbers as long as there are
    any ([shm_law]).
    Each callback of the file system runs as one step, as do the handlers of
    the two threads of a connection.  A [fuse_file_info] belongs to FUSE, which
    may drop it at any time ([a_expire] in FuseRun.v).  The loop that passes data
    of the client to a socket has its length as fuel ([send_loop_ok] in
    ChannelFacts.v).  A resize deactivates the peer ([PeerLaws]) until it is
    activated again; the logon callback is called at most once.

    ** What is not modelled

    The functions that create and delete pipes and that start and stop threads
    (transport.c, service.c, freerds/rpc/rpc.c, freerds/core/rpc.c,
    [rdpdr_fuse_init] and [rdpdr_fuse_deinit]); the functions that return
    [sizeof] values; the functions of core.c that only copy fields into
    FreeRDP's orders, the listener and the certificates of server.c; the command
    line and the signals of the processes; of the X11 module the wrappers that
    only call the X server (rdpGCFuncs.c, and in rdpWindow.c and rdpDraw.c the
    creation of windows, pixmaps and contexts), the color maps, the timings of
    modes in floating point and the files of monitor settings; the functions
    that start the modules, and the RDP module; of the clipboard plugin the start
    and the end of its thread; the sound plugin, which is bound to PulseAudio; the
    C++ session manager and its client library. *)

From stdpp Require Export base list numbers option.

#[global] Open Scope Z_scope.

(** ** Machine integers

    A C integer is a [Z]; the conversion to a w-bit type is written out. *)

Definition u8 (z : Z) : Z := z mod 2 ^ 8.
Definition u16 (z : Z) : Z := z mod 2 ^ 16.
Definition u32 (z : Z) : Z := z mod 2 ^ 32.
Definition u64 (z : Z) : Z := z mod 2 ^ 64.

(** Conversion to a signed 32-bit [int]/[INT32] (two's complement). *)
Definition i32 (z : Z) : Z := (z + 2 ^ 31) mod 2 ^ 32 - 2 ^ 31.

Definition is_u8 (z : Z) : Prop := 0 <= z < 2 ^ 8.
Definition is_u16 (z : Z) : Prop := 0 <= z < 2 ^ 16.
Definition is_u32 (z : Z) : Prop := 0 <= z < 2 ^ 32.
Definition is_i32 (z : Z) : Prop := - 2 ^ 31 <= z < 2 ^ 31.

#[global] Instance is_u8_dec z : Decision (is_u8 z).
Proof. unfold is_u8. apply _. Defined.
#[global] Instance is_u16_dec z : Decision (is_u16 z).
Proof. unfold is_u16. apply _. Defined.
#[global] Instance is_u32_dec z : Decision (is_u32 z).
Proof. unfold is_u32. apply _. Defined.
#[global] Instance is_i32_dec z : Decision (is_i32 z).
Proof. unfold is_i32. apply _. Defined.

Create HintDb rds discriminated.
(** The readers that stay inside the stream. *)
Create HintDb rds_safe.
Create Rewrite HintDb rds.

Ltac unfold_ints :=
  unfold is_u8, is_u16, is_u32, is_i32, u8, u16, u32, u64, i32 in *;
  change (2 ^ 7) with 128 in *; change (2 ^ 8) with 256 in *;
  change (2 ^ 16) with 65536 in *; change (2 ^ 31) with 2147483648 in *;
  change (2 ^ 32) with 4294967296 in *;
  change (2 ^ 64) with 18446744073709551616 in *.

(** Solves goals on machine integers once their bounds are in the context. *)
Ltac int_lia := unfold_ints; Z.to_euclidean_division_equations; lia.

Lemma u16_id z : is_u16 z -> u16 z = z.
Proof. intros ?. apply Z.mod_small. exact H. Qed.
Lemma u32_id z : is_u32 z -> u32 z = z.
Proof. intros ?. apply Z.mod_small. exact H. Qed.
Lemma i32_id z : is_i32 z -> i32 z = z.
Proof. intros ?. unfold i32. rewrite Z.mod_small; unfold is_i32 in *; lia. Qed.

Lemma is_u16_u16 z : is_u16 (u16 z).
Proof. apply Z.mod_pos_bound. lia. Qed.
Lemma is_u32_u32 z : is_u32 (u32 z).
Proof. apply Z.mod_pos_bound. lia. Qed.
Lemma is_i32_i32 z : is_i32 (i32 z).
Proof. unfold is_i32, i32. pose proof (Z.mod_pos_bound (z + 2 ^ 31) (2 ^ 32)). lia. Qed.

Lemma is_u16_u32 z : is_u16 z -> is_u32 z.
Proof. unfold is_u16, is_u32. lia. Qed.
Lemma is_u16_i32 z : is_u16 z -> is_i32 z.
Proof. unfold is_u16, is_i32. lia. Qed.

(** An [INT32] that goes over the wire in 32 bits comes back unchanged. *)
Lemma i32_u32 z : i32 (u32 z) = i32 z.
Proof.
  unfold i32, u32. rewrite Zplus_mod_idemp_l. reflexivity.
Qed.

Lemma u32_u32 z : u32 (u32 z) = u32 z.
Proof. apply u32_id, is_u32_u32. Qed.

#[export] Hint Resolve is_u16_u16 is_u32_u32 is_i32_i32 is_u16_u32 is_u16_i32 : rds.
#[export] Hint Rewrite i32_u32 u32_u32 : rds.

(** ** Little-endian bytes

    [le n z] is the [n]-byte little-endian representation of [z] (truncated),
    [le_val] the value of a byte list read little-endian. *)

Fixpoint le (n : nat) (z : Z) : list Z :=
  match n with
  | O => []
  | S n' => z mod 256 :: le n' (z / 256)
  end.

Fixpoint le_val (bs : list Z) : Z :=
  match bs with
  | [] => 0
  | b :: bs' => b + 256 * le_val bs'
  end.

Abbreviation le16 := (le 2).
Abbreviation le32 := (le 4).

Lemma length_le n z : length (le n z) = n.
Proof. revert z. induction n as [|n IH]; intros z; simpl; [done|]. by rewrite IH. Qed.

Lemma le_val_le n z : le_val (le n z) = z mod 256 ^ Z.of_nat n.
Proof.
  revert z. induction n as [|n IH]; intros z.
  - simpl. by rewrite Z.mod_1_r.
  - cbn [le le_val]. rewrite IH, Nat2Z.inj_succ, Z.pow_succ_r by lia.
    rewrite Z.rem_mul_r by lia. lia.
Qed.

Lemma le_val_le16 z : le_val (le16 z) = u16 z.
Proof. rewrite le_val_le. reflexivity. Qed.
Lemma le_val_le32 z : le_val (le32 z) = u32 z.
Proof. rewrite le_val_le. reflexivity. Qed.

Lemma le_val_bound bs :
  Forall is_u8 bs -> 0 <= le_val bs < 256 ^ Z.of_nat (length bs).
Proof.
  induction 1 as [|b bs Hb _ IH]; [simpl; lia|].
  cbn [le_val length]. rewrite Nat2Z.inj_succ, Z.pow_succ_r by lia.
  unfold is_u8 in Hb. nia.
Qed.

Lemma le_val_slice bs pos n :
  Forall is_u8 bs -> (pos + n <= length bs)%nat ->
  0 <= le_val (take n (drop pos bs)) < 256 ^ Z.of_nat n.
Proof.
  intros Hb ?. pose proof (le_val_bound (take n (drop pos bs))) as H'.
  rewrite length_take_le in H' by (rewrite length_drop; lia). by apply H', Forall_take, Forall_drop.
Qed.

Lemma le_bytes n z : Forall is_u8 (le n z).
Proof.
  revert z. induction n as [|n IH]; intros z; simpl; constructor; [|apply IH].
  apply Z.mod_pos_bound. lia.
Qed.

Lemma le_u32 z : le32 (u32 z) = le32 z.
Proof.
  assert (forall n z, le n (z mod 256 ^ Z.of_nat n) = le n z) as H; [|apply (H 4%nat)].
  clear z. intros n. induction n as [|n IH]; intros z; [done|].
  cbn [le]. rewrite Nat2Z.inj_succ, Z.pow_succ_r by lia.
  rewrite Z.rem_mul_r by lia. f_equal.
  - rewrite Z.mul_comm, Z_mod_plus_full, Z.mod_mod by lia. done.
  - rewrite Z.mul_comm, Z.div_add, (Z.div_small (z mod 256)) by lia || (apply Z.mod_pos_bound; lia).
    apply IH.
Qed.

(** Two 16-bit fields in a row are a 32-bit field. *)
Lemma le16_pair a b : is_u16 a -> is_u16 b -> le16 a ++ le16 b = le32 (a + 2 ^ 16 * b).
Proof.
  intros Ha Hb. change (2 ^ 16) with 65536. cbn [le app].
  replace (a + 65536 * b) with (a + 256 * b * 256) by lia. rewrite Z.mod_add, Z.div_add by lia.
  rewrite (Z.mul_comm 256 b), Z.mod_add, Z.div_add by lia.
  rewrite (Z.div_small (a / 256) 256), Z.add_0_l; [done|].
  unfold is_u16 in Ha. split; [apply Z.div_pos; lia|apply Z.div_lt_upper_bound; lia].
Qed.

Arguments le : simpl never.
#[export] Hint Rewrite length_le le_val_le16 le_val_le32 : rds.

(** ** Blocks of memory as lists

    [splice pos bs buf] is [buf] after storing [bs] at offset [pos]. *)

Definition splice {A} (pos : nat) (bs buf : list A) : list A :=
  take pos buf ++ bs ++ drop (pos + length bs) buf.

Section Splice.
Context {A : Type}.
Implicit Types bs buf : list A.

Lemma length_splice pos bs buf :
  (pos + length bs <= length buf)%nat -> length (splice pos bs buf) = length buf.
Proof. intros ?. unfold splice. rewrite !length_app, length_take, length_drop. lia. Qed.

Lemma splice_nil pos buf : splice pos [] buf = buf.
Proof. unfold splice. simpl. rewrite Nat.add_0_r. apply take_drop. Qed.

Lemma splice_app pos bs1 bs2 buf :
  (pos + length (bs1 ++ bs2) <= length buf)%nat ->
  splice (pos + length bs1) bs2 (splice pos bs1 buf) = splice pos (bs1 ++ bs2) buf.
Proof.
  rewrite length_app. intros ?. unfold splice.
  rewrite length_app, (assoc_L (++) (take pos buf) bs1 (drop _ _)).
  assert (length (take pos buf ++ bs1) = pos + length bs1)%nat as Hl
    by (rewrite length_app, length_take; lia).
  rewrite take_app_length' by done.
  rewrite drop_app_ge by lia.
  rewrite Hl, drop_drop, <-!(assoc_L (++)).
  do 4 f_equal. lia.
Qed.

Lemma drop_splice pos bs buf :
  (pos <= length buf)%nat -> drop pos (splice pos bs buf) = bs ++ drop (pos + length bs) buf.
Proof.
  intros ?. unfold splice. rewrite drop_app_length'; [done|]. rewrite length_take. lia.
Qed.

Lemma take_splice pos bs buf n :
  (n <= pos)%nat -> (pos <= length buf)%nat -> take n (splice pos bs buf) = take n buf.
Proof.
  intros ??. unfold splice. rewrite take_app_le by (rewrite length_take; lia).
  rewrite take_take. f_equal. lia.
Qed.

Lemma take_splice_end pos bs buf :
  (pos <= length buf)%nat -> take (pos + length bs) (splice pos bs buf) = take pos buf ++ bs.
Proof.
  intros ?. unfold splice. rewrite (assoc_L (++)), take_app_length'; [done|].
  rewrite length_app, length_take. lia.
Qed.
End Splice.

#[export] Hint Rewrite @length_app @length_take @length_drop @app_nil_r : rds.
Ltac rds_simpl := autorewrite with rds; simpl.
