(* ===== verification/WStream.v ===== *)
(** * The WinPR stream interface

    The sources read and write every message through WinPR's [wStream], whose
    code is not part of the repository.  It is a parameter of the development:
    the class [WStream] lists the operations the sources use and [WStreamLaws]
    what they rely on.  A partial operation returns [None] when it would touch
    memory outside the stream's block (undefined behaviour in C).

    The second half is the calculus the protocol files use: [writes m bs a]
    ([m] stores exactly [bs] and returns [a]), [reads m bs a] ([m] consumes
    exactly [bs] and returns [a]) and [safe n m] ([m] never leaves the block
    when at least [n] bytes remain), each with one rule per operation. *)

From S2P Require Import Prelude.

Class WStream := {
  wStream : Type;
  (** the bytes of the stream's allocated block *)
  Stream_Buffer : wStream -> list Z;
  Stream_GetPosition : wStream -> nat;
  Stream_Length : wStream -> nat;
  Stream_GetRemainingLength : wStream -> Z;
  Stream_Read_UINT16 : wStream -> option (Z * wStream);
  Stream_Read_UINT32 : wStream -> option (Z * wStream);
  Stream_Read : Z -> wStream -> option (list Z * wStream);
  Stream_Seek : Z -> wStream -> option (unit * wStream);
  Stream_Write_UINT16 : Z -> wStream -> option (unit * wStream);
  Stream_Write_UINT32 : Z -> wStream -> option (unit * wStream);
  Stream_Write : list Z -> wStream -> option (unit * wStream);
  Stream_SetPosition : nat -> wStream -> wStream;
  Stream_EnsureRemainingCapacity : Z -> wStream -> wStream;
  (** a store of bytes through the pointer [Stream_Pointer(s)] *)
  Stream_Store : list Z -> wStream -> option wStream;
  (** the length becomes the position *)
  Stream_SealLength : wStream -> wStream;
  Stream_New : nat -> wStream;
}.

Section Observers.
Context {W : WStream}.

Definition Stream_Capacity (s : wStream) : nat := length (Stream_Buffer s).

(** The bytes that can be reached from [Stream_Pointer(s)]. *)
Definition Stream_Pointer (s : wStream) : list Z :=
  drop (Stream_GetPosition s) (Stream_Buffer s).

(** The state of a stream as its observers see it. *)
Definition rep (s : wStream) (buf : list Z) (pos len : nat) : Prop :=
  Stream_Buffer s = buf /\ Stream_GetPosition s = pos /\ Stream_Length s = len.

Definition wf_stream (s : wStream) : Prop :=
  (Stream_GetPosition s <= Stream_Length s)%nat /\ (Stream_Length s <= Stream_Capacity s)%nat.
End Observers.

(** What the sources rely on. *)
Class WStreamLaws (W : WStream) : Prop := {
  remaining_spec s buf pos len :
    rep s buf pos len -> (pos <= len)%nat ->
    Stream_GetRemainingLength s = Z.of_nat len - Z.of_nat pos;
  read16_spec s buf pos len :
    rep s buf pos len -> (pos + 2 <= length buf)%nat ->
    exists s', Stream_Read_UINT16 s = Some (le_val (take 2 (drop pos buf)), s') /\
               rep s' buf (pos + 2) len;
  read16_oob s : (Stream_Capacity s < Stream_GetPosition s + 2)%nat -> Stream_Read_UINT16 s = None;
  read32_spec s buf pos len :
    rep s buf pos len -> (pos + 4 <= length buf)%nat ->
    exists s', Stream_Read_UINT32 s = Some (le_val (take 4 (drop pos buf)), s') /\
               rep s' buf (pos + 4) len;
  read32_oob s : (Stream_Capacity s < Stream_GetPosition s + 4)%nat -> Stream_Read_UINT32 s = None;
  read_spec s buf pos len n :
    rep s buf pos len -> (pos + n <= length buf)%nat ->
    exists s', Stream_Read (Z.of_nat n) s = Some (take n (drop pos buf), s') /\
               rep s' buf (pos + n) len;
  read_oob s n : (Stream_Capacity s < Stream_GetPosition s + n)%nat ->
    Stream_Read (Z.of_nat n) s = None;
  seek_spec s buf pos len n :
    rep s buf pos len -> (pos + n <= length buf)%nat ->
    exists s', Stream_Seek (Z.of_nat n) s = Some (tt, s') /\ rep s' buf (pos + n) len;
  write16_spec s buf pos len v :
    rep s buf pos len -> (pos + 2 <= length buf)%nat ->
    exists s', Stream_Write_UINT16 v s = Some (tt, s') /\
               rep s' (splice pos (le16 v) buf) (pos + 2) len;
  write32_spec s buf pos len v :
    rep s buf pos len -> (pos + 4 <= length buf)%nat ->
    exists s', Stream_Write_UINT32 v s = Some (tt, s') /\
               rep s' (splice pos (le32 v) buf) (pos + 4) len;
  write_spec s buf pos len bs :
    rep s buf pos len -> (pos + length bs <= length buf)%nat ->
    exists s', Stream_Write bs s = Some (tt, s') /\
               rep s' (splice pos bs buf) (pos + length bs) len;
  write_oob s bs : (Stream_Capacity s < Stream_GetPosition s + length bs)%nat ->
    Stream_Write bs s = None;
  setpos_spec s buf pos len p :
    rep s buf pos len -> (p <= length buf)%nat -> rep (Stream_SetPosition p s) buf p len;
  ensure_spec s buf pos len n :
    rep s buf pos len -> (pos <= len)%nat -> (len <= length buf)%nat -> 0 <= n ->
    exists buf' len', rep (Stream_EnsureRemainingCapacity n s) buf' pos len' /\
      take (length buf) buf' = buf /\ Z.of_nat pos + n <= Z.of_nat (length buf') /\
      (len <= len')%nat /\ (len' <= length buf')%nat;
  (** a stream whose length is its capacity stays one *)
  ensure_full s buf pos n :
    rep s buf pos (length buf) -> (pos <= length buf)%nat -> 0 <= n ->
    exists buf', rep (Stream_EnsureRemainingCapacity n s) buf' pos (length buf') /\
      take (length buf) buf' = buf /\ Z.of_nat pos + n <= Z.of_nat (length buf');
  seal_spec s buf pos len : rep s buf pos len -> rep (Stream_SealLength s) buf pos pos;
  store_spec s buf pos len bs :
    rep s buf pos len -> (pos + length bs <= length buf)%nat ->
    exists s', Stream_Store bs s = Some s' /\ rep s' (splice pos bs buf) pos len;
  store_oob s bs : (Stream_Capacity s < Stream_GetPosition s + length bs)%nat ->
    Stream_Store bs s = None;
  new_spec n : exists buf, rep (Stream_New n) buf 0 n /\ length buf = n;
}.

(** ** Code over a stream *)

Definition SM {W : WStream} (A : Type) : Type := wStream -> option (A * wStream).

#[global] Instance SM_ret {W : WStream} : MRet SM := fun A a s => Some (a, s).
#[global] Instance SM_bind {W : WStream} : MBind SM :=
  fun A B k m s => match m s with Some (a, s') => k a s' | None => None end.

Definition get_remaining {W : WStream} : SM Z :=
  fun s => Some (Stream_GetRemainingLength s, s).

(** [Stream_GetPointer(s, p); ... p[0 .. n)]: the [n] bytes at the pointer. *)
Definition peek_bytes {W : WStream} (n : Z) : SM (list Z) :=
  fun s => Some (take (Z.to_nat n) (Stream_Pointer s), s).

(** Undefined behaviour. *)
Definition fault {W : WStream} {A} : SM A := fun _ => None.

(** The body of [if (!s) return null; ...]: a function on a [wStream*] that
    may be [NULL]. *)
Definition on_stream {W : WStream} {A} (s : option wStream) (null : A) (m : SM A) :
    option (A * option wStream) :=
  match s with
  | None => Some (null, None)
  | Some s => match m s with Some (a, s') => Some (a, Some s') | None => None end
  end.

Section Calculus.
Context {W : WStream} {L : WStreamLaws W}.

(** [m] consumes exactly [bs] and returns [a]. *)
Definition reads {A} (m : SM A) (bs : list Z) (a : A) : Prop :=
  forall s buf pos len rest,
    rep s buf pos len -> drop pos buf = bs ++ rest -> (len <= length buf)%nat ->
    (pos + length bs <= len)%nat ->
    exists s', m s = Some (a, s') /\ rep s' buf (pos + length bs) len.

(** [m] stores exactly [bs] and returns [a]. *)
Definition writes {A} (m : SM A) (bs : list Z) (a : A) : Prop :=
  forall s buf pos len,
    rep s buf pos len -> (pos + length bs <= length buf)%nat ->
    exists s', m s = Some (a, s') /\ rep s' (splice pos bs buf) (pos + length bs) len.

(** [m] stays inside the block and returns, whatever the bytes are, when at
    least [n] bytes remain before the stream's length. *)
Definition safe {A} (n : Z) (m : SM A) : Prop :=
  forall s buf pos len,
    rep s buf pos len -> Forall is_u8 buf -> (len <= length buf)%nat ->
    Z.of_nat pos + n <= Z.of_nat len -> (pos <= len)%nat ->
    exists a s' pos', m s = Some (a, s') /\ rep s' buf pos' len /\ (pos' <= len)%nat.

(** *** Rules for [writes] *)

Lemma writes_ret {A} (a : A) : writes (mret a) [] a.
Proof. intros s buf pos len ??. exists s. rewrite splice_nil, Nat.add_0_r. done. Qed.

Lemma writes_bind {A B} (m : SM A) (k : A -> SM B) bs1 bs2 a b :
  writes m bs1 a -> writes (k a) bs2 b -> writes (m ≫= k) (bs1 ++ bs2) b.
Proof.
  intros Hm Hk s buf pos len Hs Hl. rewrite length_app in Hl.
  destruct (Hm s buf pos len Hs) as (s1 & E1 & H1); [lia|].
  destruct (Hk s1 _ _ _ H1) as (s2 & E2 & H2); [rewrite length_splice by lia; lia|].
  exists s2. unfold mbind, SM_bind. rewrite E1. split; [done|].
  rewrite splice_app in H2 by (rewrite length_app; lia).
  rewrite length_app, Nat.add_assoc. done.
Qed.

Lemma writes_16 v : writes (Stream_Write_UINT16 v) (le16 v) tt.
Proof. intros s buf pos len ??. rewrite length_le in *. by apply write16_spec. Qed.

Lemma writes_32 v : writes (Stream_Write_UINT32 v) (le32 v) tt.
Proof. intros s buf pos len ??. rewrite length_le in *. by apply write32_spec. Qed.

Lemma writes_bytes bs : writes (Stream_Write bs) bs tt.
Proof. intros s buf pos len ??. by apply write_spec. Qed.

Lemma writes_eq {A} (m : SM A) bs bs' a a' : writes m bs a -> bs = bs' -> a = a' -> writes m bs' a'.
Proof. by intros ? <- <-. Qed.

(** *** Rules for [reads] *)

Lemma reads_ret {A} (a : A) : reads (mret a) [] a.
Proof. intros s buf pos len rest ????. exists s. rewrite Nat.add_0_r. done. Qed.

Lemma reads_bind {A B} (m : SM A) (k : A -> SM B) bs1 bs2 a b :
  reads m bs1 a -> reads (k a) bs2 b -> reads (m ≫= k) (bs1 ++ bs2) b.
Proof.
  intros Hm Hk s buf pos len rest Hs Hd Hb Hl. rewrite length_app in Hl.
  rewrite <-(assoc_L (++)) in Hd.
  destruct (Hm s buf pos len _ Hs Hd Hb) as (s1 & E1 & H1); [lia|].
  destruct (Hk s1 buf _ len rest H1) as (s2 & E2 & H2).
  { rewrite <-drop_drop, Hd, drop_app_length. done. }
  { done. }
  { lia. }
  exists s2. unfold mbind, SM_bind. rewrite E1, length_app, Nat.add_assoc. done.
Qed.

Lemma reads_bind_ret {A B} (m : SM A) (f : A -> B) bs a :
  reads m bs a -> reads (v ← m; mret (f v)) bs (f a).
Proof.
  intros Hm. rewrite <-(app_nil_r bs). eapply reads_bind; [exact Hm|apply reads_ret].
Qed.

Lemma take_drop_prefix {A} (bs rest : list A) pos buf n :
  drop pos buf = bs ++ rest -> n = length bs -> take n (drop pos buf) = bs.
Proof. intros -> ->. apply take_app_length. Qed.

Lemma reads_16 v : reads Stream_Read_UINT16 (le16 v) (u16 v).
Proof.
  intros s buf pos len rest Hs Hd Hb Hl. rewrite length_le in *.
  destruct (read16_spec s buf pos len Hs) as (s' & E & Hs'); [lia|].
  exists s'. rewrite E, (take_drop_prefix (le16 v) rest) by done.
  by rewrite le_val_le16.
Qed.

Lemma reads_32 v : reads Stream_Read_UINT32 (le32 v) (u32 v).
Proof.
  intros s buf pos len rest Hs Hd Hb Hl. rewrite length_le in *.
  destruct (read32_spec s buf pos len Hs) as (s' & E & Hs'); [lia|].
  exists s'. rewrite E, (take_drop_prefix (le32 v) rest) by done.
  by rewrite le_val_le32.
Qed.

Lemma reads_bytes bs n : n = Z.of_nat (length bs) -> reads (Stream_Read n) bs bs.
Proof.
  intros -> s buf pos len rest Hs Hd Hb Hl.
  destruct (read_spec s buf pos len (length bs) Hs) as (s' & E & Hs'); [lia|].
  exists s'. rewrite E, (take_drop_prefix bs rest) by done. done.
Qed.

(** [Stream_GetPointer] followed by [Stream_Seek] over the same count. *)
Lemma reads_pointer {B} bs n (k : list Z -> SM B) bs2 b :
  n = Z.of_nat (length bs) -> reads (k bs) bs2 b ->
  reads (p ← peek_bytes n; Stream_Seek n ≫= fun _ => k p) (bs ++ bs2) b.
Proof.
  intros -> Hk s buf pos len rest Hs Hd Hb Hl. rewrite length_app in Hl.
  rewrite <-(assoc_L (++)) in Hd.
  assert (peek_bytes (Z.of_nat (length bs)) s = Some (bs, s)) as E0.
  { unfold peek_bytes, Stream_Pointer. destruct Hs as (-> & -> & _).
    rewrite Nat2Z.id, (take_drop_prefix bs _ _ _ _ Hd) by done. done. }
  destruct (seek_spec s buf pos len (length bs) Hs) as (s1 & E1 & H1); [lia|].
  destruct (Hk s1 buf _ len rest H1) as (s2 & E2 & H2).
  { rewrite <-drop_drop, Hd, drop_app_length. done. }
  { done. }
  { lia. }
  exists s2. unfold mbind, SM_bind. rewrite E0, E1, length_app, Nat.add_assoc. done.
Qed.

(** The guard [if (Stream_GetRemainingLength(s) < n) return -1;]. *)
Lemma reads_guard {A} n (f m : SM A) bs a :
  n <= Z.of_nat (length bs) -> reads m bs a ->
  reads (r ← get_remaining; if r <? n then f else m) bs a.
Proof.
  intros Hn Hm s buf pos len rest Hs Hd Hb Hl.
  unfold get_remaining, mbind, SM_bind.
  rewrite (remaining_spec s buf pos len Hs) by lia.
  destruct (Z.ltb_spec (Z.of_nat len - Z.of_nat pos) n); [lia|].
  apply (Hm s buf pos len rest Hs Hd Hb Hl).
Qed.

Lemma reads_eq {A} (m : SM A) bs bs' a a' : reads m bs a -> bs = bs' -> a = a' -> reads m bs' a'.
Proof. by intros ? <- <-. Qed.

Lemma reads_val {A} (m : SM A) bs a a' : reads m bs a -> a = a' -> reads m bs a'.
Proof. by intros ? <-. Qed.

(** *** Rules for [safe] *)

Lemma safe_ret {A} n (a : A) : safe n (mret a).
Proof. intros s buf pos len ?????. exists a, s, pos. done. Qed.

Lemma safe_weaken {A} n n' (m : SM A) : safe n m -> n <= n' -> safe n' m.
Proof. intros Hm ? s buf pos len ?????. apply (Hm s buf pos len); auto; lia. Qed.

Lemma safe_bind_read16 {A} n (k : Z -> SM A) :
  2 <= n -> (forall v, is_u16 v -> safe (n - 2) (k v)) -> safe n (Stream_Read_UINT16 ≫= k).
Proof.
  intros ? Hk s buf pos len Hs Hu ???.
  destruct (read16_spec s buf pos len Hs) as (s' & E & Hs'); [lia|].
  unfold mbind, SM_bind. rewrite E. eapply Hk; [|exact Hs'|..]; auto; try lia.
  apply (le_val_slice buf pos 2); [done|lia].
Qed.

Lemma safe_bind_read32 {A} n (k : Z -> SM A) :
  4 <= n -> (forall v, is_u32 v -> safe (n - 4) (k v)) -> safe n (Stream_Read_UINT32 ≫= k).
Proof.
  intros ? Hk s buf pos len Hs Hu ???.
  destruct (read32_spec s buf pos len Hs) as (s' & E & Hs'); [lia|].
  unfold mbind, SM_bind. rewrite E. eapply Hk; [|exact Hs'|..]; auto; try lia.
  apply (le_val_slice buf pos 4); [done|lia].
Qed.

Lemma safe_bind_read {A} n m (k : list Z -> SM A) :
  0 <= m <= n -> (forall v, safe (n - m) (k v)) -> safe n (Stream_Read m ≫= k).
Proof.
  intros ? Hk s buf pos len Hs Hu ???.
  destruct (read_spec s buf pos len (Z.to_nat m) Hs) as (s' & E & Hs'); [lia|].
  rewrite Z2Nat.id in E by lia.
  unfold mbind, SM_bind. rewrite E. apply (Hk _ _ _ _ _ Hs'); auto; lia.
Qed.

(** Code that only looks at the stream. *)
Lemma safe_bind_look {A B} n (f : wStream -> B) (k : B -> SM A) :
  (forall v, safe n (k v)) -> safe n ((fun s => Some (f s, s)) ≫= k).
Proof. intros Hk s buf pos len Hs ????. by apply (Hk _ s buf pos len). Qed.

Lemma safe_bind_peek {A} n m (k : list Z -> SM A) :
  (forall v, safe n (k v)) -> safe n (peek_bytes m ≫= k).
Proof. apply safe_bind_look. Qed.

Lemma safe_bind_seek {A} n m (k : unit -> SM A) :
  0 <= m <= n -> safe (n - m) (k tt) -> safe n (Stream_Seek m ≫= k).
Proof.
  intros ? Hk s buf pos len Hs Hu ???.
  destruct (seek_spec s buf pos len (Z.to_nat m) Hs) as (s' & E & Hs'); [lia|].
  rewrite Z2Nat.id in E by lia.
  unfold mbind, SM_bind. rewrite E. apply (Hk _ _ _ _ Hs'); auto; lia.
Qed.

(** After the guard has passed, [n] bytes remain, whatever was known before. *)
Lemma safe_guard {A} n0 n (f m : SM A) :
  safe n0 f -> (forall r, 0 <= r -> n <= r -> n0 <= r -> safe r m) ->
  safe n0 (r ← get_remaining; if r <? n then f else m).
Proof.
  intros Hf Hm s buf pos len Hs Hu ???.
  unfold get_remaining, mbind, SM_bind.
  rewrite (remaining_spec s buf pos len Hs) by lia.
  destruct (Z.ltb_spec (Z.of_nat len - Z.of_nat pos) n).
  - apply (Hf s buf pos len); auto.
  - apply (Hm (Z.of_nat len - Z.of_nat pos) ltac:(lia) ltac:(lia) ltac:(lia) s buf pos len); auto; lia.
Qed.

Lemma safe_if {A} n (b : bool) (m1 m2 : SM A) :
  (b = true -> safe n m1) -> (b = false -> safe n m2) -> safe n (if b then m1 else m2).
Proof. destruct b; auto. Qed.
End Calculus.

(** Applies the rules of [writes]/[reads]/[safe] down a function body. *)
Ltac writes_step :=
  first [ apply writes_ret | apply writes_16 | apply writes_32 | apply writes_bytes
        | eapply writes_bind; [writes_step|]; writes_step ].
Ltac solve_writes := eapply writes_eq; [writes_step | rds_simpl; try done | try done].

(** [reads_step] consumes the byte list field by field; the length condition of
    a guard is left when it is not closed. *)
Ltac reads_field :=
  match goal with
  | |- reads Stream_Read_UINT16 _ _ => apply reads_16
  | |- reads Stream_Read_UINT32 _ _ => apply reads_32
  end.
Ltac reads_step :=
  match goal with
  | |- reads (mret _) _ _ => apply reads_ret
  | |- reads (get_remaining ≫= _) _ _ =>
      apply reads_guard; [try (by vm_compute) | reads_step]
  | |- reads (_ ≫= _) _ _ =>
      first [ eapply reads_bind; [reads_field|]; reads_step
            | eapply reads_bind_ret; reads_field
            | idtac ]
  | |- _ => idtac
  end.

Ltac safe_lia := unfold is_u16, is_u32 in *; lia.
Ltac safe_step :=
  cbv zeta;
  match goal with
  | |- safe _ (mret _) => apply safe_ret
  | |- safe _ (get_remaining ≫= _) => apply safe_guard; [safe_step | intros; safe_step]
  | |- safe _ (Stream_Read_UINT16 ≫= _) => apply safe_bind_read16; [safe_lia | intros; safe_step]
  | |- safe _ (Stream_Read_UINT32 ≫= _) => apply safe_bind_read32; [safe_lia | intros; safe_step]
  | |- safe _ (Stream_Read _ ≫= _) => apply safe_bind_read; [safe_lia | intros; safe_step]
  | |- safe _ ((fun s => Some (_, s)) ≫= _) => apply safe_bind_look; intros; safe_step
  | |- safe _ (peek_bytes _ ≫= _) => apply safe_bind_peek; intros; safe_step
  | |- safe _ (Stream_Seek _ ≫= _) => apply safe_bind_seek; [safe_lia | safe_step]
  | |- safe _ (if _ then _ else _) => apply safe_if; intros; safe_step
  | |- _ => idtac
  end.
