(* ===== verification/ListStream.v ===== *)
(** * A list-backed stream

    An executable instance of the WinPR stream interface: it shows that the
    laws of [WStream] can hold, and evaluates the definitions of the
    development on concrete inputs. *)

From S2P Require Import Prelude WStream.

Record lstream := LStream { lbuf : list Z; lpos : nat; llen : nat }.

Definition ls_read (n : nat) (s : lstream) : option (list Z * lstream) :=
  if decide (lpos s + n <= length (lbuf s))%nat
  then Some (take n (drop (lpos s) (lbuf s)), LStream (lbuf s) (lpos s + n) (llen s))
  else None.

Definition ls_read_int (n : nat) (s : lstream) : option (Z * lstream) :=
  match ls_read n s with Some (bs, s') => Some (le_val bs, s') | None => None end.

Definition ls_write (bs : list Z) (s : lstream) : option (unit * lstream) :=
  if decide (lpos s + length bs <= length (lbuf s))%nat
  then Some (tt, LStream (splice (lpos s) bs (lbuf s)) (lpos s + length bs) (llen s))
  else None.

Definition ls_ensure (n : Z) (s : lstream) : lstream :=
  if decide (Z.of_nat (lpos s) + n <= Z.of_nat (length (lbuf s))) then s
  else LStream (lbuf s ++ replicate (Z.to_nat n) 0) (lpos s) (length (lbuf s) + Z.to_nat n).

Definition ls_store (bs : list Z) (s : lstream) : option lstream :=
  match ls_write bs s with
  | Some (_, s') => Some (LStream (lbuf s') (lpos s) (llen s))
  | None => None
  end.

#[global] Instance list_wstream : WStream := {
  wStream := lstream;
  Stream_Buffer := lbuf;
  Stream_GetPosition := lpos;
  Stream_Length := llen;
  Stream_GetRemainingLength s := Z.of_nat (llen s) - Z.of_nat (lpos s);
  Stream_Read_UINT16 := ls_read_int 2;
  Stream_Read_UINT32 := ls_read_int 4;
  Stream_Read n := ls_read (Z.to_nat n);
  Stream_Seek n s :=
    match ls_read (Z.to_nat n) s with Some (_, s') => Some (tt, s') | None => None end;
  Stream_Write_UINT16 v := ls_write (le16 v);
  Stream_Write_UINT32 v := ls_write (le32 v);
  Stream_Write := ls_write;
  Stream_SetPosition p s := LStream (lbuf s) p (llen s);
  Stream_EnsureRemainingCapacity := ls_ensure;
  Stream_Store := ls_store;
  Stream_SealLength s := LStream (lbuf s) (lpos s) (lpos s);
  Stream_New n := LStream (replicate n 0) 0 n;
}.

Ltac ls_unfold :=
  intros; unfold rep, Stream_Capacity in *; simpl in *;
  repeat match goal with H : _ /\ _ |- _ => destruct H end; subst;
  unfold ls_store, ls_read_int, ls_read, ls_write;
  rewrite ?length_le, ?Nat2Z.id; repeat case_decide; try lia.

#[global] Instance list_wstream_laws : WStreamLaws list_wstream.
Proof.
  split; ls_unfold; eauto.
  - unfold ls_ensure. case_decide; simpl.
    + exists (lbuf s), (llen s). rewrite take_ge by lia. done.
    + exists (lbuf s ++ replicate (Z.to_nat n) 0), (length (lbuf s) + Z.to_nat n)%nat.
      rewrite length_app, length_replicate, take_app_length. repeat split; lia.
  - unfold ls_ensure. case_decide; simpl.
    + exists (lbuf s). rewrite take_ge by lia. done.
    + exists (lbuf s ++ replicate (Z.to_nat n) 0).
      rewrite length_app, length_replicate, take_app_length. repeat split; lia.
  - exists (replicate n 0). rewrite length_replicate. done.
Qed.
