(* ===== verification/Message.v ===== *)
(** * The common message header

    [RDS_MSG_COMMON] of include/freerds/backend.h and the header functions of
    freerds/backend/protocol.c.  Every message struct starts with the common
    fields ([DEFINE_MSG_COMMON()]); [MSG B] is such a struct with the remaining
    fields [B], and the cast [(RDS_MSG_COMMON* ) msg] is the projection
    [common]. *)

From S2P Require Import Prelude WStream.

Record RDS_RECT := mk_rect { rect_x : Z; rect_y : Z; rect_width : Z; rect_height : Z }.

Record RDS_MSG_COMMON := mk_common {
  msg_type : Z;      (* UINT32 *)
  msg_length : Z;    (* UINT32 *)
  msgFlags : Z;      (* UINT32 *)
  rect : RDS_RECT
}.

Record MSG (B : Type) := Msg { common : RDS_MSG_COMMON; body : B }.
Arguments Msg {B} _ _.
Arguments common {B} _.
Arguments body {B} _.

Definition RDS_MSG_FLAG_RECT : Z := 1.
Definition RDS_ORDER_HEADER_LENGTH : Z := 10.

(** The message types of include/freerds/backend.h. *)
Abbreviation RDS_SERVER_BEGIN_UPDATE := 1 (only parsing).
Abbreviation RDS_SERVER_END_UPDATE := 2 (only parsing).
Abbreviation RDS_SERVER_SET_CLIPPING_REGION := 3 (only parsing).
Abbreviation RDS_SERVER_OPAQUE_RECT := 4 (only parsing).
Abbreviation RDS_SERVER_SCREEN_BLT := 5 (only parsing).
Abbreviation RDS_SERVER_PAINT_RECT := 6 (only parsing).
Abbreviation RDS_SERVER_PATBLT := 7 (only parsing).
Abbreviation RDS_SERVER_DSTBLT := 8 (only parsing).
Abbreviation RDS_SERVER_LINE_TO := 9 (only parsing).
Abbreviation RDS_SERVER_CREATE_OFFSCREEN_SURFACE := 10 (only parsing).
Abbreviation RDS_SERVER_SWITCH_OFFSCREEN_SURFACE := 11 (only parsing).
Abbreviation RDS_SERVER_DELETE_OFFSCREEN_SURFACE := 12 (only parsing).
Abbreviation RDS_SERVER_PAINT_OFFSCREEN_SURFACE := 13 (only parsing).
Abbreviation RDS_SERVER_SET_PALETTE := 14 (only parsing).
Abbreviation RDS_SERVER_CACHE_GLYPH := 15 (only parsing).
Abbreviation RDS_SERVER_GLYPH_INDEX := 16 (only parsing).
Abbreviation RDS_SERVER_SET_POINTER := 17 (only parsing).
Abbreviation RDS_SERVER_SHARED_FRAMEBUFFER := 18 (only parsing).
Abbreviation RDS_SERVER_BEEP := 19 (only parsing).
Abbreviation RDS_SERVER_RESET := 20 (only parsing).
Abbreviation RDS_SERVER_WINDOW_NEW_UPDATE := 21 (only parsing).
Abbreviation RDS_SERVER_WINDOW_DELETE := 22 (only parsing).
Abbreviation RDS_SERVER_SET_SYSTEM_POINTER := 23 (only parsing).
Abbreviation RDS_SERVER_LOGON_USER := 24 (only parsing).
Abbreviation RDS_SERVER_LOGOFF_USER := 25 (only parsing).
Abbreviation RDS_CLIENT_CAPABILITIES := 102 (only parsing).
Abbreviation RDS_CLIENT_REFRESH_RECT := 103 (only parsing).
Abbreviation RDS_CLIENT_SYNCHRONIZE_KEYBOARD_EVENT := 104 (only parsing).
Abbreviation RDS_CLIENT_SCANCODE_KEYBOARD_EVENT := 105 (only parsing).
Abbreviation RDS_CLIENT_VIRTUAL_KEYBOARD_EVENT := 106 (only parsing).
Abbreviation RDS_CLIENT_UNICODE_KEYBOARD_EVENT := 107 (only parsing).
Abbreviation RDS_CLIENT_MOUSE_EVENT := 108 (only parsing).
Abbreviation RDS_CLIENT_EXTENDED_MOUSE_EVENT := 109 (only parsing).
Abbreviation RDS_CLIENT_VBLANK_EVENT := 110 (only parsing).
Abbreviation RDS_CLIENT_LOGON_USER := 111 (only parsing).
Abbreviation RDS_CLIENT_LOGOFF_USER := 112 (only parsing).
Abbreviation RDS_CLIENT_SUPPRESS_OUTPUT := 114 (only parsing).

(** Assignments to the common fields. *)
Definition set_type {B} (t : Z) (m : MSG B) : MSG B :=
  let c := common m in Msg (mk_common (u32 t) (msg_length c) (msgFlags c) (rect c)) (body m).
Definition set_length {B} (n : Z) (m : MSG B) : MSG B :=
  let c := common m in Msg (mk_common (msg_type c) (u32 n) (msgFlags c) (rect c)) (body m).
Definition set_msgFlags {B} (f : Z) (m : MSG B) : MSG B :=
  let c := common m in Msg (mk_common (msg_type c) (msg_length c) (u32 f) (rect c)) (body m).
Definition set_rect {B} (x y w h : Z) (m : MSG B) : MSG B :=
  let c := common m in
  Msg (mk_common (msg_type c) (msg_length c) (msgFlags c) (mk_rect (i32 x) (i32 y) (u32 w) (u32 h)))
      (body m).
Definition set_body {B} (b : B) (m : MSG B) : MSG B := Msg (common m) b.

(** [msg->msgFlags & RDS_MSG_FLAG_RECT] *)
Definition has_rect (c : RDS_MSG_COMMON) : bool :=
  negb (Z.land (msgFlags c) RDS_MSG_FLAG_RECT =? 0).

Section Header.
Context {W : WStream}.

(** [*((UINT32* ) &(data[2]))]: an unchecked little-endian load; [None] when
    the four bytes are not all in the block. *)
Definition freerds_peek_common_header_length (data : list Z) : option Z :=
  if decide (6 <= length data)%nat then Some (le_val (take 4 (drop 2 data))) else None.

Definition freerds_read_common_header (msg : RDS_MSG_COMMON) : SM (Z * RDS_MSG_COMMON) :=
  t ← Stream_Read_UINT16;
  len ← Stream_Read_UINT32;
  flags ← Stream_Read_UINT32;
  let msg := mk_common t len flags (rect msg) in
  if has_rect msg then
    x ← Stream_Read_UINT32;
    y ← Stream_Read_UINT32;
    w ← Stream_Read_UINT32;
    h ← Stream_Read_UINT32;
    mret (0, mk_common t len flags (mk_rect (i32 x) (i32 y) w h))
  else mret (0, msg).

Definition freerds_write_common_header (s : option wStream) (msg : RDS_MSG_COMMON) :
    option (Z * option wStream) :=
  on_stream s (RDS_ORDER_HEADER_LENGTH + (if has_rect msg then 16 else 0))
   (Stream_Write_UINT16 (msg_type msg);;
    Stream_Write_UINT32 (msg_length msg);;
    Stream_Write_UINT32 (msgFlags msg);;
    (if has_rect msg then
       Stream_Write_UINT32 (rect_x (rect msg));;
       Stream_Write_UINT32 (rect_y (rect msg));;
       Stream_Write_UINT32 (rect_width (rect msg));;
       Stream_Write_UINT32 (rect_height (rect msg));;
       mret 0
     else mret 0)).

(** Calls a function on a [wStream*] from code that holds the stream. *)
Definition with_stream {A} (f : option wStream -> option (A * option wStream)) : SM A :=
  fun s => match f (Some s) with Some (a, Some s') => Some (a, s') | _ => None end.

Definition write_header {B} (msg : MSG B) : SM Z :=
  with_stream (fun s => freerds_write_common_header s (common msg)).
End Header.

(** ** The header on the wire *)

Definition wire_rect (r : RDS_RECT) : list Z :=
  le32 (rect_x r) ++ le32 (rect_y r) ++ le32 (rect_width r) ++ le32 (rect_height r).

Definition wire_header (c : RDS_MSG_COMMON) : list Z :=
  le16 (msg_type c) ++ le32 (msg_length c) ++ le32 (msgFlags c) ++
  (if has_rect c then wire_rect (rect c) else []).

(** Field types of the header, with the type narrow enough for the wire. *)
Definition wf_rect (r : RDS_RECT) : Prop :=
  is_i32 (rect_x r) /\ is_i32 (rect_y r) /\ is_u32 (rect_width r) /\ is_u32 (rect_height r).
Definition wf_common (c : RDS_MSG_COMMON) : Prop :=
  is_u16 (msg_type c) /\ is_u32 (msg_length c) /\ is_u32 (msgFlags c) /\
  wf_rect (rect c).

(** What the receiver holds after decoding a header it had [c0] in. *)
Definition recv_common (c0 c : RDS_MSG_COMMON) : RDS_MSG_COMMON :=
  mk_common (msg_type c) (msg_length c) (msgFlags c) (if has_rect c then rect c else rect c0).

Section HeaderFacts.
Context {W : WStream} {L : WStreamLaws W}.

Lemma writes_on_stream {A} (null a : A) (m : SM A) bs :
  writes m bs a -> writes (with_stream (fun s => on_stream s null m)) bs a.
Proof.
  intros Hm s buf pos len Hs Hl. destruct (Hm s buf pos len Hs Hl) as (s' & E & H').
  exists s'. unfold with_stream, on_stream. rewrite E. done.
Qed.

Lemma length_wire_header c :
  Z.of_nat (length (wire_header c)) = RDS_ORDER_HEADER_LENGTH + (if has_rect c then 16 else 0).
Proof. unfold wire_header, wire_rect. rds_simpl. destruct (has_rect c); rds_simpl; done. Qed.

Lemma writes_header {B} (msg : MSG B) :
  writes (write_header msg) (wire_header (common msg)) 0.
Proof.
  apply writes_on_stream. unfold wire_header, wire_rect.
  repeat (eapply writes_bind; [first [apply writes_16 | apply writes_32]|]).
  destruct (has_rect (common msg)); [|apply writes_ret].
  eapply writes_eq; [writes_step | by rewrite app_nil_r | done].
Qed.

Lemma read_header_spec c0 c :
  wf_common c ->
  reads (freerds_read_common_header c0) (wire_header c) (0, recv_common c0 c).
Proof.
  intros (Ht & Hl & Hf & Hx & Hy & Hw & Hh).
  unfold freerds_read_common_header, wire_header, recv_common.
  eapply reads_bind; [apply reads_16|]. rewrite u16_id by done.
  eapply reads_bind; [apply reads_32|]. rewrite u32_id by done.
  eapply reads_bind; [apply reads_32|]. rewrite u32_id by done.
  destruct c as [t n f [x y w h]]. unfold has_rect in *. simpl in *.
  destruct (Z.land f RDS_MSG_FLAG_RECT =? 0); simpl; [apply reads_ret|].
  unfold wire_rect; simpl. rewrite <-(app_nil_r (le32 h)).
  eapply reads_eq; [reads_step | done |].
  rewrite !i32_u32, !i32_id, !u32_id by done. done.
Qed.

(** The length peeked at offset 2 is the length field of the header. *)
Lemma peek_length_spec c rest :
  is_u32 (msg_length c) ->
  freerds_peek_common_header_length (wire_header c ++ rest) = Some (msg_length c).
Proof.
  intros ?. unfold freerds_peek_common_header_length.
  rewrite decide_True; cycle 1.
  { pose proof (length_wire_header c) as H'. unfold RDS_ORDER_HEADER_LENGTH in H'.
    rewrite length_app. destruct (has_rect c); lia. }
  unfold wire_header. rewrite <-!(assoc_L (++)).
  rewrite drop_app_length' by (by rewrite length_le).
  rewrite take_app_length' by (by rewrite length_le).
  by rewrite le_val_le32, u32_id.
Qed.
End HeaderFacts.

Ltac solve_writer :=
  eapply writes_eq;
  [ first [ writes_step
          | apply writes_on_stream;
            repeat (eapply writes_bind;
                    [first [ apply writes_header | apply writes_16 | apply writes_32
                           | apply writes_bytes ]|]);
            apply writes_ret ]
  | rewrite ?app_nil_r; try reflexivity
  | try reflexivity ].

(** ** Message codecs

    What a write function of protocol.c ([Encoder]) and a pair of read/write
    functions ([Codec]) promise to the tables, the transport and the outbound
    interfaces.  [ok b] says which structs the promise is about, [wire b] is the
    byte layout of the fields after the header, [norm b] the struct after the
    writer's own adjustments, [wrect b] the rectangle the writer puts in the
    header, [recv b0 b] the struct a reader whose struct held [b0] ends with and
    [ready b0] what that reader needs of [b0]. *)

Definition header_size (r : option RDS_RECT) : Z := match r with Some _ => 26 | None => 10 end.

Definition out_common (c : RDS_MSG_COMMON) (n : Z) (r : option RDS_RECT) : RDS_MSG_COMMON :=
  mk_common (msg_type c) (u32 (header_size r + n))
    (match r with Some _ => RDS_MSG_FLAG_RECT | None => 0 end)
    (match r with Some r => r | None => rect c end).

Abbreviation reader B := (MSG B -> SM (Z * MSG B)).
Abbreviation writer B := (option wStream -> MSG B -> option ((Z * MSG B) * option wStream)).

Class Encoder {W : WStream} {B : Type} (wr : writer B) := {
  ok : B -> Prop;
  norm : B -> B;
  wire : B -> list Z;
  wrect : B -> option RDS_RECT;
  (** The size query, [wr(NULL, msg)]: returns the total size, stores it in the
      length field, and leaves a struct that is written the same way. *)
  codec_size c b : ok b ->
    exists m0, wr None (Msg c b) =
      Some ((i32 (u32 (header_size (wrect b) + Z.of_nat (length (wire (norm b))))), m0), None) /\
    msg_length (common m0) = u32 (header_size (wrect b) + Z.of_nat (length (wire (norm b)))) /\
    msg_type (common m0) = msg_type c /\
    (forall s, wr (Some s) m0 = wr (Some s) (Msg c b));
  codec_write c b : ok b ->
    let c' := out_common c (Z.of_nat (length (wire (norm b)))) (wrect b) in
    writes (with_stream (fun s => wr s (Msg c b))) (wire_header c' ++ wire (norm b))
      (0, Msg c' (norm b));
}.

Class Codec {W : WStream} {B : Type} (rd : reader B) (wr : writer B) := {
  codec_encoder :: Encoder wr;
  ready : B -> Prop;
  recv : B -> B -> B;
  codec_read c b0 b : ok b -> ready b0 ->
    reads (rd (Msg c b0)) (wire (norm b)) (0, Msg c (recv b0 b));
}.

Lemma length_wire_out c n r :
  Z.of_nat (length (wire_header (out_common c n r))) = header_size r.
Proof. rewrite length_wire_header. by destruct r. Qed.

Lemma wire_header_out c n r :
  wire_header (out_common c n r) =
  le16 (msg_type c) ++ le32 (header_size r + n) ++
  (match r with Some r => le32 RDS_MSG_FLAG_RECT ++ wire_rect r | None => le32 0 end).
Proof. unfold wire_header. destruct r; cbn -[le u32]; by rewrite le_u32, ?app_nil_r. Qed.

(** The codec obligations of a message of fixed layout. *)
Ltac codec_size_tac :=
  intros; eexists; split; [reflexivity|]; split; [reflexivity|]; split; [reflexivity|]; reflexivity.

Ltac codec_write_tac :=
  intros; apply writes_on_stream;
  eapply writes_eq;
  [ eapply writes_bind; [apply writes_header | writes_step ] | reflexivity | reflexivity ].

(** Rewrites the conversions of in-range fields away. *)
Ltac field_ids :=
  repeat first [ rewrite u16_id by auto with rds | rewrite i32_u32
               | rewrite u32_id by auto with rds | rewrite i32_id by auto with rds ].

Ltac codec_read_tac b :=
  eapply reads_val; [reads_step | field_ids; destruct b; reflexivity].
