(* ===== verification/ClientMsg.v ===== *)
(** * Client messages

    The keyboard, mouse, vblank, capability and output messages of
    freerds/backend/protocol.c that the connector sends to a backend service:
    one module per message with its struct, its read and write function and
    its codec. *)

From S2P Require Import Prelude WStream Message.

Module SynchronizeKeyboardEvent.
Record RDS_MSG_SYNCHRONIZE_KEYBOARD_EVENT := mk {
  flags : Z  (* UINT32 *)
}.

Section Code.
Context {W : WStream}.

Definition freerds_read_synchronize_keyboard_event (msg : MSG RDS_MSG_SYNCHRONIZE_KEYBOARD_EVENT)
    : SM (Z * MSG RDS_MSG_SYNCHRONIZE_KEYBOARD_EVENT) :=
  r ← get_remaining;
  if r <? 4 then mret (-1, msg) else
  flags' ← Stream_Read_UINT32;
  mret (0, set_body (mk flags') msg).

Definition freerds_write_synchronize_keyboard_event (s : option wStream) (msg : MSG
    RDS_MSG_SYNCHRONIZE_KEYBOARD_EVENT) :
    option ((Z * MSG RDS_MSG_SYNCHRONIZE_KEYBOARD_EVENT) * option wStream) :=
  let msg := set_msgFlags 0 msg in
  '(n, _) ← freerds_write_common_header None (common msg);
  let msg := set_length (n + 4) msg in
  on_stream s (i32 (msg_length (common msg)), msg)
   (write_header msg;;
    Stream_Write_UINT32 (flags (body msg));;
    mret (0, msg)).
End Code.

Definition ok_synchronize_keyboard_event (b : RDS_MSG_SYNCHRONIZE_KEYBOARD_EVENT) : Prop :=
  is_u32 (flags b).

Definition wire_synchronize_keyboard_event (b : RDS_MSG_SYNCHRONIZE_KEYBOARD_EVENT) : list Z :=
  le32 (flags b).

Definition recv_synchronize_keyboard_event (b0 b : RDS_MSG_SYNCHRONIZE_KEYBOARD_EVENT) :
    RDS_MSG_SYNCHRONIZE_KEYBOARD_EVENT :=
  b.

#[global] Program Instance encoder_synchronize_keyboard_event {W : WStream} {L : WStreamLaws W} :
  Encoder freerds_write_synchronize_keyboard_event := {
  ok := ok_synchronize_keyboard_event;
  norm b := b;
  wire := wire_synchronize_keyboard_event;
  wrect := fun _ => None;
}.
Next Obligation. codec_size_tac. Qed.
Next Obligation. codec_write_tac. Qed.

#[global] Program Instance codec_synchronize_keyboard_event {W : WStream} {L : WStreamLaws W} :
  Codec freerds_read_synchronize_keyboard_event freerds_write_synchronize_keyboard_event := {
  ready _ := True;
  recv := recv_synchronize_keyboard_event;
}.
Next Obligation.
  intros W L c b0 b Hok _.
  cbn [ok norm wire encoder_synchronize_keyboard_event] in *. unfold ok_synchronize_keyboard_event in Hok. destruct_and?.
  unfold freerds_read_synchronize_keyboard_event, wire_synchronize_keyboard_event,
      recv_synchronize_keyboard_event. codec_read_tac b.
Qed.

Lemma safe_read_synchronize_keyboard_event {W : WStream} {L : WStreamLaws W} msg : safe 0
    (freerds_read_synchronize_keyboard_event msg).
Proof. unfold freerds_read_synchronize_keyboard_event. safe_step. Qed.
End SynchronizeKeyboardEvent.

Module ScancodeKeyboardEvent.
Record RDS_MSG_SCANCODE_KEYBOARD_EVENT := mk {
  flags : Z  (* UINT32 *);
  code : Z  (* UINT32 *);
  keyboardType : Z  (* UINT32 *)
}.

Section Code.
Context {W : WStream}.

Definition freerds_read_scancode_keyboard_event (msg : MSG RDS_MSG_SCANCODE_KEYBOARD_EVENT) : SM
    (Z * MSG RDS_MSG_SCANCODE_KEYBOARD_EVENT) :=
  r ← get_remaining;
  if r <? 12 then mret (-1, msg) else
  flags' ← Stream_Read_UINT32;
  code' ← Stream_Read_UINT32;
  keyboardType' ← Stream_Read_UINT32;
  mret (0, set_body (mk flags' code' keyboardType') msg).

Definition freerds_write_scancode_keyboard_event (s : option wStream) (msg : MSG
    RDS_MSG_SCANCODE_KEYBOARD_EVENT) :
    option ((Z * MSG RDS_MSG_SCANCODE_KEYBOARD_EVENT) * option wStream) :=
  let msg := set_msgFlags 0 msg in
  '(n, _) ← freerds_write_common_header None (common msg);
  let msg := set_length (n + 12) msg in
  on_stream s (i32 (msg_length (common msg)), msg)
   (write_header msg;;
    Stream_Write_UINT32 (flags (body msg));;
    Stream_Write_UINT32 (code (body msg));;
    Stream_Write_UINT32 (keyboardType (body msg));;
    mret (0, msg)).
End Code.

Definition ok_scancode_keyboard_event (b : RDS_MSG_SCANCODE_KEYBOARD_EVENT) : Prop :=
  is_u32 (flags b) /\ is_u32 (code b) /\ is_u32 (keyboardType b).

Definition wire_scancode_keyboard_event (b : RDS_MSG_SCANCODE_KEYBOARD_EVENT) : list Z :=
  le32 (flags b) ++ le32 (code b) ++ le32 (keyboardType b).

Definition recv_scancode_keyboard_event (b0 b : RDS_MSG_SCANCODE_KEYBOARD_EVENT) :
    RDS_MSG_SCANCODE_KEYBOARD_EVENT :=
  b.

#[global] Program Instance encoder_scancode_keyboard_event {W : WStream} {L : WStreamLaws W} :
  Encoder freerds_write_scancode_keyboard_event := {
  ok := ok_scancode_keyboard_event;
  norm b := b;
  wire := wire_scancode_keyboard_event;
  wrect := fun _ => None;
}.
Next Obligation. codec_size_tac. Qed.
Next Obligation. codec_write_tac. Qed.

#[global] Program Instance codec_scancode_keyboard_event {W : WStream} {L : WStreamLaws W} :
  Codec freerds_read_scancode_keyboard_event freerds_write_scancode_keyboard_event := {
  ready _ := True;
  recv := recv_scancode_keyboard_event;
}.
Next Obligation.
  intros W L c b0 b Hok _.
  cbn [ok norm wire encoder_scancode_keyboard_event] in *. unfold ok_scancode_keyboard_event in Hok. destruct_and?.
  unfold freerds_read_scancode_keyboard_event, wire_scancode_keyboard_event,
      recv_scancode_keyboard_event. codec_read_tac b.
Qed.

Lemma safe_read_scancode_keyboard_event {W : WStream} {L : WStreamLaws W} msg : safe 0
    (freerds_read_scancode_keyboard_event msg).
Proof. unfold freerds_read_scancode_keyboard_event. safe_step. Qed.
End ScancodeKeyboardEvent.

Module VirtualKeyboardEvent.
Record RDS_MSG_VIRTUAL_KEYBOARD_EVENT := mk {
  flags : Z  (* UINT32 *);
  code : Z  (* UINT32 *)
}.

Section Code.
Context {W : WStream}.

Definition freerds_read_virtual_keyboard_event (msg : MSG RDS_MSG_VIRTUAL_KEYBOARD_EVENT) : SM (Z
    * MSG RDS_MSG_VIRTUAL_KEYBOARD_EVENT) :=
  r ← get_remaining;
  if r <? 8 then mret (-1, msg) else
  flags' ← Stream_Read_UINT32;
  code' ← Stream_Read_UINT32;
  mret (0, set_body (mk flags' code') msg).

Definition freerds_write_virtual_keyboard_event (s : option wStream) (msg : MSG
    RDS_MSG_VIRTUAL_KEYBOARD_EVENT) :
    option ((Z * MSG RDS_MSG_VIRTUAL_KEYBOARD_EVENT) * option wStream) :=
  let msg := set_msgFlags 0 msg in
  '(n, _) ← freerds_write_common_header None (common msg);
  let msg := set_length (n + 8) msg in
  on_stream s (i32 (msg_length (common msg)), msg)
   (write_header msg;;
    Stream_Write_UINT32 (flags (body msg));;
    Stream_Write_UINT32 (code (body msg));;
    mret (0, msg)).
End Code.

Definition ok_virtual_keyboard_event (b : RDS_MSG_VIRTUAL_KEYBOARD_EVENT) : Prop :=
  is_u32 (flags b) /\ is_u32 (code b).

Definition wire_virtual_keyboard_event (b : RDS_MSG_VIRTUAL_KEYBOARD_EVENT) : list Z :=
  le32 (flags b) ++ le32 (code b).

Definition recv_virtual_keyboard_event (b0 b : RDS_MSG_VIRTUAL_KEYBOARD_EVENT) :
    RDS_MSG_VIRTUAL_KEYBOARD_EVENT :=
  b.

#[global] Program Instance encoder_virtual_keyboard_event {W : WStream} {L : WStreamLaws W} :
  Encoder freerds_write_virtual_keyboard_event := {
  ok := ok_virtual_keyboard_event;
  norm b := b;
  wire := wire_virtual_keyboard_event;
  wrect := fun _ => None;
}.
Next Obligation. codec_size_tac. Qed.
Next Obligation. codec_write_tac. Qed.

#[global] Program Instance codec_virtual_keyboard_event {W : WStream} {L : WStreamLaws W} :
  Codec freerds_read_virtual_keyboard_event freerds_write_virtual_keyboard_event := {
  ready _ := True;
  recv := recv_virtual_keyboard_event;
}.
Next Obligation.
  intros W L c b0 b Hok _.
  cbn [ok norm wire encoder_virtual_keyboard_event] in *. unfold ok_virtual_keyboard_event in Hok. destruct_and?.
  unfold freerds_read_virtual_keyboard_event, wire_virtual_keyboard_event,
      recv_virtual_keyboard_event. codec_read_tac b.
Qed.

Lemma safe_read_virtual_keyboard_event {W : WStream} {L : WStreamLaws W} msg : safe 0
    (freerds_read_virtual_keyboard_event msg).
Proof. unfold freerds_read_virtual_keyboard_event. safe_step. Qed.
End VirtualKeyboardEvent.

Module UnicodeKeyboardEvent.
Record RDS_MSG_UNICODE_KEYBOARD_EVENT := mk {
  flags : Z  (* UINT32 *);
  code : Z  (* UINT32 *)
}.

Section Code.
Context {W : WStream}.

Definition freerds_read_unicode_keyboard_event (msg : MSG RDS_MSG_UNICODE_KEYBOARD_EVENT) : SM (Z
    * MSG RDS_MSG_UNICODE_KEYBOARD_EVENT) :=
  r ← get_remaining;
  if r <? 8 then mret (-1, msg) else
  flags' ← Stream_Read_UINT32;
  code' ← Stream_Read_UINT32;
  mret (0, set_body (mk flags' code') msg).

Definition freerds_write_unicode_keyboard_event (s : option wStream) (msg : MSG
    RDS_MSG_UNICODE_KEYBOARD_EVENT) :
    option ((Z * MSG RDS_MSG_UNICODE_KEYBOARD_EVENT) * option wStream) :=
  let msg := set_msgFlags 0 msg in
  '(n, _) ← freerds_write_common_header None (common msg);
  let msg := set_length (n + 8) msg in
  on_stream s (i32 (msg_length (common msg)), msg)
   (write_header msg;;
    Stream_Write_UINT32 (flags (body msg));;
    Stream_Write_UINT32 (code (body msg));;
    mret (0, msg)).
End Code.

Definition ok_unicode_keyboard_event (b : RDS_MSG_UNICODE_KEYBOARD_EVENT) : Prop :=
  is_u32 (flags b) /\ is_u32 (code b).

Definition wire_unicode_keyboard_event (b : RDS_MSG_UNICODE_KEYBOARD_EVENT) : list Z :=
  le32 (flags b) ++ le32 (code b).

Definition recv_unicode_keyboard_event (b0 b : RDS_MSG_UNICODE_KEYBOARD_EVENT) :
    RDS_MSG_UNICODE_KEYBOARD_EVENT :=
  b.

#[global] Program Instance encoder_unicode_keyboard_event {W : WStream} {L : WStreamLaws W} :
  Encoder freerds_write_unicode_keyboard_event := {
  ok := ok_unicode_keyboard_event;
  norm b := b;
  wire := wire_unicode_keyboard_event;
  wrect := fun _ => None;
}.
Next Obligation. codec_size_tac. Qed.
Next Obligation. codec_write_tac. Qed.

#[global] Program Instance codec_unicode_keyboard_event {W : WStream} {L : WStreamLaws W} :
  Codec freerds_read_unicode_keyboard_event freerds_write_unicode_keyboard_event := {
  ready _ := True;
  recv := recv_unicode_keyboard_event;
}.
Next Obligation.
  intros W L c b0 b Hok _.
  cbn [ok norm wire encoder_unicode_keyboard_event] in *. unfold ok_unicode_keyboard_event in Hok. destruct_and?.
  unfold freerds_read_unicode_keyboard_event, wire_unicode_keyboard_event,
      recv_unicode_keyboard_event. codec_read_tac b.
Qed.

Lemma safe_read_unicode_keyboard_event {W : WStream} {L : WStreamLaws W} msg : safe 0
    (freerds_read_unicode_keyboard_event msg).
Proof. unfold freerds_read_unicode_keyboard_event. safe_step. Qed.
End UnicodeKeyboardEvent.

Module MouseEvent.
Record RDS_MSG_MOUSE_EVENT := mk {
  flags : Z  (* UINT32 *);
  x : Z  (* UINT32 *);
  y : Z  (* UINT32 *)
}.

Section Code.
Context {W : WStream}.

Definition freerds_read_mouse_event (msg : MSG RDS_MSG_MOUSE_EVENT) : SM (Z * MSG
    RDS_MSG_MOUSE_EVENT) :=
  r ← get_remaining;
  if r <? 12 then mret (-1, msg) else
  flags' ← Stream_Read_UINT32;
  x' ← Stream_Read_UINT32;
  y' ← Stream_Read_UINT32;
  mret (0, set_body (mk flags' x' y') msg).

Definition freerds_write_mouse_event (s : option wStream) (msg : MSG RDS_MSG_MOUSE_EVENT) :
    option ((Z * MSG RDS_MSG_MOUSE_EVENT) * option wStream) :=
  let msg := set_msgFlags 0 msg in
  '(n, _) ← freerds_write_common_header None (common msg);
  let msg := set_length (n + 12) msg in
  on_stream s (i32 (msg_length (common msg)), msg)
   (write_header msg;;
    Stream_Write_UINT32 (flags (body msg));;
    Stream_Write_UINT32 (x (body msg));;
    Stream_Write_UINT32 (y (body msg));;
    mret (0, msg)).
End Code.

Definition ok_mouse_event (b : RDS_MSG_MOUSE_EVENT) : Prop :=
  is_u32 (flags b) /\ is_u32 (x b) /\ is_u32 (y b).

Definition wire_mouse_event (b : RDS_MSG_MOUSE_EVENT) : list Z :=
  le32 (flags b) ++ le32 (x b) ++ le32 (y b).

Definition recv_mouse_event (b0 b : RDS_MSG_MOUSE_EVENT) : RDS_MSG_MOUSE_EVENT :=
  b.

#[global] Program Instance encoder_mouse_event {W : WStream} {L : WStreamLaws W} :
  Encoder freerds_write_mouse_event := {
  ok := ok_mouse_event;
  norm b := b;
  wire := wire_mouse_event;
  wrect := fun _ => None;
}.
Next Obligation. codec_size_tac. Qed.
Next Obligation. codec_write_tac. Qed.

#[global] Program Instance codec_mouse_event {W : WStream} {L : WStreamLaws W} :
  Codec freerds_read_mouse_event freerds_write_mouse_event := {
  ready _ := True;
  recv := recv_mouse_event;
}.
Next Obligation.
  intros W L c b0 b Hok _.
  cbn [ok norm wire encoder_mouse_event] in *. unfold ok_mouse_event in Hok. destruct_and?.
  unfold freerds_read_mouse_event, wire_mouse_event, recv_mouse_event. codec_read_tac b.
Qed.

Lemma safe_read_mouse_event {W : WStream} {L : WStreamLaws W} msg : safe 0
    (freerds_read_mouse_event msg).
Proof. unfold freerds_read_mouse_event. safe_step. Qed.
End MouseEvent.

Module ExtendedMouseEvent.
Record RDS_MSG_EXTENDED_MOUSE_EVENT := mk {
  flags : Z  (* UINT32 *);
  x : Z  (* UINT32 *);
  y : Z  (* UINT32 *)
}.

Section Code.
Context {W : WStream}.

Definition freerds_read_extended_mouse_event (msg : MSG RDS_MSG_EXTENDED_MOUSE_EVENT) : SM (Z *
    MSG RDS_MSG_EXTENDED_MOUSE_EVENT) :=
  r ← get_remaining;
  if r <? 12 then mret (-1, msg) else
  flags' ← Stream_Read_UINT32;
  x' ← Stream_Read_UINT32;
  y' ← Stream_Read_UINT32;
  mret (0, set_body (mk flags' x' y') msg).

Definition freerds_write_extended_mouse_event (s : option wStream) (msg : MSG
    RDS_MSG_EXTENDED_MOUSE_EVENT) :
    option ((Z * MSG RDS_MSG_EXTENDED_MOUSE_EVENT) * option wStream) :=
  let msg := set_msgFlags 0 msg in
  '(n, _) ← freerds_write_common_header None (common msg);
  let msg := set_length (n + 12) msg in
  on_stream s (i32 (msg_length (common msg)), msg)
   (write_header msg;;
    Stream_Write_UINT32 (flags (body msg));;
    Stream_Write_UINT32 (x (body msg));;
    Stream_Write_UINT32 (y (body msg));;
    mret (0, msg)).
End Code.

Definition ok_extended_mouse_event (b : RDS_MSG_EXTENDED_MOUSE_EVENT) : Prop :=
  is_u32 (flags b) /\ is_u32 (x b) /\ is_u32 (y b).

Definition wire_extended_mouse_event (b : RDS_MSG_EXTENDED_MOUSE_EVENT) : list Z :=
  le32 (flags b) ++ le32 (x b) ++ le32 (y b).

Definition recv_extended_mouse_event (b0 b : RDS_MSG_EXTENDED_MOUSE_EVENT) :
    RDS_MSG_EXTENDED_MOUSE_EVENT :=
  b.

#[global] Program Instance encoder_extended_mouse_event {W : WStream} {L : WStreamLaws W} :
  Encoder freerds_write_extended_mouse_event := {
  ok := ok_extended_mouse_event;
  norm b := b;
  wire := wire_extended_mouse_event;
  wrect := fun _ => None;
}.
Next Obligation. codec_size_tac. Qed.
Next Obligation. codec_write_tac. Qed.

#[global] Program Instance codec_extended_mouse_event {W : WStream} {L : WStreamLaws W} :
  Codec freerds_read_extended_mouse_event freerds_write_extended_mouse_event := {
  ready _ := True;
  recv := recv_extended_mouse_event;
}.
Next Obligation.
  intros W L c b0 b Hok _.
  cbn [ok norm wire encoder_extended_mouse_event] in *. unfold ok_extended_mouse_event in Hok. destruct_and?.
  unfold freerds_read_extended_mouse_event, wire_extended_mouse_event, recv_extended_mouse_event.
      codec_read_tac b.
Qed.

Lemma safe_read_extended_mouse_event {W : WStream} {L : WStreamLaws W} msg : safe 0
    (freerds_read_extended_mouse_event msg).
Proof. unfold freerds_read_extended_mouse_event. safe_step. Qed.
End ExtendedMouseEvent.

Module VBlankEvent.
Record RDS_MSG_VBLANK_EVENT := mk { }.

Section Code.
Context {W : WStream}.

Definition freerds_read_vblank_event (msg : MSG RDS_MSG_VBLANK_EVENT) : SM (Z * MSG
    RDS_MSG_VBLANK_EVENT) :=
  mret (0, msg).

Definition freerds_write_vblank_event (s : option wStream) (msg : MSG RDS_MSG_VBLANK_EVENT) :
    option ((Z * MSG RDS_MSG_VBLANK_EVENT) * option wStream) :=
  let msg := set_msgFlags 0 msg in
  '(n, _) ← freerds_write_common_header None (common msg);
  let msg := set_length (n) msg in
  on_stream s (i32 (msg_length (common msg)), msg)
   (write_header msg;;
    mret (0, msg)).
End Code.

Definition ok_vblank_event (b : RDS_MSG_VBLANK_EVENT) : Prop := True.
Definition wire_vblank_event (b : RDS_MSG_VBLANK_EVENT) : list Z := [].
Definition recv_vblank_event (b0 b : RDS_MSG_VBLANK_EVENT) : RDS_MSG_VBLANK_EVENT := b0.

#[global] Program Instance encoder_vblank_event {W : WStream} {L : WStreamLaws W} :
  Encoder freerds_write_vblank_event := {
  ok := ok_vblank_event;
  norm b := b;
  wire := wire_vblank_event;
  wrect := fun _ => None;
}.
Next Obligation. codec_size_tac. Qed.
Next Obligation. codec_write_tac. Qed.

#[global] Program Instance codec_vblank_event {W : WStream} {L : WStreamLaws W} :
  Codec freerds_read_vblank_event freerds_write_vblank_event := {
  ready _ := True;
  recv := recv_vblank_event;
}.
Next Obligation.
  intros W L c b0 b Hok _.
  cbn [ok norm wire encoder_vblank_event] in *. unfold ok_vblank_event in Hok. destruct_and?.
  unfold freerds_read_vblank_event, wire_vblank_event, recv_vblank_event. codec_read_tac b.
Qed.

Lemma safe_read_vblank_event {W : WStream} {L : WStreamLaws W} msg : safe 0
    (freerds_read_vblank_event msg).
Proof. unfold freerds_read_vblank_event. safe_step. Qed.
End VBlankEvent.

Module Capabilities.
Record RDS_MSG_CAPABILITIES := mk {
  Version : Z  (* UINT32 *);
  DesktopWidth : Z  (* UINT32 *);
  DesktopHeight : Z  (* UINT32 *);
  ColorDepth : Z  (* UINT32 *);
  KeyboardLayout : Z  (* UINT32 *);
  KeyboardType : Z  (* UINT32 *);
  KeyboardSubType : Z  (* UINT32 *)
}.

Section Code.
Context {W : WStream}.

Definition freerds_read_capabilities (msg : MSG RDS_MSG_CAPABILITIES) : SM (Z * MSG
    RDS_MSG_CAPABILITIES) :=
  r ← get_remaining;
  if r <? 28 then mret (-1, msg) else
  Version' ← Stream_Read_UINT32;
  DesktopWidth' ← Stream_Read_UINT32;
  DesktopHeight' ← Stream_Read_UINT32;
  ColorDepth' ← Stream_Read_UINT32;
  KeyboardLayout' ← Stream_Read_UINT32;
  KeyboardType' ← Stream_Read_UINT32;
  KeyboardSubType' ← Stream_Read_UINT32;
  mret (0, set_body (mk Version' DesktopWidth' DesktopHeight' ColorDepth' KeyboardLayout'
      KeyboardType' KeyboardSubType') msg).

Definition freerds_write_capabilities (s : option wStream) (msg : MSG RDS_MSG_CAPABILITIES) :
    option ((Z * MSG RDS_MSG_CAPABILITIES) * option wStream) :=
  let msg := set_msgFlags 0 msg in
  '(n, _) ← freerds_write_common_header None (common msg);
  let msg := set_length (n + 28) msg in
  on_stream s (i32 (msg_length (common msg)), msg)
   (write_header msg;;
    Stream_Write_UINT32 (Version (body msg));;
    Stream_Write_UINT32 (DesktopWidth (body msg));;
    Stream_Write_UINT32 (DesktopHeight (body msg));;
    Stream_Write_UINT32 (ColorDepth (body msg));;
    Stream_Write_UINT32 (KeyboardLayout (body msg));;
    Stream_Write_UINT32 (KeyboardType (body msg));;
    Stream_Write_UINT32 (KeyboardSubType (body msg));;
    mret (0, msg)).
End Code.

Definition ok_capabilities (b : RDS_MSG_CAPABILITIES) : Prop :=
  is_u32 (Version b) /\ is_u32 (DesktopWidth b) /\ is_u32 (DesktopHeight b) /\ is_u32 (ColorDepth
      b) /\ is_u32 (KeyboardLayout b) /\ is_u32 (KeyboardType b) /\ is_u32 (KeyboardSubType b).

Definition wire_capabilities (b : RDS_MSG_CAPABILITIES) : list Z :=
  le32 (Version b) ++ le32 (DesktopWidth b) ++ le32 (DesktopHeight b) ++ le32 (ColorDepth b) ++
      le32 (KeyboardLayout b) ++ le32 (KeyboardType b) ++ le32 (KeyboardSubType b).

Definition recv_capabilities (b0 b : RDS_MSG_CAPABILITIES) : RDS_MSG_CAPABILITIES :=
  b.

#[global] Program Instance encoder_capabilities {W : WStream} {L : WStreamLaws W} :
  Encoder freerds_write_capabilities := {
  ok := ok_capabilities;
  norm b := b;
  wire := wire_capabilities;
  wrect := fun _ => None;
}.
Next Obligation. codec_size_tac. Qed.
Next Obligation. codec_write_tac. Qed.

#[global] Program Instance codec_capabilities {W : WStream} {L : WStreamLaws W} :
  Codec freerds_read_capabilities freerds_write_capabilities := {
  ready _ := True;
  recv := recv_capabilities;
}.
Next Obligation.
  intros W L c b0 b Hok _.
  cbn [ok norm wire encoder_capabilities] in *. unfold ok_capabilities in Hok. destruct_and?.
  unfold freerds_read_capabilities, wire_capabilities, recv_capabilities. codec_read_tac b.
Qed.

Lemma safe_read_capabilities {W : WStream} {L : WStreamLaws W} msg : safe 0
    (freerds_read_capabilities msg).
Proof. unfold freerds_read_capabilities. safe_step. Qed.
End Capabilities.

Module SuppressOutput.
Record RDS_MSG_SUPPRESS_OUTPUT := mk {
  activeOutput : Z  (* UINT32 *)
}.

Section Code.
Context {W : WStream}.

Definition freerds_read_suppress_output (msg : MSG RDS_MSG_SUPPRESS_OUTPUT) : SM (Z * MSG
    RDS_MSG_SUPPRESS_OUTPUT) :=
  r ← get_remaining;
  if r <? 4 then mret (-1, msg) else
  activeOutput' ← Stream_Read_UINT32;
  mret (0, set_body (mk activeOutput') msg).

Definition freerds_write_suppress_output (s : option wStream) (msg : MSG RDS_MSG_SUPPRESS_OUTPUT)
    :
    option ((Z * MSG RDS_MSG_SUPPRESS_OUTPUT) * option wStream) :=
  let msg := set_msgFlags 0 msg in
  '(n, _) ← freerds_write_common_header None (common msg);
  let msg := set_length (n + 4) msg in
  on_stream s (i32 (msg_length (common msg)), msg)
   (write_header msg;;
    Stream_Write_UINT32 (activeOutput (body msg));;
    mret (0, msg)).
End Code.

Definition ok_suppress_output (b : RDS_MSG_SUPPRESS_OUTPUT) : Prop :=
  is_u32 (activeOutput b).

Definition wire_suppress_output (b : RDS_MSG_SUPPRESS_OUTPUT) : list Z :=
  le32 (activeOutput b).

Definition recv_suppress_output (b0 b : RDS_MSG_SUPPRESS_OUTPUT) : RDS_MSG_SUPPRESS_OUTPUT :=
  b.

#[global] Program Instance encoder_suppress_output {W : WStream} {L : WStreamLaws W} :
  Encoder freerds_write_suppress_output := {
  ok := ok_suppress_output;
  norm b := b;
  wire := wire_suppress_output;
  wrect := fun _ => None;
}.
Next Obligation. codec_size_tac. Qed.
Next Obligation. codec_write_tac. Qed.

#[global] Program Instance codec_suppress_output {W : WStream} {L : WStreamLaws W} :
  Codec freerds_read_suppress_output freerds_write_suppress_output := {
  ready _ := True;
  recv := recv_suppress_output;
}.
Next Obligation.
  intros W L c b0 b Hok _.
  cbn [ok norm wire encoder_suppress_output] in *. unfold ok_suppress_output in Hok. destruct_and?.
  unfold freerds_read_suppress_output, wire_suppress_output, recv_suppress_output. codec_read_tac
      b.
Qed.

Lemma safe_read_suppress_output {W : WStream} {L : WStreamLaws W} msg : safe 0
    (freerds_read_suppress_output msg).
Proof. unfold freerds_read_suppress_output. safe_step. Qed.
End SuppressOutput.

#[export] Hint Resolve SynchronizeKeyboardEvent.safe_read_synchronize_keyboard_event
  ScancodeKeyboardEvent.safe_read_scancode_keyboard_event
  VirtualKeyboardEvent.safe_read_virtual_keyboard_event
  UnicodeKeyboardEvent.safe_read_unicode_keyboard_event
  MouseEvent.safe_read_mouse_event
  ExtendedMouseEvent.safe_read_extended_mouse_event
  VBlankEvent.safe_read_vblank_event
  Capabilities.safe_read_capabilities
  SuppressOutput.safe_read_suppress_output : rds_safe.
