(* ===== verification/ServerMsg.v ===== *)
(** * Server messages of fixed layout

    The drawing, surface, pointer and session messages of
    freerds/backend/protocol.c whose wire layout does not depend on their
    contents: one module per message with its struct, its read and write
    function and its codec. *)

From S2P Require Import Prelude WStream Message.

Module BeginUpdate.
Record RDS_MSG_BEGIN_UPDATE := mk { }.

Section Code.
Context {W : WStream}.

Definition freerds_read_begin_update (msg : MSG RDS_MSG_BEGIN_UPDATE) : SM (Z * MSG
    RDS_MSG_BEGIN_UPDATE) :=
  mret (0, msg).

Definition freerds_write_begin_update (s : option wStream) (msg : MSG RDS_MSG_BEGIN_UPDATE) :
    option ((Z * MSG RDS_MSG_BEGIN_UPDATE) * option wStream) :=
  let msg := set_msgFlags 0 msg in
  '(n, _) ← freerds_write_common_header None (common msg);
  let msg := set_length (n) msg in
  on_stream s (i32 (msg_length (common msg)), msg)
   (write_header msg;;
    mret (0, msg)).
End Code.

Definition ok_begin_update (b : RDS_MSG_BEGIN_UPDATE) : Prop := True.
Definition wire_begin_update (b : RDS_MSG_BEGIN_UPDATE) : list Z := [].
Definition recv_begin_update (b0 b : RDS_MSG_BEGIN_UPDATE) : RDS_MSG_BEGIN_UPDATE := b0.

#[global] Program Instance encoder_begin_update {W : WStream} {L : WStreamLaws W} :
  Encoder freerds_write_begin_update := {
  ok := ok_begin_update;
  norm b := b;
  wire := wire_begin_update;
  wrect := fun _ => None;
}.
Next Obligation. codec_size_tac. Qed.
Next Obligation. codec_write_tac. Qed.

#[global] Program Instance codec_begin_update {W : WStream} {L : WStreamLaws W} :
  Codec freerds_read_begin_update freerds_write_begin_update := {
  ready _ := True;
  recv := recv_begin_update;
}.
Next Obligation.
  intros W L c b0 b Hok _.
  cbn [ok norm wire encoder_begin_update] in *. unfold ok_begin_update in Hok. destruct_and?.
  unfold freerds_read_begin_update, wire_begin_update, recv_begin_update. codec_read_tac b.
Qed.

Lemma safe_read_begin_update {W : WStream} {L : WStreamLaws W} msg : safe 0
    (freerds_read_begin_update msg).
Proof. unfold freerds_read_begin_update. safe_step. Qed.
End BeginUpdate.

Module EndUpdate.
Record RDS_MSG_END_UPDATE := mk { }.

Section Code.
Context {W : WStream}.

Definition freerds_read_end_update (msg : MSG RDS_MSG_END_UPDATE) : SM (Z * MSG
    RDS_MSG_END_UPDATE) :=
  mret (0, msg).

Definition freerds_write_end_update (s : option wStream) (msg : MSG RDS_MSG_END_UPDATE) :
    option ((Z * MSG RDS_MSG_END_UPDATE) * option wStream) :=
  let msg := set_msgFlags 0 msg in
  '(n, _) ← freerds_write_common_header None (common msg);
  let msg := set_length (n) msg in
  on_stream s (i32 (msg_length (common msg)), msg)
   (write_header msg;;
    mret (0, msg)).
End Code.

Definition ok_end_update (b : RDS_MSG_END_UPDATE) : Prop := True.
Definition wire_end_update (b : RDS_MSG_END_UPDATE) : list Z := [].
Definition recv_end_update (b0 b : RDS_MSG_END_UPDATE) : RDS_MSG_END_UPDATE := b0.

#[global] Program Instance encoder_end_update {W : WStream} {L : WStreamLaws W} :
  Encoder freerds_write_end_update := {
  ok := ok_end_update;
  norm b := b;
  wire := wire_end_update;
  wrect := fun _ => None;
}.
Next Obligation. codec_size_tac. Qed.
Next Obligation. codec_write_tac. Qed.

#[global] Program Instance codec_end_update {W : WStream} {L : WStreamLaws W} :
  Codec freerds_read_end_update freerds_write_end_update := {
  ready _ := True;
  recv := recv_end_update;
}.
Next Obligation.
  intros W L c b0 b Hok _.
  cbn [ok norm wire encoder_end_update] in *. unfold ok_end_update in Hok. destruct_and?.
  unfold freerds_read_end_update, wire_end_update, recv_end_update. codec_read_tac b.
Qed.

Lemma safe_read_end_update {W : WStream} {L : WStreamLaws W} msg : safe 0 (freerds_read_end_update
    msg).
Proof. unfold freerds_read_end_update. safe_step. Qed.
End EndUpdate.

Module SetClippingRegion.
Record RDS_MSG_SET_CLIPPING_REGION := mk {
  bNullRegion : Z  (* BOOL *);
  nLeftRect : Z  (* INT32 *);
  nTopRect : Z  (* INT32 *);
  nWidth : Z  (* INT32 *);
  nHeight : Z  (* INT32 *)
}.

Section Code.
Context {W : WStream}.

Definition freerds_read_set_clipping_region (msg : MSG RDS_MSG_SET_CLIPPING_REGION) : SM (Z * MSG
    RDS_MSG_SET_CLIPPING_REGION) :=
  r ← get_remaining;
  if r <? 10 then mret (-1, msg) else
  bNullRegion' ← Stream_Read_UINT16;
  nLeftRect' ← Stream_Read_UINT16;
  nTopRect' ← Stream_Read_UINT16;
  nWidth' ← Stream_Read_UINT16;
  nHeight' ← Stream_Read_UINT16;
  mret (0, set_body (mk (i32 bNullRegion') (i32 nLeftRect') (i32 nTopRect') (i32 nWidth') (i32
      nHeight')) msg).

Definition freerds_write_set_clipping_region (s : option wStream) (msg : MSG
    RDS_MSG_SET_CLIPPING_REGION) :
    option ((Z * MSG RDS_MSG_SET_CLIPPING_REGION) * option wStream) :=
  let msg := set_msgFlags 0 msg in
  '(n, _) ← freerds_write_common_header None (common msg);
  let msg := set_length (n + 10) msg in
  on_stream s (i32 (msg_length (common msg)), msg)
   (write_header msg;;
    Stream_Write_UINT16 (bNullRegion (body msg));;
    Stream_Write_UINT16 (nLeftRect (body msg));;
    Stream_Write_UINT16 (nTopRect (body msg));;
    Stream_Write_UINT16 (nWidth (body msg));;
    Stream_Write_UINT16 (nHeight (body msg));;
    mret (0, msg)).
End Code.

Definition ok_set_clipping_region (b : RDS_MSG_SET_CLIPPING_REGION) : Prop :=
  is_u16 (bNullRegion b) /\ is_u16 (nLeftRect b) /\ is_u16 (nTopRect b) /\ is_u16 (nWidth b) /\
      is_u16 (nHeight b).

Definition wire_set_clipping_region (b : RDS_MSG_SET_CLIPPING_REGION) : list Z :=
  le16 (bNullRegion b) ++ le16 (nLeftRect b) ++ le16 (nTopRect b) ++ le16 (nWidth b) ++ le16
      (nHeight b).

Definition recv_set_clipping_region (b0 b : RDS_MSG_SET_CLIPPING_REGION) :
    RDS_MSG_SET_CLIPPING_REGION :=
  b.

#[global] Program Instance encoder_set_clipping_region {W : WStream} {L : WStreamLaws W} :
  Encoder freerds_write_set_clipping_region := {
  ok := ok_set_clipping_region;
  norm b := b;
  wire := wire_set_clipping_region;
  wrect := fun _ => None;
}.
Next Obligation. codec_size_tac. Qed.
Next Obligation. codec_write_tac. Qed.

#[global] Program Instance codec_set_clipping_region {W : WStream} {L : WStreamLaws W} :
  Codec freerds_read_set_clipping_region freerds_write_set_clipping_region := {
  ready _ := True;
  recv := recv_set_clipping_region;
}.
Next Obligation.
  intros W L c b0 b Hok _.
  cbn [ok norm wire encoder_set_clipping_region] in *. unfold ok_set_clipping_region in Hok. destruct_and?.
  unfold freerds_read_set_clipping_region, wire_set_clipping_region, recv_set_clipping_region.
      codec_read_tac b.
Qed.

Lemma safe_read_set_clipping_region {W : WStream} {L : WStreamLaws W} msg : safe 0
    (freerds_read_set_clipping_region msg).
Proof. unfold freerds_read_set_clipping_region. safe_step. Qed.
End SetClippingRegion.

Module OpaqueRect.
Record RDS_MSG_OPAQUE_RECT := mk {
  nLeftRect : Z  (* INT32 *);
  nTopRect : Z  (* INT32 *);
  nWidth : Z  (* INT32 *);
  nHeight : Z  (* INT32 *);
  color : Z  (* UINT32 *)
}.

Section Code.
Context {W : WStream}.

Definition freerds_read_opaque_rect (msg : MSG RDS_MSG_OPAQUE_RECT) : SM (Z * MSG
    RDS_MSG_OPAQUE_RECT) :=
  r ← get_remaining;
  if r <? 12 then mret (-1, msg) else
  nLeftRect' ← Stream_Read_UINT16;
  nTopRect' ← Stream_Read_UINT16;
  nWidth' ← Stream_Read_UINT16;
  nHeight' ← Stream_Read_UINT16;
  color' ← Stream_Read_UINT32;
  mret (0, set_body (mk (i32 nLeftRect') (i32 nTopRect') (i32 nWidth') (i32 nHeight') color')
      msg).

Definition freerds_write_opaque_rect (s : option wStream) (msg : MSG RDS_MSG_OPAQUE_RECT) :
    option ((Z * MSG RDS_MSG_OPAQUE_RECT) * option wStream) :=
  let msg := set_msgFlags RDS_MSG_FLAG_RECT msg in
  '(n, _) ← freerds_write_common_header None (common msg);
  let msg := set_length (n + 12) msg in
  on_stream s (i32 (msg_length (common msg)), msg)
   (let msg := set_rect (nLeftRect (body msg)) (nTopRect (body msg)) (nWidth (body msg)) (nHeight
       (body msg)) msg in
    write_header msg;;
    Stream_Write_UINT16 (nLeftRect (body msg));;
    Stream_Write_UINT16 (nTopRect (body msg));;
    Stream_Write_UINT16 (nWidth (body msg));;
    Stream_Write_UINT16 (nHeight (body msg));;
    Stream_Write_UINT32 (color (body msg));;
    mret (0, msg)).
End Code.

Definition ok_opaque_rect (b : RDS_MSG_OPAQUE_RECT) : Prop :=
  is_u16 (nLeftRect b) /\ is_u16 (nTopRect b) /\ is_u16 (nWidth b) /\ is_u16 (nHeight b) /\ is_u32
      (color b).

Definition wire_opaque_rect (b : RDS_MSG_OPAQUE_RECT) : list Z :=
  le16 (nLeftRect b) ++ le16 (nTopRect b) ++ le16 (nWidth b) ++ le16 (nHeight b) ++ le32 (color
      b).

Definition recv_opaque_rect (b0 b : RDS_MSG_OPAQUE_RECT) : RDS_MSG_OPAQUE_RECT :=
  b.

#[global] Program Instance encoder_opaque_rect {W : WStream} {L : WStreamLaws W} :
  Encoder freerds_write_opaque_rect := {
  ok := ok_opaque_rect;
  norm b := b;
  wire := wire_opaque_rect;
  wrect := fun b => Some (mk_rect (i32 (nLeftRect b)) (i32 (nTopRect b)) (u32 (nWidth b)) (u32
      (nHeight b)));
}.
Next Obligation. codec_size_tac. Qed.
Next Obligation. codec_write_tac. Qed.

#[global] Program Instance codec_opaque_rect {W : WStream} {L : WStreamLaws W} :
  Codec freerds_read_opaque_rect freerds_write_opaque_rect := {
  ready _ := True;
  recv := recv_opaque_rect;
}.
Next Obligation.
  intros W L c b0 b Hok _.
  cbn [ok norm wire encoder_opaque_rect] in *. unfold ok_opaque_rect in Hok. destruct_and?.
  unfold freerds_read_opaque_rect, wire_opaque_rect, recv_opaque_rect. codec_read_tac b.
Qed.

Lemma safe_read_opaque_rect {W : WStream} {L : WStreamLaws W} msg : safe 0
    (freerds_read_opaque_rect msg).
Proof. unfold freerds_read_opaque_rect. safe_step. Qed.
End OpaqueRect.

Module ScreenBlt.
(** [bRop] is not on the wire: the receiver keeps what its struct held. *)
Record RDS_MSG_SCREEN_BLT := mk {
  nLeftRect : Z  (* INT32 *);
  nTopRect : Z  (* INT32 *);
  nWidth : Z  (* INT32 *);
  nHeight : Z  (* INT32 *);
  bRop : Z  (* UINT32 *);
  nXSrc : Z  (* INT32 *);
  nYSrc : Z  (* INT32 *)
}.

Section Code.
Context {W : WStream}.

Definition freerds_read_screen_blt (msg : MSG RDS_MSG_SCREEN_BLT) : SM (Z * MSG
    RDS_MSG_SCREEN_BLT) :=
  r ← get_remaining;
  if r <? 12 then mret (-1, msg) else
  nLeftRect' ← Stream_Read_UINT16;
  nTopRect' ← Stream_Read_UINT16;
  nWidth' ← Stream_Read_UINT16;
  nHeight' ← Stream_Read_UINT16;
  nXSrc' ← Stream_Read_UINT16;
  nYSrc' ← Stream_Read_UINT16;
  mret (0, set_body (mk (i32 nLeftRect') (i32 nTopRect') (i32 nWidth') (i32 nHeight') (bRop (body
      msg)) (i32 nXSrc') (i32 nYSrc')) msg).

Definition freerds_write_screen_blt (s : option wStream) (msg : MSG RDS_MSG_SCREEN_BLT) :
    option ((Z * MSG RDS_MSG_SCREEN_BLT) * option wStream) :=
  let msg := set_msgFlags RDS_MSG_FLAG_RECT msg in
  '(n, _) ← freerds_write_common_header None (common msg);
  let msg := set_length (n + 12) msg in
  on_stream s (i32 (msg_length (common msg)), msg)
   (let msg := set_rect (nLeftRect (body msg)) (nTopRect (body msg)) (nWidth (body msg)) (nHeight
       (body msg)) msg in
    write_header msg;;
    Stream_Write_UINT16 (nLeftRect (body msg));;
    Stream_Write_UINT16 (nTopRect (body msg));;
    Stream_Write_UINT16 (nWidth (body msg));;
    Stream_Write_UINT16 (nHeight (body msg));;
    Stream_Write_UINT16 (nXSrc (body msg));;
    Stream_Write_UINT16 (nYSrc (body msg));;
    mret (0, msg)).
End Code.

Definition ok_screen_blt (b : RDS_MSG_SCREEN_BLT) : Prop :=
  is_u16 (nLeftRect b) /\ is_u16 (nTopRect b) /\ is_u16 (nWidth b) /\ is_u16 (nHeight b) /\ is_u16
      (nXSrc b) /\ is_u16 (nYSrc b).

Definition wire_screen_blt (b : RDS_MSG_SCREEN_BLT) : list Z :=
  le16 (nLeftRect b) ++ le16 (nTopRect b) ++ le16 (nWidth b) ++ le16 (nHeight b) ++ le16 (nXSrc b)
      ++ le16 (nYSrc b).

Definition recv_screen_blt (b0 b : RDS_MSG_SCREEN_BLT) : RDS_MSG_SCREEN_BLT :=
  mk (nLeftRect b) (nTopRect b) (nWidth b) (nHeight b) (bRop b0) (nXSrc b) (nYSrc b).

#[global] Program Instance encoder_screen_blt {W : WStream} {L : WStreamLaws W} :
  Encoder freerds_write_screen_blt := {
  ok := ok_screen_blt;
  norm b := b;
  wire := wire_screen_blt;
  wrect := fun b => Some (mk_rect (i32 (nLeftRect b)) (i32 (nTopRect b)) (u32 (nWidth b)) (u32
      (nHeight b)));
}.
Next Obligation. codec_size_tac. Qed.
Next Obligation. codec_write_tac. Qed.

#[global] Program Instance codec_screen_blt {W : WStream} {L : WStreamLaws W} :
  Codec freerds_read_screen_blt freerds_write_screen_blt := {
  ready _ := True;
  recv := recv_screen_blt;
}.
Next Obligation.
  intros W L c b0 b Hok _.
  cbn [ok norm wire encoder_screen_blt] in *. unfold ok_screen_blt in Hok. destruct_and?.
  unfold freerds_read_screen_blt, wire_screen_blt, recv_screen_blt. codec_read_tac b.
Qed.

Lemma safe_read_screen_blt {W : WStream} {L : WStreamLaws W} msg : safe 0 (freerds_read_screen_blt
    msg).
Proof. unfold freerds_read_screen_blt. safe_step. Qed.
End ScreenBlt.

Module DstBlt.
Record RDS_MSG_DSTBLT := mk {
  nLeftRect : Z  (* INT32 *);
  nTopRect : Z  (* INT32 *);
  nWidth : Z  (* INT32 *);
  nHeight : Z  (* INT32 *);
  bRop : Z  (* UINT32 *)
}.

Section Code.
Context {W : WStream}.

Definition freerds_read_dstblt (msg : MSG RDS_MSG_DSTBLT) : SM (Z * MSG RDS_MSG_DSTBLT) :=
  r ← get_remaining;
  if r <? 20 then mret (-1, msg) else
  nLeftRect' ← Stream_Read_UINT32;
  nTopRect' ← Stream_Read_UINT32;
  nWidth' ← Stream_Read_UINT32;
  nHeight' ← Stream_Read_UINT32;
  bRop' ← Stream_Read_UINT32;
  mret (0, set_body (mk (i32 nLeftRect') (i32 nTopRect') (i32 nWidth') (i32 nHeight') bRop') msg).

Definition freerds_write_dstblt (s : option wStream) (msg : MSG RDS_MSG_DSTBLT) :
    option ((Z * MSG RDS_MSG_DSTBLT) * option wStream) :=
  let msg := set_msgFlags RDS_MSG_FLAG_RECT msg in
  '(n, _) ← freerds_write_common_header None (common msg);
  let msg := set_length (n + 20) msg in
  on_stream s (i32 (msg_length (common msg)), msg)
   (let msg := set_rect (nLeftRect (body msg)) (nTopRect (body msg)) (nWidth (body msg)) (nHeight
       (body msg)) msg in
    write_header msg;;
    Stream_Write_UINT32 (nLeftRect (body msg));;
    Stream_Write_UINT32 (nTopRect (body msg));;
    Stream_Write_UINT32 (nWidth (body msg));;
    Stream_Write_UINT32 (nHeight (body msg));;
    Stream_Write_UINT32 (bRop (body msg));;
    mret (0, msg)).
End Code.

Definition ok_dstblt (b : RDS_MSG_DSTBLT) : Prop :=
  is_i32 (nLeftRect b) /\ is_i32 (nTopRect b) /\ is_i32 (nWidth b) /\ is_i32 (nHeight b) /\ is_u32
      (bRop b).

Definition wire_dstblt (b : RDS_MSG_DSTBLT) : list Z :=
  le32 (nLeftRect b) ++ le32 (nTopRect b) ++ le32 (nWidth b) ++ le32 (nHeight b) ++ le32 (bRop b).

Definition recv_dstblt (b0 b : RDS_MSG_DSTBLT) : RDS_MSG_DSTBLT :=
  b.

#[global] Program Instance encoder_dstblt {W : WStream} {L : WStreamLaws W} :
  Encoder freerds_write_dstblt := {
  ok := ok_dstblt;
  norm b := b;
  wire := wire_dstblt;
  wrect := fun b => Some (mk_rect (i32 (nLeftRect b)) (i32 (nTopRect b)) (u32 (nWidth b)) (u32
      (nHeight b)));
}.
Next Obligation. codec_size_tac. Qed.
Next Obligation. codec_write_tac. Qed.

#[global] Program Instance codec_dstblt {W : WStream} {L : WStreamLaws W} :
  Codec freerds_read_dstblt freerds_write_dstblt := {
  ready _ := True;
  recv := recv_dstblt;
}.
Next Obligation.
  intros W L c b0 b Hok _.
  cbn [ok norm wire encoder_dstblt] in *. unfold ok_dstblt in Hok. destruct_and?.
  unfold freerds_read_dstblt, wire_dstblt, recv_dstblt. codec_read_tac b.
Qed.

Lemma safe_read_dstblt {W : WStream} {L : WStreamLaws W} msg : safe 0 (freerds_read_dstblt msg).
Proof. unfold freerds_read_dstblt. safe_step. Qed.
End DstBlt.

Module LineTo.
(** [backMode] and [backColor] are not on the wire. *)
Record RDS_MSG_LINE_TO := mk {
  backMode : Z  (* UINT32 *);
  nXStart : Z  (* INT32 *);
  nYStart : Z  (* INT32 *);
  nXEnd : Z  (* INT32 *);
  nYEnd : Z  (* INT32 *);
  backColor : Z  (* UINT32 *);
  bRop2 : Z  (* UINT32 *);
  penStyle : Z  (* UINT32 *);
  penWidth : Z  (* UINT32 *);
  penColor : Z  (* UINT32 *)
}.

Section Code.
Context {W : WStream}.

Definition freerds_read_line_to (msg : MSG RDS_MSG_LINE_TO) : SM (Z * MSG RDS_MSG_LINE_TO) :=
  r ← get_remaining;
  if r <? 8 * 4 then mret (-1, msg) else
  nXStart' ← Stream_Read_UINT32;
  nYStart' ← Stream_Read_UINT32;
  nXEnd' ← Stream_Read_UINT32;
  nYEnd' ← Stream_Read_UINT32;
  bRop2' ← Stream_Read_UINT32;
  penStyle' ← Stream_Read_UINT32;
  penWidth' ← Stream_Read_UINT32;
  penColor' ← Stream_Read_UINT32;
  mret (0, set_body (mk (backMode (body msg)) (i32 nXStart') (i32 nYStart') (i32 nXEnd') (i32
      nYEnd') (backColor (body msg)) bRop2' penStyle' penWidth' penColor') msg).

Definition freerds_write_line_to (s : option wStream) (msg : MSG RDS_MSG_LINE_TO) :
    option ((Z * MSG RDS_MSG_LINE_TO) * option wStream) :=
  let msg := set_msgFlags 0 msg in
  '(n, _) ← freerds_write_common_header None (common msg);
  let msg := set_length (n + 32) msg in
  on_stream s (i32 (msg_length (common msg)), msg)
   (write_header msg;;
    Stream_Write_UINT32 (nXStart (body msg));;
    Stream_Write_UINT32 (nYStart (body msg));;
    Stream_Write_UINT32 (nXEnd (body msg));;
    Stream_Write_UINT32 (nYEnd (body msg));;
    Stream_Write_UINT32 (bRop2 (body msg));;
    Stream_Write_UINT32 (penStyle (body msg));;
    Stream_Write_UINT32 (penWidth (body msg));;
    Stream_Write_UINT32 (penColor (body msg));;
    mret (0, msg)).
End Code.

Definition ok_line_to (b : RDS_MSG_LINE_TO) : Prop :=
  is_i32 (nXStart b) /\ is_i32 (nYStart b) /\ is_i32 (nXEnd b) /\ is_i32 (nYEnd b) /\ is_u32
      (bRop2 b) /\ is_u32 (penStyle b) /\ is_u32 (penWidth b) /\ is_u32 (penColor b).

Definition wire_line_to (b : RDS_MSG_LINE_TO) : list Z :=
  le32 (nXStart b) ++ le32 (nYStart b) ++ le32 (nXEnd b) ++ le32 (nYEnd b) ++ le32 (bRop2 b) ++
      le32 (penStyle b) ++ le32 (penWidth b) ++ le32 (penColor b).

Definition recv_line_to (b0 b : RDS_MSG_LINE_TO) : RDS_MSG_LINE_TO :=
  mk (backMode b0) (nXStart b) (nYStart b) (nXEnd b) (nYEnd b) (backColor b0) (bRop2 b) (penStyle
      b) (penWidth b) (penColor b).

#[global] Program Instance encoder_line_to {W : WStream} {L : WStreamLaws W} :
  Encoder freerds_write_line_to := {
  ok := ok_line_to;
  norm b := b;
  wire := wire_line_to;
  wrect := fun _ => None;
}.
Next Obligation. codec_size_tac. Qed.
Next Obligation. codec_write_tac. Qed.

#[global] Program Instance codec_line_to {W : WStream} {L : WStreamLaws W} :
  Codec freerds_read_line_to freerds_write_line_to := {
  ready _ := True;
  recv := recv_line_to;
}.
Next Obligation.
  intros W L c b0 b Hok _.
  cbn [ok norm wire encoder_line_to] in *. unfold ok_line_to in Hok. destruct_and?.
  unfold freerds_read_line_to, wire_line_to, recv_line_to. codec_read_tac b.
Qed.

Lemma safe_read_line_to {W : WStream} {L : WStreamLaws W} msg : safe 0 (freerds_read_line_to msg).
Proof. unfold freerds_read_line_to. safe_step. Qed.
End LineTo.

Module CreateOffscreenSurface.
Record RDS_MSG_CREATE_OFFSCREEN_SURFACE := mk {
  cacheIndex : Z  (* UINT32 *);
  nWidth : Z  (* UINT32 *);
  nHeight : Z  (* UINT32 *)
}.

Section Code.
Context {W : WStream}.

Definition freerds_read_create_offscreen_surface (msg : MSG RDS_MSG_CREATE_OFFSCREEN_SURFACE) : SM
    (Z * MSG RDS_MSG_CREATE_OFFSCREEN_SURFACE) :=
  r ← get_remaining;
  if r <? 8 then mret (-1, msg) else
  cacheIndex' ← Stream_Read_UINT32;
  nWidth' ← Stream_Read_UINT16;
  nHeight' ← Stream_Read_UINT16;
  mret (0, set_body (mk cacheIndex' nWidth' nHeight') msg).

Definition freerds_write_create_offscreen_surface (s : option wStream) (msg : MSG
    RDS_MSG_CREATE_OFFSCREEN_SURFACE) :
    option ((Z * MSG RDS_MSG_CREATE_OFFSCREEN_SURFACE) * option wStream) :=
  let msg := set_msgFlags 0 msg in
  '(n, _) ← freerds_write_common_header None (common msg);
  let msg := set_length (n + 8) msg in
  on_stream s (i32 (msg_length (common msg)), msg)
   (write_header msg;;
    Stream_Write_UINT32 (cacheIndex (body msg));;
    Stream_Write_UINT16 (nWidth (body msg));;
    Stream_Write_UINT16 (nHeight (body msg));;
    mret (0, msg)).
End Code.

Definition ok_create_offscreen_surface (b : RDS_MSG_CREATE_OFFSCREEN_SURFACE) : Prop :=
  is_u32 (cacheIndex b) /\ is_u16 (nWidth b) /\ is_u16 (nHeight b).

Definition wire_create_offscreen_surface (b : RDS_MSG_CREATE_OFFSCREEN_SURFACE) : list Z :=
  le32 (cacheIndex b) ++ le16 (nWidth b) ++ le16 (nHeight b).

Definition recv_create_offscreen_surface (b0 b : RDS_MSG_CREATE_OFFSCREEN_SURFACE) :
    RDS_MSG_CREATE_OFFSCREEN_SURFACE :=
  b.

#[global] Program Instance encoder_create_offscreen_surface {W : WStream} {L : WStreamLaws W} :
  Encoder freerds_write_create_offscreen_surface := {
  ok := ok_create_offscreen_surface;
  norm b := b;
  wire := wire_create_offscreen_surface;
  wrect := fun _ => None;
}.
Next Obligation. codec_size_tac. Qed.
Next Obligation. codec_write_tac. Qed.

#[global] Program Instance codec_create_offscreen_surface {W : WStream} {L : WStreamLaws W} :
  Codec freerds_read_create_offscreen_surface freerds_write_create_offscreen_surface := {
  ready _ := True;
  recv := recv_create_offscreen_surface;
}.
Next Obligation.
  intros W L c b0 b Hok _.
  cbn [ok norm wire encoder_create_offscreen_surface] in *. unfold ok_create_offscreen_surface in Hok. destruct_and?.
  unfold freerds_read_create_offscreen_surface, wire_create_offscreen_surface,
      recv_create_offscreen_surface. codec_read_tac b.
Qed.

Lemma safe_read_create_offscreen_surface {W : WStream} {L : WStreamLaws W} msg : safe 0
    (freerds_read_create_offscreen_surface msg).
Proof. unfold freerds_read_create_offscreen_surface. safe_step. Qed.
End CreateOffscreenSurface.

Module SwitchOffscreenSurface.
Record RDS_MSG_SWITCH_OFFSCREEN_SURFACE := mk {
  cacheIndex : Z  (* UINT32 *)
}.

Section Code.
Context {W : WStream}.

Definition freerds_read_switch_offscreen_surface (msg : MSG RDS_MSG_SWITCH_OFFSCREEN_SURFACE) : SM
    (Z * MSG RDS_MSG_SWITCH_OFFSCREEN_SURFACE) :=
  r ← get_remaining;
  if r <? 4 then mret (-1, msg) else
  cacheIndex' ← Stream_Read_UINT32;
  mret (0, set_body (mk cacheIndex') msg).

Definition freerds_write_switch_offscreen_surface (s : option wStream) (msg : MSG
    RDS_MSG_SWITCH_OFFSCREEN_SURFACE) :
    option ((Z * MSG RDS_MSG_SWITCH_OFFSCREEN_SURFACE) * option wStream) :=
  let msg := set_msgFlags 0 msg in
  '(n, _) ← freerds_write_common_header None (common msg);
  let msg := set_length (n + 4) msg in
  on_stream s (i32 (msg_length (common msg)), msg)
   (write_header msg;;
    Stream_Write_UINT32 (cacheIndex (body msg));;
    mret (0, msg)).
End Code.

Definition ok_switch_offscreen_surface (b : RDS_MSG_SWITCH_OFFSCREEN_SURFACE) : Prop :=
  is_u32 (cacheIndex b).

Definition wire_switch_offscreen_surface (b : RDS_MSG_SWITCH_OFFSCREEN_SURFACE) : list Z :=
  le32 (cacheIndex b).

Definition recv_switch_offscreen_surface (b0 b : RDS_MSG_SWITCH_OFFSCREEN_SURFACE) :
    RDS_MSG_SWITCH_OFFSCREEN_SURFACE :=
  b.

#[global] Program Instance encoder_switch_offscreen_surface {W : WStream} {L : WStreamLaws W} :
  Encoder freerds_write_switch_offscreen_surface := {
  ok := ok_switch_offscreen_surface;
  norm b := b;
  wire := wire_switch_offscreen_surface;
  wrect := fun _ => None;
}.
Next Obligation. codec_size_tac. Qed.
Next Obligation. codec_write_tac. Qed.

#[global] Program Instance codec_switch_offscreen_surface {W : WStream} {L : WStreamLaws W} :
  Codec freerds_read_switch_offscreen_surface freerds_write_switch_offscreen_surface := {
  ready _ := True;
  recv := recv_switch_offscreen_surface;
}.
Next Obligation.
  intros W L c b0 b Hok _.
  cbn [ok norm wire encoder_switch_offscreen_surface] in *. unfold ok_switch_offscreen_surface in Hok. destruct_and?.
  unfold freerds_read_switch_offscreen_surface, wire_switch_offscreen_surface,
      recv_switch_offscreen_surface. codec_read_tac b.
Qed.

Lemma safe_read_switch_offscreen_surface {W : WStream} {L : WStreamLaws W} msg : safe 0
    (freerds_read_switch_offscreen_surface msg).
Proof. unfold freerds_read_switch_offscreen_surface. safe_step. Qed.
End SwitchOffscreenSurface.

Module DeleteOffscreenSurface.
Record RDS_MSG_DELETE_OFFSCREEN_SURFACE := mk {
  cacheIndex : Z  (* UINT32 *)
}.

Section Code.
Context {W : WStream}.

Definition freerds_read_delete_offscreen_surface (msg : MSG RDS_MSG_DELETE_OFFSCREEN_SURFACE) : SM
    (Z * MSG RDS_MSG_DELETE_OFFSCREEN_SURFACE) :=
  r ← get_remaining;
  if r <? 4 then mret (-1, msg) else
  cacheIndex' ← Stream_Read_UINT32;
  mret (0, set_body (mk cacheIndex') msg).

Definition freerds_write_delete_offscreen_surface (s : option wStream) (msg : MSG
    RDS_MSG_DELETE_OFFSCREEN_SURFACE) :
    option ((Z * MSG RDS_MSG_DELETE_OFFSCREEN_SURFACE) * option wStream) :=
  let msg := set_msgFlags 0 msg in
  '(n, _) ← freerds_write_common_header None (common msg);
  let msg := set_length (n + 4) msg in
  on_stream s (i32 (msg_length (common msg)), msg)
   (write_header msg;;
    Stream_Write_UINT32 (cacheIndex (body msg));;
    mret (0, msg)).
End Code.

Definition ok_delete_offscreen_surface (b : RDS_MSG_DELETE_OFFSCREEN_SURFACE) : Prop :=
  is_u32 (cacheIndex b).

Definition wire_delete_offscreen_surface (b : RDS_MSG_DELETE_OFFSCREEN_SURFACE) : list Z :=
  le32 (cacheIndex b).

Definition recv_delete_offscreen_surface (b0 b : RDS_MSG_DELETE_OFFSCREEN_SURFACE) :
    RDS_MSG_DELETE_OFFSCREEN_SURFACE :=
  b.

#[global] Program Instance encoder_delete_offscreen_surface {W : WStream} {L : WStreamLaws W} :
  Encoder freerds_write_delete_offscreen_surface := {
  ok := ok_delete_offscreen_surface;
  norm b := b;
  wire := wire_delete_offscreen_surface;
  wrect := fun _ => None;
}.
Next Obligation. codec_size_tac. Qed.
Next Obligation. codec_write_tac. Qed.

#[global] Program Instance codec_delete_offscreen_surface {W : WStream} {L : WStreamLaws W} :
  Codec freerds_read_delete_offscreen_surface freerds_write_delete_offscreen_surface := {
  ready _ := True;
  recv := recv_delete_offscreen_surface;
}.
Next Obligation.
  intros W L c b0 b Hok _.
  cbn [ok norm wire encoder_delete_offscreen_surface] in *. unfold ok_delete_offscreen_surface in Hok. destruct_and?.
  unfold freerds_read_delete_offscreen_surface, wire_delete_offscreen_surface,
      recv_delete_offscreen_surface. codec_read_tac b.
Qed.

Lemma safe_read_delete_offscreen_surface {W : WStream} {L : WStreamLaws W} msg : safe 0
    (freerds_read_delete_offscreen_surface msg).
Proof. unfold freerds_read_delete_offscreen_surface. safe_step. Qed.
End DeleteOffscreenSurface.

Module PaintOffscreenSurface.
Record RDS_MSG_PAINT_OFFSCREEN_SURFACE := mk {
  cacheIndex : Z  (* UINT32 *);
  nLeftRect : Z  (* INT32 *);
  nTopRect : Z  (* INT32 *);
  nWidth : Z  (* INT32 *);
  nHeight : Z  (* INT32 *);
  bRop : Z  (* UINT32 *);
  nXSrc : Z  (* INT32 *);
  nYSrc : Z  (* INT32 *)
}.

Section Code.
Context {W : WStream}.

Definition freerds_read_paint_offscreen_surface (msg : MSG RDS_MSG_PAINT_OFFSCREEN_SURFACE) : SM
    (Z * MSG RDS_MSG_PAINT_OFFSCREEN_SURFACE) :=
  r ← get_remaining;
  if r <? 4 * 8 then mret (-1, msg) else
  cacheIndex' ← Stream_Read_UINT32;
  nLeftRect' ← Stream_Read_UINT32;
  nTopRect' ← Stream_Read_UINT32;
  nWidth' ← Stream_Read_UINT32;
  nHeight' ← Stream_Read_UINT32;
  nXSrc' ← Stream_Read_UINT32;
  nYSrc' ← Stream_Read_UINT32;
  bRop' ← Stream_Read_UINT32;
  mret (0, set_body (mk cacheIndex' (i32 nLeftRect') (i32 nTopRect') (i32 nWidth') (i32 nHeight')
      bRop' (i32 nXSrc') (i32 nYSrc')) msg).

Definition freerds_write_paint_offscreen_surface (s : option wStream) (msg : MSG
    RDS_MSG_PAINT_OFFSCREEN_SURFACE) :
    option ((Z * MSG RDS_MSG_PAINT_OFFSCREEN_SURFACE) * option wStream) :=
  let msg := set_msgFlags 0 msg in
  '(n, _) ← freerds_write_common_header None (common msg);
  let msg := set_length (n + 32) msg in
  on_stream s (i32 (msg_length (common msg)), msg)
   (write_header msg;;
    Stream_Write_UINT32 (cacheIndex (body msg));;
    Stream_Write_UINT32 (nLeftRect (body msg));;
    Stream_Write_UINT32 (nTopRect (body msg));;
    Stream_Write_UINT32 (nWidth (body msg));;
    Stream_Write_UINT32 (nHeight (body msg));;
    Stream_Write_UINT32 (nXSrc (body msg));;
    Stream_Write_UINT32 (nYSrc (body msg));;
    Stream_Write_UINT32 (bRop (body msg));;
    mret (0, msg)).
End Code.

Definition ok_paint_offscreen_surface (b : RDS_MSG_PAINT_OFFSCREEN_SURFACE) : Prop :=
  is_u32 (cacheIndex b) /\ is_i32 (nLeftRect b) /\ is_i32 (nTopRect b) /\ is_i32 (nWidth b) /\
      is_i32 (nHeight b) /\ is_u32 (bRop b) /\ is_i32 (nXSrc b) /\ is_i32 (nYSrc b).

Definition wire_paint_offscreen_surface (b : RDS_MSG_PAINT_OFFSCREEN_SURFACE) : list Z :=
  le32 (cacheIndex b) ++ le32 (nLeftRect b) ++ le32 (nTopRect b) ++ le32 (nWidth b) ++ le32
      (nHeight b) ++ le32 (nXSrc b) ++ le32 (nYSrc b) ++ le32 (bRop b).

Definition recv_paint_offscreen_surface (b0 b : RDS_MSG_PAINT_OFFSCREEN_SURFACE) :
    RDS_MSG_PAINT_OFFSCREEN_SURFACE :=
  b.

#[global] Program Instance encoder_paint_offscreen_surface {W : WStream} {L : WStreamLaws W} :
  Encoder freerds_write_paint_offscreen_surface := {
  ok := ok_paint_offscreen_surface;
  norm b := b;
  wire := wire_paint_offscreen_surface;
  wrect := fun _ => None;
}.
Next Obligation. codec_size_tac. Qed.
Next Obligation. codec_write_tac. Qed.

#[global] Program Instance codec_paint_offscreen_surface {W : WStream} {L : WStreamLaws W} :
  Codec freerds_read_paint_offscreen_surface freerds_write_paint_offscreen_surface := {
  ready _ := True;
  recv := recv_paint_offscreen_surface;
}.
Next Obligation.
  intros W L c b0 b Hok _.
  cbn [ok norm wire encoder_paint_offscreen_surface] in *. unfold ok_paint_offscreen_surface in Hok. destruct_and?.
  unfold freerds_read_paint_offscreen_surface, wire_paint_offscreen_surface,
      recv_paint_offscreen_surface. codec_read_tac b.
Qed.

Lemma safe_read_paint_offscreen_surface {W : WStream} {L : WStreamLaws W} msg : safe 0
    (freerds_read_paint_offscreen_surface msg).
Proof. unfold freerds_read_paint_offscreen_surface. safe_step. Qed.
End PaintOffscreenSurface.

Module SetSystemPointer.
Record RDS_MSG_SET_SYSTEM_POINTER := mk {
  ptrType : Z  (* UINT32 *)
}.

Section Code.
Context {W : WStream}.

Definition freerds_read_set_system_pointer (msg : MSG RDS_MSG_SET_SYSTEM_POINTER) : SM (Z * MSG
    RDS_MSG_SET_SYSTEM_POINTER) :=
  r ← get_remaining;
  if r <? 4 then mret (-1, msg) else
  ptrType' ← Stream_Read_UINT32;
  mret (0, set_body (mk ptrType') msg).

Definition freerds_write_set_system_pointer (s : option wStream) (msg : MSG
    RDS_MSG_SET_SYSTEM_POINTER) :
    option ((Z * MSG RDS_MSG_SET_SYSTEM_POINTER) * option wStream) :=
  let msg := set_msgFlags 0 msg in
  '(n, _) ← freerds_write_common_header None (common msg);
  let msg := set_length (n + 4) msg in
  on_stream s (i32 (msg_length (common msg)), msg)
   (write_header msg;;
    Stream_Write_UINT32 (ptrType (body msg));;
    mret (0, msg)).
End Code.

Definition ok_set_system_pointer (b : RDS_MSG_SET_SYSTEM_POINTER) : Prop :=
  is_u32 (ptrType b).

Definition wire_set_system_pointer (b : RDS_MSG_SET_SYSTEM_POINTER) : list Z :=
  le32 (ptrType b).

Definition recv_set_system_pointer (b0 b : RDS_MSG_SET_SYSTEM_POINTER) :
    RDS_MSG_SET_SYSTEM_POINTER :=
  b.

#[global] Program Instance encoder_set_system_pointer {W : WStream} {L : WStreamLaws W} :
  Encoder freerds_write_set_system_pointer := {
  ok := ok_set_system_pointer;
  norm b := b;
  wire := wire_set_system_pointer;
  wrect := fun _ => None;
}.
Next Obligation. codec_size_tac. Qed.
Next Obligation. codec_write_tac. Qed.

#[global] Program Instance codec_set_system_pointer {W : WStream} {L : WStreamLaws W} :
  Codec freerds_read_set_system_pointer freerds_write_set_system_pointer := {
  ready _ := True;
  recv := recv_set_system_pointer;
}.
Next Obligation.
  intros W L c b0 b Hok _.
  cbn [ok norm wire encoder_set_system_pointer] in *. unfold ok_set_system_pointer in Hok. destruct_and?.
  unfold freerds_read_set_system_pointer, wire_set_system_pointer, recv_set_system_pointer.
      codec_read_tac b.
Qed.

Lemma safe_read_set_system_pointer {W : WStream} {L : WStreamLaws W} msg : safe 0
    (freerds_read_set_system_pointer msg).
Proof. unfold freerds_read_set_system_pointer. safe_step. Qed.
End SetSystemPointer.

Module SharedFramebuffer.
Record RDS_MSG_SHARED_FRAMEBUFFER := mk {
  flags : Z  (* UINT32 *);
  width : Z  (* int *);
  height : Z  (* int *);
  scanline : Z  (* int *);
  segmentId : Z  (* int *);
  bitsPerPixel : Z  (* int *);
  bytesPerPixel : Z  (* int *)
}.

Section Code.
Context {W : WStream}.

Definition freerds_read_shared_framebuffer (msg : MSG RDS_MSG_SHARED_FRAMEBUFFER) : SM (Z * MSG
    RDS_MSG_SHARED_FRAMEBUFFER) :=
  r ← get_remaining;
  if r <? 4 * 7 then mret (-1, msg) else
  flags' ← Stream_Read_UINT32;
  width' ← Stream_Read_UINT32;
  height' ← Stream_Read_UINT32;
  scanline' ← Stream_Read_UINT32;
  segmentId' ← Stream_Read_UINT32;
  bitsPerPixel' ← Stream_Read_UINT32;
  bytesPerPixel' ← Stream_Read_UINT32;
  mret (0, set_body (mk flags' (i32 width') (i32 height') (i32 scanline') (i32 segmentId') (i32
      bitsPerPixel') (i32 bytesPerPixel')) msg).

Definition freerds_write_shared_framebuffer (s : option wStream) (msg : MSG
    RDS_MSG_SHARED_FRAMEBUFFER) :
    option ((Z * MSG RDS_MSG_SHARED_FRAMEBUFFER) * option wStream) :=
  let msg := set_msgFlags 0 msg in
  '(n, _) ← freerds_write_common_header None (common msg);
  let msg := set_length (n + 28) msg in
  on_stream s (i32 (msg_length (common msg)), msg)
   (write_header msg;;
    Stream_Write_UINT32 (flags (body msg));;
    Stream_Write_UINT32 (width (body msg));;
    Stream_Write_UINT32 (height (body msg));;
    Stream_Write_UINT32 (scanline (body msg));;
    Stream_Write_UINT32 (segmentId (body msg));;
    Stream_Write_UINT32 (bitsPerPixel (body msg));;
    Stream_Write_UINT32 (bytesPerPixel (body msg));;
    mret (0, msg)).
End Code.

Definition ok_shared_framebuffer (b : RDS_MSG_SHARED_FRAMEBUFFER) : Prop :=
  is_u32 (flags b) /\ is_i32 (width b) /\ is_i32 (height b) /\ is_i32 (scanline b) /\ is_i32
      (segmentId b) /\ is_i32 (bitsPerPixel b) /\ is_i32 (bytesPerPixel b).

Definition wire_shared_framebuffer (b : RDS_MSG_SHARED_FRAMEBUFFER) : list Z :=
  le32 (flags b) ++ le32 (width b) ++ le32 (height b) ++ le32 (scanline b) ++ le32 (segmentId b)
      ++ le32 (bitsPerPixel b) ++ le32 (bytesPerPixel b).

Definition recv_shared_framebuffer (b0 b : RDS_MSG_SHARED_FRAMEBUFFER) :
    RDS_MSG_SHARED_FRAMEBUFFER :=
  b.

#[global] Program Instance encoder_shared_framebuffer {W : WStream} {L : WStreamLaws W} :
  Encoder freerds_write_shared_framebuffer := {
  ok := ok_shared_framebuffer;
  norm b := b;
  wire := wire_shared_framebuffer;
  wrect := fun _ => None;
}.
Next Obligation. codec_size_tac. Qed.
Next Obligation. codec_write_tac. Qed.

#[global] Program Instance codec_shared_framebuffer {W : WStream} {L : WStreamLaws W} :
  Codec freerds_read_shared_framebuffer freerds_write_shared_framebuffer := {
  ready _ := True;
  recv := recv_shared_framebuffer;
}.
Next Obligation.
  intros W L c b0 b Hok _.
  cbn [ok norm wire encoder_shared_framebuffer] in *. unfold ok_shared_framebuffer in Hok. destruct_and?.
  unfold freerds_read_shared_framebuffer, wire_shared_framebuffer, recv_shared_framebuffer.
      codec_read_tac b.
Qed.

Lemma safe_read_shared_framebuffer {W : WStream} {L : WStreamLaws W} msg : safe 0
    (freerds_read_shared_framebuffer msg).
Proof. unfold freerds_read_shared_framebuffer. safe_step. Qed.
End SharedFramebuffer.

Module WindowDelete.
Record RDS_MSG_WINDOW_DELETE := mk {
  windowId : Z  (* UINT32 *)
}.

Section Code.
Context {W : WStream}.

Definition freerds_read_window_delete (msg : MSG RDS_MSG_WINDOW_DELETE) : SM (Z * MSG
    RDS_MSG_WINDOW_DELETE) :=
  r ← get_remaining;
  if r <? 4 then mret (-1, msg) else
  windowId' ← Stream_Read_UINT32;
  mret (0, set_body (mk windowId') msg).

Definition freerds_write_window_delete (s : option wStream) (msg : MSG RDS_MSG_WINDOW_DELETE) :
    option ((Z * MSG RDS_MSG_WINDOW_DELETE) * option wStream) :=
  let msg := set_msgFlags 0 msg in
  '(n, _) ← freerds_write_common_header None (common msg);
  let msg := set_length (n + 4) msg in
  on_stream s (i32 (msg_length (common msg)), msg)
   (write_header msg;;
    Stream_Write_UINT32 (windowId (body msg));;
    mret (0, msg)).
End Code.

Definition ok_window_delete (b : RDS_MSG_WINDOW_DELETE) : Prop :=
  is_u32 (windowId b).

Definition wire_window_delete (b : RDS_MSG_WINDOW_DELETE) : list Z :=
  le32 (windowId b).

Definition recv_window_delete (b0 b : RDS_MSG_WINDOW_DELETE) : RDS_MSG_WINDOW_DELETE :=
  b.

#[global] Program Instance encoder_window_delete {W : WStream} {L : WStreamLaws W} :
  Encoder freerds_write_window_delete := {
  ok := ok_window_delete;
  norm b := b;
  wire := wire_window_delete;
  wrect := fun _ => None;
}.
Next Obligation. codec_size_tac. Qed.
Next Obligation. codec_write_tac. Qed.

#[global] Program Instance codec_window_delete {W : WStream} {L : WStreamLaws W} :
  Codec freerds_read_window_delete freerds_write_window_delete := {
  ready _ := True;
  recv := recv_window_delete;
}.
Next Obligation.
  intros W L c b0 b Hok _.
  cbn [ok norm wire encoder_window_delete] in *. unfold ok_window_delete in Hok. destruct_and?.
  unfold freerds_read_window_delete, wire_window_delete, recv_window_delete. codec_read_tac b.
Qed.

Lemma safe_read_window_delete {W : WStream} {L : WStreamLaws W} msg : safe 0
    (freerds_read_window_delete msg).
Proof. unfold freerds_read_window_delete. safe_step. Qed.
End WindowDelete.

Module LogoffUser.
Record RDS_MSG_LOGOFF_USER := mk {
  Flags : Z  (* UINT32 *)
}.

Section Code.
Context {W : WStream}.

Definition freerds_read_logoff_user (msg : MSG RDS_MSG_LOGOFF_USER) : SM (Z * MSG
    RDS_MSG_LOGOFF_USER) :=
  r ← get_remaining;
  if r <? 4 then mret (-1, msg) else
  Flags' ← Stream_Read_UINT32;
  mret (0, set_body (mk Flags') msg).

Definition freerds_write_logoff_user (s : option wStream) (msg : MSG RDS_MSG_LOGOFF_USER) :
    option ((Z * MSG RDS_MSG_LOGOFF_USER) * option wStream) :=
  let msg := set_msgFlags 0 msg in
  '(n, _) ← freerds_write_common_header None (common msg);
  let msg := set_length (n + 4) msg in
  on_stream s (i32 (msg_length (common msg)), msg)
   (write_header msg;;
    Stream_Write_UINT32 (Flags (body msg));;
    mret (0, msg)).
End Code.

Definition ok_logoff_user (b : RDS_MSG_LOGOFF_USER) : Prop :=
  is_u32 (Flags b).

Definition wire_logoff_user (b : RDS_MSG_LOGOFF_USER) : list Z :=
  le32 (Flags b).

Definition recv_logoff_user (b0 b : RDS_MSG_LOGOFF_USER) : RDS_MSG_LOGOFF_USER :=
  b.

#[global] Program Instance encoder_logoff_user {W : WStream} {L : WStreamLaws W} :
  Encoder freerds_write_logoff_user := {
  ok := ok_logoff_user;
  norm b := b;
  wire := wire_logoff_user;
  wrect := fun _ => None;
}.
Next Obligation. codec_size_tac. Qed.
Next Obligation. codec_write_tac. Qed.

#[global] Program Instance codec_logoff_user {W : WStream} {L : WStreamLaws W} :
  Codec freerds_read_logoff_user freerds_write_logoff_user := {
  ready _ := True;
  recv := recv_logoff_user;
}.
Next Obligation.
  intros W L c b0 b Hok _.
  cbn [ok norm wire encoder_logoff_user] in *. unfold ok_logoff_user in Hok. destruct_and?.
  unfold freerds_read_logoff_user, wire_logoff_user, recv_logoff_user. codec_read_tac b.
Qed.

Lemma safe_read_logoff_user {W : WStream} {L : WStreamLaws W} msg : safe 0
    (freerds_read_logoff_user msg).
Proof. unfold freerds_read_logoff_user. safe_step. Qed.
End LogoffUser.

#[export] Hint Resolve BeginUpdate.safe_read_begin_update
  EndUpdate.safe_read_end_update
  SetClippingRegion.safe_read_set_clipping_region
  OpaqueRect.safe_read_opaque_rect
  ScreenBlt.safe_read_screen_blt
  DstBlt.safe_read_dstblt
  LineTo.safe_read_line_to
  CreateOffscreenSurface.safe_read_create_offscreen_surface
  SwitchOffscreenSurface.safe_read_switch_offscreen_surface
  DeleteOffscreenSurface.safe_read_delete_offscreen_surface
  PaintOffscreenSurface.safe_read_paint_offscreen_surface
  SetSystemPointer.safe_read_set_system_pointer
  SharedFramebuffer.safe_read_shared_framebuffer
  WindowDelete.safe_read_window_delete
  LogoffUser.safe_read_logoff_user : rds_safe.
