(* ===== verification/VarMsg.v ===== *)
(** * Messages of variable layout

    The messages of freerds/backend/protocol.c that carry arrays, bitmaps,
    pointer masks or brushes.

    A pointer to data is the bytes it designates, [None] when it designates
    none ([NULL] or an uninitialised pointer); a transfer of [n] bytes through
    it is undefined ([fault]) when fewer than [n] bytes are there. *)

From S2P Require Import Prelude WStream Message.

Section Pointers.
Context {W : WStream}.

(** [Stream_Write(s, p, n)] *)
Definition write_from (p : option (list Z)) (n : Z) : SM unit :=
  match p with
  | Some bs => if decide (n <= Z.of_nat (length bs)) then Stream_Write (take (Z.to_nat n) bs) else fault
  | None => if decide (n = 0) then Stream_Write [] else fault
  end.

(** [Stream_Read(s, p, n)]: the bytes that [p] designates afterwards. *)
Definition read_into (p : option (list Z)) (n : Z) : SM (option (list Z)) :=
  match p with
  | Some old =>
      if decide (n <= Z.of_nat (length old))
      then bs ← Stream_Read n; mret (Some (bs ++ drop (Z.to_nat n) old))
      else fault
  | None => fault
  end.

Lemma writes_from {L : WStreamLaws W} bs n :
  0 <= n <= Z.of_nat (length bs) -> writes (write_from (Some bs) n) (take (Z.to_nat n) bs) tt.
Proof. intros ?. unfold write_from. rewrite decide_True by lia. apply writes_bytes. Qed.
End Pointers.

(** ** RefreshRect *)

Module RefreshRect.
Record RECTANGLE_16 := mk16 { left : Z; top : Z; right : Z; bottom : Z }.

Record RDS_MSG_REFRESH_RECT := mk {
  numberOfAreas : Z  (* UINT32 *);
  areasToRefresh : list RECTANGLE_16  (* RECTANGLE_16* *)
}.

Section Code.
Context {W : WStream}.

(** The rectangles that lie at a pointer into the stream (little-endian host). *)
Fixpoint rects_at (n : nat) (bs : list Z) : list RECTANGLE_16 :=
  match n with
  | O => []
  | S n' =>
      if decide (8 <= length bs)%nat
      then mk16 (le_val (take 2 bs)) (le_val (take 2 (drop 2 bs)))
                (le_val (take 2 (drop 4 bs))) (le_val (take 2 (drop 6 bs)))
           :: rects_at n' (drop 8 bs)
      else []
  end.

Fixpoint read_rects (n : nat) : SM (list RECTANGLE_16) :=
  match n with
  | O => mret []
  | S n' =>
      l ← Stream_Read_UINT16;
      t ← Stream_Read_UINT16;
      r ← Stream_Read_UINT16;
      b ← Stream_Read_UINT16;
      rs ← read_rects n';
      mret (mk16 l t r b :: rs)
  end.

(** The write loop over [index < n]; it reads past the array when the array is
    shorter. *)
Fixpoint write_rects (n : nat) (rs : list RECTANGLE_16) : SM unit :=
  match n, rs with
  | O, _ => mret tt
  | S n', r :: rs' =>
      Stream_Write_UINT16 (left r);;
      Stream_Write_UINT16 (top r);;
      Stream_Write_UINT16 (right r);;
      Stream_Write_UINT16 (bottom r);;
      write_rects n' rs'
  | S _, [] => fault
  end.

Definition freerds_read_refresh_rect (msg : MSG RDS_MSG_REFRESH_RECT) :
    SM (Z * MSG RDS_MSG_REFRESH_RECT) :=
  r ← get_remaining;
  if r <? 2 then mret (-1, msg) else
  n ← Stream_Read_UINT16;
  p ← (fun s => Some (Stream_Pointer s, s));
  r ← get_remaining;
  if r <? u32 (8 * n) then mret (-1, set_body (mk n (rects_at (Z.to_nat n) p)) msg) else
  areas ← read_rects (Z.to_nat n);
  mret (0, set_body (mk n areas) msg).

Definition freerds_write_refresh_rect (s : option wStream) (msg : MSG RDS_MSG_REFRESH_RECT) :
    option ((Z * MSG RDS_MSG_REFRESH_RECT) * option wStream) :=
  let msg := set_msgFlags 0 msg in
  '(n, _) ← freerds_write_common_header None (common msg);
  let msg := set_length (n + 2 + (numberOfAreas (body msg) * 8)) msg in
  on_stream s (i32 (msg_length (common msg)), msg)
   (write_header msg;;
    Stream_Write_UINT16 (numberOfAreas (body msg));;
    write_rects (Z.to_nat (numberOfAreas (body msg))) (areasToRefresh (body msg));;
    mret (0, msg)).
End Code.

Definition wire_rect16 (r : RECTANGLE_16) : list Z :=
  le16 (left r) ++ le16 (top r) ++ le16 (right r) ++ le16 (bottom r).

Definition ok_rect16 (r : RECTANGLE_16) : Prop :=
  is_u16 (left r) /\ is_u16 (top r) /\ is_u16 (right r) /\ is_u16 (bottom r).

Fixpoint wire_rects (rs : list RECTANGLE_16) : list Z :=
  match rs with [] => [] | r :: rs' => wire_rect16 r ++ wire_rects rs' end.

Lemma length_wire_rects rs : length (wire_rects rs) = (8 * length rs)%nat.
Proof.
  induction rs as [|r rs IH]; [done|]. cbn [wire_rects length].
  rewrite length_app, IH. unfold wire_rect16. rewrite !length_app, !length_le. lia.
Qed.

Section Facts.
Context {W : WStream} {L : WStreamLaws W}.

Lemma writes_rects rs : writes (write_rects (length rs) rs) (wire_rects rs) tt.
Proof.
  induction rs as [|r rs IH]; [apply writes_ret|]. cbn [length write_rects wire_rects].
  unfold wire_rect16. rewrite <-!(assoc_L (++)).
  repeat (eapply writes_bind; [apply writes_16|]). exact IH.
Qed.

Lemma reads_rects rs : Forall ok_rect16 rs -> reads (read_rects (length rs)) (wire_rects rs) rs.
Proof.
  induction 1 as [|[l t r b] rs (?&?&?&?) _ IH]; [apply reads_ret|].
  cbn [length read_rects wire_rects]. unfold wire_rect16. rewrite <-!(assoc_L (++)).
  repeat (eapply reads_bind; [apply reads_16|]; rewrite u16_id by done).
  exact (reads_bind_ret _ (cons (mk16 l t r b)) _ _ IH).
Qed.

(** The reading loop stays inside the [8 * n] bytes that the guard asks for. *)
Lemma safe_rects {A} n (k : list RECTANGLE_16 -> SM A) m :
  8 * Z.of_nat n <= m -> (forall v, safe (m - 8 * Z.of_nat n) (k v)) -> safe m (read_rects n ≫= k).
Proof.
  revert m k. induction n as [|n IH]; intros m k Hm Hk; cbn [read_rects].
  - intros s buf pos len ?????. apply (Hk [] s buf pos len); auto; lia.
  - assert (forall l t r b, safe (m - 2 - 2 - 2 - 2)
              (read_rects n ≫= fun rs => k (mk16 l t r b :: rs))) as Hrest.
    { intros. apply IH; [lia|]. intros v. eapply safe_weaken; [apply Hk|lia]. }
    intros s buf pos len Hs Hu Hb Hp Hl.
    destruct (read16_spec s buf pos len Hs) as (s1 & E1 & H1); [lia|].
    destruct (read16_spec s1 buf _ len H1) as (s2 & E2 & H2); [lia|].
    destruct (read16_spec s2 buf _ len H2) as (s3 & E3 & H3); [lia|].
    destruct (read16_spec s3 buf _ len H3) as (s4 & E4 & H4); [lia|].
    unfold mbind, SM_bind in *. rewrite E1, E2, E3, E4.
    match goal with |- context [mret (mk16 ?l ?t ?r ?b :: _)] =>
      destruct (Hrest l t r b s4 _ _ len H4) as (a & s' & pos' & E & Hs' & Hp'); auto; try lia end.
    exists a, s', pos'. destruct (read_rects n s4) as [[v s5]|]; done.
Qed.
End Facts.

Definition ok_refresh_rect (b : RDS_MSG_REFRESH_RECT) : Prop :=
  numberOfAreas b = Z.of_nat (length (areasToRefresh b)) /\ is_u16 (numberOfAreas b) /\
  Forall ok_rect16 (areasToRefresh b).

Definition wire_refresh_rect (b : RDS_MSG_REFRESH_RECT) : list Z :=
  le16 (numberOfAreas b) ++ wire_rects (areasToRefresh b).

Lemma length_wire_refresh_rect b :
  ok_refresh_rect b ->
  Z.of_nat (length (wire_refresh_rect b)) = 2 + numberOfAreas b * 8.
Proof.
  intros (Hn & _). unfold wire_refresh_rect.
  rewrite length_app, length_le, length_wire_rects. lia.
Qed.

#[global] Program Instance encoder_refresh_rect {W : WStream} {L : WStreamLaws W} :
  Encoder freerds_write_refresh_rect := {
  ok := ok_refresh_rect;
  norm b := b;
  wire := wire_refresh_rect;
  wrect := fun _ => None;
}.
Next Obligation.
  intros W L c b Hok. rewrite length_wire_refresh_rect by done.
  rewrite Z.add_assoc. eexists. split; [reflexivity|]. done.
Qed.
Next Obligation.
  intros W L c b Hok. cbv zeta. rewrite length_wire_refresh_rect by done.
  apply writes_on_stream. unfold wire_refresh_rect. destruct Hok as (Hn & _).
  eapply writes_eq.
  - eapply writes_bind; [apply writes_header|]. eapply writes_bind; [apply writes_16|].
    eapply writes_bind; [|apply writes_ret].
    cbn [body set_length set_msgFlags]. rewrite Hn, Nat2Z.id. apply writes_rects.
  - rewrite app_nil_r. unfold out_common. simpl. by rewrite Z.add_assoc.
  - unfold out_common. simpl. by rewrite Z.add_assoc.
Qed.

#[global] Program Instance codec_refresh_rect {W : WStream} {L : WStreamLaws W} :
  Codec freerds_read_refresh_rect freerds_write_refresh_rect := {
  ready _ := True;
  recv b0 b := b;
}.
Next Obligation.
  intros W L c b0 b (Hn & Hu & Hf) _. cbn [ok norm wire encoder_refresh_rect] in *.
  unfold wire_refresh_rect, freerds_read_refresh_rect.
  apply reads_guard; [rewrite length_app, length_le; lia|].
  eapply reads_bind; [apply reads_16|]. rewrite u16_id by done.
  intros s buf pos len rest Hs Hd Hb Hl. unfold mbind, SM_bind at 1.
  eapply reads_guard; [| |exact Hs|exact Hd|exact Hb|exact Hl].
  - rewrite u32_id by (unfold is_u16, is_u32 in *; lia). rewrite length_wire_rects. lia.
  - rewrite Hn, Nat2Z.id. rewrite <-(app_nil_r (wire_rects _)).
    eapply reads_bind; [by apply reads_rects|]. rewrite <-Hn. by destruct b; apply reads_ret.
Qed.

Lemma safe_read_refresh_rect {W : WStream} {L : WStreamLaws W} msg :
  safe 0 (freerds_read_refresh_rect msg).
Proof.
  unfold freerds_read_refresh_rect. safe_step.
  unfold_ints. apply safe_rects; [|intros; apply safe_ret]. int_lia.
Qed.
End RefreshRect.

(** ** PaintRect *)

Module PaintRect.
(** [RDS_FRAMEBUFFER* framebuffer]: [NULL], [&(backend->framebuffer)], or
    uninitialised. *)
Inductive framebuffer_ptr := fb_null | fb_backend | fb_wild.

Record RDS_MSG_PAINT_RECT := mk {
  nLeftRect : Z  (* INT32 *);
  nTopRect : Z  (* INT32 *);
  nWidth : Z  (* INT32 *);
  nHeight : Z  (* INT32 *);
  nXSrc : Z  (* INT32 *);
  nYSrc : Z  (* INT32 *);
  bitmapData : option (list Z)  (* BYTE* *);
  bitmapDataLength : Z  (* UINT32 *);
  fbSegmentId : Z  (* UINT32 *);
  framebuffer : framebuffer_ptr  (* RDS_FRAMEBUFFER* *)
}.

Section Code.
Context {W : WStream}.

Definition freerds_read_paint_rect (msg : MSG RDS_MSG_PAINT_RECT) :
    SM (Z * MSG RDS_MSG_PAINT_RECT) :=
  let b := body msg in
  r ← get_remaining;
  if r <? 12 then mret (-1, msg) else
  l ← Stream_Read_UINT16;
  t ← Stream_Read_UINT16;
  w ← Stream_Read_UINT16;
  h ← Stream_Read_UINT16;
  len ← Stream_Read_UINT32;
  let upd w h xs ys data seg :=
    set_body (mk (i32 l) (i32 t) (i32 w) (i32 h) xs ys data len seg (framebuffer b)) msg in
  let tail data seg :=
    r ← get_remaining;
    if r <? 8 then mret (-1, upd w h (nXSrc b) (nYSrc b) data seg) else
    w' ← Stream_Read_UINT16;
    h' ← Stream_Read_UINT16;
    xs ← Stream_Read_UINT16;
    ys ← Stream_Read_UINT16;
    mret (0, upd w' h' (i32 xs) (i32 ys) data seg) in
  if negb (len =? 0) then
    r ← get_remaining;
    if r <? len then mret (-1, upd w h (nXSrc b) (nYSrc b) (bitmapData b) (fbSegmentId b)) else
    p ← peek_bytes len;
    Stream_Seek len ≫= fun _ =>
    tail (Some p) (fbSegmentId b)
  else
    r ← get_remaining;
    if r <? 4 then mret (-1, upd w h (nXSrc b) (nYSrc b) (bitmapData b) (fbSegmentId b)) else
    seg ← Stream_Read_UINT32;
    tail (bitmapData b) seg.

Definition freerds_write_paint_rect (s : option wStream) (msg : MSG RDS_MSG_PAINT_RECT) :
    option ((Z * MSG RDS_MSG_PAINT_RECT) * option wStream) :=
  let b := body msg in
  let msg := set_msgFlags RDS_MSG_FLAG_RECT msg in
  '(n, _) ← freerds_write_common_header None (common msg);
  let msg := set_length (n + 20) msg in
  let msg :=
    if negb (fbSegmentId b =? 0) then set_length (msg_length (common msg) + 4) msg
    else set_length (msg_length (common msg) + bitmapDataLength b) msg in
  on_stream s (i32 (msg_length (common msg)), msg)
   (let msg := set_rect (nLeftRect b) (nTopRect b) (nWidth b) (nHeight b) msg in
    write_header msg;;
    Stream_Write_UINT16 (nLeftRect b);;
    Stream_Write_UINT16 (nTopRect b);;
    Stream_Write_UINT16 (nWidth b);;
    Stream_Write_UINT16 (nHeight b);;
    (if negb (fbSegmentId b =? 0) then
       Stream_Write_UINT32 0;;
       Stream_Write_UINT32 (fbSegmentId b)
     else
       Stream_Write_UINT32 (bitmapDataLength b);;
       write_from (bitmapData b) (bitmapDataLength b));;
    Stream_Write_UINT16 (nWidth b);;
    Stream_Write_UINT16 (nHeight b);;
    Stream_Write_UINT16 (nXSrc b);;
    Stream_Write_UINT16 (nYSrc b);;
    mret (0, msg)).
End Code.

(** The bitmap or the segment id, as the writer lays them out. *)
Definition wire_source (b : RDS_MSG_PAINT_RECT) : list Z :=
  if fbSegmentId b =? 0
  then le32 (bitmapDataLength b) ++ take (Z.to_nat (bitmapDataLength b)) (default [] (bitmapData b))
  else le32 0 ++ le32 (fbSegmentId b).

Definition wire_paint_rect (b : RDS_MSG_PAINT_RECT) : list Z :=
  le16 (nLeftRect b) ++ le16 (nTopRect b) ++ le16 (nWidth b) ++ le16 (nHeight b) ++
  wire_source b ++
  le16 (nWidth b) ++ le16 (nHeight b) ++ le16 (nXSrc b) ++ le16 (nYSrc b).

(** Either a segment id, or a non-empty bitmap that is really there. *)
Definition ok_paint_rect (b : RDS_MSG_PAINT_RECT) : Prop :=
  (is_u16 (nLeftRect b) /\ is_u16 (nTopRect b) /\ is_u16 (nWidth b) /\ is_u16 (nHeight b) /\
   is_u16 (nXSrc b) /\ is_u16 (nYSrc b) /\ is_u32 (fbSegmentId b)) /\
  (fbSegmentId b = 0 ->
     0 < bitmapDataLength b < 2 ^ 31 - 64 /\
     exists bs, bitmapData b = Some bs /\ bitmapDataLength b <= Z.of_nat (length bs)).

Definition recv_paint_rect (b0 b : RDS_MSG_PAINT_RECT) : RDS_MSG_PAINT_RECT :=
  mk (nLeftRect b) (nTopRect b) (nWidth b) (nHeight b) (nXSrc b) (nYSrc b)
     (if fbSegmentId b =? 0
      then Some (take (Z.to_nat (bitmapDataLength b)) (default [] (bitmapData b)))
      else bitmapData b0)
     (if fbSegmentId b =? 0 then bitmapDataLength b else 0)
     (if fbSegmentId b =? 0 then fbSegmentId b0 else fbSegmentId b)
     (framebuffer b0).

Lemma length_wire_paint_rect b :
  ok_paint_rect b ->
  Z.of_nat (length (wire_paint_rect b)) =
    20 + (if fbSegmentId b =? 0 then bitmapDataLength b else 4).
Proof.
  intros (_ & Hd). unfold wire_paint_rect, wire_source.
  destruct (Z.eqb_spec (fbSegmentId b) 0) as [E|].
  - destruct (Hd E) as (? & bs & -> & ?). cbn [from_option id].
    rewrite !length_app, !length_le, length_take. lia.
  - rewrite !length_app, !length_le. lia.
Qed.

Lemma size_paint_rect c b :
  ok_paint_rect b ->
  u32 (u32 (26 + 20) + (if fbSegmentId b =? 0 then bitmapDataLength b else 4)) =
  u32 (header_size (Some c) + Z.of_nat (length (wire_paint_rect b))).
Proof.
  intros ?. rewrite length_wire_paint_rect by done. unfold header_size, u32.
  rewrite Zplus_mod_idemp_l. f_equal. lia.
Qed.

Lemma writes_source {W : WStream} {L : WStreamLaws W} b :
  ok_paint_rect b ->
  writes (if negb (fbSegmentId b =? 0) then
            Stream_Write_UINT32 0;; Stream_Write_UINT32 (fbSegmentId b)
          else
            Stream_Write_UINT32 (bitmapDataLength b);;
            write_from (bitmapData b) (bitmapDataLength b)) (wire_source b) tt.
Proof.
  intros (_ & Hd). unfold wire_source. destruct (Z.eqb_spec (fbSegmentId b) 0) as [E|]; simpl negb.
  - destruct (Hd E) as (? & bs & -> & ?). cbn [from_option id].
    eapply writes_bind; [apply writes_32|]. apply writes_from. lia.
  - eapply writes_bind; apply writes_32.
Qed.

#[global] Program Instance encoder_paint_rect {W : WStream} {L : WStreamLaws W} :
  Encoder freerds_write_paint_rect := {
  ok := ok_paint_rect;
  norm b := b;
  wire := wire_paint_rect;
  wrect b := Some (mk_rect (i32 (nLeftRect b)) (i32 (nTopRect b)) (u32 (nWidth b)) (u32 (nHeight b)));
}.
Next Obligation.
  intros W L c b Hok. cbv beta. rewrite <-size_paint_rect by done. unfold freerds_write_paint_rect.
  cbn [body]. destruct (fbSegmentId b =? 0) eqn:E; simpl negb; cbv iota;
    (eexists; split; [reflexivity|]; split; [reflexivity|]; split; [reflexivity|];
     intros s; cbn [body set_length set_msgFlags]; rewrite E; reflexivity).
Qed.
Next Obligation.
  intros W L c b Hok. cbv zeta. unfold out_common. rewrite <-size_paint_rect by done.
  unfold freerds_write_paint_rect. cbn [body].
  unfold wire_paint_rect. apply writes_on_stream. eapply writes_eq.
  - eapply writes_bind; [apply writes_header|].
    repeat (eapply writes_bind; [first [apply writes_16 | by apply writes_source]|]).
    apply writes_ret.
  - rewrite app_nil_r. by destruct (fbSegmentId b =? 0).
  - by destruct (fbSegmentId b =? 0).
Qed.

#[global] Program Instance codec_paint_rect {W : WStream} {L : WStreamLaws W} :
  Codec freerds_read_paint_rect freerds_write_paint_rect := {
  ready _ := True;
  recv := recv_paint_rect;
}.
Next Obligation.
  intros W L c b0 b ((?&?&?&?&?&?&?) & Hd) _.
  cbn [ok norm wire encoder_paint_rect] in *.
  unfold freerds_read_paint_rect, wire_paint_rect, wire_source, recv_paint_rect. cbn [body].
  destruct (Z.eqb_spec (fbSegmentId b) 0) as [E|].
  - destruct (Hd E) as (? & bs & -> & ?). cbn [from_option id]. rewrite <-!(assoc_L (++)).
    apply reads_guard; [rewrite !length_app, !length_le; lia|].
    do 4 (eapply reads_bind; [apply reads_16|]). eapply reads_bind; [apply reads_32|].
    rewrite u32_id by (unfold is_u32; lia).
    rewrite (proj2 (Z.eqb_neq (bitmapDataLength b) 0)) by lia. simpl negb. cbv iota.
    apply reads_guard; [rewrite length_app, length_take; lia|].
    apply reads_pointer; [rewrite length_take; lia|].
    eapply reads_val; [reads_step | by field_ids].
  - rewrite <-!(assoc_L (++)).
    apply reads_guard; [rewrite !length_app, !length_le; lia|].
    do 4 (eapply reads_bind; [apply reads_16|]). eapply reads_bind; [apply reads_32|].
    change (u32 0) with 0. simpl negb. cbv iota.
    apply reads_guard; [rewrite !length_app, !length_le; lia|].
    eapply reads_bind; [apply reads_32|]. rewrite (u32_id (fbSegmentId b)) by done.
    eapply reads_val; [reads_step | by field_ids].
Qed.

Lemma safe_read_paint_rect {W : WStream} {L : WStreamLaws W} msg :
  safe 0 (freerds_read_paint_rect msg).
Proof. unfold freerds_read_paint_rect. safe_step. Qed.
End PaintRect.

(** ** PatBlt *)

Module PatBlt.
(** The fields of FreeRDP's [rdpBrush] that the sources use; [data] is a
    pointer. *)
Record rdpBrush := mk_brush {
  brush_x : Z; brush_y : Z; bpp : Z; style : Z; hatch : Z; index : Z;  (* UINT32 *)
  data : option (list Z)  (* BYTE* *)
}.

Record RDS_MSG_PATBLT := mk {
  nLeftRect : Z  (* INT32 *);
  nTopRect : Z  (* INT32 *);
  nWidth : Z  (* INT32 *);
  nHeight : Z  (* INT32 *);
  bRop : Z  (* UINT32 *);
  backColor : Z  (* UINT32 *);
  foreColor : Z  (* UINT32 *);
  brush : rdpBrush
}.

Section Code.
Context {W : WStream}.

Definition freerds_read_patblt (msg : MSG RDS_MSG_PATBLT) : SM (Z * MSG RDS_MSG_PATBLT) :=
  r ← get_remaining;
  if r <? 60 then mret (-1, msg) else
  l ← Stream_Read_UINT32;
  t ← Stream_Read_UINT32;
  w ← Stream_Read_UINT32;
  h ← Stream_Read_UINT32;
  rop ← Stream_Read_UINT32;
  bc ← Stream_Read_UINT32;
  fc ← Stream_Read_UINT32;
  bx ← Stream_Read_UINT32;
  by' ← Stream_Read_UINT32;
  bbpp ← Stream_Read_UINT32;
  bstyle ← Stream_Read_UINT32;
  bhatch ← Stream_Read_UINT32;
  bindex ← Stream_Read_UINT32;
  d ← read_into (data (brush (body msg))) 8;
  mret (0, set_body (mk (i32 l) (i32 t) (i32 w) (i32 h) rop bc fc
                        (mk_brush bx by' bbpp bstyle bhatch bindex d)) msg).

Definition freerds_write_patblt (s : option wStream) (msg : MSG RDS_MSG_PATBLT) :
    option ((Z * MSG RDS_MSG_PATBLT) * option wStream) :=
  let msg := set_msgFlags RDS_MSG_FLAG_RECT msg in
  '(n, _) ← freerds_write_common_header None (common msg);
  let msg := set_length (n + 60) msg in
  on_stream s (i32 (msg_length (common msg)), msg)
   (let b := body msg in
    let msg := set_rect (nLeftRect b) (nTopRect b) (nWidth b) (nHeight b) msg in
    write_header msg;;
    Stream_Write_UINT32 (nLeftRect b);;
    Stream_Write_UINT32 (nTopRect b);;
    Stream_Write_UINT32 (nWidth b);;
    Stream_Write_UINT32 (nHeight b);;
    Stream_Write_UINT32 (bRop b);;
    Stream_Write_UINT32 (backColor b);;
    Stream_Write_UINT32 (foreColor b);;
    Stream_Write_UINT32 (brush_x (brush b));;
    Stream_Write_UINT32 (brush_y (brush b));;
    Stream_Write_UINT32 (bpp (brush b));;
    Stream_Write_UINT32 (style (brush b));;
    Stream_Write_UINT32 (hatch (brush b));;
    Stream_Write_UINT32 (index (brush b));;
    write_from (data (brush b)) 8;;
    mret (0, msg)).
End Code.

Definition wire_patblt (b : RDS_MSG_PATBLT) : list Z :=
  le32 (nLeftRect b) ++ le32 (nTopRect b) ++ le32 (nWidth b) ++ le32 (nHeight b) ++
  le32 (bRop b) ++ le32 (backColor b) ++ le32 (foreColor b) ++
  le32 (brush_x (brush b)) ++ le32 (brush_y (brush b)) ++ le32 (bpp (brush b)) ++
  le32 (style (brush b)) ++ le32 (hatch (brush b)) ++ le32 (index (brush b)) ++
  take 8 (default [] (data (brush b))).

Definition ok_patblt (b : RDS_MSG_PATBLT) : Prop :=
  (is_i32 (nLeftRect b) /\ is_i32 (nTopRect b) /\ is_i32 (nWidth b) /\ is_i32 (nHeight b) /\
   is_u32 (bRop b) /\ is_u32 (backColor b) /\ is_u32 (foreColor b)) /\
  (is_u32 (brush_x (brush b)) /\ is_u32 (brush_y (brush b)) /\ is_u32 (bpp (brush b)) /\
   is_u32 (style (brush b)) /\ is_u32 (hatch (brush b)) /\ is_u32 (index (brush b))) /\
  exists bs, data (brush b) = Some bs /\ (8 <= length bs)%nat.

(** The reader's brush must point to eight writable bytes. *)
Definition brush_room (b : RDS_MSG_PATBLT) : Prop :=
  exists old, data (brush b) = Some old /\ (8 <= length old)%nat.

Definition recv_patblt (b0 b : RDS_MSG_PATBLT) : RDS_MSG_PATBLT :=
  let br := brush b in
  mk (nLeftRect b) (nTopRect b) (nWidth b) (nHeight b) (bRop b) (backColor b) (foreColor b)
     (mk_brush (brush_x br) (brush_y br) (bpp br) (style br) (hatch br) (index br)
        (Some (take 8 (default [] (data br)) ++ drop 8 (default [] (data (brush b0)))))).

Section Facts.
Context {W : WStream} {L : WStreamLaws W}.

Lemma length_wire_patblt b : ok_patblt b -> Z.of_nat (length (wire_patblt b)) = 60.
Proof.
  intros (_ & _ & bs & E & ?). unfold wire_patblt. rewrite E. cbn [from_option id].
  rewrite !length_app, !length_le, length_take. lia.
Qed.

#[global] Program Instance encoder_patblt :
  Encoder freerds_write_patblt := {
  ok := ok_patblt;
  norm b := b;
  wire := wire_patblt;
  wrect b := Some (mk_rect (i32 (nLeftRect b)) (i32 (nTopRect b)) (u32 (nWidth b)) (u32 (nHeight b)));
}.
Next Obligation. intros c b Hok. cbv beta. rewrite length_wire_patblt by done. codec_size_tac. Qed.
Next Obligation.
  intros c b Hok. cbv zeta. rewrite length_wire_patblt by done. destruct Hok as (_ & _ & bs & E & ?).
  unfold wire_patblt. apply writes_on_stream. eapply writes_eq.
  - eapply writes_bind; [apply writes_header|].
    do 13 (eapply writes_bind; [apply writes_32|]). eapply writes_bind; [|apply writes_ret].
    cbn [body set_length set_msgFlags]. rewrite E. apply writes_from. lia.
  - rewrite app_nil_r, E. reflexivity.
  - reflexivity.
Qed.

(** The reader stores the pattern through [brush.data], which must designate
    at least eight bytes. *)
#[global] Program Instance codec_patblt :
  Codec freerds_read_patblt freerds_write_patblt := {
  ready := brush_room;
  recv := recv_patblt;
}.
Next Obligation.
  intros c b0 b (? & ? & bs & E & ?) (old & E0 & ?). destruct_and!. cbn [wire norm encoder_patblt].
  unfold freerds_read_patblt, wire_patblt, recv_patblt. cbn [body]. rewrite E, E0.
  cbn [from_option id].
  apply reads_guard; [rewrite !length_app, !length_le, length_take; lia|].
  do 13 (eapply reads_bind; [apply reads_32|]).
  eapply reads_val.
  - eapply reads_bind_ret. unfold read_into. rewrite decide_True by lia.
    eapply (reads_bind_ret (Stream_Read 8) (fun x => Some (x ++ drop (Z.to_nat 8) old))).
    apply reads_bytes. rewrite length_take. lia.
  - field_ids. reflexivity.
Qed.

Lemma safe_read_patblt msg : brush_room (body msg) -> safe 0 (freerds_read_patblt msg).
Proof.
  intros (old & E & ?). unfold freerds_read_patblt. rewrite E. safe_step.
  unfold read_into. rewrite decide_True by lia.
  intros s buf pos len Hs Hu Hb Hp Hl.
  destruct (read_spec s buf pos len 8 Hs) as (s' & E' & Hs'); [lia|].
  change (Z.of_nat 8) with 8 in E'. unfold mbind, SM_bind. rewrite E'.
  do 3 eexists. split; [reflexivity|]. split; [exact Hs'|lia].
Qed.

(** With a brush that points nowhere the reader writes through a wild pointer
    as soon as enough bytes are available. *)
Lemma read_patblt_wild c b0 b : ok_patblt b -> data (brush b0) = None ->
  forall s buf pos len rest, rep s buf pos len -> drop pos buf = wire_patblt b ++ rest ->
    (len <= length buf)%nat -> (pos + 60 <= len)%nat ->
    freerds_read_patblt (Msg c b0) s = None.
Proof.
  intros _ E0 s buf pos len rest Hs _ Hb Hl.
  unfold freerds_read_patblt, get_remaining, mbind, SM_bind. cbn [body].
  rewrite (remaining_spec s buf pos len Hs) by lia.
  destruct (Z.ltb_spec (Z.of_nat len - Z.of_nat pos) 60); [lia|].
  do 13 match goal with
  | H : rep ?s buf ?p len |- context [Stream_Read_UINT32 ?s] =>
      destruct (read32_spec s buf p len H) as (? & -> & ?); [lia|]; clear H
  end.
  by rewrite E0.
Qed.
End Facts.
End PatBlt.

(** ** SetPointer *)

Module SetPointer.
Record RDS_MSG_SET_POINTER := mk {
  xorBpp : Z  (* UINT32 *);
  xPos : Z  (* UINT32 *);
  yPos : Z  (* UINT32 *);
  width : Z  (* UINT32 *);
  height : Z  (* UINT32 *);
  lengthAndMask : Z  (* UINT32 *);
  lengthXorMask : Z  (* UINT32 *);
  xorMaskData : option (list Z)  (* BYTE* *);
  andMaskData : option (list Z)  (* BYTE* *)
}.

Section Code.
Context {W : WStream}.

Definition freerds_read_set_pointer (msg : MSG RDS_MSG_SET_POINTER) :
    SM (Z * MSG RDS_MSG_SET_POINTER) :=
  let b := body msg in
  r ← get_remaining;
  if r <? 10 then mret (-1, msg) else
  x ← Stream_Read_UINT16;
  y ← Stream_Read_UINT16;
  bpp ← Stream_Read_UINT16;
  lx ← Stream_Read_UINT16;
  la ← Stream_Read_UINT16;
  let upd px pa := set_body (mk bpp x y (width b) (height b) la lx px pa) msg in
  r ← get_remaining;
  if r <? lx then mret (-1, upd (xorMaskData b) (andMaskData b)) else
  px ← peek_bytes lx;
  Stream_Seek lx ≫= fun _ =>
  r ← get_remaining;
  if r <? la then mret (-1, upd (Some px) (andMaskData b)) else
  pa ← peek_bytes la;
  Stream_Seek la ≫= fun _ =>
  mret (0, upd (Some px) (Some pa)).

(** The defaults the writer fills in before it computes the length. *)
Definition pointer_defaults (b : RDS_MSG_SET_POINTER) : RDS_MSG_SET_POINTER :=
  let bpp := if xorBpp b =? 0 then 24 else xorBpp b in
  let lx := if lengthXorMask b =? 0 then u32 (u32 (bpp + 7) / 8 * 32 * 32) else lengthXorMask b in
  let la := if lengthAndMask b =? 0 then 32 * (32 / 8) else lengthAndMask b in
  mk bpp (xPos b) (yPos b) (width b) (height b) la lx (xorMaskData b) (andMaskData b).

(** The hot spot is clamped to the 32x32 pointer; the tests [< 0] are on
    unsigned fields. *)
Definition pointer_clamp (b : RDS_MSG_SET_POINTER) : RDS_MSG_SET_POINTER :=
  let x := if xPos b <? 0 then 0 else xPos b in
  let x := if 31 <? x then 31 else x in
  let y := if yPos b <? 0 then 0 else yPos b in
  let y := if 31 <? y then 31 else y in
  mk (xorBpp b) x y (width b) (height b) (lengthAndMask b) (lengthXorMask b)
     (xorMaskData b) (andMaskData b).

Definition freerds_write_set_pointer (s : option wStream) (msg : MSG RDS_MSG_SET_POINTER) :
    option ((Z * MSG RDS_MSG_SET_POINTER) * option wStream) :=
  let msg := set_body (pointer_defaults (body msg)) msg in
  let msg := set_msgFlags 0 msg in
  '(n, _) ← freerds_write_common_header None (common msg);
  let msg := set_length (n + 10 + lengthXorMask (body msg) + lengthAndMask (body msg)) msg in
  on_stream s (i32 (msg_length (common msg)), msg)
   (let msg := set_body (pointer_clamp (body msg)) msg in
    let b := body msg in
    write_header msg;;
    Stream_Write_UINT16 (xPos b);;
    Stream_Write_UINT16 (yPos b);;
    Stream_Write_UINT16 (xorBpp b);;
    Stream_Write_UINT16 (lengthXorMask b);;
    Stream_Write_UINT16 (lengthAndMask b);;
    write_from (xorMaskData b) (lengthXorMask b);;
    write_from (andMaskData b) (lengthAndMask b);;
    mret (0, msg)).
End Code.

Definition norm_set_pointer (b : RDS_MSG_SET_POINTER) : RDS_MSG_SET_POINTER :=
  pointer_clamp (pointer_defaults b).

Definition wire_set_pointer (b : RDS_MSG_SET_POINTER) : list Z :=
  le16 (xPos b) ++ le16 (yPos b) ++ le16 (xorBpp b) ++ le16 (lengthXorMask b) ++
  le16 (lengthAndMask b) ++
  take (Z.to_nat (lengthXorMask b)) (default [] (xorMaskData b)) ++
  take (Z.to_nat (lengthAndMask b)) (default [] (andMaskData b)).

(** Both masks are there, and the depth and the mask lengths fit 16 bits. *)
Definition ok_set_pointer (b : RDS_MSG_SET_POINTER) : Prop :=
  is_u32 (xPos b) /\ is_u32 (yPos b) /\
  is_u16 (xorBpp (pointer_defaults b)) /\ is_u16 (lengthXorMask (pointer_defaults b)) /\
  is_u16 (lengthAndMask (pointer_defaults b)) /\
  (exists bs, xorMaskData b = Some bs /\ lengthXorMask (pointer_defaults b) <= Z.of_nat (length bs)) /\
  (exists bs, andMaskData b = Some bs /\ lengthAndMask (pointer_defaults b) <= Z.of_nat (length bs)).

Definition recv_set_pointer (b0 b : RDS_MSG_SET_POINTER) : RDS_MSG_SET_POINTER :=
  let n := norm_set_pointer b in
  mk (xorBpp n) (xPos n) (yPos n) (width b0) (height b0) (lengthAndMask n) (lengthXorMask n)
     (Some (take (Z.to_nat (lengthXorMask n)) (default [] (xorMaskData b))))
     (Some (take (Z.to_nat (lengthAndMask n)) (default [] (andMaskData b)))).

Lemma pointer_defaults_idem b : pointer_defaults (pointer_defaults b) = pointer_defaults b.
Proof.
  destruct b as [bpp x y w h la lx px pa]. unfold pointer_defaults. cbn -[Z.div Z.mul u32].
  destruct (Z.eqb_spec bpp 0); destruct (Z.eqb_spec la 0); destruct (Z.eqb_spec lx 0);
    repeat match goal with |- context [if ?a =? 0 then _ else _] => destruct (Z.eqb_spec a 0) end;
    try congruence; try done.
Qed.

(** The hot spot that goes on the wire lies inside the 32x32 pointer. *)
Lemma clamp_bounds b : 0 <= xPos b -> 0 <= yPos b ->
  0 <= xPos (pointer_clamp b) <= 31 /\ 0 <= yPos (pointer_clamp b) <= 31.
Proof.
  intros ??. unfold pointer_clamp; simpl.
  repeat match goal with |- context [if ?a <? ?b then _ else _] => destruct (Z.ltb_spec a b) end; lia.
Qed.

Lemma length_wire_set_pointer b : ok_set_pointer b ->
  Z.of_nat (length (wire_set_pointer (norm_set_pointer b))) =
    10 + lengthXorMask (pointer_defaults b) + lengthAndMask (pointer_defaults b).
Proof.
  intros (_ & _ & _ & [Hx _] & [Ha _] & (bx & Ex & ?) & (ba & Ea & ?)).
  unfold wire_set_pointer, norm_set_pointer.
  set (d := pointer_defaults b) in *.
  change (xorMaskData (pointer_clamp d)) with (xorMaskData b).
  change (andMaskData (pointer_clamp d)) with (andMaskData b).
  change (lengthXorMask (pointer_clamp d)) with (lengthXorMask d).
  change (lengthAndMask (pointer_clamp d)) with (lengthAndMask d).
  rewrite Ex, Ea. cbn [from_option id].
  rewrite !length_app, !length_le, !length_take. lia.
Qed.

#[global] Program Instance encoder_set_pointer {W : WStream} {L : WStreamLaws W} :
  Encoder freerds_write_set_pointer := {
  ok := ok_set_pointer;
  norm := norm_set_pointer;
  wire := wire_set_pointer;
  wrect _ := None;
}.
Next Obligation.
  intros W L c b Hok. rewrite length_wire_set_pointer by done.
  rewrite !Z.add_assoc. eexists. split; [reflexivity|]. split; [done|]. split; [done|].
  intros s. unfold freerds_write_set_pointer. cbn [body set_body set_length set_msgFlags common].
  rewrite pointer_defaults_idem. reflexivity.
Qed.
Next Obligation.
  intros W L c b Hok. cbv zeta. rewrite length_wire_set_pointer by done.
  destruct Hok as (_ & _ & _ & [Hx _] & [Ha _] & (bx & Ex & ?) & (ba & Ea & ?)).
  apply writes_on_stream. unfold wire_set_pointer. eapply writes_eq.
  - eapply writes_bind; [apply writes_header|].
    do 5 (eapply writes_bind; [apply writes_16|]).
    cbn [body set_body set_length set_msgFlags pointer_clamp xorMaskData andMaskData
         lengthXorMask lengthAndMask pointer_defaults] in *.
    rewrite Ex, Ea.
    eapply writes_bind; [apply writes_from; lia|].
    eapply writes_bind; [apply writes_from; lia|]. apply writes_ret.
  - rewrite app_nil_r. unfold norm_set_pointer, out_common, header_size. rewrite !Z.add_assoc.
    cbn [pointer_clamp xorMaskData andMaskData pointer_defaults]. rewrite Ex, Ea. reflexivity.
  - unfold out_common, header_size. rewrite !Z.add_assoc. reflexivity.
Qed.

#[global] Program Instance codec_set_pointer {W : WStream} {L : WStreamLaws W} :
  Codec freerds_read_set_pointer freerds_write_set_pointer := {
  ready _ := True;
  recv := recv_set_pointer;
}.
Next Obligation.
  intros W L c b0 b Hok _.
  cbn [ok norm wire encoder_set_pointer] in *. pose proof (length_wire_set_pointer b Hok) as Hlen.
  destruct Hok as (Hx0 & Hy0 & ? & ? & ? & (bx & Ex & ?) & (ba & Ea & ?)).
  destruct (clamp_bounds (pointer_defaults b)) as [Hx Hy]; [apply Hx0|apply Hy0|].
  unfold freerds_read_set_pointer, wire_set_pointer, recv_set_pointer, norm_set_pointer in *.
  cbn [body] in *. set (n := pointer_clamp (pointer_defaults b)) in *.
  change (xorMaskData n) with (xorMaskData b) in *. change (andMaskData n) with (andMaskData b) in *.
  change (lengthXorMask (pointer_defaults b)) with (lengthXorMask n) in *.
  change (lengthAndMask (pointer_defaults b)) with (lengthAndMask n) in *.
  change (xorBpp (pointer_defaults b)) with (xorBpp n) in *.
  rewrite Ex, Ea in *. cbn [from_option id] in *.
  apply reads_guard; [rewrite !length_app, !length_le; lia|].
  do 5 (eapply reads_bind; [apply reads_16|]).
  rewrite !u16_id by (unfold is_u16 in *; lia). unfold is_u16 in *.
  apply reads_guard; [rewrite length_app, !length_take; lia|].
  apply reads_pointer; [rewrite length_take; lia|].
  apply reads_guard; [rewrite length_take; lia|].
  rewrite <-(app_nil_r (take (Z.to_nat (lengthAndMask n)) ba)) at 1.
  apply reads_pointer; [rewrite length_take; lia|]. apply reads_ret.
Qed.

Lemma safe_read_set_pointer {W : WStream} {L : WStreamLaws W} msg :
  safe 0 (freerds_read_set_pointer msg).
Proof. unfold freerds_read_set_pointer. safe_step. Qed.
End SetPointer.

#[export] Hint Resolve RefreshRect.safe_read_refresh_rect
  PaintRect.safe_read_paint_rect
  PatBlt.safe_read_patblt
  SetPointer.safe_read_set_pointer : rds_safe.
