(* ===== verification/SessionMsg.v ===== *)
(** * Session messages

    The logon message of freerds/backend/protocol.c, which carries C strings,
    and the messages whose read and write functions are empty.

    A [char*] is the block it points to, terminator included, [None] for
    [NULL]. *)

From S2P Require Import Prelude WStream Message VarMsg.

(** ** C strings *)

(** [strlen]: undefined on a block without terminator. *)
Fixpoint strlen (bs : list Z) : option nat :=
  match bs with
  | [] => None
  | b :: bs' => if b =? 0 then Some O else n ← strlen bs'; Some (S n)
  end.

Definition c_string (txt : list Z) : list Z := txt ++ [0].

Lemma strlen_app txt rest : Forall (fun b => b <> 0) txt -> strlen (txt ++ 0 :: rest) = Some (length txt).
Proof.
  induction 1 as [|b txt Hb _ IH]; [done|]. simpl.
  destruct (Z.eqb_spec b 0); [done|]. by rewrite IH.
Qed.

Lemma strlen_c_string txt : Forall (fun b => b <> 0) txt -> strlen (c_string txt) = Some (length txt).
Proof. apply strlen_app. Qed.

Lemma strlen_lt bs n : strlen bs = Some n -> (n < length bs)%nat.
Proof.
  revert n. induction bs as [|b bs IH]; intros n; simpl; [done|].
  destruct (b =? 0); [intros [= <-]; lia|].
  destruct (strlen bs) as [m|]; simpl; [|done]. intros [= <-]. specialize (IH m eq_refl). lia.
Qed.

(** ** LogonUser *)

Module LogonUser.
Record RDS_MSG_LOGON_USER := mk {
  Flags : Z  (* UINT32 *);
  UserLength : Z  (* UINT32 *);
  DomainLength : Z  (* UINT32 *);
  PasswordLength : Z  (* UINT32 *);
  User : option (list Z)  (* char* *);
  Domain : option (list Z)  (* char* *);
  Password : option (list Z)  (* char* *)
}.

Section Code.
Context {W : WStream}.

(** [if (n) { p = malloc(n + 1); Stream_Read(s, p, n); p[n] = 0; }], with [p]
    [NULL] before; [n + 1] is a 32-bit sum. *)
Definition read_string (n : Z) : SM (option (list Z)) :=
  if n =? 0 then mret None else
  if u32 (n + 1) <? n + 1 then fault else
  bs ← Stream_Read n;
  mret (Some (bs ++ [0])).

Definition freerds_read_logon_user (msg : MSG RDS_MSG_LOGON_USER) :
    SM (Z * MSG RDS_MSG_LOGON_USER) :=
  r ← get_remaining;
  if r <? 16 then mret (-1, msg) else
  f ← Stream_Read_UINT32;
  ul ← Stream_Read_UINT32;
  dl ← Stream_Read_UINT32;
  pl ← Stream_Read_UINT32;
  u ← read_string ul;
  d ← read_string dl;
  p ← read_string pl;
  mret (0, set_body (mk f ul dl pl u d p) msg).

(** [len = 0; if (p) len = strlen(p);] *)
Definition string_length (p : option (list Z)) : option Z :=
  match p with
  | None => Some 0
  | Some bs => n ← strlen bs; Some (u32 (Z.of_nat n))
  end.

(** [if (n) Stream_Write(s, p, n);] *)
Definition write_string (p : option (list Z)) (n : Z) : SM unit :=
  if n =? 0 then mret tt else write_from p n.

Definition freerds_write_logon_user (s : option wStream) (msg : MSG RDS_MSG_LOGON_USER) :
    option ((Z * MSG RDS_MSG_LOGON_USER) * option wStream) :=
  let msg := set_msgFlags 0 msg in
  let b := body msg in
  ul ← string_length (User b);
  dl ← string_length (Domain b);
  pl ← string_length (Password b);
  let b := mk (Flags b) ul dl pl (User b) (Domain b) (Password b) in
  let msg := set_body b msg in
  '(n, _) ← freerds_write_common_header None (common msg);
  let msg := set_length (n + 16 + UserLength b + DomainLength b + PasswordLength b) msg in
  on_stream s (i32 (msg_length (common msg)), msg)
   (write_header msg;;
    Stream_Write_UINT32 (Flags b);;
    Stream_Write_UINT32 (UserLength b);;
    Stream_Write_UINT32 (DomainLength b);;
    Stream_Write_UINT32 (PasswordLength b);;
    write_string (User b) (UserLength b);;
    write_string (Domain b) (DomainLength b);;
    write_string (Password b) (PasswordLength b);;
    mret (0, msg)).

(** [if (n) { q = malloc(n + 1); CopyMemory(q, p, n); q[n] = 0; }] *)
Definition copy_string (p : option (list Z)) (n : Z) : option (option (list Z)) :=
  if n =? 0 then Some p else
  if u32 (n + 1) <? n + 1 then None else
  bs ← p;
  if decide (n <= Z.of_nat (length bs)) then Some (Some (take (Z.to_nat n) bs ++ [0])) else None.

End Code.

(** The text of a string, empty for [NULL]. *)
Definition text (p : option (list Z)) : list Z :=
  match p with Some bs => take (default O (strlen bs)) bs | None => [] end.

(** A terminated string short enough for its length field. *)
Definition ok_string (p : option (list Z)) : Prop :=
  match p with
  | None => True
  | Some bs => match strlen bs with Some n => Z.of_nat n < 2 ^ 32 - 1 | None => False end
  end.

Definition ok_logon_user (b : RDS_MSG_LOGON_USER) : Prop :=
  is_u32 (Flags b) /\ ok_string (User b) /\ ok_string (Domain b) /\ ok_string (Password b).

Definition norm_logon_user (b : RDS_MSG_LOGON_USER) : RDS_MSG_LOGON_USER :=
  let n p := Z.of_nat (length (text p)) in
  mk (Flags b) (n (User b)) (n (Domain b)) (n (Password b)) (User b) (Domain b) (Password b).

Definition wire_logon_user (b : RDS_MSG_LOGON_USER) : list Z :=
  le32 (Flags b) ++ le32 (UserLength b) ++ le32 (DomainLength b) ++ le32 (PasswordLength b) ++
  text (User b) ++ text (Domain b) ++ text (Password b).

(** An empty string arrives as [NULL]. *)
Definition recv_string (p : option (list Z)) : option (list Z) :=
  match text p with [] => None | txt => Some (txt ++ [0]) end.

Definition recv_logon_user (b0 b : RDS_MSG_LOGON_USER) : RDS_MSG_LOGON_USER :=
  let n := norm_logon_user b in
  mk (Flags n) (UserLength n) (DomainLength n) (PasswordLength n)
     (recv_string (User b)) (recv_string (Domain b)) (recv_string (Password b)).

Section Facts.
Context {W : WStream} {L : WStreamLaws W}.

Lemma text_bound p : ok_string p -> 0 <= Z.of_nat (length (text p)) < 2 ^ 32 - 1.
Proof.
  destruct p as [bs|]; simpl; [|lia]. destruct (strlen bs) as [n|] eqn:E; [|done].
  simpl. apply strlen_lt in E. rewrite length_take. lia.
Qed.

Lemma string_length_spec p : ok_string p -> string_length p = Some (Z.of_nat (length (text p))).
Proof.
  intros Hp. pose proof (text_bound p Hp) as Hb. destruct p as [bs|]; simpl in *; [|done].
  destruct (strlen bs) as [n|] eqn:E; [|done]. simpl in *. apply strlen_lt in E.
  rewrite length_take, Nat.min_l in * by lia. rewrite u32_id; [done|unfold is_u32; lia].
Qed.

Lemma writes_string p : ok_string p ->
  writes (write_string p (Z.of_nat (length (text p)))) (text p) tt.
Proof.
  intros Hp. unfold write_string. destruct (Z.eqb_spec (Z.of_nat (length (text p))) 0) as [E|E].
  - destruct (text p); [apply writes_ret|done].
  - destruct p as [bs|]; [|done]. simpl in Hp. destruct (strlen bs) as [n|] eqn:Es; [|done].
    cbn [text] in *. rewrite Es in *. cbn [from_option id] in *. apply strlen_lt in Es.
    rewrite length_take, Nat.min_l in * by lia.
    replace (take n bs) with (take (Z.to_nat (Z.of_nat n)) bs) by (by rewrite Nat2Z.id).
    apply writes_from. lia.
Qed.

Lemma reads_string p : ok_string p ->
  reads (read_string (Z.of_nat (length (text p)))) (text p) (recv_string p).
Proof.
  intros Hp. pose proof (text_bound p Hp). unfold read_string, recv_string.
  destruct (text p) as [|t txt] eqn:E; [apply reads_ret|].
  destruct (Z.eqb_spec (Z.of_nat (length (t :: txt))) 0); [simpl in *; lia|].
  rewrite u32_id by (unfold is_u32; lia).
  destruct (Z.ltb_spec (Z.of_nat (length (t :: txt)) + 1) (Z.of_nat (length (t :: txt)) + 1)); [lia|].
  apply (reads_bind_ret _ (fun bs => Some (bs ++ [0]))). by apply reads_bytes.
Qed.

Lemma length_wire_logon_user b :
  Z.of_nat (length (wire_logon_user (norm_logon_user b))) =
    16 + UserLength (norm_logon_user b) + DomainLength (norm_logon_user b) +
    PasswordLength (norm_logon_user b).
Proof. unfold wire_logon_user. rewrite !length_app, !length_le. cbn [norm_logon_user UserLength DomainLength PasswordLength User Domain Password]. lia. Qed.

#[global] Program Instance encoder_logon_user :
  Encoder freerds_write_logon_user := {
  ok := ok_logon_user;
  norm := norm_logon_user;
  wire := wire_logon_user;
  wrect _ := None;
}.
Next Obligation.
  intros c b (Hf & Hu & Hd & Hp). rewrite length_wire_logon_user.
  unfold freerds_write_logon_user. cbn [body set_msgFlags].
  rewrite !string_length_spec by done. cbn [mbind option_bind header_size].
  rewrite !Z.add_assoc. eexists. split; [reflexivity|]. split; [reflexivity|]. split; [done|].
  intros s. cbn [body set_body set_length set_msgFlags User Domain Password norm_logon_user].
  rewrite !string_length_spec by done. reflexivity.
Qed.
Next Obligation.
  intros c b (Hf & Hu & Hd & Hp). cbv zeta. rewrite length_wire_logon_user.
  unfold freerds_write_logon_user. cbn [body set_msgFlags].
  rewrite !string_length_spec by done. cbn [mbind option_bind].
  apply writes_on_stream. unfold wire_logon_user. eapply writes_eq.
  - eapply writes_bind; [apply writes_header|].
    do 4 (eapply writes_bind; [apply writes_32|]).
    do 3 (eapply writes_bind; [by apply writes_string|]). apply writes_ret.
  - unfold out_common, header_size. rewrite app_nil_r, !Z.add_assoc. reflexivity.
  - unfold out_common, header_size. rewrite !Z.add_assoc. reflexivity.
Qed.

#[global] Program Instance codec_logon_user :
  Codec freerds_read_logon_user freerds_write_logon_user := {
  ready _ := True;
  recv := recv_logon_user;
}.
Next Obligation.
  intros c b0 b (Hf & Hu & Hd & Hp) _.
  cbn [ok norm wire encoder_logon_user] in *.
  unfold freerds_read_logon_user, wire_logon_user, recv_logon_user, norm_logon_user.
  cbn [body Flags UserLength DomainLength PasswordLength User Domain Password].
  pose proof (text_bound _ Hu). pose proof (text_bound _ Hd). pose proof (text_bound _ Hp).
  apply reads_guard; [rewrite !length_app, !length_le; lia|].
  do 4 (eapply reads_bind; [apply reads_32|]). rewrite !u32_id by (unfold is_u32 in *; lia).
  do 2 (eapply reads_bind; [by apply reads_string|]).
  eapply (reads_bind_ret _ (fun p => (0, set_body (mk _ _ _ _ _ _ p) (Msg c b0)))).
  by apply reads_string.
Qed.

(** The string lengths are not checked against the bytes that remain: sixteen
    bytes and a length that exceeds the block make the reader leave it. *)
Lemma read_logon_user_oob msg s buf pos len f ul rest :
  rep s buf pos len -> drop pos buf = le32 f ++ le32 ul ++ rest -> (len <= length buf)%nat ->
  (pos + 16 <= len)%nat -> is_u32 ul -> Z.of_nat (length buf) < Z.of_nat pos + 16 + ul ->
  freerds_read_logon_user msg s = None.
Proof.
  intros Hs Hd Hb Hl Hu Ho.
  unfold freerds_read_logon_user, get_remaining, mbind, SM_bind.
  rewrite (remaining_spec s buf pos len Hs) by lia.
  destruct (Z.ltb_spec (Z.of_nat len - Z.of_nat pos) 16); [lia|].
  destruct (reads_32 f s buf pos len _ Hs Hd Hb) as (s1 & -> & H1); [rewrite length_le; lia|].
  rewrite length_le in H1.
  destruct (reads_32 ul s1 buf (pos + 4)%nat len rest H1) as (s2 & -> & H2);
    [by rewrite <-drop_drop, Hd, drop_app_length' by (by rewrite length_le)|done
    |rewrite length_le; lia|]. rewrite length_le in H2.
  destruct (read32_spec s2 _ _ _ H2) as (s3 & -> & H3); [lia|].
  destruct (read32_spec s3 _ _ _ H3) as (s4 & -> & H4); [lia|].
  rewrite u32_id by done. unfold read_string.
  destruct (Z.eqb_spec ul 0) as [->|]; [lia|].
  destruct (u32 (ul + 1) <? ul + 1); [done|].
  assert (Stream_Read ul s4 = None) as E.
  { unfold is_u32 in Hu. rewrite <-(Z2Nat.id ul) by lia. apply read_oob.
    destruct H4 as (E1 & -> & _). unfold Stream_Capacity. rewrite E1. lia. }
  unfold mbind, SM_bind. by rewrite E.
Qed.

(** A string that the reader built is duplicated to an equal string. *)
Lemma copy_recv_string p : ok_string p ->
  copy_string (recv_string p) (Z.of_nat (length (text p))) = Some (recv_string p).
Proof.
  intros Hok. pose proof (text_bound p Hok). unfold copy_string, recv_string.
  destruct (text p) as [|t txt]; [done|].
  destruct (Z.eqb_spec (Z.of_nat (length (t :: txt))) 0); [simpl in *; lia|].
  rewrite u32_id by (unfold is_u32; lia). rewrite Z.ltb_irrefl. cbn [mbind option_bind].
  rewrite decide_True by (rewrite length_app; lia). rewrite Nat2Z.id.
  by rewrite take_app_length.
Qed.
End Facts.
End LogonUser.

(** ** Messages that are not transmitted

    The read functions of these messages consume nothing and the write
    functions emit nothing, with or without a stream. *)

Module Stubs.
Record RDS_MSG_SET_PALETTE := mk_set_palette { palette : option (list Z)  (* UINT32* *) }.

Record RDS_GLYPH_DATA := mk_glyph {
  cacheIndex : Z; x : Z; y : Z; cx : Z; cy : Z; cb : Z; aj : option (list Z)
}.

Record RDS_MSG_CACHE_GLYPH := mk_cache_glyph {
  cacheId : Z  (* UINT32 *);
  flags : Z  (* UINT32 *);
  cGlyphs : Z  (* UINT32 *);
  glyphData : option (list RDS_GLYPH_DATA)  (* RDS_GLYPH_DATA* *);
  unicodeCharacters : option (list Z)  (* BYTE* *)
}.

Record RDS_MSG_GLYPH_INDEX := mk_glyph_index {
  gi_cacheId : Z; flAccel : Z; ulCharInc : Z; fOpRedundant : Z;  (* UINT32 *)
  gi_backColor : Z; gi_foreColor : Z;  (* UINT32 *)
  bkLeft : Z; bkTop : Z; bkRight : Z; bkBottom : Z;  (* INT32 *)
  opLeft : Z; opTop : Z; opRight : Z; opBottom : Z;  (* INT32 *)
  gi_brush : PatBlt.rdpBrush;
  gi_x : Z; gi_y : Z;  (* INT32 *)
  cbData : Z  (* UINT32 *);
  gi_data : option (list Z)  (* BYTE* *)
}.

Record RDS_MSG_BEEP := mk_beep { }.

Record RDS_MSG_RESET := mk_reset {
  DesktopWidth : Z  (* UINT32 *);
  DesktopHeight : Z  (* UINT32 *);
  ColorDepth : Z  (* UINT32 *)
}.

Section Code.
Context {W : WStream}.

Definition freerds_read_set_palette (msg : MSG RDS_MSG_SET_PALETTE) :
    SM (Z * MSG RDS_MSG_SET_PALETTE) := mret (0, msg).
Definition freerds_write_set_palette (s : option wStream) (msg : MSG RDS_MSG_SET_PALETTE) :
    option ((Z * MSG RDS_MSG_SET_PALETTE) * option wStream) := Some ((0, msg), s).

Definition freerds_read_cache_glyph (msg : MSG RDS_MSG_CACHE_GLYPH) :
    SM (Z * MSG RDS_MSG_CACHE_GLYPH) := mret (0, msg).
Definition freerds_write_cache_glyph (s : option wStream) (msg : MSG RDS_MSG_CACHE_GLYPH) :
    option ((Z * MSG RDS_MSG_CACHE_GLYPH) * option wStream) := Some ((0, msg), s).

Definition freerds_read_glyph_index (msg : MSG RDS_MSG_GLYPH_INDEX) :
    SM (Z * MSG RDS_MSG_GLYPH_INDEX) := mret (0, msg).
Definition freerds_write_glyph_index (s : option wStream) (msg : MSG RDS_MSG_GLYPH_INDEX) :
    option ((Z * MSG RDS_MSG_GLYPH_INDEX) * option wStream) := Some ((0, msg), s).

Definition freerds_read_beep (msg : MSG RDS_MSG_BEEP) :
    SM (Z * MSG RDS_MSG_BEEP) := mret (0, msg).
Definition freerds_write_beep (s : option wStream) (msg : MSG RDS_MSG_BEEP) :
    option ((Z * MSG RDS_MSG_BEEP) * option wStream) := Some ((0, msg), s).

Definition freerds_read_reset (msg : MSG RDS_MSG_RESET) :
    SM (Z * MSG RDS_MSG_RESET) := mret (0, msg).
Definition freerds_write_reset (s : option wStream) (msg : MSG RDS_MSG_RESET) :
    option ((Z * MSG RDS_MSG_RESET) * option wStream) := Some ((0, msg), s).
End Code.
End Stubs.
