(* ===== verification/WindowMsg.v ===== *)
(** * The window message

    [RDS_MSG_WINDOW_NEW_UPDATE] of freerds/backend/protocol.c.  The reader is
    not the inverse of the writer: it skips three pairs of fields that the
    writer emits, and it calls [Stream_Write] for the title.

    The bits [WINDOW_ORDER_*] come from FreeRDP's headers; they are a parameter
    of the model. *)

From S2P Require Import Prelude WStream Message VarMsg.
Import RefreshRect.

Class WindowOrder := {
  WINDOW_ORDER_TYPE_WINDOW : Z;
  WINDOW_ORDER_STATE_NEW : Z;
  WINDOW_ORDER_FIELD_OWNER : Z;
  WINDOW_ORDER_FIELD_STYLE : Z;
  WINDOW_ORDER_FIELD_SHOW : Z;
  WINDOW_ORDER_FIELD_TITLE : Z;
  WINDOW_ORDER_FIELD_CLIENT_AREA_OFFSET : Z;
  WINDOW_ORDER_FIELD_CLIENT_AREA_SIZE : Z;
  WINDOW_ORDER_FIELD_ROOT_PARENT : Z;
  WINDOW_ORDER_FIELD_WND_OFFSET : Z;
  WINDOW_ORDER_FIELD_WND_CLIENT_DELTA : Z;
  WINDOW_ORDER_FIELD_WND_SIZE : Z;
  WINDOW_ORDER_FIELD_WND_RECTS : Z;
  WINDOW_ORDER_FIELD_VIS_OFFSET : Z;
  WINDOW_ORDER_FIELD_VISIBILITY : Z;
}.

Module WindowNewUpdate.
Record RAIL_UNICODE_STRING := mk_unicode { ulength : Z  (* UINT16 *); string : option (list Z)  (* BYTE* *) }.

Record RDS_MSG_WINDOW_NEW_UPDATE := mk {
  windowId : Z; ownerWindowId : Z; style : Z; extendedStyle : Z; showState : Z;  (* UINT32 *)
  titleInfo : RAIL_UNICODE_STRING;
  clientOffsetX : Z; clientOffsetY : Z; clientAreaWidth : Z; clientAreaHeight : Z;  (* UINT32 *)
  RPContent : Z; rootParentHandle : Z;  (* UINT32 *)
  windowOffsetX : Z; windowOffsetY : Z;  (* UINT32 *)
  windowClientDeltaX : Z; windowClientDeltaY : Z;  (* UINT32 *)
  windowWidth : Z; windowHeight : Z;  (* UINT32 *)
  numWindowRects : Z  (* UINT32 *);
  windowRects : option (list RECTANGLE_16)  (* RECTANGLE_16* *);
  visibleOffsetX : Z; visibleOffsetY : Z;  (* UINT32 *)
  numVisibilityRects : Z  (* UINT32 *);
  visibilityRects : option (list RECTANGLE_16)  (* RECTANGLE_16* *)
}.

Section Code.
Context {W : WStream} {F : WindowOrder}.

(** [if (flags & f) { Stream_Read_UINT32(s, a); Stream_Read_UINT32(s, b); }] *)
Definition read_pair (flags f : Z) (a b : Z) : SM (Z * Z) :=
  if Z.land flags f =? 0 then mret (a, b) else
  a ← Stream_Read_UINT32;
  b ← Stream_Read_UINT32;
  mret (a, b).

(** The rectangles read in place, through the pointer into the stream. *)
Definition read_window_rects (n : Z) : SM (option (list RECTANGLE_16)) :=
  rs ← read_rects (Z.to_nat n);
  mret (Some rs).

(** The rectangles stored through [msg->visibilityRects], which must have
    room for them. *)
Definition read_visibility_rects (p : option (list RECTANGLE_16)) (n : Z) :
    SM (option (list RECTANGLE_16)) :=
  if n =? 0 then mret p else
  match p with
  | None => fault
  | Some old =>
      if decide (n <= Z.of_nat (length old))
      then rs ← read_rects (Z.to_nat n); mret (Some (rs ++ drop (Z.to_nat n) old))
      else fault
  end.

Definition read_flags : Z :=
  let flags := Z.lor WINDOW_ORDER_TYPE_WINDOW WINDOW_ORDER_STATE_NEW in
  let flags := Z.lor flags WINDOW_ORDER_FIELD_OWNER in
  let flags := Z.lor flags WINDOW_ORDER_FIELD_STYLE in
  let flags := Z.lor flags WINDOW_ORDER_FIELD_SHOW in
  let flags := Z.lor flags WINDOW_ORDER_FIELD_TITLE in
  let flags := Z.lor flags WINDOW_ORDER_FIELD_CLIENT_AREA_OFFSET in
  let flags := Z.lor flags WINDOW_ORDER_FIELD_CLIENT_AREA_SIZE in
  let flags := Z.lor flags WINDOW_ORDER_FIELD_ROOT_PARENT in
  let flags := Z.lor flags WINDOW_ORDER_FIELD_WND_RECTS in
  let flags := Z.lor flags WINDOW_ORDER_FIELD_VIS_OFFSET in
  Z.lor flags WINDOW_ORDER_FIELD_VISIBILITY.

Definition freerds_read_window_new_update (msg : MSG RDS_MSG_WINDOW_NEW_UPDATE) :
    SM (Z * MSG RDS_MSG_WINDOW_NEW_UPDATE) :=
  let b := body msg in
  let flags := read_flags in
  '(wid, owner) ← read_pair flags WINDOW_ORDER_FIELD_OWNER (windowId b) (ownerWindowId b);
  '(st, est) ← read_pair flags WINDOW_ORDER_FIELD_STYLE (style b) (extendedStyle b);
  show ← (if Z.land flags WINDOW_ORDER_FIELD_SHOW =? 0 then mret (showState b) else Stream_Read_UINT32);
  title ← (if Z.land flags WINDOW_ORDER_FIELD_TITLE =? 0 then mret (titleInfo b) else
    len ← Stream_Read_UINT16;
    write_from (string (titleInfo b)) len ≫= fun _ =>
    mret (mk_unicode len (string (titleInfo b))));
  '(cox, coy) ← read_pair flags WINDOW_ORDER_FIELD_CLIENT_AREA_OFFSET (clientOffsetX b) (clientOffsetY b);
  '(caw, cah) ← read_pair flags WINDOW_ORDER_FIELD_CLIENT_AREA_SIZE (clientAreaWidth b) (clientAreaHeight b);
  '(rpc, rph) ← read_pair flags WINDOW_ORDER_FIELD_ROOT_PARENT (RPContent b) (rootParentHandle b);
  '(wox, woy) ← read_pair flags WINDOW_ORDER_FIELD_WND_OFFSET (windowOffsetX b) (windowOffsetY b);
  '(wdx, wdy) ← read_pair flags WINDOW_ORDER_FIELD_WND_CLIENT_DELTA (windowClientDeltaX b) (windowClientDeltaY b);
  '(ww, wh) ← read_pair flags WINDOW_ORDER_FIELD_WND_SIZE (windowWidth b) (windowHeight b);
  '(nw, wr) ← (if Z.land flags WINDOW_ORDER_FIELD_WND_RECTS =? 0
               then mret (numWindowRects b, windowRects b) else
    n ← Stream_Read_UINT16;
    rs ← read_window_rects n;
    mret (n, rs));
  '(vox, voy) ← read_pair flags WINDOW_ORDER_FIELD_VIS_OFFSET (visibleOffsetX b) (visibleOffsetY b);
  '(nv, vr) ← (if Z.land flags WINDOW_ORDER_FIELD_VISIBILITY =? 0
               then mret (numVisibilityRects b, visibilityRects b) else
    n ← Stream_Read_UINT16;
    rs ← read_visibility_rects (visibilityRects b) n;
    mret (n, rs));
  _ ← Stream_Read_UINT32;
  mret (0, set_body (mk wid owner st est show title cox coy caw cah rpc rph wox woy wdx wdy ww wh
                        nw wr vox voy nv vr) msg).

Definition write_rects_from (p : option (list RECTANGLE_16)) (n : Z) : SM unit :=
  write_rects (Z.to_nat n) (default [] p).

Definition write_flags : Z :=
  let flags := Z.lor WINDOW_ORDER_TYPE_WINDOW WINDOW_ORDER_STATE_NEW in
  let flags := Z.lor flags WINDOW_ORDER_FIELD_OWNER in
  let flags := Z.lor flags WINDOW_ORDER_FIELD_STYLE in
  let flags := Z.lor flags WINDOW_ORDER_FIELD_SHOW in
  let flags := Z.lor flags WINDOW_ORDER_FIELD_TITLE in
  let flags := Z.lor flags WINDOW_ORDER_FIELD_CLIENT_AREA_OFFSET in
  let flags := Z.lor flags WINDOW_ORDER_FIELD_CLIENT_AREA_SIZE in
  let flags := Z.lor flags WINDOW_ORDER_FIELD_ROOT_PARENT in
  let flags := Z.lor flags WINDOW_ORDER_FIELD_WND_OFFSET in
  let flags := Z.lor flags WINDOW_ORDER_FIELD_WND_CLIENT_DELTA in
  let flags := Z.lor flags WINDOW_ORDER_FIELD_WND_SIZE in
  let flags := Z.lor flags WINDOW_ORDER_FIELD_WND_RECTS in
  let flags := Z.lor flags WINDOW_ORDER_FIELD_VIS_OFFSET in
  Z.lor flags WINDOW_ORDER_FIELD_VISIBILITY.

Definition freerds_write_window_new_update (s : option wStream) (msg : MSG RDS_MSG_WINDOW_NEW_UPDATE) :
    option ((Z * MSG RDS_MSG_WINDOW_NEW_UPDATE) * option wStream) :=
  let b := body msg in
  let msg := set_msgFlags 0 msg in
  '(n, _) ← freerds_write_common_header None (common msg);
  let msg := set_length (n + 5 * 4 + (2 + ulength (titleInfo b)) + 12 * 4 +
                         (2 + numWindowRects b * 8) + (4 + 4) +
                         (2 + numVisibilityRects b * 8) + 4) msg in
  on_stream s (i32 (msg_length (common msg)), msg)
   (write_header msg;;
    Stream_Write_UINT32 (windowId b);;
    Stream_Write_UINT32 (ownerWindowId b);;
    Stream_Write_UINT32 (style b);;
    Stream_Write_UINT32 (extendedStyle b);;
    Stream_Write_UINT32 (showState b);;
    Stream_Write_UINT16 (ulength (titleInfo b));;
    write_from (string (titleInfo b)) (ulength (titleInfo b));;
    Stream_Write_UINT32 (clientOffsetX b);;
    Stream_Write_UINT32 (clientOffsetY b);;
    Stream_Write_UINT32 (clientAreaWidth b);;
    Stream_Write_UINT32 (clientAreaHeight b);;
    Stream_Write_UINT32 (RPContent b);;
    Stream_Write_UINT32 (rootParentHandle b);;
    Stream_Write_UINT32 (windowOffsetX b);;
    Stream_Write_UINT32 (windowOffsetY b);;
    Stream_Write_UINT32 (windowClientDeltaX b);;
    Stream_Write_UINT32 (windowClientDeltaY b);;
    Stream_Write_UINT32 (windowWidth b);;
    Stream_Write_UINT32 (windowHeight b);;
    Stream_Write_UINT16 (numWindowRects b);;
    write_rects_from (windowRects b) (numWindowRects b);;
    Stream_Write_UINT32 (visibleOffsetX b);;
    Stream_Write_UINT32 (visibleOffsetY b);;
    Stream_Write_UINT16 (numVisibilityRects b);;
    write_rects_from (visibilityRects b) (numVisibilityRects b);;
    Stream_Write_UINT32 write_flags;;
    mret (0, msg)).
End Code.

(** ** The layout the writer produces *)

Definition wire_window_new_update {F : WindowOrder} (b : RDS_MSG_WINDOW_NEW_UPDATE) : list Z :=
  le32 (windowId b) ++ le32 (ownerWindowId b) ++ le32 (style b) ++ le32 (extendedStyle b) ++
  le32 (showState b) ++ le16 (ulength (titleInfo b)) ++
  take (Z.to_nat (ulength (titleInfo b))) (default [] (string (titleInfo b))) ++
  le32 (clientOffsetX b) ++ le32 (clientOffsetY b) ++
  le32 (clientAreaWidth b) ++ le32 (clientAreaHeight b) ++
  le32 (RPContent b) ++ le32 (rootParentHandle b) ++
  le32 (windowOffsetX b) ++ le32 (windowOffsetY b) ++
  le32 (windowClientDeltaX b) ++ le32 (windowClientDeltaY b) ++
  le32 (windowWidth b) ++ le32 (windowHeight b) ++
  le16 (numWindowRects b) ++ wire_rects (take (Z.to_nat (numWindowRects b)) (default [] (windowRects b))) ++
  le32 (visibleOffsetX b) ++ le32 (visibleOffsetY b) ++
  le16 (numVisibilityRects b) ++ wire_rects (take (Z.to_nat (numVisibilityRects b)) (default [] (visibilityRects b))) ++
  le32 write_flags.

Definition there {A} (n : Z) (p : option (list A)) : Prop :=
  0 <= n /\ (n = 0 \/ exists l, p = Some l /\ n <= Z.of_nat (length l)).

(** The title and the rectangles are there. *)
Definition ok_window_new_update (b : RDS_MSG_WINDOW_NEW_UPDATE) : Prop :=
  there (ulength (titleInfo b)) (string (titleInfo b)) /\
  there (numWindowRects b) (windowRects b) /\ there (numVisibilityRects b) (visibilityRects b).

Definition size_window_new_update (b : RDS_MSG_WINDOW_NEW_UPDATE) : Z :=
  86 + ulength (titleInfo b) + numWindowRects b * 8 + numVisibilityRects b * 8.

Section Facts.
Context {W : WStream} {L : WStreamLaws W} {F : WindowOrder}.

Lemma length_there {A} n (p : option (list A)) :
  there n p -> Z.of_nat (length (take (Z.to_nat n) (default [] p))) = n.
Proof.
  intros (H0 & [->|(l & -> & Hl)]); [done|]. cbn [from_option id]. rewrite length_take. lia.
Qed.

Lemma writes_there p n : there n p ->
  writes (write_from p n) (take (Z.to_nat n) (default [] p)) tt.
Proof.
  intros (H0 & [->|(l & -> & Hl)]).
  - destruct p; simpl; [rewrite decide_True by lia|]; apply writes_bytes.
  - by apply writes_from.
Qed.

Lemma writes_rects_there p n : there n p ->
  writes (write_rects_from p n) (wire_rects (take (Z.to_nat n) (default [] p))) tt.
Proof.
  intros Hn. unfold write_rects_from. set (rs := default [] p).
  assert (write_rects (Z.to_nat n) rs =
          write_rects (length (take (Z.to_nat n) rs)) (take (Z.to_nat n) rs)) as ->.
  { assert (Z.to_nat n <= length rs)%nat as Hle.
    { pose proof (length_there n p Hn) as E. fold rs in E. rewrite length_take in E. lia. }
    clearbody rs. revert Hle. generalize (Z.to_nat n). clear. intros m. revert rs.
    induction m as [|m IH]; intros [|r rs] Hle; simpl in *; try done; [lia|].
    rewrite <-IH by lia. done. }
  apply writes_rects.
Qed.

Lemma length_wire_window_new_update b : ok_window_new_update b ->
  Z.of_nat (length (wire_window_new_update b)) = size_window_new_update b.
Proof.
  intros (Ht & Hw & Hv). apply length_there in Ht, Hw, Hv.
  unfold wire_window_new_update, size_window_new_update.
  rewrite !length_app, !length_le, !length_wire_rects. lia.
Qed.

Lemma size_window_sum b :
  10 + 5 * 4 + (2 + ulength (titleInfo b)) + 12 * 4 + (2 + numWindowRects b * 8) + (4 + 4) +
  (2 + numVisibilityRects b * 8) + 4 = 10 + size_window_new_update b.
Proof. unfold size_window_new_update. lia. Qed.

#[global] Program Instance encoder_window_new_update :
  Encoder freerds_write_window_new_update := {
  ok := ok_window_new_update;
  norm b := b;
  wire := wire_window_new_update;
  wrect _ := None;
}.
Next Obligation.
  intros c b Hok. cbv beta. rewrite length_wire_window_new_update by done.
  unfold header_size. rewrite <-size_window_sum. codec_size_tac.
Qed.
Next Obligation.
  intros c b Hok. cbv zeta. rewrite length_wire_window_new_update by done.
  destruct Hok as (Ht & Hw & Hv). apply writes_on_stream. unfold wire_window_new_update. cbn [body].
  eapply writes_eq.
  - eapply writes_bind; [apply writes_header|].
    repeat (eapply writes_bind;
      [first [apply writes_32 | apply writes_16 | by apply writes_there | by apply writes_rects_there]|]).
    apply writes_ret.
  - unfold out_common, header_size. rewrite <-size_window_sum, app_nil_r. reflexivity.
  - unfold out_common, header_size. rewrite <-size_window_sum. reflexivity.
Qed.
End Facts.
End WindowNewUpdate.
