(* ===== verification/MsgTable.v ===== *)
(** * The message tables

    [RDS_MSG_DEFINITION] and the tables of freerds/backend/protocol.c: the
    copy and free function of every message, the definitions, the two tables of
    32 entries and the functions that dispatch on the message type through
    them.

    A [RDS_MSG_COMMON*] that points to one of the message structs is a
    [MSG msg_body]; [msg_body] has one constructor per struct.  Using a struct
    of another kind than the table entry expects, and indexing a table out of
    bounds, are undefined ([None]).

    The copy functions report the blocks they allocate and the free functions
    the blocks they release, so that ownership can be stated; a copy of a
    pointer field without a new block shares the block. *)

From Stdlib Require Import String.
From S2P Require Import Prelude WStream Message ClientMsg ServerMsg VarMsg SessionMsg WindowMsg.
#[local] Close Scope string_scope.

(** ** The structs behind [RDS_MSG_COMMON*] *)

Inductive msg_body :=
| mBeginUpdate (b : BeginUpdate.RDS_MSG_BEGIN_UPDATE)
| mEndUpdate (b : EndUpdate.RDS_MSG_END_UPDATE)
| mSetClippingRegion (b : SetClippingRegion.RDS_MSG_SET_CLIPPING_REGION)
| mOpaqueRect (b : OpaqueRect.RDS_MSG_OPAQUE_RECT)
| mScreenBlt (b : ScreenBlt.RDS_MSG_SCREEN_BLT)
| mPaintRect (b : PaintRect.RDS_MSG_PAINT_RECT)
| mPatBlt (b : PatBlt.RDS_MSG_PATBLT)
| mDstBlt (b : DstBlt.RDS_MSG_DSTBLT)
| mLineTo (b : LineTo.RDS_MSG_LINE_TO)
| mCreateOffscreenSurface (b : CreateOffscreenSurface.RDS_MSG_CREATE_OFFSCREEN_SURFACE)
| mSwitchOffscreenSurface (b : SwitchOffscreenSurface.RDS_MSG_SWITCH_OFFSCREEN_SURFACE)
| mDeleteOffscreenSurface (b : DeleteOffscreenSurface.RDS_MSG_DELETE_OFFSCREEN_SURFACE)
| mPaintOffscreenSurface (b : PaintOffscreenSurface.RDS_MSG_PAINT_OFFSCREEN_SURFACE)
| mSetPalette (b : Stubs.RDS_MSG_SET_PALETTE)
| mCacheGlyph (b : Stubs.RDS_MSG_CACHE_GLYPH)
| mGlyphIndex (b : Stubs.RDS_MSG_GLYPH_INDEX)
| mSetPointer (b : SetPointer.RDS_MSG_SET_POINTER)
| mSharedFramebuffer (b : SharedFramebuffer.RDS_MSG_SHARED_FRAMEBUFFER)
| mBeep (b : Stubs.RDS_MSG_BEEP)
| mReset (b : Stubs.RDS_MSG_RESET)
| mWindowNewUpdate (b : WindowNewUpdate.RDS_MSG_WINDOW_NEW_UPDATE)
| mWindowDelete (b : WindowDelete.RDS_MSG_WINDOW_DELETE)
| mSetSystemPointer (b : SetSystemPointer.RDS_MSG_SET_SYSTEM_POINTER)
| mLogonUser (b : LogonUser.RDS_MSG_LOGON_USER)
| mLogoffUser (b : LogoffUser.RDS_MSG_LOGOFF_USER)
| mSuppressOutput (b : SuppressOutput.RDS_MSG_SUPPRESS_OUTPUT).

(** Access to a struct of kind [B]. *)
Class View (B : Type) := {
  inj : B -> msg_body;
  proj : msg_body -> option B;
  proj_inj b : proj (inj b) = Some b;
}.

#[global] Instance view_begin_update : View BeginUpdate.RDS_MSG_BEGIN_UPDATE :=
  {| inj := mBeginUpdate; proj m := match m with mBeginUpdate b => Some b | _ => None end; proj_inj b := eq_refl |}.
#[global] Instance view_end_update : View EndUpdate.RDS_MSG_END_UPDATE :=
  {| inj := mEndUpdate; proj m := match m with mEndUpdate b => Some b | _ => None end; proj_inj b := eq_refl |}.
#[global] Instance view_set_clipping_region : View SetClippingRegion.RDS_MSG_SET_CLIPPING_REGION :=
  {| inj := mSetClippingRegion; proj m := match m with mSetClippingRegion b => Some b | _ => None end; proj_inj b := eq_refl |}.
#[global] Instance view_opaque_rect : View OpaqueRect.RDS_MSG_OPAQUE_RECT :=
  {| inj := mOpaqueRect; proj m := match m with mOpaqueRect b => Some b | _ => None end; proj_inj b := eq_refl |}.
#[global] Instance view_screen_blt : View ScreenBlt.RDS_MSG_SCREEN_BLT :=
  {| inj := mScreenBlt; proj m := match m with mScreenBlt b => Some b | _ => None end; proj_inj b := eq_refl |}.
#[global] Instance view_paint_rect : View PaintRect.RDS_MSG_PAINT_RECT :=
  {| inj := mPaintRect; proj m := match m with mPaintRect b => Some b | _ => None end; proj_inj b := eq_refl |}.
#[global] Instance view_patblt : View PatBlt.RDS_MSG_PATBLT :=
  {| inj := mPatBlt; proj m := match m with mPatBlt b => Some b | _ => None end; proj_inj b := eq_refl |}.
#[global] Instance view_dstblt : View DstBlt.RDS_MSG_DSTBLT :=
  {| inj := mDstBlt; proj m := match m with mDstBlt b => Some b | _ => None end; proj_inj b := eq_refl |}.
#[global] Instance view_line_to : View LineTo.RDS_MSG_LINE_TO :=
  {| inj := mLineTo; proj m := match m with mLineTo b => Some b | _ => None end; proj_inj b := eq_refl |}.
#[global] Instance view_create_offscreen_surface : View CreateOffscreenSurface.RDS_MSG_CREATE_OFFSCREEN_SURFACE :=
  {| inj := mCreateOffscreenSurface; proj m := match m with mCreateOffscreenSurface b => Some b | _ => None end; proj_inj b := eq_refl |}.
#[global] Instance view_switch_offscreen_surface : View SwitchOffscreenSurface.RDS_MSG_SWITCH_OFFSCREEN_SURFACE :=
  {| inj := mSwitchOffscreenSurface; proj m := match m with mSwitchOffscreenSurface b => Some b | _ => None end; proj_inj b := eq_refl |}.
#[global] Instance view_delete_offscreen_surface : View DeleteOffscreenSurface.RDS_MSG_DELETE_OFFSCREEN_SURFACE :=
  {| inj := mDeleteOffscreenSurface; proj m := match m with mDeleteOffscreenSurface b => Some b | _ => None end; proj_inj b := eq_refl |}.
#[global] Instance view_paint_offscreen_surface : View PaintOffscreenSurface.RDS_MSG_PAINT_OFFSCREEN_SURFACE :=
  {| inj := mPaintOffscreenSurface; proj m := match m with mPaintOffscreenSurface b => Some b | _ => None end; proj_inj b := eq_refl |}.
#[global] Instance view_set_palette : View Stubs.RDS_MSG_SET_PALETTE :=
  {| inj := mSetPalette; proj m := match m with mSetPalette b => Some b | _ => None end; proj_inj b := eq_refl |}.
#[global] Instance view_cache_glyph : View Stubs.RDS_MSG_CACHE_GLYPH :=
  {| inj := mCacheGlyph; proj m := match m with mCacheGlyph b => Some b | _ => None end; proj_inj b := eq_refl |}.
#[global] Instance view_glyph_index : View Stubs.RDS_MSG_GLYPH_INDEX :=
  {| inj := mGlyphIndex; proj m := match m with mGlyphIndex b => Some b | _ => None end; proj_inj b := eq_refl |}.
#[global] Instance view_set_pointer : View SetPointer.RDS_MSG_SET_POINTER :=
  {| inj := mSetPointer; proj m := match m with mSetPointer b => Some b | _ => None end; proj_inj b := eq_refl |}.
#[global] Instance view_shared_framebuffer : View SharedFramebuffer.RDS_MSG_SHARED_FRAMEBUFFER :=
  {| inj := mSharedFramebuffer; proj m := match m with mSharedFramebuffer b => Some b | _ => None end; proj_inj b := eq_refl |}.
#[global] Instance view_beep : View Stubs.RDS_MSG_BEEP :=
  {| inj := mBeep; proj m := match m with mBeep b => Some b | _ => None end; proj_inj b := eq_refl |}.
#[global] Instance view_reset : View Stubs.RDS_MSG_RESET :=
  {| inj := mReset; proj m := match m with mReset b => Some b | _ => None end; proj_inj b := eq_refl |}.
#[global] Instance view_window_new_update : View WindowNewUpdate.RDS_MSG_WINDOW_NEW_UPDATE :=
  {| inj := mWindowNewUpdate; proj m := match m with mWindowNewUpdate b => Some b | _ => None end; proj_inj b := eq_refl |}.
#[global] Instance view_window_delete : View WindowDelete.RDS_MSG_WINDOW_DELETE :=
  {| inj := mWindowDelete; proj m := match m with mWindowDelete b => Some b | _ => None end; proj_inj b := eq_refl |}.
#[global] Instance view_set_system_pointer : View SetSystemPointer.RDS_MSG_SET_SYSTEM_POINTER :=
  {| inj := mSetSystemPointer; proj m := match m with mSetSystemPointer b => Some b | _ => None end; proj_inj b := eq_refl |}.
#[global] Instance view_logon_user : View LogonUser.RDS_MSG_LOGON_USER :=
  {| inj := mLogonUser; proj m := match m with mLogonUser b => Some b | _ => None end; proj_inj b := eq_refl |}.
#[global] Instance view_logoff_user : View LogoffUser.RDS_MSG_LOGOFF_USER :=
  {| inj := mLogoffUser; proj m := match m with mLogoffUser b => Some b | _ => None end; proj_inj b := eq_refl |}.
#[global] Instance view_suppress_output : View SuppressOutput.RDS_MSG_SUPPRESS_OUTPUT :=
  {| inj := mSuppressOutput; proj m := match m with mSuppressOutput b => Some b | _ => None end; proj_inj b := eq_refl |}.

(** ** Copy and free

    The heap blocks that belong to a struct. *)
Inductive block :=
| blk_struct | blk_bitmapData | blk_andMaskData | blk_xorMaskData
| blk_User | blk_Domain | blk_Password.

#[global] Instance block_eq_dec : EqDecision block.
Proof. solve_decision. Defined.

(** [malloc(sizeof( *msg)); CopyMemory(dup, msg, sizeof( *msg))] *)
Definition struct_copy {B} (msg : MSG B) : option (MSG B * list block) := Some (msg, [blk_struct]).

(** [malloc(n); CopyMemory(q, p, n)] *)
Definition dup_bytes (p : option (list Z)) (n : Z) : option (option (list Z)) :=
  bs ← p;
  if decide (n <= Z.of_nat (length bs)) then Some (Some (take (Z.to_nat n) bs)) else None.

Definition freerds_begin_update_copy (msg : MSG BeginUpdate.RDS_MSG_BEGIN_UPDATE) : option (MSG BeginUpdate.RDS_MSG_BEGIN_UPDATE * list block) :=
  struct_copy msg.
Definition freerds_begin_update_free (msg : MSG BeginUpdate.RDS_MSG_BEGIN_UPDATE) : list block := [blk_struct].

Definition freerds_end_update_copy (msg : MSG EndUpdate.RDS_MSG_END_UPDATE) : option (MSG EndUpdate.RDS_MSG_END_UPDATE * list block) :=
  struct_copy msg.
Definition freerds_end_update_free (msg : MSG EndUpdate.RDS_MSG_END_UPDATE) : list block := [blk_struct].

Definition freerds_set_clipping_region_copy (msg : MSG SetClippingRegion.RDS_MSG_SET_CLIPPING_REGION) : option (MSG SetClippingRegion.RDS_MSG_SET_CLIPPING_REGION * list block) :=
  struct_copy msg.
Definition freerds_set_clipping_region_free (msg : MSG SetClippingRegion.RDS_MSG_SET_CLIPPING_REGION) : list block := [blk_struct].

Definition freerds_opaque_rect_copy (msg : MSG OpaqueRect.RDS_MSG_OPAQUE_RECT) : option (MSG OpaqueRect.RDS_MSG_OPAQUE_RECT * list block) :=
  struct_copy msg.
Definition freerds_opaque_rect_free (msg : MSG OpaqueRect.RDS_MSG_OPAQUE_RECT) : list block := [blk_struct].

Definition freerds_screen_blt_copy (msg : MSG ScreenBlt.RDS_MSG_SCREEN_BLT) : option (MSG ScreenBlt.RDS_MSG_SCREEN_BLT * list block) :=
  struct_copy msg.
Definition freerds_screen_blt_free (msg : MSG ScreenBlt.RDS_MSG_SCREEN_BLT) : list block := [blk_struct].

Definition freerds_patblt_copy (msg : MSG PatBlt.RDS_MSG_PATBLT) : option (MSG PatBlt.RDS_MSG_PATBLT * list block) :=
  struct_copy msg.
Definition freerds_patblt_free (msg : MSG PatBlt.RDS_MSG_PATBLT) : list block := [blk_struct].

Definition freerds_dstblt_copy (msg : MSG DstBlt.RDS_MSG_DSTBLT) : option (MSG DstBlt.RDS_MSG_DSTBLT * list block) :=
  struct_copy msg.
Definition freerds_dstblt_free (msg : MSG DstBlt.RDS_MSG_DSTBLT) : list block := [blk_struct].

Definition freerds_line_to_copy (msg : MSG LineTo.RDS_MSG_LINE_TO) : option (MSG LineTo.RDS_MSG_LINE_TO * list block) :=
  struct_copy msg.
Definition freerds_line_to_free (msg : MSG LineTo.RDS_MSG_LINE_TO) : list block := [blk_struct].

Definition freerds_create_offscreen_surface_copy (msg : MSG CreateOffscreenSurface.RDS_MSG_CREATE_OFFSCREEN_SURFACE) : option (MSG CreateOffscreenSurface.RDS_MSG_CREATE_OFFSCREEN_SURFACE * list block) :=
  struct_copy msg.
Definition freerds_create_offscreen_surface_free (msg : MSG CreateOffscreenSurface.RDS_MSG_CREATE_OFFSCREEN_SURFACE) : list block := [blk_struct].

Definition freerds_switch_offscreen_surface_copy (msg : MSG SwitchOffscreenSurface.RDS_MSG_SWITCH_OFFSCREEN_SURFACE) : option (MSG SwitchOffscreenSurface.RDS_MSG_SWITCH_OFFSCREEN_SURFACE * list block) :=
  struct_copy msg.
Definition freerds_switch_offscreen_surface_free (msg : MSG SwitchOffscreenSurface.RDS_MSG_SWITCH_OFFSCREEN_SURFACE) : list block := [blk_struct].

Definition freerds_delete_offscreen_surface_copy (msg : MSG DeleteOffscreenSurface.RDS_MSG_DELETE_OFFSCREEN_SURFACE) : option (MSG DeleteOffscreenSurface.RDS_MSG_DELETE_OFFSCREEN_SURFACE * list block) :=
  struct_copy msg.
Definition freerds_delete_offscreen_surface_free (msg : MSG DeleteOffscreenSurface.RDS_MSG_DELETE_OFFSCREEN_SURFACE) : list block := [blk_struct].

Definition freerds_paint_offscreen_surface_copy (msg : MSG PaintOffscreenSurface.RDS_MSG_PAINT_OFFSCREEN_SURFACE) : option (MSG PaintOffscreenSurface.RDS_MSG_PAINT_OFFSCREEN_SURFACE * list block) :=
  struct_copy msg.
Definition freerds_paint_offscreen_surface_free (msg : MSG PaintOffscreenSurface.RDS_MSG_PAINT_OFFSCREEN_SURFACE) : list block := [blk_struct].

Definition freerds_set_palette_copy (msg : MSG Stubs.RDS_MSG_SET_PALETTE) : option (MSG Stubs.RDS_MSG_SET_PALETTE * list block) :=
  struct_copy msg.
Definition freerds_set_palette_free (msg : MSG Stubs.RDS_MSG_SET_PALETTE) : list block := [blk_struct].

Definition freerds_cache_glyph_copy (msg : MSG Stubs.RDS_MSG_CACHE_GLYPH) : option (MSG Stubs.RDS_MSG_CACHE_GLYPH * list block) :=
  struct_copy msg.
Definition freerds_cache_glyph_free (msg : MSG Stubs.RDS_MSG_CACHE_GLYPH) : list block := [blk_struct].

Definition freerds_glyph_index_copy (msg : MSG Stubs.RDS_MSG_GLYPH_INDEX) : option (MSG Stubs.RDS_MSG_GLYPH_INDEX * list block) :=
  struct_copy msg.
Definition freerds_glyph_index_free (msg : MSG Stubs.RDS_MSG_GLYPH_INDEX) : list block := [blk_struct].

Definition freerds_shared_framebuffer_copy (msg : MSG SharedFramebuffer.RDS_MSG_SHARED_FRAMEBUFFER) : option (MSG SharedFramebuffer.RDS_MSG_SHARED_FRAMEBUFFER * list block) :=
  struct_copy msg.
Definition freerds_shared_framebuffer_free (msg : MSG SharedFramebuffer.RDS_MSG_SHARED_FRAMEBUFFER) : list block := [blk_struct].

Definition freerds_beep_copy (msg : MSG Stubs.RDS_MSG_BEEP) : option (MSG Stubs.RDS_MSG_BEEP * list block) :=
  struct_copy msg.
Definition freerds_beep_free (msg : MSG Stubs.RDS_MSG_BEEP) : list block := [blk_struct].

Definition freerds_reset_copy (msg : MSG Stubs.RDS_MSG_RESET) : option (MSG Stubs.RDS_MSG_RESET * list block) :=
  struct_copy msg.
Definition freerds_reset_free (msg : MSG Stubs.RDS_MSG_RESET) : list block := [blk_struct].

Definition freerds_window_new_update_copy (msg : MSG WindowNewUpdate.RDS_MSG_WINDOW_NEW_UPDATE) : option (MSG WindowNewUpdate.RDS_MSG_WINDOW_NEW_UPDATE * list block) :=
  struct_copy msg.
Definition freerds_window_new_update_free (msg : MSG WindowNewUpdate.RDS_MSG_WINDOW_NEW_UPDATE) : list block := [blk_struct].

Definition freerds_window_delete_copy (msg : MSG WindowDelete.RDS_MSG_WINDOW_DELETE) : option (MSG WindowDelete.RDS_MSG_WINDOW_DELETE * list block) :=
  struct_copy msg.
Definition freerds_window_delete_free (msg : MSG WindowDelete.RDS_MSG_WINDOW_DELETE) : list block := [blk_struct].

Definition freerds_set_system_pointer_copy (msg : MSG SetSystemPointer.RDS_MSG_SET_SYSTEM_POINTER) : option (MSG SetSystemPointer.RDS_MSG_SET_SYSTEM_POINTER * list block) :=
  struct_copy msg.
Definition freerds_set_system_pointer_free (msg : MSG SetSystemPointer.RDS_MSG_SET_SYSTEM_POINTER) : list block := [blk_struct].

Definition freerds_logoff_user_copy (msg : MSG LogoffUser.RDS_MSG_LOGOFF_USER) : option (MSG LogoffUser.RDS_MSG_LOGOFF_USER * list block) :=
  struct_copy msg.
Definition freerds_logoff_user_free (msg : MSG LogoffUser.RDS_MSG_LOGOFF_USER) : list block := [blk_struct].

Definition freerds_suppress_output_copy (msg : MSG SuppressOutput.RDS_MSG_SUPPRESS_OUTPUT) : option (MSG SuppressOutput.RDS_MSG_SUPPRESS_OUTPUT * list block) :=
  struct_copy msg.
Definition freerds_suppress_output_free (msg : MSG SuppressOutput.RDS_MSG_SUPPRESS_OUTPUT) : list block := [blk_struct].

Definition freerds_paint_rect_copy (msg : MSG PaintRect.RDS_MSG_PAINT_RECT) :
    option (MSG PaintRect.RDS_MSG_PAINT_RECT * list block) :=
  let b := body msg in
  if PaintRect.bitmapDataLength b =? 0 then Some (msg, [blk_struct]) else
  p ← dup_bytes (PaintRect.bitmapData b) (PaintRect.bitmapDataLength b);
  Some (set_body (PaintRect.mk (PaintRect.nLeftRect b) (PaintRect.nTopRect b) (PaintRect.nWidth b)
          (PaintRect.nHeight b) (PaintRect.nXSrc b) (PaintRect.nYSrc b) p
          (PaintRect.bitmapDataLength b) (PaintRect.fbSegmentId b) (PaintRect.framebuffer b)) msg,
        [blk_struct; blk_bitmapData]).
Definition freerds_paint_rect_free (msg : MSG PaintRect.RDS_MSG_PAINT_RECT) : list block :=
  (if PaintRect.bitmapDataLength (body msg) =? 0 then [] else [blk_bitmapData]) ++ [blk_struct].

(** [if (p) { q = malloc(n); CopyMemory(q, p, n); }] *)
Definition dup_mask (p : option (list Z)) (n : Z) (blk : block) :
    option (option (list Z) * list block) :=
  match p with
  | None => Some (None, [])
  | Some _ => q ← dup_bytes p n; Some (q, [blk])
  end.
Definition freerds_set_pointer_copy (msg : MSG SetPointer.RDS_MSG_SET_POINTER) :
    option (MSG SetPointer.RDS_MSG_SET_POINTER * list block) :=
  let b := body msg in
  '(a, ba) ← dup_mask (SetPointer.andMaskData b) (SetPointer.lengthAndMask b) blk_andMaskData;
  '(x, bx) ← dup_mask (SetPointer.xorMaskData b) (SetPointer.lengthXorMask b) blk_xorMaskData;
  Some (set_body (SetPointer.mk (SetPointer.xorBpp b) (SetPointer.xPos b) (SetPointer.yPos b)
          (SetPointer.width b) (SetPointer.height b) (SetPointer.lengthAndMask b)
          (SetPointer.lengthXorMask b) x a) msg,
        [blk_struct] ++ ba ++ bx).
Definition freerds_set_pointer_free (msg : MSG SetPointer.RDS_MSG_SET_POINTER) : list block :=
  match SetPointer.andMaskData (body msg) with Some _ => [blk_andMaskData] | None => [] end ++
  match SetPointer.xorMaskData (body msg) with Some _ => [blk_xorMaskData] | None => [] end ++ [blk_struct].

Definition freerds_logon_user_copy (msg : MSG LogonUser.RDS_MSG_LOGON_USER) :
    option (MSG LogonUser.RDS_MSG_LOGON_USER * list block) :=
  let b := body msg in
  let blk n x := if n =? 0 then [] else [x] in
  u ← LogonUser.copy_string (LogonUser.User b) (LogonUser.UserLength b);
  d ← LogonUser.copy_string (LogonUser.Domain b) (LogonUser.DomainLength b);
  p ← LogonUser.copy_string (LogonUser.Password b) (LogonUser.PasswordLength b);
  Some (set_body (LogonUser.mk (LogonUser.Flags b) (LogonUser.UserLength b)
          (LogonUser.DomainLength b) (LogonUser.PasswordLength b) u d p) msg,
        [blk_struct] ++ blk (LogonUser.UserLength b) blk_User ++
        blk (LogonUser.DomainLength b) blk_Domain ++
        blk (LogonUser.PasswordLength b) blk_Password).
Definition freerds_logon_user_free (msg : MSG LogonUser.RDS_MSG_LOGON_USER) : list block :=
  [blk_struct].

(** ** Definitions *)

Section Tables.
Context {W : WStream} {F : WindowOrder}.

(** The casts [(pRdsMessageRead) f] and the like: the functions of a message
    as functions on [RDS_MSG_COMMON*]. *)
Definition cast_read {B} `{View B} (rd : reader B) (msg : MSG msg_body) : SM (Z * MSG msg_body) :=
  match proj (body msg) with
  | None => fault
  | Some b => '(st, m) ← rd (Msg (common msg) b); mret (st, Msg (common m) (inj (body m)))
  end.

Definition cast_write {B} `{View B} (wr : writer B) (s : option wStream) (msg : MSG msg_body) :
    option ((Z * MSG msg_body) * option wStream) :=
  b ← proj (body msg);
  '((st, m), s') ← wr s (Msg (common msg) b);
  Some ((st, Msg (common m) (inj (body m))), s').

Definition cast_copy {B} `{View B} (cp : MSG B -> option (MSG B * list block))
    (msg : MSG msg_body) : option (MSG msg_body * list block) :=
  b ← proj (body msg);
  '(m, bl) ← cp (Msg (common msg) b);
  Some (Msg (common m) (inj (body m)), bl).

Definition cast_free {B} `{View B} (fr : MSG B -> list block) (msg : MSG msg_body) :
    option (list block) :=
  b ← proj (body msg); Some (fr (Msg (common msg) b)).

Record RDS_MSG_DEFINITION := mk_def {
  Name : string;
  Read : MSG msg_body -> SM (Z * MSG msg_body);
  Write : option wStream -> MSG msg_body -> option ((Z * MSG msg_body) * option wStream);
  Copy : MSG msg_body -> option (MSG msg_body * list block);
  Free : MSG msg_body -> option (list block);
}.

Definition RDS_MSG_BEGIN_UPDATE_DEFINITION : RDS_MSG_DEFINITION :=
  mk_def "BeginUpdate" (cast_read BeginUpdate.freerds_read_begin_update) (cast_write BeginUpdate.freerds_write_begin_update)
    (cast_copy freerds_begin_update_copy) (cast_free freerds_begin_update_free).

Definition RDS_MSG_END_UPDATE_DEFINITION : RDS_MSG_DEFINITION :=
  mk_def "EndUpdate" (cast_read EndUpdate.freerds_read_end_update) (cast_write EndUpdate.freerds_write_end_update)
    (cast_copy freerds_end_update_copy) (cast_free freerds_end_update_free).

Definition RDS_MSG_SET_CLIPPING_REGION_DEFINITION : RDS_MSG_DEFINITION :=
  mk_def "SetClippingRegion" (cast_read SetClippingRegion.freerds_read_set_clipping_region) (cast_write SetClippingRegion.freerds_write_set_clipping_region)
    (cast_copy freerds_set_clipping_region_copy) (cast_free freerds_set_clipping_region_free).

Definition RDS_MSG_OPAQUE_RECT_DEFINITION : RDS_MSG_DEFINITION :=
  mk_def "OpaqueRect" (cast_read OpaqueRect.freerds_read_opaque_rect) (cast_write OpaqueRect.freerds_write_opaque_rect)
    (cast_copy freerds_opaque_rect_copy) (cast_free freerds_opaque_rect_free).

Definition RDS_MSG_SCREEN_BLT_DEFINITION : RDS_MSG_DEFINITION :=
  mk_def "ScreenBlt" (cast_read ScreenBlt.freerds_read_screen_blt) (cast_write ScreenBlt.freerds_write_screen_blt)
    (cast_copy freerds_screen_blt_copy) (cast_free freerds_screen_blt_free).

Definition RDS_MSG_PAINT_RECT_DEFINITION : RDS_MSG_DEFINITION :=
  mk_def "PaintRect" (cast_read PaintRect.freerds_read_paint_rect) (cast_write PaintRect.freerds_write_paint_rect)
    (cast_copy freerds_paint_rect_copy) (cast_free freerds_paint_rect_free).

Definition RDS_MSG_PATBLT_DEFINITION : RDS_MSG_DEFINITION :=
  mk_def "PatBlt" (cast_read PatBlt.freerds_read_patblt) (cast_write PatBlt.freerds_write_patblt)
    (cast_copy freerds_patblt_copy) (cast_free freerds_patblt_free).

Definition RDS_MSG_DSTBLT_DEFINITION : RDS_MSG_DEFINITION :=
  mk_def "DstBlt" (cast_read DstBlt.freerds_read_dstblt) (cast_write DstBlt.freerds_write_dstblt)
    (cast_copy freerds_dstblt_copy) (cast_free freerds_dstblt_free).

Definition RDS_MSG_LINE_TO_DEFINITION : RDS_MSG_DEFINITION :=
  mk_def "LineTo" (cast_read LineTo.freerds_read_line_to) (cast_write LineTo.freerds_write_line_to)
    (cast_copy freerds_line_to_copy) (cast_free freerds_line_to_free).

Definition RDS_MSG_CREATE_OFFSCREEN_SURFACE_DEFINITION : RDS_MSG_DEFINITION :=
  mk_def "CreateOffscreenSurface" (cast_read CreateOffscreenSurface.freerds_read_create_offscreen_surface) (cast_write CreateOffscreenSurface.freerds_write_create_offscreen_surface)
    (cast_copy freerds_create_offscreen_surface_copy) (cast_free freerds_create_offscreen_surface_free).

Definition RDS_MSG_SWITCH_OFFSCREEN_SURFACE_DEFINITION : RDS_MSG_DEFINITION :=
  mk_def "SwitchOffscreenSurface" (cast_read SwitchOffscreenSurface.freerds_read_switch_offscreen_surface) (cast_write SwitchOffscreenSurface.freerds_write_switch_offscreen_surface)
    (cast_copy freerds_switch_offscreen_surface_copy) (cast_free freerds_switch_offscreen_surface_free).

Definition RDS_MSG_DELETE_OFFSCREEN_SURFACE_DEFINITION : RDS_MSG_DEFINITION :=
  mk_def "DeleteOffscreenSurface" (cast_read DeleteOffscreenSurface.freerds_read_delete_offscreen_surface) (cast_write DeleteOffscreenSurface.freerds_write_delete_offscreen_surface)
    (cast_copy freerds_delete_offscreen_surface_copy) (cast_free freerds_delete_offscreen_surface_free).

Definition RDS_MSG_PAINT_OFFSCREEN_SURFACE_DEFINITION : RDS_MSG_DEFINITION :=
  mk_def "PaintOffscreenSurface" (cast_read PaintOffscreenSurface.freerds_read_paint_offscreen_surface) (cast_write PaintOffscreenSurface.freerds_write_paint_offscreen_surface)
    (cast_copy freerds_paint_offscreen_surface_copy) (cast_free freerds_paint_offscreen_surface_free).

Definition RDS_MSG_SET_PALETTE_DEFINITION : RDS_MSG_DEFINITION :=
  mk_def "SetPalette" (cast_read Stubs.freerds_read_set_palette) (cast_write Stubs.freerds_write_set_palette)
    (cast_copy freerds_set_palette_copy) (cast_free freerds_set_palette_free).

Definition RDS_MSG_CACHE_GLYPH_DEFINITION : RDS_MSG_DEFINITION :=
  mk_def "CacheGlyph" (cast_read Stubs.freerds_read_cache_glyph) (cast_write Stubs.freerds_write_cache_glyph)
    (cast_copy freerds_cache_glyph_copy) (cast_free freerds_cache_glyph_free).

Definition RDS_MSG_GLYPH_INDEX_DEFINITION : RDS_MSG_DEFINITION :=
  mk_def "GlyphIndex" (cast_read Stubs.freerds_read_glyph_index) (cast_write Stubs.freerds_write_glyph_index)
    (cast_copy freerds_glyph_index_copy) (cast_free freerds_glyph_index_free).

Definition RDS_MSG_SET_POINTER_DEFINITION : RDS_MSG_DEFINITION :=
  mk_def "SetPointer" (cast_read SetPointer.freerds_read_set_pointer) (cast_write SetPointer.freerds_write_set_pointer)
    (cast_copy freerds_set_pointer_copy) (cast_free freerds_set_pointer_free).

Definition RDS_MSG_SHARED_FRAMEBUFFER_DEFINITION : RDS_MSG_DEFINITION :=
  mk_def "SharedFramebuffer" (cast_read SharedFramebuffer.freerds_read_shared_framebuffer) (cast_write SharedFramebuffer.freerds_write_shared_framebuffer)
    (cast_copy freerds_shared_framebuffer_copy) (cast_free freerds_shared_framebuffer_free).

Definition RDS_MSG_BEEP_DEFINITION : RDS_MSG_DEFINITION :=
  mk_def "Beep" (cast_read Stubs.freerds_read_beep) (cast_write Stubs.freerds_write_beep)
    (cast_copy freerds_beep_copy) (cast_free freerds_beep_free).

Definition RDS_MSG_RESET_DEFINITION : RDS_MSG_DEFINITION :=
  mk_def "Reset" (cast_read Stubs.freerds_read_reset) (cast_write Stubs.freerds_write_reset)
    (cast_copy freerds_reset_copy) (cast_free freerds_reset_free).

Definition RDS_MSG_WINDOW_NEW_UPDATE_DEFINITION : RDS_MSG_DEFINITION :=
  mk_def "WindowNewUpdate" (cast_read WindowNewUpdate.freerds_read_window_new_update) (cast_write WindowNewUpdate.freerds_write_window_new_update)
    (cast_copy freerds_window_new_update_copy) (cast_free freerds_window_new_update_free).

Definition RDS_MSG_WINDOW_DELETE_DEFINITION : RDS_MSG_DEFINITION :=
  mk_def "WindowDelete" (cast_read WindowDelete.freerds_read_window_delete) (cast_write WindowDelete.freerds_write_window_delete)
    (cast_copy freerds_window_delete_copy) (cast_free freerds_window_delete_free).

Definition RDS_MSG_SET_SYSTEM_POINTER_DEFINITION : RDS_MSG_DEFINITION :=
  mk_def "SetSystemPointer" (cast_read SetSystemPointer.freerds_read_set_system_pointer) (cast_write SetSystemPointer.freerds_write_set_system_pointer)
    (cast_copy freerds_set_system_pointer_copy) (cast_free freerds_set_system_pointer_free).

Definition RDS_MSG_LOGON_USER_DEFINITION : RDS_MSG_DEFINITION :=
  mk_def "LogonUser" (cast_read LogonUser.freerds_read_logon_user) (cast_write LogonUser.freerds_write_logon_user)
    (cast_copy freerds_logon_user_copy) (cast_free freerds_logon_user_free).

Definition RDS_MSG_LOGOFF_USER_DEFINITION : RDS_MSG_DEFINITION :=
  mk_def "LogoffUser" (cast_read LogoffUser.freerds_read_logoff_user) (cast_write LogoffUser.freerds_write_logoff_user)
    (cast_copy freerds_logoff_user_copy) (cast_free freerds_logoff_user_free).

Definition RDS_MSG_SUPPRESS_OUTPUT_DEFINITION : RDS_MSG_DEFINITION :=
  mk_def "Suppress output" (cast_read SuppressOutput.freerds_read_suppress_output) (cast_write SuppressOutput.freerds_write_suppress_output)
    (cast_copy freerds_suppress_output_copy) (cast_free freerds_suppress_output_free).

Definition RDS_SERVER_MSG_DEFINITIONS : list (option RDS_MSG_DEFINITION) := [
  None;
  Some RDS_MSG_BEGIN_UPDATE_DEFINITION;
  Some RDS_MSG_END_UPDATE_DEFINITION;
  Some RDS_MSG_SET_CLIPPING_REGION_DEFINITION;
  Some RDS_MSG_OPAQUE_RECT_DEFINITION;
  Some RDS_MSG_SCREEN_BLT_DEFINITION;
  Some RDS_MSG_PAINT_RECT_DEFINITION;
  Some RDS_MSG_PATBLT_DEFINITION;
  Some RDS_MSG_DSTBLT_DEFINITION;
  Some RDS_MSG_LINE_TO_DEFINITION;
  Some RDS_MSG_CREATE_OFFSCREEN_SURFACE_DEFINITION;
  Some RDS_MSG_SWITCH_OFFSCREEN_SURFACE_DEFINITION;
  Some RDS_MSG_DELETE_OFFSCREEN_SURFACE_DEFINITION;
  Some RDS_MSG_PAINT_OFFSCREEN_SURFACE_DEFINITION;
  Some RDS_MSG_SET_PALETTE_DEFINITION;
  Some RDS_MSG_CACHE_GLYPH_DEFINITION;
  Some RDS_MSG_GLYPH_INDEX_DEFINITION;
  Some RDS_MSG_SET_POINTER_DEFINITION;
  Some RDS_MSG_SHARED_FRAMEBUFFER_DEFINITION;
  Some RDS_MSG_BEEP_DEFINITION;
  Some RDS_MSG_RESET_DEFINITION;
  Some RDS_MSG_WINDOW_NEW_UPDATE_DEFINITION;
  Some RDS_MSG_WINDOW_DELETE_DEFINITION;
  Some RDS_MSG_SET_SYSTEM_POINTER_DEFINITION;
  Some RDS_MSG_LOGON_USER_DEFINITION;
  Some RDS_MSG_LOGOFF_USER_DEFINITION;
  None;
  None;
  None;
  None;
  None;
  None].

Definition RDS_CLIENT_MSG_DEFINITIONS : list (option RDS_MSG_DEFINITION) := [
  None;
  None;
  None;
  None;
  None;
  None;
  None;
  None;
  None;
  None;
  None;
  Some RDS_MSG_LOGON_USER_DEFINITION;
  Some RDS_MSG_LOGOFF_USER_DEFINITION;
  None;
  Some RDS_MSG_SUPPRESS_OUTPUT_DEFINITION;
  None;
  None;
  None;
  None;
  None;
  None;
  None;
  None;
  None;
  None;
  None;
  None;
  None;
  None;
  None;
  None;
  None].

(** [T[i]]: outside of the array it is undefined. *)
Definition table_get (t : list (option RDS_MSG_DEFINITION)) (i : Z) :
    option (option RDS_MSG_DEFINITION) :=
  if decide (0 <= i) then t !! Z.to_nat i else None.

(** *** Server messages *)

Definition freerds_server_message_name (type : Z) : option string :=
  def ← table_get RDS_SERVER_MSG_DEFINITIONS type;
  Some (match def with Some d => Name d | None => "Unknown"%string end).

Definition freerds_server_message_read (msg : MSG msg_body) : SM (Z * MSG msg_body) :=
  match table_get RDS_SERVER_MSG_DEFINITIONS (msg_type (common msg)) with
  | None => fault
  | Some None => mret (-1, msg)
  | Some (Some d) => Read d msg
  end.

Definition freerds_server_message_write (s : option wStream) (msg : MSG msg_body) :
    option ((Z * MSG msg_body) * option wStream) :=
  if 31 <? msg_type (common msg) then Some ((0, msg), s) else
  def ← table_get RDS_SERVER_MSG_DEFINITIONS (msg_type (common msg));
  match def with
  | None => Some ((i32 (msg_length (common msg)), msg), s)
  | Some d =>
      '((_, m), s') ← Write d s msg;
      Some ((i32 (msg_length (common m)), m), s')
  end.

Definition freerds_server_message_copy (msg : MSG msg_body) :
    option (option (MSG msg_body * list block)) :=
  def ← table_get RDS_SERVER_MSG_DEFINITIONS (msg_type (common msg));
  match def with
  | None => Some None
  | Some d => dup ← Copy d msg; Some (Some dup)
  end.

Definition freerds_server_message_free (msg : MSG msg_body) : option (list block) :=
  def ← table_get RDS_SERVER_MSG_DEFINITIONS (msg_type (common msg));
  match def with None => Some [] | Some d => Free d msg end.

(** *** Client messages *)

(** [int type = msg->type - 100] *)
Definition client_index (type : Z) : Z := i32 (u32 (type - 100)).

Definition freerds_client_message_name (type : Z) : option string :=
  def ← table_get RDS_CLIENT_MSG_DEFINITIONS (u32 (type - 100));
  Some (match def with Some d => Name d | None => "Unknown"%string end).

Definition freerds_client_message_read (msg : MSG msg_body) : SM (Z * MSG msg_body) :=
  match table_get RDS_CLIENT_MSG_DEFINITIONS (client_index (msg_type (common msg))) with
  | None => fault
  | Some None => mret (0, msg)
  | Some (Some d) => Read d msg
  end.

Definition freerds_client_message_write (s : option wStream) (msg : MSG msg_body) :
    option ((Z * MSG msg_body) * option wStream) :=
  let type := client_index (msg_type (common msg)) in
  if 31 <? type then Some ((0, msg), s) else
  def ← table_get RDS_CLIENT_MSG_DEFINITIONS type;
  match def with
  | None => Some ((i32 (msg_length (common msg)), msg), s)
  | Some d =>
      '((_, m), s') ← Write d s msg;
      Some ((i32 (msg_length (common m)), m), s')
  end.

Definition freerds_client_message_copy (msg : MSG msg_body) :
    option (option (MSG msg_body * list block)) :=
  def ← table_get RDS_CLIENT_MSG_DEFINITIONS (client_index (msg_type (common msg)));
  match def with
  | None => Some None
  | Some d => dup ← Copy d msg; Some (Some dup)
  end.

(** The table is indexed with [msg->type], not with [type]. *)
Definition freerds_client_message_free (msg : MSG msg_body) : option (list block) :=
  def ← table_get RDS_CLIENT_MSG_DEFINITIONS (msg_type (common msg));
  match def with None => Some [] | Some d => Free d msg end.
End Tables.
