(* ===== verification/TableFacts.v ===== *)
(** * What the message tables guarantee

    The codecs of the single messages lifted through the tables of MsgTable.v:
    framing of everything the dispatching writer emits, round trips through the
    dispatching reader, memory safety of the reader on arbitrary bytes, and
    ownership of the copies. *)

From S2P Require Import Prelude WStream Message ClientMsg ServerMsg VarMsg SessionMsg WindowMsg.
From S2P Require Import MsgTable.

(** [RDS_SERVER_*] of include/freerds/backend.h: the type of a server message
    with the given struct.  The suppress-output message is a client message. *)
Definition server_type (b : msg_body) : Z :=
  match b with
  | mBeginUpdate _ => RDS_SERVER_BEGIN_UPDATE
  | mEndUpdate _ => RDS_SERVER_END_UPDATE
  | mSetClippingRegion _ => RDS_SERVER_SET_CLIPPING_REGION
  | mOpaqueRect _ => RDS_SERVER_OPAQUE_RECT
  | mScreenBlt _ => RDS_SERVER_SCREEN_BLT
  | mPaintRect _ => RDS_SERVER_PAINT_RECT
  | mPatBlt _ => RDS_SERVER_PATBLT
  | mDstBlt _ => RDS_SERVER_DSTBLT
  | mLineTo _ => RDS_SERVER_LINE_TO
  | mCreateOffscreenSurface _ => RDS_SERVER_CREATE_OFFSCREEN_SURFACE
  | mSwitchOffscreenSurface _ => RDS_SERVER_SWITCH_OFFSCREEN_SURFACE
  | mDeleteOffscreenSurface _ => RDS_SERVER_DELETE_OFFSCREEN_SURFACE
  | mPaintOffscreenSurface _ => RDS_SERVER_PAINT_OFFSCREEN_SURFACE
  | mSetPalette _ => RDS_SERVER_SET_PALETTE
  | mCacheGlyph _ => RDS_SERVER_CACHE_GLYPH
  | mGlyphIndex _ => RDS_SERVER_GLYPH_INDEX
  | mSetPointer _ => RDS_SERVER_SET_POINTER
  | mSharedFramebuffer _ => RDS_SERVER_SHARED_FRAMEBUFFER
  | mBeep _ => RDS_SERVER_BEEP
  | mReset _ => RDS_SERVER_RESET
  | mWindowNewUpdate _ => RDS_SERVER_WINDOW_NEW_UPDATE
  | mWindowDelete _ => RDS_SERVER_WINDOW_DELETE
  | mSetSystemPointer _ => RDS_SERVER_SET_SYSTEM_POINTER
  | mLogonUser _ => RDS_SERVER_LOGON_USER
  | mLogoffUser _ => RDS_SERVER_LOGOFF_USER
  | mSuppressOutput _ => -1
  end.

(** [RDS_CLIENT_*] of the messages in the client table. *)
Definition client_type (b : msg_body) : Z :=
  match b with
  | mLogonUser _ => RDS_CLIENT_LOGON_USER
  | mLogoffUser _ => RDS_CLIENT_LOGOFF_USER
  | mSuppressOutput _ => RDS_CLIENT_SUPPRESS_OUTPUT
  | _ => -1
  end.

(** What the writer of a struct emits, from the codec of its message. *)
Record spec := mk_spec {
  sp_ok : Prop;
  sp_norm : msg_body;
  sp_wire : list Z;
  sp_rect : option RDS_RECT;
}.

Section Specs.
Context {W : WStream} {L : WStreamLaws W} {F : WindowOrder}.

Definition enc_spec {B} `{View B} (wr : writer B) `{E : !Encoder wr} (b : B) : spec :=
  mk_spec (ok b) (inj (norm b)) (wire (norm b)) (wrect b).

(** The messages with empty writers are not transmitted. *)
Definition stub_spec (b : msg_body) : spec := mk_spec False b [] None.

Definition body_spec (m : msg_body) : spec :=
  match m with
  | mBeginUpdate b => enc_spec BeginUpdate.freerds_write_begin_update b
  | mEndUpdate b => enc_spec EndUpdate.freerds_write_end_update b
  | mSetClippingRegion b => enc_spec SetClippingRegion.freerds_write_set_clipping_region b
  | mOpaqueRect b => enc_spec OpaqueRect.freerds_write_opaque_rect b
  | mScreenBlt b => enc_spec ScreenBlt.freerds_write_screen_blt b
  | mPaintRect b => enc_spec PaintRect.freerds_write_paint_rect b
  | mPatBlt b => enc_spec PatBlt.freerds_write_patblt b
  | mDstBlt b => enc_spec DstBlt.freerds_write_dstblt b
  | mLineTo b => enc_spec LineTo.freerds_write_line_to b
  | mCreateOffscreenSurface b => enc_spec CreateOffscreenSurface.freerds_write_create_offscreen_surface b
  | mSwitchOffscreenSurface b => enc_spec SwitchOffscreenSurface.freerds_write_switch_offscreen_surface b
  | mDeleteOffscreenSurface b => enc_spec DeleteOffscreenSurface.freerds_write_delete_offscreen_surface b
  | mPaintOffscreenSurface b => enc_spec PaintOffscreenSurface.freerds_write_paint_offscreen_surface b
  | mSetPalette _ => stub_spec m
  | mCacheGlyph _ => stub_spec m
  | mGlyphIndex _ => stub_spec m
  | mSetPointer b => enc_spec SetPointer.freerds_write_set_pointer b
  | mSharedFramebuffer b => enc_spec SharedFramebuffer.freerds_write_shared_framebuffer b
  | mBeep _ => stub_spec m
  | mReset _ => stub_spec m
  | mWindowNewUpdate b => enc_spec WindowNewUpdate.freerds_write_window_new_update b
  | mWindowDelete b => enc_spec WindowDelete.freerds_write_window_delete b
  | mSetSystemPointer b => enc_spec SetSystemPointer.freerds_write_set_system_pointer b
  | mLogonUser b => enc_spec LogonUser.freerds_write_logon_user b
  | mLogoffUser b => enc_spec LogoffUser.freerds_write_logoff_user b
  | mSuppressOutput b => enc_spec SuppressOutput.freerds_write_suppress_output b
  end.

Definition ok_body (m : msg_body) : Prop := sp_ok (body_spec m).
Definition norm_body (m : msg_body) : msg_body := sp_norm (body_spec m).
Definition wire_body (m : msg_body) : list Z := sp_wire (body_spec m).
Definition rect_body (m : msg_body) : option RDS_RECT := sp_rect (body_spec m).

(** The header and the bytes of a message as they go on the wire. *)
Definition sent_common (c : RDS_MSG_COMMON) (m : msg_body) : RDS_MSG_COMMON :=
  out_common c (Z.of_nat (length (wire_body m))) (rect_body m).
Definition wire_msg (c : RDS_MSG_COMMON) (m : msg_body) : list Z :=
  wire_header (sent_common c m) ++ wire_body m.

(** The struct of a receiver that held [m0] after it has read [m]; [None] when
    the readers of the two kinds differ or the reader is not the inverse of
    the writer. *)
Definition recv_body (m0 m : msg_body) : option msg_body :=
  match m0, m with
  | mBeginUpdate b0, mBeginUpdate b => Some (inj (recv (rd := BeginUpdate.freerds_read_begin_update) (wr := BeginUpdate.freerds_write_begin_update) b0 b))
  | mEndUpdate b0, mEndUpdate b => Some (inj (recv (rd := EndUpdate.freerds_read_end_update) (wr := EndUpdate.freerds_write_end_update) b0 b))
  | mSetClippingRegion b0, mSetClippingRegion b => Some (inj (recv (rd := SetClippingRegion.freerds_read_set_clipping_region) (wr := SetClippingRegion.freerds_write_set_clipping_region) b0 b))
  | mOpaqueRect b0, mOpaqueRect b => Some (inj (recv (rd := OpaqueRect.freerds_read_opaque_rect) (wr := OpaqueRect.freerds_write_opaque_rect) b0 b))
  | mScreenBlt b0, mScreenBlt b => Some (inj (recv (rd := ScreenBlt.freerds_read_screen_blt) (wr := ScreenBlt.freerds_write_screen_blt) b0 b))
  | mPaintRect b0, mPaintRect b => Some (inj (recv (rd := PaintRect.freerds_read_paint_rect) (wr := PaintRect.freerds_write_paint_rect) b0 b))
  | mPatBlt b0, mPatBlt b => Some (inj (recv (rd := PatBlt.freerds_read_patblt) (wr := PatBlt.freerds_write_patblt) b0 b))
  | mDstBlt b0, mDstBlt b => Some (inj (recv (rd := DstBlt.freerds_read_dstblt) (wr := DstBlt.freerds_write_dstblt) b0 b))
  | mLineTo b0, mLineTo b => Some (inj (recv (rd := LineTo.freerds_read_line_to) (wr := LineTo.freerds_write_line_to) b0 b))
  | mCreateOffscreenSurface b0, mCreateOffscreenSurface b => Some (inj (recv (rd := CreateOffscreenSurface.freerds_read_create_offscreen_surface) (wr := CreateOffscreenSurface.freerds_write_create_offscreen_surface) b0 b))
  | mSwitchOffscreenSurface b0, mSwitchOffscreenSurface b => Some (inj (recv (rd := SwitchOffscreenSurface.freerds_read_switch_offscreen_surface) (wr := SwitchOffscreenSurface.freerds_write_switch_offscreen_surface) b0 b))
  | mDeleteOffscreenSurface b0, mDeleteOffscreenSurface b => Some (inj (recv (rd := DeleteOffscreenSurface.freerds_read_delete_offscreen_surface) (wr := DeleteOffscreenSurface.freerds_write_delete_offscreen_surface) b0 b))
  | mPaintOffscreenSurface b0, mPaintOffscreenSurface b => Some (inj (recv (rd := PaintOffscreenSurface.freerds_read_paint_offscreen_surface) (wr := PaintOffscreenSurface.freerds_write_paint_offscreen_surface) b0 b))
  | mSetPointer b0, mSetPointer b => Some (inj (recv (rd := SetPointer.freerds_read_set_pointer) (wr := SetPointer.freerds_write_set_pointer) b0 b))
  | mSharedFramebuffer b0, mSharedFramebuffer b => Some (inj (recv (rd := SharedFramebuffer.freerds_read_shared_framebuffer) (wr := SharedFramebuffer.freerds_write_shared_framebuffer) b0 b))
  | mWindowDelete b0, mWindowDelete b => Some (inj (recv (rd := WindowDelete.freerds_read_window_delete) (wr := WindowDelete.freerds_write_window_delete) b0 b))
  | mSetSystemPointer b0, mSetSystemPointer b => Some (inj (recv (rd := SetSystemPointer.freerds_read_set_system_pointer) (wr := SetSystemPointer.freerds_write_set_system_pointer) b0 b))
  | mLogonUser b0, mLogonUser b => Some (inj (recv (rd := LogonUser.freerds_read_logon_user) (wr := LogonUser.freerds_write_logon_user) b0 b))
  | mLogoffUser b0, mLogoffUser b => Some (inj (recv (rd := LogoffUser.freerds_read_logoff_user) (wr := LogoffUser.freerds_write_logoff_user) b0 b))
  | mSuppressOutput b0, mSuppressOutput b => Some (inj (recv (rd := SuppressOutput.freerds_read_suppress_output) (wr := SuppressOutput.freerds_write_suppress_output) b0 b))
  | _, _ => None
  end.

(** What the reader needs of the struct it fills. *)
Definition ready_body (m0 : msg_body) : Prop :=
  match m0 with mPatBlt b0 => PatBlt.brush_room b0 | _ => True end.

(** *** The casts *)

Lemma cast_write_spec {B} `{View B} (wr : writer B) `{E : !Encoder wr} c (b : B) :
  ok (wr := wr) b ->
  let c' := out_common c (Z.of_nat (length (wire (norm b)))) (wrect b) in
  writes (with_stream (fun s => cast_write wr s (Msg c (inj b))))
    (wire_header c' ++ wire (norm b)) (0, Msg c' (inj (norm b))).
Proof.
  intros Hok c' s buf pos len Hs Hl.
  destruct (codec_write c b Hok s buf pos len Hs Hl) as (s' & Es & Hs').
  exists s'. split; [|done]. revert Es. unfold with_stream, cast_write. cbn [body common].
  rewrite proj_inj. cbn [mbind option_bind].
  destruct (wr (Some s) (Msg c b)) as [[[st m] [s2|]]|]; cbn; try done.
  by intros [= -> -> ->].
Qed.

Lemma cast_read_spec {B} `{View B} (rd : reader B) (wr : writer B) `{C : !Codec rd wr} c (b0 b : B) :
  ok (wr := wr) b -> ready (rd := rd) (wr := wr) b0 ->
  reads (cast_read rd (Msg c (inj b0))) (wire (norm b)) (0, Msg c (inj (recv b0 b))).
Proof.
  intros Hok Hr. unfold cast_read. cbn [body common]. rewrite proj_inj.
  rewrite <-(app_nil_r (wire (norm b))).
  eapply reads_bind; [by apply codec_read|]. apply reads_ret.
Qed.

Lemma cast_read_safe {B} `{View B} (rd : reader B) c (b : B) :
  safe 0 (rd (Msg c b)) -> safe 0 (cast_read rd (Msg c (inj b))).
Proof.
  intros Hrd s buf pos len Hs Hu Hb Hp Hl. unfold cast_read. cbn [body common]. rewrite proj_inj.
  destruct (Hrd s buf pos len) as ([st m] & s' & pos' & E & ?); auto.
  unfold mbind, SM_bind. rewrite E. eauto.
Qed.

Lemma cast_size {B} `{View B} (wr : writer B) `{E : !Encoder wr} c (b : B) :
  ok (wr := wr) b ->
  exists st m0, cast_write wr None (Msg c (inj b)) = Some ((st, m0), None) /\
    msg_length (common m0) = u32 (header_size (wrect b) + Z.of_nat (length (wire (norm b)))) /\
    msg_type (common m0) = msg_type c /\
    (forall s, cast_write wr (Some s) m0 = cast_write wr (Some s) (Msg c (inj b))).
Proof.
  intros Hok. destruct (codec_size c b Hok) as (m0 & E0 & Hl & Ht & Hs).
  unfold cast_write at 1. cbn [body common]. rewrite proj_inj. cbn [mbind option_bind].
  rewrite E0. cbn. do 2 eexists. split; [reflexivity|]. split; [done|]. split; [done|].
  intros s. unfold cast_write. cbn [body common]. rewrite !proj_inj. cbn [mbind option_bind].
  destruct m0 as [c0 b0]. cbn [body common]. by rewrite Hs.
Qed.

(** *** The dispatching functions, given the entry they find *)

Lemma server_write_entry c m d bs st n m' :
  table_get RDS_SERVER_MSG_DEFINITIONS (msg_type c) = Some (Some d) -> msg_type c <= 31 ->
  writes (with_stream (fun s => Write d s (Msg c m))) bs (st, m') ->
  n = i32 (msg_length (common m')) ->
  writes (with_stream (fun s => freerds_server_message_write s (Msg c m))) bs (n, m').
Proof.
  intros Hd Ht Hw -> s buf pos len Hs Hl. destruct (Hw s buf pos len Hs Hl) as (s' & E & Hs').
  exists s'. split; [|done]. revert E. unfold with_stream, freerds_server_message_write.
  cbn [common]. destruct (Z.ltb_spec 31 (msg_type c)); [lia|]. rewrite Hd. cbn [mbind option_bind].
  destruct (Write d (Some s) (Msg c m)) as [[[st' m2] [s2|]]|]; cbn; try done.
  by intros [= -> -> ->].
Qed.

Lemma server_size_entry c m d n :
  table_get RDS_SERVER_MSG_DEFINITIONS (msg_type c) = Some (Some d) -> msg_type c <= 31 ->
  (exists st m0, Write d None (Msg c m) = Some ((st, m0), None) /\ msg_length (common m0) = n /\
    msg_type (common m0) = msg_type c /\
    (forall s, Write d (Some s) m0 = Write d (Some s) (Msg c m))) ->
  exists m0, freerds_server_message_write None (Msg c m) = Some ((i32 n, m0), None) /\
    msg_length (common m0) = n /\ msg_type (common m0) = msg_type c /\
    (forall s, freerds_server_message_write (Some s) m0 =
               freerds_server_message_write (Some s) (Msg c m)).
Proof.
  intros Hd Ht (st & m0 & E & Hn & Ht0 & Hs). exists m0.
  unfold freerds_server_message_write. cbn [common].
  destruct (Z.ltb_spec 31 (msg_type c)); [lia|]. rewrite Hd. cbn [mbind option_bind].
  rewrite E. cbn. rewrite Hn. split; [done|]. split; [done|]. split; [done|].
  intros s. rewrite Ht0. destruct (Z.ltb_spec 31 (msg_type c)); [lia|]. rewrite Hd.
  cbn. by rewrite Hs.
Qed.

Lemma server_read_entry c m d :
  table_get RDS_SERVER_MSG_DEFINITIONS (msg_type c) = Some (Some d) ->
  freerds_server_message_read (Msg c m) = Read d (Msg c m).
Proof. intros Hd. unfold freerds_server_message_read. cbn [common]. by rewrite Hd. Qed.

Lemma server_message_write_spec c m :
  ok_body m -> msg_type c = server_type m -> 0 <= server_type m ->
  writes (with_stream (fun s => freerds_server_message_write s (Msg c m))) (wire_msg c m)
    (i32 (msg_length (sent_common c m)), Msg (sent_common c m) (norm_body m)).
Proof.
  intros Hok Ht H0. destruct m; cbn [ok_body body_spec enc_spec sp_ok] in Hok; try (by destruct Hok); try (by destruct H0);
    (eapply (server_write_entry c); [by rewrite Ht | by rewrite Ht | exact (cast_write_spec _ c b Hok) | done]).
Qed.

Lemma server_message_size c m :
  ok_body m -> msg_type c = server_type m -> 0 <= server_type m ->
  exists m0,
    freerds_server_message_write None (Msg c m) =
      Some ((i32 (msg_length (sent_common c m)), m0), None) /\
    msg_length (common m0) = msg_length (sent_common c m) /\ msg_type (common m0) = msg_type c /\
    (forall s, freerds_server_message_write (Some s) m0 =
               freerds_server_message_write (Some s) (Msg c m)).
Proof.
  intros Hok Ht H0. destruct m; cbn [ok_body body_spec enc_spec sp_ok] in Hok; try (by destruct Hok); try (by destruct H0);
    (eapply (server_size_entry c); [by rewrite Ht | by rewrite Ht | exact (cast_size _ c b Hok)]).
Qed.

Lemma server_message_read_spec c m0 m r :
  ok_body m -> ready_body m0 -> recv_body m0 m = Some r ->
  msg_type c = server_type m -> 0 <= server_type m ->
  reads (freerds_server_message_read (Msg c m0)) (wire_body m) (0, Msg c r).
Proof.
  intros Hok Hr E Ht H0. destruct m, m0; try discriminate; try (by destruct H0);
    injection E as <-; cbn [ok_body body_spec enc_spec sp_ok] in Hok; (erewrite (server_read_entry c); [|by rewrite Ht]);
    (refine (cast_read_spec _ _ c b0 b _ _); [exact Hok | exact Hr]).
Qed.

(** *** Memory safety of the readers *)

(** The readers that check every access; the logon and window readers do not. *)
Definition checked_body (m : msg_body) : Prop :=
  match m with
  | mLogonUser _ | mWindowNewUpdate _ | mSuppressOutput _ => False
  | mPatBlt b => PatBlt.brush_room b
  | _ => True
  end.

Lemma server_message_read_safe c m :
  checked_body m -> msg_type c = server_type m ->
  safe 0 (freerds_server_message_read (Msg c m)).
Proof.
  intros Hc Ht. destruct m; try (by destruct Hc);
    (erewrite (server_read_entry c); [|by rewrite Ht]); refine (cast_read_safe _ c b _);
    unfold Stubs.freerds_read_set_palette, Stubs.freerds_read_cache_glyph,
      Stubs.freerds_read_glyph_index, Stubs.freerds_read_beep, Stubs.freerds_read_reset;
    eauto using safe_ret with rds_safe.
Qed.

(** *** The client table *)

(** The client messages that have a table entry. *)
Definition client_table_body (m : msg_body) : Prop :=
  match m with mLogonUser _ | mLogoffUser _ | mSuppressOutput _ => True | _ => False end.

Lemma client_write_entry c m d bs st n m' :
  table_get RDS_CLIENT_MSG_DEFINITIONS (client_index (msg_type c)) = Some (Some d) ->
  client_index (msg_type c) <= 31 ->
  writes (with_stream (fun s => Write d s (Msg c m))) bs (st, m') ->
  n = i32 (msg_length (common m')) ->
  writes (with_stream (fun s => freerds_client_message_write s (Msg c m))) bs (n, m').
Proof.
  intros Hd Ht Hw -> s buf pos len Hs Hl. destruct (Hw s buf pos len Hs Hl) as (s' & E & Hs').
  exists s'. split; [|done]. revert E. unfold with_stream, freerds_client_message_write.
  cbn [common]. cbv zeta. destruct (Z.ltb_spec 31 (client_index (msg_type c))); [lia|].
  rewrite Hd. cbn [mbind option_bind].
  destruct (Write d (Some s) (Msg c m)) as [[[st' m2] [s2|]]|]; cbn; try done.
  by intros [= -> -> ->].
Qed.

Lemma client_size_entry c m d n :
  table_get RDS_CLIENT_MSG_DEFINITIONS (client_index (msg_type c)) = Some (Some d) ->
  client_index (msg_type c) <= 31 ->
  (exists st m0, Write d None (Msg c m) = Some ((st, m0), None) /\ msg_length (common m0) = n /\
    msg_type (common m0) = msg_type c /\
    (forall s, Write d (Some s) m0 = Write d (Some s) (Msg c m))) ->
  exists m0, freerds_client_message_write None (Msg c m) = Some ((i32 n, m0), None) /\
    msg_length (common m0) = n /\ msg_type (common m0) = msg_type c /\
    (forall s, freerds_client_message_write (Some s) m0 =
               freerds_client_message_write (Some s) (Msg c m)).
Proof.
  intros Hd Ht (st & m0 & E & Hn & Ht0 & Hs). exists m0.
  unfold freerds_client_message_write. cbn [common]. cbv zeta.
  destruct (Z.ltb_spec 31 (client_index (msg_type c))); [lia|]. rewrite Hd. cbn [mbind option_bind].
  rewrite E. cbn. rewrite Hn. split; [done|]. split; [done|]. split; [done|].
  intros s. rewrite Ht0. destruct (Z.ltb_spec 31 (client_index (msg_type c))); [lia|]. rewrite Hd.
  cbn. by rewrite Hs.
Qed.

Lemma client_message_write_spec c m :
  client_table_body m -> ok_body m -> msg_type c = client_type m ->
  writes (with_stream (fun s => freerds_client_message_write s (Msg c m))) (wire_msg c m)
    (i32 (msg_length (sent_common c m)), Msg (sent_common c m) (norm_body m)).
Proof.
  intros H0 Hok Ht. destruct m; cbn [ok_body body_spec enc_spec sp_ok] in Hok; try (by destruct H0);
    (eapply (client_write_entry c);
     [by rewrite Ht | by rewrite Ht | exact (cast_write_spec _ c b Hok) | done]).
Qed.

Lemma client_message_size c m :
  client_table_body m -> ok_body m -> msg_type c = client_type m ->
  exists m0,
    freerds_client_message_write None (Msg c m) =
      Some ((i32 (msg_length (sent_common c m)), m0), None) /\
    msg_length (common m0) = msg_length (sent_common c m) /\ msg_type (common m0) = msg_type c /\
    (forall s, freerds_client_message_write (Some s) m0 =
               freerds_client_message_write (Some s) (Msg c m)).
Proof.
  intros H0 Hok Ht. destruct m; cbn [ok_body body_spec enc_spec sp_ok] in Hok; try (by destruct H0);
    (eapply (client_size_entry c); [by rewrite Ht | by rewrite Ht | exact (cast_size _ c b Hok)]).
Qed.

(** *** Messages without content on the wire *)

Definition stub_body (m : msg_body) : Prop :=
  match m with
  | mSetPalette _ | mCacheGlyph _ | mGlyphIndex _ | mBeep _ | mReset _ => True
  | _ => False
  end.

Lemma stub_write c m s :
  stub_body m -> msg_type c = server_type m ->
  freerds_server_message_write s (Msg c m) = Some ((i32 (msg_length c), Msg c m), s).
Proof.
  intros Hm Ht. destruct m; try (by destruct Hm);
    unfold freerds_server_message_write; cbn [common]; rewrite Ht; reflexivity.
Qed.

(** *** Sizes *)

Lemma length_wire_msg c m :
  Z.of_nat (length (wire_msg c m)) =
  header_size (rect_body m) + Z.of_nat (length (wire_body m)).
Proof. unfold wire_msg, sent_common. rewrite length_app, Nat2Z.inj_add. by rewrite length_wire_out. Qed.

Lemma length_sent_common c m :
  Z.of_nat (length (wire_msg c m)) < 2 ^ 32 ->
  msg_length (sent_common c m) = Z.of_nat (length (wire_msg c m)).
Proof.
  intros Hl. rewrite length_wire_msg in *. unfold sent_common, out_common. cbn [msg_length].
  apply u32_id. unfold is_u32, header_size in *. destruct (rect_body m); lia.
Qed.

(** The rectangles that the writers put in the header are in range. *)
Lemma wf_rect_body m r : ok_body m -> rect_body m = Some r -> wf_rect r.
Proof.
  intros Hok E. unfold wf_rect.
  destruct m; try discriminate; injection E as <-; cbn [rect_x rect_y rect_width rect_height];
    auto using is_i32_i32, is_u32_u32.
Qed.

Lemma wf_sent_common c m :
  ok_body m -> is_u16 (msg_type c) -> wf_rect (rect c) -> wf_common (sent_common c m).
Proof.
  intros Hok Ht Hr. unfold wf_common, sent_common, out_common. cbn [msg_type msg_length msgFlags rect].
  split; [done|]. split; [apply is_u32_u32|].
  destruct (rect_body m) eqn:E; (split; [by vm_compute|]); eauto using wf_rect_body.
Qed.
End Specs.

(** ** Copies *)

Section Copies.
Context {W : WStream} {L : WStreamLaws W} {F : WindowOrder}.

Lemma server_copy_entry c m d :
  table_get RDS_SERVER_MSG_DEFINITIONS (msg_type c) = Some (Some d) ->
  freerds_server_message_copy (Msg c m) = (dup ← Copy d (Msg c m); Some (Some dup)).
Proof. intros Hd. unfold freerds_server_message_copy. cbn [common]. by rewrite Hd. Qed.

Lemma server_free_entry c m d :
  table_get RDS_SERVER_MSG_DEFINITIONS (msg_type c) = Some (Some d) ->
  freerds_server_message_free (Msg c m) = Free d (Msg c m).
Proof. intros Hd. unfold freerds_server_message_free. cbn [common]. by rewrite Hd. Qed.

Lemma dup_mask_spec p n blk q bl :
  dup_mask p n blk = Some (q, bl) ->
  bl = match q with Some _ => [blk] | None => [] end.
Proof.
  unfold dup_mask, dup_bytes. destruct p as [bs|]; cbn; [|by intros [= <- <-]].
  case_decide; cbn; [|done]. by intros [= <- <-].
Qed.

Lemma dup_bytes_exact bs n :
  n = Z.of_nat (length bs) -> dup_bytes (Some bs) n = Some (Some bs).
Proof. intros ->. unfold dup_bytes. cbn. rewrite decide_True by lia. by rewrite Nat2Z.id, firstn_all. Qed.

(** The blocks that free releases are the ones that copy has allocated. *)
Lemma paint_rect_copy_free msg dup bl :
  freerds_paint_rect_copy msg = Some (dup, bl) ->
  freerds_paint_rect_free dup ≡ₚ bl /\ common dup = common msg.
Proof.
  destruct msg as [c b]. unfold freerds_paint_rect_copy, freerds_paint_rect_free. cbn [body].
  destruct (PaintRect.bitmapDataLength b =? 0) eqn:E.
  - intros [= <- <-]. cbn [body]. by rewrite E.
  - destruct (dup_bytes _ _); cbn; [|done]. intros [= <- <-]. cbn. rewrite E. split; [|done].
    apply Permutation_swap.
Qed.

Lemma set_pointer_copy_free msg dup bl :
  freerds_set_pointer_copy msg = Some (dup, bl) ->
  freerds_set_pointer_free dup ≡ₚ bl /\ common dup = common msg.
Proof.
  destruct msg as [c b]. unfold freerds_set_pointer_copy, freerds_set_pointer_free. cbn [body].
  destruct (dup_mask (SetPointer.andMaskData b) _ _) as [[a ba]|] eqn:Ea; cbn; [|done].
  destruct (dup_mask (SetPointer.xorMaskData b) _ _) as [[x bx]|] eqn:Ex; cbn; [|done].
  intros [= <- <-]. cbn. apply dup_mask_spec in Ea as ->. apply dup_mask_spec in Ex as ->.
  split; [|done]. rewrite (assoc_L (++)). symmetry. apply Permutation_cons_append.
Qed.

Lemma cast_copy_inv {B} `{View B} (cp : MSG B -> option (MSG B * list block)) c (b : B) dup bl :
  cast_copy cp (Msg c (inj b)) = Some (dup, bl) ->
  exists d, cp (Msg c b) = Some (d, bl) /\ dup = Msg (common d) (inj (body d)).
Proof.
  unfold cast_copy. cbn [body common]. rewrite proj_inj. cbn [mbind option_bind].
  destruct (cp (Msg c b)) as [[d bl']|]; cbn; [|done]. intros [= <- <-]. eauto.
Qed.

Lemma server_copy_free c m dup bl :
  freerds_server_message_copy (Msg c m) = Some (Some (dup, bl)) ->
  msg_type c = server_type m -> 0 <= server_type m -> server_type m <> 24 ->
  exists fr, freerds_server_message_free dup = Some fr /\ fr ≡ₚ bl.
Proof.
  intros E Ht H0 H24. destruct m; try (by destruct H0); try (by destruct H24);
    erewrite (server_copy_entry c) in E by (by rewrite Ht);
    (apply bind_Some in E as ([dup' bl'] & E & [= -> ->]));
    destruct (cast_copy_inv _ c b _ _ E) as ([c' b'] & E' & ->); clear E; rename E' into E;
    try (change (Some (Msg c b, [blk_struct]) = Some (Msg c' b', bl)) in E;
         assert (c' = c /\ bl = [blk_struct]) as [-> ->] by (split; congruence); eexists; split;
         [erewrite server_free_entry by (cbn [common]; by rewrite Ht); reflexivity | done]).
  - apply paint_rect_copy_free in E as (Hp & Ec). cbn [common body] in *. subst c'.
    eexists. split; [erewrite server_free_entry by (by rewrite Ht); reflexivity | exact Hp].
  - apply set_pointer_copy_free in E as (Hp & Ec). cbn [common body] in *. subst c'.
    eexists. split; [erewrite server_free_entry by (by rewrite Ht); reflexivity | exact Hp].
Qed.

(** *** Copies of received messages *)

Lemma cast_copy_id {B} `{View B} (cp : MSG B -> option (MSG B * list block)) c (b : B) bl :
  cp (Msg c b) = Some (Msg c b, bl) -> cast_copy cp (Msg c (inj b)) = Some (Msg c (inj b), bl).
Proof.
  intros E. unfold cast_copy. cbn [body common]. rewrite proj_inj. cbn [mbind option_bind].
  by rewrite E.
Qed.

Lemma paint_rect_copy_recv c b0 b : PaintRect.ok_paint_rect b ->
  let r := PaintRect.recv_paint_rect b0 b in
  exists bl, freerds_paint_rect_copy (Msg c r) = Some (Msg c r, bl).
Proof.
  intros (_ & Hd). unfold freerds_paint_rect_copy, PaintRect.recv_paint_rect. cbn [body].
  destruct (Z.eqb_spec (PaintRect.fbSegmentId b) 0) as [E|E];
    cbn [PaintRect.bitmapDataLength PaintRect.bitmapData].
  - destruct (Hd E) as (? & bs & -> & ?). cbn [from_option id].
    destruct (Z.eqb_spec (PaintRect.bitmapDataLength b) 0); [lia|].
    rewrite dup_bytes_exact by (rewrite length_take; lia). eexists. reflexivity.
  - eexists. reflexivity.
Qed.

Lemma set_pointer_copy_recv c b0 b : SetPointer.ok_set_pointer b ->
  let r := SetPointer.recv_set_pointer b0 b in
  exists bl, freerds_set_pointer_copy (Msg c r) = Some (Msg c r, bl).
Proof.
  intros (_ & _ & _ & [Hx _] & [Ha _] & (bx & Ex & ?) & (ba & Ea & ?)).
  unfold freerds_set_pointer_copy, SetPointer.recv_set_pointer, SetPointer.norm_set_pointer.
  set (d := SetPointer.pointer_defaults b) in *.
  cbn [body SetPointer.andMaskData SetPointer.xorMaskData SetPointer.lengthAndMask
       SetPointer.lengthXorMask].
  change (SetPointer.lengthAndMask (SetPointer.pointer_clamp d)) with (SetPointer.lengthAndMask d).
  change (SetPointer.lengthXorMask (SetPointer.pointer_clamp d)) with (SetPointer.lengthXorMask d).
  rewrite Ex, Ea. cbn [from_option id]. unfold dup_mask.
  rewrite !dup_bytes_exact by (rewrite length_take; lia). eexists. reflexivity.
Qed.

Lemma logon_user_copy_recv c b0 b : LogonUser.ok_logon_user b ->
  let r := LogonUser.recv_logon_user b0 b in
  exists bl, freerds_logon_user_copy (Msg c r) = Some (Msg c r, bl).
Proof.
  intros (_ & Hu & Hd & Hp).
  unfold freerds_logon_user_copy, LogonUser.recv_logon_user, LogonUser.norm_logon_user.
  cbn [body LogonUser.Flags LogonUser.UserLength LogonUser.DomainLength LogonUser.PasswordLength
       LogonUser.User LogonUser.Domain LogonUser.Password].
  rewrite !LogonUser.copy_recv_string by done. eexists. reflexivity.
Qed.

Lemma copy_received c m0 m r :
  recv_body m0 m = Some r -> ok_body m -> msg_type c = server_type m -> 0 <= server_type m ->
  exists bl, freerds_server_message_copy (Msg c r) = Some (Some (Msg c r, bl)).
Proof.
  intros E Hok Ht H0.
  destruct m, m0; try discriminate; try (by destruct H0); injection E as <-;
    (erewrite (server_copy_entry c); [|by rewrite Ht]);
    try (eexists; reflexivity).
  - destruct (paint_rect_copy_recv c b0 b Hok) as (bl & E). exists bl.
    by rewrite (cast_copy_id _ c _ _ E : Copy RDS_MSG_PAINT_RECT_DEFINITION _ = _).
  - destruct (set_pointer_copy_recv c b0 b Hok) as (bl & E). exists bl.
    by rewrite (cast_copy_id _ c _ _ E : Copy RDS_MSG_SET_POINTER_DEFINITION _ = _).
  - destruct (logon_user_copy_recv c b0 b Hok) as (bl & E). exists bl.
    by rewrite (cast_copy_id _ c _ _ E : Copy RDS_MSG_LOGON_USER_DEFINITION _ = _).
Qed.
End Copies.
