(* ===== verification/Pipe.v ===== *)
(** * Named pipes

    The read and write functions of freerds/backend/transport.c on a named
    pipe.  [ReadFile] and [WriteFile] are WinPR's: the class [Pipe] lists them
    and [PipeLaws] says what a byte-mode pipe does.  [ReadFile] may deliver
    fewer bytes than asked for, and [WriteFile] may accept fewer.

    [inbound p] are the bytes that the peer delivers from the state [p] on, in
    order, and [outbound p] the bytes that have been accepted from this side. *)

From S2P Require Import Prelude.

Class Pipe := {
  pipe : Type;
  (** success and the bytes stored *)
  ReadFile : pipe -> Z -> (bool * list Z) * pipe;
  (** success and the number of bytes accepted *)
  WriteFile : pipe -> list Z -> (bool * nat) * pipe;
  inbound : pipe -> list Z;
  outbound : pipe -> list Z;
}.

Class PipeLaws (P : Pipe) : Prop := {
  readfile_spec p n ok bs p' :
    ReadFile p n = ((ok, bs), p') -> 0 <= n ->
    Z.of_nat (length bs) <= n /\ outbound p' = outbound p /\
    if ok then inbound p = bs ++ inbound p' else inbound p' = inbound p;
  inbound_bytes p : Forall is_u8 (inbound p);
  writefile_spec p data ok n p' :
    WriteFile p data = ((ok, n), p') ->
    (n <= length data)%nat /\ inbound p' = inbound p /\
    outbound p' = outbound p ++ (if ok then take n data else []);
}.

Section NamedPipe.
Context {P : Pipe}.

(** The status and the bytes that were stored at [data]. *)
Definition freerds_named_pipe_read (p : pipe) (length : Z) : (Z * list Z) * pipe :=
  let '((fSuccess, bs), p') := ReadFile p length in
  let NumberOfBytesRead := Z.of_nat (List.length bs) in
  if negb fSuccess || (NumberOfBytesRead =? 0) then ((-1, []), p')
  else
    let TotalNumberOfBytesRead := u32 (0 + NumberOfBytesRead) in
    ((i32 TotalNumberOfBytesRead, bs), p').

(** The loop [while (length > 0)]; [data] are the bytes from the current
    pointer on, and [None] means that [fuel] iterations were not enough or that
    [length] exceeds the block. *)
Fixpoint pipe_write_loop (fuel : nat) (p : pipe) (data : list Z) (length total : Z) :
    option (Z * pipe) :=
  if length <=? 0 then Some (i32 total, p) else
  match fuel with
  | O => None
  | S fuel' =>
      if decide (length <= Z.of_nat (List.length data)) then
        let '((fSuccess, n), p') := WriteFile p (take (Z.to_nat length) data) in
        if negb fSuccess || (Z.of_nat n =? 0) then Some (-1, p')
        else pipe_write_loop fuel' p' (drop n data) (u32 (length - Z.of_nat n))
               (u32 (total + Z.of_nat n))
      else None
  end.

Definition freerds_named_pipe_write (p : pipe) (data : list Z) (length : Z) : option (Z * pipe) :=
  pipe_write_loop (Z.to_nat length) p data length 0.
End NamedPipe.

Section Facts.
Context {P : Pipe} {PL : PipeLaws P}.

(** The write loop terminates within [length] iterations: either every byte was
    accepted, in order, or the call failed after a prefix. *)
Lemma pipe_write_loop_spec fuel p data length total :
  0 <= length <= Z.of_nat (List.length data) -> length < 2 ^ 32 -> (Z.to_nat length <= fuel)%nat ->
  0 <= total -> total + length < 2 ^ 32 ->
  exists st p', pipe_write_loop fuel p data length total = Some (st, p') /\
    inbound p' = inbound p /\
    ((st = i32 (total + length) /\ outbound p' = outbound p ++ take (Z.to_nat length) data) \/
     (st = -1 /\ exists k, (k < Z.to_nat length)%nat /\ outbound p' = outbound p ++ take k data)).
Proof.
  revert p data length total. induction fuel as [|fuel IH]; intros p data length total Hl Hu Hf Ht Hs.
  - assert (length = 0) as -> by lia. exists (i32 total), p. cbn. rewrite Z.add_0_r, app_nil_r. auto.
  - cbn [pipe_write_loop]. destruct (Z.leb_spec length 0).
    { assert (length = 0) as -> by lia. exists (i32 total), p. cbn. rewrite Z.add_0_r, app_nil_r. auto. }
    rewrite decide_True by lia.
    destruct (WriteFile p (take (Z.to_nat length) data)) as [[ok n] p1] eqn:E.
    apply writefile_spec in E as (Hn & Hi & Ho). rewrite length_take in Hn.
    destruct ok; cbn [negb orb].
    2:{ exists (-1), p1. repeat split; auto. right. split; [done|]. exists 0%nat.
        cbn. split; [lia|done]. }
    destruct (Z.eqb_spec (Z.of_nat n) 0).
    { exists (-1), p1. repeat split; auto. right. split; [done|]. exists 0%nat.
      assert (n = 0%nat) as -> by lia. cbn in *. split; [lia|done]. }
    rewrite !u32_id by (unfold is_u32; lia).
    destruct (IH p1 (drop n data) (length - Z.of_nat n) (total + Z.of_nat n))
      as (st & p' & E' & Hi' & Hc); try lia; [rewrite length_drop; lia|].
    exists st, p'. split; [done|]. split; [congruence|].
    rewrite take_take, Nat.min_l in Ho by lia.
    destruct Hc as [(-> & Ho')|(-> & k & Hk & Ho')]; rewrite Ho', Ho, <-(assoc_L (++)).
    + left. split; [f_equal; lia|]. f_equal.
      replace (Z.to_nat length) with (n + Z.to_nat (length - Z.of_nat n))%nat by lia.
      by rewrite take_take_drop.
    + right. split; [done|]. exists (n + k)%nat. split; [lia|]. by rewrite take_take_drop.
Qed.

Lemma named_pipe_write_spec p data length :
  0 <= length <= Z.of_nat (List.length data) -> length < 2 ^ 32 ->
  exists st p', freerds_named_pipe_write p data length = Some (st, p') /\
    inbound p' = inbound p /\
    ((st = i32 length /\ outbound p' = outbound p ++ take (Z.to_nat length) data) \/
     (st = -1 /\ exists k, (k < Z.to_nat length)%nat /\ outbound p' = outbound p ++ take k data)).
Proof. intros Hl Hu. apply (pipe_write_loop_spec _ p data length 0); lia. Qed.

(** A read either fails and takes nothing, or takes a non-empty prefix of the
    bytes that the peer delivers, no longer than asked for. *)
Lemma named_pipe_read_spec p n st bs p' :
  0 <= n < 2 ^ 31 -> freerds_named_pipe_read p n = ((st, bs), p') ->
  outbound p' = outbound p /\
  ((st = -1 /\ bs = [] /\ inbound p = inbound p') \/
   (st = Z.of_nat (length bs) /\ 0 < st <= n /\ inbound p = bs ++ inbound p')).
Proof.
  intros Hn. unfold freerds_named_pipe_read.
  destruct (ReadFile p n) as [[ok bs'] p1] eqn:E.
  apply readfile_spec in E as (Hl & Ho & Hi); [|lia].
  destruct ok; cbn [negb orb].
  - destruct (Z.eqb_spec (Z.of_nat (length bs')) 0) as [E0|E0]; intros [= <- <- <-]; (split; [done|]).
    + left. destruct bs'; [|done]. auto.
    + right. rewrite Z.add_0_l, u32_id, i32_id; [|unfold is_i32; lia|unfold is_u32; lia].
      split; [done|]. split; [lia|done].
  - intros [= <- <- <-]. auto.
Qed.
End Facts.
