(* ===== verification/Transport.v ===== *)
(** * The backend transport

    freerds/backend/transport.c: the inbound side of a backend connection.
    [freerds_transport_receive] assembles a message from the pipe in
    [InboundStream] and hands it to the interface of the backend.

    The function pointers of the interfaces are partial functions on the
    backend ([None] as a field is [NULL]; calling it is undefined).  The locals
    that the C code leaves uninitialised before a read function fills them are
    parameters ([server_locals], [client_locals]). *)

From S2P Require Import Prelude WStream Message ClientMsg ServerMsg VarMsg SessionMsg WindowMsg.
From S2P Require Import MsgTable Pipe.

Section Backend.
Context {W : WStream} {P : Pipe} {A : Type}.

(** The fields of [rdsBackend] that the transport uses; [app] stands for the
    state of the module or service that embeds the backend. *)
Record rdsBackend := mk_backend {
  ServerMode : bool;
  hClientPipe : pipe;
  OutboundStream : wStream;
  InboundStream : wStream;
  app : A;
}.

Definition set_pipe (p : pipe) (bk : rdsBackend) : rdsBackend :=
  mk_backend (ServerMode bk) p (OutboundStream bk) (InboundStream bk) (app bk).
Definition set_outbound (s : wStream) (bk : rdsBackend) : rdsBackend :=
  mk_backend (ServerMode bk) (hClientPipe bk) s (InboundStream bk) (app bk).
Definition set_inbound (s : wStream) (bk : rdsBackend) : rdsBackend :=
  mk_backend (ServerMode bk) (hClientPipe bk) (OutboundStream bk) s (app bk).

(** A callback that takes a message. *)
Definition handler (B : Type) : Type := rdsBackend -> MSG B -> option (Z * rdsBackend).

Record rdsServerInterface := mk_server {
  BeginUpdate : option (handler BeginUpdate.RDS_MSG_BEGIN_UPDATE);
  EndUpdate : option (handler EndUpdate.RDS_MSG_END_UPDATE);
  Beep : option (handler Stubs.RDS_MSG_BEEP);
  IsTerminated : option (rdsBackend -> option (Z * rdsBackend));
  OpaqueRect : option (handler OpaqueRect.RDS_MSG_OPAQUE_RECT);
  ScreenBlt : option (handler ScreenBlt.RDS_MSG_SCREEN_BLT);
  PaintRect : option (handler PaintRect.RDS_MSG_PAINT_RECT);
  PatBlt : option (handler PatBlt.RDS_MSG_PATBLT);
  DstBlt : option (handler DstBlt.RDS_MSG_DSTBLT);
  SetPointer : option (handler SetPointer.RDS_MSG_SET_POINTER);
  SetSystemPointer : option (handler SetSystemPointer.RDS_MSG_SET_SYSTEM_POINTER);
  SetPalette : option (handler Stubs.RDS_MSG_SET_PALETTE);
  SetClippingRegion : option (handler SetClippingRegion.RDS_MSG_SET_CLIPPING_REGION);
  LineTo : option (handler LineTo.RDS_MSG_LINE_TO);
  CacheGlyph : option (handler Stubs.RDS_MSG_CACHE_GLYPH);
  GlyphIndex : option (handler Stubs.RDS_MSG_GLYPH_INDEX);
  SharedFramebuffer : option (handler SharedFramebuffer.RDS_MSG_SHARED_FRAMEBUFFER);
  Reset : option (handler Stubs.RDS_MSG_RESET);
  CreateOffscreenSurface : option (handler CreateOffscreenSurface.RDS_MSG_CREATE_OFFSCREEN_SURFACE);
  SwitchOffscreenSurface : option (handler SwitchOffscreenSurface.RDS_MSG_SWITCH_OFFSCREEN_SURFACE);
  DeleteOffscreenSurface : option (handler DeleteOffscreenSurface.RDS_MSG_DELETE_OFFSCREEN_SURFACE);
  PaintOffscreenSurface : option (handler PaintOffscreenSurface.RDS_MSG_PAINT_OFFSCREEN_SURFACE);
  WindowNewUpdate : option (handler WindowNewUpdate.RDS_MSG_WINDOW_NEW_UPDATE);
  WindowDelete : option (handler WindowDelete.RDS_MSG_WINDOW_DELETE);
  LogonUser : option (handler LogonUser.RDS_MSG_LOGON_USER);
  LogoffUser : option (handler LogoffUser.RDS_MSG_LOGOFF_USER)
}.

Record rdsClientInterface := mk_client {
  Capabilities : option (handler Capabilities.RDS_MSG_CAPABILITIES);
  SynchronizeKeyboardEvent : option (rdsBackend -> Z -> option (Z * rdsBackend));
  ScancodeKeyboardEvent : option (rdsBackend -> Z -> Z -> Z -> option (Z * rdsBackend));
  VirtualKeyboardEvent : option (rdsBackend -> Z -> Z -> option (Z * rdsBackend));
  UnicodeKeyboardEvent : option (rdsBackend -> Z -> Z -> option (Z * rdsBackend));
  MouseEvent : option (rdsBackend -> Z -> Z -> Z -> option (Z * rdsBackend));
  ExtendedMouseEvent : option (rdsBackend -> Z -> Z -> Z -> option (Z * rdsBackend));
  VBlankEvent : option (rdsBackend -> option (Z * rdsBackend));
  client_LogonUser : option (handler LogonUser.RDS_MSG_LOGON_USER);
  client_LogoffUser : option (handler LogoffUser.RDS_MSG_LOGOFF_USER);
  SuppressOutput : option (rdsBackend -> Z -> option (Z * rdsBackend))
}.

(** The contents of the local structs before the read functions fill them. *)
Record server_locals := mk_server_locals {
  l_begin_update : BeginUpdate.RDS_MSG_BEGIN_UPDATE;
  l_end_update : EndUpdate.RDS_MSG_END_UPDATE;
  l_opaque_rect : OpaqueRect.RDS_MSG_OPAQUE_RECT;
  l_screen_blt : ScreenBlt.RDS_MSG_SCREEN_BLT;
  l_patblt : PatBlt.RDS_MSG_PATBLT;
  l_dstblt : DstBlt.RDS_MSG_DSTBLT;
  l_paint_rect : PaintRect.RDS_MSG_PAINT_RECT;
  l_set_clipping_region : SetClippingRegion.RDS_MSG_SET_CLIPPING_REGION;
  l_line_to : LineTo.RDS_MSG_LINE_TO;
  l_set_pointer : SetPointer.RDS_MSG_SET_POINTER;
  l_set_system_pointer : SetSystemPointer.RDS_MSG_SET_SYSTEM_POINTER;
  l_create_offscreen_surface : CreateOffscreenSurface.RDS_MSG_CREATE_OFFSCREEN_SURFACE;
  l_switch_offscreen_surface : SwitchOffscreenSurface.RDS_MSG_SWITCH_OFFSCREEN_SURFACE;
  l_delete_offscreen_surface : DeleteOffscreenSurface.RDS_MSG_DELETE_OFFSCREEN_SURFACE;
  l_paint_offscreen_surface : PaintOffscreenSurface.RDS_MSG_PAINT_OFFSCREEN_SURFACE;
  l_window_new_update : WindowNewUpdate.RDS_MSG_WINDOW_NEW_UPDATE;
  l_window_delete : WindowDelete.RDS_MSG_WINDOW_DELETE;
  l_shared_framebuffer : SharedFramebuffer.RDS_MSG_SHARED_FRAMEBUFFER;
  l_logon_user : LogonUser.RDS_MSG_LOGON_USER;
  l_logoff_user : LogoffUser.RDS_MSG_LOGOFF_USER
}.

Record client_locals := mk_client_locals {
  l_capabilities : Capabilities.RDS_MSG_CAPABILITIES;
  l_synchronize_keyboard_event : SynchronizeKeyboardEvent.RDS_MSG_SYNCHRONIZE_KEYBOARD_EVENT;
  l_scancode_keyboard_event : ScancodeKeyboardEvent.RDS_MSG_SCANCODE_KEYBOARD_EVENT;
  l_virtual_keyboard_event : VirtualKeyboardEvent.RDS_MSG_VIRTUAL_KEYBOARD_EVENT;
  l_unicode_keyboard_event : UnicodeKeyboardEvent.RDS_MSG_UNICODE_KEYBOARD_EVENT;
  l_mouse_event : MouseEvent.RDS_MSG_MOUSE_EVENT;
  l_extended_mouse_event : ExtendedMouseEvent.RDS_MSG_EXTENDED_MOUSE_EVENT;
  l_vblank_event : VBlankEvent.RDS_MSG_VBLANK_EVENT
}.

Section Receive.
Context {F : WindowOrder}.
Context (server : rdsServerInterface) (client : rdsClientInterface).
Context (sl : server_locals) (cl : client_locals) (common0 : RDS_MSG_COMMON).

(** [X msg; CopyMemory(&msg, common, sizeof(RDS_MSG_COMMON));
    freerds_server_message_read(s, &msg); status = h(backend, &msg);]
    with [b0] the uninitialised fields; [fix] are assignments between the read
    and the call. *)
Definition serve {B} `{View B} (b0 : B) (fix_ : B -> B) (h : option (handler B))
    (bk : rdsBackend) (common : RDS_MSG_COMMON) : option (Z * rdsBackend) :=
  '((_, m), s) ← freerds_server_message_read (Msg common (inj b0)) (InboundStream bk);
  b ← proj (body m);
  f ← h;
  f (set_inbound s bk) (Msg (Message.common m) (fix_ b)).

(** [msg.fbSegmentId = 0; msg.framebuffer = NULL;] before the read. *)
Definition paint_rect_init (b : PaintRect.RDS_MSG_PAINT_RECT) : PaintRect.RDS_MSG_PAINT_RECT :=
  PaintRect.mk (PaintRect.nLeftRect b) (PaintRect.nTopRect b) (PaintRect.nWidth b)
    (PaintRect.nHeight b) (PaintRect.nXSrc b) (PaintRect.nYSrc b) (PaintRect.bitmapData b)
    (PaintRect.bitmapDataLength b) 0 PaintRect.fb_null.

(** [if (msg.fbSegmentId) msg.framebuffer = &(backend->framebuffer);] *)
Definition paint_rect_attach (b : PaintRect.RDS_MSG_PAINT_RECT) : PaintRect.RDS_MSG_PAINT_RECT :=
  if PaintRect.fbSegmentId b =? 0 then b else
  PaintRect.mk (PaintRect.nLeftRect b) (PaintRect.nTopRect b) (PaintRect.nWidth b)
    (PaintRect.nHeight b) (PaintRect.nXSrc b) (PaintRect.nYSrc b) (PaintRect.bitmapData b)
    (PaintRect.bitmapDataLength b) (PaintRect.fbSegmentId b) PaintRect.fb_backend.

(** In the case of [RDS_SERVER_PAINT_RECT] the result of the handler goes to a
    local [status] that shadows the one returned. *)
Definition freerds_receive_server_message (bk : rdsBackend) (common : RDS_MSG_COMMON) :
    option (Z * rdsBackend) :=
  match msg_type common with
  | RDS_SERVER_BEGIN_UPDATE => serve (l_begin_update sl) id (BeginUpdate server) bk common
  | RDS_SERVER_END_UPDATE => serve (l_end_update sl) id (EndUpdate server) bk common
  | RDS_SERVER_OPAQUE_RECT => serve (l_opaque_rect sl) id (OpaqueRect server) bk common
  | RDS_SERVER_SCREEN_BLT => serve (l_screen_blt sl) id (ScreenBlt server) bk common
  | RDS_SERVER_PATBLT => serve (l_patblt sl) id (PatBlt server) bk common
  | RDS_SERVER_DSTBLT => serve (l_dstblt sl) id (DstBlt server) bk common
  | RDS_SERVER_PAINT_RECT =>
      '(_, bk') ← serve (paint_rect_init (l_paint_rect sl)) paint_rect_attach (PaintRect server) bk common;
      Some (0, bk')
  | RDS_SERVER_SET_CLIPPING_REGION => serve (l_set_clipping_region sl) id (SetClippingRegion server) bk common
  | RDS_SERVER_LINE_TO => serve (l_line_to sl) id (LineTo server) bk common
  | RDS_SERVER_SET_POINTER => serve (l_set_pointer sl) id (SetPointer server) bk common
  | RDS_SERVER_SET_SYSTEM_POINTER => serve (l_set_system_pointer sl) id (SetSystemPointer server) bk common
  | RDS_SERVER_CREATE_OFFSCREEN_SURFACE => serve (l_create_offscreen_surface sl) id (CreateOffscreenSurface server) bk common
  | RDS_SERVER_SWITCH_OFFSCREEN_SURFACE => serve (l_switch_offscreen_surface sl) id (SwitchOffscreenSurface server) bk common
  | RDS_SERVER_DELETE_OFFSCREEN_SURFACE => serve (l_delete_offscreen_surface sl) id (DeleteOffscreenSurface server) bk common
  | RDS_SERVER_PAINT_OFFSCREEN_SURFACE => serve (l_paint_offscreen_surface sl) id (PaintOffscreenSurface server) bk common
  | RDS_SERVER_WINDOW_NEW_UPDATE => serve (l_window_new_update sl) id (WindowNewUpdate server) bk common
  | RDS_SERVER_WINDOW_DELETE => serve (l_window_delete sl) id (WindowDelete server) bk common
  | RDS_SERVER_SHARED_FRAMEBUFFER => serve (l_shared_framebuffer sl) id (SharedFramebuffer server) bk common
  | RDS_SERVER_LOGON_USER => serve (l_logon_user sl) id (LogonUser server) bk common
  | RDS_SERVER_LOGOFF_USER => serve (l_logoff_user sl) id (LogoffUser server) bk common
  | _ => Some (0, bk)
  end.

(** The client messages are read directly.  [RDS_CLIENT_CAPABILITIES] copies
    [sizeof(RDS_MSG_CAPABILITIES)] bytes from [common], past its end: the
    fields start as whatever lies there. *)
Definition hear {B} (rd : reader B) (b0 : B) (h : rdsBackend -> MSG B -> option (Z * rdsBackend))
    (bk : rdsBackend) (common : RDS_MSG_COMMON) : option (Z * rdsBackend) :=
  '((_, m), s) ← rd (Msg common b0) (InboundStream bk);
  h (set_inbound s bk) m.

Definition freerds_receive_client_message (bk : rdsBackend) (common : RDS_MSG_COMMON) :
    option (Z * rdsBackend) :=
  match msg_type common with
  | RDS_CLIENT_CAPABILITIES =>
      hear Capabilities.freerds_read_capabilities (l_capabilities cl)
        (fun bk m => match Capabilities client with Some f => f bk m | None => Some (0, bk) end) bk common
  | RDS_CLIENT_SYNCHRONIZE_KEYBOARD_EVENT =>
      hear SynchronizeKeyboardEvent.freerds_read_synchronize_keyboard_event (l_synchronize_keyboard_event cl)
        (fun bk m => f ← SynchronizeKeyboardEvent client; f bk (SynchronizeKeyboardEvent.flags (body m))) bk common
  | RDS_CLIENT_SCANCODE_KEYBOARD_EVENT =>
      hear ScancodeKeyboardEvent.freerds_read_scancode_keyboard_event (l_scancode_keyboard_event cl)
        (fun bk m => f ← ScancodeKeyboardEvent client; f bk (ScancodeKeyboardEvent.flags (body m)) (ScancodeKeyboardEvent.code (body m)) (ScancodeKeyboardEvent.keyboardType (body m))) bk common
  | RDS_CLIENT_VIRTUAL_KEYBOARD_EVENT =>
      hear VirtualKeyboardEvent.freerds_read_virtual_keyboard_event (l_virtual_keyboard_event cl)
        (fun bk m => f ← VirtualKeyboardEvent client; f bk (VirtualKeyboardEvent.flags (body m)) (VirtualKeyboardEvent.code (body m))) bk common
  | RDS_CLIENT_UNICODE_KEYBOARD_EVENT =>
      hear UnicodeKeyboardEvent.freerds_read_unicode_keyboard_event (l_unicode_keyboard_event cl)
        (fun bk m => f ← UnicodeKeyboardEvent client; f bk (UnicodeKeyboardEvent.flags (body m)) (UnicodeKeyboardEvent.code (body m))) bk common
  | RDS_CLIENT_MOUSE_EVENT =>
      hear MouseEvent.freerds_read_mouse_event (l_mouse_event cl)
        (fun bk m => f ← MouseEvent client; f bk (MouseEvent.flags (body m)) (MouseEvent.x (body m)) (MouseEvent.y (body m))) bk common
  | RDS_CLIENT_EXTENDED_MOUSE_EVENT =>
      hear ExtendedMouseEvent.freerds_read_extended_mouse_event (l_extended_mouse_event cl)
        (fun bk m => f ← ExtendedMouseEvent client; f bk (ExtendedMouseEvent.flags (body m)) (ExtendedMouseEvent.x (body m)) (ExtendedMouseEvent.y (body m))) bk common
  | RDS_CLIENT_VBLANK_EVENT =>
      hear VBlankEvent.freerds_read_vblank_event (l_vblank_event cl)
        (fun bk _ => match VBlankEvent client with Some f => f bk | None => Some (0, bk) end) bk common
  | _ => Some (0, bk)
  end.

Definition freerds_receive_message (bk : rdsBackend) (common : RDS_MSG_COMMON) :
    option (Z * rdsBackend) :=
  if ServerMode bk then freerds_receive_client_message bk common
  else freerds_receive_server_message bk common.

(** [status = freerds_named_pipe_read(backend->hClientPipe, Stream_Pointer(s), n);
    if (status < 0) return -1; if (status > 0) Stream_Seek(s, status);]
    The boolean is [false] for the early return. *)
Definition receive_bytes (n : Z) (bk : rdsBackend) : option (bool * rdsBackend) :=
  let s := InboundStream bk in
  let '((status, bs), p) := freerds_named_pipe_read (hClientPipe bk) n in
  s ← Stream_Store bs s;
  let bk := set_inbound s (set_pipe p bk) in
  if status <? 0 then Some (false, bk) else
  if 0 <? status then
    '(_, s) ← Stream_Seek status s;
    Some (true, set_inbound s bk)
  else Some (true, bk).

Definition position (bk : rdsBackend) : Z := Z.of_nat (Stream_GetPosition (InboundStream bk)).

(** First part: the header. *)
Definition receive_header (bk : rdsBackend) : option (bool * rdsBackend) :=
  if position bk <? RDS_ORDER_HEADER_LENGTH
  then receive_bytes (RDS_ORDER_HEADER_LENGTH - position bk) bk
  else Some (true, bk).

(** Second part: the rest of the message.  [length - Stream_GetPosition(s)] is
    a [size_t] that is passed as a [DWORD]. *)
Definition receive_body (bk : rdsBackend) : option (bool * rdsBackend) :=
  if RDS_ORDER_HEADER_LENGTH <=? position bk then
    length ← freerds_peek_common_header_length (Stream_Buffer (InboundStream bk));
    let n := u64 (length - position bk) in
    if n =? 0 then Some (true, bk) else receive_bytes (u32 n) bk
  else Some (true, bk).

(** Third part: the complete message. *)
Definition receive_dispatch (bk : rdsBackend) : option rdsBackend :=
  if RDS_ORDER_HEADER_LENGTH <=? position bk then
    length ← freerds_peek_common_header_length (Stream_Buffer (InboundStream bk));
    if length <=? position bk then
      '((_, common), s) ←
        freerds_read_common_header common0 (Stream_SetPosition 0 (InboundStream bk));
      '(_, bk) ← freerds_receive_message (set_inbound s bk) common;
      Some (set_inbound (Stream_SetPosition 0 (InboundStream bk)) bk)
    else Some bk
  else Some bk.

Definition freerds_transport_receive (bk : rdsBackend) : option (Z * rdsBackend) :=
  '(more, bk) ← receive_header bk;
  if negb more then Some (-1, bk) else
  '(more, bk) ← receive_body bk;
  if negb more then Some (-1, bk) else
  bk ← receive_dispatch bk;
  Some (0, bk).
End Receive.
End Backend.

Arguments rdsBackend {W P} A.
Arguments handler {W P} A B.
Arguments rdsServerInterface {W P} A.
Arguments rdsClientInterface {W P} A.
