(* ===== verification/TransportFacts.v ===== *)
(** * Reassembly and delivery

    What [freerds_transport_receive] guarantees: however the pipe cuts the
    bytes of the peer into reads, the messages are handed to the interface one
    by one, in order, complete and decoded. *)

From S2P Require Import Prelude WStream Message ClientMsg ServerMsg VarMsg SessionMsg WindowMsg.
From S2P Require Import MsgTable TableFacts Pipe Transport.

Section Facts.
Context {W : WStream} {L : WStreamLaws W} {P : Pipe} {PL : PipeLaws P} {A : Type}.
Abbreviation backend := (rdsBackend A).

(** The inbound stream holds the first bytes [part] of a message and has room
    for [cap] bytes. *)
Definition holds (s : wStream) (part : list Z) (cap : nat) : Prop :=
  exists buf len, rep s buf (length part) len /\ take (length part) buf = part /\
    (len <= length buf)%nat /\ (cap <= len)%nat /\ (length part <= cap)%nat.

(** Nothing but the inbound side has changed. *)
Definition frame (bk bk' : backend) : Prop :=
  ServerMode bk' = ServerMode bk /\ OutboundStream bk' = OutboundStream bk /\ app bk' = app bk /\
  outbound (hClientPipe bk') = outbound (hClientPipe bk).

Lemma frame_refl bk : frame bk bk.
Proof. done. Qed.
Lemma frame_trans bk1 bk2 bk3 : frame bk1 bk2 -> frame bk2 bk3 -> frame bk1 bk3.
Proof. unfold frame. intros (?&?&?&?) (?&?&?&?). repeat split; congruence. Qed.

Lemma holds_position bk part cap :
  holds (InboundStream bk) part cap -> position (A := A) bk = Z.of_nat (length part).
Proof. intros (buf & len & (_ & E & _) & _). unfold position. by rewrite E. Qed.

Lemma holds_peek s part cap c rest :
  holds s part cap -> part = wire_header c ++ rest -> is_u32 (msg_length c) ->
  freerds_peek_common_header_length (Stream_Buffer s) = Some (msg_length c).
Proof.
  intros (buf & len & (-> & _ & _) & Ht & _) E Hu.
  rewrite <-(take_drop (length part) buf), Ht, E, <-(assoc_L (++)). by apply peek_length_spec.
Qed.

(** The peer keeps sending: a read returns something as long as not all bytes
    have been delivered. *)
Definition live : Prop :=
  forall p n, 0 < n -> inbound p <> [] -> exists bs p', ReadFile p n = ((true, bs), p') /\ bs <> [].

Lemma live_read p n : live -> 0 < n < 2 ^ 31 -> inbound p <> [] ->
  fst (fst (freerds_named_pipe_read p n)) <> -1.
Proof.
  intros Hl Hn Hi. destruct (freerds_named_pipe_read p n) as [[st bs] p'] eqn:E. cbn.
  pose proof (named_pipe_read_spec p n st bs p' ltac:(lia) E) as (_ & [(-> & -> & _)|(-> & ? & _)]); [|lia].
  exfalso. revert E. unfold freerds_named_pipe_read.
  destruct (Hl p n) as (bs & p1 & E & Hb); [lia|done|]. rewrite E. cbn.
  by destruct bs.
Qed.

(** One read of the pipe at the end of the part already there. *)
Lemma receive_bytes_spec n bk part cap :
  holds (InboundStream bk) part cap -> 0 <= n < 2 ^ 31 ->
  Z.of_nat (length part) + n <= Z.of_nat cap ->
  exists more bk', receive_bytes (A := A) n bk = Some (more, bk') /\ frame bk bk' /\
    exists bs, holds (InboundStream bk') (part ++ bs) cap /\
      inbound (hClientPipe bk) = bs ++ inbound (hClientPipe bk') /\
      Z.of_nat (length bs) <= n /\ (more = true -> bs <> []) /\ (more = false -> bs = []) /\
      (live -> 0 < n -> inbound (hClientPipe bk) <> [] -> more = true).
Proof.
  intros (buf & len & Hs & Ht & Hlb & Hcl & Hpc) Hn Hc. unfold receive_bytes.
  destruct (freerds_named_pipe_read (hClientPipe bk) n) as [[st bs] p'] eqn:E.
  assert (live -> 0 < n -> inbound (hClientPipe bk) <> [] -> st <> -1) as Hlive.
  { intros Hl Hn0 Hi. pose proof (live_read _ n Hl ltac:(lia) Hi) as Hst. by rewrite E in Hst. }
  apply named_pipe_read_spec in E as (Ho & Hcase); [|lia].
  assert (length bs <= Z.to_nat n)%nat as Hbn by (destruct Hcase as [(_ & -> & _)|]; [cbn; lia|lia]).
  destruct (store_spec (InboundStream bk) buf (length part) len bs Hs) as (s1 & E1 & H1); [lia|].
  rewrite E1. cbn [mbind option_bind].
  assert (take (length part + length bs) (splice (length part) bs buf) = part ++ bs) as Hsp.
  { rewrite take_splice_end by lia. by rewrite Ht. }
  destruct Hcase as [(-> & -> & Hi)|(-> & Hb & Hi)].
  - exists false. eexists. split; [reflexivity|]. split; [done|]. exists []. cbn [InboundStream set_inbound].
    rewrite app_nil_r. rewrite splice_nil in H1. repeat split; try done; [|lia|].
    + exists buf, len. done.
    + intros Hl Hn0 Hi0. by destruct (Hlive Hl Hn0 Hi0).
  - destruct (Z.ltb_spec (Z.of_nat (length bs)) 0); [lia|].
    destruct (Z.ltb_spec 0 (Z.of_nat (length bs))); [|lia].
    destruct (seek_spec s1 _ _ _ (length bs) H1) as (s2 & E2 & H2); [rewrite length_splice; lia|].
    rewrite E2. cbn. do 2 eexists. split; [reflexivity|]. split; [done|]. exists bs.
    cbn [InboundStream set_inbound]. repeat split; try done; [|lia|intros _ ->; cbn in *; lia].
    exists (splice (length part) bs buf), len. rewrite length_app, Hsp, length_splice by lia.
    repeat split; try apply H2; lia.
Qed.


(** *** Collecting the bytes of one message

    [bytes] is a message on the wire whose header carries its length. *)
Section Collect.
Context (c : RDS_MSG_COMMON) (payload rest : list Z) (cap : nat).
Let bytes := wire_header c ++ payload.
Context (Hwf : wf_common c) (Hlen : msg_length c = Z.of_nat (length bytes)).
Context (Hcap : (length bytes <= cap)%nat) (Hmax : Z.of_nat cap < 2 ^ 31).

Lemma header_le_bytes : 10 <= Z.of_nat (length bytes).
Proof using Type.
  clear Hwf Hlen Hcap Hmax. unfold bytes. rewrite length_app, Nat2Z.inj_add, length_wire_header.
  unfold RDS_ORDER_HEADER_LENGTH. destruct (has_rect c); lia.
Qed.

(** The first bytes of the message are in the stream, the others come next. *)
Definition collecting (part : list Z) (bk : backend) : Prop :=
  holds (InboundStream bk) part cap /\ part ++ inbound (hClientPipe bk) = bytes ++ rest /\
  (length part <= length bytes)%nat.

Lemma collect_bytes n part bk :
  collecting part bk -> 0 <= n -> Z.of_nat (length part) + n <= Z.of_nat (length bytes) ->
  exists more bk' part', receive_bytes (A := A) n bk = Some (more, bk') /\ frame bk bk' /\
    collecting part' bk' /\ (more = true -> (length part < length part')%nat) /\
    (more = false -> part' = part) /\ Z.of_nat (length part') <= Z.of_nat (length part) + n /\
    (live -> 0 < n -> more = true).
Proof.
  intros (Hh & Hb & Hp) Hn Hl.
  destruct (receive_bytes_spec n bk part cap Hh)
    as (more & bk' & E & Hf & bs & Hh' & Hi & Hbn & Hne & Hz & Hlive); [lia|lia|].
  exists more, bk', (part ++ bs). split; [done|]. split; [done|].
  assert (length (part ++ bs) = length part + length bs)%nat as El by apply length_app.
  split; [split; [done|]; split; [by rewrite <-(assoc_L (++)), <-Hi|lia]|].
  split; [|split; [|split; [lia|]]].
  - intros Hm. specialize (Hne Hm). destruct bs; [done|]. cbn [length] in *. lia.
  - intros Hm. by rewrite (Hz Hm), app_nil_r.
  - intros Hlv Hn0. apply Hlive; [done|done|]. intros E0. rewrite E0, app_nil_r in Hb.
    apply (f_equal length) in Hb. rewrite length_app in Hb. lia.
Qed.

(** A part of at least ten bytes determines the length. *)
Lemma collecting_peek part bk :
  collecting part bk -> (10 <= length part)%nat ->
  freerds_peek_common_header_length (Stream_Buffer (InboundStream bk)) = Some (msg_length c).
Proof.
  intros ((buf & len & (-> & _ & _) & Ht & Hlb & Hcl & Hpc) & Hb & Hp) H10.
  assert (take 10 buf = take 10 bytes) as E.
  { assert (take 10 part = take 10 bytes) as <-.
    { rewrite <-(take_app_le part (inbound (hClientPipe bk)) 10) by lia. rewrite Hb.
      apply take_app_le. pose proof header_le_bytes. lia. }
    by rewrite <-Ht, take_take, Nat.min_l by lia. }
  pose proof (peek_length_spec c payload (proj1 (proj2 Hwf))) as Hpk. fold bytes in Hpk.
  unfold freerds_peek_common_header_length in *. pose proof header_le_bytes.
  rewrite decide_True in Hpk by lia. rewrite decide_True by lia. rewrite <-Hpk.
  assert (forall l : list Z, take 4 (drop 2 l) = take 4 (drop 2 (take 10 l))) as Hd.
  { intros l. rewrite !skipn_firstn_comm. cbn [Nat.sub]. by rewrite take_take. }
  rewrite (Hd buf), (Hd bytes). by rewrite E.
Qed.

Lemma receive_header_spec part bk :
  collecting part bk -> (length part < length bytes)%nat ->
  exists more bk' part', receive_header (A := A) bk = Some (more, bk') /\ frame bk bk' /\
    collecting part' bk' /\ (length part <= length part')%nat /\
    (more = false -> part' = part) /\ ((length part < 10)%nat -> (length part' <= 10)%nat) /\
    (more = true -> (length part < 10)%nat -> (length part < length part')%nat) /\
    (live -> more = true).
Proof.
  intros Hc Hl. unfold receive_header. rewrite (holds_position bk part cap (proj1 Hc)).
  unfold RDS_ORDER_HEADER_LENGTH. pose proof header_le_bytes.
  destruct (Z.ltb_spec (Z.of_nat (length part)) 10).
  - destruct (collect_bytes (10 - Z.of_nat (length part)) part bk Hc)
      as (more & bk' & part' & E & Hf & Hc' & Hg & Hz & Hm & Hlv); [lia|lia|].
    exists more, bk', part'. do 3 (split; [done|]).
    split; [destruct more; [specialize (Hg eq_refl)|rewrite (Hz eq_refl)]; lia|].
    split; [done|]. split; [lia|]. split; [auto|]. intros Hl'. apply Hlv; [done|lia].
  - exists true, bk, part. repeat split; try done; try apply Hc; lia.
Qed.

Lemma receive_body_spec part bk :
  collecting part bk ->
  exists more bk' part', receive_body (A := A) bk = Some (more, bk') /\ frame bk bk' /\
    collecting part' bk' /\ (length part <= length part')%nat /\ (more = false -> part' = part) /\
    (more = true -> (10 <= length part < length bytes)%nat -> (length part < length part')%nat) /\
    (live -> more = true).
Proof.
  intros Hc. unfold receive_body. rewrite (holds_position bk part cap (proj1 Hc)).
  unfold RDS_ORDER_HEADER_LENGTH. destruct (Z.leb_spec 10 (Z.of_nat (length part))).
  - rewrite (collecting_peek part bk Hc) by lia. cbn [mbind option_bind]. rewrite Hlen.
    destruct Hwf as (_ & [_ Hu] & _). rewrite Hlen in Hu. destruct Hc as (Hh & Hb & Hp).
    assert (forall d, 0 <= d < 2 ^ 32 -> u64 d = d) as Hu64 by (intros; apply Z.mod_small; lia).
    rewrite Hu64 by lia.
    destruct (Z.eqb_spec (Z.of_nat (length bytes) - Z.of_nat (length part)) 0).
    { exists true, bk, part. repeat split; try done; lia. }
    rewrite u32_id by (unfold is_u32; lia).
    destruct (collect_bytes (Z.of_nat (length bytes) - Z.of_nat (length part)) part bk)
      as (more & bk' & part' & E & Hf & Hc' & Hg & Hz & Hm & Hlv); [done|lia|lia|].
    exists more, bk', part'. do 3 (split; [done|]).
    split; [destruct more; [specialize (Hg eq_refl)|rewrite (Hz eq_refl)]; lia|].
    split; [done|]. split; [auto|]. intros Hl'. apply Hlv; [done|lia].
  - exists true, bk, part. repeat split; try done; try apply Hc; lia.
Qed.

Lemma collecting_complete part bk :
  collecting part bk -> length part = length bytes ->
  part = bytes /\ inbound (hClientPipe bk) = rest.
Proof. intros (_ & Hb & _) El. by apply app_inj_1 in Hb. Qed.

Section Dispatch.
Context {F : WindowOrder} (server : rdsServerInterface A) (client : rdsClientInterface A).
Context (sl : server_locals) (cl : client_locals) (common0 : RDS_MSG_COMMON).

(** One call collects more of the message, reports that the pipe has nothing,
    or completes the message and dispatches it. *)
Lemma transport_receive_step part bk :
  collecting part bk -> (length part < length bytes)%nat ->
  exists bk1 part1, frame bk bk1 /\ collecting part1 bk1 /\ (length part <= length part1)%nat /\
    ((length part1 < length bytes)%nat /\
       (exists st, freerds_transport_receive server client sl cl common0 bk = Some (st, bk1) /\
         (st = -1 /\ ~ live \/ st = 0 /\ (length part < length part1)%nat)) \/
     part1 = bytes /\ inbound (hClientPipe bk1) = rest /\
       freerds_transport_receive server client sl cl common0 bk =
         (bk2 ← receive_dispatch server client sl cl common0 bk1; Some (0, bk2))).
Proof.
  intros Hc Hl. unfold freerds_transport_receive. pose proof header_le_bytes as H10.
  destruct (receive_header_spec part bk Hc Hl) 
    as (m1 & bk1 & p1 & E1 & Hf1 & Hc1 & Hg1 & Hz1 & Hh1 & Hp1 & Hlv1).
  rewrite E1. cbn [mbind option_bind]. destruct m1; cbn [negb].
  2:{ rewrite (Hz1 eq_refl) in *. exists bk1, part. do 3 (split; [done|]). left. split; [done|].
      exists (-1). split; [done|]. left. split; [done|]. intros Hlv. by specialize (Hlv1 Hlv). }
  destruct (receive_body_spec p1 bk1 Hc1) 
    as (m2 & bk2 & p2 & E2 & Hf2 & Hc2 & Hg2 & Hz2 & Hp2 & Hlv2).
  rewrite E2. cbn [mbind option_bind].
  exists bk2, p2. split; [by eapply frame_trans|]. split; [done|]. split; [lia|].
  destruct (decide (length p2 = length bytes)) as [El|Hne].
  - destruct m2; cbn [negb].
    + right. destruct (collecting_complete p2 bk2 Hc2 El) as [-> ->]. done.
    + (* the second read failed although nothing was missing: impossible *)
      exfalso. rewrite (Hz2 eq_refl) in *.
      revert E2. unfold receive_body. rewrite (holds_position bk1 p1 cap (proj1 Hc1)).
      unfold RDS_ORDER_HEADER_LENGTH. destruct (Z.leb_spec 10 (Z.of_nat (length p1))); [|done].
      rewrite (collecting_peek p1 bk1 Hc1) by lia. cbn [mbind option_bind]. rewrite Hlen, El.
      by rewrite Z.sub_diag.
  - destruct Hc2 as (Hh2 & Hb2 & Hp2'). left. split; [lia|]. destruct m2; cbn [negb].
    + assert (receive_dispatch server client sl cl common0 bk2 = Some bk2) as ->.
      { unfold receive_dispatch. rewrite (holds_position bk2 p2 cap Hh2). unfold RDS_ORDER_HEADER_LENGTH.
        destruct (Z.leb_spec 10 (Z.of_nat (length p2))); [|done].
        rewrite (collecting_peek p2 bk2) by (done || lia). cbn [mbind option_bind]. rewrite Hlen.
        destruct (Z.leb_spec (Z.of_nat (length bytes)) (Z.of_nat (length p2))); [lia|done]. }
      exists 0. split; [done|]. right. split; [done|].
      destruct (decide (length part < 10)%nat); [specialize (Hp1 eq_refl); lia|].
      destruct (decide (length part < length p1)%nat); [lia|]. specialize (Hp2 eq_refl). lia.
    + exists (-1). split; [done|]. left. split; [done|]. intros Hlv. by specialize (Hlv2 Hlv).
Qed.

(** A complete message is decoded from the start of the stream; afterwards the
    stream is empty again. *)
Lemma receive_dispatch_spec bk :
  collecting bytes bk ->
  exists s buf len more, rep s buf (length (wire_header c)) len /\
    drop (length (wire_header c)) buf = payload ++ more /\
    (len <= length buf)%nat /\ (cap <= len)%nat /\
    receive_dispatch server client sl cl common0 bk =
      ('(_, bk') ← freerds_receive_message server client sl cl (set_inbound s bk) (recv_common common0 c);
       Some (set_inbound (Stream_SetPosition 0 (InboundStream bk')) bk')).
Proof.
  intros Hc. pose proof Hc as ((buf & len & Hr & Ht & Hlb & Hcl & Hpc) & _).
  pose proof header_le_bytes as H10.
  assert (exists more, buf = wire_header c ++ payload ++ more) as (more & Ebuf).
  { exists (drop (length bytes) buf). rewrite (assoc_L (++)).
    change (wire_header c ++ payload) with bytes. rewrite <-Ht at 1. by rewrite take_drop. }
  pose proof (setpos_spec _ _ _ _ 0%nat Hr ltac:(lia)) as H0.
  destruct (read_header_spec common0 c Hwf _ buf 0%nat len (payload ++ more) H0) as (s & E & Hs).
  { by rewrite Ebuf. }
  { done. }
  { unfold bytes in *. rewrite length_app in *. lia. }
  exists s, buf, len, more. rewrite Nat.add_0_l in Hs. split; [done|].
  split; [by rewrite Ebuf, drop_app_length|]. split; [done|]. split; [done|].
  unfold receive_dispatch. rewrite (holds_position bk bytes cap (proj1 Hc)).
  unfold RDS_ORDER_HEADER_LENGTH. destruct (Z.leb_spec 10 (Z.of_nat (length bytes))); [|lia].
  rewrite (collecting_peek bytes bk Hc) by lia. cbn [mbind option_bind]. rewrite Hlen, Z.leb_refl.
  rewrite E. reflexivity.
Qed.
End Dispatch.
End Collect.
End Facts.
