(* ===== verification/Queue.v ===== *)
(** * The receiver as a message queue

    The bytes that a peer sends are a sequence of messages on the wire.  Every
    call of [freerds_transport_receive] leaves that queue alone or removes its
    head and hands it to the interface of the backend, however the pipe cuts
    the bytes into reads.

    The development is parametric in the kind of messages: [Protocol] says how
    a message looks on the wire and what it means for the interface to be
    called for it; Delivery.v gives the two instances, for messages to a client
    and for messages to a server. *)

From S2P Require Import Prelude WStream Message MsgTable WindowMsg Pipe Transport TransportFacts.

Section Queue.
Context {W : WStream} {L : WStreamLaws W} {P : Pipe} {PL : PipeLaws P} {A : Type} {F : WindowOrder}.
Context (server : rdsServerInterface A) (client : rdsClientInterface A).
Context (sl : server_locals) (cl : client_locals) (common0 : RDS_MSG_COMMON).
Abbreviation backend := (rdsBackend A).

(** The interface has left the inbound side of its backend alone. *)
Definition keeps_inbound (bk bk' : backend) : Prop :=
  InboundStream bk' = InboundStream bk /\ ServerMode bk' = ServerMode bk /\
  inbound (hClientPipe bk') = inbound (hClientPipe bk).

Class Protocol (item : Type) := {
  (** the header on the wire and the bytes after it *)
  item_header : item -> RDS_MSG_COMMON;
  item_payload : item -> list Z;
  (** the [ServerMode] of a backend that receives such messages *)
  item_mode : bool;
  (** the call of the interface that belongs to the message *)
  item_call : item -> backend -> option (Z * backend);
}.

Context {item : Type} {Pr : Protocol item}.

Definition image (it : item) : list Z := wire_header (item_header it) ++ item_payload it.

Definition wire_queue (q : list item) : list Z := concat (map image q).

(** The message fits the inbound stream, its header is well-formed and carries
    its length, and the dispatch of the backend decodes it and calls the
    interface, which returns and leaves the inbound side alone. *)
Definition deliverable (cap : nat) (it : item) : Prop :=
  wf_common (item_header it) /\ msg_length (item_header it) = Z.of_nat (length (image it)) /\
  (length (image it) <= cap)%nat /\
  forall s buf len more bk,
    rep s buf (length (wire_header (item_header it))) len ->
    drop (length (wire_header (item_header it))) buf = item_payload it ++ more ->
    (len <= length buf)%nat -> (length (image it) <= len)%nat -> ServerMode bk = item_mode ->
    exists s' pos' st st' bk2, rep s' buf pos' len /\
      item_call it (set_inbound s' bk) = Some (st, bk2) /\ keeps_inbound (set_inbound s' bk) bk2 /\
      freerds_receive_message server client sl cl (set_inbound s bk)
        (recv_common common0 (item_header it)) = Some (st', bk2).

(** The backend has received everything before [q] and, of [q], the part of
    the first message that is in its inbound stream. *)
Definition in_sync (cap : nat) (q : list item) (bk : backend) : Prop :=
  ServerMode bk = item_mode /\
  match q with
  | [] => holds (InboundStream bk) [] cap /\ inbound (hClientPipe bk) = []
  | it :: q' => exists part,
      collecting (item_header it) (item_payload it) (wire_queue q') cap part bk /\
      (length part < length (image it))%nat
  end.

Lemma image_pos it : (10 <= length (image it))%nat.
Proof.
  pose proof (header_le_bytes (item_header it) (item_payload it)) as H. cbv zeta in H. unfold image. lia.
Qed.

(** An idle connection is in sync with whatever the peer sends next. *)
Lemma in_sync_idle cap q bk :
  ServerMode bk = item_mode -> holds (InboundStream bk) [] cap ->
  inbound (hClientPipe bk) = wire_queue q -> in_sync cap q bk.
Proof.
  intros Hs Hh Hi. split; [done|]. destruct q as [|it q]; [done|].
  exists []. pose proof (image_pos it). split; [|cbn; lia]. split; [done|]. split; [|cbn; lia].
  cbn. rewrite Hi. reflexivity.
Qed.

(** The effect of handing a message to the interface. *)
Definition handed (bk : backend) (it : item) (bk' : backend) : Prop :=
  exists bk1 s st bk2, frame bk bk1 /\ item_call it (set_inbound s bk1) = Some (st, bk2) /\
    bk' = set_inbound (Stream_SetPosition 0 (InboundStream bk2)) bk2.

Lemma holds_reset s buf pos len cap :
  rep s buf pos len -> (len <= length buf)%nat -> (cap <= len)%nat ->
  holds (Stream_SetPosition 0 s) [] cap.
Proof.
  intros Hs Hb Hc. exists buf, len. cbn [length take].
  split; [eapply setpos_spec; [exact Hs|lia]|]. split; [done|]. lia.
Qed.

(** The dispatch of a complete message hands exactly that message over. *)
Lemma dispatch_hands cap it q bk :
  deliverable cap it -> ServerMode bk = item_mode ->
  collecting (item_header it) (item_payload it) (wire_queue q) cap (image it) bk ->
  inbound (hClientPipe bk) = wire_queue q ->
  exists bk', receive_dispatch server client sl cl common0 bk = Some bk' /\
    handed bk it bk' /\ in_sync cap q bk' /\ inbound (hClientPipe bk') = wire_queue q.
Proof.
  intros (Hwf & Hlen & Hfit & Hd) Hsm Hc Hi.
  destruct (receive_dispatch_spec _ _ _ cap Hwf Hlen Hfit server client sl cl common0 bk Hc)
    as (s & buf & len & more & Hs & Hdr & Hlb & Hcl & ->).
  destruct (Hd s buf len more bk Hs Hdr Hlb ltac:(lia) Hsm)
    as (s' & pos' & st & st' & bk2 & Hs' & E2 & (K1 & K2 & K3) & ->).
  cbn [mbind option_bind]. eexists. split; [reflexivity|].
  cbn [ServerMode set_inbound InboundStream hClientPipe] in *.
  split; [|split; [|congruence]].
  - exists bk, s', st, bk2. split; [apply frame_refl|]. split; [exact E2|done].
  - apply in_sync_idle; cbn [ServerMode set_inbound InboundStream hClientPipe] in *; try congruence.
    rewrite K1. eapply holds_reset; [exact Hs'|done|done].
Qed.

(** One call: the queue stays and the interface is not called, or the head of
    the queue is handed over and removed. *)
Lemma receive_refines cap it q bk :
  Z.of_nat cap < 2 ^ 31 -> deliverable cap it -> in_sync cap (it :: q) bk ->
  exists st bk', freerds_transport_receive server client sl cl common0 bk = Some (st, bk') /\
    (in_sync cap (it :: q) bk' /\ frame bk bk' /\ (st = 0 \/ st = -1 /\ ~ live) /\
       (st = 0 -> (length (inbound (hClientPipe bk')) < length (inbound (hClientPipe bk)))%nat) \/
     st = 0 /\ handed bk it bk' /\ in_sync cap q bk' /\
       (length (inbound (hClientPipe bk')) < length (inbound (hClientPipe bk)))%nat).
Proof.
  intros Hcap Hd (Hsm & part & Hc & Hl). pose proof Hd as (Hwf & Hlen & Hfit & _).
  destruct (transport_receive_step _ _ _ cap Hwf Hlen Hfit Hcap server client sl cl common0 part bk Hc Hl)
    as (bk1 & part1 & Hf & Hc1 & Hg & [(Hl1 & st & E & Hst)|(-> & Hi & E)]).
  - exists st, bk1. split; [done|]. left. split; [|split; [done|split; [tauto|]]].
    + split; [destruct Hf as (-> & _); done|]. eauto.
    + intros ->. destruct Hst as [[[=] _]|[_ Hg']].
      destruct Hc as (_ & Hb & _), Hc1 as (_ & Hb1 & _). rewrite <-Hb1 in Hb.
      apply (f_equal length) in Hb. rewrite !length_app in Hb. lia.
  - assert (ServerMode bk1 = item_mode) as Hsm1 by (destruct Hf as (-> & _); done).
    destruct (dispatch_hands cap it q bk1 Hd Hsm1 Hc1 Hi) as (bk' & E' & Hh & Hsy & Hi').
    rewrite E, E'. exists 0, bk'. split; [done|]. right. split; [done|]. split; [|split; [done|]].
    2:{ destruct Hc as (_ & Hb & _). apply (f_equal length) in Hb. rewrite !length_app in Hb.
        unfold image in Hl. rewrite length_app in Hl. rewrite Hi'. lia. }
    destruct Hh as (bk1' & s & st & bk2 & Hf' & Hh). exists bk1', s, st, bk2.
    split; [by eapply frame_trans|done].
Qed.

(** With nothing under way a call reports that the pipe has nothing. *)
Lemma receive_idle cap bk :
  (10 <= cap)%nat -> Z.of_nat cap < 2 ^ 31 -> in_sync cap [] bk ->
  exists bk', freerds_transport_receive server client sl cl common0 bk = Some (-1, bk') /\
    in_sync cap [] bk' /\ frame bk bk'.
Proof.
  intros H10 Hcap (Hsm & Hh & Hi). unfold freerds_transport_receive, receive_header.
  rewrite (holds_position bk [] cap Hh). cbn [length]. change (Z.of_nat 0 <? RDS_ORDER_HEADER_LENGTH) with true.
  unfold RDS_ORDER_HEADER_LENGTH.
  destruct (receive_bytes_spec (10 - Z.of_nat 0) bk [] cap Hh)
    as (more & bk' & -> & Hf & bs & Hh' & Hi' & Hbn & Hne & Hz & _); [lia|cbn; lia|].
  rewrite Hi in Hi'. symmetry in Hi'. apply app_nil in Hi' as [-> Hi'].
  destruct more; [by destruct Hne|]. cbn [mbind option_bind negb].
  exists bk'. split; [done|]. split; [|done]. split; [destruct Hf as (-> & _); done|]. done.
Qed.

(** *** Runs of the receiver *)

Fixpoint receive_times (k : nat) (bk : backend) : option backend :=
  match k with
  | O => Some bk
  | S k' => '(_, bk') ← freerds_transport_receive server client sl cl common0 bk; receive_times k' bk'
  end.

(** The interface has been called for exactly the messages of the list, in
    that order. *)
Inductive delivered : backend -> list item -> backend -> Prop :=
| delivered_nil bk bk' : frame bk bk' -> delivered bk [] bk'
| delivered_cons bk it q bk1 bk' :
    handed bk it bk1 -> delivered bk1 q bk' -> delivered bk (it :: q) bk'.

Lemma delivered_frame bk bk1 q bk' : frame bk bk1 -> delivered bk1 q bk' -> delivered bk q bk'.
Proof.
  intros Hf Hd. destruct Hd as [bk1 bk' Hf'|bk1 it q bk2 bk' Hh Hd].
  - constructor. by eapply frame_trans.
  - econstructor; [|exact Hd]. destruct Hh as (b & s & st & b2 & Hf' & Hh).
    exists b, s, st, b2. split; [by eapply frame_trans|done].
Qed.

Lemma receive_times_spec cap q k bk :
  (10 <= cap)%nat -> Z.of_nat cap < 2 ^ 31 -> Forall (deliverable cap) q ->
  in_sync cap q bk ->
  exists bk' done todo, receive_times k bk = Some bk' /\ q = done ++ todo /\
    delivered bk done bk' /\ in_sync cap todo bk' /\
    (live -> (length (inbound (hClientPipe bk)) <= k)%nat -> todo = []).
Proof.
  intros H10 Hcap. revert q bk. induction k as [|k IH]; intros q bk Hall Hsy; cbn [receive_times].
  - exists bk, [], q. repeat split; try done; try apply Hsy; [by constructor|].
    intros _ Hle. destruct q as [|it q]; [done|]. destruct Hsy as (_ & part & (_ & Hb & _) & Hl).
    exfalso. apply (f_equal length) in Hb. rewrite !length_app in Hb.
    unfold image in Hl. rewrite length_app in Hl. lia.
  - destruct q as [|it q].
    + destruct (receive_idle cap bk H10 Hcap Hsy) as (bk1 & -> & Hsy1 & Hf). cbn [mbind option_bind].
      destruct (IH [] bk1 Hall Hsy1) as (bk' & dn & todo & -> & E & Hd & Hsy' & Hlv).
      exists bk', dn, todo. split; [done|]. split; [done|]. split; [by eapply delivered_frame|].
      split; [done|]. intros _ _. symmetry in E. by apply app_nil in E as [_ ->].
    + inversion_clear Hall as [|? ? Hm Hms].
      destruct (receive_refines cap it q bk Hcap Hm Hsy)
        as (st & bk1 & -> & [(Hsy1 & Hf & Hst & Hlt)|(-> & Hh & Hsy1 & Hlt)]); cbn [mbind option_bind].
      * destruct (IH (it :: q) bk1) as (bk' & dn & todo & -> & E & Hd & Hsy' & Hlv);
          [by constructor|done|].
        exists bk', dn, todo. do 2 (split; [done|]). split; [by eapply delivered_frame|].
        split; [done|]. intros Hl Hle. apply Hlv; [done|].
        destruct Hst as [->|[_ Hn]]; [specialize (Hlt eq_refl); lia|done].
      * destruct (IH q bk1 Hms Hsy1) as (bk' & dn & todo & -> & E & Hd & Hsy' & Hlv).
        exists bk', (it :: dn), todo. split; [done|]. split; [by rewrite E|].
        split; [by econstructor|]. split; [done|]. intros Hl Hle. apply Hlv; [done|lia].
Qed.
End Queue.
