(* ===== verification/Delivery.v ===== *)
(** * Delivery of messages

    The two instances of the message queue of Queue.v: the server messages that
    a client backend receives and the client messages that a server backend
    receives. *)

From S2P Require Import Prelude WStream Message ClientMsg ServerMsg VarMsg SessionMsg WindowMsg.
From S2P Require Import MsgTable TableFacts Pipe Transport TransportFacts Queue.

Section Server.
Context {W : WStream} {L : WStreamLaws W} {P : Pipe} {PL : PipeLaws P} {A : Type} {F : WindowOrder}.
Context (server : rdsServerInterface A) (client : rdsClientInterface A).
Context (sl : server_locals) (cl : client_locals) (common0 : RDS_MSG_COMMON).
Abbreviation backend := (rdsBackend A).

(** The local struct that a case of [freerds_receive_server_message] reads
    into, before the read. *)
Definition local_body (m : msg_body) : option msg_body :=
  match m with
  | mBeginUpdate _ => Some (mBeginUpdate (l_begin_update sl))
  | mEndUpdate _ => Some (mEndUpdate (l_end_update sl))
  | mOpaqueRect _ => Some (mOpaqueRect (l_opaque_rect sl))
  | mScreenBlt _ => Some (mScreenBlt (l_screen_blt sl))
  | mPatBlt _ => Some (mPatBlt (l_patblt sl))
  | mDstBlt _ => Some (mDstBlt (l_dstblt sl))
  | mPaintRect _ => Some (mPaintRect (paint_rect_init (l_paint_rect sl)))
  | mSetClippingRegion _ => Some (mSetClippingRegion (l_set_clipping_region sl))
  | mLineTo _ => Some (mLineTo (l_line_to sl))
  | mSetPointer _ => Some (mSetPointer (l_set_pointer sl))
  | mSetSystemPointer _ => Some (mSetSystemPointer (l_set_system_pointer sl))
  | mCreateOffscreenSurface _ => Some (mCreateOffscreenSurface (l_create_offscreen_surface sl))
  | mSwitchOffscreenSurface _ => Some (mSwitchOffscreenSurface (l_switch_offscreen_surface sl))
  | mDeleteOffscreenSurface _ => Some (mDeleteOffscreenSurface (l_delete_offscreen_surface sl))
  | mPaintOffscreenSurface _ => Some (mPaintOffscreenSurface (l_paint_offscreen_surface sl))
  | mWindowDelete _ => Some (mWindowDelete (l_window_delete sl))
  | mSharedFramebuffer _ => Some (mSharedFramebuffer (l_shared_framebuffer sl))
  | mLogonUser _ => Some (mLogonUser (l_logon_user sl))
  | mLogoffUser _ => Some (mLogoffUser (l_logoff_user sl))
  | _ => None
  end.

(** The message as the interface sees it. *)
Definition attach_body (m : msg_body) : msg_body :=
  match m with mPaintRect b => mPaintRect (paint_rect_attach b) | _ => m end.

Definition arrive (m : msg_body) : option msg_body :=
  m0 ← local_body m; r ← recv_body m0 m; Some (attach_body r).

(** The call of the interface that belongs to a message. *)
Definition call_server (bk : backend) (c : RDS_MSG_COMMON) (m : msg_body) :
    option (Z * backend) :=
  match m with
  | mBeginUpdate b => f ← BeginUpdate server; f bk (Msg c b)
  | mEndUpdate b => f ← EndUpdate server; f bk (Msg c b)
  | mSetClippingRegion b => f ← SetClippingRegion server; f bk (Msg c b)
  | mOpaqueRect b => f ← OpaqueRect server; f bk (Msg c b)
  | mScreenBlt b => f ← ScreenBlt server; f bk (Msg c b)
  | mPaintRect b => f ← PaintRect server; f bk (Msg c b)
  | mPatBlt b => f ← PatBlt server; f bk (Msg c b)
  | mDstBlt b => f ← DstBlt server; f bk (Msg c b)
  | mLineTo b => f ← LineTo server; f bk (Msg c b)
  | mCreateOffscreenSurface b => f ← CreateOffscreenSurface server; f bk (Msg c b)
  | mSwitchOffscreenSurface b => f ← SwitchOffscreenSurface server; f bk (Msg c b)
  | mDeleteOffscreenSurface b => f ← DeleteOffscreenSurface server; f bk (Msg c b)
  | mPaintOffscreenSurface b => f ← PaintOffscreenSurface server; f bk (Msg c b)
  | mSetPalette b => f ← SetPalette server; f bk (Msg c b)
  | mCacheGlyph b => f ← CacheGlyph server; f bk (Msg c b)
  | mGlyphIndex b => f ← GlyphIndex server; f bk (Msg c b)
  | mSetPointer b => f ← SetPointer server; f bk (Msg c b)
  | mSharedFramebuffer b => f ← SharedFramebuffer server; f bk (Msg c b)
  | mBeep b => f ← Beep server; f bk (Msg c b)
  | mReset b => f ← Reset server; f bk (Msg c b)
  | mWindowNewUpdate b => f ← WindowNewUpdate server; f bk (Msg c b)
  | mWindowDelete b => f ← WindowDelete server; f bk (Msg c b)
  | mSetSystemPointer b => f ← SetSystemPointer server; f bk (Msg c b)
  | mLogonUser b => f ← LogonUser server; f bk (Msg c b)
  | mLogoffUser b => f ← LogoffUser server; f bk (Msg c b)
  | _ => None
  end.

(** The interface is there for the message, returns, and leaves the inbound
    side alone. *)
Definition serves (c : RDS_MSG_COMMON) (m : msg_body) : Prop :=
  forall bk, exists st bk', call_server bk c m = Some (st, bk') /\ keeps_inbound bk bk'.

Lemma serve_spec {B} `{View B} (b0 b1 : B) (fix_ : B -> B) (h : option (handler A B)) c bk s' :
  freerds_server_message_read (Msg c (inj b0)) (InboundStream bk) = Some ((0, Msg c (inj b1)), s') ->
  serve b0 fix_ h bk c = (f ← h; f (set_inbound s' bk) (Msg c (fix_ b1))).
Proof.
  intros E. unfold serve. rewrite E. cbn [mbind option_bind body Message.common].
  by rewrite proj_inj.
Qed.

(** The dispatch on the message type reads the message into its local struct
    and calls the interface function of that type. *)
Lemma receive_server_spec c m m0 r r' bk s' :
  msg_type c = server_type m -> local_body m = Some m0 -> recv_body m0 m = Some r ->
  attach_body r = r' ->
  freerds_server_message_read (Msg c m0) (InboundStream bk) = Some ((0, Msg c r), s') ->
  exists adj, freerds_receive_server_message server sl bk c =
    ('(st, bk') ← call_server (set_inbound s' bk) c r'; Some (adj st, bk')).
Proof.
  intros Ht El Er Ea E.
  destruct m; try discriminate; injection El as <-; injection Er as <-; subst r';
    unfold freerds_receive_server_message; rewrite Ht; cbn [server_type];
    ((erewrite serve_spec; [|exact E]); unfold id; cbn [attach_body call_server];
     match goal with |- context [?h server] => destruct (h server) as [f|]; cbn [mbind option_bind] end;
     [|exists id; reflexivity];
     match goal with f : handler A _ |- context [?g ?x ?y] =>
       constr_eq f g; destruct (f x y) as [[st bk']|]; cbn end;
     first [by exists id | by exists (fun _ => 0)]).
Qed.

(** *** The server messages as a protocol *)

Record server_msg := mk_server_msg { sm_common : RDS_MSG_COMMON; sm_body : msg_body }.

#[global] Instance server_protocol : Protocol (A := A) server_msg := {
  item_header it := sent_common (sm_common it) (sm_body it);
  item_payload it := wire_body (sm_body it);
  item_mode := false;
  item_call it bk :=
    r ← arrive (sm_body it);
    call_server bk (recv_common common0 (sent_common (sm_common it) (sm_body it))) r;
}.

(** What a message must satisfy to reach the interface: its struct is
    well-formed, it fits the inbound stream, its type is dispatched, the local
    struct it is read into has the room the reader needs, and the interface has
    a function for it. *)
Definition sendable (cap : nat) (it : server_msg) : Prop :=
  let m := sm_body it in
  ok_body m /\ msg_type (sm_common it) = server_type m /\ wf_rect (rect (sm_common it)) /\
  (length (wire_msg (sm_common it) m) <= cap)%nat /\
  exists m0 r, local_body m = Some m0 /\ ready_body m0 /\ recv_body m0 m = Some r /\
    serves (recv_common common0 (sent_common (sm_common it) m)) (attach_body r).

Lemma sendable_deliverable cap it :
  Z.of_nat cap < 2 ^ 31 -> sendable cap it -> deliverable server client sl cl common0 cap it.
Proof.
  destruct it as [c m]. intros Hcap (Hok & Ht & Hr & Hfit & m0 & r & El & Hrd & Er & Hsv).
  cbn [sm_common sm_body] in *.
  assert (0 <= server_type m) as H0 by (destruct m; cbn in *; (lia || discriminate)).
  split.
  { apply (wf_sent_common c m); [done| |done]. rewrite Ht. unfold is_u16. destruct m; cbn in *; lia. }
  split; [apply (length_sent_common c m); lia|]. split; [done|].
  intros s buf len more bk Hs Hd Hlb Hlen Hsm. cbn [item_header item_payload item_mode] in *.
  assert (msg_type (recv_common common0 (sent_common c m)) = server_type m) as Hrc by done.
  destruct (server_message_read_spec _ m0 m r Hok Hrd Er Hrc H0 s buf _ len more Hs Hd Hlb)
    as (s' & E & Hs').
  { unfold image in Hlen. rewrite length_app in Hlen. exact Hlen. }
  destruct (receive_server_spec _ m m0 r _ (set_inbound s bk) s' Hrc El Er eq_refl E) as (adj & Ercv).
  destruct (Hsv (set_inbound s' bk)) as (st & bk2 & E2 & K).
  exists s', (length (wire_header (sent_common c m)) + length (wire_body m))%nat, st, (adj st), bk2.
  split; [done|]. split; [|split; [done|]].
  - assert (arrive m = Some (attach_body r)) as Ea
      by (unfold arrive; rewrite El; cbn [mbind option_bind]; by rewrite Er).
    cbn [item_call server_protocol sm_body sm_common]. by rewrite Ea.
  - unfold freerds_receive_message. cbn [ServerMode set_inbound]. rewrite Hsm. cbv iota.
    cbn [item_header server_protocol sm_body sm_common]. rewrite Ercv.
    change (set_inbound s' (set_inbound s bk)) with (set_inbound s' bk).
    by rewrite E2.
Qed.

End Server.


Section Client.
Context {W : WStream} {L : WStreamLaws W} {P : Pipe} {PL : PipeLaws P} {A : Type} {F : WindowOrder}.
Context (server : rdsServerInterface A) (client : rdsClientInterface A).
Context (sl : server_locals) (cl : client_locals) (common0 : RDS_MSG_COMMON).
Abbreviation backend := (rdsBackend A).

(** The client messages that [freerds_receive_client_message] dispatches. *)
Inductive client_body :=
| cCapabilities (b : Capabilities.RDS_MSG_CAPABILITIES)
| cSynchronizeKeyboardEvent (b : SynchronizeKeyboardEvent.RDS_MSG_SYNCHRONIZE_KEYBOARD_EVENT)
| cScancodeKeyboardEvent (b : ScancodeKeyboardEvent.RDS_MSG_SCANCODE_KEYBOARD_EVENT)
| cVirtualKeyboardEvent (b : VirtualKeyboardEvent.RDS_MSG_VIRTUAL_KEYBOARD_EVENT)
| cUnicodeKeyboardEvent (b : UnicodeKeyboardEvent.RDS_MSG_UNICODE_KEYBOARD_EVENT)
| cMouseEvent (b : MouseEvent.RDS_MSG_MOUSE_EVENT)
| cExtendedMouseEvent (b : ExtendedMouseEvent.RDS_MSG_EXTENDED_MOUSE_EVENT)
| cVBlankEvent (b : VBlankEvent.RDS_MSG_VBLANK_EVENT).

Definition event_type (e : client_body) : Z :=
  match e with
  | cCapabilities _ => 102
  | cSynchronizeKeyboardEvent _ => 104
  | cScancodeKeyboardEvent _ => 105
  | cVirtualKeyboardEvent _ => 106
  | cUnicodeKeyboardEvent _ => 107
  | cMouseEvent _ => 108
  | cExtendedMouseEvent _ => 109
  | cVBlankEvent _ => 110
  end.

Definition ok_event (e : client_body) : Prop :=
  match e with
  | cCapabilities b => ok (wr := Capabilities.freerds_write_capabilities) b
  | cSynchronizeKeyboardEvent b => ok (wr := SynchronizeKeyboardEvent.freerds_write_synchronize_keyboard_event) b
  | cScancodeKeyboardEvent b => ok (wr := ScancodeKeyboardEvent.freerds_write_scancode_keyboard_event) b
  | cVirtualKeyboardEvent b => ok (wr := VirtualKeyboardEvent.freerds_write_virtual_keyboard_event) b
  | cUnicodeKeyboardEvent b => ok (wr := UnicodeKeyboardEvent.freerds_write_unicode_keyboard_event) b
  | cMouseEvent b => ok (wr := MouseEvent.freerds_write_mouse_event) b
  | cExtendedMouseEvent b => ok (wr := ExtendedMouseEvent.freerds_write_extended_mouse_event) b
  | cVBlankEvent b => ok (wr := VBlankEvent.freerds_write_vblank_event) b
  end.

Definition wire_event (e : client_body) : list Z :=
  match e with
  | cCapabilities b => wire (wr := Capabilities.freerds_write_capabilities) (norm (wr := Capabilities.freerds_write_capabilities) b)
  | cSynchronizeKeyboardEvent b => wire (wr := SynchronizeKeyboardEvent.freerds_write_synchronize_keyboard_event) (norm (wr := SynchronizeKeyboardEvent.freerds_write_synchronize_keyboard_event) b)
  | cScancodeKeyboardEvent b => wire (wr := ScancodeKeyboardEvent.freerds_write_scancode_keyboard_event) (norm (wr := ScancodeKeyboardEvent.freerds_write_scancode_keyboard_event) b)
  | cVirtualKeyboardEvent b => wire (wr := VirtualKeyboardEvent.freerds_write_virtual_keyboard_event) (norm (wr := VirtualKeyboardEvent.freerds_write_virtual_keyboard_event) b)
  | cUnicodeKeyboardEvent b => wire (wr := UnicodeKeyboardEvent.freerds_write_unicode_keyboard_event) (norm (wr := UnicodeKeyboardEvent.freerds_write_unicode_keyboard_event) b)
  | cMouseEvent b => wire (wr := MouseEvent.freerds_write_mouse_event) (norm (wr := MouseEvent.freerds_write_mouse_event) b)
  | cExtendedMouseEvent b => wire (wr := ExtendedMouseEvent.freerds_write_extended_mouse_event) (norm (wr := ExtendedMouseEvent.freerds_write_extended_mouse_event) b)
  | cVBlankEvent b => wire (wr := VBlankEvent.freerds_write_vblank_event) (norm (wr := VBlankEvent.freerds_write_vblank_event) b)
  end.

(** The call of the interface that belongs to an event.  [NULL] is allowed for
    the capabilities and the vertical blank. *)
Definition call_client (bk : backend) (c : RDS_MSG_COMMON) (e : client_body) :
    option (Z * backend) :=
  match e with
  | cCapabilities b => match Capabilities client with Some f => f bk (Msg c b) | None => Some (0, bk) end
  | cSynchronizeKeyboardEvent b => f ← SynchronizeKeyboardEvent client; f bk (SynchronizeKeyboardEvent.flags b)
  | cScancodeKeyboardEvent b => f ← ScancodeKeyboardEvent client; f bk (ScancodeKeyboardEvent.flags b) (ScancodeKeyboardEvent.code b) (ScancodeKeyboardEvent.keyboardType b)
  | cVirtualKeyboardEvent b => f ← VirtualKeyboardEvent client; f bk (VirtualKeyboardEvent.flags b) (VirtualKeyboardEvent.code b)
  | cUnicodeKeyboardEvent b => f ← UnicodeKeyboardEvent client; f bk (UnicodeKeyboardEvent.flags b) (UnicodeKeyboardEvent.code b)
  | cMouseEvent b => f ← MouseEvent client; f bk (MouseEvent.flags b) (MouseEvent.x b) (MouseEvent.y b)
  | cExtendedMouseEvent b => f ← ExtendedMouseEvent client; f bk (ExtendedMouseEvent.flags b) (ExtendedMouseEvent.x b) (ExtendedMouseEvent.y b)
  | cVBlankEvent _ => match VBlankEvent client with Some f => f bk | None => Some (0, bk) end
  end.

Definition hears (c : RDS_MSG_COMMON) (e : client_body) : Prop :=
  forall bk, exists st bk', call_client bk c e = Some (st, bk') /\ keeps_inbound bk bk'.

Record client_msg := mk_client_msg { cm_common : RDS_MSG_COMMON; cm_body : client_body }.

Definition event_common (it : client_msg) : RDS_MSG_COMMON :=
  out_common (cm_common it) (Z.of_nat (length (wire_event (cm_body it)))) None.

#[global] Instance client_protocol : Protocol (A := A) client_msg := {
  item_header := event_common;
  item_payload it := wire_event (cm_body it);
  item_mode := true;
  item_call it bk := call_client bk (recv_common common0 (event_common it)) (cm_body it);
}.

Lemma length_event_image it :
  Z.of_nat (length (image it)) = 10 + Z.of_nat (length (wire_event (cm_body it))).
Proof.
  unfold image. rewrite length_app, Nat2Z.inj_add. cbn [item_header item_payload client_protocol].
  unfold event_common. by rewrite length_wire_out.
Qed.

(** An event that fits the inbound stream and has a function of the interface. *)
Definition event_sendable (cap : nat) (it : client_msg) : Prop :=
  ok_event (cm_body it) /\ msg_type (cm_common it) = event_type (cm_body it) /\
  wf_rect (rect (cm_common it)) /\ (length (image it) <= cap)%nat /\
  hears (recv_common common0 (event_common it)) (cm_body it).

(** The dispatch on the type decodes the event and calls the interface with
    its fields. *)
Lemma receive_client_spec c e s buf pos len more bk :
  ok_event e -> msg_type c = event_type e ->
  rep s buf pos len -> drop pos buf = wire_event e ++ more -> (len <= length buf)%nat ->
  (pos + length (wire_event e) <= len)%nat ->
  exists s', rep s' buf (pos + length (wire_event e)) len /\
    freerds_receive_client_message client cl (set_inbound s bk) c = call_client (set_inbound s' bk) c e.
Proof.
  intros Hok Ht Hs Hd Hb Hl.
  destruct e as [b|b|b|b|b|b|b|b]; cbn [ok_event wire_event] in *;
    unfold freerds_receive_client_message; rewrite Ht; cbn [event_type]; unfold hear;
    cbn [InboundStream set_inbound];
    match goal with |- context [?rd (Msg c ?l) s] =>
      pose proof (codec_read (rd := rd) c l b Hok I s buf pos len more Hs Hd Hb Hl) as (s' & E & Hs') end;
    exists s'; (split; [exact Hs'|]); rewrite E; reflexivity.
Qed.

Lemma event_deliverable cap it :
  Z.of_nat cap < 2 ^ 31 -> event_sendable cap it -> deliverable server client sl cl common0 cap it.
Proof.
  destruct it as [c e]. intros Hcap (Hok & Ht & Hr & Hfit & Hh).
  cbn [cm_common cm_body] in *. pose proof (length_event_image (mk_client_msg c e)) as Hle.
  cbn [cm_body] in Hle. split.
  { cbn [item_header client_protocol]. unfold event_common, out_common, wf_common.
    cbn [cm_common cm_body msg_type msg_length msgFlags rect header_size].
    split; [rewrite Ht; unfold is_u16; destruct e; cbn; lia|]. split; [apply is_u32_u32|].
    split; [by vm_compute|done]. }
  split.
  { cbn [item_header client_protocol]. rewrite Hle. unfold event_common, out_common.
    cbn [cm_body msg_length header_size]. apply u32_id. unfold is_u32. lia. }
  split; [done|]. intros s buf len more bk Hs Hd Hlb Hlen Hsm.
  cbn [item_header item_payload item_mode client_protocol cm_body] in *.
  destruct (receive_client_spec (recv_common common0 (event_common (mk_client_msg c e))) e s buf _ len more bk
              Hok Ht Hs Hd Hlb) as (s' & Hs' & E).
  { unfold image in Hlen. rewrite length_app in Hlen. exact Hlen. }
  destruct (Hh (set_inbound s' bk)) as (st & bk2 & E2 & K).
  do 2 eexists. exists st, st, bk2. split; [exact Hs'|]. split; [exact E2|]. split; [done|].
  unfold freerds_receive_message. cbn [ServerMode set_inbound]. rewrite Hsm. cbv iota.
  by rewrite E, E2.
Qed.
End Client.
