(* ===== verification/Outbound.v ===== *)
(** * The outbound interfaces

    freerds/backend/outbound.c: the functions that a backend exposes as its
    client or server interface when the other side lives behind the pipe.
    Each one marshals its message into [OutboundStream] and writes it to the
    pipe.

    [common0] stands for the uninitialised header of a local message struct. *)

From S2P Require Import Prelude WStream Message ClientMsg ServerMsg VarMsg SessionMsg WindowMsg.
From S2P Require Import MsgTable Pipe Transport.

Section Outbound.
Context {W : WStream} {P : Pipe} {A : Type} {F : WindowOrder}.
Context (common0 : RDS_MSG_COMMON).
Abbreviation backend := (rdsBackend A).

(** *** Client messages *)

Definition freerds_client_outbound_write_message (bk : backend) (msg : MSG msg_body) :
    option (Z * backend) :=
  let s := Stream_SetPosition 0 (OutboundStream bk) in
  '((_, msg), _) ← freerds_client_message_write None msg;
  let s := Stream_EnsureRemainingCapacity (msg_length (Message.common msg)) s in
  '((_, msg), s) ← freerds_client_message_write (Some s) msg;
  s ← s;
  '(status, p) ← freerds_named_pipe_write (hClientPipe bk) (Stream_Buffer s)
                   (msg_length (Message.common msg));
  Some (status, set_outbound s (set_pipe p bk)).

(** [msg.msgFlags = 0; msg.type = t; ...; s = backend->OutboundStream;
    Stream_SetPosition(s, 0); length = wr(NULL, &msg); wr(s, &msg);
    status = freerds_named_pipe_write(backend->hClientPipe, Stream_Buffer(s), length);] *)
Definition outbound_event {B} (wr : writer B) (t : Z) (b : B) (bk : backend) : option (Z * backend) :=
  let msg := set_type t (set_msgFlags 0 (Msg common0 b)) in
  let s := Stream_SetPosition 0 (OutboundStream bk) in
  '((length, msg), _) ← wr None msg;
  '((_, msg), s) ← wr (Some s) msg;
  s ← s;
  '(status, p) ← freerds_named_pipe_write (hClientPipe bk) (Stream_Buffer s) (u32 length);
  Some (status, set_outbound s (set_pipe p bk)).

Definition freerds_client_outbound_synchronize_keyboard_event (bk : backend) (flags : Z) : option (Z * backend) :=
  outbound_event SynchronizeKeyboardEvent.freerds_write_synchronize_keyboard_event RDS_CLIENT_SYNCHRONIZE_KEYBOARD_EVENT (SynchronizeKeyboardEvent.mk flags) bk.

Definition freerds_client_outbound_scancode_keyboard_event (bk : backend) (flags : Z) (code : Z) (keyboardType : Z) : option (Z * backend) :=
  outbound_event ScancodeKeyboardEvent.freerds_write_scancode_keyboard_event RDS_CLIENT_SCANCODE_KEYBOARD_EVENT (ScancodeKeyboardEvent.mk flags code keyboardType) bk.

Definition freerds_client_outbound_virtual_keyboard_event (bk : backend) (flags : Z) (code : Z) : option (Z * backend) :=
  outbound_event VirtualKeyboardEvent.freerds_write_virtual_keyboard_event RDS_CLIENT_VIRTUAL_KEYBOARD_EVENT (VirtualKeyboardEvent.mk flags code) bk.

Definition freerds_client_outbound_unicode_keyboard_event (bk : backend) (flags : Z) (code : Z) : option (Z * backend) :=
  outbound_event UnicodeKeyboardEvent.freerds_write_unicode_keyboard_event RDS_CLIENT_UNICODE_KEYBOARD_EVENT (UnicodeKeyboardEvent.mk flags code) bk.

Definition freerds_client_outbound_mouse_event (bk : backend) (flags : Z) (x : Z) (y : Z) : option (Z * backend) :=
  outbound_event MouseEvent.freerds_write_mouse_event RDS_CLIENT_MOUSE_EVENT (MouseEvent.mk flags x y) bk.

Definition freerds_client_outbound_extended_mouse_event (bk : backend) (flags : Z) (x : Z) (y : Z) : option (Z * backend) :=
  outbound_event ExtendedMouseEvent.freerds_write_extended_mouse_event RDS_CLIENT_EXTENDED_MOUSE_EVENT (ExtendedMouseEvent.mk flags x y) bk.

Definition freerds_client_outbound_vblank_event (bk : backend) : option (Z * backend) :=
  outbound_event VBlankEvent.freerds_write_vblank_event RDS_CLIENT_VBLANK_EVENT (VBlankEvent.mk) bk.

Definition freerds_client_outbound_logon_user (bk : backend)
    (msg : MSG LogonUser.RDS_MSG_LOGON_USER) : option (Z * backend) :=
  let msg := set_type RDS_CLIENT_LOGON_USER msg in
  freerds_client_outbound_write_message bk (Msg (Message.common msg) (mLogonUser (body msg))).

Definition freerds_client_outbound_logoff_user (bk : backend)
    (msg : MSG LogoffUser.RDS_MSG_LOGOFF_USER) : option (Z * backend) :=
  let msg := set_type RDS_CLIENT_LOGOFF_USER msg in
  freerds_client_outbound_write_message bk (Msg (Message.common msg) (mLogoffUser (body msg))).

Definition freerds_client_outbound_suppress_output (bk : backend) (suppress_output : Z) :
    option (Z * backend) :=
  outbound_event SuppressOutput.freerds_write_suppress_output RDS_CLIENT_SUPPRESS_OUTPUT
    (SuppressOutput.mk suppress_output) bk.

Definition freerds_client_outbound_interface_new : rdsClientInterface A := {|
  Capabilities := None;
  SynchronizeKeyboardEvent := Some freerds_client_outbound_synchronize_keyboard_event;
  ScancodeKeyboardEvent := Some freerds_client_outbound_scancode_keyboard_event;
  VirtualKeyboardEvent := Some freerds_client_outbound_virtual_keyboard_event;
  UnicodeKeyboardEvent := Some freerds_client_outbound_unicode_keyboard_event;
  MouseEvent := Some freerds_client_outbound_mouse_event;
  ExtendedMouseEvent := Some freerds_client_outbound_extended_mouse_event;
  VBlankEvent := Some freerds_client_outbound_vblank_event;
  client_LogonUser := Some freerds_client_outbound_logon_user;
  client_LogoffUser := Some freerds_client_outbound_logoff_user;
  SuppressOutput := Some freerds_client_outbound_suppress_output
|}.

(** *** Server messages *)

Definition freerds_server_outbound_write_message (bk : backend) (msg : MSG msg_body) :
    option (Z * backend) :=
  let s := Stream_SetPosition 0 (OutboundStream bk) in
  '((_, msg), _) ← freerds_server_message_write None msg;
  let s := Stream_EnsureRemainingCapacity (msg_length (Message.common msg)) s in
  '((_, msg), s) ← freerds_server_message_write (Some s) msg;
  s ← s;
  '(status, p) ← freerds_named_pipe_write (hClientPipe bk) (Stream_Buffer s)
                   (msg_length (Message.common msg));
  Some (status, set_outbound s (set_pipe p bk)).

(** [msg->type = t; return freerds_server_outbound_write_message(backend, msg);] *)
Definition outbound_message {B} `{View B} (t : Z) (bk : backend) (msg : MSG B) :
    option (Z * backend) :=
  let msg := set_type t msg in
  freerds_server_outbound_write_message bk (Msg (Message.common msg) (inj (body msg))).

Definition freerds_server_outbound_begin_update (bk : backend) (msg : MSG BeginUpdate.RDS_MSG_BEGIN_UPDATE) :
    option (Z * backend) := outbound_message RDS_SERVER_BEGIN_UPDATE bk msg.

Definition freerds_server_outbound_end_update (bk : backend) (msg : MSG EndUpdate.RDS_MSG_END_UPDATE) :
    option (Z * backend) := outbound_message RDS_SERVER_END_UPDATE bk msg.

Definition freerds_server_outbound_beep (bk : backend) (msg : MSG Stubs.RDS_MSG_BEEP) :
    option (Z * backend) := outbound_message RDS_SERVER_BEEP bk msg.

Definition freerds_server_outbound_opaque_rect (bk : backend) (msg : MSG OpaqueRect.RDS_MSG_OPAQUE_RECT) :
    option (Z * backend) := outbound_message RDS_SERVER_OPAQUE_RECT bk msg.

Definition freerds_server_outbound_screen_blt (bk : backend) (msg : MSG ScreenBlt.RDS_MSG_SCREEN_BLT) :
    option (Z * backend) := outbound_message RDS_SERVER_SCREEN_BLT bk msg.

Definition freerds_server_outbound_paint_rect (bk : backend) (msg : MSG PaintRect.RDS_MSG_PAINT_RECT) :
    option (Z * backend) := outbound_message RDS_SERVER_PAINT_RECT bk msg.

Definition freerds_server_outbound_patblt (bk : backend) (msg : MSG PatBlt.RDS_MSG_PATBLT) :
    option (Z * backend) := outbound_message RDS_SERVER_PATBLT bk msg.

Definition freerds_server_outbound_dstblt (bk : backend) (msg : MSG DstBlt.RDS_MSG_DSTBLT) :
    option (Z * backend) := outbound_message RDS_SERVER_DSTBLT bk msg.

Definition freerds_server_outbound_set_pointer (bk : backend) (msg : MSG SetPointer.RDS_MSG_SET_POINTER) :
    option (Z * backend) := outbound_message RDS_SERVER_SET_POINTER bk msg.

Definition freerds_server_outbound_set_system_pointer (bk : backend) (msg : MSG SetSystemPointer.RDS_MSG_SET_SYSTEM_POINTER) :
    option (Z * backend) := outbound_message RDS_SERVER_SET_SYSTEM_POINTER bk msg.

Definition freerds_server_outbound_set_palette (bk : backend) (msg : MSG Stubs.RDS_MSG_SET_PALETTE) :
    option (Z * backend) := outbound_message RDS_SERVER_SET_PALETTE bk msg.

Definition freerds_server_outbound_set_clipping_region (bk : backend) (msg : MSG SetClippingRegion.RDS_MSG_SET_CLIPPING_REGION) :
    option (Z * backend) := outbound_message RDS_SERVER_SET_CLIPPING_REGION bk msg.

Definition freerds_server_outbound_line_to (bk : backend) (msg : MSG LineTo.RDS_MSG_LINE_TO) :
    option (Z * backend) := outbound_message RDS_SERVER_LINE_TO bk msg.

Definition freerds_server_outbound_cache_glyph (bk : backend) (msg : MSG Stubs.RDS_MSG_CACHE_GLYPH) :
    option (Z * backend) := outbound_message RDS_SERVER_CACHE_GLYPH bk msg.

Definition freerds_server_outbound_glyph_index (bk : backend) (msg : MSG Stubs.RDS_MSG_GLYPH_INDEX) :
    option (Z * backend) := outbound_message RDS_SERVER_GLYPH_INDEX bk msg.

Definition freerds_server_outbound_shared_framebuffer (bk : backend) (msg : MSG SharedFramebuffer.RDS_MSG_SHARED_FRAMEBUFFER) :
    option (Z * backend) := outbound_message RDS_SERVER_SHARED_FRAMEBUFFER bk msg.

Definition freerds_server_outbound_reset (bk : backend) (msg : MSG Stubs.RDS_MSG_RESET) :
    option (Z * backend) := outbound_message RDS_SERVER_RESET bk msg.

Definition freerds_server_outbound_create_offscreen_surface (bk : backend) (msg : MSG CreateOffscreenSurface.RDS_MSG_CREATE_OFFSCREEN_SURFACE) :
    option (Z * backend) := outbound_message RDS_SERVER_CREATE_OFFSCREEN_SURFACE bk msg.

Definition freerds_server_outbound_switch_offscreen_surface (bk : backend) (msg : MSG SwitchOffscreenSurface.RDS_MSG_SWITCH_OFFSCREEN_SURFACE) :
    option (Z * backend) := outbound_message RDS_SERVER_SWITCH_OFFSCREEN_SURFACE bk msg.

Definition freerds_server_outbound_delete_offscreen_surface (bk : backend) (msg : MSG DeleteOffscreenSurface.RDS_MSG_DELETE_OFFSCREEN_SURFACE) :
    option (Z * backend) := outbound_message RDS_SERVER_DELETE_OFFSCREEN_SURFACE bk msg.

Definition freerds_server_outbound_paint_offscreen_surface (bk : backend) (msg : MSG PaintOffscreenSurface.RDS_MSG_PAINT_OFFSCREEN_SURFACE) :
    option (Z * backend) := outbound_message RDS_SERVER_PAINT_OFFSCREEN_SURFACE bk msg.

Definition freerds_server_outbound_window_new_update (bk : backend) (msg : MSG WindowNewUpdate.RDS_MSG_WINDOW_NEW_UPDATE) :
    option (Z * backend) := outbound_message RDS_SERVER_WINDOW_NEW_UPDATE bk msg.

Definition freerds_server_outbound_window_delete (bk : backend) (msg : MSG WindowDelete.RDS_MSG_WINDOW_DELETE) :
    option (Z * backend) := outbound_message RDS_SERVER_WINDOW_DELETE bk msg.

Definition freerds_server_outbound_is_terminated (bk : backend) : option (Z * backend) := Some (0, bk).

(** The fields that are not assigned stay [NULL]. *)
Definition freerds_server_outbound_interface_new : rdsServerInterface A := {|
  BeginUpdate := Some freerds_server_outbound_begin_update;
  EndUpdate := Some freerds_server_outbound_end_update;
  Beep := Some freerds_server_outbound_beep;
  IsTerminated := Some freerds_server_outbound_is_terminated;
  OpaqueRect := Some freerds_server_outbound_opaque_rect;
  ScreenBlt := Some freerds_server_outbound_screen_blt;
  PaintRect := Some freerds_server_outbound_paint_rect;
  PatBlt := Some freerds_server_outbound_patblt;
  DstBlt := Some freerds_server_outbound_dstblt;
  SetPointer := Some freerds_server_outbound_set_pointer;
  SetSystemPointer := Some freerds_server_outbound_set_system_pointer;
  SetPalette := Some freerds_server_outbound_set_palette;
  SetClippingRegion := Some freerds_server_outbound_set_clipping_region;
  LineTo := Some freerds_server_outbound_line_to;
  CacheGlyph := Some freerds_server_outbound_cache_glyph;
  GlyphIndex := Some freerds_server_outbound_glyph_index;
  SharedFramebuffer := Some freerds_server_outbound_shared_framebuffer;
  Reset := Some freerds_server_outbound_reset;
  CreateOffscreenSurface := Some freerds_server_outbound_create_offscreen_surface;
  SwitchOffscreenSurface := Some freerds_server_outbound_switch_offscreen_surface;
  DeleteOffscreenSurface := Some freerds_server_outbound_delete_offscreen_surface;
  PaintOffscreenSurface := Some freerds_server_outbound_paint_offscreen_surface;
  WindowNewUpdate := Some freerds_server_outbound_window_new_update;
  WindowDelete := Some freerds_server_outbound_window_delete;
  LogonUser := None;
  LogoffUser := None
|}.
End Outbound.
