(* ===== verification/OutboundFacts.v ===== *)
(** * What the outbound interfaces send

    Every function of freerds/backend/outbound.c that marshals a well-formed
    message puts exactly the bytes of that message on the pipe, or reports a
    failure after a prefix of them.

    Both ends of a pipe: a call of a function of the outbound interface becomes
    the call of the same function of the interface behind the backend at the
    other end, with the message that the wire format carries, once per call and
    in the order of the calls. *)

From S2P Require Import Prelude WStream Message ClientMsg ServerMsg VarMsg SessionMsg WindowMsg.
From S2P Require Import MsgTable TableFacts Pipe Transport TransportFacts Queue Delivery Outbound.

Section Facts.
Context {W : WStream} {L : WStreamLaws W} {P : Pipe} {PL : PipeLaws P} {A : Type} {F : WindowOrder}.
Context (common0 : RDS_MSG_COMMON).
Abbreviation backend := (rdsBackend A).

(** The outbound stream is usable: its length does not exceed its block. *)
Definition usable (s : wStream) : Prop :=
  exists buf pos len, rep s buf pos len /\ (len <= length buf)%nat.

(** Nothing but the outbound side has changed. *)
Definition keeps_but_outbound (bk bk' : backend) : Prop :=
  ServerMode bk' = ServerMode bk /\ InboundStream bk' = InboundStream bk /\ app bk' = app bk /\
  inbound (hClientPipe bk') = inbound (hClientPipe bk).

(** [bytes] have been put on the pipe with status their number, or a proper
    prefix of them with status -1. *)
Definition sent (bytes : list Z) (bk : backend) (st : Z) (bk' : backend) : Prop :=
  keeps_but_outbound bk bk' /\ usable (OutboundStream bk') /\
  (st = Z.of_nat (length bytes) /\
     outbound (hClientPipe bk') = outbound (hClientPipe bk) ++ bytes \/
   st = -1 /\ exists k, (k < length bytes)%nat /\
     outbound (hClientPipe bk') = outbound (hClientPipe bk) ++ take k bytes).

(** The last step of every function: the buffer starts with the message. *)
Lemma write_out bk s buf pos len bytes :
  rep s buf pos len -> (len <= length buf)%nat -> take (length bytes) buf = bytes ->
  Z.of_nat (length bytes) < 2 ^ 31 ->
  exists st bk',
    ('(status, p) ← freerds_named_pipe_write (hClientPipe bk) (Stream_Buffer s) (Z.of_nat (length bytes));
     Some (status, set_outbound s (set_pipe p bk))) = Some (st, bk') /\ sent bytes bk st bk'.
Proof.
  intros Hs Hb Ht Hl. pose proof Hs as (-> & _ & _).
  assert (length bytes <= length buf)%nat.
  { apply (f_equal length) in Ht. rewrite length_take in Ht. lia. }
  destruct (named_pipe_write_spec (hClientPipe bk) buf (Z.of_nat (length bytes)))
    as (st & p & -> & Hi & Hc); [lia|lia|].
  rewrite Nat2Z.id in Hc. cbn [mbind option_bind]. do 2 eexists. split; [reflexivity|].
  split; [done|]. split; [by exists buf, pos, len|].
  cbn [hClientPipe set_outbound set_pipe]. rewrite Ht in Hc.
  destruct Hc as [(-> & Ho)|(-> & k & Hk & Ho)].
  - left. split; [apply i32_id; unfold is_i32; lia|done].
  - right. split; [done|]. exists k. split; [done|]. rewrite Ho. f_equal.
    rewrite <-Ht, take_take, Nat.min_l by lia. done.
Qed.

(** The outbound stream after the position has been reset and room has been
    made. *)
Lemma ensure_fresh s n :
  usable s -> 0 <= n ->
  exists buf len, rep (Stream_EnsureRemainingCapacity n (Stream_SetPosition 0 s)) buf 0 len /\
    n <= Z.of_nat (length buf) /\ (len <= length buf)%nat.
Proof.
  intros (buf & pos & len & Hs & Hb) Hn.
  pose proof (setpos_spec _ _ _ _ 0%nat Hs ltac:(lia)) as H0.
  destruct (ensure_spec _ _ _ _ n H0) as (buf' & len' & Hr & _ & Hc & _ & Hl); [lia|lia|lia|].
  exists buf', len'. split; [done|]. split; [lia|done].
Qed.

(** A dispatching writer that is framed, as both tables' writers are. *)
Lemma write_message_spec
    (wr : option wStream -> MSG msg_body -> option ((Z * MSG msg_body) * option wStream)) c m bk :
  (exists m0, wr None (Msg c m) = Some ((i32 (msg_length (sent_common c m)), m0), None) /\
    msg_length (common m0) = msg_length (sent_common c m) /\ msg_type (common m0) = msg_type c /\
    (forall s, wr (Some s) m0 = wr (Some s) (Msg c m))) ->
  writes (with_stream (fun s => wr s (Msg c m))) (wire_msg c m)
    (i32 (msg_length (sent_common c m)), Msg (sent_common c m) (norm_body m)) ->
  usable (OutboundStream bk) -> Z.of_nat (length (wire_msg c m)) < 2 ^ 31 ->
  exists st bk',
   (let s := Stream_SetPosition 0 (OutboundStream bk) in
    '((_, msg), _) ← wr None (Msg c m);
    let s := Stream_EnsureRemainingCapacity (msg_length (common msg)) s in
    '((_, msg), s) ← wr (Some s) msg;
    s ← s;
    '(status, p) ← freerds_named_pipe_write (hClientPipe bk) (Stream_Buffer s)
                     (msg_length (common msg));
    Some (status, set_outbound s (set_pipe p bk))) = Some (st, bk') /\
   sent (wire_msg c m) bk st bk'.
Proof.
  intros (m0 & E0 & Hl0 & _ & Hs0) Hw Hu Hlen.
  rewrite E0. cbv zeta. cbn [mbind option_bind]. rewrite Hl0, length_sent_common by lia.
  destruct (ensure_fresh (OutboundStream bk) (Z.of_nat (length (wire_msg c m))) Hu)
    as (buf & len & Hr & Hb & Hlb); [lia|].
  destruct (Hw _ buf 0%nat len Hr) as (s' & E & Hs'); [lia|].
  revert E. unfold with_stream. rewrite Hs0.
  destruct (wr (Some _) (Msg c m)) as [[[st m1] [s2|]]|]; cbn [mbind option_bind]; try done.
  intros [= -> -> ->]. cbn [common]. rewrite length_sent_common by lia.
  eapply write_out; [exact Hs'|rewrite length_splice; lia| |done].
  rewrite <-(Nat.add_0_l (length (wire_msg c m))), take_splice_end by lia. done.
Qed.

Lemma server_outbound_spec bk c m :
  ok_body m -> msg_type c = server_type m -> 0 <= server_type m -> usable (OutboundStream bk) ->
  Z.of_nat (length (wire_msg c m)) < 2 ^ 31 ->
  exists st bk', freerds_server_outbound_write_message bk (Msg c m) = Some (st, bk') /\
    sent (wire_msg c m) bk st bk'.
Proof.
  intros Hok Ht H0 Hu Hl.
  exact (write_message_spec freerds_server_message_write c m bk (server_message_size c m Hok Ht H0)
           (server_message_write_spec c m Hok Ht H0) Hu Hl).
Qed.

Lemma client_outbound_spec bk c m :
  client_table_body m -> ok_body m -> msg_type c = client_type m -> usable (OutboundStream bk) ->
  Z.of_nat (length (wire_msg c m)) < 2 ^ 31 ->
  exists st bk', freerds_client_outbound_write_message bk (Msg c m) = Some (st, bk') /\
    sent (wire_msg c m) bk st bk'.
Proof.
  intros H0 Hok Ht Hu Hl.
  exact (write_message_spec freerds_client_message_write c m bk (client_message_size c m H0 Hok Ht)
           (client_message_write_spec c m H0 Hok Ht) Hu Hl).
Qed.

(** The event functions do not ask for room: the stream must have it. *)
Definition roomy (n : Z) (s : wStream) : Prop :=
  exists buf pos len, rep s buf pos len /\ (len <= length buf)%nat /\ n <= Z.of_nat (length buf).

Definition event_header (t : Z) : RDS_MSG_COMMON := common (set_type t (set_msgFlags 0 (Msg common0 tt))).

(** The bytes of an event. *)
Definition event_bytes {B} (wr : writer B) `{E : !Encoder wr} (t : Z) (b : B) : list Z :=
  wire_header (out_common (event_header t) (Z.of_nat (length (wire (norm b)))) (wrect b)) ++
  wire (norm b).

(** An event that fits the stream leaves it as large as it was. *)
Lemma outbound_event_room {B} (wr : writer B) `{E : !Encoder wr} t (b : B) n bk :
  ok (wr := wr) b -> roomy n (OutboundStream bk) -> Z.of_nat (length (event_bytes wr t b)) <= n ->
  Z.of_nat (length (event_bytes wr t b)) < 2 ^ 31 ->
  exists st bk', outbound_event common0 wr t b bk = Some (st, bk') /\
    sent (event_bytes wr t b) bk st bk' /\ roomy n (OutboundStream bk').
Proof.
  intros Hok (buf & pos & len & Hs & Hlb & Hroom) Hn Hl. unfold outbound_event.
  assert (Z.of_nat (length (event_bytes wr t b)) =
          header_size (wrect b) + Z.of_nat (length (wire (norm b)))) as Hlen.
  { unfold event_bytes. rewrite length_app, Nat2Z.inj_add. by rewrite length_wire_out. }
  change (set_type t (set_msgFlags 0 (Msg common0 b))) with (Msg (event_header t) b).
  destruct (codec_size (event_header t) b Hok) as (m0 & E0 & _ & _ & Hs0). rewrite <-Hlen in E0.
  rewrite E0. cbn [mbind option_bind]. rewrite Hs0.
  pose proof (setpos_spec _ _ _ _ 0%nat Hs ltac:(lia)) as H0.
  destruct (codec_write (event_header t) b Hok _ buf 0%nat len H0) as (s' & E1 & Hs').
  { fold (event_bytes wr t b). lia. }
  revert E1. fold (event_bytes wr t b) in *. unfold with_stream.
  destruct (wr (Some _) (Msg (event_header t) b)) as [[[st m1] [s2|]]|]; cbn [mbind option_bind]; try done.
  intros [= -> -> ->].
  rewrite (u32_id (Z.of_nat _)), i32_id, u32_id by (unfold is_u32, is_i32; lia).
  destruct (write_out bk s' _ _ _ (event_bytes wr t b) Hs') as (st' & bk' & E2 & Hsent).
  { rewrite length_splice; lia. }
  { rewrite <-(Nat.add_0_l (length (event_bytes wr t b))), take_splice_end by lia. done. }
  { done. }
  exists st', bk'. split; [exact E2|]. split; [done|].
  destruct (freerds_named_pipe_write (hClientPipe bk) (Stream_Buffer s') _) as [[st2 p2]|]; [|done].
  injection E2 as _ <-. do 3 eexists. split; [exact Hs'|]. rewrite length_splice; lia.
Qed.

Lemma outbound_event_spec {B} (wr : writer B) `{E : !Encoder wr} t (b : B) bk :
  ok (wr := wr) b -> roomy (Z.of_nat (length (event_bytes wr t b))) (OutboundStream bk) ->
  Z.of_nat (length (event_bytes wr t b)) < 2 ^ 31 ->
  exists st bk', outbound_event common0 wr t b bk = Some (st, bk') /\
    sent (event_bytes wr t b) bk st bk'.
Proof.
  intros Hok Hr Hl. destruct (outbound_event_room wr t b _ bk Hok Hr ltac:(lia) Hl) as (st & bk' & E1 & Hs & _).
  by exists st, bk'.
Qed.
End Facts.

(** ** Calls through the pipe *)

Section Server.
Context {W : WStream} {L : WStreamLaws W} {P : Pipe} {PL : PipeLaws P} {F : WindowOrder}.
Context {A1 A2 : Type}.

(** The messages that [freerds_server_outbound_interface_new] has a function
    for and whose writer is not empty. *)
Definition proxied (m : msg_body) : Prop :=
  match m with
  | mLogonUser _ | mLogoffUser _ | mSuppressOutput _ | mWindowNewUpdate _
  | mSetPalette _ | mCacheGlyph _ | mGlyphIndex _ | mBeep _ | mReset _ => False
  | _ => True
  end.

(** The header after [msg->type = ...]. *)
Definition retype (c : RDS_MSG_COMMON) (m : msg_body) : RDS_MSG_COMMON :=
  mk_common (server_type m) (msg_length c) (msgFlags c) (rect c).

Lemma call_proxy (bk : rdsBackend A1) c m :
  proxied m ->
  call_server freerds_server_outbound_interface_new bk c m =
  freerds_server_outbound_write_message bk (Msg (retype c m) m).
Proof. intros Hm. destruct m; try (by destruct Hm); reflexivity. Qed.

(** A sequence of calls of the outbound interface; the sequence stops at a
    failed call. *)
Fixpoint call_all (bk : rdsBackend A1) (calls : list (RDS_MSG_COMMON * msg_body)) :
    option (bool * rdsBackend A1) :=
  match calls with
  | [] => Some (true, bk)
  | (c, m) :: calls' =>
      '(st, bk') ← call_server freerds_server_outbound_interface_new bk c m;
      if st <? 0 then Some (false, bk') else call_all bk' calls'
  end.

Definition message_of (call : RDS_MSG_COMMON * msg_body) : server_msg :=
  mk_server_msg (retype (fst call) (snd call)) (snd call).

(** A call whose message is well-formed and shorter than 2^31 bytes. *)
Definition callable (call : RDS_MSG_COMMON * msg_body) : Prop :=
  proxied (snd call) /\ ok_body (snd call) /\
  Z.of_nat (length (wire_msg (retype (fst call) (snd call)) (snd call))) < 2 ^ 31.

Section Sent.
Context (server : rdsServerInterface A2) (sl : server_locals) (common0 : RDS_MSG_COMMON).
#[local] Existing Instance server_protocol.

(** The bytes of a sequence of calls are the queue of their messages. *)
Definition call_bytes (calls : list (RDS_MSG_COMMON * msg_body)) : list Z :=
  concat (map (fun '(c, m) => wire_msg (retype c m) m) calls).

Lemma call_all_spec (bk : rdsBackend A1) calls :
  Forall callable calls -> usable (OutboundStream bk) ->
  exists ok_ bk', call_all bk calls = Some (ok_, bk') /\
    usable (OutboundStream bk') /\ keeps_but_outbound bk bk' /\
    if ok_ then outbound (hClientPipe bk') = outbound (hClientPipe bk) ++ call_bytes calls
    else exists k, (k < length (call_bytes calls))%nat /\
      outbound (hClientPipe bk') = outbound (hClientPipe bk) ++ take k (call_bytes calls).
Proof.
  intros Hall. revert bk. induction Hall as [|[c m] calls (Hp & Hok & Hl) _ IH]; intros bk Hu.
  - exists true, bk. cbn. rewrite app_nil_r. done.
  - cbn [call_all]. cbn [fst snd] in *. rewrite call_proxy by done.
    destruct (server_outbound_spec bk (retype c m) m Hok) as (st & bk1 & -> & Hk1 & Hu1 & Hcase);
      [done|destruct m; cbn in *; (lia || done)|done|done|].
    cbn [mbind option_bind]. unfold call_bytes. cbn [map concat]. fold (call_bytes calls).
    destruct Hcase as [(-> & Ho)|(-> & k & Hk & Ho)].
    + destruct (Z.ltb_spec (Z.of_nat (length (wire_msg (retype c m) m))) 0); [lia|].
      destruct (IH bk1 Hu1) as (ok_ & bk' & -> & Hu' & Hk' & Ho').
      exists ok_, bk'. split; [done|]. split; [done|]. split.
      { unfold keeps_but_outbound in *. destruct_and!. repeat split; congruence. }
      destruct ok_; [by rewrite Ho', Ho, (assoc_L (++))|]. destruct Ho' as (k & Hk & Ho').
      exists (length (wire_msg (retype c m) m) + k)%nat. rewrite length_app. split; [lia|].
      rewrite Ho', Ho, take_app_add'; [by rewrite (assoc_L (++))|done].
    + cbn. exists false, bk1. split; [done|]. split; [done|]. split; [done|]. exists k.
      rewrite length_app. split; [lia|]. rewrite take_app_le by lia. done.
Qed.

Lemma call_bytes_queue calls :
  call_bytes calls = wire_queue (Pr := server_protocol server sl common0) (map message_of calls).
Proof.
  unfold call_bytes, wire_queue. rewrite map_map. f_equal. apply map_ext. by intros [c m].
Qed.
End Sent.
End Server.
