(* ===== verification/Pipeline.v ===== *)
(** * The server message pipeline

    freerds/core/pipeline.c: the server interface of a connector queues the
    messages of its module in [ServerList]; once per frame
    [freerds_message_server_queue_pack] folds the drawing messages into one
    paint message and posts the others to [ServerQueue], from where they are
    handed to [ServerProxy], the interface the connector had before.

    WinPR's lists and message queues and FreeRDP's regions are parameters:
    [Collections] and [Region16] with their laws. *)

From S2P Require Import Prelude WStream Message ClientMsg ServerMsg VarMsg SessionMsg WindowMsg.
From S2P Require Import MsgTable Pipe Transport.

(** ** WinPR collections *)

(** The fields of [wMessage] that the sources use. *)
Record wMessage (N : Type) := mk_wmessage { id_ : Z; wParam : N }.
Arguments mk_wmessage {N} _ _.
Arguments id_ {N} _.
Arguments wParam {N} _.

Class Collections := {
  wLinkedList : Type -> Type;
  LinkedList_New {T} : wLinkedList T;
  LinkedList_AddLast {T} : T -> wLinkedList T -> wLinkedList T;
  LinkedList_Clear {T} : wLinkedList T -> wLinkedList T;
  (** the elements in the order of the enumerator *)
  LinkedList_items {T} : wLinkedList T -> list T;
  wMessageQueue : Type -> Type;
  MessageQueue_New {N} : wMessageQueue N;
  MessageQueue_Post {N} : Z -> N -> wMessageQueue N -> wMessageQueue N;
  (** [MessageQueue_Peek(queue, &message, TRUE)]: [None] when it is empty *)
  MessageQueue_Peek {N} : wMessageQueue N -> option (wMessage N * wMessageQueue N);
  MessageQueue_items {N} : wMessageQueue N -> list (wMessage N);
}.

Class CollectionsLaws (K : Collections) : Prop := {
  list_new_items T : LinkedList_items (LinkedList_New (T := T)) = [];
  list_add_items T (x : T) l : LinkedList_items (LinkedList_AddLast x l) = LinkedList_items l ++ [x];
  list_clear_items T (l : wLinkedList T) : LinkedList_items (LinkedList_Clear l) = [];
  queue_new_items N : MessageQueue_items (MessageQueue_New (N := N)) = [];
  queue_post_items N i (n : N) q :
    MessageQueue_items (MessageQueue_Post i n q) = MessageQueue_items q ++ [mk_wmessage i n];
  queue_peek_items N (q : wMessageQueue N) :
    match MessageQueue_Peek q with
    | None => MessageQueue_items q = []
    | Some (m, q') => MessageQueue_items q = m :: MessageQueue_items q'
    end;
}.

(** ** FreeRDP regions *)

Import RefreshRect.

Class Region16 := {
  REGION16 : Type;
  region16_init : REGION16;
  region16_union_rect : REGION16 -> RECTANGLE_16 -> REGION16;
  region16_extents : REGION16 -> RECTANGLE_16;
}.

(** The rectangle of the pixels [x], [y] with [left <= x < right] and
    [top <= y < bottom]. *)
Definition rect16_nonempty (r : RECTANGLE_16) : Prop := left r < right r /\ top r < bottom r.

Definition rect16_in (r e : RECTANGLE_16) : Prop :=
  left e <= left r /\ top e <= top r /\ right r <= right e /\ bottom r <= bottom e.

Class Region16Laws (G : Region16) : Prop := {
  extents_init : region16_extents region16_init = mk16 0 0 0 0;
  (** the extents of a union cover the rectangle and the former extents *)
  extents_union g r : ok_rect16 r -> rect16_nonempty r ->
    rect16_in r (region16_extents (region16_union_rect g r)) /\
    (rect16_nonempty (region16_extents g) ->
     rect16_in (region16_extents g) (region16_extents (region16_union_rect g r))) /\
    rect16_nonempty (region16_extents (region16_union_rect g r));
  extents_range g : ok_rect16 (region16_extents g);
}.

(** ** The connector *)

Section Pipeline.
Context {W : WStream} {P : Pipe} {F : WindowOrder} {K : Collections} {G : Region16} {A : Type}.

(** A node of [ServerList]: a copied message, or [NULL] when the copy failed. *)
Definition node : Type := option (MSG msg_body).

(** The fields that [rds_backend_connector] adds to the backend; [ext] stands
    for the rest of the connection. *)
Record connector_ext := mk_ext {
  ServerList : wLinkedList node;
  ServerQueue : wMessageQueue node;
  DesktopWidth : Z;  (* UINT32, settings *)
  DesktopHeight : Z;  (* UINT32, settings *)
  fbAttached : Z;  (* int, framebuffer *)
  fbSegmentId : Z;  (* int, framebuffer *)
  MaxFps : Z; fps : Z;  (* int *)
  ext : A;
}.

Abbreviation connector := (rdsBackend connector_ext).

Definition set_app {X Y} (a : Y) (bk : rdsBackend X) : rdsBackend Y :=
  mk_backend (ServerMode bk) (hClientPipe bk) (OutboundStream bk) (InboundStream bk) a.

Definition set_list (l : wLinkedList node) (bk : connector) : connector :=
  let e := app bk in
  set_app (mk_ext l (ServerQueue e) (DesktopWidth e) (DesktopHeight e) (fbAttached e)
             (fbSegmentId e) (MaxFps e) (fps e) (ext e)) bk.
Definition set_queue (q : wMessageQueue node) (bk : connector) : connector :=
  let e := app bk in
  set_app (mk_ext (ServerList e) q (DesktopWidth e) (DesktopHeight e) (fbAttached e)
             (fbSegmentId e) (MaxFps e) (fps e) (ext e)) bk.

(** *** Queueing *)

Definition freerds_server_message_enqueue (bk : connector) (msg : MSG msg_body) :
    option (Z * connector) :=
  copy ← freerds_server_message_copy msg;
  Some (0, set_list (LinkedList_AddLast (fst <$> copy) (ServerList (app bk))) bk).

(** [msg->type = t; return freerds_server_message_enqueue(backend, msg);] *)
Definition enqueue_as {B} `{View B} (t : Z) (bk : connector) (msg : MSG B) : option (Z * connector) :=
  let msg := set_type t msg in
  freerds_server_message_enqueue bk (Msg (Message.common msg) (inj (body msg))).

Definition freerds_message_server_begin_update (bk : connector) (msg : MSG BeginUpdate.RDS_MSG_BEGIN_UPDATE) :
    option (Z * connector) := enqueue_as RDS_SERVER_BEGIN_UPDATE bk msg.

Definition freerds_message_server_end_update (bk : connector) (msg : MSG EndUpdate.RDS_MSG_END_UPDATE) :
    option (Z * connector) := enqueue_as RDS_SERVER_END_UPDATE bk msg.

Definition freerds_message_server_beep (bk : connector) (msg : MSG Stubs.RDS_MSG_BEEP) :
    option (Z * connector) := enqueue_as RDS_SERVER_BEEP bk msg.

Definition freerds_message_server_opaque_rect (bk : connector) (msg : MSG OpaqueRect.RDS_MSG_OPAQUE_RECT) :
    option (Z * connector) := enqueue_as RDS_SERVER_OPAQUE_RECT bk msg.

Definition freerds_message_server_screen_blt (bk : connector) (msg : MSG ScreenBlt.RDS_MSG_SCREEN_BLT) :
    option (Z * connector) := enqueue_as RDS_SERVER_SCREEN_BLT bk msg.

Definition freerds_message_server_paint_rect (bk : connector) (msg : MSG PaintRect.RDS_MSG_PAINT_RECT) :
    option (Z * connector) := enqueue_as RDS_SERVER_PAINT_RECT bk msg.

Definition freerds_message_server_patblt (bk : connector) (msg : MSG PatBlt.RDS_MSG_PATBLT) :
    option (Z * connector) := enqueue_as RDS_SERVER_PATBLT bk msg.

Definition freerds_message_server_dstblt (bk : connector) (msg : MSG DstBlt.RDS_MSG_DSTBLT) :
    option (Z * connector) := enqueue_as RDS_SERVER_DSTBLT bk msg.

Definition freerds_message_server_set_pointer (bk : connector) (msg : MSG SetPointer.RDS_MSG_SET_POINTER) :
    option (Z * connector) := enqueue_as RDS_SERVER_SET_POINTER bk msg.

Definition freerds_message_server_set_system_pointer (bk : connector) (msg : MSG SetSystemPointer.RDS_MSG_SET_SYSTEM_POINTER) :
    option (Z * connector) := enqueue_as RDS_SERVER_SET_SYSTEM_POINTER bk msg.

Definition freerds_message_server_set_palette (bk : connector) (msg : MSG Stubs.RDS_MSG_SET_PALETTE) :
    option (Z * connector) := enqueue_as RDS_SERVER_SET_PALETTE bk msg.

Definition freerds_message_server_set_clipping_region (bk : connector) (msg : MSG SetClippingRegion.RDS_MSG_SET_CLIPPING_REGION) :
    option (Z * connector) := enqueue_as RDS_SERVER_SET_CLIPPING_REGION bk msg.

Definition freerds_message_server_line_to (bk : connector) (msg : MSG LineTo.RDS_MSG_LINE_TO) :
    option (Z * connector) := enqueue_as RDS_SERVER_LINE_TO bk msg.

Definition freerds_message_server_cache_glyph (bk : connector) (msg : MSG Stubs.RDS_MSG_CACHE_GLYPH) :
    option (Z * connector) := enqueue_as RDS_SERVER_CACHE_GLYPH bk msg.

Definition freerds_message_glyph_index (bk : connector) (msg : MSG Stubs.RDS_MSG_GLYPH_INDEX) :
    option (Z * connector) := enqueue_as RDS_SERVER_GLYPH_INDEX bk msg.

Definition freerds_message_server_shared_framebuffer (bk : connector) (msg : MSG SharedFramebuffer.RDS_MSG_SHARED_FRAMEBUFFER) :
    option (Z * connector) := enqueue_as RDS_SERVER_SHARED_FRAMEBUFFER bk msg.

Definition freerds_message_server_reset (bk : connector) (msg : MSG Stubs.RDS_MSG_RESET) :
    option (Z * connector) := enqueue_as RDS_SERVER_RESET bk msg.

Definition freerds_message_server_create_offscreen_surface (bk : connector) (msg : MSG CreateOffscreenSurface.RDS_MSG_CREATE_OFFSCREEN_SURFACE) :
    option (Z * connector) := enqueue_as RDS_SERVER_CREATE_OFFSCREEN_SURFACE bk msg.

Definition freerds_message_server_switch_offscreen_surface (bk : connector) (msg : MSG SwitchOffscreenSurface.RDS_MSG_SWITCH_OFFSCREEN_SURFACE) :
    option (Z * connector) := enqueue_as RDS_SERVER_SWITCH_OFFSCREEN_SURFACE bk msg.

Definition freerds_message_server_delete_offscreen_surface (bk : connector) (msg : MSG DeleteOffscreenSurface.RDS_MSG_DELETE_OFFSCREEN_SURFACE) :
    option (Z * connector) := enqueue_as RDS_SERVER_DELETE_OFFSCREEN_SURFACE bk msg.

Definition freerds_message_server_paint_offscreen_surface (bk : connector) (msg : MSG PaintOffscreenSurface.RDS_MSG_PAINT_OFFSCREEN_SURFACE) :
    option (Z * connector) := enqueue_as RDS_SERVER_PAINT_OFFSCREEN_SURFACE bk msg.

Definition freerds_message_server_window_new_update (bk : connector)
    (msg : MSG WindowNewUpdate.RDS_MSG_WINDOW_NEW_UPDATE) : option (Z * connector) := Some (0, bk).

Definition freerds_message_server_window_delete (bk : connector)
    (msg : MSG WindowDelete.RDS_MSG_WINDOW_DELETE) : option (Z * connector) := Some (0, bk).

Section Proxy.
Context (ServerProxy : rdsServerInterface connector_ext).

Definition freerds_message_server_is_terminated (bk : connector) : option (Z * connector) :=
  f ← IsTerminated ServerProxy; f bk.

(** *** Handing a queued message to the proxy *)

Definition WMQ_QUIT : Z := 4294967295.

(** [status = ServerProxy->f(backend, (X* ) message->wParam)] *)
Definition proxy_call {B} `{View B} (h : option (handler connector_ext B)) (bk : connector)
    (n : node) : option (Z * connector) :=
  msg ← n;
  b ← proj (body msg);
  f ← h;
  f bk (Msg (Message.common msg) b).

(** The result also lists the blocks that were released. *)
Definition freerds_message_server_queue_process_message (bk : connector) (message : wMessage node) :
    option (Z * list block * connector) :=
  if id_ message =? WMQ_QUIT then Some (0, [], bk) else
  '(status, bk) ←
    match id_ message with
    | RDS_SERVER_BEGIN_UPDATE => proxy_call (BeginUpdate ServerProxy) bk (wParam message)
    | RDS_SERVER_END_UPDATE => proxy_call (EndUpdate ServerProxy) bk (wParam message)
    | RDS_SERVER_BEEP => proxy_call (Beep ServerProxy) bk (wParam message)
    | RDS_SERVER_OPAQUE_RECT => proxy_call (OpaqueRect ServerProxy) bk (wParam message)
    | RDS_SERVER_SCREEN_BLT => proxy_call (ScreenBlt ServerProxy) bk (wParam message)
    | RDS_SERVER_PAINT_RECT => proxy_call (PaintRect ServerProxy) bk (wParam message)
    | RDS_SERVER_PATBLT => proxy_call (PatBlt ServerProxy) bk (wParam message)
    | RDS_SERVER_DSTBLT => proxy_call (DstBlt ServerProxy) bk (wParam message)
    | RDS_SERVER_SET_POINTER => proxy_call (SetPointer ServerProxy) bk (wParam message)
    | RDS_SERVER_SET_SYSTEM_POINTER => proxy_call (SetSystemPointer ServerProxy) bk (wParam message)
    | RDS_SERVER_SET_PALETTE => proxy_call (SetPalette ServerProxy) bk (wParam message)
    | RDS_SERVER_SET_CLIPPING_REGION => proxy_call (SetClippingRegion ServerProxy) bk (wParam message)
    | RDS_SERVER_LINE_TO => proxy_call (LineTo ServerProxy) bk (wParam message)
    | RDS_SERVER_CACHE_GLYPH => proxy_call (CacheGlyph ServerProxy) bk (wParam message)
    | RDS_SERVER_GLYPH_INDEX => proxy_call (GlyphIndex ServerProxy) bk (wParam message)
    | RDS_SERVER_SHARED_FRAMEBUFFER => proxy_call (SharedFramebuffer ServerProxy) bk (wParam message)
    | RDS_SERVER_RESET => proxy_call (Reset ServerProxy) bk (wParam message)
    | RDS_SERVER_CREATE_OFFSCREEN_SURFACE => proxy_call (CreateOffscreenSurface ServerProxy) bk (wParam message)
    | RDS_SERVER_SWITCH_OFFSCREEN_SURFACE => proxy_call (SwitchOffscreenSurface ServerProxy) bk (wParam message)
    | RDS_SERVER_DELETE_OFFSCREEN_SURFACE => proxy_call (DeleteOffscreenSurface ServerProxy) bk (wParam message)
    | RDS_SERVER_PAINT_OFFSCREEN_SURFACE => proxy_call (PaintOffscreenSurface ServerProxy) bk (wParam message)
    | _ => Some (-1, bk)
    end;
  msg ← wParam message;
  freed ← freerds_server_message_free msg;
  if status <? 0 then Some (-1, freed, bk) else Some (0, freed, bk).

(** At most one message per call. *)
Definition freerds_message_server_queue_process_pending_messages (bk : connector) :
    option (Z * list block * connector) :=
  match MessageQueue_Peek (ServerQueue (app bk)) with
  | None => Some (0, [], bk)
  | Some (message, q) => freerds_message_server_queue_process_message (set_queue q bk) message
  end.
End Proxy.

(** *** Packing *)

(** [rect->x] and [rect->width] of [freerds_message_server_align_rect] for a
    desktop of width [dw]; the comparisons of an [int] with a [UINT32] are
    unsigned. *)
Definition align_x (dw x width : Z) : Z * Z :=
  let x := if x <? 0 then 0 else x in
  let x := if u32 (dw - 1) <? u32 x then i32 (u32 (dw - 1)) else x in
  let width := u32 (width + Z.rem x 16) in
  let x := i32 (x - Z.rem x 16) in
  let width := u32 (width + width mod 16) in
  let width := if dw <? u32 (x + width) then u32 (dw - x) else width in
  (x, width).

(** [rect->y] and [rect->height]. *)
Definition align_y (dh y height : Z) : Z * Z :=
  let y := if y <? 0 then 0 else y in
  let y := if u32 (dh - 1) <? u32 y then i32 (u32 (dh - 1)) else y in
  let height := u32 (height + Z.rem y 16) in
  let y := i32 (y - Z.rem y 16) in
  let height := u32 (height + height mod 16) in
  let height := if dh <? height then dh else height in
  let height := if dh <? u32 (y + height) then u32 (dh - y) else height in
  (y, height).

Definition freerds_message_server_align_rect (bk : connector) (rect : RDS_RECT) : RDS_RECT :=
  let '(x, width) := align_x (DesktopWidth (app bk)) (rect_x rect) (rect_width rect) in
  let '(y, height) := align_y (DesktopHeight (app bk)) (rect_y rect) (rect_height rect) in
  mk_rect x y width height.

(** [rect16.left = node->rect.x; ...]: the coordinates are cut to 16 bits. *)
Definition rect16_of (r : RDS_RECT) : RECTANGLE_16 :=
  mk16 (u16 (rect_x r)) (u16 (rect_y r)) (u16 (rect_x r + rect_width r))
       (u16 (rect_y r + rect_height r)).

(** The loop over the list: drawing messages go into the region, the others to
    the queue. *)
Fixpoint pack_nodes (nodes : list node) (region : REGION16) (q : wMessageQueue node) :
    option (REGION16 * wMessageQueue node) :=
  match nodes with
  | [] => Some (region, q)
  | n :: nodes' =>
      msg ← n;
      if has_rect (Message.common msg)
      then pack_nodes nodes' (region16_union_rect region (rect16_of (rect (Message.common msg)))) q
      else pack_nodes nodes' region (MessageQueue_Post (msg_type (Message.common msg)) n q)
  end.

(** The paint message for the packed region; [common0] holds the header fields
    that are not assigned. *)
Definition paint_message (common0 : RDS_MSG_COMMON) (bk : connector) (r : RDS_RECT) : MSG msg_body :=
  Msg (mk_common RDS_SERVER_PAINT_RECT (msg_length common0) (msgFlags common0) (rect common0))
    (mPaintRect (PaintRect.mk (i32 (rect_x r)) (i32 (rect_y r)) (i32 (rect_width r))
       (i32 (rect_height r)) 0 0 None 0 (u32 (fbSegmentId (app bk))) PaintRect.fb_backend)).

Definition freerds_message_server_queue_pack (common0 : RDS_MSG_COMMON) (bk : connector) :
    option (Z * connector) :=
  '(region, q) ← pack_nodes (LinkedList_items (ServerList (app bk))) region16_init (ServerQueue (app bk));
  let bk := set_list (LinkedList_Clear (ServerList (app bk))) (set_queue q bk) in
  let extents := region16_extents region in
  let r := mk_rect (left extents) (top extents) (u32 (right extents - left extents))
             (u32 (bottom extents - top extents)) in
  let r := freerds_message_server_align_rect bk r in
  if negb (fbAttached (app bk) =? 0) && negb (u32 (rect_width r * rect_height r) =? 0) then
    copy ← freerds_server_message_copy (paint_message common0 bk r);
    msg ← fst <$> copy;
    Some (0, set_queue (MessageQueue_Post (msg_type (Message.common msg)) (Some msg)
                          (ServerQueue (app bk))) bk)
  else Some (0, bk).

(** *** Installation *)

(** The interface that the connector installs over [server], which becomes its
    [ServerProxy]; the functions that are not assigned stay those of
    [server]. *)
Definition pipeline_interface (server : rdsServerInterface connector_ext) :
    rdsServerInterface connector_ext := {|
  BeginUpdate := Some freerds_message_server_begin_update;
  EndUpdate := Some freerds_message_server_end_update;
  Beep := Some freerds_message_server_beep;
  IsTerminated := Some (freerds_message_server_is_terminated server);
  OpaqueRect := Some freerds_message_server_opaque_rect;
  ScreenBlt := Some freerds_message_server_screen_blt;
  PaintRect := Some freerds_message_server_paint_rect;
  PatBlt := Some freerds_message_server_patblt;
  DstBlt := Some freerds_message_server_dstblt;
  SetPointer := Some freerds_message_server_set_pointer;
  SetSystemPointer := Some freerds_message_server_set_system_pointer;
  SetPalette := Some freerds_message_server_set_palette;
  SetClippingRegion := Some freerds_message_server_set_clipping_region;
  LineTo := Some freerds_message_server_line_to;
  CacheGlyph := Some freerds_message_server_cache_glyph;
  GlyphIndex := Some freerds_message_glyph_index;
  SharedFramebuffer := Some freerds_message_server_shared_framebuffer;
  Reset := Some freerds_message_server_reset;
  CreateOffscreenSurface := Some freerds_message_server_create_offscreen_surface;
  SwitchOffscreenSurface := Some freerds_message_server_switch_offscreen_surface;
  DeleteOffscreenSurface := Some freerds_message_server_delete_offscreen_surface;
  PaintOffscreenSurface := Some freerds_message_server_paint_offscreen_surface;
  WindowNewUpdate := Some freerds_message_server_window_new_update;
  WindowDelete := Some freerds_message_server_window_delete;
  LogonUser := LogonUser server;
  LogoffUser := LogoffUser server
|}.

Definition freerds_message_server_connector_init (bk : connector)
    (server : rdsServerInterface connector_ext) :
    Z * connector * rdsServerInterface connector_ext :=
  let e := app bk in
  (0, set_app (mk_ext LinkedList_New MessageQueue_New (DesktopWidth e) (DesktopHeight e)
                 (fbAttached e) (fbSegmentId e) 30 10 (ext e)) bk,
   pipeline_interface server).
End Pipeline.
