(* ===== verification/PipelineFacts.v ===== *)
(** * What the pipeline guarantees

    The packed rectangle stays inside the desktop and covers what was drawn,
    packing loses no message that is not a drawing message, and the queue hands
    the messages to the proxy in order, releasing each of them once. *)

From S2P Require Import Prelude WStream Message ClientMsg ServerMsg VarMsg SessionMsg WindowMsg.
From S2P Require Import MsgTable TableFacts Pipe Transport TransportFacts Queue Delivery Pipeline.
Import RefreshRect.

(** ** Alignment *)

(** Desktop sizes and coordinates for which no computation of the alignment
    wraps around. *)
Definition desktop_size (n : Z) : Prop := 0 < n <= 2 ^ 15.
Definition small_coord (x : Z) : Prop := - 2 ^ 30 <= x < 2 ^ 30.
Definition small_size (n : Z) : Prop := 0 <= n < 2 ^ 30.

Ltac small := unfold desktop_size, small_coord, small_size, is_u32, is_i32 in *; lia.

(** The x coordinate after the two clamps. *)
Lemma clamp_coord dw x :
  desktop_size dw -> small_coord x ->
  let x1 := if x <? 0 then 0 else x in
  let x2 := if u32 (dw - 1) <? u32 x1 then i32 (u32 (dw - 1)) else x1 in
  x2 = Z.max 0 (Z.min x (dw - 1)).
Proof.
  intros Hd Hx. cbv zeta. rewrite (u32_id (dw - 1)), i32_id by small.
  destruct (Z.ltb_spec x 0).
  - change (u32 0) with 0. destruct (Z.ltb_spec (dw - 1) 0); small.
  - rewrite u32_id by small. destruct (Z.ltb_spec (dw - 1) x); small.
Qed.

(** Moving the left edge to a multiple of 16 and widening accordingly. *)
Lemma align_x_spec dw x width x' width' :
  desktop_size dw -> small_coord x -> small_size width ->
  align_x dw x width = (x', width') ->
  x' mod 16 = 0 /\ 0 <= x' < dw /\ 0 <= width' /\ x' + width' <= dw /\
  (forall p, x <= p < x + width -> 0 <= p < dw -> x' <= p < x' + width').
Proof.
  intros Hd Hx Hw. unfold align_x. pose proof (clamp_coord dw x Hd Hx) as Hc. cbv zeta in Hc.
  set (x2 := if u32 (dw - 1) <? u32 (if x <? 0 then 0 else x) then _ else _) in *.
  assert (0 <= x2 < dw) as H0 by small.
  rewrite (Z.rem_mod_nonneg x2 16) by lia.
  pose proof (Z.mod_pos_bound x2 16 ltac:(lia)) as Hm.
  pose proof (Z.div_mod x2 16 ltac:(lia)) as Hdm.
  assert ((x2 - x2 mod 16) mod 16 = 0) as Hal by (by rewrite Zminus_mod_idemp_r, Z.sub_diag).
  rewrite (i32_id (x2 - x2 mod 16)) by small. rewrite (u32_id (width + x2 mod 16)) by small.
  pose proof (Z.mod_pos_bound (width + x2 mod 16) 16 ltac:(lia)) as Hm2.
  rewrite (u32_id (width + x2 mod 16 + _)) by small.
  rewrite (u32_id (x2 - x2 mod 16 + _)) by small.
  destruct (Z.ltb_spec dw (x2 - x2 mod 16 + (width + x2 mod 16 + (width + x2 mod 16) mod 16)));
    intros [= <- <-].
  - rewrite u32_id by small. split; [done|]. repeat split; small.
  - split; [done|]. repeat split; small.
Qed.

(** The height is first cut to the desktop height, then to the room below the
    top edge. *)
Lemma align_y_spec dh y height y' height' :
  desktop_size dh -> small_coord y -> small_size height ->
  align_y dh y height = (y', height') ->
  y' mod 16 = 0 /\ 0 <= y' < dh /\ 0 <= height' /\ y' + height' <= dh /\
  (forall p, y <= p < y + height -> 0 <= p < dh -> y' <= p < y' + height').
Proof.
  intros Hd Hx Hw. unfold align_y. pose proof (clamp_coord dh y Hd Hx) as Hc. cbv zeta in Hc.
  set (y2 := if u32 (dh - 1) <? u32 (if y <? 0 then 0 else y) then _ else _) in *.
  assert (0 <= y2 < dh) as H0 by small.
  rewrite (Z.rem_mod_nonneg y2 16) by lia.
  pose proof (Z.mod_pos_bound y2 16 ltac:(lia)) as Hm.
  pose proof (Z.div_mod y2 16 ltac:(lia)) as Hdm.
  assert ((y2 - y2 mod 16) mod 16 = 0) as Hal by (by rewrite Zminus_mod_idemp_r, Z.sub_diag).
  rewrite (i32_id (y2 - y2 mod 16)) by small. rewrite (u32_id (height + y2 mod 16)) by small.
  pose proof (Z.mod_pos_bound (height + y2 mod 16) 16 ltac:(lia)) as Hm2.
  rewrite (u32_id (height + y2 mod 16 + _)) by small.
  set (h2 := height + y2 mod 16 + (height + y2 mod 16) mod 16) in *.
  set (h3 := if dh <? h2 then dh else h2).
  assert (0 <= h3 <= dh /\ (h3 = dh \/ h3 = h2)) as Hh3
    by (unfold h3; destruct (Z.ltb_spec dh h2); small).
  rewrite (u32_id (y2 - y2 mod 16 + h3)) by small.
  destruct (Z.ltb_spec dh (y2 - y2 mod 16 + h3)); intros [= <- <-].
  - rewrite u32_id by small. split; [done|]. repeat split; small.
  - split; [done|]. repeat split; small.
Qed.

(** ** Packing *)

(** The pixels of a rectangle. *)
Definition covers (r : RDS_RECT) (x y : Z) : Prop :=
  rect_x r <= x < rect_x r + rect_width r /\ rect_y r <= y < rect_y r + rect_height r.

Section Pack.
Context {W : WStream} {L : WStreamLaws W} {P : Pipe} {F : WindowOrder}.
Context {K : Collections} {KL : CollectionsLaws K} {G : Region16} {GL : Region16Laws G} {A : Type}.
Abbreviation connector := (rdsBackend (connector_ext (A := A))).

Lemma align_rect_spec (bk : connector) r :
  desktop_size (DesktopWidth (app bk)) -> desktop_size (DesktopHeight (app bk)) ->
  small_coord (rect_x r) -> small_coord (rect_y r) ->
  small_size (rect_width r) -> small_size (rect_height r) ->
  let r' := freerds_message_server_align_rect bk r in
  (rect_x r' mod 16 = 0 /\ rect_y r' mod 16 = 0) /\
  (0 <= rect_x r' < DesktopWidth (app bk) /\ 0 <= rect_y r' < DesktopHeight (app bk)) /\
  (0 <= rect_width r' /\ 0 <= rect_height r') /\
  (rect_x r' + rect_width r' <= DesktopWidth (app bk) /\
   rect_y r' + rect_height r' <= DesktopHeight (app bk)) /\
  forall x y, covers r x y -> 0 <= x < DesktopWidth (app bk) -> 0 <= y < DesktopHeight (app bk) ->
    covers r' x y.
Proof.
  intros ??????. unfold freerds_message_server_align_rect.
  destruct (align_x _ _ _) as [x' w'] eqn:Ex. destruct (align_y _ _ _) as [y' h'] eqn:Ey.
  apply align_x_spec in Ex as (? & ? & ? & ? & Hcx); [|done..].
  apply align_y_spec in Ey as (? & ? & ? & ? & Hcy); [|done..].
  cbn [rect_x rect_y rect_width rect_height]. repeat (split; [lia|]).
  unfold covers. intros x y [? ?] ??. cbn [rect_x rect_y rect_width rect_height]. auto.
Qed.

(** The messages that packing leaves alone. *)
Definition plain (msg : MSG msg_body) : bool := negb (has_rect (common msg)).
Definition posted (msg : MSG msg_body) : wMessage node := mk_wmessage (msg_type (common msg)) (Some msg).

(** A rectangle that 16 bits can hold and that is not empty. *)
Definition drawable (r : RDS_RECT) : Prop :=
  0 <= rect_x r /\ 0 <= rect_y r /\ 0 < rect_width r /\ 0 < rect_height r /\
  rect_x r + rect_width r < 2 ^ 16 /\ rect_y r + rect_height r < 2 ^ 16.

Lemma rect16_of_drawable r : drawable r ->
  rect16_of r = mk16 (rect_x r) (rect_y r) (rect_x r + rect_width r) (rect_y r + rect_height r).
Proof.
  intros (?&?&?&?&?&?). unfold rect16_of. by rewrite !u16_id by (unfold is_u16; lia).
Qed.

Lemma ok_rect16_of r : ok_rect16 (rect16_of r).
Proof. repeat split; apply is_u16_u16. Qed.

Definition draws (msg : MSG msg_body) : Prop := has_rect (common msg) = true -> drawable (rect (common msg)).

(** Everything drawn so far lies in the extents of the region. *)
Definition covered (ms : list (MSG msg_body)) (region : REGION16) : Prop :=
  Forall (fun m => has_rect (common m) = true ->
            rect16_in (rect16_of (rect (common m))) (region16_extents region)) ms.

Lemma rect16_in_trans a b c : rect16_in a b -> rect16_in b c -> rect16_in a c.
Proof. unfold rect16_in. lia. Qed.

Lemma pack_nodes_spec ms before region q :
  Forall draws ms -> covered before region ->
  (Forall (fun m => has_rect (common m) = false) before \/ rect16_nonempty (region16_extents region)) ->
  exists region' q', pack_nodes (Some <$> ms) region q = Some (region', q') /\
    MessageQueue_items q' = MessageQueue_items q ++ (posted <$> List.filter plain ms) /\
    covered (before ++ ms) region'.
Proof.
  intros Hall. revert before region q.
  induction Hall as [|m ms Hm _ IH]; intros before region q Hcov Hne.
  - exists region, q. cbn. rewrite !app_nil_r. done.
  - rewrite fmap_cons. cbn [pack_nodes mbind option_bind].
    replace (before ++ m :: ms) with ((before ++ [m]) ++ ms) by (by rewrite <-(assoc_L (++))).
    destruct (has_rect (common m)) eqn:Hr.
    + assert (plain m = false) as Hpl by (unfold plain; by rewrite Hr).
      cbn [List.filter]. rewrite Hpl. specialize (Hm Hr).
      assert (rect16_nonempty (rect16_of (rect (common m)))) as Hne'.
      { rewrite rect16_of_drawable by done. unfold rect16_nonempty, drawable in *. cbn. lia. }
      destruct (extents_union region _ (ok_rect16_of _) Hne') as (Hin & Hold & Hnew).
      apply IH; [|by right]. unfold covered in *. apply Forall_app. split.
      * destruct Hne as [Hno|Hne].
        -- revert Hno. apply Forall_impl. intros a Ha Ha'. congruence.
        -- revert Hcov. apply Forall_impl. intros a Ha Ha'. eauto using rect16_in_trans.
      * constructor; [|constructor]. auto.
    + assert (plain m = true) as Hpl by (unfold plain; by rewrite Hr).
      cbn [List.filter]. rewrite Hpl.
      destruct (IH (before ++ [m]) region (MessageQueue_Post (msg_type (common m)) (Some m) q))
        as (region' & q' & E & Hq & Hc').
      { unfold covered in *. apply Forall_app. split; [done|]. constructor; [congruence|constructor]. }
      { destruct Hne as [Hno|Hne]; [left|by right]. apply Forall_app. by split; [|constructor]. }
      exists region', q'. split; [exact E|]. split; [|done].
      rewrite Hq, queue_post_items, <-(assoc_L (++)). done.
Qed.

(** The rectangle of [freerds_message_server_queue_pack] before it is aligned. *)
Definition extents_rect (region : REGION16) : RDS_RECT :=
  let e := region16_extents region in
  mk_rect (left e) (top e) (u32 (right e - left e)) (u32 (bottom e - top e)).

Lemma extents_covers region r x y :
  drawable r -> rect16_in (rect16_of r) (region16_extents region) -> covers r x y ->
  covers (extents_rect region) x y.
Proof.
  intros Hd Hin Hc. rewrite rect16_of_drawable in Hin by done.
  pose proof (extents_range region) as (?&?&?&?). unfold rect16_in, drawable, covers in *.
  cbn [left top right bottom] in *. unfold extents_rect. cbn [rect_x rect_y rect_width rect_height].
  rewrite !u32_id by (unfold is_u16, is_u32 in *; lia). lia.
Qed.

Definition in_desktop (bk : connector) (r : RDS_RECT) : Prop :=
  0 <= rect_x r /\ 0 <= rect_y r /\ 0 <= rect_width r /\ 0 <= rect_height r /\
  rect_x r + rect_width r <= DesktopWidth (app bk) /\
  rect_y r + rect_height r <= DesktopHeight (app bk).

Lemma aligned_extents (bk : connector) region :
  desktop_size (DesktopWidth (app bk)) -> desktop_size (DesktopHeight (app bk)) ->
  rect16_nonempty (region16_extents region) \/ region = region16_init ->
  let r := freerds_message_server_align_rect bk (extents_rect region) in
  in_desktop bk r /\
  (forall x y, covers (extents_rect region) x y -> 0 <= x < DesktopWidth (app bk) ->
     0 <= y < DesktopHeight (app bk) -> covers r x y).
Proof.
  intros Hw Hh Hne. pose proof (extents_range region) as (?&?&?&?).
  assert (rect16_nonempty (region16_extents region) \/
          region16_extents region = mk16 0 0 0 0) as Hne'
    by (destruct Hne as [H'| ->]; [by left|right; apply extents_init]).
  destruct (align_rect_spec bk (extents_rect region)) as (_ & ? & ? & ? & Hc); try done;
    try (unfold extents_rect, small_coord, small_size, is_u16, rect16_nonempty in *;
         cbn [rect_x rect_y rect_width rect_height];
         destruct Hne' as [?|E]; [|rewrite E in *; cbn [left top right bottom] in *];
         rewrite ?u32_id by (unfold is_u32; lia); lia).
  split; [|done]. unfold in_desktop. lia.
Qed.

Lemma pack_nodes_region ms region q region' q' :
  Forall draws ms -> pack_nodes (Some <$> ms) region q = Some (region', q') ->
  rect16_nonempty (region16_extents region) \/ region = region16_init ->
  rect16_nonempty (region16_extents region') \/ region' = region16_init.
Proof.
  intros Hall. revert region q. induction Hall as [|m ms Hm _ IH]; intros region q; [by intros [= <- <-]|].
  rewrite fmap_cons. cbn [pack_nodes mbind option_bind].
  destruct (has_rect (common m)) eqn:Hr; intros E Hne; [|by eapply IH].
  eapply IH; [exact E|]. left.
  apply (extents_union region); [apply ok_rect16_of|]. specialize (Hm Hr). rewrite rect16_of_drawable by done.
  unfold rect16_nonempty, drawable in *. cbn. lia.
Qed.

Lemma copy_paint_message common0 (bk : connector) r :
  freerds_server_message_copy (paint_message common0 bk r) =
  Some (Some (paint_message common0 bk r, [blk_struct])).
Proof. reflexivity. Qed.

Lemma queue_pack_spec common0 (bk : connector) ms :
  LinkedList_items (ServerList (app bk)) = Some <$> ms -> Forall draws ms ->
  desktop_size (DesktopWidth (app bk)) -> desktop_size (DesktopHeight (app bk)) ->
  exists bk' paint, freerds_message_server_queue_pack common0 bk = Some (0, bk') /\
    LinkedList_items (ServerList (app bk')) = [] /\
    MessageQueue_items (ServerQueue (app bk')) =
      MessageQueue_items (ServerQueue (app bk)) ++ (posted <$> List.filter plain ms) ++ paint /\
    (paint = [] \/ exists r, in_desktop bk r /\ 0 < rect_width r /\ 0 < rect_height r /\ fbAttached (app bk) <> 0 /\
       paint = [posted (paint_message common0 bk r)]) /\
    (fbAttached (app bk) <> 0 -> forall m x y, In m ms -> has_rect (common m) = true ->
       covers (rect (common m)) x y -> 0 <= x < DesktopWidth (app bk) ->
       0 <= y < DesktopHeight (app bk) ->
       exists r, in_desktop bk r /\ paint = [posted (paint_message common0 bk r)] /\ covers r x y).
Proof.
  intros Hitems Hall Hw Hh. unfold freerds_message_server_queue_pack. rewrite Hitems.
  destruct (pack_nodes_spec ms [] region16_init (ServerQueue (app bk)) Hall) as (region & q & E & Hq & Hcov);
    [by constructor|by left; constructor|].
  pose proof (pack_nodes_region _ _ _ _ _ Hall E (or_intror eq_refl)) as Hreg.
  rewrite E. cbn [mbind option_bind]. cbv zeta.
  set (bk1 := set_list _ (set_queue q bk)). fold (extents_rect region).
  destruct (aligned_extents bk region Hw Hh Hreg) as (Hin & Hcv).
  change (freerds_message_server_align_rect bk1 (extents_rect region))
    with (freerds_message_server_align_rect bk (extents_rect region)).
  set (r := freerds_message_server_align_rect bk (extents_rect region)) in *.
  change (fbAttached (app bk1)) with (fbAttached (app bk)).
  change (paint_message common0 bk1 r) with (paint_message common0 bk r).
  assert (LinkedList_items (ServerList (app bk1)) = []) as Hl by apply list_clear_items.
  assert (forall m x y, In m ms -> has_rect (common m) = true -> covers (rect (common m)) x y ->
    0 <= x < DesktopWidth (app bk) -> 0 <= y < DesktopHeight (app bk) -> covers r x y) as Hdrawn.
  { intros m x y Hm Hr Hc Hx Hy. apply Hcv; [|done|done].
    unfold covered in Hcov. cbn [app] in Hcov. rewrite Forall_forall in Hcov, Hall.
    eapply extents_covers; [by apply (Hall m Hm)|by apply (Hcov m Hm)|done]. }
  destruct (negb (fbAttached (app bk) =? 0) && negb (u32 (rect_width r * rect_height r) =? 0)) eqn:Eb.
  - rewrite copy_paint_message. cbn [mbind option_bind fmap option_fmap option_map fst].
    eexists _, [posted (paint_message common0 bk r)]. split; [reflexivity|]. split; [exact Hl|].
    split; [rewrite (assoc_L (++)), <-Hq; apply queue_post_items|].
    split; [|intros _ m x y Hm Hr Hc Hx Hy; exists r; split; [done|]; split; [done|]; eauto].
    right. exists r. apply andb_true_iff in Eb as [Ea Eb]. rewrite negb_true_iff, Z.eqb_neq in Ea, Eb.
    destruct Hin as (?&?&?&?&?&?). assert (rect_width r <> 0 /\ rect_height r <> 0) as [? ?] by (split; intros E0; by rewrite E0, ?Z.mul_0_r in Eb).
    repeat split; lia || done.
  - exists bk1, []. split; [done|]. split; [done|]. split; [by rewrite app_nil_r|]. split; [by left|].
    intros Hfb m x y Hm Hr Hc Hx Hy. exfalso. pose proof (Hdrawn m x y Hm Hr Hc Hx Hy) as Hcr.
    unfold covers, in_desktop, desktop_size in *.
    assert (0 < rect_width r <= 2 ^ 15 /\ 0 < rect_height r <= 2 ^ 15) as [? ?] by lia.
    assert (0 < rect_width r * rect_height r < 2 ^ 32) as Hp by nia.
    rewrite u32_id in Eb by (unfold is_u32; lia).
    destruct (Z.eqb_spec (fbAttached (app bk)) 0); [done|].
    destruct (Z.eqb_spec (rect_width r * rect_height r) 0); [lia|done].
Qed.
End Pack.

(** ** Processing *)

Section Process.
Context {W : WStream} {L : WStreamLaws W} {P : Pipe} {F : WindowOrder}.
Context {K : Collections} {KL : CollectionsLaws K} {G : Region16} {A : Type}.
Abbreviation connector := (rdsBackend (connector_ext (A := A))).
Context (proxy : rdsServerInterface (connector_ext (A := A))).

(** The messages that the connector queues. *)
Definition queued (msg : MSG msg_body) : Prop :=
  msg_type (common msg) = server_type (body msg) /\
  match body msg with
  | mWindowNewUpdate _ | mWindowDelete _ | mLogonUser _ | mLogoffUser _ | mSuppressOutput _ => False
  | _ => True
  end.

Lemma proxy_call_spec {B} `{View B} (h : option (handler _ B)) (bk : connector) c (b : B) :
  proxy_call h bk (Some (Msg c (inj b))) = (f ← h; f bk (Msg c b)).
Proof. unfold proxy_call. cbn [mbind option_bind body]. by rewrite proj_inj. Qed.

(** A queued message is handed to the function of the proxy for its type and
    then released, whatever the function returns. *)
Lemma process_message_spec (bk : connector) msg :
  queued msg ->
  freerds_message_server_queue_process_message proxy bk (posted msg) =
  ('(st, bk') ← call_server proxy bk (common msg) (body msg);
   freed ← freerds_server_message_free msg;
   Some (if st <? 0 then -1 else 0, freed, bk')).
Proof.
  destruct msg as [c m]. intros [Ht Hq]. cbn [common body] in *.
  unfold freerds_message_server_queue_process_message, posted. cbn [id_ wParam common]. rewrite Ht.
  destruct m; try (by destruct Hq); cbn [server_type];
    match goal with |- context [?a =? WMQ_QUIT] => change (a =? WMQ_QUIT) with false end; cbv iota;
    match goal with |- context [proxy_call ?h bk ?n] =>
      assert (proxy_call h bk n = (f ← h; f bk (Msg c b))) as -> by exact (proxy_call_spec h bk c b) end;
    cbn [mbind option_bind call_server];
    match goal with |- context [?h proxy] => destruct (h proxy) as [f|]; [|reflexivity] end;
    cbn [mbind option_bind];
    match goal with f : handler _ _ |- context [?g ?x ?y] =>
      constr_eq f g; destruct (f x y) as [[st bk']|]; [|reflexivity] end;
    cbn [mbind option_bind];
    (destruct (freerds_server_message_free _); [|reflexivity]); cbn [mbind option_bind];
    by destruct (st <? 0).
Qed.

(** The proxy handles the message, returns, and leaves the queue alone. *)
Definition proxy_serves (msg : MSG msg_body) : Prop :=
  forall bk : connector, exists st bk', call_server proxy bk (common msg) (body msg) = Some (st, bk') /\
    MessageQueue_items (ServerQueue (app bk')) = MessageQueue_items (ServerQueue (app bk)).

(** The proxy has been called for exactly these messages, in this order. *)
Inductive drained : connector -> list (MSG msg_body) -> connector -> Prop :=
| drained_nil bk : drained bk [] bk
| drained_cons bk q msg ms st bk1 bk' :
    call_server proxy (set_queue q bk) (common msg) (body msg) = Some (st, bk1) ->
    drained bk1 ms bk' -> drained bk (msg :: ms) bk'.

Fixpoint process_times (k : nat) (bk : connector) : option (list block * connector) :=
  match k with
  | O => Some ([], bk)
  | S k' =>
      '(_, freed, bk) ← freerds_message_server_queue_process_pending_messages proxy bk;
      '(freed', bk) ← process_times k' bk;
      Some (freed ++ freed', bk)
  end.

(** A message with a table entry can be released. *)
Definition releasable (msg : MSG msg_body) (freed : list block) : Prop :=
  freerds_server_message_free msg = Some freed.

Lemma process_times_spec ms frees bk :
  Forall queued ms -> Forall proxy_serves ms -> Forall2 releasable ms frees ->
  MessageQueue_items (ServerQueue (app bk)) = posted <$> ms ->
  exists bk', process_times (length ms) bk = Some (concat frees, bk') /\ drained bk ms bk' /\
    MessageQueue_items (ServerQueue (app bk')) = [].
Proof.
  intros Hq Hs Hf. revert bk. induction Hf as [|msg freed ms frees Hr Hf IH]; intros bk Hi.
  - exists bk. split; [done|]. split; [constructor|done].
  - inversion_clear Hq as [|? ? Hq1 Hq2]. inversion_clear Hs as [|? ? Hs1 Hs2].
    cbn [length process_times]. unfold freerds_message_server_queue_process_pending_messages.
    pose proof (queue_peek_items _ (ServerQueue (app bk))) as Hp. rewrite fmap_cons in Hi.
    destruct (MessageQueue_Peek (ServerQueue (app bk))) as [[m q]|]; [|congruence].
    rewrite Hi in Hp. injection Hp as Em Eq. rewrite <-Em, process_message_spec by done.
    destruct (Hs1 (set_queue q bk)) as (st & bk1 & E & Hk). rewrite E. cbn [mbind option_bind].
    rewrite Hr. cbn [mbind option_bind].
    destruct (IH Hq2 Hs2 bk1) as (bk' & -> & Hd & He); [rewrite Hk; cbn [set_queue app ServerQueue]; done|].
    cbn [mbind option_bind]. exists bk'. split; [done|]. split; [by econstructor|done].
Qed.
End Process.
