(* ===== verification/Instances.v ===== *)
(** * Executable instances of the external interfaces

    A pipe that cuts its bytes into reads of given sizes, lists as WinPR's
    collections, bounding boxes as FreeRDP's regions and FreeRDP's window order
    bits: they show that the laws of the interfaces can hold and evaluate the
    definitions of the development on concrete inputs. *)

From S2P Require Import Prelude WStream ListStream Message VarMsg WindowMsg MsgTable Pipe Transport.
From S2P Require Import TransportFacts Pipeline.
Import RefreshRect.

(** ** Pipes *)

(** [cuts] bounds the sizes of the next reads (each of them delivers at least
    one byte), [quota] the size of a write. *)
Record lpipe := LPipe { lp_in : list Z; lp_cuts : list nat; lp_out : list Z; lp_quota : nat }.

Definition lp_read (p : lpipe) (n : Z) : (bool * list Z) * lpipe :=
  let '(k, cuts) :=
    match lp_cuts p with
    | [] => (Z.to_nat n, [])
    | z :: zs => (Nat.min (Z.to_nat n) (S z), zs)
    end in
  ((true, map u8 (take k (lp_in p))), LPipe (drop k (lp_in p)) cuts (lp_out p) (lp_quota p)).

Definition lp_write (p : lpipe) (data : list Z) : (bool * nat) * lpipe :=
  let k := Nat.min (length data) (S (lp_quota p)) in
  ((true, k), LPipe (lp_in p) (lp_cuts p) (lp_out p ++ take k data) (lp_quota p)).

#[global] Instance list_pipe : Pipe := {
  pipe := lpipe;
  ReadFile := lp_read;
  WriteFile := lp_write;
  inbound p := map u8 (lp_in p);
  outbound := lp_out;
}.

#[global] Instance list_pipe_laws : PipeLaws list_pipe.
Proof.
  split; cbn.
  - intros [i cs out q] n ok bs p'. unfold lp_read. cbn.
    destruct cs as [|z zs]; intros [= <- <- <-] Hn; cbn;
      (split; [rewrite length_map, length_take; lia|]; split; [done|];
       by rewrite <-map_app, take_drop).
  - intros p. apply Forall_map, Forall_forall. intros x _. apply Z.mod_pos_bound. lia.
  - intros [i cs out q] data ok n p'. unfold lp_write. cbn. intros [= <- <- <-]. cbn.
    split; [lia|done].
Qed.

Lemma list_pipe_live : live.
Proof.
  intros [i cs out q] n Hn Hi. cbn in *. unfold lp_read. cbn.
  destruct i as [|x i]; [done|].
  destruct cs as [|z zs]; (do 2 eexists; split; [reflexivity|]);
    (destruct (Z.to_nat n) eqn:E; [lia|done]).
Qed.

(** ** Collections *)

#[global] Instance list_collections : Collections := {
  wLinkedList := list;
  LinkedList_New T := [];
  LinkedList_AddLast T x l := l ++ [x];
  LinkedList_Clear T _ := [];
  LinkedList_items T l := l;
  wMessageQueue N := list (wMessage N);
  MessageQueue_New N := [];
  MessageQueue_Post N i n q := q ++ [mk_wmessage i n];
  MessageQueue_Peek N q := match q with [] => None | m :: q' => Some (m, q') end;
  MessageQueue_items N q := q;
}.

#[global] Instance list_collections_laws : CollectionsLaws list_collections.
Proof. split; try done. intros N [|m q]; done. Qed.

(** ** Regions *)

Definition clip16 (r : RECTANGLE_16) : RECTANGLE_16 :=
  mk16 (u16 (left r)) (u16 (top r)) (u16 (right r)) (u16 (bottom r)).

Definition nonempty16 (r : RECTANGLE_16) : bool := (left r <? right r) && (top r <? bottom r).

(** A region is kept as its bounding box. *)
#[global] Instance box_region : Region16 := {
  REGION16 := RECTANGLE_16;
  region16_init := mk16 0 0 0 0;
  region16_union_rect g r :=
    if nonempty16 (clip16 g)
    then mk16 (Z.min (u16 (left g)) (left r)) (Z.min (u16 (top g)) (top r))
              (Z.max (u16 (right g)) (right r)) (Z.max (u16 (bottom g)) (bottom r))
    else r;
  region16_extents := clip16;
}.

Lemma clip16_id r : ok_rect16 r -> clip16 r = r.
Proof. intros (?&?&?&?). destruct r. unfold clip16. cbn in *. by rewrite !u16_id. Qed.

#[global] Instance box_region_laws : Region16Laws box_region.
Proof.
  split; [done| |intros g; repeat split; apply is_u16_u16].
  intros g r Hok Hne. cbn [region16_extents region16_union_rect box_region].
  pose proof (is_u16_u16 (left g)). pose proof (is_u16_u16 (top g)).
  pose proof (is_u16_u16 (right g)). pose proof (is_u16_u16 (bottom g)).
  unfold ok_rect16, is_u16, rect16_nonempty in *. destruct (nonempty16 (clip16 g)) eqn:E.
  - rewrite (clip16_id (mk16 _ _ _ _)) by (unfold ok_rect16, is_u16; cbn; lia).
    unfold rect16_in, clip16. cbn [left top right bottom]. lia.
  - rewrite (clip16_id r) by (unfold ok_rect16, is_u16; lia). split; [unfold rect16_in; lia|].
    split; [|lia]. intros [? ?]. unfold nonempty16 in E.
    apply andb_false_iff in E as [E|E]; apply Z.ltb_ge in E; lia.
Qed.

(** ** Window orders *)

(** The values of FreeRDP's include/freerdp/window.h. *)
#[global] Instance freerdp_window_order : WindowOrder := {
  WINDOW_ORDER_TYPE_WINDOW := 0x01000000;
  WINDOW_ORDER_STATE_NEW := 0x10000000;
  WINDOW_ORDER_FIELD_OWNER := 0x00000002;
  WINDOW_ORDER_FIELD_STYLE := 0x00000008;
  WINDOW_ORDER_FIELD_SHOW := 0x00000010;
  WINDOW_ORDER_FIELD_TITLE := 0x00000004;
  WINDOW_ORDER_FIELD_CLIENT_AREA_OFFSET := 0x00004000;
  WINDOW_ORDER_FIELD_CLIENT_AREA_SIZE := 0x00010000;
  WINDOW_ORDER_FIELD_ROOT_PARENT := 0x00040000;
  WINDOW_ORDER_FIELD_WND_OFFSET := 0x00000800;
  WINDOW_ORDER_FIELD_WND_CLIENT_DELTA := 0x00008000;
  WINDOW_ORDER_FIELD_WND_SIZE := 0x00000400;
  WINDOW_ORDER_FIELD_WND_RECTS := 0x00000100;
  WINDOW_ORDER_FIELD_VIS_OFFSET := 0x00001000;
  WINDOW_ORDER_FIELD_VISIBILITY := 0x00000200;
}.
