(* ===== verification/Msgpack.v ===== *)
(** * msgpack

    The part of the bundled msgpack (external/msgpack/src) that the RPC
    messages use: the packer functions of msgpack/pack_template.h, and
    [msgpack_unpack_next] of unpack.c with the state machine of
    msgpack/unpack_template.h behind it.

    The unpacker walks over [data] with an index [p]; a read outside of [data]
    is undefined ([None]).  The [goto] labels of the machine are the
    constructors of [control]. *)

From S2P Require Import Prelude WStream.

(** ** Big-endian bytes *)

(** [_msgpack_storeN] and [_msgpack_loadN] *)
Definition be (n : nat) (z : Z) : list Z := rev (le n z).
Definition be_val (bs : list Z) : Z := le_val (rev bs).

(** ** Objects *)

#[local] Set Warnings "-register-all".

(** The argument of [template_callback_float] or [template_callback_double],
    as the bits on the wire. *)
Inductive msgpack_dec := from_float (bits : Z) | from_double (bits : Z).

Inductive msgpack_object :=
| MSGPACK_OBJECT_NIL
| MSGPACK_OBJECT_BOOLEAN (boolean : bool)
| MSGPACK_OBJECT_POSITIVE_INTEGER (u64 : Z)
| MSGPACK_OBJECT_NEGATIVE_INTEGER (i64 : Z)
| MSGPACK_OBJECT_DOUBLE (dec : msgpack_dec)
| MSGPACK_OBJECT_RAW (ptr : list Z)
| MSGPACK_OBJECT_ARRAY (ptr : list msgpack_object)
| MSGPACK_OBJECT_MAP (ptr : list (msgpack_object * msgpack_object)).

(** ** Packing *)

Section Pack.
Context {W : WStream}.

(** [msgpack_packer]: the callback with the stream it works on. *)
Record msgpack_packer := mk_packer { callback : list Z -> SM Z }.

Definition msgpack_pack_uint32 (x : msgpack_packer) (d : Z) : SM Z :=
  if d <? 2 ^ 8 then
    if d <? 2 ^ 7 then callback x [u8 d]
    else callback x [0xcc; u8 d]
  else
    if d <? 2 ^ 16 then callback x (0xcd :: be 2 d)
    else callback x (0xce :: be 4 d).

Definition msgpack_pack_true (x : msgpack_packer) : SM Z := callback x [0xc3].
Definition msgpack_pack_false (x : msgpack_packer) : SM Z := callback x [0xc2].

Definition msgpack_pack_array (x : msgpack_packer) (n : Z) : SM Z :=
  if n <? 16 then callback x [Z.lor 0x90 (u8 n)]
  else if n <? 65536 then callback x (0xdc :: be 2 n)
  else callback x (0xdd :: be 4 n).

Definition msgpack_pack_raw (x : msgpack_packer) (l : Z) : SM Z :=
  if l <? 32 then callback x [Z.lor 0xa0 (u8 l)]
  else if l <? 65536 then callback x (0xda :: be 2 l)
  else callback x (0xdb :: be 4 l).

(** The [l] bytes at [b]. *)
Definition msgpack_pack_raw_body (x : msgpack_packer) (b : option (list Z)) (l : Z) : SM Z :=
  match b with
  | None => if l =? 0 then callback x [] else fault
  | Some bs =>
      if decide (l <= Z.of_nat (length bs)) then callback x (take (Z.to_nat l) bs) else fault
  end.
End Pack.

(** ** Unpacking *)

Definition MSGPACK_EMBED_STACK_SIZE : Z := 32.

(** [msgpack_unpack_state]; [ACS_RAW_VALUE] is [raw_value] below. *)
Abbreviation CS_BIN_8 := 0x04 (only parsing).
Abbreviation CS_BIN_16 := 0x05 (only parsing).
Abbreviation CS_BIN_32 := 0x06 (only parsing).
Abbreviation CS_FLOAT := 0x0a (only parsing).
Abbreviation CS_DOUBLE := 0x0b (only parsing).
Abbreviation CS_UINT_8 := 0x0c (only parsing).
Abbreviation CS_UINT_16 := 0x0d (only parsing).
Abbreviation CS_UINT_32 := 0x0e (only parsing).
Abbreviation CS_UINT_64 := 0x0f (only parsing).
Abbreviation CS_INT_8 := 0x10 (only parsing).
Abbreviation CS_INT_16 := 0x11 (only parsing).
Abbreviation CS_INT_32 := 0x12 (only parsing).
Abbreviation CS_INT_64 := 0x13 (only parsing).
Abbreviation CS_RAW_8 := 0x19 (only parsing).
Abbreviation CS_RAW_16 := 0x1a (only parsing).
Abbreviation CS_RAW_32 := 0x1b (only parsing).
Abbreviation CS_ARRAY_16 := 0x1c (only parsing).
Abbreviation CS_ARRAY_32 := 0x1d (only parsing).
Abbreviation CS_MAP_16 := 0x1e (only parsing).
Abbreviation CS_MAP_32 := 0x1f (only parsing).

Inductive msgpack_container_type := CT_ARRAY_ITEM | CT_MAP_KEY | CT_MAP_VALUE.

(** [template_stack]; a list of frames is [stack[top - 1], ..., stack[0]]. *)
Record template_stack := mk_stack {
  obj : msgpack_object;
  count : Z;
  ct : msgpack_container_type;
  map_key : msgpack_object;
}.

Definition template_callback_array_item (c o : msgpack_object) : msgpack_object :=
  match c with MSGPACK_OBJECT_ARRAY l => MSGPACK_OBJECT_ARRAY (l ++ [o]) | _ => c end.

Definition template_callback_map_item (c k v : msgpack_object) : msgpack_object :=
  match c with MSGPACK_OBJECT_MAP l => MSGPACK_OBJECT_MAP (l ++ [(k, v)]) | _ => c end.

(** [template_callback_intN], for a value that was loaded as unsigned. *)
Definition template_callback_int (bits d : Z) : msgpack_object :=
  if d <? 2 ^ (bits - 1) then MSGPACK_OBJECT_POSITIVE_INTEGER d
  else MSGPACK_OBJECT_NEGATIVE_INTEGER (d - 2 ^ bits).

(** Where the body of the loop jumps to. *)
Inductive control :=
| _out
| _failed
| _finish (obj : msgpack_object)
| _header_again (stack : list template_stack).

(** The code at [_push]. *)
Fixpoint push (o : msgpack_object) (stack : list template_stack) : control :=
  match stack with
  | [] => _finish o
  | c :: rest =>
      match ct c with
      | CT_ARRAY_ITEM =>
          let co := template_callback_array_item (obj c) o in
          if count c - 1 =? 0 then push co rest
          else _header_again (mk_stack co (count c - 1) (ct c) (map_key c) :: rest)
      | CT_MAP_KEY => _header_again (mk_stack (obj c) (count c) CT_MAP_VALUE o :: rest)
      | CT_MAP_VALUE =>
          let co := template_callback_map_item (obj c) (map_key c) o in
          if count c - 1 =? 0 then push co rest
          else _header_again (mk_stack co (count c - 1) CT_MAP_KEY (map_key c) :: rest)
      end
  end.

Definition start_container (o : msgpack_object) (count_ : Z) (ct_ : msgpack_container_type)
    (stack : list template_stack) : control :=
  if MSGPACK_EMBED_STACK_SIZE <=? Z.of_nat (length stack) then _failed else
  if count_ =? 0 then push o stack
  else _header_again (mk_stack o count_ ct_ MSGPACK_OBJECT_NIL :: stack).

Section Execute.
Context (data : list Z).

(** The [n] bytes from [p] on. *)
Definition load (p n : nat) : option (list Z) :=
  if decide (p + n <= length data)%nat then Some (take n (drop p data)) else None.

(** [_fixed_trail_again] with [cs = ACS_RAW_VALUE] *)
Definition raw_value (stack : list template_stack) (trail : Z) (p : nat) : option (control * nat) :=
  let p := S p in
  if Z.of_nat (length data - p) <? trail then Some (_out, p) else
  n ← load p (Z.to_nat trail);
  Some (push (MSGPACK_OBJECT_RAW n) stack, (p + (Z.to_nat trail - 1))%nat).

(** [again_fixed_trail_if_zero(ACS_RAW_VALUE, trail, _raw_zero)] *)
Definition raw_trail (stack : list template_stack) (trail : Z) (p : nat) : option (control * nat) :=
  if trail =? 0 then Some (push (MSGPACK_OBJECT_RAW []) stack, p)
  else raw_value stack trail p.

(** [_fixed_trail_again] for the other values of [cs]; [trail] is the number
    of bytes after the header byte. *)
Definition fixed_trail (stack : list template_stack) (cs : Z) (trail p : nat) :
    option (control * nat) :=
  let p := S p in
  if Z.of_nat (length data - p) <? Z.of_nat trail then Some (_out, p) else
  n ← load p trail;
  let p := (p + (trail - 1))%nat in
  match cs with
  | CS_FLOAT => Some (push (MSGPACK_OBJECT_DOUBLE (from_float (be_val n))) stack, p)
  | CS_DOUBLE => Some (push (MSGPACK_OBJECT_DOUBLE (from_double (be_val n))) stack, p)
  | CS_UINT_8 | CS_UINT_16 | CS_UINT_32 | CS_UINT_64 =>
      Some (push (MSGPACK_OBJECT_POSITIVE_INTEGER (be_val n)) stack, p)
  | CS_INT_8 => Some (push (template_callback_int 8 (be_val n)) stack, p)
  | CS_INT_16 => Some (push (template_callback_int 16 (be_val n)) stack, p)
  | CS_INT_32 => Some (push (template_callback_int 32 (be_val n)) stack, p)
  | CS_INT_64 => Some (push (template_callback_int 64 (be_val n)) stack, p)
  | CS_BIN_8 | CS_RAW_8 | CS_BIN_16 | CS_RAW_16 | CS_BIN_32 | CS_RAW_32 =>
      raw_trail stack (be_val n) p
  | CS_ARRAY_16 | CS_ARRAY_32 =>
      Some (start_container (MSGPACK_OBJECT_ARRAY []) (be_val n) CT_ARRAY_ITEM stack, p)
  | CS_MAP_16 | CS_MAP_32 =>
      Some (start_container (MSGPACK_OBJECT_MAP []) (be_val n) CT_MAP_KEY stack, p)
  | _ => Some (_failed, p)
  end.

(** [NEXT_CS(p)] *)
Definition NEXT_CS (b : Z) : Z := Z.land b 0x1f.

(** The number of bytes that follow a header byte in [0xc4 .. 0xdf], [None] for
    a byte the machine does not know. *)
Definition trail_of (b : Z) : option nat :=
  match b with
  | 0xc4 | 0xc5 | 0xc6 => Some (Z.to_nat (Z.shiftl 1 (Z.land b 0x03)))
  | 0xca | 0xcb | 0xcc | 0xcd | 0xce | 0xcf | 0xd0 | 0xd1 | 0xd2 | 0xd3 =>
      Some (Z.to_nat (Z.shiftl 1 (Z.land b 0x03)))
  | 0xd9 | 0xda | 0xdb => Some (Z.to_nat (Z.shiftl 1 (Z.land b 0x03 - 1)))
  | 0xdc | 0xdd | 0xde | 0xdf => Some (Z.to_nat (Z.shiftl 2 (Z.land b 0x01)))
  | _ => None
  end.

(** One iteration of the loop, [cs = CS_HEADER]: the jump and the value of [p]
    there. *)
Definition header (stack : list template_stack) (p : nat) : option (control * nat) :=
  b ← data !! p;
  if (0x00 <=? b) && (b <=? 0x7f) then Some (push (MSGPACK_OBJECT_POSITIVE_INTEGER b) stack, p) else
  if (0xe0 <=? b) && (b <=? 0xff) then Some (push (template_callback_int 8 b) stack, p) else
  if (0xc0 <=? b) && (b <=? 0xdf) then
    match b with
    | 0xc0 => Some (push MSGPACK_OBJECT_NIL stack, p)
    | 0xc2 => Some (push (MSGPACK_OBJECT_BOOLEAN false) stack, p)
    | 0xc3 => Some (push (MSGPACK_OBJECT_BOOLEAN true) stack, p)
    | _ =>
        match trail_of b with
        | Some trail => fixed_trail stack (NEXT_CS b) trail p
        | None => Some (_failed, p)
        end
    end
  else if (0xa0 <=? b) && (b <=? 0xbf) then raw_trail stack (Z.land b 0x1f) p
  else if (0x90 <=? b) && (b <=? 0x9f) then
    Some (start_container (MSGPACK_OBJECT_ARRAY []) (Z.land b 0x0f) CT_ARRAY_ITEM stack, p)
  else if (0x80 <=? b) && (b <=? 0x8f) then
    Some (start_container (MSGPACK_OBJECT_MAP []) (Z.land b 0x0f) CT_MAP_KEY stack, p)
  else Some (_failed, p).

(** The loop: the value returned, the object for 1, and the offset behind what
    was consumed.  [None] is undefined behaviour, or too little [fuel]. *)
Fixpoint execute_loop (fuel : nat) (stack : list template_stack) (p : nat) :
    option (Z * msgpack_object * nat) :=
  match fuel with
  | O => None
  | S fuel' =>
      '(c, p) ← header stack p;
      match c with
      | _out => Some (0, MSGPACK_OBJECT_NIL, p)
      | _failed => Some (-1, MSGPACK_OBJECT_NIL, p)
      | _finish o => Some (1, o, S p)
      | _header_again stack =>
          let p := S p in
          if (p =? length data)%nat then Some (0, MSGPACK_OBJECT_NIL, p)
          else execute_loop fuel' stack p
      end
  end.

(** [template_execute] on a fresh context, from the offset [off] on. *)
Definition template_execute (off : nat) : option (Z * msgpack_object * nat) :=
  if (off =? length data)%nat then Some (0, MSGPACK_OBJECT_NIL, off)
  else execute_loop (length data) [] off.

(** [msgpack_unpack_next] with [off = NULL]: the object, or [None] for
    [false]. *)
Definition msgpack_unpack_next : option (option msgpack_object) :=
  if (length data <=? 0)%nat then Some None else
  '(e, o, _) ← template_execute 0;
  if e <=? 0 then Some None else Some (Some o).
End Execute.
