(* ===== verification/MsgpackFacts.v ===== *)
(** * What msgpack guarantees

    The packer functions append the encoding of their argument to the stream;
    the unpacker never reads outside of its data, always returns, and finds the
    array that was packed.

    [appends m bs a] is the judgement for code that makes room before it
    writes: on a stream whose length is its capacity, [m] returns [a] and the
    bytes before the new position are the old ones followed by [bs]. *)

From S2P Require Import Prelude WStream Msgpack.

(** ** Big-endian bytes *)

Lemma length_be n z : length (be n z) = n.
Proof. unfold be. by rewrite length_rev, length_le. Qed.

Lemma be_val_be n z : be_val (be n z) = z mod 256 ^ Z.of_nat n.
Proof. unfold be, be_val. by rewrite rev_involutive, le_val_le. Qed.

Lemma be_val_small n z : 0 <= z < 256 ^ Z.of_nat n -> be_val (be n z) = z.
Proof. intros ?. rewrite be_val_be. by apply Z.mod_small. Qed.

(** ** Appending *)

Section Appends.
Context {W : WStream} {L : WStreamLaws W}.

Definition appends {A} (m : SM A) (bs : list Z) (a : A) : Prop :=
  forall s buf pos, rep s buf pos (length buf) -> (pos <= length buf)%nat ->
    exists s' buf', m s = Some (a, s') /\ rep s' buf' (pos + length bs) (length buf') /\
      (pos + length bs <= length buf')%nat /\
      take (pos + length bs) buf' = take pos buf ++ bs.

Lemma appends_ret {A} (a : A) : appends (mret a) [] a.
Proof.
  intros s buf pos Hs Hp. exists s, buf. rewrite app_nil_r, Nat.add_0_r. done.
Qed.

Lemma appends_bind {A B} (m : SM A) (k : A -> SM B) bs1 bs2 a b :
  appends m bs1 a -> appends (k a) bs2 b -> appends (m ≫= k) (bs1 ++ bs2) b.
Proof.
  intros Hm Hk s buf pos Hs Hp. destruct (Hm s buf pos Hs Hp) as (s1 & buf1 & E1 & Hs1 & Hp1 & Ht1).
  destruct (Hk s1 buf1 _ Hs1 Hp1) as (s2 & buf2 & E2 & Hs2 & Hp2 & Ht2).
  exists s2, buf2. rewrite length_app, Nat.add_assoc. repeat split; try apply Hs2; [|done|].
  - unfold mbind, SM_bind. by rewrite E1.
  - by rewrite Ht2, Ht1, app_assoc.
Qed.
End Appends.

(** ** Encodings *)

Definition wire_uint32 (d : Z) : list Z :=
  if d <? 2 ^ 7 then [d] else if d <? 2 ^ 8 then [0xcc; d]
  else if d <? 2 ^ 16 then 0xcd :: be 2 d else 0xce :: be 4 d.

Definition wire_raw_header (l : Z) : list Z :=
  if l <? 32 then [0xa0 + l] else if l <? 65536 then 0xda :: be 2 l else 0xdb :: be 4 l.

Definition wire_raw (bs : list Z) : list Z := wire_raw_header (Z.of_nat (length bs)) ++ bs.

Definition wire_bool (b : bool) : list Z := if b then [0xc3] else [0xc2].

(** The objects that are packed as elements of an array. *)
Definition wire_scalar (o : msgpack_object) : list Z :=
  match o with
  | MSGPACK_OBJECT_POSITIVE_INTEGER d => wire_uint32 d
  | MSGPACK_OBJECT_RAW bs => wire_raw bs
  | MSGPACK_OBJECT_BOOLEAN b => wire_bool b
  | _ => []
  end.

Definition ok_scalar (o : msgpack_object) : Prop :=
  match o with
  | MSGPACK_OBJECT_POSITIVE_INTEGER d => is_u32 d
  | MSGPACK_OBJECT_RAW bs => Z.of_nat (length bs) < 2 ^ 32
  | MSGPACK_OBJECT_BOOLEAN _ => True
  | _ => False
  end.

(** A packed array of fewer than 16 elements. *)
Definition wire_array (os : list msgpack_object) : list Z :=
  (0x90 + Z.of_nat (length os)) :: concat (wire_scalar <$> os).

Lemma wire_scalar_length o : ok_scalar o -> (1 <= length (wire_scalar o))%nat.
Proof.
  destruct o; simpl; try done; intros _; unfold wire_uint32, wire_bool, wire_raw, wire_raw_header;
    repeat case_match; simpl; lia.
Qed.

(** ** Low bits of a header byte *)

Lemma lor_low n : 0 <= n < 32 ->
  Z.lor 0xa0 n = 0xa0 + n /\ (n < 16 -> Z.lor 0x90 n = 0x90 + n) /\
  Z.land (0xa0 + n) 0x1f = n /\ (n < 16 -> Z.land (0x90 + n) 0x0f = n).
Proof.
  intros Hn.
  assert (Forall (fun n => Z.lor 0xa0 n = 0xa0 + n /\ (n < 16 -> Z.lor 0x90 n = 0x90 + n) /\
    Z.land (0xa0 + n) 0x1f = n /\ (n < 16 -> Z.land (0x90 + n) 0x0f = n)) (seqZ 0 32)) as H.
  { cbn [seqZ seq fmap list_fmap]. repeat constructor; cbn; try lia; intros; try reflexivity;
      discriminate. }
  rewrite List.Forall_forall in H. apply H, list_elem_of_In, elem_of_seqZ. lia.
Qed.

(** ** The packer *)

Section Packer.
Context {W : WStream} {L : WStreamLaws W} (x : msgpack_packer).
Context (Hx : forall bs, appends (callback x bs) bs 0).

Lemma appends_uint32 d : is_u32 d -> appends (msgpack_pack_uint32 x d) (wire_uint32 d) 0.
Proof.
  intros Hd. unfold is_u32 in Hd. unfold msgpack_pack_uint32, wire_uint32.
  destruct (Z.ltb_spec d (2 ^ 8)); destruct (Z.ltb_spec d (2 ^ 7)); try lia.
  - replace (u8 d) with d by (unfold u8; rewrite Z.mod_small; lia). apply Hx.
  - replace (u8 d) with d by (unfold u8; rewrite Z.mod_small; lia). apply Hx.
  - case_match; apply Hx.
Qed.

Lemma appends_array n : 0 <= n < 16 -> appends (msgpack_pack_array x n) [0x90 + n] 0.
Proof.
  intros Hn. unfold msgpack_pack_array. destruct (Z.ltb_spec n 16); [|lia].
  replace (u8 n) with n by (unfold u8; rewrite Z.mod_small; lia).
  destruct (lor_low n) as (_ & E & _); [lia|]. rewrite E by lia. apply Hx.
Qed.

Lemma appends_raw l : 0 <= l -> appends (msgpack_pack_raw x l) (wire_raw_header l) 0.
Proof.
  intros Hl. unfold msgpack_pack_raw, wire_raw_header. destruct (Z.ltb_spec l 32).
  - replace (u8 l) with l by (unfold u8; rewrite Z.mod_small; lia).
    destruct (lor_low l) as (-> & _); [lia|]. apply Hx.
  - case_match; apply Hx.
Qed.

Lemma appends_raw_body bs l : 0 <= l <= Z.of_nat (length bs) ->
  appends (msgpack_pack_raw_body x (Some bs) l) (take (Z.to_nat l) bs) 0.
Proof. intros Hl. unfold msgpack_pack_raw_body. rewrite decide_True by lia. apply Hx. Qed.

Lemma appends_raw_null : appends (msgpack_pack_raw_body x None 0) [] 0.
Proof. apply Hx. Qed.
End Packer.

(** ** The unpacker stays inside its data and returns *)

Section Total.
Context (data : list Z).

(** The jump target of an iteration that starts at [p] and its index. *)
Definition stays (p : nat) (r : option (control * nat)) : Prop :=
  exists c p', r = Some (c, p') /\ (p <= p')%nat /\
    ((exists st, c = _header_again st) -> (p' < length data)%nat).

Lemma stays_here p c : (p < length data)%nat -> stays p (Some (c, p)).
Proof. exists c, p. done. Qed.

Lemma raw_value_stays stack trail p : 0 < trail -> (p < length data)%nat ->
  stays p (raw_value data stack trail p).
Proof.
  intros Ht Hp. unfold raw_value. case_match eqn:E.
  - exists _out, (S p). split_and!; [done|lia|]. by intros [? [=]].
  - apply Z.ltb_ge in E. unfold load. rewrite decide_True by lia. cbn [mbind option_bind].
    eexists _, _. split; [done|]. split; [lia|]. intros _. lia.
Qed.

Lemma raw_trail_stays stack trail p : 0 <= trail -> (p < length data)%nat ->
  stays p (raw_trail data stack trail p).
Proof.
  intros Ht Hp. unfold raw_trail. destruct (Z.eqb_spec trail 0); [by apply stays_here|].
  apply raw_value_stays; [lia|done].
Qed.

Context (Hdata : Forall is_u8 data).

Lemma be_val_nonneg bs : Forall is_u8 bs -> 0 <= be_val bs.
Proof. intros H. unfold be_val. apply le_val_bound. by apply Forall_rev. Qed.

Lemma fixed_trail_stays stack cs trail p : (0 < trail)%nat -> (p < length data)%nat ->
  stays p (fixed_trail data stack cs trail p).
Proof.
  intros Ht Hp. unfold fixed_trail. case_match eqn:E.
  { exists _out, (S p). split_and!; [done|lia|]. by intros [? [=]]. }
  apply Z.ltb_ge in E. unfold load. rewrite decide_True by lia. cbn [mbind option_bind].
  set (n := take trail (drop (S p) data)). set (p' := (S p + (trail - 1))%nat).
  assert (0 <= be_val n) by (apply be_val_nonneg, Forall_take, Forall_drop, Hdata).
  assert (forall c, stays p (Some (c, p'))) as Hc.
  { intros c. exists c, p'. split; [done|]. unfold p'. split; [lia|]. intros _. lia. }
  assert (stays p (raw_trail data stack (be_val n) p')) as Hr.
  { destruct (raw_trail_stays stack (be_val n) p') as (c & q & -> & ? & ?); [done|unfold p'; lia|].
    exists c, q. split; [done|]. unfold p' in *. split; [lia|done]. }
  repeat case_match; done.
Qed.

Lemma header_stays stack p : (p < length data)%nat -> stays p (header data stack p).
Proof.
  intros Hp. unfold header.
  destruct (lookup_lt_is_Some_2 data p Hp) as [b Hb]. rewrite Hb. cbn [mbind option_bind].
  assert (is_u8 b) as Hb8 by (eapply Forall_lookup_1; [exact Hdata|exact Hb]).
  assert (forall t, trail_of b = Some t -> stays p (fixed_trail data stack (NEXT_CS b) t p)) as Ht.
  { intros t Et. apply fixed_trail_stays; [|done]. unfold trail_of in Et.
    repeat case_match; try discriminate; injection Et as <-; vm_compute; lia. }
  assert (stays p (raw_trail data stack (Z.land b 0x1f) p)) as Hr.
  { apply raw_trail_stays; [|done]. apply Z.land_nonneg. right. lia. }
  repeat (case_match; try (by apply stays_here); try done); by apply Ht.
Qed.

Lemma execute_loop_total fuel stack p :
  (p < length data)%nat -> (length data - p <= fuel)%nat ->
  exists r, execute_loop data fuel stack p = Some r.
Proof.
  revert stack p. induction fuel as [|fuel IH]; intros stack p Hp Hf; [lia|]. cbn [execute_loop].
  destruct (header_stays stack p Hp) as (c & p' & -> & Hp' & Hl). cbn [mbind option_bind].
  destruct c as [| | |st]; try (eexists; reflexivity).
  destruct (Nat.eqb_spec (S p') (length data)); [by eexists|].
  specialize (Hl ltac:(by eexists)). apply IH; lia.
Qed.

Lemma unpack_next_total : exists r, msgpack_unpack_next data = Some r.
Proof.
  unfold msgpack_unpack_next, template_execute.
  destruct (Nat.leb_spec (length data) 0); [by eexists|].
  destruct (Nat.eqb_spec 0 (length data)); [lia|].
  destruct (execute_loop_total (length data) [] 0) as [[[e o] q] ->]; [lia|lia|].
  cbn [mbind option_bind]. case_match; by eexists.
Qed.
End Total.

(** ** The unpacker finds what was packed *)

Section Decode.
Context (data : list Z).

Lemma drop_head p b rest : drop p data = b :: rest -> data !! p = Some b /\ drop (S p) data = rest.
Proof.
  intros H. split.
  - rewrite <-(Nat.add_0_r p), <-lookup_drop, H. done.
  - rewrite <-(Nat.add_1_r p), <-drop_drop, H. done.
Qed.

Lemma drop_prefix p bs rest :
  drop p data = bs ++ rest -> drop (p + length bs) data = rest /\
  (length bs = 0 \/ p + length bs + length rest = length data)%nat.
Proof.
  intros H. split; [by rewrite <-drop_drop, H, drop_app_length|].
  apply (f_equal length) in H. rewrite length_drop, length_app in H. lia.
Qed.

Lemma load_prefix p bs rest : (0 < length bs)%nat -> drop p data = bs ++ rest ->
  load data p (length bs) = Some bs /\ (Z.of_nat (length data - p) <? Z.of_nat (length bs)) = false.
Proof.
  intros Hb H. destruct (drop_prefix _ _ _ H) as [_ Hl]. split.
  - unfold load. rewrite decide_True, H, take_app_length by lia. done.
  - apply Z.ltb_ge. lia.
Qed.

(** The header byte [b] is followed by the [trail] bytes [bs]. *)
Lemma fixed_trail_uint stack cs p b bs rest :
  In cs [0x0c; 0x0d; 0x0e; 0x0f] -> (0 < length bs)%nat -> drop p data = b :: bs ++ rest ->
  fixed_trail data stack cs (length bs) p =
    Some (push (MSGPACK_OBJECT_POSITIVE_INTEGER (be_val bs)) stack, (p + length bs)%nat).
Proof.
  intros Hcs Hb H. destruct (drop_head _ _ _ H) as [_ H1].
  destruct (load_prefix _ _ _ Hb H1) as [El Et]. unfold fixed_trail. rewrite Et, El.
  cbn [mbind option_bind]. replace (S p + (length bs - 1))%nat with (p + length bs)%nat by lia.
  by destruct Hcs as [<-|[<-|[<-|[<-|[]]]]].
Qed.

Lemma raw_trail_raw stack p b bs rest :
  drop p data = b :: bs ++ rest ->
  raw_trail data stack (Z.of_nat (length bs)) p =
    Some (push (MSGPACK_OBJECT_RAW bs) stack, (p + length bs)%nat).
Proof.
  intros H. destruct (drop_head _ _ _ H) as [_ H1]. unfold raw_trail.
  destruct (Z.eqb_spec (Z.of_nat (length bs)) 0) as [E|E].
  { destruct bs; [|done]. by rewrite Nat.add_0_r. }
  destruct (load_prefix (S p) bs rest) as [El Et]; [lia|done|].
  unfold raw_value. rewrite Et, Nat2Z.id, El. cbn [mbind option_bind]. do 2 f_equal. lia.
Qed.

Lemma fixed_trail_raw stack cs p b lb bs rest :
  In cs [0x19; 0x1a; 0x1b] -> (0 < length lb)%nat -> be_val lb = Z.of_nat (length bs) ->
  drop p data = b :: lb ++ bs ++ rest ->
  fixed_trail data stack cs (length lb) p =
    Some (push (MSGPACK_OBJECT_RAW bs) stack, (p + length lb + length bs)%nat).
Proof.
  intros Hcs Hb Hv H. destruct (drop_head _ _ _ H) as [_ H1].
  destruct (load_prefix _ _ _ Hb H1) as [El Et]. unfold fixed_trail. rewrite Et, El.
  cbn [mbind option_bind]. replace (S p + (length lb - 1))%nat with (p + length lb)%nat by lia.
  rewrite Hv.
  assert (exists b', drop (p + length lb) data = b' :: bs ++ rest) as [b' H2].
  { destruct lb as [|b' lb' _] using rev_ind; [simpl in Hb; lia|]. exists b'.
    rewrite length_app, Nat.add_assoc. cbn [length]. rewrite <-app_assoc in H1.
    replace (p + length lb' + 1)%nat with (S p + length lb')%nat by lia.
    by destruct (drop_prefix _ _ _ H1) as [-> _]. }
  destruct Hcs as [<-|[<-|[<-|[]]]]; exact (raw_trail_raw _ _ _ _ _ H2).
Qed.

(** One iteration of the machine consumes one scalar. *)
Lemma header_scalar stack p o rest :
  ok_scalar o -> drop p data = wire_scalar o ++ rest ->
  header data stack p = Some (push o stack, (p + (length (wire_scalar o) - 1))%nat).
Proof.
  intros Hok H. unfold header.
  destruct o as [|b|d| | |bs| |]; try done; cbn [wire_scalar ok_scalar] in *.
  - destruct b; destruct (drop_head _ _ _ H) as [-> _]; cbn; by rewrite Nat.add_0_r.
  - unfold is_u32 in Hok. unfold wire_uint32 in *.
    destruct (Z.ltb_spec d (2 ^ 7)).
    { destruct (drop_head _ _ _ H) as [-> _]. cbn [mbind option_bind].
      destruct (Z.leb_spec 0 d), (Z.leb_spec d 0x7f); try lia. cbn. by rewrite Nat.add_0_r. }
    destruct (Z.ltb_spec d (2 ^ 8)); [|destruct (Z.ltb_spec d (2 ^ 16))];
      destruct (drop_head _ _ _ H) as [-> _]; cbn [mbind option_bind].
    + assert (be_val [d] = d) as Ev by (unfold be_val; simpl; lia).
      pose proof (fixed_trail_uint stack 0x0c p 0xcc [d] rest) as E. rewrite Ev in E.
      apply E; [simpl; tauto|simpl; lia|exact H].
    + pose proof (fixed_trail_uint stack 0x0d p 0xcd (be 2 d) rest) as E.
      rewrite length_be, be_val_small in E by lia. cbn [length]. rewrite length_be.
      apply E; [simpl; tauto|lia|exact H].
    + pose proof (fixed_trail_uint stack 0x0e p 0xce (be 4 d) rest) as E.
      rewrite length_be, be_val_small in E by lia. cbn [length]. rewrite length_be.
      apply E; [simpl; tauto|lia|exact H].
  - unfold wire_raw, wire_raw_header in *. set (l := Z.of_nat (length bs)) in *.
    destruct (Z.ltb_spec l 32); [|destruct (Z.ltb_spec l 65536)];
      rewrite <-?app_assoc in H; destruct (drop_head _ _ _ H) as [-> _]; cbn [mbind option_bind].
    + destruct (Z.leb_spec 0 (0xa0 + l)), (Z.leb_spec (0xa0 + l) 0x7f), (Z.leb_spec 0xe0 (0xa0 + l)),
        (Z.leb_spec 0xc0 (0xa0 + l)), (Z.leb_spec 0xa0 (0xa0 + l)), (Z.leb_spec (0xa0 + l) 0xbf); try lia.
      cbn [andb]. destruct (lor_low l) as (_ & _ & -> & _); [lia|].
      rewrite length_app. cbn [length]. replace (1 + length bs - 1)%nat with (length bs) by lia.
      exact (raw_trail_raw _ _ _ _ _ H).
    + pose proof (fixed_trail_raw stack 0x1a p 0xda (be 2 l) bs rest) as E.
      rewrite length_app. cbn [length]. rewrite length_be in *.
      replace (p + (3 + length bs - 1))%nat with (p + 2 + length bs)%nat by lia.
      apply E; [simpl; tauto|lia|by apply be_val_small; lia|exact H].
    + pose proof (fixed_trail_raw stack 0x1b p 0xdb (be 4 l) bs rest) as E.
      rewrite length_app. cbn [length]. rewrite length_be in *.
      replace (p + (5 + length bs - 1))%nat with (p + 4 + length bs)%nat by lia.
      apply E; [simpl; tauto|lia|by apply be_val_small; lia|exact H].
Qed.
Lemma execute_items fuel done_ todo p rest key :
  Forall ok_scalar todo -> todo <> [] -> (length todo <= fuel)%nat ->
  drop p data = concat (wire_scalar <$> todo) ++ rest ->
  execute_loop data fuel
    [mk_stack (MSGPACK_OBJECT_ARRAY done_) (Z.of_nat (length todo)) CT_ARRAY_ITEM key] p =
  Some (1, MSGPACK_OBJECT_ARRAY (done_ ++ todo), (p + length (concat (wire_scalar <$> todo)))%nat).
Proof.
  revert done_ todo p. induction fuel as [|fuel IH]; intros done_ todo p Hok Hne Hf H.
  { destruct todo; [done|simpl in Hf; lia]. }
  destruct todo as [|o todo]; [done|]. apply List.Forall_cons_iff in Hok as [Ho Hok].
  pose proof (wire_scalar_length o Ho) as Hl. cbn [fmap list_fmap concat] in H |- *.
  rewrite <-app_assoc in H. cbn [execute_loop].
  rewrite (header_scalar _ _ _ _ Ho H). cbn [mbind option_bind push ct count obj map_key].
  destruct (drop_prefix _ _ _ H) as [Hd Hlen]. rewrite length_app.
  destruct (Z.eqb_spec (Z.of_nat (length (o :: todo)) - 1) 0) as [E|E]; cbn [length] in E.
  - destruct todo; [|simpl in E; lia]. cbn [template_callback_array_item].
    replace (S (p + (length (wire_scalar o) - 1))) with (p + (length (wire_scalar o) + 0))%nat by lia.
    done.
  - replace (S (p + (length (wire_scalar o) - 1))) with (p + length (wire_scalar o))%nat by lia.
    assert (todo <> []) as Hne' by (by destruct todo).
    assert (1 <= length (concat (wire_scalar <$> todo)))%nat as Hc.
    { destruct todo as [|o' todo]; [done|]. apply List.Forall_cons_iff in Hok as [Ho' _].
      cbn [fmap list_fmap concat]. rewrite length_app. pose proof (wire_scalar_length o' Ho'). lia. }
    destruct (Nat.eqb_spec (p + length (wire_scalar o)) (length data)) as [E2|E2].
    { rewrite length_app in Hlen. lia. }
    replace (Z.of_nat (length (o :: todo)) - 1) with (Z.of_nat (length todo)) by (simpl; lia).
    cbn [length] in Hf. cbn [template_callback_array_item]. rewrite IH by (done || lia).
    rewrite <-app_assoc. do 2 f_equal. lia.
Qed.

Lemma unpack_next_array os rest :
  Forall ok_scalar os -> (length os < 16)%nat -> data = wire_array os ++ rest ->
  msgpack_unpack_next data = Some (Some (MSGPACK_OBJECT_ARRAY os)).
Proof.
  intros Hok Hl E. set (l := Z.of_nat (length os)).
  assert (drop 0 data = (0x90 + l) :: concat (wire_scalar <$> os) ++ rest) as H by (by rewrite E).
  assert (length os <= length (concat (wire_scalar <$> os)))%nat as Hc.
  { clear -Hok. induction Hok as [|o os Ho _ IH]; [done|]. cbn [fmap list_fmap concat length].
    rewrite length_app. pose proof (wire_scalar_length o Ho). lia. }
  assert (length data = S (length (concat (wire_scalar <$> os) ++ rest))) as Hd by (by rewrite E).
  rewrite length_app in Hd. unfold msgpack_unpack_next, template_execute.
  destruct (Nat.leb_spec (length data) 0); [lia|]. destruct (Nat.eqb_spec 0 (length data)); [lia|].
  rewrite Hd at 1. cbn [execute_loop]. unfold header. destruct (drop_head _ _ _ H) as [-> H1].
  cbn [mbind option_bind].
  destruct (Z.leb_spec 0 (0x90 + l)), (Z.leb_spec (0x90 + l) 0x7f), (Z.leb_spec 0xe0 (0x90 + l)),
    (Z.leb_spec 0xc0 (0x90 + l)), (Z.leb_spec 0xa0 (0x90 + l)), (Z.leb_spec 0x90 (0x90 + l)),
    (Z.leb_spec (0x90 + l) 0x9f); try lia.
  cbn [andb]. destruct (lor_low l) as (_ & _ & _ & El); [lia|]. rewrite El by lia.
  unfold start_container. cbn [length]. change (MSGPACK_EMBED_STACK_SIZE <=? Z.of_nat 0) with false.
  cbv iota. destruct (Z.eqb_spec l 0) as [E0|E0].
  { destruct os; [done|]. unfold l in E0. simpl in E0. lia. }
  cbn [mbind option_bind]. destruct (Nat.eqb_spec 1 (length data)) as [E1|E1]; [lia|].
  assert (os <> []) by (intros ->; done).
  unfold l. rewrite (execute_items _ [] os 1 rest MSGPACK_OBJECT_NIL) by (done || lia). done.
Qed.
End Decode.
