(* ===== verification/RpcPack.v ===== *)
(** * RPC packing helpers

    freerds/rpc/pack.c and the macros of freerds/rpc/rpc.h: packing values to a
    stream, checking and converting unpacked objects, and the shape that all
    the message functions of freerds/rpc/msg.c share.

    An [FDSAPI_...] struct starts with the common fields
    ([FDSAPI_MSG_COMMON()]); [RPC B] is such a struct with the remaining fields
    [B].  A [char*] is the block it points to, terminator included, [None] for
    [NULL]. *)

From S2P Require Import Prelude WStream VarMsg SessionMsg Msgpack.

Record FDSAPI_MSG_HEADER := mk_rpc_header {
  msgSize : Z; msgType : Z; callId : Z; status : Z  (* UINT32 *)
}.

Record RPC (B : Type) := Rpc { rpc_header : FDSAPI_MSG_HEADER; rpc_data : B }.
Arguments Rpc {B} _ _.
Arguments rpc_header {B} _.
Arguments rpc_data {B} _.

Definition set_status {B} (v : Z) (r : RPC B) : RPC B :=
  let h := rpc_header r in Rpc (mk_rpc_header (msgSize h) (msgType h) (callId h) v) (rpc_data r).
Definition set_data {B} (b : B) (r : RPC B) : RPC B := Rpc (rpc_header r) b.

Section Pack.
Context {W : WStream}.

Definition msgpack_stream_write (bs : list Z) : SM Z := fun s =>
  let s := Stream_EnsureRemainingCapacity (Z.of_nat (length bs)) s in
  '(_, s) ← Stream_Write bs s;
  Some (0, s).

Definition msgpack_stream_packer_init : msgpack_packer := mk_packer msgpack_stream_write.

Definition msgpack_pack_cstr (pk : msgpack_packer) (cstr : option (list Z)) : SM Z :=
  match cstr with
  | Some bs =>
      match strlen bs with
      | None => fault
      | Some length =>
          msgpack_pack_raw pk (Z.of_nat length) ≫= fun _ =>
          msgpack_pack_raw_body pk cstr (Z.of_nat length) ≫= fun _ =>
          mret 0
      end
  | None =>
      msgpack_pack_raw pk 0 ≫= fun _ =>
      msgpack_pack_raw_body pk None 0 ≫= fun _ =>
      mret 0
  end.

Definition msgpack_pack_bool (pk : msgpack_packer) (b : Z) : SM Z :=
  (if b =? 0 then msgpack_pack_false pk else msgpack_pack_true pk) ≫= fun _ => mret 0.

(** [STREAM_PACK_PREPARE(s)], the calls of the packer, [STREAM_PACK_FINALIZE(s)];
    the stream that is returned. *)
Definition pack_message {A} (m : msgpack_packer -> SM A) (s : option wStream) : option wStream :=
  let s := match s with Some s => s | None => Stream_New 512 end in
  '(_, s) ← m msgpack_stream_packer_init s;
  Some (Stream_SetPosition 0 (Stream_SealLength s)).
End Pack.

(** ** Unpacking: [None] is [FALSE] *)

Definition msgpack_unpack_array (obj : msgpack_object) : option Z :=
  match obj with MSGPACK_OBJECT_ARRAY l => Some (Z.of_nat (length l)) | _ => None end.

Definition msgpack_unpack_array_min (obj : msgpack_object) (min : Z) : option Z :=
  match obj with
  | MSGPACK_OBJECT_ARRAY l =>
      if Z.of_nat (length l) <? min then None else Some (Z.of_nat (length l))
  | _ => None
  end.

Definition msgpack_unpack_uint32 (obj : msgpack_object) : option Z :=
  match obj with MSGPACK_OBJECT_POSITIVE_INTEGER v => Some (u32 v) | _ => None end.

Definition msgpack_unpack_uint64 (obj : msgpack_object) : option Z :=
  match obj with MSGPACK_OBJECT_POSITIVE_INTEGER v => Some (u64 v) | _ => None end.

Definition msgpack_unpack_cstr (obj : msgpack_object) : option (option (list Z)) :=
  match obj with
  | MSGPACK_OBJECT_RAW ptr =>
      if Z.of_nat (length ptr) <? 1 then Some None else Some (Some (ptr ++ [0]))
  | _ => None
  end.

Definition msgpack_unpack_bool (obj : msgpack_object) : option Z :=
  match obj with MSGPACK_OBJECT_BOOLEAN b => Some (if b then 1 else 0) | _ => None end.

(** [if (!unpack(obj++, &(r->field))) return FALSE;]: the boolean is [false]
    for the early return; reading behind the array is undefined. *)
Definition unpack_step (B : Type) : Type :=
  list msgpack_object -> RPC B -> option (bool * list msgpack_object * RPC B).

Definition unpack_field {A B} (unpack : msgpack_object -> option A) (field : A -> RPC B -> RPC B) :
    unpack_step B := fun obj r =>
  match obj with
  | [] => None
  | o :: obj =>
      match unpack o with
      | None => Some (false, obj, r)
      | Some v => Some (true, obj, field v r)
      end
  end.

Fixpoint unpack_fields {B} (steps : list (unpack_step B)) (obj : list msgpack_object) (r : RPC B) :
    option (bool * RPC B) :=
  match steps with
  | [] => Some (true, r)
  | step :: steps =>
      '(ok, obj, r) ← step obj r;
      if ok : bool then unpack_fields steps obj r else Some (false, r)
  end.

(** The unpack functions: [msgpack_unpack_next], the check of the array, the
    fields. *)
Definition unpack_message {B} (min : Z) (steps : list (unpack_step B)) (r : RPC B)
    (buffer : list Z) : option (bool * RPC B) :=
  root ← msgpack_unpack_next buffer;
  match root with
  | None => Some (false, r)
  | Some root =>
      match msgpack_unpack_array_min root min, root with
      | Some _, MSGPACK_OBJECT_ARRAY obj => unpack_fields steps obj r
      | _, _ => Some (false, r)
      end
  end.
