(* ===== verification/RpcMsg.v ===== *)
(** * RPC messages

    freerds/rpc/msg.c: the requests and responses that the session manager and
    the core exchange, one module per message with its struct (from
    include/freerds/rpc.h) and its pack, unpack and free functions. *)

From S2P Require Import Prelude WStream Msgpack RpcPack.

Module ChannelAllowedRequest.
Record FDSAPI_CHANNEL_ALLOWED_REQUEST := mk {
  ChannelName : option (list Z)  (* char* *)
}.

Abbreviation message := (RPC FDSAPI_CHANNEL_ALLOWED_REQUEST).

Definition set_ChannelName (v : option (list Z)) (r : message) : message :=
  let b := rpc_data r in set_data (mk v) r.

Definition freerds_pack_channel_allowed_request {W : WStream} (r : message) (s : option wStream) : option wStream :=
  pack_message (fun pk =>
    msgpack_pack_array pk 1 ≫= fun _ =>
    msgpack_pack_cstr pk (ChannelName (rpc_data r))) s.

Definition freerds_unpack_channel_allowed_request (r : message) (buffer : list Z) : option (bool * message) :=
  unpack_message 1 [
    unpack_field msgpack_unpack_cstr set_ChannelName] r buffer.

(** The pointers that are freed. *)
Definition freerds_free_channel_allowed_request (r : message) : list (option (list Z)) :=
  [ChannelName (rpc_data r)].
End ChannelAllowedRequest.

Module ChannelAllowedResponse.
Record FDSAPI_CHANNEL_ALLOWED_RESPONSE := mk {
  ChannelAllowed : Z  (* BOOL *)
}.

Abbreviation message := (RPC FDSAPI_CHANNEL_ALLOWED_RESPONSE).

Definition set_ChannelAllowed (v : Z) (r : message) : message :=
  let b := rpc_data r in set_data (mk v) r.

Definition freerds_pack_channel_allowed_response {W : WStream} (r : message) (s : option wStream) : option wStream :=
  pack_message (fun pk =>
    msgpack_pack_array pk 2 ≫= fun _ =>
    msgpack_pack_uint32 pk (status (rpc_header r)) ≫= fun _ =>
    msgpack_pack_bool pk (ChannelAllowed (rpc_data r))) s.

Definition freerds_unpack_channel_allowed_response (r : message) (buffer : list Z) : option (bool * message) :=
  unpack_message 2 [
    unpack_field msgpack_unpack_uint32 set_status;
    unpack_field msgpack_unpack_bool set_ChannelAllowed] r buffer.

(** The pointers that are freed. *)
Definition freerds_free_channel_allowed_response (r : message) : list (option (list Z)) :=
  [].
End ChannelAllowedResponse.

Module HeartbeatRequest.
Record FDSAPI_HEARTBEAT_REQUEST := mk {
  HeartbeatId : Z  (* UINT32 *)
}.

Abbreviation message := (RPC FDSAPI_HEARTBEAT_REQUEST).

Definition set_HeartbeatId (v : Z) (r : message) : message :=
  let b := rpc_data r in set_data (mk v) r.

Definition freerds_pack_heartbeat_request {W : WStream} (r : message) (s : option wStream) : option wStream :=
  pack_message (fun pk =>
    msgpack_pack_array pk 1 ≫= fun _ =>
    msgpack_pack_uint32 pk (HeartbeatId (rpc_data r))) s.

Definition freerds_unpack_heartbeat_request (r : message) (buffer : list Z) : option (bool * message) :=
  unpack_message 1 [
    unpack_field msgpack_unpack_uint32 set_HeartbeatId] r buffer.

(** The pointers that are freed. *)
Definition freerds_free_heartbeat_request (r : message) : list (option (list Z)) :=
  [].
End HeartbeatRequest.

Module HeartbeatResponse.
Record FDSAPI_HEARTBEAT_RESPONSE := mk {
  HeartbeatId : Z  (* UINT32 *)
}.

Abbreviation message := (RPC FDSAPI_HEARTBEAT_RESPONSE).

Definition set_HeartbeatId (v : Z) (r : message) : message :=
  let b := rpc_data r in set_data (mk v) r.

Definition freerds_pack_heartbeat_response {W : WStream} (r : message) (s : option wStream) : option wStream :=
  pack_message (fun pk =>
    msgpack_pack_array pk 2 ≫= fun _ =>
    msgpack_pack_uint32 pk (status (rpc_header r)) ≫= fun _ =>
    msgpack_pack_uint32 pk (HeartbeatId (rpc_data r))) s.

Definition freerds_unpack_heartbeat_response (r : message) (buffer : list Z) : option (bool * message) :=
  unpack_message 2 [
    unpack_field msgpack_unpack_uint32 set_status;
    unpack_field msgpack_unpack_uint32 set_HeartbeatId] r buffer.

(** The pointers that are freed. *)
Definition freerds_free_heartbeat_response (r : message) : list (option (list Z)) :=
  [].
End HeartbeatResponse.

Module LogonUserRequest.
Record FDSAPI_LOGON_USER_REQUEST := mk {
  ConnectionId : Z  (* UINT32 *);
  User : option (list Z)  (* char* *);
  Domain : option (list Z)  (* char* *);
  Password : option (list Z)  (* char* *);
  DesktopWidth : Z  (* UINT32 *);
  DesktopHeight : Z  (* UINT32 *);
  ColorDepth : Z  (* UINT32 *);
  ClientName : option (list Z)  (* char* *);
  ClientAddress : option (list Z)  (* char* *);
  ClientBuild : Z  (* UINT32 *);
  ClientProductId : Z  (* UINT32 *);
  ClientHardwareId : Z  (* UINT32 *);
  ClientProtocolType : Z  (* UINT32 *)
}.

Abbreviation message := (RPC FDSAPI_LOGON_USER_REQUEST).

Definition set_ConnectionId (v : Z) (r : message) : message :=
  let b := rpc_data r in set_data (mk v (User b) (Domain b) (Password b) (DesktopWidth b)
    (DesktopHeight b) (ColorDepth b) (ClientName b) (ClientAddress b) (ClientBuild b)
    (ClientProductId b) (ClientHardwareId b) (ClientProtocolType b)) r.
Definition set_User (v : option (list Z)) (r : message) : message :=
  let b := rpc_data r in set_data (mk (ConnectionId b) v (Domain b) (Password b) (DesktopWidth
    b) (DesktopHeight b) (ColorDepth b) (ClientName b) (ClientAddress b) (ClientBuild b)
    (ClientProductId b) (ClientHardwareId b) (ClientProtocolType b)) r.
Definition set_Domain (v : option (list Z)) (r : message) : message :=
  let b := rpc_data r in set_data (mk (ConnectionId b) (User b) v (Password b) (DesktopWidth b)
    (DesktopHeight b) (ColorDepth b) (ClientName b) (ClientAddress b) (ClientBuild b)
    (ClientProductId b) (ClientHardwareId b) (ClientProtocolType b)) r.
Definition set_Password (v : option (list Z)) (r : message) : message :=
  let b := rpc_data r in set_data (mk (ConnectionId b) (User b) (Domain b) v (DesktopWidth b)
    (DesktopHeight b) (ColorDepth b) (ClientName b) (ClientAddress b) (ClientBuild b)
    (ClientProductId b) (ClientHardwareId b) (ClientProtocolType b)) r.
Definition set_DesktopWidth (v : Z) (r : message) : message :=
  let b := rpc_data r in set_data (mk (ConnectionId b) (User b) (Domain b) (Password b) v
    (DesktopHeight b) (ColorDepth b) (ClientName b) (ClientAddress b) (ClientBuild b)
    (ClientProductId b) (ClientHardwareId b) (ClientProtocolType b)) r.
Definition set_DesktopHeight (v : Z) (r : message) : message :=
  let b := rpc_data r in set_data (mk (ConnectionId b) (User b) (Domain b) (Password b)
    (DesktopWidth b) v (ColorDepth b) (ClientName b) (ClientAddress b) (ClientBuild b)
    (ClientProductId b) (ClientHardwareId b) (ClientProtocolType b)) r.
Definition set_ColorDepth (v : Z) (r : message) : message :=
  let b := rpc_data r in set_data (mk (ConnectionId b) (User b) (Domain b) (Password b)
    (DesktopWidth b) (DesktopHeight b) v (ClientName b) (ClientAddress b) (ClientBuild b)
    (ClientProductId b) (ClientHardwareId b) (ClientProtocolType b)) r.
Definition set_ClientName (v : option (list Z)) (r : message) : message :=
  let b := rpc_data r in set_data (mk (ConnectionId b) (User b) (Domain b) (Password b)
    (DesktopWidth b) (DesktopHeight b) (ColorDepth b) v (ClientAddress b) (ClientBuild b)
    (ClientProductId b) (ClientHardwareId b) (ClientProtocolType b)) r.
Definition set_ClientAddress (v : option (list Z)) (r : message) : message :=
  let b := rpc_data r in set_data (mk (ConnectionId b) (User b) (Domain b) (Password b)
    (DesktopWidth b) (DesktopHeight b) (ColorDepth b) (ClientName b) v (ClientBuild b)
    (ClientProductId b) (ClientHardwareId b) (ClientProtocolType b)) r.
Definition set_ClientBuild (v : Z) (r : message) : message :=
  let b := rpc_data r in set_data (mk (ConnectionId b) (User b) (Domain b) (Password b)
    (DesktopWidth b) (DesktopHeight b) (ColorDepth b) (ClientName b) (ClientAddress b) v
    (ClientProductId b) (ClientHardwareId b) (ClientProtocolType b)) r.
Definition set_ClientProductId (v : Z) (r : message) : message :=
  let b := rpc_data r in set_data (mk (ConnectionId b) (User b) (Domain b) (Password b)
    (DesktopWidth b) (DesktopHeight b) (ColorDepth b) (ClientName b) (ClientAddress b)
    (ClientBuild b) v (ClientHardwareId b) (ClientProtocolType b)) r.
Definition set_ClientHardwareId (v : Z) (r : message) : message :=
  let b := rpc_data r in set_data (mk (ConnectionId b) (User b) (Domain b) (Password b)
    (DesktopWidth b) (DesktopHeight b) (ColorDepth b) (ClientName b) (ClientAddress b)
    (ClientBuild b) (ClientProductId b) v (ClientProtocolType b)) r.
Definition set_ClientProtocolType (v : Z) (r : message) : message :=
  let b := rpc_data r in set_data (mk (ConnectionId b) (User b) (Domain b) (Password b)
    (DesktopWidth b) (DesktopHeight b) (ColorDepth b) (ClientName b) (ClientAddress b)
    (ClientBuild b) (ClientProductId b) (ClientHardwareId b) v) r.

Definition freerds_pack_logon_user_request {W : WStream} (r : message) (s : option wStream) : option wStream :=
  pack_message (fun pk =>
    msgpack_pack_array pk 13 ≫= fun _ =>
    msgpack_pack_uint32 pk (ConnectionId (rpc_data r)) ≫= fun _ =>
    msgpack_pack_cstr pk (User (rpc_data r)) ≫= fun _ =>
    msgpack_pack_cstr pk (Domain (rpc_data r)) ≫= fun _ =>
    msgpack_pack_cstr pk (Password (rpc_data r)) ≫= fun _ =>
    msgpack_pack_uint32 pk (DesktopWidth (rpc_data r)) ≫= fun _ =>
    msgpack_pack_uint32 pk (DesktopHeight (rpc_data r)) ≫= fun _ =>
    msgpack_pack_uint32 pk (ColorDepth (rpc_data r)) ≫= fun _ =>
    msgpack_pack_cstr pk (ClientName (rpc_data r)) ≫= fun _ =>
    msgpack_pack_cstr pk (ClientAddress (rpc_data r)) ≫= fun _ =>
    msgpack_pack_uint32 pk (ClientBuild (rpc_data r)) ≫= fun _ =>
    msgpack_pack_uint32 pk (ClientProductId (rpc_data r)) ≫= fun _ =>
    msgpack_pack_uint32 pk (ClientHardwareId (rpc_data r)) ≫= fun _ =>
    msgpack_pack_uint32 pk (ClientProtocolType (rpc_data r))) s.

Definition freerds_unpack_logon_user_request (r : message) (buffer : list Z) : option (bool * message) :=
  unpack_message 13 [
    unpack_field msgpack_unpack_uint32 set_ConnectionId;
    unpack_field msgpack_unpack_cstr set_User;
    unpack_field msgpack_unpack_cstr set_Domain;
    unpack_field msgpack_unpack_cstr set_Password;
    unpack_field msgpack_unpack_uint32 set_DesktopWidth;
    unpack_field msgpack_unpack_uint32 set_DesktopHeight;
    unpack_field msgpack_unpack_uint32 set_ColorDepth;
    unpack_field msgpack_unpack_cstr set_ClientName;
    unpack_field msgpack_unpack_cstr set_ClientAddress;
    unpack_field msgpack_unpack_uint32 set_ClientBuild;
    unpack_field msgpack_unpack_uint32 set_ClientProductId;
    unpack_field msgpack_unpack_uint32 set_ClientHardwareId;
    unpack_field msgpack_unpack_uint32 set_ClientProtocolType] r buffer.

(** The pointers that are freed. *)
Definition freerds_free_logon_user_request (r : message) : list (option (list Z)) :=
  [User (rpc_data r); Domain (rpc_data r); Password (rpc_data r); ClientName (rpc_data r); ClientAddress (rpc_data r)].
End LogonUserRequest.

Module LogonUserResponse.
Record FDSAPI_LOGON_USER_RESPONSE := mk {
  ServiceEndpoint : option (list Z)  (* char* *)
}.

Abbreviation message := (RPC FDSAPI_LOGON_USER_RESPONSE).

Definition set_ServiceEndpoint (v : option (list Z)) (r : message) : message :=
  let b := rpc_data r in set_data (mk v) r.

Definition freerds_pack_logon_user_response {W : WStream} (r : message) (s : option wStream) : option wStream :=
  pack_message (fun pk =>
    msgpack_pack_array pk 2 ≫= fun _ =>
    msgpack_pack_uint32 pk (status (rpc_header r)) ≫= fun _ =>
    msgpack_pack_cstr pk (ServiceEndpoint (rpc_data r))) s.

Definition freerds_unpack_logon_user_response (r : message) (buffer : list Z) : option (bool * message) :=
  unpack_message 2 [
    unpack_field msgpack_unpack_uint32 set_status;
    unpack_field msgpack_unpack_cstr set_ServiceEndpoint] r buffer.

(** The pointers that are freed. *)
Definition freerds_free_logon_user_response (r : message) : list (option (list Z)) :=
  [ServiceEndpoint (rpc_data r)].
End LogonUserResponse.

Module LogoffUserRequest.
Record FDSAPI_LOGOFF_USER_REQUEST := mk {
  ConnectionId : Z  (* UINT32 *)
}.

Abbreviation message := (RPC FDSAPI_LOGOFF_USER_REQUEST).

Definition set_ConnectionId (v : Z) (r : message) : message :=
  let b := rpc_data r in set_data (mk v) r.

Definition freerds_pack_logoff_user_request {W : WStream} (r : message) (s : option wStream) : option wStream :=
  pack_message (fun pk =>
    msgpack_pack_array pk 1 ≫= fun _ =>
    msgpack_pack_uint32 pk (ConnectionId (rpc_data r))) s.

Definition freerds_unpack_logoff_user_request (r : message) (buffer : list Z) : option (bool * message) :=
  unpack_message 1 [
    unpack_field msgpack_unpack_uint32 set_ConnectionId] r buffer.

(** The pointers that are freed. *)
Definition freerds_free_logoff_user_request (r : message) : list (option (list Z)) :=
  [].
End LogoffUserRequest.

Module LogoffUserResponse.
Record FDSAPI_LOGOFF_USER_RESPONSE := mk {
  ConnectionId : Z  (* UINT32 *)
}.

Abbreviation message := (RPC FDSAPI_LOGOFF_USER_RESPONSE).

Definition set_ConnectionId (v : Z) (r : message) : message :=
  let b := rpc_data r in set_data (mk v) r.

Definition freerds_pack_logoff_user_response {W : WStream} (r : message) (s : option wStream) : option wStream :=
  pack_message (fun pk =>
    msgpack_pack_array pk 2 ≫= fun _ =>
    msgpack_pack_uint32 pk (status (rpc_header r)) ≫= fun _ =>
    msgpack_pack_uint32 pk (ConnectionId (rpc_data r))) s.

Definition freerds_unpack_logoff_user_response (r : message) (buffer : list Z) : option (bool * message) :=
  unpack_message 2 [
    unpack_field msgpack_unpack_uint32 set_status;
    unpack_field msgpack_unpack_uint32 set_ConnectionId] r buffer.

(** The pointers that are freed. *)
Definition freerds_free_logoff_user_response (r : message) : list (option (list Z)) :=
  [].
End LogoffUserResponse.

Module DisconnectUserRequest.
Record FDSAPI_DISCONNECT_USER_REQUEST := mk {
  ConnectionId : Z  (* UINT32 *)
}.

Abbreviation message := (RPC FDSAPI_DISCONNECT_USER_REQUEST).

Definition set_ConnectionId (v : Z) (r : message) : message :=
  let b := rpc_data r in set_data (mk v) r.

Definition freerds_pack_disconnect_user_request {W : WStream} (r : message) (s : option wStream) : option wStream :=
  pack_message (fun pk =>
    msgpack_pack_array pk 1 ≫= fun _ =>
    msgpack_pack_uint32 pk (ConnectionId (rpc_data r))) s.

Definition freerds_unpack_disconnect_user_request (r : message) (buffer : list Z) : option (bool * message) :=
  unpack_message 1 [
    unpack_field msgpack_unpack_uint32 set_ConnectionId] r buffer.

(** The pointers that are freed. *)
Definition freerds_free_disconnect_user_request (r : message) : list (option (list Z)) :=
  [].
End DisconnectUserRequest.

Module DisconnectUserResponse.
Record FDSAPI_DISCONNECT_USER_RESPONSE := mk {
  ConnectionId : Z  (* UINT32 *)
}.

Abbreviation message := (RPC FDSAPI_DISCONNECT_USER_RESPONSE).

Definition set_ConnectionId (v : Z) (r : message) : message :=
  let b := rpc_data r in set_data (mk v) r.

Definition freerds_pack_disconnect_user_response {W : WStream} (r : message) (s : option wStream) : option wStream :=
  pack_message (fun pk =>
    msgpack_pack_array pk 2 ≫= fun _ =>
    msgpack_pack_uint32 pk (status (rpc_header r)) ≫= fun _ =>
    msgpack_pack_uint32 pk (ConnectionId (rpc_data r))) s.

Definition freerds_unpack_disconnect_user_response (r : message) (buffer : list Z) : option (bool * message) :=
  unpack_message 2 [
    unpack_field msgpack_unpack_uint32 set_status;
    unpack_field msgpack_unpack_uint32 set_ConnectionId] r buffer.

(** The pointers that are freed. *)
Definition freerds_free_disconnect_user_response (r : message) : list (option (list Z)) :=
  [].
End DisconnectUserResponse.

Module SwitchServiceEndpointRequest.
Record FDSAPI_SWITCH_SERVICE_ENDPOINT_REQUEST := mk {
  ConnectionId : Z  (* UINT32 *);
  ServiceEndpoint : option (list Z)  (* char* *)
}.

Abbreviation message := (RPC FDSAPI_SWITCH_SERVICE_ENDPOINT_REQUEST).

Definition set_ConnectionId (v : Z) (r : message) : message :=
  let b := rpc_data r in set_data (mk v (ServiceEndpoint b)) r.
Definition set_ServiceEndpoint (v : option (list Z)) (r : message) : message :=
  let b := rpc_data r in set_data (mk (ConnectionId b) v) r.

Definition freerds_pack_switch_service_endpoint_request {W : WStream} (r : message) (s : option wStream) : option wStream :=
  pack_message (fun pk =>
    msgpack_pack_array pk 2 ≫= fun _ =>
    msgpack_pack_uint32 pk (ConnectionId (rpc_data r)) ≫= fun _ =>
    msgpack_pack_cstr pk (ServiceEndpoint (rpc_data r))) s.

Definition freerds_unpack_switch_service_endpoint_request (r : message) (buffer : list Z) : option (bool * message) :=
  unpack_message 2 [
    unpack_field msgpack_unpack_uint32 set_ConnectionId;
    unpack_field msgpack_unpack_cstr set_ServiceEndpoint] r buffer.

(** The pointers that are freed. *)
Definition freerds_free_switch_service_endpoint_request (r : message) : list (option (list Z)) :=
  [].
End SwitchServiceEndpointRequest.

Module SwitchServiceEndpointResponse.
Record FDSAPI_SWITCH_SERVICE_ENDPOINT_RESPONSE := mk { }.

Abbreviation message := (RPC FDSAPI_SWITCH_SERVICE_ENDPOINT_RESPONSE).


Definition freerds_pack_switch_service_endpoint_response {W : WStream} (r : message) (s : option wStream) : option wStream :=
  pack_message (fun pk =>
    msgpack_pack_array pk 1 ≫= fun _ =>
    msgpack_pack_uint32 pk (status (rpc_header r))) s.

Definition freerds_unpack_switch_service_endpoint_response (r : message) (buffer : list Z) : option (bool * message) :=
  unpack_message 1 [
    unpack_field msgpack_unpack_uint32 set_status] r buffer.

(** The pointers that are freed. *)
Definition freerds_free_switch_service_endpoint_response (r : message) : list (option (list Z)) :=
  [].
End SwitchServiceEndpointResponse.

Module StartSessionRequest.
Record FDSAPI_START_SESSION_REQUEST := mk {
  SessionId : Z  (* UINT32 *);
  User : option (list Z)  (* char* *);
  Domain : option (list Z)  (* char* *);
  Password : option (list Z)  (* char* *)
}.

Abbreviation message := (RPC FDSAPI_START_SESSION_REQUEST).

Definition set_SessionId (v : Z) (r : message) : message :=
  let b := rpc_data r in set_data (mk v (User b) (Domain b) (Password b)) r.
Definition set_User (v : option (list Z)) (r : message) : message :=
  let b := rpc_data r in set_data (mk (SessionId b) v (Domain b) (Password b)) r.
Definition set_Domain (v : option (list Z)) (r : message) : message :=
  let b := rpc_data r in set_data (mk (SessionId b) (User b) v (Password b)) r.
Definition set_Password (v : option (list Z)) (r : message) : message :=
  let b := rpc_data r in set_data (mk (SessionId b) (User b) (Domain b) v) r.

Definition freerds_pack_start_session_request {W : WStream} (r : message) (s : option wStream) : option wStream :=
  pack_message (fun pk =>
    msgpack_pack_array pk 4 ≫= fun _ =>
    msgpack_pack_uint32 pk (SessionId (rpc_data r)) ≫= fun _ =>
    msgpack_pack_cstr pk (User (rpc_data r)) ≫= fun _ =>
    msgpack_pack_cstr pk (Domain (rpc_data r)) ≫= fun _ =>
    msgpack_pack_cstr pk (Password (rpc_data r))) s.

Definition freerds_unpack_start_session_request (r : message) (buffer : list Z) : option (bool * message) :=
  unpack_message 4 [
    unpack_field msgpack_unpack_uint32 set_SessionId;
    unpack_field msgpack_unpack_cstr set_User;
    unpack_field msgpack_unpack_cstr set_Domain;
    unpack_field msgpack_unpack_cstr set_Password] r buffer.

(** The pointers that are freed. *)
Definition freerds_free_start_session_request (r : message) : list (option (list Z)) :=
  [User (rpc_data r); Domain (rpc_data r); Password (rpc_data r)].
End StartSessionRequest.

Module StartSessionResponse.
Record FDSAPI_START_SESSION_RESPONSE := mk {
  ServiceEndpoint : option (list Z)  (* char* *)
}.

Abbreviation message := (RPC FDSAPI_START_SESSION_RESPONSE).

Definition set_ServiceEndpoint (v : option (list Z)) (r : message) : message :=
  let b := rpc_data r in set_data (mk v) r.

Definition freerds_pack_start_session_response {W : WStream} (r : message) (s : option wStream) : option wStream :=
  pack_message (fun pk =>
    msgpack_pack_array pk 2 ≫= fun _ =>
    msgpack_pack_uint32 pk (status (rpc_header r)) ≫= fun _ =>
    msgpack_pack_cstr pk (ServiceEndpoint (rpc_data r))) s.

Definition freerds_unpack_start_session_response (r : message) (buffer : list Z) : option (bool * message) :=
  unpack_message 2 [
    unpack_field msgpack_unpack_uint32 set_status;
    unpack_field msgpack_unpack_cstr set_ServiceEndpoint] r buffer.

(** The pointers that are freed. *)
Definition freerds_free_start_session_response (r : message) : list (option (list Z)) :=
  [ServiceEndpoint (rpc_data r)].
End StartSessionResponse.

Module EndSessionRequest.
Record FDSAPI_END_SESSION_REQUEST := mk {
  SessionId : Z  (* UINT32 *)
}.

Abbreviation message := (RPC FDSAPI_END_SESSION_REQUEST).

Definition set_SessionId (v : Z) (r : message) : message :=
  let b := rpc_data r in set_data (mk v) r.

Definition freerds_pack_end_session_request {W : WStream} (r : message) (s : option wStream) : option wStream :=
  pack_message (fun pk =>
    msgpack_pack_array pk 1 ≫= fun _ =>
    msgpack_pack_uint32 pk (SessionId (rpc_data r))) s.

Definition freerds_unpack_end_session_request (r : message) (buffer : list Z) : option (bool * message) :=
  unpack_message 1 [
    unpack_field msgpack_unpack_uint32 set_SessionId] r buffer.

(** The pointers that are freed. *)
Definition freerds_free_end_session_request (r : message) : list (option (list Z)) :=
  [].
End EndSessionRequest.

Module EndSessionResponse.
Record FDSAPI_END_SESSION_RESPONSE := mk {
  SessionId : Z  (* UINT32 *)
}.

Abbreviation message := (RPC FDSAPI_END_SESSION_RESPONSE).

Definition set_SessionId (v : Z) (r : message) : message :=
  let b := rpc_data r in set_data (mk v) r.

Definition freerds_pack_end_session_response {W : WStream} (r : message) (s : option wStream) : option wStream :=
  pack_message (fun pk =>
    msgpack_pack_array pk 2 ≫= fun _ =>
    msgpack_pack_uint32 pk (status (rpc_header r)) ≫= fun _ =>
    msgpack_pack_uint32 pk (SessionId (rpc_data r))) s.

Definition freerds_unpack_end_session_response (r : message) (buffer : list Z) : option (bool * message) :=
  unpack_message 2 [
    unpack_field msgpack_unpack_uint32 set_status;
    unpack_field msgpack_unpack_uint32 set_SessionId] r buffer.

(** The pointers that are freed. *)
Definition freerds_free_end_session_response (r : message) : list (option (list Z)) :=
  [].
End EndSessionResponse.

Module ChannelEndpointOpenRequest.
Record FDSAPI_CHANNEL_ENDPOINT_OPEN_REQUEST := mk {
  ConnectionId : Z  (* UINT32 *);
  ChannelName : option (list Z)  (* char* *)
}.

Abbreviation message := (RPC FDSAPI_CHANNEL_ENDPOINT_OPEN_REQUEST).

Definition set_ConnectionId (v : Z) (r : message) : message :=
  let b := rpc_data r in set_data (mk v (ChannelName b)) r.
Definition set_ChannelName (v : option (list Z)) (r : message) : message :=
  let b := rpc_data r in set_data (mk (ConnectionId b) v) r.

Definition freerds_pack_channel_endpoint_open_request {W : WStream} (r : message) (s : option wStream) : option wStream :=
  pack_message (fun pk =>
    msgpack_pack_array pk 2 ≫= fun _ =>
    msgpack_pack_uint32 pk (ConnectionId (rpc_data r)) ≫= fun _ =>
    msgpack_pack_cstr pk (ChannelName (rpc_data r))) s.

Definition freerds_unpack_channel_endpoint_open_request (r : message) (buffer : list Z) : option (bool * message) :=
  unpack_message 2 [
    unpack_field msgpack_unpack_uint32 set_ConnectionId;
    unpack_field msgpack_unpack_cstr set_ChannelName] r buffer.

(** The pointers that are freed. *)
Definition freerds_free_channel_endpoint_open_request (r : message) : list (option (list Z)) :=
  [ChannelName (rpc_data r)].
End ChannelEndpointOpenRequest.

Module ChannelEndpointOpenResponse.
Record FDSAPI_CHANNEL_ENDPOINT_OPEN_RESPONSE := mk {
  ChannelPort : Z  (* UINT32 *);
  ChannelGuid : option (list Z)  (* char* *)
}.

Abbreviation message := (RPC FDSAPI_CHANNEL_ENDPOINT_OPEN_RESPONSE).

Definition set_ChannelPort (v : Z) (r : message) : message :=
  let b := rpc_data r in set_data (mk v (ChannelGuid b)) r.
Definition set_ChannelGuid (v : option (list Z)) (r : message) : message :=
  let b := rpc_data r in set_data (mk (ChannelPort b) v) r.

Definition freerds_pack_channel_endpoint_open_response {W : WStream} (r : message) (s : option wStream) : option wStream :=
  pack_message (fun pk =>
    msgpack_pack_array pk 3 ≫= fun _ =>
    msgpack_pack_uint32 pk (status (rpc_header r)) ≫= fun _ =>
    msgpack_pack_uint32 pk (ChannelPort (rpc_data r)) ≫= fun _ =>
    msgpack_pack_cstr pk (ChannelGuid (rpc_data r))) s.

Definition freerds_unpack_channel_endpoint_open_response (r : message) (buffer : list Z) : option (bool * message) :=
  unpack_message 2 [
    unpack_field msgpack_unpack_uint32 set_status;
    unpack_field msgpack_unpack_uint32 set_ChannelPort;
    unpack_field msgpack_unpack_cstr set_ChannelGuid] r buffer.

(** The pointers that are freed. *)
Definition freerds_free_channel_endpoint_open_response (r : message) : list (option (list Z)) :=
  [ChannelGuid (rpc_data r)].
End ChannelEndpointOpenResponse.
