(* ===== verification/RpcTable.v ===== *)
(** * The RPC message table

    The entries [g_FDSAPI_...] and the table [g_MSG_FUNCS] of freerds/rpc/msg.c
    and the functions of freerds/rpc/pack.c that dispatch through it.

    A [void*] that points to one of the message structs is an [rpc_msg];
    [rpc_body] has one constructor per struct.  Using a struct of another kind
    than the entry expects is undefined ([None]).  [msgSize], a [sizeof] value,
    is left out. *)

From S2P Require Import Prelude WStream Msgpack RpcPack RpcMsg.

(** ** Message types *)

Definition FDSAPI_REQUEST_ID (id : Z) : Z := Z.land id (Z.lnot 0x80000000).
Definition FDSAPI_RESPONSE_ID (id : Z) : Z := Z.lor id 0x80000000.

Definition FDSAPI_CHANNEL_ALLOWED_REQUEST_ID : Z := FDSAPI_REQUEST_ID 1001.
Definition FDSAPI_CHANNEL_ALLOWED_RESPONSE_ID : Z := FDSAPI_RESPONSE_ID 1001.
Definition FDSAPI_HEARTBEAT_REQUEST_ID : Z := FDSAPI_REQUEST_ID 1002.
Definition FDSAPI_HEARTBEAT_RESPONSE_ID : Z := FDSAPI_RESPONSE_ID 1002.
Definition FDSAPI_LOGON_USER_REQUEST_ID : Z := FDSAPI_REQUEST_ID 1003.
Definition FDSAPI_LOGON_USER_RESPONSE_ID : Z := FDSAPI_RESPONSE_ID 1003.
Definition FDSAPI_LOGOFF_USER_REQUEST_ID : Z := FDSAPI_REQUEST_ID 1004.
Definition FDSAPI_LOGOFF_USER_RESPONSE_ID : Z := FDSAPI_RESPONSE_ID 1004.
Definition FDSAPI_DISCONNECT_USER_REQUEST_ID : Z := FDSAPI_REQUEST_ID 1005.
Definition FDSAPI_DISCONNECT_USER_RESPONSE_ID : Z := FDSAPI_RESPONSE_ID 1005.
Definition FDSAPI_SWITCH_SERVICE_ENDPOINT_REQUEST_ID : Z := FDSAPI_REQUEST_ID 1006.
Definition FDSAPI_SWITCH_SERVICE_ENDPOINT_RESPONSE_ID : Z := FDSAPI_RESPONSE_ID 1006.
Definition FDSAPI_START_SESSION_REQUEST_ID : Z := FDSAPI_REQUEST_ID 1007.
Definition FDSAPI_START_SESSION_RESPONSE_ID : Z := FDSAPI_RESPONSE_ID 1007.
Definition FDSAPI_END_SESSION_REQUEST_ID : Z := FDSAPI_REQUEST_ID 1008.
Definition FDSAPI_END_SESSION_RESPONSE_ID : Z := FDSAPI_RESPONSE_ID 1008.
Definition FDSAPI_CHANNEL_ENDPOINT_OPEN_REQUEST_ID : Z := FDSAPI_REQUEST_ID 1009.
Definition FDSAPI_CHANNEL_ENDPOINT_OPEN_RESPONSE_ID : Z := FDSAPI_RESPONSE_ID 1009.

(** ** The structs behind [void*] *)

Inductive rpc_body :=
| rChannelAllowedRequest (b : ChannelAllowedRequest.FDSAPI_CHANNEL_ALLOWED_REQUEST)
| rChannelAllowedResponse (b : ChannelAllowedResponse.FDSAPI_CHANNEL_ALLOWED_RESPONSE)
| rHeartbeatRequest (b : HeartbeatRequest.FDSAPI_HEARTBEAT_REQUEST)
| rHeartbeatResponse (b : HeartbeatResponse.FDSAPI_HEARTBEAT_RESPONSE)
| rLogonUserRequest (b : LogonUserRequest.FDSAPI_LOGON_USER_REQUEST)
| rLogonUserResponse (b : LogonUserResponse.FDSAPI_LOGON_USER_RESPONSE)
| rLogoffUserRequest (b : LogoffUserRequest.FDSAPI_LOGOFF_USER_REQUEST)
| rLogoffUserResponse (b : LogoffUserResponse.FDSAPI_LOGOFF_USER_RESPONSE)
| rDisconnectUserRequest (b : DisconnectUserRequest.FDSAPI_DISCONNECT_USER_REQUEST)
| rDisconnectUserResponse (b : DisconnectUserResponse.FDSAPI_DISCONNECT_USER_RESPONSE)
| rSwitchServiceEndpointRequest (b : SwitchServiceEndpointRequest.FDSAPI_SWITCH_SERVICE_ENDPOINT_REQUEST)
| rSwitchServiceEndpointResponse (b : SwitchServiceEndpointResponse.FDSAPI_SWITCH_SERVICE_ENDPOINT_RESPONSE)
| rStartSessionRequest (b : StartSessionRequest.FDSAPI_START_SESSION_REQUEST)
| rStartSessionResponse (b : StartSessionResponse.FDSAPI_START_SESSION_RESPONSE)
| rEndSessionRequest (b : EndSessionRequest.FDSAPI_END_SESSION_REQUEST)
| rEndSessionResponse (b : EndSessionResponse.FDSAPI_END_SESSION_RESPONSE)
| rChannelEndpointOpenRequest (b : ChannelEndpointOpenRequest.FDSAPI_CHANNEL_ENDPOINT_OPEN_REQUEST)
| rChannelEndpointOpenResponse (b : ChannelEndpointOpenResponse.FDSAPI_CHANNEL_ENDPOINT_OPEN_RESPONSE).

Abbreviation rpc_msg := (RPC rpc_body).

Class RpcView (B : Type) := {
  rinj : B -> rpc_body;
  rproj : rpc_body -> option B;
  rproj_rinj b : rproj (rinj b) = Some b;
}.

#[global] Instance rpc_view_channel_allowed_request : RpcView ChannelAllowedRequest.FDSAPI_CHANNEL_ALLOWED_REQUEST :=
  {| rinj := rChannelAllowedRequest; rproj m := match m with rChannelAllowedRequest b => Some b | _ => None end;
     rproj_rinj b := eq_refl |}.
#[global] Instance rpc_view_channel_allowed_response : RpcView ChannelAllowedResponse.FDSAPI_CHANNEL_ALLOWED_RESPONSE :=
  {| rinj := rChannelAllowedResponse; rproj m := match m with rChannelAllowedResponse b => Some b | _ => None end;
     rproj_rinj b := eq_refl |}.
#[global] Instance rpc_view_heartbeat_request : RpcView HeartbeatRequest.FDSAPI_HEARTBEAT_REQUEST :=
  {| rinj := rHeartbeatRequest; rproj m := match m with rHeartbeatRequest b => Some b | _ => None end;
     rproj_rinj b := eq_refl |}.
#[global] Instance rpc_view_heartbeat_response : RpcView HeartbeatResponse.FDSAPI_HEARTBEAT_RESPONSE :=
  {| rinj := rHeartbeatResponse; rproj m := match m with rHeartbeatResponse b => Some b | _ => None end;
     rproj_rinj b := eq_refl |}.
#[global] Instance rpc_view_logon_user_request : RpcView LogonUserRequest.FDSAPI_LOGON_USER_REQUEST :=
  {| rinj := rLogonUserRequest; rproj m := match m with rLogonUserRequest b => Some b | _ => None end;
     rproj_rinj b := eq_refl |}.
#[global] Instance rpc_view_logon_user_response : RpcView LogonUserResponse.FDSAPI_LOGON_USER_RESPONSE :=
  {| rinj := rLogonUserResponse; rproj m := match m with rLogonUserResponse b => Some b | _ => None end;
     rproj_rinj b := eq_refl |}.
#[global] Instance rpc_view_logoff_user_request : RpcView LogoffUserRequest.FDSAPI_LOGOFF_USER_REQUEST :=
  {| rinj := rLogoffUserRequest; rproj m := match m with rLogoffUserRequest b => Some b | _ => None end;
     rproj_rinj b := eq_refl |}.
#[global] Instance rpc_view_logoff_user_response : RpcView LogoffUserResponse.FDSAPI_LOGOFF_USER_RESPONSE :=
  {| rinj := rLogoffUserResponse; rproj m := match m with rLogoffUserResponse b => Some b | _ => None end;
     rproj_rinj b := eq_refl |}.
#[global] Instance rpc_view_disconnect_user_request : RpcView DisconnectUserRequest.FDSAPI_DISCONNECT_USER_REQUEST :=
  {| rinj := rDisconnectUserRequest; rproj m := match m with rDisconnectUserRequest b => Some b | _ => None end;
     rproj_rinj b := eq_refl |}.
#[global] Instance rpc_view_disconnect_user_response : RpcView DisconnectUserResponse.FDSAPI_DISCONNECT_USER_RESPONSE :=
  {| rinj := rDisconnectUserResponse; rproj m := match m with rDisconnectUserResponse b => Some b | _ => None end;
     rproj_rinj b := eq_refl |}.
#[global] Instance rpc_view_switch_service_endpoint_request : RpcView SwitchServiceEndpointRequest.FDSAPI_SWITCH_SERVICE_ENDPOINT_REQUEST :=
  {| rinj := rSwitchServiceEndpointRequest; rproj m := match m with rSwitchServiceEndpointRequest b => Some b | _ => None end;
     rproj_rinj b := eq_refl |}.
#[global] Instance rpc_view_switch_service_endpoint_response : RpcView SwitchServiceEndpointResponse.FDSAPI_SWITCH_SERVICE_ENDPOINT_RESPONSE :=
  {| rinj := rSwitchServiceEndpointResponse; rproj m := match m with rSwitchServiceEndpointResponse b => Some b | _ => None end;
     rproj_rinj b := eq_refl |}.
#[global] Instance rpc_view_start_session_request : RpcView StartSessionRequest.FDSAPI_START_SESSION_REQUEST :=
  {| rinj := rStartSessionRequest; rproj m := match m with rStartSessionRequest b => Some b | _ => None end;
     rproj_rinj b := eq_refl |}.
#[global] Instance rpc_view_start_session_response : RpcView StartSessionResponse.FDSAPI_START_SESSION_RESPONSE :=
  {| rinj := rStartSessionResponse; rproj m := match m with rStartSessionResponse b => Some b | _ => None end;
     rproj_rinj b := eq_refl |}.
#[global] Instance rpc_view_end_session_request : RpcView EndSessionRequest.FDSAPI_END_SESSION_REQUEST :=
  {| rinj := rEndSessionRequest; rproj m := match m with rEndSessionRequest b => Some b | _ => None end;
     rproj_rinj b := eq_refl |}.
#[global] Instance rpc_view_end_session_response : RpcView EndSessionResponse.FDSAPI_END_SESSION_RESPONSE :=
  {| rinj := rEndSessionResponse; rproj m := match m with rEndSessionResponse b => Some b | _ => None end;
     rproj_rinj b := eq_refl |}.
#[global] Instance rpc_view_channel_endpoint_open_request : RpcView ChannelEndpointOpenRequest.FDSAPI_CHANNEL_ENDPOINT_OPEN_REQUEST :=
  {| rinj := rChannelEndpointOpenRequest; rproj m := match m with rChannelEndpointOpenRequest b => Some b | _ => None end;
     rproj_rinj b := eq_refl |}.
#[global] Instance rpc_view_channel_endpoint_open_response : RpcView ChannelEndpointOpenResponse.FDSAPI_CHANNEL_ENDPOINT_OPEN_RESPONSE :=
  {| rinj := rChannelEndpointOpenResponse; rproj m := match m with rChannelEndpointOpenResponse b => Some b | _ => None end;
     rproj_rinj b := eq_refl |}.

Section Table.
Context {W : WStream}.

Record RDS_RPC_PACK_FUNC := mk_func {
  func_msgType : Z;
  Pack : rpc_msg -> option wStream -> option wStream;
  Unpack : rpc_msg -> list Z -> option (bool * rpc_msg);
  Free : rpc_msg -> option (list (option (list Z)));
}.

(** The casts [(pRdsRpcPack) f], [(pRdsRpcUnpack) f], [(pRdsRpcFree) f]. *)
Definition cast_pack {B} `{RpcView B} (f : RPC B -> option wStream -> option wStream)
    (data : rpc_msg) (s : option wStream) : option wStream :=
  b ← rproj (rpc_data data); f (Rpc (rpc_header data) b) s.

Definition cast_unpack {B} `{RpcView B} (f : RPC B -> list Z -> option (bool * RPC B))
    (data : rpc_msg) (buffer : list Z) : option (bool * rpc_msg) :=
  b ← rproj (rpc_data data);
  '(ok, r) ← f (Rpc (rpc_header data) b) buffer;
  Some (ok, Rpc (rpc_header r) (rinj (rpc_data r))).

Definition cast_rpc_free {B} `{RpcView B} (f : RPC B -> list (option (list Z))) (data : rpc_msg) :
    option (list (option (list Z))) :=
  b ← rproj (rpc_data data); Some (f (Rpc (rpc_header data) b)).

Definition g_FDSAPI_CHANNEL_ALLOWED_REQUEST : RDS_RPC_PACK_FUNC :=
  mk_func FDSAPI_CHANNEL_ALLOWED_REQUEST_ID
    (cast_pack ChannelAllowedRequest.freerds_pack_channel_allowed_request)
    (cast_unpack ChannelAllowedRequest.freerds_unpack_channel_allowed_request)
    (cast_rpc_free ChannelAllowedRequest.freerds_free_channel_allowed_request).

Definition g_FDSAPI_CHANNEL_ALLOWED_RESPONSE : RDS_RPC_PACK_FUNC :=
  mk_func FDSAPI_CHANNEL_ALLOWED_RESPONSE_ID
    (cast_pack ChannelAllowedResponse.freerds_pack_channel_allowed_response)
    (cast_unpack ChannelAllowedResponse.freerds_unpack_channel_allowed_response)
    (cast_rpc_free ChannelAllowedResponse.freerds_free_channel_allowed_response).

Definition g_FDSAPI_HEARTBEAT_REQUEST : RDS_RPC_PACK_FUNC :=
  mk_func FDSAPI_HEARTBEAT_REQUEST_ID
    (cast_pack HeartbeatRequest.freerds_pack_heartbeat_request)
    (cast_unpack HeartbeatRequest.freerds_unpack_heartbeat_request)
    (cast_rpc_free HeartbeatRequest.freerds_free_heartbeat_request).

Definition g_FDSAPI_HEARTBEAT_RESPONSE : RDS_RPC_PACK_FUNC :=
  mk_func FDSAPI_HEARTBEAT_RESPONSE_ID
    (cast_pack HeartbeatResponse.freerds_pack_heartbeat_response)
    (cast_unpack HeartbeatResponse.freerds_unpack_heartbeat_response)
    (cast_rpc_free HeartbeatResponse.freerds_free_heartbeat_response).

Definition g_FDSAPI_LOGON_USER_REQUEST : RDS_RPC_PACK_FUNC :=
  mk_func FDSAPI_LOGON_USER_REQUEST_ID
    (cast_pack LogonUserRequest.freerds_pack_logon_user_request)
    (cast_unpack LogonUserRequest.freerds_unpack_logon_user_request)
    (cast_rpc_free LogonUserRequest.freerds_free_logon_user_request).

Definition g_FDSAPI_LOGON_USER_RESPONSE : RDS_RPC_PACK_FUNC :=
  mk_func FDSAPI_LOGON_USER_RESPONSE_ID
    (cast_pack LogonUserResponse.freerds_pack_logon_user_response)
    (cast_unpack LogonUserResponse.freerds_unpack_logon_user_response)
    (cast_rpc_free LogonUserResponse.freerds_free_logon_user_response).

Definition g_FDSAPI_LOGOFF_USER_REQUEST : RDS_RPC_PACK_FUNC :=
  mk_func FDSAPI_LOGOFF_USER_REQUEST_ID
    (cast_pack LogoffUserRequest.freerds_pack_logoff_user_request)
    (cast_unpack LogoffUserRequest.freerds_unpack_logoff_user_request)
    (cast_rpc_free LogoffUserRequest.freerds_free_logoff_user_request).

Definition g_FDSAPI_LOGOFF_USER_RESPONSE : RDS_RPC_PACK_FUNC :=
  mk_func FDSAPI_LOGOFF_USER_RESPONSE_ID
    (cast_pack LogoffUserResponse.freerds_pack_logoff_user_response)
    (cast_unpack LogoffUserResponse.freerds_unpack_logoff_user_response)
    (cast_rpc_free LogoffUserResponse.freerds_free_logoff_user_response).

Definition g_FDSAPI_DISCONNECT_USER_REQUEST : RDS_RPC_PACK_FUNC :=
  mk_func FDSAPI_DISCONNECT_USER_REQUEST_ID
    (cast_pack DisconnectUserRequest.freerds_pack_disconnect_user_request)
    (cast_unpack DisconnectUserRequest.freerds_unpack_disconnect_user_request)
    (cast_rpc_free DisconnectUserRequest.freerds_free_disconnect_user_request).

Definition g_FDSAPI_DISCONNECT_USER_RESPONSE : RDS_RPC_PACK_FUNC :=
  mk_func FDSAPI_DISCONNECT_USER_RESPONSE_ID
    (cast_pack DisconnectUserResponse.freerds_pack_disconnect_user_response)
    (cast_unpack DisconnectUserResponse.freerds_unpack_disconnect_user_response)
    (cast_rpc_free DisconnectUserResponse.freerds_free_disconnect_user_response).

Definition g_FDSAPI_SWITCH_SERVICE_ENDPOINT_REQUEST : RDS_RPC_PACK_FUNC :=
  mk_func FDSAPI_SWITCH_SERVICE_ENDPOINT_REQUEST_ID
    (cast_pack SwitchServiceEndpointRequest.freerds_pack_switch_service_endpoint_request)
    (cast_unpack SwitchServiceEndpointRequest.freerds_unpack_switch_service_endpoint_request)
    (cast_rpc_free SwitchServiceEndpointRequest.freerds_free_switch_service_endpoint_request).

Definition g_FDSAPI_SWITCH_SERVICE_ENDPOINT_RESPONSE : RDS_RPC_PACK_FUNC :=
  mk_func FDSAPI_SWITCH_SERVICE_ENDPOINT_RESPONSE_ID
    (cast_pack SwitchServiceEndpointResponse.freerds_pack_switch_service_endpoint_response)
    (cast_unpack SwitchServiceEndpointResponse.freerds_unpack_switch_service_endpoint_response)
    (cast_rpc_free SwitchServiceEndpointResponse.freerds_free_switch_service_endpoint_response).

Definition g_FDSAPI_START_SESSION_REQUEST : RDS_RPC_PACK_FUNC :=
  mk_func FDSAPI_START_SESSION_REQUEST_ID
    (cast_pack StartSessionRequest.freerds_pack_start_session_request)
    (cast_unpack StartSessionRequest.freerds_unpack_start_session_request)
    (cast_rpc_free StartSessionRequest.freerds_free_start_session_request).

Definition g_FDSAPI_START_SESSION_RESPONSE : RDS_RPC_PACK_FUNC :=
  mk_func FDSAPI_START_SESSION_RESPONSE_ID
    (cast_pack StartSessionResponse.freerds_pack_start_session_response)
    (cast_unpack StartSessionResponse.freerds_unpack_start_session_response)
    (cast_rpc_free StartSessionResponse.freerds_free_start_session_response).

Definition g_FDSAPI_END_SESSION_REQUEST : RDS_RPC_PACK_FUNC :=
  mk_func FDSAPI_END_SESSION_REQUEST_ID
    (cast_pack EndSessionRequest.freerds_pack_end_session_request)
    (cast_unpack EndSessionRequest.freerds_unpack_end_session_request)
    (cast_rpc_free EndSessionRequest.freerds_free_end_session_request).

Definition g_FDSAPI_END_SESSION_RESPONSE : RDS_RPC_PACK_FUNC :=
  mk_func FDSAPI_END_SESSION_RESPONSE_ID
    (cast_pack EndSessionResponse.freerds_pack_end_session_response)
    (cast_unpack EndSessionResponse.freerds_unpack_end_session_response)
    (cast_rpc_free EndSessionResponse.freerds_free_end_session_response).

Definition g_FDSAPI_CHANNEL_ENDPOINT_OPEN_REQUEST : RDS_RPC_PACK_FUNC :=
  mk_func FDSAPI_CHANNEL_ENDPOINT_OPEN_REQUEST_ID
    (cast_pack ChannelEndpointOpenRequest.freerds_pack_channel_endpoint_open_request)
    (cast_unpack ChannelEndpointOpenRequest.freerds_unpack_channel_endpoint_open_request)
    (cast_rpc_free ChannelEndpointOpenRequest.freerds_free_channel_endpoint_open_request).

Definition g_FDSAPI_CHANNEL_ENDPOINT_OPEN_RESPONSE : RDS_RPC_PACK_FUNC :=
  mk_func FDSAPI_CHANNEL_ENDPOINT_OPEN_RESPONSE_ID
    (cast_pack ChannelEndpointOpenResponse.freerds_pack_channel_endpoint_open_response)
    (cast_unpack ChannelEndpointOpenResponse.freerds_unpack_channel_endpoint_open_response)
    (cast_rpc_free ChannelEndpointOpenResponse.freerds_free_channel_endpoint_open_response).

(** [None] is the [NULL] at the end. *)
Definition g_MSG_FUNCS : list (option RDS_RPC_PACK_FUNC) := [
  Some g_FDSAPI_CHANNEL_ALLOWED_REQUEST;
  Some g_FDSAPI_CHANNEL_ALLOWED_RESPONSE;
  Some g_FDSAPI_HEARTBEAT_REQUEST;
  Some g_FDSAPI_HEARTBEAT_RESPONSE;
  Some g_FDSAPI_LOGON_USER_REQUEST;
  Some g_FDSAPI_LOGOFF_USER_REQUEST;
  Some g_FDSAPI_LOGOFF_USER_RESPONSE;
  Some g_FDSAPI_DISCONNECT_USER_REQUEST;
  Some g_FDSAPI_DISCONNECT_USER_RESPONSE;
  Some g_FDSAPI_SWITCH_SERVICE_ENDPOINT_REQUEST;
  Some g_FDSAPI_SWITCH_SERVICE_ENDPOINT_RESPONSE;
  Some g_FDSAPI_LOGON_USER_RESPONSE;
  Some g_FDSAPI_START_SESSION_REQUEST;
  Some g_FDSAPI_START_SESSION_RESPONSE;
  Some g_FDSAPI_END_SESSION_REQUEST;
  Some g_FDSAPI_END_SESSION_RESPONSE;
  Some g_FDSAPI_CHANNEL_ENDPOINT_OPEN_REQUEST;
  Some g_FDSAPI_CHANNEL_ENDPOINT_OPEN_RESPONSE;
  None].

(** The loop [while (func[index])]; running off the end of the array is
    undefined. *)
Fixpoint find_func (func : list (option RDS_RPC_PACK_FUNC)) (msgType : Z) :
    option (option RDS_RPC_PACK_FUNC) :=
  match func with
  | [] => None
  | None :: _ => Some None
  | Some f :: func => if msgType =? func_msgType f then Some (Some f) else find_func func msgType
  end.

Definition freerds_rpc_msg_find_func (msgType : Z) : option (option RDS_RPC_PACK_FUNC) :=
  find_func g_MSG_FUNCS msgType.

(** The result is [None] inside for [NULL]. *)
Definition freerds_rpc_msg_pack (type : Z) (data : option rpc_msg) (s : option wStream) :
    option (option wStream) :=
  match data with
  | None => Some None
  | Some data =>
      func ← freerds_rpc_msg_find_func type;
      match func with
      | None => Some None
      | Some func => s ← Pack func data s; Some (Some s)
      end
  end.

(** [size] is the length of [buffer]; the result includes the struct behind
    [data]. *)
Definition freerds_rpc_msg_unpack (type : Z) (data : option rpc_msg) (buffer : list Z) :
    option (bool * option rpc_msg) :=
  match data with
  | None => Some (false, None)
  | Some d =>
      func ← freerds_rpc_msg_find_func type;
      match func with
      | None => Some (false, data)
      | Some func => '(ok, d) ← Unpack func d buffer; Some (ok, Some d)
      end
  end.

(** The pointers passed to [free]. *)
Definition freerds_rpc_msg_free (type : Z) (data : option rpc_msg) :
    option (list (option (list Z))) :=
  match data with
  | None => Some []
  | Some data =>
      func ← freerds_rpc_msg_find_func type;
      match func with
      | None => Some []
      | Some func => Free func data
      end
  end.
End Table.
