(* ===== verification/RpcFacts.v ===== *)
(** * What the RPC messages guarantee

    Packing produces the msgpack array of the fields of a message, unpacking it
    recovers the message, and unpacking is defined on arbitrary bytes. *)

From S2P Require Import Prelude WStream VarMsg SessionMsg Msgpack MsgpackFacts RpcPack RpcMsg RpcTable.
Import LogonUser(text, ok_string, recv_string, text_bound).

(** ** Values *)

Section Values.
Context {W : WStream} {L : WStreamLaws W}.
Abbreviation pk := msgpack_stream_packer_init.

Lemma appends_stream bs : appends (msgpack_stream_write bs) bs 0.
Proof.
  intros s buf pos Hs Hp. unfold msgpack_stream_write.
  destruct (ensure_full s buf pos (Z.of_nat (length bs)) Hs Hp) as (buf' & Hs' & Ht & Hl); [lia|].
  destruct (write_spec _ _ _ _ bs Hs') as (s2 & E & H2); [lia|].
  rewrite E. cbn [mbind option_bind]. exists s2, (splice pos bs buf').
  rewrite length_splice, take_splice_end by lia. split; [done|]. split; [done|]. split; [lia|].
  f_equal. transitivity (take pos (take (length buf) buf')); [|by rewrite Ht].
  rewrite take_take. f_equal. lia.
Qed.

Lemma packs_uint32 d : is_u32 d ->
  appends (msgpack_pack_uint32 pk d) (wire_scalar (MSGPACK_OBJECT_POSITIVE_INTEGER d)) 0.
Proof. apply appends_uint32, appends_stream. Qed.

Lemma packs_cstr p : ok_string p ->
  appends (msgpack_pack_cstr pk p) (wire_scalar (MSGPACK_OBJECT_RAW (text p))) 0.
Proof.
  intros Hp. pose proof (text_bound p Hp) as Hb. cbn [wire_scalar].
  unfold wire_raw. destruct p as [bs|]; cbn [ok_string text msgpack_pack_cstr] in *.
  - destruct (strlen bs) as [n|] eqn:E; [|done]. cbn [default from_option] in *.
    unfold id in *. apply strlen_lt in E. rewrite length_take, Nat.min_l in * by lia.
    eapply appends_bind; [apply (appends_raw pk appends_stream); lia|].
    rewrite <-(app_nil_r (take n bs)). eapply appends_bind; [|apply appends_ret].
    rewrite <-(Nat2Z.id n) at 2. apply (appends_raw_body pk appends_stream). lia.
  - eapply appends_bind; [apply (appends_raw pk appends_stream); lia|].
    rewrite <-(app_nil_r []). eapply appends_bind; [|apply appends_ret].
    apply (appends_raw_null pk appends_stream).
Qed.

Lemma packs_bool b :
  appends (msgpack_pack_bool pk b) (wire_scalar (MSGPACK_OBJECT_BOOLEAN (negb (b =? 0)))) 0.
Proof.
  unfold msgpack_pack_bool. rewrite <-(app_nil_r (wire_scalar _)).
  eapply appends_bind; [|apply appends_ret]. destruct (b =? 0); apply appends_stream.
Qed.

Lemma packs_array (os : list msgpack_object) (m : SM Z) n :
  n = Z.of_nat (length os) -> (length os < 16)%nat -> appends m (concat (wire_scalar <$> os)) 0 ->
  appends (msgpack_pack_array pk n ≫= fun _ => m) (wire_array os) 0.
Proof.
  intros -> Hl Hm. unfold wire_array.
  change (?b :: ?l) with ([b] ++ l). eapply appends_bind; [|exact Hm].
  apply appends_array; [apply appends_stream|lia].
Qed.

Lemma packs_last (m : SM Z) o :
  appends m (wire_scalar o) 0 -> appends m (concat (wire_scalar <$> [o])) 0.
Proof. cbn [fmap list_fmap concat]. by rewrite app_nil_r. Qed.

Lemma packs_next (m m' : SM Z) o os :
  appends m (wire_scalar o) 0 -> appends m' (concat (wire_scalar <$> os)) 0 ->
  appends (m ≫= fun _ => m') (concat (wire_scalar <$> o :: os)) 0.
Proof. intros Hm Hm'. cbn [fmap list_fmap concat]. by eapply appends_bind. Qed.

(** A stream as [STREAM_PACK_PREPARE] accepts it: [NULL], or empty. *)
Definition fresh (s : option wStream) : Prop :=
  match s with None => True | Some s => exists buf, rep s buf 0 (length buf) end.

(** The packed bytes, from the start to the length of the stream. *)
Definition sealed (s : wStream) (bs : list Z) : Prop :=
  exists buf, rep s buf 0 (length bs) /\ take (length bs) buf = bs.

Lemma pack_message_spec {A} (m : msgpack_packer -> SM A) bs a s :
  fresh s -> appends (m pk) bs a -> exists s', pack_message m s = Some s' /\ sealed s' bs.
Proof.
  intros Hf Hm. unfold pack_message.
  assert (exists buf, rep (match s with Some s => s | None => Stream_New 512 end) buf 0 (length buf))
    as [buf Hr].
  { destruct s as [s|]; [exact Hf|]. destruct (new_spec 512) as (buf & Hr & El).
    exists buf. by rewrite El. }
  destruct (Hm _ _ _ Hr ltac:(lia)) as (s1 & buf1 & -> & Hr1 & Hl & Ht). cbn [mbind option_bind].
  eexists. split; [done|]. exists buf1. cbn [Nat.add] in *.
  split; [|done]. eapply setpos_spec; [by eapply seal_spec|lia].
Qed.
End Values.

Lemma unpacks_cstr p : msgpack_unpack_cstr (MSGPACK_OBJECT_RAW (text p)) = Some (recv_string p).
Proof.
  unfold msgpack_unpack_cstr, recv_string. destruct (text p); [done|].
  destruct (Z.ltb_spec (Z.of_nat (length (z :: l))) 1); [simpl in *; lia|done].
Qed.

(** ** Unpacking *)

(** A step reads one element. *)
Definition field_step {B} (step : unpack_step B) : Prop :=
  forall o obj r, exists ok r', step (o :: obj) r = Some (ok, obj, r').

Lemma unpack_field_step {A B} (f : msgpack_object -> option A) (g : A -> RPC B -> RPC B) :
  field_step (unpack_field f g).
Proof. intros o obj r. unfold unpack_field. destruct (f o); by eexists _, _. Qed.

Lemma unpack_fields_total {B} (steps : list (unpack_step B)) obj r :
  Forall field_step steps -> (length steps <= length obj)%nat ->
  exists ok r', unpack_fields steps obj r = Some (ok, r').
Proof.
  intros Hs. revert obj r. induction Hs as [|step steps Hstep _ IH]; intros obj r Hl.
  { by eexists _, _. }
  destruct obj as [|o obj]; [simpl in Hl; lia|]. cbn [unpack_fields].
  destruct (Hstep o obj r) as (ok & r' & ->). cbn [mbind option_bind].
  destruct ok; [|by eexists _, _]. apply IH. simpl in Hl. lia.
Qed.

Lemma unpack_message_total {B} min (steps : list (unpack_step B)) r buffer :
  Forall field_step steps -> Z.of_nat (length steps) <= min -> Forall is_u8 buffer ->
  exists ok r', unpack_message min steps r buffer = Some (ok, r').
Proof.
  intros Hs Hm Hb. unfold unpack_message.
  destruct (unpack_next_total buffer Hb) as [[root|] ->]; cbn [mbind option_bind]; [|by eexists _, _].
  destruct root as [| | | | | |l|]; try (by eexists _, _). cbn [msgpack_unpack_array_min].
  destruct (Z.ltb_spec (Z.of_nat (length l)) min); [by eexists _, _|].
  apply unpack_fields_total; [done|lia].
Qed.

Lemma unpack_message_spec {B} min (steps : list (unpack_step B)) r r' os rest :
  Forall ok_scalar os -> (length os < 16)%nat -> min <= Z.of_nat (length os) ->
  unpack_fields steps os r = Some (true, r') ->
  unpack_message min steps r (wire_array os ++ rest) = Some (true, r').
Proof.
  intros Hok Hl Hm E. unfold unpack_message.
  rewrite (unpack_next_array _ os rest) by done. cbn [mbind option_bind msgpack_unpack_array_min].
  destruct (Z.ltb_spec (Z.of_nat (length os)) min); [lia|done].
Qed.

(** What an unpack function expects of an element of the array. *)
Inductive field_kind := f_uint | f_bool | f_string.

Definition has_kind (k : field_kind) (o : msgpack_object) : bool :=
  match k, o with
  | f_uint, MSGPACK_OBJECT_POSITIVE_INTEGER _ | f_bool, MSGPACK_OBJECT_BOOLEAN _ | f_string, MSGPACK_OBJECT_RAW _ => true
  | _, _ => false
  end.

(** The array starts with elements of the given kinds. *)
Fixpoint fits (ks : list field_kind) (os : list msgpack_object) : bool :=
  match ks, os with
  | [], _ => true
  | k :: ks, o :: os => has_kind k o && fits ks os
  | _ :: _, [] => false
  end.

Lemma fits_length ks os : fits ks os = true -> (length ks <= length os)%nat.
Proof.
  revert os. induction ks as [|k ks IH]; intros os; [cbn; lia|]. destruct os as [|o os]; [done|]. cbn.
  intros [_ H%IH]%andb_true_iff. lia.
Qed.

(** An object that an unpack function accepts. *)
Definition acceptable (ks : list field_kind) (root : option msgpack_object) : bool :=
  match root with Some (MSGPACK_OBJECT_ARRAY os) => fits ks os | _ => false end.

Definition step_kind {B} (k : field_kind) (step : unpack_step B) : Prop :=
  forall o obj r, exists r', step (o :: obj) r = Some (has_kind k o, obj, r').

Lemma step_uint {B} (g : Z -> RPC B -> RPC B) : step_kind f_uint (unpack_field msgpack_unpack_uint32 g).
Proof. intros o obj r. unfold unpack_field. destruct o; by eexists. Qed.
Lemma step_bool {B} (g : Z -> RPC B -> RPC B) : step_kind f_bool (unpack_field msgpack_unpack_bool g).
Proof. intros o obj r. unfold unpack_field. destruct o; by eexists. Qed.
Lemma step_string {B} (g : option (list Z) -> RPC B -> RPC B) : step_kind f_string (unpack_field msgpack_unpack_cstr g).
Proof.
  intros o obj r. unfold unpack_field. destruct o as [| | | | |l| |]; try by eexists. cbn. destruct (Z.of_nat (length l) <? 1); by eexists.
Qed.

Lemma unpack_fields_fits {B} ks (steps : list (unpack_step B)) obj r :
  Forall2 step_kind ks steps -> (length ks <= length obj)%nat ->
  exists r', unpack_fields steps obj r = Some (fits ks obj, r').
Proof.
  intros Hs. revert obj r. induction Hs as [|k step ks steps Hk _ IH]; intros obj r Hl; [by eexists|].
  destruct obj as [|o obj]; [cbn in Hl; lia|]. cbn [unpack_fields fits]. destruct (Hk o obj r) as [r' ->]. cbn [mbind option_bind].
  destruct (has_kind k o); [|by eexists]. apply IH. cbn in Hl. lia.
Qed.

Lemma unpack_message_fits {B} ks (steps : list (unpack_step B)) r buffer root :
  Forall2 step_kind ks steps -> msgpack_unpack_next buffer = Some root ->
  exists r', unpack_message (Z.of_nat (length ks)) steps r buffer = Some (acceptable ks root, r').
Proof.
  intros Hs Hr. unfold unpack_message. rewrite Hr. cbn [mbind option_bind].
  destruct root as [[| | | | | |l|]|]; try by eexists. cbn [msgpack_unpack_array_min acceptable].
  destruct (Z.ltb_spec (Z.of_nat (length l)) (Z.of_nat (length ks))) as [Hl|Hl].
  - exists r. destruct (fits ks l) eqn:E; [|done]. apply fits_length in E. lia.
  - apply unpack_fields_fits; [done|lia].
Qed.

(** ** The messages *)

(** The type that belongs to a struct. *)
Definition rpc_type (b : rpc_body) : Z :=
  match b with
  | rChannelAllowedRequest _ => FDSAPI_CHANNEL_ALLOWED_REQUEST_ID
  | rChannelAllowedResponse _ => FDSAPI_CHANNEL_ALLOWED_RESPONSE_ID
  | rHeartbeatRequest _ => FDSAPI_HEARTBEAT_REQUEST_ID
  | rHeartbeatResponse _ => FDSAPI_HEARTBEAT_RESPONSE_ID
  | rLogonUserRequest _ => FDSAPI_LOGON_USER_REQUEST_ID
  | rLogonUserResponse _ => FDSAPI_LOGON_USER_RESPONSE_ID
  | rLogoffUserRequest _ => FDSAPI_LOGOFF_USER_REQUEST_ID
  | rLogoffUserResponse _ => FDSAPI_LOGOFF_USER_RESPONSE_ID
  | rDisconnectUserRequest _ => FDSAPI_DISCONNECT_USER_REQUEST_ID
  | rDisconnectUserResponse _ => FDSAPI_DISCONNECT_USER_RESPONSE_ID
  | rSwitchServiceEndpointRequest _ => FDSAPI_SWITCH_SERVICE_ENDPOINT_REQUEST_ID
  | rSwitchServiceEndpointResponse _ => FDSAPI_SWITCH_SERVICE_ENDPOINT_RESPONSE_ID
  | rStartSessionRequest _ => FDSAPI_START_SESSION_REQUEST_ID
  | rStartSessionResponse _ => FDSAPI_START_SESSION_RESPONSE_ID
  | rEndSessionRequest _ => FDSAPI_END_SESSION_REQUEST_ID
  | rEndSessionResponse _ => FDSAPI_END_SESSION_RESPONSE_ID
  | rChannelEndpointOpenRequest _ => FDSAPI_CHANNEL_ENDPOINT_OPEN_REQUEST_ID
  | rChannelEndpointOpenResponse _ => FDSAPI_CHANNEL_ENDPOINT_OPEN_RESPONSE_ID
  end.

(** The fields that a message has on the wire. *)
Definition rpc_fields (b : rpc_body) : list field_kind :=
  match b with
  | rChannelAllowedRequest _ => [f_string]
  | rChannelAllowedResponse _ => [f_uint; f_bool]
  | rHeartbeatRequest _ | rLogoffUserRequest _ | rDisconnectUserRequest _ | rSwitchServiceEndpointResponse _ | rEndSessionRequest _ => [f_uint]
  | rHeartbeatResponse _ | rLogoffUserResponse _ | rDisconnectUserResponse _ | rEndSessionResponse _ => [f_uint; f_uint]
  | rLogonUserRequest _ =>
      [f_uint; f_string; f_string; f_string; f_uint; f_uint; f_uint; f_string; f_string; f_uint; f_uint; f_uint; f_uint]
  | rLogonUserResponse _ | rSwitchServiceEndpointRequest _ | rStartSessionResponse _ | rChannelEndpointOpenRequest _ => [f_uint; f_string]
  | rStartSessionRequest _ => [f_uint; f_string; f_string; f_string]
  | rChannelEndpointOpenResponse _ => [f_uint; f_uint; f_string]
  end.

(** The elements of the packed array. *)
Definition rpc_objects (r : rpc_msg) : list msgpack_object :=
  let h := rpc_header r in
  match rpc_data r with
  | rChannelAllowedRequest b =>
    [MSGPACK_OBJECT_RAW (text (ChannelAllowedRequest.ChannelName b))]
  | rChannelAllowedResponse b =>
    [MSGPACK_OBJECT_POSITIVE_INTEGER (status h); MSGPACK_OBJECT_BOOLEAN (negb
      (ChannelAllowedResponse.ChannelAllowed b =? 0))]
  | rHeartbeatRequest b =>
    [MSGPACK_OBJECT_POSITIVE_INTEGER (HeartbeatRequest.HeartbeatId b)]
  | rHeartbeatResponse b =>
    [MSGPACK_OBJECT_POSITIVE_INTEGER (status h); MSGPACK_OBJECT_POSITIVE_INTEGER
      (HeartbeatResponse.HeartbeatId b)]
  | rLogonUserRequest b =>
    [MSGPACK_OBJECT_POSITIVE_INTEGER (LogonUserRequest.ConnectionId b); MSGPACK_OBJECT_RAW (text
      (LogonUserRequest.User b)); MSGPACK_OBJECT_RAW (text (LogonUserRequest.Domain b));
      MSGPACK_OBJECT_RAW (text (LogonUserRequest.Password b)); MSGPACK_OBJECT_POSITIVE_INTEGER
      (LogonUserRequest.DesktopWidth b); MSGPACK_OBJECT_POSITIVE_INTEGER
      (LogonUserRequest.DesktopHeight b); MSGPACK_OBJECT_POSITIVE_INTEGER
      (LogonUserRequest.ColorDepth b); MSGPACK_OBJECT_RAW (text (LogonUserRequest.ClientName b));
      MSGPACK_OBJECT_RAW (text (LogonUserRequest.ClientAddress b));
      MSGPACK_OBJECT_POSITIVE_INTEGER (LogonUserRequest.ClientBuild b);
      MSGPACK_OBJECT_POSITIVE_INTEGER (LogonUserRequest.ClientProductId b);
      MSGPACK_OBJECT_POSITIVE_INTEGER (LogonUserRequest.ClientHardwareId b);
      MSGPACK_OBJECT_POSITIVE_INTEGER (LogonUserRequest.ClientProtocolType b)]
  | rLogonUserResponse b =>
    [MSGPACK_OBJECT_POSITIVE_INTEGER (status h); MSGPACK_OBJECT_RAW (text
      (LogonUserResponse.ServiceEndpoint b))]
  | rLogoffUserRequest b =>
    [MSGPACK_OBJECT_POSITIVE_INTEGER (LogoffUserRequest.ConnectionId b)]
  | rLogoffUserResponse b =>
    [MSGPACK_OBJECT_POSITIVE_INTEGER (status h); MSGPACK_OBJECT_POSITIVE_INTEGER
      (LogoffUserResponse.ConnectionId b)]
  | rDisconnectUserRequest b =>
    [MSGPACK_OBJECT_POSITIVE_INTEGER (DisconnectUserRequest.ConnectionId b)]
  | rDisconnectUserResponse b =>
    [MSGPACK_OBJECT_POSITIVE_INTEGER (status h); MSGPACK_OBJECT_POSITIVE_INTEGER
      (DisconnectUserResponse.ConnectionId b)]
  | rSwitchServiceEndpointRequest b =>
    [MSGPACK_OBJECT_POSITIVE_INTEGER (SwitchServiceEndpointRequest.ConnectionId b);
      MSGPACK_OBJECT_RAW (text (SwitchServiceEndpointRequest.ServiceEndpoint b))]
  | rSwitchServiceEndpointResponse _ =>
    [MSGPACK_OBJECT_POSITIVE_INTEGER (status h)]
  | rStartSessionRequest b =>
    [MSGPACK_OBJECT_POSITIVE_INTEGER (StartSessionRequest.SessionId b); MSGPACK_OBJECT_RAW (text
      (StartSessionRequest.User b)); MSGPACK_OBJECT_RAW (text (StartSessionRequest.Domain b));
      MSGPACK_OBJECT_RAW (text (StartSessionRequest.Password b))]
  | rStartSessionResponse b =>
    [MSGPACK_OBJECT_POSITIVE_INTEGER (status h); MSGPACK_OBJECT_RAW (text
      (StartSessionResponse.ServiceEndpoint b))]
  | rEndSessionRequest b =>
    [MSGPACK_OBJECT_POSITIVE_INTEGER (EndSessionRequest.SessionId b)]
  | rEndSessionResponse b =>
    [MSGPACK_OBJECT_POSITIVE_INTEGER (status h); MSGPACK_OBJECT_POSITIVE_INTEGER
      (EndSessionResponse.SessionId b)]
  | rChannelEndpointOpenRequest b =>
    [MSGPACK_OBJECT_POSITIVE_INTEGER (ChannelEndpointOpenRequest.ConnectionId b);
      MSGPACK_OBJECT_RAW (text (ChannelEndpointOpenRequest.ChannelName b))]
  | rChannelEndpointOpenResponse b =>
    [MSGPACK_OBJECT_POSITIVE_INTEGER (status h); MSGPACK_OBJECT_POSITIVE_INTEGER
      (ChannelEndpointOpenResponse.ChannelPort b); MSGPACK_OBJECT_RAW (text
      (ChannelEndpointOpenResponse.ChannelGuid b))]
  end.

(** The numbers fit 32 bits and the strings are terminated. *)
Definition rpc_ok (r : rpc_msg) : Prop :=
  let h := rpc_header r in
  match rpc_data r with
  | rChannelAllowedRequest b =>
    ok_string (ChannelAllowedRequest.ChannelName b)
  | rChannelAllowedResponse b =>
    is_u32 (status h) /\ True
  | rHeartbeatRequest b =>
    is_u32 (HeartbeatRequest.HeartbeatId b)
  | rHeartbeatResponse b =>
    is_u32 (status h) /\ is_u32 (HeartbeatResponse.HeartbeatId b)
  | rLogonUserRequest b =>
    is_u32 (LogonUserRequest.ConnectionId b) /\ ok_string (LogonUserRequest.User b) /\ ok_string
      (LogonUserRequest.Domain b) /\ ok_string (LogonUserRequest.Password b) /\ is_u32
      (LogonUserRequest.DesktopWidth b) /\ is_u32 (LogonUserRequest.DesktopHeight b) /\ is_u32
      (LogonUserRequest.ColorDepth b) /\ ok_string (LogonUserRequest.ClientName b) /\ ok_string
      (LogonUserRequest.ClientAddress b) /\ is_u32 (LogonUserRequest.ClientBuild b) /\ is_u32
      (LogonUserRequest.ClientProductId b) /\ is_u32 (LogonUserRequest.ClientHardwareId b) /\
      is_u32 (LogonUserRequest.ClientProtocolType b)
  | rLogonUserResponse b =>
    is_u32 (status h) /\ ok_string (LogonUserResponse.ServiceEndpoint b)
  | rLogoffUserRequest b =>
    is_u32 (LogoffUserRequest.ConnectionId b)
  | rLogoffUserResponse b =>
    is_u32 (status h) /\ is_u32 (LogoffUserResponse.ConnectionId b)
  | rDisconnectUserRequest b =>
    is_u32 (DisconnectUserRequest.ConnectionId b)
  | rDisconnectUserResponse b =>
    is_u32 (status h) /\ is_u32 (DisconnectUserResponse.ConnectionId b)
  | rSwitchServiceEndpointRequest b =>
    is_u32 (SwitchServiceEndpointRequest.ConnectionId b) /\ ok_string
      (SwitchServiceEndpointRequest.ServiceEndpoint b)
  | rSwitchServiceEndpointResponse _ =>
    is_u32 (status h)
  | rStartSessionRequest b =>
    is_u32 (StartSessionRequest.SessionId b) /\ ok_string (StartSessionRequest.User b) /\
      ok_string (StartSessionRequest.Domain b) /\ ok_string (StartSessionRequest.Password b)
  | rStartSessionResponse b =>
    is_u32 (status h) /\ ok_string (StartSessionResponse.ServiceEndpoint b)
  | rEndSessionRequest b =>
    is_u32 (EndSessionRequest.SessionId b)
  | rEndSessionResponse b =>
    is_u32 (status h) /\ is_u32 (EndSessionResponse.SessionId b)
  | rChannelEndpointOpenRequest b =>
    is_u32 (ChannelEndpointOpenRequest.ConnectionId b) /\ ok_string
      (ChannelEndpointOpenRequest.ChannelName b)
  | rChannelEndpointOpenResponse b =>
    is_u32 (status h) /\ is_u32 (ChannelEndpointOpenResponse.ChannelPort b) /\ ok_string
      (ChannelEndpointOpenResponse.ChannelGuid b)
  end.

(** What arrives in a struct with header [h0]: responses carry their status,
    empty strings arrive as [NULL], booleans as 0 or 1. *)
Definition rpc_recv (h0 : FDSAPI_MSG_HEADER) (r : rpc_msg) : rpc_msg :=
  let h := rpc_header r in
  let hs := mk_rpc_header (msgSize h0) (msgType h0) (callId h0) (status h) in
  match rpc_data r with
  | rChannelAllowedRequest b =>
    Rpc h0 (rChannelAllowedRequest (ChannelAllowedRequest.mk (recv_string
      (ChannelAllowedRequest.ChannelName b))))
  | rChannelAllowedResponse b =>
    Rpc hs (rChannelAllowedResponse (ChannelAllowedResponse.mk (if
      ChannelAllowedResponse.ChannelAllowed b =? 0 then 0 else 1)))
  | rHeartbeatRequest b =>
    Rpc h0 (rHeartbeatRequest (HeartbeatRequest.mk (HeartbeatRequest.HeartbeatId b)))
  | rHeartbeatResponse b =>
    Rpc hs (rHeartbeatResponse (HeartbeatResponse.mk (HeartbeatResponse.HeartbeatId b)))
  | rLogonUserRequest b =>
    Rpc h0 (rLogonUserRequest (LogonUserRequest.mk (LogonUserRequest.ConnectionId b) (recv_string
      (LogonUserRequest.User b)) (recv_string (LogonUserRequest.Domain b)) (recv_string
      (LogonUserRequest.Password b)) (LogonUserRequest.DesktopWidth b)
      (LogonUserRequest.DesktopHeight b) (LogonUserRequest.ColorDepth b) (recv_string
      (LogonUserRequest.ClientName b)) (recv_string (LogonUserRequest.ClientAddress b))
      (LogonUserRequest.ClientBuild b) (LogonUserRequest.ClientProductId b)
      (LogonUserRequest.ClientHardwareId b) (LogonUserRequest.ClientProtocolType b)))
  | rLogonUserResponse b =>
    Rpc hs (rLogonUserResponse (LogonUserResponse.mk (recv_string
      (LogonUserResponse.ServiceEndpoint b))))
  | rLogoffUserRequest b =>
    Rpc h0 (rLogoffUserRequest (LogoffUserRequest.mk (LogoffUserRequest.ConnectionId b)))
  | rLogoffUserResponse b =>
    Rpc hs (rLogoffUserResponse (LogoffUserResponse.mk (LogoffUserResponse.ConnectionId b)))
  | rDisconnectUserRequest b =>
    Rpc h0 (rDisconnectUserRequest (DisconnectUserRequest.mk (DisconnectUserRequest.ConnectionId
      b)))
  | rDisconnectUserResponse b =>
    Rpc hs (rDisconnectUserResponse (DisconnectUserResponse.mk
      (DisconnectUserResponse.ConnectionId b)))
  | rSwitchServiceEndpointRequest b =>
    Rpc h0 (rSwitchServiceEndpointRequest (SwitchServiceEndpointRequest.mk
      (SwitchServiceEndpointRequest.ConnectionId b) (recv_string
      (SwitchServiceEndpointRequest.ServiceEndpoint b))))
  | rSwitchServiceEndpointResponse _ =>
    Rpc hs (rSwitchServiceEndpointResponse (SwitchServiceEndpointResponse.mk ))
  | rStartSessionRequest b =>
    Rpc h0 (rStartSessionRequest (StartSessionRequest.mk (StartSessionRequest.SessionId b)
      (recv_string (StartSessionRequest.User b)) (recv_string (StartSessionRequest.Domain b))
      (recv_string (StartSessionRequest.Password b))))
  | rStartSessionResponse b =>
    Rpc hs (rStartSessionResponse (StartSessionResponse.mk (recv_string
      (StartSessionResponse.ServiceEndpoint b))))
  | rEndSessionRequest b =>
    Rpc h0 (rEndSessionRequest (EndSessionRequest.mk (EndSessionRequest.SessionId b)))
  | rEndSessionResponse b =>
    Rpc hs (rEndSessionResponse (EndSessionResponse.mk (EndSessionResponse.SessionId b)))
  | rChannelEndpointOpenRequest b =>
    Rpc h0 (rChannelEndpointOpenRequest (ChannelEndpointOpenRequest.mk
      (ChannelEndpointOpenRequest.ConnectionId b) (recv_string
      (ChannelEndpointOpenRequest.ChannelName b))))
  | rChannelEndpointOpenResponse b =>
    Rpc hs (rChannelEndpointOpenResponse (ChannelEndpointOpenResponse.mk
      (ChannelEndpointOpenResponse.ChannelPort b) (recv_string
      (ChannelEndpointOpenResponse.ChannelGuid b))))
  end.

(** The pointers of a struct. *)
Definition rpc_strings (b : rpc_body) : list (option (list Z)) :=
  match b with
  | rChannelAllowedRequest b => [ChannelAllowedRequest.ChannelName b]
  | rChannelAllowedResponse _ => []
  | rHeartbeatRequest _ => []
  | rHeartbeatResponse _ => []
  | rLogonUserRequest b => [LogonUserRequest.User b; LogonUserRequest.Domain b; LogonUserRequest.Password b; LogonUserRequest.ClientName b; LogonUserRequest.ClientAddress b]
  | rLogonUserResponse b => [LogonUserResponse.ServiceEndpoint b]
  | rLogoffUserRequest _ => []
  | rLogoffUserResponse _ => []
  | rDisconnectUserRequest _ => []
  | rDisconnectUserResponse _ => []
  | rSwitchServiceEndpointRequest b => [SwitchServiceEndpointRequest.ServiceEndpoint b]
  | rSwitchServiceEndpointResponse _ => []
  | rStartSessionRequest b => [StartSessionRequest.User b; StartSessionRequest.Domain b; StartSessionRequest.Password b]
  | rStartSessionResponse b => [StartSessionResponse.ServiceEndpoint b]
  | rEndSessionRequest _ => []
  | rEndSessionResponse _ => []
  | rChannelEndpointOpenRequest b => [ChannelEndpointOpenRequest.ChannelName b]
  | rChannelEndpointOpenResponse b => [ChannelEndpointOpenResponse.ChannelGuid b]
  end.

(** Strings are [NULL] or terminated and not empty, booleans 0 or 1. *)
Definition rpc_canonical (b : rpc_body) : Prop :=
  Forall (fun p => recv_string p = p) (rpc_strings b) /\
  match b with
  | rChannelAllowedResponse b =>
      ChannelAllowedResponse.ChannelAllowed b = 0 \/ ChannelAllowedResponse.ChannelAllowed b = 1
  | _ => True
  end.

Lemma rpc_objects_ok r : rpc_ok r -> Forall ok_scalar (rpc_objects r).
Proof.
  assert (forall p, ok_string p -> Z.of_nat (length (text p)) < 2 ^ 32) as Ht.
  { intros p Hp. pose proof (text_bound p Hp). lia. }
  destruct r as [h []]; cbn [rpc_ok rpc_objects rpc_data rpc_header]; intros H;
    repeat (apply List.Forall_cons; [cbn [ok_scalar]; try apply Ht; intuition|]); apply List.Forall_nil.
Qed.

Lemma rpc_objects_length r : (length (rpc_objects r) < 16)%nat.
Proof. destruct r as [h []]; cbn [rpc_objects rpc_data length]; lia. Qed.


(** The entry of the table for a struct. *)
Definition rpc_func {W : WStream} (b : rpc_body) : RDS_RPC_PACK_FUNC :=
  match b with
  | rChannelAllowedRequest _ => g_FDSAPI_CHANNEL_ALLOWED_REQUEST
  | rChannelAllowedResponse _ => g_FDSAPI_CHANNEL_ALLOWED_RESPONSE
  | rHeartbeatRequest _ => g_FDSAPI_HEARTBEAT_REQUEST
  | rHeartbeatResponse _ => g_FDSAPI_HEARTBEAT_RESPONSE
  | rLogonUserRequest _ => g_FDSAPI_LOGON_USER_REQUEST
  | rLogonUserResponse _ => g_FDSAPI_LOGON_USER_RESPONSE
  | rLogoffUserRequest _ => g_FDSAPI_LOGOFF_USER_REQUEST
  | rLogoffUserResponse _ => g_FDSAPI_LOGOFF_USER_RESPONSE
  | rDisconnectUserRequest _ => g_FDSAPI_DISCONNECT_USER_REQUEST
  | rDisconnectUserResponse _ => g_FDSAPI_DISCONNECT_USER_RESPONSE
  | rSwitchServiceEndpointRequest _ => g_FDSAPI_SWITCH_SERVICE_ENDPOINT_REQUEST
  | rSwitchServiceEndpointResponse _ => g_FDSAPI_SWITCH_SERVICE_ENDPOINT_RESPONSE
  | rStartSessionRequest _ => g_FDSAPI_START_SESSION_REQUEST
  | rStartSessionResponse _ => g_FDSAPI_START_SESSION_RESPONSE
  | rEndSessionRequest _ => g_FDSAPI_END_SESSION_REQUEST
  | rEndSessionResponse _ => g_FDSAPI_END_SESSION_RESPONSE
  | rChannelEndpointOpenRequest _ => g_FDSAPI_CHANNEL_ENDPOINT_OPEN_REQUEST
  | rChannelEndpointOpenResponse _ => g_FDSAPI_CHANNEL_ENDPOINT_OPEN_RESPONSE
  end.

Lemma find_func_entry {W : WStream} b :
  freerds_rpc_msg_find_func (rpc_type b) = Some (Some (rpc_func b)).
Proof. by destruct b. Qed.

Lemma cast_unpack_spec {B} `{RpcView B} (f : RPC B -> list Z -> option (bool * RPC B)) min steps
    d0 (b0 : B) os rest r' d' :
  (forall r buf, f r buf = unpack_message min steps r buf) ->
  rproj (rpc_data d0) = Some b0 ->
  Forall ok_scalar os -> (length os < 16)%nat -> min <= Z.of_nat (length os) ->
  unpack_fields steps os (Rpc (rpc_header d0) b0) = Some (true, r') ->
  Rpc (rpc_header r') (rinj (rpc_data r')) = d' ->
  cast_unpack f d0 (wire_array os ++ rest) = Some (true, d').
Proof.
  intros Hf Hb Hok Hl Hm E <-. unfold cast_unpack. rewrite Hb. cbn [mbind option_bind].
  rewrite Hf, (unpack_message_spec _ _ _ _ _ _ Hok Hl Hm E). done.
Qed.

Lemma cast_unpack_total {B} `{RpcView B} (f : RPC B -> list Z -> option (bool * RPC B)) min steps
    d0 (b0 : B) buffer :
  (forall r buf, f r buf = unpack_message min steps r buf) ->
  rproj (rpc_data d0) = Some b0 -> Forall field_step steps -> Z.of_nat (length steps) <= min ->
  Forall is_u8 buffer -> exists ok d', cast_unpack f d0 buffer = Some (ok, d').
Proof.
  intros Hf Hb Hs Hm Hbuf. unfold cast_unpack. rewrite Hb. cbn [mbind option_bind].
  rewrite Hf. destruct (unpack_message_total min steps (Rpc (rpc_header d0) b0) buffer Hs Hm Hbuf)
    as (ok & r' & ->). by eexists _, _.
Qed.

Lemma cast_unpack_fits {B} `{RpcView B} (f : RPC B -> list Z -> option (bool * RPC B)) ks steps d0 (b0 : B) buffer root :
  (forall r buf, f r buf = unpack_message (Z.of_nat (length ks)) steps r buf) -> rproj (rpc_data d0) = Some b0 ->
  msgpack_unpack_next buffer = Some root -> Forall2 step_kind ks steps ->
  exists d', cast_unpack f d0 buffer = Some (acceptable ks root, d').
Proof.
  intros Hf Hb Hr Hs. unfold cast_unpack. rewrite Hb. cbn [mbind option_bind].
  rewrite Hf. destruct (unpack_message_fits ks steps (Rpc (rpc_header d0) b0) buffer root Hs Hr) as (r' & ->). by eexists.
Qed.

Section Spec.
Context {W : WStream} {L : WStreamLaws W}.

Lemma rpc_pack_spec r s : rpc_ok r -> fresh s ->
  exists s', freerds_rpc_msg_pack (rpc_type (rpc_data r)) (Some r) s = Some (Some s') /\
    sealed s' (wire_array (rpc_objects r)).
Proof.
  intros Hok Hs.
  enough (exists m : msgpack_packer -> SM Z, freerds_rpc_msg_pack (rpc_type (rpc_data r)) (Some r) s =
      (s ← pack_message m s; Some (Some s)) /\
      appends (m msgpack_stream_packer_init) (wire_array (rpc_objects r)) 0) as (m & E & Hm).
  { destruct (pack_message_spec m _ _ s Hs Hm) as (s' & E' & H). exists s'. by rewrite E, E'. }
  destruct r as [h []]; cbn [rpc_ok rpc_objects rpc_data rpc_header] in Hok |- *;
    (eexists; split; [reflexivity|]); cbv beta;
    (apply packs_array; [reflexivity|cbn [length]; lia|]);
    repeat first [apply packs_last | apply packs_next];
    first [apply packs_uint32 | apply packs_cstr | apply packs_bool]; intuition.
Qed.

Lemma rpc_unpack_spec h0 b0 r rest :
  rpc_ok r -> rpc_type b0 = rpc_type (rpc_data r) ->
  freerds_rpc_msg_unpack (rpc_type (rpc_data r)) (Some (Rpc h0 b0))
    (wire_array (rpc_objects r) ++ rest) = Some (true, Some (rpc_recv h0 r)).
Proof.
  intros Hok Ht. pose proof (rpc_objects_ok r Hok) as Ho. pose proof (rpc_objects_length r) as Hl.
  unfold freerds_rpc_msg_unpack. rewrite find_func_entry. cbn [mbind option_bind].
  enough (Unpack (rpc_func (rpc_data r)) (Rpc h0 b0) (wire_array (rpc_objects r) ++ rest) =
          Some (true, rpc_recv h0 r)) as -> by done.
  destruct r as [h []]; destruct b0; try discriminate Ht; clear Ht;
    cbn [rpc_ok rpc_objects rpc_recv rpc_data rpc_header] in *;
    (eapply cast_unpack_spec; [reflexivity|reflexivity|exact Ho|exact Hl|cbn [length]; lia| |]);
    try (repeat (cbn [unpack_fields unpack_field msgpack_unpack_uint32 msgpack_unpack_bool mbind
                      option_bind]; rewrite ?unpacks_cstr); reflexivity);
    cbn; rewrite ?u32_id by intuition;
    try match goal with |- context [negb ?x] => destruct x end;
    first [reflexivity | by destruct b0].
Qed.

(** Unpacking is defined on arbitrary bytes for every message whose check of
    the array covers its fields. *)
Lemma rpc_unpack_total h0 b0 buffer :
  Forall is_u8 buffer -> rpc_type b0 <> FDSAPI_CHANNEL_ENDPOINT_OPEN_RESPONSE_ID ->
  exists ok r', freerds_rpc_msg_unpack (rpc_type b0) (Some (Rpc h0 b0)) buffer = Some (ok, Some r').
Proof.
  intros Hb Ht. unfold freerds_rpc_msg_unpack. rewrite find_func_entry. cbn [mbind option_bind].
  enough (exists ok r', Unpack (rpc_func b0) (Rpc h0 b0) buffer = Some (ok, r')) as (ok & r' & ->)
    by (by eexists _, _).
  destruct b0; try (by destruct (Ht eq_refl)); clear Ht;
    (eapply cast_unpack_total; [reflexivity|reflexivity|
       repeat (apply List.Forall_cons; [apply unpack_field_step|]); apply List.Forall_nil|
       cbn; lia|exact Hb]).
Qed.

(** What is accepted. *)
Lemma rpc_unpack_accepts h0 b0 buffer root :
  msgpack_unpack_next buffer = Some root -> rpc_type b0 <> FDSAPI_CHANNEL_ENDPOINT_OPEN_RESPONSE_ID ->
  exists r', freerds_rpc_msg_unpack (rpc_type b0) (Some (Rpc h0 b0)) buffer = Some (acceptable (rpc_fields b0) root, Some r').
Proof.
  intros Hr Ht. unfold freerds_rpc_msg_unpack. rewrite find_func_entry. cbn [mbind option_bind].
  enough (exists r', Unpack (rpc_func b0) (Rpc h0 b0) buffer = Some (acceptable (rpc_fields b0) root, r')) as (r' & ->)
    by (by eexists).
  destruct b0; try (by destruct (Ht eq_refl)); clear Ht;
    (eapply cast_unpack_fits; [reflexivity|reflexivity|exact Hr|
       repeat (apply Forall2_cons_2; [first [apply step_uint | apply step_bool | apply step_string]|]); apply Forall2_nil_2]).
Qed.

(** The response that opens an endpoint has three fields and is checked for two. *)
Lemma open_response_accepts h0 b0 buffer root :
  msgpack_unpack_next buffer = Some root -> rpc_type b0 = FDSAPI_CHANNEL_ENDPOINT_OPEN_RESPONSE_ID ->
  (exists v w, root = Some (MSGPACK_OBJECT_ARRAY [MSGPACK_OBJECT_POSITIVE_INTEGER v; MSGPACK_OBJECT_POSITIVE_INTEGER w]) /\
     freerds_rpc_msg_unpack (rpc_type b0) (Some (Rpc h0 b0)) buffer = None) \/
  (~ exists v w, root = Some (MSGPACK_OBJECT_ARRAY [MSGPACK_OBJECT_POSITIVE_INTEGER v; MSGPACK_OBJECT_POSITIVE_INTEGER w])) /\
  exists r', freerds_rpc_msg_unpack (rpc_type b0) (Some (Rpc h0 b0)) buffer = Some (acceptable (rpc_fields b0) root, Some r').
Proof.
  intros Hr Ht. unfold freerds_rpc_msg_unpack. rewrite find_func_entry. destruct b0; try discriminate Ht. cbn [mbind option_bind rpc_func].
  cbn. unfold cast_unpack, ChannelEndpointOpenResponse.freerds_unpack_channel_endpoint_open_response, unpack_message. cbn. rewrite Hr. cbn.
  destruct root as [[| | | | | |l|]|]; try (right; split; [by intros (? & ? & ?)|by eexists]). cbn [msgpack_unpack_array_min].
  destruct l as [|o1 [|o2 [|o3 l]]].
  - right. split; [by intros (? & ? & ?)|]. by eexists.
  - right. split; [by intros (? & ? & ?)|]. cbn. rewrite andb_false_r. by eexists.
  - destruct o1; try (right; split; [by intros (? & ? & ?)|by eexists]). destruct o2; try (right; split; [by intros (? & ? & ?)|by eexists]).
    left. by eexists _, _.
  - right. split; [by intros (? & ? & ?)|]. destruct (Z.ltb_spec (Z.of_nat (length (o1 :: o2 :: o3 :: l))) 2) as [H|_]; [cbn in H; lia|].
    destruct o1; try by eexists. destruct o2; try by eexists. destruct o3 as [| | | | |raw| |]; try by eexists. cbn. destruct (_ <? 1); by eexists.
Qed.

(** The pointers that are freed are those of the struct, except for
    [FDSAPI_SWITCH_SERVICE_ENDPOINT_REQUEST]. *)
Lemma rpc_free_spec r :
  rpc_type (rpc_data r) <> FDSAPI_SWITCH_SERVICE_ENDPOINT_REQUEST_ID ->
  freerds_rpc_msg_free (rpc_type (rpc_data r)) (Some r) = Some (rpc_strings (rpc_data r)).
Proof.
  intros Ht. unfold freerds_rpc_msg_free. rewrite find_func_entry. cbn [mbind option_bind].
  destruct r as [h []]; try reflexivity. by destruct (Ht eq_refl).
Qed.
End Spec.

(** A canonical message arrives unchanged. *)
Lemma rpc_recv_canonical h0 r : rpc_canonical (rpc_data r) -> rpc_data (rpc_recv h0 r) = rpc_data r.
Proof.
  destruct r as [h []]; unfold rpc_canonical; cbn [rpc_strings rpc_data rpc_recv rpc_header];
    intros [Hs Hb]; repeat (apply List.Forall_cons_iff in Hs as [-> Hs]); destruct b; try reflexivity.
  cbn in *. by destruct Hb as [-> | ->].
Qed.
