(* ===== verification/ProtocolTheorems.v ===== *)
(** * Theorems on the message protocol

    Framing, round trips, memory safety and ownership for the messages of
    freerds/backend/protocol.c, through the dispatching functions of its
    tables; and the messages for which they do not hold. *)

From S2P Require Import Prelude WStream ListStream Message ClientMsg ServerMsg VarMsg SessionMsg.
From S2P Require Import WindowMsg MsgTable TableFacts Pipe Transport TransportFacts Pipeline Instances.

(** A stream of [n] zero bytes, and one that holds the given bytes. *)
Definition blank (n : nat) : @wStream list_wstream := LStream (replicate n 0) 0 n.
Definition filled (bs : list Z) (n : nat) : @wStream list_wstream := LStream (bs ++ replicate (n - length bs) 0) 0 n.

Definition garbage (n pos len : nat) : @wStream list_wstream := LStream (replicate n 0xFF) pos len.

Definition some_rect : RDS_RECT := mk_rect 0 0 0 0.
Definition header (t : Z) : RDS_MSG_COMMON := mk_common t 0 0 some_rect.

(** ** Framing *)

(** C6. The dispatching writer of the server messages emits
    the header and the fields of a well-formed message and nothing else; the
    length field of the header, the value the writer returns and the value of
    the size query are the number of bytes emitted. *)
Theorem server_write_framed {W : WStream} {L : WStreamLaws W} {F : WindowOrder} c m s buf pos len :
  ok_body m -> msg_type c = server_type m -> 0 <= server_type m ->
  Z.of_nat (length (wire_msg c m)) < 2 ^ 31 ->
  rep s buf pos len -> (pos + length (wire_msg c m) <= length buf)%nat ->
  let n := Z.of_nat (length (wire_msg c m)) in
  (exists s', freerds_server_message_write (Some s) (Msg c m) =
      Some ((n, Msg (sent_common c m) (norm_body m)), Some s') /\
    rep s' (splice pos (wire_msg c m) buf) (pos + length (wire_msg c m)) len) /\
  freerds_peek_common_header_length (wire_msg c m) = Some n /\
  (exists m0, freerds_server_message_write None (Msg c m) = Some ((n, m0), None)).
Proof.
  intros Hok Ht H0 Hn Hs Hl n.
  assert (i32 (msg_length (sent_common c m)) = n) as En
    by (rewrite length_sent_common by lia; apply i32_id; unfold is_i32; lia).
  split; [|split].
  - destruct (server_message_write_spec c m Hok Ht H0 s buf pos len Hs Hl) as (s' & E & Hs').
    exists s'. split; [|done]. rewrite En in E. revert E. unfold with_stream.
    destruct (freerds_server_message_write (Some s) (Msg c m)) as [[[st m'] [s2|]]|]; try done.
    by intros [= -> -> ->].
  - unfold wire_msg. rewrite peek_length_spec; [by rewrite length_sent_common by lia|].
    rewrite length_sent_common by lia. unfold is_u32. lia.
  - destruct (server_message_size c m Hok Ht H0) as (m0 & E & _). exists m0. by rewrite E, En.
Qed.

Lemma server_write_framed_witness :
  let c := header 4 in let m := mOpaqueRect (OpaqueRect.mk 10 20 300 40 0xFF00FF) in
  exists s', freerds_server_message_write (Some (blank 64)) (Msg c m) =
    Some ((38, Msg (sent_common c m) m), Some s').
Proof.
  destruct (server_write_framed (header 4) (mOpaqueRect (OpaqueRect.mk 10 20 300 40 0xFF00FF))
              (blank 64) (replicate 64 0) 0 64) as ((s' & E & _) & _).
  - cbv. repeat split; discriminate.
  - reflexivity.
  - discriminate.
  - reflexivity.
  - repeat split.
  - cbv. lia.
  - exists s'. exact E.
Defined.

(** ** Round trips *)




(** ** Memory safety *)

(** C35. The dispatching reader of the server messages
    never leaves the stream's block, whatever bytes it finds, for every message
    except the logon and window messages; the pattern message needs a brush
    with room for the pattern. *)
Theorem server_reader_in_bounds {W : WStream} {L : WStreamLaws W} {F : WindowOrder}
    c m s buf pos len :
  checked_body m -> msg_type c = server_type m ->
  rep s buf pos len -> Forall is_u8 buf -> (pos <= len)%nat -> (len <= length buf)%nat ->
  exists st m' s' pos', freerds_server_message_read (Msg c m) s = Some ((st, m'), s') /\
    rep s' buf pos' len /\ (pos' <= len)%nat.
Proof.
  intros Hc Ht Hs Hu Hp Hb.
  destruct (server_message_read_safe c m Hc Ht s buf pos len Hs Hu Hb) as ([st m'] & s' & pos' & E & H);
    [lia|done|]. by exists st, m', s', pos'.
Qed.

Lemma server_reader_in_bounds_witness :
  exists st m' s', freerds_server_message_read
    (Msg (header 6) (mPaintRect (PaintRect.mk 0 0 0 0 0 0 None 0 0 PaintRect.fb_null)))
    (garbage 40 3 21) = Some ((st, m'), s').
Proof.
  destruct (server_reader_in_bounds (header 6)
              (mPaintRect (PaintRect.mk 0 0 0 0 0 0 None 0 0 PaintRect.fb_null))
              (garbage 40 3 21) (replicate 40 0xFF) 3 21) as (st & m' & s' & pos' & E & _).
  - exact I.
  - reflexivity.
  - repeat split.
  - apply Forall_replicate. split; [discriminate|reflexivity].
  - lia.
  - cbv. lia.
  - exists st, m', s'. exact E.
Defined.

(** [freerds_read_logon_user] checks for sixteen
    bytes but not for the strings whose lengths they announce: a user name
    longer than the block makes it read outside the block. *)
Theorem logon_reader_out_of_bounds {W : WStream} {L : WStreamLaws W} msg s buf pos len f ul rest :
  rep s buf pos len -> drop pos buf = le32 f ++ le32 ul ++ rest -> (len <= length buf)%nat ->
  (pos + 16 <= len)%nat -> is_u32 ul -> Z.of_nat (length buf) < Z.of_nat pos + 16 + ul ->
  LogonUser.freerds_read_logon_user msg s = None.
Proof. apply LogonUser.read_logon_user_oob. Qed.

Lemma logon_reader_out_of_bounds_witness :
  LogonUser.freerds_read_logon_user
    (Msg (header 24) (LogonUser.mk 0 0 0 0 None None None))
    (filled (le32 0 ++ le32 5000) 100) = None.
Proof.
  apply (logon_reader_out_of_bounds _ _ (lbuf (filled (le32 0 ++ le32 5000) 100)) 0 100 0 5000 (replicate 92 0)).
  - repeat split.
  - vm_compute. reflexivity.
  - vm_compute. lia.
  - vm_compute. lia.
  - split; [discriminate|reflexivity].
  - vm_compute. reflexivity.
Defined.

(** [freerds_read_patblt] stores the pattern through
    [brush.data]; when that pointer designates nothing, as in the local struct
    of the transport, every message that is long enough is undefined
    behaviour. *)
Theorem patblt_reader_wild_store {W : WStream} {L : WStreamLaws W} c b0 b s buf pos len rest :
  PatBlt.ok_patblt b -> PatBlt.data (PatBlt.brush b0) = None ->
  rep s buf pos len -> drop pos buf = PatBlt.wire_patblt b ++ rest ->
  (len <= length buf)%nat -> (pos + 60 <= len)%nat ->
  PatBlt.freerds_read_patblt (Msg c b0) s = None.
Proof. intros Hok Hd Hs Hdr Hb Hl. exact (PatBlt.read_patblt_wild c b0 b Hok Hd s buf pos len rest Hs Hdr Hb Hl). Qed.

Lemma patblt_reader_wild_store_witness :
  let b0 := PatBlt.mk 0 0 0 0 0 0 0 (PatBlt.mk_brush 0 0 0 0 0 0 None) in
  let b := PatBlt.mk 0 0 0 0 0 0 0 (PatBlt.mk_brush 0 0 0 0 0 0 (Some (replicate 8 7))) in
  PatBlt.freerds_read_patblt (Msg (header 7) b0) (filled (PatBlt.wire_patblt b) 80) = None.
Proof.
  eapply (patblt_reader_wild_store _ _
           (PatBlt.mk 0 0 0 0 0 0 0 (PatBlt.mk_brush 0 0 0 0 0 0 (Some (replicate 8 7))))
           _ _ 0 80 (replicate 20 0)).
  - unfold PatBlt.ok_patblt. cbn. repeat split; try discriminate. exists (replicate 8 7). split; [reflexivity|cbv; lia].
  - reflexivity.
  - repeat split.
  - vm_compute. reflexivity.
  - vm_compute. lia.
  - vm_compute. lia.
Defined.

(** ** Single messages *)

(** The writer of the pointer message replaces a missing
    depth and missing mask lengths by those of a 24-bit 32x32 pointer, and the
    hot spot it puts on the wire lies inside the 32x32 pointer. *)
Theorem set_pointer_hot_spot {W : WStream} {L : WStreamLaws W} c b s buf pos len :
  SetPointer.ok_set_pointer b -> rep s buf pos len ->
  let n := length (wire_header (out_common c 0 None) ++
                   SetPointer.wire_set_pointer (SetPointer.norm_set_pointer b)) in
  (pos + n <= length buf)%nat ->
  exists m' s', SetPointer.freerds_write_set_pointer (Some s) (Msg c b) = Some ((0, m'), Some s') /\
    0 <= SetPointer.xPos (body m') <= 31 /\ 0 <= SetPointer.yPos (body m') <= 31 /\
    (0 <= SetPointer.xPos b <= 31 -> SetPointer.xPos (body m') = SetPointer.xPos b) /\
    (SetPointer.xorBpp b = 0 -> SetPointer.xorBpp (body m') = 24) /\
    (SetPointer.xorBpp b = 0 -> SetPointer.lengthXorMask b = 0 ->
       SetPointer.lengthXorMask (body m') = 3072) /\
    (SetPointer.lengthAndMask b = 0 -> SetPointer.lengthAndMask (body m') = 128).
Proof.
  intros Hok Hs n Hl. subst n.
  destruct (@codec_write _ _ _ SetPointer.encoder_set_pointer c b Hok s buf pos len Hs)
    as (s' & E & _).
  { revert Hl. cbn [wire norm wrect SetPointer.encoder_set_pointer]. rewrite !length_app.
    pose proof (length_wire_out c 0 None) as H1.
    pose proof (length_wire_out c (Z.of_nat (length (SetPointer.wire_set_pointer (SetPointer.norm_set_pointer b)))) None) as H2.
    lia. }
  revert E. unfold with_stream.
  destruct (SetPointer.freerds_write_set_pointer (Some s) (Msg c b)) as [[[st m'] [s2|]]|]; try done.
  intros [= -> -> ->]. eexists _, _. split; [reflexivity|].
  destruct Hok as (Hx & Hy & _).
  destruct (SetPointer.clamp_bounds (SetPointer.pointer_defaults b)) as [Hcx Hcy]; [apply Hx|apply Hy|].
  cbn [body norm SetPointer.encoder_set_pointer]. unfold SetPointer.norm_set_pointer.
  split; [exact Hcx|]. split; [exact Hcy|]. destruct b as [bpp x y w h la lx px pa].
  unfold SetPointer.pointer_clamp, SetPointer.pointer_defaults.
  cbn [SetPointer.xPos SetPointer.xorBpp SetPointer.lengthXorMask SetPointer.lengthAndMask
       SetPointer.yPos].
  split; [|split; [intros ->; reflexivity|split; [intros -> ->; reflexivity|intros ->; reflexivity]]].
  intros ?. destruct (Z.ltb_spec x 0); [lia|]. destruct (Z.ltb_spec 31 x); lia.
Qed.

Lemma set_pointer_hot_spot_witness :
  let b := SetPointer.mk 0 100 5 32 32 0 0 (Some (replicate 3072 1)) (Some (replicate 128 2)) in
  exists m' s', SetPointer.freerds_write_set_pointer (Some (blank 4000)) (Msg (header 17) b) =
    Some ((0, m'), Some s') /\ 0 <= SetPointer.xPos (body m') <= 31.
Proof.
  destruct (set_pointer_hot_spot (header 17)
      (SetPointer.mk 0 100 5 32 32 0 0 (Some (replicate 3072 1)) (Some (replicate 128 2)))
      (blank 4000) (replicate 4000 0) 0 4000) as (m' & s' & E & Hx & _).
  - repeat split; try discriminate.
    + exists (replicate 3072 1). split; [reflexivity|vm_compute; discriminate].
    + exists (replicate 128 2). split; [reflexivity|vm_compute; discriminate].
  - repeat split.
  - apply Nat.leb_le. vm_compute. reflexivity.
  - exists m', s'. split; [exact E|exact Hx].
Defined.

(** The coordinates of an opaque rectangle go
    over the wire in 16 bits: the reader finds them modulo 2^16, so a negative
    coordinate does not survive, while the rectangle in the header does. *)
Theorem opaque_rect_coordinates_mod_16 {W : WStream} {L : WStreamLaws W} c b0 b s buf pos len rest :
  let bytes := wire (wr := OpaqueRect.freerds_write_opaque_rect)
                 (norm (wr := OpaqueRect.freerds_write_opaque_rect) b) in
  rep s buf pos len -> drop pos buf = bytes ++ rest -> (len <= length buf)%nat ->
  (pos + length bytes <= len)%nat ->
  exists s', OpaqueRect.freerds_read_opaque_rect (Msg c b0) s =
    Some ((0, Msg c (OpaqueRect.mk (u16 (OpaqueRect.nLeftRect b)) (u16 (OpaqueRect.nTopRect b))
                       (u16 (OpaqueRect.nWidth b)) (u16 (OpaqueRect.nHeight b))
                       (u32 (OpaqueRect.color b)))), s').
Proof.
  intros bytes Hs Hd Hb Hl.
  assert (reads (OpaqueRect.freerds_read_opaque_rect (Msg c b0)) bytes
    (0, Msg c (OpaqueRect.mk (u16 (OpaqueRect.nLeftRect b)) (u16 (OpaqueRect.nTopRect b))
                 (u16 (OpaqueRect.nWidth b)) (u16 (OpaqueRect.nHeight b))
                 (u32 (OpaqueRect.color b))))) as Hr.
  { unfold OpaqueRect.freerds_read_opaque_rect. subst bytes.
    cbn [wire norm OpaqueRect.encoder_opaque_rect]. unfold OpaqueRect.wire_opaque_rect.
    eapply reads_val; [reads_step|].
    rewrite !i32_id by (apply is_u16_i32, is_u16_u16). reflexivity. }
  destruct (Hr s buf pos len rest Hs Hd Hb Hl) as (s' & E & _). by exists s'.
Qed.

Lemma opaque_rect_coordinates_mod_16_witness :
  let b := OpaqueRect.mk (-1) 2 3 4 5 in
  exists s', OpaqueRect.freerds_read_opaque_rect (Msg (header 4) (OpaqueRect.mk 0 0 0 0 0))
    (filled (OpaqueRect.wire_opaque_rect b) 40) =
    Some ((0, Msg (header 4) (OpaqueRect.mk 65535 2 3 4 5)), s').
Proof.
  destruct (opaque_rect_coordinates_mod_16 (header 4) (OpaqueRect.mk 0 0 0 0 0) (OpaqueRect.mk (-1) 2 3 4 5)
    (filled (OpaqueRect.wire_opaque_rect (OpaqueRect.mk (-1) 2 3 4 5)) 40)
    (lbuf (filled (OpaqueRect.wire_opaque_rect (OpaqueRect.mk (-1) 2 3 4 5)) 40)) 0 40 (replicate 28 0))
    as (s' & E).
  - repeat split.
  - vm_compute. reflexivity.
  - vm_compute. lia.
  - vm_compute. lia.
  - exists s'. exact E.
Defined.

(** A paint message with neither a bitmap nor a
    framebuffer segment is written without the segment id that the reader
    expects: the reader takes the width and the height for the segment id and
    consumes four bytes of whatever follows the message. *)
Theorem paint_rect_without_source {W : WStream} {L : WStreamLaws W}
    c b0 b x y s buf pos len rest :
  let bytes := PaintRect.wire_paint_rect b in
  PaintRect.fbSegmentId b = 0 -> PaintRect.bitmapDataLength b = 0 ->
  is_u16 (PaintRect.nWidth b) -> is_u16 (PaintRect.nHeight b) -> is_u16 x -> is_u16 y ->
  rep s buf pos len -> drop pos buf = bytes ++ le16 x ++ le16 y ++ rest -> (len <= length buf)%nat ->
  (pos + length bytes + 4 <= len)%nat ->
  exists m' s', PaintRect.freerds_read_paint_rect (Msg c b0) s = Some ((0, m'), s') /\
    Stream_GetPosition s' = (pos + length bytes + 4)%nat /\
    PaintRect.fbSegmentId (body m') = PaintRect.nWidth b + 2 ^ 16 * PaintRect.nHeight b /\
    PaintRect.nXSrc (body m') = x /\ PaintRect.nYSrc (body m') = y.
Proof.
  intros bytes Hf Hl0 Hw Hh Hx Hy Hs Hd Hb Hl.
  assert (le16 (PaintRect.nWidth b) ++ le16 (PaintRect.nHeight b) =
          le32 (PaintRect.nWidth b + 2 ^ 16 * PaintRect.nHeight b)) as Eseg
    by (apply le16_pair; assumption).
  set (seg := PaintRect.nWidth b + 2 ^ 16 * PaintRect.nHeight b) in *.
  assert (bytes ++ le16 x ++ le16 y =
    le16 (PaintRect.nLeftRect b) ++ le16 (PaintRect.nTopRect b) ++ le16 (PaintRect.nWidth b) ++
    le16 (PaintRect.nHeight b) ++ le32 0 ++ le32 seg ++ le16 (PaintRect.nXSrc b) ++
    le16 (PaintRect.nYSrc b) ++ le16 x ++ le16 y) as Ebytes.
  { subst bytes. unfold PaintRect.wire_paint_rect, PaintRect.wire_source. rewrite Hf, Hl0, <-Eseg.
    cbn [Z.eqb Z.to_nat]. rewrite firstn_O, app_nil_r, <-!(assoc_L (++)). done. }
  assert (reads (PaintRect.freerds_read_paint_rect (Msg c b0)) (bytes ++ le16 x ++ le16 y)
    (0, Msg c (PaintRect.mk (i32 (u16 (PaintRect.nLeftRect b))) (i32 (u16 (PaintRect.nTopRect b)))
       (i32 (u16 (PaintRect.nXSrc b))) (i32 (u16 (PaintRect.nYSrc b))) (i32 (u16 x)) (i32 (u16 y))
       (PaintRect.bitmapData b0) 0 (u32 seg) (PaintRect.framebuffer b0)))) as Hr.
  { rewrite Ebytes. unfold PaintRect.freerds_read_paint_rect. cbn [body].
    apply reads_guard; [rewrite !length_app, !length_le; lia|].
    do 4 (eapply reads_bind; [apply reads_16|]). eapply reads_bind; [apply reads_32|].
    change (u32 0) with 0. cbn [Z.eqb negb]. cbv iota.
    apply reads_guard; [rewrite !length_app, !length_le; lia|].
    eapply reads_bind; [apply reads_32|]. eapply reads_val; [reads_step|reflexivity]. }
  destruct (Hr s buf pos len rest Hs) as (s' & E & (_ & Hp & _)).
  { by rewrite Hd, <-!(assoc_L (++)). }
  { done. }
  { rewrite !length_app, !length_le. lia. }
  eexists _, s'. split; [exact E|]. cbn [body PaintRect.fbSegmentId PaintRect.nXSrc PaintRect.nYSrc].
  rewrite Hp, !length_app, !length_le. split; [lia|].
  rewrite !(u16_id x), !(u16_id y), !i32_id by (auto using is_u16_i32).
  split; [|done]. apply u32_id. unfold is_u16, is_u32, seg in *. lia.
Qed.

Lemma paint_rect_without_source_witness :
  let b := PaintRect.mk 1 2 3 4 5 6 None 0 0 PaintRect.fb_null in
  exists m' s', PaintRect.freerds_read_paint_rect (Msg (header 6) b)
    (filled (PaintRect.wire_paint_rect b ++ le16 7 ++ le16 8) 40) = Some ((0, m'), s') /\
    PaintRect.fbSegmentId (body m') = 3 + 2 ^ 16 * 4.
Proof.
  destruct (paint_rect_without_source (header 6) (PaintRect.mk 1 2 3 4 5 6 None 0 0 PaintRect.fb_null)
    (PaintRect.mk 1 2 3 4 5 6 None 0 0 PaintRect.fb_null) 7 8
    (filled (PaintRect.wire_paint_rect (PaintRect.mk 1 2 3 4 5 6 None 0 0 PaintRect.fb_null) ++ le16 7 ++ le16 8) 40)
    (lbuf (filled (PaintRect.wire_paint_rect (PaintRect.mk 1 2 3 4 5 6 None 0 0 PaintRect.fb_null) ++ le16 7 ++ le16 8) 40))
    0 40 (replicate 16 0)) as (m' & s' & E & _ & Hf & _);
    try reflexivity; try (split; [discriminate|reflexivity]).
  - repeat split.
  - vm_compute. lia.
  - exists m', s'. split; [exact E|exact Hf].
Defined.

(** [freerds_read_window_new_update] is not the inverse
    of the writer: it skips the window offset, the client delta and the window
    size, so a window at offset (2, 0) with no rectangles is read as one with
    two window rectangles. *)
Theorem window_update_misread :
  let title := WindowNewUpdate.mk_unicode 0 (Some []) in
  let b := WindowNewUpdate.mk 1 0 0 0 5 title 0 0 640 480 0 0 2 0 0 0 640 480 0 (Some []) 0 0 0 (Some []) in
  let b0 := WindowNewUpdate.mk 0 0 0 0 0 title 0 0 0 0 0 0 0 0 0 0 0 0 0 None 0 0 0
              (Some []) in
  exists m' s', WindowNewUpdate.freerds_write_window_new_update (Some (blank 200)) (Msg (header 21) b) =
      Some ((0, m'), Some s') /\
    exists c' r s'',
      ('(_, c') ← freerds_read_common_header (header 0);
       WindowNewUpdate.freerds_read_window_new_update (Msg c' b0)) (Stream_SetPosition 0 s') =
        Some ((0, Msg c' r), s'') /\
      WindowNewUpdate.numWindowRects b = 0 /\ WindowNewUpdate.numWindowRects r = 2 /\
      WindowNewUpdate.windowWidth r <> WindowNewUpdate.windowWidth b.
Proof.
  cbv zeta. eexists _, _. split; [vm_compute; reflexivity|].
  eexists _, _, _. split; [vm_compute; reflexivity|]. vm_compute. repeat split; discriminate.
Qed.

(** ** Ownership *)

(** For every server message except the logon
    message, freeing a copy releases exactly the blocks that making the copy
    has allocated, each of them once. *)
Theorem server_copy_free_balanced {W : WStream} {F : WindowOrder} c m dup bl :
  freerds_server_message_copy (Msg c m) = Some (Some (dup, bl)) ->
  msg_type c = server_type m -> 0 <= server_type m -> server_type m <> 24 ->
  exists fr, freerds_server_message_free dup = Some fr /\ fr ≡ₚ bl.
Proof. apply server_copy_free. Qed.

Lemma server_copy_free_balanced_witness :
  let m := mPaintRect (PaintRect.mk 0 0 4 1 0 0 (Some [1; 2; 3; 4]) 4 0 PaintRect.fb_null) in
  exists fr, freerds_server_message_free (Msg (header 6) m) = Some fr /\
    fr ≡ₚ [blk_struct; blk_bitmapData].
Proof.
  apply (server_copy_free_balanced (header 6)
    (mPaintRect (PaintRect.mk 0 0 4 1 0 0 (Some [1; 2; 3; 4]) 4 0 PaintRect.fb_null)) _ _);
    [reflexivity|reflexivity|discriminate|discriminate].
Defined.

(** Freeing a copied logon message releases the struct only:
    the user name, domain and password that the copy has allocated are lost. *)
Theorem logon_copy_leaks {W : WStream} {F : WindowOrder} c b dup bl :
  msg_type c = 24 -> 0 < LogonUser.PasswordLength b ->
  freerds_server_message_copy (Msg c (mLogonUser b)) = Some (Some (dup, bl)) ->
  In blk_Password bl /\ freerds_server_message_free dup = Some [blk_struct].
Proof.
  intros Ht Hp. erewrite (server_copy_entry c) by (by rewrite Ht). intros E.
  apply bind_Some in E as ([dup' bl'] & E & [= -> ->]).
  destruct (cast_copy_inv _ c b _ _ E) as ([c' b'] & E' & ->). clear E. revert E'.
  unfold freerds_logon_user_copy. cbn [body].
  destruct (LogonUser.copy_string (LogonUser.User b) _) as [u|]; cbn [mbind option_bind]; [|done].
  destruct (LogonUser.copy_string (LogonUser.Domain b) _) as [d|]; cbn [mbind option_bind]; [|done].
  destruct (LogonUser.copy_string (LogonUser.Password b) _) as [p|]; cbn [mbind option_bind]; [|done].
  intros [= <- <- <-]. split.
  - destruct (Z.eqb_spec (LogonUser.PasswordLength b) 0); [lia|]. cbn [List.app]. right.
    rewrite !in_app_iff. right. right. by left.
  - erewrite server_free_entry by (cbn [common]; by rewrite Ht). reflexivity.
Qed.

Lemma logon_copy_leaks_witness :
  freerds_server_message_free (Msg (header 24)
    (mLogonUser (LogonUser.mk 0 0 0 2 None None (Some [112; 119; 0])))) = Some [blk_struct].
Proof.
  refine (proj2 (logon_copy_leaks (header 24) (LogonUser.mk 0 0 0 2 None None (Some [112; 119; 0]))
    (Msg (header 24) (mLogonUser (LogonUser.mk 0 0 0 2 None None (Some [112; 119; 0]))))
    [blk_struct; blk_Password] _ _ _)); reflexivity.
Defined.

(** Copying a message that a reader has
    produced, as the pipeline does when it queues it, yields an equal
    message. *)
Theorem received_message_copied_exactly {W : WStream} {L : WStreamLaws W} {F : WindowOrder} c m0 m r :
  recv_body m0 m = Some r -> ok_body m -> msg_type c = server_type m -> 0 <= server_type m ->
  exists bl, freerds_server_message_copy (Msg c r) = Some (Some (Msg c r, bl)).
Proof. apply copy_received. Qed.

Lemma received_message_copied_exactly_witness :
  let m := mPaintRect (PaintRect.mk 0 0 4 1 0 0 (Some [1; 2; 3; 4]) 3 0 PaintRect.fb_null) in
  let r := mPaintRect (PaintRect.mk 0 0 4 1 0 0 (Some [1; 2; 3]) 3 0 PaintRect.fb_null) in
  exists bl, freerds_server_message_copy (Msg (header 6) r) = Some (Some (Msg (header 6) r, bl)).
Proof.
  apply (received_message_copied_exactly (W := list_wstream) (header 6)
    (mPaintRect (PaintRect.mk 9 9 9 9 9 9 None 9 0 PaintRect.fb_null))
    (mPaintRect (PaintRect.mk 0 0 4 1 0 0 (Some [1; 2; 3; 4]) 3 0 PaintRect.fb_null))).
  - reflexivity.
  - split; [cbv; repeat split; discriminate|]. intros _. split; [cbn; lia|].
    exists [1; 2; 3; 4]. split; [reflexivity|cbv; discriminate].
  - reflexivity.
  - discriminate.
Defined.

(** [freerds_client_message_free] indexes
    the table with the message type itself instead of the type minus 100: for
    every client message it reads outside the table of 32 entries. *)
Theorem client_message_free_out_of_bounds {W : WStream} {F : WindowOrder} c m :
  100 <= msg_type c -> freerds_client_message_free (Msg c m) = None.
Proof.
  intros Ht. unfold freerds_client_message_free, table_get. cbn [common].
  rewrite decide_True by lia. rewrite lookup_ge_None_2; [done|].
  cbn [RDS_CLIENT_MSG_DEFINITIONS length]. lia.
Qed.

Lemma client_message_free_out_of_bounds_witness :
  freerds_client_message_free (Msg (header 112) (mLogoffUser (LogoffUser.mk 0))) = None.
Proof. apply client_message_free_out_of_bounds. discriminate. Defined.
