(* ===== verification/TransportTheorems.v ===== *)
(** * Theorems on the transport

    Sending and receiving over the pipe (freerds/backend/transport.c and
    freerds/backend/outbound.c), alone and end to end. *)

From S2P Require Import Prelude WStream ListStream Message ClientMsg ServerMsg VarMsg SessionMsg.
From S2P Require Import WindowMsg MsgTable TableFacts Pipe Transport TransportFacts Queue Delivery.
From S2P Require Import Outbound OutboundFacts Pipeline Instances.

(** ** A concrete backend

    An interface that logs the messages it is called with, on list-backed
    streams and pipes. *)

Definition log_server {B} `{View B} : handler (list msg_body) B :=
  fun bk m => Some (0, set_app (app bk ++ [inj (body m)]) bk).

Definition logging_server : rdsServerInterface (list msg_body) := {|
  BeginUpdate := Some log_server; EndUpdate := Some log_server; Beep := Some log_server;
  IsTerminated := Some (fun bk => Some (0, bk));
  OpaqueRect := Some log_server; ScreenBlt := Some log_server; PaintRect := Some log_server;
  PatBlt := Some log_server; DstBlt := Some log_server; SetPointer := Some log_server;
  SetSystemPointer := Some log_server; SetPalette := Some log_server;
  SetClippingRegion := Some log_server; LineTo := Some log_server; CacheGlyph := Some log_server;
  GlyphIndex := Some log_server; SharedFramebuffer := Some log_server; Reset := Some log_server;
  CreateOffscreenSurface := Some log_server; SwitchOffscreenSurface := Some log_server;
  DeleteOffscreenSurface := Some log_server; PaintOffscreenSurface := Some log_server;
  WindowNewUpdate := Some log_server; WindowDelete := Some log_server;
  LogonUser := Some log_server; LogoffUser := Some log_server
|}.

Definition no_client {A} : rdsClientInterface A :=
  mk_client None None None None None None None None None None None.


Definition zero_server_locals : server_locals := {|
  l_begin_update := BeginUpdate.mk; l_end_update := EndUpdate.mk;
  l_opaque_rect := OpaqueRect.mk 0 0 0 0 0; l_screen_blt := ScreenBlt.mk 0 0 0 0 0 0 0;
  l_patblt := PatBlt.mk 0 0 0 0 0 0 0 (PatBlt.mk_brush 0 0 0 0 0 0 None);
  l_dstblt := DstBlt.mk 0 0 0 0 0;
  l_paint_rect := PaintRect.mk 0 0 0 0 0 0 None 0 0 PaintRect.fb_wild;
  l_set_clipping_region := SetClippingRegion.mk 0 0 0 0 0;
  l_line_to := LineTo.mk 0 0 0 0 0 0 0 0 0 0;
  l_set_pointer := SetPointer.mk 0 0 0 0 0 0 0 None None;
  l_set_system_pointer := SetSystemPointer.mk 0;
  l_create_offscreen_surface := CreateOffscreenSurface.mk 0 0 0;
  l_switch_offscreen_surface := SwitchOffscreenSurface.mk 0;
  l_delete_offscreen_surface := DeleteOffscreenSurface.mk 0;
  l_paint_offscreen_surface := PaintOffscreenSurface.mk 0 0 0 0 0 0 0 0;
  l_window_new_update := WindowNewUpdate.mk 0 0 0 0 0 (WindowNewUpdate.mk_unicode 0 None)
    0 0 0 0 0 0 0 0 0 0 0 0 0 None 0 0 0 None;
  l_window_delete := WindowDelete.mk 0;
  l_shared_framebuffer := SharedFramebuffer.mk 0 0 0 0 0 0 0;
  l_logon_user := LogonUser.mk 0 0 0 0 None None None; l_logoff_user := LogoffUser.mk 0
|}.

Definition zero_client_locals : client_locals := {|
  l_capabilities := Capabilities.mk 0 0 0 0 0 0 0;
  l_synchronize_keyboard_event := SynchronizeKeyboardEvent.mk 0;
  l_scancode_keyboard_event := ScancodeKeyboardEvent.mk 0 0 0;
  l_virtual_keyboard_event := VirtualKeyboardEvent.mk 0 0;
  l_unicode_keyboard_event := UnicodeKeyboardEvent.mk 0 0;
  l_mouse_event := MouseEvent.mk 0 0 0; l_extended_mouse_event := ExtendedMouseEvent.mk 0 0 0;
  l_vblank_event := VBlankEvent.mk
|}.

Definition zero_common : RDS_MSG_COMMON := mk_common 0 0 0 (mk_rect 0 0 0 0).

(** A backend with streams of [n] bytes whose peer sends [input], cut into
    reads as [cuts] says. *)
Definition backend_of {A} (mode : bool) (n : nat) (input : list Z) (cuts : list nat) (a : A) :
    rdsBackend A :=
  mk_backend mode (LPipe input cuts [] 3) (LStream (replicate n 0) 0 n) (LStream (replicate n 0) 0 n) a.

Lemma backend_of_holds {A} mode n input cuts (a : A) :
  holds (InboundStream (backend_of mode n input cuts a)) [] n.
Proof. exists (replicate n 0), n. rewrite length_replicate. repeat split; cbn; lia. Defined.

(** ** Sending *)

(** C36. [freerds_named_pipe_write] always returns: the
    loop ends after at most [length] iterations, either with all bytes accepted
    in order and their number as status, or with -1 after a proper prefix. *)
Theorem named_pipe_write_complete {P : Pipe} {PL : PipeLaws P} p data length :
  0 <= length <= Z.of_nat (List.length data) -> length < 2 ^ 31 ->
  exists st p', freerds_named_pipe_write p data length = Some (st, p') /\
    inbound p' = inbound p /\
    ((st = length /\ outbound p' = outbound p ++ take (Z.to_nat length) data) \/
     (st = -1 /\ exists k, (k < Z.to_nat length)%nat /\ outbound p' = outbound p ++ take k data)).
Proof.
  intros Hl Hm. destruct (named_pipe_write_spec p data length Hl) as (st & p' & E & Hi & Hc); [lia|].
  exists st, p'. split; [done|]. split; [done|].
  rewrite i32_id in Hc by (unfold is_i32; lia). done.
Qed.

Lemma named_pipe_write_complete_witness :
  exists st p', freerds_named_pipe_write (P := list_pipe) (LPipe [] [] [] 2) [1; 2; 3; 4; 5; 6; 7; 8] 7 =
    Some (st, p').
Proof.
  destruct (named_pipe_write_complete (P := list_pipe) (LPipe [] [] [] 2) [1; 2; 3; 4; 5; 6; 7; 8] 7)
    as (st & p' & E & _); [cbv; split; discriminate|reflexivity|].
  exists st, p'. exact E.
Defined.

(** [freerds_server_outbound_write_message] makes room
    in the outbound stream, marshals the message and puts exactly its bytes on
    the pipe, or returns -1 after a proper prefix; the inbound side and the
    rest of the backend do not change. *)
Theorem server_outbound_sends {W : WStream} {L : WStreamLaws W} {P : Pipe} {PL : PipeLaws P}
    {F : WindowOrder} {A} (bk : rdsBackend A) c m :
  ok_body m -> msg_type c = server_type m -> 0 <= server_type m -> usable (OutboundStream bk) ->
  Z.of_nat (length (wire_msg c m)) < 2 ^ 31 ->
  exists st bk', freerds_server_outbound_write_message bk (Msg c m) = Some (st, bk') /\
    sent (wire_msg c m) bk st bk'.
Proof. apply server_outbound_spec. Qed.

Lemma server_outbound_sends_witness :
  let m := mSharedFramebuffer (SharedFramebuffer.mk 1 1024 768 4096 7 32 4) in
  exists st bk', freerds_server_outbound_write_message (backend_of false 8 [] [] tt)
    (Msg (mk_common 18 0 0 (mk_rect 0 0 0 0)) m) = Some (st, bk').
Proof.
  destruct (server_outbound_sends (backend_of false 8 [] [] tt) (mk_common 18 0 0 (mk_rect 0 0 0 0))
    (mSharedFramebuffer (SharedFramebuffer.mk 1 1024 768 4096 7 32 4))) as (st & bk' & E & _).
  - cbv. repeat split; discriminate.
  - reflexivity.
  - discriminate.
  - exists (replicate 8 0), 0%nat, 8%nat. split; [repeat split|cbv; lia].
  - reflexivity.
  - exists st, bk'. exact E.
Defined.

(** Every input event function of the client outbound
    interface puts the header and the fields of its event on the pipe, in the
    layout that the receiving side expects, or returns -1 after a proper
    prefix. *)
Theorem client_event_sent {W : WStream} {L : WStreamLaws W} {P : Pipe} {PL : PipeLaws P}
    {F : WindowOrder} {A} common0 (bk : rdsBackend A) c e :
  match e with cCapabilities _ => False | _ => True end ->
  ok_event e -> roomy 64 (OutboundStream bk) ->
  let it := mk_client_msg (event_header common0 (event_type e)) e in
  exists st bk', call_client (freerds_client_outbound_interface_new common0) bk c e = Some (st, bk') /\
    sent (wire_header (event_common it) ++ wire_event e) bk st bk' /\
    msg_length (event_common it) = Z.of_nat (length (wire_header (event_common it) ++ wire_event e)).
Proof.
  intros Hc Hok (buf & pos & len & Hs & Hb & Hroom) it.
  assert (Z.of_nat (length (wire_event e)) <= 32) as Hsz by (destruct e; cbv; discriminate).
  assert (Z.of_nat (length (wire_header (event_common it) ++ wire_event e)) =
          10 + Z.of_nat (length (wire_event e))) as Hlen.
  { rewrite length_app, Nat2Z.inj_add. unfold event_common. by rewrite length_wire_out. }
  assert (roomy (Z.of_nat (length (wire_header (event_common it) ++ wire_event e))) (OutboundStream bk))
    as Hr by (exists buf, pos, len; split; [done|split; [done|lia]]).
  assert (msg_length (event_common it) = Z.of_nat (length (wire_header (event_common it) ++ wire_event e)))
    as Hml by (rewrite Hlen; unfold event_common, out_common; cbn [msg_length header_size];
               apply u32_id; unfold is_u32; cbn [cm_body it]; lia).
  destruct e as [b|b|b|b|b|b|b|b]; [by destruct Hc|..];
    match goal with |- context [wire_event ?ev] =>
      match ev with
      | cSynchronizeKeyboardEvent _ => pose proof (outbound_event_spec common0 SynchronizeKeyboardEvent.freerds_write_synchronize_keyboard_event 104 b bk) as Hev
      | cScancodeKeyboardEvent _ => pose proof (outbound_event_spec common0 ScancodeKeyboardEvent.freerds_write_scancode_keyboard_event 105 b bk) as Hev
      | cVirtualKeyboardEvent _ => pose proof (outbound_event_spec common0 VirtualKeyboardEvent.freerds_write_virtual_keyboard_event 106 b bk) as Hev
      | cUnicodeKeyboardEvent _ => pose proof (outbound_event_spec common0 UnicodeKeyboardEvent.freerds_write_unicode_keyboard_event 107 b bk) as Hev
      | cMouseEvent _ => pose proof (outbound_event_spec common0 MouseEvent.freerds_write_mouse_event 108 b bk) as Hev
      | cExtendedMouseEvent _ => pose proof (outbound_event_spec common0 ExtendedMouseEvent.freerds_write_extended_mouse_event 109 b bk) as Hev
      | cVBlankEvent _ => pose proof (outbound_event_spec common0 VBlankEvent.freerds_write_vblank_event 110 b bk) as Hev
      end end;
    destruct (Hev Hok Hr) as (st & bk' & E & Hsent);
    try (exists st, bk'; split; [destruct b; exact E|split; [exact Hsent|exact Hml]]);
    (change (Z.of_nat (length (wire_header (event_common it) ++ wire_event (it.(cm_body)))) < 2 ^ 31);
     cbn [cm_body it]; lia).
Qed.

Lemma client_event_sent_witness :
  let bk := backend_of (A := unit) true 64 [] [] tt in
  exists st bk', call_client (freerds_client_outbound_interface_new zero_common) bk zero_common
    (cMouseEvent (MouseEvent.mk 0x8000 100 200)) = Some (st, bk').
Proof.
  destruct (client_event_sent zero_common (backend_of (A := unit) true 64 [] [] tt) zero_common
              (cMouseEvent (MouseEvent.mk 0x8000 100 200))) as (st & bk' & E & _).
  - exact I.
  - cbv. repeat split; discriminate.
  - exists (replicate 64 0), 0%nat, 64%nat. split; [repeat split|]. split; [cbv; lia|vm_compute; discriminate].
  - exists st, bk'. exact E.
Defined.

(** ** Receiving *)


(** Three messages for the concrete backend. *)
Definition demo_msgs : list server_msg := [
  mk_server_msg (mk_common 1 0 0 (mk_rect 0 0 0 0)) (mBeginUpdate BeginUpdate.mk);
  mk_server_msg (mk_common 4 0 0 (mk_rect 0 0 0 0)) (mOpaqueRect (OpaqueRect.mk 10 20 30 40 0xFFFFFF));
  mk_server_msg (mk_common 2 0 0 (mk_rect 0 0 0 0)) (mEndUpdate EndUpdate.mk)].

Definition demo_protocol : Protocol server_msg :=
  server_protocol logging_server zero_server_locals zero_common.

Lemma demo_sendable :
  Forall (sendable logging_server zero_server_locals zero_common 64) demo_msgs.
Proof.
  do 3 (apply List.Forall_cons;
    [cbv [sm_body sm_common sendable];
     split; [cbv; repeat split; discriminate|]; split; [reflexivity|];
     split; [cbv; repeat split; discriminate|]; split; [vm_compute; lia|];
     eexists _, _; split; [reflexivity|]; split; [exact I|]; split; [reflexivity|];
     intros bk; eexists _, _; split; [reflexivity|repeat split]|]).
  apply List.Forall_nil.
Defined.

Definition demo_backend (cuts : list nat) : rdsBackend (list msg_body) :=
  backend_of false 64 (wire_queue (Pr := demo_protocol) demo_msgs) cuts [].








(** C38. The length that a peer declares in the header is
    not compared with the room in the inbound stream: once the header is there,
    a read that delivers more bytes than the room is stored past the end of the
    stream's block. *)
Theorem declared_length_unchecked {W : WStream} {L : WStreamLaws W} {P : Pipe} {PL : PipeLaws P}
    {F : WindowOrder} {A} (server : rdsServerInterface A) client sl cl common0 bk buf len n bs p' :
  rep (InboundStream bk) buf 10 len -> (10 <= length buf)%nat ->
  freerds_peek_common_header_length buf = Some n -> is_u32 n -> n <> 10 ->
  ReadFile (hClientPipe bk) (u32 (n - 10)) = ((true, bs), p') ->
  (length buf < 10 + length bs)%nat ->
  freerds_transport_receive server client sl cl common0 bk = None.
Proof.
  intros Hs H10 Hpk Hn Hne Hrd Hov. pose proof Hs as (Eb & Ep & _).
  assert (receive_header bk = Some (true, bk)) as Eh
    by (unfold receive_header, position; rewrite Ep; reflexivity).
  assert (receive_body bk = None) as Ebd;
    [|unfold freerds_transport_receive; rewrite Eh; cbn [mbind option_bind negb]; by rewrite Ebd].
  unfold receive_body, position. rewrite Ep, Eb, Hpk. change (Z.of_nat 10) with 10.
  change (RDS_ORDER_HEADER_LENGTH <=? 10) with true. cbv iota. cbn [mbind option_bind].
  assert (u64 (n - 10) <> 0) as Hnz.
  { unfold u64, is_u32 in *. intros E0. apply Z.mod_divide in E0 as [q Hq]; lia. }
  destruct (Z.eqb_spec (u64 (n - 10)) 0); [done|].
  assert (u32 (u64 (n - 10)) = u32 (n - 10)) as ->.
  { unfold u32, u64. apply Z.mod_mod_divide. exists (2 ^ 32). reflexivity. }
  unfold receive_bytes, freerds_named_pipe_read. rewrite Hrd.
  assert ((Z.of_nat (length bs) =? 0) = false) as -> by (apply Z.eqb_neq; lia). cbn [negb orb].
  rewrite store_oob; [done|]. unfold Stream_Capacity. rewrite Eb, Ep. lia.
Qed.

Lemma declared_length_unchecked_witness :
  let hdr := le16 1 ++ le32 40 ++ le32 0 in
  let bk := mk_backend (W := list_wstream) (P := list_pipe) false (LPipe (replicate 60 7) [] [] 0)
              (LStream (replicate 32 0) 0 32) (LStream (hdr ++ replicate 22 0) 10 32) [] in
  freerds_transport_receive logging_server no_client zero_server_locals zero_client_locals zero_common bk = None.
Proof.
  eapply (declared_length_unchecked logging_server no_client zero_server_locals zero_client_locals zero_common
    (mk_backend (W := list_wstream) (P := list_pipe) false (LPipe (replicate 60 7) [] [] 0)
       (LStream (replicate 32 0) 0 32) (LStream ((le16 1 ++ le32 40 ++ le32 0) ++ replicate 22 0) 10 32) [])
    ((le16 1 ++ le32 40 ++ le32 0) ++ replicate 22 0) 32 40 (replicate 30 7)).
  - repeat split.
  - vm_compute. lia.
  - vm_compute. reflexivity.
  - split; [discriminate|reflexivity].
  - discriminate.
  - vm_compute. reflexivity.
  - vm_compute. lia.
Defined.

(** The outbound client interface sends logon,
    logoff and suppress-output messages, but the receiving side has no case for
    them (nor for refresh rectangles): they are dropped, with status 0 and
    without a call of the interface. *)
Theorem client_session_messages_ignored {W : WStream} {P : Pipe} {A}
    (client : rdsClientInterface A) cl bk c :
  In (msg_type c) [103; 111; 112; 114] ->
  freerds_receive_client_message client cl bk c = Some (0, bk).
Proof.
  intros Hin. unfold freerds_receive_client_message.
  cbn [In] in Hin. destruct Hin as [<-|[<-|[<-|[<-|[]]]]]; reflexivity.
Qed.

Lemma client_session_messages_ignored_witness :
  freerds_receive_client_message no_client zero_client_locals (backend_of true 16 [] [] tt)
    (mk_common 111 0 0 (mk_rect 0 0 0 0)) = Some (0, backend_of true 16 [] [] tt).
Proof. apply client_session_messages_ignored. cbn. tauto. Defined.

(** The write functions of the palette, glyph,
    beep and reset messages are empty, so the outbound function sends as many
    bytes of whatever the outbound stream held before as the length field of
    the caller's struct happens to say. *)
Theorem stub_messages_send_stale_bytes {W : WStream} {L : WStreamLaws W} {P : Pipe} {PL : PipeLaws P}
    {F : WindowOrder} {A} (bk : rdsBackend A) c m buf pos len :
  stub_body m -> msg_type c = server_type m -> rep (OutboundStream bk) buf pos len ->
  (len <= length buf)%nat -> 0 <= msg_length c <= Z.of_nat (length buf) -> msg_length c < 2 ^ 31 ->
  exists st bk', freerds_server_outbound_write_message bk (Msg c m) = Some (st, bk') /\
    sent (take (Z.to_nat (msg_length c)) buf) bk st bk'.
Proof.
  intros Hm Ht Hs Hb Hl Hu. unfold freerds_server_outbound_write_message. cbv zeta.
  rewrite (stub_write c m None Hm Ht). cbn [mbind option_bind common].
  rewrite stub_write by done. cbn [mbind option_bind common].
  pose proof (setpos_spec _ _ _ _ 0%nat Hs ltac:(lia)) as H0.
  destruct (ensure_spec _ _ _ _ (msg_length c) H0) as (buf' & len' & Hr & Hpre & Hc & _ & Hl'); [lia|lia|lia|].
  assert (take (Z.to_nat (msg_length c)) buf = take (Z.to_nat (msg_length c)) buf') as E
    by (rewrite <-Hpre, take_take, Nat.min_l by lia; done).
  assert (Z.of_nat (length (take (Z.to_nat (msg_length c)) buf)) = msg_length c) as El
    by (rewrite length_take; lia).
  match goal with |- context [freerds_named_pipe_write ?p ?b (msg_length c)] =>
    replace (freerds_named_pipe_write p b (msg_length c)) with
      (freerds_named_pipe_write p b (Z.of_nat (length (take (Z.to_nat (msg_length c)) buf))))
      by (by rewrite El) end.
  eapply write_out; [exact Hr|done| |lia]. rewrite E, length_take_le by lia. done.
Qed.

Lemma stub_messages_send_stale_bytes_witness :
  let bk := mk_backend (W := list_wstream) (P := list_pipe) false (LPipe [] [] [] 100)
              (LStream [1; 2; 3; 4; 5; 6; 7; 8] 8 8) (LStream [] 0 0) tt in
  exists st bk', freerds_server_outbound_write_message bk
    (Msg (mk_common 19 5 0 (mk_rect 0 0 0 0)) (mBeep Stubs.mk_beep)) = Some (st, bk').
Proof.
  destruct (stub_messages_send_stale_bytes
    (mk_backend (W := list_wstream) (P := list_pipe) false (LPipe [] [] [] 100)
       (LStream [1; 2; 3; 4; 5; 6; 7; 8] 8 8) (LStream [] 0 0) tt)
    (mk_common 19 5 0 (mk_rect 0 0 0 0)) (mBeep Stubs.mk_beep) [1; 2; 3; 4; 5; 6; 7; 8] 8 8)
    as (st & bk' & E & _).
  - exact I.
  - reflexivity.
  - repeat split.
  - cbv. lia.
  - cbv. split; discriminate.
  - reflexivity.
  - exists st, bk'. exact E.
Defined.

(** ** End to end *)

(** C1. A sequence of calls of the server outbound interface
    on one backend, each of a function that has a message to write, is defined.
    When none of them fails and the other backend receives the bytes that were
    put on the pipe, the interface behind the other backend is called once per
    call, in the order of the calls, with the messages that were sent. The scope
    ([callable], [proxied]): begin and end of an update, the drawing orders, the
    clipping region, the pointers, the offscreen surfaces, the shared
    framebuffer and the deletion of a window. Left out are Beep, SetPalette,
    CacheGlyph, GlyphIndex and Reset, whose write functions are empty, so that
    stale bytes of the stream are sent; WindowNewUpdate, whose reader is not the
    inverse of its writer; and LogonUser and LogoffUser, for which the interface
    has no function. Every message is well-formed and fits the inbound stream,
    the other backend has a function for it that returns ([sendable]), and for
    PatBlt the local struct that the receiver reads into must point to eight
    bytes for the pattern, which the code does not provide for. *)
Theorem proxied_calls_arrive {W : WStream} {L : WStreamLaws W} {P : Pipe} {PL : PipeLaws P}
    {F : WindowOrder} {A1 A2} (server : rdsServerInterface A2) client sl cl common0 cap
    (bk1 : rdsBackend A1) (bk2 : rdsBackend A2) calls :
  live -> (10 <= cap)%nat -> Z.of_nat cap < 2 ^ 31 ->
  Forall callable calls -> Forall (sendable server sl common0 cap) (map message_of calls) ->
  usable (OutboundStream bk1) -> ServerMode bk2 = false -> holds (InboundStream bk2) [] cap ->
  exists succeeded bk1', call_all bk1 calls = Some (succeeded, bk1') /\
    (succeeded = true ->
     outbound (hClientPipe bk1') = outbound (hClientPipe bk1) ++ inbound (hClientPipe bk2) ->
     exists bk2', receive_times server client sl cl common0 (length (inbound (hClientPipe bk2))) bk2 = Some bk2' /\
       delivered (Pr := server_protocol server sl common0) bk2 (map message_of calls) bk2').
Proof.
  intros Hlive H10 Hcap Hc Hs Hu Hm Hh.
  destruct (call_all_spec bk1 calls Hc Hu) as (ok_ & bk1' & E & _ & _ & Ho).
  exists ok_, bk1'. split; [done|]. intros -> Ho'. rewrite Ho in Ho'. apply app_inv_head in Ho'.
  rewrite (call_bytes_queue server sl common0) in Ho'.
  destruct (receive_times_spec (Pr := server_protocol server sl common0) server client sl cl common0 cap
              (map message_of calls) (length (inbound (hClientPipe bk2))) bk2 H10 Hcap)
    as (bk2' & dn & td & E2 & Em & Hd & _ & Hl).
  { revert Hs. apply Forall_impl. intros it. by apply sendable_deliverable. }
  { apply in_sync_idle; [exact Hm|exact Hh|by symmetry]. }
  specialize (Hl Hlive ltac:(lia)). subst td. rewrite app_nil_r in Em. subst dn.
  exists bk2'. done.
Qed.

Definition demo_calls : list (RDS_MSG_COMMON * msg_body) :=
  map (fun it => (zero_common, sm_body it)) demo_msgs.

Lemma proxied_calls_arrive_witness :
  exists bk1' bk2', call_all (backend_of false 8 [] [] tt) demo_calls = Some (true, bk1') /\
    receive_times logging_server no_client zero_server_locals zero_client_locals zero_common
      (length (inbound (hClientPipe (demo_backend [])))) (demo_backend []) = Some bk2'.
Proof.
  destruct (proxied_calls_arrive logging_server no_client zero_server_locals zero_client_locals zero_common
    64 (backend_of false 8 [] [] tt) (demo_backend []) demo_calls) as (sc & bk1' & E & H).
  - exact list_pipe_live.
  - lia.
  - reflexivity.
  - do 3 (apply List.Forall_cons;
      [split; [exact I|]; split; [cbv; repeat split; discriminate|vm_compute; reflexivity]|]).
    apply List.Forall_nil.
  - exact demo_sendable.
  - exists (replicate 8 0), 0%nat, 8%nat. split; [repeat split|cbv; lia].
  - reflexivity.
  - apply backend_of_holds.
  - vm_compute in E. injection E as <- <-. destruct H as (bk2' & E2 & _); [reflexivity|vm_compute; reflexivity|].
    eexists _, bk2'. split; [vm_compute; reflexivity|exact E2].
Defined.
