(* ===== verification/PipelineTheorems.v ===== *)
(** * Theorems on the server message pipeline

    Alignment, packing, queueing and processing in freerds/core/pipeline.c. *)

From S2P Require Import Prelude WStream ListStream Message ClientMsg ServerMsg VarMsg SessionMsg.
From S2P Require Import WindowMsg MsgTable TableFacts Pipe Transport TransportFacts Queue Delivery.
From S2P Require Import Pipeline PipelineFacts Instances.

(** A connector with the given list and queue on a 1024x768 desktop. *)
Definition connector_of (l : list node) (q : list (wMessage node)) :
    rdsBackend (connector_ext (K := list_collections) (A := list Z)) :=
  mk_backend (W := list_wstream) (P := list_pipe) false (LPipe [] [] [] 0) (LStream [] 0 0) (LStream [] 0 0)
    {| ServerList := l; ServerQueue := q; DesktopWidth := 1024; DesktopHeight := 768;
       fbAttached := 1; fbSegmentId := 7; MaxFps := 30; fps := 10; ext := [] |}.

(** ** Alignment *)

(** [freerds_message_server_align_rect] moves the top left
    corner to multiples of 16, keeps the rectangle inside the desktop, and
    keeps every pixel of the rectangle that lies on the desktop. *)
Theorem align_rect_correct {W : WStream} {P : Pipe} {K : Collections} {A}
    (bk : rdsBackend (connector_ext (A := A))) r :
  desktop_size (DesktopWidth (app bk)) -> desktop_size (DesktopHeight (app bk)) ->
  small_coord (rect_x r) -> small_coord (rect_y r) ->
  small_size (rect_width r) -> small_size (rect_height r) ->
  let r' := freerds_message_server_align_rect bk r in
  (rect_x r' mod 16 = 0 /\ rect_y r' mod 16 = 0) /\
  (0 <= rect_x r' < DesktopWidth (app bk) /\ 0 <= rect_y r' < DesktopHeight (app bk)) /\
  (0 <= rect_width r' /\ 0 <= rect_height r') /\
  (rect_x r' + rect_width r' <= DesktopWidth (app bk) /\
   rect_y r' + rect_height r' <= DesktopHeight (app bk)) /\
  forall x y, covers r x y -> 0 <= x < DesktopWidth (app bk) -> 0 <= y < DesktopHeight (app bk) ->
    covers r' x y.
Proof. apply align_rect_spec. Qed.

Lemma align_rect_correct_witness :
  let r' := freerds_message_server_align_rect (connector_of [] []) (mk_rect 100 50 1000 20) in
  rect_x r' + rect_width r' <= 1024 /\ rect_y r' + rect_height r' <= 768.
Proof.
  edestruct (align_rect_correct (connector_of [] []) (mk_rect 100 50 1000 20)) as (_ & _ & _ & H & _);
    [.. | exact H]; cbv; split; (reflexivity || discriminate).
Defined.

(** The width is not rounded to a multiple of 16: the
    remainder is added instead of its complement, so 17 pixels at the left edge
    become 18. *)
Theorem align_width_not_multiple :
  align_x 1024 0 17 = (0, 18) /\ align_y 768 0 17 = (0, 18).
Proof. split; reflexivity. Qed.

(** ** Packing *)

(** C14. For a list of messages whose header rectangles, where
    they have one, are not empty, not negative and end below 2^16, and a desktop
    of at most 2^15 pixels a side, [freerds_message_server_queue_pack] empties
    the list, posts every message without a rectangle to the queue, in order and
    after what was there, followed by at most one paint message; with an
    attached framebuffer, every pixel of the desktop that one of the packed
    messages draws is inside the rectangle of that paint message, which lies on
    the desktop. The restriction is needed: the header carries INT32 coordinates
    and the code stores them in UINT16, so that the rectangle of something that
    is partly off the left or upper edge is turned into another one. *)
Theorem queue_pack_correct {W : WStream} {L : WStreamLaws W} {P : Pipe} {F : WindowOrder}
    {K : Collections} {KL : CollectionsLaws K} {G : Region16} {GL : Region16Laws G} {A}
    common0 (bk : rdsBackend (connector_ext (A := A))) ms :
  LinkedList_items (ServerList (app bk)) = Some <$> ms -> Forall draws ms ->
  desktop_size (DesktopWidth (app bk)) -> desktop_size (DesktopHeight (app bk)) ->
  exists bk' paint, freerds_message_server_queue_pack common0 bk = Some (0, bk') /\
    LinkedList_items (ServerList (app bk')) = [] /\
    MessageQueue_items (ServerQueue (app bk')) =
      MessageQueue_items (ServerQueue (app bk)) ++ (posted <$> List.filter plain ms) ++ paint /\
    (paint = [] \/ exists r, in_desktop bk r /\ 0 < rect_width r /\ 0 < rect_height r /\ fbAttached (app bk) <> 0 /\
       paint = [posted (paint_message common0 bk r)]) /\
    (fbAttached (app bk) <> 0 -> forall m x y, In m ms -> has_rect (common m) = true ->
       covers (rect (common m)) x y -> 0 <= x < DesktopWidth (app bk) ->
       0 <= y < DesktopHeight (app bk) ->
       exists r, in_desktop bk r /\ paint = [posted (paint_message common0 bk r)] /\ covers r x y).
Proof. apply queue_pack_spec. Qed.

(** A frame: begin, two drawing messages, end. *)
Definition demo_frame : list (MSG msg_body) := [
  Msg (mk_common 1 10 0 (mk_rect 0 0 0 0)) (mBeginUpdate BeginUpdate.mk);
  Msg (mk_common 4 38 1 (mk_rect 10 20 30 40)) (mOpaqueRect (OpaqueRect.mk 10 20 30 40 0));
  Msg (mk_common 4 38 1 (mk_rect 500 600 100 50)) (mOpaqueRect (OpaqueRect.mk 500 600 100 50 0));
  Msg (mk_common 2 10 0 (mk_rect 0 0 0 0)) (mEndUpdate EndUpdate.mk)].

Lemma queue_pack_correct_witness :
  exists bk', freerds_message_server_queue_pack (mk_common 0 0 0 (mk_rect 0 0 0 0))
    (connector_of (Some <$> demo_frame) []) = Some (0, bk').
Proof.
  destruct (queue_pack_correct (mk_common 0 0 0 (mk_rect 0 0 0 0)) (connector_of (Some <$> demo_frame) [])
              demo_frame) as (bk' & paint & E & _).
  - reflexivity.
  - do 4 (apply List.Forall_cons; [intros H; cbv in H |- *; try discriminate; repeat split; discriminate|]).
    apply List.Forall_nil.
  - cbv. split; [reflexivity|discriminate].
  - cbv. split; [reflexivity|discriminate].
  - exists bk'. exact E.
Defined.

(** ** Queueing and processing *)

(** The function of the pipeline interface for a message
    kind stamps the type of the message and appends a copy of it to the end of
    the list; for a message that a reader has produced the copy is equal to
    it. *)
Theorem enqueue_appends_copy {W : WStream} {L : WStreamLaws W} {P : Pipe} {F : WindowOrder}
    {K : Collections} {KL : CollectionsLaws K} {A} (proxy : rdsServerInterface (connector_ext (A := A)))
    (bk : rdsBackend (connector_ext (A := A))) c m0 m r :
  recv_body m0 m = Some r -> ok_body m -> 0 <= server_type m ->
  match m with mWindowDelete _ | mLogonUser _ | mLogoffUser _ => False | _ => True end ->
  exists bk', call_server (pipeline_interface proxy) bk c r = Some (0, bk') /\
    LinkedList_items (ServerList (app bk')) =
      LinkedList_items (ServerList (app bk)) ++
      [Some (Msg (mk_common (server_type m) (msg_length c) (msgFlags c) (rect c)) r)].
Proof.
  intros Er Hok H0 Hm. set (c' := mk_common (server_type m) (msg_length c) (msgFlags c) (rect c)).
  destruct (copy_received c' m0 m r Er Hok eq_refl H0) as (bl & Ec).
  assert (call_server (pipeline_interface proxy) bk c r = freerds_server_message_enqueue bk (Msg c' r)) as ->.
  { destruct m, m0; try discriminate; try (by destruct H0); try (by destruct Hm); by injection Er as <-. }
  unfold freerds_server_message_enqueue. rewrite Ec. cbn [mbind option_bind fmap option_fmap option_map fst].
  eexists. split; [reflexivity|]. apply list_add_items.
Qed.

Lemma enqueue_appends_copy_witness :
  let m := mSetSystemPointer (SetSystemPointer.mk 2) in
  exists bk', call_server (pipeline_interface (mk_server None None None None None None None None None None
      None None None None None None None None None None None None None None None None))
    (connector_of [] []) (mk_common 0 14 0 (mk_rect 0 0 0 0)) m = Some (0, bk').
Proof.
  destruct (enqueue_appends_copy (mk_server None None None None None None None None None None
      None None None None None None None None None None None None None None None None)
      (connector_of [] []) (mk_common 0 14 0 (mk_rect 0 0 0 0))
      (mSetSystemPointer (SetSystemPointer.mk 0)) (mSetSystemPointer (SetSystemPointer.mk 2))
      (mSetSystemPointer (SetSystemPointer.mk 2))) as (bk' & E & _).
  - reflexivity.
  - cbv. split; [discriminate|reflexivity].
  - discriminate.
  - exact I.
  - exists bk'. exact E.
Defined.

(** As many calls of
    [freerds_message_server_queue_process_pending_messages] as there are queued
    messages hand each of them to the proxy, once and in order, and release it
    afterwards; the queue is then empty. *)
Theorem queue_processed_in_order {W : WStream} {L : WStreamLaws W} {P : Pipe} {F : WindowOrder}
    {K : Collections} {KL : CollectionsLaws K} {A} (proxy : rdsServerInterface (connector_ext (A := A)))
    ms frees bk :
  Forall queued ms -> Forall (proxy_serves proxy) ms -> Forall2 releasable ms frees ->
  MessageQueue_items (ServerQueue (app bk)) = posted <$> ms ->
  exists bk', process_times proxy (length ms) bk = Some (concat frees, bk') /\ drained proxy bk ms bk' /\
    MessageQueue_items (ServerQueue (app bk')) = [].
Proof. apply process_times_spec. Qed.

(** A proxy that records the types of the messages it is called with. *)
Definition log_type {B} : handler (connector_ext (K := list_collections) (A := list Z)) B :=
  fun bk m => let e := app bk in
    Some (0, set_app {| ServerList := ServerList e; ServerQueue := ServerQueue e;
                        DesktopWidth := DesktopWidth e; DesktopHeight := DesktopHeight e;
                        fbAttached := fbAttached e; fbSegmentId := fbSegmentId e; MaxFps := MaxFps e;
                        fps := fps e; ext := ext e ++ [msg_type (common m)] |} bk).

Definition logging_proxy : rdsServerInterface (W := list_wstream) (P := list_pipe)
    (connector_ext (K := list_collections) (A := list Z)) :=
  mk_server (Some log_type) (Some log_type) (Some log_type) None (Some log_type) (Some log_type)
    (Some log_type) (Some log_type) (Some log_type) (Some log_type) (Some log_type) (Some log_type)
    (Some log_type) (Some log_type) (Some log_type) (Some log_type) (Some log_type) (Some log_type)
    (Some log_type) (Some log_type) (Some log_type) (Some log_type) (Some log_type) (Some log_type)
    None None.

Lemma queue_processed_in_order_witness :
  exists bk', process_times logging_proxy 4 (connector_of [] (posted <$> demo_frame)) =
    Some ([blk_struct; blk_struct; blk_struct; blk_struct], bk').
Proof.
  destruct (queue_processed_in_order logging_proxy demo_frame
    [[blk_struct]; [blk_struct]; [blk_struct]; [blk_struct]] (connector_of [] (posted <$> demo_frame)))
    as (bk' & E & _).
  - do 4 (apply List.Forall_cons; [split; [reflexivity|exact I]|]). apply List.Forall_nil.
  - do 4 (apply List.Forall_cons; [intros bk; eexists _, _; split; reflexivity|]). apply List.Forall_nil.
  - do 4 (apply List.Forall2_cons; [reflexivity|]). apply List.Forall2_nil.
  - reflexivity.
  - exists bk'. exact E.
Defined.
