(* ===== verification/RpcTheorems.v ===== *)
(** * Theorems on the RPC messages

    Round trips, memory safety and ownership for the messages of
    freerds/rpc/msg.c, through the functions of freerds/rpc/pack.c and the
    bundled msgpack. *)

From S2P Require Import Prelude WStream ListStream VarMsg SessionMsg Msgpack MsgpackFacts RpcPack.
From S2P Require Import RpcMsg RpcTable RpcFacts.
Import LogonUser(text, ok_string, recv_string).

(** ** Round trip *)

(** C28. [freerds_rpc_msg_pack] packs every well-formed message of
    the table; [freerds_rpc_msg_unpack] of the packed bytes, into a struct of
    the same type with any contents, succeeds and yields the message: its
    fields, the status of a response, strings as fresh terminated copies with
    the empty string as [NULL].  A message in that form arrives unchanged. *)
Theorem rpc_round_trip {W : WStream} {L : WStreamLaws W} r s h0 b0 :
  rpc_ok r -> fresh s -> rpc_type b0 = rpc_type (rpc_data r) ->
  let type := rpc_type (rpc_data r) in
  exists s', freerds_rpc_msg_pack type (Some r) s = Some (Some s') /\
    Stream_GetPosition s' = 0%nat /\
    freerds_rpc_msg_unpack type (Some (Rpc h0 b0)) (take (Stream_Length s') (Stream_Buffer s')) =
      Some (true, Some (rpc_recv h0 r)) /\
    (rpc_canonical (rpc_data r) -> rpc_data (rpc_recv h0 r) = rpc_data r).
Proof.
  intros Hok Hs Ht type. destruct (rpc_pack_spec r s Hok Hs) as (s' & E & buf & (Hb & Hp & Hl) & Hbs).
  exists s'. split; [exact E|]. split; [exact Hp|]. rewrite Hb, Hl, Hbs.
  split; [|apply rpc_recv_canonical].
  rewrite <-(app_nil_r (wire_array _)). by apply rpc_unpack_spec.
Qed.

(** A logon request with a user name and an empty domain. *)
Definition demo_header : FDSAPI_MSG_HEADER := mk_rpc_header 0 0 7 0.
Definition demo_logon : rpc_msg :=
  Rpc demo_header (rLogonUserRequest (LogonUserRequest.mk 1 (Some [97; 98; 0]) (Some [0]) None
    1024 768 32 (Some [112; 99; 0]) None 2600 1 0 2)).
Definition empty_logon : rpc_body :=
  rLogonUserRequest (LogonUserRequest.mk 0 None None None 0 0 0 None None 0 0 0 0).

Lemma rpc_round_trip_witness :
  exists s', freerds_rpc_msg_pack FDSAPI_LOGON_USER_REQUEST_ID (Some demo_logon) None = Some (Some s') /\
    freerds_rpc_msg_unpack FDSAPI_LOGON_USER_REQUEST_ID (Some (Rpc demo_header empty_logon))
      (take (Stream_Length s') (Stream_Buffer s')) =
    Some (true, Some (Rpc demo_header (rLogonUserRequest (LogonUserRequest.mk 1 (Some [97; 98; 0]) None
      None 1024 768 32 (Some [112; 99; 0]) None 2600 1 0 2)))).
Proof.
  destruct (rpc_round_trip demo_logon None demo_header empty_logon) as (s' & E & _ & E' & _).
  - vm_compute. repeat split; discriminate.
  - exact I.
  - reflexivity.
  - exists s'. split; [exact E|exact E'].
Defined.

(** ** Arbitrary input *)

(** C37. On every sequence of bytes, the state machine of
    the unpacker ends after at most one iteration per byte and never reads
    outside of its data. *)
Theorem msgpack_unpack_returns data :
  Forall is_u8 data ->
  (exists r, msgpack_unpack_next data = Some r) /\
  forall stack p, (p < length data)%nat ->
    exists r, execute_loop data (length data - p) stack p = Some r.
Proof.
  intros Hd. split; [by apply unpack_next_total|].
  intros stack p Hp. by apply execute_loop_total.
Qed.

Lemma msgpack_unpack_returns_witness :
  exists r, msgpack_unpack_next [0xdb; 0xff; 0xff; 0xff; 0xff; 0x41] = Some r.
Proof.
  apply (msgpack_unpack_returns [0xdb; 0xff; 0xff; 0xff; 0xff; 0x41]).
  repeat (apply List.Forall_cons; [split; [discriminate|reflexivity]|]). apply List.Forall_nil.
Defined.

(** C29. [freerds_rpc_msg_unpack] on every buffer: the
    unpacker yields an object or fails, and the function returns TRUE exactly
    when the object is an array with at least as many elements as the message
    has fields, whose first elements have the types of the fields
    ([rpc_fields]); anything else is rejected with FALSE, and so is a type
    without an entry in the table. It reads no element behind the array, with
    one exception that is also exact: for
    [FDSAPI_CHANNEL_ENDPOINT_OPEN_RESPONSE], which has three fields and is
    checked for two, an array of just two unsigned integers makes it read a
    third element that is not there. *)
Theorem rpc_unpack_in_bounds {W : WStream} h0 b0 buffer :
  Forall is_u8 buffer ->
  exists root, msgpack_unpack_next buffer = Some root /\
    (freerds_rpc_msg_unpack (rpc_type b0) (Some (Rpc h0 b0)) buffer = None <->
       rpc_type b0 = FDSAPI_CHANNEL_ENDPOINT_OPEN_RESPONSE_ID /\
       exists v w, root = Some (MSGPACK_OBJECT_ARRAY [MSGPACK_OBJECT_POSITIVE_INTEGER v; MSGPACK_OBJECT_POSITIVE_INTEGER w])) /\
    (forall ok r', freerds_rpc_msg_unpack (rpc_type b0) (Some (Rpc h0 b0)) buffer = Some (ok, r') ->
       is_Some r' /\ (ok = true <-> exists os, root = Some (MSGPACK_OBJECT_ARRAY os) /\ fits (rpc_fields b0) os = true)) /\
    (forall type, freerds_rpc_msg_find_func type = Some None ->
       freerds_rpc_msg_unpack type (Some (Rpc h0 b0)) buffer = Some (false, Some (Rpc h0 b0))).
Proof.
  intros Hb. destruct (unpack_next_total buffer Hb) as [root Hr]. exists root. split; [done|].
  assert (forall os, acceptable os root = true <-> exists l, root = Some (MSGPACK_OBJECT_ARRAY l) /\ fits os l = true) as Hacc.
  { intros ks. destruct root as [[| | | | | |l|]|]; cbn; try (split; [done|by intros (? & ? & _)]). split; [by exists l|]. by intros (? & [= ->] & ?). }
  split; [|split]; [| |by intros type E; unfold freerds_rpc_msg_unpack; rewrite E].
  - destruct (decide (rpc_type b0 = FDSAPI_CHANNEL_ENDPOINT_OPEN_RESPONSE_ID)) as [Ht|Ht].
    + destruct (open_response_accepts h0 b0 buffer root Hr Ht) as [(v & w & -> & E)|[Hn [r' E]]]; rewrite E; [by split; [split; [|eauto]|]|].
      split; [done|]. by intros [_ ?].
    + destruct (rpc_unpack_accepts h0 b0 buffer root Hr Ht) as [r' E]. rewrite E. split; [done|]. by intros [? _].
  - intros ok r' E. rewrite <- Hacc. destruct (decide (rpc_type b0 = FDSAPI_CHANNEL_ENDPOINT_OPEN_RESPONSE_ID)) as [Ht|Ht].
    + destruct (open_response_accepts h0 b0 buffer root Hr Ht) as [(v & w & _ & E')|[_ [d E']]]; [congruence|]. rewrite E' in E. injection E as <- <-. by split.
    + destruct (rpc_unpack_accepts h0 b0 buffer root Hr Ht) as [d E']. rewrite E' in E. injection E as <- <-. by split.
Qed.

Lemma rpc_unpack_in_bounds_witness : exists root,
  msgpack_unpack_next [0x91; 0x05] = Some root /\
  (forall ok r', freerds_rpc_msg_unpack FDSAPI_LOGON_USER_REQUEST_ID (Some (Rpc demo_header empty_logon)) [0x91; 0x05] = Some (ok, r') ->
     is_Some r' /\ (ok = true <-> exists os, root = Some (MSGPACK_OBJECT_ARRAY os) /\ fits (rpc_fields empty_logon) os = true)).
Proof.
  destruct (rpc_unpack_in_bounds demo_header empty_logon [0x91; 0x05]) as (root & E & _ & H & _).
  - repeat (apply List.Forall_cons; [split; [discriminate|reflexivity]|]). apply List.Forall_nil.
  - exists root. split; [exact E|exact H].
Defined.

(** The unpack function of
    [FDSAPI_CHANNEL_ENDPOINT_OPEN_RESPONSE] accepts an array of two elements and
    reads three: on a response with only the status and the port it reads
    behind the array. *)
Theorem endpoint_open_response_over_read st port r rest :
  is_u32 st -> is_u32 port ->
  ChannelEndpointOpenResponse.freerds_unpack_channel_endpoint_open_response r
    (wire_array [MSGPACK_OBJECT_POSITIVE_INTEGER st; MSGPACK_OBJECT_POSITIVE_INTEGER port] ++ rest) = None.
Proof.
  intros Hs Hp. unfold ChannelEndpointOpenResponse.freerds_unpack_channel_endpoint_open_response.
  unfold unpack_message.
  rewrite (unpack_next_array _ [MSGPACK_OBJECT_POSITIVE_INTEGER st; MSGPACK_OBJECT_POSITIVE_INTEGER port]
             rest); [reflexivity|..|reflexivity].
  - repeat (apply List.Forall_cons; [done|]). apply List.Forall_nil.
  - simpl. lia.
Qed.

Lemma endpoint_open_response_over_read_witness :
  ChannelEndpointOpenResponse.freerds_unpack_channel_endpoint_open_response
    (Rpc demo_header (ChannelEndpointOpenResponse.mk 0 None)) [0x92; 0x00; 0x50] = None.
Proof.
  apply (endpoint_open_response_over_read 0 80
           (Rpc demo_header (ChannelEndpointOpenResponse.mk 0 None)) []);
    split; (discriminate || reflexivity).
Defined.

(** ** Ownership *)

(** [freerds_rpc_msg_free] frees every string of a
    message, each once, for every message but
    [FDSAPI_SWITCH_SERVICE_ENDPOINT_REQUEST], whose endpoint is never freed. *)
Theorem rpc_free_releases_strings {W : WStream} r :
  freerds_rpc_msg_free (rpc_type (rpc_data r)) (Some r) =
    Some (match rpc_data r with
          | rSwitchServiceEndpointRequest _ => []
          | b => rpc_strings b
          end).
Proof.
  destruct (decide (rpc_type (rpc_data r) = FDSAPI_SWITCH_SERVICE_ENDPOINT_REQUEST_ID)) as [E|E].
  - destruct r as [h []]; try discriminate E. reflexivity.
  - rewrite rpc_free_spec by done. destruct r as [h []]; try reflexivity. by destruct E.
Qed.
