(* ===== verification/RpcContext.v ===== *)
(** * The RPC context of the core

    freerds/core/rpc.c: the client of the session manager's pipe.  A caller
    registers a transaction under a fresh tag, queues a packet and waits on an
    event; the RPC thread sends the queued packets, receives packets and either
    completes the transaction with the tag of a response or serves a request.

    This file has the data and the functions, RpcThreads.v puts the RPC thread
    and its callers side by side.  A function on the server takes it and
    returns it changed (monad [RM]); [None] is undefined behaviour.

    Payloads are blocks of [mem]: a pointer to bytes is the number of its
    block, so a packet in the write queue and the stream of the caller that has
    queued it share a block, and using a block that has been freed is
    undefined.  The frames of the callers ([frames]) hold the structs they have
    on their stacks, among them the transaction and the
    [pbrpc_local_call_context] that the RPC thread writes to.

    WinPR's [wListDictionary] and [wQueue] are parameters with the laws of
    [DictionaryLaws]. *)

From stdpp Require Import gmap.
From S2P Require Import Prelude WStream Pipe Pipeline Msgpack RpcPack RpcMsg RpcTable.

(** ** WinPR's dictionaries and queues *)

Fixpoint assoc_find {V} (k : Z) (l : list (Z * V)) : option V :=
  match l with
  | [] => None
  | (k', v) :: l => if k =? k' then Some v else assoc_find k l
  end.

(** Without the first entry for [k]. *)
Fixpoint assoc_remove {V} (k : Z) (l : list (Z * V)) : list (Z * V) :=
  match l with
  | [] => []
  | (k', v) :: l => if k =? k' then l else (k', v) :: assoc_remove k l
  end.

Class Dictionary := {
  wListDictionary : Type -> Type;
  ListDictionary_New {V} : wListDictionary V;
  ListDictionary_Add {V} : Z -> V -> wListDictionary V -> wListDictionary V;
  ListDictionary_GetItemValue {V} : Z -> wListDictionary V -> option V;
  (** the value that was removed *)
  ListDictionary_Remove {V} : Z -> wListDictionary V -> option V * wListDictionary V;
  ListDictionary_Remove_Head {V} : wListDictionary V -> option (V * wListDictionary V);
  ListDictionary_Count {V} : wListDictionary V -> Z;
  (** the entries, oldest first *)
  dict_items {V} : wListDictionary V -> list (Z * V);
  wQueue : Type -> Type;
  Queue_New {V} : wQueue V;
  Queue_Enqueue {V} : V -> wQueue V -> wQueue V;
  Queue_Dequeue {V} : wQueue V -> option (V * wQueue V);
  Queue_Clear {V} : wQueue V -> wQueue V;
  queue_items {V} : wQueue V -> list V;
}.

Class DictionaryLaws (D : Dictionary) : Prop := {
  dict_new_items V : dict_items (ListDictionary_New (V := V)) = [];
  dict_add_items V k (v : V) d : dict_items (ListDictionary_Add k v d) = dict_items d ++ [(k, v)];
  dict_get_items V k (d : wListDictionary V) :
    ListDictionary_GetItemValue k d = assoc_find k (dict_items d);
  dict_remove_items V k (d d' : wListDictionary V) r :
    ListDictionary_Remove k d = (r, d') ->
    r = assoc_find k (dict_items d) /\ dict_items d' = assoc_remove k (dict_items d);
  dict_remove_head_items V (d : wListDictionary V) :
    match ListDictionary_Remove_Head d with
    | None => dict_items d = []
    | Some (v, d') => exists k, dict_items d = (k, v) :: dict_items d'
    end;
  dict_count_items V (d : wListDictionary V) :
    ListDictionary_Count d = Z.of_nat (length (dict_items d));
  wqueue_new_items V : queue_items (Queue_New (V := V)) = [];
  enqueue_items V (v : V) q : queue_items (Queue_Enqueue v q) = queue_items q ++ [v];
  dequeue_items V (q : wQueue V) :
    match Queue_Dequeue q with
    | None => queue_items q = []
    | Some (v, q') => queue_items q = v :: queue_items q'
    end;
  clear_items V (q : wQueue V) : queue_items (Queue_Clear q) = [];
}.

(** ** Data *)

Definition FDSAPI_MSG_HEADER_SIZE : Z := 16.

Definition FDSAPI_STATUS_SUCCESS : Z := 0.
Definition FDSAPI_STATUS_NOTFOUND : Z := 2.

Definition FDSAPI_IS_RESPONSE_ID (id : Z) : bool := negb (Z.land id 0x80000000 =? 0).

Definition PBRPC_SUCCESS : Z := 0.
Definition PBRPC_FAILED : Z := 1.
Definition PBRCP_TRANSPORT_ERROR : Z := 102.
Definition PBRCP_CALL_TIMEOUT : Z := 103.

(** The header as the 16 bytes of the struct, and back. *)
Definition header_bytes (h : FDSAPI_MSG_HEADER) : list Z :=
  le32 (msgSize h) ++ le32 (msgType h) ++ le32 (callId h) ++ le32 (status h).

Definition header_of_bytes (bs : list Z) : FDSAPI_MSG_HEADER :=
  mk_rpc_header (le_val (take 4 bs)) (le_val (take 4 (drop 4 bs)))
    (le_val (take 4 (drop 8 bs))) (le_val (take 4 (drop 12 bs))).

(** A pointer to a block of [mem]; [NULL] is [None]. *)
Definition ptr : Type := option nat.

Record FDSAPI_MSG_PACKET := mk_packet {
  packet_header : FDSAPI_MSG_HEADER;
  packet_buffer : ptr;
  packet_length : Z;  (* UINT32 *)
}.

Record pbRPCPayload := mk_payload {
  payload_buffer : ptr;
  payload_length : Z;  (* UINT32 *)
}.

(** The callbacks: the one of [pbrpc_call_method], and those of other code,
    which only record their call ([async_calls] below). *)
Inductive pbRpcResponseCallback := pbrpc_response_local_cb | user_cb (f : Z).

(** [void*]: the local context of the call with that frame, or other data. *)
Inductive callback_arg := local_arg (frame : nat) | user_arg (a : Z).

Record pbRPCTransaction := mk_transaction {
  callbackArg : callback_arg;
  freeAfterResponse : bool;
  responseCallback : option pbRpcResponseCallback;
}.

(** A pointer to a transaction: on the stack of a caller or on the heap. *)
Inductive ta_ptr := ta_stack (frame : nat) | ta_heap (l : nat).

Record pbrpc_local_call_context := mk_local {
  event : bool;
  response : option FDSAPI_MSG_PACKET;
  local_status : Z;
}.

(** Where a call of [pbrpc_call_method] is: before the named operation. *)
Inductive call_pc :=
| call_check       (* if (!context->isConnected) *)
| call_add         (* ListDictionary_Add *)
| call_enqueue     (* Queue_Enqueue *)
| call_wait        (* WaitForSingleObject(event, 10000) *)
| call_remove      (* the timeout has expired: ListDictionary_Remove *)
| call_wait_again  (* WaitForSingleObject(event, INFINITE) *)
| call_return.     (* CloseHandle(event) and what follows *)

(** The frames of a client stub and of the [pbrpc_call_method] it calls: the
    stub's [type], [pResponse] and the block of its stream; the call's [msg],
    [local_context] and [ret]. *)
Record call_frame := mk_frame {
  pc : call_pc;
  call_type : Z;
  pResponse : rpc_msg;
  request_block : nat;
  call_msg : FDSAPI_MSG_PACKET;
  local_context : pbrpc_local_call_context;
  call_ret : Z;
}.

Section Context_.
Context {W : WStream} {P : Pipe} {K : Collections} {D : Dictionary}.

Record pbRPCContext := mk_context {
  tag : Z;  (* LONG *)
  hPipe : option pipe;
  stopEvent : bool;
  isConnected : bool;
  writeQueue : wQueue FDSAPI_MSG_PACKET;
  transactions : wListDictionary ta_ptr;
}.

(** The server, and with it the blocks of memory, the stacks of the callers,
    the transactions on the heap, the calls of other code's callbacks, and the
    notification queues of the connections; [connections] maps an id to a
    connection.  Blocks and frames are numbered: a number is not used again. *)
Record rdsServer := mk_server_ {
  rpc : pbRPCContext;
  connections : wListDictionary nat;
  notifications : gmap nat (wMessageQueue rpc_msg);
  mem : gmap nat (list Z);
  frames : gmap nat call_frame;
  heap_transactions : gmap nat pbRPCTransaction;
  async_calls : list (Z * Z * Z * option FDSAPI_MSG_PACKET);
  next_block : nat;
  next_frame : nat;
}.

Definition set_rpc (c : pbRPCContext) (s : rdsServer) : rdsServer :=
  mk_server_ c (connections s) (notifications s) (mem s) (frames s) (heap_transactions s) (async_calls s) (next_block s) (next_frame s).
Definition set_notifications n (s : rdsServer) : rdsServer :=
  mk_server_ (rpc s) (connections s) n (mem s) (frames s) (heap_transactions s) (async_calls s) (next_block s) (next_frame s).
Definition set_mem m (s : rdsServer) : rdsServer :=
  mk_server_ (rpc s) (connections s) (notifications s) m (frames s) (heap_transactions s) (async_calls s) (next_block s) (next_frame s).
Definition set_frames f (s : rdsServer) : rdsServer :=
  mk_server_ (rpc s) (connections s) (notifications s) (mem s) f (heap_transactions s) (async_calls s) (next_block s) (next_frame s).
Definition set_heap_transactions t (s : rdsServer) : rdsServer :=
  mk_server_ (rpc s) (connections s) (notifications s) (mem s) (frames s) t (async_calls s) (next_block s) (next_frame s).
Definition set_async_calls a (s : rdsServer) : rdsServer :=
  mk_server_ (rpc s) (connections s) (notifications s) (mem s) (frames s) (heap_transactions s) a (next_block s) (next_frame s).

Definition count_block (s : rdsServer) : rdsServer :=
  mk_server_ (rpc s) (connections s) (notifications s) (mem s) (frames s) (heap_transactions s)
    (async_calls s) (S (next_block s)) (next_frame s).
Definition count_frame (s : rdsServer) : rdsServer :=
  mk_server_ (rpc s) (connections s) (notifications s) (mem s) (frames s) (heap_transactions s)
    (async_calls s) (next_block s) (S (next_frame s)).

Definition set_tag t (c : pbRPCContext) : pbRPCContext :=
  mk_context t (hPipe c) (stopEvent c) (isConnected c) (writeQueue c) (transactions c).
Definition set_hPipe p (c : pbRPCContext) : pbRPCContext :=
  mk_context (tag c) p (stopEvent c) (isConnected c) (writeQueue c) (transactions c).
Definition set_connected b (c : pbRPCContext) : pbRPCContext :=
  mk_context (tag c) (hPipe c) (stopEvent c) b (writeQueue c) (transactions c).
Definition set_queue q (c : pbRPCContext) : pbRPCContext :=
  mk_context (tag c) (hPipe c) (stopEvent c) (isConnected c) q (transactions c).
Definition set_transactions t (c : pbRPCContext) : pbRPCContext :=
  mk_context (tag c) (hPipe c) (stopEvent c) (isConnected c) (writeQueue c) t.
Definition set_stop b (c : pbRPCContext) : pbRPCContext :=
  mk_context (tag c) (hPipe c) b (isConnected c) (writeQueue c) (transactions c).

(** ** Code on the server *)

Definition RM (A : Type) : Type := rdsServer -> option (A * rdsServer).

#[local] Instance RM_ret : MRet RM := fun A a s => Some (a, s).
#[local] Instance RM_bind : MBind RM :=
  fun A B k m s => match m s with Some (a, s') => k a s' | None => None end.

Definition undefined {A} : RM A := fun _ => None.
Definition lift {A} (o : option A) : RM A :=
  fun s => match o with Some a => Some (a, s) | None => None end.
Definition get {A} (f : rdsServer -> A) : RM A := fun s => Some (f s, s).
Definition modify (f : rdsServer -> rdsServer) : RM unit := fun s => Some (tt, f s).
Definition modify_rpc (f : pbRPCContext -> pbRPCContext) : RM unit :=
  modify (fun s => set_rpc (f (rpc s)) s).

(** [malloc] and the bytes stored there; [free] of a pointer. *)
Definition malloc (bs : list Z) : RM nat := fun s =>
  let l := next_block s in Some (l, count_block (set_mem (<[l := bs]> (mem s)) s)).

Definition free (p : ptr) : RM unit := fun s =>
  match p with
  | None => Some (tt, s)
  | Some l => match mem s !! l with
              | None => None
              | Some _ => Some (tt, set_mem (delete l (mem s)) s)
              end
  end.

(** The [size] bytes behind a pointer. *)
Definition load (p : ptr) (size : Z) : RM (list Z) := fun s =>
  if size =? 0 then Some ([], s) else
  l ← p; bs ← mem s !! l;
  if decide (size <= Z.of_nat (length bs)) then Some (take (Z.to_nat size) bs, s) else None.

(** ** The pipe *)

(** [WaitNamedPipeA] and [CreateFileA]: their results for one attempt. *)
Definition tp_npipe_open (available : bool) (file : option pipe) : RM Z :=
  if negb available then mret (-1) else
  match file with
  | None => mret (-1)
  | Some p => modify_rpc (set_hPipe (Some p)) ≫= fun _ => mret 0
  end.

Definition tp_npipe_close : RM Z :=
  modify_rpc (set_hPipe None) ≫= fun _ => mret 0.

(** [WriteFile] and [ReadFile] on a closed pipe fail. *)
Definition tp_npipe_write (data : list Z) (size : Z) : RM Z :=
  get (fun s => hPipe (rpc s)) ≫= fun h =>
  match h with
  | None => mret (-1)
  | Some p =>
      let '((fSuccess, bytesWritten), p') := WriteFile p data in
      modify_rpc (set_hPipe (Some p')) ≫= fun _ =>
      mret (if negb fSuccess || (Z.of_nat bytesWritten <? size) then -1 else i32 (Z.of_nat bytesWritten))
  end.

(** The status and the bytes that were stored. *)
Definition tp_npipe_read (size : Z) : RM (Z * list Z) :=
  get (fun s => hPipe (rpc s)) ≫= fun h =>
  match h with
  | None => mret (-1, [])
  | Some p =>
      let '((fSuccess, bs), p') := ReadFile p size in
      modify_rpc (set_hPipe (Some p')) ≫= fun _ =>
      mret (if negb fSuccess || (Z.of_nat (length bs) <? size) then -1 else i32 (Z.of_nat (length bs)), bs)
  end.

Definition pbrpc_getTag : RM Z :=
  get (fun s => i32 (tag (rpc s) + 1)) ≫= fun t =>
  modify_rpc (set_tag t) ≫= fun _ => mret (u32 t).

(** The status, the header and the block with the payload; the block exists
    only on success, since it is freed when the read fails. *)
Definition pbrpc_receive_message : RM (Z * FDSAPI_MSG_HEADER * ptr) :=
  tp_npipe_read FDSAPI_MSG_HEADER_SIZE ≫= fun '(st, bs) =>
  if st <? 0 then mret (st, header_of_bytes bs, None) else
  let header := header_of_bytes bs in
  tp_npipe_read (msgSize header) ≫= fun '(st, bs) =>
  if st <? 0 then mret (st, header, None) else
  malloc bs ≫= fun l => mret (st, header, Some l).

Definition send_header (header : FDSAPI_MSG_HEADER) : RM Z :=
  tp_npipe_write (header_bytes header) FDSAPI_MSG_HEADER_SIZE.

Definition send_body (header : FDSAPI_MSG_HEADER) (buffer : ptr) : RM Z :=
  load buffer (msgSize header) ≫= fun data =>
  tp_npipe_write data (msgSize header) ≫= fun st =>
  mret (if st <? 0 then st else 0).

Definition pbrpc_send_message (header : FDSAPI_MSG_HEADER) (buffer : ptr) : RM Z :=
  send_header header ≫= fun st =>
  if st <? 0 then mret st else send_body header buffer.

Definition pbrpc_process_message_out (msg : FDSAPI_MSG_PACKET) : RM Z :=
  let h := packet_header msg in
  pbrpc_send_message (mk_rpc_header (packet_length msg) (msgType h) (callId h) (status h))
    (packet_buffer msg).

(** ** Transactions *)

(** The transaction behind a pointer, which must not dangle. *)
Definition load_transaction (p : ta_ptr) : RM pbRPCTransaction := fun s =>
  match p with
  | ta_stack i =>
      _ ← frames s !! i;
      Some (mk_transaction (local_arg i) false (Some pbrpc_response_local_cb), s)
  | ta_heap l => t ← heap_transactions s !! l; Some (t, s)
  end.

Definition set_local (l : pbrpc_local_call_context) (f : call_frame) : call_frame :=
  mk_frame (pc f) (call_type f) (pResponse f) (request_block f) (call_msg f) l (call_ret f).
Definition set_pc (p : call_pc) (f : call_frame) : call_frame :=
  mk_frame p (call_type f) (pResponse f) (request_block f) (call_msg f) (local_context f) (call_ret f).

(** A call of a callback. *)
Definition response_callback (cb : pbRpcResponseCallback) (reason : Z)
    (msg : option FDSAPI_MSG_PACKET) (arg : callback_arg) : RM unit := fun s =>
  match cb, arg with
  | pbrpc_response_local_cb, local_arg i =>
      f ← frames s !! i;
      Some (tt, set_frames (<[i := set_local (mk_local true msg reason) f]> (frames s)) s)
  | user_cb f, user_arg a => Some (tt, set_async_calls (async_calls s ++ [(f, a, reason, msg)]) s)
  | _, _ => None
  end.

(** [if (ta->freeAfterResponse) free(ta);] *)
Definition free_transaction (p : ta_ptr) (t : pbRPCTransaction) : RM unit :=
  if freeAfterResponse t then
    match p with
    | ta_stack _ => undefined
    | ta_heap l => modify (fun s => set_heap_transactions (delete l (heap_transactions s)) s)
    end
  else mret tt.

(** [pbrpc_process_response] up to and after the removal of the transaction:
    other threads can run in between. *)
Definition find_transaction (msg : FDSAPI_MSG_PACKET) : RM (option ta_ptr) :=
  get (fun s => ListDictionary_GetItemValue (callId (packet_header msg)) (transactions (rpc s))).

Definition complete_transaction (msg : FDSAPI_MSG_PACKET) (ta : ta_ptr) : RM Z :=
  get (fun s => ListDictionary_Remove (callId (packet_header msg)) (transactions (rpc s))) ≫= fun '(_, d) =>
  modify_rpc (set_transactions d) ≫= fun _ =>
  load_transaction ta ≫= fun t =>
  match responseCallback t with
  | Some cb => response_callback cb (status (packet_header msg)) (Some msg) (callbackArg t)
  | None => mret tt
  end ≫= fun _ =>
  free_transaction ta t ≫= fun _ =>
  mret 0.

Definition pbrpc_process_response (msg : FDSAPI_MSG_PACKET) : RM Z :=
  find_transaction msg ≫= fun ta =>
  match ta with
  | None => mret 1
  | Some ta => complete_transaction msg ta
  end.

(** ** Requests of the manager *)

Definition pbrpc_fill_payload (msg : FDSAPI_MSG_PACKET) : pbRPCPayload :=
  mk_payload (packet_buffer msg) (packet_length msg).

Definition pbrpc_free_payload (response : option pbRPCPayload) : RM unit :=
  match response with
  | None => mret tt
  | Some r => free (payload_buffer r)
  end.

Definition pbrpc_send_response (response : option pbRPCPayload) (st type tag_ : Z) : RM Z :=
  let h := mk_rpc_header 0 (FDSAPI_RESPONSE_ID type) tag_ st in
  let msg :=
    match response with
    | Some r => if st =? 0 then mk_packet h (payload_buffer r) (payload_length r) else mk_packet h None 0
    | None => mk_packet h None 0
    end in
  pbrpc_process_message_out msg ≫= fun ret =>
  pbrpc_free_payload response ≫= fun _ =>
  mret ret.

Definition freerds_server_get_connection (id : Z) : RM (option nat) :=
  get (fun s => ListDictionary_GetItemValue id (connections s)).

(** The contents of the uninitialised local variables. *)
Record icp_locals := mk_icp_locals {
  l_heartbeat_request : rpc_msg;
  l_heartbeat_response : FDSAPI_MSG_HEADER;
  (** whether [cb] happens to be [NULL] *)
  l_cb_null : bool;
}.

Definition rpc_header0 : FDSAPI_MSG_HEADER := mk_rpc_header 0 0 0 0.

(** [freerds_rpc_msg_unpack(type, data, msg->buffer, msg->length);
    CopyMemory(data, msg, sizeof(FDSAPI_MSG_HEADER));] *)
Definition unpack_request (type : Z) (data : rpc_msg) (msg : FDSAPI_MSG_PACKET) : RM rpc_msg :=
  load (packet_buffer msg) (packet_length msg) ≫= fun bs =>
  lift (freerds_rpc_msg_unpack (FDSAPI_REQUEST_ID type) (Some data) bs) ≫= fun '(_, data) =>
  lift data ≫= fun data =>
  mret (Rpc (packet_header msg) (rpc_data data)).

(** [s = freerds_rpc_msg_pack(type, data, NULL)] with [Stream_Buffer(s)] and
    [Stream_Length(s)]. *)
Definition pack_payload (type : Z) (data : rpc_msg) : RM (nat * Z) :=
  lift (freerds_rpc_msg_pack type (Some data) None) ≫= fun s =>
  lift s ≫= fun s =>
  malloc (Stream_Buffer s) ≫= fun l =>
  mret (l, Z.of_nat (Stream_Length s)).

Definition freerds_icp_Heartbeat (locals : icp_locals) (msg : FDSAPI_MSG_PACKET) :
    RM (Z * option pbRPCPayload) :=
  let type := FDSAPI_HEARTBEAT_REQUEST_ID in
  unpack_request type (l_heartbeat_request locals) msg ≫= fun request =>
  lift (rproj (rpc_data request)) ≫= fun b =>
  let h := l_heartbeat_response locals in
  pack_payload (FDSAPI_RESPONSE_ID type)
    (Rpc (mk_rpc_header (msgSize h) (FDSAPI_RESPONSE_ID type) (callId (rpc_header request)) (status h))
       (rHeartbeatResponse (HeartbeatResponse.mk (HeartbeatRequest.HeartbeatId b)))) ≫= fun '(l, n) =>
  mret (PBRPC_SUCCESS, Some (mk_payload (Some l) n)).

(** The three requests that are passed on to the thread of a connection: the
    request is unpacked into a zeroed struct, [id] is its [ConnectionId]. *)
Definition post_request (type : Z) (zero : rpc_body) (id : rpc_body -> option Z)
    (msg : FDSAPI_MSG_PACKET) : RM (Z * option pbRPCPayload) :=
  unpack_request type (Rpc rpc_header0 zero) msg ≫= fun request =>
  lift (id (rpc_data request)) ≫= fun c =>
  freerds_server_get_connection c ≫= fun connection =>
  match connection with
  | None => mret (-1, None)
  | Some n =>
      get (fun s => notifications s !! n) ≫= fun q =>
      lift q ≫= fun q =>
      modify (fun s => set_notifications
        (<[n := MessageQueue_Post (msgType (rpc_header request)) request q]> (notifications s)) s) ≫= fun _ =>
      mret (PBRPC_SUCCESS, None)
  end.

Definition freerds_icp_SwitchServiceEndpoint : FDSAPI_MSG_PACKET -> RM (Z * option pbRPCPayload) :=
  post_request FDSAPI_SWITCH_SERVICE_ENDPOINT_REQUEST_ID
    (rSwitchServiceEndpointRequest (SwitchServiceEndpointRequest.mk 0 None))
    (fun b => SwitchServiceEndpointRequest.ConnectionId <$> rproj b).

Definition freerds_icp_LogoffUser : FDSAPI_MSG_PACKET -> RM (Z * option pbRPCPayload) :=
  post_request FDSAPI_LOGOFF_USER_REQUEST_ID
    (rLogoffUserRequest (LogoffUserRequest.mk 0))
    (fun b => LogoffUserRequest.ConnectionId <$> rproj b).

Definition freerds_icp_ChannelEndpointOpen : FDSAPI_MSG_PACKET -> RM (Z * option pbRPCPayload) :=
  post_request FDSAPI_CHANNEL_ENDPOINT_OPEN_REQUEST_ID
    (rChannelEndpointOpenRequest (ChannelEndpointOpenRequest.mk 0 None))
    (fun b => ChannelEndpointOpenRequest.ConnectionId <$> rproj b).

(** [None] leaves [cb] uninitialised. *)
Definition request_callback (locals : icp_locals) (type : Z) :
    option (FDSAPI_MSG_PACKET -> RM (Z * option pbRPCPayload)) :=
  if type =? FDSAPI_HEARTBEAT_REQUEST_ID then Some (freerds_icp_Heartbeat locals)
  else if type =? FDSAPI_SWITCH_SERVICE_ENDPOINT_REQUEST_ID then Some freerds_icp_SwitchServiceEndpoint
  else if type =? FDSAPI_LOGOFF_USER_REQUEST_ID then Some freerds_icp_LogoffUser
  else if type =? FDSAPI_CHANNEL_ENDPOINT_OPEN_REQUEST_ID then Some freerds_icp_ChannelEndpointOpen
  else None.

Definition pbrpc_process_request (locals : icp_locals) (msg : FDSAPI_MSG_PACKET) : RM Z :=
  let h := packet_header msg in
  match request_callback locals (msgType h) with
  | None =>
      if l_cb_null locals
      then pbrpc_send_response None FDSAPI_STATUS_NOTFOUND (msgType h) (callId h)
      else undefined
  | Some cb =>
      cb msg ≫= fun '(st, response) =>
      match response with
      | None => mret 0
      | Some _ => pbrpc_send_response response st (msgType h) (callId h)
      end
  end.

(** ** The RPC thread *)

Definition received_packet (header : FDSAPI_MSG_HEADER) (buffer : ptr) : FDSAPI_MSG_PACKET :=
  mk_packet header buffer (msgSize header).

Definition pbrpc_process_message_in (locals : icp_locals) : RM Z :=
  pbrpc_receive_message ≫= fun '(st, header, buffer) =>
  if st <? 0 then mret (-1) else
  let msg := received_packet header buffer in
  if FDSAPI_IS_RESPONSE_ID (msgType header)
  then pbrpc_process_response msg
  else pbrpc_process_request locals msg.

(** The loop tries to open the pipe until it succeeds or the stop event is set:
    an attempt has the results of [WaitNamedPipeA] and [CreateFileA] and the
    state of the event.  [None] when the attempts run out. *)
Fixpoint pbrpc_transport_open (attempts : list (bool * option pipe * bool)) : RM Z :=
  match attempts with
  | [] => undefined
  | (available, file, stopped) :: attempts =>
      tp_npipe_open available file ≫= fun st =>
      if st =? 0 then mret 0 else
      if stopped : bool then mret (-1) else pbrpc_transport_open attempts
  end.

Definition pbrpc_connect (attempts : list (bool * option pipe * bool)) : RM unit :=
  pbrpc_transport_open attempts ≫= fun st =>
  if negb (0 =? st) then mret tt else modify_rpc (set_connected true).

(** One iteration of the loop over the transactions; [false] at its end. *)
Definition abort_transaction : RM bool :=
  get (fun s => ListDictionary_Remove_Head (transactions (rpc s))) ≫= fun r =>
  match r with
  | None => mret false
  | Some (ta, d) =>
      modify_rpc (set_transactions d) ≫= fun _ =>
      load_transaction ta ≫= fun t =>
      lift (responseCallback t) ≫= fun cb =>
      response_callback cb PBRCP_TRANSPORT_ERROR None (callbackArg t) ≫= fun _ =>
      free_transaction ta t ≫= fun _ =>
      mret true
  end.

Definition reconnect_close : RM unit :=
  modify_rpc (set_connected false) ≫= fun _ =>
  tp_npipe_close ≫= fun _ => mret tt.

Definition reconnect_clear : RM unit :=
  modify_rpc (fun c => set_queue (Queue_Clear (writeQueue c)) c).

Fixpoint abort_transactions (fuel : nat) : RM unit :=
  match fuel with
  | O => undefined
  | S fuel =>
      abort_transaction ≫= fun more =>
      if more : bool then abort_transactions fuel else mret tt
  end.

(** With one iteration more than there are transactions, the loop ends. *)
Definition pbrpc_reconnect (attempts : list (bool * option pipe * bool)) : RM unit :=
  reconnect_close ≫= fun _ =>
  reconnect_clear ≫= fun _ =>
  get (fun s => length (dict_items (transactions (rpc s)))) ≫= fun n =>
  abort_transactions (S n) ≫= fun _ =>
  pbrpc_connect attempts.

(** ** Calls of the manager *)

Definition update_frame (i : nat) (f : call_frame) : RM unit :=
  modify (fun s => set_frames (<[i := f]> (frames s)) s).

Definition packet0 : FDSAPI_MSG_PACKET := mk_packet rpc_header0 None 0.

(** The stub up to the call of [pbrpc_call_method]: it packs the request and
    has the payload of the call point into its stream. *)
Definition icp_begin (type : Z) (pRequest pResponse : rpc_msg) : RM nat :=
  pack_payload type pRequest ≫= fun '(l, n) =>
  get next_frame ≫= fun i =>
  modify count_frame ≫= fun _ =>
  update_frame i (mk_frame call_check (FDSAPI_REQUEST_ID type) pResponse l
    (mk_packet rpc_header0 (Some l) n) (mk_local false None 0) PBRPC_FAILED) ≫= fun _ =>
  mret i.

(** The stub after the call: the result and the response struct. *)
Definition icp_end (i : nat) (f : call_frame) (st : Z) (pbresponse : option pbRPCPayload) :
    RM (Z * rpc_msg) :=
  modify (fun s => set_frames (delete i (frames s)) s) ≫= fun _ =>
  free (Some (request_block f)) ≫= fun _ =>
  if negb (st =? 0) then mret (st, pResponse f) else
  lift pbresponse ≫= fun r =>
  load (payload_buffer r) (payload_length r) ≫= fun bs =>
  lift (freerds_rpc_msg_unpack (FDSAPI_RESPONSE_ID (call_type f)) (Some (pResponse f)) bs) ≫= fun '(_, data) =>
  lift data ≫= fun data =>
  pbrpc_free_payload pbresponse ≫= fun _ =>
  mret (PBRPC_SUCCESS, data).

Definition freerds_icp_IsChannelAllowed : rpc_msg -> rpc_msg -> RM nat :=
  icp_begin FDSAPI_CHANNEL_ALLOWED_REQUEST_ID.
Definition freerds_icp_DisconnectUserSession : rpc_msg -> rpc_msg -> RM nat :=
  icp_begin FDSAPI_DISCONNECT_USER_REQUEST_ID.
Definition freerds_icp_LogOffUserSession : rpc_msg -> rpc_msg -> RM nat :=
  icp_begin FDSAPI_LOGOFF_USER_REQUEST_ID.
Definition freerds_icp_LogonUser : rpc_msg -> rpc_msg -> RM nat :=
  icp_begin FDSAPI_LOGON_USER_REQUEST_ID.

(** What a step of a call does: it cannot go on, it goes on, or the stub
    returns. *)
Inductive call_result :=
| call_blocked
| call_going
| call_done (st : Z) (data : rpc_msg).

(** [pbrpc_call_method] up to the next operation on shared data. *)
Definition call_init (i : nat) (f : call_frame) : RM call_result :=
  get (fun s => isConnected (rpc s)) ≫= fun connected =>
  if negb connected then
    icp_end i f PBRCP_TRANSPORT_ERROR None ≫= fun '(st, data) => mret (call_done st data)
  else
  pbrpc_getTag ≫= fun tag_ =>
  let msg := mk_packet (mk_rpc_header 0 (FDSAPI_REQUEST_ID (call_type f)) tag_ FDSAPI_STATUS_SUCCESS)
               (packet_buffer (call_msg f)) (packet_length (call_msg f)) in
  update_frame i (mk_frame call_add (call_type f) (pResponse f) (request_block f) msg
    (mk_local false None PBRCP_CALL_TIMEOUT) PBRPC_FAILED) ≫= fun _ =>
  mret call_going.

Definition call_tag (f : call_frame) : Z := callId (packet_header (call_msg f)).

Definition call_register (i : nat) (f : call_frame) : RM call_result :=
  modify_rpc (fun c => set_transactions (ListDictionary_Add (call_tag f) (ta_stack i) (transactions c)) c) ≫= fun _ =>
  update_frame i (set_pc call_enqueue f) ≫= fun _ => mret call_going.

Definition call_send (i : nat) (f : call_frame) : RM call_result :=
  modify_rpc (fun c => set_queue (Queue_Enqueue (call_msg f) (writeQueue c)) c) ≫= fun _ =>
  update_frame i (set_pc call_wait f) ≫= fun _ => mret call_going.

(** [expired]: the ten seconds have passed. *)
Definition call_await (i : nat) (f : call_frame) (expired : bool) : RM call_result :=
  if event (local_context f) then update_frame i (set_pc call_return f) ≫= fun _ => mret call_going
  else if expired then update_frame i (set_pc call_remove f) ≫= fun _ => mret call_going
  else mret call_blocked.

Definition call_withdraw (i : nat) (f : call_frame) : RM call_result :=
  get (fun s => ListDictionary_Remove (call_tag f) (transactions (rpc s))) ≫= fun '(r, d) =>
  modify_rpc (set_transactions d) ≫= fun _ =>
  update_frame i
    match r with
    | None => set_pc call_wait_again f
    | Some _ => mk_frame call_return (call_type f) (pResponse f) (request_block f) (call_msg f)
                  (local_context f) PBRCP_CALL_TIMEOUT
    end ≫= fun _ => mret call_going.

(** [ret] and [*response]. *)
Definition call_outcome (f : call_frame) : Z * option pbRPCPayload :=
  match response (local_context f) with
  | None => (if local_status (local_context f) =? 0 then PBRPC_FAILED
             else local_status (local_context f), None)
  | Some msg => (status (packet_header msg), Some (pbrpc_fill_payload msg))
  end.

Definition call_finish (i : nat) (f : call_frame) : RM call_result :=
  let '(ret, payload) := call_outcome f in
  icp_end i f (i32 ret) payload ≫= fun '(st, data) => mret (call_done st data).

Definition call_step (i : nat) (expired : bool) : RM call_result :=
  get (fun s => frames s !! i) ≫= fun f =>
  match f with
  | None => mret call_blocked
  | Some f =>
      match pc f with
      | call_check => call_init i f
      | call_add => call_register i f
      | call_enqueue => call_send i f
      | call_wait => call_await i f expired
      | call_remove => call_withdraw i f
      | call_wait_again => call_await i f false
      | call_return => call_finish i f
      end
  end.

Definition pbrcp_call_method_async (type : Z) (request : pbRPCPayload)
    (callback : pbRpcResponseCallback) (callback_args : callback_arg) : RM unit :=
  get (fun s => isConnected (rpc s)) ≫= fun connected =>
  if negb connected then response_callback callback PBRCP_TRANSPORT_ERROR None callback_args else
  get next_block ≫= fun l =>
  modify count_block ≫= fun _ =>
  modify (fun s => set_heap_transactions
    (<[l := mk_transaction callback_args true (Some callback)]> (heap_transactions s)) s) ≫= fun _ =>
  pbrpc_getTag ≫= fun tag_ =>
  let msg := mk_packet (mk_rpc_header 0 (FDSAPI_REQUEST_ID type) tag_ FDSAPI_STATUS_SUCCESS)
               (payload_buffer request) (payload_length request) in
  modify_rpc (fun c => set_transactions (ListDictionary_Add tag_ (ta_heap l) (transactions c)) c) ≫= fun _ =>
  modify_rpc (fun c => set_queue (Queue_Enqueue msg (writeQueue c)) c).

(** ** Responses of the connection threads *)

(** The response with its status and type set, and the status of the send. *)
Definition icp_response (type : Z) (pResponse_ : rpc_msg) : RM (Z * rpc_msg) :=
  let h := rpc_header pResponse_ in
  let r := Rpc (mk_rpc_header (msgSize h) (FDSAPI_RESPONSE_ID type) (callId h) 0) (rpc_data pResponse_) in
  pack_payload (FDSAPI_RESPONSE_ID type) r ≫= fun '(l, n) =>
  pbrpc_process_message_out (mk_packet (rpc_header r) (Some l) n) ≫= fun st =>
  free (Some l) ≫= fun _ =>
  mret (st, r).

Definition freerds_icp_SwitchServiceEndpointResponse : rpc_msg -> RM (Z * rpc_msg) :=
  icp_response FDSAPI_SWITCH_SERVICE_ENDPOINT_REQUEST_ID.
Definition freerds_icp_LogoffUserResponse : rpc_msg -> RM (Z * rpc_msg) :=
  icp_response FDSAPI_LOGOFF_USER_REQUEST_ID.
Definition freerds_icp_ChannelEndpointOpenResponse : rpc_msg -> RM (Z * rpc_msg) :=
  icp_response FDSAPI_CHANNEL_ENDPOINT_OPEN_REQUEST_ID.

(** ** The context *)

Definition pbrpc_server_new : pbRPCContext :=
  mk_context 0 None false false Queue_New ListDictionary_New.
End Context_.

#[export] Existing Instances RM_ret RM_bind.
