(* ===== verification/RpcThreads.v ===== *)
(** * The RPC thread and its callers

    Interleavings of [pbrpc_main_loop] with any number of calls of
    [pbrpc_call_method]: an action is a step of the RPC thread, a step of a
    call or a new call.  WinPR's dictionary and queue are synchronised, so a
    step ends before the next operation on one of them; what the code does in
    between touches data of its own thread only.

    A run of actions yields labels, the history of what has been sent, received
    and returned.  [None] is undefined behaviour of some thread. *)

From stdpp Require Import gmap.
From S2P Require Import Prelude WStream Pipe Pipeline Msgpack RpcPack RpcMsg RpcTable RpcFacts RpcContext.

(** Where [pbrpc_main_loop] is. *)
Inductive loop_pc :=
| loop_wait                                             (* while (context->isConnected) *)
| loop_found (msg : FDSAPI_MSG_PACKET) (ta : ta_ptr)    (* pbrpc_process_response, before ListDictionary_Remove *)
| loop_queue                                            (* WaitForSingleObject(Queue_Event(...), 0) *)
| loop_send (st : Z)                                    (* Queue_Dequeue; [st]: status *)
| loop_close                                            (* pbrpc_reconnect *)
| loop_clear                                            (* Queue_Clear *)
| loop_abort                                            (* ListDictionary_Remove_Head *)
| loop_connect                                          (* pbrpc_connect *)
| loop_exit.

(** The results of the wait functions, and the attempts to open the pipe. *)
Record loop_events {P : Pipe} := mk_events {
  ev_stop : bool;
  ev_pipe : bool;
  ev_queue : bool;
  ev_attempts : list (bool * option pipe * bool);
}.

Inductive label :=
| l_internal
| l_begin (i : nat)
| l_sent (callId_ st : Z)
(** a response with a transaction: its id, status and payload *)
| l_response (callId_ st : Z) (payload : list Z)
| l_unsolicited (callId_ : Z)
| l_request (type : Z)
| l_failure
| l_return (i : nat) (f : call_frame) (st : Z) (data : rpc_msg).

Inductive action {P : Pipe} :=
| a_begin (type : Z) (pRequest pResponse : rpc_msg)
| a_call (i : nat) (expired : bool)
| a_loop (ev : loop_events).
Arguments mk_events {P} _ _ _ _.
Arguments a_begin {P} _ _ _.
Arguments a_call {P} _ _.
Arguments a_loop {P} _.

Section Threads.
Context {W : WStream} {P : Pipe} {K : Collections} {D : Dictionary}.
Context (locals : icp_locals).

Record system := mk_system { server : rdsServer; loop : loop_pc }.

(** [pbrpc_process_message_in] up to [ListDictionary_Remove]. *)
Definition loop_receive : RM (label * loop_pc) :=
  pbrpc_receive_message ≫= fun '(st, header, buffer) =>
  if st <? 0 then mret (l_failure, loop_close) else
  let msg := received_packet header buffer in
  if FDSAPI_IS_RESPONSE_ID (msgType header) then
    find_transaction msg ≫= fun ta =>
    match ta with
    | None => mret (l_unsolicited (callId header), loop_queue)
    | Some ta =>
        load buffer (msgSize header) ≫= fun bs =>
        mret (l_response (callId header) (status header) bs, loop_found msg ta)
    end
  else
    pbrpc_process_request locals msg ≫= fun st =>
    if st <? 0 then mret (l_failure, loop_close) else mret (l_request (msgType header), loop_queue).

(** [pbrpc_main_loop], with [pbrpc_process_message_in] and [pbrpc_reconnect]
    split at the operations on shared data.  When the queue turns out to be
    empty, [status] is the one of the wait, which is not negative. *)
Definition loop_step (ev : loop_events) (p : loop_pc) : RM (label * loop_pc) :=
  match p with
  | loop_wait =>
      get (fun s => isConnected (rpc s)) ≫= fun connected =>
      if negb connected then mret (l_internal, loop_exit) else
      if ev_stop ev then mret (l_internal, loop_exit) else
      if ev_pipe ev then loop_receive else mret (l_internal, loop_queue)
  | loop_found msg ta =>
      complete_transaction msg ta ≫= fun _ => mret (l_internal, loop_queue)
  | loop_queue => mret (l_internal, if ev_queue ev then loop_send 0 else loop_wait)
  | loop_send st =>
      get (fun s => Queue_Dequeue (writeQueue (rpc s))) ≫= fun r =>
      match r with
      | None => if st <? 0 then mret (l_failure, loop_close) else mret (l_internal, loop_wait)
      | Some (msg, q) =>
          modify_rpc (set_queue q) ≫= fun _ =>
          pbrpc_process_message_out msg ≫= fun st =>
          mret (l_sent (callId (packet_header msg)) st, loop_send st)
      end
  | loop_close => reconnect_close ≫= fun _ => mret (l_internal, loop_clear)
  | loop_clear => reconnect_clear ≫= fun _ => mret (l_internal, loop_abort)
  | loop_abort =>
      abort_transaction ≫= fun more => mret (l_internal, if more : bool then loop_abort else loop_connect)
  | loop_connect => pbrpc_connect (ev_attempts ev) ≫= fun _ => mret (l_internal, loop_wait)
  | loop_exit => mret (l_internal, loop_exit)
  end.

(** What the four stubs of the core pass to [icp_begin]: a request with fields
    in range and a struct for its response. *)
Definition proper_call (type : Z) (pRequest pResponse : rpc_msg) : Prop :=
  type ∈ [FDSAPI_CHANNEL_ALLOWED_REQUEST_ID; FDSAPI_DISCONNECT_USER_REQUEST_ID;
          FDSAPI_LOGOFF_USER_REQUEST_ID; FDSAPI_LOGON_USER_REQUEST_ID] /\
  rpc_type (rpc_data pRequest) = type /\ rpc_type (rpc_data pResponse) = FDSAPI_RESPONSE_ID type /\
  rpc_ok pRequest.

Definition proper (a : action) : Prop :=
  match a with
  | a_begin type pRequest pResponse => proper_call type pRequest pResponse
  | _ => True
  end.

Definition act (a : action) (sys : system) : option (label * system) :=
  let s := server sys in
  match a with
  | a_begin type pRequest pResponse =>
      '(i, s') ← icp_begin type pRequest pResponse s;
      Some (l_begin i, mk_system s' (loop sys))
  | a_call i expired =>
      '(r, s') ← call_step i expired s;
      let l := match r, frames s !! i with
               | call_done st data, Some f => l_return i f st data
               | _, _ => l_internal
               end in
      Some (l, mk_system s' (loop sys))
  | a_loop ev =>
      '((l, p), s') ← loop_step ev (loop sys) s;
      Some (l, mk_system s' p)
  end.

(** A run from [sys0] with its history, the last label first. *)
Inductive run (sys0 : system) : list label -> system -> Prop :=
| run_start : run sys0 [] sys0
| run_act h sys a l sys' : run sys0 h sys -> proper a -> act a sys = Some (l, sys') -> run sys0 (l :: h) sys'.

(** The system before the RPC thread has connected. *)
Definition initial (sys : system) : Prop :=
  loop sys = loop_connect /\ frames (server sys) = ∅ /\
  dict_items (transactions (rpc (server sys))) = [] /\
  queue_items (writeQueue (rpc (server sys))) = [] /\ tag (rpc (server sys)) = 0 /\
  forall l, is_Some (mem (server sys) !! l) -> (l < next_block (server sys))%nat.

(** The actions one after the other: the labels, the last first. *)
Fixpoint schedule (actions : list action) (h : list label) (sys : system) : option (list label * system) :=
  match actions with
  | [] => Some (h, sys)
  | a :: actions => '(l, sys) ← act a sys; schedule actions (l :: h) sys
  end.

Lemma schedule_run sys0 actions h sys h' sys' :
  run sys0 h sys -> Forall proper actions -> schedule actions h sys = Some (h', sys') -> run sys0 h' sys'.
Proof.
  revert h sys. induction actions as [|a actions IH]; cbn; intros h sys Hr Hp E; [by simplify_eq|].
  apply Forall_cons_1 in Hp as [Hp1 Hp].
  destruct (act a sys) as [[l sys1]|] eqn:Ea; [|done]. cbn in E.
  eapply IH; [|exact Hp|exact E]. by econstructor.
Qed.
End Threads.
