(* ===== verification/RpcThreadsFacts.v ===== *)
(** * Invariants of the RPC thread and its callers

    [inv] holds in every run: blocks have one owner, a transaction belongs to
    the call whose tag it is registered under, and a response that a call has
    got is one that was received with the tag of that call.  [calm_inv] holds
    as long as no call times out, the transport works and the manager answers
    only what it was asked: then no thread touches a block or a frame that is
    gone. *)

From S2P Require Import Prelude WStream Pipe Pipeline Msgpack MsgpackFacts RpcPack RpcMsg RpcTable RpcFacts.
From S2P Require Import RpcContext RpcThreads.
From stdpp Require Import gmap list.
#[local] Open Scope Z_scope.

(** ** Lists of entries *)

Section Assoc.
Context {V : Type}.
Implicit Types l : list (Z * V).

Lemma assoc_find_elem k v l : assoc_find k l = Some v -> (k, v) ∈ l.
Proof.
  induction l as [|[k' v'] l IH]; cbn; [done|]. destruct (Z.eqb_spec k k') as [<-|].
  - intros [= ->]. by left.
  - intros ?. right. by apply IH.
Qed.

Lemma assoc_find_None k l : assoc_find k l = None -> k ∉ l.*1.
Proof.
  induction l as [|[k' v'] l IH]; cbn; [intros _; apply not_elem_of_nil|].
  destruct (Z.eqb_spec k k') as [|Hk]; [done|]. intros ?%IH. by apply not_elem_of_cons.
Qed.

Lemma assoc_remove_sub k l x : x ∈ assoc_remove k l -> x ∈ l.
Proof.
  induction l as [|[k' v'] l IH]; cbn; [done|]. destruct (Z.eqb k k'); [by right|].
  intros [->|?]%elem_of_cons; [by left|right; by apply IH].
Qed.

Lemma assoc_remove_nodup k l : NoDup l.*1 -> NoDup (assoc_remove k l).*1 /\ k ∉ (assoc_remove k l).*1.
Proof.
  induction l as [|[k' v'] l IH]; cbn; [intros _; split; [constructor|apply not_elem_of_nil]|].
  intros [Hn Hd]%NoDup_cons. destruct (Z.eqb_spec k k') as [->|Hk]; [done|].
  destruct (IH Hd) as [Hd' Hn']. split; [|by apply not_elem_of_cons].
  cbn. constructor; [|done]. intros ([k1 v1] & -> & Hi%assoc_remove_sub)%list_elem_of_fmap. cbn in Hn.
  apply Hn, list_elem_of_fmap. by exists (k1, v1).
Qed.

Lemma assoc_remove_keeps k l x : x ∈ l -> x.1 <> k -> x ∈ assoc_remove k l.
Proof.
  induction l as [|[k' v'] l IH]; cbn; [done|]. intros [->|Hi]%elem_of_cons Hk; cbn in *.
  - destruct (Z.eqb_spec k k'); [congruence|by left].
  - destruct (Z.eqb_spec k k'); [done|right; by apply IH].
Qed.
End Assoc.

(** ** What a step leaves alone *)

Section Frame.
Context {W : WStream} {L : WStreamLaws W} {P : Pipe} {PL : PipeLaws P} {K : Collections} {D : Dictionary}
  {DL : DictionaryLaws D}.
Implicit Types s : rdsServer.

(** Only the pipe, the notifications and new blocks have changed. *)
Record quiet (s s' : rdsServer) : Prop := mk_quiet {
  q_frames : frames s' = frames s;
  q_heap : heap_transactions s' = heap_transactions s;
  q_next : next_frame s' = next_frame s;
  q_conn : connections s' = connections s;
  q_dict : transactions (rpc s') = transactions (rpc s);
  q_queue : writeQueue (rpc s') = writeQueue (rpc s);
  q_tag : tag (rpc s') = tag (rpc s);
  q_block : (next_block s <= next_block s')%nat;
  q_mem : forall l, (l < next_block s)%nat -> mem s' !! l = mem s !! l;
  q_fresh : (forall l, is_Some (mem s !! l) -> (l < next_block s)%nat) ->
            forall l, is_Some (mem s' !! l) -> (l < next_block s')%nat;
  q_notif : forall n, is_Some (notifications s !! n) -> is_Some (notifications s' !! n);
}.

#[global] Instance quiet_pre : PreOrder quiet.
Proof.
  split.
  - intros s. split; auto.
  - intros s1 s2 s3 [] []. split; try congruence; try lia; auto.
    intros l Hl. rewrite q_mem1 by lia. auto.
Qed.

Lemma rm_bind {A B} (m : RM A) (k : A -> RM B) s r :
  (m ≫= k) s = Some r <-> exists a s', m s = Some (a, s') /\ k a s' = Some r.
Proof.
  unfold mbind, RM_bind. split.
  - destruct (m s) as [[a s']|]; [eauto|done].
  - intros (a & s' & -> & E). done.
Qed.

Lemma lift_Some {A} (o : option A) s a s' : lift o s = Some (a, s') <-> o = Some a /\ s' = s.
Proof. unfold lift. destruct o; split; [intros [= -> <-]|intros [[= ->] ->]| |intros [? _]]; done. Qed.

Lemma load_Some p n s bs s' :
  load p n s = Some (bs, s') <->
  s' = s /\ (n = 0 /\ bs = [] \/ n <> 0 /\ exists l bs0, p = Some l /\ mem s !! l = Some bs0 /\
    n <= Z.of_nat (length bs0) /\ bs = take (Z.to_nat n) bs0).
Proof.
  unfold load. destruct (Z.eqb_spec n 0); [naive_solver|]. destruct p as [l|]; cbn; [|naive_solver].
  destruct (mem s !! l) as [bs0|] eqn:E; cbn; [|naive_solver]. case_decide; naive_solver.
Qed.

(** [m] is quiet when it is defined. *)
Definition is_quiet {A} (m : RM A) : Prop := forall s a s', m s = Some (a, s') -> quiet s s'.

Lemma quiet_ret {A} (a : A) : is_quiet (mret a).
Proof. intros s b s' [= _ <-]. done. Qed.
Lemma quiet_bind {A B} (m : RM A) (k : A -> RM B) :
  is_quiet m -> (forall a, is_quiet (k a)) -> is_quiet (m ≫= k).
Proof.
  intros Hm Hk s b s' (a & s1 & E1 & E2)%rm_bind. etransitivity; [by eapply Hm|by eapply Hk].
Qed.
Lemma quiet_get {A} (f : rdsServer -> A) : is_quiet (get f).
Proof. intros s b s' [= _ <-]. done. Qed.
Lemma quiet_lift {A} (o : option A) : is_quiet (lift o).
Proof. intros s b s'. unfold lift. destruct o; [intros [= _ <-]; done|done]. Qed.
Lemma quiet_undefined {A} : is_quiet (undefined (A := A)).
Proof. intros s b s' [=]. Qed.
Lemma quiet_pipe p : is_quiet (modify_rpc (set_hPipe p)).
Proof. intros s b s' [= _ <-]. by split; cbn; auto. Qed.
Lemma quiet_connected p : is_quiet (modify_rpc (set_connected p)).
Proof. intros s b s' [= _ <-]. by split; cbn; auto. Qed.
Lemma quiet_load p n : is_quiet (load p n).
Proof.
  intros s b s'. unfold load. destruct (Z.eqb n 0); [intros [= _ <-]; done|].
  destruct p as [l|]; [cbn|done]. destruct (mem s !! l) as [bs|]; [cbn|done].
  case_decide; [intros [= _ <-]; done|done].
Qed.
Lemma quiet_post n q0 q1 :
  is_quiet (get (fun s => notifications s !! n) ≫= fun q =>
    lift q ≫= fun q => modify (fun s => set_notifications (<[n := q0 q]> (notifications s)) s) ≫= fun _ =>
    mret q1 : RM (Z * option pbRPCPayload)).
Proof.
  apply quiet_bind; [apply quiet_get|intros q]. apply quiet_bind; [apply quiet_lift|intros q'].
  intros s b s' [= _ <-]. split; cbn; auto. intros m Hm. destruct (decide (n = m)) as [->|].
  - rewrite lookup_insert_eq. done.
  - by rewrite lookup_insert_ne.
Qed.
Lemma quiet_malloc bs : is_quiet (malloc bs).
Proof.
  intros s b s' [= _ <-]. split; cbn; try lia; auto.
  - intros l Hl. rewrite lookup_insert_ne by lia. done.
  - intros Hf l. destruct (decide (next_block s = l)) as [<-|Hn]; [lia|].
    rewrite lookup_insert_ne by done. intros ?%Hf. lia.
Qed.

Create HintDb quiet_db discriminated.
#[local] Hint Resolve @quiet_ret @quiet_get @quiet_lift @quiet_undefined @quiet_pipe @quiet_connected
  @quiet_load @quiet_malloc quiet_post : quiet_db.

Ltac quiet_solve :=
  repeat first
    [ solve [auto with quiet_db nocore]
    | apply quiet_bind; [|intros ?]
    | match goal with
      | |- is_quiet (match ?x with _ => _ end) => destruct x
      | |- is_quiet (if ?x then _ else _) => destruct x
      | |- is_quiet (let '(_, _) := ?x in _) => destruct x
      end ].

Lemma quiet_write data n : is_quiet (tp_npipe_write data n).
Proof. unfold tp_npipe_write. quiet_solve. Qed.
Lemma quiet_read n : is_quiet (tp_npipe_read n).
Proof. unfold tp_npipe_read. quiet_solve. Qed.
#[local] Hint Resolve quiet_write quiet_read : quiet_db.
Lemma quiet_receive : is_quiet pbrpc_receive_message.
Proof. unfold pbrpc_receive_message. quiet_solve. Qed.
Lemma quiet_send h p : is_quiet (pbrpc_send_message h p).
Proof. unfold pbrpc_send_message, send_header, send_body. quiet_solve. Qed.
#[local] Hint Resolve quiet_receive quiet_send : quiet_db.
Lemma quiet_out msg : is_quiet (pbrpc_process_message_out msg).
Proof. unfold pbrpc_process_message_out. quiet_solve. Qed.
#[local] Hint Resolve quiet_out : quiet_db.
Lemma quiet_unpack t d m : is_quiet (unpack_request t d m).
Proof. unfold unpack_request. quiet_solve. Qed.
Lemma quiet_pack t d : is_quiet (pack_payload t d).
Proof. unfold pack_payload. quiet_solve. Qed.
#[local] Hint Resolve quiet_unpack quiet_pack : quiet_db.
Lemma quiet_post_request t z i m : is_quiet (post_request t z i m).
Proof. unfold post_request, freerds_server_get_connection. quiet_solve. Qed.
Lemma quiet_open at_ : is_quiet (pbrpc_transport_open at_).
Proof.
  induction at_ as [|[[av file] st] at_ IH]; cbn; [quiet_solve|]. unfold tp_npipe_open. quiet_solve.
Qed.
Lemma quiet_connect at_ : is_quiet (pbrpc_connect at_).
Proof. unfold pbrpc_connect. apply quiet_bind; [apply quiet_open|]. intros st. quiet_solve. Qed.
Lemma quiet_close : is_quiet reconnect_close.
Proof. unfold reconnect_close, tp_npipe_close. quiet_solve. Qed.

(** A block that is allocated and freed in between does not count. *)
Lemma free_quiet s0 s l u s' :
  quiet s0 s -> (next_block s0 <= l)%nat -> free (Some l) s = Some (u, s') -> quiet s0 s'.
Proof.
  intros [] Hl. unfold free. destruct (mem s !! l); [intros [= _ <-]|done].
  split; cbn; auto.
  - intros l' Hl'. rewrite lookup_delete_ne by lia. auto.
  - intros Hf l' [_ ?]%lookup_delete_is_Some. auto.
Qed.

Lemma pack_block t d s l n s' : pack_payload t d s = Some ((l, n), s') -> (next_block s <= l)%nat.
Proof.
  unfold pack_payload. intros (o & s1 & E1%quiet_lift & E)%rm_bind.
  apply rm_bind in E as (st & s2 & E2%quiet_lift & E). apply rm_bind in E as (l' & s3 & [= <- <-] & E).
  injection E as <- <- <-. destruct E1, E2. lia.
Qed.

Lemma heartbeat_block locals m s st p s' :
  freerds_icp_Heartbeat locals m s = Some ((st, p), s') ->
  quiet s s' /\ exists l n, p = Some (mk_payload (Some l) n) /\ (next_block s <= l)%nat.
Proof.
  unfold freerds_icp_Heartbeat. intros (r & s1 & E1%quiet_unpack & E)%rm_bind.
  apply rm_bind in E as (b & s2 & E2%quiet_lift & E).
  apply rm_bind in E as ([l n] & s3 & E3 & [= <- <- <-]).
  pose proof (pack_block _ _ _ _ _ _ E3). apply quiet_pack in E3.
  split; [by rewrite E1, E2, E3|]. exists l, n. split; [done|]. destruct E1, E2. lia.
Qed.

Lemma quiet_response s0 s p st t g r s' :
  quiet s0 s -> (forall l, payload_buffer p = Some l -> (next_block s0 <= l)%nat) ->
  pbrpc_send_response (Some p) st t g s = Some (r, s') -> quiet s0 s'.
Proof.
  intros Hq Hl. unfold pbrpc_send_response. intros (ret & s1 & E1%quiet_out & E)%rm_bind.
  apply rm_bind in E as (u & s2 & E2 & [= <- <-]). cbn in E2.
  destruct (payload_buffer p) as [l|]; [|injection E2 as _ <-; by rewrite Hq].
  eapply free_quiet; [by rewrite Hq|by apply Hl|exact E2].
Qed.

Lemma quiet_request locals m : is_quiet (pbrpc_process_request locals m).
Proof.
  unfold pbrpc_process_request. intros s a s' E.
  destruct (request_callback locals (msgType (packet_header m))) as [cb|] eqn:Ecb.
  - apply rm_bind in E as ([st p] & s1 & E1 & E). unfold request_callback in Ecb.
    assert (quiet s s1 /\ forall p', p = Some p' -> forall l, payload_buffer p' = Some l ->
              (next_block s <= l)%nat) as [Hq Hp].
    { repeat (destruct (_ =? _); [injection Ecb as <-|]); try done.
      1: { apply heartbeat_block in E1 as (? & l & n & -> & ?). split; [done|].
           intros ? [= <-] ? [= <-]. done. }
      all: split; [by eapply quiet_post_request|]; intros p' ->; exfalso; revert E1;
        unfold freerds_icp_SwitchServiceEndpoint, freerds_icp_LogoffUser, freerds_icp_ChannelEndpointOpen, post_request;
        intros (r & s2 & _ & E1)%rm_bind; apply rm_bind in E1 as (c & s3 & _ & E1);
        apply rm_bind in E1 as ([n|] & s4 & _ & E1); [|done];
        apply rm_bind in E1 as (q & s5 & _ & E1); apply rm_bind in E1 as (q' & s6 & _ & E1);
        apply rm_bind in E1 as (u & s7 & _ & E1); done. }
    destruct p as [p|]; [|injection E as _ <-; done].
    eapply quiet_response; [exact Hq|by apply Hp|exact E].
  - destruct (l_cb_null locals); [|done]. unfold pbrpc_send_response in E.
    apply rm_bind in E as (ret & s1 & E1%quiet_out & [= _ <-]). done.
Qed.
End Frame.

(** ** The invariant of all runs *)

(** Who has to free a block: a stub (its stream), a call (the payload of its
    response), the RPC thread (the payload of the response it is processing). *)
Inductive owner := o_request (i : nat) | o_response (i : nat) | o_loop.

Section Invariant.
Implicit Types (h : list label) (fr : gmap nat call_frame) (m : gmap nat (list Z)).

Definition owns fr (lp : loop_pc) (o : owner) (l : nat) : Prop :=
  match o with
  | o_request i => exists f, fr !! i = Some f /\ request_block f = l
  | o_response i => exists f msg, fr !! i = Some f /\ response (local_context f) = Some msg /\
                      packet_buffer msg = Some l
  | o_loop => exists msg ta, lp = loop_found msg ta /\ packet_buffer msg = Some l
  end.

(** A response that was received, with its payload still in memory. *)
Definition received h m (msg : FDSAPI_MSG_PACKET) : Prop :=
  exists l bs, packet_buffer msg = Some l /\ m !! l = Some bs /\
    packet_length msg = Z.of_nat (length bs) /\ Forall is_u8 bs /\
    is_u32 (status (packet_header msg)) /\
    l_response (callId (packet_header msg)) (status (packet_header msg)) bs ∈ h.

(** The packet of a call is in its stream. *)
Definition has_request m (f : call_frame) : Prop :=
  packet_buffer (call_msg f) = Some (request_block f) /\ 0 <= packet_length (call_msg f) /\
  exists bs, m !! request_block f = Some bs /\ packet_length (call_msg f) <= Z.of_nat (length bs).

Definition has_response h m (f : call_frame) : Prop :=
  forall msg, response (local_context f) = Some msg ->
    pc f <> call_check /\ received h m msg /\ callId (packet_header msg) = call_tag f.

(** [ta] is the transaction of a call with the tag [k]. *)
Definition registered fr (nf : nat) (k : Z) (ta : ta_ptr) : Prop :=
  exists i, ta = ta_stack i /\ (i < nf)%nat /\
    forall f, fr !! i = Some f -> pc f <> call_check /\ call_tag f = k.

Record inv h fr m (nb nf : nat) (items : list (Z * ta_ptr)) (lp : loop_pc) : Prop := mk_inv {
  i_mem : forall l, is_Some (m !! l) -> (l < nb)%nat;
  i_frames : forall i f, fr !! i = Some f -> (i < nf)%nat /\ has_request m f /\ has_response h m f;
  i_own : forall o o' l, owns fr lp o l -> owns fr lp o' l -> o = o';
  i_items : forall k ta, (k, ta) ∈ items -> registered fr nf k ta;
  i_loop : forall msg ta, lp = loop_found msg ta ->
             received h m msg /\ registered fr nf (callId (packet_header msg)) ta;
}.

Lemma received_mono h h' m m' msg :
  (forall x, x ∈ h -> x ∈ h') ->
  (forall l bs, packet_buffer msg = Some l -> m !! l = Some bs -> m' !! l = Some bs) ->
  received h m msg -> received h' m' msg.
Proof.
  intros Hh Hm (l & bs & Hb & Hl & Hn & Hu & Hst & Hr). exists l, bs. auto 9.
Qed.

Lemma has_request_mono m m' f :
  (forall bs, m !! request_block f = Some bs -> m' !! request_block f = Some bs) ->
  has_request m f -> has_request m' f.
Proof. intros Hm (? & ? & bs & ? & ?). split; [done|]. split; [done|]. exists bs. auto. Qed.

Lemma owned_bound h fr m nb nf items lp o l :
  inv h fr m nb nf items lp -> owns fr lp o l -> (l < nb)%nat.
Proof.
  intros [Hm Hf _ _ Hl] Ho. apply Hm. destruct o as [i|i|]; cbn in Ho.
  - destruct Ho as (f & (_ & (_ & _ & bs & E & _) & _)%Hf & <-). by rewrite E.
  - destruct Ho as (f & msg & Hi & Hr & Hb). destruct (Hf i f Hi) as (_ & _ & Hresp).
    destruct (Hresp _ Hr) as (_ & (l' & bs & Hb' & E & _) & _). rewrite Hb in Hb'. injection Hb' as <-. by rewrite E.
  - destruct Ho as (msg & ta & Hlp & Hb). destruct (Hl _ _ Hlp) as ((l' & bs & Hb' & E & _) & _).
    rewrite Hb in Hb'. injection Hb' as <-. by rewrite E.
Qed.

(** New blocks, fewer or the same transactions, a longer history. *)
Lemma inv_weaken h h' fr m m' nb nb' nf items items' lp lp' :
  inv h fr m nb nf items lp -> (forall x, x ∈ h -> x ∈ h') -> (nb <= nb')%nat ->
  (forall l, (l < nb)%nat -> m' !! l = m !! l) ->
  (forall l, is_Some (m' !! l) -> (l < nb')%nat) ->
  (forall x, x ∈ items' -> x ∈ items) ->
  (forall msg ta, lp' = loop_found msg ta -> lp = lp') ->
  inv h' fr m' nb' nf items' lp'.
Proof.
  intros Hi Hh Hn Hm Hf Hit Hlp. pose proof Hi as [Im If Io Ii Il].
  assert (forall l bs, m !! l = Some bs -> m' !! l = Some bs) as Hmm.
  { intros l bs E. rewrite Hm; [done|]. apply Im. by rewrite E. }
  split; [done|..].
  - intros i f (Hb & Hr & Hs)%If. split; [done|]. split; [eauto using has_request_mono|].
    intros msg (Hc & Hrec & Ht)%Hs. split; [done|]. split; [|done]. eapply received_mono; [done| |done]. auto.
  - intros o o' l H1 H2. assert (forall o, owns fr lp' o l -> owns fr lp o l) as Hx; [|eauto].
    intros [i|i|]; cbn; [done|done|]. intros (msg & ta & E & Hb). exists msg, ta. by rewrite (Hlp _ _ E).
  - intros k ta Hk. eauto.
  - intros msg ta E. rewrite <-(Hlp _ _ E) in E. destruct (Il _ _ E) as [Hr Ht]. split; [|done].
    eapply received_mono; [done| |done]. auto.
Qed.

(** A frame changes, with the same packet and response. *)
Lemma inv_frame h fr m nb nf items lp i f f' :
  inv h fr m nb nf items lp -> fr !! i = Some f ->
  call_msg f' = call_msg f -> request_block f' = request_block f ->
  response (local_context f') = response (local_context f) -> pc f' <> call_check ->
  inv h (<[i := f']> fr) m nb nf items lp.
Proof.
  intros [Im If Io Ii Il] Hi Hc Hr Hs Hp.
  assert (forall k ta, registered fr nf k ta -> registered (<[i := f']> fr) nf k ta) as Hreg.
  { intros k ta (j & -> & Hj & Hf). exists j. split; [done|]. split; [done|]. intros g Hg.
    destruct (decide (i = j)) as [<-|Hne].
    - rewrite lookup_insert_eq in Hg. injection Hg as <-. split; [done|].
      unfold call_tag. rewrite Hc. by apply Hf.
    - rewrite lookup_insert_ne in Hg by done. auto. }
  split; [done|..].
  - intros j g Hg. destruct (decide (i = j)) as [<-|Hne].
    + rewrite lookup_insert_eq in Hg. injection Hg as <-. destruct (If i f Hi) as (Hb & (H1 & H2 & H3) & Hres).
      split; [done|]. split; [unfold has_request; rewrite Hc, Hr; done|].
      intros msg E. rewrite Hs in E. destruct (Hres _ E) as (_ & ? & Ht).
      split; [done|]. split; [done|]. unfold call_tag. by rewrite Hc.
    + rewrite lookup_insert_ne in Hg by done. auto.
  - intros o o' l H1 H2. assert (forall o, owns (<[i := f']> fr) lp o l -> owns fr lp o l) as Hx; [|eauto].
    intros [j|j|]; cbn; [| |done].
    + intros (g & Hg & <-). apply lookup_insert_Some in Hg as [[<- <-]|[? Hg]]; [|eauto].
      exists f. by rewrite Hr.
    + intros (g & msg & Hg & Hm & Hb). apply lookup_insert_Some in Hg as [[<- <-]|[? Hg]]; [|eauto 6].
      exists f, msg. by rewrite <-Hs.
  - intros k ta Hk. auto.
  - intros msg ta E. destruct (Il _ _ E). auto.
Qed.

(** The payload passes from the RPC thread to the call it belongs to. *)
Lemma inv_respond h fr m nb nf items msg i f st :
  inv h fr m nb nf items (loop_found msg (ta_stack i)) -> fr !! i = Some f ->
  inv h (<[i := set_local (mk_local true (Some msg) st) f]> fr) m nb nf items loop_queue.
Proof.
  intros [Im If Io Ii Il] Hi. destruct (Il _ _ eq_refl) as [Hrec (j & [= <-] & Hj & Hreg)].
  destruct (Hreg f Hi) as [Hpc Htag].
  assert (forall k ta, registered fr nf k ta ->
            registered (<[i := set_local (mk_local true (Some msg) st) f]> fr) nf k ta) as Hmono.
  { intros k ta (j & -> & Hjn & Hf). exists j. split; [done|]. split; [done|]. intros g Hg.
    apply lookup_insert_Some in Hg as [[<- <-]|[? Hg]]; [|auto]. by apply (Hf f). }
  split; [done|..]; [|..|done].
  - intros k g Hg. apply lookup_insert_Some in Hg as [[<- <-]|[? Hg]]; [|auto].
    destruct (If i f Hi) as (? & ? & _). split; [done|]. split; [done|].
    intros msg' [= <-]. done.
  - intros o o' l H1 H2. set (fr' := <[i := _]> fr) in *.
    set (g := fun o => match o with o_response j => if decide (j = i) then o_loop else o | _ => o end).
    assert (forall o, owns fr' loop_queue o l -> owns fr (loop_found msg (ta_stack i)) (g o) l /\ o <> o_loop) as Hx.
    { intros [k|k|]; cbn; [| |intros (? & ? & ? & ?); done].
      - intros (f' & Hg & <-). split; [|done]. apply lookup_insert_Some in Hg as [[<- <-]|[? Hg]]; eauto.
      - intros (f' & msg' & Hg & Hm & Hb). split; [|done].
        apply lookup_insert_Some in Hg as [[<- <-]|[? Hg]].
        + rewrite decide_True by done. injection Hm as <-. exists msg, (ta_stack i). done.
        + rewrite decide_False by done. cbn. eauto 6. }
    destruct (Hx o H1) as [G1 N1], (Hx o' H2) as [G2 N2]. specialize (Io _ _ _ G1 G2).
    revert Io N1 N2. unfold g. destruct o as [k|k|], o' as [k'|k'|]; try done;
      repeat case_decide; subst; congruence.
  - intros k ta Hk. auto.
Qed.

(** A call returns and frees the blocks [ls] that it owns. *)
Lemma inv_return h fr m m' nb nf items lp i f :
  inv h fr m nb nf items lp -> fr !! i = Some f ->
  (forall l, m' !! l = m !! l \/ (m' !! l = None /\
     (l = request_block f \/ exists msg, response (local_context f) = Some msg /\ packet_buffer msg = Some l))) ->
  inv h (delete i fr) m' nb nf items lp.
Proof.
  intros Hinv Hi Hm. pose proof Hinv as [Im If Io Ii Il].
  assert (forall o l bs, owns (delete i fr) lp o l -> m !! l = Some bs -> m' !! l = Some bs) as Hkeep.
  { intros o l bs Ho E. destruct (Hm l) as [->|[_ Hl]]; [done|]. exfalso.
    assert (owns fr lp o l /\ o <> o_request i /\ o <> o_response i) as (Ho' & N1 & N2).
    { destruct o as [j|j|]; cbn in Ho |- *; [..|done].
      - destruct Ho as (g & [Hne Hg]%lookup_delete_Some & Hr). split; [eauto|]. split; congruence.
      - destruct Ho as (g & msg & [Hne Hg]%lookup_delete_Some & Hr & Hb). split; [eauto 6|]. split; congruence. }
    destruct Hl as [->|(msg & Hr & Hb)].
    - apply N1. eapply Io; [exact Ho'|]. cbn. eauto.
    - apply N2. eapply Io; [exact Ho'|]. cbn. eauto 6. }
  assert (forall k ta, registered fr nf k ta -> registered (delete i fr) nf k ta) as Hreg.
  { intros k ta (j & -> & Hj & Hf). exists j. split; [done|]. split; [done|].
    intros g [_ Hg]%lookup_delete_Some. auto. }
  split.
  - intros l Hs. apply Im. destruct (Hm l) as [<-|[E _]]; [done|]. rewrite E in Hs. by destruct Hs.
  - intros j g Hg. pose proof Hg as [_ Hg']%lookup_delete_Some. destruct (If j g Hg') as (Hb & Hrq & Hrs).
    split; [done|]. split.
    + eapply has_request_mono; [|done]. intros bs. apply (Hkeep (o_request j)). cbn. eauto.
    + intros msg E. destruct (Hrs _ E) as (? & Hrec & ?). split; [done|]. split; [|done].
      eapply received_mono; [done| |done]. intros l bs Hbuf. apply (Hkeep (o_response j)). cbn. eauto 6.
  - intros o o' l H1 H2. assert (forall o, owns (delete i fr) lp o l -> owns fr lp o l) as Hx; [|eauto].
    intros [j|j|]; cbn; [| |done].
    + intros (g & [_ Hg]%lookup_delete_Some & <-). eauto.
    + intros (g & msg & [_ Hg]%lookup_delete_Some & ? & ?). eauto 6.
  - intros k ta Hk. auto.
  - intros msg ta E. destruct (Il _ _ E) as [Hr ?]. split; [|auto]. eapply received_mono; [done| |done].
    intros l bs Hb. apply (Hkeep o_loop). cbn. eauto.
Qed.
End Invariant.

Section Steps.
Context {W : WStream} {L : WStreamLaws W} {P : Pipe} {PL : PipeLaws P} {K : Collections} {D : Dictionary}
  {DL : DictionaryLaws D}.
Implicit Types s : rdsServer.

Definition sys_inv (h : list label) (s : rdsServer) (lp : loop_pc) : Prop :=
  inv h (frames s) (mem s) (next_block s) (next_frame s) (dict_items (transactions (rpc s))) lp.

(** *** Receiving *)

Lemma read_done n s st bs s' :
  tp_npipe_read n s = Some ((st, bs), s') -> 0 <= n -> 0 <= st ->
  Forall is_u8 bs /\ Z.of_nat (length bs) = n.
Proof.
  unfold tp_npipe_read. intros (h & s1 & [= <- <-] & E)%rm_bind Hn Hst.
  destruct (hPipe (rpc s)) as [p|]; [|injection E as <- <- _; lia].
  destruct (ReadFile p n) as [[ok bs'] p'] eqn:Er.
  pose proof (readfile_spec _ _ _ _ _ Er Hn) as (Hl & _ & Hin).
  apply rm_bind in E as (u & s2 & [= <- <-] & E). injection E as <- <- _.
  destruct ok; cbn in Hst; [|lia]. split.
  - pose proof (inbound_bytes p) as Hb. rewrite Hin in Hb. by apply Forall_app in Hb as [??].
  - destruct (Z.ltb_spec (Z.of_nat (length bs')) n); lia.
Qed.

Lemma header_fields bs : Forall is_u8 bs -> length bs = 16%nat ->
  let h := header_of_bytes bs in
  is_u32 (msgSize h) /\ is_u32 (msgType h) /\ is_u32 (callId h) /\ is_u32 (status h).
Proof.
  intros Hb Hl. cbn.
  pose proof (le_val_slice bs 0 4 Hb ltac:(lia)). pose proof (le_val_slice bs 4 4 Hb ltac:(lia)).
  pose proof (le_val_slice bs 8 4 Hb ltac:(lia)). pose proof (le_val_slice bs 12 4 Hb ltac:(lia)).
  rewrite drop_0 in *. unfold is_u32. done.
Qed.

Lemma receive_done s st hd b s' :
  pbrpc_receive_message s = Some ((st, hd, b), s') -> 0 <= st ->
  (is_u32 (msgSize hd) /\ is_u32 (msgType hd) /\ is_u32 (callId hd) /\ is_u32 (status hd)) /\
  exists l bs, b = Some l /\ (next_block s <= l < next_block s')%nat /\ mem s' !! l = Some bs /\
    Z.of_nat (length bs) = msgSize hd /\ Forall is_u8 bs.
Proof.
  unfold pbrpc_receive_message. intros ([st1 bs1] & s1 & E1 & E)%rm_bind Hst.
  destruct (Z.ltb_spec st1 0); [injection E as <- _ _ _; lia|].
  destruct (read_done _ _ _ _ _ E1 ltac:(unfold FDSAPI_MSG_HEADER_SIZE; lia) ltac:(lia)) as [Hb1 Hl1].
  pose proof (header_fields bs1 Hb1 ltac:(unfold FDSAPI_MSG_HEADER_SIZE in *; lia)) as Hf. cbv zeta in Hf.
  apply rm_bind in E as ([st2 bs2] & s2 & E2 & E).
  destruct (Z.ltb_spec st2 0); [injection E as <- _ _ _; lia|].
  destruct (read_done _ _ _ _ _ E2 ltac:(unfold is_u32 in *; lia) ltac:(lia)) as [Hb2 Hl2].
  apply rm_bind in E as (l & s3 & [= <- <-] & E). injection E as <- <- <- <-.
  apply quiet_read in E1, E2. split; [done|]. exists (next_block s2), bs2. cbn.
  split; [done|]. split; [destruct E1, E2; lia|]. rewrite lookup_insert_eq. done.
Qed.

(** *** The steps keep the invariant *)

Lemma inv_quiet h l s s' lp lp' :
  sys_inv h s lp -> quiet s s' -> (forall msg ta, lp' = loop_found msg ta -> lp = lp') ->
  sys_inv (l :: h) s' lp'.
Proof.
  intros Hi Hq Hlp. pose proof Hi as Hi'. destruct Hi' as [Im _ _ _ _]. destruct Hq. unfold sys_inv in *.
  rewrite q_frames0, q_next0, q_dict0. eapply inv_weaken; [exact Hi|..]; auto.
  intros x Hx. by right.
Qed.

(** A response has been received and its transaction found. *)
Lemma inv_found h s s' lp msg bs ta b :
  sys_inv h s lp -> quiet s s' -> packet_buffer msg = Some b ->
  (next_block s <= b < next_block s')%nat -> mem s' !! b = Some bs ->
  packet_length msg = Z.of_nat (length bs) -> Forall is_u8 bs -> is_u32 (status (packet_header msg)) ->
  (callId (packet_header msg), ta) ∈ dict_items (transactions (rpc s)) ->
  sys_inv (l_response (callId (packet_header msg)) (status (packet_header msg)) bs :: h) s'
    (loop_found msg ta).
Proof.
  intros Hi Hq Hb Hbn Hm Hl Hu Hst Hta.
  set (lb := l_response _ _ _).
  pose proof (inv_quiet h lb s s' lp loop_queue Hi Hq ltac:(intros ?? [=])) as Hi'.
  pose proof Hi' as [Im If Io Ii Il]. split; [done|done|..|done|].
  - intros o o' l H1 H2.
    assert (forall o, owns (frames s') (loop_found msg ta) o l -> o = o_loop /\ l = b \/
              o <> o_loop /\ owns (frames s) lp o l /\ owns (frames s') loop_queue o l) as Hx.
    { destruct Hq. intros [i|i|] Ho; [right..|left]; [split; [done|]; split; [|done]..|].
      - cbn in *. by rewrite q_frames0 in Ho.
      - cbn in *. by rewrite q_frames0 in Ho.
      - destruct Ho as (? & ? & [= <- <-] & Hb'). rewrite Hb in Hb'. by injection Hb' as <-. }
    destruct (Hx o H1) as [[-> ->]|(N1 & O1 & Q1)], (Hx o' H2) as [[-> E]|(N2 & O2 & Q2)].
    + done.
    + pose proof (owned_bound _ _ _ _ _ _ _ _ _ Hi O2). lia.
    + subst l. pose proof (owned_bound _ _ _ _ _ _ _ _ _ Hi O1). lia.
    + by eapply Io.
  - intros ? ? [= <- <-]. split.
    + exists b, bs. do 5 (split; [done|]). by left.
    + apply Ii. destruct Hq. by rewrite q_dict0.
Qed.

(** What the end of a stub changes: its frame and the blocks it frees. *)
Lemma icp_end_changes i f st pl s r s' :
  icp_end i f st pl s = Some (r, s') ->
  frames s' = delete i (frames s) /\ next_block s' = next_block s /\ next_frame s' = next_frame s /\
  rpc s' = rpc s /\
  forall l, mem s' !! l = mem s !! l \/ (mem s' !! l = None /\
    (l = request_block f \/ exists p, pl = Some p /\ payload_buffer p = Some l)).
Proof.
  assert (forall p s s' u, free p s = Some (u, s') ->
    frames s' = frames s /\ next_block s' = next_block s /\ next_frame s' = next_frame s /\ rpc s' = rpc s /\
    forall l, mem s' !! l = mem s !! l \/ (mem s' !! l = None /\ p = Some l)) as Hfree.
  { intros [l|] s0 s1 u; cbn; [|intros [= _ <-]; auto 6].
    destruct (mem s0 !! l); [intros [= _ <-]|done]. repeat split. intros l'. cbn.
    destruct (decide (l = l')) as [<-|]; [rewrite lookup_delete_eq; auto|rewrite lookup_delete_ne by done; auto]. }
  unfold icp_end. intros (u & s1 & [= _ <-] & E)%rm_bind.
  apply rm_bind in E as (u' & s2 & E1 & E). apply Hfree in E1 as (F1 & B1 & N1 & R1 & M1). cbn in *.
  destruct (st =? 0); cbn in E.
  2:{ injection E as _ <-. repeat split; try done. intros l. destruct (M1 l) as [|[? [= ->]]]; auto. }
  apply rm_bind in E as (p & s3 & [-> ->]%lift_Some & E).
  apply rm_bind in E as (bs & s4 & [-> _]%load_Some & E).
  apply rm_bind in E as ([ok d] & s5 & [_ ->]%lift_Some & E).
  apply rm_bind in E as (d' & s6 & [_ ->]%lift_Some & E).
  apply rm_bind in E as (u2 & s7 & E6 & [= _ <-]). apply Hfree in E6 as (F2 & B2 & N2 & R2 & M2).
  repeat split; try congruence. intros l. destruct (M2 l) as [E7|[E7 Hl]]; [|right; eauto].
  rewrite E7. destruct (M1 l) as [|[? [= ->]]]; auto.
Qed.

Lemma inv_end h lb i f st pl s r s' lp :
  sys_inv h s lp -> frames s !! i = Some f ->
  (forall p, pl = Some p -> exists msg, response (local_context f) = Some msg /\ p = pbrpc_fill_payload msg) ->
  icp_end i f st pl s = Some (r, s') -> sys_inv (lb :: h) s' lp.
Proof.
  intros Hi Hf Hpl (F & B & N & R & M)%icp_end_changes.
  unfold sys_inv. rewrite F, B, N, R. eapply (inv_weaken h); [|try done..].
  - eapply inv_return; [exact Hi|exact Hf|]. intros l. destruct (M l) as [|[E [->|(p & Hp & Hl)]]]; auto.
    right. split; [done|]. right. destruct (Hpl p Hp) as (msg & Hr & ->). exists msg. done.
  - intros x Hx. by right.
  - intros l Hl. destruct Hi as [Im _ _ _ _]. apply Im. destruct (M l) as [E|[E _]]; rewrite E in Hl; [done|by destruct Hl].
Qed.

(** A call draws its tag. *)
Lemma inv_tag h fr m nb nf items lp i f f' :
  inv h fr m nb nf items lp -> fr !! i = Some f -> pc f = call_check -> pc f' <> call_check ->
  packet_buffer (call_msg f') = packet_buffer (call_msg f) ->
  packet_length (call_msg f') = packet_length (call_msg f) ->
  request_block f' = request_block f -> response (local_context f') = None ->
  inv h (<[i := f']> fr) m nb nf items lp.
Proof.
  intros [Im If Io Ii Il] Hi Hpc Hpc' Hb Hl Hr Hs.
  assert (forall k ta, registered fr nf k ta -> registered (<[i := f']> fr) nf k ta) as Hreg.
  { intros k ta (j & -> & Hj & Hf). exists j. split; [done|]. split; [done|].
    intros g [[<- <-]|[? Hg]]%lookup_insert_Some; [|auto]. by destruct (Hf f Hi). }
  split; [done|..].
  - intros j g [[<- <-]|[? Hg]]%lookup_insert_Some; [|auto]. destruct (If i f Hi) as (? & ? & _).
    split; [done|]. split; [unfold has_request; rewrite Hb, Hl, Hr; done|]. intros msg. by rewrite Hs.
  - intros o o' l H1 H2. assert (forall o, owns (<[i := f']> fr) lp o l -> owns fr lp o l) as Hx; [|eauto].
    intros [j|j|]; cbn; [| |done].
    + intros (g & [[<- <-]|[? Hg]]%lookup_insert_Some & <-); eauto.
    + intros (g & msg & [[<- <-]|[? Hg]]%lookup_insert_Some & ? & ?); [congruence|eauto 6].
  - intros k ta Hk. auto.
  - intros msg ta E. destruct (Il _ _ E). auto.
Qed.

(** A new call. *)
Lemma inv_new h fr m nb nf items lp f bs :
  inv h fr m nb nf items lp -> request_block f = nb -> packet_buffer (call_msg f) = Some nb ->
  0 <= packet_length (call_msg f) <= Z.of_nat (length bs) -> response (local_context f) = None ->
  inv h (<[nf := f]> fr) (<[nb := bs]> m) (S nb) (S nf) items lp.
Proof.
  intros Hinv Hr Hb Hl Hs.
  assert (inv h fr (<[nb := bs]> m) (S nb) (S nf) items lp) as Hinv'.
  { destruct (inv_weaken h h fr m (<[nb := bs]> m) nb (S nb) nf items items lp lp Hinv) as [Im If Io Ii Il]; auto.
    - intros l Hlb. by rewrite lookup_insert_ne by lia.
    - intros l [Hl'|[? Hl']]%lookup_insert_is_Some; [lia|]. destruct Hinv as [Im _ _ _ _]. apply Im in Hl'. lia.
    - split; auto.
      + intros i g Hg. destruct (If i g Hg) as (? & ?). split; [lia|done].
      + intros k ta Hk. destruct (Ii k ta Hk) as (i & -> & Hi & ?). exists i. split; [done|]. split; [lia|done].
      + intros msg ta E. destruct (Il _ _ E) as (? & i & -> & Hi & ?). split; [done|]. exists i. split; [done|].
        split; [lia|done]. }
  assert (fr !! nf = None) as Hnf.
  { destruct (fr !! nf) as [g|] eqn:E; [|done]. destruct Hinv as [_ If _ _ _]. apply If in E as [? _]. lia. }
  destruct Hinv' as [Im If Io Ii Il].
  assert (forall k ta, registered fr nf k ta -> registered (<[nf := f]> fr) (S nf) k ta) as Hreg.
  { intros k ta (j & -> & Hj & Hf). exists j. split; [done|]. split; [lia|].
    intros g [[<- <-]|[? Hg]]%lookup_insert_Some; [lia|auto]. }
  split; [done|..].
  - intros j g [[<- <-]|[? Hg]]%lookup_insert_Some; [|auto]. split; [lia|]. split.
    + split; [by rewrite Hr|]. split; [lia|]. exists bs. rewrite Hr, lookup_insert_eq. split; [done|lia].
    + intros msg. by rewrite Hs.
  - intros o o' l H1 H2.
    assert (forall o, owns (<[nf := f]> fr) lp o l -> o = o_request nf /\ l = nb \/ (l < nb)%nat /\ owns fr lp o l) as Hx.
    { intros [j|j|] Ho; cbn in Ho |- *.
      - destruct Ho as (g & [[<- <-]|[? Hg]]%lookup_insert_Some & <-); [by left|right].
        split; [|eauto]. eapply (owned_bound _ _ _ _ _ _ _ (o_request j)); [exact Hinv|cbn; eauto].
      - destruct Ho as (g & msg & [[<- <-]|[? Hg]]%lookup_insert_Some & Hm & Hbb); [congruence|right].
        split; [|eauto 6]. eapply (owned_bound _ _ _ _ _ _ _ (o_response j)); [exact Hinv|cbn; eauto 6].
      - right. split; [|done]. eapply (owned_bound _ _ _ _ _ _ _ o_loop); [exact Hinv|cbn; eauto]. }
    destruct (Hx o H1) as [[-> ->]|[? ?]], (Hx o' H2) as [[-> ?]|[? ?]]; try lia; [done|by eapply Io].
  - intros k ta Hk. apply Hreg. destruct Hinv as [_ _ _ Ii0 _]. auto.
  - intros msg ta E. destruct (Il _ _ E) as [? _]. split; [done|]. apply Hreg. destruct Hinv as [_ _ _ _ Il0].
    by destruct (Il0 _ _ E).
Qed.
End Steps.
