(* ===== verification/RpcRuns.v ===== *)
(** * Runs of the RPC thread and its callers

    The invariant [inv] holds in every run, for every interleaving and every
    behaviour of the manager. *)

From S2P Require Import Prelude WStream Pipe Pipeline Msgpack MsgpackFacts RpcPack RpcMsg RpcTable RpcFacts.
From S2P Require Import RpcContext RpcThreads RpcThreadsFacts.
From stdpp Require Import gmap list.
#[local] Open Scope Z_scope.

Section Runs.
Context {W : WStream} {L : WStreamLaws W} {P : Pipe} {PL : PipeLaws P} {K : Collections} {D : Dictionary}
  {DL : DictionaryLaws D}.
Context (locals : icp_locals).
Implicit Types s : rdsServer.

(** ** The RPC thread *)

(** A response goes to the call that waits for it. *)
Lemma complete_changes msg i s r s' :
  complete_transaction msg (ta_stack i) s = Some (r, s') ->
  exists f d, frames s !! i = Some f /\
    ListDictionary_Remove (callId (packet_header msg)) (transactions (rpc s)) = d /\
    s' = set_frames (<[i := set_local (mk_local true (Some msg) (status (packet_header msg))) f]> (frames s))
           (set_rpc (set_transactions d.2 (rpc s)) s).
Proof.
  unfold complete_transaction. intros ([o d] & s1 & E1 & E)%rm_bind.
  injection E1 as E1 <-. cbv beta iota in E. apply rm_bind in E as (u & s2 & E2 & E). injection E2 as _ <-.
  apply rm_bind in E as (t & s3 & E3 & E). unfold load_transaction in E3. cbn in E3.
  destruct (frames s !! i) as [f|] eqn:Ef; [|done]. injection E3 as <- <-. cbn beta iota delta [responseCallback callbackArg free_transaction freeAfterResponse] in E.
  apply rm_bind in E as (u2 & s4 & E4 & [= _ <-]). cbn in E4. rewrite Ef in E4. injection E4 as _ <-.
  exists f, (o, d). done.
Qed.

(** One iteration of the loop of [pbrpc_reconnect]. *)
Lemma abort_changes h s lp b s' :
  sys_inv h s lp -> abort_transaction s = Some (b, s') ->
  (b = false /\ s' = s) \/
  exists i f k d, b = true /\ frames s !! i = Some f /\
    dict_items (transactions (rpc s)) = (k, ta_stack i) :: dict_items d /\
    s' = set_frames (<[i := set_local (mk_local true None PBRCP_TRANSPORT_ERROR) f]> (frames s))
           (set_rpc (set_transactions d (rpc s)) s).
Proof.
  intros Hi. unfold abort_transaction. intros (r & s1 & [= <- <-] & E)%rm_bind.
  pose proof (dict_remove_head_items _ (transactions (rpc s))) as Hd.
  destruct (ListDictionary_Remove_Head (transactions (rpc s))) as [[ta d]|].
  2:{ injection E as <- <-. by left. }
  right. destruct Hd as [k Hd]. apply rm_bind in E as (u & s2 & [= _ <-] & E).
  destruct Hi as [_ _ _ Ii _]. destruct (Ii k ta) as (i & -> & Hin & _); [rewrite Hd; by left|].
  apply rm_bind in E as (t & s3 & E3 & E). unfold load_transaction in E3. cbn in E3.
  destruct (frames s !! i) as [f|] eqn:Ef; [|done]. injection E3 as <- <-. cbn beta iota delta [responseCallback callbackArg free_transaction freeAfterResponse] in E.
  apply rm_bind in E as (cb & s4 & [[= <-] ->]%lift_Some & E).
  apply rm_bind in E as (u2 & s5 & E5 & E). cbn in E5. rewrite Ef in E5. injection E5 as _ <-.
  injection E as <- <-. exists i, f, k, d. done.
Qed.

(** A call loses its response, if it has one, and keeps its packet. *)
Lemma inv_set_none h fr m nb nf items lp i f st :
  inv h fr m nb nf items lp -> fr !! i = Some f ->
  inv h (<[i := set_local (mk_local true None st) f]> fr) m nb nf items lp.
Proof.
  intros [Im If Io Ii Il] Hi.
  assert (forall k ta, registered fr nf k ta ->
            registered (<[i := set_local (mk_local true None st) f]> fr) nf k ta) as Hmono.
  { intros k ta (j & -> & Hjn & Hf). exists j. split; [done|]. split; [done|].
    intros g [[<- <-]|[? Hg]]%lookup_insert_Some; [|auto]. by apply (Hf f). }
  split; [done|..].
  - intros j g [[<- <-]|[? Hg]]%lookup_insert_Some; [|auto]. destruct (If i f Hi) as (? & ? & _).
    split; [done|]. split; [done|]. by intros msg.
  - intros o o' l H1 H2.
    assert (forall o, owns (<[i := set_local (mk_local true None st) f]> fr) lp o l -> owns fr lp o l) as Hx; [|eauto].
    intros [j|j|]; cbn; [| |done].
    + intros (g & [[<- <-]|[? Hg]]%lookup_insert_Some & <-); eauto.
    + intros (g & msg & [[<- <-]|[? Hg]]%lookup_insert_Some & ? & ?); [done|eauto 6].
  - intros k ta Hk. auto.
  - intros msg ta E. destruct (Il _ _ E). auto.
Qed.

Lemma elem_later {A} (x : A) h : forall y, y ∈ h -> y ∈ x :: h.
Proof. intros y Hy. by right. Qed.

Lemma receive_inv h s lb p s' :
  sys_inv h s loop_wait -> loop_receive locals s = Some ((lb, p), s') -> sys_inv (lb :: h) s' p.
Proof.
  intros Hi. unfold loop_receive. intros ([[st hd] b] & s1 & E1 & E)%rm_bind.
  pose proof (quiet_receive _ _ _ E1) as Q1. destruct (Z.ltb_spec st 0) as [Hst|Hst].
  { injection E as <- <- <-. by eapply inv_quiet. }
  destruct (receive_done _ _ _ _ _ E1 Hst) as ((_ & _ & _ & Hst') & l & bs & -> & Hl & Hm & Hn & Hu).
  destruct (FDSAPI_IS_RESPONSE_ID (msgType hd)).
  - apply rm_bind in E as (ta & s2 & E2 & E). injection E2 as E2 <-.
    destruct ta as [ta|]; [|injection E as <- <- <-; by eapply inv_quiet].
    rewrite dict_get_items in E2. apply assoc_find_elem in E2.
    apply rm_bind in E as (bs' & s3 & [-> Hbs]%load_Some & E). injection E as <- <- <-.
    assert (bs' = bs) as ->.
    { destruct Hbs as [[Hz ->]|(_ & l' & bs0 & [= <-] & Hm' & Hln & ->)].
      - destruct bs; [done|cbn in Hn; lia].
      - rewrite Hm in Hm'. injection Hm' as <-. rewrite take_ge; [done|lia]. }
    eapply (inv_found h s s1 loop_wait (received_packet hd (Some l))); try done.
    all: destruct Q1; by rewrite <-?q_dict.
  - apply rm_bind in E as (st' & s2 & E2%quiet_request & E).
    assert (quiet s s2) as Q by (by etransitivity).
    destruct (st' <? 0); injection E as <- <- <-; by eapply inv_quiet.
Qed.

Lemma loop_inv h s ev p lb p' s' :
  sys_inv h s p -> loop_step locals ev p s = Some ((lb, p'), s') -> sys_inv (lb :: h) s' p'.
Proof.
  intros Hi. destruct p as [|msg ta| |st| | | | |]; cbn [loop_step].
  - intros (c & s1 & [= <- <-] & E)%rm_bind.
    destruct (negb _); [injection E as <- <- <-; by eapply inv_quiet|].
    destruct (ev_stop ev); [injection E as <- <- <-; by eapply inv_quiet|].
    destruct (ev_pipe ev); [by eapply receive_inv|]. injection E as <- <- <-. by eapply inv_quiet.
  - intros (r & s1 & E & [= <- <- <-])%rm_bind.
    pose proof Hi as [_ _ _ _ Il]. destruct (Il _ _ eq_refl) as [_ (i & -> & Hin & _)].
    apply complete_changes in E as (f & [o d] & Hf & Hd & ->).
    apply dict_remove_items in Hd as [_ Hd]. unfold sys_inv. cbn. rewrite Hd.
    eapply (inv_weaken h); [by eapply inv_respond|try done..].
    + apply elem_later.
    + apply Hi.
    + apply assoc_remove_sub.
  - intros [= <- <- <-]. eapply inv_quiet; [done..|]. by destruct (ev_queue ev).
  - intros (r & s1 & [= <- <-] & E)%rm_bind.
    destruct (Queue_Dequeue (writeQueue (rpc s))) as [[msg q]|].
    + apply rm_bind in E as (u & s2 & [= _ <-] & E).
      apply rm_bind in E as (st' & s3 & E%quiet_out & [= <- <- <-]).
      eapply (inv_quiet h _ (set_rpc (set_queue q (rpc s)) s)); [exact Hi|done|done].
    + destruct (st <? 0); injection E as <- <- <-; by eapply inv_quiet.
  - intros (r & s1 & E%quiet_close & [= <- <- <-])%rm_bind. by eapply inv_quiet.
  - intros (r & s1 & [= _ <-] & [= <- <- <-])%rm_bind.
    eapply (inv_weaken h); try done; [apply elem_later|apply Hi].
  - intros (b & s1 & E & [= <- <- <-])%rm_bind.
    destruct (abort_changes _ _ _ _ _ Hi E) as [[-> ->]|(i & f & k & d & -> & Hf & Hd & ->)].
    + by eapply inv_quiet.
    + unfold sys_inv. cbn. eapply (inv_weaken h); [by eapply inv_set_none|try done..].
      * apply elem_later.
      * apply Hi.
      * intros x Hx. rewrite Hd. by right.
  - intros (r & s1 & E%quiet_connect & [= <- <- <-])%rm_bind. by eapply inv_quiet.
  - intros [= <- <- <-]. by eapply inv_quiet.
Qed.

(** ** Calls *)

Lemma inv_register h fr m nb nf items lp k i :
  inv h fr m nb nf items lp -> registered fr nf k (ta_stack i) ->
  inv h fr m nb nf (items ++ [(k, ta_stack i)]) lp.
Proof.
  intros [Im If Io Ii Il] Hr. split; auto.
  intros k' ta [?|[= -> ->]%list_elem_of_singleton]%elem_of_app; auto.
Qed.

Lemma inv_later h fr m nb nf items lp lb :
  inv h fr m nb nf items lp -> inv (lb :: h) fr m nb nf items lp.
Proof. intros Hi. eapply (inv_weaken h); try done; [apply elem_later|apply Hi]. Qed.

(** The response of a call is in its local context. *)
Lemma finish_payload (f : call_frame) ret p :
  call_outcome f = (ret, Some p) ->
  exists msg, response (local_context f) = Some msg /\ ret = status (packet_header msg) /\
    p = pbrpc_fill_payload msg.
Proof. unfold call_outcome. destruct (response (local_context f)); naive_solver. Qed.

Lemma call_inv h s lp i ex r s' lb :
  sys_inv h s lp -> call_step i ex s = Some (r, s') -> sys_inv (lb :: h) s' lp.
Proof.
  intros Hi. unfold call_step. intros (o & s1 & [= <- <-] & E)%rm_bind.
  destruct (frames s !! i) as [f|] eqn:Ef; [|injection E as _ <-; by eapply inv_quiet].
  assert (forall ex, call_await i f ex s = Some (r, s') -> pc f <> call_check -> sys_inv (lb :: h) s' lp) as Hawait.
  { intros ex'. unfold call_await.
    destruct (event _); [|destruct ex'; [|intros [= _ <-] _; by eapply inv_quiet]];
      intros (u & s2 & [= _ <-] & [= _ <-])%rm_bind ?; apply inv_later; by eapply inv_frame. }
  destruct (pc f) eqn:Ep.
  - unfold call_init in E. apply rm_bind in E as (c & s2 & [= <- <-] & E). destruct (negb _).
    + apply rm_bind in E as ([st d] & s2 & E & [= _ <-]). eapply inv_end; [exact Hi|exact Ef| |exact E]. done.
    + apply rm_bind in E as (g & s2 & E2 & E). injection E2 as <- <-.
      apply rm_bind in E as (u & s3 & [= _ <-] & [= _ <-]).
      apply inv_later. unfold sys_inv. cbn. by eapply inv_tag.
  - apply rm_bind in E as (u & s2 & [= _ <-] & E). apply rm_bind in E as (u2 & s3 & [= _ <-] & [= _ <-]).
    apply inv_later. unfold sys_inv. cbn. rewrite dict_add_items. apply inv_register.
    + by eapply inv_frame.
    + exists i. split; [done|]. split; [by apply Hi in Ef as [? _]|].
      intros g. rewrite lookup_insert_eq. intros [= <-]. done.
  - apply rm_bind in E as (u & s2 & [= _ <-] & E). apply rm_bind in E as (u2 & s3 & [= _ <-] & [= _ <-]).
    apply inv_later. unfold sys_inv. cbn. by eapply inv_frame.
  - by eapply Hawait.
  - unfold call_withdraw in E. apply rm_bind in E as ([o d] & s2 & E2 & E). injection E2 as E2 <-.
    apply dict_remove_items in E2 as [_ Hd].
    apply rm_bind in E as (u & s3 & E3 & E). injection E3 as _ <-.
    apply rm_bind in E as (u2 & s4 & E4 & E). injection E4 as _ <-. injection E as _ <-.
    unfold sys_inv. cbn. rewrite Hd.
    eapply (inv_weaken h _ _ _ _ _ _ _ (dict_items (transactions (rpc s)))); [|try done..].
    + destruct o; eapply inv_frame; try done; exact Hi.
    + apply elem_later.
    + apply Hi.
    + apply assoc_remove_sub.
  - by eapply Hawait.
  - unfold call_finish in E. destruct (call_outcome f) as [ret pl] eqn:Efin.
    apply rm_bind in E as ([st d] & s2 & E & [= _ <-]).
    eapply inv_end; [exact Hi|exact Ef| |exact E].
    intros p ->. apply finish_payload in Efin as (msg & ? & _ & ?). eauto.
Qed.

(** A stub packs its request into a new block and calls. *)
Lemma begin_changes type req resp s i s' :
  icp_begin type req resp s = Some (i, s') ->
  exists st, freerds_rpc_msg_pack type (Some req) None = Some (Some st) /\ i = next_frame s /\
    s' = set_frames (<[i := mk_frame call_check (FDSAPI_REQUEST_ID type) resp (next_block s)
           (mk_packet rpc_header0 (Some (next_block s)) (Z.of_nat (Stream_Length st)))
           (mk_local false None 0) PBRPC_FAILED]> (frames s))
         (count_frame (count_block (set_mem (<[next_block s := Stream_Buffer st]> (mem s)) s))).
Proof.
  unfold icp_begin, pack_payload. intros ([l n] & s1 & E1 & E)%rm_bind.
  apply rm_bind in E1 as (o & s2 & [Hp ->]%lift_Some & E1).
  apply rm_bind in E1 as (st & s3 & [-> ->]%lift_Some & E1).
  apply rm_bind in E1 as (l' & s4 & E4 & E1). injection E4 as <- <-. injection E1 as <- <- <-.
  apply rm_bind in E as (j & s5 & E5 & E). injection E5 as <- <-.
  apply rm_bind in E as (u & s6 & E6 & E). injection E6 as _ <-.
  apply rm_bind in E as (u2 & s7 & E7 & E). injection E7 as _ <-. injection E as <- <-.
  exists st. done.
Qed.

Lemma begin_inv h s lp type req resp i s' lb :
  proper_call type req resp -> sys_inv h s lp ->
  icp_begin type req resp s = Some (i, s') -> sys_inv (lb :: h) s' lp.
Proof.
  intros (_ & <- & _ & Hok) Hi (st & Hp & -> & ->)%begin_changes. apply inv_later. unfold sys_inv. cbn.
  apply inv_new; [exact Hi|done|done| |done].
  destruct (rpc_pack_spec req None Hok I) as (st' & Ep & buf & (Hb & _ & Hl) & Hbs).
  rewrite Hp in Ep. injection Ep as <-. cbn. rewrite Hb, Hl.
  apply (f_equal length) in Hbs. rewrite length_take in Hbs. unfold wire_array in *. lia.
Qed.

(** ** Every run *)

Lemma act_inv h a sys lb sys' :
  proper a -> sys_inv h (server sys) (loop sys) -> act locals a sys = Some (lb, sys') ->
  sys_inv (lb :: h) (server sys') (loop sys').
Proof.
  intros Hp Hi. destruct a as [type req resp|i ex|ev]; cbn.
  - destruct (icp_begin type req resp (server sys)) as [[i s']|] eqn:E; [|done]. intros [= <- <-].
    by eapply begin_inv.
  - destruct (call_step i ex (server sys)) as [[r s']|] eqn:E; [|done]. intros [= <- <-].
    by eapply call_inv.
  - destruct (loop_step locals ev (loop sys) (server sys)) as [[[l p] s']|] eqn:E; [|done]. intros [= <- <-].
    by eapply loop_inv.
Qed.

Lemma initial_inv sys : initial sys -> sys_inv [] (server sys) (loop sys).
Proof.
  intros (Hl & Hf & Hd & _ & _ & Hm). unfold sys_inv. rewrite Hf, Hd, Hl. split; try done.
  - intros o o' l. destruct o; cbn; naive_solver.
  - by intros k ta ?%elem_of_nil.
Qed.

Lemma run_inv sys0 h sys : initial sys0 -> run locals sys0 h sys -> sys_inv h (server sys) (loop sys).
Proof.
  intros H0. induction 1 as [|h sys a l sys' Hr IH Hp Ea]; [by apply initial_inv|]. by eapply act_inv.
Qed.

(** What a stub returns. *)
Lemma end_result i f st pl s st' d s' :
  icp_end i f st pl s = Some ((st', d), s') ->
  (st' = st /\ st <> 0 /\ d = pResponse f) \/
  (st' = 0 /\ st = 0 /\ exists p bs ok, pl = Some p /\
     (packet_length (mk_packet rpc_header0 (payload_buffer p) (payload_length p)) = 0 /\ bs = [] \/
      exists l bs0, payload_buffer p = Some l /\ mem s !! l = Some bs0 /\
        payload_length p <= Z.of_nat (length bs0) /\ bs = take (Z.to_nat (payload_length p)) bs0) /\
     freerds_rpc_msg_unpack (FDSAPI_RESPONSE_ID (call_type f)) (Some (pResponse f)) bs = Some (ok, Some d)).
Proof.
  unfold icp_end. intros (u & s1 & [= _ <-] & E)%rm_bind. apply rm_bind in E as (u2 & s2 & E2 & E).
  destruct (Z.eqb_spec st 0) as [Hst|Hst]; cbn [negb] in E; [|injection E as <- <- <-; by left].
  right. apply rm_bind in E as (p & s3 & [-> ->]%lift_Some & E).
  apply rm_bind in E as (bs & s4 & [-> Hl]%load_Some & E).
  apply rm_bind in E as ([ok o] & s5 & [Hu ->]%lift_Some & E). cbv beta iota in E.
  apply rm_bind in E as (d' & s6 & [-> ->]%lift_Some & E).
  apply rm_bind in E as (u3 & s7 & _ & E). injection E as <- <- _. split; [done|]. split; [done|].
  exists p, bs, ok. split; [done|]. split; [|done]. cbn [packet_length].
  destruct Hl as [[? ->]|(? & l & bs0 & Hp & Hm & Hle & ->)]; [by left|]. right. exists l, bs0.
  split; [done|]. split; [|done]. cbn in E2. destruct (mem s !! request_block f); [|done].
  injection E2 as _ <-. cbn in Hm. by apply lookup_delete_Some in Hm as [_ ?].
Qed.

(** The label of a return tells the frame of the call and that its stub ended. *)
Lemma act_return a sys i f st data sys' :
  act locals a sys = Some (l_return i f st data, sys') ->
  frames (server sys) !! i = Some f /\
  ((exists s', icp_end i f PBRCP_TRANSPORT_ERROR None (server sys) = Some ((st, data), s')) \/
   (exists s', icp_end i f (i32 (call_outcome f).1) (call_outcome f).2 (server sys) = Some ((st, data), s'))).
Proof.
  destruct a as [type req resp|j ex|ev]; cbn.
  - destruct (icp_begin type req resp (server sys)) as [[k s']|]; done.
  - destruct (call_step j ex (server sys)) as [[r s']|] eqn:E; [|done]. cbn.
    destruct r as [| |st' d]; [done..|]. destruct (frames (server sys) !! j) as [g|] eqn:Ef; [|done].
    intros [= -> -> -> -> <-]. split; [done|].
    unfold call_step in E. apply rm_bind in E as (o & s1 & [= <- <-] & E). rewrite Ef in E.
    assert (forall ex, call_await i f ex (server sys) <> Some (call_done st data, s')) as Hawait.
    { intros ex'. unfold call_await. destruct (event _); [done|]. by destruct ex'. }
    destruct (pc f); try done; try (by apply Hawait in E).
    + unfold call_init in E. apply rm_bind in E as (c & s2 & [= <- <-] & E). destruct (negb _); [|done].
      apply rm_bind in E as ([st1 d1] & s2 & E & [= -> -> ->]). left. by exists s'.
    + unfold call_withdraw in E. apply rm_bind in E as ([o d] & s2 & [= _ <-] & E). done.
    + unfold call_finish in E. destruct (call_outcome f) as [ret pl].
      apply rm_bind in E as ([st1 d1] & s2 & E & [= -> -> ->]). right. by exists s'.
  - destruct (loop_step locals ev (loop sys) (server sys)) as [[[l p] s']|] eqn:E; [|done]. cbn.
    intros [= -> _]. exfalso. revert E. destruct (loop sys); cbn [loop_step].
    + intros (c & s1 & [= <- <-] & E)%rm_bind. destruct (negb _); [done|]. destruct (ev_stop ev); [done|].
      destruct (ev_pipe ev); [|done]. unfold loop_receive in E.
      apply rm_bind in E as ([[st1 hd] b] & s1 & _ & E). destruct (st1 <? 0); [done|].
      destruct (FDSAPI_IS_RESPONSE_ID _).
      * apply rm_bind in E as (ta & s2 & _ & E). destruct ta; [|done]. by apply rm_bind in E as (bs & s3 & _ & [=]).
      * apply rm_bind in E as (st2 & s2 & _ & E). by destruct (st2 <? 0).
    + by intros (c & s1 & _ & [=])%rm_bind.
    + done.
    + intros (r & s1 & [= <- <-] & E)%rm_bind. destruct (Queue_Dequeue _) as [[m q]|].
      * apply rm_bind in E as (u & s2 & _ & E). by apply rm_bind in E as (st2 & s3 & _ & [=]).
      * by destruct (_ <? 0).
    + by intros (c & s1 & _ & [=])%rm_bind.
    + by intros (c & s1 & _ & [=])%rm_bind.
    + by intros (c & s1 & _ & [=])%rm_bind.
    + by intros (c & s1 & _ & [=])%rm_bind.
    + done.
Qed.

(** ** A call that times out *)

(** A waiting call times out, withdraws its transaction and returns; its stub
    frees the stream. *)
Lemma timeout_returns h sys i f bs :
  let s := server sys in
  frames s !! i = Some f -> pc f = call_wait -> local_context f = mk_local false None PBRCP_CALL_TIMEOUT ->
  is_Some (assoc_find (call_tag f) (dict_items (transactions (rpc s)))) -> mem s !! request_block f = Some bs ->
  exists f' s', schedule locals [a_call i true; a_call i false; a_call i false] h sys =
      Some (l_return i f' PBRCP_CALL_TIMEOUT (pResponse f) :: l_internal :: l_internal :: h, mk_system s' (loop sys)) /\
    frames s' = delete i (frames s) /\ mem s' = delete (request_block f) (mem s) /\
    writeQueue (rpc s') = writeQueue (rpc s) /\ hPipe (rpc s') = hPipe (rpc s).
Proof.
  intros s Hf Hpc Hl [ta Hta] Hb.
  assert (act locals (a_call i true) sys =
    Some (l_internal, mk_system (set_frames (<[i := set_pc call_remove f]> (frames s)) s) (loop sys))) as E1.
  { cbn. unfold call_step, mbind at 2, RM_bind, get. fold s. rewrite Hf, Hpc. unfold call_await. rewrite Hl. cbn. done. }
  cbn [schedule]. rewrite E1. cbn [mbind option_bind].
  set (s1 := set_frames _ s). destruct (ListDictionary_Remove (call_tag f) (transactions (rpc s))) as [r d] eqn:Er.
  pose proof (dict_remove_items _ _ _ _ _ Er) as [Hr _]. rewrite Hta in Hr. subst r.
  set (f2 := mk_frame call_return (call_type f) (pResponse f) (request_block f) (call_msg f)
               (local_context f) PBRCP_CALL_TIMEOUT).
  set (s2 := set_frames (<[i := f2]> (frames s1)) (set_rpc (set_transactions d (rpc s1)) s1)).
  assert (act locals (a_call i false) (mk_system s1 (loop sys)) = Some (l_internal, mk_system s2 (loop sys))) as E2.
  { cbn. unfold call_step, mbind at 2, RM_bind, get. subst s1. cbn. rewrite lookup_insert_eq. cbn.
    unfold call_withdraw, mbind, RM_bind, get. cbn. change (call_tag (set_pc call_remove f)) with (call_tag f).
    rewrite Er. cbn. done. }
  rewrite E2. cbn [mbind option_bind].
  set (s3 := set_mem (delete (request_block f) (mem s)) (set_frames (delete i (frames s2)) s2)).
  assert (act locals (a_call i false) (mk_system s2 (loop sys)) =
    Some (l_return i f2 PBRCP_CALL_TIMEOUT (pResponse f), mk_system s3 (loop sys))) as E3.
  { subst s3 s2 f2. cbn. unfold call_step, mbind at 2, RM_bind, get. cbn. rewrite lookup_insert_eq. cbn.
    unfold call_finish, call_outcome. cbn. rewrite Hl. cbn.
    unfold icp_end, mbind, RM_bind, modify. cbn. rewrite Hb. cbn.
    change (i32 PBRCP_CALL_TIMEOUT) with PBRCP_CALL_TIMEOUT. reflexivity. }
  rewrite E3. cbn [mbind option_bind]. exists f2, s3. split; [done|]. cbn.
  by rewrite insert_insert_eq, delete_insert_eq.
Qed.
End Runs.
