(* ===== verification/RpcCalm.v ===== *)
(** * Runs without timeouts and transport failures

    When no call times out, the transport works and the manager is polite (it
    answers what it was asked and requests what the core can do), no thread
    touches memory that is gone: [calm_inv] is the invariant behind that. *)

From S2P Require Import Prelude WStream Pipe Pipeline Msgpack MsgpackFacts RpcPack RpcMsg RpcTable RpcFacts.
From S2P Require Import RpcContext RpcThreads RpcThreadsFacts RpcRuns.
From stdpp Require Import gmap list.
#[local] Open Scope Z_scope.

(** A packet with that id has been sent. *)
Definition sent (h : list label) (c : Z) : Prop := exists st, l_sent c st ∈ h.

(** A response to a packet that has been sent, or a request with a callback. *)
Definition polite (h : list label) (hd : FDSAPI_MSG_HEADER) : Prop :=
  if FDSAPI_IS_RESPONSE_ID (msgType hd) then sent h (callId hd)
  else msgType hd ∈ [FDSAPI_HEARTBEAT_REQUEST_ID; FDSAPI_SWITCH_SERVICE_ENDPOINT_REQUEST_ID;
                     FDSAPI_LOGOFF_USER_REQUEST_ID; FDSAPI_CHANNEL_ENDPOINT_OPEN_REQUEST_ID].

Section Calm.
Context {W : WStream} {L : WStreamLaws W} {P : Pipe} {PL : PipeLaws P} {K : Collections} {D : Dictionary}
  {DL : DictionaryLaws D}.
Context (locals : icp_locals).
Implicit Types s : rdsServer.

(** The action is no timeout, it does not find the transport failing, the tags
    have not wrapped around and what it receives is polite. *)
Definition calm (h : list label) (sys : system) (a : action) : Prop :=
  (forall sys', act locals a sys <> Some (l_failure, sys')) /\
  match a with
  | a_begin _ _ _ => True
  | a_call _ expired => expired = false /\ tag (rpc (server sys)) < 2 ^ 31 - 1
  | a_loop ev =>
      match loop sys with
      | loop_wait => ev_pipe ev = true -> forall st hd b s',
          pbrpc_receive_message (server sys) = Some ((st, hd, b), s') -> 0 <= st -> polite h hd
      | loop_connect => is_Some (pbrpc_connect (ev_attempts ev) (server sys))
      | _ => True
      end
  end.

Inductive calm_run (sys0 : system) : list label -> system -> Prop :=
| calm_start : calm_run sys0 [] sys0
| calm_act h sys a l sys' : calm_run sys0 h sys -> proper a -> calm h sys a ->
    act locals a sys = Some (l, sys') -> calm_run sys0 (l :: h) sys'.

Lemma calm_run_run sys0 h sys : calm_run sys0 h sys -> run locals sys0 h sys.
Proof. induction 1; [constructor|by econstructor]. Qed.

(** The connections have queues and the uninitialised variables hold 32-bit
    values. *)
Definition environment_ok (s : rdsServer) : Prop :=
  (forall k n, (k, n) ∈ dict_items (connections s) -> is_Some (notifications s !! n)) /\
  rpc_type (rpc_data (l_heartbeat_request locals)) = FDSAPI_HEARTBEAT_REQUEST_ID /\
  rpc_ok (l_heartbeat_request locals) /\ is_u32 (status (l_heartbeat_response locals)).

(** ** The invariant *)

Definition typed (f : call_frame) : Prop :=
  rpc_type (rpc_data (pResponse f)) = FDSAPI_RESPONSE_ID (call_type f) /\
  FDSAPI_RESPONSE_ID (call_type f) <> FDSAPI_CHANNEL_ENDPOINT_OPEN_RESPONSE_ID.

(** A call that has drawn its tag and waits for its response. *)
Definition pending (fr : gmap nat call_frame) (i : nat) (k : Z) (f : call_frame) : Prop :=
  fr !! i = Some f /\ call_tag f = k /\ event (local_context f) = false.

(** Without a response, the local status is one of the error codes. *)
Definition status_ok (f : call_frame) : Prop :=
  response (local_context f) = None -> local_status (local_context f) = 0 \/
    local_status (local_context f) = PBRCP_TRANSPORT_ERROR \/ local_status (local_context f) = PBRCP_CALL_TIMEOUT.

Record calm_frame (h : list label) (tg : Z) (f : call_frame) : Prop := mk_calm_frame {
  cf_pc : pc f <> call_remove /\ pc f <> call_wait_again;
  cf_tag : pc f <> call_check -> 1 <= call_tag f <= tg;
  cf_done : pc f = call_return -> event (local_context f) = true;
  cf_event : event (local_context f) = true -> pc f = call_wait \/ pc f = call_return;
  cf_sent : pc f = call_add \/ pc f = call_enqueue -> ~ sent h (call_tag f);
  cf_typed : typed f;
  cf_status : status_ok f;
}.

Record calm_inv (h : list label) (fr : gmap nat call_frame) (items : list (Z * ta_ptr))
    (queue : list FDSAPI_MSG_PACKET) (tg : Z) (lp : loop_pc) : Prop := mk_calm_inv {
  c_tag : 0 <= tg;
  c_frames : forall i f, fr !! i = Some f -> calm_frame h tg f;
  c_uniq : forall i j f g, fr !! i = Some f -> fr !! j = Some g -> pc f <> call_check -> pc g <> call_check ->
             call_tag f = call_tag g -> i = j;
  c_sent : forall k, sent h k -> k <= tg;
  c_queue : forall m, m ∈ queue -> ~ sent h (callId (packet_header m)) /\
              exists i f, pending fr i (callId (packet_header m)) f /\ call_msg f = m /\ pc f = call_wait;
  c_queue_nodup : NoDup (map (fun m => callId (packet_header m)) queue);
  c_items : forall k ta, (k, ta) ∈ items -> exists i f, ta = ta_stack i /\ pending fr i k f /\
              (pc f = call_enqueue \/ pc f = call_wait);
  c_items_nodup : NoDup items.*1;
  c_loop : match lp with
           | loop_found msg ta => exists i f, ta = ta_stack i /\ pending fr i (callId (packet_header msg)) f /\
                                    pc f = call_wait /\ sent h (callId (packet_header msg))
           | loop_close | loop_clear | loop_abort => False
           | _ => True
           end;
}.

Definition sys_calm (h : list label) (sys : system) : Prop :=
  let s := server sys in
  calm_inv h (frames s) (dict_items (transactions (rpc s))) (queue_items (writeQueue (rpc s)))
    (tag (rpc s)) (loop sys).

Lemma sent_cons l h k : sent (l :: h) k <-> (exists st, l = l_sent k st) \/ sent h k.
Proof.
  unfold sent. split.
  - intros (st & [<-|?]%elem_of_cons); eauto.
  - intros [(st & ->)|(st & ?)]; exists st; [by left|by right].
Qed.

(** A label that is not a send leaves [sent] alone. *)
Definition not_sent (l : label) : Prop := forall c st, l <> l_sent c st.

Lemma sent_other l h k : not_sent l -> sent (l :: h) k <-> sent h k.
Proof. intros Hl. rewrite sent_cons. split; [intros [(st & E)|?]; [by destruct (Hl k st)|done]|auto]. Qed.

Lemma calm_frame_later l h tg f : not_sent l -> calm_frame h tg f -> calm_frame (l :: h) tg f.
Proof. intros Hl []. split; auto. intros Hp. rewrite sent_other by done. auto. Qed.

(** Nothing but the loop has moved. *)
Lemma calm_later l h fr items q tg lp lp' :
  not_sent l -> calm_inv h fr items q tg lp ->
  match lp' with
  | loop_found msg ta => exists i f, ta = ta_stack i /\ pending fr i (callId (packet_header msg)) f /\
                           pc f = call_wait /\ sent h (callId (packet_header msg))
  | loop_close | loop_clear | loop_abort => False
  | _ => True
  end -> calm_inv (l :: h) fr items q tg lp'.
Proof.
  intros Hl [] Hlp. split; auto.
  - intros i f Hf. apply calm_frame_later; eauto.
  - intros k. rewrite sent_other by done. auto.
  - intros m Hm. rewrite sent_other by done. auto.
  - destruct lp' as [|msg ta| | | | | | |]; auto. setoid_rewrite sent_other; done.
Qed.

(** *** Where a frame changes *)

(** The new frame keeps the tag, the packet and whether its event is set. *)
Lemma calm_frame_step h fr items q tg lp i f f' :
  calm_inv h fr items q tg lp -> fr !! i = Some f -> calm_frame h tg f' ->
  call_msg f' = call_msg f -> event (local_context f') = event (local_context f) ->
  pc f <> call_check -> pc f' <> call_check ->
  (event (local_context f) = false -> pc f = call_wait -> pc f' = call_wait) ->
  (event (local_context f) = false -> pc f = call_enqueue -> pc f' = call_enqueue \/ pc f' = call_wait) ->
  calm_inv h (<[i := f']> fr) items q tg lp.
Proof.
  intros [] Hi Hf' Hm He Hpc Hpc' Hw Hq.
  assert (call_tag f' = call_tag f) as Ht by (unfold call_tag; by rewrite Hm).
  assert (forall j k g, pending fr j k g -> exists g', pending (<[i := f']> fr) j k g' /\
            call_msg g' = call_msg g /\ (pc g = call_wait -> pc g' = call_wait) /\
            (pc g = call_enqueue -> pc g' = call_enqueue \/ pc g' = call_wait)) as Hpend.
  { intros j k g (Hg & Hk & Hev). destruct (decide (i = j)) as [<-|Hne].
    - rewrite Hi in Hg. injection Hg as <-. exists f'. unfold pending. rewrite lookup_insert_eq, Ht, He, Hm. auto.
    - exists g. unfold pending. rewrite lookup_insert_ne by done. auto. }
  split; auto.
  - intros j g [[<- <-]|[? Hg]]%lookup_insert_Some; eauto.
  - intros j1 j2 g1 g2 [[<- <-]|[? Hg1]]%lookup_insert_Some [[<- <-]|[? Hg2]]%lookup_insert_Some; auto; intros.
    + eapply c_uniq0; [exact Hi|exact Hg2|done..|congruence].
    + eapply c_uniq0; [exact Hg1|exact Hi|done..|congruence].
    + by eapply c_uniq0.
  - intros m Hmq. destruct (c_queue0 m Hmq) as (? & j & g & Hp & Hgm & Hgw). split; [done|].
    destruct (Hpend _ _ _ Hp) as (g' & ? & ? & ? & _). exists j, g'. split; [done|]. split; [congruence|auto].
  - intros k ta Hk. destruct (c_items0 k ta Hk) as (j & g & -> & Hp & Hg).
    destruct (Hpend _ _ _ Hp) as (g' & ? & _ & H1 & H2). exists j, g'. split; [done|]. split; [done|].
    destruct Hg as [?|?]; auto.
  - destruct lp as [|msg ta| | | | | | |]; auto.
    destruct c_loop0 as (j & g & -> & Hp & Hg & Hs). destruct (Hpend _ _ _ Hp) as (g' & ? & _ & H1 & _).
    exists j, g'. auto.
Qed.

(** The frame of a call that is not pending goes away. *)
Lemma calm_delete h fr items q tg lp i f :
  calm_inv h fr items q tg lp -> fr !! i = Some f ->
  pc f = call_check \/ event (local_context f) = true -> calm_inv h (delete i fr) items q tg lp.
Proof.
  intros [] Hi Hc.
  assert (forall j k g, pending fr j k g -> pc g <> call_check -> pending (delete i fr) j k g) as Hpend.
  { intros j k g (Hg & Hk & Hev) Hpc. unfold pending. rewrite lookup_delete_ne; [done|]. intros <-.
    rewrite Hi in Hg. injection Hg as <-. destruct Hc; congruence. }
  split; auto.
  - intros j g [_ ?]%lookup_delete_Some. eauto.
  - intros j1 j2 g1 g2 [_ ?]%lookup_delete_Some [_ ?]%lookup_delete_Some. eauto.
  - intros m Hm. destruct (c_queue0 m Hm) as (? & j & g & Hp & Hgm & Hgw). split; [done|].
    exists j, g. split; [apply Hpend; [done|congruence]|done].
  - intros k ta Hk. destruct (c_items0 k ta Hk) as (j & g & -> & Hp & Hg). exists j, g.
    split; [done|]. split; [apply Hpend; [done|destruct Hg; congruence]|done].
  - destruct lp as [|msg ta| | | | | | |]; auto.
    destruct c_loop0 as (j & g & -> & Hp & Hg & Hs). exists j, g.
    split; [done|]. split; [apply Hpend; [done|congruence]|done].
Qed.

(** A new frame, or one that draws its tag: nothing waits for it yet. *)
Lemma calm_new h fr items q tg tg' lp i f' :
  calm_inv h fr items q tg lp -> tg <= tg' -> (forall f, fr !! i = Some f -> pc f = call_check) ->
  calm_frame h tg' f' ->
  (forall j g, fr !! j = Some g -> pc g <> call_check -> pc f' <> call_check -> call_tag f' <> call_tag g) ->
  calm_inv h (<[i := f']> fr) items q tg' lp.
Proof.
  intros [] Ht Hi Hf' Hu.
  assert (forall j k g, pending fr j k g -> pc g <> call_check -> pending (<[i := f']> fr) j k g) as Hpend.
  { intros j k g (Hg & Hk & Hev) Hpc. unfold pending. rewrite lookup_insert_ne; [done|]. intros <-. by apply Hpc, Hi. }
  split; auto; [lia|..].
  - intros j g [[<- <-]|[? Hg]]%lookup_insert_Some; [done|]. destruct (c_frames0 j g Hg). split; auto.
    intros Hpc. specialize (cf_tag0 Hpc). lia.
  - intros j1 j2 g1 g2 [[<- <-]|[? Hg1]]%lookup_insert_Some [[<- <-]|[? Hg2]]%lookup_insert_Some; auto; intros.
    + by destruct (Hu j2 g2).
    + by destruct (Hu j1 g1).
    + by eapply c_uniq0.
  - intros k Hk. specialize (c_sent0 k Hk). lia.
  - intros m Hm. destruct (c_queue0 m Hm) as (? & j & g & Hp & Hgm & Hgw). split; [done|].
    exists j, g. split; [apply Hpend; [done|congruence]|done].
  - intros k ta Hk. destruct (c_items0 k ta Hk) as (j & g & -> & Hp & Hg). exists j, g.
    split; [done|]. split; [apply Hpend; [done|destruct Hg; congruence]|done].
  - destruct lp as [|msg ta| | | | | | |]; auto.
    destruct c_loop0 as (j & g & -> & Hp & Hg & Hs). exists j, g.
    split; [done|]. split; [apply Hpend; [done|congruence]|done].
Qed.

Lemma calm_register h fr items q tg lp i f :
  calm_inv h fr items q tg lp -> fr !! i = Some f -> pc f = call_enqueue ->
  event (local_context f) = false -> (forall ta, (call_tag f, ta) ∉ items) ->
  calm_inv h fr (items ++ [(call_tag f, ta_stack i)]) q tg lp.
Proof.
  intros [] Hi Hpc Hev Hn. split; auto.
  - intros k ta [?|[= -> ->]%list_elem_of_singleton]%elem_of_app; [auto|]. exists i, f.
    split; [done|]. split; [done|]. by left.
  - rewrite fmap_app. apply NoDup_app. split; [done|]. split; [|apply NoDup_singleton].
    intros k ([k' ta] & -> & ?)%list_elem_of_fmap Hk%list_elem_of_singleton. cbn in Hk. subst k'. by eapply Hn.
Qed.

Lemma calm_enqueue h fr items q tg lp i f :
  calm_inv h fr items q tg lp -> fr !! i = Some f -> pc f = call_wait ->
  event (local_context f) = false -> ~ sent h (call_tag f) ->
  (forall m, m ∈ q -> callId (packet_header m) <> call_tag f) ->
  calm_inv h fr items (q ++ [call_msg f]) tg lp.
Proof.
  intros [] Hi Hpc Hev Hs Hn. split; auto.
  - intros m [?|E%list_elem_of_singleton]%elem_of_app; [auto|]. subst m. split; [done|]. exists i, f. done.
  - rewrite map_app. apply NoDup_app. split; [done|]. split; [|apply NoDup_singleton].
    intros k (m & -> & ?)%list_elem_of_fmap Hk%list_elem_of_singleton. by eapply (Hn m).
Qed.

(** The RPC thread hands a response to the call it has found. *)
Lemma calm_complete h fr items q tg i f msg st :
  calm_inv h fr items q tg (loop_found msg (ta_stack i)) -> fr !! i = Some f ->
  calm_inv h (<[i := set_local (mk_local true (Some msg) st) f]> fr)
    (assoc_remove (callId (packet_header msg)) items) q tg loop_queue.
Proof.
  intros [] Hi. destruct c_loop0 as (i' & f0 & [= <-] & (Hf & Ht & Hev) & Hpc & Hs).
  rewrite Hi in Hf. injection Hf as <-. set (f' := set_local _ f).
  assert (forall j k g, pending fr j k g -> pc g <> call_check -> k <> call_tag f -> pending (<[i := f']> fr) j k g) as Hpend.
  { intros j k g (Hg & Hk & Hgev) Hgpc Hkt. unfold pending. rewrite lookup_insert_ne; [done|]. intros <-.
    rewrite Hi in Hg. injection Hg as <-. congruence. }
  destruct (assoc_remove_nodup (callId (packet_header msg)) items c_items_nodup0) as [Hnd Hnin].
  split; auto.
  - intros j g [[<- <-]|[? Hg]]%lookup_insert_Some; [|eauto]. destruct (c_frames0 i f Hi). split; cbn; auto. done.
  - intros j1 j2 g1 g2 [[<- <-]|[? Hg1]]%lookup_insert_Some [[<- <-]|[? Hg2]]%lookup_insert_Some; auto;
      intros Hp1 Hp2 Ht'.
    + exact (c_uniq0 _ _ _ _ Hi Hg2 Hp1 Hp2 Ht').
    + exact (c_uniq0 _ _ _ _ Hg1 Hi Hp1 Hp2 Ht').
    + by eapply c_uniq0.
  - intros m Hm. destruct (c_queue0 m Hm) as (Hns & j & g & Hp & Hgm & Hgw). split; [done|].
    exists j, g. split; [apply Hpend; [done|congruence|]|done]. rewrite Ht. intros E. rewrite E in Hns. done.
  - intros k ta Hk. destruct (c_items0 k ta (assoc_remove_sub _ _ _ Hk)) as (j & g & -> & Hp & Hg). exists j, g.
    split; [done|]. split; [apply Hpend; [done|destruct Hg; congruence|]|done].
    rewrite Ht. intros ->. apply Hnin, list_elem_of_fmap. eexists (_, _). split; [|exact Hk]. done.
Qed.

(** The first packet of the queue is sent. *)
Lemma calm_dequeue h fr items m q tg st st' lp' :
  calm_inv h fr items (m :: q) tg (loop_send st) -> lp' = loop_send st' ->
  calm_inv (l_sent (callId (packet_header m)) st' :: h) fr items q tg lp'.
Proof.
  intros [] ->. set (k := callId (packet_header m)).
  destruct (c_queue0 m) as (Hns & i & f & (Hi & Ht & Hev) & Hm & Hpc); [by left|].
  assert (forall k', sent (l_sent k st' :: h) k' <-> k' = k \/ sent h k') as Hsent.
  { intros k'. rewrite sent_cons. split; [intros [(? & [= <- <-])|?]; auto|intros [->|?]; eauto]. }
  apply NoDup_cons in c_queue_nodup0 as [Hnin Hnd].
  split; auto.
  - intros j g Hg. destruct (c_frames0 j g Hg). split; auto. intros Hp. rewrite Hsent. intros [E|?]; [|by apply cf_sent0].
    assert (j = i) as ->; [|destruct Hp; congruence].
    eapply c_uniq0; [exact Hg|exact Hi|destruct Hp; congruence|congruence|]. by rewrite Ht.
  - intros k'. rewrite Hsent. intros [->|?]; [|auto]. unfold k. rewrite <-Ht.
    destruct (c_frames0 i f Hi). apply cf_tag0. congruence.
  - intros m' Hm'. destruct (c_queue0 m') as (? & Hx); [by right|]. split; [|done]. rewrite Hsent.
    intros [E|?]; [|done]. apply Hnin, list_elem_of_fmap. exists m'. done.
Qed.

(** ** The steps keep the invariant *)

Lemma calm_same_lp l h fr items q tg lp :
  not_sent l -> calm_inv h fr items q tg lp -> calm_inv (l :: h) fr items q tg lp.
Proof. intros Hl Hc. apply (calm_later _ _ _ _ _ _ lp); [done|done|]. by destruct Hc. Qed.

Lemma tag_next t : 0 <= t < 2 ^ 31 - 1 -> i32 (t + 1) = t + 1 /\ u32 (t + 1) = t + 1.
Proof. intros Ht. rewrite i32_id, u32_id; [done|unfold is_u32; lia|unfold is_i32; lia]. Qed.

Lemma calm_event_false h tg f :
  calm_frame h tg f -> pc f = call_add \/ pc f = call_enqueue -> event (local_context f) = false.
Proof.
  intros [] Hp. destruct (event (local_context f)) eqn:E; [|done].
  destruct (cf_event0 eq_refl), Hp; congruence.
Qed.

Lemma calm_call h s lp i r s' lb :
  not_sent lb -> sys_calm h (mk_system s lp) -> tag (rpc s) < 2 ^ 31 - 1 ->
  call_step i false s = Some (r, s') -> sys_calm (lb :: h) (mk_system s' lp).
Proof.
  intros Hlb Hc Ht. unfold call_step. intros (o & s1 & [= <- <-] & E)%rm_bind.
  unfold sys_calm in *. cbn [server loop] in *.
  destruct (frames s !! i) as [f|] eqn:Ef; [|injection E as _ <-; by apply calm_same_lp].
  pose proof (c_frames _ _ _ _ _ _ Hc i f Ef) as Hf. pose proof Hf as [[Hp1 Hp2] Hft Hfd Hfe Hfs Hty Hso].
  destruct (pc f) eqn:Ep; try done.
  - unfold call_init in E. apply rm_bind in E as (c & s2 & [= <- <-] & E). destruct (negb _).
    + apply rm_bind in E as ([st d] & s2 & E & [= _ <-]).
      apply icp_end_changes in E as (-> & _ & _ & -> & _). apply calm_same_lp; [done|].
      eapply calm_delete; [done|exact Ef|by left].
    + apply rm_bind in E as (g & s2 & E2 & E). injection E2 as <- <-.
      apply rm_bind in E as (u & s3 & [= _ <-] & [= _ <-]). apply calm_same_lp; [done|]. cbn.
      destruct (tag_next (tag (rpc s))) as [E1 E2]; [pose proof (c_tag _ _ _ _ _ _ Hc); lia|]. rewrite E1, E2.
      eapply calm_new; [exact Hc|lia|congruence|..].
      * split; cbn; try done; [pose proof (c_tag _ _ _ _ _ _ Hc); unfold call_tag; cbn; lia| |by right; right].
        intros _ Hs%(c_sent _ _ _ _ _ _ Hc). unfold call_tag in Hs. cbn in Hs. lia.
      * intros j g Hg Hpg _. destruct (c_frames _ _ _ _ _ _ Hc j g Hg). specialize (cf_tag0 Hpg).
        unfold call_tag at 1. cbn. lia.
  - apply rm_bind in E as (u & s2 & [= _ <-] & E). apply rm_bind in E as (u2 & s3 & [= _ <-] & [= _ <-]).
    apply calm_same_lp; [done|]. cbn. rewrite dict_add_items.
    pose proof (calm_event_false _ _ _ Hf ltac:(auto)) as Hev.
    change (call_tag f) with (call_tag (set_pc call_enqueue f)).
    apply calm_register; [|apply lookup_insert_eq|done|done|].
    + eapply calm_frame_step; [exact Hc|exact Ef|..]; try done; try congruence.
      split; [done|intros _; by apply Hft|done|cbn; by rewrite Hev|intros _; apply Hfs; by left|done|done].
    + intros ta Hta. destruct (c_items _ _ _ _ _ _ Hc _ _ Hta) as (j & g & -> & (Hg & Hgt & _) & Hgp).
      assert (j = i) as -> by (eapply (c_uniq _ _ _ _ _ _ Hc); [exact Hg|exact Ef|destruct Hgp; congruence|congruence|exact Hgt]).
      destruct Hgp; congruence.
  - apply rm_bind in E as (u & s2 & [= _ <-] & E). apply rm_bind in E as (u2 & s3 & [= _ <-] & [= _ <-]).
    apply calm_same_lp; [done|]. cbn. rewrite enqueue_items.
    pose proof (calm_event_false _ _ _ Hf ltac:(auto)) as Hev.
    change (call_msg f) with (call_msg (set_pc call_wait f)).
    eapply calm_enqueue; [|apply lookup_insert_eq|done|done|apply Hfs; by right|].
    + eapply calm_frame_step; [exact Hc|exact Ef|..]; try done; try congruence; [|auto].
      split; [done|intros _; by apply Hft|done|by left|by intros [?|?]|done|done].
    + intros m Hm Hmt. destruct (c_queue _ _ _ _ _ _ Hc _ Hm) as (_ & j & g & (Hg & Hgt & _) & _ & Hgp).
      assert (j = i) as -> by (eapply (c_uniq _ _ _ _ _ _ Hc); [exact Hg|exact Ef|congruence|congruence|rewrite Hgt; exact Hmt]).
      congruence.
  - unfold call_await in E. destruct (event (local_context f)) eqn:Hev; [|injection E as _ <-; by apply calm_same_lp].
    apply rm_bind in E as (u & s3 & [= _ <-] & [= _ <-]). apply calm_same_lp; [done|]. cbn.
    eapply calm_frame_step; [exact Hc|exact Ef|..]; try done; try congruence.
    split; [done|intros _; by apply Hft|done|by right|by intros [?|?]|done|done].
  - unfold call_finish in E. destruct (call_outcome f) as [ret pl].
    apply rm_bind in E as ([st d] & s2 & E & [= _ <-]).
    apply icp_end_changes in E as (-> & _ & _ & -> & _). apply calm_same_lp; [done|].
    eapply calm_delete; [done|exact Ef|right]. by apply Hfd.
Qed.

Lemma calm_loop h s ev p lb p' s' :
  sys_inv h s p -> sys_calm h (mk_system s p) -> calm h (mk_system s p) (a_loop ev) ->
  loop_step locals ev p s = Some ((lb, p'), s') -> sys_calm (lb :: h) (mk_system s' p').
Proof.
  intros Hi Hc [Hnf Hcalm] E. unfold sys_calm in *. cbn [server loop] in *.
  assert (lb <> l_failure) as Hlb.
  { intros ->. eapply Hnf. cbn. by rewrite E. }
  assert (forall s1 lb p1, not_sent lb -> quiet s s1 -> match p1 with
      | loop_found _ _ | loop_close | loop_clear | loop_abort => False | _ => True end ->
      calm_inv (lb :: h) (frames s1) (dict_items (transactions (rpc s1))) (queue_items (writeQueue (rpc s1)))
        (tag (rpc s1)) p1) as Hq.
  { intros s1 lb1 p1 Hn [] Hp1. rewrite q_frames, q_dict, q_queue, q_tag.
    eapply calm_later; [done|exact Hc|]. by destruct p1. }
  destruct p as [|msg ta| |st| | | | |]; cbn [loop_step] in E.
  - apply rm_bind in E as (c & s1 & [= <- <-] & E).
    destruct (negb _); [injection E as <- <- <-; by apply Hq|].
    destruct (ev_stop ev); [injection E as <- <- <-; by apply Hq|].
    destruct (ev_pipe ev) eqn:Eev; [|injection E as <- <- <-; by apply Hq].
    unfold loop_receive in E. apply rm_bind in E as ([[st hd] b] & s1 & E1 & E).
    pose proof (quiet_receive _ _ _ E1) as Q1.
    destruct (Z.ltb_spec st 0) as [Hst|Hst]; [injection E as <- _ _; done|].
    pose proof (Hcalm eq_refl _ _ _ _ E1 Hst) as Hpol. unfold polite in Hpol.
    destruct (FDSAPI_IS_RESPONSE_ID (msgType hd)).
    + apply rm_bind in E as (ta & s2 & E2 & E). injection E2 as E2 <-.
      destruct ta as [ta|]; [|injection E as <- <- <-; by apply Hq].
      rewrite dict_get_items in E2. apply assoc_find_elem in E2.
      apply rm_bind in E as (bs' & s3 & [-> Hbs]%load_Some & E). injection E as <- <- <-.
      destruct Q1. rewrite q_frames, q_dict, q_queue, q_tag in *.
      eapply calm_later; [done|exact Hc|]. cbn in E2.
      destruct (c_items _ _ _ _ _ _ Hc _ _ E2) as (i & f & -> & Hp & Hpc). exists i, f.
      split; [done|]. split; [done|]. split; [|done]. destruct Hpc as [Hpc|]; [|done].
      destruct Hp as (Hf & Ht & _). destruct (c_frames _ _ _ _ _ _ Hc i f Hf). destruct (cf_sent0); [by right|].
      by rewrite Ht.
    + apply rm_bind in E as (st' & s2 & E2%quiet_request & E).
      assert (quiet s s2) as Q by (by etransitivity).
      destruct (st' <? 0); injection E as <- <- <-; [done|by apply Hq].
  - apply rm_bind in E as (r & s1 & E & [= <- <- <-]).
    destruct (c_loop _ _ _ _ _ _ Hc) as (i & f0 & -> & _).
    apply complete_changes in E as (f & [o d] & Hf & Hd & ->).
    apply dict_remove_items in Hd as [_ Hd]. cbn. rewrite Hd. apply calm_same_lp; [done|]. by apply calm_complete.
  - injection E as <- <- <-. apply Hq; try done. by destruct (ev_queue ev).
  - apply rm_bind in E as (r & s1 & [= <- <-] & E). pose proof (dequeue_items _ (writeQueue (rpc s))) as Hdq.
    destruct (Queue_Dequeue (writeQueue (rpc s))) as [[msg q]|].
    + apply rm_bind in E as (u & s2 & [= _ <-] & E).
      apply rm_bind in E as (st' & s3 & E%quiet_out & [= <- <- <-]). destruct E. cbn in *.
      rewrite q_frames, q_dict, q_queue, q_tag. rewrite Hdq in Hc. by eapply calm_dequeue.
    + destruct (st <? 0); injection E as <- <- <-; [done|by apply Hq].
  - by destruct (c_loop _ _ _ _ _ _ Hc).
  - by destruct (c_loop _ _ _ _ _ _ Hc).
  - by destruct (c_loop _ _ _ _ _ _ Hc).
  - apply rm_bind in E as (r & s1 & E%quiet_connect & [= <- <- <-]). by apply Hq.
  - injection E as <- <- <-. by apply Hq.
Qed.

Lemma calm_begin h s lp type req resp i s' :
  sys_inv h s lp -> sys_calm h (mk_system s lp) -> proper_call type req resp ->
  icp_begin type req resp s = Some (i, s') -> sys_calm (l_begin i :: h) (mk_system s' lp).
Proof.
  intros Hi Hc (Htype & _ & Hresp & _) (st & Hp & -> & ->)%begin_changes. unfold sys_calm in *. cbn in *.
  apply calm_same_lp; [done|]. eapply calm_new; [exact Hc|done|..|done].
  - intros f Hf. apply (i_frames _ _ _ _ _ _ _ Hi) in Hf as [? _]. lia.
  - split; cbn; try done; [by intros [?|?]| |by left]. split; cbn.
    + rewrite Hresp. revert Htype. rewrite !elem_of_cons. intros [->|[->|[->|[->|[]%elem_of_nil]]]]; reflexivity.
    + revert Htype. rewrite !elem_of_cons. intros [->|[->|[->|[->|[]%elem_of_nil]]]]; discriminate.
Qed.
End Calm.
