(* ===== verification/RpcProgress.v ===== *)
(** * Calm runs are defined

    In a calm run every step of every thread is defined: the RPC thread finds
    the frames and the blocks it uses, requests of the manager are unpacked,
    served and answered, and stubs free what they own. *)

From S2P Require Import Prelude WStream Pipe Pipeline Msgpack MsgpackFacts RpcPack RpcMsg RpcTable RpcFacts.
From S2P Require Import RpcContext RpcThreads RpcThreadsFacts RpcRuns RpcCalm.
From stdpp Require Import gmap list.
#[local] Open Scope Z_scope.

Section Progress.
Context {W : WStream} {L : WStreamLaws W} {P : Pipe} {PL : PipeLaws P} {K : Collections} {D : Dictionary}
  {DL : DictionaryLaws D}.
Context (locals : icp_locals).
Abbreviation environment_ok := (environment_ok locals).
Abbreviation calm := (calm locals).
Abbreviation calm_run := (calm_run locals).
Implicit Types s : rdsServer.

(** ** The steps are defined *)

(** [m] is defined in [s]. *)
Definition defined {A} (m : RM A) s : Prop := exists a s', m s = Some (a, s').

Lemma defined_bind {A B} (m : RM A) (k : A -> RM B) s :
  (exists a s', m s = Some (a, s') /\ defined (k a) s') -> defined (m ≫= k) s.
Proof. intros (a & s' & E & (b & s'' & E')). exists b, s''. apply rm_bind. eauto. Qed.

Lemma defined_write data n s : exists st s', tp_npipe_write data n s = Some (st, s') /\ mem s' = mem s.
Proof.
  unfold tp_npipe_write, mbind, RM_bind, get. destruct (hPipe (rpc s)) as [p|]; [|by exists (-1), s].
  destruct (WriteFile p data) as [[ok k] p']. do 2 eexists. split; [reflexivity|done].
Qed.

Lemma defined_read n s : defined (tp_npipe_read n) s.
Proof.
  unfold tp_npipe_read. apply defined_bind. do 2 eexists. split; [reflexivity|].
  destruct (hPipe (rpc s)) as [p|]; [|do 2 eexists; reflexivity].
  destruct (ReadFile p n) as [[ok k] p']. apply defined_bind. do 2 eexists. split; [reflexivity|]. do 2 eexists. reflexivity.
Qed.

Lemma defined_receive s : defined pbrpc_receive_message s.
Proof.
  unfold pbrpc_receive_message. destruct (defined_read FDSAPI_MSG_HEADER_SIZE s) as ([st bs] & s1 & E1).
  apply defined_bind. do 2 eexists. split; [exact E1|]. cbv beta iota. destruct (st <? 0); [do 2 eexists; reflexivity|].
  destruct (defined_read (msgSize (header_of_bytes bs)) s1) as ([st' bs'] & s2 & E2).
  apply defined_bind. do 2 eexists. split; [exact E2|]. cbv beta iota. destruct (st' <? 0); [do 2 eexists; reflexivity|].
  apply defined_bind. do 2 eexists. split; [reflexivity|]. do 2 eexists. reflexivity.
Qed.

(** The bytes behind a packet are there. *)
Definition readable s (msg : FDSAPI_MSG_PACKET) : Prop :=
  packet_length msg = 0 \/ exists l bs, packet_buffer msg = Some l /\ mem s !! l = Some bs /\
    packet_length msg <= Z.of_nat (length bs).

Lemma defined_load s msg : readable s msg ->
  exists bs, load (packet_buffer msg) (packet_length msg) s = Some (bs, s) /\
    (bs = [] \/ exists l bs0, packet_buffer msg = Some l /\ mem s !! l = Some bs0 /\
       bs = take (Z.to_nat (packet_length msg)) bs0).
Proof.
  intros Hr. unfold load. destruct (Z.eqb_spec (packet_length msg) 0); [eauto|].
  destruct Hr as [?|(l & bs & -> & E & Hl)]; [done|]. cbn. rewrite E. cbn. rewrite decide_True by done.
  eexists. split; [done|]. right. eauto.
Qed.

Lemma defined_out s msg : readable s msg ->
  exists st s', pbrpc_process_message_out msg s = Some (st, s') /\ mem s' = mem s.
Proof.
  intros Hr. unfold pbrpc_process_message_out, pbrpc_send_message, send_header, send_body. cbn [msgSize].
  match goal with |- context [tp_npipe_write ?d ?n ≫= _] =>
    destruct (defined_write d n s) as (st & s1 & E1 & M1) end.
  unfold mbind at 1, RM_bind at 1. rewrite E1. destruct (st <? 0); [by exists st, s1|].
  destruct (defined_load s1 msg) as (bs & E2 & _); [unfold readable in *; by rewrite M1|].
  unfold mbind at 1, RM_bind at 1. rewrite E2.
  destruct (defined_write bs (packet_length msg) s1) as (st' & s2 & E3 & M3).
  unfold mbind, RM_bind. rewrite E3. do 2 eexists. split; [reflexivity|congruence].
Qed.

(** Unpacking keeps the kind of a struct, and the id of a heartbeat in range. *)
Lemma cast_unpack_kind {B} `{RpcView B} (f : RPC B -> list Z -> option (bool * RPC B)) d bs ok r :
  cast_unpack f d bs = Some (ok, r) -> exists b, rpc_data r = rinj b.
Proof.
  unfold cast_unpack. destruct (rproj (rpc_data d)) as [b|]; [cbn|done].
  destruct (f _ _) as [[ok' r']|]; [cbn|done]. intros [= _ <-]. eauto.
Qed.

Lemma unpack_kind h0 b0 bs ok r :
  freerds_rpc_msg_unpack (rpc_type b0) (Some (Rpc h0 b0)) bs = Some (ok, Some r) ->
  rpc_type (rpc_data r) = rpc_type b0.
Proof.
  unfold freerds_rpc_msg_unpack. rewrite find_func_entry. cbn [mbind option_bind].
  destruct (Unpack (rpc_func b0) (Rpc h0 b0) bs) as [[ok' r']|] eqn:E; [|done]. intros [= <- <-].
  destruct b0; eapply cast_unpack_kind in E as [b' ->]; reflexivity.
Qed.

Lemma unpack_heartbeat h0 b bs ok r :
  is_u32 (HeartbeatRequest.HeartbeatId b) ->
  freerds_rpc_msg_unpack FDSAPI_HEARTBEAT_REQUEST_ID (Some (Rpc h0 (rHeartbeatRequest b))) bs = Some (ok, Some r) ->
  exists b', rpc_data r = rHeartbeatRequest b' /\ is_u32 (HeartbeatRequest.HeartbeatId b').
Proof.
  intros Hb. change (freerds_rpc_msg_unpack _ _ _) with
    ('(ok, d) ← cast_unpack HeartbeatRequest.freerds_unpack_heartbeat_request (Rpc h0 (rHeartbeatRequest b)) bs;
     Some (ok, Some d)).
  unfold cast_unpack. cbn [rpc_data rproj rpc_view_heartbeat_request mbind option_bind rpc_header].
  unfold HeartbeatRequest.freerds_unpack_heartbeat_request, unpack_message.
  destruct (msgpack_unpack_next bs) as [[root|]|]; cbn; [|intros [= _ <-]; cbn; eauto|done].
  destruct root as [| |v| | | |obj|]; cbn; try (intros [= _ <-]; cbn; eauto; fail).
  destruct (Z.of_nat (length obj) <? 1); cbn; [intros [= _ <-]; cbn; eauto|].
  destruct obj as [|x obj]; cbn; [done|].
  destruct x as [| |v| | | | |]; cbn; intros [= _ <-]; cbn; eauto.
  eexists. split; [done|]. apply is_u32_u32.
Qed.

(** ** Requests are served *)

Lemma defined_unpack s type data msg :
  readable s msg -> (forall l bs, packet_buffer msg = Some l -> mem s !! l = Some bs -> Forall is_u8 bs) ->
  rpc_type (rpc_data data) = FDSAPI_REQUEST_ID type ->
  FDSAPI_REQUEST_ID type <> FDSAPI_CHANNEL_ENDPOINT_OPEN_RESPONSE_ID ->
  exists r, unpack_request type data msg s = Some (r, s) /\ rpc_header r = packet_header msg /\
    exists bs ok r', freerds_rpc_msg_unpack (FDSAPI_REQUEST_ID type) (Some data) bs = Some (ok, Some r') /\
      rpc_data r = rpc_data r'.
Proof.
  intros Hr Hu Ht Hne. destruct (defined_load s msg Hr) as (bs & E & Hbs).
  assert (Forall is_u8 bs) as Hb8.
  { destruct Hbs as [->|(l & bs0 & Hl & Hm & ->)]; [constructor|]. apply Forall_take. eauto. }
  rewrite <-Ht in Hne. destruct data as [h0 b0]. cbn [rpc_data] in *.
  destruct (rpc_unpack_total h0 b0 bs Hb8 Hne) as (ok & r' & Eu).
  exists (Rpc (packet_header msg) (rpc_data r')). split; [|split; [done|]].
  - unfold unpack_request, mbind, RM_bind. rewrite E, <-Ht. unfold lift at 1. rewrite Eu. done.
  - rewrite <-Ht. exists bs, ok, r'. done.
Qed.

Lemma defined_pack s type data :
  rpc_ok data -> rpc_type (rpc_data data) = type ->
  exists l n s' bs, pack_payload type data s = Some ((l, n), s') /\ mem s' !! l = Some bs /\
    0 <= n <= Z.of_nat (length bs).
Proof.
  intros Hok <-. destruct (rpc_pack_spec data None Hok I) as (st & Ep & buf & (Hb & _ & Hl) & Hbs).
  unfold pack_payload, mbind, RM_bind, lift. rewrite Ep. do 4 eexists. split; [reflexivity|].
  cbn. rewrite lookup_insert_eq, Hb, Hl. split; [done|].
  apply (f_equal length) in Hbs. rewrite length_take in Hbs. unfold wire_array in *. lia.
Qed.

Lemma defined_post s type zero id msg :
  environment_ok s -> readable s msg ->
  (forall l bs, packet_buffer msg = Some l -> mem s !! l = Some bs -> Forall is_u8 bs) ->
  rpc_type zero = FDSAPI_REQUEST_ID type -> FDSAPI_REQUEST_ID type <> FDSAPI_CHANNEL_ENDPOINT_OPEN_RESPONSE_ID ->
  (forall b, rpc_type b = rpc_type zero -> is_Some (id b)) ->
  exists st s', post_request type zero id msg s = Some ((st, None), s').
Proof.
  intros Henv Hr Hu Ht Hne Hid.
  destruct (defined_unpack s type (Rpc rpc_header0 zero) msg Hr Hu Ht Hne) as (r & E & _ & bs & ok & r' & Eu & Hd).
  unfold post_request. unfold mbind at 1, RM_bind at 1. rewrite E.
  rewrite <-Ht in Eu. apply unpack_kind in Eu. rewrite <-Hd in Eu. destruct (Hid _ Eu) as [c ->].
  unfold mbind, RM_bind, lift at 1, freerds_server_get_connection, get.
  destruct (ListDictionary_GetItemValue c (connections s)) as [n|] eqn:Ec; [|by exists (-1), s].
  rewrite dict_get_items in Ec. apply assoc_find_elem in Ec. destruct Henv as [Hn _].
  destruct (Hn _ _ Ec) as [q ->]. cbn. do 2 eexists. reflexivity.
Qed.

Lemma request_defined s msg :
  environment_ok s -> FDSAPI_IS_RESPONSE_ID (msgType (packet_header msg)) = false ->
  polite [] (packet_header msg) -> readable s msg ->
  (forall l bs, packet_buffer msg = Some l -> mem s !! l = Some bs -> Forall is_u8 bs) ->
  defined (pbrpc_process_request locals msg) s.
Proof.
  intros Henv Hresp Hpol Hr Hu. unfold polite in Hpol. rewrite Hresp in Hpol.
  unfold pbrpc_process_request.
  apply elem_of_cons in Hpol as [Et|Hpol].
  - (* heartbeat *)
    rewrite Et. cbn [request_callback Z.eqb FDSAPI_HEARTBEAT_REQUEST_ID].
    change (request_callback locals FDSAPI_HEARTBEAT_REQUEST_ID) with (Some (freerds_icp_Heartbeat locals)).
    destruct Henv as (_ & Hk & Hok & Hst). unfold freerds_icp_Heartbeat. cbv zeta.
    destruct (defined_unpack s FDSAPI_HEARTBEAT_REQUEST_ID (l_heartbeat_request locals) msg)
      as (r & E & Hh & bs & ok & r' & Eu & Hd); [done|done|exact Hk|discriminate|].
    destruct (l_heartbeat_request locals) as [h0 b0] eqn:El.
    destruct b0; try discriminate Hk. cbn in Hok.
    apply unpack_heartbeat in Eu as (b' & Hb' & Hu32); [|exact Hok]. rewrite Hb' in Hd.
    match goal with |- context [pack_payload ?t _] =>
      destruct (defined_pack s t (Rpc (mk_rpc_header (msgSize (l_heartbeat_response locals)) t
          (callId (rpc_header r)) (status (l_heartbeat_response locals)))
          (rHeartbeatResponse (HeartbeatResponse.mk (HeartbeatRequest.HeartbeatId b')))))
        as (l & n & s' & bs' & Epk & Hm & Hn); [done|reflexivity|] end.
    unfold defined. unfold mbind, RM_bind. rewrite E, Hd. cbn [rproj rpc_view_heartbeat_request lift]. rewrite Epk.
    unfold mret, RM_ret. unfold pbrpc_send_response. cbn [payload_buffer payload_length PBRPC_SUCCESS Z.eqb].
    match goal with |- context [pbrpc_process_message_out ?m] =>
      destruct (defined_out s' m) as (st & s2 & Eo & Mo) end.
    { right. exists l, bs'. cbn. split; [done|]. split; [done|lia]. }
    unfold defined, mbind, RM_bind. rewrite Eo. cbn. rewrite Mo, Hm. do 2 eexists. reflexivity.
  - assert (exists st s', (request_callback locals (msgType (packet_header msg)) = None -> False) /\
      forall cb, request_callback locals (msgType (packet_header msg)) = Some cb -> cb msg s = Some ((st, None), s')) as (st & s' & Hnn & Hcb).
    { revert Hpol. rewrite !elem_of_cons. intros [->|[->|[->|[]%elem_of_nil]]].
      - destruct (defined_post s FDSAPI_SWITCH_SERVICE_ENDPOINT_REQUEST_ID
          (rSwitchServiceEndpointRequest (SwitchServiceEndpointRequest.mk 0 None))
          (fun b => SwitchServiceEndpointRequest.ConnectionId <$> rproj b) msg) as (st & s' & E); try done.
        { intros []; try discriminate. intros _. cbn. eauto. }
        exists st, s'. split; [discriminate|]. by intros cb [= <-].
      - destruct (defined_post s FDSAPI_LOGOFF_USER_REQUEST_ID (rLogoffUserRequest (LogoffUserRequest.mk 0))
          (fun b => LogoffUserRequest.ConnectionId <$> rproj b) msg) as (st & s' & E); try done.
        { intros []; try discriminate. intros _. cbn. eauto. }
        exists st, s'. split; [discriminate|]. by intros cb [= <-].
      - destruct (defined_post s FDSAPI_CHANNEL_ENDPOINT_OPEN_REQUEST_ID
          (rChannelEndpointOpenRequest (ChannelEndpointOpenRequest.mk 0 None))
          (fun b => ChannelEndpointOpenRequest.ConnectionId <$> rproj b) msg) as (st & s' & E); try done.
        { intros []; try discriminate. intros _. cbn. eauto. }
        exists st, s'. split; [discriminate|]. by intros cb [= <-]. }
    destruct (request_callback locals (msgType (packet_header msg))) as [cb|]; [|by destruct Hnn].
    apply defined_bind. do 2 eexists. split; [by apply Hcb|]. do 2 eexists. reflexivity.
Qed.

(** ** No undefined behaviour *)

(** The end of a stub finds its blocks. *)
Lemma end_defined h s lp i f st pl :
  sys_inv h s lp -> frames s !! i = Some f -> typed f ->
  (st = 0 -> exists msg, response (local_context f) = Some msg /\ pl = Some (pbrpc_fill_payload msg)) ->
  defined (icp_end i f st pl) s.
Proof.
  intros Hi Hf [Hty Hne] Hpl. pose proof Hi as [Im If Io _ _].
  destruct (If i f Hf) as (_ & (_ & _ & bs0 & Hb0 & _) & Hres).
  unfold icp_end, defined, mbind, RM_bind, modify. cbn [free mem set_frames]. rewrite Hb0.
  destruct (Z.eqb_spec st 0) as [Hst|Hst]; cbn [negb]; [|do 2 eexists; reflexivity].
  destruct (Hpl Hst) as (msg & Hr & ->). destruct (Hres _ Hr) as (_ & (l & bs & Hb & Hm & Hn & Hu & _) & _).
  assert (l <> request_block f) as Hlr.
  { intros ->. assert (o_response i = o_request i); [|done].
    eapply Io; [cbn; exists f, msg; done|cbn; exists f; done]. }
  set (s1 := set_mem _ _). unfold lift at 1, pbrpc_fill_payload. cbn [payload_buffer payload_length].
  destruct (defined_load s1 msg) as (bs' & El & Hbs').
  { right. exists l, bs. subst s1. cbn. rewrite lookup_delete_ne by done. split; [done|]. split; [done|lia]. }
  rewrite El. assert (Forall is_u8 bs') as Hu'.
  { destruct Hbs' as [->|(l' & bs1 & Hb' & Hm' & ->)]; [constructor|]. rewrite Hb in Hb'. injection Hb' as <-.
    subst s1. cbn in Hm'. rewrite lookup_delete_ne in Hm' by done. apply Forall_take. congruence. }
  destruct (pResponse f) as [h0 b0] eqn:Ep. cbn [rpc_data] in Hty. rewrite <-Hty in Hne |- *.
  destruct (rpc_unpack_total h0 b0 bs' Hu' Hne) as (ok & r & ->). cbn [lift pbrpc_free_payload free payload_buffer].
  rewrite Hb. cbn [free]. subst s1. cbn [mem set_mem set_frames]. rewrite lookup_delete_ne by done. rewrite Hm.
  do 2 eexists. reflexivity.
Qed.

Lemma finish_defined h s lp i f :
  sys_inv h s lp -> frames s !! i = Some f -> typed f -> status_ok f -> defined (call_finish i f) s.
Proof.
  intros Hi Hf Hty Hs. unfold call_finish. destruct (call_outcome f) as [ret pl] eqn:Eo.
  destruct (end_defined h s lp i f (i32 ret) pl Hi Hf Hty) as ([st d] & s' & E).
  - intros Hz. unfold call_outcome in Eo. destruct (response (local_context f)) as [msg|] eqn:Er.
    + injection Eo as <- <-. eauto.
    + exfalso. injection Eo as <- _. revert Hz. destruct (Hs Er) as [-> | [-> | ->]]; discriminate.
  - apply defined_bind. do 2 eexists. split; [exact E|]. do 2 eexists. reflexivity.
Qed.

Lemma call_defined h s lp i :
  sys_inv h s lp -> sys_calm h (mk_system s lp) ->
  defined (call_step i false) s.
Proof.
  intros Hi Hc. unfold call_step. apply defined_bind. do 2 eexists. split; [reflexivity|].
  destruct (frames s !! i) as [f|] eqn:Ef; [|do 2 eexists; reflexivity].
  destruct (c_frames _ _ _ _ _ _ Hc i f Ef) as [[Hp1 Hp2] _ _ _ _ Hty Hso].
  destruct (pc f); try done.
  - unfold call_init. apply defined_bind. do 2 eexists. split; [reflexivity|]. destruct (negb _).
    + destruct (end_defined h s lp i f PBRCP_TRANSPORT_ERROR None Hi Ef Hty) as ([st d] & s' & E); [discriminate|].
      apply defined_bind. do 2 eexists. split; [exact E|]. do 2 eexists. reflexivity.
    + do 2 eexists. reflexivity.
  - do 2 eexists. reflexivity.
  - do 2 eexists. reflexivity.
  - unfold call_await. destruct (event (local_context f)); do 2 eexists; reflexivity.
  - eapply finish_defined; eauto.
Qed.

Lemma loop_defined h s p ev :
  sys_inv h s p -> sys_calm h (mk_system s p) -> environment_ok s -> calm h (mk_system s p) (a_loop ev) ->
  defined (loop_step locals ev p) s.
Proof.
  intros Hi Hc Henv [_ Hcalm]. cbn [server loop] in Hcalm. unfold sys_calm in Hc. cbn in Hc.
  destruct p as [|msg ta| |st| | | | |]; cbn [loop_step].
  - apply defined_bind. do 2 eexists. split; [reflexivity|].
    destruct (negb _); [do 2 eexists; reflexivity|]. destruct (ev_stop ev); [do 2 eexists; reflexivity|].
    destruct (ev_pipe ev); [|do 2 eexists; reflexivity].
    destruct (defined_receive s) as ([[st hd] b] & s1 & E1). unfold loop_receive.
    apply defined_bind. do 2 eexists. split; [exact E1|]. cbv beta iota.
    destruct (Z.ltb_spec st 0) as [Hneg|Hpos]; [do 2 eexists; reflexivity|].
    pose proof (Hcalm eq_refl _ _ _ _ E1 Hpos) as Hpol.
    destruct (receive_done _ _ _ _ _ E1 Hpos) as (_ & l & bs & -> & Hl & Hm & Hn & Hu).
    pose proof (quiet_receive _ _ _ E1) as Q1.
    assert (readable s1 (received_packet hd (Some l))) as Hrd.
    { right. exists l, bs. cbn. split; [done|]. split; [done|lia]. }
    destruct (FDSAPI_IS_RESPONSE_ID (msgType hd)) eqn:Eresp.
    + apply defined_bind. do 2 eexists. split; [reflexivity|].
      destruct (ListDictionary_GetItemValue _ _) as [ta|]; [|do 2 eexists; reflexivity].
      destruct (defined_load s1 _ Hrd) as (bs' & El & _).
      apply defined_bind. do 2 eexists. split; [exact El|]. do 2 eexists. reflexivity.
    + destruct (request_defined s1 (received_packet hd (Some l))) as (st' & s2 & E2); [|exact Eresp| |exact Hrd|..].
      * destruct Q1, Henv as [Hn' ?]. split; [|done]. rewrite q_conn. intros k n Hk. apply q_notif. eauto.
      * unfold polite in *. cbn [packet_header received_packet]. by rewrite Eresp in *.
      * intros l' bs' [= <-] Hm'. congruence.
      * apply defined_bind. do 2 eexists. split; [exact E2|]. destruct (st' <? 0); do 2 eexists; reflexivity.
  - destruct (c_loop _ _ _ _ _ _ Hc) as (i & f & -> & (Hf & _) & _).
    apply defined_bind. unfold complete_transaction, mbind, RM_bind, get.
    destruct (ListDictionary_Remove _ _) as [o d]. cbn. rewrite Hf. cbn. rewrite Hf. cbn.
    do 2 eexists. split; [reflexivity|]. do 2 eexists. reflexivity.
  - do 2 eexists. reflexivity.
  - apply defined_bind. do 2 eexists. split; [reflexivity|].
    pose proof (dequeue_items _ (writeQueue (rpc s))) as Hdq.
    destruct (Queue_Dequeue (writeQueue (rpc s))) as [[m q]|]; [|destruct (st <? 0); do 2 eexists; reflexivity].
    rewrite Hdq in Hc. destruct (c_queue _ _ _ _ _ _ Hc m) as (_ & i & f & (Hf & _) & Hmsg & _); [by left|].
    destruct (i_frames _ _ _ _ _ _ _ Hi i f Hf) as (_ & (Hb & _ & bs & Hm & Hl) & _). rewrite Hmsg in *.
    destruct (defined_out (set_rpc (set_queue q (rpc s)) s) m) as (st' & s2 & E2 & _).
    { right. exists (request_block f), bs. done. }
    apply defined_bind. do 2 eexists. split; [reflexivity|].
    apply defined_bind. do 2 eexists. split; [exact E2|]. do 2 eexists. reflexivity.
  - by destruct (c_loop _ _ _ _ _ _ Hc).
  - by destruct (c_loop _ _ _ _ _ _ Hc).
  - by destruct (c_loop _ _ _ _ _ _ Hc).
  - destruct Hcalm as [[u s'] E]. apply defined_bind. do 2 eexists. split; [exact E|]. do 2 eexists. reflexivity.
  - do 2 eexists. reflexivity.
Qed.

(** ** Every calm run *)

Lemma environment_quiet s s' : environment_ok s -> quiet s s' -> environment_ok s'.
Proof.
  intros [Hn ?] []. split; [|done]. rewrite q_conn. intros k n Hk. apply q_notif. eauto.
Qed.

(** Everything but a request leaves the connections alone. *)
Lemma environment_same s s' :
  environment_ok s -> connections s' = connections s -> notifications s' = notifications s -> environment_ok s'.
Proof. intros [Hn ?] Ec En. split; [|done]. by rewrite Ec, En. Qed.

Lemma end_environment i f st pl s r s' :
  icp_end i f st pl s = Some (r, s') -> connections s' = connections s /\ notifications s' = notifications s.
Proof.
  assert (forall p s s' u, free p s = Some (u, s') ->
    connections s' = connections s /\ notifications s' = notifications s) as Hfree.
  { intros [l|] s0 s1 u; cbn; [|by intros [= _ <-]]. destruct (mem s0 !! l); [by intros [= _ <-]|done]. }
  unfold icp_end. intros (u & s1 & [= _ <-] & E)%rm_bind. apply rm_bind in E as (u2 & s2 & [E1 E2]%Hfree & E).
  cbn in E1, E2. destruct (negb _); [by injection E as _ <-|].
  apply rm_bind in E as (p & s3 & [-> ->]%lift_Some & E).
  apply rm_bind in E as (bs & s4 & [-> _]%load_Some & E).
  apply rm_bind in E as ([ok d] & s5 & [_ ->]%lift_Some & E). cbv beta iota in E.
  apply rm_bind in E as (d' & s6 & [_ ->]%lift_Some & E).
  apply rm_bind in E as (u3 & s7 & [E3 E4]%Hfree & [= _ <-]). split; congruence.
Qed.

Lemma call_environment i ex s r s' :
  call_step i ex s = Some (r, s') -> connections s' = connections s /\ notifications s' = notifications s.
Proof.
  unfold call_step. intros (o & s1 & [= <- <-] & E)%rm_bind.
  destruct (frames s !! i) as [f|]; [|by injection E as _ <-].
  assert (forall ex, call_await i f ex s = Some (r, s') ->
            connections s' = connections s /\ notifications s' = notifications s) as Hawait.
  { intros ex'. unfold call_await. destruct (event _); [by intros [= _ <-]|].
    destruct ex'; by intros [= _ <-]. }
  destruct (pc f); [..|by apply (Hawait false)|].
  - unfold call_init in E. apply rm_bind in E as (c & s2 & [= <- <-] & E). destruct (negb _).
    + apply rm_bind in E as ([st d] & s2 & E & [= _ <-]). by eapply end_environment.
    + by injection E as _ <-.
  - by injection E as _ <-.
  - by injection E as _ <-.
  - by eapply Hawait.
  - unfold call_withdraw in E. apply rm_bind in E as ([o d] & s2 & [= _ <-] & E). cbv beta iota in E.
    by injection E as _ <-.
  - unfold call_finish in E. destruct (call_outcome f). apply rm_bind in E as ([st d] & s2 & E & [= _ <-]).
    by eapply end_environment.
Qed.

Lemma loop_environment h s ev p lb p' s' :
  sys_calm h (mk_system s p) -> environment_ok s ->
  loop_step locals ev p s = Some ((lb, p'), s') -> environment_ok s'.
Proof.
  intros Hc He E. unfold sys_calm in Hc. cbn in Hc. destruct p as [|msg ta| |st| | | | |]; cbn [loop_step] in E.
  - apply rm_bind in E as (c & s1 & [= <- <-] & E).
    destruct (negb _); [by injection E as _ _ <-|]. destruct (ev_stop ev); [by injection E as _ _ <-|].
    destruct (ev_pipe ev); [|by injection E as _ _ <-].
    unfold loop_receive in E. apply rm_bind in E as ([[st hd] b] & s1 & E1%quiet_receive & E).
    assert (environment_ok s1) as He1 by (by eapply environment_quiet).
    destruct (st <? 0); [by injection E as _ _ <-|]. destruct (FDSAPI_IS_RESPONSE_ID _).
    + apply rm_bind in E as (ta & s2 & [= _ <-] & E). destruct ta; [|by injection E as _ _ <-].
      by apply rm_bind in E as (bs' & s3 & [-> _]%load_Some & [= _ _ <-]).
    + apply rm_bind in E as (st' & s2 & E2%quiet_request & E).
      assert (environment_ok s2) by (by eapply environment_quiet). destruct (st' <? 0); by injection E as _ _ <-.
  - apply rm_bind in E as (r & s1 & E & [= _ _ <-]).
    destruct (c_loop _ _ _ _ _ _ Hc) as (i & f0 & -> & _).
    apply complete_changes in E as (f & [o d] & _ & _ & ->). by eapply environment_same.
  - by injection E as _ _ <-.
  - apply rm_bind in E as (r & s1 & [= <- <-] & E). destruct (Queue_Dequeue _) as [[msg q]|].
    + apply rm_bind in E as (u & s2 & [= _ <-] & E). apply rm_bind in E as (st' & s3 & E%quiet_out & [= _ _ <-]).
      eapply environment_quiet; [|exact E]. exact He.
    + destruct (st <? 0); by injection E as _ _ <-.
  - by destruct (c_loop _ _ _ _ _ _ Hc).
  - by destruct (c_loop _ _ _ _ _ _ Hc).
  - by destruct (c_loop _ _ _ _ _ _ Hc).
  - apply rm_bind in E as (r & s1 & E%quiet_connect & [= _ _ <-]). by eapply environment_quiet.
  - by injection E as _ _ <-.
Qed.

Definition system_ok (h : list label) (sys : system) : Prop :=
  sys_inv h (server sys) (loop sys) /\ sys_calm h sys /\ environment_ok (server sys).

Lemma initial_ok sys : initial sys -> environment_ok (server sys) -> system_ok [] sys.
Proof.
  intros H0 He. split; [by apply initial_inv|]. split; [|done].
  destruct H0 as (Hl & Hf & Hd & Hq & Ht & _). unfold sys_calm. rewrite Hl, Hf, Hd, Hq, Ht.
  split; try done.
  - intros k (st & []%elem_of_nil).
  - by intros m ?%elem_of_nil.
  - constructor.
  - by intros k ta ?%elem_of_nil.
  - constructor.
Qed.

(** A calm action is defined and keeps everything in order. *)
Lemma calm_progress h sys a :
  system_ok h sys -> proper a -> calm h sys a ->
  exists l sys', act locals a sys = Some (l, sys') /\ system_ok (l :: h) sys'.
Proof.
  intros (Hi & Hc & He) Hp Ha. destruct sys as [s lp]. cbn [server loop] in *.
  assert (exists l sys', act locals a (mk_system s lp) = Some (l, sys') /\
            sys_calm (l :: h) sys' /\ environment_ok (server sys')) as (l & sys' & E & ? & ?).
  2:{ exists l, sys'. split; [done|]. split; [eapply (act_inv locals h a (mk_system s lp)); [exact Hp|exact Hi|exact E]|done]. }
  destruct a as [type req resp|i ex|ev].
  - pose proof Hp as (_ & Ht & _ & Hok). rewrite <-Ht.
    destruct (defined_pack s (rpc_type (rpc_data req)) req Hok eq_refl) as (l & n & s1 & bs & E1 & _).
    assert (exists i s', icp_begin (rpc_type (rpc_data req)) req resp s = Some (i, s')) as (i & s' & E).
    { unfold icp_begin. apply defined_bind. do 2 eexists. split; [exact E1|]. do 2 eexists. reflexivity. }
    cbn. rewrite E. do 2 eexists. split; [reflexivity|]. cbn. rewrite Ht in E.
    split; [by eapply calm_begin|]. apply begin_changes in E as (st & _ & _ & ->). by eapply environment_same.
  - destruct Ha as [_ [-> Htag]]. destruct (call_defined h s lp i Hi Hc) as (r & s' & E). cbn. rewrite E.
    do 2 eexists. split; [reflexivity|]. cbn. split.
    + eapply calm_call; [|done|done|exact E]. destruct r; [done|done|]. by destruct (frames s !! i).
    + destruct (call_environment _ _ _ _ _ E). by eapply environment_same.
  - destruct (loop_defined h s lp ev Hi Hc He Ha) as ([l p] & s' & E). cbn. rewrite E.
    do 2 eexists. split; [reflexivity|]. split; [by eapply calm_loop|]. by eapply loop_environment.
Qed.

Lemma calm_run_ok sys0 h sys :
  initial sys0 -> environment_ok (server sys0) -> calm_run sys0 h sys -> system_ok h sys.
Proof.
  intros H0 He. induction 1 as [|h sys a l sys' Hr IH Hp Ha E]; [by apply initial_ok|].
  destruct (calm_progress h sys a IH Hp Ha) as (l' & sys1 & E' & Hok). rewrite E in E'. by injection E' as <- <-.
Qed.

(** ** Checking that a run is calm *)

Definition sentb (h : list label) (c : Z) : bool :=
  existsb (fun l => match l with l_sent c' _ => c' =? c | _ => false end) h.

Definition politeb (h : list label) (hd : FDSAPI_MSG_HEADER) : bool :=
  if FDSAPI_IS_RESPONSE_ID (msgType hd) then sentb h (callId hd)
  else existsb (Z.eqb (msgType hd))
         [FDSAPI_HEARTBEAT_REQUEST_ID; FDSAPI_SWITCH_SERVICE_ENDPOINT_REQUEST_ID;
          FDSAPI_LOGOFF_USER_REQUEST_ID; FDSAPI_CHANNEL_ENDPOINT_OPEN_REQUEST_ID].

Definition calmb (h : list label) (sys : system) (a : action) : bool :=
  match act locals a sys with Some (l_failure, _) => false | _ => true end &&
  match a with
  | a_begin _ _ _ => true
  | a_call _ expired => negb expired && (tag (rpc (server sys)) <? 2 ^ 31 - 1)
  | a_loop ev =>
      match loop sys with
      | loop_wait =>
          negb (ev_pipe ev) ||
          match pbrpc_receive_message (server sys) with
          | Some ((st, hd, _), _) => (st <? 0) || politeb h hd
          | None => true
          end
      | loop_connect => match pbrpc_connect (ev_attempts ev) (server sys) with Some _ => true | None => false end
      | _ => true
      end
  end.

Lemma politeb_sound h hd : politeb h hd = true -> polite h hd.
Proof.
  unfold politeb, polite. destruct (FDSAPI_IS_RESPONSE_ID (msgType hd)); intros (x & Hx & E)%existsb_exists.
  - destruct x; try done. apply Z.eqb_eq in E as ->. exists st. by apply list_elem_of_In.
  - apply Z.eqb_eq in E as ->. by apply list_elem_of_In.
Qed.

Lemma calmb_sound h sys a : calmb h sys a = true -> calm h sys a.
Proof.
  unfold calmb. intros [Hf Ha]%andb_true_iff. split.
  - intros sys' E. by rewrite E in Hf.
  - destruct a as [| |ev]; [done| |].
    + apply andb_true_iff in Ha as [Hx Ht]. apply Z.ltb_lt in Ht. by destruct expired.
    + destruct (loop sys); try done.
      * intros Hp st hd b s' E Hst. rewrite Hp, E in Ha. cbn in Ha.
        apply orb_true_iff in Ha as [Ha|Ha]; [apply Z.ltb_lt in Ha; lia|by apply politeb_sound].
      * destruct (pbrpc_connect _ _); [eauto|done].
Qed.

(** The schedule, as long as its actions are calm. *)
Fixpoint calm_schedule (actions : list action) (h : list label) (sys : system) : option (list label * system) :=
  match actions with
  | [] => Some (h, sys)
  | a :: actions => if calmb h sys a then '(l, sys) ← act locals a sys; calm_schedule actions (l :: h) sys else None
  end.

Lemma calm_schedule_run sys0 actions h sys h' sys' :
  calm_run sys0 h sys -> Forall proper actions -> calm_schedule actions h sys = Some (h', sys') ->
  calm_run sys0 h' sys'.
Proof.
  revert h sys. induction actions as [|a actions IH]; cbn; intros h sys Hr Hp E; [by simplify_eq|].
  apply Forall_cons_1 in Hp as [Hp1 Hp]. destruct (calmb h sys a) eqn:Ec; [|done].
  destruct (act locals a sys) as [[l sys1]|] eqn:Ea; [|done]. cbn in E.
  eapply IH; [|exact Hp|exact E]. econstructor; [exact Hr|done|by apply calmb_sound|done].
Qed.
End Progress.
