(* ===== verification/RpcInstances.v ===== *)
(** * Executable dictionaries and queues

    Lists as WinPR's dictionaries and queues, and the systems on which the
    instances of the RPC theorems run. *)

From stdpp Require Import gmap.
From S2P Require Import Prelude WStream ListStream Pipe Pipeline Instances Msgpack RpcPack RpcMsg RpcTable.
From S2P Require Import RpcFacts RpcContext RpcThreads.

#[global] Instance list_dictionary : Dictionary := {
  wListDictionary V := list (Z * V);
  ListDictionary_New V := [];
  ListDictionary_Add V k v d := d ++ [(k, v)];
  ListDictionary_GetItemValue V k d := assoc_find k d;
  ListDictionary_Remove V k d := (assoc_find k d, assoc_remove k d);
  ListDictionary_Remove_Head V d := match d with [] => None | (_, v) :: d' => Some (v, d') end;
  ListDictionary_Count V d := Z.of_nat (length d);
  dict_items V d := d;
  wQueue V := list V;
  Queue_New V := [];
  Queue_Enqueue V v q := q ++ [v];
  Queue_Dequeue V q := match q with [] => None | v :: q' => Some (v, q') end;
  Queue_Clear V _ := [];
  queue_items V q := q;
}.

#[global] Instance list_dictionary_laws : DictionaryLaws list_dictionary.
Proof.
  split; try done.
  - by intros V k d d' r [= <- <-].
  - intros V [|[k v] d]; cbn; eauto.
  - by intros V [|v q].
Qed.

(** The uninitialised variables of the demonstrations. *)
Definition demo_locals : icp_locals :=
  mk_icp_locals (Rpc rpc_header0 (rHeartbeatRequest (HeartbeatRequest.mk 77))) (mk_rpc_header 0 0 0 99) false.

(** A server with one connection, 5, and nothing under way. *)
Definition demo_server : rdsServer :=
  mk_server_ pbrpc_server_new [(5, 0%nat)] {[0%nat := []]} ∅ ∅ ∅ [] 0 0.

Definition demo_system : system := mk_system demo_server loop_connect.

Lemma demo_initial : initial demo_system.
Proof. repeat split. intros l [? E]. cbn in E. by rewrite lookup_empty in E. Qed.

(** A logoff call, and what the manager answers to it: the response to call 1
    with the status 0 and the connection. *)
Definition logoff_request : rpc_msg := Rpc rpc_header0 (rLogoffUserRequest (LogoffUserRequest.mk 5)).
Definition logoff_response : rpc_msg := Rpc rpc_header0 (rLogoffUserResponse (LogoffUserResponse.mk 0)).
Definition logoff_answer : list Z :=
  header_bytes (mk_rpc_header 3 FDSAPI_LOGOFF_USER_RESPONSE_ID 1 0) ++ [0x92; 0x00; 0x05].

Definition demo_pipe : lpipe := LPipe logoff_answer [] [] 1000.

(** Actions of the RPC thread. *)
Definition go : loop_events := mk_events false false true [].
Definition go_read : loop_events := mk_events false true false [].
Definition go_connect (p : lpipe) : loop_events := mk_events false false false [(true, Some p, false)].

(** The call registers, is queued and sent. *)
Definition demo_send : list action := [
  a_loop (go_connect demo_pipe);
  a_begin FDSAPI_LOGOFF_USER_REQUEST_ID logoff_request logoff_response;
  a_call 0 false; a_call 0 false; a_call 0 false;
  a_loop go; a_loop go; a_loop go; a_loop go ].
