(* ===== verification/RpcCoreTheorems.v ===== *)
(** * Theorems on the RPC context of the core

    What [pbrpc_call_method] and [pbrpc_main_loop] guarantee in every
    interleaving, when they are safe, and what a timeout breaks. *)

From S2P Require Import Prelude WStream ListStream Pipe Pipeline Instances Msgpack MsgpackFacts RpcPack RpcMsg.
From S2P Require Import RpcTable RpcFacts RpcContext RpcThreads RpcThreadsFacts RpcRuns RpcCalm RpcProgress.
From S2P Require Import RpcInstances.
From stdpp Require Import gmap list.
#[local] Open Scope Z_scope.

(** ** A call gets its own response *)

(** C5. In every interleaving of the RPC thread and its
    callers, with timeouts and reconnections and whatever the manager sends: a
    stub that returns success has unpacked the payload of a response that was
    received with the tag of its call and the status 0; a stub that returns
    anything else leaves the response struct alone. *)
Theorem call_gets_its_response {W : WStream} {L : WStreamLaws W} {P : Pipe} {PL : PipeLaws P}
    {K : Collections} {D : Dictionary} {DL : DictionaryLaws D} locals sys0 h sys i f st data :
  initial sys0 -> run locals sys0 (l_return i f st data :: h) sys ->
  (st <> 0 /\ data = pResponse f) \/
  (st = 0 /\ exists bs ok, l_response (call_tag f) 0 bs ∈ h /\
     freerds_rpc_msg_unpack (FDSAPI_RESPONSE_ID (call_type f)) (Some (pResponse f)) bs = Some (ok, Some data)).
Proof.
  intros H0 Hr. inversion_clear Hr as [|? sys1 a ? ? Hr1 _ Ea].
  pose proof (run_inv locals sys0 h sys1 H0 Hr1) as Hi.
  destruct (act_return locals a sys1 i f st data sys Ea) as (Hf & Hend).
  destruct Hend as [(s' & E)|(s' & E)]; apply end_result in E as [(-> & Hst & ->)|(-> & Hst & p & bs & ok & Hp & Hbs & Hu)];
    try (left; done). right. split; [done|]. exists bs, ok. split; [|done].
  destruct (call_outcome f) as [ret pl] eqn:Eo. cbn in Hst, Hp. subst pl.
  apply finish_payload in Eo as (msg & Hmsg & -> & ->).
  destruct (i_frames _ _ _ _ _ _ _ Hi i f Hf) as (_ & _ & Hres).
  destruct (Hres _ Hmsg) as (_ & (l & bs1 & Hb & Hm & Hn & _ & Hst32 & Hin) & Htag).
  assert (status (packet_header msg) = 0) as Hz by (revert Hst Hst32; int_lia).
  rewrite Htag, Hz in Hin. cbn in Hbs. replace bs with bs1; [done|].
  destruct Hbs as [[Hz' ->]|(l' & bs0 & Hl' & Hm' & _ & ->)].
  - destruct bs1; [done|cbn in *; lia].
  - rewrite Hb in Hl'. injection Hl' as <-. rewrite Hm in Hm'. injection Hm' as <-. rewrite take_ge; [done|lia].
Qed.

(** A logoff call that is sent, answered and returns the connection. *)
Definition demo_answered : list action :=
  demo_send ++ [a_loop go_read; a_loop go; a_call 0 false; a_call 0 false].

Lemma demo_proper : Forall proper demo_answered.
Proof.
  repeat (apply List.Forall_cons; [first [exact I | idtac]|]); [|apply List.Forall_nil].
  split; [apply list_elem_of_In; cbn; tauto|]. repeat split; discriminate.
Qed.

Definition demo_history : list label :=
  Eval vm_compute in match schedule demo_locals demo_answered [] demo_system with Some (h, _) => h | None => [] end.
Definition demo_end : system :=
  Eval vm_compute in
    match schedule demo_locals demo_answered [] demo_system with Some (_, sys) => sys | None => demo_system end.

Lemma demo_run : run demo_locals demo_system demo_history demo_end.
Proof.
  apply (schedule_run demo_locals demo_system demo_answered [] demo_system); [constructor|exact demo_proper|].
  vm_compute. reflexivity.
Qed.

Lemma call_gets_its_response_witness :
  exists h sys i f data, run demo_locals demo_system (l_return i f 0 data :: h) sys /\
    rpc_data data = rLogoffUserResponse (LogoffUserResponse.mk 5) /\
    exists bs ok, l_response (call_tag f) 0 bs ∈ h /\
      freerds_rpc_msg_unpack (FDSAPI_RESPONSE_ID (call_type f)) (Some (pResponse f)) bs = Some (ok, Some data).
Proof.
  do 5 eexists. split; [exact demo_run|]. split; [reflexivity|].
  destruct (call_gets_its_response demo_locals demo_system _ _ _ _ _ _ demo_initial demo_run)
    as [[Hz _]|[_ Hx]]; [by destruct Hz|exact Hx].
Defined.

(** ** When the threads are safe *)



(** The answer has been received and its transaction found. *)
Definition demo_found : list action := demo_send ++ [a_loop go_read].

Definition demo_found_history : list label :=
  Eval vm_compute in match schedule demo_locals demo_found [] demo_system with Some (h, _) => h | None => [] end.
Definition demo_found_system : system :=
  Eval vm_compute in
    match schedule demo_locals demo_found [] demo_system with Some (_, sys) => sys | None => demo_system end.

Lemma demo_found_calm : calm_run demo_locals demo_system demo_found_history demo_found_system.
Proof.
  apply (calm_schedule_run demo_locals demo_system demo_found [] demo_system); [constructor| |vm_compute; reflexivity].
  apply (Forall_app proper demo_found [a_loop go; a_call 0 false; a_call 0 false]). exact demo_proper.
Qed.

Lemma demo_found_run : run demo_locals demo_system demo_found_history demo_found_system.
Proof. apply calm_run_run, demo_found_calm. Qed.


(** ** When they are not *)

(** A call that times out returns at once, but the RPC
    thread may still hold pointers into it.  If it has looked the transaction
    up and not yet removed it, it goes on to call through the transaction on
    the stack of the call that has returned; if the packet of the call is still
    in the write queue, it goes on to write the payload from the stream that
    the stub has freed.  Both are undefined. *)
Theorem timed_out_call_dangles {W : WStream} {P : Pipe} {K : Collections} {D : Dictionary}
    {DL : DictionaryLaws D} locals h sys i f bs ev :
  let s := server sys in
  frames s !! i = Some f -> pc f = call_wait -> local_context f = mk_local false None PBRCP_CALL_TIMEOUT ->
  is_Some (assoc_find (call_tag f) (dict_items (transactions (rpc s)))) -> mem s !! request_block f = Some bs ->
  (exists msg, loop sys = loop_found msg (ta_stack i)) \/
  (exists st m q p n p', loop sys = loop_send st /\ Queue_Dequeue (writeQueue (rpc s)) = Some (m, q) /\
     packet_buffer m = Some (request_block f) /\ 0 < packet_length m /\ hPipe (rpc s) = Some p /\
     WriteFile p (header_bytes (mk_rpc_header (packet_length m) (msgType (packet_header m))
       (callId (packet_header m)) (status (packet_header m)))) = ((true, n), p') /\ 16 <= Z.of_nat n < 2 ^ 31) ->
  exists f' h' sys', schedule locals [a_call i true; a_call i false; a_call i false] h sys =
      Some (l_return i f' PBRCP_CALL_TIMEOUT (pResponse f) :: h', sys') /\
    act locals (a_loop ev) sys' = None.
Proof.
  intros s Hf Hpc Hl Ht Hb Hcase.
  destruct (timeout_returns locals h sys i f bs Hf Hpc Hl Ht Hb) as (f' & s' & E & Ef & Em & Eq & Ep).
  do 3 eexists. split; [exact E|]. cbn [act loop server].
  destruct Hcase as [(msg & ->)|(st & m & q & p & n & p' & -> & Hdq & Hbuf & Hlen & Hpipe & Hw & Hn)]; cbn [loop_step].
  - unfold mbind at 2, RM_bind. unfold complete_transaction, mbind at 2, RM_bind, get.
    destruct (ListDictionary_Remove _ _) as [r d]. unfold mbind at 2, mbind at 2. cbn.
    rewrite Ef, lookup_delete_eq. done.
  - unfold mbind, RM_bind at 1, get. rewrite Eq. fold s. rewrite Hdq. cbn.
    unfold pbrpc_process_message_out, pbrpc_send_message, send_header, send_body, tp_npipe_write, mbind, RM_bind, get.
    cbn. rewrite Ep. fold s. rewrite Hpipe, Hw. cbn.
    destruct (Z.ltb_spec (Z.of_nat n) FDSAPI_MSG_HEADER_SIZE) as [Hx|Hx]; [unfold FDSAPI_MSG_HEADER_SIZE in Hx; lia|].
    cbn. rewrite i32_id by (unfold is_i32; lia).
    destruct (Z.ltb_spec (Z.of_nat n) 0); [lia|]. unfold load. cbn.
    destruct (Z.eqb_spec (packet_length m) 0); [lia|]. rewrite Hbuf. cbn. rewrite Em, lookup_delete_eq. done.
Qed.

(** The frame of the waiting call and its stream. *)
Definition demo_waiting : call_frame :=
  Eval vm_compute in match frames (server demo_found_system) !! 0%nat with
                     | Some f => f
                     | None => mk_frame call_check 0 logoff_request 0 packet0 (mk_local false None 0) 0
                     end.
Definition demo_request : list Z :=
  Eval vm_compute in match mem (server demo_found_system) !! 0%nat with Some bs => bs | None => [] end.

(** The call times out when the RPC thread has just found its transaction. *)
Lemma timed_out_call_dangles_witness :
  exists h sys, run demo_locals demo_system h sys /\
  exists h' sys', schedule demo_locals [a_call 0 true; a_call 0 false; a_call 0 false] h sys = Some (h', sys') /\
    act demo_locals (a_loop go) sys' = None.
Proof.
  exists demo_found_history, demo_found_system. split; [exact demo_found_run|].
  destruct (timed_out_call_dangles demo_locals demo_found_history demo_found_system 0 demo_waiting demo_request go)
    as (f' & h' & sys' & E & Ea); [reflexivity..|by eexists|reflexivity|left; by eexists|].
  exists (l_return 0 f' PBRCP_CALL_TIMEOUT (pResponse demo_waiting) :: h'), sys'. split; [exact E|exact Ea].
Defined.

(** ** Requests of the manager *)

(** The id of the connection that a request is for. *)
Definition connection_id (b : rpc_body) : option Z :=
  match b with
  | rSwitchServiceEndpointRequest b => Some (SwitchServiceEndpointRequest.ConnectionId b)
  | rLogoffUserRequest b => Some (LogoffUserRequest.ConnectionId b)
  | rChannelEndpointOpenRequest b => Some (ChannelEndpointOpenRequest.ConnectionId b)
  | _ => None
  end.

(** A request for a connection (to switch its
    endpoint, to log off, to open a channel) that arrives with well-formed
    fields is posted once, with these fields and the header of the packet, to
    the notifications of exactly that connection.  When there is no such
    connection, the request is dropped: the function returns success and
    changes nothing, so the manager never gets the response with status 1 that
    the stub prepares. *)
Theorem requests_posted_or_dropped {W : WStream} {L : WStreamLaws W} {P : Pipe} {K : Collections}
    {D : Dictionary} {DL : DictionaryLaws D} locals s msg r c l bs :
  rpc_ok r -> connection_id (rpc_data r) = Some c -> msgType (packet_header msg) = rpc_type (rpc_data r) ->
  packet_buffer msg = Some l -> mem s !! l = Some (wire_array (rpc_objects r) ++ bs) ->
  packet_length msg = Z.of_nat (length (wire_array (rpc_objects r))) ->
  match assoc_find c (dict_items (connections s)) with
  | None => pbrpc_process_request locals msg s = Some (0, s)
  | Some n => forall q, notifications s !! n = Some q ->
      pbrpc_process_request locals msg s =
        Some (0, set_notifications (<[n := MessageQueue_Post (rpc_type (rpc_data r))
          (Rpc (packet_header msg) (rpc_data (rpc_recv rpc_header0 r))) q]> (notifications s)) s)
  end.
Proof.
  intros Hok Hc Ht Hb Hm Hl.
  assert (forall type zero id, rpc_type zero = rpc_type (rpc_data r) -> rpc_type zero = FDSAPI_REQUEST_ID type ->
    id (rpc_data (rpc_recv rpc_header0 r)) = Some c ->
    match assoc_find c (dict_items (connections s)) with
    | None => post_request type zero id msg s = Some ((-1, None), s)
    | Some n => forall q, notifications s !! n = Some q -> post_request type zero id msg s =
        Some ((0, None), set_notifications (<[n := MessageQueue_Post (rpc_type (rpc_data r))
          (Rpc (packet_header msg) (rpc_data (rpc_recv rpc_header0 r))) q]> (notifications s)) s)
    end) as Hpost.
  { intros type zero id Hk Htype Hid.
    assert (unpack_request type (Rpc rpc_header0 zero) msg s =
      Some (Rpc (packet_header msg) (rpc_data (rpc_recv rpc_header0 r)), s)) as Eu.
    { unfold unpack_request, mbind, RM_bind.
      assert (load (packet_buffer msg) (packet_length msg) s = Some (wire_array (rpc_objects r), s)) as ->.
      { apply load_Some. split; [done|]. destruct (Z.eq_dec (packet_length msg) 0) as [Hz|Hz].
        - left. split; [done|]. apply nil_length_inv. lia.
        - right. split; [done|]. exists l, (wire_array (rpc_objects r) ++ bs).
          split; [done|]. split; [done|]. rewrite length_app, Hl, Nat2Z.id, take_app_length. split; [lia|done]. }
      rewrite <-Htype, Hk. pose proof (rpc_unpack_spec rpc_header0 zero r [] Hok Hk) as Es. rewrite app_nil_r in Es.
      unfold lift at 1. rewrite Es. done. }
    unfold post_request, mbind, RM_bind, freerds_server_get_connection, get. rewrite Eu. unfold lift.
    cbn [rpc_data rpc_header]. rewrite Hid, dict_get_items. destruct (assoc_find c (dict_items (connections s))) as [n|]; [|reflexivity].
    intros q Hq. rewrite Hq. cbn. by rewrite Ht. }
  unfold pbrpc_process_request. rewrite Ht.
  assert (exists type zero id, request_callback locals (rpc_type (rpc_data r)) = Some (post_request type zero id) /\
    rpc_type zero = rpc_type (rpc_data r) /\ rpc_type zero = FDSAPI_REQUEST_ID type /\
    id (rpc_data (rpc_recv rpc_header0 r)) = Some c) as (type & zero & id & -> & H1 & H2 & H3).
  { destruct r as [hd []]; try discriminate Hc; injection Hc as <-; do 3 eexists;
      (split; [reflexivity|]); (split; [reflexivity|]); split; reflexivity. }
  specialize (Hpost type zero id H1 H2 H3).
  destruct (assoc_find c (dict_items (connections s))) as [n|].
  - intros q Hq. unfold mbind, RM_bind. by rewrite (Hpost q Hq).
  - unfold mbind, RM_bind. by rewrite Hpost.
Qed.

(** A logoff request for connection 9, which does not exist. *)
Lemma requests_posted_or_dropped_witness :
  let msg := mk_packet (mk_rpc_header 2 FDSAPI_LOGOFF_USER_REQUEST_ID 7 0) (Some 3%nat) 2 in
  let s := set_mem {[3%nat := [0x91; 0x09]]} demo_server in
  pbrpc_process_request demo_locals msg s = Some (0, s).
Proof.
  intros msg s.
  apply (requests_posted_or_dropped demo_locals s msg
           (Rpc rpc_header0 (rLogoffUserRequest (LogoffUserRequest.mk 9))) 9 3 []); try reflexivity.
  split; [discriminate|reflexivity].
Defined.
