(* ===== verification/RpcPipe.v ===== *)
(** * RPC pipes

    freerds/rpc/rpc.c: messages with a length prefix over named pipes, between
    the session manager and the clients of its API.  A client assembles
    messages in its [InboundStream] and hands them to [MessageReceived]; its
    thread waits, receives, and connects again when the connection is lost.  A
    server accepts clients, each with a thread of its own, and can send a
    message to all of them.

    [freerds_rpc_named_pipe_read] and [freerds_rpc_named_pipe_write] are the
    code of the backend transport (Pipe.v) once more, with a wait for data
    before the read.  A pipe handle
    that is [NULL] is [None]; reading from it or writing to it fails. *)

From stdpp Require Import gmap.
From S2P Require Import Prelude WStream Pipe.

Definition RDS_RPC_HEADER_LENGTH : Z := 4.
Definition RDS_RPC_CONNECT_RETRIES : nat := 10.
(** The size of the inbound stream. *)
Definition RPC_STREAM_SIZE : nat := Z.to_nat 8192.

Section RpcPipe.
Context {W : WStream} {P : Pipe} {A : Type}.

(** ** Named pipes *)

Definition freerds_rpc_named_pipe_read (h : option pipe) (length : Z) : (Z * list Z) * option pipe :=
  match h with
  | None => ((-1, []), None)
  | Some p => let '(r, p') := freerds_named_pipe_read p length in (r, Some p')
  end.

Definition freerds_rpc_named_pipe_write (h : option pipe) (data : list Z) (length : Z) :
    option (Z * option pipe) :=
  match h with
  | None => Some (if length <=? 0 then 0 else -1, None)
  | Some p => '(st, p') ← freerds_named_pipe_write p data length; Some (st, Some p')
  end.

(** [attempt i]: the results of [WaitNamedPipeA] and [CreateFileA] in the
    iteration [i]. *)
Fixpoint connect_loop (n i : nat) (attempt : nat -> bool * option pipe) : option pipe :=
  match n with
  | O => None
  | S n' =>
      let '(available, file) := attempt i in
      if negb available then connect_loop n' (S i) attempt else
      match file with
      | None => connect_loop n' (S i) attempt
      | Some p => Some p
      end
  end.

Definition freerds_rpc_named_pipe_connect (attempt : nat -> bool * option pipe) : option pipe :=
  connect_loop RDS_RPC_CONNECT_RETRIES 0 attempt.

(** The results of [CreateNamedPipe] and [ConnectNamedPipe], and whether the
    last error is [ERROR_PIPE_CONNECTED]. *)
Definition freerds_rpc_named_pipe_accept (created : option pipe) (connected pipe_connected : bool) :
    option pipe :=
  match created with
  | None => None
  | Some p => if negb (connected || pipe_connected) then None else Some p
  end.

(** ** Clients *)

(** [custom] stands for the state of the code that uses the client;
    [RpcServer] tells whether the pointer to a server is set. *)
Record rdsRpcClient := mk_rpc_client {
  rpc_pipe : option pipe;
  rpc_stream : wStream;
  rpc_stop : bool;
  RpcServer : bool;
  custom : A;
}.

Definition set_rpc_pipe h (rc : rdsRpcClient) : rdsRpcClient :=
  mk_rpc_client h (rpc_stream rc) (rpc_stop rc) (RpcServer rc) (custom rc).
Definition set_rpc_stream s (rc : rdsRpcClient) : rdsRpcClient :=
  mk_rpc_client (rpc_pipe rc) s (rpc_stop rc) (RpcServer rc) (custom rc).
Definition set_rpc_stop b (rc : rdsRpcClient) : rdsRpcClient :=
  mk_rpc_client (rpc_pipe rc) (rpc_stream rc) b (RpcServer rc) (custom rc).
Definition set_custom a (rc : rdsRpcClient) : rdsRpcClient :=
  mk_rpc_client (rpc_pipe rc) (rpc_stream rc) (rpc_stop rc) (RpcServer rc) a.

(** The callbacks: [MessageReceived] gets the bytes that can be reached from
    the pointer, and the length. *)
Record rpc_callbacks := mk_callbacks {
  MessageReceived : option (rdsRpcClient -> list Z -> Z -> option (Z * rdsRpcClient));
  ConnectionClosed : option (rdsRpcClient -> option (Z * rdsRpcClient));
}.

Definition freerds_rpc_client_new (server : bool) (a : A) : rdsRpcClient :=
  mk_rpc_client None (Stream_New RPC_STREAM_SIZE) false server a.

Section Client.
Context (cb : rpc_callbacks).

Definition rpc_position (rc : rdsRpcClient) : Z := Z.of_nat (Stream_GetPosition (rpc_stream rc)).

(** A read at the position of the stream and the seek; [false] when it failed. *)
Definition rpc_receive_bytes (n : Z) (rc : rdsRpcClient) : option (bool * rdsRpcClient) :=
  let '((status, bs), h) := freerds_rpc_named_pipe_read (rpc_pipe rc) n in
  s ← Stream_Store bs (rpc_stream rc);
  let rc := set_rpc_stream s (set_rpc_pipe h rc) in
  if status <? 0 then Some (false, rc) else
  if 0 <? status then
    '(_, s) ← Stream_Seek status s;
    Some (true, set_rpc_stream s rc)
  else Some (true, rc).

(** [*((UINT32* ) Stream_Buffer(s))] *)
Definition rpc_declared (buf : list Z) : option Z :=
  if decide (4 <= length buf)%nat then Some (le_val (take 4 buf)) else None.

Definition rpc_receive_header (rc : rdsRpcClient) : option (bool * rdsRpcClient) :=
  if rpc_position rc <? RDS_RPC_HEADER_LENGTH
  then rpc_receive_bytes (RDS_RPC_HEADER_LENGTH - rpc_position rc) rc
  else Some (true, rc).

(** [length - Stream_GetPosition(s)] is a [size_t] that is passed as a
    [DWORD]. *)
Definition rpc_receive_body (rc : rdsRpcClient) : option (bool * rdsRpcClient) :=
  if RDS_RPC_HEADER_LENGTH <=? rpc_position rc then
    length ← rpc_declared (Stream_Buffer (rpc_stream rc));
    let n := u64 (length - rpc_position rc) in
    if n =? 0 then Some (true, rc) else rpc_receive_bytes (u32 n) rc
  else Some (true, rc).

Definition rpc_dispatch (rc : rdsRpcClient) : option rdsRpcClient :=
  if RDS_RPC_HEADER_LENGTH <=? rpc_position rc then
    length ← rpc_declared (Stream_Buffer (rpc_stream rc));
    if length <=? rpc_position rc then
      let rc := set_rpc_stream (Stream_SetPosition 0 (rpc_stream rc)) rc in
      match MessageReceived cb with
      | None => Some rc
      | Some f => '(_, rc) ← f rc (drop 4 (Stream_Pointer (rpc_stream rc))) (u32 (length - 4)); Some rc
      end
    else Some rc
  else Some rc.

Definition freerds_rpc_transport_receive (rc : rdsRpcClient) : option (Z * rdsRpcClient) :=
  '(more, rc) ← rpc_receive_header rc;
  if negb more then Some (-1, rc) else
  '(more, rc) ← rpc_receive_body rc;
  if negb more then Some (-1, rc) else
  rc ← rpc_dispatch rc;
  Some (0, rc).

Definition freerds_rpc_client_send_message (buffer : list Z) (length : Z) (rc : rdsRpcClient) :
    option (Z * rdsRpcClient) :=
  let totalLength := i32 (u32 (length + 4)) in
  '(st, h) ← freerds_rpc_named_pipe_write (rpc_pipe rc) (le32 totalLength) 4;
  let rc := set_rpc_pipe h rc in
  if negb (st =? 4) then Some (-1, rc) else
  '(st, h) ← freerds_rpc_named_pipe_write (rpc_pipe rc) buffer length;
  Some (st, set_rpc_pipe h rc).

(** The results of the wait functions. *)
Inductive wait_result := WAIT_OBJECT_0 | WAIT_OBJECT_1 | WAIT_TIMEOUT | WAIT_FAILED.

(** An iteration of [freerds_rpc_client_thread]: whether it is still running. *)
Definition client_thread_iteration (wait : wait_result) (attempt : nat -> bool * option pipe)
    (rc : rdsRpcClient) : option (bool * rdsRpcClient) :=
  match rpc_pipe rc with
  | None =>
      match wait with
      | WAIT_TIMEOUT => Some (true, set_rpc_pipe (freerds_rpc_named_pipe_connect attempt) rc)
      | _ => Some (false, rc)
      end
  | Some _ =>
      match wait with
      | WAIT_OBJECT_1 =>
          '(st, rc) ← freerds_rpc_transport_receive rc;
          if st <? 0 then
            let rc := set_rpc_pipe None rc in
            '(_, rc) ← match ConnectionClosed cb with
                       | Some f => f rc
                       | None => Some (0, rc)
                       end;
            Some (negb (RpcServer rc), rc)
          else Some (true, rc)
      | _ => Some (false, rc)
      end
  end.

(** [freerds_rpc_client_start] up to the creation of the thread, which
    succeeds when [thread]. *)
Definition freerds_rpc_client_start (attempt : nat -> bool * option pipe) (thread : bool)
    (rc : rdsRpcClient) : Z * rdsRpcClient :=
  match freerds_rpc_named_pipe_connect attempt with
  | None => (-1, set_rpc_pipe None rc)
  | Some p =>
      let rc := set_rpc_stop false (set_rpc_pipe (Some p) rc) in
      if negb thread then (-1, set_rpc_pipe None rc) else (0, rc)
  end.

(** ** Servers *)

(** The clients of [ClientList], by the order in which they were accepted.  A
    client is known by its number. *)
Record rdsRpcServer := mk_rpc_server {
  ClientList : list nat;
  rpc_clients : gmap nat rdsRpcClient;
  next_client : nat;
  server_stop : bool;
}.

Definition set_clients l m (sv : rdsRpcServer) : rdsRpcServer :=
  mk_rpc_server l m (next_client sv) (server_stop sv).

Definition freerds_rpc_server_new : rdsRpcServer := mk_rpc_server [] ∅ 0 false.

(** An iteration of [freerds_rpc_server_thread]: [accepted] is the pipe that
    [freerds_rpc_named_pipe_accept] returns, [a] the [custom] of the server.
    [ConnectionAccepted] is the callback. *)
Definition server_thread_iteration (ConnectionAccepted : option (rdsRpcClient -> option (Z * rdsRpcClient)))
    (a : A) (accepted : option pipe) (sv : rdsRpcServer) : option (bool * rdsRpcServer) :=
  match accepted with
  | None => Some (false, sv)
  | Some p =>
      if server_stop sv then Some (false, sv) else
      let rc := set_rpc_pipe (Some p) (freerds_rpc_client_new true a) in
      let i := next_client sv in
      '(_, rc) ← match ConnectionAccepted with
                 | Some f => f rc
                 | None => Some (0, rc)
                 end;
      Some (true, mk_rpc_server (ClientList sv ++ [i]) (<[i := rc]> (rpc_clients sv)) (S i) (server_stop sv))
  end.

(** The loop that signals the clients of the list to stop. *)
Fixpoint stop_clients (l : list nat) (m : gmap nat rdsRpcClient) : option (gmap nat rdsRpcClient) :=
  match l with
  | [] => Some m
  | i :: l => rc ← m !! i; stop_clients l (<[i := set_rpc_stop true rc]> m)
  end.

(** The end of the thread of a client of a server: the client leaves the list,
    its pipe is closed and it is freed. *)
Definition client_thread_exit (i : nat) (sv : rdsRpcServer) : rdsRpcServer :=
  set_clients (List.filter (fun j => negb (Nat.eqb i j)) (ClientList sv)) (delete i (rpc_clients sv)) sv.

(** A step of the thread of client [i]. *)
Definition server_client_step (i : nat) (wait : wait_result) (attempt : nat -> bool * option pipe)
    (sv : rdsRpcServer) : option rdsRpcServer :=
  rc ← rpc_clients sv !! i;
  '(running, rc) ← client_thread_iteration wait attempt rc;
  let sv := set_clients (ClientList sv) (<[i := rc]> (rpc_clients sv)) sv in
  Some (if running : bool then sv else client_thread_exit i sv).

Fixpoint broadcast_loop (l : list nat) (buffer : list Z) (length : Z) (m : gmap nat rdsRpcClient) :
    option (gmap nat rdsRpcClient) :=
  match l with
  | [] => Some m
  | i :: l =>
      rc ← m !! i;
      '(_, rc) ← freerds_rpc_client_send_message buffer length rc;
      broadcast_loop l buffer length (<[i := rc]> m)
  end.

Definition freerds_rpc_server_broadcast_message (buffer : list Z) (length : Z) (sv : rdsRpcServer) :
    option (Z * rdsRpcServer) :=
  m ← broadcast_loop (ClientList sv) buffer length (rpc_clients sv);
  Some (0, set_clients (ClientList sv) m sv).
End Client.
End RpcPipe.

Arguments rdsRpcClient {W P} A.
Arguments rpc_callbacks {W P} A.
Arguments rdsRpcServer {W P} A.
