(* ===== verification/RpcPipeFacts.v ===== *)
(** * RPC pipes: the receiver and its reference

    [deframe] is the reference for [freerds_rpc_transport_receive]: an
    automaton that takes one byte at a time, without a buffer, a pipe or
    partial reads.  [receive_calls_spec] shows that any number of calls of the
    receiver computes it, however the pipe cuts the bytes into reads. *)

From S2P Require Import Prelude WStream Pipe Transport TransportFacts RpcPipe.

(** ** The reference *)

(** The messages so far and the part of the next one. *)
Definition rpc_frames : Type := list (list Z) * list Z.

Definition deframe_byte (cap : nat) (st : option rpc_frames) (b : Z) : option rpc_frames :=
  '(ms, part) ← st;
  let part := part ++ [b] in
  let n := le_val (take 4 part) in
  if decide (length part < 4)%nat then Some (ms, part)
  else if decide (4 <= n <= Z.of_nat cap) then
    if decide (Z.of_nat (length part) = n) then Some (ms ++ [drop 4 part], [])
    else Some (ms, part)
  else None.

Definition deframe_from (cap : nat) (st : option rpc_frames) (bs : list Z) : option rpc_frames :=
  fold_left (deframe_byte cap) bs st.

Definition deframe (cap : nat) (bs : list Z) : option rpc_frames :=
  deframe_from cap (Some ([], [])) bs.

(** A message on the wire. *)
Definition rpc_frame (m : list Z) : list Z := le32 (Z.of_nat (length m) + 4) ++ m.

(** The beginning of a message: of its header, or with a header in range and no
    more bytes than it declares. *)
Definition begun (cap : nat) (part : list Z) : Prop :=
  let n := le_val (take 4 part) in
  (length part < 4)%nat \/ 4 <= n <= Z.of_nat cap /\ Z.of_nat (length part) <= n.

Definition complete (part : list Z) : Prop :=
  (4 <= length part)%nat /\ Z.of_nat (length part) = le_val (take 4 part).

#[global] Instance complete_dec part : Decision (complete part).
Proof. unfold complete. apply _. Defined.

Lemma deframe_none cap bs : deframe_from cap None bs = None.
Proof. induction bs as [|b bs IH]; [done|]. apply IH. Qed.

Lemma deframe_app cap st bs1 bs2 :
  deframe_from cap st (bs1 ++ bs2) = deframe_from cap (deframe_from cap st bs1) bs2.
Proof. apply fold_left_app. Qed.

Lemma deframe_prefix cap st bs1 bs2 :
  deframe_from cap st (bs1 ++ bs2) <> None -> deframe_from cap st bs1 <> None.
Proof. rewrite deframe_app. intros H E. rewrite E, deframe_none in H. done. Qed.

Lemma begun_prefix cap part bs : begun cap (part ++ bs) -> begun cap part.
Proof.
  unfold begun. rewrite length_app. intros [H|[Hn Hl]]; [left; lia|].
  destruct (decide (length part < 4)%nat); [by left|right]. rewrite take_app_le in Hn, Hl by lia. lia.
Qed.

(** Bytes that stay within one message. *)
Lemma deframe_chunk cap ms part bs :
  ~ complete part -> begun cap (part ++ bs) ->
  deframe_from cap (Some (ms, part)) bs =
    if decide (complete (part ++ bs)) then Some (ms ++ [drop 4 (part ++ bs)], []) else Some (ms, part ++ bs).
Proof.
  revert part. induction bs as [|b bs IH]; intros part Hc Hb.
  { rewrite app_nil_r in *. by rewrite decide_False. }
  replace (part ++ b :: bs) with ((part ++ [b]) ++ bs) in * by by rewrite <-(assoc_L (++)).
  cbn [deframe_from fold_left deframe_byte mbind option_bind].
  pose proof (begun_prefix cap _ _ Hb) as Hb1.
  case_decide as H4.
  { apply IH; [|done]. intros [? _]. lia. }
  destruct Hb1 as [Hb1|[Hn Hl]]; [lia|]. rewrite decide_True by done. case_decide as Hd; [|apply IH; [|done]].
  - assert (bs = []) as ->.
    { destruct Hb as [Hb|[_ Hb]]; rewrite length_app in Hb; [lia|]. rewrite take_app_le in Hb by lia.
      apply nil_length_inv. lia. }
    rewrite app_nil_r, decide_True; [done|]. split; [lia|done].
  - intros [_ ?]. done.
Qed.

(** The header that the automaton accepts. *)
Lemma deframe_header cap ms part bs :
  (length part < 4)%nat -> (length part + length bs <= 4)%nat ->
  deframe_from cap (Some (ms, part)) bs <> None -> begun cap (part ++ bs).
Proof.
  intros Hp Hl Hd. destruct (decide (length (part ++ bs) < 4)%nat) as [|H4]; [by left|].
  rewrite length_app in H4. destruct bs as [|b bs _] using rev_ind; [cbn in H4; lia|].
  rewrite length_app in Hl, H4. cbn in Hl, H4. rewrite deframe_app, deframe_chunk in Hd.
  2:{ intros [? _]. lia. }
  2:{ left. rewrite length_app. lia. }
  rewrite decide_False in Hd by (intros [Hx _]; rewrite length_app in Hx; lia).
  cbn [deframe_from fold_left deframe_byte mbind option_bind] in Hd. rewrite <-(assoc_L (++)) in Hd.
  assert (length (part ++ bs ++ [b]) = 4)%nat as E4 by (rewrite !length_app; cbn; lia).
  rewrite decide_False in Hd by lia. right. case_decide; [|done]. lia.
Qed.

(** The automaton takes framed messages apart. *)
Lemma deframe_frames cap ms0 ms :
  Forall (fun m => (length m + 4 <= cap)%nat) ms -> Z.of_nat cap < 2 ^ 32 ->
  deframe_from cap (Some (ms0, [])) (concat (map rpc_frame ms)) = Some (ms0 ++ ms, []).
Proof.
  intros H Hc. revert ms0. induction H as [|m ms Hm _ IH]; intros ms0; [by rewrite app_nil_r|].
  cbn [map concat]. rewrite deframe_app.
  assert (le_val (take 4 (rpc_frame m)) = Z.of_nat (length m) + 4) as El.
  { unfold rpc_frame. rewrite take_app_length' by (by rewrite length_le).
    rewrite le_val_le32, u32_id; [done|]. unfold is_u32. lia. }
  assert (length (rpc_frame m) = length m + 4)%nat as Hl.
  { unfold rpc_frame. rewrite length_app, length_le. lia. }
  assert (complete (rpc_frame m)) as Hcm by (split; lia).
  rewrite deframe_chunk; rewrite ?app_nil_l.
  - rewrite (decide_True _ _ Hcm). unfold rpc_frame at 1. rewrite drop_app_length' by (by rewrite length_le).
    rewrite IH. by rewrite <-(assoc_L (++)).
  - intros [? _]. cbn in *. lia.
  - right. rewrite El, Hl. lia.
Qed.

(** More bytes only add messages. *)
Lemma deframe_grows cap bs ms part ms' part' :
  deframe_from cap (Some (ms, part)) bs = Some (ms', part') -> ms `prefix_of` ms'.
Proof.
  revert ms part. induction bs as [|b bs IH]; intros ms part E; [by simplify_eq/=|].
  cbn [deframe_from fold_left] in E. change (fold_left (deframe_byte cap) bs ?s) with (deframe_from cap s bs) in E.
  destruct (deframe_byte cap (Some (ms, part)) b) as [[ms1 part1]|] eqn:Eb; [|by rewrite deframe_none in E].
  etrans; [|by eapply IH]. cbn in Eb. repeat case_decide; simplify_eq; [done|by apply prefix_app_r|done].
Qed.

(** ** The receiver *)

Section Receiver.
Context {W : WStream} {L : WStreamLaws W} {P : Pipe} {PL : PipeLaws P} {A : Type}.
Abbreviation client := (rdsRpcClient A).

(** The bytes to come. *)
Definition rpc_inbound (rc : client) : list Z :=
  match rpc_pipe rc with Some p => inbound p | None => [] end.

(** Nothing but the inbound side has changed. *)
Definition rpc_same (rc rc' : client) : Prop :=
  rpc_stop rc' = rpc_stop rc /\ RpcServer rc' = RpcServer rc /\ custom rc' = custom rc /\
  (is_Some (rpc_pipe rc) -> is_Some (rpc_pipe rc')).

Lemma rpc_same_trans rc1 rc2 rc3 : rpc_same rc1 rc2 -> rpc_same rc2 rc3 -> rpc_same rc1 rc3.
Proof. unfold rpc_same. intros (?&?&?&?) (?&?&?&?). repeat split; try congruence; auto. Qed.

Lemma rpc_holds_position rc part cap :
  holds (rpc_stream rc) part cap -> rpc_position (A := A) rc = Z.of_nat (length part).
Proof. intros (buf & len & (_ & E & _) & _). unfold rpc_position. by rewrite E. Qed.

Lemma rpc_holds_declared s part cap :
  holds s part cap -> (4 <= length part)%nat -> rpc_declared (Stream_Buffer s) = Some (le_val (take 4 part)).
Proof.
  intros (buf & len & (-> & _ & _) & Ht & Hl & _ & _) H4. unfold rpc_declared.
  rewrite <-Ht. rewrite take_take, Nat.min_l by done. apply decide_True.
  apply (f_equal length) in Ht. rewrite length_take in Ht. lia.
Qed.

(** One read of the pipe behind the part already there. *)
Lemma rpc_receive_bytes_spec n rc part cap :
  holds (rpc_stream rc) part cap -> 0 <= n < 2 ^ 31 -> Z.of_nat (length part) + n <= Z.of_nat cap ->
  exists more rc' bs, rpc_receive_bytes (A := A) n rc = Some (more, rc') /\ rpc_same rc rc' /\
    holds (rpc_stream rc') (part ++ bs) cap /\ rpc_inbound rc = bs ++ rpc_inbound rc' /\
    Z.of_nat (length bs) <= n /\ (more = false -> bs = []) /\
    (live -> 0 < n -> rpc_inbound rc <> [] -> more = true /\ bs <> []).
Proof.
  intros (buf & len & Hs & Ht & Hlb & Hcl & Hpc) Hn Hc. unfold rpc_receive_bytes, freerds_rpc_named_pipe_read, rpc_inbound.
  destruct (rpc_pipe rc) as [p|] eqn:Ep.
  - destruct (freerds_named_pipe_read p n) as [[st bs] p'] eqn:E.
    assert (live -> 0 < n -> inbound p <> [] -> st <> -1) as Hlive.
    { intros Hl Hn0 Hi. pose proof (live_read _ n Hl ltac:(lia) Hi) as Hst. by rewrite E in Hst. }
    apply named_pipe_read_spec in E as (_ & Hcase); [|lia].
    assert (length bs <= Z.to_nat n)%nat as Hbn by (destruct Hcase as [(_ & -> & _)|]; [cbn; lia|lia]).
    destruct (store_spec (rpc_stream rc) buf (length part) len bs Hs) as (s1 & E1 & H1); [lia|].
    rewrite E1. cbn [mbind option_bind].
    assert (take (length part + length bs) (splice (length part) bs buf) = part ++ bs) as Hsp.
    { rewrite take_splice_end by lia. by rewrite Ht. }
    destruct Hcase as [(-> & -> & Hi)|(-> & Hb & Hi)].
    + exists false. do 2 eexists. split; [reflexivity|]. split; [done|]. rewrite app_nil_r.
      rewrite splice_nil in H1. split; [by exists buf, len|]. split; [done|]. split; [cbn; lia|].
      split; [done|]. intros ???. by destruct Hlive.
    + destruct (Z.ltb_spec (Z.of_nat (length bs)) 0); [lia|].
      destruct (Z.ltb_spec 0 (Z.of_nat (length bs))); [|lia].
      destruct (seek_spec s1 _ _ _ (length bs) H1) as (s2 & E2 & H2); [rewrite length_splice; lia|].
      rewrite E2. cbn. exists true. do 2 eexists. split; [reflexivity|]. split; [by repeat split|].
      split; [|split; [done|split; [lia|split; [done|]]]].
      * exists (splice (length part) bs buf), len. rewrite length_app, Hsp, length_splice by lia.
        repeat split; try apply H2; lia.
      * intros _ _ _. split; [done|]. intros ->. cbn in *. lia.
  - destruct (store_spec (rpc_stream rc) buf (length part) len [] Hs) as (s1 & E1 & H1); [cbn; lia|].
    rewrite E1. cbn [mbind option_bind]. exists false. do 2 eexists. split; [reflexivity|].
    split; [split; [done|]; split; [done|]; split; [done|]; rewrite Ep; by intros []|].
    rewrite app_nil_r. rewrite splice_nil in H1. split; [by exists buf, len|]. split; [done|]. split; [cbn; lia|].
    split; [done|]. by intros ???.
Qed.

(** *** The three parts of a call *)

Context (cap : nat) (Hcap : 4 <= Z.of_nat cap < 2 ^ 31).

Lemma rpc_receive_header_spec rc part :
  holds (rpc_stream rc) part cap ->
  exists more rc' bs, rpc_receive_header (A := A) rc = Some (more, rc') /\ rpc_same rc rc' /\
    holds (rpc_stream rc') (part ++ bs) cap /\ rpc_inbound rc = bs ++ rpc_inbound rc' /\
    ((4 <= length part)%nat -> bs = [] /\ more = true) /\ (more = false -> bs = []) /\
    ((length part < 4)%nat -> (length part + length bs <= 4)%nat) /\
    (live -> (length part < 4)%nat -> rpc_inbound rc <> [] -> bs <> []).
Proof.
  intros Hh. unfold rpc_receive_header. rewrite (rpc_holds_position rc part cap Hh). unfold RDS_RPC_HEADER_LENGTH.
  destruct (Z.ltb_spec (Z.of_nat (length part)) 4).
  - destruct (rpc_receive_bytes_spec (4 - Z.of_nat (length part)) rc part cap Hh)
      as (more & rc' & bs & E & Hs & Hh' & Hi & Hn & Hz & Hl); [lia|lia|].
    exists more, rc', bs. do 4 (split; [done|]). split; [lia|]. split; [done|]. split; [lia|].
    intros Hv _ H0. apply Hl; [done|lia|done].
  - exists true, rc, []. rewrite app_nil_r. split; [done|]. split; [by repeat split|]. do 2 (split; [done|]).
    split; [done|]. split; [done|]. split; lia.
Qed.

Lemma rpc_receive_body_spec rc part :
  holds (rpc_stream rc) part cap -> begun cap part ->
  exists more rc' bs, rpc_receive_body (A := A) rc = Some (more, rc') /\ rpc_same rc rc' /\
    holds (rpc_stream rc') (part ++ bs) cap /\ rpc_inbound rc = bs ++ rpc_inbound rc' /\
    begun cap (part ++ bs) /\ (more = false -> bs = [] /\ ~ complete part) /\
    (live -> (4 <= length part)%nat -> ~ complete part -> rpc_inbound rc <> [] -> bs <> []).
Proof.
  intros Hh Hb. unfold rpc_receive_body. rewrite (rpc_holds_position rc part cap Hh). unfold RDS_RPC_HEADER_LENGTH.
  destruct (Z.leb_spec 4 (Z.of_nat (length part))) as [H4|H4].
  2:{ exists true, rc, []. rewrite app_nil_r. split; [done|]. split; [by repeat split|]. do 4 (split; [done|]). lia. }
  rewrite (rpc_holds_declared _ part cap) by (done || lia). cbn [mbind option_bind].
  destruct Hb as [?|[Hn Hl]]; [lia|].
  assert (forall d, 0 <= d < 2 ^ 32 -> u64 d = d) as Hu64 by (intros; apply Z.mod_small; lia).
  rewrite Hu64 by lia.
  destruct (Z.eqb_spec (le_val (take 4 part) - Z.of_nat (length part)) 0).
  - exists true, rc, []. rewrite app_nil_r. split; [done|]. split; [by repeat split|]. do 2 (split; [done|]).
    split; [right; lia|]. split; [done|]. intros _ _ Hc. destruct Hc. split; lia.
  - rewrite u32_id by (unfold is_u32; lia).
    destruct (rpc_receive_bytes_spec (le_val (take 4 part) - Z.of_nat (length part)) rc part cap Hh)
      as (more & rc' & bs & E & Hs & Hh' & Hi & Hln & Hz & Hv); [lia|lia|].
    exists more, rc', bs. do 4 (split; [done|]). split.
    { right. rewrite length_app, take_app_le by lia. lia. }
    split.
    + intros Hm. split; [by apply Hz|]. intros [_ ?]. lia.
    + intros Hlv _ _ H0. apply Hv; [done|lia|done].
Qed.

(** The callback of the client, which leaves the client alone but for its
    [custom]. *)
Context (cb : rpc_callbacks A) (deliver : A -> list Z -> A).

Definition delivers : Prop :=
  exists h, MessageReceived cb = Some h /\
    forall rc buf len, exists st,
      h rc buf len = Some (st, set_custom (deliver (custom rc) (take (Z.to_nat len) buf)) rc).

Context (Hcb : delivers).

Lemma rpc_dispatch_spec rc part :
  holds (rpc_stream rc) part cap -> begun cap part ->
  exists rc', rpc_dispatch (A := A) cb rc = Some rc' /\ rpc_pipe rc' = rpc_pipe rc /\
    if decide (complete part) then
      holds (rpc_stream rc') [] cap /\ custom rc' = deliver (custom rc) (drop 4 part)
    else rc' = rc.
Proof.
  intros Hh Hb. unfold rpc_dispatch. rewrite (rpc_holds_position rc part cap Hh). unfold RDS_RPC_HEADER_LENGTH.
  destruct (Z.leb_spec 4 (Z.of_nat (length part))) as [H4|H4].
  2:{ exists rc. by rewrite decide_False by (intros [? _]; lia). }
  rewrite (rpc_holds_declared _ part cap) by (done || lia). cbn [mbind option_bind].
  destruct Hb as [?|[Hn Hl]]; [lia|].
  destruct (Z.leb_spec (le_val (take 4 part)) (Z.of_nat (length part))) as [Hle|Hlt].
  2:{ exists rc. by rewrite decide_False by (intros [_ ?]; lia). }
  destruct Hcb as (h & -> & Hh').
  destruct Hh as (buf & len & Hr & Ht & Hlb & Hcl & Hpc).
  pose proof (setpos_spec _ _ _ _ 0%nat Hr ltac:(lia)) as H0.
  set (rc1 := set_rpc_stream _ rc).
  destruct (Hh' rc1 (drop 4 (Stream_Pointer (rpc_stream rc1))) (u32 (le_val (take 4 part) - 4))) as (st & ->).
  cbn [mbind option_bind]. eexists. split; [reflexivity|]. split; [done|]. rewrite decide_True by (split; lia). split.
  - exists buf, len. split; [done|]. split; [done|]. cbn. lia.
  - cbn [custom set_custom]. f_equal. rewrite u32_id by (unfold is_u32; lia).
    unfold Stream_Pointer. cbn [rc1 rpc_stream set_rpc_stream]. destruct H0 as (-> & -> & _). rewrite drop_0.
    assert (drop 4 part = take (length part - 4) (drop 4 buf)) as -> by (rewrite <-Ht at 1; apply skipn_firstn_comm).
    f_equal. lia.
Qed.

(** A call of the receiver: a step of the automaton over the bytes it takes. *)
Lemma rpc_receive_spec ms part rc :
  holds (rpc_stream rc) part cap -> begun cap part -> ~ complete part ->
  deframe_from cap (Some (ms, part)) (rpc_inbound rc) <> None ->
  exists st rc' bs ms' part', freerds_rpc_transport_receive (A := A) cb rc = Some (st, rc') /\
    (is_Some (rpc_pipe rc) -> is_Some (rpc_pipe rc')) /\ rpc_inbound rc = bs ++ rpc_inbound rc' /\
    holds (rpc_stream rc') part' cap /\ begun cap part' /\ ~ complete part' /\
    deframe_from cap (Some (ms, part)) bs = Some (ms ++ ms', part') /\
    custom rc' = fold_left deliver ms' (custom rc) /\ (live -> rpc_inbound rc <> [] -> bs <> []).
Proof.
  intros Hh Hb Hc Hd. unfold freerds_rpc_transport_receive.
  destruct (rpc_receive_header_spec rc part Hh) as (m1 & rc1 & b1 & E1 & Hs1 & Hh1 & Hi1 & Hge & Hz1 & Hlt & Hv1).
  rewrite E1. cbn [mbind option_bind].
  assert (begun cap (part ++ b1)) as Hb1.
  { destruct (decide (length part < 4)%nat); [|destruct Hge as [-> _]; [lia|by rewrite app_nil_r]].
    apply (deframe_header cap ms); [done|by apply Hlt|]. rewrite Hi1 in Hd. by apply deframe_prefix in Hd. }
  destruct m1; cbn [negb].
  2:{ specialize (Hz1 eq_refl). subst b1. rewrite app_nil_r in *. exists (-1), rc1, [], [], part.
      split; [done|]. split; [apply Hs1|]. split; [done|]. do 3 (split; [done|]).
      split; [by rewrite app_nil_r|]. split; [apply Hs1|].
      intros Hlv Hi. apply Hv1; [done| |done]. destruct (decide (length part < 4)%nat); [done|].
      destruct Hge; [lia|done]. }
  destruct (rpc_receive_body_spec rc1 (part ++ b1) Hh1 Hb1) as (m2 & rc2 & b2 & E2 & Hs2 & Hh2 & Hi2 & Hb2 & Hz2 & Hv2).
  rewrite E2. cbn [mbind option_bind]. rewrite <-(assoc_L (++)) in Hh2, Hb2.
  assert (rpc_inbound rc = (b1 ++ b2) ++ rpc_inbound rc2) as Hi by (by rewrite <-(assoc_L (++)), <-Hi2).
  assert (live -> rpc_inbound rc <> [] -> b1 ++ b2 <> []) as Hlive.
  { intros Hlv Hne [-> ->]%app_nil. cbn in Hi1.
    destruct (decide (length part < 4)%nat); [by apply Hv1|].
    apply Hv2; [done|rewrite app_nil_r; lia|by rewrite app_nil_r|by rewrite <-Hi1|done]. }
  pose proof (deframe_chunk cap ms part (b1 ++ b2) Hc Hb2) as Hstep.
  pose proof (rpc_same_trans _ _ _ Hs1 Hs2) as Hs. destruct m2; cbn [negb].
  2:{ destruct (Hz2 eq_refl) as [-> Hc1]. rewrite app_nil_r in *. rewrite decide_False in Hstep by done.
      exists (-1), rc2, b1, [], (part ++ b1). rewrite app_nil_r.
      split; [done|]. split; [apply Hs|]. do 5 (split; [done|]). split; [apply Hs|done]. }
  destruct (rpc_dispatch_spec rc2 _ Hh2 Hb2) as (rc3 & E3 & Hp3 & H3). rewrite E3. cbn [mbind option_bind].
  exists 0, rc3, (b1 ++ b2). unfold rpc_inbound in *. rewrite Hp3. destruct Hs as (_ & _ & Hcu & Hp).
  case_decide as Hcc.
  - exists [drop 4 (part ++ b1 ++ b2)], []. destruct H3 as [Hh3 ->]. split; [done|]. split; [done|].
    split; [done|]. split; [done|]. split; [left; cbn; lia|]. split; [intros [? _]; cbn in *; lia|].
    split; [done|]. split; [|done]. cbn. by rewrite Hcu.
  - subst rc3. exists [], (part ++ b1 ++ b2). rewrite app_nil_r. do 7 (split; [done|]). done.
Qed.

(** The statuses of [k] calls, and the client. *)
Fixpoint receive_calls (k : nat) (rc : client) : option (list Z * client) :=
  match k with
  | O => Some ([], rc)
  | S k =>
      '(st, rc) ← freerds_rpc_transport_receive cb rc;
      '(sts, rc) ← receive_calls k rc;
      Some (st :: sts, rc)
  end.

Lemma receive_calls_spec k ms part rc :
  holds (rpc_stream rc) part cap -> begun cap part -> ~ complete part ->
  deframe_from cap (Some (ms, part)) (rpc_inbound rc) <> None ->
  exists sts rc' taken ms' part', receive_calls k rc = Some (sts, rc') /\
    (is_Some (rpc_pipe rc) -> is_Some (rpc_pipe rc')) /\
    rpc_inbound rc = taken ++ rpc_inbound rc' /\ holds (rpc_stream rc') part' cap /\
    deframe_from cap (Some (ms, part)) taken = Some (ms ++ ms', part') /\
    custom rc' = fold_left deliver ms' (custom rc) /\
    (live -> (length (rpc_inbound rc) <= k)%nat -> taken = rpc_inbound rc).
Proof.
  revert ms part rc. induction k as [|k IH]; intros ms part rc Hh Hb Hc Hd.
  - exists [], rc, [], [], part. rewrite app_nil_r. do 6 (split; [done|]). intros _ Hl.
    symmetry. apply nil_length_inv. lia.
  - destruct (rpc_receive_spec ms part rc Hh Hb Hc Hd)
      as (st & rc1 & b1 & ms1 & part1 & E1 & Hp1 & Hi1 & Hh1 & Hb1 & Hc1 & Hd1 & Hcu1 & Hv1).
    cbn [receive_calls]. rewrite E1. cbn [mbind option_bind].
    destruct (IH (ms ++ ms1) part1 rc1 Hh1 Hb1 Hc1)
      as (sts & rc2 & b2 & ms2 & part2 & E2 & Hp2 & Hi2 & Hh2 & Hd2 & Hcu2 & Hv2).
    { rewrite <-Hd1, <-deframe_app, <-Hi1. done. }
    rewrite E2. cbn [mbind option_bind]. exists (st :: sts), rc2, (b1 ++ b2), (ms1 ++ ms2), part2.
    split; [done|]. split; [auto|]. split; [by rewrite <-(assoc_L (++)), <-Hi2|]. split; [done|].
    split; [by rewrite deframe_app, Hd1, Hd2, (assoc_L (++))|].
    split; [by rewrite fold_left_app, Hcu2, Hcu1|].
    intros Hlv Hk. rewrite Hv2; [done|done|]. destruct (decide (rpc_inbound rc = [])) as [E0|Hne].
    + rewrite E0 in Hi1. symmetry in Hi1. apply app_nil in Hi1 as [_ ->]. cbn. lia.
    + specialize (Hv1 Hlv Hne). apply (f_equal length) in Hi1. rewrite length_app in Hi1.
      destruct b1; [done|]. cbn in Hi1. lia.
Qed.
End Receiver.
