(* ===== verification/RpcServerFacts.v ===== *)
(** * RPC pipes: sending and the server

    What [freerds_rpc_client_send_message] puts on the pipe, the clients that a
    server has at any moment of a run of its threads, and what a broadcast does
    to them. *)

From S2P Require Import Prelude WStream Pipe Transport TransportFacts RpcPipe RpcPipeFacts.
From stdpp Require Import gmap list.
#[local] Open Scope Z_scope.

Section Sending.
Context {W : WStream} {P : Pipe} {PL : PipeLaws P} {A : Type}.
Abbreviation client := (rdsRpcClient A).

(** The message is on the pipe, or a part of it when the pipe has failed. *)
Definition sent_on (m : list Z) (p p' : pipe) : Prop :=
  inbound p' = inbound p /\
  (outbound p' = outbound p ++ rpc_frame m \/
   exists k, (k < length (rpc_frame m))%nat /\ outbound p' = outbound p ++ take k (rpc_frame m)).

(** Nothing but the pipe of the client has changed. *)
Definition sent_to (m : list Z) (rc rc' : client) : Prop :=
  match rpc_pipe rc with
  | None => rc' = rc
  | Some p => exists p', rc' = set_rpc_pipe (Some p') rc /\ sent_on m p p'
  end.

Lemma length_rpc_frame m : length (rpc_frame m) = (4 + length m)%nat.
Proof. unfold rpc_frame. by rewrite length_app, length_le. Qed.

Lemma le32_i32 z : le32 (i32 (u32 z)) = le32 z.
Proof.
  rewrite i32_u32, <-(le_u32 (i32 z)), <-(le_u32 z). f_equal. unfold u32, i32.
  rewrite Zminus_mod, Z.mod_mod, <-Zminus_mod by lia. f_equal. lia.
Qed.

Lemma send_message_spec m rc :
  Z.of_nat (length m) + 4 < 2 ^ 31 ->
  exists st rc', freerds_rpc_client_send_message (A := A) m (Z.of_nat (length m)) rc = Some (st, rc') /\
    sent_to m rc rc' /\
    (0 <= st -> exists p p', rpc_pipe rc = Some p /\ rpc_pipe rc' = Some p' /\ outbound p' = outbound p ++ rpc_frame m).
Proof.
  intros Hm. unfold freerds_rpc_client_send_message, freerds_rpc_named_pipe_write, sent_to. rewrite le32_i32.
  destruct (rpc_pipe rc) as [p|] eqn:Ep; cbn.
  2:{ exists (-1). eexists. split; [reflexivity|]. split; [|lia]. destruct rc; cbn in *; by subst. }
  destruct (named_pipe_write_spec p (le32 (Z.of_nat (length m) + 4)) 4) as (st & p1 & -> & Hi & Hc);
    [rewrite length_le; lia|lia|]. cbn.
  destruct Hc as [(-> & Ho)|(-> & k & Hk & Ho)].
  2:{ cbn. exists (-1). eexists. split; [reflexivity|]. split; [|lia]. exists p1. split; [done|]. split; [done|].
      right. exists k. rewrite length_rpc_frame. split; [lia|]. unfold rpc_frame.
      rewrite take_app_le by (rewrite length_le; lia). done. }
  rewrite i32_id by (unfold is_i32; lia). cbn. rewrite take_ge in Ho by (rewrite length_le; lia).
  destruct (named_pipe_write_spec p1 m (Z.of_nat (length m))) as (st & p2 & -> & Hi2 & Hc); [lia|lia|]. cbn.
  exists st. eexists. split; [reflexivity|]. destruct Hc as [(-> & Ho2)|(-> & k & Hk & Ho2)].
  - rewrite take_ge, Ho, <-(assoc_L (++)) in Ho2 by lia. split.
    + exists p2. split; [done|]. split; [congruence|by left].
    + intros _. by exists p, p2.
  - split; [|lia]. exists p2. split; [done|]. split; [congruence|]. right. exists (4 + k)%nat.
    rewrite length_rpc_frame. split; [lia|]. unfold rpc_frame.
    rewrite Ho2, Ho, take_app_add' by (by rewrite length_le). by rewrite <-(assoc_L (++)).
Qed.
End Sending.

Section Server.
Context {W : WStream} {P : Pipe} {PL : PipeLaws P} {A : Type}.
Abbreviation client := (rdsRpcClient A).
Abbreviation server := (rdsRpcServer A).
Context (cb : rpc_callbacks A) (accepted : option (client -> option (Z * client))) (a : A).

(** The threads of the server: accepting, the thread of a client, a message to
    one client or to all of them. *)
Inductive server_run : server -> Prop :=
| run_new : server_run freerds_rpc_server_new
| run_accept sv p more sv' : server_run sv ->
    server_thread_iteration accepted a p sv = Some (more, sv') -> server_run sv'
| run_client sv i wait attempt sv' : server_run sv ->
    server_client_step cb i wait attempt sv = Some sv' -> server_run sv'
| run_send sv i m rc st rc' : server_run sv -> rpc_clients sv !! i = Some rc ->
    freerds_rpc_client_send_message m (Z.of_nat (length m)) rc = Some (st, rc') ->
    server_run (set_clients (ClientList sv) (<[i := rc']> (rpc_clients sv)) sv)
| run_broadcast sv m st sv' : server_run sv ->
    freerds_rpc_server_broadcast_message m (Z.of_nat (length m)) sv = Some (st, sv') -> server_run sv'.

(** The list has every live client once. *)
Record server_ok (sv : server) : Prop := {
  ok_distinct : NoDup (ClientList sv);
  ok_alive i : i ∈ ClientList sv <-> is_Some (rpc_clients sv !! i);
  ok_fresh i : i ∈ ClientList sv -> (i < next_client sv)%nat;
}.

(** A change of the clients that keeps who is alive. *)
Lemma server_ok_clients sv (m : gmap nat client) :
  server_ok sv -> (forall i, is_Some (m !! i) <-> is_Some (rpc_clients sv !! i)) ->
  server_ok (set_clients (ClientList sv) m sv).
Proof. intros [Hd Ha Hf] Hm. split; cbn; [done| |done]. intros i. by rewrite Hm. Qed.

Lemma is_Some_insert_same (m : gmap nat client) i rc0 rc :
  m !! i = Some rc0 -> forall j, is_Some (<[i := rc]> m !! j) <-> is_Some (m !! j).
Proof.
  intros Hi j. destruct (decide (i = j)) as [<-|Hne].
  - rewrite lookup_insert_eq, Hi. split; intros _; by eexists.
  - by rewrite lookup_insert_ne.
Qed.

Lemma client_exit_ok i sv : server_ok sv -> server_ok (client_thread_exit (A := A) i sv).
Proof.
  intros [Hd Ha Hf].
  assert (forall l j, j ∈ List.filter (fun j => negb (Nat.eqb i j)) l <-> j ∈ l /\ i <> j) as Hfil.
  { intros l j. rewrite !list_elem_of_In, List.filter_In. destruct (Nat.eqb_spec i j); cbn; naive_solver. }
  split; cbn.
  - clear Ha Hf. induction Hd as [|x l Hx Hd IH]; cbn; [constructor|].
    destruct (negb (Nat.eqb i x)); [|done]. constructor; [|done]. intros [? _]%Hfil. done.
  - intros j. rewrite Hfil, Ha. destruct (decide (i = j)) as [<-|Hne].
    + rewrite lookup_delete_eq. split; [by intros [_ ?]|by intros []].
    + rewrite lookup_delete_ne by done. naive_solver.
  - intros j [Hj _]%Hfil. by apply Hf.
Qed.

Lemma broadcast_loop_spec m l (cs : gmap nat client) :
  Z.of_nat (length m) + 4 < 2 ^ 31 -> NoDup l -> (forall i, i ∈ l -> is_Some (cs !! i)) ->
  exists cs', broadcast_loop l m (Z.of_nat (length m)) cs = Some cs' /\
    (forall i, i ∉ l -> cs' !! i = cs !! i) /\
    (forall i rc, i ∈ l -> cs !! i = Some rc -> exists rc', cs' !! i = Some rc' /\ sent_to m rc rc').
Proof.
  intros Hm. revert cs. induction l as [|i l IH]; intros cs Hd Hs.
  { exists cs. split; [done|]. split; [done|]. by intros i rc ?%not_elem_of_nil. }
  apply NoDup_cons in Hd as [Hi Hd]. destruct (Hs i) as [rc Hrc]; [left|]. cbn [broadcast_loop]. rewrite Hrc. cbn.
  destruct (send_message_spec m rc Hm) as (st & rc' & -> & Hsent & _). cbn.
  destruct (IH (<[i := rc']> cs) Hd) as (cs' & -> & Hout & Hin).
  { intros j Hj. apply (is_Some_insert_same cs i rc rc' Hrc), Hs. by right. }
  exists cs'. split; [done|]. split.
  - intros j [Hne Hj]%not_elem_of_cons. rewrite Hout by done. by rewrite lookup_insert_ne.
  - intros j rj [->|Hj]%elem_of_cons E.
    + exists rc'. rewrite Hout by done. rewrite lookup_insert_eq. split; [done|]. by rewrite Hrc in E; injection E as <-.
    + apply Hin; [done|]. rewrite lookup_insert_ne; [done|]. by intros ->.
Qed.

Lemma broadcast_spec m sv :
  server_ok sv -> Z.of_nat (length m) + 4 < 2 ^ 31 ->
  exists cs, freerds_rpc_server_broadcast_message (A := A) m (Z.of_nat (length m)) sv =
      Some (0, set_clients (ClientList sv) cs sv) /\
    forall i, match rpc_clients sv !! i with
              | None => cs !! i = None
              | Some rc => exists rc', cs !! i = Some rc' /\ sent_to m rc rc'
              end.
Proof.
  intros [Hd Ha Hf] Hm. unfold freerds_rpc_server_broadcast_message.
  destruct (broadcast_loop_spec m (ClientList sv) (rpc_clients sv) Hm Hd) as (cs & -> & Hout & Hin).
  { intros i. apply Ha. }
  cbn. exists cs. split; [done|]. intros i. destruct (rpc_clients sv !! i) as [rc|] eqn:E.
  - apply Hin; [|done]. apply Ha. by eexists.
  - rewrite Hout; [done|]. intros [? Hi]%Ha. congruence.
Qed.

Lemma broadcast_loop_alive m n l (cs cs' : gmap nat client) :
  broadcast_loop l m n cs = Some cs' -> forall i, is_Some (cs' !! i) <-> is_Some (cs !! i).
Proof.
  revert cs. induction l as [|j l IH]; intros cs E i; cbn in E; [by injection E as ->|].
  destruct (cs !! j) as [rc|] eqn:Ej; [|done]. cbn in E.
  destruct (freerds_rpc_client_send_message m n rc) as [[st rc']|]; [|done]. cbn in E.
  rewrite (IH _ E). by apply (is_Some_insert_same cs j rc).
Qed.

Lemma server_run_ok sv : server_run sv -> server_ok sv.
Proof.
  induction 1 as [|sv p more sv' _ IH E|sv i wait attempt sv' _ IH E|sv i m rc st rc' _ IH Hi E|sv m st sv' _ IH E].
  - split; cbn; [constructor| |by intros i ?%not_elem_of_nil].
    intros i. rewrite lookup_empty. split; [by intros ?%not_elem_of_nil|by intros []].
  - unfold server_thread_iteration in E. destruct p as [p|]; [|by injection E as <- <-].
    destruct (server_stop sv); [by injection E as <- <-|].
    destruct (match accepted with Some f => _ | None => _ end) as [[st rc]|]; [|done]. cbn in E.
    injection E as <- <-. destruct IH as [Hd Ha Hf].
    split; cbn.
    + apply NoDup_app. split; [done|]. split; [|apply NoDup_singleton].
      intros i Hi ->%list_elem_of_singleton. specialize (Hf _ Hi). lia.
    + intros i. rewrite elem_of_app, list_elem_of_singleton, Ha. destruct (decide (next_client sv = i)) as [<-|Hne].
      * rewrite lookup_insert_eq. split; [by eexists|by right].
      * rewrite lookup_insert_ne by done. naive_solver.
    + intros i [Hi| ->%list_elem_of_singleton]%elem_of_app; [specialize (Hf _ Hi)|]; lia.
  - unfold server_client_step in E. destruct (rpc_clients sv !! i) as [rc|] eqn:Ei; [|done]. cbn in E.
    destruct (client_thread_iteration cb wait attempt rc) as [[running rc']|]; [|done]. cbn in E.
    assert (server_ok (set_clients (ClientList sv) (<[i := rc']> (rpc_clients sv)) sv)) as Hok.
    { apply server_ok_clients; [done|]. by apply (is_Some_insert_same _ i rc). }
    destruct running; injection E as <-; [done|]. by apply client_exit_ok.
  - apply server_ok_clients; [done|]. by apply (is_Some_insert_same _ i rc).
  - unfold freerds_rpc_server_broadcast_message in E.
    destruct (broadcast_loop _ _ _ _) as [cs|] eqn:Eb; [|done]. injection E as <- <-.
    apply server_ok_clients; [done|]. by apply (broadcast_loop_alive _ _ _ _ _ Eb).
Qed.
End Server.
