(* ===== verification/RpcPipeTheorems.v ===== *)
(** * Properties of the RPC pipes

    The receiver of freerds/rpc/rpc.c computes its reference, and a broadcast
    reaches every client of the server. *)

From S2P Require Import Prelude WStream ListStream Pipe Transport TransportFacts RpcPipe RpcPipeFacts RpcServerFacts.
From S2P Require Import Instances.
From stdpp Require Import gmap list.
#[local] Open Scope Z_scope.

(** C13. Any number of calls of freerds_rpc_transport_receive
    is equivalent to the automaton that takes one byte at a time, however the
    pipe cuts the bytes into reads: the messages handed to MessageReceived are
    those that the automaton finds in the bytes taken from the pipe, in order
    and once each.  As long as the declared lengths lie between 4 and the size
    of the inbound stream every call is defined; when reads keep delivering, as
    many calls as there are bytes take all of them.  When the peer has sent
    framed messages, what arrives is a prefix of them, and all of them in the
    end. *)
Theorem rpc_receiver_deframes {W : WStream} {L : WStreamLaws W} {P : Pipe} {PL : PipeLaws P} {A : Type}
    (cb : rpc_callbacks A) deliver k (rc : rdsRpcClient A) p :
  delivers cb deliver -> rpc_pipe rc = Some p -> rpc_stream rc = Stream_New RPC_STREAM_SIZE ->
  deframe RPC_STREAM_SIZE (inbound p) <> None ->
  exists sts rc' p' taken ms part, receive_calls cb k rc = Some (sts, rc') /\ rpc_pipe rc' = Some p' /\
    inbound p = taken ++ inbound p' /\ deframe RPC_STREAM_SIZE taken = Some (ms, part) /\
    custom rc' = fold_left deliver ms (custom rc) /\
    (live -> (length (inbound p) <= k)%nat -> taken = inbound p) /\
    forall all, Forall (fun m => (length m + 4 <= RPC_STREAM_SIZE)%nat) all ->
      inbound p = concat (map rpc_frame all) ->
      ms `prefix_of` all /\ (taken = inbound p -> ms = all).
Proof.
  intros Hcb Hp Hs Hd.
  assert (holds (rpc_stream rc) [] RPC_STREAM_SIZE) as Hh.
  { rewrite Hs. destruct (new_spec RPC_STREAM_SIZE) as (buf & Hr & Hl).
    exists buf, RPC_STREAM_SIZE. split; [done|]. split; [done|]. rewrite Hl. cbn [length]. lia. }
  assert (rpc_inbound rc = inbound p) as Hin by (unfold rpc_inbound; by rewrite Hp).
  assert (4 <= Z.of_nat RPC_STREAM_SIZE < 2 ^ 31) as Hcap by (unfold RPC_STREAM_SIZE; lia).
  destruct (receive_calls_spec RPC_STREAM_SIZE Hcap cb deliver Hcb k [] [] rc Hh)
    as (sts & rc' & taken & ms & part & E & Hp' & Hi & _ & Hdt & Hcu & Hlv).
  { left. cbn. lia. }
  { intros [? _]. cbn in *. lia. }
  { by rewrite Hin. }
  rewrite Hp in Hp'. destruct Hp' as [p' Hp']; [by eexists|]. rewrite Hin in *. unfold rpc_inbound in Hi. rewrite Hp' in Hi.
  exists sts, rc', p', taken, ms, part. do 6 (split; [done|]). intros all Ha Eall.
  assert (deframe RPC_STREAM_SIZE (inbound p) = Some (all, [])) as Hall.
  { rewrite Eall. apply (deframe_frames RPC_STREAM_SIZE [] all Ha). lia. }
  split.
  - rewrite Hi in Hall. unfold deframe in Hall. rewrite deframe_app, Hdt in Hall. by apply deframe_grows in Hall.
  - intros ->. unfold deframe in Hall. rewrite Hdt in Hall. by simplify_eq.
Qed.

(** A client that collects its messages, on a pipe that delivers two messages
    in reads of three bytes. *)
Definition collect_callbacks : rpc_callbacks (list (list Z)) :=
  mk_callbacks (Some (fun rc buf len => Some (0, set_custom (custom rc ++ [take (Z.to_nat len) buf]) rc))) None.

Definition two_messages : list (list Z) := [[1; 2; 3]; []].

Definition collecting_client : rdsRpcClient (list (list Z)) :=
  set_rpc_pipe (Some (LPipe (concat (map rpc_frame two_messages)) [2%nat; 2%nat; 2%nat; 2%nat] [] 0))
    (freerds_rpc_client_new false []).

Lemma rpc_receiver_deframes_witness :
  exists sts rc', receive_calls collect_callbacks 11 collecting_client = Some (sts, rc') /\
    custom rc' = two_messages.
Proof.
  destruct (rpc_receiver_deframes collect_callbacks (fun l m => l ++ [m]) 11 collecting_client
    (LPipe (concat (map rpc_frame two_messages)) [2%nat; 2%nat; 2%nat; 2%nat] [] 0))
    as (sts & rc' & p' & taken & ms & part & E & _ & _ & _ & Hcu & Hall & Hms).
  - eexists. split; [reflexivity|]. intros rc buf len. by eexists.
  - reflexivity.
  - reflexivity.
  - vm_compute. discriminate.
  - exists sts, rc'. split; [exact E|]. rewrite Hcu.
    destruct (Hms two_messages) as [_ ->].
    + repeat (apply List.Forall_cons; [unfold RPC_STREAM_SIZE; cbn [length]; lia|]). apply List.Forall_nil.
    + vm_compute. reflexivity.
    + reflexivity.
    + apply Hall; [exact list_pipe_live|]. vm_compute. lia.
Defined.

(** In every run of the threads of an RPC server
    (accepting, receiving, losing clients, sending) the client list has every
    live client exactly once, so freerds_rpc_server_broadcast_message never
    touches a client that has been freed: it returns 0 and for every client
    puts the framed message on its pipe, whole or, when the pipe fails, a part
    of it, and changes nothing else. *)
Theorem broadcast_reaches_clients {W : WStream} {P : Pipe} {PL : PipeLaws P} {A : Type}
    (cb : rpc_callbacks A) accepted a (sv : rdsRpcServer A) m :
  server_run cb accepted a sv -> Z.of_nat (length m) + 4 < 2 ^ 31 ->
  NoDup (ClientList sv) /\
  exists clients, freerds_rpc_server_broadcast_message m (Z.of_nat (length m)) sv =
      Some (0, set_clients (ClientList sv) clients sv) /\
    forall i, match rpc_clients sv !! i with
              | None => (i ∉ ClientList sv) /\ clients !! i = None
              | Some rc => i ∈ ClientList sv /\ exists rc', clients !! i = Some rc' /\ sent_to m rc rc'
              end.
Proof.
  intros Hr Hm. pose proof (server_run_ok cb accepted a sv Hr) as Hok. split; [apply Hok|].
  destruct (broadcast_spec m sv Hok Hm) as (cs & E & Hcs). exists cs. split; [done|].
  intros i. specialize (Hcs i). pose proof (ok_alive sv Hok i) as Ha.
  destruct (rpc_clients sv !! i) as [rc|].
  - split; [|done]. apply Ha. by eexists.
  - split; [|done]. intros [? ?]%Ha. done.
Qed.

(** A server that has accepted two clients. *)
Definition idle_pipe (i : nat) : @pipe list_pipe := LPipe [] [] [] i.
Definition idle_client (i : nat) : rdsRpcClient (list (list Z)) :=
  set_rpc_pipe (Some (idle_pipe i)) (freerds_rpc_client_new true []).
Definition one_client : rdsRpcServer (list (list Z)) :=
  mk_rpc_server [0%nat] {[0%nat := idle_client 0]} 1 false.
Definition two_clients : rdsRpcServer (list (list Z)) :=
  mk_rpc_server [0%nat; 1%nat] (<[1%nat := idle_client 1]> {[0%nat := idle_client 0]}) 2 false.

Lemma broadcast_reaches_clients_witness :
  NoDup (ClientList two_clients) /\
  exists clients, freerds_rpc_server_broadcast_message [7; 8] 2 two_clients =
    Some (0, set_clients (ClientList two_clients) clients two_clients).
Proof.
  destruct (broadcast_reaches_clients collect_callbacks None [] two_clients [7; 8]) as (Hd & cs & E & _).
  - apply (run_accept collect_callbacks None [] one_client (Some (idle_pipe 1)) true two_clients); [|reflexivity].
    apply (run_accept collect_callbacks None [] freerds_rpc_server_new (Some (idle_pipe 0)) true one_client);
      [constructor|reflexivity].
  - cbn. lia.
  - split; [exact Hd|]. exists cs. exact E.
Defined.
