(* ===== verification/Encoder.v ===== *)
(** * The bitmap encoder

    freerds/core/encoder.c: the codec contexts of a connection, the buffers its
    tiles are compressed into, and the numbering of frames.  A context is
    created when the first update needs it ([freerds_encoder_prepare]).

    The codecs are FreeRDP's; their contexts are records of the fields that the
    encoder sets.  The creation of a context can fail ([allocs]).  The bits
    [FREERDP_CODEC_*] are a parameter ([CodecBits]).  The arithmetic of the
    grid is on [int]: when the size of the buffer does not fit, it is undefined
    ([None]). *)

From S2P Require Import Prelude WStream Pipe RpcContext.

(** The positions of the bits [FREERDP_CODEC_*]. *)
Class CodecBits := {
  rfx_bit : Z;
  nsc_bit : Z;
  planar_bit : Z;
  interleaved_bit : Z;
}.

Class CodecBitsLaws (B : CodecBits) : Prop := {
  bits_range : Forall (fun b => 0 <= b < 32) [rfx_bit; nsc_bit; planar_bit; interleaved_bit];
  bits_distinct : NoDup [rfx_bit; nsc_bit; planar_bit; interleaved_bit];
}.

(** The settings of the connection that the encoder and its users read; a
    [BOOL] that is used as a number is a [Z]. *)
Record rdpSettings := mk_settings {
  SurfaceFrameMarkerEnabled : Z;
  NSCodecColorLossLevel : Z;
  NSCodecAllowSubsampling : bool;
  NSCodecAllowDynamicColorFidelity : bool;
  DrawAllowSkipAlpha : bool;
  ColorDepth : Z;
  MultifragMaxRequestSize : Z;
}.

Record RFX_CONTEXT := mk_rfx { rfx_width : Z; rfx_height : Z }.
Record NSC_CONTEXT := mk_nsc {
  ColorLossLevel : Z;
  ChromaSubsamplingLevel : Z;
  DynamicColorFidelity : bool;
}.
(** With [skip_alpha], the flag [PLANAR_FORMAT_HEADER_NA]. *)
Record BITMAP_PLANAR_CONTEXT := mk_planar { skip_alpha : bool; planar_width : Z; planar_height : Z }.
Inductive BITMAP_INTERLEAVED_CONTEXT := mk_interleaved.

Record SURFACE_FRAME := mk_frame_ { frame_id : Z }.

(** Which contexts can be created. *)
Record allocs := mk_allocs { rfx_ok : bool; nsc_ok : bool; planar_ok : bool; interleaved_ok : bool }.

Section Encoder.
Context {W : WStream} {D : Dictionary} {B : CodecBits}.

Definition FREERDP_CODEC_REMOTEFX : Z := 2 ^ rfx_bit.
Definition FREERDP_CODEC_NSCODEC : Z := 2 ^ nsc_bit.
Definition FREERDP_CODEC_PLANAR : Z := 2 ^ planar_bit.
Definition FREERDP_CODEC_INTERLEAVED : Z := 2 ^ interleaved_bit.

(** [gridBuffer] is the size of the block, [grid] the offsets of the tiles in
    it. *)
Record rdsEncoder := mk_encoder {
  width : Z;
  height : Z;
  codecs : Z;
  grid : option (list Z);
  gridWidth : Z;
  gridHeight : Z;
  gridBuffer : option Z;
  maxTileWidth : Z;
  maxTileHeight : Z;
  bs : option wStream;
  rfx : option RFX_CONTEXT;
  nsc : option NSC_CONTEXT;
  planar : option BITMAP_PLANAR_CONTEXT;
  interleaved : option BITMAP_INTERLEAVED_CONTEXT;
  fps : Z;
  maxFps : Z;
  frameAck : Z;
  frameId : Z;
  frameList : option (wListDictionary SURFACE_FRAME);
}.

Definition set_codecs c e := mk_encoder (width e) (height e) c (grid e) (gridWidth e) (gridHeight e) (gridBuffer e)
  (maxTileWidth e) (maxTileHeight e) (bs e) (rfx e) (nsc e) (planar e) (interleaved e) (fps e) (maxFps e) (frameAck e)
  (frameId e) (frameList e).
Definition set_grid g w h b e := mk_encoder (width e) (height e) (codecs e) g w h b
  (maxTileWidth e) (maxTileHeight e) (bs e) (rfx e) (nsc e) (planar e) (interleaved e) (fps e) (maxFps e) (frameAck e)
  (frameId e) (frameList e).
Definition set_tile w h e := mk_encoder (width e) (height e) (codecs e) (grid e) (gridWidth e) (gridHeight e) (gridBuffer e)
  w h (bs e) (rfx e) (nsc e) (planar e) (interleaved e) (fps e) (maxFps e) (frameAck e) (frameId e) (frameList e).
Definition set_bs s e := mk_encoder (width e) (height e) (codecs e) (grid e) (gridWidth e) (gridHeight e) (gridBuffer e)
  (maxTileWidth e) (maxTileHeight e) s (rfx e) (nsc e) (planar e) (interleaved e) (fps e) (maxFps e) (frameAck e)
  (frameId e) (frameList e).
Definition set_contexts r n p i e := mk_encoder (width e) (height e) (codecs e) (grid e) (gridWidth e) (gridHeight e)
  (gridBuffer e) (maxTileWidth e) (maxTileHeight e) (bs e) r n p i (fps e) (maxFps e) (frameAck e)
  (frameId e) (frameList e).
Definition set_frames_ f m a i l e := mk_encoder (width e) (height e) (codecs e) (grid e) (gridWidth e) (gridHeight e)
  (gridBuffer e) (maxTileWidth e) (maxTileHeight e) (bs e) (rfx e) (nsc e) (planar e) (interleaved e) f m a i l.

(** ** Frames *)

(** The division is that of C. *)
Definition next_fps (inFlightFrames : Z) (e : rdsEncoder) : Z :=
  let fps_ :=
    if frameAck e <? inFlightFrames
    then Z.quot (Z.quot 100 (inFlightFrames + 1) * maxFps e) 100
    else let f := fps e + 2 in if maxFps e <? f then maxFps e else f in
  if fps_ <? 1 then 1 else fps_.

Definition freerds_encoder_create_frame_id (e : rdsEncoder) : option (Z * rdsEncoder) :=
  l ← frameList e;
  let fps_ := next_fps (ListDictionary_Count l) e in
  let id := u32 (frameId e + 1) in
  Some (i32 id, set_frames_ fps_ (maxFps e) (frameAck e) id (Some (ListDictionary_Add id (mk_frame_ id) l)) e).

(** ** The grid *)

Definition freerds_encoder_init_grid (e : rdsEncoder) : option (Z * rdsEncoder) :=
  let gridWidth_ := Z.quot (width e + (maxTileWidth e - 1)) (maxTileWidth e) in
  let gridHeight_ := Z.quot (height e + (maxTileHeight e - 1)) (maxTileHeight e) in
  let tileSize := maxTileWidth e * maxTileHeight e * 4 in
  let tileCount := gridWidth_ * gridHeight_ in
  if decide (0 <= tileSize * tileCount < 2 ^ 31) then
    Some (0, set_grid (Some (map (fun k => Z.of_nat k * tileSize) (seq 0 (Z.to_nat tileCount))))
               gridWidth_ gridHeight_ (Some (tileSize * tileCount)) e)
  else None.

Definition freerds_encoder_uninit_grid (e : rdsEncoder) : rdsEncoder := set_grid None 0 0 None e.

(** ** Contexts *)

(** [if (!encoder->frameList) { ... }] *)
Definition init_frames (settings : rdpSettings) (e : rdsEncoder) : rdsEncoder :=
  match frameList e with
  | Some _ => e
  | None => set_frames_ 16 32 (SurfaceFrameMarkerEnabled settings) 0 (Some ListDictionary_New) e
  end.

Definition add_codec (c : Z) (e : rdsEncoder) : rdsEncoder := set_codecs (Z.lor (codecs e) c) e.
Definition remove_codec (c : Z) (e : rdsEncoder) : rdsEncoder := set_codecs (Z.ldiff (codecs e) c) e.

Definition freerds_encoder_init_rfx (settings : rdpSettings) (al : allocs) (e : rdsEncoder) : Z * rdsEncoder :=
  match rfx e, rfx_ok al with
  | None, false => (-1, e)
  | _, _ =>
      let e := set_contexts (Some (mk_rfx (width e) (height e))) (nsc e) (planar e) (interleaved e) e in
      (1, add_codec FREERDP_CODEC_REMOTEFX (init_frames settings e))
  end.

Definition freerds_encoder_init_nsc (settings : rdpSettings) (al : allocs) (e : rdsEncoder) : Z * rdsEncoder :=
  match nsc e, nsc_ok al with
  | None, false => (-1, e)
  | _, _ =>
      let c := mk_nsc (NSCodecColorLossLevel settings) (if NSCodecAllowSubsampling settings then 1 else 0)
                 (NSCodecAllowDynamicColorFidelity settings) in
      let e := set_contexts (rfx e) (Some c) (planar e) (interleaved e) (init_frames settings e) in
      (1, add_codec FREERDP_CODEC_NSCODEC e)
  end.

Definition freerds_encoder_init_planar (settings : rdpSettings) (al : allocs) (e : rdsEncoder) : Z * rdsEncoder :=
  let done_ c := (1, add_codec FREERDP_CODEC_PLANAR (set_contexts (rfx e) (nsc e) (Some c) (interleaved e) e)) in
  match planar e, planar_ok al with
  | Some c, _ => done_ c
  | None, false => (-1, e)
  | None, true => done_ (mk_planar (DrawAllowSkipAlpha settings) (maxTileWidth e) (maxTileHeight e))
  end.

Definition freerds_encoder_init_interleaved (al : allocs) (e : rdsEncoder) : Z * rdsEncoder :=
  match interleaved e, interleaved_ok al with
  | None, false => (-1, e)
  | _, _ =>
      (1, add_codec FREERDP_CODEC_INTERLEAVED
            (set_contexts (rfx e) (nsc e) (planar e) (Some mk_interleaved) e))
  end.

Definition freerds_encoder_init (e : rdsEncoder) : option (Z * rdsEncoder) :=
  '(_, e) ← freerds_encoder_init_grid (set_tile 64 64 e);
  match bs e with
  | Some _ => Some (1, e)
  | None => Some (1, set_bs (Some (Stream_New (Z.to_nat (maxTileWidth e * maxTileHeight e * 4)))) e)
  end.

Definition free_frames (e : rdsEncoder) : rdsEncoder :=
  set_frames_ (fps e) (maxFps e) (frameAck e) (frameId e) None e.

Definition freerds_encoder_uninit_rfx (e : rdsEncoder) : rdsEncoder :=
  let e := set_frames_ (fps e) (maxFps e) (frameAck e) 0 (frameList e) e in
  remove_codec FREERDP_CODEC_REMOTEFX (free_frames (set_contexts None (nsc e) (planar e) (interleaved e) e)).

Definition freerds_encoder_uninit_nsc (e : rdsEncoder) : rdsEncoder :=
  remove_codec FREERDP_CODEC_NSCODEC (free_frames (set_contexts (rfx e) None (planar e) (interleaved e) e)).

Definition freerds_encoder_uninit_planar (e : rdsEncoder) : rdsEncoder :=
  remove_codec FREERDP_CODEC_PLANAR (set_contexts (rfx e) (nsc e) None (interleaved e) e).

Definition freerds_encoder_uninit_interleaved (e : rdsEncoder) : rdsEncoder :=
  remove_codec FREERDP_CODEC_INTERLEAVED (set_contexts (rfx e) (nsc e) (planar e) None e).

Definition has_codec (c : Z) (codecs_ : Z) : bool := negb (Z.land codecs_ c =? 0).

Definition when (b : bool) (f : rdsEncoder -> rdsEncoder) (e : rdsEncoder) : rdsEncoder := if b then f e else e.

Definition freerds_encoder_uninit (e : rdsEncoder) : rdsEncoder :=
  let e := set_bs None (freerds_encoder_uninit_grid e) in
  let e := when (has_codec FREERDP_CODEC_REMOTEFX (codecs e)) freerds_encoder_uninit_rfx e in
  let e := when (has_codec FREERDP_CODEC_NSCODEC (codecs e)) freerds_encoder_uninit_nsc e in
  let e := when (has_codec FREERDP_CODEC_PLANAR (codecs e)) freerds_encoder_uninit_planar e in
  when (has_codec FREERDP_CODEC_INTERLEAVED (codecs e)) freerds_encoder_uninit_interleaved e.

(** One of the four steps of [freerds_encoder_prepare]: [false] when it
    returns -1. *)
Definition prepare_codec (c codecs_ : Z) (init : rdsEncoder -> Z * rdsEncoder) (e : rdsEncoder) : bool * rdsEncoder :=
  if has_codec c codecs_ && negb (has_codec c (codecs e)) then
    let '(status, e) := init e in (negb (status <? 0), e)
  else (true, e).

Definition freerds_encoder_prepare (settings : rdpSettings) (al : allocs) (codecs_ : Z) (e : rdsEncoder) :
    Z * rdsEncoder :=
  let '(ok, e) := prepare_codec FREERDP_CODEC_REMOTEFX codecs_ (freerds_encoder_init_rfx settings al) e in
  if negb ok then (-1, e) else
  let '(ok, e) := prepare_codec FREERDP_CODEC_NSCODEC codecs_ (freerds_encoder_init_nsc settings al) e in
  if negb ok then (-1, e) else
  let '(ok, e) := prepare_codec FREERDP_CODEC_PLANAR codecs_ (freerds_encoder_init_planar settings al) e in
  if negb ok then (-1, e) else
  let '(ok, e) := prepare_codec FREERDP_CODEC_INTERLEAVED codecs_ (freerds_encoder_init_interleaved al) e in
  if negb ok then (-1, e) else (1, e).

Definition freerds_encoder_reset (settings : rdpSettings) (al : allocs) (e : rdsEncoder) : option (Z * rdsEncoder) :=
  let codecs_ := codecs e in
  '(status, e) ← freerds_encoder_init (freerds_encoder_uninit e);
  if status <? 0 then Some (-1, e) else
  let '(status, e) := freerds_encoder_prepare settings al codecs_ e in
  Some (if status <? 0 then -1 else 1, e).

Definition freerds_encoder_new (width_ height_ : Z) : option rdsEncoder :=
  '(_, e) ← freerds_encoder_init
    (mk_encoder width_ height_ 0 None 0 0 None 0 0 None None None None None 16 32 0 0 None);
  Some e.

(** The encoder at the moment its struct is freed. *)
Definition freerds_encoder_free (e : option rdsEncoder) : option rdsEncoder :=
  freerds_encoder_uninit <$> e.

(** ** The connection *)

(** The fields of the connection that belong to its encoder. *)
Record rdsConnection := mk_connection {
  settings : rdpSettings;
  encoder : rdsEncoder;
  FrameList : wListDictionary SURFACE_FRAME;
}.

Definition set_encoder e (c : rdsConnection) : rdsConnection := mk_connection (settings c) e (FrameList c).

(** process.c *)
Definition freerds_update_frame_acknowledge (id : Z) (c : rdsConnection) : rdsConnection :=
  match ListDictionary_GetItemValue id (FrameList c) with
  | None => c
  | Some _ => mk_connection (settings c) (encoder c) (snd (ListDictionary_Remove id (FrameList c)))
  end.

(** core.c, the beginning of [freerds_send_surface_bits]: a frame is numbered
    before the codec is prepared. *)
Definition surface_frame (codec : Z) (al : allocs) (c : rdsConnection) : option (Z * rdsConnection) :=
  '(id, e) ← if negb (frameAck (encoder c) =? 0)
             then '(id, e) ← freerds_encoder_create_frame_id (encoder c); Some (u32 id, e)
             else Some (0, encoder c);
  Some (id, set_encoder (snd (freerds_encoder_prepare (settings c) al codec e)) c).
End Encoder.
