(* ===== verification/EncoderFacts.v ===== *)
(** * The bitmap encoder: its invariant

    [base_ok] relates the codec bits of an encoder, its contexts and its list
    of frames; [grid_ok] describes the buffers of its tiles.  Every operation
    keeps both. *)

From S2P Require Import Prelude WStream Pipe RpcContext Encoder.
From stdpp Require Import list.
#[local] Open Scope Z_scope.

(** ** Bits *)

Lemma has_codec_bit b n : 0 <= b -> has_codec (2 ^ b) n = Z.testbit n b.
Proof.
  intros Hb. unfold has_codec.
  assert (Z.land n (2 ^ b) = if Z.testbit n b then 2 ^ b else 0) as ->.
  { apply Z.bits_inj'. intros i Hi. rewrite Z.land_spec, Z.pow2_bits_eqb by done.
    destruct (Z.eqb_spec b i) as [<-|Hne].
    - rewrite andb_true_r. destruct (Z.testbit n b); [by rewrite Z.pow2_bits_true|by rewrite Z.bits_0].
    - rewrite andb_false_r. destruct (Z.testbit n b); [by rewrite Z.pow2_bits_false|by rewrite Z.bits_0]. }
  destruct (Z.testbit n b); [|done]. destruct (Z.eqb_spec (2 ^ b) 0); [|done].
  pose proof (Z.pow_pos_nonneg 2 b). lia.
Qed.

Section Facts.
Context {W : WStream} {D : Dictionary} {DL : DictionaryLaws D} {B : CodecBits} {BL : CodecBitsLaws B}.
Abbreviation encoder := rdsEncoder.

Definition bits : list Z := [rfx_bit; nsc_bit; planar_bit; interleaved_bit].

Definition has (e : encoder) (b : Z) : bool := Z.testbit (codecs e) b.

Lemma bit_nonneg b : b ∈ bits -> 0 <= b.
Proof. intros Hb. destruct BL as [Hr _]. rewrite Forall_forall in Hr. specialize (Hr _ Hb). lia. Qed.

Lemma rfx_in : rfx_bit ∈ bits. Proof. left. Qed.
Lemma nsc_in : nsc_bit ∈ bits. Proof. right. left. Qed.
Lemma planar_in : planar_bit ∈ bits. Proof. do 2 right. left. Qed.
Lemma interleaved_in : interleaved_bit ∈ bits. Proof. do 3 right. left. Qed.
#[local] Hint Resolve rfx_in nsc_in planar_in interleaved_in bit_nonneg : rds.

Lemma bits_ne : rfx_bit <> nsc_bit /\ rfx_bit <> planar_bit /\ rfx_bit <> interleaved_bit /\
  nsc_bit <> planar_bit /\ nsc_bit <> interleaved_bit /\ planar_bit <> interleaved_bit.
Proof.
  destruct BL as [_ Hd]. rewrite !NoDup_cons, !not_elem_of_cons in Hd. tauto.
Qed.

Lemma has_add b b' e : b ∈ bits -> has (add_codec (2 ^ b) e) b' = has e b' || (b =? b').
Proof.
  intros Hb. unfold has, add_codec. cbn. rewrite Z.lor_spec, Z.pow2_bits_eqb by (by apply bit_nonneg). done.
Qed.

Lemma has_remove b b' e : b ∈ bits -> 0 <= b' -> has (remove_codec (2 ^ b) e) b' = has e b' && negb (b =? b').
Proof.
  intros Hb Hb'. unfold has, remove_codec. cbn. rewrite Z.ldiff_spec, Z.pow2_bits_eqb by (by apply bit_nonneg). done.
Qed.

(** ** The invariant *)

(** The keys of the frame list are the numbers of the frames in order, and the
    last of them is the current one. *)
Definition frames_ok (e : encoder) : Prop :=
  forall l, frameList e = Some l ->
    map fst (dict_items l) = map (fun k => u32 (Z.of_nat k)) (seq 1 (length (dict_items l))) /\
    frameId e = u32 (Z.of_nat (length (dict_items l))).

Record base_ok (e : encoder) : Prop := {
  ok_only b : has e b = true -> b ∈ bits;
  ok_rfx : has e rfx_bit = true <-> is_Some (rfx e);
  ok_nsc : has e nsc_bit = true <-> is_Some (nsc e);
  ok_planar : has e planar_bit = true <-> is_Some (planar e);
  ok_interleaved : has e interleaved_bit = true <-> is_Some (interleaved e);
  ok_size c : rfx e = Some c -> c = mk_rfx (width e) (height e);
  ok_list : is_Some (frameList e) <-> is_Some (rfx e) \/ is_Some (nsc e);
  ok_fps : maxFps e = 32 /\ 1 <= fps e <= maxFps e;
  ok_frames : frames_ok e;
}.

(** The tiles of the grid: one for each square of 64 pixels, each with a part
    of the buffer of its own. *)
Record grid_ok (e : encoder) : Prop := {
  ok_tile : maxTileWidth e = 64 /\ maxTileHeight e = 64;
  ok_gridWidth : gridWidth e = (width e + 63) / 64;
  ok_gridHeight : gridHeight e = (height e + 63) / 64;
  ok_grid : grid e = Some (map (fun k => Z.of_nat k * 16384) (seq 0 (Z.to_nat (gridWidth e * gridHeight e))));
  ok_buffer : gridBuffer e = Some (16384 * (gridWidth e * gridHeight e)) /\
    16384 * (gridWidth e * gridHeight e) < 2 ^ 31;
  ok_bs : is_Some (bs e);
}.

(** Frames are numbered only when there is a list for them. *)
Definition ack_ok (e : encoder) : Prop := frameAck e <> 0 -> is_Some (frameList e).

Definition encoder_ok (e : encoder) : Prop :=
  base_ok e /\ grid_ok e /\ ack_ok e /\ 0 <= width e /\ 0 <= height e.

(** What the creation of contexts leaves alone. *)
Record kept (e e' : encoder) : Prop := {
  kept_size : width e' = width e /\ height e' = height e;
  kept_grid : grid e' = grid e /\ gridWidth e' = gridWidth e /\ gridHeight e' = gridHeight e /\ gridBuffer e' = gridBuffer e;
  kept_tile : maxTileWidth e' = maxTileWidth e /\ maxTileHeight e' = maxTileHeight e /\ bs e' = bs e;
  kept_list : is_Some (frameList e) -> frameList e' = frameList e /\ frameAck e' = frameAck e /\ fps e' = fps e;
  kept_ack : frameList e' = None -> frameAck e' = frameAck e;
}.

Lemma kept_refl e : kept e e.
Proof. by split. Qed.

Lemma kept_trans e1 e2 e3 : kept e1 e2 -> kept e2 e3 -> kept e1 e3.
Proof.
  intros [[??] (?&?&?&?) (?&?&?) Hl Ha] [[??] (?&?&?&?) (?&?&?) Hl' Ha']. split.
  - split; congruence.
  - repeat split; congruence.
  - repeat split; congruence.
  - intros Hs. destruct (Hl Hs) as (E & ? & ?). destruct Hl' as (? & ? & ?); [by rewrite E|]. repeat split; congruence.
  - intros Hn. rewrite Ha' by done. apply Ha. destruct (frameList e2) as [l|] eqn:E; [|done].
    destruct Hl' as [El _]; [by eexists|]. congruence.
Qed.

Lemma kept_grid_ok e e' : kept e e' -> grid_ok e -> grid_ok e'.
Proof.
  intros [[Ew Eh] (Eg & Egw & Egh & Egb) (Etw & Eth & Ebs) _ _] [H1 H2 H3 H4 H5 H6].
  split; rewrite ?Ew, ?Eh, ?Eg, ?Egw, ?Egh, ?Egb, ?Etw, ?Eth, ?Ebs; done.
Qed.

Lemma kept_ack_ok e e' : kept e e' -> ack_ok e -> ack_ok e'.
Proof.
  intros Hk Ha Hne. destruct (frameList e') as [l|] eqn:E; [by eexists|].
  assert (is_Some (frameList e)) as Hs by (apply Ha; by rewrite <-(kept_ack _ _ Hk E)).
  destruct (kept_list _ _ Hk Hs) as [E' _]. rewrite E' in E. destruct Hs as [? Hs]. congruence.
Qed.

(** ** Creating contexts *)

(** The frame list after [init_frames]. *)
Lemma init_frames_spec s e : maxFps e = 32 /\ 1 <= fps e <= maxFps e -> frames_ok e -> exists f a i l,
  init_frames s e = set_frames_ f 32 a i (Some l) e /\ 1 <= f <= 32 /\ frames_ok (init_frames s e) /\
  (is_Some (frameList e) -> frameList e = Some l /\ a = frameAck e /\ f = fps e).
Proof.
  intros [Hm Hf] Hok. unfold init_frames. destruct (frameList e) as [l|] eqn:E.
  - exists (fps e), (frameAck e), (frameId e), l. split; [destruct e; cbn in *; by subst|]. split; [lia|]. auto.
  - do 4 eexists. split; [reflexivity|]. split; [lia|]. split; [|by intros []].
    intros l [= <-]. cbn. by rewrite dict_new_items.
Qed.

Definition bit_set (b : Z) (e e' : encoder) : Prop := forall b', has e' b' = has e b' || (b =? b').

(** A step of [freerds_encoder_prepare], for the codec with bit [b]. *)
Definition init_spec (b : Z) (init : encoder -> Z * encoder) : Prop :=
  forall e, base_ok e -> has e b = false -> let '(st, e') := init e in
    base_ok e' /\ kept e e' /\ (st = -1 /\ e' = e \/ st = 1 /\ bit_set b e e').

(** A codec that is not set has no context. *)
Lemma no_context {A} (b : bool) (o : option A) : (b = true <-> is_Some o) -> b = false -> o = None.
Proof. intros H ->. destruct o; [|done]. by destruct H as [_ H]; discriminate H. Qed.

(** The new bit and the others. *)
Ltac bits_tac H :=
  pose proof bits_ne as (? & ? & ? & ? & ? & ?); rewrite H;
  match goal with |- context [?a =? ?b] => destruct (Z.eqb_spec a b); try congruence end;
  rewrite ?orb_true_r, ?orb_false_r.

Lemma bit_set_only b e e' : b ∈ bits -> bit_set b e e' -> base_ok e -> forall b', has e' b' = true -> b' ∈ bits.
Proof.
  intros Hb Hs Hok b'. rewrite Hs. destruct (Z.eqb_spec b b') as [<-|_]; [done|].
  rewrite orb_false_r. apply (ok_only _ Hok).
Qed.

Lemma init_rfx_spec s al : init_spec rfx_bit (freerds_encoder_init_rfx s al).
Proof.
  intros e H Hb. unfold freerds_encoder_init_rfx. rewrite (no_context _ _ (ok_rfx _ H) Hb).
  destruct (rfx_ok al); [|split; [done|]; split; [apply kept_refl|by left]]. cbv zeta.
  set (e1 := set_contexts _ _ _ _ e).
  destruct (init_frames_spec s e1 (ok_fps _ H) (ok_frames _ H)) as (f & a & i & l & E & Hf & Hfr & Hl).
  rewrite E in *. set (e2 := add_codec _ _).
  assert (bit_set rfx_bit e e2) as Hs by (intros b'; etrans; [apply has_add; auto with rds|done]).
  split; [|split; [|by right]].
  - split; try (bits_tac Hs; apply H); try done.
    + apply (bit_set_only rfx_bit e); [auto with rds|done|done].
    + bits_tac Hs. split; [by eexists|done].
    + by intros c [= <-].
    + split; [intros _; left; by eexists|by eexists].
  - split; try done. intros Hse. destruct (Hl Hse) as (E1 & -> & ->). split; [exact (eq_sym E1)|done].
Qed.

Lemma init_nsc_spec s al : init_spec nsc_bit (freerds_encoder_init_nsc s al).
Proof.
  intros e H Hb. unfold freerds_encoder_init_nsc. rewrite (no_context _ _ (ok_nsc _ H) Hb).
  destruct (nsc_ok al); [|split; [done|]; split; [apply kept_refl|by left]]. cbv zeta.
  destruct (init_frames_spec s e (ok_fps _ H) (ok_frames _ H)) as (f & a & i & l & E & Hf & Hfr & Hl).
  rewrite E in *. set (e2 := add_codec _ _).
  assert (bit_set nsc_bit e e2) as Hs by (intros b'; etrans; [apply has_add; auto with rds|done]).
  split; [|split; [|by right]].
  - split; try (bits_tac Hs; apply H); try done.
    + apply (bit_set_only nsc_bit e); [auto with rds|done|done].
    + bits_tac Hs. split; [by eexists|done].
    + apply (ok_size _ H).
    + split; [intros _; right; by eexists|by eexists].
  - split; try done. intros Hse. destruct (Hl Hse) as (E1 & -> & ->). split; [exact (eq_sym E1)|done].
Qed.

Lemma init_planar_spec s al : init_spec planar_bit (freerds_encoder_init_planar s al).
Proof.
  intros e H Hb. unfold freerds_encoder_init_planar. rewrite (no_context _ _ (ok_planar _ H) Hb).
  destruct (planar_ok al); [|split; [done|]; split; [apply kept_refl|by left]]. cbv zeta. set (e2 := add_codec _ _).
  assert (bit_set planar_bit e e2) as Hs by (intros b'; etrans; [apply has_add; auto with rds|done]).
  split; [|split; [by split|by right]].
  split; try (bits_tac Hs; apply H); try apply H.
  - apply (bit_set_only planar_bit e); [auto with rds|done|done].
  - bits_tac Hs. split; [by eexists|done].
Qed.

Lemma init_interleaved_spec al : init_spec interleaved_bit (freerds_encoder_init_interleaved al).
Proof.
  intros e H Hb. unfold freerds_encoder_init_interleaved. rewrite (no_context _ _ (ok_interleaved _ H) Hb).
  destruct (interleaved_ok al); [|split; [done|]; split; [apply kept_refl|by left]]. set (e2 := add_codec _ _).
  assert (bit_set interleaved_bit e e2) as Hs by (intros b'; etrans; [apply has_add; auto with rds|done]).
  split; [|split; [by split|by right]].
  split; try (bits_tac Hs; apply H); try apply H.
  - apply (bit_set_only interleaved_bit e); [auto with rds|done|done].
  - bits_tac Hs. split; [by eexists|done].
Qed.

(** After a step the encoder is sound and, on success, has the bit whenever it
    was asked for. *)
Lemma prepare_codec_spec b cs init e :
  b ∈ bits -> init_spec b init -> base_ok e ->
  let '(ok, e') := prepare_codec (2 ^ b) cs init e in
  base_ok e' /\ kept e e' /\
  (ok = true -> forall b', has e' b' = has e b' || (b =? b') && Z.testbit cs b').
Proof.
  intros Hb Hi H. unfold prepare_codec. rewrite !has_codec_bit by (by apply bit_nonneg). fold (has e b).
  assert (Z.testbit cs b = false \/ has e b = true ->
    base_ok e /\ kept e e /\ (true = true -> forall b', has e b' = has e b' || (b =? b') && Z.testbit cs b')) as Hskip.
  { intros Hc. split; [done|]. split; [apply kept_refl|]. intros _ b'. destruct (Z.eqb_spec b b') as [<-|_].
    - destruct Hc as [-> | ->]; by rewrite ?orb_false_r.
    - by rewrite orb_false_r. }
  destruct (Z.testbit cs b) eqn:Ec; cbn [andb]; [|auto].
  destruct (has e b) eqn:Eh; cbn [negb]; [auto|].
  specialize (Hi e H Eh). destruct (init e) as [st e']. destruct Hi as (H' & Hk & [[-> _]|[-> Hs]]).
  - split; [done|]. split; [done|]. discriminate.
  - split; [done|]. split; [done|]. intros _ b'. rewrite Hs. destruct (Z.eqb_spec b b') as [<-|_]; [by rewrite Ec|done].
Qed.

(** [freerds_encoder_prepare]: whatever contexts can be created, the encoder
    stays sound; with status 1 it has every codec asked for. *)
Lemma prepare_spec s al cs e :
  base_ok e -> let '(st, e') := freerds_encoder_prepare s al cs e in
  base_ok e' /\ kept e e' /\
  (st = -1 \/ st = 1 /\ forall b, b ∈ bits -> has e' b = has e b || Z.testbit cs b).
Proof.
  intros H. unfold freerds_encoder_prepare, FREERDP_CODEC_REMOTEFX, FREERDP_CODEC_NSCODEC, FREERDP_CODEC_PLANAR,
    FREERDP_CODEC_INTERLEAVED.
  pose proof (prepare_codec_spec rfx_bit cs _ e ltac:(auto with rds) (init_rfx_spec s al) H) as H1.
  destruct (prepare_codec _ cs _ e) as [[] e1]; cbn [negb]; destruct H1 as (Hb1 & Hk1 & Hs1); [|by auto].
  pose proof (prepare_codec_spec nsc_bit cs _ e1 ltac:(auto with rds) (init_nsc_spec s al) Hb1) as H2.
  destruct (prepare_codec _ cs _ e1) as [[] e2]; cbn [negb]; destruct H2 as (Hb2 & Hk2 & Hs2);
    pose proof (kept_trans _ _ _ Hk1 Hk2) as Hk12; [|by auto].
  pose proof (prepare_codec_spec planar_bit cs _ e2 ltac:(auto with rds) (init_planar_spec s al) Hb2) as H3.
  destruct (prepare_codec _ cs _ e2) as [[] e3]; cbn [negb]; destruct H3 as (Hb3 & Hk3 & Hs3);
    pose proof (kept_trans _ _ _ Hk12 Hk3) as Hk13; [|by auto].
  pose proof (prepare_codec_spec interleaved_bit cs _ e3 ltac:(auto with rds) (init_interleaved_spec al) Hb3) as H4.
  destruct (prepare_codec _ cs _ e3) as [[] e4]; cbn [negb]; destruct H4 as (Hb4 & Hk4 & Hs4);
    pose proof (kept_trans _ _ _ Hk13 Hk4) as Hk14; [|by auto].
  split; [done|]. split; [done|]. right. split; [done|]. intros b Hb.
  rewrite Hs4, Hs3, Hs2, Hs1 by done. unfold bits in Hb. rewrite !elem_of_cons, elem_of_nil in Hb.
  pose proof bits_ne as (? & ? & ? & ? & ? & ?).
  destruct Hb as [->|[->|[->|[->|[]]]]];
    repeat match goal with |- context [?a =? ?b] => destruct (Z.eqb_spec a b); try congruence end;
    cbn [andb]; by rewrite ?orb_false_r.
Qed.

(** When every context can be created, it does not fail. *)
Lemma prepare_succeeds s cs e :
  fst (freerds_encoder_prepare s (mk_allocs true true true true) cs e) = 1.
Proof.
  assert (forall c init e, (forall e, fst (init e) = 1) -> fst (prepare_codec c cs init e) = true) as Hp.
  { intros c init e0 Hi. unfold prepare_codec. destruct (_ && _); [|done]. specialize (Hi e0).
    destruct (init e0) as [st e']. cbn in *. by subst. }
  unfold freerds_encoder_prepare.
  destruct (prepare_codec _ cs _ e) as [ok1 e1] eqn:E1; apply (f_equal fst) in E1; rewrite Hp in E1;
    [|by intros e0; unfold freerds_encoder_init_rfx; destruct (rfx e0)]. cbn in E1. subst ok1. cbn [negb].
  destruct (prepare_codec _ cs _ e1) as [ok2 e2] eqn:E2; apply (f_equal fst) in E2; rewrite Hp in E2;
    [|by intros e0; unfold freerds_encoder_init_nsc; destruct (nsc e0)]. cbn in E2. subst ok2. cbn [negb].
  destruct (prepare_codec _ cs _ e2) as [ok3 e3] eqn:E3; apply (f_equal fst) in E3; rewrite Hp in E3;
    [|by intros e0; unfold freerds_encoder_init_planar; destruct (planar e0)]. cbn in E3. subst ok3. cbn [negb].
  destruct (prepare_codec _ cs _ e3) as [ok4 e4] eqn:E4; apply (f_equal fst) in E4; rewrite Hp in E4;
    [|by intros e0; unfold freerds_encoder_init_interleaved; destruct (interleaved e0)]. cbn in E4. by subst ok4.
Qed.

(** ** The grid *)

(** The size of the grid is in range. *)
Definition size_ok (w h : Z) : Prop := 0 <= w /\ 0 <= h /\ 16384 * ((w + 63) / 64 * ((h + 63) / 64)) < 2 ^ 31.

Lemma init_spec_ e :
  size_ok (width e) (height e) ->
  exists e', freerds_encoder_init e = Some (1, e') /\ grid_ok e' /\
    width e' = width e /\ height e' = height e /\ codecs e' = codecs e /\ rfx e' = rfx e /\ nsc e' = nsc e /\
    planar e' = planar e /\ interleaved e' = interleaved e /\ fps e' = fps e /\ maxFps e' = maxFps e /\
    frameAck e' = frameAck e /\ frameId e' = frameId e /\ frameList e' = frameList e.
Proof.
  intros (Hw & Hh & Hs). unfold freerds_encoder_init, freerds_encoder_init_grid.
  cbn [set_tile maxTileWidth maxTileHeight width height].
  rewrite !Z.quot_div_nonneg by lia. replace (64 - 1) with 63 by lia. replace (64 * 64 * 4) with 16384 by lia.
  pose proof (Z.div_pos (width e + 63) 64). pose proof (Z.div_pos (height e + 63) 64).
  rewrite decide_True by nia. cbn.
  destruct (bs e) eqn:Eb; (eexists; split; [reflexivity|]); (split; [split; cbn; rewrite ?Eb; try done; by eexists|]);
    by repeat split.
Qed.

Lemma new_spec_ w h : size_ok w h -> exists e, freerds_encoder_new w h = Some e /\ encoder_ok e /\ frameList e = None.
Proof.
  intros Hs. unfold freerds_encoder_new.
  destruct (init_spec_ (mk_encoder w h 0 None 0 0 None 0 0 None None None None None 16 32 0 0 None) Hs)
    as (e & -> & Hg & Hw & Hh & Hc & Hr & Hn & Hp & Hi & Hf & Hm & Ha & Hid & Hl). cbn [mbind option_bind].
  exists e. split; [done|]. cbn in *. destruct Hs as (? & ? & _).
  split; [|done]. split; [|split; [done|split; [intros Hx; congruence|lia]]].
  assert (forall b, has e b = false) as Hb by (intros b; unfold has; rewrite Hc; apply Z.bits_0).
  split; try (rewrite Hb, ?Hr, ?Hn, ?Hp, ?Hi; split; [done|by intros []]).
  - intros b. by rewrite Hb.
  - congruence.
  - rewrite Hl, Hr, Hn. split; [by intros []|by intros [[]|[]]].
  - rewrite Hf, Hm. lia.
  - intros l. congruence.
Qed.

(** ** Reset *)

(** What holds while codecs are removed: a list of frames has a codec. *)
Record half_ok (e : encoder) : Prop := {
  half_rfx : has e rfx_bit = true <-> is_Some (rfx e);
  half_nsc : has e nsc_bit = true <-> is_Some (nsc e);
  half_planar : has e planar_bit = true <-> is_Some (planar e);
  half_interleaved : has e interleaved_bit = true <-> is_Some (interleaved e);
  half_list : is_Some (frameList e) -> is_Some (rfx e) \/ is_Some (nsc e);
}.

(** [e'] is [e] without the codec [b]. *)
Record dropped (b : Z) (e e' : encoder) : Prop := {
  dropped_bits b' : 0 <= b' -> has e' b' = has e b' && negb (b =? b');
  dropped_rest : width e' = width e /\ height e' = height e /\ fps e' = fps e /\ maxFps e' = maxFps e /\
    frameAck e' = frameAck e;
  dropped_half : half_ok e -> half_ok e';
}.

Lemma when_dropped b f e :
  b ∈ bits -> dropped b e (f e) -> dropped b e (when (has_codec (2 ^ b) (codecs e)) f e).
Proof.
  intros Hb Hf. rewrite has_codec_bit by (by apply bit_nonneg). fold (has e b). unfold when.
  destruct (has e b) eqn:E; [done|]. split; [|done|done]. intros b' _.
  destruct (Z.eqb_spec b b') as [<-|_]; by rewrite ?E, ?andb_true_r.
Qed.

(** The contexts of the remaining codecs. *)
Ltac drop_tac Hs :=
  pose proof bits_ne as (? & ? & ? & ? & ? & ?); split; [exact Hs|done|];
  intros [Hr Hn Hp Hi Hl]; split;
  try (rewrite Hs by (apply bit_nonneg; auto with rds);
       match goal with |- context [?a =? ?b] => destruct (Z.eqb_spec a b); try congruence end;
       cbn [negb]; rewrite ?andb_true_r, ?andb_false_r; first [done | split; [done|by intros []]]).

Lemma uninit_rfx_dropped e : dropped rfx_bit e (freerds_encoder_uninit_rfx e).
Proof.
  assert (forall b, 0 <= b -> has (freerds_encoder_uninit_rfx e) b = has e b && negb (rfx_bit =? b)) as Hs
    by (intros b Hb; etrans; [apply has_remove; [auto with rds|done]|done]).
  drop_tac Hs. by intros [].
Qed.

Lemma uninit_nsc_dropped e : dropped nsc_bit e (freerds_encoder_uninit_nsc e).
Proof.
  assert (forall b, 0 <= b -> has (freerds_encoder_uninit_nsc e) b = has e b && negb (nsc_bit =? b)) as Hs
    by (intros b Hb; etrans; [apply has_remove; [auto with rds|done]|done]).
  drop_tac Hs. by intros [].
Qed.

Lemma uninit_planar_dropped e : dropped planar_bit e (freerds_encoder_uninit_planar e).
Proof.
  assert (forall b, 0 <= b -> has (freerds_encoder_uninit_planar e) b = has e b && negb (planar_bit =? b)) as Hs
    by (intros b Hb; etrans; [apply has_remove; [auto with rds|done]|done]).
  drop_tac Hs. done.
Qed.

Lemma uninit_interleaved_dropped e : dropped interleaved_bit e (freerds_encoder_uninit_interleaved e).
Proof.
  assert (forall b, 0 <= b -> has (freerds_encoder_uninit_interleaved e) b = has e b && negb (interleaved_bit =? b)) as Hs
    by (intros b Hb; etrans; [apply has_remove; [auto with rds|done]|done]).
  drop_tac Hs. done.
Qed.

(** Everything is gone but for the size, the rate and [frameAck]. *)
Lemma uninit_spec e :
  base_ok e -> let e' := freerds_encoder_uninit e in
  (forall b, 0 <= b -> has e' b = false) /\ rfx e' = None /\ nsc e' = None /\ planar e' = None /\ interleaved e' = None /\
  frameList e' = None /\ width e' = width e /\ height e' = height e /\ fps e' = fps e /\ maxFps e' = maxFps e /\
  frameAck e' = frameAck e.
Proof.
  intros H. unfold freerds_encoder_uninit. cbv zeta. set (e0 := set_bs None _).
  assert (half_ok e0) as Hh0 by (split; try apply H; apply (proj1 (ok_list _ H))).
  pose proof (when_dropped rfx_bit _ e0 ltac:(auto with rds) (uninit_rfx_dropped e0)) as [B1 R1 Hh1].
  fold FREERDP_CODEC_REMOTEFX in *. set (e1 := when (has_codec FREERDP_CODEC_REMOTEFX _) _ _) in *. clearbody e1.
  pose proof (when_dropped nsc_bit _ e1 ltac:(auto with rds) (uninit_nsc_dropped e1)) as [B2 R2 Hh2].
  fold FREERDP_CODEC_NSCODEC in *. set (e2 := when (has_codec FREERDP_CODEC_NSCODEC _) _ _) in *. clearbody e2.
  pose proof (when_dropped planar_bit _ e2 ltac:(auto with rds) (uninit_planar_dropped e2)) as [B3 R3 Hh3].
  fold FREERDP_CODEC_PLANAR in *. set (e3 := when (has_codec FREERDP_CODEC_PLANAR _) _ _) in *. clearbody e3.
  pose proof (when_dropped interleaved_bit _ e3 ltac:(auto with rds) (uninit_interleaved_dropped e3)) as [B4 R4 Hh4].
  fold FREERDP_CODEC_INTERLEAVED in *. set (e4 := when (has_codec FREERDP_CODEC_INTERLEAVED _) _ _) in *. clearbody e4.
  assert (forall b, 0 <= b -> has e4 b = false) as Hb.
  { intros b Hb. rewrite B4, B3, B2, B1 by done. change (has e0 b) with (has e b).
    destruct (has e b) eqn:E; [|done]. pose proof (ok_only _ H _ E) as Hin. unfold bits in Hin.
    rewrite !elem_of_cons, elem_of_nil in Hin.
    destruct Hin as [->|[->|[->|[->|[]]]]]; rewrite Z.eqb_refl; cbn; by rewrite ?andb_false_r. }
  destruct (Hh4 (Hh3 (Hh2 (Hh1 Hh0)))) as [Hr Hn Hp Hi Hl].
  apply no_context in Hr, Hn, Hp, Hi; [|apply Hb, bit_nonneg; auto with rds..].
  assert (frameList e4 = None) as El.
  { destruct (frameList e4) as [l|]; [|done]. destruct Hl as [[? ?]|[? ?]]; [by eexists|congruence..]. }
  destruct R1 as (?&?&?&?&?), R2 as (?&?&?&?&?), R3 as (?&?&?&?&?), R4 as (?&?&?&?&?).
  unfold e0 in *. cbn [set_bs freerds_encoder_uninit_grid set_grid width height fps maxFps frameAck] in *.
  split; [done|]. repeat split; congruence.
Qed.

(** Reset keeps the encoder sound, and keeps its codecs when it succeeds. *)
Lemma reset_spec s al e :
  encoder_ok e -> size_ok (width e) (height e) ->
  exists st e', freerds_encoder_reset s al e = Some (st, e') /\ base_ok e' /\ grid_ok e' /\
    width e' = width e /\ height e' = height e /\
    (st = -1 \/ st = 1 /\ encoder_ok e' /\ forall b, b ∈ bits -> has e' b = has e b).
Proof.
  intros (H & Hg & Ha & Hw & Hh) Hs. unfold freerds_encoder_reset.
  destruct (uninit_spec e H) as (Ub & Ur & Un & Up & Ui & Ul & Uw & Uh & Uf & Um & Ua).
  set (u := freerds_encoder_uninit e) in *. clearbody u.
  destruct (init_spec_ u) as (i & -> & Gi & Iw & Ih & Ic & Ir & In_ & Ip & Ii & If & Im & Ia & Iid & Il).
  { by rewrite Uw, Uh. }
  cbn [mbind option_bind]. destruct (Z.ltb_spec 1 0); [lia|].
  assert (forall b, has i b = has u b) as Hb by (intros b; unfold has; by rewrite Ic).
  assert (base_ok i) as Hi.
  { split; try (rewrite Hb, Ub by (apply bit_nonneg; auto with rds); split; [done|intros [? ?]; congruence]).
    - intros b E. destruct (Z.leb_spec 0 b); [rewrite Hb, Ub in E; done|].
      unfold has in E. by rewrite Z.testbit_neg_r in E.
    - intros c. congruence.
    - split; [intros [? ?]; congruence|intros [[? ?]|[? ?]]; congruence].
    - destruct (ok_fps _ H). split; [congruence|]. rewrite If, Uf, Im, Um. done.
    - intros l. congruence. }
  pose proof (prepare_spec s al (codecs e) i Hi) as Hp.
  destruct (freerds_encoder_prepare s al (codecs e) i) as [st e']. destruct Hp as (Hb' & Hk & Hst).
  pose proof (kept_size _ _ Hk) as [Kw Kh].
  do 2 eexists. split; [reflexivity|]. split; [done|]. split; [by apply (kept_grid_ok i)|].
  split; [congruence|]. split; [congruence|]. destruct Hst as [->|[-> Hset]]; [by left|right]. split; [done|].
  assert (forall b, b ∈ bits -> has e' b = has e b) as Hsame.
  { intros b Hbb. rewrite Hset, Hb, Ub by (done || by apply bit_nonneg). done. }
  split; [|done]. split; [done|]. split; [by apply (kept_grid_ok i)|]. split; [|rewrite Kw, Kh, Iw, Ih, Uw, Uh; done].
  intros Hne. destruct (frameList e') as [l|] eqn:El; [by eexists|exfalso].
  assert (is_Some (frameList e)) as Hl by (apply Ha; rewrite <-Ua, <-Ia, <-(kept_ack _ _ Hk El); done).
  apply (ok_list _ H) in Hl. rewrite <-(ok_rfx _ H), <-(ok_nsc _ H), <-!Hsame, (ok_rfx _ Hb'), (ok_nsc _ Hb') in Hl
    by auto with rds. apply (ok_list _ Hb') in Hl. rewrite El in Hl. by destruct Hl.
Qed.

(** ** Frames *)

Lemma next_fps_range n e : 0 <= n -> maxFps e = 32 -> 1 <= fps e -> 1 <= next_fps n e <= 32.
Proof.
  intros Hn Hm Hf. unfold next_fps. rewrite Hm.
  pose proof (Z.quot_le_upper_bound 100 (n + 1) 100). pose proof (Z.quot_pos 100 (n + 1)).
  pose proof (Z.quot_le_upper_bound (Z.quot 100 (n + 1) * 32) 100 32).
  repeat match goal with |- context [?a <? ?b] => destruct (Z.ltb_spec a b) end; lia.
Qed.

Lemma next_fps_many n e : 100 <= n -> frameAck e < n -> next_fps n e = 1.
Proof.
  intros Hn Ha. unfold next_fps. destruct (Z.ltb_spec (frameAck e) n); [|lia].
  rewrite (Z.quot_small 100 (n + 1)) by lia. done.
Qed.

(** A new frame gets the next number and joins the list. *)
Lemma create_frame_spec e l :
  encoder_ok e -> frameList e = Some l ->
  exists e' l', freerds_encoder_create_frame_id e = Some (i32 (frameId e'), e') /\ encoder_ok e' /\
    frameList e' = Some l' /\ length (dict_items l') = S (length (dict_items l)) /\
    frameId e' = u32 (Z.of_nat (S (length (dict_items l)))) /\ frameAck e' = frameAck e /\
    fps e' = next_fps (Z.of_nat (length (dict_items l))) e.
Proof.
  intros (H & Hg & Ha & Hw & Hh) El. unfold freerds_encoder_create_frame_id. rewrite El. cbn [mbind option_bind].
  destruct (ok_frames _ H l El) as [Hk Hid].
  assert (u32 (frameId e + 1) = u32 (Z.of_nat (S (length (dict_items l))))) as Eid.
  { rewrite Hid. unfold u32. rewrite Zplus_mod_idemp_l. f_equal. lia. }
  rewrite dict_count_items, Eid. set (e' := set_frames_ _ _ _ _ _ e). exists e'. eexists. split; [reflexivity|].
  split; [|cbn; rewrite dict_add_items, length_app; cbn; repeat split; lia].
  split; [|split; [destruct Hg; by split|split; [|done]]].
  - destruct H as [Ho Hr Hn Hp Hi Hs Hl Hf Hfr]. split; try done; cbn.
    + rewrite <-Hl, El. split; intros _; by eexists.
    + destruct Hf as [Hm Hf]. split; [done|]. rewrite Hm. apply next_fps_range; lia.
    + intros l' [= <-]. rewrite dict_add_items, length_app, map_app, Hk. cbn. rewrite Nat.add_1_r, seq_S, map_app. done.
  - intros _. cbn. by eexists.
Qed.

(** ** Runs *)

(** A connection with a desktop of [w] times [h] pixels: its codecs are
    prepared, frames are numbered and acknowledged, the encoder is reset. *)
Inductive connection_run (w h : Z) : rdsConnection -> Prop :=
| run_connect s e l : freerds_encoder_new w h = Some e -> connection_run w h (mk_connection s e l)
| run_prepare c al cs : connection_run w h c ->
    connection_run w h (set_encoder (snd (freerds_encoder_prepare (settings c) al cs (Encoder.encoder c))) c)
| run_frame c codec al id c' : connection_run w h c -> surface_frame codec al c = Some (id, c') -> connection_run w h c'
| run_acknowledge c id : connection_run w h c -> connection_run w h (freerds_update_frame_acknowledge id c)
| run_reset c al e : connection_run w h c ->
    freerds_encoder_reset (settings c) al (Encoder.encoder c) = Some (1, e) -> connection_run w h (set_encoder e c).

Lemma prepare_ok s al cs e :
  encoder_ok e -> let e' := snd (freerds_encoder_prepare s al cs e) in
  encoder_ok e' /\ kept e e'.
Proof.
  intros (H & Hg & Ha & Hw & Hh). pose proof (prepare_spec s al cs e H) as Hp.
  destruct (freerds_encoder_prepare s al cs e) as [st e']. destruct Hp as (Hb & Hk & _). cbn. split; [|done].
  split; [done|]. split; [by apply (kept_grid_ok e)|].
  split; [by apply (kept_ack_ok e)|]. destruct (kept_size _ _ Hk) as [-> ->]. done.
Qed.

Lemma surface_frame_spec codec al c :
  encoder_ok (Encoder.encoder c) ->
  exists id c', surface_frame codec al c = Some (id, c') /\ encoder_ok (Encoder.encoder c') /\
    width (Encoder.encoder c') = width (Encoder.encoder c) /\ height (Encoder.encoder c') = height (Encoder.encoder c) /\
    match frameList (Encoder.encoder c) with
    | Some l => frameAck (Encoder.encoder c) <> 0 -> exists l', frameList (Encoder.encoder c') = Some l' /\
        length (dict_items l') = S (length (dict_items l)) /\ id = u32 (Z.of_nat (S (length (dict_items l)))) /\
        fps (Encoder.encoder c') = next_fps (Z.of_nat (length (dict_items l))) (Encoder.encoder c)
    | None => id = 0
    end.
Proof.
  intros H. unfold surface_frame. destruct (Z.eqb_spec (frameAck (Encoder.encoder c)) 0) as [E0|E0]; cbn [negb].
  - cbn [mbind option_bind]. destruct (prepare_ok (settings c) al codec (Encoder.encoder c) H) as [Hok Hk].
    destruct (kept_size _ _ Hk). do 2 eexists. split; [reflexivity|]. do 3 (split; [done|]).
    destruct (frameList (Encoder.encoder c)); done.
  - destruct H as (H & Hg & Ha & Hs). destruct (Ha E0) as [l El]. rewrite El.
    destruct (create_frame_spec (Encoder.encoder c) l (conj H (conj Hg (conj Ha Hs))) El)
      as (e & l' & E & Hok & El' & Hlen & Hid & Hack & Hfps).
    rewrite E. cbn [mbind option_bind]. destruct (prepare_ok (settings c) al codec e Hok) as [Hok' Hk].
    destruct (kept_size _ _ Hk) as [Kw Kh]. destruct (kept_list _ _ Hk) as (Kl & _ & Kf); [by rewrite El'; eexists|].
    do 2 eexists. split; [reflexivity|]. split; [done|].
    unfold freerds_encoder_create_frame_id in E. rewrite El in E. injection E as _ Ee.
    split; [cbn; rewrite Kw, <-Ee; done|]. split; [cbn; rewrite Kh, <-Ee; done|]. intros _. exists l'.
    cbn [set_encoder Encoder.encoder]. rewrite Kl, Kf.
    split; [done|]. split; [done|]. split; [|done]. rewrite Hid. unfold u32, i32. rewrite Zminus_mod, Z.mod_mod by lia.
    rewrite <-Zminus_mod, Z.add_simpl_r, Z.mod_mod by lia. done.
Qed.

Lemma connection_run_ok w h c :
  size_ok w h -> connection_run w h c ->
  encoder_ok (Encoder.encoder c) /\ width (Encoder.encoder c) = w /\ height (Encoder.encoder c) = h.
Proof.
  intros Hs. induction 1 as [s e l E|c al cs _ IH|c codec al id c' _ IH E|c id _ IH|c al e _ IH E].
  - destruct (new_spec_ w h Hs) as (e' & E' & Hok & _). rewrite E in E'. injection E' as <-. split; [done|].
    unfold freerds_encoder_new in E.
    destruct (init_spec_ (mk_encoder w h 0 None 0 0 None 0 0 None None None None None 16 32 0 0 None) Hs)
      as (e' & E1 & _ & Hw & Hh & _). rewrite E1 in E. injection E as <-. done.
  - destruct IH as (IH & Ew & Eh). destruct (prepare_ok (settings c) al cs (Encoder.encoder c) IH) as [Hok Hk].
    destruct (kept_size _ _ Hk) as [Kw Kh]. split; [done|]. cbn. by rewrite Kw, Kh.
  - destruct IH as (IH & Ew & Eh). destruct (surface_frame_spec codec al c IH) as (id' & c2 & E' & Hok & Kw & Kh & _).
    rewrite E in E'. injection E' as <- <-. by rewrite Kw, Kh.
  - unfold freerds_update_frame_acknowledge. by destruct (ListDictionary_GetItemValue id (FrameList c)).
  - destruct IH as (IH & Ew & Eh). destruct (reset_spec (settings c) al (Encoder.encoder c) IH)
      as (st & e' & E' & _ & _ & Kw & Kh & Hst); [by rewrite Ew, Eh|].
    rewrite E in E'. injection E' as <- <-. destruct Hst as [?|(_ & Hok & _)]; [done|]. split; [done|]. cbn. by rewrite Kw, Kh.
Qed.
End Facts.
