(* ===== verification/Bitmap.v ===== *)
(** * Bitmap updates and surface bits

    freerds/core/core.c: how a paint message becomes updates of the RDP client.
    [freerds_send_bitmap_update] aligns the rectangle, cuts it into tiles of at
    most 64 by 64 pixels, compresses each tile into a buffer of the encoder's
    grid and sends the tiles in updates that fit the size the client accepts.
    [freerds_send_surface_bits] encodes the rectangle as a whole and marks the
    frame.

    FreeRDP's codecs are parameters ([Compression]): what they produce for a
    tile or a rectangle.  The coordinates are [int]s, which do not overflow for
    rectangles and desktops of up to 2^16 pixels; the fields of [BITMAP_DATA]
    are [UINT32]s.  Reading pixels outside of the framebuffer, using a tile
    buffer outside of the grid and calling a codec without its context are
    undefined ([None]). *)

From S2P Require Import Prelude WStream Message VarMsg Pipe RpcContext Encoder.
Import PaintRect.

Record RDS_FRAMEBUFFER := mk_framebuffer {
  fbWidth : Z;
  fbHeight : Z;
  fbScanline : Z;
  (** the size of the block of shared memory *)
  fbSharedMemory : Z;
}.

Record BITMAP_DATA := mk_bitmap {
  destLeft : Z;
  destTop : Z;
  destRight : Z;
  destBottom : Z;
  bitmap_width : Z;
  bitmap_height : Z;
  bitsPerPixel : Z;
  cbScanWidth : Z;
  cbUncompressedSize : Z;
  (** the offset of the buffer in the grid, and the bytes stored there *)
  bitmapBuffer : Z;
  bitmapDataStream : list Z;
}.

Definition bitmapLength (b : BITMAP_DATA) : Z := Z.of_nat (length (bitmapDataStream b)).

Class Compression := {
  (** left, top, width, height, bits per pixel *)
  interleaved_compress : Z -> Z -> Z -> Z -> Z -> list Z;
  freerdp_bitmap_compress_planar : BITMAP_PLANAR_CONTEXT -> Z -> Z -> Z -> Z -> list Z;
  (** the messages for a rectangle, as they are written to the stream *)
  rfx_encode_messages : RFX_CONTEXT -> Z -> Z -> Z -> Z -> Z -> list (list Z);
  nsc_compose_message : NSC_CONTEXT -> Z -> Z -> Z -> Z -> list Z;
}.

(** ** The rectangle *)

(** [if ((src % 4) != 0) { size += (src % 4); src -= (src % 4); }] *)
Definition align_origin (src size : Z) : Z * Z :=
  if negb (Z.rem src 4 =? 0) then (src - Z.rem src 4, size + Z.rem src 4) else (src, size).

(** [if ((size % 4) != 0) { src -= (size % 4); size += (size % 4); }] *)
Definition align_size (src size : Z) : Z * Z :=
  if negb (Z.rem size 4 =? 0) then (src - Z.rem size 4, size + Z.rem size 4) else (src, size).

(** The clipping to a framebuffer of [limit] pixels. *)
Definition clip_axis (limit src size : Z) : Z * Z :=
  let '(src, size) := if src <? 0 then (0, size + src) else (src, size) in
  let extra := (src + size) - limit in
  (src, if 0 <? extra then size - extra else size).

(** [rows] and [cols]. *)
Definition tile_count (size : Z) : Z := Z.quot size 64 + (if negb (Z.rem size 64 =? 0) then 1 else 0).

(** An axis: the origin and the size after alignment and clipping, and the
    number of tiles, which is computed in between. *)
Definition axis (limit src size : Z) : Z * Z * Z :=
  let '(src, size) := align_origin src size in
  let n := tile_count size in
  let '(src, size) := align_size src size in
  let '(src, size) := clip_axis limit src size in
  (src, size, n).

(** ** The tiles *)

(** [destLeft] and [width] (or [destTop] and [height]) of tile [idx]. *)
Definition tile_axis (src size idx : Z) : Z * Z :=
  let dest := u32 (src + idx * 64) in
  let extent := 64 in
  (dest, if u32 (src + size) <? u32 (dest + extent) then u32 ((src + size) - dest) else extent).

Definition indices (n : Z) : list Z := map Z.of_nat (seq 0 (Z.to_nat n)).

(** The pixels of the tile are in the framebuffer. *)
Definition readable (fb : RDS_FRAMEBUFFER) (left top w h : Z) : bool :=
  (0 <=? top * fbScanline fb + left * 4) &&
  ((top + h - 1) * fbScanline fb + (left + w) * 4 <=? fbSharedMemory fb).

Section Bitmap.
Context {W : WStream} {D : Dictionary} {B : CodecBits} {C : Compression}.

(** The codec for the color depth: the bits per pixel and the bytes. *)
Definition compress_tile (settings : rdpSettings) (e : rdsEncoder) (left top w h : Z) : option (Z * list Z) :=
  if ColorDepth settings <? 32 then
    _ ← interleaved e;
    Some (ColorDepth settings, interleaved_compress left top w h (ColorDepth settings))
  else
    c ← planar e;
    Some (32, freerdp_bitmap_compress_planar c left top w h).

(** The body of the two loops for the tile at [xIdx], [yIdx]: [acc] are the
    bitmaps so far, [k] of them. *)
Definition add_tile (settings : rdpSettings) (e : rdsEncoder) (fb : RDS_FRAMEBUFFER)
    (nXSrc nYSrc nWidth nHeight xIdx yIdx : Z) (acc : list BITMAP_DATA) : option (list BITMAP_DATA) :=
  let '(dleft, w) := tile_axis nXSrc nWidth xIdx in
  let '(dtop, h) := tile_axis nYSrc nHeight yIdx in
  if (w <? 4) || (h <? 4) then Some acc else
  if readable fb dleft dtop w h then
    g ← grid e;
    buffer ← g !! length acc;
    '(bpp, data) ← compress_tile settings e dleft dtop w h;
    let bytesPerPixel := Z.quot (bpp + 7) 8 in
    Some (acc ++ [mk_bitmap dleft dtop (u32 (dleft + w - 1)) (u32 (dtop + h - 1)) w h bpp
                    (u32 (w * bytesPerPixel)) (u32 (w * h * bytesPerPixel)) buffer data])
  else None.

(** The two loops over the indices [yx] of the tiles, row by row. *)
Fixpoint add_tiles (settings : rdpSettings) (e : rdsEncoder) (fb : RDS_FRAMEBUFFER)
    (nXSrc nYSrc nWidth nHeight : Z) (yx : list (Z * Z)) (acc : list BITMAP_DATA) : option (list BITMAP_DATA) :=
  match yx with
  | [] => Some acc
  | (y, x) :: yx =>
      acc ← add_tile settings e fb nXSrc nYSrc nWidth nHeight x y acc;
      add_tiles settings e fb nXSrc nYSrc nWidth nHeight yx acc
  end.

(** ** The updates *)

(** [while (i < k)]: [todo] are [bitmapData[i..k)], [frag] the first [j]
    entries of [fragBitmapData], [out] the updates sent. *)
Fixpoint fragment_loop (fuel : nat) (maxUpdateSize : Z) (todo frag : list BITMAP_DATA) (updateSize : Z)
    (out : list (list BITMAP_DATA)) : option (list (list BITMAP_DATA)) :=
  match todo with
  | [] => Some out
  | b :: rest =>
      match fuel with
      | O => None
      | S fuel =>
          let newUpdateSize := u32 (updateSize + (bitmapLength b + 16)) in
          let more := negb (bool_decide (rest = [])) in  (* (i + 1) < k *)
          if (newUpdateSize <? maxUpdateSize) && more
          then fragment_loop fuel maxUpdateSize rest (frag ++ [b]) newUpdateSize out
          else if negb more then fragment_loop fuel maxUpdateSize rest [] 1024 (out ++ [frag ++ [b]])
          else fragment_loop fuel maxUpdateSize todo [] 1024 (out ++ [frag])
      end
  end.

Definition total_size (bitmaps : list BITMAP_DATA) : Z :=
  fold_left (fun n b => u32 (n + bitmapLength b)) bitmaps 0.

Definition updateSizeEstimate (bitmaps : list BITMAP_DATA) : Z :=
  let k := Z.of_nat (length bitmaps) in u32 (total_size bitmaps + k * k + 16).

(** The calls of [update->BitmapUpdate]. *)
Definition send_updates (fuel : nat) (settings : rdpSettings) (bitmaps : list BITMAP_DATA) :
    option (list (list BITMAP_DATA)) :=
  if MultifragMaxRequestSize settings <? updateSizeEstimate bitmaps
  then fragment_loop fuel (MultifragMaxRequestSize settings) bitmaps [] 1024 []
  else Some [bitmaps].

Definition freerds_send_bitmap_update (fuel : nat) (al : allocs) (settings : rdpSettings) (e : rdsEncoder)
    (fb : RDS_FRAMEBUFFER) (msg : RDS_MSG_PAINT_RECT) : option (Z * rdsEncoder * list (list BITMAP_DATA)) :=
  let codec := if ColorDepth settings <? 32 then FREERDP_CODEC_INTERLEAVED else FREERDP_CODEC_PLANAR in
  let e := snd (freerds_encoder_prepare settings al codec e) in
  let '(nXSrc, nWidth, cols) := axis (fbWidth fb) (nLeftRect msg) (PaintRect.nWidth msg) in
  let '(nYSrc, nHeight, rows) := axis (fbHeight fb) (nTopRect msg) (PaintRect.nHeight msg) in
  if (nWidth <=? 0) || (nHeight <=? 0) then Some (1, e, []) else
  bitmaps ← add_tiles settings e fb nXSrc nYSrc nWidth nHeight (list_prod (indices rows) (indices cols)) [];
  updates ← send_updates fuel settings bitmaps;
  Some (1, e, updates).

(** ** Surface bits *)

Record SURFACE_BITS_COMMAND := mk_command {
  cmd_left : Z; cmd_top : Z; cmd_right : Z; cmd_bottom : Z;
  cmd_width : Z; cmd_height : Z;
  bitmapData_ : list Z;
}.

Inductive surface_call :=
| SurfaceBits (cmd : SURFACE_BITS_COMMAND)
| SurfaceFrameBits (cmd : SURFACE_BITS_COMMAND) (first last : bool) (frameId_ : Z).

Definition surface_update (frameAck_ : Z) (first last : bool) (id : Z) (cmd : SURFACE_BITS_COMMAND) : surface_call :=
  if frameAck_ =? 0 then SurfaceBits cmd else SurfaceFrameBits cmd first last id.

(** The loop over the messages of the RemoteFX encoder; [n] have been sent. *)
Fixpoint rfx_updates (frameAck_ id : Z) (fb : RDS_FRAMEBUFFER) (messages : list (list Z)) (n : nat) : list surface_call :=
  match messages with
  | [] => []
  | m :: messages =>
      let cmd := mk_command 0 0 (fbWidth fb) (fbHeight fb) (fbWidth fb) (fbHeight fb) m in
      surface_update frameAck_ (bool_decide (n = 0%nat)) (bool_decide (messages = [])) id cmd ::
      rfx_updates frameAck_ id fb messages (S n)
  end.

(** [RemoteFxCodec] and [NSCodec] are the settings of these names. *)
Definition freerds_send_surface_bits (RemoteFxCodec NSCodec : bool) (al : allocs) (fb : RDS_FRAMEBUFFER)
    (msg : RDS_MSG_PAINT_RECT) (c : rdsConnection) : option (Z * rdsConnection * list surface_call) :=
  let '(x, y, w, h) := (nLeftRect msg, nTopRect msg, PaintRect.nWidth msg, PaintRect.nHeight msg) in
  if RemoteFxCodec then
    '(id, c) ← surface_frame FREERDP_CODEC_REMOTEFX al c;
    ctx ← rfx (encoder c);
    let messages := rfx_encode_messages ctx x y w h (MultifragMaxRequestSize (settings c)) in
    Some (1, c, rfx_updates (frameAck (encoder c)) id fb messages 0)
  else if NSCodec then
    '(id, c) ← surface_frame FREERDP_CODEC_NSCODEC al c;
    ctx ← nsc (encoder c);
    if readable fb x y w h then
      let cmd := mk_command x y (x + w) (y + h) w h (nsc_compose_message ctx x y w h) in
      Some (1, c, [surface_update (frameAck (encoder c)) true true id cmd])
    else None
  else
    (* only the frame is numbered *)
    '(_, c) ← surface_frame 0 al c;
    Some (1, c, []).
End Bitmap.
