(* ===== verification/BitmapFacts.v ===== *)
(** * Bitmap updates: tiles and fragments

    The tiles of an axis ([axis_tiles]) and of a rectangle ([add_tiles_spec]),
    and the loop that distributes the tiles over updates. *)

From S2P Require Import Prelude WStream Message VarMsg Pipe RpcContext Encoder EncoderFacts Bitmap.
From stdpp Require Import list.
#[local] Open Scope Z_scope.

(** ** An axis *)

(** The origin and the size after the first alignment. *)
Definition origin1 (src : Z) : Z := src - src mod 4.
Definition size1 (src size : Z) : Z := size + src mod 4.

(** The origin of the first tile. *)
Definition first_tile (src size : Z) : Z :=
  if origin1 src =? 0 then 0 else origin1 src - size1 src size mod 4.

Definition tiles_of (src size : Z) : Z := (size1 src size + 63) / 64.

(** The extent of tile [i] of an axis that ends before [stop]. *)
Definition extent (x stop i : Z) : Z := Z.min 64 (stop - (x + 64 * i)).

(** All pixels of the axis are in a tile that is sent: neither is the last
    tile too small to be sent nor does the alignment of the size push the end
    out of the last tile. *)
Definition axis_ok (src size : Z) : bool :=
  let r := size1 src size mod 64 in
  negb (r =? 1) && negb ((r =? 63) && negb (origin1 src =? 0)) &&
  negb ((origin1 src =? 0) && ((r =? 2) || (r =? 3))).

Section Axis.
Context (limit src size : Z) (Hsrc : 0 <= src) (Hsize : 0 < size) (Hfit : src + size <= limit) (Hlimit : limit < 2 ^ 31).
Let stop := src + size.
Let x := first_tile src size.
Let n := tiles_of src size.

Lemma first_tile_bounds : 0 <= x <= origin1 src /\ origin1 src <= src.
Proof.
  clear Hfit Hlimit. unfold x, first_tile, origin1, size1.
  destruct (Z.eqb_spec (src - src mod 4) 0); Z.to_euclidean_division_equations; lia.
Qed.

Lemma axis_spec : axis limit src size = (x, stop - x, n).
Proof.
  pose proof first_tile_bounds as Hx. unfold axis, align_origin, align_size, clip_axis, tile_count.
  rewrite !(Z.rem_mod_nonneg src 4) by lia.
  assert ((if negb (src mod 4 =? 0) then (src - src mod 4, size + src mod 4) else (src, size)) =
    (origin1 src, size1 src size)) as ->.
  { unfold origin1, size1. destruct (Z.eqb_spec (src mod 4) 0) as [->|]; cbn; [f_equal; lia|done]. }
  assert (0 < size1 src size) by (unfold size1; pose proof (Z.mod_pos_bound src 4); lia).
  rewrite !(Z.rem_mod_nonneg (size1 src size)) by lia. rewrite Z.quot_div_nonneg by lia.
  assert (origin1 src + size1 src size = stop) as Hst by (unfold origin1, size1, stop; lia).
  assert (n = size1 src size / 64 + (if negb (size1 src size mod 64 =? 0) then 1 else 0)) as <-.
  { unfold n, tiles_of. destruct (Z.eqb_spec (size1 src size mod 64) 0); cbn; Z.to_euclidean_division_equations; lia. }
  assert (0 <= size1 src size mod 4 < 4) by (apply Z.mod_pos_bound; lia).
  assert (origin1 src = 0 \/ 4 <= origin1 src) by (unfold origin1; Z.to_euclidean_division_equations; lia).
  unfold x, first_tile in *.
  destruct (Z.eqb_spec (size1 src size mod 4) 0) as [E|E]; cbn [negb].
  - destruct (Z.ltb_spec (origin1 src) 0); [lia|]. destruct (Z.ltb_spec 0 (origin1 src + size1 src size - limit)); [lia|].
    destruct (Z.eqb_spec (origin1 src) 0); repeat f_equal; lia.
  - destruct (Z.ltb_spec (origin1 src - size1 src size mod 4) 0).
    + destruct (Z.eqb_spec (origin1 src) 0); [|lia].
      destruct (Z.ltb_spec 0 (0 + (size1 src size + size1 src size mod 4 + (origin1 src - size1 src size mod 4)) - limit)); [lia|].
      repeat f_equal; lia.
    + destruct (Z.eqb_spec (origin1 src) 0); [lia|].
      destruct (Z.ltb_spec 0 (origin1 src - size1 src size mod 4 + (size1 src size + size1 src size mod 4) - limit)); [lia|].
      repeat f_equal; lia.
Qed.

(** The tiles start before the end. *)
Lemma tile_start i : 0 <= i < n -> x + 64 * i < stop.
Proof.
  intros Hi. pose proof first_tile_bounds.
  assert (origin1 src + size1 src size = stop) as Hst by (unfold origin1, size1, stop; lia).
  unfold n, tiles_of in Hi. Z.to_euclidean_division_equations. lia.
Qed.

Lemma tile_axis_spec i : 0 <= i < n -> tile_axis x (stop - x) i = (x + 64 * i, extent x stop i).
Proof.
  intros Hi. pose proof (tile_start i Hi). pose proof first_tile_bounds.
  assert (stop <= limit) by (unfold stop; lia). unfold tile_axis, extent.
  replace (x + i * 64) with (x + 64 * i) by lia. replace (x + (stop - x)) with stop by lia.
  rewrite !u32_id by (unfold is_u32; lia).
  destruct (Z.ltb_spec stop (x + 64 * i + 64)); f_equal; lia.
Qed.

Lemma tiles_within limit' : stop <= limit' -> 0 < n <= (limit' + 63) / 64.
Proof.
  intros Hl. pose proof first_tile_bounds.
  assert (origin1 src + size1 src size = stop) as Hst by (unfold origin1, size1, stop; lia).
  unfold n, tiles_of. unfold stop, size1 in *. pose proof (Z.mod_pos_bound src 4).
  split; [apply Z.div_str_pos; lia|apply Z.div_le_mono; lia].
Qed.

(** Whether the tiles cover the axis. *)
Lemma axis_covered :
  (forall p, src <= p < stop -> exists i, 0 <= i < n /\ 4 <= extent x stop i /\ x + 64 * i <= p < x + 64 * i + extent x stop i)
  <-> axis_ok src size = true.
Proof.
  pose proof first_tile_bounds as Hx.
  assert (origin1 src + size1 src size = stop) as Hst by (unfold origin1, size1, stop; lia).
  assert (src < stop) as Hlt by (unfold stop; lia).
  assert (axis_ok src size = true <-> 4 <= stop - (x + 64 * (n - 1)) <= 64) as ->.
  { unfold axis_ok. rewrite !andb_true_iff, !negb_true_iff, !andb_false_iff, !orb_false_iff, !negb_false_iff, !Z.eqb_neq, !Z.eqb_eq.
    rewrite <-Hst. unfold n, tiles_of, x, first_tile. 
    assert (0 < size1 src size) by (unfold size1; pose proof (Z.mod_pos_bound src 4); lia).
    set (w := size1 src size) in *. set (o := origin1 src) in *. clearbody w o.
    destruct (Z.eqb_spec o 0); Z.to_euclidean_division_equations; lia. }
  pose proof (tiles_within stop ltac:(lia)) as Hn. split.
  - intros Hc. destruct (Hc (stop - 1)) as (i & Hi & He & Hp); [lia|]. unfold extent in *.
    assert (i = n - 1) as ->; [|lia].
    destruct (Z.eq_dec i (n - 1)) as [|Hne]; [done|exfalso]. pose proof (tile_start (n - 1) ltac:(lia)). lia.
  - intros Hl p Hp. assert (0 <= p - x) by lia. exists ((p - x) / 64).
    pose proof (Z.div_mod (p - x) 64) as Hd. pose proof (Z.mod_pos_bound (p - x) 64) as Hm.
    assert ((p - x) / 64 <= n - 1) as Hle by nia. assert (0 <= (p - x) / 64) by (apply Z.div_pos; lia).
    unfold extent. split; [lia|]. split; [nia|nia].
Qed.
End Axis.

(** ** The tiles of a rectangle *)

(** A pixel of a bitmap. *)
Definition inside (b : BITMAP_DATA) (px py : Z) : Prop :=
  destLeft b <= px <= destRight b /\ destTop b <= py <= destBottom b.

Definition geometry (b : BITMAP_DATA) : Z * Z * Z * Z := (destLeft b, destTop b, bitmap_width b, bitmap_height b).

Lemma indices_spec n i : i ∈ indices n <-> 0 <= i < n.
Proof.
  unfold indices. rewrite list_elem_of_fmap. split.
  - intros (k & -> & Hk%elem_of_seq). lia.
  - intros Hi. exists (Z.to_nat i). split; [lia|]. apply elem_of_seq. lia.
Qed.

Lemma indices_nodup n : NoDup (indices n).
Proof. unfold indices. apply NoDup_fmap_2; [apply _|apply NoDup_seq]. Qed.

Lemma length_indices n : length (indices n) = Z.to_nat n.
Proof. unfold indices. by rewrite length_map, length_seq. Qed.

Section Tiles.
Context {W : WStream} {D : Dictionary} {DL : DictionaryLaws D} {B : CodecBits} {BL : CodecBitsLaws B} {C : Compression}.
Context (settings : rdpSettings) (e : rdsEncoder) (fb : RDS_FRAMEBUFFER).
Context (nx ny wx wy : Z) (Hx0 : 0 <= nx) (Hy0 : 0 <= ny) (Hwx : 0 < wx) (Hwy : 0 < wy).
Context (Hfx : nx + wx <= fbWidth fb) (Hfy : ny + wy <= fbHeight fb).
Context (Hw31 : fbWidth fb < 2 ^ 31) (Hh31 : fbHeight fb < 2 ^ 31).
Context (Hscan : fbWidth fb * 4 <= fbScanline fb) (Hmem : fbScanline fb * fbHeight fb <= fbSharedMemory fb).
Context (Hgrid : grid_ok e) (Hfw : fbWidth fb <= width e) (Hfh : fbHeight fb <= height e).
Context (Hcodec : if ColorDepth settings <? 32 then is_Some (interleaved e) else is_Some (planar e)).

Let x := first_tile nx wx.
Let y := first_tile ny wy.
Let sx := nx + wx.
Let sy := ny + wy.

Definition tile_rect (yx : Z * Z) : Z * Z * Z * Z :=
  (x + 64 * snd yx, y + 64 * fst yx, extent x sx (snd yx), extent y sy (fst yx)).

Definition drawn (yx : Z * Z) : bool := (4 <=? extent x sx (snd yx)) && (4 <=? extent y sy (fst yx)).

Definition valid (yx : Z * Z) : Prop := 0 <= fst yx < tiles_of ny wy /\ 0 <= snd yx < tiles_of nx wx.

(** A bitmap with its tile and the number of its buffer. *)
Definition tile_bitmap (b : BITMAP_DATA) (yx : Z * Z) (k : nat) : Prop :=
  geometry b = tile_rect yx /\ bitmapBuffer b = Z.of_nat k * 16384 /\
  destRight b = destLeft b + bitmap_width b - 1 /\ destBottom b = destTop b + bitmap_height b - 1.

Lemma grid_buffer k : (Z.of_nat k < gridWidth e * gridHeight e) ->
  exists g, grid e = Some g /\ g !! k = Some (Z.of_nat k * 16384).
Proof.
  intros Hk. eexists. split; [apply (ok_grid _ Hgrid)|]. rewrite list_lookup_fmap, lookup_seq_lt by lia. done.
Qed.

Lemma add_tile_spec yx acc :
  valid yx -> Z.of_nat (length acc) < gridWidth e * gridHeight e ->
  exists bs, add_tile settings e fb x y (sx - x) (sy - y) (snd yx) (fst yx) acc = Some (acc ++ bs) /\
    if drawn yx then exists b, bs = [b] /\ tile_bitmap b yx (length acc) else bs = [].
Proof.
  intros [Hy Hx] Hk. unfold add_tile.
  rewrite (tile_axis_spec (fbWidth fb) nx wx) by assumption.
  rewrite (tile_axis_spec (fbHeight fb) ny wy) by assumption. fold x y sx sy.
  pose proof (tile_start nx wx ltac:(assumption) (snd yx) Hx) as Sx. pose proof (tile_start ny wy ltac:(assumption) (fst yx) Hy) as Sy.
  fold x sx in Sx. fold y sy in Sy.
  pose proof (first_tile_bounds nx wx ltac:(assumption)) as Bx. pose proof (first_tile_bounds ny wy ltac:(assumption)) as By.
  fold x in Bx. fold y in By. unfold drawn.
  assert (extent x sx (snd yx) <= 64 /\ x + 64 * snd yx + extent x sx (snd yx) <= sx) as Ex by (unfold extent; lia).
  assert (extent y sy (fst yx) <= 64 /\ y + 64 * fst yx + extent y sy (fst yx) <= sy) as Ey by (unfold extent; lia).
  destruct (Z.ltb_spec (extent x sx (snd yx)) 4) as [Hl|Hl]; cbn [orb].
  { exists []. rewrite app_nil_r. split; [done|]. destruct (Z.leb_spec 4 (extent x sx (snd yx))); [lia|done]. }
  destruct (Z.leb_spec 4 (extent x sx (snd yx))); [|lia]. cbn [andb].
  destruct (Z.ltb_spec (extent y sy (fst yx)) 4) as [Hl'|Hl'].
  { exists []. rewrite app_nil_r. split; [done|]. destruct (Z.leb_spec 4 (extent y sy (fst yx))); [lia|done]. }
  destruct (Z.leb_spec 4 (extent y sy (fst yx))); [|lia].
  assert (readable fb (x + 64 * snd yx) (y + 64 * fst yx) (extent x sx (snd yx)) (extent y sy (fst yx)) = true) as ->.
  { unfold readable. rewrite andb_true_iff, !Z.leb_le. unfold sx, sy in *. split; nia. }
  destruct (grid_buffer _ Hk) as (g & -> & Eg). cbn [mbind option_bind]. rewrite Eg. cbn [mbind option_bind].
  assert (exists bpp data, compress_tile settings e (x + 64 * snd yx) (y + 64 * fst yx) (extent x sx (snd yx))
    (extent y sy (fst yx)) = Some (bpp, data)) as (bpp & data & ->).
  { unfold compress_tile. destruct (ColorDepth settings <? 32); destruct Hcodec as [ctx ->]; cbn; eauto. }
  cbn [mbind option_bind]. eexists. split; [reflexivity|]. eexists. split; [reflexivity|].
  unfold tile_bitmap, geometry. cbn. unfold sx, sy in *. rewrite !u32_id by (unfold is_u32; lia). done.
Qed.

(** The bitmaps of the tiles [l], from buffer number [k] on. *)
Definition tile_bitmaps (k : nat) (l : list (Z * Z)) (bs : list BITMAP_DATA) : Prop :=
  Forall2 (fun b '(yx, i) => tile_bitmap b yx i) bs (zip (List.filter drawn l) (seq k (length (List.filter drawn l)))).

Lemma filter_length_le {A} (f : A -> bool) l : (length (List.filter f l) <= length l)%nat.
Proof. induction l as [|a l IH]; cbn; [done|]. destruct (f a); cbn; lia. Qed.

Lemma add_tiles_spec l acc :
  Forall valid l -> Z.of_nat (length acc + length l) <= gridWidth e * gridHeight e ->
  exists bs, add_tiles settings e fb x y (sx - x) (sy - y) l acc = Some (acc ++ bs) /\ tile_bitmaps (length acc) l bs.
Proof.
  intros Hv. revert acc. induction Hv as [|[yi xi] l Hv _ IH]; intros acc Hk.
  { exists []. rewrite app_nil_r. split; [done|constructor]. }
  cbn [add_tiles]. cbn [length] in Hk. destruct (add_tile_spec (yi, xi) acc Hv) as (bs & E & Hbs); [lia|].
  cbn [fst snd] in E. rewrite E. cbn [mbind option_bind]. unfold tile_bitmaps. cbn [List.filter].
  destruct (drawn (yi, xi)).
  - destruct Hbs as (b & -> & Hb). destruct (IH (acc ++ [b])) as (bs' & -> & Hbs'); [rewrite length_app; cbn; lia|].
    exists (b :: bs'). rewrite <-(assoc_L (++)). split; [done|]. cbn. constructor; [done|].
    rewrite length_app in Hbs'. cbn in Hbs'. rewrite Nat.add_1_r in Hbs'. exact Hbs'.
  - subst bs. rewrite app_nil_r. apply IH. lia.
Qed.
End Tiles.

Section Request.
Context {W : WStream} {D : Dictionary} {DL : DictionaryLaws D} {B : CodecBits} {BL : CodecBitsLaws B} {C : Compression}.

(** A paint message inside of a framebuffer that is no larger than the desktop
    of the encoder; the memory has all lines of the framebuffer. *)
Record request_ok (e : rdsEncoder) (fb : RDS_FRAMEBUFFER) (msg : PaintRect.RDS_MSG_PAINT_RECT) : Prop := {
  req_left : 0 <= PaintRect.nLeftRect msg;
  req_top : 0 <= PaintRect.nTopRect msg;
  req_width : 0 < PaintRect.nWidth msg;
  req_height : 0 < PaintRect.nHeight msg;
  req_right : PaintRect.nLeftRect msg + PaintRect.nWidth msg <= fbWidth fb;
  req_bottom : PaintRect.nTopRect msg + PaintRect.nHeight msg <= fbHeight fb;
  req_limits : fbWidth fb < 2 ^ 31 /\ fbHeight fb < 2 ^ 31;
  req_memory : fbWidth fb * 4 <= fbScanline fb /\ fbScanline fb * fbHeight fb <= fbSharedMemory fb;
  req_encoder : fbWidth fb <= width e /\ fbHeight fb <= height e;
}.

Abbreviation all_allocs := (mk_allocs true true true true).

(** The tiles of the message, row by row. *)
Definition request_tiles (msg : PaintRect.RDS_MSG_PAINT_RECT) : list (Z * Z) :=
  list_prod (indices (tiles_of (PaintRect.nTopRect msg) (PaintRect.nHeight msg)))
            (indices (tiles_of (PaintRect.nLeftRect msg) (PaintRect.nWidth msg))).

Definition request_bitmaps (msg : PaintRect.RDS_MSG_PAINT_RECT) (bms : list BITMAP_DATA) : Prop :=
  tile_bitmaps (PaintRect.nLeftRect msg) (PaintRect.nTopRect msg) (PaintRect.nWidth msg) (PaintRect.nHeight msg)
    0 (request_tiles msg) bms.

Lemma request_tiles_spec msg yx :
  yx ∈ request_tiles msg <->
  valid (PaintRect.nLeftRect msg) (PaintRect.nTopRect msg) (PaintRect.nWidth msg) (PaintRect.nHeight msg) yx.
Proof.
  destruct yx as [i j]. unfold request_tiles, valid. rewrite list_elem_of_In, in_prod_iff, <-!list_elem_of_In, !indices_spec. done.
Qed.

Lemma request_tiles_nodup msg : NoDup (request_tiles msg).
Proof.
  unfold request_tiles. generalize (indices_nodup (tiles_of (PaintRect.nTopRect msg) (PaintRect.nHeight msg))).
  generalize (indices_nodup (tiles_of (PaintRect.nLeftRect msg) (PaintRect.nWidth msg))).
  generalize (indices (tiles_of (PaintRect.nLeftRect msg) (PaintRect.nWidth msg))) as l2.
  generalize (indices (tiles_of (PaintRect.nTopRect msg) (PaintRect.nHeight msg))) as l1. intros l1 l2 H2.
  induction 1 as [|a l1 Ha _ IH]; [constructor|]. cbn. apply NoDup_app. split; [|split; [|done]].
  - apply NoDup_fmap_2; [by intros ?? [= ->]|done].
  - intros [p q] (q' & [= -> ->] & _)%list_elem_of_fmap. rewrite list_elem_of_In, in_prod_iff, <-!list_elem_of_In. tauto.
Qed.

(** The context that the color depth needs is there. *)
Lemma prepare_context settings e :
  encoder_ok e ->
  let codec := if ColorDepth settings <? 32 then FREERDP_CODEC_INTERLEAVED else FREERDP_CODEC_PLANAR in
  let e' := snd (freerds_encoder_prepare settings all_allocs codec e) in
  if ColorDepth settings <? 32 then is_Some (interleaved e') else is_Some (planar e').
Proof.
  intros (H & _) codec e'. pose proof (prepare_spec settings all_allocs codec e H) as Hp.
  pose proof (prepare_succeeds settings codec e) as Hs. unfold e' in *.
  destruct (freerds_encoder_prepare settings all_allocs codec e) as [st e1]. cbn in Hs. subst st.
  destruct Hp as (Hb & _ & [?|[_ Hset]]); [done|]. cbn. unfold codec in Hset.
  pose proof (bit_nonneg planar_bit ltac:(do 2 right; left)). pose proof (bit_nonneg interleaved_bit ltac:(do 3 right; left)).
  destruct (ColorDepth settings <? 32).
  - apply (ok_interleaved _ Hb). rewrite Hset by (do 3 right; left). unfold FREERDP_CODEC_INTERLEAVED.
    rewrite Z.pow2_bits_true by done. apply orb_true_r.
  - apply (ok_planar _ Hb). rewrite Hset by (do 2 right; left). unfold FREERDP_CODEC_PLANAR.
    rewrite Z.pow2_bits_true by done. apply orb_true_r.
Qed.

(** What the codec for the color depth produces for the rectangle of a bitmap. *)
Definition tile_data (settings : rdpSettings) (b : BITMAP_DATA) : Prop :=
  if ColorDepth settings <? 32
  then bitmapDataStream b = interleaved_compress (destLeft b) (destTop b) (bitmap_width b) (bitmap_height b) (ColorDepth settings)
  else exists c, bitmapDataStream b = freerdp_bitmap_compress_planar c (destLeft b) (destTop b) (bitmap_width b) (bitmap_height b).

Lemma add_tiles_data settings e fb x y w h l acc res :
  add_tiles settings e fb x y w h l acc = Some res -> Forall (tile_data settings) acc -> Forall (tile_data settings) res.
Proof.
  revert acc. induction l as [|[yi xi] l IH]; intros acc; cbn [add_tiles]; [by intros [= <-]|].
  destruct (add_tile settings e fb x y w h xi yi acc) as [acc'|] eqn:E; [|done]. cbn [mbind option_bind]. intros El Ha.
  apply (IH acc'); [done|]. clear IH El. unfold add_tile in E.
  destruct (tile_axis x w xi) as [dl tw], (tile_axis y h yi) as [dt th].
  destruct ((tw <? 4) || (th <? 4)); [by injection E as <-|]. destruct (readable fb dl dt tw th); [|done].
  destruct (grid e) as [g|]; [|done]. cbn [mbind option_bind] in E. destruct (g !! length acc) as [buf|]; [|done]. cbn [mbind option_bind] in E.
  destruct (compress_tile settings e dl dt tw th) as [[bpp data]|] eqn:Ec; [|done]. cbn [mbind option_bind] in E. injection E as <-.
  apply Forall_app. split; [done|]. apply Forall_singleton. unfold tile_data, compress_tile in *.
  destruct (ColorDepth settings <? 32); cbn [destLeft destTop bitmap_width bitmap_height bitmapDataStream].
  - destruct (interleaved e); [|done]. by injection Ec as <- <-.
  - destruct (planar e) as [c|]; [|done]. injection Ec as <- <-. by exists c.
Qed.

Lemma add_tiles_grid settings e fb x y w h l acc res :
  add_tiles settings e fb x y w h l acc = Some res -> (length acc <= length (default [] (grid e)))%nat ->
  (length res <= length (default [] (grid e)))%nat.
Proof.
  revert acc. induction l as [|[yi xi] l IH]; intros acc; cbn [add_tiles]; [by intros [= <-]|].
  destruct (add_tile settings e fb x y w h xi yi acc) as [acc'|] eqn:E; [|done]. cbn [mbind option_bind]. intros El Ha.
  apply (IH acc'); [done|]. clear IH El. unfold add_tile in E.
  destruct (tile_axis x w xi) as [dl tw], (tile_axis y h yi) as [dt th].
  destruct ((tw <? 4) || (th <? 4)); [by injection E as <-|]. destruct (readable fb dl dt tw th); [|done].
  destruct (grid e) as [g|]; [|done]. cbn [mbind option_bind] in E. destruct (g !! length acc) as [buf|] eqn:El; [|done]. cbn [mbind option_bind] in E.
  destruct (compress_tile settings e dl dt tw th) as [[bpp data]|] eqn:Ec; [|done]. cbn [mbind option_bind] in E. injection E as <-.
  apply lookup_lt_Some in El. cbn. rewrite length_app. cbn. lia.
Qed.

Lemma send_bitmap_spec settings e fb msg :
  encoder_ok e -> request_ok e fb msg ->
  exists e' bms, encoder_ok e' /\ request_bitmaps msg bms /\ (forall fuel,
    freerds_send_bitmap_update fuel all_allocs settings e fb msg =
      (updates ← send_updates fuel settings bms; Some (1, e', updates))) /\
    kept e e' /\ Forall (tile_data settings) bms /\ (length bms <= length (default [] (grid e)))%nat.
Proof.
  intros H [Hl Ht Hw Hh Hr Hb [Hw31 Hh31] [Hsc Hm] [Hfw Hfh]]. pose proof (prepare_context settings e H) as Hc.
  destruct (prepare_ok settings all_allocs
    (if ColorDepth settings <? 32 then FREERDP_CODEC_INTERLEAVED else FREERDP_CODEC_PLANAR) e H) as [H' Hk].
  unfold freerds_send_bitmap_update. cbv zeta in *. set (e' := snd (freerds_encoder_prepare _ _ _ e)) in *. clearbody e'.
  destruct (kept_size _ _ Hk) as [Kw Kh]. rewrite (axis_spec (fbWidth fb)) by assumption. rewrite (axis_spec (fbHeight fb)) by assumption.
  pose proof (first_tile_bounds (PaintRect.nLeftRect msg) (PaintRect.nWidth msg) Hl) as Bx.
  pose proof (first_tile_bounds (PaintRect.nTopRect msg) (PaintRect.nHeight msg) Ht) as By.
  pose proof (tiles_within _ _ Hl Hw (width e) ltac:(lia)) as Nx. pose proof (tiles_within _ _ Ht Hh (height e) ltac:(lia)) as Ny.
  destruct H' as (Hb' & Hg' & Hx').
  assert (forall yx, yx ∈ request_tiles msg -> valid (PaintRect.nLeftRect msg) (PaintRect.nTopRect msg) (PaintRect.nWidth msg)
    (PaintRect.nHeight msg) yx) as Hv by (intros yx; apply request_tiles_spec).
  destruct (add_tiles_spec settings e' fb (PaintRect.nLeftRect msg) (PaintRect.nTopRect msg) (PaintRect.nWidth msg)
    (PaintRect.nHeight msg) Hl Ht Hw Hh Hr Hb Hw31 Hh31 Hsc Hm Hg' Hc (request_tiles msg) [])
    as (bms & E & Hbms).
  { apply Forall_forall. intros yx Hyx. by apply Hv. }
  { cbn. unfold request_tiles. rewrite length_prod, !length_indices.
    rewrite (ok_gridWidth _ Hg'), (ok_gridHeight _ Hg'), Kw, Kh. nia. }
  exists e', bms. split; [done|]. split; [exact Hbms|].
  split; [|split; [done|]; split; [by eapply add_tiles_data in E; [|constructor]|]].
  2: { apply add_tiles_grid in E; [|cbn; lia]. by destruct (kept_grid _ _ Hk) as (<- & _). }
  intros fuel.
  destruct (Z.leb_spec (PaintRect.nLeftRect msg + PaintRect.nWidth msg - first_tile (PaintRect.nLeftRect msg) (PaintRect.nWidth msg)) 0);
    [lia|]. cbn [orb].
  destruct (Z.leb_spec (PaintRect.nTopRect msg + PaintRect.nHeight msg - first_tile (PaintRect.nTopRect msg) (PaintRect.nHeight msg)) 0);
    [lia|]. unfold request_tiles in E. rewrite E. reflexivity.
Qed.

(** The tile of a bitmap, and the bitmap of a tile. *)
Lemma bitmap_tile msg bms i b :
  request_bitmaps msg bms -> bms !! i = Some b ->
  exists yx, List.filter (drawn (PaintRect.nLeftRect msg) (PaintRect.nTopRect msg) (PaintRect.nWidth msg) (PaintRect.nHeight msg))
      (request_tiles msg) !! i = Some yx /\
    tile_bitmap (PaintRect.nLeftRect msg) (PaintRect.nTopRect msg) (PaintRect.nWidth msg) (PaintRect.nHeight msg) b yx i.
Proof.
  intros H Hi. destruct (Forall2_lookup_l _ _ _ _ _ H Hi) as ([yx k] & Hz & Hb).
  apply lookup_zip_Some in Hz as [Hy [-> _]%lookup_seq]. eauto.
Qed.

Lemma tile_has_bitmap msg bms yx :
  request_bitmaps msg bms -> yx ∈ request_tiles msg ->
  drawn (PaintRect.nLeftRect msg) (PaintRect.nTopRect msg) (PaintRect.nWidth msg) (PaintRect.nHeight msg) yx = true ->
  exists i b, bms !! i = Some b /\
    tile_bitmap (PaintRect.nLeftRect msg) (PaintRect.nTopRect msg) (PaintRect.nWidth msg) (PaintRect.nHeight msg) b yx i.
Proof.
  intros H Hin Hd.
  assert (yx ∈ List.filter (drawn (PaintRect.nLeftRect msg) (PaintRect.nTopRect msg) (PaintRect.nWidth msg) (PaintRect.nHeight msg))
    (request_tiles msg)) as Hf by (apply list_elem_of_In, List.filter_In; split; [by apply list_elem_of_In|done]).
  apply list_elem_of_lookup in Hf as [i Hi]. pose proof (lookup_lt_Some _ _ _ Hi).
  destruct (Forall2_lookup_r _ _ _ i (yx, i) H) as (b & Hb & Ht).
  { apply lookup_zip_Some. split; [done|]. apply lookup_seq. lia. }
  eauto.
Qed.

Lemma nodup_filter {A} (f : A -> bool) (l : list A) : NoDup l -> NoDup (List.filter f l).
Proof.
  induction 1 as [|a l Ha _ IH]; [constructor|]. cbn. destruct (f a); [|done].
  constructor; [|done]. rewrite list_elem_of_In, List.filter_In, <-list_elem_of_In. tauto.
Qed.

(** No two bitmaps share a pixel. *)
Lemma bitmaps_disjoint msg bms i j b1 b2 px py :
  request_bitmaps msg bms -> bms !! i = Some b1 -> bms !! j = Some b2 ->
  inside b1 px py -> inside b2 px py -> i = j.
Proof.
  intros H H1 H2 I1 I2.
  destruct (bitmap_tile msg bms i b1 H H1) as ([y1 x1] & E1 & G1 & _ & R1 & B1).
  destruct (bitmap_tile msg bms j b2 H H2) as ([y2 x2] & E2 & G2 & _ & R2 & B2).
  injection G1 as L1 T1 W1 Hh1. injection G2 as L2 T2 W2 Hh2. cbn [fst snd] in *.
  unfold inside in *. rewrite R1, B1, L1, T1, W1, Hh1 in I1. rewrite R2, B2, L2, T2, W2, Hh2 in I2. unfold extent in *.
  assert (x1 = x2) as -> by lia. assert (y1 = y2) as -> by lia.
  eapply NoDup_lookup; [|exact E1|exact E2]. apply nodup_filter, request_tiles_nodup.
Qed.

(** A bitmap is inside of the framebuffer and has a buffer of its own. *)
Lemma bitmap_bounds e fb msg bms i b :
  request_ok e fb msg -> request_bitmaps msg bms -> bms !! i = Some b ->
  0 <= destLeft b /\ 0 <= destTop b /\ destRight b < fbWidth fb /\ destBottom b < fbHeight fb /\
  4 <= bitmap_width b <= 64 /\ 4 <= bitmap_height b <= 64 /\
  destRight b = destLeft b + bitmap_width b - 1 /\ destBottom b = destTop b + bitmap_height b - 1 /\
  bitmapBuffer b = Z.of_nat i * 16384.
Proof.
  intros [Hl Ht Hw Hh Hr Hb _ _ _] H Hi. destruct (bitmap_tile msg bms i b H Hi) as (yx & E & G & Hbuf & R & Bt).
  apply list_elem_of_lookup_2, list_elem_of_In, List.filter_In in E as [Hv%list_elem_of_In Hd].
  apply request_tiles_spec in Hv as [Hy Hx]. unfold drawn in Hd. rewrite andb_true_iff, !Z.leb_le in Hd.
  injection G as L1 T1 W1 Hh1.
  pose proof (first_tile_bounds (PaintRect.nLeftRect msg) (PaintRect.nWidth msg) Hl).
  pose proof (first_tile_bounds (PaintRect.nTopRect msg) (PaintRect.nHeight msg) Ht).
  rewrite R, Bt, L1, T1, W1, Hh1. unfold extent in *. repeat split; try lia.
Qed.

(** The bitmaps cover the rectangle exactly when both axes are covered. *)
Lemma bitmaps_cover e fb msg bms :
  request_ok e fb msg -> request_bitmaps msg bms ->
  (forall px py, PaintRect.nLeftRect msg <= px < PaintRect.nLeftRect msg + PaintRect.nWidth msg ->
     PaintRect.nTopRect msg <= py < PaintRect.nTopRect msg + PaintRect.nHeight msg ->
     exists b, b ∈ bms /\ inside b px py)
  <-> axis_ok (PaintRect.nLeftRect msg) (PaintRect.nWidth msg) && axis_ok (PaintRect.nTopRect msg) (PaintRect.nHeight msg) = true.
Proof.
  intros [Hl Ht Hw Hh _ _ _ _ _] H. rewrite andb_true_iff.
  rewrite <-(axis_covered _ _ Hl Hw), <-(axis_covered _ _ Ht Hh). split.
  - intros Hc.
    assert (forall px py, PaintRect.nLeftRect msg <= px < PaintRect.nLeftRect msg + PaintRect.nWidth msg ->
      PaintRect.nTopRect msg <= py < PaintRect.nTopRect msg + PaintRect.nHeight msg -> exists yx,
      valid (PaintRect.nLeftRect msg) (PaintRect.nTopRect msg) (PaintRect.nWidth msg) (PaintRect.nHeight msg) yx /\
      drawn (PaintRect.nLeftRect msg) (PaintRect.nTopRect msg) (PaintRect.nWidth msg) (PaintRect.nHeight msg) yx = true /\
      let '(l, t, w, h) := tile_rect (PaintRect.nLeftRect msg) (PaintRect.nTopRect msg) (PaintRect.nWidth msg) (PaintRect.nHeight msg) yx in
      l <= px < l + w /\ t <= py < t + h) as Hp.
    { intros px py Hx Hy. destruct (Hc px py Hx Hy) as (b & [i Hi]%list_elem_of_lookup & Hin).
      destruct (bitmap_tile msg bms i b H Hi) as (yx & E & G & _ & R & Bt). exists yx.
      apply list_elem_of_lookup_2, list_elem_of_In, List.filter_In in E as [Hv%list_elem_of_In Hd].
      split; [by apply request_tiles_spec|]. split; [done|]. rewrite <-G. unfold geometry. unfold inside in Hin. lia. }
    unfold drawn, tile_rect in Hp. split; intros p Hpp.
    + destruct (Hp p (PaintRect.nTopRect msg)) as (yx & [Hvy Hvx] & Hd & Hr); [done|lia|].
      rewrite andb_true_iff, !Z.leb_le in Hd. exists (snd yx). lia.
    + destruct (Hp (PaintRect.nLeftRect msg) p) as (yx & [Hvy Hvx] & Hd & Hr); [lia|done|].
      rewrite andb_true_iff, !Z.leb_le in Hd. exists (fst yx). lia.
  - intros [Hcx Hcy] px py Hx Hy. destruct (Hcx px Hx) as (i & Hi & Hei & Hpi), (Hcy py Hy) as (j & Hj & Hej & Hpj).
    destruct (tile_has_bitmap msg bms (j, i) H) as (k & b & Hk & G & _ & R & Bt).
    { apply request_tiles_spec. by split. }
    { unfold drawn. cbn. rewrite andb_true_iff, !Z.leb_le. done. }
    exists b. split; [by apply list_elem_of_lookup_2 in Hk|]. injection G as L1 T1 W1 Hh1. cbn [fst snd] in *.
    unfold inside. rewrite R, Bt, L1, T1, W1, Hh1. lia.
Qed.
End Request.

(** ** Fragments *)

Section Fragments.
Context (max : Z) (Hmax : max <= 2 ^ 31).

(** The size that the code counts for an update. *)
Definition update_size (u : list BITMAP_DATA) : Z := fold_left (fun n b => n + (bitmapLength b + 16)) u 1024.

Definition fits (b : BITMAP_DATA) : Prop := 1024 + (bitmapLength b + 16) < max.
Definition short (b : BITMAP_DATA) : Prop := bitmapLength b < 2 ^ 30.

Lemma bitmapLength_nonneg b : 0 <= bitmapLength b.
Proof. unfold bitmapLength. lia. Qed.

(** A bitmap that does not fit, before the last one: the loop never ends. *)
Lemma fragment_diverges fuel todo frag size out :
  Forall short todo -> 1024 <= size < 2 ^ 31 ->
  (exists pre b post, todo = pre ++ b :: post /\ post <> [] /\ ~ fits b) ->
  fragment_loop fuel max todo frag size out = None.
Proof.
  revert todo frag size out. induction fuel as [|fuel IH]; intros todo frag size out Hs Hsz (pre & b & post & -> & Hp & Hb).
  { by destruct pre. }
  assert (exists c rest, pre ++ b :: post = c :: rest /\ rest <> [] /\ short c /\ Forall short rest /\
    (fits c -> exists pre' post', rest = pre' ++ b :: post' /\ post' <> [])) as (c & rest & E & Hr & Hc & Hrs & Hrest).
  { destruct pre as [|c pre]; cbn in *.
    - exists b, post. apply Forall_cons_1 in Hs as [? ?]. split; [done|]. split; [done|]. split; [done|]. split; [done|]. done.
    - exists c, (pre ++ b :: post). apply Forall_cons_1 in Hs as [? ?]. split; [done|]. split; [by destruct pre|].
      split; [done|]. split; [done|]. intros _. by exists pre, post. }
  rewrite E. cbn [fragment_loop]. rewrite bool_decide_false by done. cbn [negb]. rewrite andb_true_r.
  unfold short in Hc. pose proof (bitmapLength_nonneg c). rewrite u32_id by (unfold is_u32; lia).
  destruct (Z.ltb_spec (size + (bitmapLength c + 16)) max).
  - destruct Hrest as (pre' & post' & -> & Hp'); [unfold fits; lia|]. apply IH; [done|lia|]. by exists pre', b, post'.
  - rewrite <-E. apply IH; [done|lia|]. by exists pre, b, post.
Qed.

Lemma update_size_snoc u b : update_size (u ++ [b]) = update_size u + (bitmapLength b + 16).
Proof. unfold update_size. by rewrite fold_left_app. Qed.

(** Otherwise it sends every bitmap once, in order; no update is empty, and all
    but the last are below the limit. *)
Lemma fragment_spec fuel todo frag out :
  Forall short todo -> (forall pre b post, todo = pre ++ b :: post -> post <> [] -> fits b) ->
  todo <> [] -> (2 * length todo + (if decide (frag = []) then 0 else 1) <= fuel)%nat ->
  1024 <= update_size frag < 2 ^ 31 -> (frag <> [] -> update_size frag < max) ->
  Forall (fun u => u <> [] /\ update_size u < max) out ->
  exists us u, fragment_loop fuel max todo frag (update_size frag) out = Some (us ++ [u]) /\
    concat (us ++ [u]) = concat out ++ frag ++ todo /\ u <> [] /\ Forall (fun u => u <> [] /\ update_size u < max) us.
Proof.
  revert todo frag out. induction fuel as [|fuel IH]; intros todo frag out Hs Hf Hne Hfuel Hsz Hfrag Hout.
  { destruct todo; [done|cbn in Hfuel; lia]. }
  destruct todo as [|b rest]; [done|]. cbn [fragment_loop]. apply Forall_cons_1 in Hs as [Hb Hs]. unfold short in Hb.
  pose proof (bitmapLength_nonneg b). rewrite u32_id by (unfold is_u32; lia). rewrite <-update_size_snoc. cbn [length] in Hfuel.
  assert (frag ++ [b] <> []) as Hfb by by destruct frag.
  destruct rest as [|c rest].
  { rewrite bool_decide_true by done. rewrite andb_false_r. cbn [negb]. exists out, (frag ++ [b]).
    destruct fuel; (split; [done|]); (split; [by rewrite concat_app; cbn; rewrite app_nil_r|done]). }
  rewrite bool_decide_false by done. cbn [negb]. rewrite andb_true_r.
  destruct (Z.ltb_spec (update_size (frag ++ [b])) max) as [Hlt|Hge].
  - destruct (IH (c :: rest) (frag ++ [b]) out) as (us & u & E & Hc & Hu & Hus); try done.
    + intros pre b' post Epre. apply (Hf (b :: pre)). by rewrite Epre.
    + rewrite decide_False by done. cbn [length] in *. destruct (decide (frag = [])); lia.
    + rewrite update_size_snoc in *. lia.
    + exists us, u. split; [done|]. split; [|done]. rewrite Hc, <-(assoc_L (++)). done.
  - assert (frag <> []) as Hfne.
    { intros ->. specialize (Hf [] b (c :: rest) eq_refl ltac:(done)). unfold fits in Hf. cbn in Hge. lia. }
    destruct (IH (b :: c :: rest) [] (out ++ [frag])) as (us & u & E & Hc & Hu & Hus); try done.
    + by apply Forall_cons.
    + rewrite decide_True by done. rewrite decide_False in Hfuel by done. cbn [length] in *. lia.
    + apply Forall_app. split; [done|]. apply Forall_cons. split; [|constructor]. split; [done|by apply Hfrag].
    + exists us, u. split; [done|]. split; [|done]. rewrite Hc, concat_app. cbn. rewrite app_nil_r, <-!(assoc_L (++)). done.
Qed.
End Fragments.
