(* ===== verification/CoreTheorems.v ===== *)
(** * Properties of the encoder and of bitmap updates

    freerds/core/encoder.c and the drawing functions of freerds/core/core.c. *)

From S2P Require Import Prelude WStream ListStream Message VarMsg Pipe RpcContext RpcInstances.
From S2P Require Import Encoder EncoderFacts Bitmap BitmapFacts.
From stdpp Require Import list.
#[local] Open Scope Z_scope.

(** ** Concrete codecs *)

#[local] Instance demo_bits : CodecBits := {
  interleaved_bit := 0; planar_bit := 1; nsc_bit := 3; rfx_bit := 4;
}.

#[local] Instance demo_bits_laws : CodecBitsLaws demo_bits.
Proof.
  split.
  - repeat (apply List.Forall_cons; [cbn; lia|]). apply List.Forall_nil.
  - apply (bool_decide_unpack _). vm_compute. exact I.
Qed.

#[local] Instance demo_compression : Compression := {
  interleaved_compress _ _ w h _ := [w; h];
  freerdp_bitmap_compress_planar _ _ _ w h := [w; h];
  rfx_encode_messages _ _ _ _ _ _ := [[]];
  nsc_compose_message _ _ _ w h := [w; h];
}.

Definition demo_settings : rdpSettings := mk_settings 1 3 true true false 32 65535.

Definition demo_encoder : rdsEncoder :=
  Eval vm_compute in
    match freerds_encoder_new 100 80 with
    | Some e => e
    | None => mk_encoder 0 0 0 None 0 0 None 0 0 None None None None None 0 0 0 0 None
    end.

Definition demo_connection : rdsConnection := mk_connection demo_settings demo_encoder ListDictionary_New.

Lemma demo_size : size_ok 100 80.
Proof. repeat split; lia. Qed.

(** ** The encoder *)

(** C33. In every sequence of preparing codecs (whichever
    contexts can be created), numbering frames, acknowledgements and successful
    resets, the encoder of a connection stays well-formed: a codec bit is set
    exactly when its context exists, the RemoteFX context has the size of the
    desktop, the frame list exists exactly when a codec with frames does and
    has the frames by consecutive numbers, the rate is between 1 and 32 frames
    per second, and the grid has one buffer of 64 by 64 pixels for each tile of
    the desktop.  Numbering a frame is therefore always defined. *)
Theorem encoder_well_formed {W : WStream} {D : Dictionary} {DL : DictionaryLaws D} {B : CodecBits}
    {BL : CodecBitsLaws B} w h (c : rdsConnection) :
  size_ok w h -> connection_run w h c ->
  encoder_ok (encoder c) /\ width (encoder c) = w /\ height (encoder c) = h /\
  forall codec al, exists id c', surface_frame codec al c = Some (id, c') /\ encoder_ok (encoder c').
Proof.
  intros Hs Hr. destruct (connection_run_ok w h c Hs Hr) as (Hok & Hw & Hh). do 3 (split; [done|]).
  intros codec al. destruct (surface_frame_spec codec al c Hok) as (id & c' & E & Hok' & _). eauto.
Qed.

(** A frame with RemoteFX, an acknowledgement, and a reset with NSCodec. *)
Lemma encoder_well_formed_witness :
  exists c, connection_run 100 80 c /\ has (encoder c) rfx_bit = true /\ encoder_ok (encoder c).
Proof.
  set (al := mk_allocs true true true true).
  pose proof (run_connect 100 80 demo_settings demo_encoder ListDictionary_New eq_refl) as H0.
  pose proof (run_frame 100 80 _ FREERDP_CODEC_REMOTEFX al _ _ H0 eq_refl) as H1.
  pose proof (run_frame 100 80 _ FREERDP_CODEC_REMOTEFX al _ _ H1 eq_refl) as H2.
  eexists. split; [exact (run_acknowledge 100 80 _ 1 H2)|]. split; [reflexivity|].
  exact (proj1 (encoder_well_formed 100 80 _ demo_size (run_acknowledge 100 80 _ 1 H2))).
Defined.

(** Acknowledged frames never leave the encoder:
    freerds_update_frame_acknowledge looks in the list of the connection, which
    is always empty, while frames are put in the list of the encoder.  Whatever
    the client acknowledges, every frame makes the list one longer, and from
    the hundredth frame on the rate is one frame per second. *)
Theorem frames_never_acknowledged {W : WStream} {D : Dictionary} {DL : DictionaryLaws D} {B : CodecBits}
    {BL : CodecBitsLaws B} w h (c : rdsConnection) l acks codec al :
  size_ok w h -> connection_run w h c -> frameList (encoder c) = Some l -> frameAck (encoder c) = 1 ->
  let c1 := fold_left (fun c id => freerds_update_frame_acknowledge id c) acks c in
  exists id c2 l', surface_frame codec al c1 = Some (id, c2) /\ frameList (encoder c2) = Some l' /\
    length (dict_items l') = S (length (dict_items l)) /\
    ((100 <= length (dict_items l))%nat -> fps (encoder c2) = 1).
Proof.
  intros Hs Hr El Ha c1.
  assert (encoder c1 = encoder c) as E1.
  { unfold c1. clear. revert c. induction acks as [|id acks IH]; intros c; [done|]. cbn. rewrite IH.
    unfold freerds_update_frame_acknowledge. by destruct (ListDictionary_GetItemValue id (FrameList c)). }
  destruct (connection_run_ok w h c Hs Hr) as (Hok & _).
  destruct (surface_frame_spec codec al c1) as (id & c2 & E & _ & _ & _ & Hfr); [by rewrite E1|].
  rewrite E1, El in Hfr. destruct Hfr as (l' & El' & Hlen & _ & Hf); [lia|].
  exists id, c2, l'. do 3 (split; [done|]). intros Hn. rewrite Hf. apply next_fps_many; lia.
Qed.

Lemma frames_never_acknowledged_witness :
  exists c l id c2 l', connection_run 100 80 c /\ frameList (encoder c) = Some l /\
    surface_frame FREERDP_CODEC_REMOTEFX (mk_allocs true true true true)
      (freerds_update_frame_acknowledge 1 c) = Some (id, c2) /\
    frameList (encoder c2) = Some l' /\ length (dict_items l') = S (length (dict_items l)).
Proof.
  set (al := mk_allocs true true true true).
  pose proof (run_connect 100 80 demo_settings demo_encoder ListDictionary_New eq_refl) as H0.
  pose proof (run_frame 100 80 _ FREERDP_CODEC_REMOTEFX al _ _ H0 eq_refl) as H1.
  destruct (frames_never_acknowledged 100 80 _ ListDictionary_New [1] FREERDP_CODEC_REMOTEFX al demo_size H1 eq_refl eq_refl)
    as (id & c2 & l' & E & El' & Hl & _).
  do 5 eexists. split; [exact H1|]. split; [reflexivity|]. split; [exact E|]. split; [exact El'|exact Hl].
Defined.

(** ** Bitmap updates *)

(** C15. For a paint message inside of a framebuffer that is
    no larger than the desktop, freerds_send_bitmap_update is defined up to the
    fragmentation and compresses tiles that lie inside of the framebuffer, have
    between 4 and 64 pixels on each side, do not overlap, and use consecutive
    buffers of the grid.  The tiles cover the rectangle of the message exactly
    when neither axis ends in a tile of fewer than 4 pixels, which is skipped,
    nor is pushed out of its last tile by the alignment of its size. *)
Theorem bitmap_update_tiles {W : WStream} {D : Dictionary} {DL : DictionaryLaws D} {B : CodecBits}
    {BL : CodecBitsLaws B} {C : Compression} settings e fb msg :
  encoder_ok e -> request_ok e fb msg ->
  exists e' bitmaps, encoder_ok e' /\
    (forall fuel, freerds_send_bitmap_update fuel (mk_allocs true true true true) settings e fb msg =
       (updates ← send_updates fuel settings bitmaps; Some (1, e', updates))) /\
    (forall i b, bitmaps !! i = Some b ->
       0 <= destLeft b /\ 0 <= destTop b /\ destRight b < fbWidth fb /\ destBottom b < fbHeight fb /\
       4 <= bitmap_width b <= 64 /\ 4 <= bitmap_height b <= 64 /\
       destRight b = destLeft b + bitmap_width b - 1 /\ destBottom b = destTop b + bitmap_height b - 1 /\
       bitmapBuffer b = Z.of_nat i * 16384) /\
    (forall i j b1 b2 px py, bitmaps !! i = Some b1 -> bitmaps !! j = Some b2 ->
       inside b1 px py -> inside b2 px py -> i = j) /\
    ((forall px py, PaintRect.nLeftRect msg <= px < PaintRect.nLeftRect msg + PaintRect.nWidth msg ->
        PaintRect.nTopRect msg <= py < PaintRect.nTopRect msg + PaintRect.nHeight msg ->
        exists b, b ∈ bitmaps /\ inside b px py) <->
     axis_ok (PaintRect.nLeftRect msg) (PaintRect.nWidth msg) &&
     axis_ok (PaintRect.nTopRect msg) (PaintRect.nHeight msg) = true).
Proof.
  intros He Hreq. destruct (send_bitmap_spec settings e fb msg He Hreq) as (e' & bms & He' & Hb & E & _).
  exists e', bms. split; [done|]. split; [done|]. split; [intros i b; by apply (bitmap_bounds e fb msg bms)|].
  split; [|by apply (bitmaps_cover e fb)]. intros i j b1 b2 px py. by apply (bitmaps_disjoint msg bms).
Qed.

(** A message of 65 by 16 pixels at the left edge, as the pipeline aligns it
    (to a width of 66): its last columns are not sent. *)
Definition sliver : PaintRect.RDS_MSG_PAINT_RECT :=
  PaintRect.mk 0 0 66 16 0 0 None 0 1 PaintRect.fb_backend.
Definition demo_framebuffer : RDS_FRAMEBUFFER := mk_framebuffer 100 80 400 32000.

Lemma bitmap_update_tiles_witness :
  exists e' bitmaps, encoder_ok e' /\
    freerds_send_bitmap_update 10 (mk_allocs true true true true) demo_settings demo_encoder demo_framebuffer sliver =
      (updates ← send_updates 10 demo_settings bitmaps; Some (1, e', updates)) /\
    ~ forall px py, 0 <= px < 66 -> 0 <= py < 16 -> exists b, b ∈ bitmaps /\ inside b px py.
Proof.
  destruct (bitmap_update_tiles demo_settings demo_encoder demo_framebuffer sliver)
    as (e' & bms & He & E & _ & _ & Hc).
  - destruct (new_spec_ 100 80 demo_size) as (e & Ee & Hok & _). injection Ee as <-. exact Hok.
  - split; cbn; lia.
  - exists e', bms. split; [exact He|]. split; [apply E|]. intros Hall. destruct Hc as [Hc _].
    discriminate (Hc Hall).
Defined.

(** C16. When the tiles together are larger than the client
    accepts, they are distributed over several updates.  If every tile but the
    last fits an update of its own, the loop ends within two iterations per
    tile, sends every tile once and in order, sends no empty update, and all
    updates but the last are below the limit.  If a tile before the last one
    does not fit, the loop never ends: it sends empty updates forever. *)
Theorem bitmap_fragments settings bitmaps :
  let max := MultifragMaxRequestSize settings in
  max <= 2 ^ 31 -> Forall short bitmaps -> bitmaps <> [] ->
  (updateSizeEstimate bitmaps <= max -> forall fuel, send_updates fuel settings bitmaps = Some [bitmaps]) /\
  (max < updateSizeEstimate bitmaps ->
   ((forall pre b post, bitmaps = pre ++ b :: post -> post <> [] -> fits max b) ->
    forall fuel, (2 * length bitmaps <= fuel)%nat ->
    exists updates last_, send_updates fuel settings bitmaps = Some (updates ++ [last_]) /\
      concat (updates ++ [last_]) = bitmaps /\ last_ <> [] /\
      Forall (fun u => u <> [] /\ update_size u < max) updates) /\
   ((exists pre b post, bitmaps = pre ++ b :: post /\ post <> [] /\ ~ fits max b) ->
    forall fuel, send_updates fuel settings bitmaps = None)).
Proof.
  intros max Hmax Hs Hne. unfold send_updates. fold max. split.
  - intros Hle fuel. destruct (Z.ltb_spec max (updateSizeEstimate bitmaps)); [lia|done].
  - intros Hlt. destruct (Z.ltb_spec max (updateSizeEstimate bitmaps)); [|lia]. split.
    + intros Hf fuel Hfuel. destruct (fragment_spec max Hmax fuel bitmaps [] []) as (us & u & E & Hc & Hu & Hus);
        [done|done|done|rewrite decide_True by done; lia|cbn; lia|done|by apply List.Forall_nil|].
      exists us, u. done.
    + intros Hex fuel. apply (fragment_diverges max Hmax); [done|lia|done].
Qed.

(** Eight tiles of 150 bytes, and a client that accepts 1200. *)
Definition eight_tiles : list BITMAP_DATA :=
  map (fun k => mk_bitmap (64 * Z.of_nat k) 0 (64 * Z.of_nat k + 63) 63 64 64 32 256 16384 (Z.of_nat k * 16384) (replicate 150 0))
    (seq 0 8).

Lemma bitmap_fragments_witness :
  exists updates last_, send_updates 16 (mk_settings 1 3 true true false 32 1200) eight_tiles = Some (updates ++ [last_]) /\
    concat (updates ++ [last_]) = eight_tiles.
Proof.
  destruct (bitmap_fragments (mk_settings 1 3 true true false 32 1200) eight_tiles) as [_ Hb].
  - cbn. lia.
  - apply Forall_forall. intros b (k & -> & _)%list_elem_of_fmap. 
    unfold short, bitmapLength. cbn [bitmapDataStream]. rewrite length_replicate. lia.
  - discriminate.
  - destruct Hb as [Hb _]; [vm_compute; reflexivity|].
    destruct (Hb ltac:(intros pre b post Eb _; assert (b ∈ eight_tiles) as (k & -> & _)%list_elem_of_fmap
      by (rewrite Eb; apply elem_of_app; right; left); unfold fits, bitmapLength; cbn [bitmapDataStream MultifragMaxRequestSize]; rewrite length_replicate; lia) 16%nat ltac:(cbn; lia))
      as (us & u & E & Hc & _).
    exists us, u. split; [exact E|exact Hc].
Defined.
