(* ===== verification/Channels.v ===== *)
(** * Virtual channels

    freerds/core/channels.c, and from freerds/core/process.c the request to
    open a channel.  The thread of a connection creates a channel, puts it
    under its GUID into the table of the channel server, tells the manager the
    port and the GUID and waits for five seconds; the thread of the server
    accepts sockets and gives a socket that sends the GUID of a waiting channel
    to that channel.  A connected channel leaves the table and joins the list
    of its connection, where its socket is read; what the client sends is passed
    to the socket through the pointer that is registered with the peer.

    Channels are objects on a heap ([heap]); the table and the lists have
    pointers to them, and using a channel that has been freed is undefined
    ([None]).  WinPR's hash table is a parameter ([HashTable]), and so is the
    data that libfreerdp keeps with a virtual channel of a peer ([PeerData]).
    What the sockets deliver and accept and whether an event is signalled are
    arguments. *)

From stdpp Require Import gmap.
From S2P Require Import Prelude.

Class HashTable := {
  wHashTable : Type -> Type;
  HashTable_New {V} : wHashTable V;
  HashTable_Add {V} : list Z -> V -> wHashTable V -> wHashTable V;
  HashTable_Remove {V} : list Z -> wHashTable V -> wHashTable V;
  HashTable_GetItemValue {V} : list Z -> wHashTable V -> option V;
}.

Class HashTableLaws (H : HashTable) : Prop := {
  table_new V k : HashTable_GetItemValue k (HashTable_New (V := V)) = None;
  table_add V k k' (v : V) t : HashTable_GetItemValue k' (HashTable_Add k v t) =
    if decide (k = k') then Some v else HashTable_GetItemValue k' t;
  table_remove V k k' (t : wHashTable V) : HashTable_GetItemValue k' (HashTable_Remove k t) =
    if decide (k = k') then None else HashTable_GetItemValue k' t;
}.

(** The data that is set for the virtual channels of a peer. *)
Class PeerData := {
  peer_data : Type;
  no_data : peer_data;
  VirtualChannelSetData : Z -> nat -> peer_data -> peer_data;
  VirtualChannelGetData : Z -> peer_data -> option nat;
}.

Class PeerDataLaws (V : PeerData) : Prop := {
  get_no_data h : VirtualChannelGetData h no_data = None;
  get_set_data h h' ch d : VirtualChannelGetData h' (VirtualChannelSetData h ch d) =
    if decide (h = h') then Some ch else VirtualChannelGetData h' d;
}.

(** ** The port *)

(** [begPort] and [endPort] on Linux. *)
Definition freerds_detect_ephemeral_port_range : Z * Z := (32768, 61000).

(** [bound port]: whether [_bind] succeeds for the port. *)
Fixpoint bind_loop (n : nat) (port : Z) (bound : Z -> bool) : option Z :=
  match n with
  | O => None
  | S n => if bound port then Some port else bind_loop n (port + 1) bound
  end.

Definition freerds_bind_local_ephemeral_port (socket : bool) (bound : Z -> bool) : Z :=
  let '(begPort, endPort) := freerds_detect_ephemeral_port_range in
  if negb socket then -1 else
  match bind_loop (Z.to_nat (endPort - begPort + 1)) begPort bound with
  | Some port => port
  | None => -1
  end.

(** The port that the clients are told, and the status: [socket], [bound] and
    [listens] are the results of [_socket], [_bind] and [_listen].  The result
    of the bind is not checked. *)
Definition freerds_channel_server_open (socket : bool) (bound : Z -> bool) (listens : bool) : Z * Z :=
  let listenPort := freerds_bind_local_ephemeral_port socket bound in
  (listenPort, if negb listens then -1 else 1).

(** ** Data *)

Record rdsChannel := mk_channel {
  channel_name : list Z;
  port : Z;
  guidString : list Z;
  socket : option Z;
  connected : bool;
  readyEvent : bool;
  rdpChannel : option Z;
}.

Definition set_socket s (c : rdsChannel) : rdsChannel :=
  mk_channel (channel_name c) (port c) (guidString c) (Some s) true true (rdpChannel c).
Definition set_rdpChannel r (c : rdsChannel) : rdsChannel :=
  mk_channel (channel_name c) (port c) (guidString c) (socket c) (connected c) (readyEvent c) (Some r).

Section Channels.
Context {H : HashTable} {V : PeerData}.

(** [opening]: the channel that the thread of a connection waits for;
    [channels]: the list of a connection; [peers]: the data of its peer. *)
Record rdsChannels := mk_channels {
  listenPort : Z;
  table : wHashTable nat;
  heap : gmap nat rdsChannel;
  opening : gmap Z nat;
  channels : gmap Z (list nat);
  peers : gmap Z peer_data;
  next_channel : nat;
}.

Definition set_table t s := mk_channels (listenPort s) t (heap s) (opening s) (channels s) (peers s) (next_channel s).
Definition set_heap m s := mk_channels (listenPort s) (table s) m (opening s) (channels s) (peers s) (next_channel s).
Definition set_opening o s := mk_channels (listenPort s) (table s) (heap s) o (channels s) (peers s) (next_channel s).
Definition set_channels c s := mk_channels (listenPort s) (table s) (heap s) (opening s) c (peers s) (next_channel s).
Definition set_peers p s := mk_channels (listenPort s) (table s) (heap s) (opening s) (channels s) p (next_channel s).

Definition list_of (conn : Z) (s : rdsChannels) : list nat := default [] (channels s !! conn).
Definition data_of (conn : Z) (s : rdsChannels) : peer_data := default no_data (peers s !! conn).

(** [freerds_channel_server_new], with the port of [freerds_channel_server_open]. *)
Definition freerds_channel_server_new (port_ : Z) : rdsChannels :=
  mk_channels port_ HashTable_New ∅ ∅ ∅ ∅ 0.

Definition freerds_channel_server_add (ch : nat) (c : rdsChannel) (s : rdsChannels) : rdsChannels :=
  set_table (HashTable_Add (guidString c) ch (table s)) s.

Definition freerds_channel_server_remove (c : rdsChannel) (s : rdsChannels) : rdsChannels :=
  set_table (HashTable_Remove (guidString c) (table s)) s.

Definition freerds_client_add_channel (conn : Z) (ch : nat) (s : rdsChannels) : rdsChannels :=
  set_channels (<[conn := list_of conn s ++ [ch]]> (channels s)) s.

(** [ArrayList_Remove]: without the first occurrence. *)
Fixpoint array_remove (ch : nat) (l : list nat) : list nat :=
  match l with
  | [] => []
  | c :: l => if Nat.eqb ch c then l else c :: array_remove ch l
  end.

Definition freerds_client_remove_channel (conn : Z) (ch : nat) (s : rdsChannels) : rdsChannels :=
  set_channels (<[conn := array_remove ch (list_of conn s)]> (channels s)) s.

(** [guid]: what [UuidCreateSequential] returns, as a string. *)
Definition freerds_channel_new (name guid : list Z) (s : rdsChannels) : nat * rdsChannels :=
  let ch := next_channel s in
  (ch, mk_channels (listenPort s) (table s)
         (<[ch := mk_channel name (listenPort s) guid None false false None]> (heap s)) (opening s) (channels s) (peers s) (S ch)).

Definition freerds_channel_free (ch : nat) (s : rdsChannels) : option rdsChannels :=
  _ ← heap s !! ch; Some (set_heap (delete ch (heap s)) s).

(** ** Accepting *)

(** [accepted] is the socket, [received] the bytes that [_recv] has stored.
    The status and the channel that got the socket. *)
Definition freerds_channel_server_accept (accepted : option Z) (received : list Z) (s : rdsChannels) :
    option (Z * option nat * rdsChannels) :=
  match accepted with
  | None => Some (-1, None, s)
  | Some sock =>
      if negb (Z.of_nat (length received) =? 36) then Some (-1, None, s) else
      match HashTable_GetItemValue received (table s) with
      | None => Some (-1, None, s)
      | Some ch =>
          c ← heap s !! ch;
          if connected c then Some (-1, None, s) else
          Some (1, Some ch, set_heap (<[ch := set_socket sock c]> (heap s)) s)
      end
  end.

(** ** Opening a channel *)

(** [freerds_client_process_channel_endpoint_open] up to the wait. *)
Definition endpoint_open_begin (conn : Z) (name guid : list Z) (s : rdsChannels) : option rdsChannels :=
  let '(ch, s) := freerds_channel_new name guid s in
  c ← heap s !! ch;
  let s := freerds_channel_server_add ch c s in
  Some (set_opening (<[conn := ch]> (opening s)) s).

(** After the wait for [readyEvent]: [rdp] is the channel that
    [VirtualChannelOpen] returns; the channel is set as its data. *)
Definition endpoint_open_ready (conn rdp : Z) (ch : nat) (s : rdsChannels) : option rdsChannels :=
  c ← heap s !! ch;
  let s := freerds_channel_server_remove c s in
  let s := set_heap (<[ch := set_rdpChannel rdp c]> (heap s)) s in
  let s := set_peers (<[conn := VirtualChannelSetData rdp ch (data_of conn s)]> (peers s)) s in
  Some (freerds_client_add_channel conn ch (set_opening (delete conn (opening s)) s)).

(** After the timeout: the thread of the connection ends. *)
Definition endpoint_open_timeout (conn : Z) (ch : nat) (s : rdsChannels) : option rdsChannels :=
  s ← freerds_channel_free ch s;
  Some (set_opening (delete conn (opening s)) s).

(** ** Data of a channel *)

(** The loop [while (offset < length)] of [freerdp_client_virtual_channel_read]:
    [send i n] is the result of the i-th [_send] of [n] bytes.  The status and
    the bytes that the sockets have accepted.  [channel->socket] is read for
    every send; [offset] is an [int]. *)
Fixpoint send_loop (n : nat) (send : nat -> Z -> Z) (i : nat) (ch : nat) (s : rdsChannels) (buffer : list Z) (length offset status : Z) :
    option (Z * list (option Z * list Z)) :=
  if offset <? length then
    match n with
    | O => None
    | S n =>
        c ← heap s !! ch;
        let status := send i (length - offset) in
        if status <? 1 then Some (status, []) else
        if 2 ^ 31 <=? offset + status then None else
        '(r, sent) ← send_loop n send (S i) ch s buffer length (offset + status) status;
        Some (r, (socket c, take (Z.to_nat status) (drop (Z.to_nat offset) buffer)) :: sent)
    end
  else Some (if offset =? length then offset else status, []).

(** An iteration sends a byte at least, so that [length] iterations are enough. *)
Definition freerdp_client_virtual_channel_read (conn : Z) (hChannel : option Z) (send : nat -> Z -> Z) (buffer : list Z) (length : Z)
    (s : rdsChannels) : option (Z * list (option Z * list Z)) :=
  match hChannel with
  | None => Some (-1, [])
  | Some h =>
      match VirtualChannelGetData h (data_of conn s) with
      | None => Some (-1, [])
      | Some ch => send_loop (Z.to_nat length) send 0 ch s buffer length 0 1
      end
  end.

(** The statuses of the two [_recv]s and the bytes they store; the comparison
    of the second one is between a converted [int] and a [UINT32].  The status
    and what is written to the RDP channel. *)
Definition freerds_channel_check_socket (recv1 recv2 : Z * list Z) : Z * option (list Z) :=
  if negb (fst recv1 =? 4) then (-1, None) else
  let length := le_val (take 4 (snd recv1)) in
  let status := fst recv2 in
  if negb (u32 status =? length) then (-1, None) else (status, Some (snd recv2)).

(** The loop over the channels of a connection: [io ch] is [None] when the
    event of the channel is not signalled.  The channel with a status below 1,
    which is removed and freed, and the data for the RDP channels. *)
Fixpoint check_channels (l : list nat) (io : nat -> option ((Z * list Z) * (Z * list Z))) (s : rdsChannels) :
    option (option nat * list (nat * list Z)) :=
  match l with
  | [] => Some (None, [])
  | ch :: l =>
      _ ← heap s !! ch;
      match io ch with
      | None => check_channels l io s
      | Some (r1, r2) =>
          let '(status, data) := freerds_channel_check_socket r1 r2 in
          let out := match data with Some d => [(ch, d)] | None => [] end in
          if status <? 1 then Some (Some ch, out) else
          '(failed, out') ← check_channels l io s;
          Some (failed, out ++ out')
      end
  end.

Definition freerds_client_check_channel_event_handles (conn : Z)
    (io : nat -> option ((Z * list Z) * (Z * list Z))) (s : rdsChannels) :
    option (option nat * list (nat * list Z) * rdsChannels) :=
  '(failed, out) ← check_channels (list_of conn s) io s;
  match failed with
  | None => Some (None, out, s)
  | Some ch =>
      s ← freerds_channel_free ch (freerds_client_remove_channel conn ch s);
      Some (Some ch, out, s)
  end.

(** ** The threads *)

Inductive channel_action :=
| c_open (conn : Z) (name guid : list Z)
| c_accept (accepted : option Z) (received : list Z)
| c_ready (conn rdp : Z)
| c_timeout (conn : Z)
| c_check (conn : Z) (io : nat -> option ((Z * list Z) * (Z * list Z)))
| c_read (conn : Z) (hChannel : option Z) (send : nat -> Z -> Z) (buffer : list Z).

Inductive channel_label :=
| l_opened (guid : list Z)
| l_accepted (ch : nat) (guid : list Z)
| l_rejected
| l_ready
| l_timeout
| l_data (failed : option nat) (out : list (nat * list Z))
| l_sent (status : Z) (sent : list (option Z * list Z)).

(** When the thread of the action is ready for it: a connection that waits for
    a channel does nothing else.  [_send] takes at most what it is given, and
    the length of a buffer is an [int]. *)
Definition enabled (a : channel_action) (h : list channel_label) (s : rdsChannels) : Prop :=
  match a with
  | c_open conn _ guid => opening s !! conn = None /\ l_opened guid ∉ h
  | c_accept _ _ => True
  | c_ready conn _ => exists ch c, opening s !! conn = Some ch /\ heap s !! ch = Some c /\ readyEvent c = true
  | c_timeout conn => exists ch c, opening s !! conn = Some ch /\ heap s !! ch = Some c /\ readyEvent c = false
  | c_check conn _ => opening s !! conn = None
  | c_read conn _ send buffer => opening s !! conn = None /\ (forall i n, send i n <= n) /\ Z.of_nat (length buffer) < 2 ^ 31
  end.

Definition channel_act (a : channel_action) (s : rdsChannels) : option (channel_label * rdsChannels) :=
  match a with
  | c_open conn name guid => s ← endpoint_open_begin conn name guid s; Some (l_opened guid, s)
  | c_accept accepted received =>
      '(_, ch, s) ← freerds_channel_server_accept accepted received s;
      Some (match ch with Some ch => l_accepted ch received | None => l_rejected end, s)
  | c_ready conn rdp => ch ← opening s !! conn; s ← endpoint_open_ready conn rdp ch s; Some (l_ready, s)
  | c_timeout conn => ch ← opening s !! conn; s ← endpoint_open_timeout conn ch s; Some (l_timeout, s)
  | c_check conn io => '(failed, out, s) ← freerds_client_check_channel_event_handles conn io s; Some (l_data failed out, s)
  | c_read conn hChannel send buffer =>
      '(status, sent) ← freerdp_client_virtual_channel_read conn hChannel send buffer (Z.of_nat (length buffer)) s;
      Some (l_sent status sent, s)
  end.

(** Runs with their history, the last label first. *)
Inductive channel_run (port_ : Z) : list channel_label -> rdsChannels -> Prop :=
| channel_start : channel_run port_ [] (freerds_channel_server_new port_)
| channel_next h s a l s' : channel_run port_ h s -> enabled a h s -> channel_act a s = Some (l, s') ->
    channel_run port_ (l :: h) s'.
End Channels.
