(* ===== verification/ChannelFacts.v ===== *)
(** * Virtual channels: the invariant

    Who points to a channel: the table and the thread that waits for it while
    it is opened, the list of its connection afterwards. *)

From S2P Require Import Prelude Channels.
From stdpp Require Import gmap list.
#[local] Open Scope Z_scope.

Section Facts.
Context {T : HashTable} {TL : HashTableLaws T} {V : PeerData} {VL : PeerDataLaws V}.
Abbreviation get := HashTable_GetItemValue.

Lemma bind_loop_range n port_ bound p : bind_loop n port_ bound = Some p ->
  port_ <= p < port_ + Z.of_nat n /\ bound p = true /\ forall q, port_ <= q < p -> bound q = false.
Proof.
  revert port_. induction n as [|n IH]; intros port_; cbn; [done|]. destruct (bound port_) eqn:E.
  - intros [= <-]. split; [lia|]. split; [done|]. lia.
  - intros (Hr & Hb & Hq)%IH. split; [lia|]. split; [done|]. intros q Hl.
    destruct (Z.eq_dec q port_) as [->|]; [done|]. apply Hq. lia.
Qed.

Record channels_ok (h : list channel_label) (s : rdsChannels) : Prop := {
  i_table g ch : get g (table s) = Some ch ->
    (exists conn, opening s !! conn = Some ch) /\ (exists c, heap s !! ch = Some c /\ guidString c = g) /\ l_opened g ∈ h;
  i_open conn ch : opening s !! conn = Some ch ->
    exists c, heap s !! ch = Some c /\ get (guidString c) (table s) = Some ch /\ readyEvent c = connected c;
  i_inj conn conn' ch : opening s !! conn = Some ch -> opening s !! conn' = Some ch -> conn = conn';
  i_list conn ch : ch ∈ list_of conn s ->
    (exists c, heap s !! ch = Some c /\ connected c = true) /\ (forall conn', opening s !! conn' <> Some ch) /\
    (forall conn', ch ∈ list_of conn' s -> conn' = conn);
  i_nodup conn : NoDup (list_of conn s);
  i_fresh ch : is_Some (heap s !! ch) -> (ch < next_channel s)%nat;
  i_accepted ch g : l_accepted ch g ∈ h ->
    l_opened g ∈ h /\ (ch < next_channel s)%nat /\ (forall c, heap s !! ch = Some c -> connected c = true) /\
    (forall ch', get g (table s) = Some ch' -> ch' = ch);
  i_peer conn hd ch : VirtualChannelGetData hd (data_of conn s) = Some ch ->
    (ch < next_channel s)%nat /\ (is_Some (heap s !! ch) \/ exists out, l_data (Some ch) out ∈ h);
  i_dropped ch out : l_data (Some ch) out ∈ h -> heap s !! ch = None /\ (ch < next_channel s)%nat;
}.

Lemma ok_start port_ : channels_ok [] (freerds_channel_server_new port_).
Proof.
  split; cbn.
  - intros g ch. by rewrite table_new.
  - intros conn ch. by rewrite lookup_empty.
  - intros conn conn' ch. by rewrite lookup_empty.
  - intros conn ch. unfold list_of. cbn. rewrite lookup_empty. by intros ?%not_elem_of_nil.
  - intros conn. unfold list_of. cbn. rewrite lookup_empty. constructor.
  - intros ch. rewrite lookup_empty. by intros [].
  - by intros ch g ?%not_elem_of_nil.
  - intros conn hd ch. unfold data_of. cbn. rewrite lookup_empty. cbn. by rewrite get_no_data.
  - by intros ch out ?%not_elem_of_nil.
Qed.

(** A history with one more label that is neither an acceptance nor the end of
    a channel. *)
Lemma ok_label h s l : (forall ch g, l <> l_accepted ch g) -> (forall ch out, l <> l_data (Some ch) out) -> channels_ok h s -> channels_ok (l :: h) s.
Proof.
  intros Hl Hd [H1 H2 H3 H4 H5 H6 H7 H8 H9]. split; try done.
  - intros g ch E. destruct (H1 g ch E) as (? & ? & ?). split; [done|]. split; [done|by right].
  - intros ch g [E|Hin]%elem_of_cons; [by destruct (Hl ch g)|]. destruct (H7 ch g Hin) as (? & ?). split; [by right|done].
  - intros conn hd ch E. destruct (H8 conn hd ch E) as (? & [?|[out ?]]); (split; [done|]); [by left|right; exists out; by right].
  - intros ch out [E|Hin]%elem_of_cons; [by destruct (Hd ch out)|]. by apply (H9 ch out).
Qed.

Lemma open_ok h s conn name guid :
  channels_ok h s -> enabled (c_open conn name guid) h s ->
  exists s', channel_act (c_open conn name guid) s = Some (l_opened guid, s') /\ channels_ok (l_opened guid :: h) s'.
Proof.
  intros H [Ho Hg]. cbn [channel_act]. unfold endpoint_open_begin, freerds_channel_new. cbn [heap].
  rewrite lookup_insert_eq. cbn [mbind option_bind guidString freerds_channel_server_add]. eexists. split; [reflexivity|].
  set (ch0 := next_channel s). assert (heap s !! ch0 = None) as Hn.
  { destruct (heap s !! ch0) eqn:E; [|done]. pose proof (i_fresh _ _ H ch0 ltac:(by eexists)). unfold ch0 in *. lia. }
  assert (get guid (table s) = None) as Hnone.
  { destruct (get guid (table s)) eqn:E; [|done]. by apply (i_table _ _ H) in E as (_ & _ & ?). }
  assert (forall ch c, heap s !! ch = Some c -> ch <> ch0) as Hne by (intros ch c Hc ->; congruence).
  split; cbn.
  - intros g ch. rewrite table_add. case_decide as Hd.
    + intros [= <-]. subst g. split; [exists conn; by rewrite lookup_insert_eq|]. split; [|left].
      eexists. by rewrite lookup_insert_eq.
    + intros E. destruct (i_table _ _ H g ch E) as ([conn' Hc] & (c & Hh & Eg) & Hin).
      split; [|split; [|by right]].
      * exists conn'. rewrite lookup_insert_ne; [done|]. congruence.
      * exists c. rewrite lookup_insert_ne; [done|]. by specialize (Hne _ _ Hh).
  - intros conn' ch. destruct (decide (conn = conn')) as [<-|Hc].
    + rewrite lookup_insert_eq. intros [= <-]. eexists. rewrite lookup_insert_eq. split; [done|].
      cbn. rewrite table_add, decide_True by done. done.
    + rewrite lookup_insert_ne by done. intros E. destruct (i_open _ _ H conn' ch E) as (c & Hh & Ht & Hr).
      exists c. rewrite lookup_insert_ne by (by specialize (Hne _ _ Hh)). split; [done|]. split; [|done].
      rewrite table_add, decide_False; [done|]. intros Eg. rewrite <-Eg in Ht. congruence.
  - intros conn1 conn2 ch.
    assert (forall conn', opening s !! conn' = Some ch -> ch <> ch0) as Hoc.
    { intros conn' E. destruct (i_open _ _ H conn' ch E) as (c & Hh & _). by apply (Hne ch c). }
    destruct (decide (conn = conn1)) as [<-|], (decide (conn = conn2)) as [<-|]; rewrite ?lookup_insert_eq, ?lookup_insert_ne by done;
      try done; [intros [= <-] E; by destruct (Hoc _ E)|intros E [= <-]; by destruct (Hoc _ E)|by apply (i_inj _ _ H)].
  - intros conn' ch Hin. change (list_of conn' _) with (list_of conn' s) in Hin.
    destruct (i_list _ _ H conn' ch Hin) as ((c & Hh & Hcon) & Hop & Hl). split; [|split; [|done]].
    + exists c. rewrite lookup_insert_ne by (by specialize (Hne _ _ Hh)). done.
    + intros conn2. destruct (decide (conn = conn2)) as [<-|]; [|by rewrite lookup_insert_ne].
      rewrite lookup_insert_eq. intros [= <-]. by specialize (Hne _ _ Hh).
  - apply (i_nodup _ _ H).
  - intros ch. destruct (decide (ch0 = ch)) as [<-|]; [unfold ch0; lia|]. rewrite lookup_insert_ne by done.
    intros Hs. pose proof (i_fresh _ _ H ch Hs). lia.
  - intros ch g [?|Hin]%elem_of_cons; [done|]. destruct (i_accepted _ _ H ch g Hin) as (Hop & Hlt & Hcon & Huniq).
    split; [by right|]. split; [lia|]. split.
    + intros c. rewrite lookup_insert_ne by (unfold ch0; lia). apply Hcon.
    + intros ch'. rewrite table_add. case_decide as Hd; [by subst|]. apply Huniq.
  - intros conn' hd ch E. destruct (i_peer _ _ H conn' hd ch E) as (Hlt & [Ha|[out Hin]]); (split; [lia|]).
    + left. by rewrite lookup_insert_ne by (unfold ch0; lia).
    + right. exists out. by right.
  - intros ch out [?|Hin]%elem_of_cons; [done|]. destruct (i_dropped _ _ H ch out Hin) as [Hd Hlt].
    split; [|lia]. by rewrite lookup_insert_ne by (unfold ch0; lia).
Qed.

Lemma accept_ok h s accepted received :
  channels_ok h s ->
  exists l s', channel_act (c_accept accepted received) s = Some (l, s') /\ channels_ok (l :: h) s' /\
    (l = l_rejected \/ exists ch, l = l_accepted ch received /\ l_opened received ∈ h /\
       forall ch1 g1, l_accepted ch1 g1 ∈ h -> ch1 <> ch /\ g1 <> received).
Proof.
  intros H. cbn [channel_act]. unfold freerds_channel_server_accept.
  assert (channels_ok (l_rejected :: h) s) as Hrej by by apply ok_label.
  destruct accepted as [sock|]; cbn [mbind option_bind]; [|by do 2 eexists; auto].
  destruct (negb _); cbn [mbind option_bind]; [by do 2 eexists; auto|].
  destruct (get received (table s)) as [ch|] eqn:E; cbn [mbind option_bind]; [|by do 2 eexists; auto].
  destruct (i_table _ _ H received ch E) as ([conn Hc] & (c & Hh & Eg) & Hin). rewrite Hh. cbn [mbind option_bind].
  destruct (connected c) eqn:Econ; cbn [mbind option_bind]; [by do 2 eexists; auto|].
  do 2 eexists. split; [reflexivity|]. split.
  2:{ right. exists ch. split; [done|]. split; [done|]. intros ch1 g1 Hacc.
      destruct (i_accepted _ _ H ch1 g1 Hacc) as (_ & _ & Hcon & Hu). split.
      - intros ->. specialize (Hcon c Hh). congruence.
      - intros ->. specialize (Hu ch E). subst ch1. specialize (Hcon c Hh). congruence. }
  assert (forall ch' c', <[ch := set_socket sock c]> (heap s) !! ch' = Some c' ->
    exists c0, heap s !! ch' = Some c0 /\ guidString c' = guidString c0 /\ (connected c0 = true -> connected c' = true) /\
      (readyEvent c0 = connected c0 -> readyEvent c' = connected c')) as Hold.
  { intros ch' c'. destruct (decide (ch = ch')) as [<-|]; [|rewrite lookup_insert_ne by done; eauto 10].
    rewrite lookup_insert_eq. intros [= <-]. exists c. auto. }
  assert (forall ch' c', heap s !! ch' = Some c' -> exists c1, <[ch := set_socket sock c]> (heap s) !! ch' = Some c1 /\
    guidString c1 = guidString c' /\ (connected c' = true -> connected c1 = true) /\
    (readyEvent c' = connected c' -> readyEvent c1 = connected c1)) as Hnew.
  { intros ch' c' E'. destruct (decide (ch = ch')) as [<-|]; [|rewrite lookup_insert_ne by done; eauto 10].
    exists (set_socket sock c). rewrite lookup_insert_eq. rewrite Hh in E'. injection E' as <-. auto. }
  split; cbn.
  - intros g ch' E'. destruct (i_table _ _ H g ch' E') as (Hc' & (c' & Hh' & Eg') & Hin').
    split; [done|]. split; [|by right]. destruct (Hnew ch' c' Hh') as (c1 & E1 & Eg1 & _). exists c1. split; [done|congruence].
  - intros conn' ch' E'. destruct (i_open _ _ H conn' ch' E') as (c' & Hh' & Ht & Hr).
    destruct (Hnew ch' c' Hh') as (c1 & E1 & Eg1 & _ & Hr1). exists c1. rewrite Eg1. auto.
  - apply (i_inj _ _ H).
  - intros conn' ch' Hl. destruct (i_list _ _ H conn' ch' Hl) as ((c' & Hh' & Hcon') & Hop & Hd).
    split; [|done]. destruct (Hnew ch' c' Hh') as (c1 & E1 & _ & Hc1 & _). eauto.
  - apply (i_nodup _ _ H).
  - intros ch' [c' E']. apply (i_fresh _ _ H). destruct (Hold ch' c' E') as (c0 & E0 & _). by eexists.
  - intros ch' g' [[= -> ->]|Hacc]%elem_of_cons.
    + split; [by right|]. split; [apply (i_fresh _ _ H); by eexists|]. split; [|intros ch2; congruence].
      intros c'. rewrite lookup_insert_eq. by intros [= <-].
    + destruct (i_accepted _ _ H ch' g' Hacc) as (? & ? & Hcon & ?). split; [by right|]. split; [done|]. split; [|done].
      intros c' E'. destruct (Hold ch' c' E') as (c0 & E0 & _ & Hc0 & _). apply Hc0, Hcon, E0.
  - intros conn' hd ch' E'. destruct (i_peer _ _ H conn' hd ch' E') as (Hlt & [[c' Ha]|[out Hin']]); (split; [done|]).
    + left. destruct (Hnew ch' c' Ha) as (c1 & E1 & _). by eexists.
    + right. exists out. by right.
  - intros ch' out [?|Hin']%elem_of_cons; [done|]. destruct (i_dropped _ _ H ch' out Hin') as [Hd Hlt].
    split; [|done]. rewrite lookup_insert_ne by congruence. done.
Qed.

(** The list of a connection after an update of the lists. *)
Lemma list_of_insert conn conn' l s :
  list_of conn' (set_channels (<[conn := l]> (channels s)) s) = if decide (conn = conn') then l else list_of conn' s.
Proof.
  unfold list_of. cbn. case_decide as Hd; [subst; by rewrite lookup_insert_eq|by rewrite lookup_insert_ne].
Qed.

Lemma ready_ok h s conn rdp :
  channels_ok h s -> enabled (c_ready conn rdp) h s ->
  exists s', channel_act (c_ready conn rdp) s = Some (l_ready, s') /\ channels_ok (l_ready :: h) s'.
Proof.
  intros H (ch & c & Hop & Hh & Hr). cbn [channel_act]. rewrite Hop. cbn [mbind option_bind].
  unfold endpoint_open_ready. rewrite Hh. cbn [mbind option_bind]. eexists. split; [reflexivity|].
  destruct (i_open _ _ H conn ch Hop) as (c' & Hh' & Ht & Hrc). rewrite Hh in Hh'. injection Hh' as <-.
  unfold freerds_client_add_channel. set (s1 := set_opening _ _).
  assert (forall conn', list_of conn' s1 = list_of conn' s) as Hl1 by done.
  assert (forall ch' c', heap s !! ch' = Some c' -> exists c1, heap s1 !! ch' = Some c1 /\
    guidString c1 = guidString c' /\ connected c1 = connected c' /\ readyEvent c1 = readyEvent c') as Hnew.
  { intros ch' c' E'. cbn. destruct (decide (ch = ch')) as [<-|]; [|rewrite lookup_insert_ne by done; eauto].
    rewrite lookup_insert_eq. rewrite Hh in E'. injection E' as <-. eauto. }
  assert (forall ch' c1, heap s1 !! ch' = Some c1 -> exists c', heap s !! ch' = Some c' /\ connected c1 = connected c') as Hold.
  { intros ch' c1. cbn. destruct (decide (ch = ch')) as [<-|]; [|rewrite lookup_insert_ne by done; eauto].
    rewrite lookup_insert_eq. intros [= <-]. eauto. }
  assert (forall conn' ch', opening s1 !! conn' = Some ch' <-> conn' <> conn /\ opening s !! conn' = Some ch') as Hopen.
  { intros conn' ch'. cbn. rewrite lookup_delete_Some. intuition congruence. }
  assert (forall g ch', get g (table s1) = Some ch' <-> g <> guidString c /\ get g (table s) = Some ch') as Htab.
  { intros g ch'. cbn. rewrite table_remove. case_decide; intuition congruence. }
  assert (forall conn', ch ∉ list_of conn' s) as Hnot by (intros conn' Hin; by destruct (i_list _ _ H _ _ Hin) as (_ & Hx & _); apply (Hx conn)).
  split.
  - intros g ch' [Hg E]%Htab. destruct (i_table _ _ H g ch' E) as ([conn' Hc] & (c' & Hh' & Eg) & Hin).
    split; [|split; [|by right]].
    + exists conn'. apply Hopen. split; [|done]. intros ->. rewrite Hop in Hc. injection Hc as <-. congruence.
    + destruct (Hnew ch' c' Hh') as (c1 & E1 & Eg1 & _). exists c1. split; [done|congruence].
  - intros conn' ch' [Hne E]%Hopen. destruct (i_open _ _ H conn' ch' E) as (c' & Hh' & Ht' & Hr').
    destruct (Hnew ch' c' Hh') as (c1 & E1 & Eg1 & Ec1 & Er1). exists c1. split; [done|]. split; [|congruence].
    apply Htab. rewrite Eg1. split; [|done]. intros Eg. rewrite Eg, Ht in Ht'. injection Ht' as <-.
    by apply Hne, (i_inj _ _ H _ _ ch).
  - intros c1 c2 ch' [_ E1]%Hopen [_ E2]%Hopen. by apply (i_inj _ _ H _ _ ch').
  - intros conn' ch'. rewrite list_of_insert, Hl1. intros Hin.
    assert (ch' = ch /\ conn' = conn \/ ch' ∈ list_of conn' s) as [[-> ->]|Hin'].
    { case_decide as Hd; [|by right]. subst conn'. apply elem_of_app in Hin as [?| ->%list_elem_of_singleton]; auto. }
    + split; [destruct (Hnew ch c Hh) as (c1 & E1 & _ & Ec1 & _); exists c1; split; [done|congruence]|]. split.
      * intros conn' [Hne E]%Hopen. by apply Hne, (i_inj _ _ H _ _ ch).
      * intros conn'. rewrite list_of_insert, Hl1. destruct (decide (conn = conn')) as [<-|Hd]; [by intros _|]. intros Hx. by destruct (Hnot conn').
    + destruct (i_list _ _ H conn' ch' Hin') as ((c' & Hh' & Hc') & Hx & Hu). split.
      { destruct (Hnew ch' c' Hh') as (c1 & E1 & _ & Ec1 & _). exists c1. split; [done|congruence]. }
      split; [intros conn2 [_ E]%Hopen; by apply (Hx conn2)|]. intros conn2. rewrite list_of_insert, Hl1. destruct (decide (conn = conn2)) as [<-|Hd].
      * intros [Hi| ->%list_elem_of_singleton]%elem_of_app; [by apply Hu|]. by destruct (Hnot conn').
      * apply Hu.
  - intros conn'. rewrite list_of_insert, Hl1. case_decide as Hd; [|apply (i_nodup _ _ H)].
    apply NoDup_app. split; [apply (i_nodup _ _ H)|]. split; [|apply NoDup_singleton].
    intros x Hx ->%list_elem_of_singleton. by destruct (Hnot conn).
  - intros ch' [c1 E1]. destruct (Hold ch' c1 E1) as (c' & E' & _). apply (i_fresh _ _ H). by eexists.
  - intros ch' g' [?|Hacc]%elem_of_cons; [done|]. destruct (i_accepted _ _ H ch' g' Hacc) as (? & ? & Hcon & Hu).
    split; [by right|]. split; [done|]. split; [|intros ch2 [_ E]%Htab; by apply Hu].
    intros c1 E1. destruct (Hold ch' c1 E1) as (c' & E' & ->). by apply Hcon.
  - intros conn' hd ch' E'. assert (ch' = ch \/ VirtualChannelGetData hd (data_of conn' s) = Some ch') as [->|E0].
    { revert E'. unfold data_of at 1. cbn. destruct (decide (conn = conn')) as [<-|]; [|rewrite lookup_insert_ne by done; by right].
      rewrite lookup_insert_eq. cbn. rewrite get_set_data. case_decide; [left; congruence|by right]. }
    + split; [apply (i_fresh _ _ H); by eexists|]. left. cbn. rewrite lookup_insert_eq. by eexists.
    + destruct (i_peer _ _ H conn' hd ch' E0) as (Hlt & [[c' Ha]|[out Hin']]); (split; [done|]).
      * left. destruct (Hnew ch' c' Ha) as (c1 & E1 & _). by eexists.
      * right. exists out. by right.
  - intros ch' out [?|Hin']%elem_of_cons; [done|]. destruct (i_dropped _ _ H ch' out Hin') as [Hd Hlt].
    split; [|done]. cbn. rewrite lookup_insert_ne by congruence. done.
Qed.

Lemma check_channels_defined l io s :
  (forall ch, ch ∈ l -> is_Some (heap s !! ch)) ->
  exists failed out, check_channels l io s = Some (failed, out) /\ (forall ch, failed = Some ch -> ch ∈ l).
Proof.
  induction l as [|ch l IH]; intros Hl; cbn [check_channels].
  { exists None, []. split; [done|]. done. }
  destruct (Hl ch) as [c ->]; [left|]. cbn [mbind option_bind].
  destruct IH as (failed & out & -> & Hf); [intros; apply Hl; by right|].
  destruct (io ch) as [[r1 r2]|].
  - destruct (freerds_channel_check_socket r1 r2) as [st data]. destruct (st <? 1).
    + do 2 eexists. split; [reflexivity|]. intros ? [= <-]. left.
    + do 2 eexists. split; [reflexivity|]. intros ch' E. right. by apply Hf.
  - do 2 eexists. split; [reflexivity|]. intros ch' E. right. by apply Hf.
Qed.

Lemma elem_of_array_remove ch ch' l : NoDup l -> ch' ∈ array_remove ch l <-> ch' ∈ l /\ ch' <> ch.
Proof.
  induction 1 as [|c l Hc Hd IH]; cbn.
  { split; [by intros ?%not_elem_of_nil|by intros [?%not_elem_of_nil _]]. }
  destruct (Nat.eqb_spec ch c) as [->|Hne]; rewrite !elem_of_cons.
  - split; [intros Hi; split; [by right|intros ->; done]|intros [[?|?] ?]; done].
  - rewrite IH. split; [intros [->|[? ?]]; auto|intros [[->|?] ?]; auto].
Qed.

Lemma array_remove_nodup ch l : NoDup l -> NoDup (array_remove ch l).
Proof.
  induction 1 as [|c l Hc Hd IH]; cbn; [constructor|]. destruct (Nat.eqb ch c); [done|].
  constructor; [|done]. intros [? _]%elem_of_array_remove; done.
Qed.

(** A channel of a list leaves it and is freed. *)
Lemma drop_ok h s conn ch out :
  channels_ok h s -> ch ∈ list_of conn s ->
  exists s', freerds_channel_free ch (freerds_client_remove_channel conn ch s) = Some s' /\ channels_ok (l_data (Some ch) out :: h) s'.
Proof.
  intros H Hin. destruct (i_list _ _ H conn ch Hin) as ((c & Hh & Hcon) & Hop & Hu).
  unfold freerds_channel_free, freerds_client_remove_channel. cbn [heap set_channels]. rewrite Hh. cbn [mbind option_bind].
  eexists. split; [reflexivity|]. set (s' := set_heap _ _).
  assert (forall ch' c', heap s' !! ch' = Some c' <-> ch' <> ch /\ heap s !! ch' = Some c') as Hheap.
  { intros ch' c'. cbn. rewrite lookup_delete_Some. intuition congruence. }
  assert (forall conn' ch', ch' ∈ list_of conn' s' <-> ch' ∈ list_of conn' s /\ ch' <> ch) as Hlist.
  { intros conn' ch'. change (list_of conn' s') with
      (list_of conn' (set_channels (<[conn := array_remove ch (list_of conn s)]> (channels s)) s)).
    rewrite list_of_insert. case_decide as Hd.
    - subst conn'. apply elem_of_array_remove, (i_nodup _ _ H).
    - split; [|tauto]. intros Hx. split; [done|]. intros ->. by apply Hd; rewrite (Hu conn' Hx). }
  split.
  - intros g ch' E. destruct (i_table _ _ H g ch' E) as ([conn' Hc] & (c' & Hh' & Eg) & Ho). split; [by exists conn'|].
    split; [|by right]. exists c'. split; [|done]. apply Hheap. split; [|done]. intros ->. by apply (Hop conn').
  - intros conn' ch' E. destruct (i_open _ _ H conn' ch' E) as (c' & Hh' & Ht & Hr). exists c'. split; [|done].
    apply Hheap. split; [|done]. intros ->. by apply (Hop conn').
  - apply (i_inj _ _ H).
  - intros conn' ch' [Hl Hne]%Hlist. destruct (i_list _ _ H conn' ch' Hl) as ((c' & Hh' & Hc') & Ho & Hx). split.
    { exists c'. split; [|done]. by apply Hheap. }
    split; [done|]. intros conn2 [Hl2 _]%Hlist. by apply Hx.
  - intros conn'. change (list_of conn' s') with
      (list_of conn' (set_channels (<[conn := array_remove ch (list_of conn s)]> (channels s)) s)).
    rewrite list_of_insert. case_decide; [apply array_remove_nodup|]; apply (i_nodup _ _ H).
  - intros ch' [c' [_ E]%Hheap]. apply (i_fresh _ _ H). by eexists.
  - intros ch' g [?|Hacc]%elem_of_cons; [done|]. destruct (i_accepted _ _ H ch' g Hacc) as (? & ? & Hc' & Hx). split; [by right|]. split; [done|].
    split; [|done]. intros c' [_ E]%Hheap. by apply Hc'.
  - intros conn' hd ch' E. destruct (i_peer _ _ H conn' hd ch' E) as (Hlt & Ha). split; [done|].
    destruct (decide (ch' = ch)) as [->|Hne]; [right; exists out; left|]. destruct Ha as [[c' Ha]|[out' Ha]].
    + left. exists c'. by apply Hheap.
    + right. exists out'. by right.
  - intros ch' out' [[= -> _]|Hin']%elem_of_cons.
    + split; [cbn; apply lookup_delete_eq|]. apply (i_fresh _ _ H). by eexists.
    + destruct (i_dropped _ _ H ch' out' Hin') as [Hd Hlt]. split; [|done]. cbn. apply lookup_delete_None. by right.
Qed.

Lemma check_ok h s conn io :
  channels_ok h s ->
  exists failed out s', channel_act (c_check conn io) s = Some (l_data failed out, s') /\ channels_ok (l_data failed out :: h) s'.
Proof.
  intros H. cbn [channel_act]. unfold freerds_client_check_channel_event_handles.
  destruct (check_channels_defined (list_of conn s) io s) as (failed & out & -> & Hf).
  { intros ch Hin. destruct (i_list _ _ H conn ch Hin) as ((c & Hh & _) & _). by eexists. }
  cbn [mbind option_bind]. destruct failed as [ch|].
  - destruct (drop_ok h s conn ch out H (Hf ch eq_refl)) as (s' & -> & Hok). cbn [mbind option_bind].
    by exists (Some ch), out, s'.
  - exists None, out, s. split; [done|]. by apply ok_label.
Qed.

(** ** Data of the client *)

(** The loop sends a prefix of the buffer to the socket of the channel. *)
Lemma send_loop_ok send ch c s buffer len n i offset status :
  heap s !! ch = Some c -> (forall i n, send i n <= n) -> len = Z.of_nat (length buffer) -> len < 2 ^ 31 -> 0 <= offset <= len ->
  (Z.to_nat (len - offset) <= n)%nat ->
  exists r sent, send_loop n send i ch s buffer len offset status = Some (r, sent) /\
    Forall (fun p => fst p = socket c) sent /\ concat (snd <$> sent) `prefix_of` drop (Z.to_nat offset) buffer /\
    (1 <= r -> r = len /\ concat (snd <$> sent) = drop (Z.to_nat offset) buffer).
Proof.
  intros Hh Hs Hlen Hl. revert i offset status. induction n as [|n IH]; intros i offset status Ho Hn; cbn [send_loop].
  - destruct (Z.ltb_spec offset len); [lia|]. assert (offset = len) as -> by lia. rewrite Z.eqb_refl. eexists _, []. split; [done|].
    rewrite drop_ge by lia. split; [constructor|]. split; [done|]. by intros _.
  - destruct (Z.ltb_spec offset len) as [Hlt|Hge].
    + rewrite Hh. cbn [mbind option_bind]. pose proof (Hs i (len - offset)) as Hst. set (st := send i (len - offset)) in *.
      destruct (Z.ltb_spec st 1) as [H1|H1].
      { exists st, []. split; [done|]. split; [constructor|]. split; [apply prefix_nil|]. lia. }
      destruct (Z.leb_spec (2 ^ 31) (offset + st)) as [?|_]; [lia|].
      destruct (IH (S i) (offset + st) st ltac:(lia) ltac:(lia)) as (r & sent & -> & Hf & Hp & Hr). cbn [mbind option_bind].
      eexists _, _. split; [reflexivity|]. split; [by constructor|]. cbn.
      rewrite Z2Nat.inj_add, <- drop_drop in Hp, Hr by lia.
      rewrite <- (take_drop (Z.to_nat st) (drop (Z.to_nat offset) buffer)) at 2 4. split; [by apply prefix_app|].
      intros (-> & ->)%Hr. done.
    + assert (offset = len) as -> by lia. rewrite Z.eqb_refl. eexists _, []. split; [done|].
      rewrite drop_ge by lia. split; [constructor|]. split; [done|]. by intros _.
Qed.

(** A read through a handle whose channel has not been freed. *)
Definition not_dropped (a : channel_action) (h : list channel_label) (s : rdsChannels) : Prop :=
  match a with
  | c_read conn (Some hd) _ _ => forall ch out, VirtualChannelGetData hd (data_of conn s) = Some ch -> l_data (Some ch) out ∉ h
  | _ => True
  end.

Lemma read_live s conn hd send buffer ch c :
  (opening s !! conn = None /\ (forall i n, send i n <= n) /\ Z.of_nat (length buffer) < 2 ^ 31) ->
  VirtualChannelGetData hd (data_of conn s) = Some ch -> heap s !! ch = Some c ->
  exists st sent, channel_act (c_read conn (Some hd) send buffer) s = Some (l_sent st sent, s) /\
    Forall (fun p => fst p = socket c) sent /\ concat (snd <$> sent) `prefix_of` buffer /\ (1 <= st -> concat (snd <$> sent) = buffer).
Proof.
  intros (_ & Hs & Hb) E Hc. cbn [channel_act]. unfold freerdp_client_virtual_channel_read. rewrite E.
  destruct (send_loop_ok send ch c s buffer _ (Z.to_nat (Z.of_nat (length buffer))) 0 0 1 Hc Hs eq_refl Hb) as (r & sent & -> & Hf & Hp & Hr); [lia..|].
  cbn [mbind option_bind]. eexists _, _. split; [done|]. split; [done|]. split; [done|]. intros H1. by apply Hr.
Qed.

Lemma read_ok h s conn hChannel send buffer :
  channels_ok h s -> enabled (c_read conn hChannel send buffer) h s -> not_dropped (c_read conn hChannel send buffer) h s ->
  exists status sent, channel_act (c_read conn hChannel send buffer) s = Some (l_sent status sent, s) /\ channels_ok (l_sent status sent :: h) s.
Proof.
  intros H He Hd. destruct hChannel as [hd|]; [|cbn; eexists _, _; split; [done|by apply ok_label]].
  destruct (VirtualChannelGetData hd (data_of conn s)) as [ch|] eqn:E.
  - destruct (i_peer _ _ H conn hd ch E) as (_ & [[c Hc]|[out Ho]]); [|by destruct (Hd ch out E)].
    destruct (read_live s conn hd send buffer ch c He E Hc) as (st & sent & E' & _). exists st, sent. split; [done|by apply ok_label].
  - cbn [channel_act]. unfold freerdp_client_virtual_channel_read. rewrite E. cbn. eexists _, _. split; [done|by apply ok_label].
Qed.

(** ** Runs without timeouts *)

Definition no_timeout (a : channel_action) : Prop := match a with c_timeout _ => False | _ => True end.

Lemma step_ok h s a :
  channels_ok h s -> enabled a h s -> no_timeout a -> not_dropped a h s ->
  exists l s', channel_act a s = Some (l, s') /\ channels_ok (l :: h) s' /\
    forall ch g, l = l_accepted ch g -> l_opened g ∈ h /\ forall ch1 g1, l_accepted ch1 g1 ∈ h -> ch1 <> ch /\ g1 <> g.
Proof.
  intros H He Hn Hd. destruct a as [conn name guid|accepted received|conn rdp|conn|conn io|conn hd send buffer].
  - destruct (open_ok h s conn name guid H He) as (s' & E & Hok). do 2 eexists. split; [done|]. split; [done|]. done.
  - destruct (accept_ok h s accepted received H) as (l & s' & E & Hok & Hl). exists l, s'. split; [done|]. split; [done|].
    intros ch g ->. destruct Hl as [?|(ch' & [= -> ->] & Ho & Hx)]; [done|]. done.
  - destruct (ready_ok h s conn rdp H He) as (s' & E & Hok). do 2 eexists. split; [done|]. split; [done|]. done.
  - done.
  - destruct (check_ok h s conn io H) as (failed & out & s' & E & Hok). do 2 eexists. split; [done|]. split; [done|]. done.
  - destruct (read_ok h s conn hd send buffer H He Hd) as (st & sent & E & Hok). do 2 eexists. split; [done|]. split; [done|]. done.
Qed.

Lemma read_or_not a : (exists conn hd send buffer, a = c_read conn hd send buffer) \/ forall h s, not_dropped a h s.
Proof. destruct a; [by right..|left; by eexists _, _, _, _]. Qed.

(** A read of data for a channel that has been freed. *)
Lemma read_dropped h s conn hd send buffer ch out :
  channels_ok h s -> VirtualChannelGetData hd (data_of conn s) = Some ch -> l_data (Some ch) out ∈ h -> buffer <> [] ->
  channel_act (c_read conn (Some hd) send buffer) s = None.
Proof.
  intros H E Ho Hb. destruct (i_dropped _ _ H ch out Ho) as [Hn _]. cbn [channel_act]. unfold freerdp_client_virtual_channel_read. rewrite E.
  destruct buffer as [|b buffer]; [done|]. destruct (Z.to_nat (Z.of_nat (length (b :: buffer)))) as [|n] eqn:En; [cbn in En; lia|]. cbn [send_loop].
  destruct (Z.ltb_spec 0 (Z.of_nat (length (b :: buffer)))) as [_|Hl]; [|cbn in Hl; lia]. by rewrite Hn.
Qed.

(** Every acceptance is of a GUID that was opened before and of a channel and a
    GUID that had not been accepted. *)
Definition acceptances_ok (h : list channel_label) : Prop :=
  forall i ch g, h !! i = Some (l_accepted ch g) ->
    l_opened g ∈ drop (S i) h /\ forall ch1 g1, l_accepted ch1 g1 ∈ drop (S i) h -> ch1 <> ch /\ g1 <> g.

Lemma channel_run_ok port_ h s :
  channel_run port_ h s -> l_timeout ∉ h -> channels_ok h s /\ acceptances_ok h.
Proof.
  induction 1 as [|h s a l s' Hr IH He E]; intros Ht.
  - split; [apply ok_start|]. intros i ch g. by rewrite lookup_nil.
  - apply not_elem_of_cons in Ht as [Hl Ht]. destruct (IH Ht) as [Hok Hacc].
    assert (no_timeout a) as Hn.
    { destruct a; try done. cbn in E. destruct (opening s !! conn); [|done]. cbn in E.
      destruct (endpoint_open_timeout conn _ s); [|done]. cbn in E. by injection E as <- <-. }
    assert (channels_ok (l :: h) s' /\ forall ch g, l = l_accepted ch g ->
      l_opened g ∈ h /\ forall ch1 g1, l_accepted ch1 g1 ∈ h -> ch1 <> ch /\ g1 <> g) as [Hok' Hx].
    { destruct (read_or_not a) as [(conn & hd & send & buffer & ->)|Hd].
      - cbn in E. destruct (freerdp_client_virtual_channel_read _ _ _ _ _ s) as [[st sent]|]; [|done]. injection E as <- <-. split; [by apply ok_label|done].
      - destruct (step_ok h s a Hok He Hn (Hd h s)) as (l' & s2 & E' & Hok' & Hx). rewrite E in E'. injection E' as <- <-. done. }
    split; [done|]. intros [|i] ch g; cbn.
    + intros [= ->]. rewrite drop_0. by apply Hx.
    + apply Hacc.
Qed.
End Facts.
