(* ===== verification/ChannelTheorems.v ===== *)
(** * Properties of the virtual channels *)

From S2P Require Import Prelude Channels ChannelFacts.
From stdpp Require Import gmap list.
#[local] Open Scope Z_scope.

(** The hash table and the data of a peer as finite maps. *)
#[local] Instance map_table : HashTable := {
  wHashTable V := gmap (list Z) V;
  HashTable_New V := ∅;
  HashTable_Add V k v t := <[k := v]> t;
  HashTable_Remove V k t := delete k t;
  HashTable_GetItemValue V k t := t !! k;
}.

#[local] Instance map_table_laws : HashTableLaws map_table.
Proof.
  split; cbn.
  - intros V k. apply lookup_empty.
  - intros V k k' v t. case_decide as Hd; [subst; apply lookup_insert_eq|by apply lookup_insert_ne].
  - intros V k k' t. case_decide as Hd; [subst; apply lookup_delete_eq|by apply lookup_delete_ne].
Qed.

#[local] Instance map_data : PeerData := {
  peer_data := gmap Z nat;
  no_data := ∅;
  VirtualChannelSetData h ch d := <[h := ch]> d;
  VirtualChannelGetData h d := d !! h;
}.

#[local] Instance map_data_laws : PeerDataLaws map_data.
Proof.
  split; cbn.
  - intros h. apply lookup_empty.
  - intros h h' ch d. case_decide as Hd; [subst; apply lookup_insert_eq|by apply lookup_insert_ne].
Qed.


(** Connection 7 waits for a channel; its GUID has 36 characters. *)
Definition demo_guid : list Z := replicate 36 48.

Definition demo_opening : rdsChannels :=
  Eval vm_compute in
    match channel_act (c_open 7 [99] demo_guid) (freerds_channel_server_new 40000) with
    | Some (_, s) => s
    | None => freerds_channel_server_new 40000
    end.

Lemma demo_opening_run : channel_run 40000 [l_opened demo_guid] demo_opening.
Proof.
  apply (channel_next 40000 [] (freerds_channel_server_new 40000) (c_open 7 [99] demo_guid));
    [constructor|split; [reflexivity|apply not_elem_of_nil]|vm_compute; reflexivity].
Qed.





(** A request to open a channel that times out frees
    the channel but leaves it in the table of the channel server: a socket that
    comes later with its GUID makes the server thread use the freed channel. *)
Theorem timed_out_channel_dangles {T : HashTable} {TL : HashTableLaws T} {V : PeerData} {VL : PeerDataLaws V} port_ h (s : rdsChannels) conn ch c sock :
  channel_run port_ h s -> l_timeout ∉ h -> opening s !! conn = Some ch -> heap s !! ch = Some c ->
  length (guidString c) = 36%nat ->
  exists s', channel_act (c_timeout conn) s = Some (l_timeout, s') /\
    channel_act (c_accept (Some sock) (guidString c)) s' = None.
Proof.
  intros Hr Ht Ho Hh Hl. destruct (channel_run_ok port_ h s Hr Ht) as [Hok _].
  destruct (i_open _ _ Hok conn ch Ho) as (c' & Hh' & Hg & _). rewrite Hh in Hh'. injection Hh' as <-.
  cbn [channel_act]. rewrite Ho. cbn [mbind option_bind]. unfold endpoint_open_timeout, freerds_channel_free. rewrite Hh.
  cbn [mbind option_bind]. eexists. split; [reflexivity|]. unfold freerds_channel_server_accept. rewrite Hl. cbn.
  rewrite Hg. cbn. by rewrite lookup_delete_eq.
Qed.

Lemma timed_out_channel_dangles_witness :
  exists s', channel_act (c_timeout 7) demo_opening = Some (l_timeout, s') /\
    channel_act (c_accept (Some 5) demo_guid) s' = None.
Proof.
  apply (timed_out_channel_dangles 40000 [l_opened demo_guid] demo_opening 7 0
           (mk_channel [99] 40000 demo_guid None false false None) 5).
  - exact demo_opening_run.
  - intros [?|?%not_elem_of_nil]%elem_of_cons; done.
  - reflexivity.
  - reflexivity.
  - reflexivity.
Defined.
