(* ===== verification/FuseTypes.v ===== *)
(** * The redirected drives: data

    channels/rdpdr/rdpdr_fuse.h and the first part of rdpdr_fuse.c: the inode
    table that is shared by the callbacks of FUSE and by the completions of the
    RDP client, the records of the requests that are under way, and the two
    state monads of the model: [FsM] for the functions that only use the inode
    table, [FuseM] for the callbacks.

    Inodes, request records, handles and directory positions are objects on
    heaps; addresses are not reused.  [None] is undefined behaviour: a null or
    freed pointer, an index outside the table, a string longer than its buffer,
    a buffer that is read before it is written. *)

From stdpp Require Import gmap.
From S2P Require Import Prelude.

(** ** Constants *)

Definition FIRST_INODE : Z := 1.
Definition S_IFDIR : Z := 16384.
Definition S_IFREG : Z := 32768.
Definition FILE_ATTRIBUTE_READONLY : Z := 1.
Definition FILE_ATTRIBUTE_HIDDEN : Z := 2.
Definition FILE_ATTRIBUTE_DIRECTORY : Z := 16.

Definition ENOENT : Z := 2.
Definition EIO : Z := 5.
Definition EBADF : Z := 9.
Definition ENOMEM : Z := 12.
Definition EACCES : Z := 13.
Definition EBUSY : Z := 16.
Definition EEXIST : Z := 17.
Definition EISDIR : Z := 21.
Definition EINVAL : Z := 22.
Definition ENOTEMPTY : Z := 39.
Definition EREMOTEIO : Z := 121.

Definition FILE_READ_DATA : Z := 1.
Definition FILE_WRITE_DATA : Z := 2.
Definition FILE_APPEND_DATA : Z := 4.
Definition FILE_OPEN : Z := 1.
Definition FILE_CREATE : Z := 2.
Definition O_RDONLY : Z := 0.
Definition O_CREAT : Z := 64.
Definition O_TRUNC : Z := 512.

Definition STATUS_SUCCESS : Z := 0.
Definition STATUS_NO_MORE_FILES : Z := 2147483654.

Definition RT_FUSE_REPLY_OPEN : Z := 1.
Definition RT_FUSE_REPLY_CREATE : Z := 2.

Definition slash : Z := 47.
Definition dot : list Z := [46].
Definition dotdot : list Z := [46; 46].
Definition dot_clipboard : list Z := [46; 99; 108; 105; 112; 98; 111; 97; 114; 100].

(** A flag test [a & b]. *)
Definition has (a b : Z) : bool := negb (Z.land a b =? 0).

Definition WINDOWS_TO_LINUX_FILE_PERM (a : Z) : Z :=
  Z.lor (if has a FILE_ATTRIBUTE_DIRECTORY then Z.lor S_IFDIR 64 else S_IFREG)
        (if has a FILE_ATTRIBUTE_READONLY then 292 else 420).

Definition WINDOWS_TO_LINUX_TIME (t : Z) : Z := t / 10000000 - 11644473600.

(** ** The environment

    What the callbacks are told by the system while one of them runs: the
    owner, the clock (the n-th call of [time]), whether the n-th allocation and
    the n-th growth of the table succeed, whether the RDP server accepts the
    command that would be the n-th event, and the size of a directory entry ([fuse_add_direntry]). *)
Record World := mk_world {
  getuid : Z;
  getgid : Z;
  time : nat -> Z;
  calloc : nat -> bool;
  realloc : Z -> bool;
  accepts : nat -> bool;
  direntry : list Z -> Z;
}.

(** ** Inodes *)

Record RDPDR_INODE := mk_inode {
  parent_inode : Z;
  inode : Z;
  mode : Z;
  nlink : Z;
  nentries : Z;
  nopen : Z;
  uid : Z;
  gid : Z;
  file_size : Z;
  atime : Z;
  mtime : Z;
  ctime : Z;
  name : list Z;
  device_id : Z;
  is_synced : bool;
  lindex : Z;
  is_loc_resource : bool;
  close_in_progress : bool;
  stale : bool;
}.

Definition set_parent v x := mk_inode v (inode x) (mode x) (nlink x) (nentries x) (nopen x) (uid x) (gid x) (file_size x)
  (atime x) (mtime x) (ctime x) (name x) (device_id x) (is_synced x) (lindex x) (is_loc_resource x) (close_in_progress x) (stale x).
Definition set_mode v x := mk_inode (parent_inode x) (inode x) v (nlink x) (nentries x) (nopen x) (uid x) (gid x) (file_size x)
  (atime x) (mtime x) (ctime x) (name x) (device_id x) (is_synced x) (lindex x) (is_loc_resource x) (close_in_progress x) (stale x).
Definition set_nentries v x := mk_inode (parent_inode x) (inode x) (mode x) (nlink x) v (nopen x) (uid x) (gid x) (file_size x)
  (atime x) (mtime x) (ctime x) (name x) (device_id x) (is_synced x) (lindex x) (is_loc_resource x) (close_in_progress x) (stale x).
Definition set_nopen v x := mk_inode (parent_inode x) (inode x) (mode x) (nlink x) (nentries x) v (uid x) (gid x) (file_size x)
  (atime x) (mtime x) (ctime x) (name x) (device_id x) (is_synced x) (lindex x) (is_loc_resource x) (close_in_progress x) (stale x).
Definition set_uid v x := mk_inode (parent_inode x) (inode x) (mode x) (nlink x) (nentries x) (nopen x) v (gid x) (file_size x)
  (atime x) (mtime x) (ctime x) (name x) (device_id x) (is_synced x) (lindex x) (is_loc_resource x) (close_in_progress x) (stale x).
Definition set_gid v x := mk_inode (parent_inode x) (inode x) (mode x) (nlink x) (nentries x) (nopen x) (uid x) v (file_size x)
  (atime x) (mtime x) (ctime x) (name x) (device_id x) (is_synced x) (lindex x) (is_loc_resource x) (close_in_progress x) (stale x).
Definition set_size v x := mk_inode (parent_inode x) (inode x) (mode x) (nlink x) (nentries x) (nopen x) (uid x) (gid x) v
  (atime x) (mtime x) (ctime x) (name x) (device_id x) (is_synced x) (lindex x) (is_loc_resource x) (close_in_progress x) (stale x).
Definition set_atime v x := mk_inode (parent_inode x) (inode x) (mode x) (nlink x) (nentries x) (nopen x) (uid x) (gid x) (file_size x)
  v (mtime x) (ctime x) (name x) (device_id x) (is_synced x) (lindex x) (is_loc_resource x) (close_in_progress x) (stale x).
Definition set_mtime v x := mk_inode (parent_inode x) (inode x) (mode x) (nlink x) (nentries x) (nopen x) (uid x) (gid x) (file_size x)
  (atime x) v (ctime x) (name x) (device_id x) (is_synced x) (lindex x) (is_loc_resource x) (close_in_progress x) (stale x).
Definition set_name v x := mk_inode (parent_inode x) (inode x) (mode x) (nlink x) (nentries x) (nopen x) (uid x) (gid x) (file_size x)
  (atime x) (mtime x) (ctime x) v (device_id x) (is_synced x) (lindex x) (is_loc_resource x) (close_in_progress x) (stale x).
Definition set_is_synced v x := mk_inode (parent_inode x) (inode x) (mode x) (nlink x) (nentries x) (nopen x) (uid x) (gid x) (file_size x)
  (atime x) (mtime x) (ctime x) (name x) (device_id x) v (lindex x) (is_loc_resource x) (close_in_progress x) (stale x).
Definition set_clip sz li x := mk_inode (parent_inode x) (inode x) (mode x) (nlink x) (nentries x) (nopen x) (uid x) (gid x) sz
  (atime x) (mtime x) (ctime x) (name x) (device_id x) (is_synced x) li true (close_in_progress x) (stale x).
Definition set_close_in_progress v x := mk_inode (parent_inode x) (inode x) (mode x) (nlink x) (nentries x) (nopen x) (uid x) (gid x) (file_size x)
  (atime x) (mtime x) (ctime x) (name x) (device_id x) (is_synced x) (lindex x) (is_loc_resource x) v (stale x).
Definition set_stale v x := mk_inode (parent_inode x) (inode x) (mode x) (nlink x) (nentries x) (nopen x) (uid x) (gid x) (file_size x)
  (atime x) (mtime x) (ctime x) (name x) (device_id x) (is_synced x) (lindex x) (is_loc_resource x) (close_in_progress x) v.

Definition is_dir (x : RDPDR_INODE) : bool := has (mode x) S_IFDIR.
Definition is_reg (x : RDPDR_INODE) : bool := has (mode x) S_IFREG.

(** [struct rdpdr_fs], with the heap of the inodes. *)
Record rdpdr_fs := mk_fs {
  inode_table : list (option nat);
  max_entries : Z;
  num_entries : Z;
  next_node : Z;
  inodes : gmap nat RDPDR_INODE;
  next_inode : nat;
}.

(** ** The monad of the inode table *)

Definition FsM (A : Type) : Type := rdpdr_fs -> option (A * rdpdr_fs).

#[global] Instance FsM_ret : MRet FsM := fun A a s => Some (a, s).
#[global] Instance FsM_bind : MBind FsM := fun A B k m s =>
  match m s with Some (a, s') => k a s' | None => None end.

Definition undefined {A} : FsM A := fun _ => None.
Definition gets {A} (f : rdpdr_fs -> A) : FsM A := fun s => Some (f s, s).
Definition lift_opt {A} (o : option A) : FsM A := fun s => match o with Some a => Some (a, s) | None => None end.

(** [inode_table[i]]. *)
Definition table_at (i : Z) : FsM (option nat) := fun s =>
  if i <? 0 then None else
  match inode_table s !! Z.to_nat i with Some slot => Some (slot, s) | None => None end.

Definition table_set (i : Z) (slot : option nat) : FsM unit := fun s =>
  if (i <? 0) || (Z.of_nat (length (inode_table s)) <=? i) then None else
  Some (tt, mk_fs (<[Z.to_nat i := slot]> (inode_table s)) (max_entries s) (num_entries s) (next_node s) (inodes s) (next_inode s)).

(** [*p]. *)
Definition inode_at (p : nat) : FsM RDPDR_INODE := fun s =>
  match inodes s !! p with Some x => Some (x, s) | None => None end.

(** A store to a field of [*p]. *)
Definition inode_modify (p : nat) (f : RDPDR_INODE -> RDPDR_INODE) : FsM unit := fun s =>
  match inodes s !! p with
  | Some x => Some (tt, mk_fs (inode_table s) (max_entries s) (num_entries s) (next_node s) (<[p := f x]> (inodes s)) (next_inode s))
  | None => None
  end.

Definition inode_free (p : nat) : FsM unit := fun s =>
  match inodes s !! p with
  | Some _ => Some (tt, mk_fs (inode_table s) (max_entries s) (num_entries s) (next_node s) (delete p (inodes s)) (next_inode s))
  | None => None
  end.

(** [inode_table[i]->field = ...]: a null slot is undefined. *)
Definition slot_modify (i : Z) (f : RDPDR_INODE -> RDPDR_INODE) : FsM unit :=
  slot ← table_at i;
  match slot with Some p => inode_modify p f | None => undefined end.

Definition entries_up (x : RDPDR_INODE) : RDPDR_INODE := set_nentries (u32 (nentries x + 1)) x.
Definition entries_down (x : RDPDR_INODE) : RDPDR_INODE := set_nentries (u32 (nentries x - 1)) x.

(** The loops [for (i = first; i < num_entries; i++)] over the occupied slots:
    the first inode that passes a test, and a body for each of them. *)
Fixpoint find_loop (n : nat) (i : Z) (test : RDPDR_INODE -> bool) : FsM (option nat) :=
  match n with
  | O => mret None
  | S n =>
      slot ← table_at i;
      match slot with
      | None => find_loop n (i + 1) test
      | Some p => x ← inode_at p; if test x then mret (Some p) else find_loop n (i + 1) test
      end
  end.

Fixpoint each_loop (n : nat) (i : Z) (body : nat -> RDPDR_INODE -> FsM unit) : FsM unit :=
  match n with
  | O => mret tt
  | S n =>
      slot ← table_at i;
      match slot with
      | None => each_loop n (i + 1) body
      | Some p => x ← inode_at p; _ ← body p x; each_loop n (i + 1) body
      end
  end.

Definition find_inode (test : RDPDR_INODE -> bool) : FsM (option nat) :=
  n ← gets num_entries; find_loop (Z.to_nat (n - FIRST_INODE)) FIRST_INODE test.

Definition each_inode (body : nat -> RDPDR_INODE -> FsM unit) : FsM unit :=
  n ← gets num_entries; each_loop (Z.to_nat (n - FIRST_INODE)) FIRST_INODE body.
