(* ===== verification/FuseTable.v ===== *)
(** * The redirected drives: the inode table

    The functions of channels/rdpdr/rdpdr_fuse.c that only read and write the
    inode table. *)

From stdpp Require Import gmap.
From S2P Require Import Prelude FuseTypes.

(** ** Strings *)

(** [strcat] into a buffer of [size] bytes that has the string [a]. *)
Definition strcat (size : Z) (a b : list Z) : option (list Z) :=
  if Z.of_nat (length (a ++ b)) <? size then Some (a ++ b) else None.

Definition strcpy (size : Z) (b : list Z) : option (list Z) := strcat size [] b.

(** [strchr (s, '/')]: from the first slash on. *)
Fixpoint strchr (s : list Z) : option (list Z) :=
  match s with
  | [] => None
  | c :: s => if c =? slash then Some (c :: s) else strchr s
  end.

(** [strrchr (s, '/')]: what is before the last slash and what is after it. *)
Fixpoint strrchr (s : list Z) : option (list Z * list Z) :=
  match s with
  | [] => None
  | c :: s =>
      match strrchr s with
      | Some (before, after) => Some (c :: before, after)
      | None => if c =? slash then Some ([], s) else None
      end
  end.

Definition streq (a b : list Z) : bool := bool_decide (a = b).

(** [while ((cptr = strrchr (reverse_path, '/')) != NULL)]: every turn cuts
    [reverse_path] at a slash. *)
Fixpoint reverse_loop (n : nat) (size : Z) (full_path reverse_path : list Z) : option (list Z) :=
  match n with
  | O => None
  | S n =>
      match strrchr reverse_path with
      | None => strcat size full_path reverse_path
      | Some (before, after) =>
          full_path ← strcat size full_path after;
          full_path ← strcat size full_path [slash];
          reverse_loop n size full_path before
      end
  end.

Definition fuse_reverse_pathname (size : Z) (reverse_path : list Z) : option (list Z) :=
  reverse_loop (S (length reverse_path)) size [] reverse_path.

Section Table.
Context (w : World).

(** ** Creation *)

(** [calloc (1, sizeof (RDPDR_INODE))], then the stores to its fields. *)
Definition new_inode (x : RDPDR_INODE) : FsM (option nat) := fun s =>
  let p := next_inode s in
  if calloc w p then
    Some (Some p, mk_fs (inode_table s) (max_entries s) (num_entries s) (next_node s) (<[p := x]> (inodes s)) (S p))
  else Some (None, mk_fs (inode_table s) (max_entries s) (num_entries s) (next_node s) (inodes s) (S p)).

(** [next_node++]. *)
Definition take_node : FsM Z := fun s =>
  Some (next_node s, mk_fs (inode_table s) (max_entries s) (num_entries s) (u32 (next_node s + 1)) (inodes s) (next_inode s)).

Definition num_entries_up : FsM unit := fun s =>
  Some (tt, mk_fs (inode_table s) (max_entries s) (u32 (num_entries s + 1)) (next_node s) (inodes s) (next_inode s)).

Definition rdpdr_fuse_update_fs_size : FsM unit := fun s =>
  let diff := i32 (max_entries s - num_entries s) in
  if 100 <? diff then Some (tt, s) else
  if negb (realloc w (max_entries s)) then Some (tt, s) else
  Some (tt, mk_fs (inode_table s ++ repeat None 100) (u32 (max_entries s + 100)) (num_entries s) (next_node s) (inodes s) (next_inode s)).

(** The inode of [rdpdr_fuse_init_fs] in slot [i]. *)
Definition fixed_inode (parent i entries : Z) (nm : list Z) (local : bool) : RDPDR_INODE :=
  mk_inode parent i (Z.lor S_IFDIR 493) 0 entries 0 (getuid w) (getgid w) 0 (time w 0) (time w 1) (time w 2)
    nm 0 false 0 local false false.

(** The three fixed directories; the result is -1 when memory is short. *)
Definition rdpdr_fuse_init_fs (table_allocated : bool) : Z * option rdpdr_fs :=
  if negb (table_allocated && calloc w 0 && calloc w 1 && calloc w 2) then (-1, None) else
  (0, Some (mk_fs ([Some 0%nat; Some 1%nat; Some 2%nat] ++ repeat None 4093) 4096 3 3
    (<[0%nat := fixed_inode 0 0 1 dotdot false]> (<[1%nat := fixed_inode 0 1 1 dot false]>
      {[ 2%nat := fixed_inode 1 2 0 dot_clipboard true ]})) 3)).

Definition rdpdr_fuse_is_inode_valid (ino : Z) : FsM bool :=
  let ino := i32 ino in
  next ← gets next_node;
  if (ino <? FIRST_INODE) || (next <=? ino) then mret false else
  slot ← table_at ino;
  mret (bool_decide (is_Some slot)).

Definition rdpdr_fuse_on_drive_create (deviceId : Z) (nm : option (list Z)) : FsM unit :=
  match nm with
  | None | Some [] => mret tt
  | Some (c :: _) =>
      let dirname := [c] in
      next ← gets next_node;
      rinode ← new_inode (mk_inode 1 next (Z.lor 493 S_IFDIR) 1 0 0 (getuid w) (getgid w) 0
        (time w 0) (time w 1) (time w 2) dirname deviceId false 0 false false false);
      match rinode with
      | None => mret tt
      | Some p =>
          ino ← take_node;
          _ ← num_entries_up;
          _ ← table_set ino (Some p);
          root ← table_at 1;
          match root with
          | None => mret tt
          | Some r => inode_modify r entries_up
          end
      end
  end.

Definition rdpdr_fuse_create_file_in_fs (device pinode : Z) (nm : list Z) (type : Z) : FsM (option nat) :=
  match nm with
  | [] => mret None
  | _ =>
      next ← gets next_node;
      let dir := type =? S_IFDIR in
      rinode ← new_inode (mk_inode (u32 pinode) next (if dir then Z.lor 493 type else Z.lor 420 type) 1 0 0 (getuid w) (getgid w)
        (if dir then 4096 else 0) (time w 0) (time w 1) (time w 2) nm device true 0 false false false);
      match rinode with
      | None => mret None
      | Some p =>
          ino ← take_node;
          _ ← lift_opt (strcpy 256 nm);
          _ ← table_set ino (Some p);
          _ ← num_entries_up;
          _ ← slot_modify pinode entries_up;
          _ ← rdpdr_fuse_update_fs_size;
          mret (Some p)
      end
  end.

(** ** Lookup *)

Definition matches (pinode : Z) (nm : list Z) (x : RDPDR_INODE) : bool :=
  (parent_inode x =? pinode) && streq (name x) nm.

Definition rdpdr_fuse_get_rinode_from_pinode_name (pinode : Z) (nm : list Z) : FsM (option nat) :=
  find_inode (matches (u32 pinode) nm).

(** The comparison is between the unsigned field and the converted [int]. *)
Definition rdpdr_fuse_does_file_exist (parent : Z) (nm : list Z) : FsM bool :=
  r ← find_inode (matches (u32 (i32 parent)) nm); mret (bool_decide (is_Some r)).

(** The loop of [rdpdr_fuse_get_device_id_for_inode].  A turn that does not end
    the loop appends a slash to a buffer of 4096 bytes, so 4096 turns overflow
    it. *)
Fixpoint path_loop (n : nat) (child : Z) (reverse_path : list Z) : FsM (Z * list Z) :=
  match n with
  | O => undefined
  | S n =>
      slot ← table_at child;
      match slot with
      | None => undefined
      | Some p =>
          x ← inode_at p;
          path ← lift_opt (strcat 4096 reverse_path (name x));
          if parent_inode x =? 1 then mret (child, path) else
          path ← lift_opt (strcat 4096 path [slash]);
          path_loop n (parent_inode x) path
      end
  end.

(** [full_path] is the buffer of the caller, of [size] bytes; [None] when
    nothing has been written to it.  The device and the new contents. *)
Definition rdpdr_fuse_get_device_id_for_inode (ino size : Z) (full_path : option (list Z)) : FsM (Z * list Z) :=
  let ino := u32 ino in
  if ino =? 1 then
    nm ← lift_opt full_path;
    rinode ← rdpdr_fuse_get_rinode_from_pinode_name ino nm;
    match rinode with
    | Some p => x ← inode_at p; mret (device_id x, [])
    | None => mret (0, [])
    end
  else
    '(top_inode, reverse_path) ← path_loop 4096 ino [];
    full ← lift_opt (fuse_reverse_pathname size reverse_path);
    slot ← table_at top_inode;
    match slot with
    | Some p => x ← inode_at p; mret (device_id x, full)
    | None => undefined
    end.

(** [if ((cptr = strchr (full_path, '/')) == NULL) cptr = "/"]. *)
Definition share_path (full_path : list Z) : list Z := default [slash] (strchr full_path).

(** ** Deletion *)

Definition rdpdr_fuse_delete_file_with_rinode (rinode : option nat) : FsM Z :=
  match rinode with
  | None => mret (-1)
  | Some p =>
      x ← inode_at p;
      if is_dir x then mret (-1) else
      _ ← slot_modify (parent_inode x) entries_down;
      _ ← table_set (inode x) None;
      _ ← inode_free p;
      mret 0
  end.

Definition rdpdr_fuse_delete_dir_with_rinode (rinode : option nat) : FsM Z :=
  match rinode with
  | None => mret (-1)
  | Some p =>
      x ← inode_at p;
      if is_reg x then mret (-1) else
      _ ← each_inode (fun rip y =>
            x ← inode_at p;
            if parent_inode y =? inode x then _ ← table_set (inode y) None; inode_free rip else mret tt);
      x ← inode_at p;
      _ ← slot_modify (parent_inode x) entries_down;
      _ ← table_set (inode x) None;
      _ ← inode_free p;
      mret 0
  end.

(** One more level of directories per unit of fuel. *)
Fixpoint rdpdr_fuse_recursive_delete_dir_with_rinode (fuel : nat) (rinode : option nat) : FsM Z :=
  match fuel with
  | O => undefined
  | S fuel =>
      match rinode with
      | None => mret (-1)
      | Some p =>
          x ← inode_at p;
          if is_reg x then mret (-1) else
          _ ← each_inode (fun rip y =>
                x ← inode_at p;
                if parent_inode y =? inode x then
                  if is_reg y then
                    _ ← slot_modify (parent_inode y) entries_down;
                    _ ← table_set (inode y) None;
                    inode_free rip
                  else
                    _ ← rdpdr_fuse_recursive_delete_dir_with_rinode fuel (Some rip); mret tt
                else mret tt);
          x ← inode_at p;
          _ ← slot_modify (parent_inode x) entries_down;
          _ ← table_set (inode x) None;
          _ ← inode_free p;
          mret 0
      end
  end.

(** The depth of the recursion is at most the number of inodes. *)
Definition recursive_delete (p : nat) : FsM Z :=
  n ← gets num_entries;
  rdpdr_fuse_recursive_delete_dir_with_rinode (Z.to_nat n) (Some p).

(** ** Stale entries *)

Definition in_range (pinode : Z) : FsM bool :=
  n ← gets num_entries; mret ((FIRST_INODE <=? pinode) && (pinode <? n)).

Definition rdpdr_fuse_mark_as_stale (pinode : Z) : FsM unit :=
  ok ← in_range pinode;
  if negb ok then mret tt else
  each_inode (fun p x => if parent_inode x =? pinode then inode_modify p (set_stale true) else mret tt).

Definition rdpdr_fuse_delete_stale_entries (pinode : Z) : FsM unit :=
  ok ← in_range pinode;
  if negb ok then mret tt else
  each_inode (fun p x =>
    if negb (parent_inode x =? pinode) then mret tt else
    if negb (stale x) then mret tt else
    if is_reg x then _ ← rdpdr_fuse_delete_file_with_rinode (Some p); mret tt
    else _ ← recursive_delete p; mret tt).

(** ** The clipboard directory *)

(** The loop: [rip] is the inode of the directory. *)
Fixpoint clear_loop (rip : option nat) (n : nat) (i : Z) : FsM unit :=
  match n with
  | O => mret tt
  | S n =>
      slot ← table_at i;
      match slot with
      | None => clear_loop rip n (i + 1)
      | Some p =>
          x ← inode_at p;
          if parent_inode x =? 2 then
            _ ← table_set i None;
            _ ← inode_free p;
            _ ← match rip with Some r => inode_modify r entries_down | None => undefined end;
            clear_loop rip n (i + 1)
          else clear_loop rip n (i + 1)
      end
  end.

Definition rdpdr_fuse_clear_clip_dir : FsM unit :=
  rip ← table_at 2;
  n ← gets num_entries;
  clear_loop rip (Z.to_nat (n - FIRST_INODE)) FIRST_INODE.

Definition rdpdr_fuse_add_clip_dir_item (filename : list Z) (flags size lindex_ : Z) : FsM Z :=
  rinode ← rdpdr_fuse_create_file_in_fs 0 2 filename S_IFREG;
  match rinode with
  | None => undefined
  | Some p => _ ← inode_modify p (set_clip (u64 size) lindex_); mret 0
  end.

(** ** The entries of a directory that the client lists *)

Record FILE_DIRECTORY_INFORMATION := mk_fdi {
  FileName : list Z;
  EndOfFile : Z;
  FileAttributes : Z;
  LastAccessTime : Z;
  LastWriteTime : Z;
  CreationTime : Z;
}.

(** [rdpdr_fuse_query_directory_add] for a request on [ino] and [device]. *)
Definition rdpdr_fuse_query_directory_add (ino device : Z) (fdi : FILE_DIRECTORY_INFORMATION) : FsM unit :=
  valid ← rdpdr_fuse_is_inode_valid ino;
  if negb valid then mret tt else
  if streq (FileName fdi) dot || streq (FileName fdi) dotdot then mret tt else
  known ← rdpdr_fuse_get_rinode_from_pinode_name ino (FileName fdi);
  match known with
  | Some p => inode_modify p (set_stale false)
  | None =>
      next ← gets next_node;
      rinode ← new_inode (mk_inode (u32 ino) next (WINDOWS_TO_LINUX_FILE_PERM (FileAttributes fdi)) 0 0 0 (getuid w) (getgid w)
        (u64 (EndOfFile fdi)) (WINDOWS_TO_LINUX_TIME (LastAccessTime fdi)) (WINDOWS_TO_LINUX_TIME (LastWriteTime fdi))
        (WINDOWS_TO_LINUX_TIME (CreationTime fdi)) (FileName fdi) device false 0 false false false);
      match rinode with
      | None => mret tt
      | Some p =>
          _ ← lift_opt (strcpy 256 (FileName fdi));
          ino_new ← take_node;
          _ ← num_entries_up;
          _ ← table_set ino_new (Some p);
          _ ← slot_modify ino entries_up;
          rdpdr_fuse_update_fs_size
      end
  end.

End Table.
