(* ===== verification/FuseCallbacks.v ===== *)
(** * The redirected drives: callbacks

    channels/rdpdr/rdpdr_fuse.c: the callbacks that FUSE calls for a request,
    and the completions that the RDP server calls when the client has answered
    a command.  A callback replies to its request, or it stores the request in
    an [RDPDR_FUSE_INFO] and sends a command; the completion replies.

    [events] is what the callbacks have told FUSE and the RDP server, the last
    one first; [irps] the commands that the server has accepted and has not
    completed. *)

From stdpp Require Import gmap.
From S2P Require Import Prelude FuseTypes FuseTable.

(** ** Data *)

Record RDPDR_FUSE_INFO := mk_info {
  fi : option nat;
  req : Z;
  info_inode : Z;
  new_inode_ : Z;
  invoke_fuse : bool;
  info_name : list Z;
  new_name : list Z;
  info_device : Z;
  reply_type : Z;
  info_mode : Z;
}.

Record RDPDR_FUSE_HANDLE := mk_handle {
  DeviceId : Z;
  FileId : Z;
  handle_local : bool;
}.

(** [fi->fh]: 0, a handle, or the position in a directory ([struct dir_info]). *)
Inductive fh := fh_null | fh_handle (p : nat) | fh_dir (p : nat).

(** [struct fuse_file_info]. *)
Record fuse_file_info := mk_file { flags : Z; file_fh : fh }.

(** [struct fuse_entry_param]; the timeouts and the generation are constants. *)
Record fuse_entry_param := mk_entry {
  e_ino : Z; st_mode : Z; st_nlink : Z; st_uid : Z; st_gid : Z; st_size : Z; st_atime : Z; st_mtime : Z; st_ctime : Z;
}.

Inductive reply :=
| reply_err (e : Z)
| reply_entry (e : fuse_entry_param)
| reply_create (e : fuse_entry_param)
| reply_attr (e : fuse_entry_param)
| reply_open
| reply_dir (entries : list (list Z * Z * Z))
| reply_buf (data : list Z)
| reply_write (n : Z).

Inductive command :=
| DriveCreateDirectory (path : list Z)
| DriveDeleteDirectory (path : list Z)
| DriveQueryDirectory (path : list Z)
| DriveOpenFile (path : list Z) (access disposition : Z)
| DriveReadFile (file size off : Z)
| DriveWriteFile (file : Z) (data : list Z) (off : Z)
| DriveCloseFile (file : Z)
| DriveDeleteFile (path : list Z)
| DriveRenameFile (old new : list Z).

Inductive event :=
| e_reply (r : Z) (a : reply)
| e_drive (fip : nat) (device : Z) (c : command)
| e_clip (stream lindex off size : Z).

Record opendir_req := mk_opendir { od_req : Z; od_ino : Z; od_fi : nat }.
Record req_list_item := mk_rli { rli_req : Z; stream_id : Z; rli_lindex : Z; rli_off : Z; rli_size : Z }.

Record fuse := mk_fuse {
  fs : rdpdr_fs;
  infos : gmap nat RDPDR_FUSE_INFO;
  handles : gmap nat RDPDR_FUSE_HANDLE;
  dirs : gmap nat Z;
  files : gmap nat fuse_file_info;
  g_opendir_queue : list opendir_req;
  g_req_list : list req_list_item;
  next_ptr : nat;
  irps : gmap nat command;
  events : list event;
}.

Definition set_fs v s := mk_fuse v (infos s) (handles s) (dirs s) (files s) (g_opendir_queue s) (g_req_list s) (next_ptr s) (irps s) (events s).
Definition set_infos v s := mk_fuse (fs s) v (handles s) (dirs s) (files s) (g_opendir_queue s) (g_req_list s) (next_ptr s) (irps s) (events s).
Definition set_handles v s := mk_fuse (fs s) (infos s) v (dirs s) (files s) (g_opendir_queue s) (g_req_list s) (next_ptr s) (irps s) (events s).
Definition set_dirs v s := mk_fuse (fs s) (infos s) (handles s) v (files s) (g_opendir_queue s) (g_req_list s) (next_ptr s) (irps s) (events s).
Definition set_files v s := mk_fuse (fs s) (infos s) (handles s) (dirs s) v (g_opendir_queue s) (g_req_list s) (next_ptr s) (irps s) (events s).
Definition set_queue v s := mk_fuse (fs s) (infos s) (handles s) (dirs s) (files s) v (g_req_list s) (next_ptr s) (irps s) (events s).
Definition set_req_list v s := mk_fuse (fs s) (infos s) (handles s) (dirs s) (files s) (g_opendir_queue s) v (next_ptr s) (irps s) (events s).
Definition set_next_ptr v s := mk_fuse (fs s) (infos s) (handles s) (dirs s) (files s) (g_opendir_queue s) (g_req_list s) v (irps s) (events s).
Definition set_irps v s := mk_fuse (fs s) (infos s) (handles s) (dirs s) (files s) (g_opendir_queue s) (g_req_list s) (next_ptr s) v (events s).
Definition set_events v s := mk_fuse (fs s) (infos s) (handles s) (dirs s) (files s) (g_opendir_queue s) (g_req_list s) (next_ptr s) (irps s) v.

(** ** The monad of the callbacks *)

Definition FuseM (A : Type) : Type := fuse -> option (A * fuse).

#[global] Instance FuseM_ret : MRet FuseM := fun A a s => Some (a, s).
#[global] Instance FuseM_bind : MBind FuseM := fun A B k m s =>
  match m s with Some (a, s') => k a s' | None => None end.

Definition skip : FuseM unit := fun s => Some (tt, s).
Definition crash {A} : FuseM A := fun _ => None.
Definition asks {A} (f : fuse -> A) : FuseM A := fun s => Some (f s, s).
Definition update (f : fuse -> fuse) : FuseM unit := fun s => Some (tt, f s).
Definition opt {A} (o : option A) : FuseM A := fun s => match o with Some a => Some (a, s) | None => None end.

(** A function of the inode table. *)
Definition in_fs {A} (m : FsM A) : FuseM A := fun s =>
  match m (fs s) with Some (a, f) => Some (a, set_fs f s) | None => None end.

Definition answer (r : Z) (a : reply) : FuseM unit := update (fun s => set_events (e_reply r a :: events s) s).

Definition deref {V} (f : fuse -> gmap nat V) (p : nat) : FuseM V := fun s =>
  match f s !! p with Some v => Some (v, s) | None => None end.

Definition free_info (fip : nat) : FuseM unit :=
  _ ← deref infos fip; update (fun s => set_infos (delete fip (infos s)) s).

(** A store to [fi->fh]. *)
Definition set_fh (f : nat) (v : fh) : FuseM unit :=
  x ← deref files f; update (fun s => set_files (<[f := mk_file (flags x) v]> (files s)) s).

Section Callbacks.
Context (w : World).

(** [calloc] of an object that is not an inode. *)
Definition new_ptr : FuseM (option nat) := fun s =>
  let p := next_ptr s in Some (if calloc w p then Some p else None, set_next_ptr (S p) s).

Definition new_info (x : RDPDR_FUSE_INFO) : FuseM (option nat) :=
  p ← new_ptr;
  match p with
  | Some fip => _ ← update (fun s => set_infos (<[fip := x]> (infos s)) s); mret (Some fip)
  | None => mret None
  end.

(** A command for the client: whether the server has accepted it. *)
Definition drive (fip : nat) (device : Z) (c : command) : FuseM bool := fun s =>
  let s' := set_events (e_drive fip device c :: events s) s in
  if accepts w (length (events s)) then Some (true, set_irps (<[fip := c]> (irps s')) s') else Some (false, s').

Definition clipboard_request_file_data (stream lindex off size : Z) : FuseM unit :=
  update (fun s => set_events (e_clip stream lindex off size :: events s) s).

(** The reply of [rdpdr_fuse_cb_lookup], [rdpdr_fuse_cb_mkdir] and the creation
    of a file. *)
Definition entry_of (x : RDPDR_INODE) : fuse_entry_param :=
  mk_entry (inode x) (mode x) (nlink x) (uid x) (gid x) (file_size x) (atime x) (mtime x) (ctime x).

(** ** Opening a directory *)

(** [Queue_Dequeue]. *)
Definition dequeue : FuseM unit := update (fun s => set_queue (tail (g_opendir_queue s)) s).

(** A new [struct dir_info]; the result of [calloc] is not checked. *)
Definition open_dir (f : nat) : FuseM unit :=
  p ← new_ptr;
  match p with
  | None => crash
  | Some di => _ ← update (fun s => set_dirs (<[di := FIRST_INODE]> (dirs s)) s); set_fh f (fh_dir di)
  end.

(** 0 when the client has been asked, -1 otherwise. *)
Definition rdpdr_fuse_proc_opendir_req (r ino : Z) (f : nat) : FuseM Z :=
  valid ← in_fs (rdpdr_fuse_is_inode_valid ino);
  if negb valid then _ ← answer r (reply_err EBADF); _ ← dequeue; mret (-1) else
  let done : FuseM Z := _ ← open_dir f; _ ← answer r reply_open; _ ← dequeue; mret (-1) in
  if ino =? 1 then done else
  slot ← in_fs (table_at ino);
  match slot with
  | None => _ ← answer r (reply_err EBADF); _ ← dequeue; mret (-1)
  | Some p =>
      x ← in_fs (inode_at p);
      if is_loc_resource x then done else
      _ ← in_fs (rdpdr_fuse_mark_as_stale (i32 ino));
      '(device, full_path) ← in_fs (rdpdr_fuse_get_device_id_for_inode ino 4096 None);
      info ← new_info (mk_info (Some f) r ino 0 true [] [] device 0 0);
      match info with
      | None => _ ← answer r (reply_err ENOMEM); _ ← dequeue; mret (-1)
      | Some fip =>
          sent ← drive fip device (DriveQueryDirectory (share_path full_path));
          _ ← (if negb sent then answer r (reply_buf []) else skip);
          mret 0
      end
  end.

(** [while (1)] over the queue: a request that is not sent to the client has
    left the queue. *)
Fixpoint opendir_loop (n : nat) : FuseM unit :=
  match n with
  | O => crash
  | S n =>
      q ← asks g_opendir_queue;
      match q with
      | [] => skip
      | od :: _ =>
          status ← rdpdr_fuse_proc_opendir_req (od_req od) (od_ino od) (od_fi od);
          if status =? 0 then skip else opendir_loop n
      end
  end.

Definition opendir_next : FuseM unit :=
  q ← asks g_opendir_queue; opendir_loop (S (length q)).

Definition rdpdr_fuse_cb_opendir (r ino : Z) (f : nat) : FuseM unit :=
  q ← asks g_opendir_queue;
  _ ← update (fun s => set_queue (g_opendir_queue s ++ [mk_opendir r ino f]) s);
  match q with
  | [] => _ ← rdpdr_fuse_proc_opendir_req r ino f; skip
  | _ => skip
  end.

Definition rdpdr_fuse_query_directory_done (callbackData : option nat) (IoStatus : Z) : FuseM unit :=
  _ ← match callbackData with
      | None => skip
      | Some fip =>
          x ← deref infos fip;
          _ ← (if negb (IoStatus =? 0) then
                 if invoke_fuse x then answer (req x) (reply_err ENOENT) else skip
               else
                 valid ← in_fs (rdpdr_fuse_is_inode_valid (info_inode x));
                 if negb valid then if invoke_fuse x then answer (req x) (reply_err EBADF) else skip else
                 _ ← in_fs (rdpdr_fuse_delete_stale_entries (i32 (info_inode x)));
                 f ← opt (fi x);
                 _ ← open_dir f;
                 answer (req x) reply_open);
          free_info fip
      end;
  _ ← dequeue;
  opendir_next.

Definition rdpdr_fuse_on_drive_query_directory_complete (callbackData : option nat) (ioStatus : Z)
    (fdi : FILE_DIRECTORY_INFORMATION) : FuseM unit :=
  if ioStatus =? STATUS_SUCCESS then
    if has (FileAttributes fdi) FILE_ATTRIBUTE_HIDDEN then skip else
    match callbackData with
    | None => skip
    | Some fip => x ← deref infos fip; in_fs (rdpdr_fuse_query_directory_add w (info_inode x) (info_device x) fdi)
    end
  else rdpdr_fuse_query_directory_done callbackData (if ioStatus =? STATUS_NO_MORE_FILES then STATUS_SUCCESS else ioStatus).

(** ** The other completions *)

Definition rdpdr_fuse_on_drive_create_directory_complete (callbackData : option nat) (IoStatus : Z) : FuseM unit :=
  match callbackData with
  | None => skip
  | Some fip =>
      x ← deref infos fip;
      _ ← (if negb (IoStatus =? 0) then answer (req x) (reply_err EBADF) else answer (req x) (reply_err 0));
      free_info fip
  end.

(** The body that [rdpdr_fuse_on_drive_delete_directory_complete] and
    [rdpdr_fuse_on_drive_delete_file_complete] share. *)
Definition delete_complete (callbackData : option nat) (IoStatus : Z) : FuseM unit :=
  match callbackData with
  | None => skip
  | Some fip =>
      x ← deref infos fip;
      if negb (IoStatus =? 0) then _ ← answer (req x) (reply_err EBADF); free_info fip else
      rinode ← in_fs (rdpdr_fuse_get_rinode_from_pinode_name (info_inode x) (info_name x));
      match rinode with
      | None => _ ← answer (req x) (reply_err EBADF); free_info fip
      | Some p =>
          y ← in_fs (inode_at p);
          _ ← in_fs (table_set (inode y) None);
          _ ← in_fs (inode_free p);
          _ ← in_fs (slot_modify (info_inode x) entries_down);
          _ ← answer (req x) (reply_err 0);
          free_info fip
      end
  end.

Definition rdpdr_fuse_on_drive_delete_directory_complete (callbackData : option nat) (IoStatus : Z) : FuseM unit :=
  delete_complete callbackData IoStatus.

Definition rdpdr_fuse_on_drive_delete_file_complete (callbackData : option nat) (IoStatus : Z) : FuseM unit :=
  delete_complete callbackData IoStatus.

(** The branch for [RT_FUSE_REPLY_CREATE]: whether [fip] is freed. *)
Definition open_reply_create (x : RDPDR_FUSE_INFO) : FuseM bool :=
  rinode ← in_fs (rdpdr_fuse_create_file_in_fs w (info_device x) (i32 (info_inode x)) (info_name x) (info_mode x));
  match rinode with
  | None => _ ← answer (req x) (reply_err ENOMEM); mret false
  | Some p =>
      y ← in_fs (inode_at p);
      _ ← (if info_mode x =? S_IFDIR then answer (req x) (reply_entry (entry_of y))
           else _ ← in_fs (inode_modify p (fun y => set_nopen (u32 (nopen y + 1)) y));
                answer (req x) (reply_create (entry_of y)));
      mret true
  end.

Definition open_status (IoStatus : Z) : Z :=
  if IoStatus =? 3221225506 then EACCES else
  if (IoStatus =? 3221225523) || (IoStatus =? 3221225524) then ENOENT else EIO.

Definition rdpdr_fuse_on_drive_open_file_complete (callbackData : option nat) (IoStatus device file : Z) : FuseM unit :=
  match callbackData with
  | None => skip
  | Some fip =>
      x ← deref infos fip;
      if negb (IoStatus =? 0) then
        _ ← (if invoke_fuse x then answer (req x) (reply_err (open_status IoStatus)) else skip);
        free_info fip
      else
        have ← match fi x with
          | None => (mret true : FuseM bool)
          | Some f =>
              p ← new_ptr;
              match p with
              | None => _ ← (if invoke_fuse x then answer (req x) (reply_err ENOMEM) else skip); mret false
              | Some h =>
                  _ ← update (fun s => set_handles (<[h := mk_handle device file false]> (handles s)) s);
                  _ ← set_fh f (fh_handle h);
                  mret true
              end
          end;
        if negb have then free_info fip else
        go ← (if negb (invoke_fuse x) then (mret true : FuseM bool) else
              if reply_type x =? RT_FUSE_REPLY_OPEN then
                _ ← opt (fi x);
                slot ← in_fs (table_at (info_inode x));
                _ ← match slot with
                    | Some p => in_fs (inode_modify p (fun y => set_nopen (u32 (nopen y + 1)) y))
                    | None => skip
                    end;
                _ ← answer (req x) reply_open;
                mret true
              else if reply_type x =? RT_FUSE_REPLY_CREATE then open_reply_create x
              else mret true);
        if negb go then skip else free_info fip
  end.

Definition rdpdr_fuse_on_drive_read_file_complete (callbackData : option nat) (IoStatus : Z) (buf : list Z) : FuseM unit :=
  match callbackData with
  | None => skip
  | Some fip =>
      x ← deref infos fip;
      _ ← answer (req x) (reply_buf buf);
      free_info fip
  end.

Definition rdpdr_fuse_on_drive_write_file_complete (callbackData : option nat) (IoStatus length : Z) : FuseM unit :=
  match callbackData with
  | None => skip
  | Some fip =>
      x ← deref infos fip;
      match fi x with
      | None => skip
      | Some _ =>
          _ ← answer (req x) (reply_write length);
          slot ← in_fs (table_at (info_inode x));
          _ ← match slot with
              | Some p => in_fs (inode_modify p (fun y => set_size (u64 (file_size y + length)) y))
              | None => skip
              end;
          free_info fip
      end
  end.

(** [fip] is not freed. *)
Definition rdpdr_fuse_on_drive_close_file_complete (callbackData : option nat) (IoStatus : Z) : FuseM unit :=
  match callbackData with
  | None => skip
  | Some fip =>
      x ← deref infos fip;
      match fi x with
      | None => skip
      | Some _ =>
          slot ← in_fs (table_at (info_inode x));
          match slot with
          | None => answer (req x) (reply_err EBADF)
          | Some p =>
              _ ← in_fs (inode_modify p (fun y => if 0 <? nopen y then set_nopen (u32 (nopen y - 1)) y else y));
              answer (req x) (reply_err 0)
          end
      end
  end.

(** The destination of a rename that exists is deleted. *)
Definition rename_target (x : RDPDR_FUSE_INFO) : FuseM unit :=
  exists_ ← in_fs (rdpdr_fuse_does_file_exist (new_inode_ x) (new_name x));
  if negb exists_ then skip else
  target ← in_fs (rdpdr_fuse_get_rinode_from_pinode_name (new_inode_ x) (new_name x));
  match target with
  | None => crash
  | Some p =>
      y ← in_fs (inode_at p);
      _ ← in_fs (if is_reg y then rdpdr_fuse_delete_file_with_rinode (Some p) else rdpdr_fuse_delete_dir_with_rinode (Some p));
      skip
  end.

Definition rdpdr_fuse_on_drive_rename_file_complete (callbackData : option nat) (IoStatus : Z) : FuseM unit :=
  match callbackData with
  | None => skip
  | Some fip =>
      x ← deref infos fip;
      if negb (IoStatus =? 0) then _ ← answer (req x) (reply_err EEXIST); free_info fip else
      _ ← rename_target x;
      old ← in_fs (rdpdr_fuse_get_rinode_from_pinode_name (info_inode x) (info_name x));
      match old with
      | None => _ ← answer (req x) (reply_err EBADF); free_info fip
      | Some p =>
          nm ← opt (strcpy 256 (new_name x));
          _ ← in_fs (inode_modify p (fun y => set_name nm (set_parent (u32 (new_inode_ x)) y)));
          _ ← (if info_inode x =? new_inode_ x then skip else
               _ ← in_fs (inode_modify p (set_is_synced true));
               _ ← in_fs (slot_modify (info_inode x) entries_down);
               in_fs (slot_modify (new_inode_ x) entries_up));
          _ ← answer (req x) (reply_err 0);
          free_info fip
      end
  end.

End Callbacks.
