(* ===== verification/FuseHandlers.v ===== *)
(** * The redirected drives: the callbacks of FUSE

    channels/rdpdr/rdpdr_fuse.c from [rdpdr_fuse_cb_lookup] on, and the requests
    for the contents of clipboard files. *)

From stdpp Require Import gmap.
From S2P Require Import Prelude FuseTypes FuseTable FuseCallbacks.

Definition FUSE_SET_ATTR_MODE : Z := 1.
Definition FUSE_SET_ATTR_UID : Z := 2.
Definition FUSE_SET_ATTR_GID : Z := 4.
Definition FUSE_SET_ATTR_SIZE : Z := 8.
Definition FUSE_SET_ATTR_ATIME : Z := 16.
Definition FUSE_SET_ATTR_MTIME : Z := 32.
Definition FUSE_SET_ATTR_ATIME_NOW : Z := 128.
Definition FUSE_SET_ATTR_MTIME_NOW : Z := 256.

Section Handlers.
Context (w : World).

(** ** Attributes *)

Definition rdpdr_fuse_cb_lookup (r parent : Z) (nm : list Z) : FuseM unit :=
  valid ← in_fs (rdpdr_fuse_is_inode_valid parent);
  if negb valid then answer r (reply_err EBADF) else
  rinode ← in_fs (rdpdr_fuse_get_rinode_from_pinode_name parent nm);
  match rinode with
  | None => answer r (reply_err ENOENT)
  | Some p => x ← in_fs (inode_at p); answer r (reply_entry (entry_of x))
  end.

Definition rdpdr_fuse_cb_getattr (r ino : Z) : FuseM unit :=
  valid ← in_fs (rdpdr_fuse_is_inode_valid ino);
  if negb valid then answer r (reply_err EBADF) else
  slot ← in_fs (table_at ino);
  match slot with
  | None => answer r (reply_err EBADF)
  | Some p =>
      x ← in_fs (inode_at p);
      answer r (reply_attr (mk_entry ino (mode x) (nlink x) 0 0 (file_size x) 0 0 0))
  end.

(** The stores of [rdpdr_fuse_cb_setattr]. *)
Definition setattr (to_set : Z) (a : fuse_entry_param) (x : RDPDR_INODE) : RDPDR_INODE :=
  let x := if has to_set FUSE_SET_ATTR_MODE then set_mode (st_mode a) x else x in
  let x := if has to_set FUSE_SET_ATTR_UID then set_uid (st_uid a) x else x in
  let x := if has to_set FUSE_SET_ATTR_GID then set_gid (st_gid a) x else x in
  let x := if has to_set FUSE_SET_ATTR_SIZE then set_size (st_size a) x else x in
  let x := if has to_set FUSE_SET_ATTR_ATIME then set_atime (st_atime a) x else x in
  let x := if has to_set FUSE_SET_ATTR_MTIME then set_mtime (st_mtime a) x else x in
  let x := if has to_set FUSE_SET_ATTR_ATIME_NOW then set_atime (st_atime a) x else x in
  if has to_set FUSE_SET_ATTR_MTIME_NOW then set_mtime (st_mtime a) x else x.

Definition rdpdr_fuse_cb_setattr (r ino : Z) (a : fuse_entry_param) (to_set : Z) : FuseM unit :=
  valid ← in_fs (rdpdr_fuse_is_inode_valid ino);
  if negb valid then answer r (reply_err EBADF) else
  slot ← in_fs (table_at ino);
  match slot with
  | None => answer r (reply_err EBADF)
  | Some p =>
      _ ← in_fs (inode_modify p (setattr to_set a));
      x ← in_fs (inode_at p);
      answer r (reply_attr (mk_entry (inode x) (mode x) 0 (uid x) (gid x) (file_size x) (atime x) (mtime x) (ctime x)))
  end.

(** ** Reading a directory *)

(** [struct dirbuf1]: the number of bytes and the entries, with their inode and
    the offset of the next one.  The entry is written when it fits into the
    size that is passed. *)
Definition dirbuf1 : Type := Z * list (list Z * Z * Z).

Definition rdpdr_fuse_dirbuf1_add (b : dirbuf1) (nm : list Z) (ino : Z) : Z * dirbuf1 :=
  let '(bytes_in_buf, entries) := b in
  let len := direntry w nm in
  if 4096 <? bytes_in_buf + len then (-1, b) else
  (0, (bytes_in_buf + len, if len <=? 4096 - len then entries ++ [(nm, ino, bytes_in_buf + len)] else entries)).

(** The loop over the table: [index] is [di->index], [first] is [first_time].
    [inr]: the buffer and the new index; [inl tt]: an empty reply. *)
Fixpoint readdir_loop (n : nat) (ino index : Z) (first : bool) (b : dirbuf1) : FsM (unit + dirbuf1 * Z) :=
  match n with
  | O => mret (inr (b, index))
  | S n =>
      slot ← table_at index;
      match slot with
      | None => readdir_loop n ino (index + 1) first b
      | Some p =>
          x ← inode_at p;
          if negb (parent_inode x =? ino) then readdir_loop n ino (index + 1) first b else
          _ ← inode_modify p (set_is_synced true);
          dots ← (if first then
                    ti ← table_at ino;
                    match ti with
                    | None => mret None
                    | Some t =>
                        y ← inode_at t;
                        let b := snd (rdpdr_fuse_dirbuf1_add b dot ino) in
                        mret (Some (snd (rdpdr_fuse_dirbuf1_add b dotdot (parent_inode y))))
                    end
                  else mret (Some b));
          match dots with
          | None => mret (inl tt)
          | Some b =>
              let '(status, b) := rdpdr_fuse_dirbuf1_add b (name x) (inode x) in
              if negb (status =? 0) then mret (inr (b, index)) else readdir_loop n ino (index + 1) false b
          end
      end
  end.

Definition rdpdr_fuse_cb_readdir (r ino : Z) (f : nat) : FuseM unit :=
  valid ← in_fs (rdpdr_fuse_is_inode_valid ino);
  if negb valid then answer r (reply_err EBADF) else
  x ← deref files f;
  match file_fh x with
  | fh_null => answer r (reply_buf [])
  | fh_handle _ => crash
  | fh_dir di =>
      index ← deref dirs di;
      n ← in_fs (gets num_entries);
      res ← in_fs (readdir_loop (Z.to_nat (n - index)) ino index (index =? FIRST_INODE) (0, []));
      match res with
      | inl _ => answer r (reply_buf [])
      | inr ((bytes_in_buf, entries), index) =>
          _ ← update (fun s => set_dirs (<[di := index]> (dirs s)) s);
          if bytes_in_buf =? 0 then answer r (reply_buf []) else answer r (reply_dir entries)
      end
  end.

Definition rdpdr_fuse_cb_releasedir (r ino : Z) (f : nat) : FuseM unit :=
  x ← deref files f;
  _ ← match file_fh x with
      | fh_null => skip
      | fh_handle _ => crash
      | fh_dir di => _ ← deref dirs di; update (fun s => set_dirs (delete di (dirs s)) s)
      end;
  answer r (reply_err 0).

(** ** Creating and removing *)

Definition rdpdr_fuse_create_dir_or_file (r parent : Z) (nm : list Z) (f : option nat) (type : Z) : FuseM unit :=
  match nm with
  | [] => answer r (reply_err EBADF)
  | _ =>
      valid ← (if parent =? 1 then mret false else in_fs (rdpdr_fuse_is_inode_valid parent));
      if negb valid then answer r (reply_err EBADF) else
      '(device, full_path) ← in_fs (rdpdr_fuse_get_device_id_for_inode parent 1024 (Some []));
      full_path ← opt (strcat 1024 full_path [slash]);
      full_path ← opt (strcat 1024 full_path nm);
      slot ← in_fs (table_at parent);
      match slot with
      | None => crash
      | Some p =>
          x ← in_fs (inode_at p);
          if is_loc_resource x then answer r (reply_err EINVAL) else
          info ← new_info w (mk_info f r parent 0 true (take 1023 nm) [] device RT_FUSE_REPLY_CREATE type);
          match info with
          | None => answer r (reply_err ENOMEM)
          | Some fip =>
              let c := if type =? S_IFDIR then DriveCreateDirectory (share_path full_path)
                       else DriveOpenFile (share_path full_path) FILE_WRITE_DATA FILE_CREATE in
              sent ← drive w fip device c;
              if negb sent then answer r (reply_err EREMOTEIO) else skip
          end
      end
  end.

Definition rdpdr_fuse_cb_mkdir (r parent : Z) (nm : list Z) : FuseM unit :=
  rinode ← in_fs (rdpdr_fuse_get_rinode_from_pinode_name parent nm);
  match rinode with
  | Some p => x ← in_fs (inode_at p); answer r (reply_entry (entry_of x))
  | None => rdpdr_fuse_create_dir_or_file r parent nm None S_IFDIR
  end.

Definition rdpdr_fuse_cb_create (r parent : Z) (nm : list Z) (f : nat) : FuseM unit :=
  rdpdr_fuse_create_dir_or_file r parent nm (Some f) S_IFREG.

(** [type]: 1 for a directory, 2 for a file. *)
Definition rdpdr_fuse_remove_dir_or_file (r parent : Z) (nm : list Z) (type : Z) : FuseM unit :=
  valid ← in_fs (rdpdr_fuse_is_inode_valid parent);
  if negb valid then answer r (reply_err EBADF) else
  rinode ← in_fs (rdpdr_fuse_get_rinode_from_pinode_name parent nm);
  match rinode with
  | None => answer r (reply_err EBADF)
  | Some p =>
      '(device, full_path) ← in_fs (rdpdr_fuse_get_device_id_for_inode parent 4096 None);
      x ← in_fs (inode_at p);
      if (type =? 1) && negb (nentries x =? 0) then answer r (reply_err ENOTEMPTY) else
      if (type =? 2) && ((1 <? nopen x) || ((nopen x =? 1) && negb (close_in_progress x))) then answer r (reply_err EBUSY) else
      full_path ← opt (strcat 4096 full_path [slash]);
      full_path ← opt (strcat 4096 full_path nm);
      if is_loc_resource x then answer r (reply_err EINVAL) else
      info ← new_info w (mk_info None r parent 0 true (take 1023 nm) [] device 0 0);
      match info with
      | None => answer r (reply_err ENOMEM)
      | Some fip =>
          if (type =? 1) || (type =? 2) then
            let c := if type =? 1 then DriveDeleteDirectory (share_path full_path) else DriveDeleteFile (share_path full_path) in
            sent ← drive w fip device c;
            if negb sent then _ ← answer r (reply_err EREMOTEIO); free_info fip else skip
          else skip
      end
  end.

Definition rdpdr_fuse_cb_rmdir (r parent : Z) (nm : list Z) : FuseM unit := rdpdr_fuse_remove_dir_or_file r parent nm 1.
Definition rdpdr_fuse_cb_unlink (r parent : Z) (nm : list Z) : FuseM unit := rdpdr_fuse_remove_dir_or_file r parent nm 2.

(** The default of [strchr] is a backslash here. *)
Definition rename_path (full_path : list Z) : list Z := default [92] (strchr full_path).

Definition rdpdr_fuse_cb_rename (r old_parent : Z) (old_name : list Z) (new_parent : Z) (new_name : list Z) : FuseM unit :=
  valid ← in_fs (rdpdr_fuse_is_inode_valid old_parent);
  if negb valid then answer r (reply_err EINVAL) else
  valid ← in_fs (rdpdr_fuse_is_inode_valid new_parent);
  if negb valid then answer r (reply_err EINVAL) else
  match old_name, new_name with
  | [], _ | _, [] => answer r (reply_err EINVAL)
  | _, _ =>
      rinode ← in_fs (rdpdr_fuse_get_rinode_from_pinode_name old_parent old_name);
      match rinode with
      | None => answer r (reply_err EBADF)
      | Some p =>
          x ← in_fs (inode_at p);
          if negb (nopen x =? 0) then answer r (reply_err EBUSY) else
          '(new_device, new_full_path) ← in_fs (rdpdr_fuse_get_device_id_for_inode new_parent 1024 None);
          new_full_path ← opt (strcat 1024 new_full_path [slash]);
          new_full_path ← opt (strcat 1024 new_full_path new_name);
          if negb (new_device =? device_id x) then answer r (reply_err EINVAL) else
          if is_loc_resource x then answer r (reply_err EINVAL) else
          let device := device_id x in
          '(_, old_full_path) ← in_fs (rdpdr_fuse_get_device_id_for_inode old_parent 1024 None);
          old_full_path ← opt (strcat 1024 old_full_path [slash]);
          old_full_path ← opt (strcat 1024 old_full_path old_name);
          info ← new_info w (mk_info None r old_parent new_parent true (take 1023 old_name) (take 1023 new_name) device 0 0);
          match info with
          | None => answer r (reply_err ENOMEM)
          | Some fip =>
              sent ← drive w fip device (DriveRenameFile (rename_path old_full_path) (rename_path new_full_path));
              if negb sent then _ ← answer r (reply_err EREMOTEIO); free_info fip else skip
          end
      end
  end.

(** ** Files *)

(** The access and the disposition for the flags of [open]; [O_RDONLY] is 0. *)
Definition open_access (flags : Z) : Z * Z :=
  if has flags O_CREAT then (if has flags O_TRUNC then FILE_WRITE_DATA else FILE_APPEND_DATA, FILE_CREATE)
  else (if has flags O_RDONLY then FILE_READ_DATA else FILE_WRITE_DATA, FILE_OPEN).

Definition rdpdr_fuse_cb_open (r ino : Z) (f : nat) : FuseM unit :=
  valid ← in_fs (rdpdr_fuse_is_inode_valid ino);
  if negb valid then answer r (reply_err EBADF) else
  slot ← in_fs (table_at ino);
  match slot with
  | None => answer r (reply_err EBADF)
  | Some p =>
      x ← in_fs (inode_at p);
      if is_dir x then answer r (reply_err EISDIR) else
      '(device, full_path) ← in_fs (rdpdr_fuse_get_device_id_for_inode ino 4096 None);
      if is_loc_resource x then
        h ← new_ptr w;
        match h with
        | None => crash
        | Some h =>
            _ ← update (fun s => set_handles (<[h := mk_handle 0 0 true]> (handles s)) s);
            _ ← set_fh f (fh_handle h);
            answer r reply_open
        end
      else
      info ← new_info w (mk_info (Some f) r ino 0 true (take 1023 full_path) [] device RT_FUSE_REPLY_OPEN 0);
      match info with
      | None => answer r (reply_err ENOMEM)
      | Some fip =>
          y ← deref files f;
          let '(access, disposition) := open_access (flags y) in
          sent ← drive w fip device (DriveOpenFile (share_path full_path) access disposition);
          if negb sent then answer r (reply_err EREMOTEIO) else skip
      end
  end.

(** The handle is freed before its [FileId] is read for the command: the second
    [deref] is of a handle that is gone. *)
Definition rdpdr_fuse_cb_release (r ino : Z) (f : nat) : FuseM unit :=
  y ← deref files f;
  valid ← in_fs (rdpdr_fuse_is_inode_valid ino);
  if negb valid then answer r (reply_err EBADF) else
  slot ← in_fs (table_at ino);
  match slot with
  | None => answer r (reply_err 0)
  | Some p =>
      x ← in_fs (inode_at p);
      if is_loc_resource x then answer r (reply_err 0) else
      if nopen x =? 0 then answer r (reply_err 0) else
      match file_fh y with
      | fh_null | fh_dir _ => crash
      | fh_handle h =>
          hd ← deref handles h;
          info ← new_info w (mk_info (Some f) r ino 0 true [] [] (DeviceId hd) 0 0);
          match info with
          | None => answer r (reply_err ENOMEM)
          | Some fip =>
              _ ← update (fun s => set_handles (delete h (handles s)) s);
              _ ← set_fh f fh_null;
              _ ← in_fs (inode_modify p (set_close_in_progress true));
              hd' ← deref handles h;
              sent ← drive w fip (DeviceId hd) (DriveCloseFile (FileId hd'));
              if negb sent then answer r (reply_err EREMOTEIO) else skip
          end
      end
  end.

(** [f]: the argument [fi], which may be null. *)
Definition rdpdr_fuse_cb_read (r ino size off : Z) (f : option nat) : FuseM unit :=
  match f with
  | None => answer r (reply_err EINVAL)
  | Some f =>
      y ← deref files f;
      match file_fh y with
      | fh_null => answer r (reply_err EINVAL)
      | fh_dir _ => crash
      | fh_handle h =>
          hd ← deref handles h;
          if handle_local hd then
            slot ← in_fs (table_at ino);
            match slot with
            | None => answer r (reply_buf [])
            | Some p =>
                x ← in_fs (inode_at p);
                _ ← update (fun s => set_req_list (g_req_list s ++ [mk_rli r 0 (lindex x) (i32 off) (i32 size)]) s);
                l ← asks g_req_list;
                if Nat.eqb (length l) 1 then clipboard_request_file_data 0 (lindex x) (i32 off) (i32 size) else skip
            end
          else
            info ← new_info w (mk_info (Some f) r ino 0 true [] [] (DeviceId hd) 0 0);
            match info with
            | None => answer r (reply_err ENOMEM)
            | Some fip => _ ← drive w fip (DeviceId hd) (DriveReadFile (FileId hd) size off); skip
            end
      end
  end.

(** A write to a local file gets no reply. *)
Definition rdpdr_fuse_cb_write (r ino : Z) (buf : list Z) (off : Z) (f : nat) : FuseM unit :=
  y ← deref files f;
  match file_fh y with
  | fh_null => answer r (reply_err EINVAL)
  | fh_dir _ => crash
  | fh_handle h =>
      hd ← deref handles h;
      if handle_local hd then skip else
      info ← new_info w (mk_info (Some f) r ino 0 true [] [] (DeviceId hd) 0 0);
      match info with
      | None => answer r (reply_err ENOMEM)
      | Some fip => _ ← drive w fip (DeviceId hd) (DriveWriteFile (FileId hd) buf off); skip
      end
  end.

(** ** The contents of clipboard files *)

(** 0 or -1; the first request of the list is the one that is answered. *)
Definition rdpdr_fuse_file_contents_range (stream : Z) (data : list Z) : FuseM Z :=
  l ← asks g_req_list;
  match l with
  | [] => mret (-1)
  | rli :: rest =>
      _ ← answer (rli_req rli) (reply_buf data);
      _ ← update (set_req_list rest);
      match rest with
      | [] => mret 0
      | rli :: _ => _ ← clipboard_request_file_data (stream_id rli) (rli_lindex rli) (rli_off rli) (rli_size rli); mret 0
      end
  end.

End Handlers.
