(* ===== verification/FuseRepr.v ===== *)
(** * The redirected drives: the inode table as a map

    [fs_repr s m]: the table with its heap is the map [m] from inode numbers to
    inodes.  The primitives of the table are given as rules of a weakest
    precondition, [fs_wp], which also says that the program is defined. *)

From S2P Require Import Prelude FuseTypes FuseTable.
From stdpp Require Import gmap list.
#[local] Open Scope Z_scope.

Definition fs_wp {A} (c : FsM A) (Q : A -> rdpdr_fs -> Prop) (s : rdpdr_fs) : Prop :=
  match c s with Some (a, s') => Q a s' | None => False end.

Lemma fs_wp_bind {A B} (c : FsM A) (k : A -> FsM B) Q s :
  fs_wp c (fun a s' => fs_wp (k a) Q s') s -> fs_wp (c ≫= k) Q s.
Proof. unfold fs_wp, mbind, FsM_bind. by destruct (c s) as [[a s']|]. Qed.

Lemma fs_wp_ret {A} (a : A) (Q : A -> rdpdr_fs -> Prop) s : Q a s -> fs_wp (mret a) Q s.
Proof. done. Qed.

Lemma fs_wp_gets {A} (f : rdpdr_fs -> A) (Q : A -> rdpdr_fs -> Prop) s : Q (f s) s -> fs_wp (gets f) Q s.
Proof. done. Qed.

Lemma fs_wp_mono {A} (c : FsM A) (Q Q' : A -> rdpdr_fs -> Prop) s :
  (forall a s', Q a s' -> Q' a s') -> fs_wp c Q s -> fs_wp c Q' s.
Proof. unfold fs_wp. destruct (c s) as [[a s']|]; auto. Qed.

Lemma fs_wp_run {A} (c : FsM A) Q s : fs_wp c Q s -> exists a s', c s = Some (a, s') /\ Q a s'.
Proof. unfold fs_wp. destruct (c s) as [[a s']|]; [|done]. eauto. Qed.

(** ** The abstraction *)

(** The pointer in slot [i]. *)
Definition slot (s : rdpdr_fs) (i : Z) : option nat :=
  if i <? 0 then None else mjoin (inode_table s !! Z.to_nat i).

(** Slot [i] has a pointer [p] to the inode [x]. *)
Definition points (s : rdpdr_fs) (i : Z) (p : nat) (x : RDPDR_INODE) : Prop :=
  slot s i = Some p /\ inodes s !! p = Some x.

Record fs_repr (s : rdpdr_fs) (m : gmap Z RDPDR_INODE) : Prop := {
  r_length : Z.of_nat (length (inode_table s)) = max_entries s;
  r_num : num_entries s = next_node s;
  r_next : 3 <= next_node s <= max_entries s;
  r_max : max_entries s <= next_node s + 4096 /\ next_node s <= 2 ^ 30;
  r_dom i : is_Some (m !! i) -> 0 <= i < next_node s;
  r_slot i : slot s i = None -> m !! i = None;
  r_point i p : slot s i = Some p -> exists x, inodes s !! p = Some x /\ m !! i = Some x /\ inode x = i;
  r_owned p x : inodes s !! p = Some x -> slot s (inode x) = Some p;
  r_fresh p : is_Some (inodes s !! p) -> (p < next_inode s)%nat;
}.

Lemma repr_points s m i x : fs_repr s m -> m !! i = Some x -> exists p, points s i p x /\ inode x = i.
Proof.
  intros H Hm. destruct (slot s i) as [p|] eqn:E.
  - destruct (r_point _ _ H _ _ E) as (y & Hy & Hm' & Hi). rewrite Hm in Hm'. injection Hm' as <-. exists p. by split.
  - apply (r_slot _ _ H) in E. congruence.
Qed.

Lemma points_repr s m i p x : fs_repr s m -> points s i p x -> m !! i = Some x /\ inode x = i.
Proof. intros H [E Hp]. destruct (r_point _ _ H _ _ E) as (y & Hy & ? & ?). by simplify_eq. Qed.

Lemma points_inj s m i j p x y : fs_repr s m -> points s i p x -> points s j p y -> i = j /\ x = y.
Proof.
  intros H Hi Hj. destruct (points_repr _ _ _ _ _ H Hi) as [_ <-], (points_repr _ _ _ _ _ H Hj) as [_ <-].
  destruct Hi as [_ Hi], Hj as [_ Hj]. by simplify_eq.
Qed.

Lemma inode_id s m i x : fs_repr s m -> m !! i = Some x -> inode x = i.
Proof. intros H Hm. by destruct (repr_points _ _ _ _ H Hm) as (? & _ & ?). Qed.

(** [s'] is a later state: the sizes are the same and the inodes that are left
    are where they were. *)
Record later (s s' : rdpdr_fs) : Prop := {
  l_max : max_entries s' = max_entries s;
  l_num : num_entries s' = num_entries s;
  l_next : next_node s' = next_node s;
  l_slot i p : slot s' i = Some p -> slot s i = Some p;
}.

#[export] Instance later_refl : Reflexive later.
Proof. by split. Qed.
#[export] Instance later_trans : Transitive later.
Proof. intros s1 s2 s3 [? ? ? H1] [? ? ? H2]. split; [congruence..|]. eauto. Qed.

Lemma later_points s s' m m' i p x y :
  fs_repr s m -> fs_repr s' m' -> later s s' -> points s i p x -> m' !! i = Some y -> points s' i p y.
Proof.
  intros H H' L [Hs Hp] Hm. destruct (repr_points _ _ _ _ H' Hm) as (q & [Hq ?] & _).
  pose proof (l_slot _ _ L _ _ Hq). by simplify_eq.
Qed.

Lemma slot_lookup s i p : slot s i = Some p -> 0 <= i /\ inode_table s !! Z.to_nat i = Some (Some p).
Proof.
  unfold slot. destruct (Z.ltb_spec i 0); [done|]. intros E. split; [done|].
  destruct (inode_table s !! Z.to_nat i) as [o|]; [|done]. cbn in E. by subst.
Qed.

(** ** Primitives *)

Lemma fs_wp_table_at s m i (Q : option nat -> rdpdr_fs -> Prop) : fs_repr s m -> 0 <= i < max_entries s ->
  (m !! i = None -> slot s i = None -> Q None s) ->
  (forall p x, m !! i = Some x -> points s i p x -> Q (Some p) s) ->
  fs_wp (table_at i) Q s.
Proof.
  intros H Hi HN HS. unfold fs_wp, table_at. destruct (Z.ltb_spec i 0); [lia|].
  destruct (inode_table s !! Z.to_nat i) as [o|] eqn:E.
  - assert (slot s i = o) as Es. { unfold slot. destruct (Z.ltb_spec i 0); [lia|]. by rewrite E. }
    destruct o as [p|].
    + destruct (r_point _ _ H _ _ Es) as (x & Hx & Hm & _). by apply (HS p x).
    + apply HN; [|done]. by apply (r_slot _ _ H).
  - apply lookup_ge_None in E. pose proof (r_length _ _ H). lia.
Qed.

Lemma fs_wp_inode_at s p x (Q : RDPDR_INODE -> rdpdr_fs -> Prop) : inodes s !! p = Some x -> Q x s -> fs_wp (inode_at p) Q s.
Proof. intros Hp HQ. unfold fs_wp, inode_at. by rewrite Hp. Qed.

Definition put_inode (p : nat) (x : RDPDR_INODE) (s : rdpdr_fs) : rdpdr_fs :=
  mk_fs (inode_table s) (max_entries s) (num_entries s) (next_node s) (<[p := x]> (inodes s)) (next_inode s).

Lemma put_inode_repr s m i p x y : fs_repr s m -> points s i p x -> inode y = i ->
  fs_repr (put_inode p y s) (<[i := y]> m) /\ later s (put_inode p y s) /\ points (put_inode p y s) i p y.
Proof.
  intros H Hp Hy. destruct (points_repr _ _ _ _ _ H Hp) as [Hm Hx]. split; [|split].
  - destruct H as [H1 H2 H3 H4 H5 H6 H7 H8 H9]. split; cbn; try done.
    + intros j. rewrite lookup_insert_is_Some'. intros [<-|?]; [|auto]. apply H5. by eexists.
    + intros j Hj. change (slot (put_inode p y s) j) with (slot s j) in Hj. rewrite lookup_insert_ne; [auto|].
      intros ->. destruct Hp as [E _]. congruence.
    + intros j q Hj. change (slot (put_inode p y s) j) with (slot s j) in Hj. destruct (H7 _ _ Hj) as (z & Hz & Hmz & <-).
      destruct (decide (p = q)) as [<-|Hn].
      * destruct Hp as [Hs Hp']. rewrite Hp' in Hz. injection Hz as <-. exists y. rewrite Hy, <- Hx, !lookup_insert_eq. done.
      * exists z. rewrite lookup_insert_ne by done. split; [done|]. split; [|done]. rewrite lookup_insert_ne; [done|].
        intros E. destruct Hp as [Hs _]. rewrite E in Hs. congruence.
    + intros q z. rewrite lookup_insert_Some. intros [[-> <-]|[Hn Hq]].
      * rewrite Hy. apply Hp.
      * by apply H8.
    + intros q. rewrite lookup_insert_is_Some'. intros [<-|?]; [|auto]. apply H9. eexists. apply Hp.
  - by split.
  - split; [apply Hp|]. cbn. apply lookup_insert_eq.
Qed.

Lemma fs_wp_modify s m i p x f (Q : unit -> rdpdr_fs -> Prop) : fs_repr s m -> points s i p x -> inode (f x) = inode x ->
  (forall s', fs_repr s' (<[i := f x]> m) -> later s s' -> points s' i p (f x) -> Q tt s') ->
  fs_wp (inode_modify p f) Q s.
Proof.
  intros H Hp Hf HQ. unfold fs_wp, inode_modify. destruct Hp as [Hs Hp]. rewrite Hp.
  destruct (put_inode_repr s m i p x (f x) H (conj Hs Hp)) as (? & ? & ?); [|by apply HQ].
  rewrite Hf. by destruct (points_repr _ _ _ _ _ H (conj Hs Hp)).
Qed.

Lemma fs_wp_slot_modify s m i x f (Q : unit -> rdpdr_fs -> Prop) : fs_repr s m -> m !! i = Some x -> inode (f x) = inode x ->
  (forall s', fs_repr s' (<[i := f x]> m) -> later s s' -> Q tt s') ->
  fs_wp (slot_modify i f) Q s.
Proof.
  intros H Hm Hf HQ. unfold slot_modify. apply fs_wp_bind. pose proof (r_dom _ _ H i ltac:(by eexists)). pose proof (r_next _ _ H).
  eapply fs_wp_table_at; [done|lia|congruence|]. intros p y Hy Hp. rewrite Hm in Hy. injection Hy as <-.
  eapply fs_wp_modify; eauto.
Qed.

(** [table_set (inode x) None; inode_free p]. *)
Definition drop_inode (i : Z) (p : nat) (s : rdpdr_fs) : rdpdr_fs :=
  mk_fs (<[Z.to_nat i := None]> (inode_table s)) (max_entries s) (num_entries s) (next_node s) (delete p (inodes s)) (next_inode s).

Lemma slot_drop i p s j : 0 <= i -> slot (drop_inode i p s) j = if decide (i = j) then None else slot s j.
Proof.
  intros Hi. unfold slot. destruct (Z.ltb_spec j 0) as [Hj|Hj]; [by destruct (decide (i = j))|]. cbn.
  destruct (decide (i = j)) as [<-|Hn].
  - destruct (inode_table s !! Z.to_nat i) eqn:E.
    + rewrite list_lookup_insert_eq by (by eapply lookup_lt_Some). done.
    + apply lookup_ge_None in E. rewrite list_insert_ge by lia. by rewrite (proj2 (lookup_ge_None _ _)) by lia.
  - rewrite list_lookup_insert_ne by lia. done.
Qed.

Lemma drop_inode_repr s m i p x : fs_repr s m -> points s i p x ->
  fs_repr (drop_inode i p s) (delete i m) /\ later s (drop_inode i p s).
Proof.
  intros H Hp. destruct (points_repr _ _ _ _ _ H Hp) as [Hm Hx].
  pose proof (r_dom _ _ H i ltac:(by eexists)) as [Hi _]. split.
  - destruct H as [H1 H2 H3 H4 H5 H6 H7 H8 H9]. split; cbn [inode_table max_entries num_entries next_node inodes next_inode drop_inode]; try done.
    + by rewrite length_insert.
    + intros j [z [_ Hz]%lookup_delete_Some]. apply H5. by eexists.
    + intros j. rewrite slot_drop by done. destruct (decide (i = j)) as [<-|Hn]; intros Hj; [by rewrite lookup_delete_eq|].
      rewrite lookup_delete_ne by done. auto.
    + intros j q. rewrite slot_drop by done. destruct (decide (i = j)) as [<-|Hn]; intros Hj; [done|].
      destruct (H7 _ _ Hj) as (z & Hz & Hmz & <-). exists z. split; [|split; [by rewrite lookup_delete_ne|done]].
      rewrite lookup_delete_ne; [done|]. intros ->. destruct Hp as [_ Hp]. simplify_eq.
    + intros q z [Hn Hq]%lookup_delete_Some. rewrite slot_drop by done. destruct (decide (i = inode z)) as [Hiz|]; [|by apply H8].
      apply H8 in Hq. rewrite <- Hiz in Hq. destruct Hp as [Hs _]. congruence.
    + intros q [z [_ Hz]%lookup_delete_Some]. apply H9. by eexists.
  - split; try done. intros j q. rewrite slot_drop by done. by destruct (decide (i = j)).
Qed.

Lemma fs_wp_drop {B} s m i p x (k : FsM B) (Q : B -> rdpdr_fs -> Prop) : fs_repr s m -> points s i p x ->
  (forall s', fs_repr s' (delete i m) -> later s s' -> fs_wp k Q s') ->
  fs_wp (_ ← table_set i None; _ ← inode_free p; k) Q s.
Proof.
  intros H Hp HQ. destruct (points_repr _ _ _ _ _ H Hp) as [Hm Hx].
  pose proof (r_dom _ _ H i ltac:(by eexists)) as Hi. pose proof (r_next _ _ H). pose proof (r_length _ _ H).
  apply fs_wp_bind. unfold fs_wp at 1, table_set. destruct (Z.ltb_spec i 0); [lia|].
  destruct (Z.leb_spec (Z.of_nat (length (inode_table s))) i); [lia|]. cbn [orb].
  apply fs_wp_bind. unfold fs_wp at 1, inode_free. cbn [inodes]. destruct Hp as [Hs Hp]. rewrite Hp.
  destruct (drop_inode_repr s m i p x H (conj Hs Hp)) as [??]. by apply HQ.
Qed.

(** ** Loops *)

(** The first inode from [i] on that passes a test. *)
Lemma fs_wp_find_loop s m test (Q : option nat -> rdpdr_fs -> Prop) n i : fs_repr s m -> 1 <= i -> i + Z.of_nat n = next_node s ->
  (forall k x p, i <= k -> m !! k = Some x -> points s k p x -> test x = true ->
     (forall j y, i <= j < k -> m !! j = Some y -> test y = false) -> Q (Some p) s) ->
  ((forall j y, i <= j -> m !! j = Some y -> test y = false) -> Q None s) ->
  fs_wp (find_loop n i test) Q s.
Proof.
  intros H. revert i. induction n as [|n IH]; intros i Hi Hn HS HN; cbn [find_loop].
  - apply fs_wp_ret. apply HN. intros j y Hj Hy. pose proof (r_dom _ _ H j ltac:(by eexists)). lia.
  - apply fs_wp_bind. pose proof (r_next _ _ H). eapply fs_wp_table_at; [done|lia| |].
    + intros Hm _. apply IH; [lia|lia| |].
      * intros k x p Hk Hm' Hp Ht Hb. apply (HS k x p); [lia|done..|]. intros j y Hj Hy.
        destruct (decide (j = i)) as [->|]; [congruence|]. apply (Hb j); [lia|done].
      * intros Hb. apply HN. intros j y Hj Hy. destruct (decide (j = i)) as [->|]; [congruence|]. apply (Hb j); [lia|done].
    + intros p x Hm Hp. apply fs_wp_bind. eapply fs_wp_inode_at; [apply Hp|]. destruct (test x) eqn:Et.
      * apply fs_wp_ret. apply (HS i x p); [lia|done..|]. intros j y Hj. lia.
      * apply IH; [lia|lia| |].
        -- intros k y q Hk Hm' Hp' Ht Hb. apply (HS k y q); [lia|done..|]. intros j z Hj Hz.
           destruct (decide (j = i)) as [->|]; [by simplify_eq|]. apply (Hb j); [lia|done].
        -- intros Hb. apply HN. intros j y Hj Hy. destruct (decide (j = i)) as [->|]; [by simplify_eq|]. apply (Hb j); [lia|done].
Qed.

Lemma fs_wp_find s m test (Q : option nat -> rdpdr_fs -> Prop) : fs_repr s m ->
  (forall k x p, 1 <= k -> m !! k = Some x -> points s k p x -> test x = true ->
     (forall j y, 1 <= j < k -> m !! j = Some y -> test y = false) -> Q (Some p) s) ->
  ((forall j y, 1 <= j -> m !! j = Some y -> test y = false) -> Q None s) ->
  fs_wp (find_inode test) Q s.
Proof.
  intros H HS HN. unfold find_inode. apply fs_wp_bind, fs_wp_gets. rewrite (r_num _ _ H). pose proof (r_next _ _ H).
  unfold FIRST_INODE. eapply fs_wp_find_loop; [done|lia|lia|eauto..].
Qed.

(** A loop whose body keeps an invariant of the index and the map. *)
Lemma fs_wp_each_loop s0 (I : Z -> gmap Z RDPDR_INODE -> Prop) body n i s m :
  fs_repr s m -> later s0 s -> 1 <= i -> i + Z.of_nat n = next_node s0 -> I i m ->
  (forall j m s, 1 <= j < next_node s0 -> fs_repr s m -> later s0 s -> I j m -> m !! j = None -> I (j + 1) m) ->
  (forall j m s p x, 1 <= j < next_node s0 -> fs_repr s m -> later s0 s -> I j m -> m !! j = Some x -> points s j p x ->
     fs_wp (body p x) (fun _ s' => exists m', fs_repr s' m' /\ later s s' /\ I (j + 1) m') s) ->
  fs_wp (each_loop n i body) (fun _ s' => exists m', fs_repr s' m' /\ later s s' /\ I (next_node s0) m') s.
Proof.
  intros H L Hi Hn HI HN HS. revert s m i H L Hi Hn HI. induction n as [|n IH]; intros s m i H L Hi Hn HI; cbn [each_loop].
  - apply fs_wp_ret. exists m. replace (next_node s0) with i by lia. by split.
  - apply fs_wp_bind. pose proof (r_next _ _ H). pose proof (l_next _ _ L). eapply fs_wp_table_at; [done|lia| |].
    + intros Hm _. apply (IH s m); [done..|lia|lia|]. eapply HN; eauto. lia.
    + intros p x Hm Hp. apply fs_wp_bind. eapply fs_wp_inode_at; [apply Hp|]. apply fs_wp_bind.
      eapply fs_wp_mono; [|apply (HS i m s p x); eauto; lia]. intros _ s' (m' & H' & L' & HI').
      eapply fs_wp_mono; [|apply (IH s' m' (i + 1) H'); [by etrans|lia|lia|done]].
      intros _ s'' (m'' & ? & ? & ?). exists m''. split; [done|]. split; [by etrans|done].
Qed.

Lemma fs_wp_each (I : Z -> gmap Z RDPDR_INODE -> Prop) body s m :
  fs_repr s m -> I 1 m ->
  (forall j m' s', 1 <= j < next_node s -> fs_repr s' m' -> later s s' -> I j m' -> m' !! j = None -> I (j + 1) m') ->
  (forall j m' s' p x, 1 <= j < next_node s -> fs_repr s' m' -> later s s' -> I j m' -> m' !! j = Some x -> points s' j p x ->
     fs_wp (body p x) (fun _ s'' => exists m'', fs_repr s'' m'' /\ later s' s'' /\ I (j + 1) m'') s') ->
  fs_wp (each_inode body) (fun _ s' => exists m', fs_repr s' m' /\ later s s' /\ I (next_node s) m') s.
Proof.
  intros H HI HN HS. unfold each_inode. apply fs_wp_bind, fs_wp_gets. rewrite (r_num _ _ H). pose proof (r_next _ _ H).
  unfold FIRST_INODE. eapply fs_wp_each_loop; eauto; [reflexivity|lia..].
Qed.

(** ** New inodes *)

(** The state after the three stores of a creation. *)
Definition add_inode (p : nat) (x : RDPDR_INODE) (s : rdpdr_fs) : rdpdr_fs :=
  mk_fs (<[Z.to_nat (next_node s) := Some p]> (inode_table s)) (max_entries s) (num_entries s + 1) (next_node s + 1)
    (<[p := x]> (inodes s)) (S (next_inode s)).

Lemma slot_add p x s m j : fs_repr s m -> next_node s < max_entries s ->
  slot (add_inode p x s) j = if decide (next_node s = j) then Some p else slot s j.
Proof.
  intros H Hr. pose proof (r_next _ _ H). pose proof (r_length _ _ H). unfold slot.
  destruct (Z.ltb_spec j 0) as [Hj|Hj]; [by destruct (decide (next_node s = j)); [lia|]|]. cbn [inode_table add_inode].
  destruct (decide (next_node s = j)) as [<-|Hn].
  - by rewrite list_lookup_insert_eq by lia.
  - by rewrite list_lookup_insert_ne by lia.
Qed.

Lemma next_free s m : fs_repr s m -> m !! next_node s = None.
Proof. intros H. destruct (m !! next_node s) eqn:E; [|done]. pose proof (r_dom _ _ H (next_node s) ltac:(by eexists)). lia. Qed.

Lemma fresh_inode s m : fs_repr s m -> inodes s !! next_inode s = None.
Proof. intros H. destruct (inodes s !! next_inode s) eqn:E; [|done]. pose proof (r_fresh _ _ H (next_inode s) ltac:(by eexists)). lia. Qed.

Lemma add_inode_repr s m x : fs_repr s m -> next_node s < max_entries s -> next_node s < 2 ^ 30 -> inode x = next_node s ->
  fs_repr (add_inode (next_inode s) x s) (<[next_node s := x]> m) /\ points (add_inode (next_inode s) x s) (next_node s) (next_inode s) x.
Proof.
  intros H Hr Hs Hx. pose proof (next_free _ _ H) as Hm. pose proof (fresh_inode _ _ H) as Hf.
  assert (forall j, slot (add_inode (next_inode s) x s) j = if decide (next_node s = j) then Some (next_inode s) else slot s j) as Hsl
    by (intros; by eapply slot_add).
  split; [|split; [by rewrite Hsl, decide_True|cbn; apply lookup_insert_eq]].
  destruct H as [H1 H2 H3 H4 H5 H6 H7 H8 H9].
  split; cbn [inode_table max_entries num_entries next_node inodes next_inode add_inode]; try lia.
  - by rewrite length_insert.
  - intros i. rewrite lookup_insert_is_Some'. intros [<-|Hi]; [lia|]. apply H5 in Hi. lia.
  - intros i. rewrite Hsl. destruct (decide (next_node s = i)); [done|]. intros Hi. rewrite lookup_insert_ne by done. auto.
  - intros i q. rewrite Hsl. destruct (decide (next_node s = i)) as [<-|Hn].
    + intros [= <-]. exists x. rewrite !lookup_insert_eq. done.
    + intros Hq. destruct (H7 _ _ Hq) as (z & Hz & Hmz & <-). exists z. rewrite (lookup_insert_ne m) by done.
      rewrite lookup_insert_ne; [done|]. intros E. congruence.
  - intros q z. rewrite lookup_insert_Some, Hsl. intros [[<- <-]|[Hn Hq]]; [by rewrite decide_True|].
    rewrite decide_False; [auto|]. intros E. apply H8 in Hq. destruct (H7 _ _ Hq) as (? & ? & ? & _). congruence.
  - intros q. rewrite lookup_insert_is_Some'. intros [<-|Hq]; [lia|]. apply H9 in Hq. lia.
Qed.

(** A failed [calloc]. *)
Lemma skip_inode_repr s m : fs_repr s m ->
  fs_repr (mk_fs (inode_table s) (max_entries s) (num_entries s) (next_node s) (inodes s) (S (next_inode s))) m.
Proof. intros [H1 H2 H3 H4 H5 H6 H7 H8 H9]. split; cbn; try done. intros p Hp. apply H9 in Hp. lia. Qed.

Section Update.
Context (w : World).

(** The growth of the table: [m] is the same, and there is room when the
    allocation succeeds. *)
Lemma fs_wp_update_size s m (Q : unit -> rdpdr_fs -> Prop) : fs_repr s m ->
  (forall s', fs_repr s' m -> num_entries s' = num_entries s -> next_node s' = next_node s -> inodes s' = inodes s ->
     (forall i, slot s' i = slot s i) -> next_inode s' = next_inode s -> max_entries s <= max_entries s' ->
     (realloc w (max_entries s) = true -> next_node s' + 100 <= max_entries s') -> Q tt s') ->
  fs_wp (rdpdr_fuse_update_fs_size w) Q s.
Proof.
  intros H HQ. unfold fs_wp, rdpdr_fuse_update_fs_size. pose proof (r_num _ _ H) as Hn. pose proof (r_next _ _ H). pose proof (r_max _ _ H).
  rewrite i32_id by int_lia. destruct (Z.ltb_spec 100 (max_entries s - num_entries s)).
  { apply HQ; try done. intros _. lia. }
  destruct (realloc w (max_entries s)) eqn:E; cbn [negb]; [|apply HQ; try done].
  rewrite u32_id by int_lia. set (s' := mk_fs _ _ _ _ _ _).
  assert (forall i, slot s' i = slot s i) as Hsl.
  { intros i. unfold slot, s'. cbn [inode_table]. destruct (i <? 0); [done|]. destruct (decide (Z.to_nat i < length (inode_table s))%nat).
    - by rewrite lookup_app_l.
    - rewrite lookup_app_r by lia. rewrite (proj2 (lookup_ge_None (inode_table s) _)) by lia.
      destruct (repeat None 100 !! _) as [o|] eqn:Er; [|done]. apply list_elem_of_lookup_2, list_elem_of_In, repeat_spec in Er. by subst. }
  apply HQ; try done; [|cbn; lia..]. pose proof (r_length _ _ H).
  split; cbn [max_entries num_entries next_node inodes next_inode s']; try lia.
  - unfold s'. cbn [inode_table]. rewrite length_app, repeat_length. lia.
  - apply (r_dom _ _ H).
  - intros i. rewrite Hsl. apply (r_slot _ _ H).
  - intros i p. rewrite Hsl. apply (r_point _ _ H).
  - intros p x. rewrite Hsl. apply (r_owned _ _ H).
  - apply (r_fresh _ _ H).
Qed.

End Update.
