(* ===== verification/FuseTree.v ===== *)
(** * The redirected drives: the tree

    The inodes form a tree: [parents m] has the parent of every inode, [rooted]
    is the depth under a share, [kids] the entries of a directory.  [tree m] is
    the invariant of the inode table; it includes that [nentries] is the number
    of entries of a directory. *)

From S2P Require Import Prelude FuseTypes FuseTable.
From stdpp Require Import gmap list.
#[local] Open Scope Z_scope.

Definition parents (m : gmap Z RDPDR_INODE) : gmap Z Z := parent_inode <$> m.

Definition kids (pm : gmap Z Z) (d : Z) : gmap Z Z := filter (fun kv => kv.2 = d) pm.
Definition count (pm : gmap Z Z) (d : Z) : Z := Z.of_nat (size (kids pm d)).

(** [i] is [n] directories below a share. *)
Inductive rooted (pm : gmap Z Z) : nat -> Z -> Prop :=
| rooted_top i : pm !! i = Some 1 -> rooted pm 0 i
| rooted_up n i p : pm !! i = Some p -> p <> 1 -> rooted pm n p -> rooted pm (S n) i.

(** [i] is [d] or an inode below it. *)
Inductive below (pm : gmap Z Z) (d : Z) : Z -> Prop :=
| below_self : below pm d d
| below_up i p : pm !! i = Some p -> below pm d p -> below pm d i.

Record tree (m : gmap Z RDPDR_INODE) : Prop := {
  t_zero : parents m !! 0 = Some 0;
  t_root : parents m !! 1 = Some 0;
  t_clip : parents m !! 2 = Some 1;
  t_rooted i : 2 <= i -> is_Some (m !! i) -> exists n, rooted (parents m) n i;
  t_low i : is_Some (m !! i) -> 0 <= i;
  t_type i x : m !! i = Some x -> is_reg x = negb (is_dir x);
  t_dir i x : m !! i = Some x -> is_dir x = false -> kids (parents m) i = ∅;
  t_count i x : 1 <= i -> m !! i = Some x -> nentries x = count (parents m) i;
  t_name i x : m !! i = Some x -> (length (name x) < 256)%nat;
}.

(** ** Counting *)

Lemma count_delete pm i p d : pm !! i = Some p -> count (delete i pm) d = count pm d - (if decide (p = d) then 1 else 0).
Proof.
  intros H. unfold count, kids. rewrite map_filter_delete. destruct (decide (p = d)) as [<-|Hn].
  - rewrite map_size_delete_Some; [|eexists; by apply map_lookup_filter_Some_2]. cbn.
    assert (size (filter (fun kv : Z * Z => kv.2 = p) pm) <> 0%nat); [|lia].
    apply map_size_ne_0_lookup_2 with i. eexists. by apply map_lookup_filter_Some_2.
  - rewrite delete_id; [lia|]. apply map_lookup_filter_None_2. right. intros x Hx. cbn. congruence.
Qed.

Lemma count_insert pm i p d : pm !! i = None -> count (<[i := p]> pm) d = count pm d + (if decide (p = d) then 1 else 0).
Proof.
  intros H. pose proof (count_delete (<[i := p]> pm) i p d (lookup_insert_eq _ _ _)) as E.
  rewrite delete_insert_id in E by done. lia.
Qed.

Lemma count_nonneg pm d : 0 <= count pm d.
Proof. unfold count. lia. Qed.

Lemma count_pos pm i d : pm !! i = Some d -> 0 < count pm d.
Proof. intros H. pose proof (count_delete pm i d d H) as E. rewrite decide_True in E by done. pose proof (count_nonneg (delete i pm) d). lia. Qed.

Lemma kids_empty pm d : kids pm d = ∅ <-> forall i, pm !! i <> Some d.
Proof.
  unfold kids. split.
  - intros H i E. assert (filter (fun kv : Z * Z => kv.2 = d) pm !! i = Some d) as E' by (by apply map_lookup_filter_Some_2).
    rewrite H in E'. done.
  - intros H. apply map_empty. intros i. apply map_lookup_filter_None_2. right. intros p Hi E. cbn in E. subst. by apply (H i).
Qed.

(** The number of keys below a bound. *)
Lemma map_size_bound {A} (m : gmap Z A) n : (forall i, is_Some (m !! i) -> 0 <= i < n) -> Z.of_nat (size m) <= Z.max 0 n.
Proof.
  intros H. rewrite <- size_dom. unfold size, set_size. cbn.
  assert (elements (dom m) ⊆+ seqZ 0 n) as Hs.
  { apply NoDup_submseteq; [apply NoDup_elements|]. intros i Hi. apply elem_of_seqZ. apply elem_of_elements, elem_of_dom, H in Hi. lia. }
  apply submseteq_length in Hs. rewrite length_seqZ in Hs. lia.
Qed.

Lemma count_bound pm d n : (forall i, is_Some (pm !! i) -> 0 <= i < n) -> count pm d <= Z.max 0 n.
Proof.
  intros H. unfold count. apply map_size_bound. intros i [x Hx]. apply H. unfold kids in Hx.
  apply map_lookup_filter_Some_1_1 in Hx. by eexists.
Qed.

(** ** Depth *)

Lemma rooted_fun pm n i : rooted pm n i -> forall n', rooted pm n' i -> n = n'.
Proof.
  induction 1 as [i Hi|n i p Hi Hp Hr IH]; intros n' H'; inversion H' as [j Hj|k j q Hj Hq Hr']; subst; [done|congruence..|].
  assert (q = p) as -> by congruence. f_equal. auto.
Qed.

Lemma below_trans pm a b c : below pm a b -> below pm b c -> below pm a c.
Proof. intros Hab. induction 1 as [|i p Hi Hp IH]; [done|]. by eapply below_up. Qed.

Section Depth.
Context (pm : gmap Z Z) (Hzero : pm !! 0 = Some 0) (Hroot : pm !! 1 = Some 0).

Lemma rooted_ne n i : rooted pm n i -> i <> 0 /\ i <> 1.
Proof.
  intros H. assert (i <> 0) as H0.
  { induction H as [i Hi|n i p Hi Hp Hr IH]; intros ->; [congruence|]. assert (p = 0) as -> by congruence. done. }
  split; [done|]. intros E. inversion H as [j Hj|k j p Hj Hp Hr]; subst; [congruence|].
  assert (p = 0) as -> by congruence. clear - Hr Hzero. remember 0 as z eqn:Ez.
  induction Hr as [i Hi|n i p Hi Hp' Hr IH]; [congruence|]. subst. assert (p = 0) as -> by congruence. auto.
Qed.

Lemma below_low d i : below pm d i -> i = 0 \/ i = 1 -> d = 0 \/ d = 1.
Proof. induction 1 as [|i p Hi Hb IH]; [done|]. intros [-> | ->]; apply IH; left; congruence. Qed.

Lemma below_rooted d i : below pm d i -> forall n k, rooted pm n i -> rooted pm k d -> (k <= n)%nat /\ (k = n -> i = d).
Proof.
  induction 1 as [|i p Hi Hb IH]; intros n k Hn Hk.
  - pose proof (rooted_fun _ _ _ Hn _ Hk). subst. split; [lia|done].
  - pose proof (rooted_ne _ _ Hk) as [Hd0 Hd1]. inversion Hn as [j Hi'|n' j q Hi' Hq Hr]; subst.
    + assert (p = 1) as -> by congruence. destruct (below_low _ _ Hb); [by right|done..].
    + assert (q = p) as -> by congruence. destruct (IH _ _ Hr Hk) as [Hle _]. split; [lia|]. lia.
Qed.

Lemma below_antisym d i n k : rooted pm n i -> rooted pm k d -> below pm d i -> below pm i d -> i = d.
Proof.
  intros Hn Hk H1 H2. destruct (below_rooted _ _ H1 _ _ Hn Hk) as [? E], (below_rooted _ _ H2 _ _ Hk Hn). apply E. lia.
Qed.

(** The parent of an inode is not below it. *)
Lemma parent_not_below i p n : rooted pm n i -> pm !! i = Some p -> ~ below pm i p.
Proof.
  intros Hr0 Hi Hb. inversion Hr0 as [j Hi'|n' j q Hi' Hq Hr]; subst.
  - assert (p = 1) as -> by congruence. destruct (below_low _ _ Hb) as [-> | ->]; [by right|congruence..].
  - assert (q = p) as -> by congruence. pose proof (rooted_up _ _ _ _ Hi Hq Hr) as Hr'.
    destruct (below_rooted _ _ Hb _ _ Hr Hr'). lia.
Qed.

(** No chain of directories is longer than the number of inodes. *)
Fixpoint tall (d : Z) (n : nat) : Prop :=
  match n with
  | O => False
  | S n => forall c, pm !! c = Some d -> tall c n
  end.

Lemma chain_tall n d X : (forall j, j ∈ X -> below pm j d /\ exists k, rooted pm k j) -> NoDup X -> d ∈ X ->
  (forall j, j ∈ X -> j ∈ dom pm) -> (length X + n = S (size pm))%nat -> tall d n.
Proof.
  revert d X. induction n as [|n IH]; intros d X Hb Hnd Hd Hdom Hlen; cbn.
  - assert (X ⊆+ elements (dom pm)) as Hs.
    { apply NoDup_submseteq; [done|]. intros j Hj. by apply elem_of_elements, Hdom. }
    apply submseteq_length in Hs. rewrite <- (size_dom pm) in Hlen. unfold size, set_size in Hlen. cbn in Hlen. lia.
  - intros c Hc. destruct (Hb d Hd) as [_ [k Hk]]. pose proof (rooted_ne _ _ Hk) as [? ?].
    assert (rooted pm (S k) c) as Hrc by (by eapply rooted_up).
    assert (forall j, j ∈ X -> c <> j) as Hnew.
    { intros j Hj ->. destruct (Hb j Hj) as [Hbj _]. by eapply (parent_not_below j d). }
    apply (IH c (c :: X)).
    + intros j [-> |Hj]%elem_of_cons.
      * split; [constructor|eauto].
      * destruct (Hb j Hj) as [Hbj ?]. split; [|done]. by eapply below_up.
    + constructor; [|done]. intros Hin. by apply (Hnew c).
    + by left.
    + intros j [-> |Hj]%elem_of_cons; [|auto]. apply elem_of_dom. by eexists.
    + cbn. lia.
Qed.

Lemma rooted_tall d k : rooted pm k d -> tall d (size pm).
Proof.
  intros Hk. apply (chain_tall _ d [d]); [|by apply NoDup_singleton|by apply list_elem_of_singleton| |done].
  - intros j ->%list_elem_of_singleton. split; [constructor|eauto].
  - intros j ->%list_elem_of_singleton. apply elem_of_dom. destruct Hk; by eexists.
Qed.

End Depth.

Lemma tall_mono pm d n n' : tall pm d n -> (n <= n')%nat -> tall pm d n'.
Proof.
  revert d n'. induction n as [|n IH]; intros d n' H Hle; [done|]. destruct n' as [|n']; [lia|]. cbn in *.
  intros c Hc. apply IH; [auto|lia].
Qed.

Lemma tall_sub pm pm' d n : (forall i p, pm' !! i = Some p -> pm !! i = Some p) -> tall pm d n -> tall pm' d n.
Proof. intros Hs. revert d. induction n as [|n IH]; intros d H; [done|]. cbn in *. intros c Hc%Hs. auto. Qed.

(** ** The operations on the tree *)

Lemma lookup_parents m i p : parents m !! i = Some p <-> exists x, m !! i = Some x /\ parent_inode x = p.
Proof. unfold parents. rewrite lookup_fmap_Some. split; intros (x & H1 & H2); eauto. Qed.

Lemma parents_lookup m i x : m !! i = Some x -> parents m !! i = Some (parent_inode x).
Proof. intros H. apply lookup_parents. eauto. Qed.

Lemma parents_insert m i x : parents (<[i := x]> m) = <[i := parent_inode x]> (parents m).
Proof. apply fmap_insert. Qed.

Lemma parents_delete m i : parents (delete i m) = delete i (parents m).
Proof. apply fmap_delete. Qed.

Lemma parents_same m i x y : m !! i = Some x -> parent_inode y = parent_inode x -> parents (<[i := y]> m) = parents m.
Proof. intros H E. rewrite parents_insert, E. apply insert_id, parents_lookup, H. Qed.

Lemma rooted_pos m n i : tree m -> rooted (parents m) n i -> 2 <= i.
Proof.
  intros T H. pose proof (rooted_ne _ (t_zero _ T) (t_root _ T) _ _ H).
  assert (is_Some (m !! i)) as Hi. { destruct H as [i H|? i ? H _ _]; apply lookup_parents in H as (? & ? & _); by eexists. }
  apply (t_low _ T) in Hi. lia.
Qed.

(** The parent of an inode is a directory of the table. *)
Lemma parent_live m i x : tree m -> 2 <= i -> m !! i = Some x ->
  1 <= parent_inode x /\ parent_inode x <> i /\ exists y, m !! parent_inode x = Some y /\ is_dir y = true.
Proof.
  intros T Hi Hx. pose proof (parents_lookup _ _ _ Hx) as Hp. destruct (t_rooted _ T i Hi ltac:(by eexists)) as [n Hr].
  assert (parent_inode x <> i) as Hne.
  { intros E. apply (parent_not_below _ (t_zero _ T) (t_root _ T) _ _ _ Hr Hp). rewrite E. constructor. }
  assert (1 <= parent_inode x /\ is_Some (m !! parent_inode x)) as [Hge [y Hy]].
  { inversion Hr as [j Hj|k j p Hj Hpn Hrp]; subst; rewrite Hp in Hj; injection Hj as Hj; rewrite Hj.
    - split; [done|]. pose proof (t_root _ T) as H1. apply lookup_parents in H1 as (? & ? & _). by eexists.
    - split; [pose proof (rooted_pos _ _ _ T Hrp); lia|]. destruct Hrp as [? H|? ? ? H _ _]; apply lookup_parents in H as (? & ? & _); by eexists. }
  split; [done|]. split; [done|]. exists y. split; [done|]. destruct (is_dir y) eqn:Ed; [done|].
  pose proof (t_dir _ T _ _ Hy Ed) as Hk. by apply (proj1 (kids_empty _ _) Hk) in Hp.
Qed.

Lemma tree_live m : tree m -> exists x0 x1 x2, m !! 0 = Some x0 /\ m !! 1 = Some x1 /\ m !! 2 = Some x2.
Proof.
  intros T. pose proof (t_zero _ T) as (x0 & ? & _)%lookup_parents. pose proof (t_root _ T) as (x1 & ? & _)%lookup_parents.
  pose proof (t_clip _ T) as (x2 & ? & _)%lookup_parents. by exists x0, x1, x2.
Qed.

(** A store that changes neither the parent, nor the type, nor [nentries]. *)
Lemma tree_modify m i x y : tree m -> m !! i = Some x ->
  parent_inode y = parent_inode x -> is_dir y = is_dir x -> is_reg y = is_reg x -> nentries y = nentries x -> (length (name y) < 256)%nat ->
  tree (<[i := y]> m).
Proof.
  intros T Hx Hp Hd Hr Hn Hnm. assert (parents (<[i := y]> m) = parents m) as E by (by eapply parents_same).
  assert (forall j z, <[i := y]> m !! j = Some z -> exists z', m !! j = Some z' /\ is_dir z = is_dir z' /\ is_reg z = is_reg z' /\ nentries z = nentries z') as Hl.
  { intros j z. rewrite lookup_insert_Some. intros [[<- <-]|[_ ?]]; eauto. }
  destruct T as [T1 T2 T3 T4 T5 T6 T7 T8 T9]. split; rewrite ?E; try done.
  - intros j Hj [z (z' & Hz' & _)%Hl]. apply T4; [done|by eexists].
  - intros j [z (z' & Hz' & _)%Hl]. apply T5. by eexists.
  - intros j z (z' & Hz' & -> & -> & _)%Hl. eauto.
  - intros j z (z' & Hz' & -> & _)%Hl. eauto.
  - intros j z Hj (z' & Hz' & _ & _ & ->)%Hl. eauto.
  - intros j z. rewrite lookup_insert_Some. intros [[<- <-]|[_ ?]]; eauto.
Qed.

Lemma rooted_insert pm n j i p : pm !! i = None -> rooted pm n j -> rooted (<[i := p]> pm) n j.
Proof.
  intros Hi. induction 1 as [j Hj|n j q Hj Hq Hr IH].
  - apply rooted_top. rewrite lookup_insert_ne; congruence.
  - eapply rooted_up; [|done..]. rewrite lookup_insert_ne; congruence.
Qed.

(** No inode has a parent that is not in the table. *)
Lemma kids_dead m i : tree m -> 2 <= i -> m !! i = None -> kids (parents m) i = ∅.
Proof.
  intros T Hi Hn. apply kids_empty. intros j (x & Hx & Hp)%lookup_parents.
  destruct (decide (2 <= j)) as [Hj|Hj].
  - destruct (parent_live _ _ _ T Hj Hx) as (_ & _ & y & Hy & _). congruence.
  - pose proof (t_low _ T j ltac:(by eexists)). pose proof (parents_lookup _ _ _ Hx) as E.
    assert (j = 0 \/ j = 1) as [-> | ->] by lia; [rewrite (t_zero _ T) in E|rewrite (t_root _ T) in E]; injection E; lia.
Qed.

(** A new inode [i] in the directory [d]. *)
Lemma tree_insert m i x d y : tree m -> 3 <= i -> m !! i = None -> parent_inode x = d -> 1 <= d -> m !! d = Some y ->
  is_dir y = true -> nentries x = 0 -> is_reg x = negb (is_dir x) -> (length (name x) < 256)%nat -> count (parents m) d + 1 < 2 ^ 32 ->
  tree (<[d := entries_up y]> (<[i := x]> m)).
Proof.
  intros T Hi Hn Hp Hd Hy Hdir Hx Hty Hnm Hc. assert (d <> i) as Hdi by congruence.
  assert (parents m !! i = None) as Hpn by (unfold parents; by rewrite lookup_fmap, Hn).
  assert (<[i := x]> m !! d = Some y) as Hy' by (by rewrite lookup_insert_ne).
  assert (parents (<[d := entries_up y]> (<[i := x]> m)) = <[i := d]> (parents m)) as E.
  { rewrite (parents_same _ _ _ _ Hy') by done. by rewrite parents_insert, Hp. }
  assert (forall j z, <[d := entries_up y]> (<[i := x]> m) !! j = Some z ->
    j = d /\ z = entries_up y \/ j = i /\ z = x \/ j <> d /\ j <> i /\ m !! j = Some z) as Hl.
  { intros j z. rewrite lookup_insert_Some. intros [[<- <-]|[? Hz]]; [by left|]. apply lookup_insert_Some in Hz as [[<- <-]|[? Hz]]; auto. }
  assert (kids (parents m) i = ∅) as Hki by (apply kids_dead; [done|lia|done]).
  destruct T as [T1 T2 T3 T4 T5 T6 T7 T8 T9]. split; rewrite ?E.
  - rewrite lookup_insert_ne by lia. done.
  - rewrite lookup_insert_ne by lia. done.
  - rewrite lookup_insert_ne by lia. done.
  - assert (forall j, 2 <= j -> is_Some (m !! j) -> exists n, rooted (<[i := d]> (parents m)) n j) as Hold.
    { intros j Hj Hs. destruct (T4 j Hj Hs) as [n Hr]. exists n. by apply rooted_insert. }
    intros j Hj [z [[-> ->]|[[-> ->]|(? & ? & Hz)]]%Hl]; [apply Hold; [done|by eexists]| |apply Hold; [done|by eexists]].
    destruct (decide (d = 1)) as [->|Hd1]; [exists 0%nat; apply rooted_top, lookup_insert_eq|].
    destruct (Hold d ltac:(lia) ltac:(by eexists)) as [n Hr]. exists (S n). eapply rooted_up; [apply lookup_insert_eq|done..].
  - intros j [z [[-> ->]|[[-> ->]|(? & ? & Hz)]]%Hl]; [lia..|]. apply T5. by eexists.
  - intros j z [[-> ->]|[[-> ->]|(? & ? & Hz)]]%Hl; [exact (T6 d y Hy)|done|eauto].
  - intros j z [[-> ->]|[[-> ->]|(? & ? & Hz)]]%Hl Hzd.
    + change (is_dir y = false) in Hzd. congruence.
    + apply kids_empty. intros k. rewrite lookup_insert_Some. intros [[? ?]|[? Hk]]; [congruence|].
      by apply (proj1 (kids_empty _ _) Hki) in Hk.
    + apply kids_empty. intros k. rewrite lookup_insert_Some. intros [[? ?]|[? Hk]]; [congruence|].
      by apply (proj1 (kids_empty _ _) (T7 _ _ Hz Hzd)) in Hk.
  - intros j z Hj [[-> ->]|[[-> ->]|(? & ? & Hz)]]%Hl; rewrite count_insert by done.
    + rewrite decide_True by done. cbn. rewrite (T8 _ _ Hd Hy). pose proof (count_nonneg (parents m) d). rewrite u32_id; int_lia.
    + rewrite decide_False by done. unfold count. rewrite Hki, map_size_empty. rewrite Hx. done.
    + rewrite decide_False by done. rewrite (T8 _ _ Hj Hz). lia.
  - intros j z [[-> ->]|[[-> ->]|(? & ? & Hz)]]%Hl; [exact (T9 _ y Hy)|done|eauto].
Qed.

Lemma rooted_delete pm n j i : kids pm i = ∅ -> j <> i -> rooted pm n j -> rooted (delete i pm) n j.
Proof.
  intros Hk Hj Hr. induction Hr as [j H|n j q H Hq Hr IH].
  - apply rooted_top. by rewrite lookup_delete_ne.
  - eapply rooted_up; [by rewrite lookup_delete_ne|done|]. apply IH. intros ->. by apply (proj1 (kids_empty _ _) Hk) in H.
Qed.

(** The map without [i], whose parent has one entry less. *)
Definition unlink (i : Z) (x : RDPDR_INODE) (m : gmap Z RDPDR_INODE) : gmap Z RDPDR_INODE :=
  delete i (alter entries_down (parent_inode x) m).

Lemma lookup_unlink m i x j : parent_inode x <> i ->
  unlink i x m !! j = if decide (j = i) then None else if decide (j = parent_inode x) then entries_down <$> m !! j else m !! j.
Proof.
  intros Hne. unfold unlink. destruct (decide (j = i)) as [->|Hj]; [apply lookup_delete_eq|]. rewrite lookup_delete_ne by done.
  destruct (decide (j = parent_inode x)) as [->|]; [apply lookup_alter_eq|by rewrite lookup_alter_ne].
Qed.

Lemma parents_alter_down m d : parents (alter entries_down d m) = parents m.
Proof.
  apply map_eq. intros j. unfold parents. rewrite !lookup_fmap.
  destruct (decide (d = j)) as [<-|]; [rewrite lookup_alter_eq|by rewrite lookup_alter_ne]. by destruct (m !! d).
Qed.

Lemma parents_unlink m i x : parents (unlink i x m) = delete i (parents m).
Proof. unfold unlink. by rewrite parents_delete, parents_alter_down. Qed.

(** Removing an inode that has no entries. *)
Lemma tree_unlink m i x : tree m -> 3 <= i -> m !! i = Some x -> kids (parents m) i = ∅ ->
  count (parents m) (parent_inode x) < 2 ^ 32 -> tree (unlink i x m).
Proof.
  intros T Hi Hx Hk Hc. destruct (parent_live _ i _ T ltac:(lia) Hx) as (Hp1 & Hpi & y & Hy & Hyd).
  pose proof (parents_lookup _ _ _ Hx) as Hpx. pose proof (count_pos _ _ _ Hpx) as Hpos.
  assert (forall j z, unlink i x m !! j = Some z -> j <> i /\ (j = parent_inode x /\ z = entries_down y \/ j <> parent_inode x /\ m !! j = Some z)) as Hl.
  { intros j z. rewrite lookup_unlink by done. destruct (decide (j = i)); [done|]. destruct (decide (j = parent_inode x)) as [->|]; [|auto].
    rewrite Hy. intros [= <-]. auto. }
  destruct T as [T1 T2 T3 T4 T5 T6 T7 T8 T9]. split; rewrite ?parents_unlink.
  - rewrite lookup_delete_ne by lia. done.
  - rewrite lookup_delete_ne by lia. done.
  - rewrite lookup_delete_ne by lia. done.
  - intros j Hj [z [Hji [[-> ->]|[_ Hz]]]%Hl].
    + destruct (T4 (parent_inode x) Hj ltac:(by eexists)) as [n Hr]. exists n. by apply rooted_delete.
    + destruct (T4 j Hj ltac:(by eexists)) as [n Hr]. exists n. by apply rooted_delete.
  - intros j [z [Hji [[-> ->]|[_ Hz]]]%Hl]; [lia|]. apply T5. by eexists.
  - intros j z [Hji [[-> ->]|[_ Hz]]]%Hl; [exact (T6 _ y Hy)|eauto].
  - intros j z [Hji [[-> ->]|[_ Hz]]]%Hl Hzd; [change (is_dir y = false) in Hzd; congruence|].
    apply kids_empty. intros k [_ Hk']%lookup_delete_Some. by apply (proj1 (kids_empty _ _) (T7 _ _ Hz Hzd)) in Hk'.
  - intros j z Hj [Hji [[-> ->]|[Hjp Hz]]]%Hl; rewrite (count_delete _ _ _ _ Hpx).
    + rewrite decide_True by done. cbn. rewrite (T8 _ _ Hp1 Hy). rewrite u32_id; int_lia.
    + rewrite decide_False by done. rewrite (T8 _ _ Hj Hz). lia.
  - intros j z [Hji [[-> ->]|[_ Hz]]]%Hl; [exact (T9 _ y Hy)|eauto].
Qed.

Lemma rooted_move pm n j i q : pm !! 0 = Some 0 -> pm !! 1 = Some 0 -> i <> 1 -> ~ below pm i q -> 1 <= q ->
  (q <> 1 -> exists k, rooted pm k q) -> rooted pm n j -> exists n', rooted (<[i := q]> pm) n' j.
Proof.
  intros H0 H1 Hi Hq Hq1 Hqr Hj.
  assert (forall n j, rooted pm n j -> ~ below pm i j -> rooted (<[i := q]> pm) n j) as Hfar.
  { clear n j Hj. intros n j. induction 1 as [j Hj|n j p Hj Hp Hr IH]; intros Hb.
    - apply rooted_top. rewrite lookup_insert_ne; [done|]. intros ->. apply Hb. constructor.
    - eapply rooted_up; [|done|].
      + rewrite lookup_insert_ne; [done|]. intros ->. apply Hb. constructor.
      + apply IH. intros Hb'. apply Hb. by eapply below_up. }
  assert (exists k, rooted (<[i := q]> pm) k i) as [k Hk].
  { destruct (decide (q = 1)) as [->|Hne]; [exists 0%nat; apply rooted_top, lookup_insert_eq|].
    destruct (Hqr Hne) as [k Hk]. exists (S k). eapply rooted_up; [apply lookup_insert_eq|done|]. by apply Hfar. }
  induction Hj as [j Hj|n j p Hj Hp Hr [n' IH]].
  - destruct (decide (j = i)) as [->|]; [eauto|]. exists 0%nat. apply rooted_top. by rewrite lookup_insert_ne.
  - destruct (decide (j = i)) as [->|]; [eauto|]. exists (S n'). eapply rooted_up; [by rewrite lookup_insert_ne|done..].
Qed.

Lemma count_move pm i p q d : pm !! i = Some p ->
  count (<[i := q]> pm) d = count pm d - (if decide (p = d) then 1 else 0) + (if decide (q = d) then 1 else 0).
Proof.
  intros H. rewrite <- insert_delete_eq, count_insert by apply lookup_delete_eq. by rewrite (count_delete _ _ _ _ H).
Qed.

(** The inode [i] moves to the directory [q]. *)
Lemma tree_move m i x x' q yp yq : tree m -> 3 <= i -> m !! i = Some x -> m !! parent_inode x = Some yp ->
  m !! q = Some yq -> 1 <= q -> is_dir yq = true -> q <> parent_inode x -> ~ below (parents m) i q ->
  parent_inode x' = q -> is_dir x' = is_dir x -> is_reg x' = is_reg x -> nentries x' = nentries x -> (length (name x') < 256)%nat ->
  (forall d, count (parents m) d < 2 ^ 32 - 1) ->
  tree (<[q := entries_up yq]> (<[parent_inode x := entries_down yp]> (<[i := x']> m))).
Proof.
  intros T Hi Hx Hyp Hyq Hq1 Hqd Hqp Hnb Hx' Hd' Hr' Hn' Hnm Hc. set (p := parent_inode x) in *.
  destruct (parent_live _ i _ T ltac:(lia) Hx) as (Hp1 & Hpi & y' & Hy' & Hpd). fold p in Hp1, Hpi, Hy'.
  assert (y' = yp) as -> by congruence. pose proof (parents_lookup _ _ _ Hx) as Hpx. fold p in Hpx.
  assert (q <> i) as Hqi. { intros ->. apply Hnb. constructor. }
  pose proof (count_pos _ _ _ Hpx) as Hpos. set (m' := <[q := _]> _).
  assert (parents m' = <[i := q]> (parents m)) as E.
  { unfold m'. rewrite (parents_same _ q yq) by (rewrite ?lookup_insert_ne; done).
    rewrite (parents_same _ p yp) by (rewrite ?lookup_insert_ne; done). by rewrite parents_insert, Hx'. }
  assert (forall j z, m' !! j = Some z -> j = q /\ z = entries_up yq \/ j = p /\ z = entries_down yp \/
    j = i /\ z = x' \/ j <> q /\ j <> p /\ j <> i /\ m !! j = Some z) as Hl.
  { intros j z. unfold m'. rewrite !lookup_insert_Some. intros [[<- <-]|[? [[<- <-]|[? [[<- <-]|[? ?]]]]]]; auto 10. }
  destruct T as [T1 T2 T3 T4 T5 T6 T7 T8 T9]. split; rewrite ?E.
  - rewrite lookup_insert_ne by lia. done.
  - rewrite lookup_insert_ne by lia. done.
  - rewrite lookup_insert_ne by lia. done.
  - intros j Hj Hs. assert (is_Some (m !! j)) as Hs'.
    { destruct Hs as [z [[-> _]|[[-> _]|[[-> _]|(_ & _ & _ & ?)]]]%Hl]; by eexists. }
    destruct (T4 j Hj Hs') as [n Hr]. eapply rooted_move; [done|done|lia|done|done| |done].
    intros Hq. apply T4; [lia|by eexists].
  - intros j [z [[-> _]|[[-> _]|[[-> _]|(_ & _ & _ & ?)]]]%Hl]; [lia..|]. apply T5. by eexists.
  - intros j z [[-> ->]|[[-> ->]|[[-> ->]|(_ & _ & _ & ?)]]]%Hl; [exact (T6 _ _ Hyq)|exact (T6 _ _ Hyp)| |eauto].
    rewrite Hr', Hd'. eauto.
  - intros j z Hz Hzd. apply kids_empty. intros k Hk.
    apply Hl in Hz as [[-> ->]|[[-> ->]|[[-> ->]|(Hjq & Hjp & Hji & Hz)]]].
    + change (is_dir yq = false) in Hzd. congruence.
    + change (is_dir yp = false) in Hzd. congruence.
    + rewrite Hd' in Hzd. apply lookup_insert_Some in Hk as [[_ ?]|[_ Hk]]; [done|].
      by apply (proj1 (kids_empty _ _) (T7 _ _ Hx Hzd)) in Hk.
    + apply lookup_insert_Some in Hk as [[_ ?]|[_ Hk]]; [done|]. by apply (proj1 (kids_empty _ _) (T7 _ _ Hz Hzd)) in Hk.
  - intros j z Hj Hz. rewrite (count_move _ _ _ _ _ Hpx). pose proof (Hc q). pose proof (Hc p).
    apply Hl in Hz as [[-> ->]|[[-> ->]|[[-> ->]|(Hjq & Hjp & Hji & Hz)]]].
    + rewrite decide_False, decide_True by done. cbn. rewrite (T8 _ _ Hq1 Hyq). pose proof (count_nonneg (parents m) q). rewrite u32_id; int_lia.
    + rewrite decide_True, decide_False by done. cbn. rewrite (T8 _ _ Hp1 Hyp). rewrite u32_id; int_lia.
    + rewrite decide_False, decide_False by done. rewrite Hn', (T8 _ _ Hj Hx). lia.
    + rewrite decide_False, decide_False by done. rewrite (T8 _ _ Hj Hz). lia.
  - intros j z [[-> ->]|[[-> ->]|[[-> ->]|(_ & _ & _ & ?)]]]%Hl; [exact (T9 _ _ Hyq)|exact (T9 _ _ Hyp)|done|eauto].
Qed.

(** A change of all inodes that keeps the parents, the types and the counts. *)
Lemma parents_fmap f m : (forall x, parent_inode (f x) = parent_inode x) -> parents (f <$> m) = parents m.
Proof. intros Hf. unfold parents. rewrite <- map_fmap_compose. apply map_fmap_ext. intros i x _. apply Hf. Qed.

Lemma tree_fmap f m : (forall x, parent_inode (f x) = parent_inode x) -> (forall x, is_dir (f x) = is_dir x) ->
  (forall x, is_reg (f x) = is_reg x) -> (forall x, nentries (f x) = nentries x) -> (forall x, name (f x) = name x) -> tree m -> tree (f <$> m).
Proof.
  intros Hp Hd Hr Hn Hnm [T1 T2 T3 T4 T5 T6 T7 T8 T9]. split; rewrite ?(parents_fmap f m Hp); try done.
  - intros i Hi. rewrite lookup_fmap, fmap_is_Some. auto.
  - intros i. rewrite lookup_fmap, fmap_is_Some. auto.
  - intros i x (y & <- & Hy)%lookup_fmap_Some. rewrite Hr, Hd. eauto.
  - intros i x (y & <- & Hy)%lookup_fmap_Some. rewrite Hd. eauto.
  - intros i x Hi (y & <- & Hy)%lookup_fmap_Some. rewrite Hn. eauto.
  - intros i x (y & <- & Hy)%lookup_fmap_Some. rewrite Hnm. eauto.
Qed.
