(* ===== verification/FuseOps.v ===== *)
(** * The redirected drives: the operations on the tree

    The specifications of the functions of the inode table: what they do to the
    map, and that they keep it a tree. *)

From S2P Require Import Prelude FuseTypes FuseTable FuseRepr FuseTree.
From stdpp Require Import gmap list.
#[local] Open Scope Z_scope.

Definition fs_ok (s : rdpdr_fs) (m : gmap Z RDPDR_INODE) : Prop := fs_repr s m /\ tree m.

Ltac fs_step := first [apply fs_wp_bind | apply fs_wp_ret | apply fs_wp_gets].

Lemma count_small s m d : fs_repr s m -> count (parents m) d <= 2 ^ 30.
Proof.
  intros H. pose proof (r_next _ _ H). pose proof (r_max _ _ H). etrans; [apply (count_bound _ _ (next_node s))|lia].
  intros i [p (x & ? & _)%lookup_parents]. apply (r_dom _ _ H). by eexists.
Qed.

Lemma size_small s m : fs_repr s m -> (size (parents m) <= Z.to_nat (num_entries s))%nat.
Proof.
  intros H. pose proof (r_next _ _ H). rewrite (r_num _ _ H). pose proof (map_size_bound (parents m) (next_node s)) as B.
  assert (Z.of_nat (size (parents m)) <= Z.max 0 (next_node s)); [|lia]. apply B.
  intros i [p (x & ? & _)%lookup_parents]. apply (r_dom _ _ H). by eexists.
Qed.

Lemma fs_wp_tail (c : FsM unit) Q s : fs_wp (_ ← c; mret tt) Q s -> fs_wp c Q s.
Proof. unfold fs_wp, mbind, FsM_bind, mret, FsM_ret. by destruct (c s) as [[[] s']|]. Qed.

(** ** Validity and lookup *)

Lemma fs_wp_valid s m ino (Q : bool -> rdpdr_fs -> Prop) : fs_repr s m ->
  (forall b, (b = true <-> 1 <= i32 ino /\ is_Some (m !! i32 ino)) -> Q b s) ->
  fs_wp (rdpdr_fuse_is_inode_valid ino) Q s.
Proof.
  intros H HQ. unfold rdpdr_fuse_is_inode_valid, FIRST_INODE. do 2 fs_step. pose proof (r_next _ _ H).
  destruct (Z.ltb_spec (i32 ino) 1) as [Hl|Hl]; cbn [orb].
  { fs_step. apply HQ. split; [done|lia]. }
  destruct (Z.leb_spec (next_node s) (i32 ino)) as [Hn|Hn].
  { fs_step. apply HQ. split; [done|]. intros [_ Hs]. apply (r_dom _ _ H) in Hs. lia. }
  fs_step. eapply fs_wp_table_at; [done|lia| |].
  - intros Hm _. fs_step. apply HQ. rewrite bool_decide_eq_true, Hm. split; [by intros []|by intros [_ []]].
  - intros p x Hm _. fs_step. apply HQ. rewrite bool_decide_eq_true, Hm. split; [|by eexists]. intros _. split; [done|by eexists].
Qed.

Lemma matches_spec d nm x : matches d nm x = true <-> parent_inode x = d /\ name x = nm.
Proof. unfold matches, streq. rewrite andb_true_iff, Z.eqb_eq, bool_decide_eq_true. done. Qed.

(** The entry [nm] of the directory [d] that [rdpdr_fuse_get_rinode_from_pinode_name] finds. *)
Definition entry (m : gmap Z RDPDR_INODE) (d : Z) (nm : list Z) (i : Z) (x : RDPDR_INODE) : Prop :=
  1 <= i /\ m !! i = Some x /\ parent_inode x = d /\ name x = nm.

Lemma fs_wp_get_rinode s m d nm (Q : option nat -> rdpdr_fs -> Prop) : fs_repr s m -> is_u32 d ->
  (forall i x p, entry m d nm i x -> points s i p x -> Q (Some p) s) ->
  ((forall i x, ~ entry m d nm i x) -> Q None s) ->
  fs_wp (rdpdr_fuse_get_rinode_from_pinode_name d nm) Q s.
Proof.
  intros H Hd HS HN. unfold rdpdr_fuse_get_rinode_from_pinode_name. rewrite u32_id by done. apply (fs_wp_find _ m); [done| |].
  - intros i x p Hi Hx Hp [? ?]%matches_spec _. by apply (HS i x p).
  - intros Hno. apply HN. intros i x (Hi & Hx & Hp & Hnm). pose proof (Hno i x Hi Hx) as E.
    rewrite (proj2 (matches_spec d nm x)) in E by done. done.
Qed.

(** ** Removing one inode *)

Lemma unlink_eq m i x y : m !! parent_inode x = Some y -> delete i (<[parent_inode x := entries_down y]> m) = unlink i x m.
Proof. intros H. unfold unlink. f_equal. apply map_eq. intros j. destruct (decide (parent_inode x = j)) as [<-|].
  - by rewrite lookup_insert_eq, lookup_alter_eq, H.
  - by rewrite lookup_insert_ne, lookup_alter_ne.
Qed.

(** The three stores that remove an inode. *)
Lemma fs_wp_unlink {B} s m i p x (k : FsM B) (Q : B -> rdpdr_fs -> Prop) : fs_ok s m -> 3 <= i -> points s i p x ->
  kids (parents m) i = ∅ ->
  (forall s', fs_ok s' (unlink i x m) -> later s s' -> fs_wp k Q s') ->
  fs_wp (_ ← slot_modify (parent_inode x) entries_down; _ ← table_set (inode x) None; _ ← inode_free p; k) Q s.
Proof.
  intros [H T] Hi Hp Hk HQ. destruct (points_repr _ _ _ _ _ H Hp) as [Hx Hix].
  destruct (parent_live _ i _ T ltac:(lia) Hx) as (_ & Hpi & y & Hy & _).
  fs_step. eapply fs_wp_slot_modify; [done..|]. intros s' H' L'. rewrite Hix.
  assert (points s' i p x) as Hp'. { eapply later_points; [exact H|exact H'|done..|]. by rewrite lookup_insert_ne. }
  eapply fs_wp_drop; [exact H'|done|]. rewrite (unlink_eq m i x y Hy). intros s'' H'' L''. apply HQ; [|by etrans].
  split; [done|]. apply tree_unlink; [done..|]. pose proof (count_small _ _ (parent_inode x) H). lia.
Qed.

Lemma fs_wp_unlink_tail s m i p x (Q : unit -> rdpdr_fs -> Prop) : fs_ok s m -> 3 <= i -> points s i p x ->
  kids (parents m) i = ∅ -> (forall s', fs_ok s' (unlink i x m) -> later s s' -> Q tt s') ->
  fs_wp (_ ← slot_modify (parent_inode x) entries_down; _ ← table_set (inode x) None; inode_free p) Q s.
Proof.
  intros H Hi Hp Hk HQ. pose proof (fs_wp_unlink s m i p x (mret tt) Q H Hi Hp Hk HQ) as W. revert W.
  unfold fs_wp, mbind, FsM_bind, mret, FsM_ret. destruct (slot_modify _ _ s) as [[[] s1]|]; [|done].
  destruct (table_set _ _ s1) as [[[] s2]|]; [|done]. by destruct (inode_free p s2) as [[[] s3]|].
Qed.

Lemma delete_file_spec s m i p x : fs_ok s m -> 3 <= i -> points s i p x -> is_dir x = false ->
  fs_wp (rdpdr_fuse_delete_file_with_rinode (Some p)) (fun _ s' => fs_ok s' (unlink i x m) /\ later s s') s.
Proof.
  intros [H T] Hi Hp Hd. unfold rdpdr_fuse_delete_file_with_rinode. fs_step. eapply fs_wp_inode_at; [apply Hp|]. rewrite Hd.
  destruct (points_repr _ _ _ _ _ H Hp) as [Hx _].
  eapply fs_wp_unlink; [done|done|done|by eapply t_dir|]. intros s' ? ?. fs_step. by split.
Qed.

(** ** Removing a directory with everything below it *)

(** [m'] is [m] without what is strictly below [d], where [d] is [x]. *)
Record pruned (m : gmap Z RDPDR_INODE) (d : Z) (m' : gmap Z RDPDR_INODE) : Prop := {
  p_tree : tree m';
  p_rest j : j <> d -> m' !! j = m !! j \/ m' !! j = None /\ below (parents m) d j;
  p_self x : m !! d = Some x -> exists n, m' !! d = Some (set_nentries n x);
}.

Lemma pruned_parents m d m' i p : pruned m d m' -> is_Some (m !! d) -> parents m' !! i = Some p -> parents m !! i = Some p.
Proof.
  intros P [xd Hd] (y & Hy & <-)%lookup_parents. destruct (decide (i = d)) as [->|Hne].
  - destruct (p_self _ _ _ P _ Hd) as [n E]. rewrite Hy in E. injection E as ->. by apply (parents_lookup m d xd).
  - destruct (p_rest _ _ _ P i Hne) as [E|[E _]]; [|congruence]. rewrite Hy in E. by apply parents_lookup.
Qed.

(** A child that is left in a pruned map keeps the chain up to [d]. *)
Lemma pruned_chain m d m' j : tree m -> pruned m d m' -> (exists xd, m !! d = Some xd) -> below (parents m) d j -> j <> d -> is_Some (m' !! j) ->
  exists c, parents m' !! c = Some d.
Proof.
  intros T P [xd Hd]. induction 1 as [|j p Hj Hb IH]; [done|]. intros Hne [y Hy].
  assert (parents m' !! j = Some p) as Hj'.
  { apply (parents_lookup _ _ _) in Hy as Hy'. pose proof (pruned_parents _ _ _ _ _ P ltac:(by eexists) Hy') as E. congruence. }
  destruct (decide (p = d)) as [->|Hpd]; [eauto|]. apply IH; [done|].
  destruct (decide (2 <= j)) as [H2|H2].
  - destruct (parent_live _ _ _ (p_tree _ _ _ P) H2 Hy) as (_ & _ & z & Hz & _).
    rewrite (parents_lookup _ _ _ Hy) in Hj'. injection Hj' as <-. by eexists.
  - pose proof (t_low _ (p_tree _ _ _ P) j ltac:(by eexists)). destruct (tree_live _ (p_tree _ _ _ P)) as (? & ? & ? & ? & ? & _).
    assert (j = 0 \/ j = 1) as [-> | ->] by lia; [rewrite (t_zero _ T) in Hj|rewrite (t_root _ T) in Hj]; injection Hj as <-; by eexists.
Qed.

(** The map without the directory [d] and everything below it; its parent has
    one entry less. *)
Record removed (m : gmap Z RDPDR_INODE) (d : Z) (m' : gmap Z RDPDR_INODE) : Prop := {
  rm_tree : tree m';
  rm_below j : below (parents m) d j -> m' !! j = None;
  rm_rest j : parents m !! d <> Some j -> m' !! j = m !! j \/ m' !! j = None /\ below (parents m) d j;
  rm_parent x : m !! d = Some x -> m' !! parent_inode x = entries_down <$> m !! parent_inode x;
}.

(** Removing [d] from a pruned map where it has no entries left. *)
Lemma pruned_removed m d m' x : tree m -> 3 <= d -> m !! d = Some x -> pruned m d m' -> kids (parents m') d = ∅ ->
  (forall i, count (parents m') i < 2 ^ 32) -> exists n, removed m d (unlink d (set_nentries n x) m') /\ m' !! d = Some (set_nentries n x).
Proof.
  intros T Hd Hx P Hk Hc. destruct (p_self _ _ _ P _ Hx) as [n Hn]. exists n. split; [|done].
  destruct (parent_live _ d _ T ltac:(lia) Hx) as (_ & Hpd & y & Hy & _). destruct (t_rooted _ T d ltac:(lia) ltac:(by eexists)) as [k Hr].
  pose proof (parent_not_below _ (t_zero _ T) (t_root _ T) _ _ _ Hr (parents_lookup _ _ _ Hx)) as Hnb.
  assert (forall j, ~ below (parents m) d j -> m' !! j = m !! j) as Hfar.
  { intros j Hj. destruct (p_rest _ _ _ P j) as [E|[_ E]]; [|done..]. intros ->. apply Hj. constructor. }
  split.
  - apply tree_unlink; [apply P|lia|done..|auto].
  - intros j Hj. rewrite lookup_unlink by done. destruct (decide (j = d)) as [|Hjd]; [done|].
    rewrite decide_False; [|intros ->; done]. destruct (m' !! j) eqn:E; [|done].
    destruct (pruned_chain m d m' j T P ltac:(by eexists) Hj Hjd ltac:(by eexists)) as [c Hc'].
    by apply (proj1 (kids_empty _ _) Hk) in Hc'.
  - intros j Hpj. rewrite lookup_unlink by done. destruct (decide (j = d)) as [->|Hjd]; [right; split; [done|constructor]|].
    rewrite decide_False; [by apply (p_rest _ _ _ P)|]. intros ->. apply Hpj. by apply (parents_lookup m d x).
  - intros x' Hx'. assert (x' = x) as -> by congruence. rewrite lookup_unlink by done. cbn [parent_inode set_nentries].
    rewrite decide_False, decide_True by done. by rewrite Hfar.
Qed.

Lemma removed_sub m d m' i p : removed m d m' -> is_Some (m !! d) -> parents m' !! i = Some p -> parents m !! i = Some p.
Proof.
  intros R [x Hx] (y & Hy & <-)%lookup_parents. destruct (decide (i = parent_inode x)) as [->|Hne].
  - rewrite (rm_parent _ _ _ R _ Hx) in Hy. apply fmap_Some in Hy as (z & Hz & ->). by apply (parents_lookup m _ z).
  - assert (parents m !! d <> Some i) as Hd by (rewrite (parents_lookup _ _ _ Hx); congruence).
    destruct (rm_rest _ _ _ R i Hd) as [E|[E _]]; [|congruence]. rewrite Hy in E. by apply parents_lookup.
Qed.

Lemma below_sub pm pm' d j : (forall i p, pm' !! i = Some p -> pm !! i = Some p) -> below pm' d j -> below pm d j.
Proof. intros Hs. induction 1 as [|j p Hj Hb IH]; [constructor|]. eapply below_up; eauto. Qed.

(** Removing a child keeps the map pruned. *)
Lemma pruned_step m d x m' j m'' : tree m -> m !! d = Some x -> pruned m d m' -> parents m' !! j = Some d -> removed m' j m'' -> pruned m d m''.
Proof.
  intros T Hx P Hj R. split; [apply R| |].
  - intros i Hi. destruct (rm_rest _ _ _ R i) as [->|[-> Hb]]; [congruence|by apply (p_rest _ _ _ P)|]. right. split; [done|].
    eapply below_trans; [|eapply below_sub; [|exact Hb]; intros ? ?; eapply pruned_parents; eauto; by eexists].
    eapply below_up; [|constructor]. eapply pruned_parents; eauto.
  - intros x' Hx'. destruct (p_self _ _ _ P _ Hx') as [n Hn]. apply lookup_parents in Hj as (y & Hy & <-).
    rewrite (rm_parent _ _ _ R _ Hy), Hn. cbn. eexists. reflexivity.
Qed.

Lemma pruned_refl m d : tree m -> pruned m d m.
Proof. intros T. split; [done|by left|]. intros x Hx. exists (nentries x). rewrite Hx. by destruct x. Qed.

(** An inode without entries. *)
Lemma unlink_removed m d x : tree m -> 3 <= d -> m !! d = Some x -> kids (parents m) d = ∅ ->
  (forall i, count (parents m) i < 2 ^ 32) -> removed m d (unlink d x m).
Proof.
  intros T Hd Hx Hk Hc. destruct (pruned_removed m d m x T Hd Hx (pruned_refl _ _ T) Hk Hc) as (n & R & E).
  rewrite Hx in E. injection E as E. by rewrite <- E in R.
Qed.

Lemma small_count s m i : fs_repr s m -> count (parents m) i < 2 ^ 32.
Proof. intros H. pose proof (count_small _ _ i H). lia. Qed.

(** The loop invariant: the entries of [d] before slot [k] are gone. *)
Definition cleared (m : gmap Z RDPDR_INODE) (d k : Z) (mk : gmap Z RDPDR_INODE) : Prop :=
  pruned m d mk /\ forall j, j < k -> parents mk !! j <> Some d.

Lemma cleared_start m d : tree m -> 3 <= d -> cleared m d 1 m.
Proof.
  intros T Hd. split; [by apply pruned_refl|]. intros j Hj (y & Hy & Hpy)%lookup_parents. pose proof (t_low _ T j ltac:(by eexists)).
  assert (j = 0) as -> by lia. pose proof (parents_lookup _ _ _ Hy) as E. rewrite (t_zero _ T) in E. injection E. lia.
Qed.

Lemma cleared_skip m d k mk : cleared m d k mk -> parents mk !! k <> Some d -> cleared m d (k + 1) mk.
Proof. intros [P Hk] Hn. split; [done|]. intros j Hj. destruct (decide (j = k)) as [->|]; [done|]. apply Hk. lia. Qed.

Lemma cleared_removed m d x k mk m' : tree m -> m !! d = Some x -> cleared m d k mk -> parents mk !! k = Some d -> removed mk k m' ->
  cleared m d (k + 1) m'.
Proof.
  intros T Hx [P Hk] Hkd R. split; [by eapply pruned_step|]. apply lookup_parents in Hkd as (y & Hy & _). intros j Hj Hpj.
  destruct (decide (j = k)) as [->|].
  - apply lookup_parents in Hpj as (z & Hz & _). rewrite (rm_below _ _ _ R k ltac:(constructor)) in Hz. done.
  - apply (Hk j); [lia|]. eapply removed_sub; [done|by eexists|done].
Qed.

Lemma cleared_all s m d mk : fs_repr s mk -> cleared m d (next_node s) mk -> kids (parents mk) d = ∅.
Proof.
  intros H [_ Hk]. apply kids_empty. intros j Hj. apply (Hk j); [|done]. apply lookup_parents in Hj as (y & Hy & _).
  pose proof (r_dom _ _ H j ltac:(by eexists)). lia.
Qed.

(** An inode with a parent from 2 on is none of the fixed ones. *)
Lemma child_high m j y d : tree m -> 2 <= d -> 1 <= j -> m !! j = Some y -> parent_inode y = d -> 3 <= j.
Proof.
  intros T Hd Hj Hy Hyd. pose proof (parents_lookup _ _ _ Hy) as E. rewrite Hyd in E.
  destruct (decide (j = 1)) as [->|]; [rewrite (t_root _ T) in E; injection E; lia|].
  destruct (decide (j = 2)) as [->|]; [rewrite (t_clip _ T) in E; injection E; lia|]. lia.
Qed.

Lemma reg_no_kids m j y : tree m -> m !! j = Some y -> is_reg y = true -> kids (parents m) j = ∅.
Proof. intros T Hy Hr. eapply t_dir; [done..|]. rewrite (t_type _ T _ _ Hy) in Hr. by destruct (is_dir y). Qed.

Lemma recursive_delete_spec fuel s m d p x : fs_ok s m -> 3 <= d -> points s d p x -> is_reg x = false -> tall (parents m) d fuel ->
  fs_wp (rdpdr_fuse_recursive_delete_dir_with_rinode fuel (Some p))
    (fun r s' => r = 0 /\ exists m', fs_ok s' m' /\ later s s' /\ removed m d m') s.
Proof.
  revert s m d p x. induction fuel as [|fuel IH]; intros s m d p x [H T] Hd Hp Hr Ht; [done|].
  destruct (points_repr _ _ _ _ _ H Hp) as [Hx Hix]. cbn [rdpdr_fuse_recursive_delete_dir_with_rinode].
  fs_step. eapply fs_wp_inode_at; [apply Hp|]. rewrite Hr. fs_step.
  eapply fs_wp_mono; [|apply (fs_wp_each (cleared m d) _ s m H)].
  - intros _ s' (mk & H' & L' & C). destruct (p_self _ _ _ (proj1 C) _ Hx) as [n Hn].
    pose proof (later_points _ _ _ _ _ _ _ _ H H' L' Hp Hn) as Hp'. rewrite <- (l_next _ _ L') in C. pose proof (cleared_all _ _ _ _ H' C) as Hkd.
    fs_step. eapply fs_wp_inode_at; [apply Hp'|].
    destruct (pruned_removed m d mk x T Hd Hx (proj1 C) Hkd (fun i => small_count _ _ i H')) as (n' & R & E). rewrite Hn in E. injection E as E.
    eapply fs_wp_unlink; [split; [exact H'|apply C]|done|exact Hp'|done|]. intros s'' H'' L''. fs_step. split; [done|].
    eexists. split; [done|]. split; [by etrans|]. by rewrite E in *.
  - by apply cleared_start.
  - intros j mk s' Hj H' L' C Hno. apply cleared_skip; [done|]. intros (y & Hy & _)%lookup_parents. congruence.
  - intros j mk s' q y Hj H' L' C Hy Hq. destruct (p_self _ _ _ (proj1 C) _ Hx) as [n Hn].
    pose proof (later_points _ _ _ _ _ _ _ _ H H' L' Hp Hn) as Hp'. pose proof (parents_lookup _ _ _ Hy) as Hpy.
    fs_step. eapply fs_wp_inode_at; [apply Hp'|]. cbn [inode set_nentries]. rewrite Hix.
    destruct (Z.eqb_spec (parent_inode y) d) as [Hyd|Hyd].
    + rewrite Hyd in Hpy. pose proof (p_tree _ _ _ (proj1 C)) as T'. assert (3 <= j) as Hj3 by (eapply child_high; [exact T'| |lia|done..]; lia).
      destruct (is_reg y) eqn:Hry.
      * pose proof (reg_no_kids _ _ _ T' Hy Hry) as Hkj. eapply fs_wp_unlink_tail; [by split|done..|]. intros s'' [H'' _] L''.
        eexists. split; [done|]. split; [done|]. eapply cleared_removed; [done..|].
        apply unlink_removed; [done..|]. intros i. by eapply small_count.
      * fs_step. eapply fs_wp_mono; [|apply (IH s' mk j q y); [by split|done..|]].
        -- intros r s'' (_ & m'' & [? ?] & ? & ?). fs_step. exists m''. split; [done|]. split; [done|]. by eapply cleared_removed.
        -- cbn in Ht. assert (forall i c, parents mk !! i = Some c -> parents m !! i = Some c) as Hsub
             by (intros; eapply pruned_parents; [apply C|by eexists|done]). eapply tall_sub; [exact Hsub|]. apply Ht. by apply Hsub.
    + fs_step. exists mk. split; [done|]. split; [done|]. apply cleared_skip; [done|]. rewrite Hpy. congruence.
Qed.

(** The fuel of [recursive_delete] is enough. *)
Lemma recursive_delete_ok s m d p x : fs_ok s m -> 3 <= d -> points s d p x -> is_reg x = false ->
  fs_wp (recursive_delete p) (fun r s' => r = 0 /\ exists m', fs_ok s' m' /\ later s s' /\ removed m d m') s.
Proof.
  intros [H T] Hd Hp Hr. unfold recursive_delete. do 2 fs_step. apply (recursive_delete_spec _ s m d p x); [by split|done..|].
  destruct (points_repr _ _ _ _ _ H Hp) as [Hx _]. destruct (t_rooted _ T d ltac:(lia) ltac:(by eexists)) as [k Hk].
  eapply tall_mono; [eapply rooted_tall; [apply T|apply T|done]|]. by apply size_small.
Qed.

(** ** Creating an inode *)

Section Create.
Context (w : World).

Lemma fs_wp_new_inode s m x (Q : option nat -> rdpdr_fs -> Prop) : fs_repr s m ->
  (forall s', fs_repr s' m -> later s s' -> calloc w (next_inode s) = false -> Q None s') ->
  (calloc w (next_inode s) = true -> Q (Some (next_inode s)) (mk_fs (inode_table s) (max_entries s) (num_entries s) (next_node s)
     (<[next_inode s := x]> (inodes s)) (S (next_inode s)))) ->
  fs_wp (new_inode w x) Q s.
Proof.
  intros H HN HS. unfold fs_wp, new_inode. destruct (calloc w (next_inode s)); [by apply HS|].
  apply HN; [by apply skip_inode_repr|by split|done].
Qed.

(** The stores after the allocation, in the order of the two functions. *)
Lemma fs_wp_store {B} s m x (k : FsM B) (Q : B -> rdpdr_fs -> Prop) : fs_repr s m -> next_node s < max_entries s -> next_node s < 2 ^ 30 ->
  fs_wp k Q (add_inode (next_inode s) x s) ->
  let s1 := mk_fs (inode_table s) (max_entries s) (num_entries s) (next_node s) (<[next_inode s := x]> (inodes s)) (S (next_inode s)) in
  fs_wp (ino ← take_node; _ ← num_entries_up; _ ← table_set ino (Some (next_inode s)); k) Q s1 /\
  fs_wp (ino ← take_node; _ ← table_set ino (Some (next_inode s)); _ ← num_entries_up; k) Q s1.
Proof.
  intros H Hr Hb HQ s1. pose proof (r_next _ _ H). pose proof (r_length _ _ H). pose proof (r_num _ _ H) as Hn.
  assert ((next_node s <? 0) || (Z.of_nat (length (inode_table s)) <=? next_node s) = false) as E.
  { destruct (Z.ltb_spec (next_node s) 0), (Z.leb_spec (Z.of_nat (length (inode_table s))) (next_node s)); [lia..|done]. }
  unfold add_inode in HQ. unfold fs_wp, mbind, FsM_bind, take_node, num_entries_up, table_set, s1 in *.
  cbn [next_node num_entries max_entries inode_table inodes next_inode] in *. rewrite E.
  rewrite !u32_id by int_lia. split; [exact HQ|]. cbn [next_node num_entries max_entries inode_table inodes next_inode].
  rewrite u32_id by int_lia. exact HQ.
Qed.

(** What is known after a creation in the directory [d]. *)
Definition created (s : rdpdr_fs) (m : gmap Z RDPDR_INODE) (d : Z) (x : RDPDR_INODE) (s' : rdpdr_fs) : Prop :=
  exists y, m !! d = Some y /\ fs_ok s' (<[d := entries_up y]> (<[next_node s := x]> m)) /\ next_node s' = next_node s + 1 /\
    points s' (next_node s) (next_inode s) x /\ ((forall n, realloc w n = true) -> next_node s' + 100 <= max_entries s').

(** The last two statements of a creation. *)
Lemma fs_wp_enter {B} s m d x y (k : FsM B) (Q : B -> rdpdr_fs -> Prop) : fs_ok s m -> next_node s < max_entries s -> next_node s < 2 ^ 30 ->
  1 <= d -> m !! d = Some y -> is_dir y = true -> inode x = next_node s -> parent_inode x = d -> nentries x = 0 ->
  is_reg x = negb (is_dir x) -> (length (name x) < 256)%nat ->
  (forall s', created s m d x s' -> fs_wp k Q s') ->
  fs_wp (_ ← slot_modify d entries_up; _ ← rdpdr_fuse_update_fs_size w; k) Q (add_inode (next_inode s) x s).
Proof.
  intros [H T] Hr Hb Hd Hy Hyd Hix Hp Hn Hty Hnm HQ. destruct (add_inode_repr s m x H Hr Hb Hix) as [H1 P1].
  pose proof (next_free _ _ H) as Hfree. pose proof (r_next _ _ H). assert (d <> next_node s) as Hne by congruence.
  fs_step. eapply fs_wp_slot_modify; [exact H1|by rewrite lookup_insert_ne|done|]. intros s2 H2 L2.
  fs_step. eapply fs_wp_update_size; [exact H2|]. intros s3 H3 _ Hn3 Hi3 Hs3 _ _ Hrm. apply HQ. exists y. split; [done|]. split; [|split; [|split]].
  - split; [done|]. eapply tree_insert; [done|lia|done..|]. pose proof (count_small _ _ d H). lia.
  - rewrite Hn3, (l_next _ _ L2). done.
  - eapply points_repr in P1 as HP; [|done].
    assert (<[d := entries_up y]> (<[next_node s := x]> m) !! next_node s = Some x) as E by (by rewrite lookup_insert_ne, lookup_insert_eq).
    destruct (repr_points _ _ _ _ H3 E) as (q & [Hq Hq'] & _). split; [|].
    + rewrite Hs3 in *. apply (l_slot _ _ L2) in Hq as Hq0. destruct P1 as [P1 _]. rewrite P1 in Hq0. by injection Hq0 as ->.
    + rewrite Hs3 in Hq. apply (l_slot _ _ L2) in Hq. destruct P1 as [P1 _]. rewrite P1 in Hq. by injection Hq as ->.
  - intros Hra. apply Hrm, Hra.
Qed.

Lemma fs_wp_opt {A} (o : option A) a (Q : A -> rdpdr_fs -> Prop) s : o = Some a -> Q a s -> fs_wp (lift_opt o) Q s.
Proof. by intros ->. Qed.

Lemma strcpy_fits n b : Z.of_nat (length b) < n -> strcpy n b = Some b.
Proof. intros H. unfold strcpy, strcat. cbn. by destruct (Z.ltb_spec (Z.of_nat (length b)) n); [|lia]. Qed.

(** The type of a new file. *)
Lemma new_mode_type type x : type = S_IFDIR \/ type = S_IFREG -> mode x = (if type =? S_IFDIR then Z.lor 493 type else Z.lor 420 type) ->
  is_reg x = negb (is_dir x).
Proof. unfold is_reg, is_dir. intros [-> | ->] ->; reflexivity. Qed.

Lemma create_file_spec s m device d nm type y : fs_ok s m -> next_node s < max_entries s -> next_node s < 2 ^ 30 ->
  1 <= d < 2 ^ 31 -> m !! d = Some y -> is_dir y = true -> (length nm < 256)%nat -> type = S_IFDIR \/ type = S_IFREG ->
  fs_wp (rdpdr_fuse_create_file_in_fs w device d nm type) (fun r s' =>
    match r with
    | None => (nm = [] \/ calloc w (next_inode s) = false) /\ fs_ok s' m /\ later s s'
    | Some p => p = next_inode s /\ nm <> [] /\ exists x, created s m d x s' /\ name x = nm /\ device_id x = device /\ parent_inode x = d /\
        is_dir x = (type =? S_IFDIR) /\ stale x = false /\ nopen x = 0 /\ is_loc_resource x = false
    end) s.
Proof.
  intros [H T] Hr Hb Hd Hy Hyd Hl Hty. unfold rdpdr_fuse_create_file_in_fs. destruct nm as [|c nm].
  { fs_step. split; [by left|]. by split. }
  do 2 fs_step. fs_step. rewrite u32_id by int_lia. set (x := mk_inode _ _ _ _ _ _ _ _ _ _ _ _ _ _ _ _ _ _ _).
  eapply fs_wp_new_inode; [exact H| |].
  { intros s' H' L' Hc. fs_step. split; [by right|]. by split. }
  intros Hc. fs_step. unfold fs_wp at 1, take_node. cbn [next_node num_entries max_entries inode_table inodes next_inode].
  fs_step. eapply fs_wp_opt; [apply strcpy_fits; lia|].
  enough (fs_wp (ino ← take_node; _ ← table_set ino (Some (next_inode s)); _ ← num_entries_up; _ ← slot_modify d entries_up;
    _ ← rdpdr_fuse_update_fs_size w; mret (Some (next_inode s))) (fun r s' => match r with
    | None => (c :: nm = [] \/ calloc w (next_inode s) = false) /\ fs_ok s' m /\ later s s'
    | Some p => p = next_inode s /\ c :: nm <> [] /\ exists x, created s m d x s' /\ name x = c :: nm /\ device_id x = device /\ parent_inode x = d /\
        is_dir x = (type =? S_IFDIR) /\ stale x = false /\ nopen x = 0 /\ is_loc_resource x = false end)
    (mk_fs (inode_table s) (max_entries s) (num_entries s) (next_node s) (<[next_inode s := x]> (inodes s)) (S (next_inode s)))) as W by exact W.
  refine (proj2 (fs_wp_store s m x _ _ H Hr Hb _)). eapply fs_wp_enter; [by split|done|done|lia|done|done|reflexivity|reflexivity|reflexivity| | |].
  { by eapply new_mode_type. }
  { done. }
  intros s' C. fs_step. split; [done|]. split; [done|]. exists x. split; [done|]. split; [done|]. split; [done|]. split; [done|].
  split; [|done]. unfold x, is_dir. cbn [mode]. by destruct Hty as [-> | ->].
Qed.

End Create.
