(* ===== verification/FuseSync.v ===== *)
(** * The redirected drives: listing a directory

    When a directory is opened, its entries are marked as stale; every entry
    that the client lists is unmarked or created; what is still marked when the
    list ends is deleted. *)

From S2P Require Import Prelude FuseTypes FuseTable FuseRepr FuseTree FuseOps.
From stdpp Require Import gmap list.
#[local] Open Scope Z_scope.

(** ** Marking *)

Definition mark (d : Z) (x : RDPDR_INODE) : RDPDR_INODE := if parent_inode x =? d then set_stale true x else x.

Lemma mark_inode d x : inode (mark d x) = inode x.
Proof. unfold mark. by destruct (_ =? _). Qed.

Lemma tree_mark d m : tree m -> tree (mark d <$> m).
Proof. apply tree_fmap; intros x; unfold mark; by destruct (_ =? _). Qed.

Lemma fs_wp_in_range s d (Q : bool -> rdpdr_fs -> Prop) : Q (bool_decide (1 <= d < num_entries s)) s -> fs_wp (in_range d) Q s.
Proof.
  intros H. unfold in_range, FIRST_INODE. do 2 fs_step. fs_step.
  replace (_ && _) with (bool_decide (1 <= d < num_entries s)); [done|].
  destruct (Z.leb_spec 1 d), (Z.ltb_spec d (num_entries s)); cbn; by case_bool_decide; try lia.
Qed.

Lemma mark_all s m d m' : fs_repr s m -> tree m -> 1 <= d ->
  (forall j, m' !! j = if decide (1 <= j < next_node s) then mark d <$> m !! j else m !! j) -> m' = mark d <$> m.
Proof.
  intros H T Hd HI. apply map_eq. intros j. rewrite HI, lookup_fmap. destruct (decide (1 <= j < next_node s)) as [|Hj]; [done|].
  destruct (m !! j) as [x|] eqn:E; [|done]. pose proof (r_dom _ _ H j ltac:(by eexists)). assert (j = 0) as -> by lia.
  apply parents_lookup in E. rewrite (t_zero _ T) in E. injection E as E. cbn. unfold mark. rewrite <- E.
  by destruct (Z.eqb_spec 0 d); [lia|].
Qed.

Lemma mark_spec s m d : fs_ok s m -> 1 <= d < next_node s ->
  fs_wp (rdpdr_fuse_mark_as_stale d) (fun _ s' => fs_ok s' (mark d <$> m) /\ later s s') s.
Proof.
  intros [H T] Hd. unfold rdpdr_fuse_mark_as_stale. fs_step. apply fs_wp_in_range. rewrite bool_decide_eq_true_2 by (rewrite (r_num _ _ H); lia).
  cbn [negb].
  eapply fs_wp_mono; [|apply (fs_wp_each (fun k mk => forall j, mk !! j = if decide (1 <= j < k) then mark d <$> m !! j else m !! j) _ s m H)].
  - intros _ s' (m' & H' & L' & HI). replace (mark d <$> m) with m'; [|apply (mark_all s); [done..|lia|done]].
    split; [|done]. split; [done|]. rewrite (mark_all s m d m') by (done || lia). by apply tree_mark.
  - intros j. destruct (decide (1 <= j < 1)); [lia|done].
  - intros j mk s' Hj H' L' HI Hno i. pose proof (HI j) as Ej. rewrite Hno in Ej. rewrite HI.
    destruct (decide (1 <= i < j)), (decide (1 <= i < j + 1)); try lia; [done| |done].
    assert (i = j) as -> by lia. rewrite decide_False in Ej by lia. by rewrite <- Ej.
  - intros j mk s' p x Hj H' L' HI Hx Hp.
    assert (m !! j = Some x) as Hmj. { rewrite HI, decide_False in Hx by lia. done. }
    assert (forall i, <[j := mark d x]> mk !! i = if decide (1 <= i < j + 1) then mark d <$> m !! i else m !! i) as HI'.
    { intros i. destruct (decide (j = i)) as [<-|Hne].
      - rewrite lookup_insert_eq, decide_True by lia. by rewrite Hmj.
      - rewrite lookup_insert_ne by done. rewrite HI. destruct (decide (1 <= i < j)), (decide (1 <= i < j + 1)); try lia; done. }
    destruct (Z.eqb_spec (parent_inode x) d) as [E|E].
    + eapply fs_wp_modify; [done..|]. intros s'' H'' L'' _. eexists. split; [done|]. split; [done|].
      unfold mark in HI' at 1. rewrite E, Z.eqb_refl in HI'. done.
    + fs_step. exists mk. split; [done|]. split; [done|]. unfold mark in HI' at 1. rewrite (proj2 (Z.eqb_neq _ _)) in HI' by done.
      by rewrite insert_id in HI'.
Qed.

(** ** Deleting what is still marked *)

(** [mk] is [m] without marked entries of [d] and what is below them. *)
Record swept (m : gmap Z RDPDR_INODE) (d : Z) (mk : gmap Z RDPDR_INODE) : Prop := {
  sw_tree : tree mk;
  sw_rest j : j <> d -> mk !! j = m !! j \/
    mk !! j = None /\ exists c x, m !! c = Some x /\ parent_inode x = d /\ stale x = true /\ below (parents m) c j;
  sw_self x : m !! d = Some x -> exists n, mk !! d = Some (set_nentries n x);
}.

Definition sweeping (m : gmap Z RDPDR_INODE) (d k : Z) (mk : gmap Z RDPDR_INODE) : Prop :=
  swept m d mk /\ forall j x, 1 <= j < k -> mk !! j = Some x -> parent_inode x = d -> stale x = false.

Lemma swept_refl m d : tree m -> swept m d m.
Proof. intros T. split; [done|by left|]. intros x Hx. exists (nentries x). rewrite Hx. by destruct x. Qed.

Lemma swept_parents m d mk i p : swept m d mk -> is_Some (m !! d) -> parents mk !! i = Some p -> parents m !! i = Some p.
Proof.
  intros P [xd Hd] (y & Hy & <-)%lookup_parents. destruct (decide (i = d)) as [->|Hne].
  - destruct (sw_self _ _ _ P _ Hd) as [n E]. rewrite Hy in E. injection E as ->. by apply (parents_lookup m d xd).
  - destruct (sw_rest _ _ _ P i Hne) as [E|[E _]]; [|congruence]. rewrite Hy in E. by apply parents_lookup.
Qed.

Lemma swept_step m d xd mk j y m' : tree m -> 2 <= d -> m !! d = Some xd -> swept m d mk -> mk !! j = Some y -> parent_inode y = d ->
  stale y = true -> removed mk j m' -> swept m d m'.
Proof.
  intros T Hd Hxd P Hy Hyd Hst R. pose proof (parents_lookup _ _ _ Hy) as Hpy. rewrite Hyd in Hpy.
  assert (j <> d) as Hjd.
  { intros ->. pose proof (swept_parents _ _ _ _ _ P ltac:(by eexists) Hpy) as (z & Hz & Hzp)%lookup_parents.
    destruct (parent_live _ d _ T ltac:(lia) Hz) as (_ & ? & _). congruence. }
  assert (m !! j = Some y) as Hmj. { destruct (sw_rest _ _ _ P j Hjd) as [<-|[E _]]; [done|congruence]. }
  split; [apply R| |].
  - intros i Hi. destruct (rm_rest _ _ _ R i) as [->|[-> Hb]]; [congruence|by apply P|]. right. split; [done|]. exists j, y.
    split; [done|]. split; [done|]. split; [done|]. eapply below_sub; [|exact Hb]. intros. eapply swept_parents; [done|by eexists|done].
  - intros x' Hx'. destruct (sw_self _ _ _ P _ Hx') as [n Hn]. rewrite <- Hyd, (rm_parent _ _ _ R _ Hy), Hyd, Hn. cbn. by eexists.
Qed.

Lemma sweeping_step m d xd k mk y m' : tree m -> 2 <= d -> m !! d = Some xd -> sweeping m d k mk -> mk !! k = Some y -> parent_inode y = d ->
  stale y = true -> removed mk k m' -> sweeping m d (k + 1) m'.
Proof.
  intros T Hd Hxd [P Hs] Hy Hyd Hst R. split; [by eapply swept_step|]. intros j x Hj Hx Hxp.
  assert (j <> k) as Hjk. { intros ->. rewrite (rm_below _ _ _ R k ltac:(constructor)) in Hx. done. }
  apply (Hs j x); [lia| |done]. destruct (decide (j = d)) as [->|Hne].
  - exfalso. destruct (parent_live _ d _ (rm_tree _ _ _ R) ltac:(lia) Hx) as (_ & ? & _). congruence.
  - destruct (rm_rest _ _ _ R j) as [<-|[E _]]; [|done|congruence]. rewrite (parents_lookup _ _ _ Hy). congruence.
Qed.

Lemma sweep_spec s m d xd : fs_ok s m -> 2 <= d -> m !! d = Some xd ->
  fs_wp (rdpdr_fuse_delete_stale_entries d)
    (fun _ s' => exists m', fs_ok s' m' /\ later s s' /\ sweeping m d (next_node s) m') s.
Proof.
  intros [H T] Hd Hxd. unfold rdpdr_fuse_delete_stale_entries. fs_step. apply fs_wp_in_range.
  pose proof (r_dom _ _ H d ltac:(by eexists)). rewrite bool_decide_eq_true_2 by (rewrite (r_num _ _ H); lia). cbn [negb].
  eapply fs_wp_mono; [|apply (fs_wp_each (sweeping m d) _ s m H)].
  - intros _ s' (m' & H' & L' & S). exists m'. split; [|by split]. split; [done|apply S].
  - split; [by apply swept_refl|]. intros j x. lia.
  - intros k mk s' Hk H' L' [P Hs] Hno. split; [done|]. intros j x Hj Hx. destruct (decide (j = k)) as [->|]; [congruence|]. apply (Hs j); [lia|done].
  - intros k mk s' p x Hk H' L' S Hx Hp.
    assert (parent_inode x <> d \/ stale x = false -> sweeping m d (k + 1) mk) as Hskip.
    { intros Hor. split; [apply S|]. intros j y Hj Hy Hyd. destruct (decide (j = k)) as [->|]; [|apply (proj2 S j); [lia|done..]].
      assert (y = x) as -> by congruence. by destruct Hor. }
    destruct (Z.eqb_spec (parent_inode x) d) as [Hxp|Hxp]; cbn [negb]; [|fs_step; exists mk; auto using later_refl].
    destruct (stale x) eqn:Hst; cbn [negb]; [|fs_step; exists mk; auto using later_refl].
    pose proof (sw_tree _ _ _ (proj1 S)) as T'. assert (3 <= k) as Hk3 by (eapply child_high; [exact T'| |lia|done..]; lia).
    assert (forall s'' m'', fs_ok s'' m'' -> later s' s'' -> removed mk k m'' ->
      exists m0, fs_repr s'' m0 /\ later s' s'' /\ sweeping m d (k + 1) m0) as Hdone.
    { intros s'' m'' [? _] ? R. exists m''. split; [done|]. split; [done|]. by eapply sweeping_step. }
    destruct (is_reg x) eqn:Hr; fs_step.
    + eapply fs_wp_mono; [|apply (delete_file_spec s' mk k p x); [by split|done..|]].
      * intros _ s'' [? ?]. fs_step. eapply Hdone; [done..|]. apply unlink_removed; [done..|by eapply reg_no_kids|]. intros i. by eapply small_count.
      * rewrite (t_type _ T' _ _ Hx) in Hr. by destruct (is_dir x).
    + eapply fs_wp_mono; [|apply (recursive_delete_ok s' mk k p x); [by split|done..]].
      intros r s'' (_ & m'' & ? & ? & ?). fs_step. by eapply Hdone.
Qed.

(** ** The entries that the client lists *)

Lemma perm_type a x : mode x = WINDOWS_TO_LINUX_FILE_PERM a ->
  is_reg x = negb (is_dir x) /\ is_dir x = has a FILE_ATTRIBUTE_DIRECTORY.
Proof.
  unfold is_reg, is_dir, WINDOWS_TO_LINUX_FILE_PERM. intros ->.
  destruct (has a FILE_ATTRIBUTE_DIRECTORY), (has a FILE_ATTRIBUTE_READONLY); by split.
Qed.

Definition is_dots (nm : list Z) : bool := streq nm dot || streq nm dotdot.

Section Sync.
Context (w : World).

(** What an entry of the list does to the map. *)
Inductive listed (s : rdpdr_fs) (m : gmap Z RDPDR_INODE) (d : Z) (fdi : FILE_DIRECTORY_INFORMATION) :
    rdpdr_fs -> gmap Z RDPDR_INODE -> Prop :=
| listed_dot s' : is_dots (FileName fdi) = true -> later s s' -> listed s m d fdi s' m
| listed_known s' i x : is_dots (FileName fdi) = false -> entry m d (FileName fdi) i x -> later s s' -> listed s m d fdi s' (<[i := set_stale false x]> m)
| listed_failed s' : calloc w (next_inode s) = false -> later s s' -> listed s m d fdi s' m
| listed_new s' x y : is_dots (FileName fdi) = false -> (forall i x, ~ entry m d (FileName fdi) i x) -> m !! d = Some y ->
    parent_inode x = d -> name x = FileName fdi -> stale x = false -> is_dir x = has (FileAttributes fdi) FILE_ATTRIBUTE_DIRECTORY ->
    created w s m d x s' -> listed s m d fdi s' (<[d := entries_up y]> (<[next_node s := x]> m)).

Lemma query_add_spec s m d y device fdi : fs_ok s m -> next_node s < max_entries s -> next_node s < 2 ^ 30 ->
  1 <= d < 2 ^ 31 -> m !! d = Some y -> is_dir y = true -> (length (FileName fdi) < 256)%nat ->
  fs_wp (rdpdr_fuse_query_directory_add w d device fdi)
    (fun _ s' => exists m', fs_ok s' m' /\ listed s m d fdi s' m') s.
Proof.
  intros [H T] Hr Hb Hd Hy Hyd Hl. unfold rdpdr_fuse_query_directory_add. fs_step. eapply fs_wp_valid; [exact H|]. intros b Hv.
  rewrite i32_id in Hv by int_lia. rewrite (proj2 Hv) by (split; [lia|by eexists]). cbn [negb].
  change (streq (FileName fdi) dot || streq (FileName fdi) dotdot) with (is_dots (FileName fdi)).
  destruct (is_dots (FileName fdi)) eqn:Edots.
  { fs_step. exists m. split; [done|]. by apply listed_dot. }
  fs_step. eapply fs_wp_get_rinode; [exact H|int_lia| |].
  - intros i x p He Hp. eapply fs_wp_modify; [exact H|done..|]. intros s' H' L' _. eexists. split; [|by eapply listed_known].
    split; [done|]. apply (tree_modify _ _ x); [done|apply He|done..|]. exact (t_name _ T i x (proj1 (proj2 He))).
  - intros Hno. do 2 fs_step. fs_step. rewrite u32_id by int_lia. set (x := mk_inode _ _ _ _ _ _ _ _ _ _ _ _ _ _ _ _ _ _ _).
    destruct (perm_type (FileAttributes fdi) x eq_refl) as [Hty Hdr].
    eapply fs_wp_new_inode; [exact H| |].
    { intros s' H' L' Hc. fs_step. exists m. split; [by split|]. by apply listed_failed. }
    intros Hc. fs_step. eapply fs_wp_opt; [apply strcpy_fits; lia|].
    refine (proj1 (fs_wp_store s m x _ _ H Hr Hb _)).
    assert (fs_wp (_ ← slot_modify d entries_up; _ ← rdpdr_fuse_update_fs_size w; mret tt)
      (fun _ s' => exists m', fs_ok s' m' /\ listed s m d fdi s' m') (add_inode (next_inode s) x s)) as W.
    { eapply fs_wp_enter; [by split|done|done|lia|done|done|reflexivity|reflexivity|reflexivity|done|done|].
      intros s' C. fs_step. destruct C as (y' & Hy' & Hok & C). assert (y' = y) as -> by congruence. eexists. split; [exact Hok|].
      eapply listed_new; [done..|]. exists y. by split. }
    revert W. clear. unfold fs_wp, mbind, FsM_bind, mret, FsM_ret. destruct (slot_modify _ _ _) as [[[] s1]|]; [|done].
    by destruct (rdpdr_fuse_update_fs_size w s1) as [[[] s2]|].
Qed.

(** While the entries [l] have been listed: the unmarked entries of [d] have
    their names. *)
Record syncing (d : Z) (l : list (list Z)) (m : gmap Z RDPDR_INODE) : Prop := {
  sy_sound i x : m !! i = Some x -> parent_inode x = d -> stale x = false -> name x ∈ l;
  sy_complete nm : nm ∈ l -> exists i x, m !! i = Some x /\ parent_inode x = d /\ stale x = false /\ name x = nm;
}.

Definition names (l : list FILE_DIRECTORY_INFORMATION) : list (list Z) := filter (fun nm => is_dots nm = false) (FileName <$> l).

Lemma syncing_more d l l' m : (forall nm, nm ∈ l <-> nm ∈ l') -> syncing d l m -> syncing d l' m.
Proof. intros E [S C]. split; [intros; apply E; eauto|]. intros nm. rewrite <- E. auto. Qed.

Lemma listed_syncing s m d y l fdi s' m' : fs_ok s m -> 2 <= d -> m !! d = Some y -> (forall n, calloc w n = true) ->
  syncing d l m -> listed s m d fdi s' m' -> syncing d (if is_dots (FileName fdi) then l else FileName fdi :: l) m'.
Proof.
  intros [H T] Hd Hy Hc [S C] Hl. destruct Hl as [s' Hdot L|s' i x E He L|s' Hf L|s' x y' E Hno Hy' Hp Hn Hs Hdr Cr].
  - by rewrite Hdot.
  - rewrite E. destruct He as (Hi & Hx & Hxp & Hxn). split.
    + intros j z. rewrite lookup_insert_Some. intros [[<- <-]|[Hne Hz]] Hzp Hzs; [cbn; rewrite Hxn; left|right; eauto].
    + intros nm [->|Hnm]%elem_of_cons.
      * exists i, (set_stale false x). by rewrite lookup_insert_eq.
      * destruct (C nm Hnm) as (j & z & Hz & Hzp & Hzs & Hzn). destruct (decide (j = i)) as [->|].
        -- exists i, (set_stale false x). rewrite lookup_insert_eq. assert (z = x) as -> by congruence. done.
        -- exists j, z. by rewrite lookup_insert_ne.
  - by rewrite Hc in Hf.
  - rewrite E. pose proof (next_free _ _ H) as Hf. assert (y' = y) as -> by congruence. clear Hy'.
    destruct (parent_live _ d _ T ltac:(lia) Hy) as (_ & Hdp & _). split.
    + intros j z. rewrite !lookup_insert_Some. intros [[<- <-]|[Hne [[<- <-]|[Hne' Hz]]]] Hzp Hzs; [done|rewrite Hn; left|right; eauto].
    + intros nm [->|Hnm]%elem_of_cons.
      * exists (next_node s), x. rewrite lookup_insert_ne by congruence. by rewrite lookup_insert_eq.
      * destruct (C nm Hnm) as (j & z & Hz & Hzp & Hzs & Hzn). exists j, z. split; [|done].
        rewrite lookup_insert_ne by (intros ->; congruence). rewrite lookup_insert_ne by congruence. done.
Qed.

(** The directory itself stays. *)
Lemma listed_dir s m d y fdi s' m' : 2 <= d -> fs_repr s m -> m !! d = Some y -> is_dir y = true -> listed s m d fdi s' m' ->
  exists y', m' !! d = Some y' /\ is_dir y' = true.
Proof.
  intros Hd H Hy Hyd Hl. destruct Hl as [s' Hdot L|s' i x E He L|s' Hf L|s' x y' E Hno Hy' Hp Hn Hs Hdr Cr]; [eauto| |eauto|].
  - destruct (decide (i = d)) as [->|]; [|exists y; by rewrite lookup_insert_ne].
    destruct He as (_ & Hx & _). assert (x = y) as -> by congruence. exists (set_stale false y). by rewrite lookup_insert_eq.
  - rewrite lookup_insert_eq. assert (y' = y) as -> by congruence. by eexists.
Qed.

Lemma listed_room s m d fdi s' m' : listed s m d fdi s' m' -> (forall n, realloc w n = true) ->
  next_node s < max_entries s -> next_node s' < max_entries s' /\ next_node s <= next_node s' <= next_node s + 1.
Proof.
  intros Hl Hra Hr. destruct Hl as [s' _ L|s' i x _ _ L|s' _ L|s' x y _ _ _ _ _ _ _ (y' & _ & _ & Hn & _ & Hroom)].
  1-3: destruct L as [-> _ -> _]; lia. specialize (Hroom Hra). lia.
Qed.

End Sync.
