(* ===== verification/FuseRun.v ===== *)
(** * The redirected drives: paths and runs

    [path_to m i l dev]: the names from a share down to the inode [i], and the
    device of the share.  The code collects the names from the inode up and
    reverses the string.

    The callbacks of FUSE and the completions of the RDP server as the actions
    of one machine; every action runs to its end before the next one starts.
    FUSE numbers its requests, and owns the objects [fuse_file_info]: it passes
    a new one to the callbacks that open a file or a directory, it may drop one
    at any time ([a_expire]; libfuse does so when the callback returns), and it
    passes another one, with the [fh] it was told, to later callbacks of the same
    file ([a_pass]).  The code keeps pointers to these objects in its records
    and writes through them in the completions; writing to one that has been
    dropped is undefined. *)

From S2P Require Import Prelude FuseTypes FuseTable FuseCallbacks FuseHandlers FuseRepr FuseTree FuseOps.
From stdpp Require Import gmap list.
#[local] Open Scope Z_scope.

(** ** Paths *)

Inductive path_to (m : gmap Z RDPDR_INODE) : Z -> list (list Z) -> Z -> Prop :=
| path_share i x : m !! i = Some x -> parent_inode x = 1 -> path_to m i [name x] (device_id x)
| path_in i x l dev : m !! i = Some x -> parent_inode x <> 1 -> path_to m (parent_inode x) l dev -> path_to m i (l ++ [name x]) dev.

(** The names with slashes between them. *)
Fixpoint slashed (l : list (list Z)) : list Z :=
  match l with
  | [] => []
  | [a] => a
  | a :: l => a ++ slash :: slashed l
  end.

Definition plain (nm : list Z) : Prop := slash ∉ nm.

Lemma slashed_cons a l : l <> [] -> slashed (a :: l) = a ++ slash :: slashed l.
Proof. by destruct l. Qed.

Lemma slashed_snoc l a : l <> [] -> slashed (l ++ [a]) = slashed l ++ slash :: a.
Proof.
  induction l as [|b l IH]; [done|]. intros _. destruct l as [|c l]; [done|]. cbn [app].
  rewrite (slashed_cons b (c :: l)) by done. rewrite (slashed_cons b (c :: l ++ [a])) by done.
  change (c :: l ++ [a]) with ((c :: l) ++ [a]). rewrite IH by done. by rewrite <- app_assoc.
Qed.

Lemma length_slashed_rev l : length (slashed (rev l)) = length (slashed l).
Proof.
  induction l as [|a l IH]; [done|]. cbn [rev]. destruct l as [|b l]; [done|].
  rewrite slashed_snoc by (cbn; by destruct (rev l)). rewrite slashed_cons by done. rewrite !length_app. cbn [length]. rewrite IH. lia.
Qed.

Lemma length_slashed l : (length l <= S (length (slashed l)))%nat.
Proof. induction l as [|a l IH]; [cbn; lia|]. destruct l as [|b l]; [cbn; lia|]. rewrite slashed_cons by done. rewrite length_app. cbn in *. lia. Qed.

Lemma path_ne m i l dev : path_to m i l dev -> l <> [].
Proof. destruct 1; [done|]. by destruct l. Qed.

(** ** [strrchr] and the reversal *)

Lemma strrchr_plain z : plain z -> strrchr z = None.
Proof.
  unfold plain. induction z as [|c z IH]; [done|]. intros Hn. cbn. rewrite IH by (intros ?; apply Hn; by right).
  destruct (Z.eqb_spec c slash) as [->|]; [|done]. exfalso. apply Hn. by left.
Qed.

Lemma strrchr_snoc a z : plain z -> strrchr (a ++ slash :: z) = Some (a, z).
Proof.
  intros Hz. induction a as [|c a IH]; cbn; [by rewrite strrchr_plain|]. by rewrite IH.
Qed.

Lemma strcat_fits n a b : Z.of_nat (length (a ++ b)) < n -> strcat n a b = Some (a ++ b).
Proof. intros H. unfold strcat. by destruct (Z.ltb_spec (Z.of_nat (length (a ++ b))) n); [|lia]. Qed.

Lemma reverse_loop_spec size l n full : Forall plain l -> l <> [] -> (length l <= n)%nat ->
  Z.of_nat (length full + length (slashed l)) < size ->
  reverse_loop n size full (slashed (rev l)) = Some (full ++ slashed l).
Proof.
  revert n full. induction l as [|a l IH]; [done|]. intros n full Hp _ Hn Hs. apply Forall_cons in Hp as [Ha Hp].
  destruct n as [|n]; [cbn in Hn; lia|]. cbn [reverse_loop rev]. destruct l as [|b l].
  - cbn. rewrite strrchr_plain by done. apply strcat_fits. rewrite length_app. done.
  - rewrite slashed_snoc by (cbn; by destruct (rev l)). rewrite strrchr_snoc by done.
    rewrite slashed_cons, length_app in Hs by done. cbn [length] in Hs.
    rewrite strcat_fits by (rewrite length_app; lia). cbn [mbind option_bind].
    rewrite strcat_fits by (rewrite !length_app; cbn; lia). cbn [mbind option_bind].
    rewrite IH; [|done..|cbn in *; lia|rewrite !length_app; cbn [length]; lia].
    rewrite (slashed_cons a) by done. by rewrite <- !app_assoc.
Qed.

Lemma reverse_pathname_spec size l : Forall plain l -> l <> [] -> Z.of_nat (length (slashed l)) < size ->
  fuse_reverse_pathname size (slashed (rev l)) = Some (slashed l).
Proof.
  intros Hp Hne Hs. unfold fuse_reverse_pathname. rewrite (reverse_loop_spec size l); [done..| |done].
  rewrite length_slashed_rev. pose proof (length_slashed l). lia.
Qed.

(** ** The path of an inode *)

Lemma path_loop_spec s m i l dev n acc (Q : Z * list Z -> rdpdr_fs -> Prop) : fs_repr s m -> path_to m i l dev -> (length l <= n)%nat ->
  Z.of_nat (length acc + length (slashed l)) < 4096 ->
  (forall top_ x, m !! top_ = Some x -> device_id x = dev -> 0 <= top_ -> Q (top_, acc ++ slashed (rev l)) s) ->
  fs_wp (path_loop n i acc) Q s.
Proof.
  intros H Hp. revert n acc. induction Hp as [i x Hx Hp|i x l dev Hx Hp Hl IH]; intros n acc Hn Hs HQ.
  - destruct n as [|n]; [cbn in Hn; lia|]. cbn [path_loop]. pose proof (r_dom _ _ H i ltac:(by eexists)). pose proof (r_next _ _ H).
    fs_step. eapply fs_wp_table_at; [done|lia|congruence|]. intros p y Hy Hpt. assert (y = x) as -> by congruence.
    fs_step. eapply fs_wp_inode_at; [apply Hpt|]. fs_step. eapply fs_wp_opt; [apply strcat_fits; rewrite length_app; done|].
    rewrite Hp, Z.eqb_refl. fs_step. eapply HQ; [done..|lia].
  - pose proof (path_ne _ _ _ _ Hl) as Hne. rewrite slashed_snoc, length_app in Hs by done. rewrite length_app in Hn. cbn [length] in Hs, Hn.
    destruct n as [|n]; [lia|]. cbn [path_loop]. pose proof (r_dom _ _ H i ltac:(by eexists)). pose proof (r_next _ _ H).
    fs_step. eapply fs_wp_table_at; [done|lia|congruence|]. intros p y Hy Hpt. assert (y = x) as -> by congruence.
    fs_step. eapply fs_wp_inode_at; [apply Hpt|]. fs_step. eapply fs_wp_opt; [apply strcat_fits; rewrite length_app; lia|].
    rewrite (proj2 (Z.eqb_neq _ _)) by done. fs_step. eapply fs_wp_opt; [apply strcat_fits; rewrite !length_app; cbn [length]; lia|].
    apply IH; [lia|rewrite !length_app; cbn [length]; lia|]. intros top_ z Hz Hzd Hpos. rewrite <- !app_assoc. cbn [app].
    rewrite rev_app_distr in HQ. cbn [rev app] in HQ. rewrite (slashed_cons (name x)) in HQ
      by (intros E; apply Hne; rewrite <- (rev_involutive l), E; done). by apply (HQ top_ z).
Qed.

(** The device and the path that the callbacks use for an inode. *)
Lemma device_path_spec s m i l dev size buf (Q : Z * list Z -> rdpdr_fs -> Prop) : fs_repr s m -> path_to m i l dev -> is_u32 i -> i <> 1 ->
  Forall plain l -> size <= 4096 -> Z.of_nat (length (slashed l)) < size ->
  Q (dev, slashed l) s -> fs_wp (rdpdr_fuse_get_device_id_for_inode i size buf) Q s.
Proof.
  intros H Hp Hi H1 Hpl Hsz Hs HQ. unfold rdpdr_fuse_get_device_id_for_inode. rewrite u32_id by done.
  rewrite (proj2 (Z.eqb_neq _ _)) by done. fs_step. pose proof (length_slashed l). pose proof (path_ne _ _ _ _ Hp) as Hne.
  eapply path_loop_spec; [done..|lia|cbn [length]; lia|]. intros top_ x Hx Hxd Hpos. cbn [app].
  fs_step. eapply fs_wp_opt; [by apply reverse_pathname_spec|]. pose proof (r_dom _ _ H top_ ltac:(by eexists)). pose proof (r_next _ _ H).
  fs_step. eapply fs_wp_table_at; [done|lia|congruence|]. intros p y Hy Hpt. assert (y = x) as -> by congruence.
  fs_step. eapply fs_wp_inode_at; [apply Hpt|]. fs_step. by rewrite Hxd.
Qed.

(** Every inode of the tree has a path. *)
Lemma tree_path m n i : tree m -> rooted (parents m) n i -> exists l dev, path_to m i l dev.
Proof.
  intros T. induction 1 as [i H|n i p H Hp Hr (l & dev & IH)]; apply lookup_parents in H as (x & Hx & Hxp).
  - exists [name x], (device_id x). by apply path_share.
  - exists (l ++ [name x]), dev. apply path_in; [done|congruence|by rewrite Hxp].
Qed.

(** ** The part of the path inside the share *)

Lemma strchr_plain z : plain z -> strchr z = None.
Proof.
  unfold plain. induction z as [|c z IH]; [done|]. intros Hn. cbn. destruct (Z.eqb_spec c slash) as [->|].
  - exfalso. apply Hn. by left.
  - apply IH. intros ?. apply Hn. by right.
Qed.

Lemma strchr_app a z : plain a -> strchr (a ++ slash :: z) = Some (slash :: z).
Proof.
  unfold plain. induction a as [|c a IH]; [done|]. intros Hn. cbn. destruct (Z.eqb_spec c slash) as [->|].
  - exfalso. apply Hn. by left.
  - apply IH. intros ?. apply Hn. by right.
Qed.

Lemma share_path_spec share l : plain share -> share_path (slashed (share :: l)) = slash :: slashed l.
Proof.
  intros Hs. unfold share_path. destruct l as [|b l].
  - cbn [slashed]. by rewrite strchr_plain.
  - rewrite slashed_cons by done. by rewrite strchr_app.
Qed.

(** ** Runs *)

Inductive fuse_action :=
| a_lookup (r parent : Z) (nm : list Z)
| a_getattr (r ino : Z)
| a_setattr (r ino : Z) (a : fuse_entry_param) (to_set : Z)
| a_opendir (r ino : Z) (f : nat)
| a_readdir (r ino : Z) (f : nat)
| a_releasedir (r ino : Z) (f : nat)
| a_mkdir (r parent : Z) (nm : list Z)
| a_create (r parent : Z) (nm : list Z) (f : nat) (fl : Z)
| a_rmdir (r parent : Z) (nm : list Z)
| a_unlink (r parent : Z) (nm : list Z)
| a_rename (r old_parent : Z) (old_name : list Z) (new_parent : Z) (new_name : list Z)
| a_open (r ino : Z) (f : nat) (fl : Z)
| a_release (r ino : Z) (f : nat)
| a_read (r ino size off : Z) (f : nat)
| a_write (r ino : Z) (buf : list Z) (off : Z) (f : nat)
| a_drive_create (device : Z) (nm : option (list Z))
| a_entry (fip : nat) (fdi : FILE_DIRECTORY_INFORMATION)
| a_complete (fip : nat) (status device file : Z) (data : list Z)
| a_clip_data (stream : Z) (data : list Z)
| a_clip_clear
| a_clip_add (filename : list Z) (fl size li : Z)
| a_expire (f : nat)
| a_pass (f : nat) (fl : Z) (h : fh).

(** The request of an action of FUSE. *)
Definition request (a : fuse_action) : option Z :=
  match a with
  | a_lookup r _ _ | a_getattr r _ | a_setattr r _ _ _ | a_opendir r _ _ | a_readdir r _ _ | a_releasedir r _ _
  | a_mkdir r _ _ | a_create r _ _ _ _ | a_rmdir r _ _ | a_unlink r _ _ | a_rename r _ _ _ _ | a_open r _ _ _
  | a_release r _ _ | a_read r _ _ _ _ | a_write r _ _ _ _ => Some r
  | _ => None
  end.

Section Run.
Context (w : World).

Definition new_file (f : nat) (fl : Z) : FuseM unit := update (fun s => set_files (<[f := mk_file fl fh_null]> (files s)) s).

(** The completion of an accepted command; the last one of a directory query
    has another status than [STATUS_SUCCESS]. *)
Definition complete (fip : nat) (status device file : Z) (data : list Z) : FuseM unit :=
  c ← deref irps fip;
  _ ← update (fun s => set_irps (delete fip (irps s)) s);
  match c with
  | DriveCreateDirectory _ => rdpdr_fuse_on_drive_create_directory_complete (Some fip) status
  | DriveDeleteDirectory _ => rdpdr_fuse_on_drive_delete_directory_complete (Some fip) status
  | DriveQueryDirectory _ =>
      rdpdr_fuse_on_drive_query_directory_complete w (Some fip) (if status =? STATUS_SUCCESS then STATUS_NO_MORE_FILES else status)
        (mk_fdi [] 0 0 0 0 0)
  | DriveOpenFile _ _ _ => rdpdr_fuse_on_drive_open_file_complete w (Some fip) status device file
  | DriveReadFile _ _ _ => rdpdr_fuse_on_drive_read_file_complete (Some fip) status data
  | DriveWriteFile _ _ _ => rdpdr_fuse_on_drive_write_file_complete (Some fip) status file
  | DriveCloseFile _ => rdpdr_fuse_on_drive_close_file_complete (Some fip) status
  | DriveDeleteFile _ => rdpdr_fuse_on_drive_delete_file_complete (Some fip) status
  | DriveRenameFile _ _ => rdpdr_fuse_on_drive_rename_file_complete (Some fip) status
  end.

Definition fuse_act (a : fuse_action) : FuseM unit :=
  match a with
  | a_lookup r parent nm => rdpdr_fuse_cb_lookup r parent nm
  | a_getattr r ino => rdpdr_fuse_cb_getattr r ino
  | a_setattr r ino at_ to_set => rdpdr_fuse_cb_setattr r ino at_ to_set
  | a_opendir r ino f => _ ← new_file f 0; rdpdr_fuse_cb_opendir w r ino f
  | a_readdir r ino f => rdpdr_fuse_cb_readdir w r ino f
  | a_releasedir r ino f => rdpdr_fuse_cb_releasedir r ino f
  | a_mkdir r parent nm => rdpdr_fuse_cb_mkdir w r parent nm
  | a_create r parent nm f fl => _ ← new_file f fl; rdpdr_fuse_cb_create w r parent nm f
  | a_rmdir r parent nm => rdpdr_fuse_cb_rmdir w r parent nm
  | a_unlink r parent nm => rdpdr_fuse_cb_unlink w r parent nm
  | a_rename r op on np nn => rdpdr_fuse_cb_rename w r op on np nn
  | a_open r ino f fl => _ ← new_file f fl; rdpdr_fuse_cb_open w r ino f
  | a_release r ino f => rdpdr_fuse_cb_release w r ino f
  | a_read r ino size off f => rdpdr_fuse_cb_read w r ino size off (Some f)
  | a_write r ino buf off f => rdpdr_fuse_cb_write w r ino buf off f
  | a_drive_create device nm => in_fs (rdpdr_fuse_on_drive_create w device nm)
  | a_entry fip fdi => rdpdr_fuse_on_drive_query_directory_complete w (Some fip) STATUS_SUCCESS fdi
  | a_complete fip status device file data => complete fip status device file data
  | a_clip_data stream data => _ ← rdpdr_fuse_file_contents_range stream data; skip
  | a_clip_clear => in_fs rdpdr_fuse_clear_clip_dir
  | a_clip_add nm fl size li => _ ← in_fs (rdpdr_fuse_add_clip_dir_item w nm fl size li); skip
  | a_expire f => update (fun s => set_files (delete f (files s)) s)
  | a_pass f fl h => update (fun s => set_files (<[f := mk_file fl h]> (files s)) s)
  end.

(** After [rdpdr_fuse_init]: 0, or -1 when the file system cannot be set up. *)
Definition fuse_start : option fuse :=
  match rdpdr_fuse_init_fs w true with
  | (_, Some f) => Some (mk_fuse f ∅ ∅ ∅ ∅ [] [] 0 ∅ [])
  | _ => None
  end.

End Run.

(** A run: every action with its environment. *)
Inductive fuse_run : list (World * fuse_action) -> fuse -> fuse -> Prop :=
| run_nil s : fuse_run [] s s
| run_snoc l w a s s' s'' : fuse_run l s s' -> fuse_act w a s' = Some (tt, s'') -> fuse_run (l ++ [(w, a)]) s s''.

Definition requests (l : list (World * fuse_action)) : list Z := omap (fun wa => request wa.2) l.

(** The requests that have been answered. *)
Definition answered (s : fuse) : list Z := omap (fun e => match e with e_reply r _ => Some r | _ => None end) (events s).
