(* ===== verification/FuseRequests.v ===== *)
(** * The redirected drives: requests

    Every request of FUSE is accounted for: it has been answered, or a command
    for it is under way, or it waits in the queue of [opendir] or in the list
    of the clipboard.  [fuse_wlp] is the partial precondition of a callback:
    what holds when it returns. *)

From S2P Require Import Prelude FuseTypes FuseTable FuseCallbacks FuseHandlers FuseRun.
From stdpp Require Import gmap list.
#[local] Open Scope Z_scope.

Definition fuse_wlp {A} (c : FuseM A) (Q : A -> fuse -> Prop) (s : fuse) : Prop :=
  match c s with Some (a, s') => Q a s' | None => True end.

Lemma wlp_bind {A B} (c : FuseM A) (k : A -> FuseM B) Q s :
  fuse_wlp c (fun a s' => fuse_wlp (k a) Q s') s -> fuse_wlp (c ≫= k) Q s.
Proof. unfold fuse_wlp, mbind, FuseM_bind. by destruct (c s) as [[a s']|]. Qed.

Lemma wlp_ret {A} (a : A) (Q : A -> fuse -> Prop) s : Q a s -> fuse_wlp (mret a) Q s.
Proof. done. Qed.
Lemma wlp_skip (Q : unit -> fuse -> Prop) s : Q tt s -> fuse_wlp skip Q s.
Proof. done. Qed.
Lemma wlp_crash {A} (Q : A -> fuse -> Prop) s : fuse_wlp crash Q s.
Proof. done. Qed.
Lemma wlp_asks {A} (f : fuse -> A) (Q : A -> fuse -> Prop) s : Q (f s) s -> fuse_wlp (asks f) Q s.
Proof. done. Qed.
Lemma wlp_update f (Q : unit -> fuse -> Prop) s : Q tt (f s) -> fuse_wlp (update f) Q s.
Proof. done. Qed.
Lemma wlp_answer r a (Q : unit -> fuse -> Prop) s : Q tt (set_events (e_reply r a :: events s) s) -> fuse_wlp (answer r a) Q s.
Proof. done. Qed.
Lemma wlp_clip a b c d (Q : unit -> fuse -> Prop) s : Q tt (set_events (e_clip a b c d :: events s) s) ->
  fuse_wlp (clipboard_request_file_data a b c d) Q s.
Proof. done. Qed.
Lemma wlp_in_fs {A} (c : FsM A) (Q : A -> fuse -> Prop) s : (forall a f, Q a (set_fs f s)) -> fuse_wlp (in_fs c) Q s.
Proof. intros H. unfold fuse_wlp, in_fs. destruct (c (fs s)) as [[a f]|]; auto. Qed.
Lemma wlp_opt {A} (o : option A) (Q : A -> fuse -> Prop) s : (forall a, o = Some a -> Q a s) -> fuse_wlp (opt o) Q s.
Proof. intros H. unfold fuse_wlp, opt. destruct o; auto. Qed.
Lemma wlp_deref {V} (f : fuse -> gmap nat V) p (Q : V -> fuse -> Prop) s : (forall v, f s !! p = Some v -> Q v s) -> fuse_wlp (deref f p) Q s.
Proof. intros H. unfold fuse_wlp, deref. destruct (f s !! p); auto. Qed.
Lemma wlp_new_ptr w (Q : option nat -> fuse -> Prop) s :
  Q (Some (next_ptr s)) (set_next_ptr (S (next_ptr s)) s) -> Q None (set_next_ptr (S (next_ptr s)) s) -> fuse_wlp (new_ptr w) Q s.
Proof. intros H1 H2. unfold fuse_wlp, new_ptr. by destruct (calloc w (next_ptr s)). Qed.
Lemma wlp_drive w fip d c (Q : bool -> fuse -> Prop) s :
  let s' := set_events (e_drive fip d c :: events s) s in
  (accepts w (length (events s)) = true -> Q true (set_irps (<[fip := c]> (irps s)) s')) ->
  (accepts w (length (events s)) = false -> Q false s') ->
  fuse_wlp (drive w fip d c) Q s.
Proof. intros s' H1 H2. unfold fuse_wlp, drive. destruct (accepts w (length (events s))); auto. Qed.
Lemma wlp_set_fh f v (Q : unit -> fuse -> Prop) s : (forall m, Q tt (set_files m s)) -> fuse_wlp (set_fh f v) Q s.
Proof. intros H. unfold set_fh. apply wlp_bind, wlp_deref. intros x _. by apply wlp_update. Qed.
Lemma wlp_mono {A} (c : FuseM A) (Q Q' : A -> fuse -> Prop) s : (forall a s', Q a s' -> Q' a s') -> fuse_wlp c Q s -> fuse_wlp c Q' s.
Proof. unfold fuse_wlp. destruct (c s) as [[a s']|]; auto. Qed.

(** Runs a callback on a symbolic state. *)
Ltac exec_step :=
  lazymatch goal with
  | |- fuse_wlp (mbind _ _) _ _ => apply wlp_bind
  | |- fuse_wlp (mret _) _ _ => apply wlp_ret
  | |- fuse_wlp skip _ _ => apply wlp_skip
  | |- fuse_wlp crash _ _ => apply wlp_crash
  | |- fuse_wlp (asks _) _ _ => apply wlp_asks
  | |- fuse_wlp (update _) _ _ => apply wlp_update
  | |- fuse_wlp (answer _ _) _ _ => apply wlp_answer
  | |- fuse_wlp (clipboard_request_file_data _ _ _ _) _ _ => apply wlp_clip
  | |- fuse_wlp (in_fs _) _ _ => apply wlp_in_fs; intros
  | |- fuse_wlp (opt _) _ _ => apply wlp_opt; intros
  | |- fuse_wlp (deref _ _) _ _ => apply wlp_deref; intros
  | |- fuse_wlp (new_ptr _) _ _ => apply wlp_new_ptr
  | |- fuse_wlp (drive _ _ _ _) _ _ => apply wlp_drive; intros
  | |- fuse_wlp (set_fh _ _) _ _ => apply wlp_set_fh; intros
  | |- fuse_wlp (free_info _) _ _ => unfold free_info
  | |- fuse_wlp (new_info _ _) _ _ => unfold new_info
  | |- fuse_wlp (open_dir _ _) _ _ => unfold open_dir
  | |- fuse_wlp (new_file _ _) _ _ => unfold new_file
  | |- fuse_wlp dequeue _ _ => unfold dequeue
  | |- fuse_wlp (match ?x with _ => _ end) _ _ => let E := fresh "E" in destruct x eqn:E
  end.
Ltac exec := repeat exec_step.

(** ** The account *)

Definition reqs_of (i : gmap nat RDPDR_FUSE_INFO) (c : gmap nat command) : list Z :=
  (fun p => from_option req 0 (i !! p)) <$> (map_to_list c).*1.

(** The requests whose command is under way. *)
Definition flight (s : fuse) : list Z := reqs_of (infos s) (irps s).

(** The requests that are not answered: the head of the queue of [opendir] is
    under way, or has been answered when the command could not be sent. *)
Definition owed (s : fuse) : list Z := flight s ++ (od_req <$> tail (g_opendir_queue s)) ++ (rli_req <$> g_req_list s).

Definition tally (s : fuse) : list Z := answered s ++ owed s.

(** What the completion of a command relies on. *)
Definition info_ok (c : command) (x : RDPDR_FUSE_INFO) : Prop :=
  invoke_fuse x = true /\
  match c with
  | DriveOpenFile _ _ _ => reply_type x = RT_FUSE_REPLY_OPEN \/ reply_type x = RT_FUSE_REPLY_CREATE
  | DriveWriteFile _ _ _ | DriveCloseFile _ => is_Some (fi x)
  | _ => True
  end.

Record links (s : fuse) : Prop := {
  k_irps p : is_Some (irps s !! p) -> is_Some (infos s !! p);
  k_infos p : is_Some (infos s !! p) -> (p < next_ptr s)%nat;
  k_ok p c x : irps s !! p = Some c -> infos s !! p = Some x -> info_ok c x;
}.

Lemma links_fresh s : links s -> irps s !! next_ptr s = None.
Proof.
  intros [K1 K2 _]. destruct (irps s !! next_ptr s) eqn:E; [|done]. pose proof (K2 _ (K1 _ ltac:(by eexists))). lia.
Qed.

Lemma reqs_insert_info i c p x : c !! p = None -> reqs_of (<[p := x]> i) c = reqs_of i c.
Proof.
  intros Hc. unfold reqs_of. rewrite <- !list_fmap_compose. apply list_fmap_ext. intros k [q d] Hq. cbn.
  apply list_elem_of_lookup_2, elem_of_map_to_list in Hq. rewrite lookup_insert_ne; [done|]. congruence.
Qed.

Lemma reqs_delete_info i c p : c !! p = None -> reqs_of (delete p i) c = reqs_of i c.
Proof.
  intros Hc. unfold reqs_of. rewrite <- !list_fmap_compose. apply list_fmap_ext. intros k [q d] Hq. cbn.
  apply list_elem_of_lookup_2, elem_of_map_to_list in Hq. rewrite lookup_delete_ne; [done|]. congruence.
Qed.

Lemma reqs_insert_irp i c p x d : c !! p = None -> i !! p = Some x -> reqs_of i (<[p := d]> c) ≡ₚ req x :: reqs_of i c.
Proof. intros Hc Hi. unfold reqs_of. rewrite map_to_list_insert by done. cbn. by rewrite Hi. Qed.

Lemma reqs_delete_irp i c p x d : c !! p = Some d -> i !! p = Some x -> reqs_of i c ≡ₚ req x :: reqs_of i (delete p c).
Proof.
  intros Hc Hi. rewrite <- (reqs_insert_irp i (delete p c) p x d) by (done || apply lookup_delete_eq).
  by rewrite insert_delete_id.
Qed.

(** From [s] to [s'] the requests [l] are answered or a command is sent for
    them. *)
Record settles (l : list Z) (s s' : fuse) : Prop := {
  st_links : links s';
  st_tally : answered s' ++ flight s' ≡ₚ l ++ answered s ++ flight s;
  st_queue : g_opendir_queue s' = g_opendir_queue s;
  st_list : g_req_list s' = g_req_list s;
}.

Ltac fuse_cbn := cbn [infos irps events fs handles dirs files g_opendir_queue g_req_list next_ptr
  set_infos set_irps set_events set_fs set_handles set_dirs set_files set_queue set_req_list set_next_ptr] in *.

Ltac links_tac :=
  repeat match goal with
  | H : is_Some (<[_ := _]> _ !! _) |- _ => apply lookup_insert_is_Some' in H as [<-|H]
  | H : is_Some (delete _ _ !! _) |- _ => apply lookup_delete_is_Some in H as [? H]
  | |- is_Some (<[_ := _]> _ !! _) => apply lookup_insert_is_Some'
  | |- is_Some (delete _ _ !! _) => apply lookup_delete_is_Some
  end.

Lemma settle_frame s s' : links s -> infos s' = infos s -> irps s' = irps s -> answered s' = answered s -> (next_ptr s <= next_ptr s')%nat ->
  g_opendir_queue s' = g_opendir_queue s -> g_req_list s' = g_req_list s -> settles [] s s'.
Proof.
  intros [K1 K2 K3] Hi Hc Ha Hn Hq Hl. split; [|by rewrite Ha; unfold flight; rewrite Hi, Hc|done..].
  split; rewrite ?Hi, ?Hc; [done| |done]. intros p Hp%K2. lia.
Qed.

Lemma settle_answer s s' r : links s -> infos s' = infos s -> irps s' = irps s -> answered s' = r :: answered s -> (next_ptr s <= next_ptr s')%nat ->
  g_opendir_queue s' = g_opendir_queue s -> g_req_list s' = g_req_list s -> settles [r] s s'.
Proof.
  intros [K1 K2 K3] Hi Hc Ha Hn Hq Hl. split; [|by rewrite Ha; unfold flight; rewrite Hi, Hc|done..].
  split; rewrite ?Hi, ?Hc; [done| |done]. intros p Hp%K2. lia.
Qed.

(** A record for the request, and the command is under way. *)
Lemma settle_send s s' r x c : links s -> infos s' = <[next_ptr s := x]> (infos s) -> irps s' = <[next_ptr s := c]> (irps s) ->
  answered s' = answered s -> (next_ptr s < next_ptr s')%nat ->
  g_opendir_queue s' = g_opendir_queue s -> g_req_list s' = g_req_list s -> req x = r -> info_ok c x -> settles [r] s s'.
Proof.
  intros K Hi Hc Ha Hn Hq Hl <- Hx. pose proof (links_fresh _ K) as Hf. destruct K as [K1 K2 K3]. split; [| |done..].
  - split; rewrite ?Hi, ?Hc.
    + intros p Hp; links_tac; auto.
    + intros p Hp; links_tac; [lia|]. apply K2 in Hp. lia.
    + intros p d y. rewrite !lookup_insert_Some. intros [[<- <-]|[Hne Hp]] [[Hn' <-]|[Hne' Hy]]; [done..|eauto].
  - unfold flight. rewrite Ha, Hi, Hc, (reqs_insert_irp _ _ _ x) by (done || apply lookup_insert_eq).
    rewrite reqs_insert_info by done. symmetry. apply (Permutation_middle (answered s)).
Qed.

(** A record for a command that is not accepted; it is freed or lost. *)
Lemma settle_refused s s' x r : links s -> infos s' = <[next_ptr s := x]> (infos s) \/ infos s' = delete (next_ptr s) (<[next_ptr s := x]> (infos s)) ->
  irps s' = irps s -> answered s' = r ++ answered s -> (next_ptr s < next_ptr s')%nat ->
  g_opendir_queue s' = g_opendir_queue s -> g_req_list s' = g_req_list s -> settles r s s'.
Proof.
  intros K Hi Hc Ha Hn Hq Hl. pose proof (links_fresh _ K) as Hf. destruct K as [K1 K2 K3].
  assert (forall p, is_Some (irps s !! p) -> p <> next_ptr s) as Hne by (intros p [? ?] ->; congruence).
  split; [| |done..].
  - split; [intros p Hp|intros p Hp|intros p c y Hp Hy].
    + rewrite Hc in Hp. pose proof (not_eq_sym (Hne p Hp)). pose proof (K1 p Hp).
      destruct Hi as [-> | ->]; rewrite ?lookup_delete_ne, ?lookup_insert_ne by done; done.
    + destruct Hi as [E|E]; rewrite E in Hp; links_tac; try lia; apply K2 in Hp; lia.
    + rewrite Hc in Hp. pose proof (not_eq_sym (Hne p ltac:(by eexists))). apply (K3 p c y Hp).
      destruct Hi as [E|E]; rewrite E in Hy; rewrite ?lookup_delete_ne, ?lookup_insert_ne in Hy by done; done.
  - unfold flight. rewrite Ha, Hc. destruct Hi as [-> | ->]; rewrite ?reqs_delete_info, ?reqs_insert_info by done; by rewrite <- app_assoc.
Qed.

Ltac info_ok_tac := split; [done|]; cbn; repeat case_match; cbn in *; first [done | by left | by right | by eexists | by simplify_eq].

Ltac settle :=
  fuse_cbn;
  first [ eapply settle_answer; fuse_cbn; (done || lia)
        | eapply settle_send; fuse_cbn; (done || lia || info_ok_tac)
        | eapply (settle_refused _ _ _ [_]); fuse_cbn; (done || (by left) || (by right) || lia)
        | eapply settle_frame; fuse_cbn; (done || lia) ].

Section Requests.
Context (w : World).

Lemma create_settles r parent nm f type s : links s ->
  fuse_wlp (rdpdr_fuse_create_dir_or_file w r parent nm f type) (fun _ s' => settles [r] s s') s.
Proof. intros K. unfold rdpdr_fuse_create_dir_or_file. exec; settle. Qed.

Lemma mkdir_settles r parent nm s : links s -> fuse_wlp (rdpdr_fuse_cb_mkdir w r parent nm) (fun _ s' => settles [r] s s') s.
Proof.
  intros K. unfold rdpdr_fuse_cb_mkdir. exec_step. exec_step. exec_step; [exec; settle|].
  eapply wlp_mono; [|apply create_settles]; [|split; apply K]. intros _ s' [S1 S2 S3 S4]. by split.
Qed.

Lemma remove_settles r parent nm type s : links s -> type = 1 \/ type = 2 ->
  fuse_wlp (rdpdr_fuse_remove_dir_or_file w r parent nm type) (fun _ s' => settles [r] s s') s.
Proof. intros K Ht. unfold rdpdr_fuse_remove_dir_or_file. destruct Ht as [-> | ->]; cbn [Z.eqb Pos.eqb andb orb]; exec; settle. Qed.

Lemma rename_settles r op on np nn s : links s -> fuse_wlp (rdpdr_fuse_cb_rename w r op on np nn) (fun _ s' => settles [r] s s') s.
Proof. intros K. unfold rdpdr_fuse_cb_rename. exec; settle. Qed.

Lemma open_settles r ino f s : links s -> fuse_wlp (rdpdr_fuse_cb_open w r ino f) (fun _ s' => settles [r] s s') s.
Proof. intros K. unfold rdpdr_fuse_cb_open. exec; settle. Qed.

Lemma release_settles r ino f s : links s -> fuse_wlp (rdpdr_fuse_cb_release w r ino f) (fun _ s' => settles [r] s s') s.
Proof. intros K. unfold rdpdr_fuse_cb_release. exec; settle. Qed.

Lemma lookup_settles r parent nm s : links s -> fuse_wlp (rdpdr_fuse_cb_lookup r parent nm) (fun _ s' => settles [r] s s') s.
Proof. intros K. unfold rdpdr_fuse_cb_lookup. exec; settle. Qed.

Lemma getattr_settles r ino s : links s -> fuse_wlp (rdpdr_fuse_cb_getattr r ino) (fun _ s' => settles [r] s s') s.
Proof. intros K. unfold rdpdr_fuse_cb_getattr. exec; settle. Qed.

Lemma setattr_settles r ino a to_set s : links s -> fuse_wlp (rdpdr_fuse_cb_setattr r ino a to_set) (fun _ s' => settles [r] s s') s.
Proof. intros K. unfold rdpdr_fuse_cb_setattr. exec; settle. Qed.

Lemma readdir_settles r ino f s : links s -> fuse_wlp (rdpdr_fuse_cb_readdir w r ino f) (fun _ s' => settles [r] s s') s.
Proof. intros K. unfold rdpdr_fuse_cb_readdir. exec; settle. Qed.

Lemma releasedir_settles r ino f s : links s -> fuse_wlp (rdpdr_fuse_cb_releasedir r ino f) (fun _ s' => settles [r] s s') s.
Proof. intros K. unfold rdpdr_fuse_cb_releasedir. exec; settle. Qed.

(** ** Completions: the command of [fip] has left [irps] *)

Lemma settle_done s s' fip r : links s -> irps s !! fip = None -> infos s' = delete fip (infos s) \/ infos s' = infos s ->
  irps s' = irps s -> answered s' = r :: answered s -> (next_ptr s <= next_ptr s')%nat ->
  g_opendir_queue s' = g_opendir_queue s -> g_req_list s' = g_req_list s -> settles [r] s s'.
Proof.
  intros [K1 K2 K3] Hf Hi Hc Ha Hn Hq Hl. assert (forall p, is_Some (irps s !! p) -> p <> fip) as Hne by (intros p [? ?] ->; congruence).
  split; [| |done..].
  - split; [intros p Hp|intros p Hp|intros p c y Hp Hy].
    + rewrite Hc in Hp. pose proof (not_eq_sym (Hne p Hp)). pose proof (K1 p Hp). destruct Hi as [-> | ->]; [by rewrite lookup_delete_ne|done].
    + destruct Hi as [E|E]; rewrite E in Hp; links_tac; apply K2 in Hp; lia.
    + rewrite Hc in Hp. pose proof (not_eq_sym (Hne p ltac:(by eexists))). apply (K3 p c y Hp).
      destruct Hi as [E|E]; rewrite E in Hy; [by rewrite lookup_delete_ne in Hy|done].
  - unfold flight. rewrite Ha, Hc. destruct Hi as [-> | ->]; by rewrite ?reqs_delete_info.
Qed.

Ltac settle_complete fip :=
  fuse_cbn; eapply (settle_done _ _ fip); fuse_cbn; (done || (by left) || (by right) || lia).

Lemma create_directory_complete_settles fip st x s : links s -> irps s !! fip = None -> infos s !! fip = Some x ->
  fuse_wlp (rdpdr_fuse_on_drive_create_directory_complete (Some fip) st) (fun _ s' => settles [req x] s s') s.
Proof. intros K Hc Hx. unfold rdpdr_fuse_on_drive_create_directory_complete. exec; simplify_eq; settle_complete fip. Qed.

Lemma delete_complete_settles fip st x s : links s -> irps s !! fip = None -> infos s !! fip = Some x ->
  fuse_wlp (delete_complete (Some fip) st) (fun _ s' => settles [req x] s s') s.
Proof. intros K Hc Hx. unfold delete_complete. exec; simplify_eq; settle_complete fip. Qed.

Lemma open_complete_settles fip st dev file c x s : links s -> irps s !! fip = None -> infos s !! fip = Some x ->
  info_ok (DriveOpenFile c dev file) x -> forall d f,
  fuse_wlp (rdpdr_fuse_on_drive_open_file_complete w (Some fip) st d f) (fun _ s' => settles [req x] s s') s.
Proof.
  intros K Hc Hx [Hi Ho] d f. unfold rdpdr_fuse_on_drive_open_file_complete, open_reply_create.
  exec; simplify_eq; try (destruct Ho; congruence); settle_complete fip.
Qed.

Lemma read_complete_settles fip st data x s : links s -> irps s !! fip = None -> infos s !! fip = Some x ->
  fuse_wlp (rdpdr_fuse_on_drive_read_file_complete (Some fip) st data) (fun _ s' => settles [req x] s s') s.
Proof. intros K Hc Hx. unfold rdpdr_fuse_on_drive_read_file_complete. exec; simplify_eq; settle_complete fip. Qed.

Lemma write_complete_settles fip st n x s : links s -> irps s !! fip = None -> infos s !! fip = Some x -> is_Some (fi x) ->
  fuse_wlp (rdpdr_fuse_on_drive_write_file_complete (Some fip) st n) (fun _ s' => settles [req x] s s') s.
Proof.
  intros K Hc Hx [f Hf]. unfold rdpdr_fuse_on_drive_write_file_complete. exec; simplify_eq; settle_complete fip.
Qed.

Lemma close_complete_settles fip st x s : links s -> irps s !! fip = None -> infos s !! fip = Some x -> is_Some (fi x) ->
  fuse_wlp (rdpdr_fuse_on_drive_close_file_complete (Some fip) st) (fun _ s' => settles [req x] s s') s.
Proof.
  intros K Hc Hx [f Hf]. unfold rdpdr_fuse_on_drive_close_file_complete. exec; simplify_eq; settle_complete fip.
Qed.

Lemma rename_complete_settles fip st x s : links s -> irps s !! fip = None -> infos s !! fip = Some x ->
  fuse_wlp (rdpdr_fuse_on_drive_rename_file_complete (Some fip) st) (fun _ s' => settles [req x] s s') s.
Proof.
  intros K Hc Hx. unfold rdpdr_fuse_on_drive_rename_file_complete, rename_target. exec; simplify_eq; settle_complete fip.
Qed.

(** ** The queue of [opendir] *)

Lemma links_queue s q : links s -> links (set_queue q s).
Proof. by intros [K1 K2 K3]. Qed.
Lemma links_same s s' : links s -> infos s' = infos s -> irps s' = irps s -> next_ptr s' = next_ptr s -> links s'.
Proof. intros [K1 K2 K3] E1 E2 E3. split; rewrite ?E1, ?E2, ?E3; done. Qed.

Lemma proc_settles r ino f s : links s ->
  fuse_wlp (rdpdr_fuse_proc_opendir_req w r ino f) (fun st s' =>
    settles [r] (set_queue (if st =? 0 then g_opendir_queue s else tail (g_opendir_queue s)) s) s') s.
Proof.
  intros K. pose proof (fun q => links_queue s q K) as Kq. unfold rdpdr_fuse_proc_opendir_req.
  exec; cbn [Z.eqb]; fuse_cbn;
    first [ eapply settle_answer; [by apply Kq|fuse_cbn; (done || lia)..]
          | eapply settle_send; [by apply Kq|fuse_cbn; (done || lia || info_ok_tac)..]
          | eapply (settle_refused _ _ _ [_]); [by apply Kq|by left|fuse_cbn; (done || lia)..] ].
Qed.

(** All requests of the queue are waiting. *)
Definition tally_all (s : fuse) : list Z :=
  answered s ++ flight s ++ (od_req <$> g_opendir_queue s) ++ (rli_req <$> g_req_list s).

Lemma settles_tally l s s' : settles l s s' -> tally s' ≡ₚ l ++ tally s /\ tally_all s' ≡ₚ l ++ tally_all s.
Proof.
  intros [_ T Q L]. unfold tally, owed, tally_all. rewrite Q, L, !(app_assoc (answered _)), T. by rewrite <- !app_assoc.
Qed.

Lemma perm_front {A} (o : A) (a f a' f' r : list A) : a' ++ f' ≡ₚ o :: a ++ f -> a' ++ f' ++ r ≡ₚ a ++ f ++ o :: r.
Proof. intros H. rewrite app_assoc, H. cbn. rewrite <- app_assoc, (app_assoc a f (o :: r)), (app_assoc a f r). apply Permutation_middle. Qed.

Lemma opendir_loop_tally n s : links s -> fuse_wlp (opendir_loop w n) (fun _ s' => links s' /\ tally s' ≡ₚ tally_all s) s.
Proof.
  revert s. induction n as [|n IH]; intros s K; [done|]. cbn [opendir_loop]. do 2 exec_step. destruct (g_opendir_queue s) as [|od q] eqn:Eq.
  - exec_step. split; [done|]. unfold tally, owed, tally_all. by rewrite Eq.
  - exec_step. eapply wlp_mono; [|by apply proc_settles]. intros st s1 S1. cbn beta in S1. destruct (st =? 0) eqn:Est; rewrite ?Est in S1; cbn beta iota in S1.
    + exec_step. split; [apply S1|]. destruct S1 as [_ T Q L]. unfold tally, owed, tally_all. rewrite Q, L. fuse_cbn. rewrite Eq. exact (perm_front _ _ _ _ _ _ T).
    + eapply wlp_mono; [|apply IH, S1]. intros _ s2 [K2 T2]. split; [done|]. rewrite T2. destruct S1 as [_ T Q L].
      unfold tally_all. rewrite Q, L. fuse_cbn. rewrite Eq. exact (perm_front _ _ _ _ _ _ T).
Qed.

Lemma query_done_tally fip st x s : links s -> irps s !! fip = None -> infos s !! fip = Some x -> invoke_fuse x = true ->
  fuse_wlp (rdpdr_fuse_query_directory_done w (Some fip) st) (fun _ s' => links s' /\ tally s' ≡ₚ req x :: tally s) s.
Proof.
  intros K Hc Hx Hi. unfold rdpdr_fuse_query_directory_done. apply wlp_bind.
  eapply (wlp_mono _ (fun _ s' => settles [req x] s s')); [|exec; simplify_eq; try congruence; settle_complete fip].
  intros _ s1 S1. exec_step. unfold dequeue. exec_step. unfold opendir_next. do 2 exec_step.
  eapply wlp_mono; [|apply opendir_loop_tally, links_queue, S1]. intros _ s2 [K2 T2]. split; [done|]. rewrite T2.
  destruct S1 as [_ T Q L]. unfold tally, owed, tally_all. fuse_cbn. rewrite Q, L.
  change (answered (set_queue _ s1)) with (answered s1). change (flight (set_queue _ s1)) with (flight s1).
  rewrite app_assoc, T. cbn. by rewrite <- app_assoc.
Qed.

Lemma opendir_tally r ino f s : links s -> fuse_wlp (rdpdr_fuse_cb_opendir w r ino f) (fun _ s' => links s' /\ tally s' ≡ₚ r :: tally s) s.
Proof.
  intros K. unfold rdpdr_fuse_cb_opendir. do 2 exec_step. exec_step. exec_step. destruct (g_opendir_queue s) as [|od q] eqn:Eq.
  - exec_step. eapply wlp_mono; [|apply proc_settles, links_queue, K]. intros st s1 [K1 T Q L]. exec_step. split; [done|].
    fuse_cbn. unfold tally, owed. rewrite Q, L, Eq. assert (tail (if st =? 0 then [] ++ [mk_opendir r ino f] else tail ([] ++ [mk_opendir r ino f])) = []) as ->
      by (by destruct (st =? 0)). rewrite app_assoc, T. cbn. by rewrite <- app_assoc.
  - exec_step. split; [by apply links_queue|]. unfold tally, owed. fuse_cbn. rewrite Eq. cbn [tail app]. rewrite fmap_app. cbn [fmap list_fmap].
    change (answered (set_queue _ s)) with (answered s). change (flight (set_queue _ s)) with (flight s).
    rewrite <- app_assoc. cbn. rewrite (app_assoc (flight s)). rewrite (app_assoc (answered s)). symmetry.
    rewrite (app_assoc (flight s)), (app_assoc (answered s)). apply Permutation_middle.
Qed.

(** ** Reading, writing and the clipboard *)

(** The cases in which a request gets no reply. *)
Definition unanswered (a : fuse_action) (s : fuse) : Prop :=
  match a with
  | a_read _ _ _ _ _ => accepts w (length (events s)) = false
  | a_write _ _ _ _ f => accepts w (length (events s)) = false \/
      exists y h hd, files s !! f = Some y /\ file_fh y = fh_handle h /\ handles s !! h = Some hd /\ handle_local hd = true
  | _ => False
  end.

(** The account after a callback for the request [r]: it may be lost. *)
Definition accounts (r : Z) (lost : Prop) (s s' : fuse) : Prop :=
  links s' /\ (tally s' ≡ₚ r :: tally s \/ lost /\ tally s' ≡ₚ tally s).

Lemma settles_accounts r lost s s' : settles [r] s s' -> accounts r lost s s'.
Proof. intros S. split; [apply S|]. left. by apply settles_tally in S as [? _]. Qed.

Lemma lost_accounts r (lost : Prop) s s' : lost -> settles [] s s' -> accounts r lost s s'.
Proof. intros H S. split; [apply S|]. right. split; [done|]. by apply settles_tally in S as [? _]. Qed.

Lemma write_accounts r ino buf off f s : links s ->
  fuse_wlp (rdpdr_fuse_cb_write w r ino buf off f) (fun _ s' => accounts r (unanswered (a_write r ino buf off f) s) s s') s.
Proof.
  intros K. unfold rdpdr_fuse_cb_write. exec; fuse_cbn; try (apply settles_accounts; settle).
  - apply lost_accounts; [right; eauto 10|]. eapply settle_frame; fuse_cbn; (done || lia).
  - apply lost_accounts; [by left|]. eapply (settle_refused _ _ _ []); fuse_cbn; (done || (by left) || lia).
Qed.

Lemma read_accounts r ino size off f s : links s ->
  fuse_wlp (rdpdr_fuse_cb_read w r ino size off (Some f)) (fun _ s' => accounts r (unanswered (a_read r ino size off f) s) s s') s.
Proof.
  intros K. unfold rdpdr_fuse_cb_read. exec; fuse_cbn; try (apply settles_accounts; settle).
  1-2: split; [by apply (links_same s)|]; left; unfold tally, owed; fuse_cbn; rewrite fmap_app; cbn [fmap list_fmap rli_req];
    rewrite !app_assoc; symmetry; rewrite <- (Permutation_cons_append _ r); done.
  apply lost_accounts; [done|]. eapply (settle_refused _ _ _ []); fuse_cbn; (done || (by left) || lia).
Qed.

Lemma clip_data_tally stream data s : links s ->
  fuse_wlp (rdpdr_fuse_file_contents_range stream data) (fun _ s' => links s' /\ tally s' ≡ₚ tally s) s.
Proof.
  intros K. unfold rdpdr_fuse_file_contents_range. do 2 exec_step. destruct (g_req_list s) as [|rli rest] eqn:El; [by exec_step|].
  assert (rli_req rli :: answered s ++ flight s ++ (od_req <$> tail (g_opendir_queue s)) ++ (rli_req <$> rest) ≡ₚ tally s) as P.
  { unfold tally, owed. rewrite El. cbn. rewrite !app_assoc. apply Permutation_middle. }
  exec; fuse_cbn; (split; [by apply (links_same s)|]; exact P).
Qed.

Lemma entry_tally fip fdi s : links s ->
  fuse_wlp (rdpdr_fuse_on_drive_query_directory_complete w (Some fip) STATUS_SUCCESS fdi) (fun _ s' => links s' /\ tally s' ≡ₚ tally s) s.
Proof. intros K. unfold rdpdr_fuse_on_drive_query_directory_complete. rewrite Z.eqb_refl. exec; (split; [by apply (links_same s)|done]). Qed.

Lemma settles_complete_tally fip c x s s' : irps s !! fip = Some c -> infos s !! fip = Some x ->
  links s' /\ tally s' ≡ₚ req x :: tally (set_irps (delete fip (irps s)) s) -> links s' /\ tally s' ≡ₚ tally s.
Proof.
  intros Hc Hx [K T]. split; [done|]. rewrite T. unfold tally, owed, flight. fuse_cbn. change (answered (set_irps _ s)) with (answered s).
  rewrite (reqs_delete_irp (infos s) (irps s) fip x c) by done. cbn. apply Permutation_middle.
Qed.

Lemma complete_tally fip st dev file data s : links s ->
  fuse_wlp (complete w fip st dev file data) (fun _ s' => links s' /\ tally s' ≡ₚ tally s) s.
Proof.
  intros K. unfold complete. exec_step. apply wlp_deref. intros c Hc. do 2 exec_step. destruct (k_irps _ K fip ltac:(by eexists)) as [x Hx].
  pose proof (k_ok _ K _ _ _ Hc Hx) as [Hinv Hok]. set (s1 := set_irps _ s).
  assert (links s1) as K1.
  { destruct K as [K1 K2 K3]. split; [|done|]; unfold s1; fuse_cbn.
    - intros p [_ Hp]%lookup_delete_is_Some. auto.
    - intros p d y [_ Hp]%lookup_delete_Some. eauto. }
  assert (irps s1 !! fip = None) as Hn by apply lookup_delete_eq.
  eapply wlp_mono; [intros ? s' H; apply (settles_complete_tally fip c x s s' Hc Hx); exact H|]. fold s1.
  assert (forall A (p : FuseM A), fuse_wlp p (fun _ s' => settles [req x] s1 s') s1 ->
    fuse_wlp p (fun _ s' => links s' /\ tally s' ≡ₚ req x :: tally s1) s1) as Hs.
  { intros A p. apply wlp_mono. intros _ s' S. split; [apply S|]. by apply settles_tally in S as [? _]. }
  destruct c.
  - by apply Hs, create_directory_complete_settles.
  - by apply Hs, delete_complete_settles.
  - unfold rdpdr_fuse_on_drive_query_directory_complete. rewrite (proj2 (Z.eqb_neq _ STATUS_SUCCESS));
      [by apply query_done_tally|]. by destruct (Z.eqb_spec st STATUS_SUCCESS).
  - by apply Hs, (open_complete_settles fip st 0 0 []).
  - by apply Hs, read_complete_settles.
  - by apply Hs, write_complete_settles.
  - by apply Hs, close_complete_settles.
  - by apply Hs, delete_complete_settles.
  - by apply Hs, rename_complete_settles.
Qed.

(** Every action keeps the account. *)
Lemma act_accounts a s : links s ->
  fuse_wlp (fuse_act w a) (fun _ s' => links s' /\
    (tally s' ≡ₚ option_list (request a) ++ tally s \/ unanswered a s /\ tally s' ≡ₚ tally s)) s.
Proof.
  intros K.
  assert (forall r (p : FuseM unit) s0, links s0 -> tally s0 = tally s -> fuse_wlp p (fun _ s' => settles [r] s0 s') s0 ->
    fuse_wlp p (fun _ s' => links s' /\ (tally s' ≡ₚ r :: tally s \/ unanswered a s /\ tally s' ≡ₚ tally s)) s0) as Hs.
  { intros r p s0 _ E. apply wlp_mono. intros _ s' S. split; [apply S|]. left. apply settles_tally in S as [T _]. by rewrite T, E. }
  assert (forall (p : FuseM unit), request a = None -> fuse_wlp p (fun _ s' => links s' /\ tally s' ≡ₚ tally s) s ->
    fuse_wlp p (fun _ s' => links s' /\ (tally s' ≡ₚ tally s \/ unanswered a s /\ tally s' ≡ₚ tally s)) s) as Hn.
  { intros p _. apply wlp_mono. intros _ s' [? ?]. split; [done|by left]. }
  destruct a; cbn [fuse_act request option_list app].
  - by apply Hs, lookup_settles.
  - by apply Hs, getattr_settles.
  - by apply Hs, setattr_settles.
  - unfold new_file. do 2 exec_step. eapply wlp_mono; [|by apply opendir_tally, (links_same s)]. intros _ s' [? ?]. split; [done|by left].
  - by apply Hs, readdir_settles.
  - by apply Hs, releasedir_settles.
  - by apply Hs, mkdir_settles.
  - unfold new_file. do 2 exec_step. apply Hs; [by apply (links_same s)|done|]. by apply create_settles, (links_same s).
  - apply Hs; [done..|]. apply remove_settles; [done|by left].
  - apply Hs; [done..|]. apply remove_settles; [done|by right].
  - by apply Hs, rename_settles.
  - unfold new_file. do 2 exec_step. apply Hs; [by apply (links_same s)|done|]. by apply open_settles, (links_same s).
  - by apply Hs, release_settles.
  - by apply read_accounts.
  - by apply write_accounts.
  - apply Hn; [done|]. exec. by split; [apply (links_same s)|].
  - apply Hn; [done|]. by apply entry_tally.
  - apply Hn; [done|]. by apply complete_tally.
  - apply Hn; [done|]. exec_step. eapply wlp_mono; [|by apply clip_data_tally]. intros st s' H. exec_step. done.
  - apply Hn; [done|]. exec. by split; [apply (links_same s)|].
  - apply Hn; [done|]. exec. by split; [apply (links_same s)|].
  - apply Hn; [done|]. exec. by split; [apply (links_same s)|].
  - apply Hn; [done|]. exec. by split; [apply (links_same s)|].
Qed.

End Requests.

Definition is_transfer (a : fuse_action) : bool := match a with a_read _ _ _ _ _ | a_write _ _ _ _ _ => true | _ => false end.

Lemma start_links w s : fuse_start w = Some s -> links s /\ tally s = [].
Proof.
  unfold fuse_start. destruct (rdpdr_fuse_init_fs w true) as [? [f|]]; [|done]. intros [= <-]. split; [|done].
  split; cbn; [intros p [? H]|intros p [? H]|intros p c x H]; by rewrite lookup_empty in H.
Qed.

Lemma run_account l s s' : fuse_run l s s' -> links s -> exists lost, links s' /\ requests l ++ tally s ≡ₚ tally s' ++ lost /\
  forall r, r ∈ lost -> exists w a, (w, a) ∈ l /\ request a = Some r /\ is_transfer a = true.
Proof.
  induction 1 as [s|l w a s s' s'' Hr IH Ha]; intros K.
  - exists []. split; [done|]. split; [by rewrite app_nil_r|]. intros r Hr. by apply not_elem_of_nil in Hr.
  - destruct (IH K) as (lost & K' & T & Hl). pose proof (act_accounts w a s' K') as W. unfold fuse_wlp in W. rewrite Ha in W.
    destruct W as [K'' W]. assert (requests (l ++ [(w, a)]) = requests l ++ option_list (request a)) as Er.
    { unfold requests. rewrite omap_app. cbn. by destruct (request a). }
    assert (forall r, r ∈ lost -> exists w' a', (w', a') ∈ l ++ [(w, a)] /\ request a' = Some r /\ is_transfer a' = true) as Hl'.
    { intros r (w' & a' & ? & ?)%Hl. exists w', a'. by rewrite elem_of_app; auto. }
    destruct W as [W|[Hu W]].
    + exists lost. split; [done|]. split; [|done]. rewrite Er, W. rewrite <- !app_assoc, <- T.
      rewrite !app_assoc. apply Permutation_app_tail, Permutation_app_comm.
    + destruct (request a) as [r|] eqn:Eq; [|by destruct a].
      exists (r :: lost). split; [done|]. split.
      * rewrite Er, W. symmetry. etrans; [symmetry; apply Permutation_middle|]. rewrite <- T, <- app_assoc. apply Permutation_middle.
      * intros r' [->|Hr']%elem_of_cons; [|auto]. exists w, a. split; [by apply elem_of_app; right; left|]. split; [done|]. by destruct a.
Qed.
