(* ===== verification/FuseReaddir.v ===== *)
(** * The redirected drives: reading a directory

    One call of [readdir] fills a buffer of 4096 bytes with the entries of a
    directory in the order of the table and remembers the slot where it stopped;
    the calls together list every entry once. *)

From S2P Require Import Prelude FuseTypes FuseTable FuseCallbacks FuseHandlers FuseRepr FuseTree FuseOps.
From stdpp Require Import gmap list.
#[local] Open Scope Z_scope.

(** The entries of [d] in the slots from [i] to [i + n]. *)
Definition childs (m : gmap Z RDPDR_INODE) (d i n : Z) : list (list Z * Z) :=
  omap (fun j => match m !! j with Some x => if parent_inode x =? d then Some (name x, j) else None | None => None end) (seqZ i n).

Lemma childs_nil m d i : childs m d i 0 = [].
Proof. done. Qed.

Lemma childs_skip m d i n : 0 < n -> (forall x, m !! i = Some x -> parent_inode x <> d) -> childs m d i n = childs m d (i + 1) (n - 1).
Proof.
  intros Hn Hx. unfold childs. rewrite seqZ_cons by done. cbn. rewrite <- !Z.add_1_r, <- Z.sub_1_r. destruct (m !! i) as [x|] eqn:E; [|done].
  rewrite (proj2 (Z.eqb_neq _ _)) by auto. done.
Qed.

Lemma childs_cons m d i n x : 0 < n -> m !! i = Some x -> parent_inode x = d -> childs m d i n = (name x, i) :: childs m d (i + 1) (n - 1).
Proof. intros Hn Hx Hd. unfold childs. rewrite seqZ_cons by done. cbn. rewrite <- Z.add_1_r, <- Z.sub_1_r, Hx, Hd, Z.eqb_refl. done. Qed.

Lemma childs_app m d i n k : 0 <= n -> 0 <= k -> childs m d i (n + k) = childs m d i n ++ childs m d (i + n) k.
Proof. intros Hn Hk. unfold childs. rewrite seqZ_app by done. apply omap_app. Qed.

(** The entries are the children, each once. *)
Lemma childs_nodup m d i n : NoDup (childs m d i n).
Proof.
  unfold childs. induction (NoDup_seqZ i n) as [|j l Hj _ IH]; [constructor|]. cbn. destruct (m !! j) as [x|]; [|done].
  destruct (_ =? _); [|done]. constructor; [|done]. intros (k & Hk & E)%list_elem_of_omap. destruct (m !! k); [|done]. destruct (_ =? _); [|done].
  by injection E as _ ->.
Qed.

Lemma childs_spec s m d nm i : fs_repr s m -> tree m -> 1 <= d ->
  (nm, i) ∈ childs m d 1 (next_node s - 1) <-> exists x, m !! i = Some x /\ parent_inode x = d /\ name x = nm.
Proof.
  intros H T Hd. unfold childs. rewrite list_elem_of_omap. split.
  - intros (j & _ & E). destruct (m !! j) as [x|] eqn:Hx; [|done]. destruct (Z.eqb_spec (parent_inode x) d); [|done]. injection E as <- <-. by exists x.
  - intros (x & Hx & Hp & <-). exists i. rewrite Hx, Hp, Z.eqb_refl. split; [|done]. apply elem_of_seqZ. pose proof (r_dom _ _ H i ltac:(by eexists)).
    destruct (decide (i = 0)) as [->|]; [|lia]. apply parents_lookup in Hx. rewrite (t_zero _ T) in Hx. injection Hx. lia.
Qed.

(** The same entries, whatever [is_synced] is. *)
Definition synced (m m' : gmap Z RDPDR_INODE) : Prop :=
  forall j, m' !! j = m !! j \/ exists x, m !! j = Some x /\ m' !! j = Some (set_is_synced true x).

Lemma synced_refl m : synced m m.
Proof. by left. Qed.

Lemma synced_childs m m' d i n : synced m m' -> childs m' d i n = childs m d i n.
Proof.
  intros S. unfold childs. induction (seqZ i n) as [|j l IH]; [done|]. cbn. rewrite IH.
  destruct (S j) as [->|(x & -> & ->)]; done.
Qed.

Lemma synced_trans m1 m2 m3 : synced m1 m2 -> synced m2 m3 -> synced m1 m3.
Proof.
  intros S1 S2 j. destruct (S2 j) as [->|(x & Hx & ->)]; [apply S1|]. right.
  destruct (S1 j) as [E|(y & Hy & E)]; rewrite E in Hx; [eauto|]. injection Hx as <-. exists y. by split.
Qed.

Section Readdir.
Context (w : World).

(** What [fuse_add_direntry] promises about its size for the names of the
    table. *)
Definition direntry_ok : Prop := forall nm, (length nm < 256)%nat -> 0 < direntry w nm <= 1024.

(** A buffer after some entries. *)
Fixpoint fill (b : dirbuf1) (l : list (list Z * Z)) : dirbuf1 :=
  match l with
  | [] => b
  | (nm, ino) :: l => fill (snd (rdpdr_fuse_dirbuf1_add w b nm ino)) l
  end.

(** The entries [.] and [..] before the first one. *)
Definition with_dots (d up : Z) (first : bool) (l : list (list Z * Z)) : list (list Z * Z) :=
  if first then match l with [] => [] | _ => (dot, d) :: (dotdot, up) :: l end else l.

Lemma fill_app b l l' : fill b (l ++ l') = fill (fill b l) l'.
Proof. revert b. induction l as [|[nm ino] l IH]; intros b; [done|]. cbn. apply IH. Qed.

(** All entries of the list fit. *)
Fixpoint fits (b : dirbuf1) (l : list (list Z * Z)) : Prop :=
  match l with
  | [] => True
  | (nm, ino) :: l => fst b + direntry w nm <= 4096 /\ fits (snd (rdpdr_fuse_dirbuf1_add w b nm ino)) l
  end.

Lemma fits_app b l l' : fits b (l ++ l') <-> fits b l /\ fits (fill b l) l'.
Proof. revert b. induction l as [|[nm ino] l IH]; intros b; cbn; [tauto|]. rewrite IH. tauto. Qed.

Lemma add_fits b nm ino : (length nm < 256)%nat -> direntry_ok -> fst b + direntry w nm <= 4096 ->
  rdpdr_fuse_dirbuf1_add w b nm ino = (0, (fst b + direntry w nm, snd b ++ [(nm, ino, fst b + direntry w nm)])).
Proof.
  intros Hl Hd Hf. destruct b as [n e]. cbn [fst snd] in *. unfold rdpdr_fuse_dirbuf1_add. pose proof (Hd nm Hl).
  destruct (Z.ltb_spec 4096 (n + direntry w nm)); [lia|]. by destruct (Z.leb_spec (direntry w nm) (4096 - direntry w nm)); [|lia].
Qed.

Lemma add_full b nm ino : 4096 < fst b + direntry w nm -> rdpdr_fuse_dirbuf1_add w b nm ino = (-1, b).
Proof. intros H. destruct b as [n e]. cbn in *. by destruct (Z.ltb_spec 4096 (n + direntry w nm)); [|lia]. Qed.

(** The loop has stopped in slot [k]: at the end, or because the buffer is full. *)
Definition stopped (m : gmap Z RDPDR_INODE) (d n k : Z) (b : dirbuf1) : Prop :=
  k = n \/ k < n /\ exists x, m !! k = Some x /\ parent_inode x = d /\ 4096 < fst b + direntry w (name x).

(** [is_synced] is set. *)
Lemma fs_wp_sync s m i p x (Q : unit -> rdpdr_fs -> Prop) : fs_ok s m -> points s i p x ->
  (forall s' m', fs_ok s' m' -> later s s' -> synced m m' -> Q tt s') -> fs_wp (inode_modify p (set_is_synced true)) Q s.
Proof.
  intros [H T] Hp HQ. destruct (points_repr _ _ _ _ _ H Hp) as [Hx _]. eapply fs_wp_modify; [done..|]. intros s' H' L' _.
  apply (HQ s' (<[i := set_is_synced true x]> m)); [|done|].
  - split; [done|]. eapply tree_modify; [done..|]. exact (t_name _ T _ _ Hx).
  - intros j. destruct (decide (j = i)) as [->|]; [right; exists x; by rewrite lookup_insert_eq|left; by rewrite lookup_insert_ne].
Qed.

Lemma synced_stopped m m' d n k b : synced m m' -> stopped m' d n k b -> stopped m d n k b.
Proof.
  intros S [->|(Hk & x & Hx & Hp & Hf)]; [by left|]. right. split; [done|]. destruct (S k) as [E|(y & Hy & E)]; rewrite E in Hx; [eauto|].
  injection Hx as <-. exists y. done.
Qed.

Lemma readdir_rest n s m d i b (Q : unit + dirbuf1 * Z -> rdpdr_fs -> Prop) : fs_ok s m -> direntry_ok -> 1 <= d -> 1 <= i ->
  i + Z.of_nat n = next_node s ->
  (forall s' m' k, fs_ok s' m' -> later s s' -> synced m m' -> i <= k <= next_node s -> fits b (childs m d i (k - i)) ->
     stopped m d (next_node s) k (fill b (childs m d i (k - i))) -> Q (inr (fill b (childs m d i (k - i)), k)) s') ->
  fs_wp (readdir_loop w n d i false b) Q s.
Proof.
  intros H Hd Hd1. revert s m i b H. induction n as [|n IH]; intros s m i b H Hi Hn HQ; cbn [readdir_loop].
  { fs_step. replace i with (next_node s) by lia. specialize (HQ s m (next_node s)). replace (next_node s - i) with 0 in HQ by lia.
    apply HQ; [done|done|apply synced_refl|lia|done|by left]. }
  pose proof (r_next _ _ (proj1 H)). assert (forall x, m !! i = Some x -> parent_inode x = d -> fst b + direntry w (name x) <= 4096 ->
    forall s1 m1, fs_ok s1 m1 -> later s s1 -> synced m m1 ->
    fs_wp (readdir_loop w n d (i + 1) false (snd (rdpdr_fuse_dirbuf1_add w b (name x) i))) Q s1) as Hadd.
  { intros x Hx Hxd Hf s1 m1 H1 L1 S1. apply (IH s1 m1); [done|lia|rewrite (l_next _ _ L1); lia|].
    intros s2 m2 k H2 L2 S2 Hk Hf2 Hst. rewrite (l_next _ _ L1) in *. rewrite (synced_childs _ _ _ _ _ S1) in *.
    specialize (HQ s2 m2 k H2 (later_trans _ _ _ L1 L2) (synced_trans _ _ _ S1 S2) ltac:(lia)).
    rewrite (childs_cons _ _ _ _ x) in HQ by (lia || done). replace (k - i - 1) with (k - (i + 1)) in HQ by lia. cbn [fits fill] in HQ.
    apply HQ; [by split|]. by eapply synced_stopped. }
  assert ((forall x, m !! i = Some x -> parent_inode x <> d) -> fs_wp (readdir_loop w n d (i + 1) false b) Q s) as Hskip.
  { intros Hno. apply (IH s m); [done|lia|lia|]. intros s2 m2 k H2 L2 S2 Hk Hf2 Hst. specialize (HQ s2 m2 k H2 L2 S2 ltac:(lia)).
    rewrite (childs_skip _ _ i) in HQ by (lia || done). replace (k - i - 1) with (k - (i + 1)) in HQ by lia. by apply HQ. }
  fs_step. eapply fs_wp_table_at; [apply H|lia| |].
  - intros Hm _. apply Hskip. congruence.
  - intros p x Hx Hp. fs_step. eapply fs_wp_inode_at; [apply Hp|].
    destruct (Z.eqb_spec (parent_inode x) d) as [Hxd|Hxd]; cbn [negb]; [|apply Hskip; congruence].
    fs_step. eapply fs_wp_sync; [done..|]. intros s1 m1 H1 L1 S1. do 2 fs_step. rewrite (inode_id _ _ _ _ (proj1 H) Hx).
    destruct (decide (fst b + direntry w (name x) <= 4096)) as [Hf|Hf].
    + specialize (Hadd x Hx Hxd Hf s1 m1 H1 L1 S1). rewrite add_fits in * by (done || exact (t_name _ (proj2 H) _ _ Hx)). exact Hadd.
    + rewrite add_full by lia. cbn [negb Z.eqb]. fs_step. specialize (HQ s1 m1 i H1 L1 S1 ltac:(lia)). rewrite Z.sub_diag, childs_nil in HQ.
      apply HQ; [done|]. right. split; [lia|]. exists x. split; [done|]. split; [done|]. cbn [fill]. lia.
Qed.

(** The first call: [.] and [..] come before the first entry. *)
Lemma readdir_first n s m d y i (Q : unit + dirbuf1 * Z -> rdpdr_fs -> Prop) : fs_ok s m -> direntry_ok -> 1 <= d ->
  m !! d = Some y -> 1 <= i -> i + Z.of_nat n = next_node s ->
  (forall s' m' k, fs_ok s' m' -> later s s' -> synced m m' -> i <= k <= next_node s ->
     let l := with_dots d (parent_inode y) true (childs m d i (k - i)) in
     fits (0, []) l -> stopped m d (next_node s) k (fill (0, []) l) -> Q (inr (fill (0, []) l, k)) s') ->
  fs_wp (readdir_loop w n d i true (0, [])) Q s.
Proof.
  intros H Hd Hd1 Hy. revert i. induction n as [|n IH]; intros i Hi Hn HQ; cbn [readdir_loop].
  { fs_step. replace i with (next_node s) by lia. specialize (HQ s m (next_node s)). replace (next_node s - i) with 0 in HQ by lia.
    apply HQ; [done|done|apply synced_refl|lia|done|by left]. }
  pose proof (r_next _ _ (proj1 H)).
  assert ((forall x, m !! i = Some x -> parent_inode x <> d) -> fs_wp (readdir_loop w n d (i + 1) true (0, [])) Q s) as Hskip.
  { intros Hno. apply IH; [lia|lia|]. intros s2 m2 k H2 L2 S2 Hk l Hf2 Hst. subst l. specialize (HQ s2 m2 k H2 L2 S2 ltac:(lia)).
    rewrite (childs_skip _ _ i) in HQ by (lia || done). replace (k - i - 1) with (k - (i + 1)) in HQ by lia. by apply HQ. }
  fs_step. eapply fs_wp_table_at; [apply H|lia| |].
  - intros Hm _. apply Hskip. congruence.
  - intros p x Hx Hp. fs_step. eapply fs_wp_inode_at; [apply Hp|].
    destruct (Z.eqb_spec (parent_inode x) d) as [Hxd|Hxd]; cbn [negb]; [|apply Hskip; congruence].
    fs_step. eapply fs_wp_sync; [done..|]. intros s1 m1 H1 L1 S1. do 2 fs_step.
    assert (exists y', m1 !! d = Some y' /\ parent_inode y' = parent_inode y) as (y' & Hy' & Ey).
    { destruct (S1 d) as [E|(z & Hz & E)]; rewrite E; [eauto|]. rewrite Hy in Hz. injection Hz as <-. eauto. }
    pose proof (r_dom _ _ (proj1 H1) d ltac:(by eexists)) as B1. pose proof (r_next _ _ (proj1 H1)) as B2.
    eapply fs_wp_table_at; [apply H1|lia|congruence|]. intros q z Hz Hq. assert (z = y') as -> by congruence.
    fs_step. eapply fs_wp_inode_at; [apply Hq|]. fs_step. rewrite Ey, (inode_id _ _ _ _ (proj1 H) Hx).
    set (b := snd (rdpdr_fuse_dirbuf1_add w (snd (rdpdr_fuse_dirbuf1_add w (0, []) dot d)) dotdot (parent_inode y))).
    pose proof (Hd dot ltac:(cbn; lia)) as D1. pose proof (Hd dotdot ltac:(cbn; lia)) as D2. pose proof (Hd (name x) (t_name _ (proj2 H) _ _ Hx)) as D3.
    assert (fst b = direntry w dot + direntry w dotdot) as Eb.
    { unfold b. rewrite (add_fits (0, [])) by (done || (cbn [fst snd]; lia) || (cbn; lia)). cbn [snd].
      rewrite add_fits by (done || (cbn [fst snd]; lia) || (cbn; lia)). cbn [fst snd]. lia. }
    rewrite add_fits by (done || lia || exact (t_name _ (proj2 H) _ _ Hx)). cbn [negb Z.eqb]. eapply (readdir_rest n s1 m1); [done..|lia|rewrite (l_next _ _ L1); lia|].
    intros s2 m2 k H2 L2 S2 Hk Hf2 Hst. rewrite (l_next _ _ L1) in *. rewrite (synced_childs _ _ _ _ _ S1) in *.
    specialize (HQ s2 m2 k H2 (later_trans _ _ _ L1 L2) (synced_trans _ _ _ S1 S2) ltac:(lia)). cbn beta zeta in HQ.
    rewrite (childs_cons _ _ _ _ x) in HQ by (lia || done). replace (k - i - 1) with (k - (i + 1)) in HQ by lia.
    cbn [with_dots fits fill] in HQ. fold b in HQ. rewrite (add_fits b) in HQ by (done || lia || exact (t_name _ (proj2 H) _ _ Hx)). cbn [snd] in HQ.
    apply HQ; [|by eapply synced_stopped]. split; [cbn [fst]; lia|]. rewrite (add_fits (0, [])) by (done || (cbn [fst snd]; lia) || (cbn; lia)). cbn [snd fst].
    split; [lia|]. split; [|done]. fold b. lia.
Qed.

End Readdir.
