(* ===== verification/FuseInvariant.v ===== *)
(** * The redirected drives: the invariant of the callbacks

    [fuse_ok s m]: the inode table is the tree [m], and the records of the
    commands under way and of the queue refer to inodes that the completions
    can handle.  [fuse_wp] also says that a callback is defined. *)

From S2P Require Import Prelude FuseTypes FuseTable FuseCallbacks FuseHandlers FuseRun FuseRepr FuseTree FuseOps FuseSync FuseRequests FuseReaddir.
From stdpp Require Import gmap list.
#[local] Open Scope Z_scope.

Definition fuse_wp {A} (c : FuseM A) (Q : A -> fuse -> Prop) (s : fuse) : Prop :=
  match c s with Some (a, s') => Q a s' | None => False end.

Lemma wp_bind {A B} (c : FuseM A) (k : A -> FuseM B) Q s :
  fuse_wp c (fun a s' => fuse_wp (k a) Q s') s -> fuse_wp (c ≫= k) Q s.
Proof. unfold fuse_wp, mbind, FuseM_bind. by destruct (c s) as [[a s']|]. Qed.
Lemma wp_ret {A} (a : A) (Q : A -> fuse -> Prop) s : Q a s -> fuse_wp (mret a) Q s.
Proof. done. Qed.
Lemma wp_skip (Q : unit -> fuse -> Prop) s : Q tt s -> fuse_wp skip Q s.
Proof. done. Qed.
Lemma wp_asks {A} (f : fuse -> A) (Q : A -> fuse -> Prop) s : Q (f s) s -> fuse_wp (asks f) Q s.
Proof. done. Qed.
Lemma wp_update f (Q : unit -> fuse -> Prop) s : Q tt (f s) -> fuse_wp (update f) Q s.
Proof. done. Qed.
Lemma wp_answer r a (Q : unit -> fuse -> Prop) s : Q tt (set_events (e_reply r a :: events s) s) -> fuse_wp (answer r a) Q s.
Proof. done. Qed.
Lemma wp_clip a b c d (Q : unit -> fuse -> Prop) s : Q tt (set_events (e_clip a b c d :: events s) s) ->
  fuse_wp (clipboard_request_file_data a b c d) Q s.
Proof. done. Qed.
Lemma wp_in_fs {A} (c : FsM A) (Q : A -> fuse -> Prop) s : fs_wp c (fun a f => Q a (set_fs f s)) (fs s) -> fuse_wp (in_fs c) Q s.
Proof. unfold fuse_wp, fs_wp, in_fs. by destruct (c (fs s)) as [[a f]|]. Qed.
Lemma wp_opt {A} (o : option A) a (Q : A -> fuse -> Prop) s : o = Some a -> Q a s -> fuse_wp (opt o) Q s.
Proof. by intros ->. Qed.
Lemma wp_deref {V} (f : fuse -> gmap nat V) p v (Q : V -> fuse -> Prop) s : f s !! p = Some v -> Q v s -> fuse_wp (deref f p) Q s.
Proof. intros H HQ. unfold fuse_wp, deref. by rewrite H. Qed.
Lemma wp_new_ptr w (Q : option nat -> fuse -> Prop) s :
  (calloc w (next_ptr s) = true -> Q (Some (next_ptr s)) (set_next_ptr (S (next_ptr s)) s)) ->
  (calloc w (next_ptr s) = false -> Q None (set_next_ptr (S (next_ptr s)) s)) -> fuse_wp (new_ptr w) Q s.
Proof. intros H1 H2. unfold fuse_wp, new_ptr. destruct (calloc w (next_ptr s)); auto. Qed.
Lemma wp_drive w fip d c (Q : bool -> fuse -> Prop) s :
  let s' := set_events (e_drive fip d c :: events s) s in
  Q true (set_irps (<[fip := c]> (irps s)) s') -> Q false s' -> fuse_wp (drive w fip d c) Q s.
Proof. intros s' H1 H2. unfold fuse_wp, drive. destruct (accepts w (length (events s))); auto. Qed.
Lemma wp_set_fh f v (Q : unit -> fuse -> Prop) s : is_Some (files s !! f) ->
  (forall y, Q tt (set_files (<[f := y]> (files s)) s)) -> fuse_wp (set_fh f v) Q s.
Proof. intros [x Hx] HQ. unfold set_fh. apply wp_bind. apply (wp_deref _ _ x); [done|]. apply wp_update, HQ. Qed.
Lemma wp_mono {A} (c : FuseM A) (Q Q' : A -> fuse -> Prop) s : (forall a s', Q a s' -> Q' a s') -> fuse_wp c Q s -> fuse_wp c Q' s.
Proof. unfold fuse_wp. destruct (c s) as [[a s']|]; auto. Qed.

(** What total and partial reasoning say together. *)
Lemma wp_wlp {A} (c : FuseM A) (P Q : A -> fuse -> Prop) s : fuse_wp c P s -> fuse_wlp c Q s -> fuse_wp c (fun a s' => P a s' /\ Q a s') s.
Proof. unfold fuse_wp, fuse_wlp. by destruct (c s) as [[a s']|]. Qed.

Ltac wp_step :=
  lazymatch goal with
  | |- fuse_wp (mbind _ _) _ _ => apply wp_bind
  | |- fuse_wp (mret _) _ _ => apply wp_ret
  | |- fuse_wp skip _ _ => apply wp_skip
  | |- fuse_wp (asks _) _ _ => apply wp_asks
  | |- fuse_wp (update _) _ _ => apply wp_update
  | |- fuse_wp (answer _ _) _ _ => apply wp_answer
  | |- fuse_wp (clipboard_request_file_data _ _ _ _) _ _ => apply wp_clip
  | |- fuse_wp (in_fs _) _ _ => apply wp_in_fs; fuse_cbn
  end.
Ltac wp_steps := repeat wp_step.

(** ** The invariant *)

Definition dir_if_live (m : gmap Z RDPDR_INODE) (i : Z) : Prop := forall y, m !! i = Some y -> is_dir y = true.

(** The commands whose completions write to the [fuse_file_info]. *)
Definition opening (c : command) : bool := match c with DriveQueryDirectory _ | DriveOpenFile _ _ _ => true | _ => false end.

Definition open_file (fl : gmap nat fuse_file_info) (c : command) (f : option nat) : Prop :=
  forall k, f = Some k -> opening c = true -> is_Some (fl !! k).

(** What the completion of the command [c] needs; [n] is the next inode number. *)
Definition pend_ok (n : Z) (m : gmap Z RDPDR_INODE) (fl : gmap nat fuse_file_info) (c : command) (x : RDPDR_FUSE_INFO) : Prop :=
  open_file fl c (fi x) /\
  match c with
  | DriveQueryDirectory _ => 2 <= info_inode x < n /\ dir_if_live m (info_inode x) /\ is_Some (fi x)
  | DriveOpenFile _ _ _ => 0 <= info_inode x < n /\
      (reply_type x = RT_FUSE_REPLY_OPEN -> is_Some (fi x)) /\
      (reply_type x = RT_FUSE_REPLY_CREATE -> 2 <= info_inode x /\ dir_if_live m (info_inode x) /\
         (length (info_name x) < 256)%nat /\ info_mode x = S_IFREG)
  | DriveWriteFile _ _ _ | DriveCloseFile _ => 0 <= info_inode x < n
  | DriveDeleteDirectory _ | DriveDeleteFile _ => 2 <= info_inode x < n
  | DriveRenameFile _ _ => 2 <= info_inode x < n /\ 2 <= new_inode_ x < n /\ dir_if_live m (new_inode_ x) /\ (length (new_name x) < 256)%nat
  | _ => True
  end.

Definition queue_ok (n : Z) (m : gmap Z RDPDR_INODE) (fl : gmap nat fuse_file_info) (od : opendir_req) : Prop :=
  0 <= od_ino od < n /\ dir_if_live m (od_ino od) /\ is_Some (fl !! od_fi od).

Record rest_ok (n : Z) (m : gmap Z RDPDR_INODE) (s : fuse) : Prop := {
  o_pend p c x : irps s !! p = Some c -> infos s !! p = Some x -> pend_ok n m (files s) c x;
  o_queue od : od ∈ g_opendir_queue s -> queue_ok n m (files s) od;
}.

(** The positions in open directories are slots of the table. *)
Definition dirs_ok (n : Z) (s : fuse) : Prop := forall di k, dirs s !! di = Some k -> 1 <= k <= n.

Record fuse_ok (s : fuse) (m : gmap Z RDPDR_INODE) : Prop := {
  o_fs : fs_ok (fs s) m;
  o_links : links s;
  o_rest : rest_ok (next_node (fs s)) m s;
  o_dirs : dirs_ok (next_node (fs s)) s;
}.

(** From the map [m] to a later map: no inode number is used again, and the type
    of an inode does not change. *)
Record evolves (n : Z) (m : gmap Z RDPDR_INODE) (n' : Z) (m' : gmap Z RDPDR_INODE) : Prop := {
  e_next : n <= n';
  e_type i x' : m' !! i = Some x' -> i < n -> exists x, m !! i = Some x /\ is_dir x' = is_dir x;
}.

Lemma evolves_refl n m : evolves n m n m.
Proof. split; [lia|]. eauto. Qed.

Lemma evolves_trans n1 m1 n2 m2 n3 m3 : evolves n1 m1 n2 m2 -> evolves n2 m2 n3 m3 -> evolves n1 m1 n3 m3.
Proof.
  intros [N1 T1] [N2 T2]. split; [lia|]. intros i x H Hi. destruct (T2 _ _ H ltac:(lia)) as (y & Hy & E2).
  destruct (T1 _ _ Hy Hi) as (z & Hz & E1). exists z. split; [done|congruence].
Qed.

Lemma evolves_dir n m n' m' i : evolves n m n' m' -> i < n -> dir_if_live m i -> dir_if_live m' i.
Proof. intros [_ T] Hi Hd y Hy. destruct (T _ _ Hy Hi) as (x & Hx & ->). by apply Hd. Qed.

Lemma pend_evolves n m n' m' fl fl' c x : evolves n m n' m' -> (forall f, is_Some (fl !! f) -> is_Some (fl' !! f)) ->
  pend_ok n m fl c x -> pend_ok n' m' fl' c x.
Proof.
  intros E F [Ho H]. pose proof (e_next _ _ _ _ E). split; [intros k Hk; auto|].
  destruct c; try done; try lia.
  - destruct H as (? & ? & ?). split; [lia|]. split; [|done]. eapply evolves_dir; [done|lia|done].
  - destruct H as (? & ? & Hc). split; [lia|]. split; [done|]. intros Hr. destruct (Hc Hr) as (? & ? & ? & ?).
    split; [done|]. split; [|done]. eapply evolves_dir; [done|lia|done].
  - destruct H as (? & ? & ? & ?). split; [lia|]. split; [lia|]. split; [|done]. eapply evolves_dir; [done|lia|done].
Qed.

Lemma queue_evolves n m n' m' fl fl' od : evolves n m n' m' -> (forall f, is_Some (fl !! f) -> is_Some (fl' !! f)) ->
  queue_ok n m fl od -> queue_ok n' m' fl' od.
Proof.
  intros E F (H1 & H2 & H3). pose proof (e_next _ _ _ _ E). split; [lia|]. split; [|auto]. eapply evolves_dir; [done|lia|done].
Qed.

(** The files of [s] are files of [s']. *)
Definition more_files (s s' : fuse) : Prop := forall f, is_Some (files s !! f) -> is_Some (files s' !! f).

Lemma rest_frame n m n' m' s s' : rest_ok n m s -> evolves n m n' m' -> more_files s s' -> irps s' = irps s -> infos s' = infos s ->
  (forall od, od ∈ g_opendir_queue s' -> od ∈ g_opendir_queue s) -> rest_ok n' m' s'.
Proof.
  intros [P Q] E F Hc Hi Hq. split.
  - intros p c x. rewrite Hc, Hi. intros H1 H2. by eapply pend_evolves; [| |apply (P p c x)].
  - intros od Hod%Hq. eapply queue_evolves; eauto.
Qed.

(** A new record, for a command that is under way or not. *)
Lemma rest_send n m n' m' s s' x c : rest_ok n m s -> links s -> evolves n m n' m' -> more_files s s' ->
  infos s' = <[next_ptr s := x]> (infos s) -> irps s' = <[next_ptr s := c]> (irps s) \/ irps s' = irps s ->
  (forall od, od ∈ g_opendir_queue s' -> od ∈ g_opendir_queue s) -> pend_ok n' m' (files s') c x -> rest_ok n' m' s'.
Proof.
  intros [P Q] K E F Hi Hc Hq Hx. pose proof (links_fresh _ K) as Hf. split.
  - intros p c' x' Hp Hx'. rewrite Hi in Hx'. destruct (decide (p = next_ptr s)) as [->|Hne].
    + rewrite lookup_insert_eq in Hx'. injection Hx' as <-. destruct Hc as [Hc|Hc]; rewrite Hc in Hp; [|congruence].
      rewrite lookup_insert_eq in Hp. by injection Hp as <-.
    + rewrite lookup_insert_ne in Hx' by done. destruct Hc as [Hc|Hc]; rewrite Hc in Hp; [rewrite lookup_insert_ne in Hp by done|];
        (eapply pend_evolves; [done|done|by apply (P p)]).
  - intros od Hod%Hq. eapply queue_evolves; eauto.
Qed.

(** A record that is freed and has no command under way. *)
Lemma rest_free n m n' m' s s' fip : rest_ok n m s -> irps s !! fip = None -> evolves n m n' m' -> more_files s s' ->
  infos s' = delete fip (infos s) \/ infos s' = infos s -> irps s' = irps s ->
  (forall od, od ∈ g_opendir_queue s' -> od ∈ g_opendir_queue s) -> rest_ok n' m' s'.
Proof.
  intros [P Q] Hf E F Hi Hc Hq. split.
  - intros p c x Hp Hx. rewrite Hc in Hp. assert (p <> fip) by congruence. eapply pend_evolves; [done|done|apply (P p c x Hp)].
    destruct Hi as [Hi|Hi]; rewrite Hi in Hx; [by rewrite lookup_delete_ne in Hx|done].
  - intros od Hod%Hq. eapply queue_evolves; eauto.
Qed.

(** ** Evolution under the operations of the table *)

Lemma evolves_store n m i x y : m !! i = Some x -> is_dir y = is_dir x -> evolves n m n (<[i := y]> m).
Proof. intros Hx E. split; [lia|]. intros j z. rewrite lookup_insert_Some. intros [[<- <-]|[_ ?]] _; eauto. Qed.

Lemma evolves_unlink n m i x : parent_inode x <> i -> evolves n m n (unlink i x m).
Proof.
  intros Hne. split; [lia|]. intros j z Hz _. rewrite lookup_unlink in Hz by done. destruct (decide (j = i)); [done|].
  destruct (decide (j = parent_inode x)); [|eauto]. apply fmap_Some in Hz as (y & Hy & ->). by exists y.
Qed.

Lemma evolves_mark n m d : evolves n m n (mark d <$> m).
Proof.
  split; [lia|]. intros j z Hz _. rewrite lookup_fmap in Hz. apply fmap_Some in Hz as (y & Hy & ->). exists y. split; [done|].
  unfold mark. by destruct (_ =? _).
Qed.

Lemma evolves_swept n m d xd mk : m !! d = Some xd -> swept m d mk -> evolves n m n mk.
Proof.
  intros Hd P. split; [lia|]. intros j z Hz _. destruct (decide (j = d)) as [->|Hne].
  - destruct (sw_self _ _ _ P _ Hd) as [k Hk]. rewrite Hz in Hk. injection Hk as ->. by exists xd.
  - destruct (sw_rest _ _ _ P j Hne) as [E|[E _]]; [|congruence]. exists z. by rewrite <- E.
Qed.

Lemma evolves_created w s m d x s' y : fs_repr s m -> m !! d = Some y -> created w s m d x s' ->
  evolves (next_node s) m (next_node s') (<[d := entries_up y]> (<[next_node s := x]> m)).
Proof.
  intros H Hy (y' & Hy' & _ & Hn & _). split; [lia|]. intros i z. rewrite !lookup_insert_Some.
  intros [[<- <-]|[_ [[<- <-]|[_ Hz]]]] Hi; [by exists y|lia|by exists z].
Qed.

(** ** Paths that fit the buffers *)

Definition short (m : gmap Z RDPDR_INODE) : Prop := forall i l dev, 2 <= i -> path_to m i l dev ->
  Forall plain l /\ Z.of_nat (length (slashed l)) + 257 < 1024.

Lemma fs_wp_path s m i size buf (Q : Z * list Z -> rdpdr_fs -> Prop) : fs_ok s m -> short m -> 2 <= i < 2 ^ 31 -> is_Some (m !! i) ->
  1024 <= size <= 4096 -> (forall dev path, Z.of_nat (length path) + 257 < 1024 -> Q (dev, path) s) ->
  fs_wp (rdpdr_fuse_get_device_id_for_inode i size buf) Q s.
Proof.
  intros [H T] Hs Hi Hl Hsz HQ. destruct (t_rooted _ T i ltac:(lia) Hl) as [n Hr]. destruct (tree_path _ _ _ T Hr) as (l & dev & Hp).
  destruct (Hs i l dev ltac:(lia) Hp) as [Hpl Hlen]. eapply device_path_spec; [done..|int_lia|lia|done|lia|lia|]. by apply HQ.
Qed.

(** A path of a map whose inodes have the same parents and names. *)
Lemma path_sub m m' i l dev : (forall j x', m' !! j = Some x' -> exists x, m !! j = Some x /\ parent_inode x = parent_inode x' /\
    name x = name x' /\ device_id x = device_id x') -> path_to m' i l dev -> path_to m i l dev.
Proof.
  intros E. induction 1 as [i x Hx Hp|i x l dev Hx Hp Hl IH]; destruct (E _ _ Hx) as (y & Hy & Ep & En & Ed); rewrite <- En.
  - rewrite <- Ed. apply path_share; [done|congruence].
  - apply path_in; [done|congruence|]. by rewrite Ep.
Qed.

Lemma short_sub m m' : (forall j x', m' !! j = Some x' -> exists x, m !! j = Some x /\ parent_inode x = parent_inode x' /\
    name x = name x' /\ device_id x = device_id x') -> short m -> short m'.
Proof. intros E Hs i l dev Hi Hp. apply (Hs i l dev Hi). by eapply path_sub. Qed.

Lemma short_mark d m : short m -> short (mark d <$> m).
Proof.
  apply short_sub. intros j x' Hx. rewrite lookup_fmap in Hx. apply fmap_Some in Hx as (y & Hy & ->). exists y. split; [done|].
  unfold mark. by destruct (_ =? _).
Qed.

Lemma short_swept m d xd mk : m !! d = Some xd -> swept m d mk -> short m -> short mk.
Proof.
  intros Hd P. apply short_sub. intros j z Hz. destruct (decide (j = d)) as [->|Hne].
  - destruct (sw_self _ _ _ P _ Hd) as [k Hk]. rewrite Hz in Hk. injection Hk as ->. by exists xd.
  - destruct (sw_rest _ _ _ P j Hne) as [E|[E _]]; [|congruence]. exists z. by rewrite <- E.
Qed.

(** ** The callbacks of FUSE *)

(** The state after a callback, except for [links]. *)
Definition good (s : fuse) : Prop :=
  exists m, fs_ok (fs s) m /\ rest_ok (next_node (fs s)) m s /\ dirs_ok (next_node (fs s)) s.

Definition old_dirs (s s' : fuse) : Prop := forall di k, dirs s' !! di = Some k -> dirs s !! di = Some k \/ 1 <= k <= next_node (fs s').

Lemma dirs_evolve n s s' : dirs_ok n s -> n <= next_node (fs s') -> old_dirs s s' -> dirs_ok (next_node (fs s')) s'.
Proof. intros D Hn O di k [Hk|Hk]%O; [|done]. apply D in Hk. lia. Qed.

Lemma good_frame s m s' m' : fuse_ok s m -> fs_ok (fs s') m' -> evolves (next_node (fs s)) m (next_node (fs s')) m' ->
  more_files s s' -> irps s' = irps s -> infos s' = infos s -> (forall od, od ∈ g_opendir_queue s' -> od ∈ g_opendir_queue s) ->
  old_dirs s s' -> good s'.
Proof.
  intros [_ _ R D] H E F Hc Hi Hq Hd. exists m'. split; [done|]. split; [by eapply rest_frame|]. eapply dirs_evolve; [done|apply E|done].
Qed.

Lemma good_same s m s' : fuse_ok s m -> fs s' = fs s -> more_files s s' -> irps s' = irps s -> infos s' = infos s ->
  (forall od, od ∈ g_opendir_queue s' -> od ∈ g_opendir_queue s) -> old_dirs s s' -> good s'.
Proof.
  intros O E F Hc Hi Hq Hd. eapply (good_frame s m s' m); [done|rewrite E; apply O|rewrite E; apply evolves_refl|done..].
Qed.

Lemma good_send s m s' x c : fuse_ok s m -> fs s' = fs s -> more_files s s' -> infos s' = <[next_ptr s := x]> (infos s) ->
  irps s' = <[next_ptr s := c]> (irps s) \/ irps s' = irps s -> (forall od, od ∈ g_opendir_queue s' -> od ∈ g_opendir_queue s) ->
  old_dirs s s' -> pend_ok (next_node (fs s)) m (files s') c x -> good s'.
Proof.
  intros [H K R D] E F Hi Hc Hq Hd Hx. exists m. rewrite E. split; [done|]. split; [eapply rest_send; eauto using evolves_refl|].
  rewrite <- E. eapply dirs_evolve; [done|by rewrite E|done].
Qed.

Lemma good_refused s m s' x : fuse_ok s m -> fs s' = fs s -> more_files s s' -> infos s' = delete (next_ptr s) (<[next_ptr s := x]> (infos s)) ->
  irps s' = irps s -> (forall od, od ∈ g_opendir_queue s' -> od ∈ g_opendir_queue s) -> old_dirs s s' -> good s'.
Proof.
  intros O E F Hi Hc Hq Hd. pose proof (o_links _ _ O) as K. assert (infos s !! next_ptr s = None) as Hn.
  { destruct (infos s !! next_ptr s) eqn:Es; [|done]. pose proof (k_infos _ K _ ltac:(by eexists)). lia. }
  eapply (good_same s m); [done..| |done|done]. rewrite Hi. by rewrite delete_insert_id.
Qed.

Ltac side := fuse_cbn; first [done | lia | intros ? ?; done | intros ? ? ?; by left | by left | by right | auto].
Ltac same := eapply good_same; [eassumption|side..].

Lemma valid_live (m : gmap Z RDPDR_INODE) ino : 0 <= ino < 2 ^ 31 -> 1 <= i32 ino /\ is_Some (m !! i32 ino) <-> 1 <= ino /\ is_Some (m !! ino).
Proof. intros H. by rewrite i32_id by int_lia. Qed.

Section Callbacks.
Context (w : World).

(** The test at the start of most callbacks. *)
Lemma wp_valid {B} s m ino (k : bool -> FuseM B) (Q : B -> fuse -> Prop) : fuse_ok s m -> 0 <= ino < 2 ^ 31 ->
  (1 <= ino -> is_Some (m !! ino) -> fuse_wp (k true) Q (set_fs (fs s) s)) -> fuse_wp (k false) Q (set_fs (fs s) s) ->
  fuse_wp (v ← in_fs (rdpdr_fuse_is_inode_valid ino); k v) Q s.
Proof.
  intros [[H T] _ _ _] Hi HT HF. wp_steps. eapply fs_wp_valid; [exact H|]. intros b Hb. rewrite valid_live in Hb by done.
  destruct b; [|done]. destruct (proj1 Hb eq_refl). auto.
Qed.

Lemma lookup_good r parent nm s m : fuse_ok s m -> 0 <= parent < 2 ^ 31 -> fuse_wp (rdpdr_fuse_cb_lookup r parent nm) (fun _ => good) s.
Proof.
  intros O Hi. unfold rdpdr_fuse_cb_lookup. apply (wp_valid s m); [done..| |cbn [negb]; wp_steps; same].
  intros _ _. cbn [negb]. wp_steps. destruct (o_fs _ _ O) as [H T]. eapply fs_wp_get_rinode; [exact H|int_lia| |].
  - intros i x p _ Hp. wp_steps. eapply fs_wp_inode_at; [apply Hp|]. wp_steps. same.
  - intros _. wp_steps. same.
Qed.

(** The slot of an inode that is in range. *)
Lemma wp_slot {B} s m ino (k : option nat -> FuseM B) (Q : B -> fuse -> Prop) : fuse_ok s m -> 0 <= ino < next_node (fs s) ->
  (m !! ino = None -> fuse_wp (k None) Q (set_fs (fs s) s)) ->
  (forall p x, m !! ino = Some x -> points (fs s) ino p x -> fuse_wp (k (Some p)) Q (set_fs (fs s) s)) ->
  fuse_wp (slot ← in_fs (table_at ino); k slot) Q s.
Proof.
  intros [[H T] _ _ _] Hi HN HS. wp_steps. pose proof (r_next _ _ H). eapply fs_wp_table_at; [exact H|lia| |].
  - intros Hm _. by apply HN.
  - intros p x Hx Hp. by eapply HS.
Qed.

Lemma live_range s m i : fuse_ok s m -> is_Some (m !! i) -> 0 <= i < next_node (fs s).
Proof. intros [[H _] _ _ _] Hi. by apply (r_dom _ _ H). Qed.

Lemma ok_set_fs s m : fuse_ok s m -> fuse_ok (set_fs (fs s) s) m.
Proof. by destruct s. Qed.

Lemma getattr_good r ino s m : fuse_ok s m -> 0 <= ino < 2 ^ 31 -> fuse_wp (rdpdr_fuse_cb_getattr r ino) (fun _ => good) s.
Proof.
  intros O Hi. unfold rdpdr_fuse_cb_getattr. apply (wp_valid s m); [done..| |cbn [negb]; wp_steps; same].
  intros _ Hl. cbn [negb]. apply ok_set_fs in O. eapply wp_slot; [done|by eapply live_range| |].
  - intros _. wp_steps. same.
  - intros p x Hx Hp. wp_steps. eapply fs_wp_inode_at; [apply Hp|]. wp_steps. same.
Qed.

Lemma setattr_fields to_set a x : inode (setattr to_set a x) = inode x /\ parent_inode (setattr to_set a x) = parent_inode x /\
  nentries (setattr to_set a x) = nentries x /\ name (setattr to_set a x) = name x.
Proof. unfold setattr. repeat destruct (has to_set _); done. Qed.

Lemma setattr_good r ino a to_set s m : fuse_ok s m -> 0 <= ino < 2 ^ 31 ->
  (forall x, m !! ino = Some x -> is_dir (setattr to_set a x) = is_dir x /\ is_reg (setattr to_set a x) = is_reg x) ->
  fuse_wp (rdpdr_fuse_cb_setattr r ino a to_set) (fun _ => good) s.
Proof.
  intros O Hi Hty. unfold rdpdr_fuse_cb_setattr. apply (wp_valid s m); [done..| |cbn [negb]; wp_steps; same].
  intros _ Hl. cbn [negb]. apply ok_set_fs in O. eapply wp_slot; [done|by eapply live_range| |].
  - intros _. wp_steps. same.
  - intros p x Hx Hp. destruct (setattr_fields to_set a x) as (E1 & E2 & E3 & E4). destruct (Hty x Hx) as [E5 E6].
    destruct (o_fs _ _ O) as [H T]. wp_steps. eapply fs_wp_modify; [exact H|done..|]. intros f' H' L' Hp'.
    wp_steps. eapply fs_wp_inode_at; [apply Hp'|]. wp_steps. eapply (good_frame _ m); [exact O| |fuse_cbn|side..].
    + split; [exact H'|]. eapply tree_modify; [done..|]. rewrite E4. exact (t_name _ T _ _ Hx).
    + rewrite (l_next _ _ L'). by eapply evolves_store.
Qed.

Lemma synced_evolves n m m' : synced m m' -> evolves n m n m'.
Proof. intros S. split; [lia|]. intros i x Hx _. destruct (S i) as [E|(y & Hy & E)]; rewrite E in Hx; [eauto|]. injection Hx as <-. by exists y. Qed.

Lemma readdir_good r ino f y s m : fuse_ok s m -> direntry_ok w -> 0 <= ino < 2 ^ 31 -> files s !! f = Some y ->
  (file_fh y = fh_null \/ exists di, file_fh y = fh_dir di /\ is_Some (dirs s !! di)) ->
  fuse_wp (rdpdr_fuse_cb_readdir w r ino f) (fun _ => good) s.
Proof.
  intros O Hde Hi Hf Hfh. unfold rdpdr_fuse_cb_readdir. apply (wp_valid s m); [done..| |cbn [negb]; wp_steps; same].
  intros Hi1 [yd Hyd]. cbn [negb]. apply ok_set_fs in O. wp_step. eapply wp_deref; [exact Hf|].
  destruct Hfh as [-> |(di & -> & [k Hk])]; [wp_steps; same|]. wp_step. eapply wp_deref; [exact Hk|].
  destruct (o_fs _ _ O) as [H T]. pose proof (o_dirs _ _ O di k Hk) as Hkr. wp_step. wp_steps. fs_step. wp_steps. rewrite (r_num _ _ H). fuse_cbn.
  assert (forall (b : dirbuf1) k' f' m', fs_ok f' m' -> later (fs s) f' -> synced m m' -> k <= k' <= next_node (fs s) ->
    fuse_wp (let '(bytes_in_buf, entries, index) := (b, k') in
       _ ← update (fun s => set_dirs (<[di := index]> (dirs s)) s);
       if bytes_in_buf =? 0 then answer r (reply_buf []) else answer r (reply_dir entries)) (fun _ => good) (set_fs f' (set_fs (fs s) (set_fs (fs s) s)))) as Hend.
  { intros [nb e] k' f' m' Hok L S Hk'. wp_steps.
    assert (good (set_dirs (<[di := k']> (dirs s)) (set_fs f' s))) as G.
    { eapply (good_frame _ m _ m'); [exact O|done|fuse_cbn; rewrite (l_next _ _ L); by apply synced_evolves|side..|].
      intros d' j. fuse_cbn. rewrite lookup_insert_Some. intros [[_ <-]|[_ ?]]; [right; rewrite (l_next _ _ L); lia|by left]. }
    destruct (nb =? 0); wp_steps; destruct G as (m0 & G1 & G2 & G3); exists m0; fuse_cbn; (split; [done|split; [by destruct G2|done]]). }
  destruct (Z.eqb_spec k FIRST_INODE) as [->|Hne].
  - eapply readdir_first; [by split|done|done|exact Hyd|unfold FIRST_INODE; lia|lia|]. intros s' m' k' Hok L S Hk' l Hfi Hst.
    apply (Hend _ k' s' m'); done.
  - eapply readdir_rest; [by split|done|done|lia|lia|]. intros s' m' k' Hok L S Hk' Hfi Hst. apply (Hend _ k' s' m'); done.
Qed.

Lemma releasedir_good r ino f y s m : fuse_ok s m -> files s !! f = Some y ->
  (file_fh y = fh_null \/ exists di, file_fh y = fh_dir di /\ is_Some (dirs s !! di)) ->
  fuse_wp (rdpdr_fuse_cb_releasedir r ino f) (fun _ => good) s.
Proof.
  intros O Hf Hfh. unfold rdpdr_fuse_cb_releasedir. wp_step. eapply wp_deref; [exact Hf|]. wp_step.
  destruct Hfh as [-> |(di & -> & [k Hk])]; [wp_steps; same|]. wp_step. eapply wp_deref; [exact Hk|]. wp_steps.
  eapply good_same; [exact O|side..|]. intros d j. fuse_cbn. intros [_ ?]%lookup_delete_Some. by left.
Qed.

(** [new_info] and the command for it. *)
Lemma wp_new_info {B} s x (k : option nat -> FuseM B) (Q : B -> fuse -> Prop) :
  fuse_wp (k None) Q (set_next_ptr (S (next_ptr s)) s) ->
  fuse_wp (k (Some (next_ptr s))) Q (set_infos (<[next_ptr s := x]> (infos s)) (set_next_ptr (S (next_ptr s)) s)) ->
  fuse_wp (p ← new_info w x; k p) Q s.
Proof.
  intros HN HS. unfold new_info. wp_step. wp_step. apply wp_new_ptr; intros Hc; wp_steps; [exact HS|exact HN].
Qed.

Lemma create_good r parent nm f type s m : fuse_ok s m -> short m -> 0 <= parent < 2 ^ 31 -> dir_if_live m parent ->
  (length nm < 256)%nat -> type = S_IFDIR \/ type = S_IFREG -> (forall k, f = Some k -> is_Some (files s !! k)) ->
  fuse_wp (rdpdr_fuse_create_dir_or_file w r parent nm f type) (fun _ => good) s.
Proof.
  intros O Hs Hp Hd Hl Hty Hf. unfold rdpdr_fuse_create_dir_or_file. destruct nm as [|c nm]; [wp_steps; same|].
  destruct (Z.eqb_spec parent 1) as [->|Hp1]; [wp_steps; cbn [negb]; wp_steps; same|].
  apply (wp_valid s m); [done..| |cbn [negb]; wp_steps; same]. intros Hi1 Hlive. cbn [negb]. apply ok_set_fs in O. destruct (o_fs _ _ O) as [H T].
  wp_steps. eapply fs_wp_path; [by split|done|lia|done|lia|]. intros dev path Hlen.
  wp_step. eapply wp_opt; [apply strcat_fits; rewrite length_app; cbn [length]; lia|].
  wp_step. eapply wp_opt; [apply strcat_fits; rewrite !length_app; cbn [length] in *; lia|].
  apply ok_set_fs in O. pose proof (live_range _ _ _ O Hlive) as Hrange. eapply (wp_slot _ m); [done..| |].
  { intros Hn. destruct Hlive as [? ?]. congruence. }
  intros p x Hx Hpt. wp_steps. eapply fs_wp_inode_at; [apply Hpt|]. destruct (is_loc_resource x); [wp_steps; same|].
  apply wp_new_info; [wp_steps; same|]. wp_step.
  assert (forall acc disp path', pend_ok (next_node (fs s)) m (files s) (if type =? S_IFDIR then DriveCreateDirectory path' else DriveOpenFile path' acc disp)
    (mk_info f r parent 0 true (take 1023 (c :: nm)) [] dev RT_FUSE_REPLY_CREATE type)) as Hpend.
  { intros. split; [by intros k Hk _; auto|]. destruct Hty as [-> | ->]; cbn [Z.eqb S_IFDIR S_IFREG Pos.eqb]; [done|]. cbn [info_inode reply_type info_name info_mode fi].
    split; [done|]. split; [done|]. intros _. split; [lia|]. split; [done|]. split; [|done]. rewrite length_take. cbn [length] in *. lia. }
  apply wp_drive; cbn [negb]; wp_steps; (eapply (good_send _ m); [exact O|side..|]); [apply Hpend|apply (Hpend 0 0 [])].
Qed.

Lemma mkdir_good r parent nm s m : fuse_ok s m -> short m -> 0 <= parent < 2 ^ 31 -> dir_if_live m parent ->
  (length nm < 256)%nat -> fuse_wp (rdpdr_fuse_cb_mkdir w r parent nm) (fun _ => good) s.
Proof.
  intros O Hs Hp Hd Hl. unfold rdpdr_fuse_cb_mkdir. wp_steps. destruct (o_fs _ _ O) as [H T].
  eapply fs_wp_get_rinode; [exact H|int_lia| |].
  - intros i x p _ Hpt. wp_steps. eapply fs_wp_inode_at; [apply Hpt|]. wp_steps. same.
  - intros _. apply (create_good _ _ _ _ _ _ m); [by apply ok_set_fs|done..|by left|done].
Qed.

Lemma remove_good r parent nm type s m : fuse_ok s m -> short m -> 0 <= parent < 2 ^ 31 -> parent <> 1 ->
  (length nm < 256)%nat -> type = 1 \/ type = 2 -> fuse_wp (rdpdr_fuse_remove_dir_or_file w r parent nm type) (fun _ => good) s.
Proof.
  intros O Hs Hp Hp1 Hl Hty. unfold rdpdr_fuse_remove_dir_or_file. apply (wp_valid s m); [done..| |cbn [negb]; wp_steps; same].
  intros Hi1 Hlive. cbn [negb]. apply ok_set_fs in O. destruct (o_fs _ _ O) as [H T]. pose proof (live_range _ _ _ O Hlive) as Hrange. wp_steps.
  eapply fs_wp_get_rinode; [exact H|int_lia| |]; [|intros _; wp_steps; same].
  intros i x p He Hpt. wp_steps. eapply fs_wp_path; [by split|done|lia|done|lia|]. intros dev path Hlen.
  wp_steps. eapply fs_wp_inode_at; [apply Hpt|].
  destruct ((type =? 1) && _); [wp_steps; same|]. destruct ((type =? 2) && _); [wp_steps; same|].
  wp_step. eapply wp_opt; [apply strcat_fits; rewrite length_app; cbn [length]; lia|].
  wp_step. eapply wp_opt; [apply strcat_fits; rewrite !length_app; cbn [length] in *; lia|].
  destruct (is_loc_resource x); [wp_steps; same|]. apply wp_new_info; [wp_steps; same|].
  assert ((type =? 1) || (type =? 2) = true) as -> by (by destruct Hty as [-> | ->]). wp_step.
  apply wp_drive; cbn [negb]; wp_steps.
  - eapply (good_send _ m); [exact O|side..|]. split; [done|]. destruct Hty as [-> | ->]; cbn in *; lia.
  - unfold free_info. wp_step. eapply wp_deref; [fuse_cbn; apply lookup_insert_eq|]. wp_steps. eapply good_refused; [exact O|side..].
Qed.

Lemma rename_good r op on np nn s m : fuse_ok s m -> short m -> 0 <= op < 2 ^ 31 -> 0 <= np < 2 ^ 31 -> op <> 1 -> np <> 1 ->
  dir_if_live m np -> (length on < 256)%nat -> (length nn < 256)%nat -> fuse_wp (rdpdr_fuse_cb_rename w r op on np nn) (fun _ => good) s.
Proof.
  intros O Hs Hop Hnp Hop1 Hnp1 Hd Hlo Hln. unfold rdpdr_fuse_cb_rename. apply (wp_valid s m); [done..| |cbn [negb]; wp_steps; same].
  intros Ho1 Holive. cbn [negb]. apply ok_set_fs in O. apply (wp_valid _ m); [done..| |cbn [negb]; wp_steps; same].
  intros Hn1 Hnlive. cbn [negb]. apply ok_set_fs in O. destruct (o_fs _ _ O) as [H T].
  pose proof (live_range _ _ _ O Holive) as Hor. pose proof (live_range _ _ _ O Hnlive) as Hnr.
  destruct on as [|co on]; [wp_steps; same|]. destruct nn as [|cn nn]; [wp_steps; same|]. wp_steps.
  eapply fs_wp_get_rinode; [exact H|int_lia| |]; [|intros _; wp_steps; same].
  intros i x p He Hpt. wp_steps. eapply fs_wp_inode_at; [apply Hpt|]. destruct (nopen x =? 0); cbn [negb]; [|wp_steps; same].
  wp_steps. eapply fs_wp_path; [by split|done|lia|done|lia|]. intros dev path Hlen.
  wp_step. eapply wp_opt; [apply strcat_fits; rewrite length_app; cbn [length]; lia|].
  wp_step. eapply wp_opt; [apply strcat_fits; rewrite !length_app; cbn [length] in *; lia|].
  destruct (dev =? device_id x); cbn [negb]; [|wp_steps; same]. destruct (is_loc_resource x); [wp_steps; same|].
  wp_steps. eapply fs_wp_path; [by split|done|lia|done|lia|]. intros dev' path' Hlen'.
  wp_step. eapply wp_opt; [apply strcat_fits; rewrite length_app; cbn [length]; lia|].
  wp_step. eapply wp_opt; [apply strcat_fits; rewrite !length_app; cbn [length] in *; lia|].
  apply wp_new_info; [wp_steps; same|]. wp_step. apply wp_drive; cbn [negb]; wp_steps.
  - eapply (good_send _ m); [exact O|side..|]. split; [done|]. cbn [info_inode new_inode_ new_name]. fuse_cbn.
    split; [lia|]. split; [lia|]. split; [done|]. rewrite length_take. cbn [length] in *. lia.
  - unfold free_info. wp_step. eapply wp_deref; [fuse_cbn; apply lookup_insert_eq|]. wp_steps. eapply good_refused; [exact O|side..].
Qed.

Lemma more_files_set s f y s' : files s' = <[f := y]> (files s) -> more_files s s'.
Proof. intros E k Hk. rewrite E. apply lookup_insert_is_Some'. by right. Qed.

(** [calloc] of a handle for a local file is not checked. *)
Lemma open_good r ino f y s m : fuse_ok s m -> short m -> 0 <= ino < 2 ^ 31 -> files s !! f = Some y -> (forall n, calloc w n = true) ->
  fuse_wp (rdpdr_fuse_cb_open w r ino f) (fun _ => good) s.
Proof.
  intros O Hs Hi Hf Hc. unfold rdpdr_fuse_cb_open. apply (wp_valid s m); [done..| |cbn [negb]; wp_steps; same].
  intros Hi1 Hl. cbn [negb]. apply ok_set_fs in O. pose proof (live_range _ _ _ O Hl) as Hrange. eapply (wp_slot _ m); [done..| |].
  { intros _. wp_steps. same. }
  intros p x Hx Hp. apply ok_set_fs in O. destruct (o_fs _ _ O) as [H T]. wp_steps. eapply fs_wp_inode_at; [apply Hp|].
  destruct (is_dir x) eqn:Hd; [wp_steps; same|].
  assert (ino <> 1) as Hne.
  { intros ->. pose proof (t_clip _ T) as Hcl. by apply (proj1 (kids_empty _ _) (t_dir _ T _ _ Hx Hd)) in Hcl. }
  wp_steps. eapply fs_wp_path; [by split|done|lia|done|lia|]. intros dev path Hlen.
  destruct (is_loc_resource x).
  - wp_step. apply wp_new_ptr; intros Hcal; [|by rewrite Hc in Hcal]. wp_step. wp_steps.
    apply wp_set_fh; [by eexists|]. intros y'. wp_steps. eapply good_same; [exact O|done|by eapply more_files_set|side..].
  - apply wp_new_info; [wp_steps; same|]. wp_step. eapply wp_deref; [exact Hf|].
    destruct (open_access (flags y)) as [acc disp]. wp_step.
    assert (pend_ok (next_node (fs s)) m (files s) (DriveOpenFile (share_path path) acc disp)
      (mk_info (Some f) r ino 0 true (take 1023 path) [] dev RT_FUSE_REPLY_OPEN 0)) as Hpend.
    { split; [intros k [= <-]; by eexists|]. cbn. split; [done|]. split; [by eexists|]. done. }
    apply wp_drive; cbn [negb]; wp_steps; (eapply (good_send _ m); [exact O|side..|exact Hpend]).
Qed.

Definition open_handle (s : fuse) (y : fuse_file_info) : Prop :=
  file_fh y = fh_null \/ exists h, file_fh y = fh_handle h /\ is_Some (handles s !! h).

(** [release] of an open remote file reads the handle after it has been freed,
    so an open file may not be released. *)
Lemma release_good r ino f s m : fuse_ok s m -> 0 <= ino < 2 ^ 31 -> is_Some (files s !! f) ->
  (forall x, m !! ino = Some x -> is_loc_resource x = true \/ nopen x = 0) ->
  fuse_wp (rdpdr_fuse_cb_release w r ino f) (fun _ => good) s.
Proof.
  intros O Hi [y Hf] Hh. unfold rdpdr_fuse_cb_release. wp_step. eapply wp_deref; [exact Hf|].
  apply (wp_valid s m); [done..| |cbn [negb]; wp_steps; same].
  intros Hi1 Hl. cbn [negb]. apply ok_set_fs in O. pose proof (live_range _ _ _ O Hl). eapply (wp_slot _ m); [done..| |].
  { intros _. wp_steps. same. }
  intros p x Hx Hp. apply ok_set_fs in O. wp_steps. eapply fs_wp_inode_at; [apply Hp|].
  destruct (is_loc_resource x) eqn:Hloc; [wp_steps; same|]. destruct (Hh x Hx) as [Hl'|Hn]; [congruence|].
  rewrite (proj2 (Z.eqb_eq _ _) Hn). wp_steps; same.
Qed.

Lemma read_good r ino size off f y s m : fuse_ok s m -> 0 <= ino < next_node (fs s) -> files s !! f = Some y -> open_handle s y ->
  fuse_wp (rdpdr_fuse_cb_read w r ino size off (Some f)) (fun _ => good) s.
Proof.
  intros O Hi Hf Hh. unfold rdpdr_fuse_cb_read. wp_step. eapply wp_deref; [exact Hf|]. destruct Hh as [-> |(h & -> & [hd Hhd])]; [wp_steps; same|].
  wp_step. eapply wp_deref; [exact Hhd|]. destruct (handle_local hd).
  - eapply (wp_slot _ m); [done..| |]; [intros _; wp_steps; same|]. intros p x Hx Hp. wp_steps. eapply fs_wp_inode_at; [apply Hp|]. wp_steps.
    destruct (Nat.eqb _ 1); wp_steps; same.
  - apply wp_new_info; [wp_steps; same|]. wp_step. apply wp_drive; wp_steps; (eapply (good_send _ m _ _ (DriveReadFile (FileId hd) size off)); [exact O|side..|]);
      (split; [intros k [= <-]; by eexists|done]).
Qed.

Lemma write_good r ino buf off f y s m : fuse_ok s m -> 0 <= ino < next_node (fs s) -> files s !! f = Some y -> open_handle s y ->
  fuse_wp (rdpdr_fuse_cb_write w r ino buf off f) (fun _ => good) s.
Proof.
  intros O Hi Hf Hh. unfold rdpdr_fuse_cb_write. wp_step. eapply wp_deref; [exact Hf|]. destruct Hh as [-> |(h & -> & [hd Hhd])]; [wp_steps; same|].
  wp_step. eapply wp_deref; [exact Hhd|]. destruct (handle_local hd); [wp_steps; same|].
  apply wp_new_info; [wp_steps; same|]. wp_step. apply wp_drive; wp_steps; (eapply (good_send _ m _ _ (DriveWriteFile (FileId hd) buf off)); [exact O|side..|]);
    (split; [intros k [= <-]; by eexists|done]).
Qed.

End Callbacks.
