(* ===== verification/FuseCompletions.v ===== *)
(** * The redirected drives: the completions keep the invariant *)

From S2P Require Import Prelude FuseTypes FuseTable FuseCallbacks FuseHandlers FuseRun FuseRepr FuseTree FuseOps FuseSync FuseRequests FuseReaddir FuseInvariant.
From stdpp Require Import gmap list.
#[local] Open Scope Z_scope.

(** The inode table changes, the rest stays. *)
Lemma ok_evolve s m f' m' : fuse_ok s m -> fs_ok f' m' -> evolves (next_node (fs s)) m (next_node f') m' -> fuse_ok (set_fs f' s) m'.
Proof.
  intros O H E. destruct (good_frame s m (set_fs f' s) m') as (m0 & H0 & R0 & D0); [done|done|done|by intros ? ?|done|done|done|by left|].
  split; [done|by apply (links_same s); [apply O|..]| |done]. eapply rest_frame; [apply O|done|by intros ? ?|done|done|done].
Qed.

Lemma good_ok s : good s -> links s -> exists m, fuse_ok s m.
Proof. intros (m & H & R & D) K. by exists m. Qed.

(** Two functions of the table one after the other. *)
Lemma wp_in_fs2 {B} (a b : FsM unit) (k : FuseM B) (Q : B -> fuse -> Prop) s :
  fs_wp (_ ← a; _ ← b; mret tt) (fun _ f => fuse_wp k Q (set_fs f s)) (fs s) -> fuse_wp (_ ← in_fs a; _ ← in_fs b; k) Q s.
Proof.
  unfold fs_wp, fuse_wp, mbind, FsM_bind, FuseM_bind, in_fs, mret, FsM_ret. destruct (a (fs s)) as [[[] f1]|]; [|done].
  cbn [fs set_fs]. by destruct (b f1) as [[[] f2]|].
Qed.

Section Completions.
Context (w : World).

(** ** Opening directories *)

(** The state after a request of [opendir] has been looked at. *)
Definition good_short (s : fuse) : Prop :=
  exists m, fs_ok (fs s) m /\ rest_ok (next_node (fs s)) m s /\ dirs_ok (next_node (fs s)) s /\ short m.

Lemma wp_open_dir {B} s m f (k : FuseM B) (Q : B -> fuse -> Prop) : fuse_ok s m -> is_Some (files s !! f) -> (forall n, calloc w n = true) ->
  (forall s', fuse_ok s' m -> fs s' = fs s -> infos s' = infos s -> irps s' = irps s -> g_opendir_queue s' = g_opendir_queue s -> fuse_wp k Q s') ->
  fuse_wp (_ ← open_dir w f; k) Q s.
Proof.
  intros O Hf Hc HQ. unfold open_dir. wp_step. wp_step. apply wp_new_ptr; intros Hcal; [|by rewrite Hc in Hcal]. wp_step. wp_steps.
  apply wp_set_fh; [done|]. intros y. apply HQ; [|done..]. set (s' := set_files _ _).
  destruct (good_same s m s') as (m0 & H0 & R0 & D0); [done|done|by eapply more_files_set|done..| |].
  - intros di j. unfold s'. fuse_cbn. rewrite lookup_insert_Some. intros [[_ <-]|[_ ?]]; [right|by left].
    pose proof (r_next _ _ (proj1 (o_fs _ _ O))). unfold FIRST_INODE. lia.
  - split; [apply O| | |done].
    + destruct (o_links _ _ O) as [K1 K2 K3]. split; [done| |done]. intros p Hp%K2. unfold s'. fuse_cbn. lia.
    + eapply rest_frame; [apply O|apply evolves_refl|by eapply more_files_set|done..].
Qed.

Lemma ok_short_answer s m r a q : fuse_ok s m -> short m -> (forall od, od ∈ q -> od ∈ g_opendir_queue s) ->
  good_short (set_queue q (set_events (e_reply r a :: events s) s)).
Proof.
  intros O Hs Hq. exists m. split; [apply O|]. split; [|split; [apply O|done]]. eapply rest_frame; [apply O|apply evolves_refl|by intros ? ?|done..].
Qed.

Lemma in_tail {A} (l : list A) x : x ∈ tail l -> x ∈ l.
Proof. destruct l; [done|]. by right. Qed.

Lemma proc_good r ino f s m : fuse_ok s m -> short m -> queue_ok (next_node (fs s)) m (files s) (mk_opendir r ino f) -> (forall n, calloc w n = true) ->
  fuse_wp (rdpdr_fuse_proc_opendir_req w r ino f) (fun _ => good_short) s.
Proof.
  intros O Hs (Hi & Hd & Hf) Hc. cbn in Hi, Hd, Hf. pose proof (r_max _ _ (proj1 (o_fs _ _ O))). unfold rdpdr_fuse_proc_opendir_req.
  apply (wp_valid s m); [done|lia| |cbn [negb]; unfold dequeue; wp_steps; apply (ok_short_answer _ m); [by apply ok_set_fs|done|apply in_tail]].
  intros Hi1 Hl. cbn [negb]. apply ok_set_fs in O.
  assert (forall s', fuse_ok s' m -> is_Some (files s' !! f) ->
    fuse_wp (_ ← open_dir w f; _ ← answer r reply_open; _ ← dequeue; mret (-1)) (fun _ => good_short) s') as Hdone.
  { intros s' O' Hf'. apply (wp_open_dir s' m); [done..|]. intros s'' O'' _ _ _ _. unfold dequeue. wp_steps.
    apply (ok_short_answer _ m); [done|done|apply in_tail]. }
  destruct (Z.eqb_spec ino 1) as [->|Hne]; [by apply Hdone|].
  eapply (wp_slot _ m); [done|by eapply live_range| |].
  { intros Hn. unfold dequeue. wp_steps. apply (ok_short_answer _ m); [by apply ok_set_fs|done|apply in_tail]. }
  intros p x Hx Hp. apply ok_set_fs in O. wp_steps. eapply fs_wp_inode_at; [apply Hp|].
  destruct (is_loc_resource x); [apply Hdone; [by destruct s|done]|].
  apply ok_set_fs in O. wp_steps. rewrite i32_id by int_lia. pose proof (live_range _ _ _ O Hl) as Hr.
  eapply fs_wp_mono; [|apply (mark_spec _ m); [apply O|fuse_cbn; lia]]. intros _ f1 [H1 L1].
  assert (evolves (next_node (fs s)) m (next_node f1) (mark ino <$> m)) as Ev.
  { rewrite (l_next _ _ L1). apply evolves_mark. }
  pose proof (ok_evolve _ _ _ _ O H1 Ev) as O1. fuse_cbn. wp_steps. fuse_cbn.
  eapply fs_wp_path; [done|by apply short_mark|lia|rewrite lookup_fmap, Hx; by eexists|lia|]. intros dev path _.
  apply ok_set_fs in O1. fuse_cbn. apply wp_new_info.
  - unfold dequeue. wp_steps. exists (mark ino <$> m). split; [done|]. split; [|split; [apply O1|by apply short_mark]].
    eapply rest_frame; [apply O1|apply evolves_refl|by intros ? ?|done|done|apply in_tail].
  - wp_step.
    assert (forall s' : fuse, fs s' = f1 -> infos s' = <[next_ptr s := mk_info (Some f) r ino 0 true [] [] dev 0 0]> (infos s) ->
      irps s' = <[next_ptr s := DriveQueryDirectory (share_path path)]> (irps s) \/ irps s' = irps s -> files s' = files s ->
      g_opendir_queue s' = g_opendir_queue s -> dirs s' = dirs s -> good_short s') as Hgood.
    { intros s' E1 E2 E3 E4 E5 E6. exists (mark ino <$> m). rewrite E1. split; [done|]. split; [|split; [|by apply short_mark]].
      - eapply (rest_send _ (mark ino <$> m)); [apply (o_rest _ _ O1)|apply (o_links _ _ O1)|apply evolves_refl| |exact E2|exact E3|by rewrite E5|].
        + intros k. by rewrite E4.
        + split; [intros k [= <-]; by rewrite E4|]. cbn [info_inode fi]. split; [rewrite (l_next _ _ L1); fuse_cbn; lia|]. split; [|by eexists].
          eapply evolves_dir; [exact Ev|lia|done].
      - intros di k. rewrite E6. intros Hk. by apply (o_dirs _ _ O1 di). }
    apply wp_drive; cbn [negb]; wp_steps; apply Hgood; fuse_cbn; first [done | left; done | right; done].
Qed.

Lemma loop_good n s m : fuse_ok s m -> short m -> (length (g_opendir_queue s) < n)%nat -> (forall n, calloc w n = true) ->
  fuse_wp (opendir_loop w n) (fun _ => good) s.
Proof.
  intros O Hs Hn Hc. revert s m O Hs Hn. induction n as [|n IH]; intros s m O Hs Hn; [lia|]. cbn [opendir_loop]. wp_step. wp_step.
  destruct (g_opendir_queue s) as [|od q] eqn:Eq.
  - wp_step. exists m. split; [apply O|]. split; apply O.
  - assert (queue_ok (next_node (fs s)) m (files s) (mk_opendir (od_req od) (od_ino od) (od_fi od))) as Hod.
    { destruct od. apply (o_queue _ _ _ (o_rest _ _ O)). rewrite Eq. by left. }
    wp_step. eapply wp_mono; [|exact (wp_wlp _ _ _ s (proc_good _ _ _ s m O Hs Hod Hc) (proc_settles w _ _ _ s (o_links _ _ O)))].
    intros st s1 [(m1 & H1 & R1 & D1 & S1) [K1 _ Q1 _]]. destruct (Z.eqb_spec st 0) as [->|Hst].
    + wp_step. exists m1. by split.
    + fuse_cbn. apply (IH s1 m1); [by split|done|]. rewrite Q1, Eq. cbn in *. lia.
Qed.

Lemma opendir_good r ino f s m : fuse_ok s m -> short m -> queue_ok (next_node (fs s)) m (files s) (mk_opendir r ino f) -> (forall n, calloc w n = true) ->
  fuse_wp (rdpdr_fuse_cb_opendir w r ino f) (fun _ => good) s.
Proof.
  intros O Hs Hod Hc. unfold rdpdr_fuse_cb_opendir. wp_steps.
  assert (fuse_ok (set_queue (g_opendir_queue s ++ [mk_opendir r ino f]) s) m) as O'.
  { destruct O as [H K [P Q] D]. split; [done|by apply links_queue| |done]. split; [done|]. fuse_cbn. intros od [Hin| ->%list_elem_of_singleton]%elem_of_app; auto. }
  destruct (g_opendir_queue s) as [|od q] eqn:Eq.
  - wp_step. eapply wp_mono; [|apply (proc_good _ _ _ _ m); done]. intros st s' (m' & H' & R' & D' & _). wp_step. by exists m'.
  - wp_step. exists m. split; [apply O'|]. split; apply O'.
Qed.

(** ** The end of a command: [fip] has left [irps] *)

Lemma ok_completed s m fip : fuse_ok s m -> fuse_ok (set_irps (delete fip (irps s)) s) m.
Proof.
  intros [H [K1 K2 K3] [P Q] D]. split; [done| | |done].
  - split; fuse_cbn; [intros p [_ Hp]%lookup_delete_is_Some; auto|done|intros p c x [_ Hp]%lookup_delete_Some; eauto].
  - split; [|done]. fuse_cbn. intros p c x [_ Hp]%lookup_delete_Some. eauto.
Qed.

Lemma wp_free fip x (Q : unit -> fuse -> Prop) s : infos s !! fip = Some x -> Q tt (set_infos (delete fip (infos s)) s) ->
  fuse_wp (free_info fip) Q s.
Proof. intros Hx HQ. unfold free_info. wp_step. eapply wp_deref; [exact Hx|]. by wp_steps. Qed.

Lemma good_free s m s' m' fip : fuse_ok s m -> irps s !! fip = None -> fs_ok (fs s') m' ->
  evolves (next_node (fs s)) m (next_node (fs s')) m' -> more_files s s' -> infos s' = delete fip (infos s) \/ infos s' = infos s ->
  irps s' = irps s -> (forall od, od ∈ g_opendir_queue s' -> od ∈ g_opendir_queue s) -> old_dirs s s' -> good s'.
Proof.
  intros O Hf H E F Hi Hc Hq Hd. exists m'. split; [done|]. split; [by eapply rest_free; [apply O|..]|].
  eapply dirs_evolve; [apply O|apply E|done].
Qed.

Ltac freed fip := eapply (good_free _ _ _ _ fip); [eassumption|eassumption|fuse_cbn; try eassumption|fuse_cbn|side..].
Ltac freed_same O fip := eapply (good_free _ _ _ _ fip); [eassumption|eassumption|fuse_cbn; apply O|fuse_cbn; apply evolves_refl|side..].

Lemma create_directory_complete_good fip st x s m : fuse_ok s m -> irps s !! fip = None -> infos s !! fip = Some x ->
  fuse_wp (rdpdr_fuse_on_drive_create_directory_complete (Some fip) st) (fun _ => good) s.
Proof.
  intros O Hc Hx. unfold rdpdr_fuse_on_drive_create_directory_complete. wp_step. eapply wp_deref; [exact Hx|]. wp_step.
  destruct (st =? 0); cbn [negb]; wp_steps; (eapply wp_free; [exact Hx|]); freed_same O fip.
Qed.

Lemma read_complete_good fip st data x s m : fuse_ok s m -> irps s !! fip = None -> infos s !! fip = Some x ->
  fuse_wp (rdpdr_fuse_on_drive_read_file_complete (Some fip) st data) (fun _ => good) s.
Proof.
  intros O Hc Hx. unfold rdpdr_fuse_on_drive_read_file_complete. wp_step. eapply wp_deref; [exact Hx|]. wp_steps.
  eapply wp_free; [exact Hx|]. freed_same O fip.
Qed.

(** A store to a live inode that keeps its place, its type and its count. *)
Lemma store_ok s m i p x g : fs_ok s m -> points s i p x -> inode (g x) = inode x -> parent_inode (g x) = parent_inode x ->
  is_dir (g x) = is_dir x -> is_reg (g x) = is_reg x -> nentries (g x) = nentries x -> name (g x) = name x ->
  fs_wp (inode_modify p g) (fun _ s' => fs_ok s' (<[i := g x]> m) /\ later s s' /\ evolves (next_node s) m (next_node s') (<[i := g x]> m)) s.
Proof.
  intros [H T] Hp E1 E2 E3 E4 E5 E6. destruct (points_repr _ _ _ _ _ H Hp) as [Hx _]. eapply fs_wp_modify; [done..|]. intros s' H' L' _.
  split; [|split; [done|rewrite (l_next _ _ L'); by eapply evolves_store]].
  split; [done|]. eapply tree_modify; [done..|]. rewrite E6. exact (t_name _ T _ _ Hx).
Qed.

Lemma write_complete_good fip st n x s m : fuse_ok s m -> irps s !! fip = None -> infos s !! fip = Some x -> 0 <= info_inode x < next_node (fs s) ->
  fuse_wp (rdpdr_fuse_on_drive_write_file_complete (Some fip) st n) (fun _ => good) s.
Proof.
  intros O Hc Hx Hi. unfold rdpdr_fuse_on_drive_write_file_complete. wp_step. eapply wp_deref; [exact Hx|]. destruct (fi x) as [f|].
  - wp_step. wp_step. set (s1 := set_events _ s). assert (fuse_ok s1 m) as O1 by (destruct O as [H [K1 K2 K3] [P Q] D]; by split).
    eapply (wp_slot s1 m); [done..| |].
    + intros _. wp_steps. eapply wp_free; [exact Hx|]. freed_same O fip.
    + intros p y Hy Hp. wp_steps. eapply fs_wp_mono; [|eapply (store_ok _ m); [apply O|exact Hp|done..]].
      intros _ f' (H' & L' & E'). eapply wp_free; [exact Hx|]. freed fip. exact E'.
  - wp_steps. exists m. split; [apply O|]. split; apply O.
Qed.

Lemma close_complete_good fip st x s m : fuse_ok s m -> irps s !! fip = None -> infos s !! fip = Some x -> 0 <= info_inode x < next_node (fs s) ->
  fuse_wp (rdpdr_fuse_on_drive_close_file_complete (Some fip) st) (fun _ => good) s.
Proof.
  intros O Hc Hx Hi. unfold rdpdr_fuse_on_drive_close_file_complete. wp_step. eapply wp_deref; [exact Hx|]. destruct (fi x) as [f|].
  - eapply (wp_slot s m); [done..| |].
    + intros _. wp_steps. same.
    + intros p y Hy Hp. wp_steps. eapply fs_wp_mono; [|eapply (store_ok _ m); [apply O|exact Hp|by destruct (0 <? nopen y)..]].
      intros _ f' (H' & L' & E'). wp_steps. freed fip. exact E'.
  - wp_steps. exists m. split; [apply O|]. split; apply O.
Qed.

(** ** Deletion *)

Lemma unlink_late m i x y : parent_inode x <> i -> m !! parent_inode x = Some y ->
  <[parent_inode x := entries_down y]> (delete i m) = unlink i x m.
Proof. intros Hne Hy. rewrite <- (unlink_eq m i x y) by done. by rewrite delete_insert_ne. Qed.

(** The client has deleted the entry; it has no entries of its own. *)
Definition no_entries (m : gmap Z RDPDR_INODE) (d : Z) (nm : list Z) : Prop := forall i x, entry m d nm i x -> kids (parents m) i = ∅.

Lemma delete_complete_good fip st x s m : fuse_ok s m -> irps s !! fip = None -> infos s !! fip = Some x -> 2 <= info_inode x < next_node (fs s) ->
  no_entries m (info_inode x) (info_name x) -> fuse_wp (delete_complete (Some fip) st) (fun _ => good) s.
Proof.
  intros O Hc Hx Hi Hno. unfold delete_complete. wp_step. eapply wp_deref; [exact Hx|]. destruct (o_fs _ _ O) as [H T].
  destruct (st =? 0); cbn [negb]; [|wp_steps; (eapply wp_free; [exact Hx|]); freed_same O fip].
  pose proof (r_max _ _ H). wp_steps. eapply fs_wp_get_rinode; [exact H|int_lia| |].
  - intros i y p He Hp. pose proof He as (Hi1 & Hy & Hyp & _). assert (3 <= i) as Hi3 by (eapply child_high; [exact T| |exact Hi1|done..]; lia).
    destruct (parent_live _ i _ T ltac:(lia) Hy) as (_ & Hpi & z & Hz & _).
    wp_steps. eapply fs_wp_inode_at; [apply Hp|]. rewrite (inode_id _ _ _ _ H Hy). apply wp_in_fs2. fuse_cbn.
    eapply fs_wp_drop; [exact H|exact Hp|]. intros f1 H1 L1. fs_step. wp_steps. fuse_cbn.
    eapply fs_wp_slot_modify; [exact H1|rewrite lookup_delete_ne by congruence; by rewrite <- Hyp|done|]. intros f2 H2 L2.
    rewrite <- Hyp, unlink_late in H2 by done. wp_steps. eapply wp_free; [exact Hx|]. freed fip.
    + split; [exact H2|]. apply tree_unlink; [done..|by eapply Hno|]. pose proof (count_small _ _ (parent_inode y) H). lia.
    + rewrite (l_next _ _ L2), (l_next _ _ L1). by apply evolves_unlink.
  - intros _. wp_steps. eapply wp_free; [exact Hx|]. freed_same O fip.
Qed.

(** ** Opening a file *)

Lemma more_trans s1 s2 s3 : more_files s1 s2 -> more_files s2 s3 -> more_files s1 s3.
Proof. unfold more_files. auto. Qed.

(** After [fi->fh] has been stored, if there is a file. *)
Lemma wp_new_handle s m f h (Q : unit -> fuse -> Prop) : fuse_ok s m -> is_Some (files s !! f) ->
  (forall s', fuse_ok s' m -> fs s' = fs s -> infos s' = infos s -> irps s' = irps s -> more_files s s' -> Q tt s') -> fuse_wp (set_fh f h) Q s.
Proof.
  intros O Hf HQ. apply wp_set_fh; [done|]. intros y. apply HQ; [|done..|by eapply more_files_set]. set (s' := set_files _ _).
  split; [apply O|by apply (links_same s); [apply O|..]| |apply O]. eapply rest_frame; [apply O|apply evolves_refl|by eapply more_files_set|done..].
Qed.

Lemma ok_ptr s m n : fuse_ok s m -> (next_ptr s <= n)%nat -> fuse_ok (set_next_ptr n s) m.
Proof. intros [H [K1 K2 K3] [P Q] D] Hn. split; [done| |by split|done]. split; [done| |done]. fuse_cbn. intros p Hp%K2. lia. Qed.

(** What the creation of a file needs: its directory, and room in the table. *)
Definition can_create (s : rdpdr_fs) (m : gmap Z RDPDR_INODE) (d : Z) : Prop :=
  is_Some (m !! d) /\ next_node s < max_entries s /\ next_node s < 2 ^ 30.

Lemma open_reply_good fip x s m : fuse_ok s m -> irps s !! fip = None -> infos s !! fip = Some x ->
  reply_type x = RT_FUSE_REPLY_CREATE -> pend_ok (next_node (fs s)) m (files s) (DriveOpenFile [] 0 0) x -> can_create (fs s) m (info_inode x) ->
  fuse_wp (go ← open_reply_create w x; if negb go then skip else free_info fip) (fun _ => good) s.
Proof.
  intros O Hc Hx Hr (_ & Hi & _ & Hcr) ([y Hy] & Hroom & Hb). destruct (Hcr Hr) as (H2 & Hd & Hl & Hm). destruct (o_fs _ _ O) as [H T].
  pose proof (r_max _ _ H). unfold open_reply_create. wp_step. wp_steps. rewrite i32_id by int_lia.
  eapply fs_wp_mono; [|apply (create_file_spec w _ m _ _ _ _ y); [by split|done|done|lia|done|by apply Hd|done|by right]].
  intros [p|] f'.
  - intros (-> & _ & z & C & Hzn & Hzd & Hzp & Hdir & _). pose proof C as (y' & Hy' & Hok & Hnx & Hpt & _). assert (y' = y) as -> by congruence.
    rewrite Hm. cbn [Z.eqb S_IFDIR S_IFREG Pos.eqb]. wp_steps. eapply fs_wp_inode_at; [apply Hpt|].
    pose proof (evolves_created w _ _ _ _ _ _ H Hy C) as Ev. wp_steps.
    eapply fs_wp_mono; [|eapply store_ok; [exact Hok|exact Hpt|done..]]. intros _ f2 (H2' & L2 & E2).
    wp_steps. cbn [negb]. eapply wp_free; [exact Hx|]. freed fip. by eapply evolves_trans.
  - intros (_ & Hok & L'). wp_steps. cbn [negb]. wp_steps. eapply (good_frame _ m _ m); [exact O|exact Hok|fuse_cbn|side..].
    rewrite (l_next _ _ L'). apply evolves_refl.
Qed.

Lemma open_complete_good fip st dev file x s m : fuse_ok s m -> irps s !! fip = None -> infos s !! fip = Some x -> invoke_fuse x = true ->
  reply_type x = RT_FUSE_REPLY_OPEN \/ reply_type x = RT_FUSE_REPLY_CREATE ->
  pend_ok (next_node (fs s)) m (files s) (DriveOpenFile [] 0 0) x -> (reply_type x = RT_FUSE_REPLY_CREATE -> can_create (fs s) m (info_inode x)) ->
  fuse_wp (rdpdr_fuse_on_drive_open_file_complete w (Some fip) st dev file) (fun _ => good) s.
Proof.
  intros O Hc Hx Hinv Hrt Hp Hcr. unfold rdpdr_fuse_on_drive_open_file_complete. wp_step. eapply wp_deref; [exact Hx|]. rewrite Hinv.
  destruct (st =? 0); cbn [negb]; [|wp_steps; (eapply wp_free; [exact Hx|]); freed_same O fip].
  assert (forall s', fuse_ok s' m -> fs s' = fs s -> infos s' = infos s -> irps s' = irps s -> (forall k, is_Some (files s !! k) -> is_Some (files s' !! k)) ->
    fuse_wp (go ← (if reply_type x =? RT_FUSE_REPLY_OPEN then
                _ ← opt (fi x);
                slot ← in_fs (table_at (info_inode x));
                _ ← match slot with
                    | Some p => in_fs (inode_modify p (fun y => set_nopen (u32 (nopen y + 1)) y))
                    | None => skip
                    end;
                _ ← answer (req x) reply_open;
                mret true
              else if reply_type x =? RT_FUSE_REPLY_CREATE then open_reply_create w x
              else mret true); if negb go then skip else free_info fip) (fun _ => good) s') as Hrest.
  { intros s' O' Ef Ei Ec Em. rewrite <- Ei in Hx. rewrite <- Ec in Hc. pose proof Hp as (_ & Hi & Hop & _). destruct Hrt as [Hrt|Hrt]; rewrite Hrt.
    - destruct (Hop Hrt) as [f Hf]. cbn [Z.eqb RT_FUSE_REPLY_OPEN RT_FUSE_REPLY_CREATE Pos.eqb]. wp_step. wp_step. eapply wp_opt; [exact Hf|].
      eapply (wp_slot s' m); [done|by rewrite Ef| |].
      + intros _. wp_steps. cbn [negb]. eapply wp_free; [exact Hx|]. freed_same O' fip.
      + intros p y Hy Hpt. wp_steps. eapply fs_wp_mono; [|eapply (store_ok _ m); [apply O'|exact Hpt|done..]].
        intros _ f' (H' & L' & E'). wp_steps. cbn [negb]. eapply wp_free; [exact Hx|]. freed fip. exact E'.
    - cbn [Z.eqb RT_FUSE_REPLY_OPEN RT_FUSE_REPLY_CREATE Pos.eqb]. apply (open_reply_good _ _ _ m); [done..| |].
      + rewrite Ef. eapply pend_evolves; [apply evolves_refl|exact Em|exact Hp].
      + rewrite Ef. auto. }
  pose proof (proj1 Hp) as Hopen. wp_step. destruct (fi x) as [f|] eqn:Ef; [|wp_step; cbn [negb]; apply Hrest; done].
  wp_step. apply wp_new_ptr; intros Hcal.
  - wp_steps. apply (wp_new_handle _ m); [|by apply Hopen|].
    + set (s0 := set_next_ptr _ s). assert (fuse_ok s0 m) as O0 by (apply ok_ptr; [done|lia]). destruct O0 as [H0 [K1 K2 K3] [P Q] D0]. by split.
    + intros s' O' E1 E2 E3 E4. wp_step. cbn [negb]. by apply Hrest.
  - wp_steps. cbn [negb]. eapply wp_free; [exact Hx|]. freed_same O fip.
Qed.

(** ** The end of a directory listing *)

Lemma ok_free s m fip : fuse_ok s m -> irps s !! fip = None -> fuse_ok (set_infos (delete fip (infos s)) s) m.
Proof.
  intros O Hc. pose proof (o_links _ _ O) as [K1 K2 K3]. split; [apply O| | |apply O].
  - split; fuse_cbn.
    + intros p Hp. apply lookup_delete_is_Some. split; [intros <-; rewrite Hc in Hp; by destruct Hp|auto].
    + intros p [_ Hp]%lookup_delete_is_Some. auto.
    + intros p c x Hp [_ Hx]%lookup_delete_Some. eauto.
  - eapply (rest_free _ m); [apply O|exact Hc|apply evolves_refl|side..].
Qed.

Lemma ok_dequeue s m : fuse_ok s m -> fuse_ok (set_queue (tail (g_opendir_queue s)) s) m.
Proof.
  intros [H K [P Q] D]. split; [done|by apply links_queue| |done]. split; [done|]. fuse_cbn. intros od Hod%in_tail. auto.
Qed.

Lemma ok_answer s m r a : fuse_ok s m -> fuse_ok (set_events (e_reply r a :: events s) s) m.
Proof. intros [H [K1 K2 K3] [P Q] D]. by split. Qed.

(** The next requests of the queue, after the one that has been answered. *)
Lemma next_good fip x s m : fuse_ok s m -> short m -> irps s !! fip = None -> infos s !! fip = Some x -> (forall n, calloc w n = true) ->
  fuse_wp (free_info fip) (fun _ s' => fuse_wp (_ ← dequeue; opendir_next w) (fun _ => good) s') s.
Proof.
  intros O Hs Hc Hx Hcal. eapply wp_free; [exact Hx|]. unfold dequeue, opendir_next. wp_steps.
  apply (loop_good _ _ m); [by apply ok_dequeue, ok_free|done| |done]. fuse_cbn. lia.
Qed.

Lemma query_done_good fip st x s m : fuse_ok s m -> short m -> irps s !! fip = None -> infos s !! fip = Some x -> invoke_fuse x = true ->
  pend_ok (next_node (fs s)) m (files s) (DriveQueryDirectory []) x -> (forall n, calloc w n = true) ->
  fuse_wp (rdpdr_fuse_query_directory_done w (Some fip) st) (fun _ => good) s.
Proof.
  intros O Hs Hc Hx Hinv (Hopen & Hi & Hd & [f Hf]) Hcal. unfold rdpdr_fuse_query_directory_done. wp_step. wp_step. eapply wp_deref; [exact Hx|].
  rewrite Hinv. destruct (st =? 0); cbn [negb]; wp_step; [|wp_step; eapply (next_good _ x); [by apply ok_answer|done..]].
  pose proof (r_max _ _ (proj1 (o_fs _ _ O))). eapply (wp_valid s m); [done|lia| |].
  - intros Hi1 [xd Hxd]. cbn [negb]. wp_steps. rewrite i32_id by int_lia.
    eapply fs_wp_mono; [|apply (sweep_spec _ m _ xd); [apply O|lia|done]]. intros _ f' (m' & Hok & L & S).
    pose proof (short_swept _ _ _ _ Hxd (proj1 S) Hs) as Hs'.
    assert (fuse_ok (set_fs f' s) m') as O'.
    { apply (ok_evolve _ m); [done..|]. rewrite (l_next _ _ L). eapply evolves_swept; [done|apply S]. }
    wp_steps. eapply wp_opt; [exact Hf|]. eapply (wp_open_dir _ m'); [exact O'|by apply Hopen|done|].
    intros s' Os' E1 E2 E3 _. wp_step. eapply (next_good _ x); [by apply ok_answer|done|fuse_cbn|fuse_cbn|done]; by rewrite ?E2, ?E3.
  - cbn [negb]. wp_step. eapply (next_good _ x); [by apply ok_answer, ok_set_fs|done..].
Qed.

(** ** An entry of a listing *)

Definition room (s : rdpdr_fs) : Prop := next_node s < max_entries s /\ next_node s < 2 ^ 30.

Lemma listed_evolves s m d fdi s' m' : fs_repr s m -> listed w s m d fdi s' m' -> evolves (next_node s) m (next_node s') m'.
Proof.
  intros H L. destruct L as [s' Hdot L|s' i x E He L|s' Hf L|s' x y E Hno Hy Hp Hn Hs Hdr C].
  - rewrite (l_next _ _ L). apply evolves_refl.
  - rewrite (l_next _ _ L). eapply evolves_store; [apply He|done].
  - rewrite (l_next _ _ L). apply evolves_refl.
  - by eapply evolves_created.
Qed.

Lemma entry_good fip fdi x s m : fuse_ok s m -> infos s !! fip = Some x -> pend_ok (next_node (fs s)) m (files s) (DriveQueryDirectory []) x ->
  room (fs s) -> (length (FileName fdi) < 256)%nat ->
  fuse_wp (rdpdr_fuse_on_drive_query_directory_complete w (Some fip) STATUS_SUCCESS fdi) (fun _ => good) s.
Proof.
  intros O Hx (_ & Hi & Hd & _) [Hr Hb] Hl. unfold rdpdr_fuse_on_drive_query_directory_complete. rewrite Z.eqb_refl.
  destruct (has _ _); [wp_steps; same|]. wp_step. eapply wp_deref; [exact Hx|]. destruct (o_fs _ _ O) as [H T]. pose proof (r_max _ _ H).
  wp_steps. destruct (m !! info_inode x) as [y|] eqn:Hy.
  - eapply fs_wp_mono; [|apply (query_add_spec w _ m _ y); [by split|done|done|lia|done|by apply Hd|done]].
    intros _ f' (m' & Hok & L). eapply (good_frame _ m _ m'); [exact O|exact Hok|by eapply listed_evolves|side..].
  - unfold rdpdr_fuse_query_directory_add. fs_step. eapply fs_wp_valid; [exact H|]. intros b Hb'. rewrite i32_id in Hb' by int_lia.
    destruct b; [destruct (proj1 Hb' eq_refl) as [_ [? ?]]; congruence|]. cbn [negb]. fs_step. same.
Qed.

End Completions.
