(* ===== verification/FuseMoves.v ===== *)
(** * The redirected drives: renames, new drives and the clipboard

    The remaining operations of the table: the completion of a rename, the
    announcement of a drive, and the directory of the clipboard's files. *)

From S2P Require Import Prelude FuseTypes FuseTable FuseCallbacks FuseHandlers FuseRun FuseRepr FuseTree FuseOps FuseSync FuseRequests FuseReaddir FuseInvariant FuseCompletions.
From stdpp Require Import gmap list.
#[local] Open Scope Z_scope.

(** ** Renames *)

Lemma fs_wp_exists s m d nm (Q : bool -> rdpdr_fs -> Prop) : fs_repr s m -> 0 <= d < 2 ^ 31 ->
  ((exists i x, entry m d nm i x) -> Q true s) -> ((forall i x, ~ entry m d nm i x) -> Q false s) ->
  fs_wp (rdpdr_fuse_does_file_exist d nm) Q s.
Proof.
  intros H Hd HS HN. unfold rdpdr_fuse_does_file_exist. rewrite i32_id, u32_id by int_lia. fs_step. apply (fs_wp_find _ m); [done| |].
  - intros i x p Hi Hx Hp [? ?]%matches_spec _. fs_step. apply HS. by exists i, x.
  - intros Hno. fs_step. apply HN. intros i x (Hi & Hx & Hp & Hnm). pose proof (Hno i x Hi Hx) as E.
    rewrite (proj2 (matches_spec d nm x)) in E by done. done.
Qed.

(** [rdpdr_fuse_delete_dir_with_rinode] frees the entries of the directory and
    not what is below them: it is correct on an empty directory. *)
Lemma delete_dir_spec s m i p x : fs_ok s m -> 3 <= i -> points s i p x -> is_reg x = false -> kids (parents m) i = ∅ ->
  fs_wp (rdpdr_fuse_delete_dir_with_rinode (Some p)) (fun _ s' => fs_ok s' (unlink i x m) /\ later s s') s.
Proof.
  intros [H T] Hi Hp Hr Hk. destruct (points_repr _ _ _ _ _ H Hp) as [Hx Hix]. unfold rdpdr_fuse_delete_dir_with_rinode.
  fs_step. eapply fs_wp_inode_at; [apply Hp|]. rewrite Hr. fs_step.
  eapply fs_wp_mono; [|apply (fs_wp_each (fun _ mk => mk = m) _ s m H); [done|done|]].
  - intros _ s' (mk & H' & L' & ->). pose proof (later_points _ _ _ _ _ _ _ _ H H' L' Hp Hx) as Hp'.
    fs_step. eapply fs_wp_inode_at; [apply Hp'|]. eapply fs_wp_unlink; [by split|done|exact Hp'|done|].
    intros s'' Hok L''. fs_step. split; [done|by etrans].
  - intros j mk s' q y Hj H' L' -> Hy Hq. pose proof (later_points _ _ _ _ _ _ _ _ H H' L' Hp Hx) as Hp'.
    fs_step. eapply fs_wp_inode_at; [apply Hp'|]. destruct (Z.eqb_spec (parent_inode y) (inode x)) as [E|E].
    + rewrite Hix in E. apply parents_lookup in Hy. rewrite E in Hy. by apply (proj1 (kids_empty _ _) Hk) in Hy.
    + fs_step. by exists m.
Qed.

(** The map after the target of a rename has been deleted. *)
Definition replaced (m : gmap Z RDPDR_INODE) (d : Z) (nm : list Z) (m' : gmap Z RDPDR_INODE) : Prop :=
  m' = m \/ exists i y, entry m d nm i y /\ m' = unlink i y m.

Lemma entry_high m d nm i y : tree m -> 2 <= d -> entry m d nm i y -> 3 <= i.
Proof. intros T Hd (Hi & Hy & Hp & _). by eapply child_high. Qed.

Lemma replaced_evolves m d nm m' n : tree m -> 2 <= d -> replaced m d nm m' -> evolves n m n m'.
Proof.
  intros T Hd [->|(i & y & He & ->)]; [apply evolves_refl|]. pose proof (entry_high _ _ _ _ _ T Hd He) as Hi.
  destruct He as (_ & Hy & _). apply evolves_unlink. apply (parent_live _ i _ T ltac:(lia) Hy).
Qed.

(** The parents that are left are the parents of before. *)
Lemma replaced_parents m d nm m' j p : replaced m d nm m' -> parents m' !! j = Some p -> parents m !! j = Some p.
Proof. intros [->|(i & y & He & ->)]; [done|]. rewrite parents_unlink. by intros [_ ?]%lookup_delete_Some. Qed.

Lemma replaced_dir m d nm m' : tree m -> 2 <= d -> replaced m d nm m' -> is_Some (m !! d) -> is_Some (m' !! d).
Proof.
  intros T Hd [->|(i & y & He & ->)]; [done|]. pose proof (entry_high _ _ _ _ _ T Hd He) as Hi. destruct He as (_ & Hy & Hp & _).
  destruct (parent_live _ i _ T ltac:(lia) Hy) as (_ & Hne & _). intros [z Hz]. rewrite lookup_unlink by done.
  rewrite decide_False by congruence. rewrite decide_True by done. rewrite Hz. by eexists.
Qed.

Lemma rename_target_spec x s m : fs_ok (fs s) m -> 2 <= new_inode_ x < 2 ^ 31 -> no_entries m (new_inode_ x) (new_name x) ->
  fuse_wp (rename_target x) (fun _ s' => exists f' m', s' = set_fs f' s /\ fs_ok f' m' /\ later (fs s) f' /\ replaced m (new_inode_ x) (new_name x) m') s.
Proof.
  intros [H T] Hd Hno. unfold rename_target. wp_steps. eapply fs_wp_exists; [exact H|lia| |].
  - intros Hex. cbn [negb]. wp_steps. eapply fs_wp_get_rinode; [exact H|int_lia| |].
    + intros i y p He Hp. assert (3 <= i) as Hi by (eapply entry_high; [exact T| |exact He]; lia). wp_steps. eapply fs_wp_inode_at; [apply Hp|].
      assert (forall f', fs_ok f' (unlink i y m) -> later (fs s) f' -> exists g m', set_fs f' s = set_fs g s /\ fs_ok g m' /\ later (fs s) g /\
        replaced m (new_inode_ x) (new_name x) m') as Hdone.
      { intros f' Hf L. exists f', (unlink i y m). split; [done|]. split; [done|]. split; [done|]. right. by exists i, y. }
      wp_steps. destruct (is_reg y) eqn:Hr.
      * eapply fs_wp_mono; [|apply (delete_file_spec _ m i p y); [by split|done|exact Hp|]].
        -- intros _ f' [? ?]. by apply Hdone.
        -- rewrite (t_type _ T i y) in Hr by apply He. by destruct (is_dir y).
      * eapply fs_wp_mono; [|apply (delete_dir_spec _ m i p y); [by split|done|exact Hp|done|by eapply Hno]]. intros _ f' [? ?]. by apply Hdone.
    + intros Hn. destruct Hex as (i & y & He). by apply Hn in He.
  - intros _. cbn [negb]. wp_steps. exists (fs s), m. split; [done|]. split; [done|]. split; [done|by left].
Qed.

(** The file that is renamed: not moved below itself. *)
Definition no_loop (m : gmap Z RDPDR_INODE) (d : Z) (nm : list Z) (q : Z) : Prop := forall i x, entry m d nm i x -> ~ below (parents m) i q.

Lemma moved_ok s m i p x nm q yp yq : fs_ok s m -> 3 <= i -> points s i p x -> m !! parent_inode x = Some yp -> m !! q = Some yq -> 2 <= q < 2 ^ 31 ->
  is_dir yq = true -> q <> parent_inode x -> ~ below (parents m) i q -> (length nm < 256)%nat ->
  fs_wp (_ ← inode_modify p (fun y => set_name nm (set_parent (u32 q) y)); _ ← inode_modify p (set_is_synced true);
         _ ← slot_modify (parent_inode x) entries_down; slot_modify q entries_up)
    (fun _ s' => exists m', fs_ok s' m' /\ later s s' /\ evolves (next_node s) m (next_node s') m') s.
Proof.
  intros [H T] Hi Hp Hyp Hyq Hq Hqd Hqp Hnb Hnm. destruct (points_repr _ _ _ _ _ H Hp) as [Hx Hix].
  destruct (parent_live _ i _ T ltac:(lia) Hx) as (_ & Hpi & _). assert (i <> q) as Hiq by (intros <-; apply Hnb; constructor).
  rewrite u32_id by int_lia. fs_step. eapply fs_wp_modify; [exact H|done|done|]. intros s1 H1 L1 Hp1.
  fs_step. eapply fs_wp_modify; [exact H1|done|done|]. intros s2 H2 L2 Hp2. rewrite insert_insert_eq in H2. set (x' := set_is_synced _ _) in *.
  fs_step. eapply fs_wp_slot_modify; [exact H2|rewrite lookup_insert_ne by done; exact Hyp|done|]. intros s3 H3 L3.
  eapply fs_wp_slot_modify; [exact H3|rewrite !lookup_insert_ne by congruence; exact Hyq|done|]. intros s4 H4 L4.
  eexists. split; [split; [exact H4|]|split; [by do 3 (etrans; [eassumption|])|]].
  - apply (tree_move m i x x' q yp yq); try done; [lia|]. intros d. pose proof (count_small _ _ d H). lia.
  - rewrite (l_next _ _ L4), (l_next _ _ L3), (l_next _ _ L2), (l_next _ _ L1).
    eapply evolves_trans; [by eapply (evolves_store _ m i x x')|]. eapply (evolves_trans _ _ _ (<[parent_inode x := entries_down yp]> (<[i := x']> m))); [apply (evolves_store _ _ _ yp)|apply (evolves_store _ _ _ yq)]; try done.
    + by rewrite lookup_insert_ne.
    + by rewrite !lookup_insert_ne by congruence.
Qed.

Ltac freed fip := eapply (good_free _ _ _ _ fip); [eassumption|eassumption|fuse_cbn; try eassumption|fuse_cbn|side..].

Lemma wp_in_fs4 {B} (a b c d : FsM unit) (k : FuseM B) (Q : B -> fuse -> Prop) s :
  fs_wp (_ ← a; _ ← b; _ ← c; d) (fun _ f => fuse_wp k Q (set_fs f s)) (fs s) ->
  fuse_wp (_ ← in_fs a; _ ← (_ ← in_fs b; _ ← in_fs c; in_fs d); k) Q s.
Proof.
  unfold fs_wp, fuse_wp, mbind, FsM_bind, FuseM_bind, in_fs. destruct (a (fs s)) as [[[] f1]|]; [|done]. cbn [fs set_fs].
  destruct (b f1) as [[[] f2]|]; [|done]. cbn [fs set_fs]. destruct (c f2) as [[[] f3]|]; [|done]. cbn [fs set_fs]. by destruct (d f3) as [[[] f4]|].
Qed.

(** What the completion of a rename needs of the tree. *)
Definition can_rename (m : gmap Z RDPDR_INODE) (x : RDPDR_FUSE_INFO) : Prop :=
  is_Some (m !! new_inode_ x) /\ no_entries m (new_inode_ x) (new_name x) /\ no_loop m (info_inode x) (info_name x) (new_inode_ x).

Lemma rename_complete_good fip st x s m : fuse_ok s m -> irps s !! fip = None -> infos s !! fip = Some x ->
  pend_ok (next_node (fs s)) m (files s) (DriveRenameFile [] []) x -> can_rename m x ->
  fuse_wp (rdpdr_fuse_on_drive_rename_file_complete (Some fip) st) (fun _ => good) s.
Proof.
  intros O Hc Hx (_ & Hi & Hn & Hd & Hl) (Hlive & Hno & Hlp). unfold rdpdr_fuse_on_drive_rename_file_complete. wp_step. eapply wp_deref; [exact Hx|].
  destruct (st =? 0); cbn [negb]; [|wp_steps; (eapply wp_free; [exact Hx|]); eapply (good_free _ m _ m fip); [done|done|apply O|apply evolves_refl|side..]].
  destruct (o_fs _ _ O) as [H T]. pose proof (r_max _ _ H). wp_step. eapply wp_mono; [|apply (rename_target_spec _ _ m); [by split|lia|done]].
  intros _ s1 (f1 & m1 & -> & [H1 T1] & L1 & R). pose proof (replaced_evolves m (new_inode_ x) _ _ (next_node (fs s)) T ltac:(lia) R) as E1.
  rewrite <- (l_next _ _ L1) in E1 at 2. pose proof (replaced_dir m (new_inode_ x) _ _ T ltac:(lia) R Hlive) as [yq Hyq].
  assert (is_dir yq = true) as Hqd. { eapply evolves_dir; [exact E1| |exact Hd|exact Hyq]. lia. }
  wp_steps. eapply fs_wp_get_rinode; [exact H1|int_lia| |].
  - intros i y p He Hp. assert (3 <= i) as Hi3 by (eapply entry_high; [exact T1| |exact He]; lia). pose proof He as (_ & Hy & Hyp & Hyn).
    assert (~ below (parents m1) i (new_inode_ x)) as Hnb.
    { intros Hb. assert (exists y0, m !! i = Some y0 /\ parent_inode y0 = parent_inode y /\ name y0 = name y) as (y0 & Hy0 & Ep & En).
      { destruct R as [->|(j & z & Hj & ->)]; [by exists y|]. assert (3 <= j) as Hj3 by (eapply entry_high; [exact T| |exact Hj]; lia).
        destruct Hj as (_ & Hz & Hzp & _). destruct (parent_live m j _ T ltac:(lia) Hz) as (_ & Hne & _). rewrite lookup_unlink in Hy by done.
        destruct (decide (i = j)); [done|]. destruct (decide (i = parent_inode z)); [|by exists y].
        apply fmap_Some in Hy as (y0 & Hy0 & ->). by exists y0. }
      apply (Hlp i y0); [split; [lia|]; repeat split; congruence|]. eapply below_sub; [|exact Hb]. intros. by eapply replaced_parents. }
    wp_step. eapply wp_opt; [apply strcpy_fits; lia|]. destruct (Z.eqb_spec (info_inode x) (new_inode_ x)) as [E|E].
    + wp_steps. eapply fs_wp_modify; [exact H1|exact Hp|done|]. intros f2 H2 L2 _. wp_steps. eapply wp_free; [exact Hx|]. freed fip.
      * split; [exact H2|]. eapply (tree_modify _ _ y); try done. cbn. rewrite u32_id by int_lia. congruence.
      * rewrite (l_next _ _ L2). eapply evolves_trans; [exact E1|]. by eapply evolves_store.
    + destruct (parent_live _ i _ T1 ltac:(lia) Hy) as (_ & _ & yp & Hyp' & _).
      pose proof (moved_ok f1 m1 i p y (new_name x) (new_inode_ x) yp yq) as W. rewrite Hyp in W.
      eapply wp_in_fs4, fs_wp_mono; [|apply W; first [done|lia|congruence]]. intros _ f2 (m2 & H2 & L2 & E2).
      fuse_cbn. wp_steps. eapply wp_free; [exact Hx|]. freed fip. by eapply evolves_trans.
  - intros _. wp_steps. eapply wp_free; [exact Hx|]. freed fip; [by split|done].
Qed.

(** ** A new drive *)

Section Tables.
Context (w : World).

Lemma root_dir m : tree m -> exists x, m !! 1 = Some x /\ is_dir x = true.
Proof.
  intros T. pose proof (t_clip _ T) as (y & Hy & Hp)%lookup_parents. destruct (parent_live m 2 y T ltac:(lia) Hy) as (_ & _ & x & Hx & Hd).
  exists x. by rewrite <- Hp.
Qed.

(** The drive is a new entry of the root; the table does not grow. *)
Lemma drive_create_spec s m device c nm : fs_ok s m -> room s ->
  fs_wp (rdpdr_fuse_on_drive_create w device (Some (c :: nm))) (fun _ s' =>
    (calloc w (next_inode s) = false /\ fs_ok s' m /\ later s s') \/
    exists x y, m !! 1 = Some y /\ fs_ok s' (<[1 := entries_up y]> (<[next_node s := x]> m)) /\ next_node s' = next_node s + 1 /\
      max_entries s' = max_entries s /\ name x = [c] /\ device_id x = device /\ parent_inode x = 1 /\ is_dir x = true) s.
Proof.
  intros [H T] [Hr Hb]. unfold rdpdr_fuse_on_drive_create. do 2 fs_step. fs_step. set (x := mk_inode _ _ _ _ _ _ _ _ _ _ _ _ _ _ _ _ _ _ _).
  eapply fs_wp_new_inode; [exact H| |]; [intros s' H' L' Hc; fs_step; by left|]. intros Hc.
  destruct (root_dir m T) as (y & Hy & Hyd). pose proof (next_free _ _ H) as Hf. destruct (add_inode_repr s m x H Hr Hb eq_refl) as [H1 P1].
  pose proof (r_next _ _ H). refine (proj1 (fs_wp_store s m x _ _ H Hr Hb _)). fs_step.
  eapply fs_wp_table_at; [exact H1|cbn; lia| |].
  - intros E _. rewrite lookup_insert_ne in E by lia. congruence.
  - intros p y' Hy' Hp. rewrite lookup_insert_ne in Hy' by lia. assert (y' = y) as -> by congruence.
    eapply fs_wp_modify; [exact H1|exact Hp|done|]. intros s' H' L' _. right. exists x, y. split; [done|].
    split; [|by rewrite (l_next _ _ L'), (l_max _ _ L')]. split; [done|]. eapply (tree_insert m _ x 1 y); try done; [lia|cbn; lia|].
    pose proof (count_small _ _ 1 H). lia.
Qed.

Lemma drive_create_good device nm s m : fuse_ok s m -> room (fs s) -> fuse_wp (in_fs (rdpdr_fuse_on_drive_create w device nm)) (fun _ => good) s.
Proof.
  intros O Hr. wp_step. destruct nm as [[|c nm]|]; [unfold rdpdr_fuse_on_drive_create; fs_step; same| |unfold rdpdr_fuse_on_drive_create; fs_step; same].
  eapply fs_wp_mono; [|apply (drive_create_spec _ m); [apply O|done]]. intros _ f' [(_ & Hok & L)|(x & y & Hy & Hok & Hn & _)].
  - eapply (good_frame _ m _ m); [exact O|exact Hok|fuse_cbn; rewrite (l_next _ _ L); apply evolves_refl|side..].
  - eapply (good_frame _ m); [exact O|exact Hok|fuse_cbn|side..]. split; [lia|]. intros i z. rewrite !lookup_insert_Some.
    intros [[<- <-]|[_ [[<- <-]|[_ Hz]]]] Hi; [by exists y|lia|by exists z].
Qed.

(** ** The clipboard directory *)

(** The entries of the clipboard directory are files. *)
Definition flat (m : gmap Z RDPDR_INODE) : Prop := forall i, parents m !! i = Some 2 -> kids (parents m) i = ∅.

(** [m'] is [m] without the entries of the clipboard directory from slot [i] on. *)
Record emptied (m : gmap Z RDPDR_INODE) (i : Z) (m' : gmap Z RDPDR_INODE) : Prop := {
  em_rest j : j <> 2 -> m' !! j = m !! j \/ m' !! j = None /\ parents m !! j = Some 2;
  em_gone j : i <= j -> parents m' !! j <> Some 2;
  em_self x : m !! 2 = Some x -> exists n, m' !! 2 = Some (set_nentries n x);
}.

Lemma flat_unlink m i x : flat m -> flat (unlink i x m).
Proof.
  intros F j. rewrite parents_unlink. intros [_ Hj%F]%lookup_delete_Some. apply kids_empty. intros k [_ Hk]%lookup_delete_Some.
  by apply (proj1 (kids_empty _ _) Hj) in Hk.
Qed.

Lemma emptied_unlink m i x m' : tree m -> 2 < i -> m !! i = Some x -> parent_inode x = 2 -> emptied (unlink i x m) (i + 1) m' -> emptied m i m'.
Proof.
  intros T Hi Hx Hp [R G S]. assert (parent_inode x <> i) as Hne by lia. split.
  - intros j Hj. destruct (R j Hj) as [E|[E Hj2]]; rewrite E.
    + rewrite lookup_unlink by done. destruct (decide (j = i)) as [->|]; [right; split; [done|by rewrite (parents_lookup _ _ _ Hx), Hp]|].
      rewrite decide_False by congruence. by left.
    + right. split; [done|]. rewrite parents_unlink in Hj2. by apply lookup_delete_Some in Hj2 as [_ ?].
  - intros j Hj. destruct (decide (j = i)) as [->|]; [|apply G; lia]. intros (z & Hz & _)%lookup_parents.
    destruct (R i ltac:(lia)) as [E|[E _]]; [|congruence]. rewrite lookup_unlink, decide_True in E by done. congruence.
  - intros y Hy. destruct (S (entries_down y)) as [n Hn]; [|by exists n]. rewrite lookup_unlink by done.
    rewrite decide_False by lia. rewrite decide_True by done. by rewrite Hy.
Qed.

Lemma clear_loop_spec r n i s m y : fs_ok s m -> points s 2 r y -> flat m -> 1 <= i -> i + Z.of_nat n = next_node s ->
  fs_wp (clear_loop (Some r) n i) (fun _ s' => exists m', fs_ok s' m' /\ later s s' /\ emptied m i m') s.
Proof.
  revert i s m y. induction n as [|n IH]; intros i s m y [H T] Hr F Hi Hn; cbn [clear_loop].
  - fs_step. exists m. split; [done|]. split; [done|]. split; [by left| |].
    + intros j Hj (z & Hz & _)%lookup_parents. pose proof (r_dom _ _ H j ltac:(by eexists)). lia.
    + intros x Hx. exists (nentries x). rewrite Hx. by destruct x.
  - assert (forall m', parents m !! i <> Some 2 -> emptied m (i + 1) m' -> emptied m i m') as Hskip.
    { intros m' Hne [R G S]. split; [done| |done]. intros j Hj Hpj. destruct (decide (j = i)) as [->|]; [|by apply (G j); [lia|]].
      destruct (decide (i = 2)) as [->|Hi2].
      - pose proof (t_clip _ T) as (z & Hz & Hzp)%lookup_parents. destruct (S z Hz) as [k Hk]. apply parents_lookup in Hk. cbn in Hk. congruence.
      - destruct (R i Hi2) as [E|[E _]]; apply lookup_parents in Hpj as (z & Hz & Hzp); [|congruence]. apply Hne.
        rewrite Hz in E. symmetry in E. apply parents_lookup in E. congruence. }
    pose proof (r_next _ _ H). fs_step. eapply fs_wp_table_at; [exact H|lia| |].
    + intros Hno _. eapply fs_wp_mono; [|apply (IH (i + 1) s m y); [by split|done|done|lia|lia]]. intros _ s' (m' & ? & ? & ?).
      exists m'. split; [done|]. split; [done|]. apply Hskip; [|done]. intros (z & Hz & _)%lookup_parents. congruence.
    + intros p x Hx Hp. pose proof (parents_lookup _ _ _ Hx) as Hpx. fs_step. eapply fs_wp_inode_at; [apply Hp|].
      destruct (Z.eqb_spec (parent_inode x) 2) as [E|E].
      * rewrite E in Hpx. assert (3 <= i) as Hi3 by (eapply child_high; [exact T| |exact Hi|exact Hx|exact E]; lia).
        destruct (points_repr _ _ _ _ _ H Hr) as [Hy _].
        eapply fs_wp_drop; [exact H|exact Hp|]. intros s1 H1 L1.
        assert (points s1 2 r y) as Hr1. { eapply later_points; [exact H|exact H1|done|done|]. by rewrite lookup_delete_ne by lia. }
        fs_step. eapply fs_wp_modify; [exact H1|exact Hr1|done|]. intros s2 H2 L2 Hr2.
        rewrite <- E in H2 at 1. rewrite unlink_late in H2; [|lia|by rewrite E].
        assert (tree (unlink i x m)) as T2.
        { apply tree_unlink; [done|done|done|by apply F|]. pose proof (count_small _ _ (parent_inode x) H). lia. }
        eapply fs_wp_mono; [|apply (IH (i + 1) s2 (unlink i x m) (entries_down y)); [by split|done|by apply flat_unlink|lia|]].
        -- intros _ s' (m' & ? & ? & ?). exists m'. split; [done|]. split; [by do 2 (etrans; [eassumption|])|]. eapply emptied_unlink; [done|lia|done..].
        -- rewrite (l_next _ _ L2), (l_next _ _ L1). lia.
      * eapply fs_wp_mono; [|apply (IH (i + 1) s m y); [by split|done|done|lia|lia]]. intros _ s' (m' & ? & ? & ?).
        exists m'. split; [done|]. split; [done|]. apply Hskip; [|done]. congruence.
Qed.

Lemma clear_spec s m : fs_ok s m -> flat m ->
  fs_wp rdpdr_fuse_clear_clip_dir (fun _ s' => exists m', fs_ok s' m' /\ later s s' /\ emptied m 1 m') s.
Proof.
  intros [H T] F. unfold rdpdr_fuse_clear_clip_dir. pose proof (r_next _ _ H). pose proof (r_max _ _ H). fs_step. eapply fs_wp_table_at; [exact H|lia| |].
  - intros E _. pose proof (t_clip _ T) as (? & ? & _)%lookup_parents. congruence.
  - intros p x Hx Hp. do 2 fs_step. rewrite (r_num _ _ H). apply (clear_loop_spec _ _ _ _ _ x); [by split|done|done|unfold FIRST_INODE; lia|].
    unfold FIRST_INODE. lia.
Qed.

Lemma emptied_evolves n m i m' : tree m -> emptied m i m' -> evolves n m n m'.
Proof.
  intros T [R _ S]. split; [lia|]. intros j z Hz _. destruct (decide (j = 2)) as [->|Hj].
  - pose proof (t_clip _ T) as (x & Hx & _)%lookup_parents. destruct (S x Hx) as [k Hk]. rewrite Hz in Hk. injection Hk as ->. by exists x.
  - destruct (R j Hj) as [E|[E _]]; [|congruence]. exists z. by rewrite <- E.
Qed.

Lemma clear_good s m : fuse_ok s m -> flat m -> fuse_wp (in_fs rdpdr_fuse_clear_clip_dir) (fun _ => good) s.
Proof.
  intros O F. wp_step. eapply fs_wp_mono; [|apply (clear_spec _ m); [apply O|done]]. intros _ f' (m' & Hok & L & E).
  eapply (good_frame _ m _ m'); [exact O|exact Hok|fuse_cbn|side..]. rewrite (l_next _ _ L). eapply emptied_evolves; [apply (o_fs _ _ O)|done].
Qed.

Lemma clip_add_good nm fl size li s m : fuse_ok s m -> room (fs s) -> nm <> [] -> (length nm < 256)%nat -> (forall n, calloc w n = true) ->
  dir_if_live m 2 -> fuse_wp (_ ← in_fs (rdpdr_fuse_add_clip_dir_item w nm fl size li); skip) (fun _ => good) s.
Proof.
  intros O [Hr Hb] Hne Hl Hc Hd. destruct (o_fs _ _ O) as [H T]. pose proof (t_clip _ T) as (y & Hy & _)%lookup_parents.
  wp_steps. unfold rdpdr_fuse_add_clip_dir_item. fs_step.
  eapply fs_wp_mono; [|apply (create_file_spec w _ m _ _ _ _ y); [by split|done|done|lia|done|by apply Hd|done|by right]].
  intros [p|] f'; [|intros ([?|Hf] & _); [done|by rewrite Hc in Hf]].
  intros (-> & _ & x & C & _). pose proof (evolves_created w _ _ _ _ _ _ H Hy C) as Ev. pose proof C as (y' & Hy' & Hok & Hn & Hpt & _).
  assert (y' = y) as -> by congruence. fs_step.
  eapply fs_wp_mono; [|eapply store_ok; [exact Hok|exact Hpt|done..]]. intros _ f2 (H2 & L2 & E2). fs_step. wp_steps.
  eapply (good_frame _ m); [exact O|exact H2|fuse_cbn; by eapply evolves_trans|side..].
Qed.

Lemma clip_data_good stream data s m : fuse_ok s m -> fuse_wp (_ ← rdpdr_fuse_file_contents_range stream data; skip) (fun _ => good) s.
Proof.
  intros O. unfold rdpdr_fuse_file_contents_range. wp_steps. destruct (g_req_list s) as [|rli rest]; [wp_steps; same|]. wp_steps.
  destruct rest; wp_steps; same.
Qed.

End Tables.

(** ** Safe runs

    [action_ok]: what an action needs of FUSE, of the client and of the memory.
    In a run whose actions meet it every callback is defined (no null or freed
    pointer, no access outside the table or past a buffer) and the inode table
    stays a tree. *)

(** The map that a table stands for. *)
Definition table_map (s : rdpdr_fs) : gmap Z RDPDR_INODE :=
  list_to_map (omap (fun i => p ← slot s i; x ← inodes s !! p; Some (i, x)) (seqZ 0 (next_node s))).

Lemma fst_omap_seq {A} (f : Z -> option A) l : NoDup l -> NoDup (omap (fun i => x ← f i; Some (i, x)) l).*1.
Proof.
  induction 1 as [|i l Hi Hl IH]; [constructor|]. cbn. destruct (f i) as [x|]; [|done]. cbn. constructor; [|done].
  intros ((j & y) & -> & (k & Hk & E)%list_elem_of_omap)%list_elem_of_fmap. cbn in *. destruct (f k); [|done]. by injection E as -> _.
Qed.

Lemma table_map_repr s m : fs_repr s m -> table_map s = m.
Proof.
  intros H. apply map_eq. intros i. unfold table_map.
  assert (forall l : list Z, omap (fun i => p ← slot s i; x ← inodes s !! p; Some (i, x)) l = omap (fun i => x ← m !! i; Some (i, x)) l) as E.
  { intros l. induction l as [|j l IH]; [done|]. cbn. rewrite IH. destruct (m !! j) as [x|] eqn:Hx.
    - destruct (repr_points _ _ _ _ H Hx) as (p & [-> Hp] & _). cbn. by rewrite Hp.
    - destruct (slot s j) as [p|] eqn:Hs; [|done]. destruct (r_point _ _ H _ _ Hs) as (y & _ & Hy & _). congruence. }
  rewrite E. clear E. apply option_eq. intros x. rewrite <- elem_of_list_to_map by apply fst_omap_seq, NoDup_seqZ.
  rewrite list_elem_of_omap. split.
  - intros (j & _ & Hj). destruct (m !! j) as [y|] eqn:Hy; [|done]. by injection Hj as -> ->.
  - intros Hx. exists i. rewrite Hx. split; [|done]. apply elem_of_seqZ. pose proof (r_dom _ _ H i ltac:(by eexists)). lia.
Qed.

Section Safety.
Context (w : World).

Definition memory : Prop := forall n, calloc w n = true.

(** The [fi->fh] of a directory, of a file. *)
Definition dir_file (s : fuse) (f : nat) : Prop := exists y, files s !! f = Some y /\
  (file_fh y = fh_null \/ exists di, file_fh y = fh_dir di /\ is_Some (dirs s !! di)).
Definition data_file (s : fuse) (f : nat) : Prop := exists y, files s !! f = Some y /\ open_handle s y.

(** What the completion of the command of [fip] needs of the tree. *)
Definition completion_ok (s : fuse) (m : gmap Z RDPDR_INODE) (fip : nat) : Prop :=
  exists c x, irps s !! fip = Some c /\ infos s !! fip = Some x /\
  match c with
  | DriveQueryDirectory _ => short m /\ memory
  | DriveOpenFile _ _ _ => reply_type x = RT_FUSE_REPLY_CREATE -> can_create (fs s) m (info_inode x)
  | DriveDeleteDirectory _ | DriveDeleteFile _ => no_entries m (info_inode x) (info_name x)
  | DriveRenameFile _ _ => can_rename m x
  | _ => True
  end.

(** No opening that is under way or waits has stored the pointer [f]. *)
Definition not_stored (s : fuse) (f : nat) : Prop :=
  (forall p c x, irps s !! p = Some c -> infos s !! p = Some x -> opening c = true -> fi x <> Some f) /\
  (forall od, od ∈ g_opendir_queue s -> od_fi od <> f).

Definition action_ok (a : fuse_action) (s : fuse) (m : gmap Z RDPDR_INODE) : Prop :=
  match a with
  | a_lookup _ ino _ | a_getattr _ ino => 0 <= ino < 2 ^ 31
  | a_setattr _ ino at_ to_set => 0 <= ino < 2 ^ 31 /\
      (forall x, m !! ino = Some x -> is_dir (setattr to_set at_ x) = is_dir x /\ is_reg (setattr to_set at_ x) = is_reg x)
  | a_opendir _ ino _ => 0 <= ino < next_node (fs s) /\ dir_if_live m ino /\ short m /\ memory
  | a_readdir _ ino f => 0 <= ino < 2 ^ 31 /\ direntry_ok w /\ dir_file s f
  | a_releasedir _ _ f => dir_file s f
  | a_mkdir _ parent nm | a_create _ parent nm _ _ => 0 <= parent < 2 ^ 31 /\ dir_if_live m parent /\ (length nm < 256)%nat /\ short m
  | a_rmdir _ parent nm | a_unlink _ parent nm => 0 <= parent < 2 ^ 31 /\ parent <> 1 /\ (length nm < 256)%nat /\ short m
  | a_rename _ op on np nn => 0 <= op < 2 ^ 31 /\ 0 <= np < 2 ^ 31 /\ op <> 1 /\ np <> 1 /\ dir_if_live m np /\
      (length on < 256)%nat /\ (length nn < 256)%nat /\ short m
  | a_open _ ino _ _ => 0 <= ino < 2 ^ 31 /\ short m /\ memory
  | a_release _ ino f => 0 <= ino < 2 ^ 31 /\ is_Some (files s !! f) /\
      forall x, m !! ino = Some x -> is_loc_resource x = true \/ nopen x = 0
  | a_read _ ino _ _ f | a_write _ ino _ _ f => 0 <= ino < next_node (fs s) /\ data_file s f
  | a_drive_create _ _ => room (fs s)
  | a_entry fip fdi => room (fs s) /\ (length (FileName fdi) < 256)%nat /\
      exists x path, infos s !! fip = Some x /\ irps s !! fip = Some (DriveQueryDirectory path)
  | a_complete fip _ _ _ _ => completion_ok s m fip
  | a_clip_data _ _ => True
  | a_clip_clear => flat m
  | a_clip_add nm _ _ _ => room (fs s) /\ nm <> [] /\ (length nm < 256)%nat /\ memory /\ dir_if_live m 2
  | a_expire f => not_stored s f
  | a_pass _ _ _ => True
  end.

Lemma ok_pass s m f fl h : fuse_ok s m -> fuse_ok (set_files (<[f := mk_file fl h]> (files s)) s) m.
Proof.
  intros O. split; [apply O|by apply (links_same s); [apply O|..]| |apply O].
  eapply rest_frame; [apply O|apply evolves_refl|by eapply more_files_set|done..].
Qed.

Lemma ok_expire s m f : fuse_ok s m -> not_stored s f -> fuse_ok (set_files (delete f (files s)) s) m.
Proof.
  intros O [Hp Hq]. split; [apply O|by apply (links_same s); [apply O|..]| |apply O]. destruct (o_rest _ _ O) as [P Q]. split.
  - intros p c x Hc Hx. destruct (P p c x Hc Hx) as [F R]. split; [|exact R]. intros k Hk Ho. fuse_cbn.
    rewrite lookup_delete_ne; [by apply F|]. intros <-. by apply (Hp p c x).
  - intros od Hod. destruct (Q od Hod) as (? & ? & F). split; [done|]. split; [done|]. fuse_cbn. rewrite lookup_delete_ne; [done|].
    intros E. by destruct (Hq od Hod).
Qed.

Lemma ok_good s m : fuse_ok s m -> good s.
Proof. intros O. exists m. split; [apply O|]. split; apply O. Qed.

Lemma complete_good fip st dev file data s m : fuse_ok s m -> completion_ok s m fip -> fuse_wp (complete w fip st dev file data) (fun _ => good) s.
Proof.
  intros O (c & x & Hc & Hx & Hok). unfold complete. wp_step. eapply wp_deref; [exact Hc|]. wp_steps.
  pose proof (o_pend _ _ _ (o_rest _ _ O) _ _ _ Hc Hx) as Hp. pose proof (k_ok _ (o_links _ _ O) _ _ _ Hc Hx) as [Hinv Hrt].
  apply (ok_completed _ _ fip) in O. set (s1 := set_irps _ s) in *. assert (irps s1 !! fip = None) as Hn by apply lookup_delete_eq.
  destruct c.
  - by apply (create_directory_complete_good _ _ x _ m).
  - apply (delete_complete_good _ _ x _ m); [done..|apply Hp|done].
  - unfold rdpdr_fuse_on_drive_query_directory_complete. rewrite (proj2 (Z.eqb_neq _ STATUS_SUCCESS)).
    + destruct Hok. by apply (query_done_good w _ _ x _ m).
    + by destruct (Z.eqb_spec st STATUS_SUCCESS).
  - by apply (open_complete_good w _ _ _ _ x _ m).
  - by apply (read_complete_good _ _ _ x _ m).
  - by apply (write_complete_good _ _ _ x _ m); [..|apply Hp].
  - by apply (close_complete_good _ _ x _ m); [..|apply Hp].
  - apply (delete_complete_good _ _ x _ m); [done..|apply Hp|done].
  - by apply (rename_complete_good _ _ x _ m).
Qed.

Lemma act_good a s m : fuse_ok s m -> action_ok a s m -> fuse_wp (fuse_act w a) (fun _ => good) s.
Proof.
  intros O Ha. destruct a; cbn [fuse_act action_ok] in *.
  - by apply (lookup_good _ _ _ _ m).
  - by apply (getattr_good _ _ _ m).
  - destruct Ha. by apply (setattr_good _ _ _ _ _ m).
  - destruct Ha as (? & ? & ? & ?). unfold new_file. wp_steps. apply (opendir_good w _ _ _ _ m); [by apply ok_pass|done| |done].
    split; [done|]. split; [done|]. fuse_cbn. rewrite lookup_insert_eq. by eexists.
  - destruct Ha as (? & ? & y & ? & ?). by apply (readdir_good w _ _ _ y _ m).
  - destruct Ha as (y & ? & ?). by apply (releasedir_good _ _ _ y _ m).
  - destruct Ha as (? & ? & ? & ?). by apply (mkdir_good w _ _ _ _ m).
  - destruct Ha as (? & ? & ? & ?). unfold new_file. wp_steps. apply (create_good w _ _ _ _ _ _ m); [by apply ok_pass|done..|by right|].
    intros k [= <-]. fuse_cbn. rewrite lookup_insert_eq. by eexists.
  - destruct Ha as (? & ? & ? & ?). by apply (remove_good w _ _ _ _ _ m); [..|left].
  - destruct Ha as (? & ? & ? & ?). by apply (remove_good w _ _ _ _ _ m); [..|right].
  - destruct Ha as (? & ? & ? & ? & ? & ? & ? & ?). by apply (rename_good w _ _ _ _ _ _ m).
  - destruct Ha as (? & ? & ?). unfold new_file. wp_steps. eapply (open_good w _ _ _ _ _ m); [by apply ok_pass|done..| |done].
    fuse_cbn. apply lookup_insert_eq.
  - destruct Ha as (? & ? & ?). by apply (release_good w _ _ _ _ m).
  - destruct Ha as (? & y & ? & ?). by apply (read_good w _ _ _ _ _ y _ m).
  - destruct Ha as (? & y & ? & ?). by apply (write_good w _ _ _ _ _ y _ m).
  - by apply (drive_create_good w _ _ _ m).
  - destruct Ha as (? & ? & x & path & Hx & Hc). apply (entry_good w _ _ x _ m); [done|done| |done..].
    exact (o_pend _ _ _ (o_rest _ _ O) _ _ _ Hc Hx).
  - by apply (complete_good _ _ _ _ _ _ m).
  - by apply (clip_data_good _ _ _ m).
  - by apply (clear_good _ m).
  - destruct Ha as (? & ? & ? & ? & ?). by apply (clip_add_good w _ _ _ _ _ m).
  - wp_steps. apply (ok_good _ m). by apply ok_expire.
  - wp_steps. apply (ok_good _ m). by apply ok_pass.
Qed.

(** An action that meets its condition is defined and keeps the invariant. *)
Lemma act_safe a s m : fuse_ok s m -> action_ok a s m -> exists s' m', fuse_act w a s = Some (tt, s') /\ fuse_ok s' m'.
Proof.
  intros O Ha. pose proof (wp_wlp _ _ _ s (act_good a s m O Ha) (act_accounts w a s (o_links _ _ O))) as W.
  unfold fuse_wp in W. destruct (fuse_act w a s) as [[[] s']|]; [|done]. destruct W as [G [K _]].
  destruct (good_ok _ G K) as [m' O']. by exists s', m'.
Qed.

(** ** The start *)

Definition start_map : gmap Z RDPDR_INODE :=
  <[0 := fixed_inode w 0 0 1 dotdot false]> (<[1 := fixed_inode w 0 1 1 dot false]> {[2 := fixed_inode w 1 2 0 dot_clipboard true]}).

Lemma lookup_start i x : start_map !! i = Some x <->
  i = 0 /\ x = fixed_inode w 0 0 1 dotdot false \/ i = 1 /\ x = fixed_inode w 0 1 1 dot false \/ i = 2 /\ x = fixed_inode w 1 2 0 dot_clipboard true.
Proof. unfold start_map. rewrite !lookup_insert_Some, lookup_singleton_Some. split; [|by intros [[-> ->]|[[-> ->]|[-> ->]]]; eauto 10]. intros [[<- <-]|[_ [[<- <-]|[_ [<- <-]]]]]; eauto 10. Qed.

Lemma start_tree : tree start_map.
Proof.
  split; try reflexivity.
  - intros i Hi [x [[-> _]|[[-> _]|[-> _]]]%lookup_start]; [lia|lia|]. exists O. by constructor.
  - intros i [x [[-> _]|[[-> _]|[-> _]]]%lookup_start]; lia.
  - intros i x [[_ ->]|[[_ ->]|[_ ->]]]%lookup_start; reflexivity.
  - intros i x [[_ ->]|[[_ ->]|[_ ->]]]%lookup_start; discriminate.
  - intros i x Hi [[-> ->]|[[-> ->]|[-> ->]]]%lookup_start; [lia|reflexivity..].
  - intros i x [[_ ->]|[[_ ->]|[_ ->]]]%lookup_start; cbn; lia.
Qed.

Lemma start_slot s i : fuse_start w = Some s -> slot (fs s) i = if decide (0 <= i < 3) then Some (Z.to_nat i) else None.
Proof.
  unfold fuse_start, rdpdr_fuse_init_fs. destruct (negb _); [done|]. intros <-%(inj Some). cbn [fs]. unfold slot. cbn [inode_table].
  destruct (Z.ltb_spec i 0); [by rewrite decide_False by lia|]. destruct (decide (0 <= i < 3)) as [Hi|Hi].
  - assert (i = 0 \/ i = 1 \/ i = 2) as [-> |[-> | ->]] by lia; reflexivity.
  - rewrite lookup_app_r by (cbn; lia). destruct (_ !! _) as [o|] eqn:E; [|done]. apply list_elem_of_lookup_2, list_elem_of_In, repeat_spec in E. by subst.
Qed.

Lemma start_fs s : fuse_start w = Some s -> fs_ok (fs s) start_map.
Proof.
  intros Hs. pose proof (fun i => start_slot s i Hs) as Hsl. split; [|apply start_tree]. unfold fuse_start, rdpdr_fuse_init_fs in Hs.
  destruct (negb _); [done|]. apply (inj Some) in Hs as <-. cbn [fs] in *. split; try (cbn [inode_table num_entries max_entries next_node]; lia).
  - cbn [inode_table max_entries]. by rewrite length_app, repeat_length.
  - intros i [x [[-> _]|[[-> _]|[-> _]]]%lookup_start]; cbn; lia.
  - intros i. rewrite Hsl. destruct (decide _) as [|Hi]; [done|]. intros _. apply eq_None_not_Some.
    intros [x [[-> _]|[[-> _]|[-> _]]]%lookup_start]; lia.
  - intros i p. rewrite Hsl. destruct (decide _) as [Hi|]; [|done]. intros [= <-].
    assert (i = 0 \/ i = 1 \/ i = 2) as [-> |[-> | ->]] by lia; eexists; (split; [reflexivity|split; reflexivity]).
  - intros p x. cbn [inodes]. rewrite !lookup_insert_Some, lookup_singleton_Some. rewrite Hsl. intros [[<- <-]|[_ [[<- <-]|[_ [<- <-]]]]]; reflexivity.
  - intros p [x Hx]. cbn [inodes] in Hx. rewrite !lookup_insert_Some, lookup_singleton_Some in Hx. cbn [next_inode].
    destruct Hx as [[<- _]|[_ [[<- _]|[_ [<- _]]]]]; lia.
Qed.

Lemma start_ok s : fuse_start w = Some s -> fuse_ok s start_map.
Proof.
  intros Hs. pose proof (start_fs s Hs) as H. destruct (start_links w s Hs) as [K _]. split; [done|done|..];
    unfold fuse_start in Hs; (destruct (rdpdr_fuse_init_fs w true) as [? [f|]]; [|done]); injection Hs as <-.
  - split; [done|]. intros od Hod. by apply not_elem_of_nil in Hod.
  - intros di k. cbn. by rewrite lookup_empty.
Qed.

End Safety.

(** ** Runs *)

(** Every action of the run meets its condition when it starts. *)
Fixpoint fuse_safe (l : list (World * fuse_action)) (s : fuse) : Prop :=
  match l with
  | [] => True
  | (w, a) :: l => action_ok w a s (table_map (fs s)) /\ match fuse_act w a s with Some (_, s') => fuse_safe l s' | None => True end
  end.

Lemma run_cons w a l s s' s'' : fuse_act w a s = Some (tt, s') -> fuse_run l s' s'' -> fuse_run ((w, a) :: l) s s''.
Proof.
  intros Ha H. induction H as [s'|l w' a' s' s1 s2 Hr IH Ha']; [by apply (run_snoc [] w a s s); [constructor|]|].
  change ((w, a) :: l ++ [(w', a')]) with (((w, a) :: l) ++ [(w', a')]). eapply run_snoc; eauto.
Qed.

Lemma run_det l s s1 s2 : fuse_run l s s1 -> fuse_run l s s2 -> s1 = s2.
Proof.
  intros R1. revert s2. induction R1 as [s|l w a s s1 s1' R1 IH E]; intros s2 R2.
  - inversion R2 as [|l' w a sa sb sc R2' E' El]; [done|]. by destruct l'.
  - inversion R2 as [sa El|l' w' a' sa sb sc R2' E' El]; [by destruct l|]. apply app_inj_tail in El as [-> [= -> ->]].
    rewrite (IH _ R2') in E. congruence.
Qed.

Lemma safe_run l s m : fuse_ok s m -> fuse_safe l s -> exists s', fuse_run l s s' /\ fuse_ok s' (table_map (fs s')).
Proof.
  revert s m. induction l as [|[w a] l IH]; intros s m O Hs.
  - exists s. split; [constructor|]. by rewrite (table_map_repr _ m) by apply O.
  - destruct Hs as [Ha Hs]. rewrite (table_map_repr _ m) in Ha by apply O. destruct (act_safe w a s m O Ha) as (s1 & m1 & E & O1).
    rewrite E in Hs. destruct (IH s1 m1 O1 Hs) as (s2 & Hr & O2). exists s2. split; [by eapply run_cons|done].
Qed.
