(* ===== verification/FuseListing.v ===== *)
(** * The redirected drives: what a user sees of a directory

    Opening a directory makes its entries those that the client lists, and the
    calls of [readdir] until an empty reply list each of them once. *)

From S2P Require Import Prelude FuseTypes FuseTable FuseCallbacks FuseHandlers FuseRun FuseRepr FuseTree FuseOps FuseSync FuseRequests FuseReaddir FuseInvariant FuseCompletions FuseMoves.
From stdpp Require Import gmap list.
#[local] Open Scope Z_scope.

(** ** Opening a directory *)

(** The names of the entries of [d]. *)
Definition lists_names (m : gmap Z RDPDR_INODE) (d : Z) (l : list (list Z)) : Prop :=
  forall nm, nm ∈ l <-> exists i x, m !! i = Some x /\ parent_inode x = d /\ name x = nm.

(** After the sweep the entries of [d] are the unmarked ones of before. *)
Lemma swept_names m d xd n m' l : tree m -> 2 <= d -> m !! d = Some xd -> sweeping m d n m' -> (forall i, is_Some (m' !! i) -> i < n) ->
  syncing d l m -> lists_names m' d l.
Proof.
  intros T Hd Hxd [P Hst] Hn [S C] nm. assert (forall i x, m' !! i = Some x -> parent_inode x = d -> m !! i = Some x /\ 3 <= i) as Hold.
  { intros i x Hx Hp. assert (1 <= i) as Hi.
    { pose proof (t_low _ (sw_tree _ _ _ P) i ltac:(by eexists)). destruct (decide (i = 0)) as [->|]; [|lia].
      apply parents_lookup in Hx. rewrite (t_zero _ (sw_tree _ _ _ P)) in Hx. injection Hx. lia. }
    assert (3 <= i) as Hi3 by (eapply (child_high m' i x d); [apply P|done..]). split; [|done].
    assert (i <> d) as Hne. { destruct (parent_live m' i x (sw_tree _ _ _ P) ltac:(lia) Hx) as (_ & ? & _). congruence. }
    destruct (sw_rest _ _ _ P i Hne) as [E|[E _]]; congruence. }
  split.
  - intros (i & x & Hx & Hp & Hs & Hnm)%C. exists i, x. split; [|done]. assert (i <> d) as Hne.
    { intros ->. destruct (parent_live m d x T ltac:(lia) Hx) as (_ & ? & _). congruence. }
    destruct (sw_rest _ _ _ P i Hne) as [->|[_ (c & y & Hy & Hyp & Hys & Hb)]]; [done|]. exfalso.
    pose proof (parents_lookup _ _ _ Hx) as Hpx. rewrite Hp in Hpx. inversion Hb as [|j p Hj Hbp]; subst; [congruence|].
    assert (p = parent_inode y) as -> by congruence. assert (2 <= c) as Hc.
    { pose proof (t_low _ T c ltac:(by eexists)). destruct (decide (c = 0)) as [->|]; [|destruct (decide (c = 1)) as [->|]; [|lia]];
        apply parents_lookup in Hy; rewrite ?(t_zero _ T), ?(t_root _ T) in Hy; injection Hy; lia. }
    destruct (t_rooted _ T c Hc ltac:(by eexists)) as [k Hk].
    by apply (parent_not_below _ (t_zero _ T) (t_root _ T) c (parent_inode y) k Hk (parents_lookup _ _ _ Hy)).
  - intros (i & x & Hx & Hp & <-). destruct (Hold i x Hx Hp) as [Hx' Hi]. apply (S i x Hx' Hp).
    apply (Hst i x); [|done..]. specialize (Hn i ltac:(by eexists)). lia.
Qed.

(** Marked: no entry counts as listed. *)
Lemma syncing_mark d m : syncing d [] (mark d <$> m).
Proof.
  split; [|intros nm Hnm; by apply not_elem_of_nil in Hnm]. intros i x Hx Hp Hs. rewrite lookup_fmap in Hx. apply fmap_Some in Hx as (y & Hy & ->).
  exfalso. revert Hp Hs. unfold mark. destruct (Z.eqb_spec (parent_inode y) d); [done|]. by intros.
Qed.

Definition visible (fdi : FILE_DIRECTORY_INFORMATION) : bool := negb (has (FileAttributes fdi) FILE_ATTRIBUTE_HIDDEN).

(** Actions one after the other. *)
Fixpoint fuse_acts (w : World) (l : list fuse_action) : FuseM unit :=
  match l with
  | [] => skip
  | a :: l => _ ← fuse_act w a; fuse_acts w l
  end.

Section Listing.
Context (w : World).

(** The entries of a listing for the request [fip]. *)
Lemma entries_wp fip x d l s m y seen (Q : unit -> fuse -> Prop) :
  infos s !! fip = Some x -> info_inode x = d -> fs_ok (fs s) m -> next_node (fs s) < max_entries (fs s) ->
  next_node (fs s) + Z.of_nat (length l) < 2 ^ 30 -> 2 <= d < 2 ^ 31 -> m !! d = Some y -> is_dir y = true ->
  Forall (fun fdi => length (FileName fdi) < 256)%nat l -> memory w -> (forall n, realloc w n = true) -> syncing d seen m ->
  (forall f' m' y', fs_ok f' m' -> m' !! d = Some y' -> syncing d (names (filter visible l) ++ seen) m' -> Q tt (set_fs f' s)) ->
  fuse_wp (fuse_acts w (a_entry fip <$> l)) Q s.
Proof.
  intros Hx Hxd H Hr Hb Hd Hy Hyd Hl Hc Hra Hs HQ. revert s m y seen Hx H Hr Hb Hy Hyd Hs HQ.
  induction Hl as [|fdi l Hf Hl IH]; intros s m y seen Hx H Hr Hb Hy Hyd Hs HQ; cbn [fmap list_fmap fuse_acts fuse_act length] in *.
  - wp_step. destruct s. eapply HQ; [exact H|exact Hy|exact Hs].
  - wp_step. unfold rdpdr_fuse_on_drive_query_directory_complete. rewrite Z.eqb_refl. rewrite filter_cons in HQ.
    destruct (has (FileAttributes fdi) FILE_ATTRIBUTE_HIDDEN) eqn:Eh.
    + wp_step. rewrite decide_False in HQ by (unfold visible; rewrite Eh; cbn; tauto). eapply (IH s m y seen); [done..|lia|done|done|done|exact HQ].
    + rewrite decide_True in HQ by (unfold visible; rewrite Eh; cbn; tauto). wp_step. eapply wp_deref; [exact Hx|]. wp_steps. rewrite Hxd.
      eapply fs_wp_mono; [|apply (query_add_spec w _ m d y); [done|done|lia|lia|done..]].
      intros _ f1 (m1 & H1 & L1). destruct (listed_dir w _ m d y fdi f1 m1 ltac:(lia) (proj1 H) Hy Hyd L1) as (y1 & Hy1 & Hyd1).
      destruct (listed_room _ _ _ _ _ _ _ L1 Hra Hr) as [Hr1 Hn1].
      pose proof (listed_syncing w _ m d y seen fdi f1 m1 H ltac:(lia) Hy Hc Hs L1) as S1.
      eapply (IH (set_fs f1 s) m1 y1); [done|done|done|fuse_cbn; lia|done|done|exact S1|].
      intros f2 m2 y2 H2 Hy2 S2. apply (HQ f2 m2 y2 H2 Hy2). eapply syncing_more; [|exact S2].
      intros nm. unfold names. cbn [fmap list_fmap]. rewrite !elem_of_app. rewrite filter_cons.
      destruct (is_dots (FileName fdi)) eqn:E; [by rewrite decide_False by done|]. rewrite decide_True by done.
      rewrite !elem_of_cons. tauto.
Qed.

Lemma wp_acts_app l l' (Q : unit -> fuse -> Prop) s :
  fuse_wp (fuse_acts w l) (fun _ s' => fuse_wp (fuse_acts w l') Q s') s -> fuse_wp (fuse_acts w (l ++ l')) Q s.
Proof.
  revert s. induction l as [|a l IH]; intros s H; [exact H|]. cbn [app fuse_acts] in *. unfold fuse_wp, mbind, FuseM_bind in *.
  destruct (fuse_act w a s) as [[[] s1]|]; [|done]. apply IH. exact H.
Qed.

(** [opendir] of a directory of the client, with nothing in the queue: the
    command is sent, or the request is answered and stays in the queue. *)
Lemma opendir_asks r d f s m y (Q : unit -> fuse -> Prop) : fuse_ok s m -> g_opendir_queue s = [] -> short m -> 2 <= d -> m !! d = Some y ->
  is_loc_resource y = false -> memory w ->
  (forall s' x path, fs_ok (fs s') (mark d <$> m) -> later (fs s) (fs s') -> infos s' !! next_ptr s = Some x -> info_inode x = d -> req x = r ->
     fi x = Some f -> is_Some (files s' !! f) -> g_opendir_queue s' = [mk_opendir r d f] ->
     (if accepts w (length (events s)) then irps s' = <[next_ptr s := DriveQueryDirectory path]> (irps s)
      else irps s' = irps s /\ head (events s') = Some (e_reply r (reply_buf []))) -> Q tt s') ->
  fuse_wp (fuse_act w (a_opendir r d f)) Q s.
Proof.
  intros O Hq Hs Hd Hy Hloc Hc HQ. cbn [fuse_act]. unfold new_file. wp_steps. unfold rdpdr_fuse_cb_opendir. wp_steps. fuse_cbn. rewrite Hq.
  pose proof (live_range s m d O ltac:(by eexists)) as Hr. pose proof (r_max _ _ (proj1 (o_fs _ _ O))) as Hmax. destruct (o_fs _ _ O) as [H T].
  cbn [app]. wp_step. unfold rdpdr_fuse_proc_opendir_req. wp_step. wp_step.
  eapply fs_wp_valid; [exact H|]. intros b Hb. rewrite i32_id in Hb by int_lia.
  rewrite (proj2 Hb) by (split; [lia|by eexists]). cbn [negb]. rewrite (proj2 (Z.eqb_neq d 1)) by lia.
  wp_steps. pose proof (r_next _ _ H). eapply fs_wp_table_at; [exact H|fuse_cbn; lia|intros E; congruence|]. intros p x Hx Hp. assert (x = y) as -> by congruence.
  wp_steps. eapply fs_wp_inode_at; [apply Hp|]. rewrite Hloc. wp_steps. rewrite i32_id by int_lia.
  eapply fs_wp_mono; [|apply (mark_spec _ m); [by split|lia]]. intros _ f1 [H1 L1]. wp_steps. fuse_cbn.
  eapply fs_wp_path; [done|by apply short_mark|lia|rewrite lookup_fmap, Hy; by eexists|lia|]. intros dev path _. wp_step.
  unfold new_info. wp_step. apply wp_new_ptr; intros Hcal; [|by rewrite Hc in Hcal]. wp_steps.
  unfold drive, fuse_wp at 1. fuse_cbn. destruct (accepts w (length (events s))); cbn [negb]; wp_steps;
    (eapply (HQ _ _ (share_path path)); fuse_cbn; [done|done|apply lookup_insert_eq|done..|rewrite lookup_insert_eq; by eexists|done|done]).
Qed.

(** The end of the listing. *)
Lemma listing_done r d f fip x s m y dev file data : fs_ok (fs s) m -> 2 <= d -> m !! d = Some y -> infos s !! fip = Some x -> info_inode x = d ->
  req x = r -> fi x = Some f -> is_Some (files s !! f) -> (exists path, irps s !! fip = Some (DriveQueryDirectory path)) ->
  g_opendir_queue s = [mk_opendir r d f] -> memory w ->
  fuse_wp (fuse_act w (a_complete fip 0 dev file data)) (fun _ s' => exists m', fs_ok (fs s') m' /\ sweeping m d (next_node (fs s')) m' /\
    head (events s') = Some (e_reply r reply_open) /\ g_opendir_queue s' = []) s.
Proof.
  intros H Hd Hy Hx Hxd Hxr Hxf Hf [path Hp] Hq Hc. cbn [fuse_act]. unfold complete. wp_step. eapply wp_deref; [exact Hp|]. wp_steps.
  unfold rdpdr_fuse_on_drive_query_directory_complete. cbn [Z.eqb STATUS_SUCCESS STATUS_NO_MORE_FILES Pos.eqb].
  unfold rdpdr_fuse_query_directory_done. wp_step. wp_step. eapply wp_deref; [exact Hx|]. cbn [Z.eqb negb STATUS_SUCCESS]. rewrite Hxd.
  pose proof (r_dom _ _ (proj1 H) d ltac:(by eexists)). pose proof (r_max _ _ (proj1 H)). wp_step. wp_steps.
  eapply fs_wp_valid; [apply H|]. intros b Hb. rewrite i32_id in Hb by int_lia. rewrite (proj2 Hb) by (split; [lia|by eexists]). cbn [negb].
  wp_steps. rewrite i32_id by int_lia. eapply fs_wp_mono; [|apply (sweep_spec _ m d y); done]. intros _ f' (m' & Hok & L & S). wp_steps.
  eapply wp_opt; [exact Hxf|]. wp_step. unfold open_dir. wp_step. apply wp_new_ptr; intros Hcal; [|by rewrite Hc in Hcal].
  wp_steps. apply wp_set_fh; [done|]. intros y'. wp_steps. eapply wp_free; [exact Hx|]. unfold dequeue, opendir_next. wp_steps. fuse_cbn. rewrite Hq.
  cbn [tail length opendir_loop]. wp_steps. fuse_cbn. exists m'. split; [done|]. fuse_cbn. rewrite (l_next _ _ L). by rewrite Hxr.
Qed.

Lemma listing_wp r d f l s m y dev file data : fuse_ok s m -> g_opendir_queue s = [] -> short m -> 2 <= d -> m !! d = Some y -> is_dir y = true ->
  is_loc_resource y = false -> accepts w (length (events s)) = true -> memory w -> (forall n, realloc w n = true) ->
  next_node (fs s) < max_entries (fs s) -> next_node (fs s) + Z.of_nat (length l) < 2 ^ 30 ->
  Forall (fun fdi => length (FileName fdi) < 256)%nat l ->
  fuse_wp (fuse_acts w (a_opendir r d f :: (a_entry (next_ptr s) <$> l) ++ [a_complete (next_ptr s) 0 dev file data])) (fun _ s' =>
    head (events s') = Some (e_reply r reply_open) /\ g_opendir_queue s' = [] /\ lists_names (table_map (fs s')) d (names (filter visible l))) s.
Proof.
  intros O Hq Hs Hd Hy Hyd Hloc Hacc Hc Hra Hr Hb Hl. cbn [fuse_acts]. wp_step. eapply (opendir_asks _ _ _ _ m y); try done.
  intros s1 x path H1 L1 Hx Hxd Hxr Hxf Hf Hq1 Hp. rewrite Hacc in Hp. apply wp_acts_app. pose proof (live_range s m d O ltac:(by eexists)) as Hdr.
  pose proof (r_max _ _ (proj1 (o_fs _ _ O))). assert (exists y1, (mark d <$> m) !! d = Some y1 /\ is_dir y1 = true) as (y1 & Hy1 & Hyd1).
  { rewrite lookup_fmap, Hy. cbn. eexists. split; [done|]. unfold mark. by destruct (_ =? _). }
  rewrite <- (l_next _ _ L1), <- (l_max _ _ L1) in Hr. rewrite <- (l_next _ _ L1) in Hb.
  eapply (entries_wp _ x d l s1 (mark d <$> m) y1 []); [done..|lia|done|done|done|done|done|apply syncing_mark|].
  intros f' m' y' Hok Hy' S. rewrite app_nil_r in S. cbn [fuse_acts]. wp_step. eapply wp_mono; [|eapply (listing_done r d f _ x _ m' y'); try done; exists path; fuse_cbn; rewrite Hp; apply lookup_insert_eq].
  intros _ s2 (m2 & Hok2 & Sw & Hh & Hq2). wp_step. split; [done|]. split; [done|].
  rewrite (table_map_repr _ m2) by apply Hok2. eapply swept_names; [apply Hok|done|done|exact Sw| |done].
  intros i Hi. apply (r_dom _ _ (proj1 Hok2)), Hi.
Qed.

End Listing.

(** ** Reading the directory to its end *)

Section Reading.
Context (w : World) (Hde : direntry_ok w).

Definition short_names (l : list (list Z * Z)) : Prop := Forall (fun e => length e.1 < 256)%nat l.

Lemma childs_names m d i n : tree m -> short_names (childs m d i n).
Proof.
  intros T. unfold short_names, childs. apply Forall_forall. intros [nm j] (k & _ & Hk)%list_elem_of_omap.
  destruct (m !! k) as [x|] eqn:Hx; [|done]. destruct (_ =? _); [|done]. injection Hk as <- _. exact (t_name _ T _ _ Hx).
Qed.

(** A buffer after entries that fit. *)
Lemma fill_fits b l : fits w b l -> short_names l ->
  fst <$> snd (fill w b l) = (fst <$> snd b) ++ l /\ fst b <= fst (fill w b l) /\ (l <> [] -> fst b < fst (fill w b l)).
Proof.
  revert b. induction l as [|[nm ino] l IH]; intros b Hf Hn; [by rewrite app_nil_r|]. apply Forall_cons in Hn as [Hn Hl]. cbn [fits fill] in *.
  destruct Hf as [Hb Hf]. rewrite add_fits in * by done. cbn [snd] in *. destruct (IH _ Hf Hl) as (E1 & E2 & _). cbn [fst snd] in *.
  pose proof (Hde nm Hn). split; [|lia]. rewrite E1, fmap_app, <- app_assoc. done.
Qed.

(** What the replies list, the first one first. *)
Definition replied (l : list event) : list (list Z * Z) :=
  concat (rev ((fun e => match e with e_reply _ (reply_dir en) => fst <$> en | _ => [] end) <$> l)).

Lemma replied_snoc e l : replied (l ++ [e]) = replied [e] ++ replied l.
Proof. unfold replied. rewrite fmap_app, rev_app_distr. cbn. by rewrite app_nil_r. Qed.

Definition at_end (l : list event) : Prop := exists r, head l = Some (e_reply r (reply_buf [])).

(** A directory [f] that is open at the slot [k]. *)
Definition reading (s : fuse) (m : gmap Z RDPDR_INODE) (d : Z) (f di : nat) (k : Z) : Prop :=
  exists m', synced m m' /\ fs_ok (fs s) m' /\ is_Some (m !! d) /\ (exists fl, files s !! f = Some (mk_file fl (fh_dir di))) /\ dirs s !! di = Some k.

Lemma synced_live m m' d : synced m m' -> is_Some (m !! d) -> is_Some (m' !! d).
Proof. intros S Hd. destruct (S d) as [->|(x & _ & ->)]; [done|by eexists]. Qed.

Lemma synced_names m m' d y y' : synced m m' -> m !! d = Some y -> m' !! d = Some y' -> parent_inode y' = parent_inode y.
Proof. intros S Hy Hy'. destruct (S d) as [E|(z & Hz & E)]; rewrite E in Hy'; [congruence|]. injection Hy' as <-. cbn. congruence. Qed.

(** One call. *)
Lemma readdir_call r d f di k s m (Q : unit -> fuse -> Prop) : reading s m d f di k -> 1 <= d < 2 ^ 31 -> 1 <= k <= next_node (fs s) ->
  (forall s' k' y l, reading s' m d f di k' -> next_node (fs s') = next_node (fs s) -> k <= k' <= next_node (fs s) -> m !! d = Some y ->
     l = with_dots d (parent_inode y) (k =? FIRST_INODE) (childs m d k (k' - k)) ->
     stopped w m d (next_node (fs s)) k' (fill w (0, []) l) -> fits w (0, []) l -> short_names l ->
     (exists e, events s' = e :: events s /\ replied [e] = l /\ (l = [] -> e = e_reply r (reply_buf []))) -> Q tt s') ->
  fuse_wp (rdpdr_fuse_cb_readdir w r d f) Q s.
Proof.
  intros (m' & S & [H T] & [y Hy] & [fl Hf] & Hk) Hd Hkr HQ. unfold rdpdr_fuse_cb_readdir. wp_steps.
  destruct (synced_live _ _ d S ltac:(by eexists)) as [y' Hy']. pose proof (synced_names _ _ _ _ _ S Hy Hy') as Ey.
  eapply fs_wp_valid; [exact H|]. intros b Hb. rewrite i32_id in Hb by int_lia. rewrite (proj2 Hb) by (split; [lia|by eexists]). cbn [negb].
  wp_step. eapply wp_deref; [exact Hf|]. cbn [file_fh]. wp_step. eapply wp_deref; [exact Hk|]. wp_steps. fs_step. wp_steps. rewrite (r_num _ _ H).
  assert (forall f' m2 k' l, fs_ok f' m2 -> later (fs s) f' -> synced m' m2 -> k <= k' <= next_node (fs s) ->
    l = with_dots d (parent_inode y) (k =? FIRST_INODE) (childs m d k (k' - k)) -> fits w (0, []) l ->
    stopped w m d (next_node (fs s)) k' (fill w (0, []) l) ->
    fuse_wp (let '(bytes_in_buf, entries, index) := (fill w (0, []) l, k') in
       _ ← update (fun s => set_dirs (<[di := index]> (dirs s)) s);
       if bytes_in_buf =? 0 then answer r (reply_buf []) else answer r (reply_dir entries)) Q (set_fs f' (set_fs (fs s) (set_fs (fs s) s)))) as Hend.
  { intros f' m2 k' l Hok L S2 Hk' El Hfi Hst. assert (short_names l) as Hnm.
    { rewrite El. pose proof (childs_names m' d k (k' - k) T) as Hc. rewrite (synced_childs _ _ _ _ _ S) in Hc.
      unfold with_dots. destruct (k =? FIRST_INODE); [|done]. destruct (childs m d k (k' - k)); [done|].
      do 2 (constructor; [cbn; lia|]). done. }
    destruct (fill_fits (0, []) l Hfi Hnm) as (E1 & E2 & E3). destruct (fill w (0, []) l) as [nb en] eqn:Efill. rewrite ?Efill in *. cbn [fst snd fmap list_fmap app] in *.
    assert (reading (set_dirs (<[di := k']> (dirs s)) (set_fs f' s)) m d f di k') as R.
    { exists m2. split; [by eapply synced_trans|]. split; [done|]. split; [by eexists|]. split; [by exists fl|]. apply lookup_insert_eq. }
    wp_step. wp_step. destruct (Z.eqb_spec nb 0) as [->|Hnz]; wp_step; fuse_cbn.
    - eapply (HQ _ k' y l); [exact R|fuse_cbn; by rewrite (l_next _ _ L)|done|done|done|by rewrite Efill|done|done|]. eexists. split; [done|].
      destruct l; [done|]. assert (0 < 0) by (by apply E3). lia.
    - eapply (HQ _ k' y l); [exact R|fuse_cbn; by rewrite (l_next _ _ L)|done|done|done|by rewrite Efill|done|done|]. eexists. split; [done|]. split; [cbn; by rewrite app_nil_r, E1|].
      intros ->. cbn in Efill. injection Efill as <- _. done. }
  destruct (Z.eqb_spec k FIRST_INODE) as [->|Hne].
  - eapply readdir_first; [by split|exact Hde|lia|exact Hy'|unfold FIRST_INODE; lia|unfold FIRST_INODE in *; lia|].
    intros f' m2 k' Hok L S2 Hk' l Hfi Hst. subst l. rewrite Ey, (synced_childs _ _ _ _ _ S) in *. by apply (Hend _ m2); [..|eapply synced_stopped].
  - eapply readdir_rest; [by split|exact Hde|lia|lia|lia|]. intros f' m2 k' Hok L S2 Hk' Hfi Hst. rewrite (synced_childs _ _ _ _ _ S) in *.
    by apply (Hend _ m2); [..|eapply synced_stopped].
Qed.

(** One request after the other. *)
Fixpoint readdirs (d : Z) (f : nat) (rs : list Z) : FuseM unit :=
  match rs with
  | [] => skip
  | r :: rs => _ ← rdpdr_fuse_cb_readdir w r d f; readdirs d f rs
  end.

(** What [reading] says of the names and the root. *)
Lemma reading_tree s m d f di k : reading s m d f di k -> (forall i x, m !! i = Some x -> (length (name x) < 256)%nat) /\ parents m !! 1 = Some 0.
Proof.
  intros (m' & S & [_ T] & _). split.
  - intros i x Hx. destruct (S i) as [E|(y & Hy & E)]; [rewrite Hx in E; exact (t_name _ T _ _ E)|]. assert (y = x) as -> by congruence.
    exact (t_name _ T _ _ E).
  - pose proof (t_root _ T) as (x & Hx & Hp)%lookup_parents. apply lookup_parents.
    destruct (S 1) as [E|(y & Hy & E)]; [exists x; by rewrite <- E|]. rewrite Hx in E. injection E as ->. by exists y.
Qed.

(** The entries from the slot [k] on. *)
Lemma readdirs_rest d f di k rs s m : reading s m d f di k -> 1 <= d < 2 ^ 31 -> 1 < k <= next_node (fs s) ->
  (length (childs m d k (next_node (fs s) - k)) < length rs)%nat ->
  fuse_wp (readdirs d f rs) (fun _ s' => exists l, events s' = l ++ events s /\ replied l = childs m d k (next_node (fs s) - k) /\ at_end l) s.
Proof.
  revert k s. induction rs as [|r rs IH]; intros k s R Hd Hk Hlen; [cbn in Hlen; lia|]. cbn [readdirs]. wp_step.
  eapply readdir_call; [exact R|done|lia|]. intros s1 k' y l R1 Hn Hk' Hy El Hst Hfi Hnm (e & Ee & Er & Eb).
  rewrite (proj2 (Z.eqb_neq k FIRST_INODE)) in El by (unfold FIRST_INODE; lia). cbn [with_dots] in El.
  assert (childs m d k (next_node (fs s) - k) = l ++ childs m d k' (next_node (fs s) - k')) as Esplit.
  { rewrite El. replace (next_node (fs s) - k) with ((k' - k) + (next_node (fs s) - k')) by lia. rewrite childs_app by lia.
    by replace (k + (k' - k)) with k' by lia. }
  rewrite Esplit in *. assert (l = [] -> k' = next_node (fs s)) as Hend.
  { intros ->. destruct Hst as [->|(_ & x & Hx & _ & Hf)]; [done|]. destruct (reading_tree _ _ _ _ _ _ R) as [Hnames _].
    pose proof (Hde (name x) (Hnames _ _ Hx)). cbn in Hf. lia. }
  rewrite length_app in Hlen. cbn [length] in Hlen. destruct rs as [|r' rs].
  - cbn [readdirs length] in *. wp_step. destruct l; [|cbn in Hlen; lia]. rewrite (Hend eq_refl), Z.sub_diag, childs_nil. exists [e].
    split; [done|]. split; [done|]. exists r. cbn. by rewrite Eb.
  - eapply wp_mono; [|apply (IH k' s1 R1 Hd); [lia|]].
    + intros _ s2 (l2 & El2 & Er2 & Ea2). rewrite Hn in Er2. exists (l2 ++ [e]). rewrite El2, Ee, <- app_assoc. split; [done|].
      rewrite replied_snoc, Er, Er2. split; [done|]. destruct Ea2 as [r2 Hr2]. exists r2. by destruct l2.
    + rewrite Hn. destruct l as [|c l]; [|cbn [length] in *; lia]. rewrite (Hend eq_refl), Z.sub_diag, childs_nil. cbn. lia.
Qed.

(** From the start of the directory: every entry once, after [.] and [..]. *)
Lemma readdirs_all d f di rs s m y : reading s m d f di FIRST_INODE -> 1 <= d < 2 ^ 31 -> m !! d = Some y ->
  (length (childs m d 1 (next_node (fs s) - 1)) < length rs)%nat ->
  fuse_wp (readdirs d f rs) (fun _ s' => exists l, events s' = l ++ events s /\ at_end l /\
    replied l = with_dots d (parent_inode y) true (childs m d 1 (next_node (fs s) - 1))) s.
Proof.
  intros R Hd Hy Hlen. destruct rs as [|r rs]; [cbn in Hlen; lia|]. cbn [readdirs]. wp_step. destruct (reading_tree _ _ _ _ _ _ R) as [Hnames Hroot].
  assert (3 <= next_node (fs s)) as H3. { destruct R as (m' & _ & [H _] & _). pose proof (r_next _ _ H). lia. }
  eapply readdir_call; [exact R|done|unfold FIRST_INODE; lia|]. intros s1 k' y' l R1 Hn Hk' Hy' El Hst Hfi Hnm (e & Ee & Er & Eb).
  assert (y' = y) as -> by congruence. cbn [Z.eqb FIRST_INODE Pos.eqb] in El. unfold FIRST_INODE in *.
  assert (childs m d 1 (next_node (fs s) - 1) = childs m d 1 (k' - 1) ++ childs m d k' (next_node (fs s) - k')) as Esplit.
  { replace (next_node (fs s) - 1) with ((k' - 1) + (next_node (fs s) - k')) by lia. rewrite childs_app by lia.
    by replace (1 + (k' - 1)) with k' by lia. }
  assert (k' <> 1) as Hk1.
  { intros ->. destruct Hst as [?|(_ & x & Hx & Hp & _)]; [lia|]. rewrite (parents_lookup _ _ _ Hx) in Hroot. injection Hroot. lia. }
  assert (childs m d 1 (k' - 1) = [] -> l = [] /\ k' = next_node (fs s)) as Hend.
  { intros E. rewrite E in El. cbn in El. subst l. split; [done|]. destruct Hst as [->|(_ & x & Hx & _ & Hf)]; [done|].
    pose proof (Hde (name x) (Hnames _ _ Hx)). cbn in Hf. lia. }
  assert (l ++ childs m d k' (next_node (fs s) - k') = with_dots d (parent_inode y) true (childs m d 1 (next_node (fs s) - 1))) as Eall.
  { rewrite Esplit, El. destruct (childs m d 1 (k' - 1)) as [|c cs]; [|done]. destruct (Hend eq_refl) as [_ ->]. by rewrite Z.sub_diag. }
  rewrite <- Eall. rewrite Esplit, length_app in Hlen. cbn [length] in Hlen. destruct rs as [|r' rs].
  - cbn [readdirs length] in *. wp_step. destruct (childs m d 1 (k' - 1)); [|cbn in Hlen; lia]. destruct (Hend eq_refl) as [-> ->]. exists [e].
    split; [done|]. rewrite Z.sub_diag, childs_nil. split; [|done]. exists r. cbn. by rewrite Eb.
  - eapply wp_mono; [|apply (readdirs_rest d f di k' _ s1 m R1 Hd); [lia|]].
    + intros _ s2 (l2 & El2 & Er2 & Ea2). rewrite Hn in Er2. exists (l2 ++ [e]). rewrite El2, Ee, <- app_assoc. split; [done|].
      rewrite replied_snoc, Er, Er2. split; [|done]. destruct Ea2 as [r2 Hr2]. exists r2. by destruct l2.
    + rewrite Hn. destruct (childs m d 1 (k' - 1)); [|cbn [length] in *; lia]. destruct (Hend eq_refl) as [_ ->]. rewrite Z.sub_diag, childs_nil. cbn. lia.
Qed.

End Reading.

(** ** A listing that cannot be sent

    When the client cannot be asked for a directory the request is answered,
    but it stays at the head of the queue: only the completion of a listing
    removes it, and there is none under way.  Later requests wait for ever. *)

Definition is_query (c : command) : bool := match c with DriveQueryDirectory _ => true | _ => false end.

Definition no_query (s : fuse) : Prop := forall p c, irps s !! p = Some c -> is_query c = false.

(** No listing is started or finished. *)
Definition quiet (s s' : fuse) : Prop := g_opendir_queue s' = g_opendir_queue s /\ no_query s'.

Lemma quiet_same s s' : no_query s -> g_opendir_queue s' = g_opendir_queue s -> irps s' = irps s -> quiet s s'.
Proof. intros N Hq E. split; [done|]. intros p c. rewrite E. apply N. Qed.

Lemma quiet_sent s s' p c : no_query s -> g_opendir_queue s' = g_opendir_queue s -> irps s' = <[p := c]> (irps s) -> is_query c = false -> quiet s s'.
Proof. intros N Hq E Hc. split; [done|]. intros p' c'. rewrite E, lookup_insert_Some. intros [[_ <-]|[_ Hp]]; [done|by apply (N p')]. Qed.

Ltac quiet_tac := fuse_cbn;
  first [ eapply quiet_same; [eassumption|fuse_cbn; done..]
        | eapply quiet_sent; [eassumption|fuse_cbn; done|fuse_cbn; done|done]
        | eapply quiet_sent; [eassumption|fuse_cbn; done|fuse_cbn; done|by match goal with |- context [if ?b then _ else _] => destruct b end] ].

Section Blocked.
Context (w : World).

Lemma create_quiet r parent nm f type s : no_query s -> fuse_wlp (rdpdr_fuse_create_dir_or_file w r parent nm f type) (fun _ s' => quiet s s') s.
Proof. intros N. unfold rdpdr_fuse_create_dir_or_file. exec; quiet_tac. Qed.

Lemma mkdir_quiet r parent nm s : no_query s -> fuse_wlp (rdpdr_fuse_cb_mkdir w r parent nm) (fun _ s' => quiet s s') s.
Proof.
  intros N. unfold rdpdr_fuse_cb_mkdir. exec_step. apply wlp_in_fs. intros o g. destruct o; [exec; quiet_tac|].
  eapply wlp_mono; [|by apply create_quiet]. by intros.
Qed.

Lemma remove_quiet r parent nm type s : no_query s -> fuse_wlp (rdpdr_fuse_remove_dir_or_file w r parent nm type) (fun _ s' => quiet s s') s.
Proof. intros N. unfold rdpdr_fuse_remove_dir_or_file. exec; quiet_tac. Qed.

Lemma complete_quiet fip st dev file data s : no_query s -> fuse_wlp (complete w fip st dev file data) (fun _ s' => quiet s s') s.
Proof.
  intros N. unfold complete. exec_step. apply wlp_deref. intros c Hc. pose proof (N fip c Hc) as Hq. do 2 exec_step.
  eapply (wlp_mono _ (fun _ s' => quiet (set_irps (delete fip (irps s)) s) s')); [done|].
  assert (no_query (set_irps (delete fip (irps s)) s)) as N1. { intros p c'. fuse_cbn. intros [_ Hp]%lookup_delete_Some. by apply (N p). }
  destruct c; [| |done|..].
  - unfold rdpdr_fuse_on_drive_create_directory_complete. exec; quiet_tac.
  - unfold rdpdr_fuse_on_drive_delete_directory_complete, delete_complete. exec; quiet_tac.
  - unfold rdpdr_fuse_on_drive_open_file_complete, open_reply_create. exec; quiet_tac.
  - unfold rdpdr_fuse_on_drive_read_file_complete. exec; quiet_tac.
  - unfold rdpdr_fuse_on_drive_write_file_complete. exec; quiet_tac.
  - unfold rdpdr_fuse_on_drive_close_file_complete. exec; quiet_tac.
  - unfold rdpdr_fuse_on_drive_delete_file_complete, delete_complete. exec; quiet_tac.
  - unfold rdpdr_fuse_on_drive_rename_file_complete, rename_target. exec; quiet_tac.
Qed.

Lemma read_quiet r ino size off f s : no_query s -> fuse_wlp (rdpdr_fuse_cb_read w r ino size off f) (fun _ s' => quiet s s') s.
Proof. intros N. unfold rdpdr_fuse_cb_read. exec; quiet_tac. Qed.

(** The request of [opendir] that an action adds to the queue. *)
Definition opens (a : fuse_action) : list Z := match a with a_opendir r _ _ => [r] | _ => [] end.

Definition waits (a : fuse_action) (s s' : fuse) : Prop :=
  no_query s' /\ exists q, g_opendir_queue s' = g_opendir_queue s ++ q /\ od_req <$> q = opens a.

Lemma act_waits a s : no_query s -> g_opendir_queue s <> [] -> fuse_wlp (fuse_act w a) (fun _ s' => waits a s s') s.
Proof.
  intros N Hne. assert (forall (c : FuseM unit), opens a = [] -> fuse_wlp c (fun _ s' => quiet s s') s -> fuse_wlp c (fun _ s' => waits a s s') s) as Hq.
  { intros c E. apply wlp_mono. intros _ s' [Eq N']. split; [done|]. exists []. by rewrite app_nil_r. }
  destruct a; cbn [fuse_act].
  - apply Hq; [done|]. unfold rdpdr_fuse_cb_lookup. exec; quiet_tac.
  - apply Hq; [done|]. unfold rdpdr_fuse_cb_getattr. exec; quiet_tac.
  - apply Hq; [done|]. unfold rdpdr_fuse_cb_setattr. exec; quiet_tac.
  - unfold new_file. do 2 exec_step. unfold rdpdr_fuse_cb_opendir. do 2 exec_step. fuse_cbn. destruct (g_opendir_queue s) as [|od q] eqn:Eq; [done|].
    do 3 exec_step. split; [done|]. exists [mk_opendir r ino f]. fuse_cbn. by rewrite Eq.
  - apply Hq; [done|]. unfold rdpdr_fuse_cb_readdir. exec; quiet_tac.
  - apply Hq; [done|]. unfold rdpdr_fuse_cb_releasedir. exec; quiet_tac.
  - apply Hq; [done|]. by apply mkdir_quiet.
  - apply Hq; [done|]. unfold new_file. do 2 exec_step. eapply wlp_mono; [|by apply create_quiet]. by intros.
  - apply Hq; [done|]. by apply remove_quiet.
  - apply Hq; [done|]. by apply remove_quiet.
  - apply Hq; [done|]. unfold rdpdr_fuse_cb_rename, rename_path. exec; quiet_tac.
  - apply Hq; [done|]. unfold rdpdr_fuse_cb_open. exec; quiet_tac.
  - apply Hq; [done|]. unfold rdpdr_fuse_cb_release. exec; quiet_tac.
  - apply Hq; [done|]. by apply read_quiet.
  - apply Hq; [done|]. unfold rdpdr_fuse_cb_write. exec; quiet_tac.
  - apply Hq; [done|]. exec; quiet_tac.
  - apply Hq; [done|]. unfold rdpdr_fuse_on_drive_query_directory_complete. rewrite Z.eqb_refl. exec; quiet_tac.
  - apply Hq; [done|]. by apply complete_quiet.
  - apply Hq; [done|]. unfold rdpdr_fuse_file_contents_range. exec; quiet_tac.
  - apply Hq; [done|]. exec; quiet_tac.
  - apply Hq; [done|]. exec; quiet_tac.
  - apply Hq; [done|]. exec; quiet_tac.
  - apply Hq; [done|]. exec; quiet_tac.
Qed.

End Blocked.

Definition opened (l : list (World * fuse_action)) : list Z := concat ((fun wa => opens wa.2) <$> l).

Lemma run_waits l s s' : fuse_run l s s' -> no_query s -> g_opendir_queue s <> [] ->
  no_query s' /\ exists q, g_opendir_queue s' = g_opendir_queue s ++ q /\ od_req <$> q = opened l.
Proof.
  induction 1 as [s|l w a s s' s'' Hr IH Ha]; intros N Hne.
  - split; [done|]. exists []. by rewrite app_nil_r.
  - destruct (IH N Hne) as (N' & q & Eq & Er). assert (g_opendir_queue s' <> []) as Hne' by (rewrite Eq; by destruct (g_opendir_queue s)).
    pose proof (act_waits w a s' N' Hne') as W. unfold fuse_wlp in W. rewrite Ha in W. destruct W as (N'' & q' & Eq' & Er').
    split; [done|]. exists (q ++ q'). rewrite Eq', Eq, app_assoc. split; [done|]. unfold opened. rewrite !fmap_app, concat_app, Er, Er'.
    cbn. by rewrite app_nil_r.
Qed.

(** Later requests of [opendir] are not answered. *)
Lemma blocked_unanswered l s s' r : fuse_run l s s' -> links s -> no_query s -> g_opendir_queue s <> [] -> NoDup (requests l ++ tally s) ->
  r ∈ opened l -> r ∉ answered s'.
Proof.
  intros Hr K N Hne Hnd Hop Ha. destruct (run_account l s s' Hr K) as (lost & _ & P & _). destruct (run_waits l s s' Hr N Hne) as (_ & q & Eq & Er).
  rewrite P in Hnd. apply NoDup_app in Hnd as (Hnd & _ & _). unfold tally in Hnd. apply NoDup_app in Hnd as (_ & Hnd & _).
  apply (Hnd r Ha). unfold owed. rewrite !elem_of_app. right. left. rewrite Eq. destruct (g_opendir_queue s) as [|od q0]; [done|]. cbn [app tail].
  rewrite fmap_app, elem_of_app, Er. by right.
Qed.

(** [opendir] when the command cannot be sent. *)
Lemma opendir_refused w r d f s m y : fuse_ok s m -> g_opendir_queue s = [] -> short m -> 2 <= d -> m !! d = Some y ->
  is_loc_resource y = false -> accepts w (length (events s)) = false -> memory w ->
  fuse_wp (fuse_act w (a_opendir r d f)) (fun _ s' => head (events s') = Some (e_reply r (reply_buf [])) /\
    g_opendir_queue s' = [mk_opendir r d f] /\ irps s' = irps s) s.
Proof.
  intros O Hq Hs Hd Hy Hloc Hacc Hc. eapply (opendir_asks _ _ _ _ _ m y); try done. rewrite Hacc. by intros s' x path _ _ _ _ _ _ _ Hq' [Hi He].
Qed.

(** ** Pointers that the code keeps too long

    A callback is undefined when its weakest liberal precondition holds of
    [False]: every path of it ends in an undefined access. *)

Definition undefined {A} (c : FuseM A) (s : fuse) : Prop := fuse_wlp c (fun _ _ => False) s.

Lemma undefined_none {A} (c : FuseM A) s : undefined c s -> c s = None.
Proof. unfold undefined, fuse_wlp. by destruct (c s) as [[]|]. Qed.

Lemma wlp_fs {A} (c : FsM A) (Q : A -> fuse -> Prop) s : fs_wp c (fun a f => Q a (set_fs f s)) (fs s) -> fuse_wlp (in_fs c) Q s.
Proof. unfold fs_wp, fuse_wlp, in_fs. by destruct (c (fs s)) as [[a f]|]. Qed.

Lemma wlp_memory w (Q : option nat -> fuse -> Prop) s : memory w -> Q (Some (next_ptr s)) (set_next_ptr (S (next_ptr s)) s) -> fuse_wlp (new_ptr w) Q s.
Proof. intros Hc H. unfold fuse_wlp, new_ptr. by rewrite Hc. Qed.

Lemma wlp_lost f v (Q : unit -> fuse -> Prop) s : files s !! f = None -> fuse_wlp (set_fh f v) Q s.
Proof. intros Hf. unfold set_fh. apply wlp_bind, wlp_deref. congruence. Qed.

Lemma release_undefined w r ino f s m x : fuse_ok s m -> memory w -> 2 <= ino -> m !! ino = Some x -> is_loc_resource x = false -> nopen x <> 0 ->
  undefined (rdpdr_fuse_cb_release w r ino f) s.
Proof.
  intros O Hc Hi Hx Hloc Hn. destruct (o_fs _ _ O) as [H T]. pose proof (live_range _ _ _ O ltac:(by eexists)) as Hr. pose proof (r_next _ _ H). pose proof (r_max _ _ H).
  unfold undefined, rdpdr_fuse_cb_release. exec_step. apply wlp_deref. intros y Hy. exec_step. apply wlp_fs.
  eapply fs_wp_valid; [exact H|]. intros b Hb. rewrite i32_id in Hb by int_lia. rewrite (proj2 Hb) by (split; [lia|by eexists]). cbn [negb].
  exec_step. apply wlp_fs. fuse_cbn. eapply fs_wp_table_at; [exact H|lia|congruence|]. intros p x' Hx' Hp. assert (x' = x) as -> by congruence.
  exec_step. apply wlp_fs. fuse_cbn. eapply fs_wp_inode_at; [apply Hp|]. rewrite Hloc, (proj2 (Z.eqb_neq _ _) Hn).
  destruct (file_fh y) as [|h|di]; [exec_step| |exec_step].
  exec_step. apply wlp_deref. intros hd _. exec_step. unfold new_info. exec_step. apply wlp_memory; [done|]. do 5 exec_step. cbn beta match.
  do 5 exec_step. apply wlp_deref. fuse_cbn. intros v Hv. by rewrite lookup_delete_eq in Hv.
Qed.

(** The completion of an opening writes to the [fuse_file_info]. *)
Lemma expired_undefined w fip c x f dev file data s m : fuse_ok s m -> memory w -> irps s !! fip = Some c -> infos s !! fip = Some x ->
  opening c = true -> fi x = Some f -> is_Some (m !! info_inode x) -> undefined (fuse_acts w [a_expire f; a_complete fip 0 dev file data]) s.
Proof.
  intros O Hm Hc Hx Ho Hf Hl. unfold undefined. cbn [fuse_acts fuse_act]. do 3 exec_step. unfold complete. exec_step. apply wlp_deref. fuse_cbn.
  intros c' Hc'. rewrite Hc in Hc'. injection Hc' as <-. do 2 exec_step. fuse_cbn. destruct c; try done.
  - pose proof (o_pend _ _ _ (o_rest _ _ O) _ _ _ Hc Hx) as (_ & Hi & _). destruct (o_fs _ _ O) as [H T]. pose proof (r_max _ _ H).
    change (0 =? STATUS_SUCCESS) with true. unfold rdpdr_fuse_on_drive_query_directory_complete. cbn [Z.eqb STATUS_NO_MORE_FILES STATUS_SUCCESS Pos.eqb].
    unfold rdpdr_fuse_query_directory_done. do 2 exec_step. apply wlp_deref. fuse_cbn. intros x' Hx'. rewrite Hx in Hx'. injection Hx' as <-.
    cbn [Z.eqb negb STATUS_SUCCESS]. do 2 exec_step. apply wlp_fs. fuse_cbn. eapply fs_wp_valid; [exact H|]. intros b Hb. rewrite i32_id in Hb by int_lia.
    rewrite (proj2 Hb) by (split; [lia|done]). cbn [negb]. do 3 exec_step. apply wlp_opt. intros f' Hf'. rewrite Hf in Hf'. injection Hf' as <-.
    exec_step. unfold open_dir. exec_step. apply wlp_memory; [done|]. cbn beta match. do 2 exec_step. apply wlp_lost. fuse_cbn. apply lookup_delete_eq.
  - unfold rdpdr_fuse_on_drive_open_file_complete. exec_step. apply wlp_deref. fuse_cbn. intros x' Hx'. rewrite Hx in Hx'. injection Hx' as <-.
    cbn [Z.eqb negb]. rewrite Hf. do 2 exec_step. apply wlp_memory; [done|]. cbn beta match. do 3 exec_step. apply wlp_lost. fuse_cbn. apply lookup_delete_eq.
Qed.
