(* ===== verification/FuseTheorems.v ===== *)
(** * Properties of the redirected drives *)

From S2P Require Import Prelude FuseTypes FuseTable FuseCallbacks FuseHandlers FuseRun FuseRepr FuseTree FuseOps FuseSync FuseRequests FuseReaddir FuseInvariant FuseCompletions FuseMoves FuseListing.
From stdpp Require Import gmap list.
#[local] Open Scope Z_scope.

(** ** A concrete environment *)

(** Memory never runs out and every command is accepted when [up]. *)
Definition demo_world (up : bool) : World :=
  mk_world 7 8 (fun n => Z.of_nat n) (fun _ => true) (fun _ => true) (fun _ => up) (fun nm => Z.min 1024 ((24 + Z.of_nat (length nm) + 7) / 8 * 8)).

Definition next (w : World) (a : fuse_action) (s : fuse) : fuse :=
  match fuse_act w a s with Some (_, s') => s' | None => s end.

Definition demo_0 : fuse := match fuse_start (demo_world true) with Some s => s | None => mk_fuse (mk_fs [] 0 0 0 ∅ 0) ∅ ∅ ∅ ∅ [] [] 0 ∅ [] end.
(** The drive C, as inode 3. *)
Definition demo_1 : fuse := next (demo_world true) (a_drive_create 5 (Some [67])) demo_0.

Lemma demo_start : fuse_start (demo_world true) = Some demo_0.
Proof. vm_compute. reflexivity. Qed.

Lemma demo_direntry up : direntry_ok (demo_world up).
Proof. intros nm Hl. cbn -[Z.min Z.div]. pose proof (Z.div_le_lower_bound (24 + Z.of_nat (length nm) + 7) 8 3). lia. Qed.

(** All inodes of a map that can be computed. *)
Lemma all_inodes (P : Z -> RDPDR_INODE -> bool) (m : gmap Z RDPDR_INODE) : forallb (fun ix => P ix.1 ix.2) (map_to_list m) = true ->
  forall i x, m !! i = Some x -> P i x = true.
Proof. intros H i x Hx. rewrite forallb_forall in H. apply (H (i, x)), list_elem_of_In, elem_of_map_to_list, Hx. Qed.

(** Short paths, when every inode below the root is a share or is in a share. *)
Definition name_ok (x : RDPDR_INODE) : bool := negb (bool_decide (slash ∈ name x)) && (Z.of_nat (length (name x)) <? 256).

Lemma name_ok_spec x : name_ok x = true -> plain (name x) /\ Z.of_nat (length (name x)) < 256.
Proof.
  unfold name_ok. intros [H1 H2]%andb_true_iff. split; [|lia]. by destruct (bool_decide_reflect (slash ∈ name x)).
Qed.

Definition shallow (m : gmap Z RDPDR_INODE) (i : Z) (x : RDPDR_INODE) : bool :=
  (i <? 2) || name_ok x &&
    ((parent_inode x =? 1) || match m !! parent_inode x with Some y => name_ok y && (parent_inode y =? 1) | None => true end).

Lemma demo_short s : forallb (fun ix => shallow (table_map s) ix.1 ix.2) (map_to_list (table_map s)) = true -> short (table_map s).
Proof.
  intros H i l dev Hi Hp. set (m := table_map s) in *.
  destruct Hp as [i x Hx Hp|i x l dev Hx Hp Hl]; pose proof (all_inodes (shallow m) _ H i x Hx) as E; unfold shallow in E;
    rewrite (proj2 (Z.ltb_ge i 2)) in E by lia; cbn [orb] in E; apply andb_true_iff in E as [[Hx1 Hx2]%name_ok_spec E].
  - split; [by apply Forall_singleton|cbn; lia].
  - rewrite (proj2 (Z.eqb_neq _ _)) in E by done. destruct Hl as [i' y Hy Hp'|i' y l dev Hy Hp' _];
      rewrite Hy in E; apply andb_true_iff in E as [[Hy1 Hy2]%name_ok_spec E]; [|lia].
    split; [by repeat constructor|]. cbn [app slashed]. rewrite length_app. cbn [length]. lia.
Qed.

(** A step of a run that can be computed. *)
Lemma demo_step w a s s' : fuse_ok s (table_map (fs s)) -> action_ok w a s (table_map (fs s)) -> fuse_act w a s = Some (tt, s') ->
  fuse_ok s' (table_map (fs s')).
Proof.
  intros O Ha E. destruct (act_safe w a s _ O Ha) as (s1 & m1 & E1 & O1). rewrite E in E1. injection E1 as <-.
  by rewrite (table_map_repr _ m1) by apply O1.
Qed.

Lemma safe_cons w a l s s' : action_ok w a s (table_map (fs s)) -> fuse_act w a s = Some (tt, s') -> fuse_safe l s' -> fuse_safe ((w, a) :: l) s.
Proof. intros Ha E Hl. cbn [fuse_safe]. rewrite E. by split. Qed.

(** ** The inode table *)

(** C7. A run from the start whose actions all meet
    [action_ok] when they begin is defined: no null or freed pointer is used and
    no array is left; and the table is a tree afterwards: every inode has its
    place, its parent is a directory above it, and the number of entries of a
    directory is what is stored in it. [action_ok] is a real restriction, and
    asks of the run: (1) an open remote file is never released, and FUSE does
    not drop a [fuse_file_info] while an opening that stored it is under way
    (the code is undefined in both cases); (2) FUSE passes inode
    numbers below 2^31, opens and fills only directories as directories, passes
    file handles that it was given and that are live, and does not change the
    type of a file with [setattr]; (3) names have less than 256 bytes, those in
    paths have no slash, paths fit the buffers of 1024, a directory entry fits
    the buffer of [readdir], the table has room, and the allocations that are
    not checked succeed; (4) a completion is of a command under way; a deletion
    or the target of a rename is no directory with entries, a rename does not
    move a directory below itself and its new parent still exists, as does the
    parent of a file that has been created; nothing is removed from or moved
    from or to the root, and the directory of the clipboard is flat when it is
    cleared. *)
Theorem fuse_runs_are_defined w0 s0 l : fuse_start w0 = Some s0 -> fuse_safe l s0 ->
  exists s', fuse_run l s0 s' /\ fs_repr (fs s') (table_map (fs s')) /\ tree (table_map (fs s')).
Proof.
  intros Hs Hl. destruct (safe_run l s0 _ (start_ok w0 s0 Hs) Hl) as (s' & Hr & O). exists s'. split; [done|]. apply O.
Qed.

(** The drive C (inode 3) is opened; it holds the directory AB (inode 4). *)
Definition demo_entry : FILE_DIRECTORY_INFORMATION := mk_fdi [65; 66] 100 FILE_ATTRIBUTE_DIRECTORY 0 0 0.
Definition demo_2 : fuse := next (demo_world true) (a_opendir 2 3 0) demo_1.
Definition demo_3 : fuse := next (demo_world true) (a_entry 0 demo_entry) demo_2.

Lemma demo_ok_1 : fuse_ok demo_1 (table_map (fs demo_1)).
Proof.
  pose proof (start_ok (demo_world true) demo_0 demo_start) as O. rewrite <- (table_map_repr _ _ (proj1 (o_fs _ _ O))) in O.
  apply (demo_step (demo_world true) (a_drive_create 5 (Some [67])) demo_0); [exact O|by vm_compute|vm_compute; reflexivity].
Qed.

Lemma opendir_ok_1 : action_ok (demo_world true) (a_opendir 2 3 0) demo_1 (table_map (fs demo_1)).
Proof.
  split; [by vm_compute|]. split; [|split; [apply demo_short; vm_compute; reflexivity|done]]. intros y Hy. vm_compute in Hy. by injection Hy as <-.
Qed.

Lemma entry_ok_2 fdi : (length (FileName fdi) < 256)%nat -> action_ok (demo_world true) (a_entry 0 fdi) demo_2 (table_map (fs demo_2)).
Proof. intros Hl. split; [by vm_compute|]. split; [done|]. eexists _, _. split; vm_compute; reflexivity. Qed.

(** The drive holds the file AB; it is opened twice, read through the first
    [fuse_file_info], and the second opening is under way. *)
Definition file_entry : FILE_DIRECTORY_INFORMATION := mk_fdi [65; 66] 100 32 0 0 0.
Definition file_1 : fuse := next (demo_world true) (a_entry 0 file_entry) demo_2.
Definition file_2 : fuse := next (demo_world true) (a_complete 0 0 0 0 []) file_1.
Definition file_3 : fuse := next (demo_world true) (a_expire 0) file_2.
Definition file_4 : fuse := next (demo_world true) (a_open 3 4 1 0) file_3.
Definition file_5 : fuse := next (demo_world true) (a_complete 2 0 5 9 []) file_4.
Definition file_6 : fuse := next (demo_world true) (a_expire 1) file_5.
Definition file_7 : fuse := next (demo_world true) (a_pass 1 0 (fh_handle 3)) file_6.
Definition file_8 : fuse := next (demo_world true) (a_read 4 4 10 0 1) file_7.
Definition file_9 : fuse := next (demo_world true) (a_open 5 4 2 0) file_8.

Definition file_run : list fuse_action :=
  [a_drive_create 5 (Some [67]); a_opendir 2 3 0; a_entry 0 file_entry; a_complete 0 0 0 0 []; a_expire 0; a_open 3 4 1 0;
   a_complete 2 0 5 9 []; a_expire 1; a_pass 1 0 (fh_handle 3); a_read 4 4 10 0 1; a_open 5 4 2 0].

Lemma nothing_stored s f : forallb (fun pc => negb (opening pc.2)) (map_to_list (irps s)) = true -> g_opendir_queue s = [] -> not_stored s f.
Proof.
  intros Hi Hq. split.
  - intros p c x Hc _ Ho _. rewrite forallb_forall in Hi. specialize (Hi (p, c)). cbn in Hi. rewrite Ho in Hi.
    discriminate Hi. by apply list_elem_of_In, elem_of_map_to_list.
  - intros od. rewrite Hq. by intros ?%not_elem_of_nil.
Qed.

Lemma file_safe : fuse_safe (pair (demo_world true) <$> file_run) demo_0.
Proof.
  eapply (safe_cons _ _ _ _ demo_1); [by vm_compute|vm_compute; reflexivity|].
  eapply (safe_cons _ _ _ _ demo_2); [apply opendir_ok_1|vm_compute; reflexivity|].
  eapply (safe_cons _ _ _ _ file_1); [apply entry_ok_2; cbn; lia|vm_compute; reflexivity|].
  eapply (safe_cons _ _ _ _ file_2); [|vm_compute; reflexivity|].
  { eexists _, _. split; [vm_compute; reflexivity|]. split; [vm_compute; reflexivity|]. split; [apply demo_short; vm_compute; reflexivity|done]. }
  eapply (safe_cons _ _ _ _ file_3); [apply nothing_stored; vm_compute; reflexivity|vm_compute; reflexivity|].
  eapply (safe_cons _ _ _ _ file_4); [split; [lia|]; split; [apply demo_short; vm_compute; reflexivity|done]|vm_compute; reflexivity|].
  eapply (safe_cons _ _ _ _ file_5); [|vm_compute; reflexivity|].
  { eexists _, _. split; [vm_compute; reflexivity|]. split; [vm_compute; reflexivity|]. by vm_compute. }
  eapply (safe_cons _ _ _ _ file_6); [apply nothing_stored; vm_compute; reflexivity|vm_compute; reflexivity|].
  eapply (safe_cons _ _ _ _ file_7); [done|vm_compute; reflexivity|].
  eapply (safe_cons _ _ _ _ file_8); [split; [by vm_compute|]|vm_compute; reflexivity|].
  { eexists. split; [vm_compute; reflexivity|]. right. eexists. split; [reflexivity|]. vm_compute. by eexists. }
  eapply (safe_cons _ _ _ _ file_9); [split; [lia|]; split; [apply demo_short; vm_compute; reflexivity|done]|vm_compute; reflexivity|done].
Qed.

Lemma fuse_runs_are_defined_witness :
  exists s', fuse_run (pair (demo_world true) <$> file_run) demo_0 s' /\ fs_repr (fs s') (table_map (fs s')) /\ tree (table_map (fs s')).
Proof. exact (fuse_runs_are_defined (demo_world true) demo_0 _ demo_start file_safe). Defined.

(** C40. Two pointers outlive what they point to. Releasing a
    remote file that is open is always undefined while there is memory: either
    its [fh] is no live handle, or the handle is freed and its [FileId] is read
    afterwards for the command to the client. And when FUSE drops a
    [fuse_file_info] whose opening (of a file or of a directory that still
    exists) is under way, the successful completion of this opening is
    undefined: it writes the new [fh] into the object that is gone. *)
Theorem fuse_dangling_pointers w s m : fuse_ok s m -> memory w ->
  (forall r ino f x, 2 <= ino -> m !! ino = Some x -> is_loc_resource x = false -> nopen x <> 0 -> fuse_act w (a_release r ino f) s = None) /\
  (forall fip c x f dev file data, irps s !! fip = Some c -> infos s !! fip = Some x -> opening c = true -> fi x = Some f ->
     is_Some (m !! info_inode x) -> fuse_acts w [a_expire f; a_complete fip 0 dev file data] s = None).
Proof.
  intros O Hc. split; intros; apply undefined_none; [by eapply (release_undefined w _ _ _ s m)|by eapply (expired_undefined w _ _ _ _ _ _ _ s m)].
Qed.

Lemma file_ok_9 : fuse_ok file_9 (table_map (fs file_9)).
Proof.
  destruct (safe_run (pair (demo_world true) <$> file_run) demo_0 _ (start_ok (demo_world true) demo_0 demo_start) file_safe) as (s' & Hr & O).
  assert (s' = file_9) as <-; [|exact O]. apply (run_det _ _ _ _ Hr). cbn [file_run fmap list_fmap].
  apply (run_cons _ _ _ _ demo_1); [vm_compute; reflexivity|].
  apply (run_cons _ _ _ _ demo_2); [vm_compute; reflexivity|].
  apply (run_cons _ _ _ _ file_1); [vm_compute; reflexivity|].
  apply (run_cons _ _ _ _ file_2); [vm_compute; reflexivity|].
  apply (run_cons _ _ _ _ file_3); [vm_compute; reflexivity|].
  apply (run_cons _ _ _ _ file_4); [vm_compute; reflexivity|].
  apply (run_cons _ _ _ _ file_5); [vm_compute; reflexivity|].
  apply (run_cons _ _ _ _ file_6); [vm_compute; reflexivity|].
  apply (run_cons _ _ _ _ file_7); [vm_compute; reflexivity|].
  apply (run_cons _ _ _ _ file_8); [vm_compute; reflexivity|].
  apply (run_cons _ _ _ _ file_9); [vm_compute; reflexivity|].
  constructor.
Qed.

Lemma fuse_dangling_pointers_witness : fuse_act (demo_world true) (a_release 6 4 1) file_9 = None /\
  fuse_acts (demo_world true) [a_expire 2; a_complete 5 0 5 10 []] file_9 = None.
Proof.
  destruct (fuse_dangling_pointers (demo_world true) file_9 (table_map (fs file_9)) file_ok_9) as [H1 H2].
  - intros n. reflexivity.
  - split.
    + eapply H1; [lia|vm_compute; reflexivity|vm_compute; reflexivity|vm_compute; discriminate].
    + eapply H2; [vm_compute; reflexivity|vm_compute; reflexivity|reflexivity|reflexivity|vm_compute; eexists; reflexivity].
Defined.

(** C23. Deleting a directory that the client no
    longer lists removes the directory and everything below it, and nothing
    else: the recursion ends within the number of inodes, the parent has one
    entry less, every other inode is as before, and the rest is a tree. *)
Theorem recursive_delete_removes_subtree s m d p x : fs_repr s m -> tree m -> 3 <= d -> points s d p x -> is_reg x = false ->
  exists s' m', recursive_delete p s = Some (0, s') /\ fs_repr s' m' /\ tree m' /\
    (forall j, below (parents m) d j -> m' !! j = None) /\
    (forall j, ~ below (parents m) d j -> j <> parent_inode x -> m' !! j = m !! j) /\
    m' !! parent_inode x = entries_down <$> m !! parent_inode x.
Proof.
  intros H T Hd Hp Hr. destruct (fs_wp_run _ _ _ (recursive_delete_ok s m d p x (conj H T) Hd Hp Hr)) as (r & s' & E & -> & m' & [H' T'] & _ & R).
  destruct (points_repr _ _ _ _ _ H Hp) as [Hx _]. exists s', m'. split; [done|]. split; [done|]. split; [done|]. split; [apply R|]. split; [|by apply R].
  intros j Hnb Hj. destruct (rm_rest _ _ _ R j) as [?|[_ ?]]; [|done..]. rewrite (parents_lookup _ _ _ Hx). congruence.
Qed.

(** The drive C of [demo_3], with its directory AB as inode 4. *)
Lemma demo_ok_3 : fuse_ok demo_3 (table_map (fs demo_3)).
Proof.
  apply (demo_step (demo_world true) (a_entry 0 demo_entry) demo_2); [|apply entry_ok_2; cbn; lia|vm_compute; reflexivity].
  apply (demo_step (demo_world true) (a_opendir 2 3 0) demo_1); [exact demo_ok_1|exact opendir_ok_1|vm_compute; reflexivity].
Qed.

Lemma demo_table_3 : fs_repr (fs demo_3) (table_map (fs demo_3)) /\ tree (table_map (fs demo_3)).
Proof. apply demo_ok_3. Qed.

Definition demo_drive : RDPDR_INODE := default (fixed_inode (demo_world true) 0 0 0 [] false) (table_map (fs demo_3) !! 3).

Lemma recursive_delete_removes_subtree_witness : exists s', recursive_delete 3 (fs demo_3) = Some (0, s').
Proof.
  destruct (recursive_delete_removes_subtree (fs demo_3) (table_map (fs demo_3)) 3 3 demo_drive
    (proj1 demo_table_3) (proj2 demo_table_3)) as (s' & _ & E & _).
  - lia.
  - split; vm_compute; reflexivity.
  - vm_compute. reflexivity.
  - exists s'. exact E.
Defined.

(** ** Requests *)

(** C12. In every run from the start, whatever the
    environment does, the requests of FUSE that have been answered or are
    still owed an answer (their command is under way, or they wait in the queue
    of [opendir] or for the clipboard) are distinct requests of the run: no
    request gets a second reply. Every request except reads and writes is one
    of them: it is answered, or it is owed. *)
Theorem fuse_requests_answered_once w0 s0 l s : fuse_start w0 = Some s0 -> fuse_run l s0 s -> NoDup (requests l) ->
  NoDup (answered s ++ owed s) /\ (forall r, r ∈ answered s ++ owed s -> r ∈ requests l) /\
  (forall w a r, (w, a) ∈ l -> request a = Some r -> is_transfer a = false -> r ∈ answered s \/ r ∈ owed s).
Proof.
  intros Hs Hr Hnd. destruct (start_links w0 s0 Hs) as [K E0]. destruct (run_account l s0 s Hr K) as (lost & _ & P & Hl). rewrite E0, app_nil_r in P.
  split; [|split].
  - rewrite P in Hnd. by apply NoDup_app in Hnd as (? & _ & _).
  - intros r Hin. rewrite P. apply elem_of_app. by left.
  - intros w a r Hin Ha Ht. assert (r ∈ requests l) as Hreq by (apply list_elem_of_omap; by exists (w, a)).
    rewrite P in Hreq. apply elem_of_app in Hreq as [Hreq|Hlost]; [by apply elem_of_app in Hreq|].
    exfalso. destruct (Hl r Hlost) as (w' & a' & Hin' & Ha' & Ht').
    assert (forall l : list (World * fuse_action), NoDup (requests l) -> (w, a) ∈ l -> (w', a') ∈ l -> (w, a) = (w', a')) as Hinj.
    { clear -Ha Ha'. induction l as [|[v b] l IH]; intros Hnd H1 H2; [by apply not_elem_of_nil in H1|]. cbn in Hnd.
      apply elem_of_cons in H1 as [H1|H1]; apply elem_of_cons in H2 as [H2|H2]; [congruence| | |].
      - injection H1 as <- <-. rewrite Ha in Hnd. apply NoDup_cons in Hnd as [Hn _]. exfalso. apply Hn, list_elem_of_omap. by exists (w', a').
      - injection H2 as <- <-. rewrite Ha' in Hnd. apply NoDup_cons in Hnd as [Hn _]. exfalso. apply Hn, list_elem_of_omap. by exists (w, a).
      - apply IH; [|done..]. destruct (request b); [by apply NoDup_cons in Hnd as [_ ?]|done]. }
    specialize (Hinj l Hnd Hin Hin'). injection Hinj as _ <-. congruence.
Qed.

Lemma fuse_requests_answered_once_witness : 2 ∈ answered (next (demo_world true) (a_complete 0 0 0 0 []) demo_3) \/
  2 ∈ owed (next (demo_world true) (a_complete 0 0 0 0 []) demo_3).
Proof.
  set (l := pair (demo_world true) <$> [a_drive_create 5 (Some [67]); a_opendir 2 3 0; a_entry 0 demo_entry; a_complete 0 0 0 0 []]).
  assert (fuse_run l demo_0 (next (demo_world true) (a_complete 0 0 0 0 []) demo_3)) as Hr.
  { apply (run_cons _ _ _ _ demo_1); [vm_compute; reflexivity|]. apply (run_cons _ _ _ _ demo_2); [vm_compute; reflexivity|].
    apply (run_cons _ _ _ _ demo_3); [vm_compute; reflexivity|].
    apply (run_cons _ _ _ _ (next (demo_world true) (a_complete 0 0 0 0 []) demo_3)); [vm_compute; reflexivity|]. constructor. }
  destruct (fuse_requests_answered_once (demo_world true) demo_0 l _ demo_start Hr) as (_ & _ & H).
  - apply NoDup_singleton.
  - apply (H (demo_world true) (a_opendir 2 3 0) 2); [right; left|reflexivity|reflexivity].
Defined.

(** ** Paths *)

(** C24. Every inode below the root has a path: the names from its
    share down to it, and the device of the share. When the names have no
    slash and the path fits the buffer, the code computes this device and the
    names joined by slashes, leaves the table as it is, and the part of the
    path that is sent to the client starts with the slash after the share. *)
Theorem device_path_of_inode s m i size buf : fs_repr s m -> tree m -> 2 <= i < 2 ^ 31 -> is_Some (m !! i) -> size <= 4096 ->
  exists share l dev, path_to m i (share :: l) dev /\
    (Forall plain (share :: l) -> Z.of_nat (length (slashed (share :: l))) < size ->
     rdpdr_fuse_get_device_id_for_inode i size buf s = Some ((dev, slashed (share :: l)), s) /\
     share_path (slashed (share :: l)) = slash :: slashed l).
Proof.
  intros H T Hi Hl Hsz. destruct (t_rooted _ T i ltac:(lia) Hl) as [n Hr]. destruct (tree_path _ _ _ T Hr) as (l & dev & Hp).
  pose proof (path_ne _ _ _ _ Hp) as Hne. destruct l as [|share l]; [done|]. exists share, l, dev. split; [done|]. intros Hpl Hlen.
  split; [|apply share_path_spec; by apply Forall_cons in Hpl as [? _]].
  destruct (fs_wp_run _ (fun r s' => r = (dev, slashed (share :: l)) /\ s' = s) s
    (device_path_spec s m i _ _ size buf _ H Hp ltac:(int_lia) ltac:(lia) Hpl Hsz Hlen (conj eq_refl eq_refl))) as (r & s' & E & -> & ->). done.
Qed.

Lemma device_path_of_inode_witness : exists share l dev, path_to (table_map (fs demo_3)) 4 (share :: l) dev /\
  share_path (slashed [[67]; [65; 66]]) = [slash; 65; 66].
Proof.
  destruct (device_path_of_inode (fs demo_3) (table_map (fs demo_3)) 4 1024 None (proj1 demo_table_3) (proj2 demo_table_3))
    as (share & l & dev & Hp & _).
  - lia.
  - vm_compute. eexists. reflexivity.
  - lia.
  - exists share, l, dev. split; [exact Hp|reflexivity].
Defined.

(** ** Directories *)



(** C22. From an open directory, as many calls of [readdir]
    as there are entries and one more: the replies together list [.], [..] and
    then every entry of the directory once, in the order of the table, whatever
    part of them fits a buffer; the last reply is empty. A directory without
    entries lists nothing, not even [.] and [..]. *)
Theorem readdir_lists_each_entry_once w d f di rs s m y : direntry_ok w -> fs_repr (fs s) m -> tree m -> 1 <= d < 2 ^ 31 -> m !! d = Some y ->
  (exists fl, files s !! f = Some (mk_file fl (fh_dir di))) -> dirs s !! di = Some FIRST_INODE ->
  let entries := childs m d 1 (next_node (fs s) - 1) in
  (length entries < length rs)%nat ->
  (exists s' l, readdirs w d f rs s = Some (tt, s') /\ events s' = l ++ events s /\ at_end l /\
     replied l = match entries with [] => [] | _ => (dot, d) :: (dotdot, parent_inode y) :: entries end) /\
  NoDup entries /\ forall nm i, (nm, i) ∈ entries <-> exists x, m !! i = Some x /\ parent_inode x = d /\ name x = nm.
Proof.
  intros Hde H T Hd Hy Hf Hdi entries Hlen. split; [|split].
  - assert (reading s m d f di FIRST_INODE) as R.
    { exists m. split; [apply synced_refl|]. split; [by split|]. split; [by eexists|]. by split. }
    pose proof (readdirs_all w Hde d f di rs s m y R Hd Hy Hlen) as W. unfold fuse_wp in W.
    destruct (readdirs w d f rs s) as [[[] s']|]; [|done]. destruct W as (l & E & Ha & Er). by exists s', l.
  - apply childs_nodup.
  - intros nm i. apply (childs_spec (fs s)); [done..|lia].
Qed.

(** A directory that is open at its start. *)
Definition demo_open (s : fuse) : fuse := set_dirs {[1%nat := FIRST_INODE]} (set_files {[0%nat := mk_file 0 (fh_dir 1)]} s).

Lemma demo_open_table s : fs_repr (fs s) (table_map (fs s)) /\ tree (table_map (fs s)) ->
  fs_repr (fs (demo_open s)) (table_map (fs (demo_open s))) /\ tree (table_map (fs (demo_open s))).
Proof. done. Qed.

Lemma readdir_lists_each_entry_once_witness : exists s' l, readdirs (demo_world true) 3 0 [8; 9] (demo_open demo_3) = Some (tt, s') /\
  events s' = l ++ events (demo_open demo_3) /\ replied l = [(dot, 3); (dotdot, 1); ([65; 66], 4)].
Proof.
  destruct (readdir_lists_each_entry_once (demo_world true) 3 0 1 [8; 9] (demo_open demo_3) (table_map (fs (demo_open demo_3)))
    (default (fixed_inode (demo_world true) 0 0 0 [] false) (table_map (fs (demo_open demo_3)) !! 3)) (demo_direntry true) (proj1 (demo_open_table _ demo_table_3)) (proj2 (demo_open_table _ demo_table_3)))
    as [(s' & l & E1 & E2 & _ & E3) _].
  - lia.
  - vm_compute. reflexivity.
  - vm_compute. eexists. reflexivity.
  - vm_compute. reflexivity.
  - vm_compute. lia.
  - exists s', l. split; [exact E1|]. split; [exact E2|]. rewrite E3. vm_compute. reflexivity.
Defined.

(** ** A listing that cannot be sent *)

(** When the query for a directory cannot be sent and
    no other one is under way, the request is answered with an empty buffer,
    which is no reply to [opendir], and stays at the head of the queue: in every
    run afterwards no later request to open a directory is ever answered. *)
Theorem refused_listing_blocks_opendir w r d f s m y : fuse_ok s m -> g_opendir_queue s = [] -> no_query s -> short m -> 2 <= d -> m !! d = Some y ->
  is_loc_resource y = false -> accepts w (length (events s)) = false -> memory w ->
  exists s1, fuse_act w (a_opendir r d f) s = Some (tt, s1) /\ head (events s1) = Some (e_reply r (reply_buf [])) /\
    forall l s2, fuse_run l s1 s2 -> NoDup (requests l ++ tally s1) ->
    forall w' r' d' f', (w', a_opendir r' d' f') ∈ l -> r' ∉ answered s2.
Proof.
  intros O Hq Hn Hs Hd Hy Hloc Hacc Hc. pose proof (opendir_refused w r d f s m y O Hq Hs Hd Hy Hloc Hacc Hc) as W.
  pose proof (act_accounts w (a_opendir r d f) s (o_links _ _ O)) as A. unfold fuse_wp in W. unfold fuse_wlp in A.
  destruct (fuse_act w (a_opendir r d f) s) as [[[] s1]|]; [|done]. destruct W as (He & Hq1 & Hi). destruct A as [K1 _].
  exists s1. split; [done|]. split; [done|]. intros l s2 Hr Hnd w' r' d' f' Hin. apply (blocked_unanswered l s1 s2 r' Hr K1); [|by rewrite Hq1|done|].
  - intros p c. rewrite Hi. apply Hn.
  - unfold opened. apply list_elem_of_In, in_concat. exists [r']. split; [|by left].
    apply in_map_iff. exists (w', a_opendir r' d' f'). split; [done|]. by apply list_elem_of_In.
Qed.

Lemma refused_listing_blocks_opendir_witness : exists s1, fuse_act (demo_world false) (a_opendir 2 3 0) demo_1 = Some (tt, s1) /\
  5 ∉ answered (next (demo_world true) (a_opendir 5 3 1) s1).
Proof.
  destruct (refused_listing_blocks_opendir (demo_world false) 2 3 0 demo_1 (table_map (fs demo_1))
    (default (fixed_inode (demo_world true) 0 0 0 [] false) (table_map (fs demo_1) !! 3)) demo_ok_1) as (s1 & E & _ & H).
  - reflexivity.
  - intros p c Hp. vm_compute in Hp. discriminate Hp.
  - apply demo_short. vm_compute. reflexivity.
  - lia.
  - vm_compute. reflexivity.
  - vm_compute. reflexivity.
  - reflexivity.
  - intros n. reflexivity.
  - exists s1. split; [exact E|]. assert (s1 = next (demo_world false) (a_opendir 2 3 0) demo_1) as ->.
    { unfold next. rewrite E. reflexivity. }
    apply (H [(demo_world true, a_opendir 5 3 1)] _) with (w' := demo_world true) (d' := 3) (f' := 1%nat).
    + apply (run_snoc [] _ _ _ (next (demo_world false) (a_opendir 2 3 0) demo_1)); [constructor|]. vm_compute. reflexivity.
    + vm_compute. repeat constructor; rewrite ?elem_of_cons, ?elem_of_nil; intuition congruence.
    + left.
Defined.
