(* ===== verification/Display.v ===== *)
(** * The display of a connection

    freerds/core/client.c, and of freerds/core/process.c the activation of a
    peer and its input callbacks: what becomes of the messages of a session
    module in the core.  The client thread puts them in the pipeline
    (Pipeline.v); the thread of the connection takes them out of [ServerQueue]
    and calls the functions of this file, which are the [ServerProxy] of the
    pipeline: they attach and detach the framebuffer that the module shares,
    paint from it, and forward pointers.

    The state of the connector is that of Pipeline.v with [display] as its
    remainder.  The shared memory is the set of the attachments of the process:
    [shmat] adds one under a fresh address, [shmdt] removes it, and reading
    memory that is not attached is undefined.  [shm] says which segments can be
    attached and how large they are.  FreeRDP's part is the class [Peer]: what
    its calls do to the peer.  What the client is sent is listed in [calls], in
    order. *)

From stdpp Require Import gmap list.
From S2P Require Import Prelude WStream Message ClientMsg ServerMsg VarMsg SessionMsg WindowMsg MsgTable Pipe Transport Outbound RpcContext Encoder Bitmap Pipeline.
#[local] Open Scope Z_scope.

(** FreeRDP's peer: [client->activated] after [update->DesktopResize], and
    whether the client caches glyphs with the second version of the order. *)
Class Peer := {
  resized_activated : bool -> bool;
  glyph_v2 : bool;
}.

(** Resizing the desktop deactivates the peer until the client has confirmed
    the new capabilities. *)
Class PeerLaws (R : Peer) : Prop := {
  resize_deactivates b : resized_activated b = false;
}.

Record POINTER_COLOR_UPDATE := mk_pointer_color {
  pointer_xPos : Z; pointer_yPos : Z;
  pointer_lengthXorMask : Z;
  pointer_xorMask : option (list Z);
  pointer_andMask : option (list Z);
}.

(** The calls of FreeRDP that reach the client. *)
Inductive client_call :=
| c_begin_paint
| c_end_paint
| c_bitmap_update (bitmaps : list BITMAP_DATA)
| c_surface (s : surface_call)
| c_pointer_color (p : POINTER_COLOR_UPDATE)
| c_pointer_new (xorBpp : Z) (p : POINTER_COLOR_UPDATE)
| c_pointer_cached (cacheIndex : Z)
| c_pointer_system (type : Z)
| c_cache_glyph (v2 : bool) (cacheId : Z) (glyph : Stubs.RDS_GLYPH_DATA)
| c_desktop_resize (w h : Z).

Section Display.
Context {W : WStream} {P : Pipe} {F : WindowOrder} {K : Collections} {G : Region16}.
Context {D : Dictionary} {B : CodecBits} {C : Compression} {R : Peer}.

(** ** State *)

(** The rest of [backend->framebuffer], of the settings and of the connection
    of a connector. *)
Record display := mk_display {
  fb_width : Z; fb_height : Z; fb_scanline : Z; fb_bits : Z; fb_bytes : Z;  (* int *)
  fb_memory : option nat;  (* fbSharedMemory *)
  attachments : gmap nat Z;  (* size of the segment *)
  next_addr : nat;
  encoding : Encoder.rdpSettings;
  RemoteFxCodec : bool; NSCodec : bool; FrameAcknowledge : Z;
  KeyboardType : Z; ClientDir : option (list Z);
  conn_encoder : option rdsEncoder;
  conn_frames : wListDictionary SURFACE_FRAME;
  codecMode : bool;
  activated : bool;  (* client->activated *)
  calls : list client_call;
}.

Abbreviation connector := (rdsBackend (connector_ext (A := display))).

Definition dsp (bk : connector) : display := ext (app bk).

Definition set_dsp (d : display) (bk : connector) : connector :=
  let e := app bk in
  set_app (mk_ext (ServerList e) (ServerQueue e) (Pipeline.DesktopWidth e) (Pipeline.DesktopHeight e) (fbAttached e)
             (Pipeline.fbSegmentId e) (MaxFps e) (Pipeline.fps e) d) bk.

Definition set_desktop (w h : Z) (bk : connector) : connector :=
  let e := app bk in
  set_app (mk_ext (ServerList e) (ServerQueue e) w h (fbAttached e)
             (Pipeline.fbSegmentId e) (MaxFps e) (Pipeline.fps e) (ext e)) bk.

(** [fbAttached] and [fbSegmentId]. *)
Definition set_attached (a seg : Z) (bk : connector) : connector :=
  let e := app bk in
  set_app (mk_ext (ServerList e) (ServerQueue e) (Pipeline.DesktopWidth e) (Pipeline.DesktopHeight e) a seg
             (MaxFps e) (Pipeline.fps e) (ext e)) bk.

(** The other fields of the framebuffer. *)
Definition set_fb (w h sc bits bytes : Z) (mem : option nat) (d : display) : display :=
  mk_display w h sc bits bytes mem (attachments d) (next_addr d) (encoding d) (RemoteFxCodec d) (NSCodec d)
    (FrameAcknowledge d) (KeyboardType d) (ClientDir d) (conn_encoder d) (conn_frames d) (codecMode d) (activated d) (calls d).
Definition set_attachments (m : gmap nat Z) (n : nat) (d : display) : display :=
  mk_display (fb_width d) (fb_height d) (fb_scanline d) (fb_bits d) (fb_bytes d) (fb_memory d) m n (encoding d)
    (RemoteFxCodec d) (NSCodec d) (FrameAcknowledge d) (KeyboardType d) (ClientDir d) (conn_encoder d) (conn_frames d)
    (codecMode d) (activated d) (calls d).
Definition set_peer (s : Encoder.rdpSettings) (rfx_ nsc_ : bool) (kb : Z) (e : option rdsEncoder) (cm : bool) (d : display) : display :=
  mk_display (fb_width d) (fb_height d) (fb_scanline d) (fb_bits d) (fb_bytes d) (fb_memory d) (attachments d) (next_addr d) s
    rfx_ nsc_ (FrameAcknowledge d) kb (ClientDir d) e (conn_frames d) cm (activated d) (calls d).
Definition set_encoder_ (e : rdsEncoder) (d : display) : display :=
  set_peer (encoding d) (RemoteFxCodec d) (NSCodec d) (KeyboardType d) (Some e) (codecMode d) d.
Definition set_activated (a : bool) (d : display) : display :=
  mk_display (fb_width d) (fb_height d) (fb_scanline d) (fb_bits d) (fb_bytes d) (fb_memory d) (attachments d) (next_addr d)
    (encoding d) (RemoteFxCodec d) (NSCodec d) (FrameAcknowledge d) (KeyboardType d) (ClientDir d) (conn_encoder d)
    (conn_frames d) (codecMode d) a (calls d).
Definition add_calls (l : list client_call) (d : display) : display :=
  mk_display (fb_width d) (fb_height d) (fb_scanline d) (fb_bits d) (fb_bytes d) (fb_memory d) (attachments d) (next_addr d)
    (encoding d) (RemoteFxCodec d) (NSCodec d) (FrameAcknowledge d) (KeyboardType d) (ClientDir d) (conn_encoder d)
    (conn_frames d) (codecMode d) (activated d) (calls d ++ l).

Definition call_client (l : list client_call) (bk : connector) : connector := set_dsp (add_calls l (dsp bk)) bk.

(** ** The functions of core.c that forward to FreeRDP *)

Definition freerds_send_bell (bk : connector) : Z * connector := (0, bk).

Definition freerds_orders_begin_paint (bk : connector) : Z * connector := (0, call_client [c_begin_paint] bk).

Definition freerds_orders_end_paint (bk : connector) : Z * connector := (0, call_client [c_end_paint] bk).

(** [lengthXorMask] is what the depth says, not the length of the data. *)
Definition freerds_set_pointer (msg : SetPointer.RDS_MSG_SET_POINTER) (bk : connector) : Z * connector :=
  let update n := mk_pointer_color (SetPointer.xPos msg) (SetPointer.yPos msg) n (SetPointer.xorMaskData msg)
                    (SetPointer.andMaskData msg) in
  let xorBpp := SetPointer.xorBpp msg in
  let first :=
    if xorBpp =? 0 then c_pointer_color (update 3072)
    else c_pointer_new xorBpp (update (u32 (u32 (xorBpp + 7) / 8 * 32 * 32))) in
  (0, call_client [first; c_pointer_cached 0] bk).

Definition freerds_set_system_pointer (msg : SetSystemPointer.RDS_MSG_SET_SYSTEM_POINTER) (bk : connector) : Z * connector :=
  (0, call_client [c_pointer_system (SetSystemPointer.ptrType msg)] bk).

Definition freerds_orders_send_font (msg : Stubs.RDS_MSG_CACHE_GLYPH) (bk : connector) : option (Z * connector) :=
  data ← Stubs.glyphData msg;
  g ← data !! 0%nat;
  Some (0, call_client [c_cache_glyph glyph_v2 (Stubs.cacheId msg) g] bk).

Definition freerds_reset (msg : Stubs.RDS_MSG_RESET) (bk : connector) : Z * connector :=
  let s := encoding (dsp bk) in
  let s := Encoder.mk_settings (SurfaceFrameMarkerEnabled s) (NSCodecColorLossLevel s) (NSCodecAllowSubsampling s)
             (NSCodecAllowDynamicColorFidelity s) (DrawAllowSkipAlpha s) (Stubs.ColorDepth msg) (MultifragMaxRequestSize s) in
  let d := dsp bk in
  (0, set_desktop (Stubs.DesktopWidth msg) (Stubs.DesktopHeight msg)
        (set_dsp (set_peer s (RemoteFxCodec d) (NSCodec d) (KeyboardType d) (conn_encoder d) (codecMode d) d) bk)).

Definition freerds_window_new_update (msg : WindowNewUpdate.RDS_MSG_WINDOW_NEW_UPDATE) (bk : connector) : Z * connector := (0, bk).

Definition freerds_window_delete (msg : WindowDelete.RDS_MSG_WINDOW_DELETE) (bk : connector) : Z * connector := (0, bk).

(** ** Painting *)

(** The memory of the framebuffer as Bitmap.v sees it; undefined when it is
    not attached. *)
Definition framebuffer_of (bk : connector) : option RDS_FRAMEBUFFER :=
  let d := dsp bk in
  a ← fb_memory d;
  size ← attachments d !! a;
  Some (mk_framebuffer (fb_width d) (fb_height d) (fb_scanline d) size).

(** Every allocation succeeds. *)
Abbreviation all_allocs := (mk_allocs true true true true).

(** Two turns of the loop over the fragments for each buffer of the grid. *)
Definition update_fuel (e : rdsEncoder) : nat := 2 * length (default [] (grid e)).

(** The message with its size cut to the framebuffer. *)
Definition clip_paint (d : display) (msg : PaintRect.RDS_MSG_PAINT_RECT) : PaintRect.RDS_MSG_PAINT_RECT :=
  let w := if fb_width d <? PaintRect.nXSrc msg + PaintRect.nWidth msg
           then fb_width d - PaintRect.nXSrc msg else PaintRect.nWidth msg in
  let h := if fb_height d <? PaintRect.nYSrc msg + PaintRect.nHeight msg
           then fb_height d - PaintRect.nYSrc msg else PaintRect.nHeight msg in
  PaintRect.mk (PaintRect.nLeftRect msg) (PaintRect.nTopRect msg) w h (PaintRect.nXSrc msg) (PaintRect.nYSrc msg)
    (PaintRect.bitmapData msg) (PaintRect.bitmapDataLength msg) (PaintRect.fbSegmentId msg) (PaintRect.framebuffer msg).

Definition freerds_client_inbound_paint_rect (bk : connector) (m : MSG PaintRect.RDS_MSG_PAINT_RECT) :
    option (Z * connector) :=
  match PaintRect.framebuffer (body m) with
  | PaintRect.fb_null | PaintRect.fb_wild => None
  | PaintRect.fb_backend =>
      if fbAttached (app bk) =? 0 then Some (0, bk) else
      let d := dsp bk in
      let msg := clip_paint d (body m) in
      e ← conn_encoder d;
      fb ← framebuffer_of bk;
      if codecMode d then
        '(_, c, l) ← freerds_send_surface_bits (RemoteFxCodec d) (NSCodec d) all_allocs fb msg
                       (mk_connection (encoding d) e (conn_frames d));
        Some (0, call_client (c_surface <$> l) (set_dsp (set_encoder_ (Encoder.encoder c) d) bk))
      else
        '(_, e, l) ← freerds_send_bitmap_update (update_fuel e) all_allocs (encoding d) e fb msg;
        Some (0, call_client (c_bitmap_update <$> l) (set_dsp (set_encoder_ e d) bk))
  end.

(** ** The shared framebuffer *)

Section Client.
Context (shm : Z -> option Z) (common0 : RDS_MSG_COMMON) (terminated : bool).

(** [backend->client->VBlankEvent(backend)]; the interface is that of
    [freerds_client_outbound_interface_new]. *)
Definition vblank (bk : connector) : option connector :=
  f ← VBlankEvent (freerds_client_outbound_interface_new common0);
  '(_, bk) ← f bk;
  Some bk.

(** [shmdt], and zero everywhere. *)
Definition freerds_client_detach_framebuffer (bk : connector) : connector :=
  let d := dsp bk in
  let m := match fb_memory d with Some a => delete a (attachments d) | None => attachments d end in
  set_attached 0 0 (set_dsp (set_fb 0 0 0 0 0 None (set_attachments m (next_addr d) d)) bk).

Definition detach_if_attached (bk : connector) : connector :=
  if fbAttached (app bk) =? 0 then bk else freerds_client_detach_framebuffer bk.

(** [MessageQueue_Post] of the paint message for the whole framebuffer. *)
Definition post_full_paint (w h : Z) (bk : connector) : option connector :=
  copy ← freerds_server_message_copy (paint_message common0 bk (mk_rect 0 0 w h));
  msg ← fst <$> copy;
  Some (set_queue (MessageQueue_Post (msg_type (Message.common msg)) (Some msg) (ServerQueue (app bk))) bk).

(** The framebuffer of the message, once its segment has been attached: [size]
    is the size of the segment. *)
Definition attach_framebuffer (msg : SharedFramebuffer.RDS_MSG_SHARED_FRAMEBUFFER) (size : Z) (bk : connector) : connector :=
  let d := dsp bk in
  let a := next_addr d in
  set_attached 1 (SharedFramebuffer.segmentId msg)
    (set_dsp (set_fb (fb_width d) (fb_height d) (fb_scanline d) (fb_bits d) (fb_bytes d) (Some a)
                (set_attachments (<[a := size]> (attachments d)) (S a) d)) bk).

(** [if ((DesktopWidth != settings->DesktopWidth) || ...) { ... }] *)
Definition resize_client (w h : Z) (bk : connector) : connector :=
  if negb (u32 w =? Pipeline.DesktopWidth (app bk)) || negb (u32 h =? Pipeline.DesktopHeight (app bk)) then
    let bk := set_desktop (u32 w) (u32 h) bk in
    set_dsp (set_activated (resized_activated (activated (dsp bk))) (add_calls [c_desktop_resize (u32 w) (u32 h)] (dsp bk))) bk
  else bk.

Definition freerds_client_inbound_shared_framebuffer (bk : connector)
    (m : MSG SharedFramebuffer.RDS_MSG_SHARED_FRAMEBUFFER) : option (Z * connector) :=
  let msg := body m in
  let attach := negb (Z.land (SharedFramebuffer.flags msg) 1 =? 0) in
  if attach then
    let bk := detach_if_attached bk in
    let bk := set_attached (fbAttached (app bk)) (SharedFramebuffer.segmentId msg)
                (set_dsp (set_fb (SharedFramebuffer.width msg) (SharedFramebuffer.height msg) (SharedFramebuffer.scanline msg)
                            (SharedFramebuffer.bitsPerPixel msg) (SharedFramebuffer.bytesPerPixel msg) (fb_memory (dsp bk)) (dsp bk)) bk) in
    match shm (SharedFramebuffer.segmentId msg) with
    | None => Some (1, bk)
    | Some size =>
        let bk := attach_framebuffer msg size bk in
        let bk := resize_client (SharedFramebuffer.width msg) (SharedFramebuffer.height msg) bk in
        bk ← post_full_paint (SharedFramebuffer.width msg) (SharedFramebuffer.height msg) bk;
        bk ← vblank bk;
        Some (0, bk)
    end
  else
    bk ← vblank (detach_if_attached bk);
    Some (0, bk).

(** ** The other callbacks *)

Definition freerds_client_inbound_begin_update (bk : connector) (m : MSG BeginUpdate.RDS_MSG_BEGIN_UPDATE) :
    option (Z * connector) := Some (0, snd (freerds_orders_begin_paint bk)).

Definition freerds_client_inbound_end_update (bk : connector) (m : MSG EndUpdate.RDS_MSG_END_UPDATE) :
    option (Z * connector) :=
  bk ← vblank (snd (freerds_orders_end_paint bk));
  Some (0, bk).

Definition freerds_client_inbound_beep (bk : connector) (m : MSG Stubs.RDS_MSG_BEEP) : option (Z * connector) :=
  Some (0, snd (freerds_send_bell bk)).

(** [g_is_term()] *)
Definition freerds_client_inbound_is_terminated (bk : connector) : option (Z * connector) :=
  Some (if terminated then 1 else 0, bk).

Definition freerds_client_inbound_opaque_rect (bk : connector) (m : MSG OpaqueRect.RDS_MSG_OPAQUE_RECT) :
    option (Z * connector) := Some (0, bk).
Definition freerds_client_inbound_screen_blt (bk : connector) (m : MSG ScreenBlt.RDS_MSG_SCREEN_BLT) :
    option (Z * connector) := Some (0, bk).
Definition freerds_client_inbound_patblt (bk : connector) (m : MSG PatBlt.RDS_MSG_PATBLT) :
    option (Z * connector) := Some (0, bk).
Definition freerds_client_inbound_dstblt (bk : connector) (m : MSG DstBlt.RDS_MSG_DSTBLT) :
    option (Z * connector) := Some (0, bk).

Definition freerds_client_inbound_set_pointer (bk : connector) (m : MSG SetPointer.RDS_MSG_SET_POINTER) :
    option (Z * connector) := Some (0, snd (freerds_set_pointer (body m) bk)).
Definition freerds_client_inbound_set_system_pointer (bk : connector) (m : MSG SetSystemPointer.RDS_MSG_SET_SYSTEM_POINTER) :
    option (Z * connector) := Some (0, snd (freerds_set_system_pointer (body m) bk)).

Definition freerds_client_inbound_set_palette (bk : connector) (m : MSG Stubs.RDS_MSG_SET_PALETTE) :
    option (Z * connector) := Some (0, bk).
Definition freerds_client_inbound_set_clipping_region (bk : connector) (m : MSG SetClippingRegion.RDS_MSG_SET_CLIPPING_REGION) :
    option (Z * connector) := Some (0, bk).
Definition freerds_client_inbound_line_to (bk : connector) (m : MSG LineTo.RDS_MSG_LINE_TO) :
    option (Z * connector) := Some (0, bk).
Definition freerds_client_inbound_cache_glyph (bk : connector) (m : MSG Stubs.RDS_MSG_CACHE_GLYPH) :
    option (Z * connector) := freerds_orders_send_font (body m) bk.
Definition freerds_client_inbound_glyph_index (bk : connector) (m : MSG Stubs.RDS_MSG_GLYPH_INDEX) :
    option (Z * connector) := Some (0, bk).
Definition freerds_client_inbound_reset (bk : connector) (m : MSG Stubs.RDS_MSG_RESET) :
    option (Z * connector) := Some (0, snd (freerds_reset (body m) bk)).

Definition freerds_client_inbound_create_offscreen_surface (bk : connector)
    (m : MSG CreateOffscreenSurface.RDS_MSG_CREATE_OFFSCREEN_SURFACE) : option (Z * connector) := Some (0, bk).
Definition freerds_client_inbound_switch_offscreen_surface (bk : connector)
    (m : MSG SwitchOffscreenSurface.RDS_MSG_SWITCH_OFFSCREEN_SURFACE) : option (Z * connector) := Some (0, bk).
Definition freerds_client_inbound_delete_offscreen_surface (bk : connector)
    (m : MSG DeleteOffscreenSurface.RDS_MSG_DELETE_OFFSCREEN_SURFACE) : option (Z * connector) := Some (0, bk).
Definition freerds_client_inbound_paint_offscreen_surface (bk : connector)
    (m : MSG PaintOffscreenSurface.RDS_MSG_PAINT_OFFSCREEN_SURFACE) : option (Z * connector) := Some (0, bk).
Definition freerds_client_inbound_window_new_update (bk : connector) (m : MSG WindowNewUpdate.RDS_MSG_WINDOW_NEW_UPDATE) :
    option (Z * connector) := Some (freerds_window_new_update (body m) bk).
Definition freerds_client_inbound_window_delete (bk : connector) (m : MSG WindowDelete.RDS_MSG_WINDOW_DELETE) :
    option (Z * connector) := Some (freerds_window_delete (body m) bk).
Definition freerds_client_inbound_logon_user (bk : connector) (m : MSG LogonUser.RDS_MSG_LOGON_USER) :
    option (Z * connector) := Some (0, bk).
Definition freerds_client_inbound_logoff_user (bk : connector) (m : MSG LogoffUser.RDS_MSG_LOGOFF_USER) :
    option (Z * connector) := Some (0, bk).

(** The interface after the assignments of
    [freerds_client_inbound_connector_init]: the [ServerProxy]. *)
Definition client_interface : rdsServerInterface (connector_ext (A := display)) := {|
  BeginUpdate := Some freerds_client_inbound_begin_update;
  EndUpdate := Some freerds_client_inbound_end_update;
  Beep := Some freerds_client_inbound_beep;
  IsTerminated := Some freerds_client_inbound_is_terminated;
  OpaqueRect := Some freerds_client_inbound_opaque_rect;
  ScreenBlt := Some freerds_client_inbound_screen_blt;
  PaintRect := Some freerds_client_inbound_paint_rect;
  PatBlt := Some freerds_client_inbound_patblt;
  DstBlt := Some freerds_client_inbound_dstblt;
  SetPointer := Some freerds_client_inbound_set_pointer;
  SetSystemPointer := Some freerds_client_inbound_set_system_pointer;
  SetPalette := Some freerds_client_inbound_set_palette;
  SetClippingRegion := Some freerds_client_inbound_set_clipping_region;
  LineTo := Some freerds_client_inbound_line_to;
  CacheGlyph := Some freerds_client_inbound_cache_glyph;
  GlyphIndex := Some freerds_client_inbound_glyph_index;
  SharedFramebuffer := Some freerds_client_inbound_shared_framebuffer;
  Reset := Some freerds_client_inbound_reset;
  CreateOffscreenSurface := Some freerds_client_inbound_create_offscreen_surface;
  SwitchOffscreenSurface := Some freerds_client_inbound_switch_offscreen_surface;
  DeleteOffscreenSurface := Some freerds_client_inbound_delete_offscreen_surface;
  PaintOffscreenSurface := Some freerds_client_inbound_paint_offscreen_surface;
  WindowNewUpdate := Some freerds_client_inbound_window_new_update;
  WindowDelete := Some freerds_client_inbound_window_delete;
  LogonUser := Some freerds_client_inbound_logon_user;
  LogoffUser := Some freerds_client_inbound_logoff_user
|}.

Definition freerds_client_inbound_connector_init (bk : connector) :
    Z * connector * rdsServerInterface (connector_ext (A := display)) :=
  let '(_, bk, server) := freerds_message_server_connector_init bk client_interface in (0, bk, server).

(** ** The client thread *)

(** One turn of the loop of [freerds_client_thread]: which of the handles are
    signalled; [false] ends the loop. *)
Definition freerds_client_thread_turn (sl : server_locals) (cl : client_locals) (stop readable tick : bool) (bk : connector) :
    option (bool * connector) :=
  if stop then Some (false, bk) else
  '(status, bk) ← if readable
                  then freerds_transport_receive (pipeline_interface client_interface) (freerds_client_outbound_interface_new common0) sl cl common0 bk
                  else Some (0, bk);
  if status <? 0 then Some (false, bk) else
  '(_, bk) ← if tick then freerds_message_server_queue_pack common0 bk else Some (0, bk);
  Some (true, bk).

(** ** The thread of the connection *)

(** One turn of the loop of [freerds_client_check_event_handles]; [None] in the
    result ends the loop. *)
Definition check_turn (bk : connector) : option (option Z * connector) :=
  match MessageQueue_Peek (ServerQueue (app bk)) with
  | None => Some (None, bk)  (* the event of the queue is not set *)
  | Some _ =>
      if activated (dsp bk) then
        '(status, _, bk) ← freerds_message_server_queue_process_pending_messages client_interface bk;
        Some (Some status, bk)
      else Some (None, bk)
  end.

Fixpoint check_turns (n : nat) (status : Z) (bk : connector) : option (Z * connector) :=
  match n with
  | O => Some (status, bk)
  | S n =>
      '(st, bk) ← check_turn bk;
      match st with
      | None => Some (status, bk)
      | Some status => check_turns n status bk
      end
  end.

(** [thread_ended]: the handle of [ServerThread] is signalled. *)
Definition freerds_client_check_event_handles (thread_ended : bool) (bk : connector) : option (Z * connector) :=
  '(status, bk) ← check_turns 10 0 bk;
  Some (if thread_ended then -1 else status, bk).
End Client.

(** ** Activation *)

Definition librdp : list Z := [108; 105; 98; 114; 100; 112].

(** The settings after the cases for [KeyboardType] and [ClientDir]. *)
Definition activate_settings (d : display) : Encoder.rdpSettings * bool * bool * Z :=
  let s := encoding d in
  let kb := if KeyboardType d =? 7 then 4 else KeyboardType d in
  if bool_decide (ClientDir d = Some librdp) then
    (Encoder.mk_settings 0 (NSCodecColorLossLevel s) false (NSCodecAllowDynamicColorFidelity s)
       (DrawAllowSkipAlpha s) (Encoder.ColorDepth s) (MultifragMaxRequestSize s), false, false, kb)
  else (s, RemoteFxCodec d, NSCodec d, kb).

Definition freerds_peer_activate (bk : connector) : option (bool * connector) :=
  let d := dsp bk in
  let '(s, rfx_, nsc_, kb) := activate_settings d in
  let cm := rfx_ && negb (FrameAcknowledge d =? 0) && negb (SurfaceFrameMarkerEnabled s =? 0) in
  (* the old encoder is freed *)
  let _ := freerds_encoder_free (conn_encoder d) in
  e ← freerds_encoder_new (i32 (Pipeline.DesktopWidth (app bk))) (i32 (Pipeline.DesktopHeight (app bk)));
  Some (true, set_dsp (set_peer s rfx_ nsc_ kb (Some e) cm d) bk).

(** FreeRDP calls [Activate] and then sets [client->activated]. *)
Definition peer_activation (bk : connector) : option connector :=
  '(_, bk) ← freerds_peer_activate bk;
  Some (set_dsp (set_activated true (dsp bk)) bk).

(** ** Creation and release *)

(** [freerds_connector_new]: the display of the connection [d] without a
    framebuffer; [p] is the pipe that [freerds_connector_connect] opens. *)
Definition freerds_connector_new (p : pipe) (dw dh : Z) (d : display) : connector :=
  mk_backend false p (Stream_New (Z.to_nat 8192)) (Stream_New (Z.to_nat 8192))
    (mk_ext LinkedList_New MessageQueue_New dw dh 0 0 0 0 (set_fb 0 0 0 0 0 None d)).

(** What [freerds_connector_free] does to the shared memory. *)
Definition free_framebuffer (bk : connector) : gmap nat Z :=
  if fbAttached (app bk) =? 0 then attachments (dsp bk)
  else match fb_memory (dsp bk) with Some a => delete a (attachments (dsp bk)) | None => attachments (dsp bk) end.

(** ** The first message *)

(** [freerds_init_client]: the struct is zeroed first, and [ColorDepth] stays 0;
    the stream is written from its position on. *)
Definition freerds_init_client (p : pipe) (dw dh layout type subtype : Z) (s : wStream) : option (Z * wStream * pipe) :=
  let msg := Msg (mk_common RDS_CLIENT_CAPABILITIES 0 0 (mk_rect 0 0 0 0)) (Capabilities.mk 1 dw dh 0 layout type subtype) in
  '((_, _), s) ← Capabilities.freerds_write_capabilities (Some s) msg;
  s ← s;
  '(status, p) ← freerds_named_pipe_write p (Stream_Buffer s) (u32 (Z.of_nat (Stream_GetPosition s)));
  Some (status, s, p).

(** ** Input *)

Section Input.
Context (common0 : RDS_MSG_COMMON).
Abbreviation client := (freerds_client_outbound_interface_new common0).

(** [if (backend) if (backend->client->f) backend->client->f(backend, ...)] *)
Definition if_backend (connector_ : option connector) (call : option (connector -> option (Z * connector))) :
    option (option connector) :=
  match connector_, call with
  | Some bk, Some f => '(_, bk) ← f bk; Some (Some bk)
  | _, _ => Some connector_
  end.

Definition freerds_input_synchronize_event (c : option connector) (flags : Z) : option (option connector) :=
  if_backend c (f ← SynchronizeKeyboardEvent client; Some (fun bk => f bk flags)).

(** [connection->settings->KeyboardType] goes along. *)
Definition freerds_input_keyboard_event (c : option connector) (flags code : Z) : option (option connector) :=
  if_backend c (f ← ScancodeKeyboardEvent client; Some (fun bk => f bk flags code (KeyboardType (dsp bk)))).

Definition freerds_input_unicode_keyboard_event (c : option connector) (flags code : Z) : option (option connector) :=
  if_backend c (f ← UnicodeKeyboardEvent client; Some (fun bk => f bk flags code)).

Definition freerds_input_mouse_event (c : option connector) (flags x y : Z) : option (option connector) :=
  if_backend c (f ← MouseEvent client; Some (fun bk => f bk flags x y)).

Definition freerds_input_extended_mouse_event (c : option connector) (flags x y : Z) : option (option connector) :=
  if_backend c (f ← ExtendedMouseEvent client; Some (fun bk => f bk flags x y)).

Definition freerds_suppress_output (c : option connector) (allow : Z) : option (option connector) :=
  if_backend c (f ← SuppressOutput client; Some (fun bk => f bk allow)).
End Input.
End Display.
