(* ===== verification/DisplayFacts.v ===== *)
(** * The display of a connection: its invariant

    The client thread and the thread of the connection as one machine.
    [display_ok]: at most one segment is attached, and it is the framebuffer of
    the connector; while one is attached the desktop has its size; while the
    peer is active its encoder has the size of the desktop; and what is queued
    can be processed. *)

From stdpp Require Import gmap list.
From S2P Require Import Prelude WStream Message ClientMsg ServerMsg VarMsg SessionMsg WindowMsg MsgTable TableFacts Pipe Transport TransportFacts Queue Delivery Outbound OutboundFacts RpcContext Encoder EncoderFacts Bitmap BitmapFacts Pipeline PipelineFacts Display.
#[local] Open Scope Z_scope.

(** ** Runs *)

Section Runs.
Context {W : WStream} {P : Pipe} {F : WindowOrder} {K : Collections} {G : Region16}.
Context {D : Dictionary} {B : CodecBits} {C : Compression} {R : Peer}.
Context (common0 : RDS_MSG_COMMON).
Abbreviation connector := (rdsBackend (connector_ext (A := display))).

(** What the two threads do. *)
Inductive display_act :=
| d_message (c : RDS_MSG_COMMON) (r : msg_body)  (* the transport hands a message to the pipeline *)
| d_pack
| d_check (shm : Z -> option Z)  (* a turn of [freerds_client_check_event_handles] *)
| d_activate
| d_mouse (flags x y : Z)
| d_key (flags code : Z).

Definition act (a : display_act) (bk : connector) : option connector :=
  match a with
  | d_message c r => snd <$> call_server (pipeline_interface (client_interface (fun _ => None) common0 false)) bk c r
  | d_pack => snd <$> freerds_message_server_queue_pack common0 bk
  | d_check shm => snd <$> check_turn shm common0 false bk
  | d_activate => peer_activation bk
  | d_mouse flags x y => c ← freerds_input_mouse_event common0 (Some bk) flags x y; c
  | d_key flags code => c ← freerds_input_keyboard_event common0 (Some bk) flags code; c
  end.

Fixpoint acts (l : list display_act) (bk : connector) : option connector :=
  match l with
  | [] => Some bk
  | a :: l => bk ← act a bk; acts l bk
  end.
End Runs.

(** ** The invariant *)

(** A paint message of the core inside of a framebuffer of [w] times [h]
    pixels. *)
Definition paint_fits (w h : Z) (p : PaintRect.RDS_MSG_PAINT_RECT) : Prop :=
  0 <= PaintRect.nLeftRect p /\ 0 <= PaintRect.nTopRect p /\ 0 < PaintRect.nWidth p /\ 0 < PaintRect.nHeight p /\
  PaintRect.nLeftRect p + PaintRect.nWidth p <= w /\ PaintRect.nTopRect p + PaintRect.nHeight p <= h.

Definition core_paint (p : PaintRect.RDS_MSG_PAINT_RECT) : Prop :=
  PaintRect.framebuffer p = PaintRect.fb_backend /\ PaintRect.nXSrc p = 0 /\ PaintRect.nYSrc p = 0.

(** The paint messages among [ms] fit. *)
Definition paints_fit (w h : Z) (ms : list (MSG msg_body)) : Prop :=
  forall c p, Msg c (mPaintRect p) ∈ ms -> paint_fits w h p.

(** A size that the core can handle. *)
Definition desktop_ok (w h : Z) : Prop := desktop_size w /\ desktop_size h /\ size_ok w h.

(** The messages that carry no rectangle and need nothing of the display. *)
Definition harmless (b : msg_body) : Prop :=
  match b with mPaintRect _ | mReset _ | mCacheGlyph _ => False | _ => True end.

(** A message of the list and a message of the queue. *)
Definition listed (m : MSG msg_body) : Prop := queued m /\ draws m /\ (has_rect (common m) = false -> harmless (body m)).

Definition pending (m : MSG msg_body) : Prop :=
  queued m /\ match body m with mPaintRect p => core_paint p | b => harmless b end.

(** A framebuffer of a module: its lines are in the segment. *)
Definition fb_fits (w h scanline size : Z) : Prop := desktop_ok w h /\ w * 4 <= scanline /\ scanline * h <= size.

Section Invariant.
Context {W : WStream} {L : WStreamLaws W} {P : Pipe} {PL : PipeLaws P} {F : WindowOrder}.
Context {K : Collections} {KL : CollectionsLaws K} {G : Region16} {GL : Region16Laws G}.
Context {D : Dictionary} {DL : DictionaryLaws D} {B : CodecBits} {BL : CodecBitsLaws B} {C : Compression} {R : Peer} {RL : PeerLaws R}.
Context (common0 : RDS_MSG_COMMON).
Abbreviation connector := (rdsBackend (connector_ext (A := display))).

(** The bytes that a codec makes of a tile are bounded. *)
Definition tile_bound (limit : Z) : Prop :=
  (forall l t w h bpp, w <= 64 -> h <= 64 -> Z.of_nat (length (interleaved_compress l t w h bpp)) <= limit) /\
  (forall c l t w h, w <= 64 -> h <= 64 -> Z.of_nat (length (freerdp_bitmap_compress_planar c l t w h)) <= limit).

Context (limit : Z) (Hlimit : tile_bound limit).

(** The client accepts updates with a tile of any size. *)
Definition request_size_ok (s : rdpSettings) : Prop :=
  0 <= limit < 2 ^ 30 /\ 1024 + (limit + 16) < MultifragMaxRequestSize s <= 2 ^ 31.

(** The attachments of the process. *)
Definition attached_ok (bk : connector) : Prop :=
  let d := dsp bk in
  if fbAttached (app bk) =? 0 then attachments d = ∅
  else exists a size, fb_memory d = Some a /\ attachments d = {[a := size]} /\
    fb_fits (fb_width d) (fb_height d) (fb_scanline d) size /\
    Pipeline.DesktopWidth (app bk) = fb_width d /\ Pipeline.DesktopHeight (app bk) = fb_height d.

Definition active_ok (bk : connector) : Prop :=
  activated (dsp bk) = true -> exists e, conn_encoder (dsp bk) = Some e /\ encoder_ok e /\
    width e = Pipeline.DesktopWidth (app bk) /\ height e = Pipeline.DesktopHeight (app bk).

Record display_ok (bk : connector) : Prop := {
  ok_listed : exists ms, LinkedList_items (ServerList (app bk)) = Some <$> ms /\ Forall listed ms;
  ok_pending : exists qs, MessageQueue_items (ServerQueue (app bk)) = posted <$> qs /\ Forall pending qs /\
    (fbAttached (app bk) <> 0 -> paints_fit (fb_width (dsp bk)) (fb_height (dsp bk)) qs);
  ok_attached : attached_ok bk;
  ok_desktop : desktop_ok (Pipeline.DesktopWidth (app bk)) (Pipeline.DesktopHeight (app bk));
  ok_active : active_ok bk;
  ok_codec : codecMode (dsp bk) = true -> RemoteFxCodec (dsp bk) = true;
  ok_request : request_size_ok (encoding (dsp bk));
  ok_outbound : roomy 64 (OutboundStream bk);
  ok_keyboard : is_u32 (KeyboardType (dsp bk));
}.

(** ** Conditions on an action *)

(** A message that a reader has produced: its rectangle can be drawn, or it is
    harmless. *)
Definition message_ok (c : RDS_MSG_COMMON) (r : msg_body) : Prop :=
  (exists m0 m, recv_body m0 m = Some r /\ ok_body m /\ 0 <= server_type m) /\
  (has_rect c = true -> drawable (rect c)) /\ (has_rect c = false -> harmless r).

(** The framebuffer of a message that is about to be processed fits its segment
    and contains the paint messages that wait behind it. *)
Definition attach_ok (shm : Z -> option Z) (bk : connector) : Prop :=
  forall c msg qs size, MessageQueue_items (ServerQueue (app bk)) = posted <$> Msg c (mSharedFramebuffer msg) :: qs ->
    Z.land (SharedFramebuffer.flags msg) 1 <> 0 -> shm (SharedFramebuffer.segmentId msg) = Some size ->
    fb_fits (SharedFramebuffer.width msg) (SharedFramebuffer.height msg) (SharedFramebuffer.scanline msg) size /\
    paints_fit (SharedFramebuffer.width msg) (SharedFramebuffer.height msg) qs.

Definition act_ok (a : display_act) (bk : connector) : Prop :=
  match a with
  | d_message c r => message_ok c r
  | d_pack => True
  | d_check shm => attach_ok shm bk
  | d_activate => True
  | d_mouse flags x y => is_u32 flags /\ is_u32 x /\ is_u32 y
  | d_key flags code => is_u32 flags /\ is_u32 code
  end.

(** Every action of the run meets its condition. *)
Fixpoint acts_ok (l : list display_act) (bk : connector) : Prop :=
  match l with
  | [] => True
  | a :: l => act_ok a bk /\ match act common0 a bk with Some bk' => acts_ok l bk' | None => True end
  end.

(** ** Events *)

Lemma event_ok {B'} (wr : writer B') `{E : !Encoder wr} t (b : B') (bk : connector) :
  ok (wr := wr) b -> roomy 64 (OutboundStream bk) -> (length (event_bytes common0 wr t b) <= 64)%nat ->
  exists st bk', outbound_event common0 wr t b bk = Some (st, bk') /\ app bk' = app bk /\ roomy 64 (OutboundStream bk').
Proof.
  intros Hok Hr Hl. destruct (outbound_event_room common0 wr t b 64 bk Hok Hr) as (st & bk' & E1 & (Hk & _) & Hr'); [lia|lia|].
  exists st, bk'. by destruct Hk as (_ & _ & Ha & _).
Qed.

Lemma vblank_ok (bk : connector) : roomy 64 (OutboundStream bk) ->
  exists bk', vblank common0 bk = Some bk' /\ app bk' = app bk /\ roomy 64 (OutboundStream bk').
Proof.
  intros Hr. unfold vblank. cbn [VBlankEvent freerds_client_outbound_interface_new mbind option_bind].
  unfold freerds_client_outbound_vblank_event.
  destruct (event_ok VBlankEvent.freerds_write_vblank_event RDS_CLIENT_VBLANK_EVENT VBlankEvent.mk bk) as (st & bk' & -> & Ha & Hr');
    [done|done|vm_compute; lia|]. cbn [mbind option_bind]. by exists bk'.
Qed.

(** The invariant only looks at the connector and at its outbound stream. *)
Lemma display_ok_app (bk bk' : connector) : app bk' = app bk -> roomy 64 (OutboundStream bk') -> display_ok bk -> display_ok bk'.
Proof. intros Ha Hr []. split; unfold attached_ok, active_ok, dsp in *; rewrite ?Ha; done. Qed.

(** Calls of the client change nothing. *)
Lemma display_ok_calls l (bk : connector) : display_ok bk -> display_ok (call_client l bk).
Proof. by intros []. Qed.

Lemma queued_free m : queued m -> is_Some (freerds_server_message_free m).
Proof.
  destruct m as [c b]. intros [Ht Hq]. unfold freerds_server_message_free. cbn [common body] in *. rewrite Ht.
  destruct b; try done; by eexists.
Qed.

(** ** Painting *)

(** A paint message inside of the framebuffer is not clipped. *)
Lemma clip_fits d p : core_paint p -> paint_fits (fb_width d) (fb_height d) p -> clip_paint d p = p.
Proof.
  intros (_ & Hx & Hy) (Hl & Ht & _ & _ & Hr & Hb). destruct p as [l t w h xs ys bd bl seg fb]. cbn in *. subst xs ys.
  unfold clip_paint. cbn -[Z.add]. destruct (Z.ltb_spec (fb_width d) (0 + w)); [lia|]. destruct (Z.ltb_spec (fb_height d) (0 + h)); [lia|]. done.
Qed.

Lemma tile_data_bound s b : tile_data s b -> bitmap_width b <= 64 -> bitmap_height b <= 64 -> bitmapLength b <= limit.
Proof.
  destruct Hlimit as [Hi Hp]. unfold tile_data, bitmapLength. intros Hd Hw Hh.
  destruct (ColorDepth s <? 32); [rewrite Hd; by apply Hi|destruct Hd as [c ->]; by apply Hp].
Qed.

(** The updates are sent: the loop over the fragments ends. *)
Lemma send_updates_ok s e bms : request_size_ok s -> grid_ok e -> Forall (fun b => bitmapLength b <= limit) bms ->
  (length bms <= length (default [] (grid e)))%nat -> exists us, send_updates (update_fuel e) s bms = Some us /\ concat us = bms.
Proof.
  intros [Hl Hm] Hg Hb Hlen. unfold send_updates.
  destruct (Z.ltb_spec (MultifragMaxRequestSize s) (updateSizeEstimate bms)) as [Hlt|]; [|exists [bms]; cbn; by rewrite app_nil_r].
  destruct (decide (bms = [])) as [->|Hne]; [exists []; by destruct (update_fuel e)|].
  destruct (fragment_spec (MultifragMaxRequestSize s) ltac:(lia) (update_fuel e) bms [] []) as (us & u & E & Hc & _).
  - eapply List.Forall_impl; [|exact Hb]. intros b Hb'. unfold short. cbn beta in Hb'. lia.
  - intros pre b post -> _. apply List.Forall_app in Hb as [_ Hb]. inversion Hb. unfold fits. lia.
  - done.
  - rewrite decide_True by done. unfold update_fuel. lia.
  - cbn. lia.
  - done.
  - constructor.
  - exists (us ++ [u]). split; [done|]. by rewrite Hc.
Qed.

(** The request of a paint message that fits the framebuffer. *)
Lemma paint_request (bk : connector) e a size p : fb_memory (dsp bk) = Some a -> attachments (dsp bk) = {[a := size]} ->
  fb_fits (fb_width (dsp bk)) (fb_height (dsp bk)) (fb_scanline (dsp bk)) size ->
  fb_width (dsp bk) <= width e -> fb_height (dsp bk) <= height e ->
  paint_fits (fb_width (dsp bk)) (fb_height (dsp bk)) p ->
  exists fb, framebuffer_of bk = Some fb /\ fbWidth fb = fb_width (dsp bk) /\ fbHeight fb = fb_height (dsp bk) /\ request_ok e fb p.
Proof.
  intros Hm Ha ((Hw & Hh & _) & Hs & Hz) He1 He2 (?&?&?&?&?&?). unfold framebuffer_of. rewrite Hm. cbn [mbind option_bind].
  rewrite Ha, lookup_singleton_eq. cbn [mbind option_bind]. eexists. split; [reflexivity|]. split; [done|]. split; [done|].
  unfold desktop_size in *. split; cbn [fbWidth fbHeight fbScanline fbSharedMemory]; lia.
Qed.

(** A bitmap update: every tile is inside of the framebuffer, and the encoder
    stays as large as it is. *)
Lemma bitmap_update_ok s e fb p : request_size_ok s -> encoder_ok e -> request_ok e fb p ->
  exists e' us, freerds_send_bitmap_update (update_fuel e) (mk_allocs true true true true) s e fb p = Some (1, e', us) /\
    encoder_ok e' /\ width e' = width e /\ height e' = height e /\ request_bitmaps p (concat us).
Proof.
  intros Hs He Hr. destruct (send_bitmap_spec s e fb p He Hr) as (e' & bms & He' & Hb & E & Hk & Hd & Hl).
  destruct (kept_size _ _ Hk) as [Kw Kh].
  destruct (send_updates_ok s e bms Hs (proj1 (proj2 He))) as (us & Eu & Hc); [|done|].
  { apply List.Forall_forall. intros b Hin. apply list_elem_of_In, list_elem_of_lookup in Hin as [i Hi].
    destruct (bitmap_bounds e fb p bms i b Hr Hb Hi) as (_ & _ & _ & _ & Hw & Hh & _).
    apply (tile_data_bound s); [|lia|lia]. rewrite List.Forall_forall in Hd. apply Hd, list_elem_of_In. by apply list_elem_of_lookup_2 in Hi. }
  exists e', us. rewrite E, Eu. rewrite Hc. done.
Qed.

(** Surface bits with RemoteFX: the context is there. *)
Lemma surface_context c id c' : encoder_ok (Encoder.encoder c) ->
  surface_frame FREERDP_CODEC_REMOTEFX (mk_allocs true true true true) c = Some (id, c') -> is_Some (rfx (Encoder.encoder c')).
Proof.
  intros He. unfold surface_frame.
  assert (forall e, encoder_ok e -> is_Some (rfx (snd (freerds_encoder_prepare (settings c) (mk_allocs true true true true) FREERDP_CODEC_REMOTEFX e)))) as Hp.
  { intros e (Hb & _). pose proof (prepare_spec (settings c) (mk_allocs true true true true) FREERDP_CODEC_REMOTEFX e Hb) as Hp.
    pose proof (prepare_succeeds (settings c) FREERDP_CODEC_REMOTEFX e) as Hs.
    destruct (freerds_encoder_prepare _ _ _ e) as [st e1]. cbn in Hs. subst st. destruct Hp as (Hb' & _ & [?|[_ Hset]]); [done|]. cbn.
    apply (ok_rfx _ Hb'). rewrite Hset by apply rfx_in. unfold FREERDP_CODEC_REMOTEFX. rewrite Z.pow2_bits_true by apply bit_nonneg, rfx_in.
    apply orb_true_r. }
  destruct (negb (frameAck (Encoder.encoder c) =? 0)).
  - destruct (freerds_encoder_create_frame_id (Encoder.encoder c)) as [[i e]|] eqn:E; [|done]. cbn [mbind option_bind].
    intros [= <- <-]. apply Hp. destruct He as (Hb & Hg & Ha & Hsz).
    unfold freerds_encoder_create_frame_id in E. destruct (frameList (Encoder.encoder c)) as [l|] eqn:El; [|done].
    destruct (create_frame_spec (Encoder.encoder c) l (conj Hb (conj Hg (conj Ha Hsz))) El) as (e2 & l' & E2 & Hok & _).
    unfold freerds_encoder_create_frame_id in E2. rewrite El in E2. cbn [mbind option_bind] in E, E2. rewrite E in E2. by injection E2 as _ <-.
  - cbn [mbind option_bind]. intros [= <- <-]. by apply Hp.
Qed.

(** What a paint message changes: calls of the client, and the encoder, which
    keeps its size. *)
Definition painted (bk bk' : connector) : Prop :=
  exists e e' l, conn_encoder (dsp bk) = Some e /\ encoder_ok e' /\ width e' = width e /\ height e' = height e /\
    bk' = call_client l (set_dsp (set_encoder_ e' (dsp bk)) bk).

Lemma painted_ok (bk bk' : connector) : painted bk bk' -> activated (dsp bk) = true -> display_ok bk -> display_ok bk'.
Proof.
  intros (e & e' & l & He & He' & Hw & Hh & ->) Hact O. destruct (ok_active _ O Hact) as (e0 & E0 & _ & Hw0 & Hh0).
  rewrite He in E0. injection E0 as <-. apply display_ok_calls. destruct O as [H1 H2 H3 H4 H5 H6 H7 H8 H9].
  split; try done. intros _. exists e'. split; [done|]. split; [done|]. cbn. by rewrite Hw, Hh.
Qed.

Lemma paint_ok (bk : connector) c p : display_ok bk -> activated (dsp bk) = true -> core_paint p ->
  (fbAttached (app bk) <> 0 -> paint_fits (fb_width (dsp bk)) (fb_height (dsp bk)) p) ->
  exists bk', freerds_client_inbound_paint_rect bk (Msg c p) = Some (0, bk') /\ display_ok bk'.
Proof.
  intros O Hact Hp Hf. unfold freerds_client_inbound_paint_rect. cbn [body]. destruct Hp as (Hfb & Hx & Hy). rewrite Hfb.
  destruct (Z.eqb_spec (fbAttached (app bk)) 0) as [|Hatt]; [by exists bk|]. specialize (Hf Hatt).
  rewrite clip_fits by done. destruct (ok_active _ O Hact) as (e & Ee & He & Hw & Hh).
  pose proof (ok_attached _ O) as A. unfold attached_ok in A. destruct (Z.eqb_spec (fbAttached (app bk)) 0); [done|].
  destruct A as (a & size & Hm & Ha & Hfits & Hdw & Hdh).
  destruct (paint_request bk e a size p Hm Ha Hfits) as (fb & Efb & _ & _ & Hreq); [lia|lia|done|].
  rewrite Ee. cbn [mbind option_bind]. rewrite Efb. cbn [mbind option_bind].
  destruct (codecMode (dsp bk)) eqn:Ecm.
  - rewrite (ok_codec _ O Ecm). unfold freerds_send_surface_bits.
    destruct (surface_frame_spec FREERDP_CODEC_REMOTEFX (mk_allocs true true true true) (mk_connection (encoding (dsp bk)) e (conn_frames (dsp bk))) He)
      as (id & c' & E & He' & Kw & Kh & _).
    rewrite E. cbn [mbind option_bind]. destruct (surface_context (mk_connection _ _ _) _ _ He E) as [ctx ->]. cbn [mbind option_bind].
    eexists. split; [reflexivity|]. apply (painted_ok bk); [|done|done]. by eexists e, (Encoder.encoder c'), _.
  - destruct (bitmap_update_ok (encoding (dsp bk)) e fb p (ok_request _ O) He Hreq) as (e' & us & -> & He' & Kw & Kh & _).
    cbn [mbind option_bind]. eexists. split; [reflexivity|]. apply (painted_ok bk); [|done|done]. by eexists e, e', _.
Qed.

(** ** The shared framebuffer *)

Lemma detach_ok (bk : connector) : attached_ok bk ->
  attachments (dsp (detach_if_attached bk)) = ∅ /\ fbAttached (app (detach_if_attached bk)) = 0.
Proof.
  unfold attached_ok, detach_if_attached. destruct (Z.eqb_spec (fbAttached (app bk)) 0); [done|].
  intros (a & size & Hm & Ha & _). unfold freerds_client_detach_framebuffer. cbn. rewrite Hm, Ha. split; [|done]. apply delete_singleton_eq.
Qed.

(** Without the attachment everything else is as before. *)
Lemma detached_ok (bk bk' : connector) : display_ok bk -> ServerList (app bk') = ServerList (app bk) ->
  ServerQueue (app bk') = ServerQueue (app bk) -> fbAttached (app bk') = 0 -> attachments (dsp bk') = ∅ ->
  Pipeline.DesktopWidth (app bk') = Pipeline.DesktopWidth (app bk) -> Pipeline.DesktopHeight (app bk') = Pipeline.DesktopHeight (app bk) ->
  activated (dsp bk') = activated (dsp bk) -> conn_encoder (dsp bk') = conn_encoder (dsp bk) -> codecMode (dsp bk') = codecMode (dsp bk) ->
  RemoteFxCodec (dsp bk') = RemoteFxCodec (dsp bk) -> encoding (dsp bk') = encoding (dsp bk) -> OutboundStream bk' = OutboundStream bk ->
  KeyboardType (dsp bk') = KeyboardType (dsp bk) -> display_ok bk'.
Proof.
  intros [H1 (qs & Hq & Hp & _) H3 H4 H5 H6 H7 H8 H9] El Eq Ea Et Ew Eh Eac Een Ecm Erf Ees Eo Ek. split.
  - by rewrite El.
  - exists qs. rewrite Eq. split; [done|]. split; [done|]. by rewrite Ea.
  - unfold attached_ok. by rewrite Ea.
  - by rewrite Ew, Eh.
  - unfold active_ok. rewrite Eac, Een, Ew, Eh. exact H5.
  - by rewrite Ecm, Erf.
  - by rewrite Ees.
  - by rewrite Eo.
  - by rewrite Ek.
Qed.

Lemma resize_desktop w h (bk : connector) : desktop_size w -> desktop_size h ->
  let bk' := resize_client w h bk in
  Pipeline.DesktopWidth (app bk') = w /\ Pipeline.DesktopHeight (app bk') = h /\
  (activated (dsp bk') = true -> activated (dsp bk) = true /\ Pipeline.DesktopWidth (app bk) = w /\ Pipeline.DesktopHeight (app bk) = h) /\
  exists l a, bk' = set_desktop w h (set_dsp (set_activated a (add_calls l (dsp bk))) bk).
Proof.
  intros Hw Hh. unfold resize_client. rewrite !u32_id by (unfold is_u32, desktop_size in *; lia).
  destruct (Z.eqb_spec w (Pipeline.DesktopWidth (app bk))) as [E1|], (Z.eqb_spec h (Pipeline.DesktopHeight (app bk))) as [E2|]; cbn [negb orb].
  2-4: split; [done|]; split; [done|]; split; [cbn; rewrite resize_deactivates; done|]; by eexists _, _.
  split; [done|]. split; [done|]. split; [done|]. exists [], (activated (dsp bk)).
  destruct bk as [sm hp os is_ [? ? ? ? ? ? ? ? []]]. cbn in *. unfold set_desktop, set_dsp, set_app, dsp, add_calls, set_activated. cbn.
  by rewrite app_nil_r, E1, E2.
Qed.

Lemma attach_display_ok (bk : connector) msg size w h : w = SharedFramebuffer.width msg -> h = SharedFramebuffer.height msg ->
  display_ok bk -> fbAttached (app bk) = 0 -> fb_width (dsp bk) = w -> fb_height (dsp bk) = h -> fb_scanline (dsp bk) = SharedFramebuffer.scanline msg ->
  fb_fits w h (SharedFramebuffer.scanline msg) size ->
  (exists qs, MessageQueue_items (ServerQueue (app bk)) = posted <$> qs /\ Forall pending qs /\ paints_fit w h qs) ->
  display_ok (resize_client w h (attach_framebuffer msg size bk)).
Proof.
  intros -> -> O Hatt Hw Hh Hsc Hf (qs & Hq & Hp & Hpf). pose proof Hf as [(Dw & Dh & Hs) _].
  destruct (resize_desktop _ _ (attach_framebuffer msg size bk) Dw Dh) as (Ew & Eh & Hac & l & a & Er).
  cbv zeta in Ew, Eh, Hac. rewrite Er in Ew, Eh, Hac |- *.
  pose proof (ok_attached _ O) as A. unfold attached_ok in A. rewrite Hatt in A. cbn in A.
  destruct O as [H1 _ _ H4 H5 H6 H7 H8 H9]. split; try done.
  - exists qs. split; [done|]. split; [done|]. intros _. cbn. by rewrite Hw, Hh.
  - unfold attached_ok. cbn. exists (next_addr (dsp bk)), size. split; [done|]. rewrite A. split; [done|]. by rewrite Hw, Hh, Hsc.
  - intros Ha. destruct (Hac Ha) as (Ha' & E1 & E2). destruct (H5 Ha') as (e & Ee & He & W1 & W2). exists e.
    rewrite Ew, Eh. rewrite W1, W2. cbn in E1, E2. done.
Qed.

Lemma paint_full_ok (bk : connector) w h : display_ok bk -> desktop_size w -> desktop_size h -> fb_width (dsp bk) = w -> fb_height (dsp bk) = h ->
  exists bk', post_full_paint common0 w h bk = Some bk' /\ display_ok bk'.
Proof.
  intros O Dw Dh Hw Hh. unfold post_full_paint. rewrite copy_paint_message. cbn [mbind option_bind fmap option_fmap option_map fst].
  eexists. split; [reflexivity|]. destruct O as [H1 (qs & Hq & Hp & Hpf) H3 H4 H5 H6 H7 H8 H9]. split; try done.
  exists (qs ++ [paint_message common0 bk (mk_rect 0 0 w h)]). unfold desktop_size in *. split.
  { rewrite fmap_app, <-Hq. apply queue_post_items. }
  split.
  { apply Forall_app. split; [done|]. constructor; [|constructor]. split; [split; done|]. done. }
  intros Ha c p [Hin|Hin]%elem_of_app; [by apply (Hpf Ha c)|]. apply list_elem_of_singleton in Hin. injection Hin as -> ->.
  cbn in Hw, Hh |- *. unfold paint_fits. cbn. rewrite !i32_id by (unfold is_i32; lia). change (fb_width (dsp _)) with (fb_width (dsp bk)).
  change (fb_height (dsp _)) with (fb_height (dsp bk)). unfold dsp in *. lia.
Qed.

Lemma shared_framebuffer_ok shm (bk : connector) c msg : display_ok bk ->
  (forall size, Z.land (SharedFramebuffer.flags msg) 1 <> 0 -> shm (SharedFramebuffer.segmentId msg) = Some size ->
    fb_fits (SharedFramebuffer.width msg) (SharedFramebuffer.height msg) (SharedFramebuffer.scanline msg) size /\
    forall qs, MessageQueue_items (ServerQueue (app bk)) = posted <$> qs ->
      paints_fit (SharedFramebuffer.width msg) (SharedFramebuffer.height msg) qs) ->
  exists st bk', freerds_client_inbound_shared_framebuffer shm common0 bk (Msg c msg) = Some (st, bk') /\ display_ok bk'.
Proof.
  intros O Hok. unfold freerds_client_inbound_shared_framebuffer. cbn [body].
  destruct (detach_ok bk (ok_attached _ O)) as [Hd Ha].
  assert (ServerQueue (app (detach_if_attached bk)) = ServerQueue (app bk)) as Hq by (unfold detach_if_attached; by destruct (_ =? _)).
  assert (display_ok (detach_if_attached bk)) as Od.
  { apply (detached_ok bk); try done; unfold detach_if_attached; by destruct (_ =? _). }
  destruct (Z.eqb_spec (Z.land (SharedFramebuffer.flags msg) 1) 0) as [|Hfl]; cbn [negb].
  { destruct (vblank_ok _ (ok_outbound _ Od)) as (bk' & -> & Eapp & Hr). cbn [mbind option_bind]. eexists _, bk'. split; [done|].
    by apply (display_ok_app (detach_if_attached bk)). }
  set (bk0 := detach_if_attached bk) in *. set (bk1 := set_attached _ _ (set_dsp _ bk0)).
  assert (display_ok bk1) as O1 by (apply (detached_ok bk0); done).
  destruct (shm (SharedFramebuffer.segmentId msg)) as [size|]; [|by eexists _, bk1].
  destruct (Hok size Hfl eq_refl) as [Hf Hp]. pose proof Hf as [(Dw & Dh & _) _].
  assert (display_ok (resize_client (SharedFramebuffer.width msg) (SharedFramebuffer.height msg) (attach_framebuffer msg size bk1))) as O2.
  { apply attach_display_ok; try done. destruct (ok_pending _ O1) as (qs & Eq & Hqs & _). exists qs. split; [done|]. split; [done|].
    apply Hp. rewrite <-Hq. exact Eq. }
  set (bk2 := resize_client _ _ _) in *.
  assert (fb_width (dsp bk2) = SharedFramebuffer.width msg /\ fb_height (dsp bk2) = SharedFramebuffer.height msg) as [W2 H2].
  { unfold bk2. destruct (resize_desktop _ _ (attach_framebuffer msg size bk1) Dw Dh) as (_ & _ & _ & l & a & ->). done. }
  destruct (paint_full_ok bk2 _ _ O2 Dw Dh W2 H2) as (bk3 & -> & O3). cbn [mbind option_bind].
  destruct (vblank_ok _ (ok_outbound _ O3)) as (bk' & -> & Eapp & Hr). cbn [mbind option_bind]. eexists _, bk'. split; [done|].
  by apply (display_ok_app bk3).
Qed.

(** ** Processing *)

(** Taking a message out of the queue. *)
Lemma peek_ok (bk : connector) message q : display_ok bk -> MessageQueue_Peek (ServerQueue (app bk)) = Some (message, q) ->
  exists m, message = posted m /\ pending m /\ display_ok (set_queue q bk) /\
    (forall qs, MessageQueue_items q = posted <$> qs -> MessageQueue_items (ServerQueue (app bk)) = posted <$> m :: qs) /\
    (forall p, body m = mPaintRect p -> fbAttached (app bk) <> 0 -> paint_fits (fb_width (dsp bk)) (fb_height (dsp bk)) p).
Proof.
  intros O Ep. pose proof (queue_peek_items _ (ServerQueue (app bk))) as Hp. rewrite Ep in Hp.
  destruct O as [H1 (qs & Hq & Hqs & Hf) H3 H4 H5 H6 H7 H8 H9]. rewrite Hq in Hp. destruct qs as [|m qs]; [done|].
  injection Hp as <- Hp. apply List.Forall_cons_iff in Hqs as [Hm Hqs]. exists m. split; [done|]. split; [done|]. split; [|split].
  - split; try done. exists qs. split; [done|]. split; [done|]. intros Ha c p Hin. apply (Hf Ha c). by right.
  - intros qs' E'. rewrite Hq, !fmap_cons. f_equal. rewrite <-E'. exact Hp.
  - intros p Eb Ha. destruct m as [c b]. cbn in Eb. subst b. apply (Hf Ha c). left.
Qed.

(** The proxy serves every pending message of an active display. *)
Lemma proxy_ok shm (bk : connector) m : display_ok bk -> activated (dsp bk) = true -> pending m ->
  (forall p, body m = mPaintRect p -> fbAttached (app bk) <> 0 -> paint_fits (fb_width (dsp bk)) (fb_height (dsp bk)) p) ->
  (forall msg size, body m = mSharedFramebuffer msg -> Z.land (SharedFramebuffer.flags msg) 1 <> 0 -> shm (SharedFramebuffer.segmentId msg) = Some size ->
    fb_fits (SharedFramebuffer.width msg) (SharedFramebuffer.height msg) (SharedFramebuffer.scanline msg) size /\
    forall qs, MessageQueue_items (ServerQueue (app bk)) = posted <$> qs ->
      paints_fit (SharedFramebuffer.width msg) (SharedFramebuffer.height msg) qs) ->
  exists st bk', call_server (client_interface shm common0 false) bk (common m) (body m) = Some (st, bk') /\ display_ok bk'.
Proof.
  destruct m as [c b]. cbn [common body]. intros O Hact [[_ Hq] Hp] Hpaint Hfb.
  assert (forall l, exists bk', vblank common0 (call_client l bk) = Some bk' /\ display_ok bk') as Hv.
  { intros l. pose proof (display_ok_calls l bk O) as Ol. destruct (vblank_ok _ (ok_outbound _ Ol)) as (bk' & E & Ea & Hr).
    exists bk'. split; [done|]. by apply (display_ok_app (call_client l bk)). }
  destruct b; try done; cbn [call_server client_interface BeginUpdate EndUpdate SetClippingRegion OpaqueRect ScreenBlt PaintRect PatBlt DstBlt LineTo
    CreateOffscreenSurface SwitchOffscreenSurface DeleteOffscreenSurface PaintOffscreenSurface SetPalette GlyphIndex SetPointer SharedFramebuffer Beep
    SetSystemPointer mbind option_bind];
    try (eexists _, bk; split; [reflexivity|exact O]); try (eexists; eexists; split; [reflexivity|]; by apply display_ok_calls).
  - unfold freerds_client_inbound_end_update. destruct (Hv [c_end_paint]) as (bk' & E & O'). cbn [snd freerds_orders_end_paint].
    rewrite E. by eexists _, bk'.
  - destruct (paint_ok bk c b O Hact Hp (Hpaint b eq_refl)) as (bk' & E & O'). by eexists _, bk'.
  - by apply shared_framebuffer_ok; [|intros size; apply Hfb].
Qed.

Lemma check_turn_ok shm (bk : connector) : display_ok bk -> attach_ok shm bk ->
  exists st bk', check_turn shm common0 false bk = Some (st, bk') /\ display_ok bk'.
Proof.
  intros O Hatt. unfold check_turn. destruct (MessageQueue_Peek (ServerQueue (app bk))) as [[message q]|] eqn:Ep; [|by eexists _, bk].
  destruct (activated (dsp bk)) eqn:Ea; [|by eexists _, bk]. unfold freerds_message_server_queue_process_pending_messages. rewrite Ep.
  destruct (peek_ok bk message q O Ep) as (m & -> & Hm & Oq & Hitems & Hpaint). rewrite process_message_spec by apply Hm.
  destruct (proxy_ok shm (set_queue q bk) m Oq Ea Hm Hpaint) as (st & bk' & -> & O').
  { intros msg size Eb Hfl Hs. destruct m as [c b]. cbn in Eb. subst b.
    destruct (ok_pending _ Oq) as (qs & Eqs & _). destruct (Hatt c msg qs size (Hitems qs Eqs) Hfl Hs) as [Hf Hp]. split; [done|].
    intros qs' E'. cbn in Eqs, E'. rewrite E' in Eqs.
    assert (Some <$> qs' = Some <$> qs :> list node) as Ei.
    { apply (f_equal (fmap wParam)) in Eqs. rewrite <-!list_fmap_compose in Eqs. exact Eqs. }
    apply (base.inj (fmap Some)) in Ei. by subst qs'. }
  cbn [mbind option_bind]. destruct (queued_free m (proj1 Hm)) as [fr ->]. cbn [mbind option_bind]. by eexists _, bk'.
Qed.

(** ** The client thread *)

Lemma message_display_ok (bk : connector) c r : display_ok bk -> message_ok c r ->
  exists bk', act common0 (d_message c r) bk = Some bk' /\ display_ok bk'.
Proof.
  intros O ((m0 & m & Er & Hok & H0) & Hd & Hh). unfold act. set (proxy := client_interface _ _ _).
  destruct (decide (match m with mWindowDelete _ | mLogonUser _ | mLogoffUser _ => true | _ => false end = true)) as [Hm|Hm].
  { exists bk. destruct m, m0; try discriminate; by injection Er as <-. }
  set (c' := mk_common (server_type m) (msg_length c) (msgFlags c) (rect c)).
  destruct (copy_received c' m0 m r Er Hok eq_refl H0) as (bl & Ec).
  assert (call_server (pipeline_interface proxy) bk c r = freerds_server_message_enqueue bk (Msg c' r)) as ->.
  { destruct m, m0; try discriminate; try (by destruct H0); try (by destruct Hm); by injection Er as <-. }
  unfold freerds_server_message_enqueue. rewrite Ec. cbn [mbind option_bind fmap option_fmap option_map fst snd].
  eexists. split; [reflexivity|]. destruct O as [(ms & Hl & Hms) H2 H3 H4 H5 H6 H7 H8 H9]. split; try done.
  exists (ms ++ [Msg c' r]). split.
  { rewrite fmap_app, <-Hl. apply list_add_items. }
  apply Forall_app. split; [done|]. constructor; [|constructor]. split; [|split; [exact Hd|exact Hh]].
  split; destruct m, m0; try discriminate; try (by destruct H0); try (by destruct Hm); by injection Er as <-.
Qed.

Lemma plain_pending ms : Forall listed ms -> Forall pending (List.filter plain ms).
Proof.
  intros H. apply List.Forall_forall. intros m [Hin Hp]%List.filter_In. rewrite List.Forall_forall in H. destruct (H m Hin) as (Hq & _ & Hh).
  unfold plain in Hp. apply negb_true_iff in Hp. specialize (Hh Hp). split; [done|]. by destruct (body m).
Qed.

Lemma plain_no_paint ms c p : Forall listed ms -> Msg c (mPaintRect p) ∉ List.filter plain ms.
Proof.
  intros H Hin. apply plain_pending in H as Hp. rewrite List.Forall_forall in H. apply list_elem_of_In, List.filter_In in Hin as [Hin Hpl].
  destruct (H _ Hin) as (_ & _ & Hh). unfold plain in Hpl. apply negb_true_iff in Hpl. by apply Hh in Hpl.
Qed.

(** Packing only changes the list and the queue. *)
Lemma pack_frame (bk bk' : connector) st : freerds_message_server_queue_pack common0 bk = Some (st, bk') ->
  exists l q, bk' = set_list l (set_queue q bk).
Proof.
  unfold freerds_message_server_queue_pack. destruct (pack_nodes _ _ _) as [[reg q]|]; [|done]. cbn [mbind option_bind]. cbv zeta.
  destruct (_ && _); [|intros [= _ <-]; by eexists _, _]. destruct (freerds_server_message_copy _) as [[[msg bl]|]|]; [|done..].
  cbn [mbind option_bind fmap option_fmap option_map fst]. intros [= _ <-]. by eexists _, _.
Qed.

Lemma pack_display_ok (bk : connector) : display_ok bk -> exists bk', act common0 d_pack bk = Some bk' /\ display_ok bk'.
Proof.
  intros O. unfold act. destruct (ok_listed _ O) as (ms & Hl & Hms). destruct (ok_desktop _ O) as (Dw & Dh & _).
  destruct (queue_pack_spec common0 bk ms Hl) as (bk' & paint & E & El & Eq & Hp & _); [|done|done|].
  { eapply List.Forall_impl; [|exact Hms]. by intros m (_ & ? & _). }
  rewrite E. exists bk'. split; [done|]. destruct (pack_frame _ _ _ E) as (l & q & ->).
  destruct O as [H1 (qs & Hq & Hqs & Hf) H3 H4 H5 H6 H7 H8 H9]. split; try done.
  { exists []. split; [exact El|constructor]. }
  destruct Hp as [->|(r & Hin & Hrw & Hrh & Hatt & ->)].
  - exists (qs ++ List.filter plain ms). rewrite fmap_app, <-Hq, app_nil_r in *. split; [exact Eq|].
    split; [apply Forall_app; split; [done|by apply plain_pending]|].
    intros Ha c p [Hi|Hi]%elem_of_app; [by apply (Hf Ha c)|]. by apply plain_no_paint in Hi.
  - exists (qs ++ List.filter plain ms ++ [paint_message common0 bk r]). split; [rewrite !fmap_app, <-Hq; exact Eq|].
    destruct Hin as (?&?&?&?&Hrx&Hry). unfold desktop_size in *.
    assert (core_paint (PaintRect.mk (i32 (rect_x r)) (i32 (rect_y r)) (i32 (rect_width r)) (i32 (rect_height r)) 0 0 None 0
      (u32 (Pipeline.fbSegmentId (app bk))) PaintRect.fb_backend)) as Hc by done.
    split; [apply Forall_app; split; [done|]; apply Forall_app; split; [by apply plain_pending|constructor; [split; [split; done|exact Hc]|constructor]]|].
    intros Ha c p [Hi|[Hi|Hi]%elem_of_app]%elem_of_app; [by apply (Hf Ha c)|by apply plain_no_paint in Hi|].
    apply list_elem_of_singleton in Hi. injection Hi as -> ->. unfold attached_ok in H3.
    destruct (Z.eqb_spec (fbAttached (app bk)) 0); [done|]. destruct H3 as (_ & _ & _ & _ & _ & Ew & Eh).
    unfold paint_fits. cbn. rewrite !i32_id by (unfold is_i32; lia). cbn in Ew, Eh. unfold dsp in *. cbn. lia.
Qed.

(** ** The thread of the connection *)

Lemma activate_display_ok (bk : connector) : display_ok bk -> exists bk', act common0 d_activate bk = Some bk' /\ display_ok bk'.
Proof.
  intros O. unfold act, peer_activation, freerds_peer_activate.
  destruct (ok_desktop _ O) as (Dw & Dh & Hs). unfold desktop_size in *. rewrite !i32_id by (unfold is_i32; lia).
  destruct (new_spec_ _ _ Hs) as (e & E & He & _).
  assert (width e = Pipeline.DesktopWidth (app bk) /\ height e = Pipeline.DesktopHeight (app bk)) as [Hw Hh].
  { unfold freerds_encoder_new in E.
    destruct (init_spec_ (mk_encoder (Pipeline.DesktopWidth (app bk)) (Pipeline.DesktopHeight (app bk)) 0 None 0 0 None 0 0 None None None None None 16 32 0 0 None) Hs)
      as (e' & E1 & _ & ? & ? & _). rewrite E1 in E. by injection E as <-. }
  destruct (activate_settings (dsp bk)) as [[[s rf] ns] kb] eqn:Es.
  assert (request_size_ok s /\ is_u32 kb) as [Hrs Hkb].
  { pose proof (ok_request _ O) as Hr. pose proof (ok_keyboard _ O) as Hk. unfold activate_settings in Es.
    destruct (bool_decide _); injection Es as <- <- <- <-; (split; [exact Hr|]); destruct (KeyboardType (dsp bk) =? 7); done. }
  rewrite E. cbn [mbind option_bind]. eexists. split; [reflexivity|]. destruct O as [H1 H2 H3 H4 H5 H6 H7 H8 H9]. split; try done.
  - intros _. exists e. split; [done|]. split; [done|]. split; [exact Hw|exact Hh].
  - cbn. by intros [[? _]%andb_true_iff _]%andb_true_iff.
Qed.

Lemma input_display_ok {B'} (wr : writer B') `{E : !Encoder wr} t (b : B') (bk : connector) :
  ok (wr := wr) b -> display_ok bk -> (length (event_bytes common0 wr t b) <= 64)%nat ->
  exists bk', (c ← if_backend (Some bk) (Some (outbound_event common0 wr t b)); c) = Some bk' /\ display_ok bk'.
Proof.
  intros Hok O Hl. destruct (event_ok wr t b bk Hok (ok_outbound _ O) Hl) as (st & bk' & E' & Ha & Hr).
  exists bk'. unfold if_backend. rewrite E'. split; [done|]. by apply (display_ok_app bk).
Qed.

(** ** Every action *)

Lemma display_act_safe a (bk : connector) : display_ok bk -> act_ok a bk -> exists bk', act common0 a bk = Some bk' /\ display_ok bk'.
Proof.
  intros O. destruct a as [c r| |shm| |flags x y|flags code]; intros Ha.
  - by apply message_display_ok.
  - by apply pack_display_ok.
  - destruct (check_turn_ok shm bk O Ha) as (st & bk' & E & O'). exists bk'. unfold act. by rewrite E.
  - by apply activate_display_ok.
  - apply (input_display_ok MouseEvent.freerds_write_mouse_event RDS_CLIENT_MOUSE_EVENT (MouseEvent.mk flags x y)); [done..|vm_compute; lia].
  - apply (input_display_ok ScancodeKeyboardEvent.freerds_write_scancode_keyboard_event RDS_CLIENT_SCANCODE_KEYBOARD_EVENT
      (ScancodeKeyboardEvent.mk flags code (KeyboardType (dsp bk)))); [|done|vm_compute; lia].
    destruct Ha. split; [done|]. split; [done|]. apply (ok_keyboard _ O).
Qed.

Lemma acts_safe l (bk : connector) : display_ok bk -> acts_ok l bk -> exists bk', acts common0 l bk = Some bk' /\ display_ok bk'.
Proof.
  revert bk. induction l as [|a l IH]; intros bk O Hl; [by exists bk|]. destruct Hl as [Ha Hl]. cbn [acts].
  destruct (display_act_safe a bk O Ha) as (bk1 & E & O1). rewrite E in Hl |- *. by apply IH.
Qed.

(** A new connector. *)
Lemma connector_new_ok p dw dh d : desktop_ok dw dh -> request_size_ok (encoding d) -> is_u32 (KeyboardType d) ->
  attachments d = ∅ -> activated d = false -> codecMode d = false -> display_ok (freerds_connector_new p dw dh d).
Proof.
  intros Hd Hr Hk Ha Hact Hcm. split; try done.
  - exists []. split; [apply list_new_items|constructor].
  - exists []. split; [apply queue_new_items|]. split; [constructor|done].
  - intros Ht. cbn in Ht. congruence.
  - cbn. congruence.
  - destruct (new_spec (Z.to_nat 8192)) as (buf & Hs & Hb). exists buf, 0%nat, (Z.to_nat 8192). split; [exact Hs|]. lia.
Qed.
End Invariant.

(** ** Attachments *)

Section Attachments.
Context {W : WStream} {P : Pipe} {F : WindowOrder} {K : Collections} {G : Region16}.
Context {D : Dictionary} {B : CodecBits} {C : Compression} {R : Peer}.
Context (common0 : RDS_MSG_COMMON).
Abbreviation connector := (rdsBackend (connector_ext (A := display))).

(** The process has attached the framebuffer of the connector and nothing else. *)
Definition one_attachment (bk : connector) : Prop :=
  if fbAttached (app bk) =? 0 then attachments (dsp bk) = ∅
  else exists a size, fb_memory (dsp bk) = Some a /\ attachments (dsp bk) = {[a := size]}.

(** The fields it is about. *)
Definition same_shm (bk bk' : connector) : Prop :=
  fbAttached (app bk') = fbAttached (app bk) /\ fb_memory (dsp bk') = fb_memory (dsp bk) /\ attachments (dsp bk') = attachments (dsp bk).

Lemma same_shm_one bk bk' : same_shm bk bk' -> one_attachment bk -> one_attachment bk'.
Proof. intros (E1 & E2 & E3). unfold one_attachment. by rewrite E1, E2, E3. Qed.

Lemma same_shm_app bk bk' : app bk' = app bk -> same_shm bk bk'.
Proof. intros E. unfold same_shm, dsp. by rewrite E. Qed.

Lemma detach_one bk : one_attachment bk -> attachments (dsp (detach_if_attached bk)) = ∅ /\ fbAttached (app (detach_if_attached bk)) = 0.
Proof.
  unfold one_attachment, detach_if_attached. destruct (Z.eqb_spec (fbAttached (app bk)) 0); [done|].
  intros (a & size & Hm & Ha). unfold freerds_client_detach_framebuffer. cbn. rewrite Hm, Ha. split; [apply delete_singleton_eq|done].
Qed.

(** An event changes the pipe and the outbound stream only. *)
Lemma event_app {B'} (wr : writer B') t (b : B') (bk bk' : connector) st : outbound_event common0 wr t b bk = Some (st, bk') -> app bk' = app bk.
Proof.
  unfold outbound_event. destruct (wr None _) as [[[n m] o]|]; [|done]. cbn [mbind option_bind].
  destruct (wr (Some _) m) as [[[n' m'] [s|]]|]; [|done..]. cbn [mbind option_bind].
  destruct (freerds_named_pipe_write _ _ _) as [[st' p]|]; [|done]. by intros [= _ <-].
Qed.

Lemma vblank_app (bk bk' : connector) : vblank common0 bk = Some bk' -> app bk' = app bk.
Proof.
  unfold vblank. cbn [VBlankEvent freerds_client_outbound_interface_new mbind option_bind].
  destruct (freerds_client_outbound_vblank_event common0 bk) as [[st b]|] eqn:E; [|done]. intros [= <-]. by apply event_app in E.
Qed.

Lemma resize_shm w h (bk : connector) : same_shm bk (resize_client w h bk).
Proof. unfold resize_client. by destruct (_ || _). Qed.

Lemma shared_framebuffer_shm shm (bk bk' : connector) m st : one_attachment bk ->
  freerds_client_inbound_shared_framebuffer shm common0 bk m = Some (st, bk') -> one_attachment bk'.
Proof.
  intros O. destruct (detach_one bk O) as [Hd Ha]. unfold freerds_client_inbound_shared_framebuffer.
  destruct (negb _).
  - destruct (shm _) as [size|].
    + set (bk1 := set_attached _ _ (set_dsp _ _)). set (bk2 := resize_client _ _ _). intros E.
      assert (one_attachment bk2) as O2.
      { eapply same_shm_one; [apply resize_shm|]. unfold one_attachment. cbn. exists (next_addr (dsp bk1)), size. split; [done|].
        change (attachments _) with (attachments (dsp (detach_if_attached bk))). by rewrite Hd. }
      unfold post_full_paint in E. destruct (freerds_server_message_copy _) as [[[msg bl]|]|]; [|done..].
      cbn [mbind option_bind fmap option_fmap option_map fst] in E. destruct (vblank common0 _) as [bk3|] eqn:Ev; [|done].
      injection E as _ <-. apply vblank_app in Ev. eapply same_shm_one; [by apply same_shm_app|]. by eapply same_shm_one; [|exact O2].
    + intros [= _ <-]. unfold one_attachment. cbn -[Z.eqb]. cbn in Ha. rewrite Ha. cbn. exact Hd.
  - destruct (vblank common0 _) as [bk3|] eqn:Ev; [|done]. intros [= _ <-]. apply vblank_app in Ev.
    eapply same_shm_one; [by apply same_shm_app|]. unfold one_attachment. by rewrite Ha.
Qed.

Lemma paint_shm (bk bk' : connector) m st : freerds_client_inbound_paint_rect bk m = Some (st, bk') -> same_shm bk bk'.
Proof.
  unfold freerds_client_inbound_paint_rect. destruct (PaintRect.framebuffer (body m)); [done| |done].
  destruct (_ =? 0); [by intros [= _ <-]|]. destruct (conn_encoder (dsp bk)) as [e|]; [|done]. destruct (framebuffer_of bk) as [fb|]; [|done].
  cbn [mbind option_bind]. destruct (codecMode (dsp bk)).
  - destruct (freerds_send_surface_bits _ _ _ _ _ _) as [[[s c] l]|]; [|done]. by intros [= _ <-].
  - destruct (freerds_send_bitmap_update _ _ _ _ _ _) as [[[s c] l]|]; [|done]. by intros [= _ <-].
Qed.

Lemma proxy_shm shm (bk bk' : connector) c b st : one_attachment bk ->
  call_server (client_interface shm common0 false) bk c b = Some (st, bk') -> one_attachment bk'.
Proof.
  intros O. destruct b; try done; cbn [call_server client_interface BeginUpdate EndUpdate SetClippingRegion OpaqueRect ScreenBlt PaintRect PatBlt DstBlt LineTo
    CreateOffscreenSurface SwitchOffscreenSurface DeleteOffscreenSurface PaintOffscreenSurface SetPalette GlyphIndex SetPointer SharedFramebuffer Beep
    SetSystemPointer CacheGlyph Reset WindowNewUpdate WindowDelete LogonUser LogoffUser mbind option_bind];
    try (intros [= _ <-]; by (eapply same_shm_one; [|exact O])).
  - unfold freerds_client_inbound_end_update. destruct (vblank common0 _) as [bk3|] eqn:Ev; [|done]. intros [= _ <-].
    apply vblank_app in Ev. eapply same_shm_one; [by apply same_shm_app|]. by (eapply same_shm_one; [|exact O]).
  - intros E. eapply same_shm_one; [by eapply paint_shm|done].
  - unfold freerds_client_inbound_cache_glyph, freerds_orders_send_font. cbn [body]. destruct (Stubs.glyphData b) as [g|]; [|done]. cbn [mbind option_bind].
    destruct (g !! 0%nat); [|done]. intros [= _ <-]. by (eapply same_shm_one; [|exact O]).
  - intros E. by eapply shared_framebuffer_shm.
Qed.

(** The message of the queue may be of any kind. *)
Lemma proxy_call_shm {B'} `{View B'} (h : handler _ B') (bk bk' : connector) n st : one_attachment bk ->
  (forall m st bk', h bk m = Some (st, bk') -> one_attachment bk') -> proxy_call (Some h) bk n = Some (st, bk') -> one_attachment bk'.
Proof.
  intros O Hh. unfold proxy_call. destruct n as [m|]; [|done]. cbn [mbind option_bind]. destruct (proj (body m)) as [b|]; [|done].
  cbn [mbind option_bind]. apply Hh.
Qed.

Lemma process_shm shm (bk bk' : connector) message st fr : one_attachment bk ->
  freerds_message_server_queue_process_message (client_interface shm common0 false) bk message = Some (st, fr, bk') -> one_attachment bk'.
Proof.
  intros O. unfold freerds_message_server_queue_process_message. destruct (_ =? _); [by intros [= _ _ <-]|].
  match goal with |- ('(status, bk) ← ?call; _) = _ -> _ => set (r := call) end. intros E.
  assert (exists st', r = Some (st', bk')) as [st' Er].
  { destruct r as [[s b]|]; [|done]. cbn [mbind option_bind] in E. destruct (wParam message) as [m|]; [|done]. cbn [mbind option_bind] in E.
    destruct (freerds_server_message_free m); [|done]. cbn [mbind option_bind] in E. destruct (s <? 0); injection E as _ _ ->; by exists s. }
  clear E. revert Er. unfold r. clear r. repeat case_match; try (intros [= _ <-]; done); apply proxy_call_shm; try done; intros m s b E;
    first [by eapply (proxy_shm shm bk b (common m) (inj (body m)))|idtac].
Qed.

Lemma enqueue_shm (bk bk' : connector) m st : freerds_server_message_enqueue bk m = Some (st, bk') -> same_shm bk bk'.
Proof. unfold freerds_server_message_enqueue. destruct (freerds_server_message_copy m) as [n|]; [|done]. by intros [= _ <-]. Qed.

Lemma act_shm a (bk bk' : connector) : one_attachment bk -> act common0 a bk = Some bk' -> one_attachment bk'.
Proof.
  intros O. destruct a as [c r| |shm| |flags x y|flags code]; unfold act.
  - destruct r; try done; cbn [call_server pipeline_interface BeginUpdate EndUpdate SetClippingRegion OpaqueRect ScreenBlt PaintRect PatBlt DstBlt LineTo
      CreateOffscreenSurface SwitchOffscreenSurface DeleteOffscreenSurface PaintOffscreenSurface SetPalette GlyphIndex SetPointer SharedFramebuffer Beep
      SetSystemPointer CacheGlyph Reset WindowNewUpdate WindowDelete LogonUser LogoffUser client_interface mbind option_bind];
      try (intros [= <-]; by (eapply same_shm_one; [|exact O]));
      (match goal with |- snd <$> ?t = _ -> _ => destruct t as [[st bk1]|] eqn:E end; [|done]); intros [= <-];
      (eapply same_shm_one; [|exact O]); eapply enqueue_shm; exact E.
  - destruct (freerds_message_server_queue_pack common0 bk) as [[st b]|] eqn:E; [|done]. intros [= <-].
    destruct (pack_frame common0 bk b st E) as (l & q & ->). by (eapply same_shm_one; [|exact O]).
  - unfold check_turn. destruct (MessageQueue_Peek _) as [[message q]|] eqn:Ep; [|by intros [= <-]].
    destruct (activated (dsp bk)); [|by intros [= <-]]. unfold freerds_message_server_queue_process_pending_messages. rewrite Ep.
    destruct (freerds_message_server_queue_process_message _ _ _) as [[[st fr] b]|] eqn:E; [|done]. intros [= <-].
    assert (one_attachment (set_queue q bk)) as Oq by by (eapply same_shm_one; [|exact O]). revert Oq E. generalize (set_queue q bk). clear.
    intros bk O E. by eapply process_shm.
  - unfold peer_activation, freerds_peer_activate. destruct (activate_settings (dsp bk)) as [[[s rf] ns] kb].
    destruct (freerds_encoder_new _ _) as [e|]; [|done]. intros [= <-]. by (eapply same_shm_one; [|exact O]).
  - unfold freerds_input_mouse_event, if_backend. cbn [MouseEvent freerds_client_outbound_interface_new mbind option_bind].
    destruct (freerds_client_outbound_mouse_event common0 bk flags x y) as [[st b]|] eqn:E; [|done]. intros [= <-]. apply event_app in E.
    by eapply same_shm_one; [apply same_shm_app|].
  - unfold freerds_input_keyboard_event, if_backend. cbn [ScancodeKeyboardEvent freerds_client_outbound_interface_new mbind option_bind].
    destruct (freerds_client_outbound_scancode_keyboard_event common0 bk flags code _) as [[st b]|] eqn:E; [|done]. intros [= <-]. apply event_app in E.
    by eapply same_shm_one; [apply same_shm_app|].
Qed.

Lemma acts_shm l (bk bk' : connector) : one_attachment bk -> acts common0 l bk = Some bk' -> one_attachment bk'.
Proof.
  revert bk. induction l as [|a l IH]; intros bk O; cbn [acts]; [by intros [= <-]|].
  destruct (act common0 a bk) as [bk1|] eqn:E; [|done]. cbn [mbind option_bind]. apply IH. by eapply act_shm.
Qed.
End Attachments.

(** ** The first message *)

Section Init.
Context {W : WStream} {L : WStreamLaws W} {P : Pipe} {PL : PipeLaws P}.

(** The bytes of the capabilities of a client. *)
Definition capabilities_bytes (dw dh layout type subtype : Z) : list Z :=
  wire_header (mk_common RDS_CLIENT_CAPABILITIES 38 0 (mk_rect 0 0 0 0)) ++
  Capabilities.wire_capabilities (Capabilities.mk 1 dw dh 0 layout type subtype).

(** On a new stream the whole message is sent, or a part of it and the status
    is negative. *)
Lemma init_client_sends p dw dh layout type subtype : is_u32 dw -> is_u32 dh -> is_u32 layout -> is_u32 type -> is_u32 subtype ->
  let bytes := capabilities_bytes dw dh layout type subtype in
  exists st s p', freerds_init_client p dw dh layout type subtype (Stream_New (Z.to_nat 8192)) = Some (st, s, p') /\
    (st = 38 /\ outbound p' = outbound p ++ bytes \/ st = -1 /\ exists k, (k < 38)%nat /\ outbound p' = outbound p ++ take k bytes).
Proof.
  intros Hw Hh Hl Ht Hs bytes. destruct (new_spec (Z.to_nat 8192)) as (buf & H0 & Hb). unfold freerds_init_client.
  set (c := mk_common RDS_CLIENT_CAPABILITIES 0 0 (mk_rect 0 0 0 0)). set (b := Capabilities.mk 1 dw dh 0 layout type subtype).
  assert (ok (wr := Capabilities.freerds_write_capabilities) b) as Hok by (cbn; unfold is_u32 in *; repeat split; cbn; lia).
  assert (length bytes = 38%nat) as Hlen by reflexivity.
  destruct (codec_write (wr := Capabilities.freerds_write_capabilities) c b Hok (Stream_New (Z.to_nat 8192)) buf 0%nat (Z.to_nat 8192) H0) as (s' & E1 & Hs').
  { change (0 + length bytes <= length buf)%nat. rewrite Hlen, Hb. lia. }
  revert E1 Hs'. change (wire_header _ ++ _) with bytes. rewrite Hlen. unfold with_stream. intros E1 Hs'.
  destruct (Capabilities.freerds_write_capabilities (Some (Stream_New (Z.to_nat 8192))) (Msg c b)) as [[[st m1] [s2|]]|]; cbn [mbind option_bind] in E1 |- *; try done.
  injection E1 as _ _ ->. destruct Hs' as (Eb & Ep & _). rewrite Eb, Ep. change (u32 (Z.of_nat (0 + 38))) with 38.
  destruct (named_pipe_write_spec p (splice 0 bytes buf) 38) as (st2 & p2 & -> & _ & Hc); [rewrite length_splice; lia|lia|].
  cbn [mbind option_bind]. do 3 eexists. split; [reflexivity|].
  assert (take 38 (splice 0 bytes buf) = bytes) as Htake by (rewrite <-Hlen at 1; rewrite <-(Nat.add_0_l (length bytes)), take_splice_end by lia; done).
  change (Z.to_nat 38) with 38%nat in Hc. rewrite Htake in Hc. destruct Hc as [(-> & Ho)|(-> & k & Hk & Ho)]; [by left|right].
  split; [done|]. exists k. split; [done|]. rewrite Ho. f_equal. rewrite <-Htake, take_take, Nat.min_l by lia. done.
Qed.
End Init.

(** ** A frame *)

Section Frame.
Context {W : WStream} {L : WStreamLaws W} {P : Pipe} {PL : PipeLaws P} {F : WindowOrder}.
Context {K : Collections} {KL : CollectionsLaws K} {G : Region16} {GL : Region16Laws G}.
Context {D : Dictionary} {DL : DictionaryLaws D} {B : CodecBits} {BL : CodecBitsLaws B} {C : Compression} {R : Peer} {RL : PeerLaws R}.
Context (common0 : RDS_MSG_COMMON) (limit : Z) (Hlimit : tile_bound limit).
Abbreviation connector := (rdsBackend (connector_ext (A := display))).

(** A drawing message. *)
Definition drawing (m : MSG msg_body) : Prop := has_rect (common m) = true /\ drawable (rect (common m)).

(** A pixel of the desktop that one of the messages draws. *)
Definition drawn_pixel (bk : connector) (ms : list (MSG msg_body)) (x y : Z) : Prop :=
  (exists m, m ∈ ms /\ covers (rect (common m)) x y) /\
  0 <= x < Pipeline.DesktopWidth (app bk) /\ 0 <= y < Pipeline.DesktopHeight (app bk).

(** Packing drawing messages leaves one paint message that covers what they
    draw. *)
Lemma pack_drawing (bk : connector) ms : display_ok limit bk -> fbAttached (app bk) <> 0 ->
  LinkedList_items (ServerList (app bk)) = Some <$> ms -> Forall drawing ms -> MessageQueue_items (ServerQueue (app bk)) = [] ->
  (exists x y, drawn_pixel bk ms x y) ->
  exists bk1 r, act common0 d_pack bk = Some bk1 /\ dsp bk1 = dsp bk /\ fbAttached (app bk1) = fbAttached (app bk) /\
    MessageQueue_items (ServerQueue (app bk1)) = [posted (paint_message common0 bk r)] /\ in_desktop bk r /\ 0 < rect_width r /\ 0 < rect_height r /\
    forall x y, drawn_pixel bk ms x y -> covers r x y.
Proof.
  intros O Ha Hl Hd Hq (x0 & y0 & (m0 & Hm0 & Hc0) & Hx0 & Hy0). destruct (ok_desktop _ _ O) as (Dw & Dh & _). rewrite List.Forall_forall in Hd.
  destruct (queue_pack_spec common0 bk ms Hl) as (bk1 & paint & E & _ & Eq & Hp & Hcov); [|done|done|].
  { apply List.Forall_forall. intros m Hm _. by apply (Hd m Hm). }
  specialize (Hcov Ha). apply list_elem_of_In in Hm0.
  destruct (Hcov m0 x0 y0 Hm0 (proj1 (Hd _ Hm0)) Hc0 Hx0 Hy0) as (r & Hin & Epaint & _). destruct Hp as [->|(r' & Hin' & Hw & Hh & _ & Er)]; [done|].
  assert (forall r1 r2, in_desktop bk r1 -> in_desktop bk r2 -> [posted (paint_message common0 bk r1)] = [posted (paint_message common0 bk r2)] -> r1 = r2) as Hinj.
  { intros [x1 y1 w1 h1] [x2 y2 w2 h2] (?&?&?&?&?&?) (?&?&?&?&?&?) E12. cbn in *. unfold desktop_size in *.
    injection E12 as E1 E2 E3 E4. cbn in *. rewrite !i32_id in E1, E2, E3, E4 by (unfold is_i32; lia). congruence. }
  assert (r' = r) as -> by (apply Hinj; [done..|congruence]).
  assert (List.filter plain ms = []) as Ef.
  { clear -Hd. induction ms as [|m ms IH]; [done|]. cbn. unfold plain at 1. rewrite (proj1 (Hd m (or_introl eq_refl))). cbn. apply IH. intros m' Hm'. apply Hd. by right. }
  rewrite Hq, Ef, Er in Eq. destruct (pack_frame common0 bk bk1 0 E) as (l & q & ->). exists (set_list l (set_queue q bk)), r.
  unfold act. rewrite E. do 3 (split; [done|]). split; [exact Eq|]. split; [done|]. split; [done|]. split; [done|].
  intros x y ((m & Hm%list_elem_of_In & Hc) & Hx & Hy). destruct (Hcov m x y Hm (proj1 (Hd _ Hm)) Hc Hx Hy) as (r2 & Hin2 & E2 & Hc2).
  by rewrite (Hinj r r2 Hin Hin2) by congruence.
Qed.

(** Processing a paint message of the core. *)
Lemma check_paint shm (bk : connector) c p : display_ok limit bk -> activated (dsp bk) = true -> fbAttached (app bk) <> 0 -> codecMode (dsp bk) = false ->
  MessageQueue_items (ServerQueue (app bk)) = [posted (Msg c (mPaintRect p))] ->
  exists bk' us fb e, act common0 (d_check shm) bk = Some bk' /\ MessageQueue_items (ServerQueue (app bk')) = [] /\
    calls (dsp bk') = calls (dsp bk) ++ (c_bitmap_update <$> us) /\
    request_ok e fb p /\ fbWidth fb = fb_width (dsp bk) /\ fbHeight fb = fb_height (dsp bk) /\ request_bitmaps p (concat us).
Proof.
  intros O Hact Ha Hcm Hq. unfold act, check_turn. pose proof (queue_peek_items _ (ServerQueue (app bk))) as Hp.
  destruct (MessageQueue_Peek (ServerQueue (app bk))) as [[message q]|] eqn:Ep; [|congruence]. rewrite Hq in Hp. injection Hp as <- Hqi.
  rewrite Hact. unfold freerds_message_server_queue_process_pending_messages. rewrite Ep.
  destruct (peek_ok limit bk _ q O Ep) as (m & Em & Hm & Oq & _ & Hpaint).
  assert (m = Msg c (mPaintRect p)) as ->. { apply (f_equal wParam) in Em. cbn in Em. congruence. }
  specialize (Hpaint p eq_refl Ha). rewrite process_message_spec by apply Hm. cbn [common body call_server client_interface PaintRect mbind option_bind].
  destruct (queued_free _ (proj1 Hm)) as [fr Efr]. destruct Hm as [_ [Hfb [Hx Hy]]]. cbn [body] in *.
  unfold freerds_client_inbound_paint_rect. cbn [body]. rewrite Hfb. change (fbAttached (app (set_queue q bk))) with (fbAttached (app bk)).
  destruct (Z.eqb_spec (fbAttached (app bk)) 0) as [|_]; [done|]. change (dsp (set_queue q bk)) with (dsp bk). rewrite clip_fits by done.
  destruct (ok_active _ _ O Hact) as (e & Ee & He & Hw & Hh).
  pose proof (ok_attached _ _ O) as A. unfold attached_ok in A. destruct (Z.eqb_spec (fbAttached (app bk)) 0); [done|].
  destruct A as (a & size & Hmem & Hat & Hfits & Hdw & Hdh).
  destruct (paint_request (set_queue q bk) e a size p Hmem Hat Hfits) as (fb & Efb & Ew & Eh & Hreq); [unfold dsp in *; cbn; lia..|done|].
  rewrite Ee. cbn [mbind option_bind]. rewrite Efb. cbn [mbind option_bind]. rewrite Hcm.
  destruct (bitmap_update_ok limit Hlimit (encoding (dsp bk)) e fb p (ok_request _ _ O) He Hreq) as (e' & us & -> & _ & _ & _ & Hus).
  cbn [mbind option_bind]. rewrite Efr. cbn [mbind option_bind]. eexists _, us, fb, e. split; [reflexivity|]. split; [by symmetry|]. done.
Qed.
End Frame.

(** ** Deciding the conditions of a run *)

Section Decide.
Context {W : WStream} {L : WStreamLaws W} {P : Pipe} {F : WindowOrder} {K : Collections} {G : Region16}.
Context {D : Dictionary} {B : CodecBits} {C : Compression} {R : Peer}.
Context (common0 : RDS_MSG_COMMON).
Abbreviation connector := (rdsBackend (connector_ext (A := display))).

#[local] Instance paint_fits_dec w h p : Decision (paint_fits w h p).
Proof. unfold paint_fits. apply _. Defined.
#[local] Instance fb_fits_dec w h sc size : Decision (fb_fits w h sc size).
Proof. unfold fb_fits, desktop_ok, desktop_size, size_ok. apply _. Defined.

Definition node_fits (w h : Z) (n : wMessage node) : bool :=
  match wParam n with Some (Msg _ (mPaintRect p)) => bool_decide (paint_fits w h p) | _ => true end.

Definition attach_okb (shm : Z -> option Z) (q : list (wMessage node)) : bool :=
  match q with
  | n :: q =>
      match wParam n with
      | Some (Msg _ (mSharedFramebuffer msg)) =>
          let '(w, h) := (SharedFramebuffer.width msg, SharedFramebuffer.height msg) in
          match shm (SharedFramebuffer.segmentId msg) with
          | Some size => bool_decide (fb_fits w h (SharedFramebuffer.scanline msg) size) && forallb (node_fits w h) q
          | None => true
          end
      | _ => true
      end
  | [] => true
  end.

Lemma attach_okb_ok shm (bk : connector) : attach_okb shm (MessageQueue_items (ServerQueue (app bk))) = true -> attach_ok shm bk.
Proof.
  intros H c msg qs size Eq _ Es. rewrite Eq, fmap_cons in H. cbn [attach_okb posted wParam] in H. rewrite Es in H.
  apply andb_true_iff in H as [Hf Hq]. split; [by apply bool_decide_eq_true in Hf|]. rewrite forallb_forall in Hq.
  intros c' p Hin. specialize (Hq (posted (Msg c' (mPaintRect p)))). apply (bool_decide_eq_true (paint_fits _ _ p)). apply Hq.
  apply list_elem_of_In, list_elem_of_fmap. by exists (Msg c' (mPaintRect p)).
Qed.

(** The conditions of all actions but the turns of the loop. *)
Definition given (a : display_act) : Prop :=
  match a with
  | d_message c r => message_ok c r
  | d_mouse flags x y => is_u32 flags /\ is_u32 x /\ is_u32 y
  | d_key flags code => is_u32 flags /\ is_u32 code
  | _ => True
  end.

Fixpoint checks_okb (l : list display_act) (bk : connector) : bool :=
  match l with
  | [] => true
  | a :: l =>
      match a with d_check shm => attach_okb shm (MessageQueue_items (ServerQueue (app bk))) | _ => true end &&
      match act common0 a bk with Some bk' => checks_okb l bk' | None => true end
  end.

Lemma acts_ok_intro l (bk : connector) : Forall given l -> checks_okb l bk = true -> acts_ok common0 l bk.
Proof.
  intros H. revert bk. induction H as [|a l Ha _ IH]; intros bk; [done|]. cbn [checks_okb acts_ok]. intros [H1 H2]%andb_true_iff. split.
  - destruct a; try done. by apply attach_okb_ok.
  - destruct (act common0 a bk); [by apply IH|done].
Qed.
End Decide.
