(* ===== verification/DisplayTheorems.v ===== *)
(** * Properties of the display of a connection

    freerds/core/client.c with the pipeline, the encoder and the bitmap
    updates. *)

From stdpp Require Import gmap list.
From S2P Require Import Prelude WStream ListStream Message ClientMsg ServerMsg VarMsg SessionMsg WindowMsg MsgTable TableFacts Pipe Transport TransportFacts Queue Delivery Outbound OutboundFacts RpcContext Encoder EncoderFacts Bitmap BitmapFacts Pipeline PipelineFacts Instances RpcInstances Display DisplayFacts.
#[local] Open Scope Z_scope.

(** ** A concrete environment *)

#[local] Instance screen_bits : CodecBits := {
  interleaved_bit := 0; planar_bit := 1; nsc_bit := 3; rfx_bit := 4;
}.

#[local] Instance screen_bits_laws : CodecBitsLaws screen_bits.
Proof.
  split.
  - repeat (apply List.Forall_cons; [cbn; lia|]). apply List.Forall_nil.
  - apply (bool_decide_unpack _). vm_compute. exact I.
Qed.

#[local] Instance screen_compression : Compression := {
  interleaved_compress _ _ _ _ _ := [];
  freerdp_bitmap_compress_planar _ _ _ _ _ := [];
  rfx_encode_messages _ _ _ _ _ _ := [[]];
  nsc_compose_message _ _ _ _ _ := [];
}.

#[local] Instance screen_peer : Peer := { resized_activated _ := false; glyph_v2 := true }.

#[local] Instance screen_peer_laws : PeerLaws screen_peer.
Proof. by split. Qed.

Lemma screen_bound : tile_bound 0.
Proof. split; cbn; lia. Qed.

Definition header0 : RDS_MSG_COMMON := mk_common 0 0 0 (mk_rect 0 0 0 0).

(** A client of 200 by 100 pixels. *)
Definition screen_display : display :=
  mk_display 0 0 0 0 0 None ∅ 0 (mk_settings 1 3 true true false 32 65535) true true 0 4 None None ListDictionary_New false false [].

Definition screen : rdsBackend (connector_ext (A := display)) := freerds_connector_new (LPipe [] [] [] 100) 200 100 screen_display.

(** ** Safety *)


(** The module shares a framebuffer of 320 by 240 pixels in segment 7. *)
Definition share (w h : Z) : msg_body := mSharedFramebuffer (SharedFramebuffer.mk 1 w h (w * 4) 7 32 4).
Definition segments (n : Z) : option Z := if n =? 7 then Some 1000000 else None.
Definition drawing_header (x y w h : Z) : RDS_MSG_COMMON := mk_common 4 38 1 (mk_rect x y w h).
Definition draw : msg_body := mOpaqueRect (OpaqueRect.mk 10 10 100 50 0).


(** What can be received of a message. *)
Lemma share_received w h : is_i32 w -> is_i32 h -> is_i32 (w * 4) -> 0 <= w -> 0 <= h -> message_ok header0 (share w h).
Proof.
  intros Hw Hh Hs W0 H0. split; [|by split].
  exists (share 0 0), (share w h). split; [reflexivity|]. split; [|done]. unfold share. cbn. unfold is_i32 in *. repeat split; cbn; lia.
Qed.

Lemma draw_received x y w h : drawable (mk_rect x y w h) -> message_ok (drawing_header x y w h) draw.
Proof.
  intros Hd. split; [|by split]. exists draw, draw. split; [reflexivity|]. split; [|done]. repeat split; cbn; lia.
Qed.


Lemma screen_desktop : desktop_ok 200 100.
Proof. repeat split; vm_compute; (reflexivity || discriminate). Qed.

Lemma screen_request : request_size_ok 0 (encoding screen_display).
Proof. unfold request_size_ok. cbn. lia. Qed.

Lemma screen_ok : display_ok 0 screen.
Proof. apply connector_new_ok; [exact screen_desktop|exact screen_request|unfold is_u32; cbn; lia|reflexivity..]. Qed.


(** ** Shared memory *)

(** C34. Whatever the module sends and the operating system answers, in every run
    that is defined the process has attached exactly the framebuffer of the
    connector, or nothing when it has none: a new framebuffer replaces the old
    one, a segment that cannot be attached leaves none, and releasing the
    connector leaves no attachment behind. *)
Theorem framebuffer_attached_once {W : WStream} {P : Pipe} {F : WindowOrder} {K : Collections} {G : Region16} {D : Dictionary}
    {B : CodecBits} {C : Compression} {R : Peer} common0 p dw dh d l bk :
  attachments d = ∅ -> acts common0 l (freerds_connector_new p dw dh d) = Some bk ->
  (if fbAttached (app bk) =? 0 then attachments (dsp bk) = ∅
   else exists a size, fb_memory (dsp bk) = Some a /\ attachments (dsp bk) = {[a := size]}) /\
  free_framebuffer bk = ∅.
Proof.
  intros Ha E. assert (one_attachment bk) as O by (eapply acts_shm; [|exact E]; exact Ha). split; [exact O|].
  unfold one_attachment, free_framebuffer in *. destruct (_ =? 0); [done|]. destruct O as (a & size & -> & ->). apply delete_singleton_eq.
Qed.

Definition two_framebuffers : list display_act :=
  [d_activate; d_message header0 (share 200 100); d_message header0 (share 200 100); d_pack; d_check segments; d_check segments].

Definition screen_after (l : list display_act) : rdsBackend (connector_ext (A := display)) := default screen (acts header0 l screen).

Lemma framebuffer_attached_once_witness :
  attachments (dsp (screen_after two_framebuffers)) = {[1%nat := 1000000]} /\ free_framebuffer (screen_after two_framebuffers) = ∅.
Proof.
  destruct (framebuffer_attached_once (P := list_pipe) header0 (LPipe [] [] [] 100) 200 100 screen_display two_framebuffers (screen_after two_framebuffers)) as [_ H].
  - reflexivity.
  - vm_compute. reflexivity.
  - split; [vm_compute; reflexivity|exact H].
Defined.

(** ** A frame *)

(** C17. In a state that the invariant [display_ok]
    describes, when drawing messages wait, nothing else is queued, the
    framebuffer is attached and the peer is active without surface commands,
    packing and one turn of processing send bitmap updates to the client: their
    tiles lie in the framebuffer, and every pixel of the desktop that one of the
    messages draws is in one of them, as long as the packed rectangle does not
    end in a tile that freerds_send_bitmap_update leaves out. The conditions:
    the rectangles of the drawing messages are not empty, not negative and end
    below 2^16 (others are truncated when they are packed), at least one pixel
    of the desktop is drawn, and MultifragMaxRequestSize of the client is above
    the size of any compressed tile, since the loop that sends the tiles would
    not end otherwise ([request_size_ok], a part of [display_ok]). *)
Theorem drawing_reaches_client {W : WStream} {L : WStreamLaws W} {P : Pipe} {PL : PipeLaws P} {F : WindowOrder}
    {K : Collections} {KL : CollectionsLaws K} {G : Region16} {GL : Region16Laws G} {D : Dictionary} {DL : DictionaryLaws D}
    {B : CodecBits} {BL : CodecBitsLaws B} {C : Compression} {R : Peer} {RL : PeerLaws R} common0 limit shm
    (bk : rdsBackend (connector_ext (A := display))) ms :
  tile_bound limit -> display_ok limit bk -> activated (dsp bk) = true -> fbAttached (app bk) <> 0 -> codecMode (dsp bk) = false ->
  LinkedList_items (ServerList (app bk)) = Some <$> ms -> Forall drawing ms -> MessageQueue_items (ServerQueue (app bk)) = [] ->
  (exists x y, drawn_pixel bk ms x y) ->
  exists bk1 bk2 r updates, act common0 d_pack bk = Some bk1 /\ act common0 (d_check shm) bk1 = Some bk2 /\
    MessageQueue_items (ServerQueue (app bk2)) = [] /\
    calls (dsp bk2) = calls (dsp bk) ++ (c_bitmap_update <$> updates) /\ in_desktop bk r /\
    (forall b, b ∈ concat updates -> 0 <= destLeft b /\ 0 <= destTop b /\ destRight b < fb_width (dsp bk) /\ destBottom b < fb_height (dsp bk)) /\
    (axis_ok (rect_x r) (rect_width r) && axis_ok (rect_y r) (rect_height r) = true ->
     forall x y, drawn_pixel bk ms x y -> exists b, b ∈ concat updates /\ inside b x y).
Proof.
  intros Hlim O Hact Ha Hcm Hl Hd Hq Hne.
  destruct (pack_drawing common0 limit bk ms O Ha Hl Hd Hq Hne) as (bk1 & r & E1 & Ed & Ef & Hq1 & Hr & Hrw & Hrh & Hcov).
  destruct (pack_display_ok common0 limit bk O) as (bk1' & E1' & O1). rewrite E1 in E1'. injection E1' as <-.
  destruct (check_paint common0 limit Hlim shm bk1 (common (paint_message common0 bk r)) (PaintRect.mk (i32 (rect_x r)) (i32 (rect_y r)) (i32 (rect_width r))
    (i32 (rect_height r)) 0 0 None 0 (u32 (Pipeline.fbSegmentId (app bk))) PaintRect.fb_backend) O1) as (bk2 & us & fb & e & E2 & Hq2 & Hc & Hreq & Ew & Eh & Hb);
    [by rewrite Ed|by rewrite Ef|by rewrite Ed|exact Hq1|].
  exists bk1, bk2, r, us. rewrite Ed in Hc, Ew, Eh. do 5 (split; [done|]).
  pose proof (ok_desktop _ _ O) as (Dw & Dh & _). destruct Hr as (?&?&?&?&?&?). unfold desktop_size in *. split.
  - intros b [i Hi]%list_elem_of_lookup. destruct (bitmap_bounds e fb _ _ i b Hreq Hb Hi) as (?&?&?&?&_). rewrite <-Ew, <-Eh. done.
  - intros Hax x y Hp. pose proof (bitmaps_cover e fb _ _ Hreq Hb) as [_ Hcover]. cbn [PaintRect.nLeftRect PaintRect.nTopRect PaintRect.nWidth PaintRect.nHeight] in Hcover.
    rewrite !i32_id in Hcover by (unfold is_i32; lia). destruct (Hcov x y Hp) as [Hx Hy]. by apply Hcover.
Qed.



Lemma drawing_reaches_client_witness :
  let bk := screen_after [d_activate; d_message header0 (share 320 240); d_pack; d_check segments; d_activate; d_check segments;
                          d_message (drawing_header 10 10 100 50) draw] in
  exists bk1 bk2, act header0 d_pack bk = Some bk1 /\ act header0 (d_check segments) bk1 = Some bk2 /\
    MessageQueue_items (ServerQueue (app bk2)) = [].
Proof.
  set (l := [d_activate; d_message header0 (share 320 240); d_pack; d_check segments; d_activate; d_check segments;
             d_message (drawing_header 10 10 100 50) draw]).
  assert (exists bk', acts header0 l screen = Some bk' /\ display_ok 0 bk') as (bk' & E & O).
  { apply acts_safe; [exact screen_bound| |].
    - exact screen_ok.
    - apply acts_ok_intro; [|vm_compute; reflexivity].
      repeat (apply List.Forall_cons; [try exact I|]); [..|apply List.Forall_nil].
      + apply share_received; unfold is_i32; lia.
      + apply draw_received. unfold drawable. cbn. lia. }
  assert (screen_after l = bk') as Es by (unfold screen_after; by rewrite E).
  cbv zeta. rewrite Es. clear Es.
  assert (forall (X : Type) (f : rdsBackend (connector_ext (A := display)) -> X) x, f <$> acts header0 l screen = Some x -> f bk' = x) as Hget.
  { intros X f x Hx. rewrite E in Hx. exact (Some_inj _ _ Hx). }
  destruct (drawing_reaches_client header0 0 segments bk' [Msg (drawing_header 10 10 100 50) draw] screen_bound O) as (bk1 & bk2 & _ & _ & E1 & E2 & Eq & _).
  - apply (Hget _ (fun bk => activated (dsp bk))). vm_compute. reflexivity.
  - rewrite (Hget _ (fun bk => fbAttached (app bk)) 1); [done|]. vm_compute. reflexivity.
  - apply (Hget _ (fun bk => codecMode (dsp bk))). vm_compute. reflexivity.
  - apply (Hget _ (fun bk => LinkedList_items (ServerList (app bk)))). vm_compute. reflexivity.
  - apply List.Forall_cons; [|apply List.Forall_nil]. split; [reflexivity|]. unfold drawable. cbn. lia.
  - apply (Hget _ (fun bk => MessageQueue_items (ServerQueue (app bk)))). vm_compute. reflexivity.
  - exists 10, 10. split; [eexists; split; [left|unfold covers; cbn; lia]|].
    rewrite (Hget _ (fun bk => Pipeline.DesktopWidth (app bk)) 320), (Hget _ (fun bk => Pipeline.DesktopHeight (app bk)) 240) by (vm_compute; reflexivity). lia.
  - exists bk1, bk2. split; [exact E1|]. split; [exact E2|exact Eq].
Defined.

(** ** A framebuffer that shrinks *)

(** The framebuffer is replaced by a smaller one while a paint message waits. *)
Definition shrinking_run : list display_act :=
  [d_activate; d_message header0 (share 200 100); d_pack; d_check segments; d_check segments;
   d_message (drawing_header 100 20 90 40) draw; d_message header0 (share 128 64); d_pack;
   d_check segments; d_activate; d_check segments].

Lemma some_of {A} (o : option A) : match o with Some _ => true | None => false end = true -> is_Some o.
Proof. destruct o; [by eexists|done]. Qed.

(** An example of a run that does not meet the last
    condition of [attach_ok]: the module replaces a framebuffer of 200 by 100
    pixels by one of 128 by 64, both of them in segments that are large enough,
    while a paint message for the old one waits. The number of tiles is computed
    before the rectangle is clipped, and the clipping is at the source
    coordinates, which are always 0: the run is defined up to the turn that
    processes the paint message, which is not. *)
Example stale_paint_out_of_bounds :
  Forall given shrinking_run /\ fb_fits 200 100 800 1000000 /\ fb_fits 128 64 512 1000000 /\
  is_Some (acts header0 (take 10 shrinking_run) screen) /\ acts header0 shrinking_run screen = None.
Proof.
  split; [|split; [|split; [|split]]].
  - repeat (apply List.Forall_cons; [try exact I|]); [..|apply List.Forall_nil].
    + apply share_received; unfold is_i32; lia.
    + apply draw_received. unfold drawable. cbn. lia.
    + apply share_received; unfold is_i32; lia.
  - repeat split; vm_compute; (reflexivity || discriminate).
  - repeat split; vm_compute; (reflexivity || discriminate).
  - apply some_of. vm_compute. reflexivity.
  - vm_compute. reflexivity.
Qed.
