(* ===== verification/Session.v ===== *)
(** * The life of a connection

    freerds/core/backend.c, and of freerds/core/process.c the logon of a peer,
    the notifications of the session manager and the thread of the connection:
    how connectors and what belongs to them are created, replaced and released.

    Every object that is allocated or opened (interfaces, streams, events,
    pipes, threads, collections, strings, attachments, requests) lives in
    [heap] under a number of its own; connectors live in [connectors] with
    their pointers.  Releasing an object twice and using a connector that has
    been freed are undefined ([None]).  Closing a [NULL] handle or waiting for
    it fails without effect.

    What is not decided by this code is given with each step: the answers of
    the session manager, whether a pipe can be opened and written, the events
    of the peer, and what the display (Display.v) does with its framebuffer. *)

From S2P Require Import Prelude RpcContext.
From stdpp Require Import gmap list.
#[local] Open Scope Z_scope.

Inductive kind := k_interface | k_stream | k_event | k_thread | k_pipe | k_list | k_queue | k_string | k_segment | k_request.

#[global] Instance kind_eq : EqDecision kind.
Proof. solve_decision. Defined.

(** The pointers of [rdsBackendConnector]; [None] is [NULL]. *)
Record connector := mk_connector {
  c_client : nat; c_server : nat;
  c_OutboundStream : nat; c_InboundStream : nat;
  c_StopEvent : nat;
  c_ServerThread : option nat;
  c_hClientPipe : option nat;
  c_ServerList : option nat; c_ServerQueue : option nat; c_ServerProxy : option nat;
  c_Endpoint : option nat;
  c_framebuffer : option nat;  (* the attached segment *)
  c_events : bool;  (* GetEventHandles and CheckEventHandles are set *)
}.

Record session := mk_session {
  heap : gmap nat kind;
  connectors : gmap nat connector;
  next_object : nat;
  conn_connector : option nat;  (* connection->connector *)
  conn_activated : bool;  (* client->activated *)
  conn_closed : bool;  (* client->Close or client->Disconnect has been called *)
}.

(** ** The monad *)

Definition HM (A : Type) : Type := session -> option (A * session).

#[global] Instance HM_ret : MRet HM := fun A a s => Some (a, s).
#[global] Instance HM_bind : MBind HM := fun A B' f m s => '(a, s) ← m s; f a s.

Definition fail {A} : HM A := fun _ => None.
Definition get_session : HM session := fun s => Some (s, s).
Definition put_session (s : session) : HM unit := fun _ => Some (tt, s).

Definition alloc (k : kind) : HM nat := fun s =>
  let p := next_object s in
  Some (p, mk_session (<[p := k]> (heap s)) (connectors s) (S p) (conn_connector s) (conn_activated s) (conn_closed s)).

(** [free], [CloseHandle] and their like on an object of kind [k]. *)
Definition release (k : kind) (p : nat) : HM unit := fun s =>
  if decide (heap s !! p = Some k) then
    Some (tt, mk_session (delete p (heap s)) (connectors s) (next_object s) (conn_connector s) (conn_activated s) (conn_closed s))
  else None.

Definition release_opt (k : kind) (p : option nat) : HM unit :=
  match p with Some p => release k p | None => mret tt end.

Definition deref (p : nat) : HM connector := fun s => c ← connectors s !! p; Some (c, s).

Definition store (p : nat) (c : connector) : HM unit := fun s =>
  if decide (is_Some (connectors s !! p)) then
    Some (tt, mk_session (heap s) (<[p := c]> (connectors s)) (next_object s) (conn_connector s) (conn_activated s) (conn_closed s))
  else None.

Definition free_connector (p : nat) : HM unit := fun s =>
  if decide (is_Some (connectors s !! p)) then
    Some (tt, mk_session (heap s) (delete p (connectors s)) (next_object s) (conn_connector s) (conn_activated s) (conn_closed s))
  else None.

Definition set_connector (p : option nat) : HM unit := fun s =>
  Some (tt, mk_session (heap s) (connectors s) (next_object s) p (conn_activated s) (conn_closed s)).
Definition set_active (a : bool) : HM unit := fun s =>
  Some (tt, mk_session (heap s) (connectors s) (next_object s) (conn_connector s) a (conn_closed s)).
Definition close_client : HM unit := fun s =>
  Some (tt, mk_session (heap s) (connectors s) (next_object s) (conn_connector s) (conn_activated s) true).

Definition alloc_connector (c : connector) : HM nat := fun s =>
  let p := next_object s in
  Some (p, mk_session (heap s) (<[p := c]> (connectors s)) (S p) (conn_connector s) (conn_activated s) (conn_closed s)).

(** ** Connectors *)

Definition freerds_connector_new : HM nat :=
  client ← alloc k_interface;
  server ← alloc k_interface;
  out ← alloc k_stream;
  inb ← alloc k_stream;
  stop ← alloc k_event;
  alloc_connector (mk_connector client server out inb stop None None None None None None None false).

(** The client thread ends once [StopEvent] is set, so that the wait returns. *)
Definition freerds_connector_free (p : nat) : HM unit :=
  c ← deref p;
  release_opt k_thread (c_ServerThread c);;
  release k_stream (c_OutboundStream c);;
  release k_stream (c_InboundStream c);;
  release k_event (c_StopEvent c);;
  release_opt k_pipe (c_hClientPipe c);;
  release_opt k_list (c_ServerList c);;
  release_opt k_queue (c_ServerQueue c);;
  release_opt k_string (c_Endpoint c);;
  release_opt k_segment (c_framebuffer c);;
  free_connector p.

(** [connector->Endpoint = endpoint] *)
Definition set_endpoint (p : nat) (endpoint : option nat) : HM unit :=
  c ← deref p;
  store p (mk_connector (c_client c) (c_server c) (c_OutboundStream c) (c_InboundStream c) (c_StopEvent c) (c_ServerThread c)
    (c_hClientPipe c) (c_ServerList c) (c_ServerQueue c) (c_ServerProxy c) endpoint (c_framebuffer c) (c_events c)).

(** How the connection to the endpoint goes: the pipe is not there, the first
    message cannot be written, or both succeed. *)
Inductive handshake := h_no_pipe | h_write_fails | h_connected.

(** With [freerds_client_inbound_connector_init], which creates the list, the
    queue and the proxy. *)
Definition freerds_connector_connect (h : handshake) (p : nat) : HM bool :=
  c ← deref p;
  match h with
  | h_no_pipe => mret false
  | h_write_fails => _ ← alloc k_pipe; mret false
  | h_connected =>
      pipe ← alloc k_pipe;
      thread ← alloc k_thread;
      proxy ← alloc k_interface;
      list ← alloc k_list;
      queue ← alloc k_queue;
      store p (mk_connector (c_client c) (c_server c) (c_OutboundStream c) (c_InboundStream c) (c_StopEvent c) (Some thread)
        (Some pipe) (Some list) (Some queue) (Some proxy) (c_Endpoint c) (c_framebuffer c) true);;
      mret true
  end.

(** ** The peer *)

(** The answer of the session manager to the logon: [None] is an error, else
    whether there is a service endpoint, and how connecting to it goes. *)
Definition logon_answer : Type := option (bool * handshake).

Definition freerds_peer_post_connect (a : logon_answer) : HM bool :=
  s ← get_session;
  match a with
  | None => mret false
  | Some (has_endpoint, h) =>
      endpoint ← (if has_endpoint then p ← alloc k_string; mret (Some p) else mret None);
      connector_ ← match conn_connector s with
                   | Some p => mret p
                   | None => p ← freerds_connector_new; set_connector (Some p);; mret p
                   end;
      set_endpoint connector_ endpoint;;
      freerds_connector_connect h connector_
  end.

(** ** Notifications *)

(** A request of the session manager: the request and its strings have been
    allocated by the RPC thread. *)
Inductive notification :=
| n_switch (h : handshake) (answered : bool)  (* the response could be sent *)
| n_logoff
| n_channel (created ready : bool)  (* of the channel *)
| n_other.

Definition freerds_client_process_switch_session (request endpoint : nat) (h : handshake) (answered : bool) : HM bool :=
  s ← get_session;
  match conn_connector s with
  | None => fail  (* freerds_connector_free(NULL) *)
  | Some p =>
      freerds_connector_free p;;
      connector_ ← freerds_connector_new;
      set_connector (Some connector_);;
      set_endpoint connector_ (Some endpoint);;
      freerds_connector_connect h connector_ ≫= fun _ =>
      release k_string endpoint;;
      release k_request request;;
      mret answered
  end.

Definition freerds_client_process_logoff (request : nat) : HM bool :=
  s ← get_session;
  match conn_connector s with
  | Some p => freerds_connector_free p;; set_connector None
  | None => mret tt
  end;;
  close_client;;
  release k_request request;;
  mret false.

(** [freerds_client_process_channel_endpoint_open] as far as the request goes:
    it is only released when the channel can be created, also when nobody
    connects to it in time (Channels.v has the rest). *)
Definition channel_endpoint_open (request : nat) (created ready : bool) : HM bool :=
  if created then release k_request request;; mret ready else mret false.

(** The request is taken from the queue; an unknown one is not released. *)
Definition freerds_client_process_notification (n : notification) : HM bool :=
  request ← alloc k_request;
  match n with
  | n_switch h answered =>
      endpoint ← alloc k_string;
      freerds_client_process_switch_session request endpoint h answered
  | n_logoff => freerds_client_process_logoff request
  | n_channel created ready => channel_endpoint_open request created ready
  | n_other => mret false
  end.

(** ** The thread of the connection *)

(** What [client->CheckFileDescriptor] calls. *)
Inductive peer_call := p_post_connect (a : logon_answer) | p_activate | p_input.

(** What [CheckEventHandles] of the connector does: its status, whether the
    framebuffer is attached ([Some true]), detached ([Some false]) or left, and
    whether the client is resized, which deactivates it. *)
Record display_effect := mk_effect { e_status : Z; e_framebuffer : option bool; e_resized : bool }.

(** One turn of the loop: which events are signalled. *)
Record turn := mk_turn {
  t_global_term : bool;
  t_local_term : bool;
  t_client : option (list peer_call * bool);  (* the calls, and whether it returns TRUE *)
  t_channels : option bool;
  t_effect : display_effect;
  t_notification : option notification;
}.

(** [freerds_input_*] uses the connector of the connection. *)
Definition input_call : HM unit :=
  s ← get_session;
  match conn_connector s with Some p => c ← deref p; mret tt | None => mret tt end.

(** The calls until one of them fails. *)
Fixpoint peer_calls (l : list peer_call) : HM bool :=
  match l with
  | [] => mret true
  | p_post_connect a :: l =>
      ok ← freerds_peer_post_connect a;
      if ok : bool then peer_calls l else mret false
  | p_activate :: l => set_active true;; peer_calls l
  | p_input :: l => input_call;; peer_calls l
  end.

(** [CheckEventHandles] on the connector [p]. *)
Definition check_event_handles (p : nat) (e : display_effect) : HM Z :=
  c ← deref p;
  let set fb := store p (mk_connector (c_client c) (c_server c) (c_OutboundStream c) (c_InboundStream c) (c_StopEvent c) (c_ServerThread c)
    (c_hClientPipe c) (c_ServerList c) (c_ServerQueue c) (c_ServerProxy c) (c_Endpoint c) fb (c_events c)) in
  match e_framebuffer e with
  | Some true => release_opt k_segment (c_framebuffer c);; (a ← alloc k_segment; set (Some a))
  | Some false => release_opt k_segment (c_framebuffer c);; set None
  | None => mret tt
  end;;
  (if e_resized e then set_active false else mret tt);;
  mret (e_status e).

(** The outcome of a turn: the loop goes on, with the value of the local
    variable [connector], or ends, with the value of [bServerClose]. *)
Inductive outcome := o_next (local : option nat) | o_break (bServerClose : bool).

(** [if (client->activated) { connector = connection->connector;
    if (connector && connector->GetEventHandles) ... }] *)
Definition reload_connector (local : option nat) : HM (option nat) :=
  s ← get_session;
  if conn_activated s then
    match conn_connector s with Some p => c ← deref p; mret (Some p) | None => mret None end
  else mret local.

(** [true] when the status is negative. *)
Definition check_connector (local : option nat) (e : display_effect) : HM bool :=
  s ← get_session;
  if conn_activated s then
    match local with
    | Some p =>
        c ← deref p;
        if c_events c then st ← check_event_handles p e; mret (st <? 0) else mret false
    | None => mret false
    end
  else mret false.

Definition connection_turn (t : turn) (local : option nat) : HM outcome :=
  local ← reload_connector local;
  if t_global_term t || t_local_term t then mret (o_break false) else
  ok ← match t_client t with Some (l, r) => ok ← peer_calls l; mret (ok && r) | None => mret true end;
  if negb ok then mret (o_break false) else
  if match t_channels t with Some false => true | _ => false end then mret (o_break false) else
  failed ← check_connector local (t_effect t);
  if failed : bool then mret (o_break true) else
  match t_notification t with
  | None => mret (o_next local)
  | Some n =>
      go_on ← freerds_client_process_notification n;
      mret (if go_on : bool then o_next local else o_break false)
  end.

(** The turns of the loop; [None] when the loop has not ended with them. *)
Fixpoint connection_loop (l : list turn) (local : option nat) : HM (option bool) :=
  match l with
  | [] => mret None
  | t :: l =>
      o ← connection_turn t local;
      match o with
      | o_next local => connection_loop l local
      | o_break close => mret (Some close)
      end
  end.

(** After the loop; the disconnect request goes to the session manager. *)
Definition connection_exit : HM unit :=
  s ← get_session;
  match conn_connector s with
  | Some p => freerds_connector_free p;; set_connector None
  | None => mret tt
  end;;
  close_client.

Definition freerds_connection_main_thread (l : list turn) : HM (option bool) :=
  r ← connection_loop l None;
  match r with
  | Some close => connection_exit;; mret (Some close)
  | None => mret None
  end.

Definition session_start : session := mk_session ∅ ∅ 0 None false false.

(** ** The connections of the server *)

Section Server.
Context {D : Dictionary} {V : Type}.

(** [server->connectionId] and [server->connections]. *)
Record server := mk_server { connectionId : Z; connections : wListDictionary V }.

(** [freerds_server_new] *)
Definition server_new : server := mk_server 0 ListDictionary_New.

(** [context->id = context->server->connectionId++] *)
Definition peer_context_id (s : server) : Z * server :=
  (connectionId s, mk_server (u32 (connectionId s + 1)) (connections s)).

Definition freerds_server_add_connection (id : Z) (c : V) (s : server) : server :=
  mk_server (connectionId s) (ListDictionary_Add id c (connections s)).
Definition freerds_server_remove_connection (id : Z) (s : server) : server :=
  mk_server (connectionId s) (snd (ListDictionary_Remove id (connections s))).
Definition server_get_connection (id : Z) (s : server) : option V := ListDictionary_GetItemValue id (connections s).
End Server.
