(* ===== verification/SessionFacts.v ===== *)
(** * The life of a connection: ownership

    [inv leak s X]: the objects [X] are live and distinct, and every other live
    object is of a kind that the code never releases ([leak]).  The functions
    of Session.v are given by rules that move objects in and out of [X]; the
    connector of the connection owns the objects it points to. *)

From S2P Require Import Prelude RpcThreadsFacts RpcContext Session.
From stdpp Require Import gmap list.
#[local] Open Scope Z_scope.

(** ** Preconditions *)

Definition HM_wp {A} (m : HM A) (Q : A -> session -> Prop) (s : session) : Prop :=
  match m s with Some (a, s') => Q a s' | None => False end.

Lemma HM_wp_bind {A B'} (m : HM A) (f : A -> HM B') Q s : HM_wp m (fun a s' => HM_wp (f a) Q s') s -> HM_wp (m ≫= f) Q s.
Proof. unfold HM_wp, mbind, HM_bind. destruct (m s) as [[a s']|]; done. Qed.

Lemma HM_wp_ret {A} (a : A) (Q : A -> session -> Prop) s : Q a s -> HM_wp (mret a) Q s.
Proof. done. Qed.

Lemma HM_wp_mono {A} (m : HM A) (Q1 Q2 : A -> session -> Prop) s : HM_wp m Q1 s -> (forall a s', Q1 a s' -> Q2 a s') -> HM_wp m Q2 s.
Proof. unfold HM_wp. destruct (m s) as [[a s']|]; [|done]. intros H1 H2. by apply H2. Qed.

Lemma HM_wp_get Q s : Q s s -> HM_wp get_session Q s.
Proof. done. Qed.

(** ** Ownership *)

Definition object : Type := kind * nat.

Section Leak.
Context (leak : kind -> Prop).

Record inv (s : session) (X : list object) : Prop := {
  inv_nodup : NoDup X.*2;
  inv_live : forall k p, (k, p) ∈ X -> heap s !! p = Some k;
  inv_rest : forall k p, heap s !! p = Some k -> leak k \/ (k, p) ∈ X;
  inv_fresh : forall p, is_Some (heap s !! p) -> (p < next_object s)%nat;
}.

#[global] Instance inv_proper s : Proper ((≡ₚ) ==> iff) (inv s).
Proof.
  intros X Y E. split; intros [H1 H2 H3 H4]; split; try done.
  - by rewrite <-E.
  - intros k p. rewrite <-E. apply H2.
  - intros k p Hk. rewrite <-E. by apply H3.
  - by rewrite E.
  - intros k p. rewrite E. apply H2.
  - intros k p Hk. rewrite E. by apply H3.
Qed.

(** What is not released may be forgotten. *)
Lemma inv_forget s k p X : leak k -> inv s ((k, p) :: X) -> inv s X.
Proof.
  intros Hl [H1 H2 H3 H4]. split; [by apply NoDup_cons in H1 as [_ ?]|..|done].
  - intros k' p' Hin. apply H2. by right.
  - intros k' p' Hk. destruct (H3 k' p' Hk) as [?|[[= -> ->]|?]%elem_of_cons]; [by left|by left|by right].
Qed.

(** The parts of the state that the heap functions leave alone. *)
Definition same_rest (s s' : session) : Prop :=
  connectors s' = connectors s /\ conn_connector s' = conn_connector s /\ conn_activated s' = conn_activated s /\
  (next_object s <= next_object s')%nat.

Lemma same_rest_refl s : same_rest s s.
Proof. done. Qed.

Lemma same_rest_trans s1 s2 s3 : same_rest s1 s2 -> same_rest s2 s3 -> same_rest s1 s3.
Proof. intros (E1 & E2 & E3 & H1) (F1 & F2 & F3 & H2). repeat split; congruence || lia. Qed.

Lemma alloc_wp k X s (Q : nat -> session -> Prop) : inv s X ->
  (forall p s', inv s' ((k, p) :: X) -> same_rest s s' -> Q p s') -> HM_wp (alloc k) Q s.
Proof.
  intros [H1 H2 H3 H4] HQ. unfold HM_wp, alloc. apply HQ; [|repeat split; cbn; lia].
  assert (heap s !! next_object s = None) as Hn.
  { destruct (heap s !! next_object s) eqn:E; [|done]. pose proof (H4 (next_object s) ltac:(by eexists)). lia. }
  split; cbn.
  - apply NoDup_cons. split; [|done]. intros ([k' p'] & E & Hin)%list_elem_of_fmap. cbn in E. subst p'. rewrite (H2 _ _ Hin) in Hn. done.
  - intros k' p' [[= -> ->]|Hin]%elem_of_cons; [by rewrite lookup_insert_eq|].
    rewrite lookup_insert_ne; [by apply H2|]. intros <-. rewrite (H2 _ _ Hin) in Hn. done.
  - intros k' p' [[<- <-]|[Hne Hk]]%lookup_insert_Some; [right; by left|].
    destruct (H3 k' p' Hk); [by left|right; by right].
  - intros p' [k' [[<- <-]|[_ Hk]]%lookup_insert_Some]; [lia|]. pose proof (H4 p' ltac:(by eexists)). lia.
Qed.

Lemma release_wp k p X s (Q : unit -> session -> Prop) : inv s ((k, p) :: X) ->
  (forall s', inv s' X -> same_rest s s' -> Q tt s') -> HM_wp (release k p) Q s.
Proof.
  intros [H1 H2 H3 H4] HQ. unfold HM_wp, release. rewrite decide_True by (apply H2; left). apply HQ; [|repeat split; cbn; lia].
  cbn in H1. apply NoDup_cons in H1 as [Hn H1]. split; cbn.
  - done.
  - intros k' p' Hin. rewrite lookup_delete_ne; [apply H2; by right|]. intros ->. apply Hn, list_elem_of_fmap. by exists (k', p').
  - intros k' p' [Hne Hk]%lookup_delete_Some. destruct (H3 k' p' Hk) as [?|[[= -> ->]|?]%elem_of_cons]; [by left|done|by right].
  - intros p' [k' [_ Hk]%lookup_delete_Some]. apply H4. by eexists.
Qed.

(** ** Connectors *)

Definition opt_object (k : kind) (o : option nat) : list object := match o with Some p => [(k, p)] | None => [] end.

Definition owned (c : connector) : list object :=
  opt_object k_thread (c_ServerThread c) ++ [(k_stream, c_OutboundStream c); (k_stream, c_InboundStream c); (k_event, c_StopEvent c)] ++
  opt_object k_pipe (c_hClientPipe c) ++ opt_object k_list (c_ServerList c) ++ opt_object k_queue (c_ServerQueue c) ++
  opt_object k_string (c_Endpoint c) ++ opt_object k_segment (c_framebuffer c).

Lemma release_opt_wp k o X s (Q : unit -> session -> Prop) : inv s (opt_object k o ++ X) ->
  (forall s', inv s' X -> same_rest s s' -> Q tt s') -> HM_wp (release_opt k o) Q s.
Proof. destruct o as [p|]; cbn; [apply release_wp|]. intros Hi HQ. by apply HQ. Qed.

Lemma deref_wp p c s (Q : connector -> session -> Prop) : connectors s !! p = Some c -> Q c s -> HM_wp (deref p) Q s.
Proof. intros E HQ. unfold HM_wp, deref. by rewrite E. Qed.

(** Releasing a connector releases what it owns. *)
Lemma connector_free_wp p c X s (Q : unit -> session -> Prop) : connectors s !! p = Some c -> inv s (owned c ++ X) ->
  (forall s', inv s' X -> connectors s' = delete p (connectors s) -> conn_connector s' = conn_connector s -> conn_activated s' = conn_activated s ->
     Q tt s') -> HM_wp (freerds_connector_free p) Q s.
Proof.
  intros Hp Hi HQ. unfold owned in Hi. rewrite <-!(assoc_L (++)) in Hi. cbn [app] in Hi. unfold freerds_connector_free.
  apply HM_wp_bind, (deref_wp p c); [done|].
  apply HM_wp_bind. eapply release_opt_wp; [exact Hi|]. intros s1 H1 R1.
  apply HM_wp_bind. eapply release_wp; [exact H1|]. intros s2 H2 R2%(same_rest_trans _ _ _ R1).
  apply HM_wp_bind. eapply release_wp; [exact H2|]. intros s3 H3 R3%(same_rest_trans _ _ _ R2).
  apply HM_wp_bind. eapply release_wp; [exact H3|]. intros s4 H4 R4%(same_rest_trans _ _ _ R3).
  apply HM_wp_bind. eapply release_opt_wp; [exact H4|]. intros s5 H5 R5%(same_rest_trans _ _ _ R4).
  apply HM_wp_bind. eapply release_opt_wp; [exact H5|]. intros s6 H6 R6%(same_rest_trans _ _ _ R5).
  apply HM_wp_bind. eapply release_opt_wp; [exact H6|]. intros s7 H7 R7%(same_rest_trans _ _ _ R6).
  apply HM_wp_bind. eapply release_opt_wp; [exact H7|]. intros s8 H8 R8%(same_rest_trans _ _ _ R7).
  apply HM_wp_bind. eapply release_opt_wp; [exact H8|]. intros s9 H9 (E1 & E2 & E3 & _)%(same_rest_trans _ _ _ R8).
  unfold HM_wp, free_connector. rewrite E1, decide_True by by eexists. apply HQ; [by destruct H9|done..].
Qed.

Lemma store_wp p c0 c s (Q : unit -> session -> Prop) : connectors s = {[p := c0]} ->
  (forall s', heap s' = heap s -> connectors s' = {[p := c]} -> next_object s' = next_object s -> conn_connector s' = conn_connector s ->
     conn_activated s' = conn_activated s -> Q tt s') -> HM_wp (store p c) Q s.
Proof.
  intros E HQ. unfold HM_wp, store. rewrite E, lookup_singleton_eq, decide_True by by eexists. apply HQ; try done.
  cbn. apply insert_singleton_eq.
Qed.

Lemma inv_heap s s' X : heap s' = heap s -> next_object s' = next_object s -> inv s X -> inv s' X.
Proof. intros E1 E2 [H1 H2 H3 H4]. split; by rewrite ?E1, ?E2. Qed.

(** ** The state between the steps *)

(** The connector of the connection, if there is one, owns [X] besides. *)
Definition owns (X : list object) (s : session) : Prop :=
  match conn_connector s with
  | None => connectors s = ∅ /\ inv s X
  | Some p => exists c, connectors s = {[p := c]} /\ inv s (owned c ++ X)
  end.

Context (Hif : leak k_interface).

Lemma owns_alloc k X s (Q : nat -> session -> Prop) : owns X s ->
  (forall p s', owns ((k, p) :: X) s' -> conn_connector s' = conn_connector s -> conn_activated s' = conn_activated s -> Q p s') ->
  HM_wp (alloc k) Q s.
Proof.
  unfold owns. destruct (conn_connector s) as [q|] eqn:E.
  - intros (c & Hc & Hi) HQ. eapply alloc_wp; [exact Hi|]. intros p s' Hi' (E1 & E2 & E3 & _). apply HQ; [|congruence..].
    rewrite E2, E. exists c. split; [congruence|]. by rewrite <-Permutation_middle.
  - intros (Hc & Hi) HQ. eapply alloc_wp; [exact Hi|]. intros p s' Hi' (E1 & E2 & E3 & _). apply HQ; [|congruence..].
    rewrite E2, E. split; congruence.
Qed.

Lemma owns_release k p X s (Q : unit -> session -> Prop) : owns ((k, p) :: X) s ->
  (forall s', owns X s' -> conn_connector s' = conn_connector s -> conn_activated s' = conn_activated s -> Q tt s') ->
  HM_wp (release k p) Q s.
Proof.
  unfold owns. destruct (conn_connector s) as [q|] eqn:E.
  - intros (c & Hc & Hi) HQ. rewrite <-Permutation_middle in Hi. eapply release_wp; [exact Hi|]. intros s' Hi' (E1 & E2 & E3 & _).
    apply HQ; [|congruence..]. rewrite E2, E. exists c. split; congruence.
  - intros (Hc & Hi) HQ. eapply release_wp; [exact Hi|]. intros s' Hi' (E1 & E2 & E3 & _). apply HQ; [|congruence..].
    rewrite E2, E. split; congruence.
Qed.

Lemma owns_forget k p X s : leak k -> owns ((k, p) :: X) s -> owns X s.
Proof.
  intros Hl. unfold owns. destruct (conn_connector s) as [q|].
  - intros (c & Hc & Hi). exists c. split; [done|]. rewrite <-Permutation_middle in Hi. by eapply inv_forget.
  - intros [Hc Hi]. split; [done|]. by eapply inv_forget.
Qed.

Lemma set_connector_wp o s (Q : unit -> session -> Prop) :
  (forall s', heap s' = heap s -> connectors s' = connectors s -> next_object s' = next_object s -> conn_connector s' = o ->
     conn_activated s' = conn_activated s -> Q tt s') -> HM_wp (set_connector o) Q s.
Proof. intros HQ. by apply HQ. Qed.

(** Releasing the connector of the connection. *)
Lemma drop_connector_wp X s (Q : unit -> session -> Prop) : owns X s ->
  (forall s', owns X s' -> conn_connector s' = None -> Q tt s') ->
  HM_wp (match conn_connector s with Some p => freerds_connector_free p;; set_connector None | None => mret tt end) Q s.
Proof.
  unfold owns at 1. destruct (conn_connector s) as [p|] eqn:E.
  - intros (c & Hc & Hi) HQ. apply HM_wp_bind. eapply (connector_free_wp p c X); [by rewrite Hc, lookup_singleton_eq|exact Hi|].
    intros s1 Hi1 E1 E2 E3. apply set_connector_wp. intros s2 F1 F2 F3 F4 F5. apply HQ; [|done].
    unfold owns. rewrite F4. split; [by rewrite F2, E1, Hc, delete_singleton_eq|]. by apply (inv_heap s1).
  - intros [Hc Hi] HQ. apply HM_wp_ret, HQ; [|done]. unfold owns. by rewrite E.
Qed.

(** A new connector, not yet connected. *)
Definition unconnected (c : connector) (e : option nat) : Prop :=
  c_ServerThread c = None /\ c_hClientPipe c = None /\ c_ServerList c = None /\ c_ServerQueue c = None /\ c_framebuffer c = None /\ c_Endpoint c = e.

Lemma connector_new_wp X s (Q : nat -> session -> Prop) : connectors s = ∅ -> inv s X ->
  (forall p c s', connectors s' = {[p := c]} -> inv s' (owned c ++ X) -> unconnected c None -> conn_connector s' = conn_connector s ->
     conn_activated s' = conn_activated s -> Q p s') -> HM_wp freerds_connector_new Q s.
Proof.
  intros Hc Hi HQ. unfold freerds_connector_new.
  apply HM_wp_bind. eapply alloc_wp; [exact Hi|]. intros a s1 H1%(inv_forget _ _ _ _ Hif) R1.
  apply HM_wp_bind. eapply alloc_wp; [exact H1|]. intros b s2 H2%(inv_forget _ _ _ _ Hif) R2%(same_rest_trans _ _ _ R1).
  apply HM_wp_bind. eapply alloc_wp; [exact H2|]. intros o s3 H3 R3%(same_rest_trans _ _ _ R2).
  apply HM_wp_bind. eapply alloc_wp; [exact H3|]. intros i s4 H4 R4%(same_rest_trans _ _ _ R3).
  apply HM_wp_bind. eapply alloc_wp; [exact H4|]. intros e s5 H5 (E1 & E2 & E3 & _)%(same_rest_trans _ _ _ R4).
  unfold HM_wp, alloc_connector. eapply HQ; [cbn; by rewrite E1, Hc| |done|done|done].
  eapply inv_proper; [|destruct H5 as [? ? ? Hf]; split; [done..|]; intros p Hp; cbn in Hp |- *; pose proof (Hf p Hp); lia].
  cbn. rewrite (Permutation_swap (k_stream, o)). symmetry. etrans; [apply Permutation_swap|]. apply perm_skip. etrans; [apply Permutation_swap|]. done.
Qed.

(** The string becomes the endpoint of the connector. *)
Lemma set_endpoint_wp p c e X s (Q : unit -> session -> Prop) : connectors s = {[p := c]} -> unconnected c None ->
  inv s (owned c ++ opt_object k_string e ++ X) ->
  (forall c' s', connectors s' = {[p := c']} -> unconnected c' e -> inv s' (owned c' ++ X) -> conn_connector s' = conn_connector s ->
     conn_activated s' = conn_activated s -> Q tt s') -> HM_wp (set_endpoint p e) Q s.
Proof.
  intros Hc (U1 & U2 & U3 & U4 & U5 & U6) Hi HQ. unfold set_endpoint. apply HM_wp_bind, (deref_wp p c); [by rewrite Hc, lookup_singleton_eq|].
  eapply store_wp; [exact Hc|]. intros s' E1 E2 E3 E4 E5. eapply HQ; [exact E2|done| |done|done].
  apply (inv_heap s); [done|done|]. unfold owned in *. rewrite U1, U2, U3, U4, U5, U6 in Hi. cbn in *. by rewrite U1, U2, U3, U4, U5, app_nil_r.
Qed.

Lemma connect_wp h p c e X s (Q : bool -> session -> Prop) : connectors s = {[p := c]} -> unconnected c e -> inv s (owned c ++ X) ->
  (h = h_write_fails -> leak k_pipe) ->
  (forall b c' s', connectors s' = {[p := c']} -> c_Endpoint c' = e -> inv s' (owned c' ++ X) -> conn_connector s' = conn_connector s ->
     conn_activated s' = conn_activated s -> Q b s') -> HM_wp (freerds_connector_connect h p) Q s.
Proof.
  intros Hc (U1 & U2 & U3 & U4 & U5 & U6) Hi Hl HQ. unfold freerds_connector_connect. apply HM_wp_bind, (deref_wp p c); [by rewrite Hc, lookup_singleton_eq|].
  destruct h.
  - apply HM_wp_ret. by eapply HQ.
  - apply HM_wp_bind. eapply alloc_wp; [exact Hi|]. intros q s1 H1%(inv_forget _ _ _ _ (Hl eq_refl)) (E1 & E2 & E3 & _).
    apply HM_wp_ret. eapply HQ; [rewrite E1; exact Hc|done|done|done|done].
  - apply HM_wp_bind. eapply alloc_wp; [exact Hi|]. intros q s1 H1 R1.
    apply HM_wp_bind. eapply alloc_wp; [exact H1|]. intros t s2 H2 R2%(same_rest_trans _ _ _ R1).
    apply HM_wp_bind. eapply alloc_wp; [exact H2|]. intros pr s3 H3%(inv_forget _ _ _ _ Hif) R3%(same_rest_trans _ _ _ R2).
    apply HM_wp_bind. eapply alloc_wp; [exact H3|]. intros l s4 H4 R4%(same_rest_trans _ _ _ R3).
    apply HM_wp_bind. eapply alloc_wp; [exact H4|]. intros qu s5 H5 (E1 & E2 & E3 & _)%(same_rest_trans _ _ _ R4).
    apply HM_wp_bind. eapply store_wp; [rewrite E1; exact Hc|]. intros s6 F1 F2 F3 F4 F5. apply HM_wp_ret.
    eapply HQ; [exact F2|done| |congruence..]. apply (inv_heap s5); [done|done|]. eapply inv_proper; [|exact H5].
    unfold owned. rewrite U1, U2, U3, U4. cbn. rewrite U5, !app_nil_r. solve_Permutation.
Qed.

Lemma post_connect_wp a s (Q : bool -> session -> Prop) : owns [] s -> conn_connector s = None ->
  (forall b, a = Some (b, h_write_fails) -> leak k_pipe) ->
  (forall b s', owns [] s' -> conn_activated s' = conn_activated s -> (b = true -> is_Some (conn_connector s')) -> Q b s') ->
  HM_wp (freerds_peer_post_connect a) Q s.
Proof.
  intros O Hn Hl HQ. unfold freerds_peer_post_connect. apply HM_wp_bind, HM_wp_get. destruct a as [[he h]|]; [|by apply HM_wp_ret, HQ].
  rewrite Hn. unfold owns in O. rewrite Hn in O. destruct O as [Hc Hi].
  apply HM_wp_bind.
  assert (forall (Q' : option nat -> session -> Prop),
    (forall e s', inv s' (opt_object k_string e) -> same_rest s s' -> Q' e s') ->
    HM_wp (if he then p ← alloc k_string; mret (Some p) else mret None) Q' s) as Halloc.
  { intros Q' H'. destruct he.
    - apply HM_wp_bind. eapply alloc_wp; [exact Hi|]. intros p s' Hi' R. apply HM_wp_ret. by apply H'.
    - apply HM_wp_ret. by apply H'. }
  apply Halloc. intros e s1 H1 (E1 & E2 & E3 & _).
  apply HM_wp_bind, HM_wp_bind. eapply connector_new_wp; [by rewrite E1|exact H1|]. intros p c s2 Hc2 Hi2 U F1 F2.
  apply HM_wp_bind, set_connector_wp. intros s3 G1 G2 G3 G4 G5. apply HM_wp_ret.
  apply HM_wp_bind. eapply (set_endpoint_wp p c e []); [by rewrite G2|done|rewrite app_nil_r; by apply (inv_heap s2)|].
  intros c' s4 Hc4 U4 Hi4 I1 I2. eapply connect_wp; [exact Hc4|exact U4|exact Hi4| |].
  { intros ->. by eapply Hl. }
  intros b c2 s5 Hc5 _ Hi5 J1 J2. assert (conn_connector s5 = Some p) as Ep by congruence. apply HQ; [|congruence|by rewrite Ep].
  unfold owns. rewrite Ep. exists c2. done.
Qed.

(** ** Notifications *)

Definition no_switch (n : notification) : Prop := match n with n_switch _ _ => False | _ => True end.

Lemma notification_wp n s (Q : bool -> session -> Prop) : owns [] s -> no_switch n ->
  ((exists b, n = n_channel false b) \/ n = n_other -> leak k_request) ->
  (forall b s', owns [] s' -> (b = true -> conn_connector s' = conn_connector s) -> Q b s') ->
  HM_wp (freerds_client_process_notification n) Q s.
Proof.
  intros O Hn Hl HQ. unfold freerds_client_process_notification. apply HM_wp_bind. eapply owns_alloc; [exact O|]. intros r s1 O1 E1 E2.
  destruct n as [h b| |b r'|]; [done|..].
  - unfold freerds_client_process_logoff. apply HM_wp_bind, HM_wp_get. apply HM_wp_bind. eapply drop_connector_wp; [exact O1|]. intros s2 O2 E3.
    apply HM_wp_bind. unfold HM_wp at 1, close_client. apply HM_wp_bind. eapply owns_release; [|].
    { unfold owns in O2 |- *. cbn. rewrite E3 in O2 |- *. destruct O2 as [? ?]. split; [done|]. by apply (inv_heap s2). }
    intros s3 O3 E4 E5. apply HM_wp_ret, HQ; [done|done].
  - unfold channel_endpoint_open. destruct b.
    + apply HM_wp_bind. eapply owns_release; [exact O1|]. intros s2 O2 E3 E4. apply HM_wp_ret, HQ; [done|congruence].
    + apply HM_wp_ret, HQ; [|done]. eapply owns_forget; [|exact O1]. apply Hl. left. by exists r'.
  - apply HM_wp_ret, HQ; [|done]. eapply owns_forget; [|exact O1]. apply Hl. by right.
Qed.

(** ** The loop *)

Definition turn_calls (t : turn) : list peer_call := match t_client t with Some (l, _) => l | None => [] end.

Definition is_post (c : peer_call) : bool := match c with p_post_connect _ => true | _ => false end.

(** The logons among the calls. *)
Definition posts (l : list peer_call) : nat := length (List.filter is_post l).

(** At most one logon is to come, and none once there is a connector. *)
Definition posts_ok (n : nat) (s : session) : Prop := n = 0%nat \/ (n = 1%nat /\ conn_connector s = None).

(** What the calls leave behind. *)
Definition calls_leak (l : list peer_call) : Prop := forall b, p_post_connect (Some (b, h_write_fails)) ∈ l -> leak k_pipe.

Lemma owns_active a s : owns [] s -> owns [] (mk_session (heap s) (connectors s) (next_object s) (conn_connector s) a (conn_closed s)).
Proof.
  unfold owns. cbn. destruct (conn_connector s).
  - intros (c & Hc & Hi). exists c. split; [done|]. by apply (inv_heap s).
  - intros [Hc Hi]. split; [done|]. by apply (inv_heap s).
Qed.

Lemma peer_calls_wp l n s (Q : bool -> session -> Prop) : owns [] s -> posts_ok (posts l + n) s -> calls_leak l ->
  (forall b s', owns [] s' -> posts_ok n s' -> (is_Some (conn_connector s) -> conn_connector s' = conn_connector s) -> Q b s') ->
  HM_wp (peer_calls l) Q s.
Proof.
  revert s Q. induction l as [|[a| |] l IH]; intros s Q O Hp Hl HQ; cbn [peer_calls].
  - by apply HM_wp_ret, HQ.
  - destruct Hp as [?|[Hn Hc]]; [done|]. cbn in Hn. assert (posts l = 0%nat /\ n = 0%nat) as [Hl0 ->] by (unfold posts; lia).
    apply HM_wp_bind. apply post_connect_wp; [done|done|..].
    { intros b ->. apply (Hl b). left. }
    intros b s1 O1 E1 Hb. destruct b; [|apply HM_wp_ret, HQ; [done|by left|rewrite Hc; by intros []]].
    apply IH; [done|left; lia|intros b' Hin; apply (Hl b'); by right|]. intros b' s2 O2 P2 E2. apply HQ; [done|done|rewrite Hc; by intros []].
  - apply HM_wp_bind. unfold HM_wp at 1, set_active. apply IH; [by apply owns_active|done|intros b Hin; apply (Hl b); by right|].
    intros b s' O' P' E'. by apply HQ.
  - apply HM_wp_bind. unfold input_call. apply HM_wp_bind, HM_wp_get. assert (HM_wp (peer_calls l) Q s) as Hrest.
    { apply IH; [done|done|intros b Hin; apply (Hl b); by right|done]. }
    unfold owns in O. destruct (conn_connector s) as [p|] eqn:E; [|done]. destruct O as (c & Hc & _).
    apply HM_wp_bind, (deref_wp p c); [by rewrite Hc, lookup_singleton_eq|]. done.
Qed.

(** The local variable of the thread is the connector of the connection. *)
Definition local_ok (local : option nat) (s : session) : Prop := local = None \/ local = conn_connector s.

Lemma reload_wp local s (Q : option nat -> session -> Prop) : owns [] s -> local_ok local s ->
  (forall local', local_ok local' s -> Q local' s) -> HM_wp (reload_connector local) Q s.
Proof.
  intros O Hl HQ. unfold reload_connector. apply HM_wp_bind, HM_wp_get. destruct (conn_activated s); [|by apply HM_wp_ret, HQ].
  unfold owns in O. destruct (conn_connector s) as [p|] eqn:E; [|by apply HM_wp_ret, HQ; left]. destruct O as (c & Hc & _).
  apply HM_wp_bind, (deref_wp p c); [by rewrite Hc, lookup_singleton_eq|]. apply HM_wp_ret, HQ. right. congruence.
Qed.

(** The display replaces its segment. *)
Lemma check_event_handles_wp p e s (Q : Z -> session -> Prop) : owns [] s -> conn_connector s = Some p ->
  (forall st s', owns [] s' -> conn_connector s' = Some p -> Q st s') -> HM_wp (check_event_handles p e) Q s.
Proof.
  intros O Hp HQ. unfold owns in O. rewrite Hp in O. destruct O as (c & Hc & Hi). rewrite app_nil_r in Hi. unfold check_event_handles.
  apply HM_wp_bind, (deref_wp p c); [by rewrite Hc, lookup_singleton_eq|]. apply HM_wp_bind.
  assert (forall s', owns [] s' -> conn_connector s' = Some p -> HM_wp ((if e_resized e then set_active false else mret tt);; mret (e_status e)) Q s') as Hrest.
  { intros s' O' E'. apply HM_wp_bind. destruct (e_resized e); [|by apply HM_wp_ret, HM_wp_ret, HQ].
    unfold HM_wp at 1, set_active. apply HM_wp_ret, HQ; [by apply owns_active|done]. }
  set (rest := opt_object k_thread (c_ServerThread c) ++ [(k_stream, c_OutboundStream c); (k_stream, c_InboundStream c); (k_event, c_StopEvent c)] ++
    opt_object k_pipe (c_hClientPipe c) ++ opt_object k_list (c_ServerList c) ++ opt_object k_queue (c_ServerQueue c) ++ opt_object k_string (c_Endpoint c)).
  assert (forall fb, owned (mk_connector (c_client c) (c_server c) (c_OutboundStream c) (c_InboundStream c) (c_StopEvent c) (c_ServerThread c)
    (c_hClientPipe c) (c_ServerList c) (c_ServerQueue c) (c_ServerProxy c) (c_Endpoint c) fb (c_events c)) ≡ₚ opt_object k_segment fb ++ rest) as Hown.
  { intros fb. unfold owned, rest. cbn. solve_Permutation. }
  assert (inv s (opt_object k_segment (c_framebuffer c) ++ rest)) as Hi0.
  { eapply inv_proper; [|exact Hi]. rewrite <-Hown. by destruct c. }
  assert (forall s1 fb, connectors s1 = connectors s -> conn_connector s1 = conn_connector s -> inv s1 (opt_object k_segment fb ++ rest) ->
    HM_wp (store p (mk_connector (c_client c) (c_server c) (c_OutboundStream c) (c_InboundStream c) (c_StopEvent c) (c_ServerThread c)
      (c_hClientPipe c) (c_ServerList c) (c_ServerQueue c) (c_ServerProxy c) (c_Endpoint c) fb (c_events c)))
      (fun _ s' => HM_wp ((if e_resized e then set_active false else mret tt);; mret (e_status e)) Q s') s1) as Hstore.
  { intros s1 fb E1 E2 H1. eapply store_wp; [rewrite E1; exact Hc|]. intros s2 F1 F2 F3 F4 F5. apply Hrest; [|congruence].
    unfold owns. rewrite F4, E2, Hp. eexists. split; [exact F2|]. rewrite app_nil_r. eapply inv_proper; [apply Hown|]. by apply (inv_heap s1). }
  destruct (e_framebuffer e) as [[]|].
  - apply HM_wp_bind. eapply release_opt_wp; [exact Hi0|]. intros s1 H1 (E1 & E2 & _ & _). apply HM_wp_bind.
    eapply alloc_wp; [exact H1|]. intros a s2 H2 (F1 & F2 & _ & _). apply Hstore; [congruence..|done].
  - apply HM_wp_bind. eapply release_opt_wp; [exact Hi0|]. intros s1 H1 (E1 & E2 & _ & _). by apply Hstore.
  - apply HM_wp_ret, Hrest; [|done]. unfold owns. rewrite Hp. exists c. by rewrite app_nil_r.
Qed.

Lemma check_connector_wp local e s (Q : bool -> session -> Prop) : owns [] s -> local_ok local s ->
  (forall b s', owns [] s' -> conn_connector s' = conn_connector s -> Q b s') -> HM_wp (check_connector local e) Q s.
Proof.
  intros O Hl HQ. unfold check_connector. apply HM_wp_bind, HM_wp_get. destruct (conn_activated s); [|by apply HM_wp_ret, HQ].
  destruct local as [p|]; [|by apply HM_wp_ret, HQ]. destruct Hl as [|Hl]; [done|]. symmetry in Hl.
  pose proof O as O'. unfold owns in O'. rewrite Hl in O'. destruct O' as (c & Hc & _).
  apply HM_wp_bind, (deref_wp p c); [by rewrite Hc, lookup_singleton_eq|]. destruct (c_events c); [|by apply HM_wp_ret, HQ].
  apply HM_wp_bind, check_event_handles_wp; [done|done|]. intros st s' O' E'. apply HM_wp_ret, HQ; [done|congruence].
Qed.

(** A turn without a switch of sessions, and what it may leave behind. *)
Definition turn_ok (t : turn) : Prop :=
  (forall n, t_notification t = Some n -> no_switch n) /\ calls_leak (turn_calls t) /\
  ((exists b, t_notification t = Some (n_channel false b)) \/ t_notification t = Some n_other -> leak k_request).

Lemma turn_wp t local n s (Q : outcome -> session -> Prop) : owns [] s -> local_ok local s -> posts_ok (posts (turn_calls t) + n) s -> turn_ok t ->
  (forall local' s', owns [] s' -> local_ok local' s' -> posts_ok n s' -> Q (o_next local') s') ->
  (forall close s', owns [] s' -> Q (o_break close) s') -> HM_wp (connection_turn t local) Q s.
Proof.
  intros O Hl Hp (Hns & Hcl & Hrq) HQ1 HQ2. unfold connection_turn. apply HM_wp_bind, reload_wp; [done|done|]. intros l1 Hl1.
  destruct (t_global_term t || t_local_term t); [by apply HM_wp_ret, HQ2|].
  set (rest := fun (ok : bool) => _). change (HM_wp (match t_client t with Some (l, r) => ok ← peer_calls l; mret (ok && r) | None => mret true end ≫= rest) Q s).
  assert (forall ok s', owns [] s' -> posts_ok n s' -> (is_Some (conn_connector s) -> conn_connector s' = conn_connector s) -> HM_wp (rest ok) Q s') as Hrest.
  { intros ok s1 O1 P1 E1. unfold rest. destruct (negb ok); [by apply HM_wp_ret, HQ2|].
    destruct (match t_channels t with Some false => true | _ => false end); [by apply HM_wp_ret, HQ2|].
    assert (local_ok l1 s1) as Hl2.
    { destruct Hl1 as [->| ->]; [by left|]. destruct (conn_connector s) as [q|] eqn:E; [|by left]. right. symmetry. apply E1. by eexists. }
    apply HM_wp_bind, check_connector_wp; [done|done|]. intros failed s2 O2 E2. destruct failed; [by apply HM_wp_ret, HQ2|].
    assert (posts_ok n s2) as P2 by (unfold posts_ok in *; by rewrite E2). assert (local_ok l1 s2) as Hl3 by (unfold local_ok in *; by rewrite E2).
    destruct (t_notification t) as [nt|] eqn:En; [|by apply HM_wp_ret, HQ1].
    apply HM_wp_bind, notification_wp; [done|by apply Hns|..].
    { intros [[b ->]| ->]; apply Hrq; [left; by exists b|by right]. }
    intros b s3 O3 E3. apply HM_wp_ret. destruct b; [|by apply HQ2]. specialize (E3 eq_refl).
    apply HQ1; [done|unfold local_ok in *; by rewrite E3|unfold posts_ok in *; by rewrite E3]. }
  unfold turn_calls in Hp, Hcl. apply HM_wp_bind. destruct (t_client t) as [[l r]|].
  - apply HM_wp_bind. eapply peer_calls_wp; [done|exact Hp|done|]. intros b s1 O1 P1 E1. apply HM_wp_ret. by apply Hrest.
  - apply HM_wp_ret. by apply Hrest.
Qed.

Definition all_posts (l : list turn) : nat := posts (concat (turn_calls <$> l)).

Lemma posts_app l1 l2 : posts (l1 ++ l2) = (posts l1 + posts l2)%nat.
Proof. unfold posts. by rewrite List.filter_app, length_app. Qed.

Lemma loop_wp l local s : owns [] s -> local_ok local s -> posts_ok (all_posts l) s -> Forall turn_ok l ->
  HM_wp (connection_loop l local) (fun _ s' => owns [] s') s.
Proof.
  intros O Hl Hp Hok. revert local s O Hl Hp. induction Hok as [|t l Ht _ IH]; intros local s O Hl Hp; cbn [connection_loop]; [by apply HM_wp_ret|].
  apply HM_wp_bind. unfold all_posts in Hp. rewrite fmap_cons in Hp. cbn [concat] in Hp. rewrite posts_app in Hp. eapply turn_wp; [done|done|exact Hp|done|..].
  - intros local' s' O' Hl' Hp'. by apply IH.
  - intros close s' O'. by apply HM_wp_ret.
Qed.

Lemma main_thread_wp l s : owns [] s -> posts_ok (all_posts l) s -> Forall turn_ok l ->
  HM_wp (freerds_connection_main_thread l) (fun r s' => owns [] s' /\ (is_Some r -> conn_connector s' = None)) s.
Proof.
  intros O Hp Hok. unfold freerds_connection_main_thread. apply HM_wp_bind.
  eapply HM_wp_mono; [apply loop_wp; [done|by left|done|done]|]. intros r s1 O1. destruct r as [close|]; [|by apply HM_wp_ret; split; [|by intros []]].
  apply HM_wp_bind. unfold connection_exit. apply HM_wp_bind, HM_wp_get. apply HM_wp_bind. eapply drop_connector_wp; [exact O1|].
  intros s2 O2 E2. unfold HM_wp at 1, close_client. apply HM_wp_ret. unfold owns in *. cbn. rewrite E2 in *. destruct O2 as [? ?].
  split; [|done]. split; [done|]. by apply (inv_heap s2).
Qed.
End Leak.

(** ** A dangling endpoint *)

Definition HM_wlp {A} (m : HM A) (Q : A -> session -> Prop) (s : session) : Prop := forall a s', m s = Some (a, s') -> Q a s'.

Lemma HM_wlp_bind {A B'} (m : HM A) (f : A -> HM B') Q s : HM_wlp m (fun a s' => HM_wlp (f a) Q s') s -> HM_wlp (m ≫= f) Q s.
Proof.
  intros H b s'. unfold mbind, HM_bind. destruct (m s) as [[a s1]|] eqn:E; [|done]. cbn. by apply (H a s1).
Qed.

Lemma HM_wlp_ret {A} (a : A) (Q : A -> session -> Prop) s : Q a s -> HM_wlp (mret a) Q s.
Proof. by intros H b s' [= <- <-]. Qed.

Lemma HM_wlp_mono {A} (m : HM A) (Q1 Q2 : A -> session -> Prop) s : HM_wlp m Q1 s -> (forall a s', Q1 a s' -> Q2 a s') -> HM_wlp m Q2 s.
Proof. intros H1 H2 a s' E. by apply H2, H1. Qed.

(** The endpoint [e] of the connector of the connection has been freed. *)
Definition dangling_at (p : nat) (e : nat) (s : session) : Prop :=
  conn_connector s = Some p /\ (exists c, connectors s !! p = Some c /\ c_Endpoint c = Some e) /\ heap s !! e = None /\ (e < next_object s)%nat.

Section Dangling.
Context (p e : nat).
Abbreviation dangling := (dangling_at p e).

Lemma alloc_dangling k s : dangling s -> HM_wlp (alloc k) (fun _ s' => dangling s') s.
Proof.
  intros (H1 & H2 & H3 & H4) q s' [= <- <-]. split; [done|]. split; [done|]. cbn. split; [|lia]. rewrite lookup_insert_ne by lia. done.
Qed.

Lemma release_dangling k q s : dangling s -> HM_wlp (release k q) (fun _ s' => dangling s') s.
Proof.
  intros (H1 & H2 & H3 & H4) a s'. unfold release. destruct (decide _); [|done]. intros [= _ <-]. split; [done|]. split; [done|]. cbn. split; [|done].
  by apply lookup_delete_None; right.
Qed.

Lemma release_opt_dangling k o s : dangling s -> HM_wlp (release_opt k o) (fun _ s' => dangling s') s.
Proof. destruct o; [apply release_dangling|]. intros H. by apply HM_wlp_ret. Qed.

Lemma set_active_dangling a s : dangling s -> HM_wlp (set_active a) (fun _ s' => dangling s') s.
Proof. by intros H ? ? [= _ <-]. Qed.

(** The connector cannot be freed. *)
Lemma free_dangling s : dangling s -> freerds_connector_free p s = None.
Proof.
  intros Hd. assert (HM_wlp (freerds_connector_free p) (fun _ _ => False) s) as H.
  { unfold freerds_connector_free. destruct Hd as (H1 & (c & Hc & He) & H3 & H4).
    apply HM_wlp_bind. intros c' s0. unfold deref. rewrite Hc. intros [= <- <-]. rewrite He.
    assert (dangling s) as Hd by (split; [done|]; split; [by exists c|]; done).
    apply HM_wlp_bind. eapply HM_wlp_mono; [by apply release_opt_dangling|]. intros ? s1 D1. clear Hd.
    do 3 (apply HM_wlp_bind; eapply HM_wlp_mono; [by apply release_dangling|]; clear D1; try clear s1; intros ? s1 D1).
    do 3 (apply HM_wlp_bind; eapply HM_wlp_mono; [by apply release_opt_dangling|]; clear D1; try clear s1; intros ? s1 D1).
    apply HM_wlp_bind. intros ? s2. cbn [release_opt]. unfold release. destruct D1 as (_ & _ & D & _). rewrite D. by rewrite decide_False. }
  unfold HM_wlp in H. destruct (freerds_connector_free p s) as [[a s']|]; [|done]. destruct (H a s' eq_refl).
Qed.

Lemma bind_none {A B'} (m : HM A) (f : A -> HM B') s : m s = None -> (m ≫= f) s = None.
Proof. intros E. unfold mbind, HM_bind. by rewrite E. Qed.

Lemma exit_dangling s : dangling s -> connection_exit s = None.
Proof.
  intros Hd. unfold connection_exit. unfold mbind at 1, HM_bind at 1, get_session at 1. cbn [mbind option_bind].
  apply bind_none. rewrite (proj1 Hd). by apply bind_none, free_dangling.
Qed.

Lemma notification_dangling n s : dangling s -> HM_wlp (freerds_client_process_notification n) (fun _ s' => dangling s') s.
Proof.
  intros Hd. unfold freerds_client_process_notification. apply HM_wlp_bind. eapply HM_wlp_mono; [by apply alloc_dangling|]. intros r s1 D1. clear Hd.
  destruct n as [h b| |b r'|].
  - apply HM_wlp_bind. eapply HM_wlp_mono; [by apply alloc_dangling|]. intros en s2 D2. intros a s'. unfold freerds_client_process_switch_session.
    unfold mbind at 1, HM_bind at 1, get_session at 1. cbn [mbind option_bind]. rewrite (proj1 D2). by rewrite (bind_none _ _ _ (free_dangling _ D2)).
  - intros a s'. unfold freerds_client_process_logoff. unfold mbind at 1, HM_bind at 1, get_session at 1. cbn [mbind option_bind]. rewrite (proj1 D1).
    by rewrite bind_none by by apply bind_none, free_dangling.
  - unfold channel_endpoint_open. destruct b; [|by apply HM_wlp_ret]. apply HM_wlp_bind. eapply HM_wlp_mono; [by apply release_dangling|].
    intros ? s2 D2. by apply HM_wlp_ret.
  - by apply HM_wlp_ret.
Qed.

Lemma peer_calls_dangling l s : dangling s -> posts l = 0%nat -> HM_wlp (peer_calls l) (fun _ s' => dangling s') s.
Proof.
  revert s. induction l as [|[a| |] l IH]; intros s Hd Hp; cbn [peer_calls].
  - by apply HM_wlp_ret.
  - done.
  - apply HM_wlp_bind. eapply HM_wlp_mono; [by apply set_active_dangling|]. intros ? s1 D1. by apply IH.
  - apply HM_wlp_bind. intros [] s1. unfold input_call. unfold mbind at 1, HM_bind at 1, get_session at 1. cbn [mbind option_bind]. rewrite (proj1 Hd).
    unfold mbind, HM_bind, deref. destruct (connectors s !! p); [|done]. cbn. intros [= <-]. by apply IH.
Qed.

Lemma check_dangling local ef s : dangling s -> HM_wlp (check_connector local ef) (fun _ s' => dangling s') s.
Proof.
  intros Hd. unfold check_connector. apply HM_wlp_bind. intros s0 s1 [= <- <-]. destruct (conn_activated s); [|by apply HM_wlp_ret].
  destruct local as [q|]; [|by apply HM_wlp_ret]. apply HM_wlp_bind. intros c s1. unfold deref. destruct (connectors s !! q) as [c0|] eqn:Eq; [|done].
  intros [= <- <-]. destruct (c_events c0); [|by apply HM_wlp_ret]. apply HM_wlp_bind. unfold check_event_handles.
  apply HM_wlp_bind. intros c1 s1. unfold deref. rewrite Eq. intros [= <- <-].
  assert (forall fb s1, connectors s1 = connectors s -> dangling s1 -> HM_wlp (store q (mk_connector (c_client c0) (c_server c0) (c_OutboundStream c0)
    (c_InboundStream c0) (c_StopEvent c0) (c_ServerThread c0) (c_hClientPipe c0) (c_ServerList c0) (c_ServerQueue c0) (c_ServerProxy c0) (c_Endpoint c0)
    fb (c_events c0))) (fun _ s' => dangling s') s1) as Hstore.
  { intros fb s1 Ec (H1 & (c & Hc & He) & H3 & H4) a s2. unfold store. destruct (decide _); [|done]. intros [= _ <-]. split; [done|].
    split; [|done]. cbn. destruct (decide (q = p)) as [->|Hne]; [|exists c; by rewrite lookup_insert_ne].
    eexists. split; [by rewrite lookup_insert_eq|]. cbn. rewrite Ec, Eq in Hc. by injection Hc as <-. }
  assert (forall m : HM unit, HM_wlp m (fun _ s' => dangling s') s -> HM_wlp (m;; (if e_resized ef then set_active false else mret tt);; mret (e_status ef))
    (fun a s' => HM_wlp (mret (a <? 0)) (fun (_ : bool) s' => dangling s') s') s) as Hfin.
  { intros m Hm. apply HM_wlp_bind. eapply HM_wlp_mono; [exact Hm|]. intros ? s1 D1. apply HM_wlp_bind.
    destruct (e_resized ef); [eapply HM_wlp_mono; [by apply set_active_dangling|]; intros ? s2 D2|apply HM_wlp_ret]; by apply HM_wlp_ret, HM_wlp_ret. }
  apply Hfin. destruct (e_framebuffer ef) as [[]|]; [| |by apply HM_wlp_ret].
  - apply HM_wlp_bind. intros a s1 E1. pose proof (release_opt_dangling _ _ _ Hd _ _ E1) as D1.
    assert (connectors s1 = connectors s) as Ec.
    { revert E1. destruct (c_framebuffer c0); cbn; [unfold release; destruct (decide _); [|done]|]; by intros [= _ <-]. }
    apply HM_wlp_bind. intros ad s2 E2. pose proof (alloc_dangling _ _ D1 _ _ E2) as D2. apply Hstore; [|done]. injection E2 as _ <-. exact Ec.
  - apply HM_wlp_bind. intros a s1 E1. pose proof (release_opt_dangling _ _ _ Hd _ _ E1) as D1. apply Hstore; [|done].
    revert E1. destruct (c_framebuffer c0); cbn; [unfold release; destruct (decide _); [|done]|]; by intros [= _ <-].
Qed.

Lemma turn_dangling t local s : dangling s -> posts (turn_calls t) = 0%nat -> HM_wlp (connection_turn t local) (fun _ s' => dangling s') s.
Proof.
  intros Hd Hp. unfold connection_turn. apply HM_wlp_bind. intros l1 s1 E1. assert (s1 = s) as ->.
  { revert E1. unfold reload_connector, mbind, HM_bind, get_session. cbn. destruct (conn_activated s); [|by intros [= _ <-]].
    destruct (conn_connector s) as [q|]; [|by intros [= _ <-]]. unfold deref. destruct (connectors s !! q); [|done]. by intros [= _ <-]. }
  destruct (t_global_term t || t_local_term t); [by apply HM_wlp_ret|].
  apply HM_wlp_bind. eapply (HM_wlp_mono _ (fun _ s' => dangling s')).
  { unfold turn_calls in Hp. destruct (t_client t) as [[l r]|]; [|by apply HM_wlp_ret]. apply HM_wlp_bind.
    eapply HM_wlp_mono; [by apply peer_calls_dangling|]. intros b s2 D2. by apply HM_wlp_ret. }
  intros ok s2 D2. destruct (negb ok); [by apply HM_wlp_ret|].
  destruct (match t_channels t with Some false => true | _ => false end); [by apply HM_wlp_ret|].
  apply HM_wlp_bind. eapply HM_wlp_mono; [by apply check_dangling|]. intros failed s3 D3. destruct failed; [by apply HM_wlp_ret|].
  destruct (t_notification t) as [n|]; [|by apply HM_wlp_ret]. apply HM_wlp_bind.
  eapply HM_wlp_mono; [by apply notification_dangling|]. intros b s4 D4. by apply HM_wlp_ret.
Qed.

Lemma loop_dangling l local s : dangling s -> all_posts l = 0%nat -> HM_wlp (connection_loop l local) (fun _ s' => dangling s') s.
Proof.
  revert local s. induction l as [|t l IH]; intros local s Hd Hp; cbn [connection_loop]; [by apply HM_wlp_ret|].
  unfold all_posts in Hp. rewrite fmap_cons in Hp. cbn [concat] in Hp. rewrite posts_app in Hp.
  apply HM_wlp_bind. eapply HM_wlp_mono; [apply turn_dangling; [done|lia]|]. intros [local'|close] s' D'; [apply IH; [done|unfold all_posts; lia]|by apply HM_wlp_ret].
Qed.
End Dangling.

(** ** Switching sessions *)

(** The functions only number objects upwards. *)
Lemma alloc_next k s : HM_wlp (alloc k) (fun _ s' => next_object s' = S (next_object s) /\ connectors s' = connectors s /\ conn_connector s' = conn_connector s) s.
Proof. by intros q s' [= <- <-]. Qed.

Lemma release_next k q s : HM_wlp (release k q) (fun _ s' => next_object s' = next_object s) s.
Proof. intros a s'. unfold release. destruct (decide _); [|done]. by intros [= _ <-]. Qed.

Lemma release_opt_next k o s : HM_wlp (release_opt k o) (fun _ s' => next_object s' = next_object s) s.
Proof. destruct o; [apply release_next|]. by apply HM_wlp_ret. Qed.

Lemma connector_free_next p s : HM_wlp (freerds_connector_free p) (fun _ s' => next_object s' = next_object s) s.
Proof.
  unfold freerds_connector_free. apply HM_wlp_bind. intros c s0. unfold deref. destruct (connectors s !! p); [|done]. intros [= <- <-].
  do 9 (apply HM_wlp_bind; eapply HM_wlp_mono; [first [apply release_next|apply release_opt_next]|]; intros ? ? <-).
  intros ? s2. unfold free_connector. destruct (decide _); [|done]. by intros [= _ <-].
Qed.

(** The connector of the connection has the endpoint [e]. *)
Definition linked (p e : nat) (s : session) : Prop :=
  conn_connector s = Some p /\ (exists c, connectors s !! p = Some c /\ c_Endpoint c = Some e) /\ (e < next_object s)%nat.

Lemma alloc_linked k p e s : linked p e s -> HM_wlp (alloc k) (fun _ s' => linked p e s') s.
Proof. intros (H1 & H2 & H3) q s' [= <- <-]. split; [done|]. split; [done|]. cbn. lia. Qed.

Lemma connect_linked h p e s : linked p e s -> HM_wlp (freerds_connector_connect h p) (fun _ s' => linked p e s') s.
Proof.
  intros Hl. unfold freerds_connector_connect. apply HM_wlp_bind. intros c s0. unfold deref. destruct (connectors s !! p) as [c0|] eqn:Ec; [|done].
  intros [= <- <-]. assert (c_Endpoint c0 = Some e) as Hc by (destruct Hl as (_ & (c & Hc & ?) & _); congruence).
  destruct h; [by apply HM_wlp_ret|apply HM_wlp_bind; eapply HM_wlp_mono; [by apply alloc_linked|]; intros ? s1 L1; by apply HM_wlp_ret|].
  do 5 (apply HM_wlp_bind; eapply HM_wlp_mono; [exact (alloc_linked _ p e s Hl)|]; clear dependent s; intros ? s Hl).
  apply HM_wlp_bind. intros ? s1. unfold store. destruct (decide _); [|done]. intros [= _ <-]. apply HM_wlp_ret.
  destruct Hl as (H1 & _ & H3). split; [done|]. split; [|done]. eexists. split; [cbn; by rewrite lookup_insert_eq|done].
Qed.

(** After a switch of sessions the endpoint of the new connector dangles. *)
Lemma switch_dangling s request endpoint h answered r s1 : (endpoint < next_object s)%nat ->
  freerds_client_process_switch_session request endpoint h answered s = Some (r, s1) -> exists p, dangling_at p endpoint s1.
Proof.
  intros He E. revert r s1 E. change (HM_wlp (freerds_client_process_switch_session request endpoint h answered) (fun _ s' => exists p, dangling_at p endpoint s') s).
  unfold freerds_client_process_switch_session. apply HM_wlp_bind. intros s0 s1 [= <- <-].
  destruct (conn_connector s) as [p|]; [|by intros ? ? ?]. apply HM_wlp_bind. eapply HM_wlp_mono; [apply connector_free_next|]. intros ? s1 E1.
  rewrite <-E1 in He. clear s E1. apply HM_wlp_bind. eapply (HM_wlp_mono _ (fun q s' => (endpoint < next_object s')%nat)).
  { unfold freerds_connector_new. do 5 (apply HM_wlp_bind; eapply HM_wlp_mono; [apply alloc_next|]; intros ? ? (E & _ & _);
      match goal with H : (endpoint < next_object ?a)%nat, E : next_object ?b = S (next_object ?a) |- _ => assert (endpoint < next_object b)%nat by lia; clear H E end).
    intros ? ? [= <- <-]. cbn. lia. }
  intros q s2 H2. apply HM_wlp_bind. intros ? s3 [= _ <-]. apply HM_wlp_bind. eapply (HM_wlp_mono _ (fun _ s' => linked q endpoint s')).
  { unfold set_endpoint. apply HM_wlp_bind. intros c s3. unfold deref. cbn. destruct (connectors s2 !! q) as [c0|]; [|done]. intros [= <- <-].
    intros ? s4. unfold store. destruct (decide _); [|done]. intros [= _ <-]. split; [done|]. split; [|done]. eexists. split; [cbn; by rewrite lookup_insert_eq|done]. }
  intros ? s3 L3. apply HM_wlp_bind. eapply HM_wlp_mono; [by apply connect_linked|]. intros ? s4 L4.
  apply HM_wlp_bind. eapply (HM_wlp_mono _ (fun _ s' => dangling_at q endpoint s')).
  { intros ? s5. unfold release. destruct (decide _); [|done]. intros [= _ <-]. destruct L4 as (H1' & H2' & H3'). split; [done|]. split; [done|].
    split; [cbn; by rewrite lookup_delete_eq|done]. }
  intros ? s5 D5. apply HM_wlp_bind. eapply HM_wlp_mono; [by apply release_dangling|]. intros ? s6 D6. apply HM_wlp_ret. by exists q.
Qed.

(** ** The connections of the server *)

Section Connections.
Context {D : Dictionary} {DL : DictionaryLaws D} {V : Type}.

(** A peer is accepted and its thread registers it, or its thread ends. *)
Inductive server_event := s_accept (c : V) | s_end (id : Z).

Definition server_step (e : server_event) (s : server (V := V)) : server :=
  match e with
  | s_accept c => let '(id, s) := peer_context_id s in freerds_server_add_connection id c s
  | s_end id => freerds_server_remove_connection id s
  end.

Definition server_steps (l : list server_event) (s : server (V := V)) : server := fold_left (fun s e => server_step e s) l s.

Definition accepts_of (l : list server_event) : nat := length (List.filter (fun e => match e with s_accept _ => true | _ => false end) l).

(** The numbers of the connections are distinct and below the counter. *)
Definition numbered (n : nat) (s : server (V := V)) : Prop :=
  connectionId s = Z.of_nat n /\ NoDup (dict_items (connections s)).*1 /\ forall k v, (k, v) ∈ dict_items (connections s) -> 0 <= k < Z.of_nat n.

Lemma steps_numbered l n s : numbered n s -> Z.of_nat (n + accepts_of l) < 2 ^ 32 -> numbered (n + accepts_of l) (server_steps l s).
Proof.
  revert n s. induction l as [|[c|id] l IH]; intros n s Hs Hl; unfold accepts_of in *; cbn [List.filter length server_steps fold_left] in *.
  - by rewrite Nat.add_0_r.
  - rewrite Nat.add_succ_r in Hl |- *. rewrite <-Nat.add_succ_l in Hl |- *. apply IH; [|lia]. destruct Hs as (E & Hd & Hk).
    unfold server_step, peer_context_id, freerds_server_add_connection, numbered. cbn [connectionId connections]. rewrite dict_add_items.
    split; [|split].
    + rewrite E, u32_id by (unfold is_u32; lia). lia.
    + rewrite fmap_app. apply NoDup_app. split; [done|]. split; [|apply NoDup_singleton].
      intros k Hin ->%list_elem_of_singleton. apply list_elem_of_fmap in Hin as ([k' v] & Ek & Hin). cbn in Ek. specialize (Hk _ _ Hin). lia.
    + intros k v [Hin|Hin]%elem_of_app; [specialize (Hk _ _ Hin); lia|]. apply list_elem_of_singleton in Hin. injection Hin as -> _. lia.
  - apply IH; [|done]. destruct Hs as (E & Hd & Hk). unfold server_step, freerds_server_remove_connection, numbered. cbn [connectionId connections].
    destruct (ListDictionary_Remove id (connections s)) as [o d] eqn:Er. destruct (dict_remove_items _ _ _ _ _ Er) as [_ Ei]. cbn [snd]. rewrite Ei.
    split; [done|]. split; [by apply assoc_remove_nodup|]. intros k v Hin%assoc_remove_sub. by apply (Hk k v).
Qed.

Lemma assoc_find_in k v (l : list (Z * V)) : NoDup l.*1 -> (k, v) ∈ l -> assoc_find k l = Some v.
Proof.
  induction l as [|[k' v'] l IH]; [by intros _ ?%not_elem_of_nil|]. cbn. intros [Hn Hd]%NoDup_cons [[= -> ->]|Hin]%elem_of_cons.
  - by rewrite Z.eqb_refl.
  - destruct (Z.eqb_spec k k') as [->|]; [|by apply IH]. destruct Hn. apply list_elem_of_fmap. by exists (k', v).
Qed.

(** Until 2^32 peers have been accepted, a registered connection is found by
    its number. *)
Lemma connection_found l id c : Z.of_nat (accepts_of l) < 2 ^ 32 -> (id, c) ∈ dict_items (connections (server_steps l server_new)) ->
  server_get_connection id (server_steps l server_new) = Some c.
Proof.
  intros Hl Hin. destruct (steps_numbered l 0 server_new) as (_ & Hd & _); [|done|].
  { split; [done|]. cbn. rewrite dict_new_items. split; [constructor|]. by intros k v ?%not_elem_of_nil. }
  unfold server_get_connection. rewrite dict_get_items. by apply assoc_find_in.
Qed.
End Connections.
