(* ===== verification/SessionTheorems.v ===== *)
(** * Properties of the life of a connection

    freerds/core/backend.c and the thread of freerds/core/process.c. *)

From S2P Require Import Prelude RpcContext Session SessionFacts.
From stdpp Require Import gmap list.
#[local] Open Scope Z_scope.

(** What the turns of a connection leave behind: interfaces always, a pipe when
    the first message to a module could not be written, requests that are not
    for this connection or whose channel could not be created. *)
Definition left_behind (l : list turn) (k : kind) : Prop :=
  k = k_interface \/
  (k = k_pipe /\ exists t b, t ∈ l /\ p_post_connect (Some (b, h_write_fails)) ∈ turn_calls t) \/
  (k = k_request /\ exists t, t ∈ l /\ ((exists b, t_notification t = Some (n_channel false b)) \/ t_notification t = Some n_other)).

(** C21. A connection that logs on at most once and is not switched to another
    session: whatever the peer, the module and the session manager do, every
    step of its thread is defined, and when the thread ends the connector is
    gone and every object it has created (threads, pipes, events, streams,
    collections, the endpoint, the attached segment) has been released exactly
    once. What remains are the interfaces, which nothing frees, the pipe of a
    failed first message, and requests that are dropped. Defined concerns the
    lifetimes of these objects: what a turn of the display and of the channels
    does is an input of this model (they have models of their own). *)
Theorem connection_releases_everything l : (all_posts l <= 1)%nat ->
  (forall t n, t ∈ l -> t_notification t = Some n -> no_switch n) ->
  exists r s, freerds_connection_main_thread l session_start = Some (r, s) /\
    (is_Some r -> conn_connector s = None /\ connectors s = ∅ /\ forall k p, heap s !! p = Some k -> left_behind l k).
Proof.
  intros Hp Hn.
  assert (Forall (turn_ok (left_behind l)) l) as Hok.
  { apply Forall_forall. intros t Ht. split; [intros n; by apply Hn|]. split.
    - intros b Hb. right; left. split; [done|]. by exists t, b.
    - intros Hr. right; right. split; [done|]. by exists t. }
  assert (owns (left_behind l) [] session_start) as O.
  { split; [done|]. split; [constructor|..]; cbn; intros k; intros; try set_solver. by destruct H as [? ?%lookup_empty_Some]. }
  pose proof (main_thread_wp (left_behind l) ltac:(by left) l session_start O) as W. unfold HM_wp in W.
  destruct (freerds_connection_main_thread l session_start) as [[r s]|] eqn:E.
  - exists r, s. split; [done|]. destruct W as [O' Hc]; [|done|].
    { destruct (all_posts l) as [|[|n]]; [by left|by right|lia]. }
    intros Hr. specialize (Hc Hr). split; [done|]. unfold owns in O'. rewrite Hc in O'. destruct O' as [Hcs Hi]. split; [done|].
    intros k p Hk. destruct (inv_rest _ _ _ Hi k p Hk) as [?|?]; [done|set_solver].
  - destruct W; [|done]. destruct (all_posts l) as [|[|n]]; [by left|by right|lia].
Qed.

Definition quiet (calls : list peer_call) (fb : option bool) (n : option notification) : turn :=
  mk_turn false false (Some (calls, true)) None (mk_effect 0 fb false) n.

(** Logon, activation, two framebuffers, logoff. *)
Definition usual_connection : list turn :=
  [quiet [p_post_connect (Some (true, h_connected)); p_activate] None None; quiet [p_input] (Some true) None;
   quiet [p_input] (Some true) None; quiet [] None (Some n_logoff)].

Lemma connection_releases_everything_witness : exists r s,
  freerds_connection_main_thread usual_connection session_start = Some (Some r, s) /\ connectors s = ∅.
Proof.
  destruct (connection_releases_everything usual_connection) as (r & s & E & H).
  - vm_compute. lia.
  - intros t n Ht Hn. unfold usual_connection in Ht. rewrite !elem_of_cons in Ht.
    destruct Ht as [->|[->|[->|[->|Ht]]]]; [discriminate Hn|discriminate Hn|discriminate Hn|injection Hn as <-; exact I|by apply not_elem_of_nil in Ht].
  - destruct r as [r|]; [|vm_compute in E; discriminate E]. exists r, s. split; [exact E|]. apply H. eexists. reflexivity.
Defined.

(** freerds_client_process_switch_session makes the string of the request the
    endpoint of the new connector and then frees it. However a connection goes
    on after such a request (the peer having logged on before), its thread
    cannot end any more without freeing the endpoint a second time. *)
Theorem switch_frees_endpoint_twice s request endpoint h answered r s1 : (endpoint < next_object s)%nat ->
  freerds_client_process_switch_session request endpoint h answered s = Some (r, s1) ->
  forall l local close s2, all_posts l = 0%nat -> connection_loop l local s1 = Some (Some close, s2) -> connection_exit s2 = None.
Proof.
  intros He E l local close s2 Hl Hloop.
  assert (exists p, dangling_at p endpoint s1) as [p Hd] by (by eapply switch_dangling).
  apply (exit_dangling p endpoint). by apply (loop_dangling p endpoint l local s1 Hd Hl (Some close) s2).
Qed.

Definition after (l : list turn) : session :=
  match connection_loop l None session_start with Some (_, s) => s | None => session_start end.

(** A logon, then a switch, then the end of the process. *)
Lemma switch_frees_endpoint_twice_witness :
  let s := after [quiet [p_post_connect (Some (true, h_connected)); p_activate] None None] in
  exists s1 s2, freerds_client_process_switch_session 13 12 h_connected true
      (match (alloc k_string;; alloc k_request) s with Some (_, s') => s' | None => s end) = Some (true, s1) /\
    connection_loop [mk_turn true false None None (mk_effect 0 None false) None] None s1 = Some (Some false, s2) /\ connection_exit s2 = None.
Proof.
  eexists _, _. split; [vm_compute; reflexivity|]. split; [vm_compute; reflexivity|].
  eapply (switch_frees_endpoint_twice
    (match (alloc k_string;; alloc k_request) (after [quiet [p_post_connect (Some (true, h_connected)); p_activate] None None]) with
     | Some (_, s') => s' | None => session_start end) 13 12 h_connected true true _) with (l := [mk_turn true false None None (mk_effect 0 None false) None]) (local := None) (close := false).
  - vm_compute. lia.
  - vm_compute. reflexivity.
  - reflexivity.
  - vm_compute. reflexivity.
Defined.

(** The display resizes the client and the session is switched in the same
    turn; in the next turn the client is activated again. *)
Definition stale_connection : list turn :=
  [quiet [p_post_connect (Some (true, h_connected)); p_activate] None None;
   mk_turn false false None None (mk_effect 0 (Some true) true) (Some (n_switch h_connected true));
   quiet [p_activate] None None].

(** The thread reads connection->connector into its local variable only while
    the client is active. When the display resizes the client and the session
    is switched before the client is active again, the local variable still has
    the old connector, and the turn that activates the client uses it after it
    has been freed. *)
Theorem stale_connector_used :
  (exists s, connection_loop (take 2 stale_connection) None session_start = Some (None, s) /\
    conn_connector s = Some 20%nat /\ connectors s !! 6%nat = None) /\
  connection_loop stale_connection None session_start = None.
Proof. split; [eexists; split; [vm_compute; reflexivity|split; vm_compute; reflexivity]|vm_compute; reflexivity]. Qed.
