(* ===== verification/Clipboard.v ===== *)
(** * The clipboard plugin

    channels/cliprdr/cliprdr_plugin.c: the plugin owns the selection CLIPBOARD of
    the X server for the formats of the RDP client, and offers the client the
    formats of the X application that owns it.  It converts with WinPR's
    clipboard.

    The state is [CLIPRDR_PLUGIN_CONTEXT]; the requests to the X server and the
    messages to the client are listed in [calls].  What the X server returns for
    a query is an argument of the event that makes it.  An atom without a name
    is an error of the X server, which ends the program: [None]. *)

From S2P Require Import Prelude.
From stdpp Require Import list strings.
#[local] Open Scope Z_scope.

(** WinPR's clipboard, which converts between formats. *)
Class WClipboard := {
  wClipboard : Type;
  ClipboardGetFormatId : wClipboard -> string -> Z;  (* 0: not registered *)
  ClipboardGetFormatName : wClipboard -> Z -> option string;
  ClipboardGetFormatIds : wClipboard -> list Z;
  ClipboardSetData : wClipboard -> Z -> option (list Z) -> bool * wClipboard;
  ClipboardGetData : wClipboard -> Z -> option (list Z);
  ClipboardEmpty : wClipboard -> wClipboard;
}.

(** The constants of WinPR, FreeRDP and X. *)
Class ClipConstants := {
  CF_TEXT : Z; CF_DIB : Z; CF_OEMTEXT : Z; CF_UNICODETEXT : Z; CF_MAX : Z;
  CB_RESPONSE_OK : Z; CB_RESPONSE_FAIL : Z; CB_USE_LONG_FORMAT_NAMES : Z;
  XA_ATOM : Z; XA_INTEGER : Z;
}.

(** The atoms of the X server. *)
Class XAtoms := {
  XInternAtom : string -> Z;
  XGetAtomName : Z -> option string;
}.

Class XAtomLaws (X : XAtoms) : Prop := {
  atom_name s : XGetAtomName (XInternAtom s) = Some s;
  atom_positive s : 0 < XInternAtom s;
}.

Record CLIPRDR_FORMAT := mk_format { formatId : Z; formatName : option string }.

(** SelectionNotify and SelectionRequest events. *)
Record XSelectionEvent := mk_selection { xs_requestor : Z; xs_selection : Z; xs_target : Z; xs_property : Z; xs_time : Z }.
Record XSelectionRequestEvent := mk_request { xr_owner : Z; xr_requestor : Z; xr_selection : Z; xr_target : Z; xr_property : Z; xr_time : Z }.

Inductive call :=
| x_send (e : XSelectionEvent)  (* XSendEvent *)
| x_change_property (w property type format : Z) (data : list Z)
| x_convert (selection target property w time : Z)  (* XConvertSelection *)
| x_set_owner (selection w : Z)
| x_delete_property (w property : Z)
| x_select_input (w : Z)  (* XSelectInput *)
| x_select_selection (w selection : Z)  (* XFixesSelectSelectionInput *)
| s_capabilities (generalFlags : Z)
| s_monitor_ready
| s_format_list (l : list CLIPRDR_FORMAT)
| s_format_list_response (flags : Z)
| s_data_request (id : Z)
| s_data_response (flags : Z) (data : list Z).

Section Clipboard.
Context {C : WClipboard} {K : ClipConstants} {X : XAtoms}.

Definition targets_atom : Z := XInternAtom "TARGETS".
Definition timestamp_atom : Z := XInternAtom "TIMESTAMP".
Definition clipboard_atom : Z := XInternAtom "CLIPBOARD".
Definition property_atom : Z := XInternAtom "_FREERDS_CLIPRDR".
Definition identity_atom : Z := XInternAtom "_FREERDS_CLIPRDR_ID".

Definition CurrentTime : Z := 0.

Record CLIPRDR_PLUGIN_CONTEXT := mk_context {
  sync : bool;
  system : wClipboard;
  clientRequestedFormatId : Z;
  clientRequestedFormatAtom : Z;
  serverRequestedFormatId : Z;
  serverRequestedFormatAtom : Z;
  targets : list string;
  clientFormats : list CLIPRDR_FORMAT;
  response : option XSelectionEvent;
  owner : Z;
  window : Z;
  root_window : Z;
  xfixes_supported : bool;
  calls : list call;
}.

Definition set_sync b c := mk_context b (system c) (clientRequestedFormatId c) (clientRequestedFormatAtom c) (serverRequestedFormatId c) (serverRequestedFormatAtom c) (targets c) (clientFormats c) (response c) (owner c) (window c) (root_window c) (xfixes_supported c) (calls c).
Definition set_system w c := mk_context (sync c) w (clientRequestedFormatId c) (clientRequestedFormatAtom c) (serverRequestedFormatId c) (serverRequestedFormatAtom c) (targets c) (clientFormats c) (response c) (owner c) (window c) (root_window c) (xfixes_supported c) (calls c).
Definition set_client_request i a c := mk_context (sync c) (system c) i a (serverRequestedFormatId c) (serverRequestedFormatAtom c) (targets c) (clientFormats c) (response c) (owner c) (window c) (root_window c) (xfixes_supported c) (calls c).
Definition set_server_request i a c := mk_context (sync c) (system c) (clientRequestedFormatId c) (clientRequestedFormatAtom c) i a (targets c) (clientFormats c) (response c) (owner c) (window c) (root_window c) (xfixes_supported c) (calls c).
Definition set_targets l c := mk_context (sync c) (system c) (clientRequestedFormatId c) (clientRequestedFormatAtom c) (serverRequestedFormatId c) (serverRequestedFormatAtom c) l (clientFormats c) (response c) (owner c) (window c) (root_window c) (xfixes_supported c) (calls c).
Definition set_formats l c := mk_context (sync c) (system c) (clientRequestedFormatId c) (clientRequestedFormatAtom c) (serverRequestedFormatId c) (serverRequestedFormatAtom c) (targets c) l (response c) (owner c) (window c) (root_window c) (xfixes_supported c) (calls c).
Definition set_response r c := mk_context (sync c) (system c) (clientRequestedFormatId c) (clientRequestedFormatAtom c) (serverRequestedFormatId c) (serverRequestedFormatAtom c) (targets c) (clientFormats c) r (owner c) (window c) (root_window c) (xfixes_supported c) (calls c).
Definition set_owner o c := mk_context (sync c) (system c) (clientRequestedFormatId c) (clientRequestedFormatAtom c) (serverRequestedFormatId c) (serverRequestedFormatAtom c) (targets c) (clientFormats c) (response c) o (window c) (root_window c) (xfixes_supported c) (calls c).
Definition emit (l : list call) c := mk_context (sync c) (system c) (clientRequestedFormatId c) (clientRequestedFormatAtom c) (serverRequestedFormatId c) (serverRequestedFormatAtom c) (targets c) (clientFormats c) (response c) (owner c) (window c) (root_window c) (xfixes_supported c) (calls c ++ l).

(** [cliprdr_plugin_on_plugin_initialize] with the window and the root window
    that the X server returns ([None]: no display), whether it has the XFixes
    extension, and a variable that is not set.  The selection of the root window
    is selected before [clipboard_atom] is known. *)
Definition cliprdr_plugin_on_plugin_initialize (ClipboardCreate : wClipboard) (display : option (Z * Z)) (xfixes : bool) (id0 : Z) : option CLIPRDR_PLUGIN_CONTEXT :=
  '(w, root) ← display;
  Some (mk_context false ClipboardCreate 0 0 0 0 [] [] None 0 w root xfixes
    ((if xfixes then [x_select_selection root 0] else []) ++
     [x_change_property w identity_atom XA_INTEGER 32 [id0]; x_select_input w; x_select_selection w clipboard_atom])).

(** ** Lists of targets and formats *)

Definition freerds_cliprdr_is_target_in_list (l : list string) (name : string) : bool := existsb (String.eqb name) l.

(** An array of [max] names, of which the first are in use. *)
Definition freerds_cliprdr_add_target_to_list (max : Z) (l : list string) (name : string) : option (list string) :=
  if freerds_cliprdr_is_target_in_list l name then Some l
  else if Z.of_nat (length l) <? max then Some (l ++ [name]) else None.

(** The targets of one format. *)
Definition format_targets (max : Z) (l : list string) (f : CLIPRDR_FORMAT) : option (list string) :=
  if formatId f <? CF_MAX then
    if (formatId f =? CF_TEXT) || (formatId f =? CF_OEMTEXT) || (formatId f =? CF_UNICODETEXT) then freerds_cliprdr_add_target_to_list max l "UTF8_STRING"
    else if formatId f =? CF_DIB then freerds_cliprdr_add_target_to_list max l "image/bmp"
    else Some l
  else
    match formatName f with
    | Some name =>
        l ← freerds_cliprdr_add_target_to_list max l name;
        if String.eqb name "HTML Format" then freerds_cliprdr_add_target_to_list max l "text/html" else Some l
    | None => Some l
    end.

Fixpoint formats_targets (max : Z) (l : list string) (fs : list CLIPRDR_FORMAT) : option (list string) :=
  match fs with [] => Some l | f :: fs => l ← format_targets max l f; formats_targets max l fs end.

Definition freerds_cliprdr_build_target_list (c : CLIPRDR_PLUGIN_CONTEXT) : option CLIPRDR_PLUGIN_CONTEXT :=
  let numTargetsMax := u32 (Z.of_nat (length (clientFormats c)) + 16) in
  l ← freerds_cliprdr_add_target_to_list numTargetsMax [] "TIMESTAMP";
  l ← freerds_cliprdr_add_target_to_list numTargetsMax l "TARGETS";
  l ← formats_targets numTargetsMax l (clientFormats c);
  Some (set_targets l c).

Definition freerds_cliprdr_is_format_in_list (fs : list CLIPRDR_FORMAT) (id : Z) (name : option string) : bool :=
  if negb (id =? 0) then existsb (fun f => id =? formatId f) fs
  else match name with
       | Some name => existsb (fun f => match formatName f with Some n => String.eqb name n | None => false end) fs
       | None => false
       end.

(** The equivalences of the formats of the client. *)
Definition special_format_id (c : CLIPRDR_PLUGIN_CONTEXT) (target : string) : Z :=
  let fs := clientFormats c in
  if String.eqb target "text/html" then
    if freerds_cliprdr_is_format_in_list fs 0 (Some "HTML Format"%string) then ClipboardGetFormatId (system c) "HTML Format" else 0
  else if String.eqb target "image/bmp" then
    if freerds_cliprdr_is_format_in_list fs CF_DIB None then CF_DIB else 0
  else if String.eqb target "UTF8_STRING" then
    if freerds_cliprdr_is_format_in_list fs CF_UNICODETEXT None then CF_UNICODETEXT
    else if freerds_cliprdr_is_format_in_list fs CF_OEMTEXT None then CF_OEMTEXT
    else if freerds_cliprdr_is_format_in_list fs CF_TEXT None then CF_TEXT
    else 0
  else 0.

Definition freerds_cliprdr_map_target_name_to_format_id (c : CLIPRDR_PLUGIN_CONTEXT) (target : string) : Z :=
  if negb (freerds_cliprdr_is_target_in_list (targets c) target) then 0 else
  let direct := if freerds_cliprdr_is_format_in_list (clientFormats c) 0 (Some target) then ClipboardGetFormatId (system c) target else 0 in
  if negb (direct =? 0) then direct else special_format_id c target.

(** The equivalences of the targets of the X application. *)
Definition special_target (c : CLIPRDR_PLUGIN_CONTEXT) (name : string) : option string :=
  let has t := freerds_cliprdr_is_target_in_list (targets c) t in
  if String.eqb name "CF_UNICODETEXT" || String.eqb name "CF_OEMTEXT" || String.eqb name "CF_TEXT" then
    if has "UTF8_STRING"%string then Some "UTF8_STRING"%string
    else if has "STRING"%string then Some "STRING"%string
    else if has "TEXT"%string then Some "TEXT"%string
    else if has "text/plain"%string then Some "text/plain"%string
    else None
  else if String.eqb name "CF_DIB" then
    if has "image/bmp"%string then Some "image/bmp"%string else None
  else if String.eqb name "HTML Format" then
    if has "text/html"%string then Some "text/html"%string else None
  else None.

Definition freerds_cliprdr_map_format_name_to_target_atom (c : CLIPRDR_PLUGIN_CONTEXT) (name : option string) : Z :=
  match name with
  | None => 0
  | Some name =>
      let direct := if freerds_cliprdr_is_target_in_list (targets c) name then XInternAtom name else 0 in
      if negb (direct =? 0) then direct else
      match special_target c name with Some t => XInternAtom t | None => 0 end
  end.

(** ** Messages of the client *)

Definition freerds_cliprdr_client_capabilities (c : CLIPRDR_PLUGIN_CONTEXT) : option CLIPRDR_PLUGIN_CONTEXT := Some (set_sync true c).

Definition freerds_cliprdr_client_format_list (formats : list CLIPRDR_FORMAT) (c : CLIPRDR_PLUGIN_CONTEXT) : option CLIPRDR_PLUGIN_CONTEXT :=
  c ← freerds_cliprdr_build_target_list (emit [s_format_list_response CB_RESPONSE_OK] (set_formats formats c));
  Some (emit [x_set_owner clipboard_atom (window c)] c).

Definition freerds_cliprdr_client_format_list_response (c : CLIPRDR_PLUGIN_CONTEXT) : option CLIPRDR_PLUGIN_CONTEXT := Some c.

Definition freerds_cliprdr_client_format_data_request (id : Z) (c : CLIPRDR_PLUGIN_CONTEXT) : option CLIPRDR_PLUGIN_CONTEXT :=
  let atom := freerds_cliprdr_map_format_name_to_target_atom c (ClipboardGetFormatName (system c) id) in
  let c := set_client_request id atom c in
  if atom =? 0 then Some (emit [s_data_response CB_RESPONSE_FAIL []] c)
  else Some (emit [x_convert clipboard_atom atom property_atom (window c) CurrentTime] c).

(** The pending answer is sent with the data [pDstData].  [pDstData] is only set
    when the data was accepted and the target has a format; otherwise it is an
    uninitialised pointer, which is freed. *)
Definition freerds_cliprdr_client_format_data_response (data : list Z) (c : CLIPRDR_PLUGIN_CONTEXT) : option CLIPRDR_PLUGIN_CONTEXT :=
  target ← XGetAtomName (serverRequestedFormatAtom c);
  let altFormatId := ClipboardGetFormatId (system c) target in
  let '(bSuccess, sys) := ClipboardSetData (system c) (serverRequestedFormatId c) (Some data) in
  let c := set_system sys c in
  if bSuccess && negb (altFormatId =? 0) then
    let pDstData := default [] (ClipboardGetData sys altFormatId) in
    match response c with
    | Some e =>
        Some (set_response None
          (emit ((if xs_property e =? 0 then [] else [x_change_property (xs_requestor e) (xs_property e) (xs_target e) 8 pDstData]) ++ [x_send e]) c))
    | None => Some c
    end
  else None.

(** ** Messages to the client *)

Definition freerds_cliprdr_server_init (c : CLIPRDR_PLUGIN_CONTEXT) : CLIPRDR_PLUGIN_CONTEXT :=
  emit [s_capabilities CB_USE_LONG_FORMAT_NAMES; s_monitor_ready] c.

Definition freerds_cliprdr_send_server_format_list (c : CLIPRDR_PLUGIN_CONTEXT) : CLIPRDR_PLUGIN_CONTEXT :=
  let format id := mk_format id (if CF_MAX <? id then ClipboardGetFormatName (system c) id else None) in
  emit [s_format_list (format <$> ClipboardGetFormatIds (system c))] c.

(** ** Events of the X server *)

(** A property of a window: its type, and items of 8, 16 or 32 bits; 32-bit
    items have 8 bytes in memory. *)
Record x_property := mk_property { p_type : Z; p_format : Z; p_items : list Z }.

Definition item_bytes (p : x_property) : list Z :=
  flat_map (Prelude.le (if p_format p =? 8 then 1%nat else if p_format p =? 16 then 2%nat else 8%nat)) (p_items p).

(** [XGetWindowProperty] with a type: no items when the type is another one. *)
Definition typed_items (t : Z) (p : option x_property) : list Z :=
  match p with Some p => if p_type p =? t then p_items p else [] | None => [] end.

Definition freerds_cliprdr_get_target_list (p : option x_property) : option (list string) := mapM XGetAtomName (take 200 (typed_items XA_ATOM p)).

(** The format that stands for a list of targets. *)
Definition preferred_format (sys : wClipboard) (l : list string) : Z :=
  if freerds_cliprdr_is_target_in_list l "text/html" then ClipboardGetFormatId sys "text/html"
  else if freerds_cliprdr_is_target_in_list l "image/bmp" then ClipboardGetFormatId sys "image/bmp"
  else if freerds_cliprdr_is_target_in_list l "UTF8_STRING" then ClipboardGetFormatId sys "UTF8_STRING"
  else 0.

Definition is_text (target : string) : bool :=
  freerds_cliprdr_is_target_in_list ["UTF8_STRING"; "STRING"; "TEXT"; "text/plain"; "text/html"]%string target.

(** [cur_owner]: the owner of the selection; [p]: the property of the window. *)
Definition selection_targets (cur_owner : Z) (e_property : Z) (p : option x_property) (c : CLIPRDR_PLUGIN_CONTEXT) : option CLIPRDR_PLUGIN_CONTEXT :=
  let c := set_owner cur_owner c in
  if e_property =? 0 then Some c else
  l ← freerds_cliprdr_get_target_list p;
  let id := preferred_format (system c) l in
  let sys := if negb (id =? 0) then snd (ClipboardSetData (system c) id None) else ClipboardEmpty (system c) in
  let c := set_targets l (set_system sys c) in
  Some (if negb (owner c =? window c) then freerds_cliprdr_send_server_format_list c else c).

Definition selection_data (cur_owner : Z) (p : option x_property) (c : CLIPRDR_PLUGIN_CONTEXT) : option CLIPRDR_PLUGIN_CONTEXT :=
  let c := set_owner cur_owner c in
  target ← XGetAtomName (match p with Some p => p_type p | None => 0 end);
  let items := typed_items (clientRequestedFormatAtom c) p in
  let src := match p with Some p => take (length items) (item_bytes p) | None => [] end in
  let id := ClipboardGetFormatId (system c) target in
  let sys := if is_text target then snd (ClipboardSetData (system c) id (Some (src ++ [0])))
             else if negb (id =? 0) then snd (ClipboardSetData (system c) id (Some src))
             else system c in
  let c := set_system sys c in
  if negb (id =? 0) then Some (emit [s_data_response CB_RESPONSE_OK (default [] (ClipboardGetData sys (clientRequestedFormatId c)))] c)
  else Some (emit [s_data_response CB_RESPONSE_FAIL []] c).

Definition freerds_cliprdr_process_selection_notify (e : XSelectionEvent) (cur_owner : Z) (p : option x_property) (c : CLIPRDR_PLUGIN_CONTEXT) : option CLIPRDR_PLUGIN_CONTEXT :=
  if xs_target e =? targets_atom then selection_targets cur_owner (xs_property e) p c else selection_data cur_owner p c.

Definition freerds_cliprdr_get_target_atom_list (l : list string) : list Z := XInternAtom <$> l.

Definition selection_of (e : XSelectionRequestEvent) (property : Z) : XSelectionEvent :=
  mk_selection (xr_requestor e) (xr_selection e) (xr_target e) property (xr_time e).

Definition freerds_cliprdr_process_selection_request (e : XSelectionRequestEvent) (c : CLIPRDR_PLUGIN_CONTEXT) : option CLIPRDR_PLUGIN_CONTEXT :=
  if negb (xr_owner e =? window c) then Some c else
  target ← XGetAtomName (xr_target e);
  if xr_target e =? timestamp_atom then Some (emit [x_send (selection_of e 0)] c)
  else if xr_target e =? targets_atom then
    Some (emit ((if xr_property e =? 0 then [] else [x_change_property (xr_requestor e) (xr_property e) XA_ATOM 32 (freerds_cliprdr_get_target_atom_list (targets c))])
                ++ [x_send (selection_of e (xr_property e))]) c)
  else
    let id := if negb (xr_requestor e =? window c) then freerds_cliprdr_map_target_name_to_format_id c target else 0 in
    if negb (id =? 0)
    then Some (set_response (Some (selection_of e (xr_property e))) (emit [s_data_request id] (set_server_request id (xr_target e) c)))
    else Some (emit [x_send (selection_of e 0)] c).

Definition freerds_cliprdr_process_selection_clear (cur_owner : Z) (c : CLIPRDR_PLUGIN_CONTEXT) : option CLIPRDR_PLUGIN_CONTEXT :=
  let c := set_owner cur_owner c in
  Some (if negb (owner c =? window c) then emit [x_delete_property (root_window c) property_atom] c else c).

Definition freerds_cliprdr_process_property_notify (c : CLIPRDR_PLUGIN_CONTEXT) : option CLIPRDR_PLUGIN_CONTEXT := Some c.

(** The results of the two queries of the owner. *)
Definition freerds_cliprdr_process_xfixes_selection_notify_event (set_owner_notify : bool) (selection new_owner timestamp cur1 cur2 : Z) (c : CLIPRDR_PLUGIN_CONTEXT) : option CLIPRDR_PLUGIN_CONTEXT :=
  if negb set_owner_notify then Some c else
  if negb (selection =? clipboard_atom) then Some c else
  if new_owner =? window c then Some c else
  if cur1 =? window c then Some c else
  Some (emit [x_convert clipboard_atom targets_atom property_atom (window c) timestamp] (set_owner cur2 c)).

Inductive x_event :=
| XFixesSelectionNotify (set_owner_notify : bool) (selection new_owner timestamp cur1 cur2 : Z)
| SelectionNotify (e : XSelectionEvent) (cur_owner : Z) (p : option x_property)
| SelectionRequest (e : XSelectionRequestEvent)
| SelectionClear (cur_owner : Z)
| PropertyNotify
| OtherEvent.

Definition freerds_cliprdr_process_xevent (e : x_event) (c : CLIPRDR_PLUGIN_CONTEXT) : option CLIPRDR_PLUGIN_CONTEXT :=
  match e with
  | XFixesSelectionNotify b sel new t cur1 cur2 =>
      if xfixes_supported c then freerds_cliprdr_process_xfixes_selection_notify_event b sel new t cur1 cur2 c else Some c
  | SelectionNotify e cur p => freerds_cliprdr_process_selection_notify e cur p c
  | SelectionRequest e => freerds_cliprdr_process_selection_request e c
  | SelectionClear cur => freerds_cliprdr_process_selection_clear cur c
  | PropertyNotify => freerds_cliprdr_process_property_notify c
  | OtherEvent => Some c
  end.

Fixpoint freerds_cliprdr_check_x11 (pending : list x_event) (c : CLIPRDR_PLUGIN_CONTEXT) : option CLIPRDR_PLUGIN_CONTEXT :=
  match pending with [] => Some c | e :: pending => c ← freerds_cliprdr_process_xevent e c; freerds_cliprdr_check_x11 pending c end.

(** ** The thread *)

Inductive client_message :=
| m_capabilities
| m_format_list (l : list CLIPRDR_FORMAT)
| m_format_list_response
| m_data_request (id : Z)
| m_data_response (data : list Z).

(** The callbacks that [cliprdr_plugin_on_session_connect] sets. *)
Definition client_message_received (m : client_message) (c : CLIPRDR_PLUGIN_CONTEXT) : option CLIPRDR_PLUGIN_CONTEXT :=
  match m with
  | m_capabilities => freerds_cliprdr_client_capabilities c
  | m_format_list l => freerds_cliprdr_client_format_list l c
  | m_format_list_response => freerds_cliprdr_client_format_list_response c
  | m_data_request id => freerds_cliprdr_client_format_data_request id c
  | m_data_response data => freerds_cliprdr_client_format_data_response data c
  end.

(** One turn of the loop: the messages of the channel, then the pending events
    of the X server. *)
Definition server_thread_turn (messages : list client_message) (events : list x_event) (c : CLIPRDR_PLUGIN_CONTEXT) : option CLIPRDR_PLUGIN_CONTEXT :=
  c ← foldl (fun c m => c ≫= client_message_received m) (Some c) messages;
  freerds_cliprdr_check_x11 events c.
End Clipboard.

(** ** The list of targets *)

Section Targets.
Context {C : WClipboard} {K : ClipConstants} {X : XAtoms}.

Lemma is_target_in_list_spec l name : freerds_cliprdr_is_target_in_list l name = true <-> name ∈ l.
Proof.
  unfold freerds_cliprdr_is_target_in_list. rewrite existsb_exists, list_elem_of_In. split.
  - intros (x & Hx & <-%String.eqb_eq). done.
  - intros H. exists name. split; [done|apply String.eqb_refl].
Qed.

(** The targets that stand for a format of the client. *)
Definition stands_for (f : CLIPRDR_FORMAT) (t : string) : Prop :=
  if formatId f <? CF_MAX then
    if (formatId f =? CF_TEXT) || (formatId f =? CF_OEMTEXT) || (formatId f =? CF_UNICODETEXT) then t = "UTF8_STRING"%string
    else formatId f = CF_DIB /\ t = "image/bmp"%string
  else exists name, formatName f = Some name /\ (t = name \/ name = "HTML Format"%string /\ t = "text/html"%string).

Definition announced (fs : list CLIPRDR_FORMAT) (t : string) : Prop :=
  t = "TIMESTAMP"%string \/ t = "TARGETS"%string \/ exists f, f ∈ fs /\ stands_for f t.

(** The names in use, and one for a target that is still to come. *)
Definition slots (l : list string) : Z := Z.of_nat (length l) + (if freerds_cliprdr_is_target_in_list l "text/html" then 0 else 1).

Lemma add_target_ok max l name : NoDup l -> Z.of_nat (length l) < max -> exists l', freerds_cliprdr_add_target_to_list max l name = Some l' /\ NoDup l' /\
  (forall t, t ∈ l' <-> t ∈ l \/ t = name) /\ slots l' <= slots l + (if String.eqb name "text/html" then 0 else 1).
Proof.
  intros Hl Hm. unfold freerds_cliprdr_add_target_to_list. destruct (freerds_cliprdr_is_target_in_list l name) eqn:E.
  - apply is_target_in_list_spec in E. exists l. split; [done|]. split; [done|]. split; [|destruct (String.eqb _ _); lia].
    intros t. split; [by left|]. by intros [?| ->].
  - rewrite (proj2 (Z.ltb_lt _ _)) by done. assert (name ∉ l) as Hn by (rewrite <- is_target_in_list_spec; by rewrite E).
    exists (l ++ [name]). split; [done|]. split; [apply NoDup_app; split; [done|]; split; [|apply NoDup_singleton]; intros x Hx ->%list_elem_of_singleton; done|].
    split; [intros t; by rewrite elem_of_app, list_elem_of_singleton|]. unfold slots. rewrite length_app. cbn [length].
    assert (freerds_cliprdr_is_target_in_list l "text/html" = true -> freerds_cliprdr_is_target_in_list (l ++ [name]) "text/html" = true) as H1.
    { rewrite !is_target_in_list_spec, elem_of_app. by left. }
    assert (String.eqb name "text/html" = true -> freerds_cliprdr_is_target_in_list l "text/html" = false /\ freerds_cliprdr_is_target_in_list (l ++ [name]) "text/html" = true) as H2.
    { intros ->%String.eqb_eq. split; [done|]. apply is_target_in_list_spec, elem_of_app. right. by apply list_elem_of_singleton. }
    destruct (String.eqb name "text/html"), (freerds_cliprdr_is_target_in_list l "text/html"), (freerds_cliprdr_is_target_in_list (l ++ [name]) "text/html"); try lia; try (destruct H2; done);
      try (specialize (H1 eq_refl); done).
Qed.

Lemma slots_length l : Z.of_nat (length l) <= slots l.
Proof. unfold slots. destruct (freerds_cliprdr_is_target_in_list _ _); lia. Qed.

Lemma format_targets_ok max l f : NoDup l -> slots l + 1 < max -> exists l', format_targets max l f = Some l' /\ NoDup l' /\
  (forall t, t ∈ l' <-> t ∈ l \/ stands_for f t) /\ slots l' <= slots l + 1.
Proof.
  intros Hl Hm. pose proof (slots_length l) as Hs. unfold format_targets, stands_for. destruct (formatId f <? CF_MAX).
  - destruct (_ || _).
    + destruct (add_target_ok max l "UTF8_STRING" Hl ltac:(lia)) as (l' & -> & ? & Ht & ?). exists l'. split; [done|]. split; [done|]. split; [done|].
      cbn in *. lia.
    + destruct (Z.eqb_spec (formatId f) CF_DIB) as [E|E].
      * destruct (add_target_ok max l "image/bmp" Hl ltac:(lia)) as (l' & -> & ? & Ht & ?). exists l'. split; [done|]. split; [done|].
        split; [intros t; rewrite Ht; tauto|]. cbn in *. lia.
      * exists l. split; [done|]. split; [done|]. split; [intros t; tauto|lia].
  - destruct (formatName f) as [name|].
    + destruct (add_target_ok max l name Hl ltac:(lia)) as (l1 & -> & Hl1 & Ht1 & Hs1). cbn [mbind option_bind].
      destruct (String.eqb_spec name "HTML Format") as [->|Hne].
      * cbn in Hs1. pose proof (slots_length l1). destruct (add_target_ok max l1 "text/html" Hl1 ltac:(lia)) as (l2 & -> & Hl2 & Ht2 & Hs2). exists l2.
        split; [done|]. split; [done|]. split; [|cbn in Hs2; lia]. intros t. rewrite Ht2, Ht1. split.
        -- intros [[?| ->]| ->]; [by left|right; eexists; split; [done|by left]|right; eexists; split; [done|by right]].
        -- intros [?|(n & [= <-] & [->|[_ ->]])]; tauto.
      * exists l1. split; [done|]. split; [done|]. split; [|destruct (String.eqb name _); lia]. intros t. rewrite Ht1. split.
        -- intros [?| ->]; [by left|right; eexists; split; [done|by left]].
        -- intros [?|(n & [= <-] & [->|[? _]])]; tauto.
    + exists l. split; [done|]. split; [done|]. split; [|lia]. intros t. split; [by left|]. intros [?|(n & ? & _)]; done.
Qed.

Lemma formats_targets_ok max fs : forall l, NoDup l -> slots l + Z.of_nat (length fs) < max ->
  exists l', formats_targets max l fs = Some l' /\ NoDup l' /\ forall t, t ∈ l' <-> t ∈ l \/ exists f, f ∈ fs /\ stands_for f t.
Proof.
  induction fs as [|f fs IH]; intros l Hl Hm.
  - exists l. split; [done|]. split; [done|]. intros t. split; [by left|]. intros [?|(f & Hf & _)]; [done|by apply not_elem_of_nil in Hf].
  - cbn [length] in Hm. destruct (format_targets_ok max l f Hl ltac:(lia)) as (l1 & E & Hl1 & Ht1 & Hs1). cbn [formats_targets]. rewrite E. cbn [mbind option_bind].
    destruct (IH l1 Hl1 ltac:(lia)) as (l2 & -> & Hl2 & Ht2). exists l2. split; [done|]. split; [done|]. intros t. rewrite Ht2, Ht1. split.
    + intros [[?|?]|(g & Hg & ?)]; [by left|right; exists f; split; [by left|done]|right; exists g; split; [by right|done]].
    + intros [?|(g & [->|Hg]%elem_of_cons & ?)]; [by left; left|by left; right|right; by exists g].
Qed.

(** The array of targets is large enough, and it has the targets that stand for
    the formats, each of them once. *)
Lemma client_format_list_ok fs c : Z.of_nat (length fs) + 16 < 2 ^ 32 -> exists l,
  freerds_cliprdr_client_format_list fs c = Some (emit [s_format_list_response CB_RESPONSE_OK; x_set_owner clipboard_atom (window c)] (set_targets l (set_formats fs c))) /\
  NoDup l /\ forall t, t ∈ l <-> announced fs t.
Proof.
  intros Hn. unfold freerds_cliprdr_client_format_list, freerds_cliprdr_build_target_list. cbn [clientFormats set_formats emit]. rewrite u32_id by (unfold is_u32; lia).
  set (max := Z.of_nat (length fs) + 16) in *.
  destruct (add_target_ok max [] "TIMESTAMP" ltac:(constructor) ltac:(cbn; lia)) as (l1 & -> & H1 & T1 & S1). cbn [mbind option_bind].
  change (slots [] + _) with 2 in S1. pose proof (slots_length l1).
  destruct (add_target_ok max l1 "TARGETS" H1 ltac:(lia)) as (l2 & -> & H2 & T2 & S2). cbn [mbind option_bind]. cbn in S2.
  destruct (formats_targets_ok max fs l2 H2 ltac:(lia)) as (l & -> & Hl & T). cbn [mbind option_bind]. exists l.
  split; [unfold emit; cbn; by rewrite <- app_assoc|]. split; [done|]. intros t. rewrite T, T2, T1. unfold announced. split.
  - intros [[[?%not_elem_of_nil|?]|?]|?]; tauto.
  - tauto.
Qed.
End Targets.

(** *** Text *)

Section Text.
Context {C : WClipboard} {K : ClipConstants} {X : XAtoms}.

Lemma is_format_in_list_id fs id : freerds_cliprdr_is_format_in_list fs id None = true <-> id <> 0 /\ exists f, f ∈ fs /\ formatId f = id.
Proof.
  unfold freerds_cliprdr_is_format_in_list. destruct (Z.eqb_spec id 0) as [->|Hid]; cbn [negb]; [split; [done|intros [? _]; done]|].
  rewrite existsb_exists. split.
  - intros (f & Hf & E%Z.eqb_eq). split; [done|]. exists f. split; [by apply list_elem_of_In|done].
  - intros (_ & f & Hf & <-). exists f. split; [by apply list_elem_of_In|apply Z.eqb_refl].
Qed.

Lemma no_format_named fs name : (forall f, f ∈ fs -> formatName f <> Some name) -> freerds_cliprdr_is_format_in_list fs 0 (Some name) = false.
Proof.
  intros H. apply not_true_is_false. intros (f & Hf & E)%existsb_exists. apply list_elem_of_In, H in Hf. destruct (formatName f) as [n|]; [|done].
  apply String.eqb_eq in E. congruence.
Qed.

Lemma text_stands_for f : formatId f < CF_MAX -> formatId f ∈ [CF_TEXT; CF_OEMTEXT; CF_UNICODETEXT] -> stands_for f "UTF8_STRING".
Proof.
  intros Hm Ht. unfold stands_for. rewrite (proj2 (Z.ltb_lt _ _) Hm). rewrite !elem_of_cons, elem_of_nil in Ht.
  destruct Ht as [->|[->|[->|[]]]]; rewrite Z.eqb_refl, ?orb_true_r; done.
Qed.

(** The request for text is for a text format that the client has. *)
Lemma text_format_id c f : "UTF8_STRING"%string ∈ targets c -> f ∈ clientFormats c -> formatId f ∈ [CF_TEXT; CF_OEMTEXT; CF_UNICODETEXT] ->
  0 ∉ [CF_TEXT; CF_OEMTEXT; CF_UNICODETEXT] -> (forall f, f ∈ clientFormats c -> formatName f <> Some "UTF8_STRING"%string) ->
  exists id, freerds_cliprdr_map_target_name_to_format_id c "UTF8_STRING" = id /\ id ∈ [CF_TEXT; CF_OEMTEXT; CF_UNICODETEXT] /\
    exists f, f ∈ clientFormats c /\ formatId f = id.
Proof.
  intros Hu Hf Ht H0 Hn. eexists. split; [reflexivity|]. unfold freerds_cliprdr_map_target_name_to_format_id.
  rewrite (proj2 (is_target_in_list_spec _ _) Hu), no_format_named by done. cbn [negb Z.eqb]. unfold special_format_id. cbn [String.eqb].
  rewrite !elem_of_cons, elem_of_nil in Ht, H0.
  assert (forall id, id ∈ [CF_TEXT; CF_OEMTEXT; CF_UNICODETEXT] -> freerds_cliprdr_is_format_in_list (clientFormats c) id None = true ->
    id ∈ [CF_TEXT; CF_OEMTEXT; CF_UNICODETEXT] /\ exists f, f ∈ clientFormats c /\ formatId f = id) as Hin by (intros id ? [_ ?]%is_format_in_list_id; done).
  cbn. destruct (freerds_cliprdr_is_format_in_list _ CF_UNICODETEXT None) eqn:E1; [apply Hin; [right; right; by left|done]|].
  destruct (freerds_cliprdr_is_format_in_list _ CF_OEMTEXT None) eqn:E2; [apply Hin; [right; by left|done]|].
  destruct (freerds_cliprdr_is_format_in_list _ CF_TEXT None) eqn:E3; [apply Hin; [by left|done]|]. exfalso.
  rewrite <- not_true_iff_false, is_format_in_list_id in E1, E2, E3.
  destruct Ht as [Ht|[Ht|[Ht|[]]]]; [apply E3|apply E2|apply E1]; (split; [intros E; apply H0; rewrite E; tauto|by exists f]).
Qed.
End Text.

(** ** Runs *)

Section Runs.
Context {C : WClipboard} {K : ClipConstants} {X : XAtoms} {XL : XAtomLaws X}.

Inductive clip_event := ev_message (m : client_message) | ev_x (e : x_event).

Definition clip_step (e : clip_event) (c : CLIPRDR_PLUGIN_CONTEXT) : option CLIPRDR_PLUGIN_CONTEXT :=
  match e with ev_message m => client_message_received m c | ev_x e => freerds_cliprdr_process_xevent e c end.

Fixpoint clip_run (l : list clip_event) (c : CLIPRDR_PLUGIN_CONTEXT) : option CLIPRDR_PLUGIN_CONTEXT :=
  match l with [] => Some c | e :: l => c ← clip_step e c; clip_run l c end.

Lemma client_format_list_calls fs c c' : freerds_cliprdr_client_format_list fs c = Some c' ->
  exists l, c' = emit [s_format_list_response CB_RESPONSE_OK; x_set_owner clipboard_atom (window c)] (set_targets l (set_formats fs c)).
Proof.
  unfold freerds_cliprdr_client_format_list, freerds_cliprdr_build_target_list. destruct (freerds_cliprdr_add_target_to_list _ [] _) as [l1|]; [|done]. cbn [mbind option_bind].
  destruct (freerds_cliprdr_add_target_to_list _ _ _) as [l2|]; [|done]. cbn [mbind option_bind]. destruct (formats_targets _ _ _) as [l3|]; [|done].
  intros [= <-]. exists l3. unfold emit. cbn. by rewrite <- (assoc_L (++)).
Qed.

(** A turn of the thread is a run. *)
Lemma thread_turn_runs messages events c : server_thread_turn messages events c = clip_run ((ev_message <$> messages) ++ (ev_x <$> events)) c.
Proof.
  unfold server_thread_turn. revert c. induction messages as [|m ms IH]; intros c; cbn.
  - revert c. induction events as [|e es IHe]; intros c; [done|]. cbn. destruct (freerds_cliprdr_process_xevent e c); [|done]. apply IHe.
  - destruct (client_message_received m c) as [c'|]; [apply IH|]. cbn. clear IH.
    assert (foldl (fun c m => c ≫= client_message_received m) None ms = None) as -> by (induction ms as [|? ? H]; [done|exact H]). done.
Qed.

(** What an event relies on: the formats fit into memory; atoms have names; the
    data that the client sends can be converted; a property with the data is
    there. *)
Definition event_ok (e : clip_event) (c : CLIPRDR_PLUGIN_CONTEXT) : Prop :=
  match e with
  | ev_message (m_format_list fs) => Z.of_nat (length fs) + 16 < 2 ^ 32
  | ev_message (m_data_response data) => exists t, XGetAtomName (serverRequestedFormatAtom c) = Some t /\
      ClipboardGetFormatId (system c) t <> 0 /\ fst (ClipboardSetData (system c) (serverRequestedFormatId c) (Some data)) = true
  | ev_x (SelectionNotify e _ p) =>
      if xs_target e =? targets_atom then is_Some (freerds_cliprdr_get_target_list p) else exists p', p = Some p' /\ is_Some (XGetAtomName (p_type p'))
  | ev_x (SelectionRequest e) => is_Some (XGetAtomName (xr_target e))
  | _ => True
  end.

Fixpoint run_ok (l : list clip_event) (c : CLIPRDR_PLUGIN_CONTEXT) : Prop :=
  match l with [] => True | e :: l => event_ok e c /\ forall c', clip_step e c = Some c' -> run_ok l c' end.

Lemma clip_step_defined e c : event_ok e c -> is_Some (clip_step e c).
Proof.
  destruct e as [[|fs| |id|data]|[b sel new t c1 c2|e cur p|e|cur| |]]; cbn [clip_step client_message_received freerds_cliprdr_process_xevent event_ok]; try (intros _; by eexists).
  - intros Hn. destruct (client_format_list_ok fs c Hn) as (l & -> & _). by eexists.
  - intros _. unfold freerds_cliprdr_client_format_data_request. destruct (_ =? 0); by eexists.
  - intros (t & Et & Ha & Hs). unfold freerds_cliprdr_client_format_data_response. rewrite Et. cbn [mbind option_bind].
    destruct (ClipboardSetData _ _ _) as [b sys]. cbn in Hs. subst b. cbn [andb]. rewrite (proj2 (Z.eqb_neq _ _)) by done. cbn [negb].
    destruct (response _); by eexists.
  - intros _. unfold freerds_cliprdr_process_xfixes_selection_notify_event. repeat case_match; by eexists.
  - intros H. unfold freerds_cliprdr_process_selection_notify. destruct (_ =? _).
    + destruct H as [l Hl]. unfold selection_targets. rewrite Hl. cbn. destruct (_ =? 0); by eexists.
    + destruct H as (p' & -> & t & Ht). unfold selection_data. rewrite Ht. cbn [mbind option_bind]. repeat case_match; by eexists.
  - intros [t Ht]. unfold freerds_cliprdr_process_selection_request. rewrite Ht. cbn [mbind option_bind]. repeat case_match; by eexists.
Qed.

Lemma clip_run_defined l : forall c, run_ok l c -> is_Some (clip_run l c).
Proof.
  induction l as [|e l IH]; intros c; [by eexists|]. intros [He Hl]. cbn. destruct (clip_step_defined e c He) as [c' E]. rewrite E. cbn. apply IH. by apply Hl.
Qed.

(** *** Selection requests *)

(** Who asks for what, and when. *)
Definition question : Type := Z * Z * Z * Z.
Definition answer_key (e : XSelectionEvent) : question := (xs_requestor e, xs_selection e, xs_target e, xs_time e).
Definition request_key (e : XSelectionRequestEvent) : question := (xr_requestor e, xr_selection e, xr_target e, xr_time e).

Definition answers (l : list call) : list question := omap (fun k => match k with x_send e => Some (answer_key e) | _ => None end) l.
Definition waiting (c : CLIPRDR_PLUGIN_CONTEXT) : list question := match response c with Some e => [answer_key e] | None => [] end.

(** The requests to the window [w]. *)
Definition questions (w : Z) (l : list clip_event) : list question :=
  omap (fun e => match e with ev_x (SelectionRequest r) => if xr_owner r =? w then Some (request_key r) else None | _ => None end) l.

(** A request that needs data of the client while another one waits for it. *)
Definition overlaps (e : clip_event) (c : CLIPRDR_PLUGIN_CONTEXT) : Prop :=
  match e with
  | ev_x (SelectionRequest r) => response c <> None /\ exists c' id, clip_step e c = Some c' /\ s_data_request id ∈ drop (length (calls c)) (calls c')
  | _ => False
  end.

Fixpoint no_overlap (l : list clip_event) (c : CLIPRDR_PLUGIN_CONTEXT) : Prop :=
  match l with [] => True | e :: l => ~ overlaps e c /\ forall c', clip_step e c = Some c' -> no_overlap l c' end.

(** A step that neither asks nor answers. *)
Definition keeps_quiet (c c' : CLIPRDR_PLUGIN_CONTEXT) : Prop :=
  window c' = window c /\ response c' = response c /\ exists l, calls c' = calls c ++ l /\ answers l = [].

Lemma quiet_refl c : keeps_quiet c c.
Proof. split; [done|]. split; [done|]. exists []. by rewrite app_nil_r. Qed.

Ltac quiet := solve [apply quiet_refl | split; [done|]; split; [done|]; (exists []; by rewrite app_nil_r) || by eexists].

Lemma answers_app l1 l2 : answers (l1 ++ l2) = answers l1 ++ answers l2.
Proof. apply omap_app. Qed.

Lemma other_step_quiet e c c' : clip_step e c = Some c' ->
  match e with ev_message (m_data_response _) | ev_x (SelectionRequest _) => True | _ => keeps_quiet c c' end.
Proof.
  destruct e as [[|fs| |id|data]|[b sel new t c1 c2|e cur p|e|cur| |]]; cbn [clip_step client_message_received freerds_cliprdr_process_xevent]; try done.
  - intros [= <-]. quiet.
  - intros (l & ->)%client_format_list_calls. quiet.
  - intros [= <-]. quiet.
  - unfold freerds_cliprdr_client_format_data_request. destruct (_ =? 0); intros [= <-]; quiet.
  - unfold freerds_cliprdr_process_xfixes_selection_notify_event. repeat case_match; intros [= <-]; quiet.
  - unfold freerds_cliprdr_process_selection_notify. destruct (_ =? _).
    + unfold selection_targets. destruct (_ =? 0); [intros [= <-]; quiet|]. destruct (freerds_cliprdr_get_target_list p); [|done]. cbn [mbind option_bind]. intros [= <-].
      destruct (negb _); quiet.
    + unfold selection_data. destruct (XGetAtomName _); [|done]. cbn [mbind option_bind]. destruct (negb _); intros [= <-]; quiet.
  - unfold freerds_cliprdr_process_selection_clear. intros [= <-]. destruct (negb _); quiet.
  - intros [= <-]. quiet.
  - intros [= <-]. quiet.
Qed.

(** An event answers what has been asked for. *)
Definition answering (e : clip_event) (c c' : CLIPRDR_PLUGIN_CONTEXT) : Prop :=
  window c' = window c /\ exists l, calls c' = calls c ++ l /\
    answers l ++ waiting c' ⊆+ waiting c ++ questions (window c) [e] /\
    (~ overlaps e c -> answers l ++ waiting c' ≡ₚ waiting c ++ questions (window c) [e]).

Lemma answering_all e c c' l : window c' = window c -> calls c' = calls c ++ l ->
  answers l ++ waiting c' ≡ₚ waiting c ++ questions (window c) [e] -> answering e c c'.
Proof. intros Hw Hc H. split; [done|]. exists l. split; [done|]. split; [by rewrite H|done]. Qed.

Lemma quiet_answering e c c' : questions (window c) [e] = [] -> keeps_quiet c c' -> answering e c c'.
Proof. intros Hq (Hw & Hr & l & Hc & Ha). apply (answering_all _ _ _ l); [done..|]. unfold waiting. by rewrite Ha, Hr, Hq, app_nil_r. Qed.

Lemma request_step r c c' : clip_step (ev_x (SelectionRequest r)) c = Some c' -> answering (ev_x (SelectionRequest r)) c c'.
Proof.
  intros E. pose proof E as E0. cbn [clip_step freerds_cliprdr_process_xevent] in E. unfold freerds_cliprdr_process_selection_request in E.
  destruct (xr_owner r =? window c) eqn:Ew; cbn [negb] in E.
  2: { injection E as <-. apply quiet_answering; [cbn; by rewrite Ew|apply quiet_refl]. }
  assert (questions (window c) [ev_x (SelectionRequest r)] = [request_key r]) as Eq by (cbn; by rewrite Ew).
  destruct (XGetAtomName _) as [t|]; [|done]. cbn [mbind option_bind] in E.
  assert (forall l p, Some (emit (l ++ [x_send (selection_of r p)]) c) = Some c' -> answers l = [] -> answering (ev_x (SelectionRequest r)) c c') as Hnow.
  { intros l p [= <-] Hl. apply (answering_all _ _ _ (l ++ [x_send (selection_of r p)])); [done..|]. rewrite Eq, answers_app, Hl. cbn. apply Permutation_cons_append. }
  destruct (_ =? timestamp_atom); [by apply (Hnow [] 0)|]. destruct (_ =? targets_atom).
  { eapply Hnow; [exact E|]. by destruct (_ =? 0). }
  set (id := if negb (xr_requestor r =? window c) then _ else 0) in E. destruct (id =? 0); cbn [negb] in E; [by apply (Hnow [] 0)|].
  injection E as <-. split; [done|]. exists [s_data_request id]. split; [done|]. rewrite Eq. cbn. split.
  - apply submseteq_inserts_l. done.
  - intros Hno. unfold waiting. destruct (response c) as [e|] eqn:Er; [|done]. exfalso. apply Hno. split; [congruence|]. eexists _, id. split; [exact E0|].
    cbn. rewrite drop_app_length. by left.
Qed.

Lemma clip_step_answers e c c' : clip_step e c = Some c' -> answering e c c'.
Proof.
  intros E. pose proof (other_step_quiet e c c' E) as Q. destruct e as [[|fs| |id|data]|[b sel new t c1 c2|e cur p|e|cur| |]];
    try (apply quiet_answering; [done|exact Q]); [|by apply request_step].
  cbn [clip_step client_message_received] in E. unfold freerds_cliprdr_client_format_data_response in E. destruct (XGetAtomName _) as [t|]; [|done]. cbn [mbind option_bind] in E.
  destruct (ClipboardSetData _ _ _) as [b sys]. destruct (b && _); [|done]. cbn [response set_system] in E. destruct (response c) as [e|] eqn:Er.
  - injection E as <-. eapply answering_all; [done|reflexivity|]. rewrite answers_app. unfold waiting. cbn [response set_response]. rewrite Er.
    by destruct (xs_property e =? 0).
  - injection E as <-. apply quiet_answering; [done|]. split; [done|]. split; [done|]. exists []. by rewrite app_nil_r.
Qed.

Lemma questions_cons w e l : questions w (e :: l) = questions w [e] ++ questions w l.
Proof. unfold questions. by rewrite <- omap_app. Qed.

(** Over a run every request has an answer or waits, and none has two; without
    overlaps nothing is lost. *)
Lemma clip_run_answers l : forall c c', clip_run l c = Some c' -> window c' = window c /\ exists k, calls c' = calls c ++ k /\
  answers k ++ waiting c' ⊆+ waiting c ++ questions (window c) l /\
  (no_overlap l c -> answers k ++ waiting c' ≡ₚ waiting c ++ questions (window c) l).
Proof.
  induction l as [|e l IH]; intros c c'; cbn [clip_run].
  - intros [= <-]. split; [done|]. exists []. cbn. by rewrite !app_nil_r.
  - destruct (clip_step e c) as [c1|] eqn:E; [|done]. cbn [mbind option_bind]. intros R.
    destruct (clip_step_answers e c c1 E) as (W1 & k1 & K1 & S1 & P1). destruct (IH c1 c' R) as (W2 & k2 & K2 & S2 & P2). rewrite W1 in S2, P2.
    split; [by rewrite W2|]. exists (k1 ++ k2). split; [by rewrite K2, K1, (assoc_L (++))|]. rewrite answers_app, questions_cons, <- (assoc_L (++)). split.
    + etrans; [apply (submseteq_app _ _ _ _ (reflexivity _) S2)|]. rewrite !(assoc_L (++)). by apply submseteq_app.
    + intros [N1 N2]. rewrite (P2 (N2 c1 E)), !(assoc_L (++)). by rewrite (P1 N1).
Qed.

(** *** Data for the client *)

Definition responses (l : list call) : nat := length (omap (fun k => match k with s_data_response _ _ => Some () | _ => None end) l).
Definition conversions (l : list call) : nat :=
  length (omap (fun k => match k with x_convert _ t _ _ _ => if t =? targets_atom then None else Some () | _ => None end) l).

Definition data_requests (l : list clip_event) : nat := length (omap (fun e => match e with ev_message (m_data_request _) => Some () | _ => None end) l).
Definition data_notifications (l : list clip_event) : nat :=
  length (omap (fun e => match e with ev_x (SelectionNotify s _ _) => if xs_target s =? targets_atom then None else Some () | _ => None end) l).

Lemma intern_ne s1 s2 : s1 <> s2 -> XInternAtom s1 <> XInternAtom s2.
Proof. intros H E. apply (f_equal XGetAtomName) in E. rewrite !atom_name in E. congruence. Qed.

Lemma map_format_not_targets c name : name <> Some "TARGETS"%string -> freerds_cliprdr_map_format_name_to_target_atom c name <> targets_atom.
Proof.
  intros Hn. pose proof (atom_positive "TARGETS") as Ht. unfold freerds_cliprdr_map_format_name_to_target_atom, targets_atom. destruct name as [n|]; [|lia].
  assert (n <> "TARGETS"%string) as Hn' by congruence. cbv zeta. case_match.
  - destruct (freerds_cliprdr_is_target_in_list _ _); [by apply intern_ne|lia].
  - unfold special_target. repeat case_match; simplify_eq; try lia; by apply intern_ne.
Qed.

(** A conversion or an answer for every request, an answer for every
    notification. *)
Lemma clip_step_counts e c c' : (forall sys id, ClipboardGetFormatName sys id <> Some "TARGETS"%string) -> clip_step e c = Some c' ->
  exists l, calls c' = calls c ++ l /\ (responses l + conversions l = data_requests [e] + data_notifications [e])%nat.
Proof.
  intros Hn. assert (forall c', calls c' = calls c -> exists l, calls c' = calls c ++ l /\ (responses l + conversions l = 0)%nat) as H0.
  { intros c0 E. exists []. by rewrite app_nil_r. }
  destruct e as [[|fs| |id|data]|[b sel new t c1 c2|e cur p|e|cur| |]]; cbn [clip_step client_message_received freerds_cliprdr_process_xevent].
  - intros [= <-]. by apply H0.
  - intros (l & ->)%client_format_list_calls. by eexists.
  - intros [= <-]. by apply H0.
  - unfold freerds_cliprdr_client_format_data_request. cbv zeta. set (a := freerds_cliprdr_map_format_name_to_target_atom c _). pose proof (map_format_not_targets c _ (Hn (system c) id)) as Ha. fold a in Ha.
    destruct (a =? 0); intros [= <-]; eexists; (split; [reflexivity|]); [done|]. unfold conversions. cbn. by rewrite (proj2 (Z.eqb_neq _ _)).
  - unfold freerds_cliprdr_client_format_data_response. destruct (XGetAtomName _); [|done]. cbn [mbind option_bind]. destruct (ClipboardSetData _ _ _) as [b sys].
    destruct (b && _); [|done]. destruct (response _) as [r|]; intros [= <-]; [|by apply H0].
    eexists. split; [reflexivity|]. by destruct (xs_property r =? 0).
  - destruct (xfixes_supported c); [|intros [= <-]; by apply H0]. unfold freerds_cliprdr_process_xfixes_selection_notify_event.
    repeat case_match; intros [= <-]; try (by apply H0). eexists. split; [reflexivity|]. unfold conversions. cbn. by rewrite Z.eqb_refl.
  - unfold freerds_cliprdr_process_selection_notify, data_notifications. cbn. destruct (_ =? targets_atom).
    + unfold selection_targets. destruct (_ =? 0); [intros [= <-]; by apply H0|]. destruct (freerds_cliprdr_get_target_list p); [|done]. cbn [mbind option_bind].
      intros [= <-]. destruct (negb _); [by eexists|]. exists []. by rewrite app_nil_r.
    + unfold selection_data. destruct (XGetAtomName _); [|done]. cbn [mbind option_bind]. destruct (negb _); intros [= <-]; by eexists.
  - unfold freerds_cliprdr_process_selection_request. destruct (negb (_ =? window c)); [intros [= <-]; by apply H0|]. destruct (XGetAtomName _); [|done]. cbn [mbind option_bind].
    repeat case_match; try discriminate; intros [= <-]; by eexists.
  - unfold freerds_cliprdr_process_selection_clear. intros [= <-]. destruct (negb _); [by eexists|]. exists []. by rewrite app_nil_r.
  - intros [= <-]. by apply H0.
  - intros [= <-]. by apply H0.
Qed.

Lemma clip_run_counts l : (forall sys id, ClipboardGetFormatName sys id <> Some "TARGETS"%string) -> forall c c', clip_run l c = Some c' ->
  exists k, calls c' = calls c ++ k /\ (responses k + conversions k = data_requests l + data_notifications l)%nat.
Proof.
  intros Hn. induction l as [|e l IH]; intros c c'; cbn [clip_run].
  - intros [= <-]. exists []. by rewrite app_nil_r.
  - destruct (clip_step e c) as [c1|] eqn:E; [|done]. cbn [mbind option_bind]. intros R.
    destruct (clip_step_counts e c c1 Hn E) as (k1 & K1 & N1). destruct (IH c1 c' R) as (k2 & K2 & N2). exists (k1 ++ k2).
    split; [by rewrite K2, K1, (assoc_L (++))|]. change (e :: l) with ([e] ++ l).
    unfold responses, conversions, data_requests, data_notifications in *. rewrite !omap_app, !length_app. lia.
Qed.
End Runs.
