(* ===== verification/ClipboardTheorems.v ===== *)
(** * Properties of the clipboard plugin *)

From S2P Require Import Prelude Clipboard.
From stdpp Require Import list strings countable.
#[local] Open Scope Z_scope.

(** ** A concrete clipboard *)

(** The constants of the headers. *)
#[local] Instance header_constants : ClipConstants := {
  CF_TEXT := 1; CF_DIB := 8; CF_OEMTEXT := 7; CF_UNICODETEXT := 13; CF_MAX := 18;
  CB_RESPONSE_OK := 1; CB_RESPONSE_FAIL := 2; CB_USE_LONG_FORMAT_NAMES := 2;
  XA_ATOM := 4; XA_INTEGER := 19;
}.

(** Formats with fixed numbers; the data is the same in all of them. *)
Definition demo_formats : list (string * Z) :=
  [("CF_UNICODETEXT"%string, 13); ("UTF8_STRING"%string, 0xC001); ("HTML Format"%string, 0xC002); ("text/html"%string, 0xC003); ("image/bmp"%string, 0xC004)].

#[local] Instance demo_clipboard : WClipboard := {
  wClipboard := option (Z * list Z);
  ClipboardGetFormatId _ n := default 0 (snd <$> List.find (fun p => String.eqb n (fst p)) demo_formats);
  ClipboardGetFormatName _ id := fst <$> List.find (fun p => id =? snd p) demo_formats;
  ClipboardGetFormatIds s := match s with Some (id, _) => [id; 13] | None => [] end;
  ClipboardSetData s id d := if id =? 0 then (false, s) else (true, Some (id, default [] d));
  ClipboardGetData s _ := snd <$> s;
  ClipboardEmpty _ := None;
}.

#[local] Instance demo_atoms : XAtoms := {
  XInternAtom s := Zpos (encode s);
  XGetAtomName a := match a with Zpos p => decode p | _ => None end;
}.

#[local] Instance demo_atom_laws : XAtomLaws demo_atoms.
Proof. split; intros s; cbn; [apply decode_encode|lia]. Qed.

Lemma demo_not_targets sys id : ClipboardGetFormatName sys id <> Some "TARGETS"%string.
Proof. cbn. repeat destruct (id =? _); discriminate. Qed.

(** ** Targets *)

(** C26. The formats of the client become targets of the X selection: for any list of
    formats the array of targets is large enough, the plugin answers the client,
    becomes the owner of the selection, and announces TIMESTAMP, TARGETS and
    exactly the targets that stand for the formats (UTF8_STRING for text,
    image/bmp for bitmaps, the name of a registered format, and text/html for
    HTML), each of them once. *)
Theorem clipboard_targets {C : WClipboard} {K : ClipConstants} {X : XAtoms} fs c :
  Z.of_nat (length fs) + 16 < 2 ^ 32 ->
  exists c', freerds_cliprdr_client_format_list fs c = Some c' /\ NoDup (targets c') /\ (forall t, t ∈ targets c' <-> announced fs t) /\ clientFormats c' = fs /\
    calls c' = calls c ++ [s_format_list_response CB_RESPONSE_OK; x_set_owner clipboard_atom (window c)].
Proof. intros Hn. destruct (client_format_list_ok fs c Hn) as (l & -> & Hl & Ht). eexists. split; [reflexivity|]. by split. Qed.

Definition demo_context : CLIPRDR_PLUGIN_CONTEXT := mk_context false None 0 0 0 0 [] [] None 0 100 1 true [].
Definition client_formats : list CLIPRDR_FORMAT :=
  [mk_format 13 None; mk_format 1 None; mk_format 0xC100 (Some "HTML Format"%string); mk_format 0xC101 (Some "text/html"%string); mk_format 8 None].

Lemma clipboard_targets_witness : exists c', freerds_cliprdr_client_format_list client_formats demo_context = Some c' /\ "text/html"%string ∈ targets c' /\ "STRING"%string ∉ targets c'.
Proof.
  destruct (clipboard_targets client_formats demo_context) as (c' & E & _ & Ht & _).
  - vm_compute. reflexivity.
  - exists c'. split; [exact E|]. rewrite !Ht. split.
    + right. right. exists (mk_format 0xC101 (Some "text/html"%string)). split; [right; right; right; by left|]. exists "text/html"%string. split; [reflexivity|by left].
    + intros [H|[H|(f & Hf & H)]]; [discriminate H..|]. unfold client_formats in Hf. rewrite !elem_of_cons, elem_of_nil in Hf.
      destruct Hf as [->|[->|[->|[->|[->|[]]]]]]; cbn in H; try discriminate H; try (destruct H; discriminate);
        destruct H as (n & Hn & H); injection Hn as <-; destruct H as [H|[_ H]]; discriminate H.
Defined.

(** ** Requests *)

(** C25. From the start of the plugin, over a sequence
    of messages of the client and events of the X server that meet [event_ok]
    when they are processed, every step is defined. Of the requests for the
    selection that the X server passes to the plugin, each one has been answered
    to the right window with the right target and time, or it waits for data of
    the client, and none has two answers; if no request needs data while another
    one waits, none is lost. Every request of the client for data makes one
    conversion or one answer, and every conversion that the X server reports one
    answer, so that the client gets as many answers as it has made requests when
    all conversions are reported. What [event_ok] asks for, and the code does
    not check: the target of a selection request is an atom with a name; when
    the client sends data, the target that it was asked for has a name and a
    format of the clipboard, and the data is accepted by it; when the X server
    reports a conversion, the property is there and can be read, a list of
    targets as such and data with a type that has a name; a list of formats is
    shorter than 2^32 - 16. Besides, no format of the clipboard is called
    TARGETS. *)
Theorem clipboard_answers_everyone {C : WClipboard} {K : ClipConstants} {X : XAtoms} {XL : XAtomLaws X} sys0 display xfixes id0 c0 l :
  (forall sys id, ClipboardGetFormatName sys id <> Some "TARGETS"%string) ->
  cliprdr_plugin_on_plugin_initialize sys0 display xfixes id0 = Some c0 -> let c := freerds_cliprdr_server_init c0 in run_ok l c ->
  exists c', clip_run l c = Some c' /\
    answers (calls c') ++ waiting c' ⊆+ questions (window c) l /\
    (no_overlap l c -> answers (calls c') ++ waiting c' ≡ₚ questions (window c) l) /\
    (responses (calls c') + conversions (calls c') = data_requests l + data_notifications l)%nat /\
    (conversions (calls c') = data_notifications l -> responses (calls c') = data_requests l).
Proof.
  intros Hn Hi c Hl. destruct display as [[w root]|]; [|done]. injection Hi as <-.
  destruct (clip_run_defined l c Hl) as [c' R]. exists c'. split; [done|]. destruct (clip_run_answers l c c' R) as (_ & k & Ek & S & P).
  destruct (clip_run_counts l Hn c c' R) as (k' & Ek' & N). assert (k' = k) as -> by (rewrite Ek' in Ek; by apply app_inv_head in Ek).
  assert (answers (calls c') = answers k /\ responses (calls c') = responses k /\ conversions (calls c') = conversions k) as (-> & -> & ->).
  { rewrite Ek, answers_app. unfold responses, conversions. rewrite !omap_app. by destruct xfixes. }
  split; [done|]. split; [done|]. split; [done|]. intros E. lia.
Qed.

(** The client offers text, an application pastes it; then another application
    offers text and the client pastes it. *)
Definition clip_new : CLIPRDR_PLUGIN_CONTEXT :=
  mk_context false None 0 0 0 0 [] [] None 0 100 1 true
    [x_select_selection 1 0; x_change_property 100 identity_atom 19 32 [0]; x_select_input 100; x_select_selection 100 clipboard_atom].
Definition clip_started : CLIPRDR_PLUGIN_CONTEXT := freerds_cliprdr_server_init clip_new.
Definition utf8_atom : Z := XInternAtom "UTF8_STRING".
Definition paste_and_copy : list clip_event :=
  [ev_message (m_format_list [mk_format 13 None]);
   ev_x (SelectionRequest (mk_request 100 200 5 targets_atom 6 7));
   ev_x (SelectionRequest (mk_request 100 200 5 utf8_atom 6 8));
   ev_x (SelectionRequest (mk_request 100 300 5 timestamp_atom 6 9));
   ev_message (m_data_response [104; 105]);
   ev_x (XFixesSelectionNotify true clipboard_atom 400 10 400 400);
   ev_x (SelectionNotify (mk_selection 100 5 targets_atom 6 11) 400 (Some (mk_property 4 32 [utf8_atom; timestamp_atom])));
   ev_message (m_data_request 13);
   ev_x (SelectionNotify (mk_selection 100 5 utf8_atom 6 12) 400 (Some (mk_property utf8_atom 8 [111; 107])))].

Lemma clipboard_answers_everyone_witness : exists c', clip_run paste_and_copy clip_started = Some c' /\
  answers (calls c') ++ waiting c' ≡ₚ [(200, 5, targets_atom, 7); (200, 5, utf8_atom, 8); (300, 5, timestamp_atom, 9)] /\
  (conversions (calls c') = 1 -> responses (calls c') = 1)%nat.
Proof.
  destruct (clipboard_answers_everyone (C := demo_clipboard) None (Some (100, 1)) true 0 clip_new paste_and_copy) as (c' & E & _ & H & _ & N).
  - exact demo_not_targets.
  - reflexivity.
  - unfold paste_and_copy. cbn [run_ok].
    repeat (split; [try exact I; try (vm_compute; reflexivity); try (eexists; vm_compute; reflexivity);
                    try (eexists; split; [vm_compute; reflexivity|split; [vm_compute; discriminate|vm_compute; reflexivity]]);
                    try (eexists; split; [reflexivity|eexists; vm_compute; reflexivity])
                   |let c1 := fresh in let E1 := fresh in intros c1 E1; vm_compute in E1; injection E1 as <-]).
    exact I.
  - exists c'. split; [exact E|]. split; [|exact N]. apply H. unfold paste_and_copy. cbn [no_overlap].
    repeat (split; [intros Ho; try exact Ho; destruct Ho as [Hr (c2 & id & Es & Hd)]; try (by apply Hr);
                    vm_compute in Es; injection Es as <-; apply list_elem_of_In in Hd; vm_compute in Hd; intuition discriminate
                   |let c1 := fresh in let E1 := fresh in intros c1 E1; vm_compute in E1; injection E1 as <-]).
    exact I.
Defined.

(** ** Text from the client *)

(** C27. An application pastes text of the client: after the client has offered a text
    format, a request of the X selection for UTF8_STRING asks the client for a
    text format that it has offered, and its data, converted, becomes the
    property that the application has named before it is notified. *)
Theorem clipboard_paste {C : WClipboard} {K : ClipConstants} {X : XAtoms} {XL : XAtomLaws X} fs c f r :
  Z.of_nat (length fs) + 16 < 2 ^ 32 -> f ∈ fs -> formatId f < CF_MAX -> formatId f ∈ [CF_TEXT; CF_OEMTEXT; CF_UNICODETEXT] ->
  0 ∉ [CF_TEXT; CF_OEMTEXT; CF_UNICODETEXT] -> (forall f, f ∈ fs -> formatName f <> Some "UTF8_STRING"%string) ->
  xr_owner r = window c -> xr_requestor r <> window c -> xr_target r = XInternAtom "UTF8_STRING" -> xr_property r <> 0 ->
  exists c1 id c2, freerds_cliprdr_client_format_list fs c = Some c1 /\ freerds_cliprdr_process_selection_request r c1 = Some c2 /\
    calls c2 = calls c1 ++ [s_data_request id] /\ id ∈ [CF_TEXT; CF_OEMTEXT; CF_UNICODETEXT] /\ (exists f, f ∈ fs /\ formatId f = id) /\
    forall data sys u, ClipboardGetFormatId (system c) "UTF8_STRING" <> 0 -> ClipboardSetData (system c) id (Some data) = (true, sys) ->
      ClipboardGetData sys (ClipboardGetFormatId (system c) "UTF8_STRING") = Some u ->
      exists c3, freerds_cliprdr_client_format_data_response data c2 = Some c3 /\ response c3 = None /\
        calls c3 = calls c2 ++ [x_change_property (xr_requestor r) (xr_property r) (xr_target r) 8 u; x_send (selection_of r (xr_property r))].
Proof.
  intros Hn Hf Hmax Htext Hzero Hnames Ho Hr Ht Hp. destruct (client_format_list_ok fs c Hn) as (l & E & _ & Hl).
  set (c1 := emit _ _) in E. exists c1.
  assert ("UTF8_STRING"%string ∈ l) as Hu by (apply Hl; right; right; exists f; split; [done|by apply text_stands_for]).
  destruct (text_format_id c1 f) as (id & Eid & Hid & Hid'); [exact Hu|exact Hf|done|done|exact Hnames|].
  assert (id <> 0) as Hid0 by (intros ->; done). exists id.
  assert (XInternAtom "UTF8_STRING" <> timestamp_atom /\ XInternAtom "UTF8_STRING" <> targets_atom) as [H1 H2] by (split; by apply intern_ne).
  eexists. split; [done|]. split.
  { unfold freerds_cliprdr_process_selection_request. change (window c1) with (window c). rewrite Ho, Z.eqb_refl, Ht, atom_name. cbn [negb mbind option_bind].
    rewrite (proj2 (Z.eqb_neq _ timestamp_atom) H1), (proj2 (Z.eqb_neq _ targets_atom) H2), (proj2 (Z.eqb_neq _ _) Hr). cbn [negb].
    rewrite Eid, (proj2 (Z.eqb_neq _ _) Hid0). reflexivity. }
  split; [done|]. split; [done|]. split; [done|]. intros data sys u Ha Hs Hg. unfold freerds_cliprdr_client_format_data_response. cbn [serverRequestedFormatAtom set_response emit set_server_request].
  rewrite atom_name. cbn [mbind option_bind]. cbn. rewrite Hs. cbn. rewrite (proj2 (Z.eqb_neq _ _) Ha). cbn. rewrite (proj2 (Z.eqb_neq _ _) Hp), Hg.
  eexists. split; [reflexivity|]. split; [done|]. cbn. by rewrite Ht.
Qed.

Lemma clipboard_paste_witness : exists c1 c2 c3 : CLIPRDR_PLUGIN_CONTEXT,
  freerds_cliprdr_client_format_list [mk_format 13 None] clip_started = Some c1 /\
  freerds_cliprdr_process_selection_request (mk_request 100 200 5 utf8_atom 6 8) c1 = Some c2 /\ freerds_cliprdr_client_format_data_response [104; 105] c2 = Some c3 /\
  calls c3 = calls c2 ++ [x_change_property 200 6 utf8_atom 8 [104; 105]; x_send (mk_selection 200 5 utf8_atom 6 8)].
Proof.
  destruct (clipboard_paste [mk_format 13 None] clip_started (mk_format 13 None) (mk_request 100 200 5 utf8_atom 6 8)) as (c1 & id & c2 & E1 & E2 & _ & Hid & _ & H).
  - vm_compute. reflexivity.
  - by left.
  - vm_compute. reflexivity.
  - right. right. by left.
  - rewrite !elem_of_cons, elem_of_nil. vm_compute. intuition discriminate.
  - intros f Hf. apply list_elem_of_singleton in Hf as ->. discriminate.
  - reflexivity.
  - vm_compute. discriminate.
  - reflexivity.
  - vm_compute. discriminate.
  - destruct (H [104; 105] (Some (id, [104; 105])) [104; 105]) as (c3 & E3 & _ & E4).
    + vm_compute. discriminate.
    + rewrite !elem_of_cons, elem_of_nil in Hid. destruct Hid as [->|[->|[->|[]]]]; reflexivity.
    + reflexivity.
    + exists c1, c2, c3. split; [exact E1|]. split; [exact E2|]. split; [exact E3|exact E4].
Defined.

(** ** The number of a registered format *)

(** The client has its own number for a format with a name, but the plugin asks
    for the number that WinPR's clipboard has given to the name. *)
Theorem html_request_has_local_id {C : WClipboard} {K : ClipConstants} {X : XAtoms} {XL : XAtomLaws X} r c :
  "text/html"%string ∈ targets c -> freerds_cliprdr_is_format_in_list (clientFormats c) 0 (Some "text/html"%string) = false ->
  freerds_cliprdr_is_format_in_list (clientFormats c) 0 (Some "HTML Format"%string) = true -> ClipboardGetFormatId (system c) "HTML Format" <> 0 ->
  xr_owner r = window c -> xr_requestor r <> window c -> xr_target r = XInternAtom "text/html" ->
  exists c', freerds_cliprdr_process_selection_request r c = Some c' /\ calls c' = calls c ++ [s_data_request (ClipboardGetFormatId (system c) "HTML Format")].
Proof.
  intros Ht Hn Hh Hid Ho Hr Hx. unfold freerds_cliprdr_process_selection_request. rewrite Ho, Z.eqb_refl, Hx, atom_name. cbn [negb mbind option_bind].
  assert (XInternAtom "text/html" <> timestamp_atom /\ XInternAtom "text/html" <> targets_atom) as [H1 H2] by (split; by apply intern_ne).
  rewrite (proj2 (Z.eqb_neq _ timestamp_atom) H1), (proj2 (Z.eqb_neq _ targets_atom) H2), (proj2 (Z.eqb_neq _ _) Hr). cbn [negb].
  unfold freerds_cliprdr_map_target_name_to_format_id. rewrite (proj2 (is_target_in_list_spec _ _) Ht), Hn. cbn [negb Z.eqb].
  unfold special_format_id. cbn [String.eqb]. rewrite Hh. cbn. rewrite (proj2 (Z.eqb_neq _ _) Hid). by eexists.
Qed.
