(* ===== verification/X11.v ===== *)
(** * The X11 module

    module/X11/service: the X server that runs behind a session.  It draws into
    a shared memory segment, tells the core which segment that is before it
    sends anything else, sends the rectangles that have changed, and turns the
    input of the RDP client into events of the X server.

    - rdpScreen.c, rdpUpdate.c: the framebuffer and the updates;
    - rdpInput.c: pointer and keyboard events.  The static variables of the
      functions are part of [x11]; the events that are passed to the X server
      are listed in [xevents], in order;
    - rdpModes.c, rdpRandr.c: the modes of the output and the change of the
      screen size.  [RRScreenSizeSet] and [RRGetInfo] are functions of the X
      server that call [rdpRRScreenSetSize] and [rdpRRGetInfo] back;
    - rdpUpdate.c: the service: accepting and losing the connection of the core,
      its callbacks, [rdp_check], which the X server calls when it wakes up, and
      the conversion of colors and operations.

    The globals of the module are the remainder [x11] of its backend, the
    service (Transport.v).  The operating system is [segments], the shared
    memory segments that have been created with their sizes, and its answers
    ([shm]: the number [shmget] returns, [shmmin]: the least size of a segment)
    are parameters of each call.  [output] lists what the module does with its
    pipe.  The X server and WinPR are the class [XServer]: their key tables, the
    keyboard map, and the state of the keyboard after a list of events.  The
    flag bits come from FreeRDP's headers ([InputFlags]).  Arithmetic on [int]
    is checked: an overflow is undefined. *)

From stdpp Require Import gmap list.
From S2P Require Import Prelude WStream Message ClientMsg ServerMsg VarMsg SessionMsg WindowMsg MsgTable Pipe Transport Outbound.
#[local] Open Scope Z_scope.

(** The value of an [int] expression. *)
Definition int (z : Z) : option Z := if (- 2 ^ 31 <=? z) && (z <? 2 ^ 31) then Some z else None.

(** Conversion to [char] and to [short]. *)
Definition i8 (z : Z) : Z := (z + 2 ^ 7) mod 2 ^ 8 - 2 ^ 7.
Definition i16 (z : Z) : Z := (z + 2 ^ 15) mod 2 ^ 16 - 2 ^ 15.

(** ** State *)

(** The fields of [g_rdpScreen] that the module uses itself; [pfbMemory] is the
    segment that is attached. *)
Module Screen.
Record rdpScreenInfoRec := mk {
  width : Z; height : Z; depth : Z;
  scanline : Z; bitsPerPixel : Z; bytesPerPixel : Z; sizeInBytes : Z;
  pfbMemory : option Z;
  segmentId : Z;
  fbAttached : Z;
  rdp_bpp : Z; rdp_Bpp_mask : Z;
}.

Definition set_size (w h : Z) (s : rdpScreenInfoRec) : rdpScreenInfoRec :=
  mk w h (depth s) (scanline s) (bitsPerPixel s) (bytesPerPixel s) (sizeInBytes s) (pfbMemory s) (segmentId s) (fbAttached s)
    (rdp_bpp s) (rdp_Bpp_mask s).
Definition set_layout (sc bits bytes size : Z) (s : rdpScreenInfoRec) : rdpScreenInfoRec :=
  mk (width s) (height s) (depth s) sc bits bytes size (pfbMemory s) (segmentId s) (fbAttached s) (rdp_bpp s) (rdp_Bpp_mask s).
Definition set_memory (mem : option Z) (seg : Z) (s : rdpScreenInfoRec) : rdpScreenInfoRec :=
  mk (width s) (height s) (depth s) (scanline s) (bitsPerPixel s) (bytesPerPixel s) (sizeInBytes s) mem seg (fbAttached s)
    (rdp_bpp s) (rdp_Bpp_mask s).
Definition set_attached (a : Z) (s : rdpScreenInfoRec) : rdpScreenInfoRec :=
  mk (width s) (height s) (depth s) (scanline s) (bitsPerPixel s) (bytesPerPixel s) (sizeInBytes s) (pfbMemory s) (segmentId s) a
    (rdp_bpp s) (rdp_Bpp_mask s).
End Screen.

(** The size of a mode and the modes of the output; [modes] has room for 64. *)
Record rdpRandRInfoRec := mk_randr { rr_width : Z; rr_height : Z; modes : list (Z * Z) }.

(** What happens to the pipe of the module. *)
Inductive output := o_accept | o_message (m : MSG msg_body) | o_disconnect.

(** The events of the X server; codes are buttons and keycodes. *)
Inductive xevent :=
| x_motion (x y : Z)
| x_button (press : bool) (button : Z)
| x_key (press : bool) (keycode : Z).

Record x11 := mk_x11 {
  screen : Screen.rdpScreenInfoRec;  (* g_rdpScreen *)
  root_width : Z; root_height : Z;  (* g_pScreen->width, g_pScreen->height *)
  randr : option rdpRandRInfoRec;  (* rdpGetRandRFromScreen(g_pScreen) *)
  g_connected : bool;
  g_active : bool;
  server_pipe : bool;  (* service->hServerPipe != NULL *)
  client_pipe : bool;  (* service->hClientPipe != NULL *)
  g_button_mask : Z;
  g_old_button_mask : Z;
  last_motion : Z * Z;  (* sx and sy of PtrAddMotionEvent *)
  last_key : option bool * Z;  (* last_type and last_scancode of rdpEnqueueKey *)
  segments : gmap Z Z;
  outputs : list output;
  xevents : list xevent;
}.

Definition set_screen (s : Screen.rdpScreenInfoRec) (x : x11) : x11 :=
  mk_x11 s (root_width x) (root_height x) (randr x) (g_connected x) (g_active x) (server_pipe x) (client_pipe x) (g_button_mask x)
    (g_old_button_mask x) (last_motion x) (last_key x) (segments x) (outputs x) (xevents x).
Definition set_root (w h : Z) (x : x11) : x11 :=
  mk_x11 (screen x) w h (randr x) (g_connected x) (g_active x) (server_pipe x) (client_pipe x) (g_button_mask x)
    (g_old_button_mask x) (last_motion x) (last_key x) (segments x) (outputs x) (xevents x).
Definition set_randr (r : option rdpRandRInfoRec) (x : x11) : x11 :=
  mk_x11 (screen x) (root_width x) (root_height x) r (g_connected x) (g_active x) (server_pipe x) (client_pipe x) (g_button_mask x)
    (g_old_button_mask x) (last_motion x) (last_key x) (segments x) (outputs x) (xevents x).
Definition set_connection (connected_ active_ server_ client_ : bool) (x : x11) : x11 :=
  mk_x11 (screen x) (root_width x) (root_height x) (randr x) connected_ active_ server_ client_ (g_button_mask x)
    (g_old_button_mask x) (last_motion x) (last_key x) (segments x) (outputs x) (xevents x).
Definition set_buttons (m old : Z) (x : x11) : x11 :=
  mk_x11 (screen x) (root_width x) (root_height x) (randr x) (g_connected x) (g_active x) (server_pipe x) (client_pipe x) m
    old (last_motion x) (last_key x) (segments x) (outputs x) (xevents x).
Definition set_last (m : Z * Z) (k : option bool * Z) (x : x11) : x11 :=
  mk_x11 (screen x) (root_width x) (root_height x) (randr x) (g_connected x) (g_active x) (server_pipe x) (client_pipe x) (g_button_mask x)
    (g_old_button_mask x) m k (segments x) (outputs x) (xevents x).
Definition set_segments (m : gmap Z Z) (x : x11) : x11 :=
  mk_x11 (screen x) (root_width x) (root_height x) (randr x) (g_connected x) (g_active x) (server_pipe x) (client_pipe x) (g_button_mask x)
    (g_old_button_mask x) (last_motion x) (last_key x) m (outputs x) (xevents x).
Definition add_output (o : output) (x : x11) : x11 :=
  mk_x11 (screen x) (root_width x) (root_height x) (randr x) (g_connected x) (g_active x) (server_pipe x) (client_pipe x) (g_button_mask x)
    (g_old_button_mask x) (last_motion x) (last_key x) (segments x) (outputs x ++ [o]) (xevents x).
Definition add_events (l : list xevent) (x : x11) : x11 :=
  mk_x11 (screen x) (root_width x) (root_height x) (randr x) (g_connected x) (g_active x) (server_pipe x) (client_pipe x) (g_button_mask x)
    (g_old_button_mask x) (last_motion x) (last_key x) (segments x) (outputs x) (xevents x ++ l).

(** ** The arguments of the server *)

(** The globals of rdpMain.c that [set_bpp] sets. *)
Record pixel_format := mk_format { g_bpp : Z; g_Bpp : Z; g_Bpp_mask : Z; g_redBits : Z; g_greenBits : Z; g_blueBits : Z }.

Definition set_bpp (bpp : Z) (f : pixel_format) : Z * pixel_format :=
  if bpp =? 8 then (0, mk_format 8 1 0xff 3 3 2)
  else if bpp =? 15 then (0, mk_format 15 2 0x7FFF 5 5 5)
  else if bpp =? 16 then (0, mk_format 16 2 0xFFFF 5 6 5)
  else if bpp =? 24 then (0, mk_format 24 4 0xFFFFFF 8 8 8)
  else if bpp =? 32 then (0, mk_format 32 4 0xFFFFFF 8 8 8)
  else (1, mk_format bpp (g_Bpp f) (g_Bpp_mask f) (g_redBits f) (g_greenBits f) (g_blueBits f)).

(** An argument with what [sscanf] and [atoi] make of the next one; [None]: it
    is missing, or is not a size. *)
Inductive ddx_argument := arg_geometry (size : option (Z * Z)) | arg_depth (depth : option Z) | arg_uds | arg_other.

Record ddx_globals := mk_globals { g_rdpScreen : Screen.rdpScreenInfoRec; format : pixel_format; g_firstTime : bool }.

(** [None]: [UseMsg] ends the process.  The files of [rdpWriteMonitorConfig]
    are not modelled. *)
Definition ddxProcessArgument (a : ddx_argument) (g : ddx_globals) : option (Z * ddx_globals) :=
  let g := if g_firstTime g
           then mk_globals (Screen.mk 1024 768 24 0 0 0 0 None 0 0 0 0) (snd (set_bpp 24 (format g))) false
           else g in
  match a with
  | arg_geometry None | arg_depth None => None
  | arg_geometry (Some (w, h)) => Some (2, mk_globals (Screen.set_size w h (g_rdpScreen g)) (format g) false)
  | arg_depth (Some d) =>
      let s := g_rdpScreen g in
      let s := Screen.mk (Screen.width s) (Screen.height s) d (Screen.scanline s) (Screen.bitsPerPixel s) (Screen.bytesPerPixel s)
                 (Screen.sizeInBytes s) (Screen.pfbMemory s) (Screen.segmentId s) (Screen.fbAttached s) (Screen.rdp_bpp s) (Screen.rdp_Bpp_mask s) in
      let '(rv, f) := set_bpp d (format g) in
      if negb (rv =? 0) then None else Some (2, mk_globals s f false)
  | arg_uds => Some (2, g)
  | arg_other => Some (0, g)
  end.

(** ** The framebuffer *)

Definition rdpScreenBitsPerPixel (depth : Z) : Z :=
  if depth =? 1 then 1 else if depth <=? 8 then 8 else if depth <=? 16 then 16 else 32.

(** [shm < 0]: the segment cannot be created, [shmat] returns (void* ) -1, which
    is not [NULL], and the memory there is cleared. *)
Definition rdpScreenFrameBufferAlloc (shmmin shm : Z) (x : x11) : option x11 :=
  let s := screen x in
  let bits := rdpScreenBitsPerPixel (Screen.depth s) in
  let bytes := bits / 8 in
  scanline ← int (Screen.width s * bytes);
  scanline ← int (scanline + Z.rem scanline 16);
  size ← int (scanline * Screen.height s);
  let size := if (0 <? shmmin) && (size <? shmmin) then shmmin else size in
  let s := Screen.set_layout scanline bits bytes size s in
  match Screen.pfbMemory s with
  | Some _ => Some (set_screen s x)
  | None =>
      if shm <? 0 then None else
      Some (set_segments (<[shm := size]> (segments x)) (set_screen (Screen.set_memory (Some shm) shm s) x))
  end.

Definition rdpScreenFrameBufferFree (x : x11) : x11 :=
  set_screen (Screen.set_memory None (Screen.segmentId (screen x)) (screen x)) x.

Section Update.
Context {W : WStream} {P : Pipe} {F : WindowOrder}.
Context (common0 : RDS_MSG_COMMON).

Abbreviation service := (rdsBackend x11).

Definition upd (f : x11 -> x11) (bk : service) : service :=
  mk_backend (ServerMode bk) (hClientPipe bk) (OutboundStream bk) (InboundStream bk) (f (app bk)).

(** [freerds_server_outbound_write_message((rdsBackend* ) g_service, &msg)] with
    the status ignored; the fields of the header but the type are those of a
    local variable. *)
Definition write_update (type : Z) (b : msg_body) (bk : service) : option service :=
  let msg := Msg (common (set_type type (Msg common0 tt))) b in
  '(_, bk) ← freerds_server_outbound_write_message bk msg;
  Some (upd (add_output (o_message msg)) bk).

Definition framebuffer_message (flags : Z) (x : x11) : msg_body :=
  let s := screen x in
  mSharedFramebuffer (SharedFramebuffer.mk flags (Screen.width s) (Screen.height s) (Screen.scanline s) (Screen.segmentId s)
    (Screen.depth s) (Screen.bytesPerPixel s)).

Definition rdp_attach_framebuffer (bk : service) : option (Z * service) :=
  let x := app bk in
  if negb (g_active x) then Some (0, bk) else
  if Screen.fbAttached (screen x) =? 0 then
    bk ← write_update RDS_SERVER_SHARED_FRAMEBUFFER (framebuffer_message 1 x) bk;
    Some (0, upd (fun x => set_screen (Screen.set_attached 1 (screen x)) x) bk)
  else Some (0, bk).

Definition rdp_send_update (type : Z) (b : msg_body) (bk : service) : option (Z * service) :=
  if g_connected (app bk) && g_active (app bk) then
    '(_, bk) ← rdp_attach_framebuffer bk;
    bk ← write_update type b bk;
    Some (0, bk)
  else Some (0, bk).

Definition rdp_detach_framebuffer (bk : service) : option (Z * service) :=
  if Screen.fbAttached (screen (app bk)) =? 0 then Some (0, bk) else
  '(_, bk) ← rdp_send_update RDS_SERVER_SHARED_FRAMEBUFFER (framebuffer_message 0 (app bk)) bk;
  Some (0, upd (fun x => set_screen (Screen.set_attached 0 (screen x)) x) bk).

Definition rdp_set_clip (x y width height : Z) (bk : service) : option (Z * service) :=
  rdp_send_update RDS_SERVER_SET_CLIPPING_REGION (mSetClippingRegion (SetClippingRegion.mk 0 x y width height)) bk.

Definition rdp_reset_clip (bk : service) : option (Z * service) :=
  rdp_send_update RDS_SERVER_SET_CLIPPING_REGION (mSetClippingRegion (SetClippingRegion.mk 1 0 0 0 0)) bk.

(** ** Areas *)

(** [x] and [w], and the same statements for [y] and [h]. *)
Definition area_axis (screen_size x w : Z) : option (Z * Z) :=
  let x := if x <? 0 then 0 else x in
  last ← int (screen_size - 1);
  let x := if last <? x then last else x in
  w ← int (w + Z.rem x 16);
  let x := x - Z.rem x 16 in
  w ← int (w + Z.rem w 16);
  Some (x, w).

Definition area_end (screen_size x w : Z) : option Z :=
  right ← int (x + w);
  if screen_size <? right then int (screen_size - x) else Some w.

(** The rectangle that is sent; [None] inside when it is empty. *)
Definition area_rect (s : Screen.rdpScreenInfoRec) (x y w h : Z) : option (option RDS_RECT) :=
  '(x, w) ← area_axis (Screen.width s) x w;
  w ← area_end (Screen.width s) x w;
  '(y, h) ← area_axis (Screen.height s) y h;
  let h := if Screen.height s <? h then Screen.height s else h in
  h ← area_end (Screen.height s) y h;
  area ← int (w * h);
  Some (if area <? 1 then None else Some (mk_rect x y w h)).

(** [framebuffer0] is the uninitialised pointer of the message, [g_Bpp] the
    bytes of a pixel. *)
Definition rdp_send_area_update (g_Bpp : Z) (framebuffer0 : PaintRect.framebuffer_ptr) (x y w h : Z) (bk : service) : option service :=
  r ← area_rect (screen (app bk)) x y w h;
  match r with
  | None => Some bk
  | Some r =>
      _ ← int (rect_width r * rect_height r * g_Bpp);
      '(_, bk) ← rdp_send_update RDS_SERVER_PAINT_RECT
        (mPaintRect (PaintRect.mk (rect_x r) (rect_y r) (rect_width r) (rect_height r) 0 0 None 0
           (u32 (Screen.segmentId (screen (app bk)))) framebuffer0)) bk;
      Some bk
  end.
End Update.

(** ** Input *)

Class InputFlags := {
  PTR_FLAGS_WHEEL : Z; PTR_FLAGS_WHEEL_NEGATIVE : Z; PTR_FLAGS_MOVE : Z; PTR_FLAGS_DOWN : Z;
  PTR_FLAGS_BUTTON1 : Z; PTR_FLAGS_BUTTON2 : Z; PTR_FLAGS_BUTTON3 : Z;
  PTR_XFLAGS_DOWN : Z; PTR_XFLAGS_BUTTON1 : Z; PTR_XFLAGS_BUTTON2 : Z;
  KBD_FLAGS_EXTENDED : Z; KBD_FLAGS_DOWN : Z; KBD_FLAGS_RELEASE : Z;
  KBD_SYNC_SCROLL_LOCK : Z; KBD_SYNC_NUM_LOCK : Z; KBD_SYNC_CAPS_LOCK : Z;
  KBDEXT : Z; LockMask : Z;
}.

(** The names of virtual modifiers that the code looks for. *)
Inductive vmod_name := NumLock | ScrollLock | other_vmod.

Class XServer := {
  GetVirtualKeyCodeFromVirtualScanCode : Z -> Z -> Z;
  GetKeycodeFromVirtualKeyCode : Z -> Z;  (* KEYCODE_TYPE_EVDEV *)
  minKeyCode : Z; maxKeyCode : Z;
  keysyms : Z -> list Z;  (* the row of a keycode in the core map *)
  master : bool;  (* the keyboard has a master device *)
  vmods : list (vmod_name * Z);  (* server->vmods with their names *)
  xkb_state : list xevent -> Z;
}.

(** [flags & f] as a condition. *)
Definition has (flags f : Z) : bool := negb (Z.land flags f =? 0).

Section Input.
Context {I : InputFlags} {X : XServer}.

(** ** The pointer *)

Definition rdpEnqueueMotion (x y : Z) (s : x11) : x11 := add_events [x_motion x y] s.

Definition rdpEnqueueButton (press : bool) (button : Z) (s : x11) : x11 := add_events [x_button press button] s.

Definition PtrAddMotionEvent (x y : Z) (s : x11) : x11 :=
  let '(sx, sy) := last_motion s in
  let s := if negb (sx =? x) || negb (sy =? y) then rdpEnqueueMotion x y s else s in
  set_last (x, y) (last_key s) s.

(** The body of the loop for one [i]. *)
Definition button_turn (buttonMask : Z) (i : nat) (s : x11) : x11 :=
  let bit := Z.shiftl 1 (Z.of_nat i) in
  if has (Z.lxor buttonMask (g_old_button_mask s)) bit
  then rdpEnqueueButton (has buttonMask bit) (Z.of_nat i + 1) s
  else s.

Definition PtrAddButtonEvent (buttonMask : Z) (s : x11) : x11 :=
  let s := fold_left (fun s i => button_turn buttonMask i s) (seq 0 10) s in
  set_buttons (g_button_mask s) buttonMask s.

(** ** Keys *)

(** The part of [rdpEnqueueKey] after the test. *)
Definition enqueue_key (press : bool) (keycode : Z) (s : x11) : x11 :=
  add_events [x_key press keycode] (set_last (last_motion s) (Some press, keycode) s).

(** A key that is pressed again without having been released is released
    first; the inner call takes no such turn. *)
Definition rdpEnqueueKey (press : bool) (keycode : Z) (s : x11) : x11 :=
  let s := if press && bool_decide (last_key s = (Some true, keycode)) then enqueue_key false keycode s else s in
  enqueue_key press keycode s.

Definition KbdAddScancodeEvent (flags scancode keyboardType : Z) (s : x11) : x11 :=
  let press := negb (has flags KBD_FLAGS_RELEASE) in
  let ext := if has flags KBD_FLAGS_EXTENDED then KBDEXT else 0 in
  let vkcode := GetVirtualKeyCodeFromVirtualScanCode (Z.lor scancode ext) keyboardType in
  rdpEnqueueKey press (GetKeycodeFromVirtualKeyCode (Z.lor vkcode ext)) s.

Definition KbdAddVirtualKeyCodeEvent (flags vkcode : Z) (s : x11) : x11 :=
  let ext := if has flags KBD_FLAGS_EXTENDED then KBDEXT else 0 in
  rdpEnqueueKey (has flags KBD_FLAGS_DOWN) (GetKeycodeFromVirtualKeyCode (Z.lor vkcode ext)) s.

(** The loop over the map: the last keycode with the symbol in its row. *)
Definition find_keycode (keySym : Z) : Z :=
  fold_left (fun keycode i => if existsb (Z.eqb keySym) (keysyms i) then i else keycode)
    (seqZ minKeyCode (maxKeyCode - minKeyCode + 1)) 0.

Definition KbdAddUnicodeEvent (flags code : Z) (s : x11) : x11 :=
  let keycode := find_keycode code in
  if keycode =? 0 then s else
  if has flags KBD_FLAGS_RELEASE then rdpEnqueueKey false keycode s
  else rdpEnqueueKey false keycode (rdpEnqueueKey true keycode s).

Definition kbdSyncState (xkb_flags rdp_flags keycode : Z) (s : x11) : x11 :=
  if Bool.eqb (negb (xkb_flags =? 0)) (negb (rdp_flags =? 0)) then s
  else rdpEnqueueKey false keycode (rdpEnqueueKey true keycode s).

(** The loop over the virtual modifiers: [numLock] and [scrollLock], which are
    [char]s and start as -1. *)
Definition find_vmod (name : vmod_name) : Z :=
  fold_left (fun lock '(n, v) => match name, n with
                                 | NumLock, NumLock | ScrollLock, ScrollLock => i8 v
                                 | _, _ => lock
                                 end) vmods (-1).

Definition KbdAddSyncEvent (flags : Z) (s : x11) : x11 :=
  if negb master then s else
  let state := xkb_state (xevents s) in
  let s := kbdSyncState (Z.land state LockMask) (Z.land flags KBD_SYNC_CAPS_LOCK) 66 s in
  let s := kbdSyncState (Z.land state (find_vmod NumLock)) (Z.land flags KBD_SYNC_NUM_LOCK) 77 s in
  kbdSyncState (Z.land state (find_vmod ScrollLock)) (Z.land flags KBD_SYNC_SCROLL_LOCK) 78 s.

(** ** The callbacks of the service *)

(** [x > g_rdpScreen.width - 2] compares as [DWORD]. *)
Definition clamp (size v : Z) : Z := let last := u32 (size - 2) in if last <? v then last else v.

(** [g_button_mask = g_button_mask | m; PtrAddButtonEvent(g_button_mask);] *)
Definition press_button (m : Z) (s : x11) : x11 :=
  let mask := Z.lor (g_button_mask s) m in PtrAddButtonEvent mask (set_buttons mask (g_old_button_mask s) s).

(** [g_button_mask = g_button_mask & (~m); PtrAddButtonEvent(g_button_mask);] *)
Definition release_button (m : Z) (s : x11) : x11 :=
  let mask := Z.land (g_button_mask s) (Z.lnot m) in PtrAddButtonEvent mask (set_buttons mask (g_old_button_mask s) s).

Definition change_button (down : bool) (m : Z) (s : x11) : x11 := if down then press_button m s else release_button m s.

Definition mouse_event (flags x y : Z) (s : x11) : x11 :=
  let x := clamp (Screen.width (screen s)) x in
  let y := clamp (Screen.height (screen s)) y in
  let s := if has flags PTR_FLAGS_MOVE || has flags PTR_FLAGS_DOWN then PtrAddMotionEvent (i32 x) (i32 y) s else s in
  let down := has flags PTR_FLAGS_DOWN in
  if has flags PTR_FLAGS_WHEEL then
    if has flags PTR_FLAGS_WHEEL_NEGATIVE then release_button 16 (press_button 16 s)
    else release_button 8 (press_button 8 s)
  else if has flags PTR_FLAGS_BUTTON1 then change_button down 1 s
  else if has flags PTR_FLAGS_BUTTON2 then change_button down 4 s
  else if has flags PTR_FLAGS_BUTTON3 then change_button down 2 s
  else s.

Definition extended_mouse_event (flags x y : Z) (s : x11) : x11 :=
  let x := clamp (Screen.width (screen s)) x in
  let y := clamp (Screen.height (screen s)) y in
  let s := if has flags PTR_FLAGS_MOVE || has flags PTR_XFLAGS_DOWN then PtrAddMotionEvent (i32 x) (i32 y) s else s in
  let down := has flags PTR_XFLAGS_DOWN in
  if has flags PTR_XFLAGS_BUTTON1 then change_button down (Z.shiftl 1 7) s
  else if has flags PTR_XFLAGS_BUTTON2 then change_button down (Z.shiftl 1 8) s
  else s.
End Input.

(** ** Modes *)

Definition g_StandardSizes : list (Z * Z) :=
  [(8192, 4608); (4096, 2560); (4096, 2160); (3840, 2160); (2560, 1600); (2560, 1440); (2048, 1152); (2048, 1080);
   (1920, 1200); (1920, 1080); (1680, 1050); (1600, 1200); (1600, 900); (1440, 900); (1400, 1050); (1366, 768);
   (1280, 1024); (1280, 960); (1280, 800); (1280, 720); (1152, 864); (1024, 768); (800, 600); (640, 480)].

Definition MAX_SCREEN_SIZE_WIDTH : Z := 1920.
Definition MAX_SCREEN_SIZE_HEIGHT : Z := 1080.

Definition modeCount : nat := 64.

(** The comparison of the sizes; an overflow is undefined. *)
Definition rdpModeInfoCompare (m1 m2 : Z * Z) : option Z :=
  size1 ← int (fst m1 * snd m1);
  size2 ← int (fst m2 * snd m2);
  Some (if size1 <? size2 then -1 else if size2 <? size1 then 1 else 0).

(** The loop: the modes in front of the first smaller one, and the others. *)
Fixpoint mode_position (m : Z * Z) (l : list (Z * Z)) : option (list (Z * Z) * list (Z * Z)) :=
  match l with
  | [] => Some ([], [])
  | m1 :: l' =>
      c ← rdpModeInfoCompare m1 m;
      if c <? 0 then Some ([], l) else
      '(before, after) ← mode_position m l';
      Some (m1 :: before, after)
  end.

(** [set_modes]: whether [RROutputSetModes] succeeds.  The array has room for
    [modeCount] modes and is not grown. *)
Definition rdpModeAdd (set_modes : bool) (width height : Z) (r : rdpRandRInfoRec) : option (Z * rdpRandRInfoRec) :=
  '(before, after) ← mode_position (width, height) (modes r);
  if (length (modes r) <? modeCount)%nat then
    let r := mk_randr (rr_width r) (rr_height r) (before ++ (width, height) :: after) in
    Some (if set_modes then 0 else -1, r)
  else None.

Definition same_size (w h : Z) (m : Z * Z) : bool := (fst m =? w) && (snd m =? h).

(** One more call per unit of fuel. *)
Fixpoint rdpModeSelect (fuel : nat) (set_modes : bool) (width height : Z) (r : rdpRandRInfoRec) : option (Z * rdpRandRInfoRec) :=
  match fuel with
  | O => None
  | S fuel =>
      match List.find (same_size width height) (modes r) with
      | Some (w, h) => Some (0, mk_randr w h (modes r))
      | None =>
          '(status, r) ← rdpModeAdd set_modes width height r;
          if status <? 0 then Some (-1, r) else rdpModeSelect fuel set_modes width height r
      end
  end.

(** The standard sizes that are offered; [shmmax] is the largest segment. *)
Definition offered (shmmax : Z) (m : Z * Z) : bool :=
  (fst m <=? MAX_SCREEN_SIZE_WIDTH) && (snd m <=? MAX_SCREEN_SIZE_HEIGHT) &&
  negb ((0 <? shmmax) && (shmmax <? fst m * snd m * 4)).

Definition rdpProbeModes (fuel : nat) (set_modes : bool) (shmmax : Z) (r : rdpRandRInfoRec) : option rdpRandRInfoRec :=
  let r := mk_randr (rr_width r) (rr_height r) (List.filter (offered shmmax) g_StandardSizes) in
  '(_, r) ← rdpModeSelect fuel set_modes (rr_width r) (rr_height r) r;
  Some r.

(** ** Colors and operations *)

Definition COLOR8 (r g b : Z) : Z := Z.lor (Z.lor (Z.shiftl (Z.shiftr r 5) 0) (Z.shiftl (Z.shiftr g 5) 3)) (Z.shiftl (Z.shiftr b 6) 6).
Definition COLOR15 (r g b : Z) : Z := Z.lor (Z.lor (Z.shiftl (Z.shiftr r 3) 10) (Z.shiftl (Z.shiftr g 3) 5)) (Z.shiftl (Z.shiftr b 3) 0).
Definition COLOR16 (r g b : Z) : Z := Z.lor (Z.lor (Z.shiftl (Z.shiftr r 3) 11) (Z.shiftl (Z.shiftr g 2) 5)) (Z.shiftl (Z.shiftr b 3) 0).
Definition COLOR24 (r g b : Z) : Z := Z.lor (Z.lor (Z.shiftl (Z.shiftr r 0) 0) (Z.shiftl (Z.shiftr g 0) 8)) (Z.shiftl (Z.shiftr b 0) 16).

Definition SPLITCOLOR32 (c : Z) : Z * Z * Z :=
  (Z.land (Z.shiftr c 16) 255, Z.land (Z.shiftr c 8) 255, Z.land c 255).

Definition convert_pixel (s : Screen.rdpScreenInfoRec) (in_pixel : Z) : Z :=
  let '(red, green, blue) := SPLITCOLOR32 in_pixel in
  let bpp := Screen.rdp_bpp s in
  if Screen.depth s =? 24 then
    if (bpp =? 32) || (bpp =? 24) then COLOR24 red green blue
    else if bpp =? 16 then COLOR16 red green blue
    else if bpp =? 15 then COLOR15 red green blue
    else if bpp =? 8 then COLOR8 red green blue
    else 0
  else if Screen.depth s =? bpp then in_pixel
  else 0.

(** [g_Bpp_mask] depends on the depth that the server was started with. *)
Definition rdp_convert_color (g_Bpp_mask : Z) (s : Screen.rdpScreenInfoRec) (color : Z) : Z :=
  Z.land (convert_pixel s (Z.land color g_Bpp_mask)) (Screen.rdp_Bpp_mask s).

Definition g_rdp_opcodes : list Z :=
  [0x00; 0x88; 0x44; 0xcc; 0x22; 0xaa; 0x66; 0xee; 0x11; 0x99; 0x55; 0xdd; 0x33; 0xbb; 0x77; 0xff].

Definition rdp_convert_opcode (opcode : Z) : Z := List.nth (Z.to_nat (Z.land opcode 0xF)) g_rdp_opcodes 0.

(** The values of the constants are in the comments of the code. *)
Definition rdp_dstblt_rop (opcode : Z) : Z :=
  match opcode with
  | 0 => 0x00000042  (* GXclear *)
  | 0xf => 0x00FF0062  (* GXset *)
  | 0x5 => 0x00AA0029  (* GXnoop *)
  | 0xa => 0x00550009  (* GXinvert *)
  | _ => 0
  end.

Section Service.
Context {W : WStream} {P : Pipe} {F : WindowOrder} {I : InputFlags} {X : XServer}.
Context (common0 : RDS_MSG_COMMON).
Abbreviation service := (rdsBackend x11).

(** ** The size of the screen *)

(** What the operating system and the X server answer: the least size of a
    segment, the number of a new one, and whether the modes can be set. *)
Context (shmmin : Z) (shmget : gmap Z Z -> Z) (set_modes : bool).

(** The sizes of the X screen are [short]s. *)
Fixpoint rdpRRScreenSetSize (fuel : nat) (width height : Z) (bk : service) : option (bool * service) :=
  match fuel, randr (app bk) with
  | O, _ => None
  | _, None => Some (false, bk)
  | S fuel, Some r =>
      if (width <? 1) || (height <? 1) then Some (false, bk) else
      '(_, r) ← rdpModeSelect 2 set_modes width height (mk_randr width height (modes r));
      let bk := upd (set_randr (Some r)) bk in
      '(_, bk) ← rdp_detach_framebuffer common0 bk;
      let bk := upd (fun x => set_root (i16 width) (i16 height) (set_screen (Screen.set_size width height (screen x)) x)) bk in
      let bk := match Screen.pfbMemory (screen (app bk)) with Some _ => upd rdpScreenFrameBufferFree bk | None => bk end in
      x ← rdpScreenFrameBufferAlloc shmmin (shmget (segments (app bk))) (app bk);
      let bk := upd (fun _ => x) bk in
      (* RRGetInfo(pScreen, TRUE): rdpRRGetInfo *)
      if negb (root_width (app bk) =? rr_width r) || negb (root_height (app bk) =? rr_height r)
      then '(_, bk) ← rdpRRScreenSetSize fuel (u16 (rr_width r)) (u16 (rr_height r)) bk; Some (true, bk)
      else Some (true, bk)
  end.

Definition RRScreenSizeSet (width height : Z) (bk : service) : option service :=
  '(_, bk) ← rdpRRScreenSetSize 2 (u16 width) (u16 height) bk;
  Some bk.

(** ** Callbacks *)

Definition rds_client_capabilities (bk : service) (m : MSG Capabilities.RDS_MSG_CAPABILITIES) : option (Z * service) :=
  let width := i32 (Capabilities.DesktopWidth (body m)) in
  let height := i32 (Capabilities.DesktopHeight (body m)) in
  bk ← if negb (root_width (app bk) =? width) || negb (root_height (app bk) =? height)
       then RRScreenSizeSet width height bk else Some bk;
  Some (0, upd (fun x => set_connection (g_connected x) true (server_pipe x) (client_pipe x) x) bk).

Definition rds_client_synchronize_keyboard_event (bk : service) (flags : Z) : option (Z * service) :=
  Some (0, upd (KbdAddSyncEvent flags) bk).
Definition rds_client_scancode_keyboard_event (bk : service) (flags code keyboardType : Z) : option (Z * service) :=
  Some (0, upd (KbdAddScancodeEvent flags code keyboardType) bk).
Definition rds_client_virtual_keyboard_event (bk : service) (flags code : Z) : option (Z * service) :=
  Some (0, upd (KbdAddVirtualKeyCodeEvent flags code) bk).
Definition rds_client_unicode_keyboard_event (bk : service) (flags code : Z) : option (Z * service) :=
  Some (0, upd (KbdAddUnicodeEvent flags code) bk).
Definition rds_client_mouse_event (bk : service) (flags x y : Z) : option (Z * service) :=
  Some (0, upd (mouse_event flags x y) bk).
Definition rds_client_extended_mouse_event (bk : service) (flags x y : Z) : option (Z * service) :=
  Some (0, upd (extended_mouse_event flags x y) bk).

(** inbound.c: interfaces without callbacks. *)
Definition freerds_server_inbound_interface_new {A} : rdsClientInterface A :=
  mk_client None None None None None None None None None None None.
Definition freerds_client_inbound_interface_new {A} : rdsServerInterface A :=
  mk_server None None None None None None None None None None None None None None None None None None None None None None None None
    None None.

(** The interface after [rdp_init]. *)
Definition x11_client : rdsClientInterface x11 := {|
  Transport.Capabilities := Some rds_client_capabilities;
  SynchronizeKeyboardEvent := Some rds_client_synchronize_keyboard_event;
  ScancodeKeyboardEvent := Some rds_client_scancode_keyboard_event;
  VirtualKeyboardEvent := Some rds_client_virtual_keyboard_event;
  UnicodeKeyboardEvent := Some rds_client_unicode_keyboard_event;
  MouseEvent := Some rds_client_mouse_event;
  ExtendedMouseEvent := Some rds_client_extended_mouse_event;
  VBlankEvent := VBlankEvent freerds_server_inbound_interface_new;
  client_LogonUser := client_LogonUser freerds_server_inbound_interface_new;
  client_LogoffUser := client_LogoffUser freerds_server_inbound_interface_new;
  SuppressOutput := SuppressOutput freerds_server_inbound_interface_new
|}.

(** [freerds_service_new] with the globals [x]; there is no client yet. *)
Definition freerds_service_new (p : pipe) (x : x11) : service :=
  mk_backend true p (Stream_New (Z.to_nat 8192)) (Stream_New (Z.to_nat 8192)) x.

(** The part of [rdpRRInit] that sets the modes; there is no output yet whose
    modes could be set. *)
Definition rdpRRInit (shmmax : Z) (x : x11) : option x11 :=
  r ← rdpProbeModes 2 true shmmax (mk_randr (root_width x) (root_height x) []);
  Some (set_randr (Some r) x).

(** [p0]: the pipe of the client before there is one; [endpoint]: whether
    [rdp_init] could create the server pipe.  [fbScreenInit] sets the sizes of
    the X screen. *)
Definition rdpScreenInit (shmmax : Z) (p0 : pipe) (endpoint : bool) (g : ddx_globals) : option service :=
  let s := g_rdpScreen g in
  let x := mk_x11 s 0 0 None false false endpoint false 0 0 (0, 0) (None, 0) ∅ [] [] in
  x ← rdpScreenFrameBufferAlloc shmmin (shmget (segments x)) x;
  let bk := freerds_service_new p0 (set_root (i16 (Screen.width s)) (i16 (Screen.height s)) x) in
  x ← rdpRRInit shmmax (app bk);
  Some (upd (fun _ => x) bk).

(** ** The connection *)

(** [created]: a new server pipe could be created; [p]: the pipe of the client,
    when the connection could be accepted. *)
Definition rds_service_accept (created : bool) (p : option pipe) (bk : service) : Z * service :=
  if created then
    let bk := upd (fun x => set_screen (Screen.set_attached 0 (screen x)) (set_connection true (g_active x) true (bool_decide (is_Some p)) x)) bk in
    (0, match p with Some p => set_pipe p (upd (add_output o_accept) bk) | None => bk end)
  else (1, upd (fun x => set_connection (g_connected x) (g_active x) false (client_pipe x) x) bk).

Definition rds_service_disconnect (bk : service) : Z * service :=
  (0, upd (fun x => add_output o_disconnect
        (set_screen (Screen.set_attached 0 (screen x)) (set_connection false false (server_pipe x) false x))) bk).

(** [ready]: the pipe that is waited for is signalled. *)
Definition rdp_check (sl : server_locals) (cl : client_locals) (server : rdsServerInterface x11)
    (ready created : bool) (p : option pipe) (bk : service) : option (Z * service) :=
  if client_pipe (app bk) then
    if ready then
      '(status, bk) ← freerds_transport_receive server x11_client sl cl common0 bk;
      Some (0, if status <? 0 then snd (rds_service_disconnect bk) else bk)
    else Some (0, bk)
  else if ready && server_pipe (app bk) then Some (0, snd (rds_service_accept created p bk))
  else Some (0, bk).
End Service.
