(* ===== verification/X11Facts.v ===== *)
(** * The X11 module: lemmas

    Areas and modes; what input leaves alone, and the button masks as a set of
    pressed buttons ([buttons_rel]); the trace of messages ([views]) and the
    invariant of the module ([x11_ok]), and what keeps it. *)

From stdpp Require Import gmap list.
From S2P Require Import Prelude WStream Message ClientMsg ServerMsg VarMsg SessionMsg WindowMsg MsgTable TableFacts Pipe Transport TransportFacts Queue Delivery Outbound OutboundFacts PipelineFacts EncoderFacts DisplayFacts X11.
#[local] Open Scope Z_scope.

Lemma int_ok z : - 2 ^ 31 <= z < 2 ^ 31 -> int z = Some z.
Proof. intros H. unfold int. destruct (Z.leb_spec (- 2 ^ 31) z); [|lia]. destruct (Z.ltb_spec z (2 ^ 31)); [done|lia]. Qed.

(** Case analysis on the comparisons of the goal. *)
Ltac zcases := repeat match goal with |- context[?a <? ?b] =>
  lazymatch constr:((a, b)) with context[_ <? _] => fail | _ => destruct (Z.ltb_spec a b) end end.

(** ** Areas *)

(** The size of a screen, within the range that [rdpRRInit] sets. *)
Definition screen_size (n : Z) : Prop := 1 <= n <= 16384.

Lemma rem16 x : 0 <= x -> 0 <= Z.rem x 16 < 16.
Proof. intros. apply Z.rem_bound_pos; lia. Qed.

Lemma area_axis_ok n x w : screen_size n -> small_coord x -> small_size w ->
  exists x' w', area_axis n x w = Some (x', w') /\ 0 <= x' < n /\ 0 <= w' < 2 ^ 30 + 64 /\
    forall c, x <= c < x + w -> 0 <= c < n -> x' <= c < x' + w'.
Proof.
  unfold screen_size, small_coord, small_size. intros Hn Hx Hw. unfold area_axis. set (x0 := if x <? 0 then 0 else x).
  rewrite int_ok by lia. cbn [mbind option_bind]. set (x1 := if n - 1 <? x0 then n - 1 else x0).
  assert (0 <= x1 < n /\ x1 <= Z.max x 0) as [H1 H2].
  { unfold x1, x0. zcases; lia. }
  pose proof (rem16 x1 ltac:(lia)). rewrite int_ok by lia. cbn [mbind option_bind].
  pose proof (rem16 (w + Z.rem x1 16) ltac:(lia)). rewrite int_ok by lia. cbn [mbind option_bind].
  assert (Z.rem x1 16 <= x1) by (apply Z.rem_le; lia). do 2 eexists. split; [reflexivity|]. split; [lia|]. split; [lia|].
  intros c Hc Hcn. assert (x1 = Z.max x 0) as E.
  { unfold x1, x0. zcases; lia. }
  lia.
Qed.

Lemma area_end_ok n x w : screen_size n -> 0 <= x < n -> 0 <= w < 2 ^ 30 + 64 ->
  exists w', area_end n x w = Some w' /\ 0 <= w' <= w /\ x + w' <= n /\ forall c, c < n -> c < x + w -> c < x + w'.
Proof.
  unfold screen_size. intros Hn Hx Hw. unfold area_end. rewrite (int_ok (x + w)), (int_ok (n - x)) by lia. cbn [mbind option_bind].
  exists (if n <? x + w then n - x else w). zcases; repeat split; intros; lia.
Qed.

(** The pixel lies in the rectangle. *)
Definition in_area (x y w h cx cy : Z) : Prop := x <= cx < x + w /\ y <= cy < y + h.

(** The rectangle lies on the screen and covers what is visible of the area;
    nothing is sent when nothing is visible. *)
Lemma area_rect_ok s x y w h : screen_size (Screen.width s) -> screen_size (Screen.height s) ->
  small_coord x -> small_coord y -> small_size w -> small_size h ->
  exists r, area_rect s x y w h = Some r /\
    (forall r', r = Some r' -> 0 <= rect_x r' /\ 0 <= rect_y r' /\ 0 < rect_width r' /\ 0 < rect_height r' /\
       rect_x r' + rect_width r' <= Screen.width s /\ rect_y r' + rect_height r' <= Screen.height s) /\
    forall cx cy, in_area x y w h cx cy -> 0 <= cx < Screen.width s -> 0 <= cy < Screen.height s ->
      exists r', r = Some r' /\ in_area (rect_x r') (rect_y r') (rect_width r') (rect_height r') cx cy.
Proof.
  intros Hw Hh Sx Sy Sw Sh. unfold area_rect.
  destruct (area_axis_ok _ x w Hw Sx Sw) as (x1 & w1 & -> & Hx1 & Hw1 & Cx). cbn [mbind option_bind].
  destruct (area_end_ok _ x1 w1 Hw Hx1 Hw1) as (w2 & -> & Hw2 & Hxw & Cw). cbn [mbind option_bind].
  destruct (area_axis_ok _ y h Hh Sy Sh) as (y1 & h1 & -> & Hy1 & Hh1 & Cy). cbn [mbind option_bind].
  unfold screen_size in *. set (h2 := if _ <? h1 then _ else h1).
  assert (0 <= h2 < 2 ^ 30 + 64) as Hh2 by (unfold h2; zcases; lia).
  destruct (area_end_ok _ y1 h2 Hh Hy1 Hh2) as (h3 & -> & Hh3 & Hyh & Ch). cbn [mbind option_bind].
  rewrite int_ok by nia. cbn [mbind option_bind]. eexists. split; [reflexivity|]. split.
  - intros r'. destruct (Z.ltb_spec (w2 * h3) 1); [done|]. intros [= <-]. cbn. assert (w2 <> 0 /\ h3 <> 0) by (split; intros ->; lia). lia.
  - intros cx cy [Ix Iy] Vx Vy. specialize (Cx cx Ix Vx). specialize (Cy cy Iy Vy).
    specialize (Cw cx ltac:(lia) ltac:(lia)).
    assert (cy < y1 + h3) by (apply Ch; [lia|unfold h2; zcases; lia]).
    assert (0 < w2 * h3) by (apply Z.mul_pos_pos; lia). destruct (Z.ltb_spec (w2 * h3) 1); [lia|]. eexists. split; [reflexivity|]. split; cbn; lia.
Qed.

(** ** Modes *)

Definition mode_ok (m : Z * Z) : Prop := screen_size (fst m) /\ screen_size (snd m).

Lemma mode_size m : mode_ok m -> int (fst m * snd m) = Some (fst m * snd m).
Proof. unfold mode_ok, screen_size. intros [? ?]. apply int_ok. nia. Qed.

(** A new mode goes in front of the first smaller one. *)
Lemma mode_position_ok m l : mode_ok m -> Forall mode_ok l ->
  exists before after, mode_position m l = Some (before, after) /\ l = before ++ after /\
    Forall (fun m1 => fst m * snd m <= fst m1 * snd m1) before /\
    match after with [] => True | m1 :: _ => fst m1 * snd m1 < fst m * snd m end.
Proof.
  intros Hm. induction l as [|m1 l IH]; intros Hl; cbn [mode_position]; [by exists [], []|].
  apply List.Forall_cons_iff in Hl as [H1 Hl]. unfold rdpModeInfoCompare. rewrite !mode_size by done. cbn [mbind option_bind].
  destruct (Z.ltb_spec (fst m1 * snd m1) (fst m * snd m)); [by exists [], (m1 :: l)|].
  destruct (IH Hl) as (b & a & -> & -> & Hb & Ha). exists (m1 :: b), a.
  split; [by destruct (Z.ltb_spec (fst m * snd m) (fst m1 * snd m1))|]. repeat split; [by constructor|done].
Qed.

Lemma find_size w h l : match List.find (same_size w h) l with
  | Some m => m = (w, h) /\ (w, h) ∈ l
  | None => (w, h) ∉ l
  end.
Proof.
  destruct (List.find _ l) as [[w1 h1]|] eqn:E.
  - apply List.find_some in E as [Hi [E1 E2]%andb_true_iff]. cbn in *. apply Z.eqb_eq in E1, E2. subst. split; [done|]. by apply list_elem_of_In.
  - intros Hi%list_elem_of_In. apply (List.find_none _ _ E) in Hi. unfold same_size in Hi. cbn in Hi. by rewrite !Z.eqb_refl in Hi.
Qed.

(** The mode of a size is found, or added and then found: two calls. *)
Lemma mode_select_ok b w h l : mode_ok (w, h) -> Forall mode_ok l -> (w, h) ∈ l \/ (length l < modeCount)%nat ->
  exists st l', rdpModeSelect 2 b w h (mk_randr w h l) = Some (st, mk_randr w h l') /\ Forall mode_ok l' /\
    (b = true -> st = 0 /\ (w, h) ∈ l') /\ (length l' <= Nat.max (length l) modeCount)%nat /\ l ⊆ l' /\
    ((w, h) ∈ l -> l' = l).
Proof.
  intros Hm Hl Hroom. cbn [rdpModeSelect modes]. pose proof (find_size w h l) as Hf.
  destruct (List.find _ l) as [m|]; [destruct Hf as [-> Hin]; exists 0, l; repeat split; (done || lia)|].
  destruct Hroom as [?|Hroom]; [done|]. unfold rdpModeAdd. cbn [modes].
  destruct (mode_position_ok (w, h) l Hm Hl) as (before & after & -> & El & _). cbn [mbind option_bind].
  destruct (Nat.ltb_spec (length l) modeCount); [|lia]. cbn [mbind option_bind rr_width rr_height].
  set (l' := before ++ (w, h) :: after). assert ((w, h) ∈ l') as Hin by (unfold l'; set_solver).
  exists (if b then 0 else -1), l'.
  assert (Forall mode_ok l') as Hl'.
  { unfold l'. rewrite El in Hl. apply List.Forall_app in Hl as [? ?]. apply List.Forall_app. split; [done|]. by constructor. }
  assert (length l' = S (length l)) as Hlen by (unfold l'; rewrite El, !length_app; cbn; lia).
  split; [|repeat split; [done|by destruct b|done|lia|rewrite El; intros m; unfold l'; rewrite !elem_of_app, elem_of_cons; tauto|done]].
  destruct b; cbn; [|done]. pose proof (find_size w h l') as Hf'. destruct (List.find _ l') as [m|]; [|done]. by destruct Hf' as [-> _].
Qed.

(** A new mode does not fit a full table. *)
Lemma mode_full fuel b w h r : mode_ok (w, h) -> Forall mode_ok (modes r) -> (w, h) ∉ modes r -> (modeCount <= length (modes r))%nat ->
  rdpModeSelect fuel b w h r = None.
Proof.
  intros Hm Hl Hn Hfull. destruct fuel as [|fuel]; [done|]. cbn [rdpModeSelect]. pose proof (find_size w h (modes r)) as Hf.
  destruct (List.find _ _) as [m|]; [by destruct Hf|]. unfold rdpModeAdd.
  destruct (mode_position_ok (w, h) (modes r) Hm Hl) as (before & after & -> & _). cbn [mbind option_bind].
  by destruct (Nat.ltb_spec (length (modes r)) modeCount); [lia|].
Qed.

(** ** What input leaves alone *)

Definition same_display (x x' : x11) : Prop :=
  screen x' = screen x /\ root_width x' = root_width x /\ root_height x' = root_height x /\ randr x' = randr x /\
  g_connected x' = g_connected x /\ g_active x' = g_active x /\ server_pipe x' = server_pipe x /\ client_pipe x' = client_pipe x /\
  segments x' = segments x /\ outputs x' = outputs x.

Lemma same_refl x : same_display x x.
Proof. by repeat split. Qed.

Lemma same_trans x1 x2 x3 : same_display x1 x2 -> same_display x2 x3 -> same_display x1 x3.
Proof. unfold same_display. intros (?&?&?&?&?&?&?&?&?&?) (?&?&?&?&?&?&?&?&?&?). split_and!; congruence. Qed.

Lemma same_events l x : same_display x (add_events l x).
Proof. by repeat split. Qed.
Lemma same_buttons m old x : same_display x (set_buttons m old x).
Proof. by repeat split. Qed.
Lemma same_last m k x : same_display x (set_last m k x).
Proof. by repeat split. Qed.

Create HintDb x11_same.
#[export] Hint Resolve same_refl same_events same_buttons same_last : x11_same.

Section Input.
Context {I : InputFlags} {X : XServer}.

Lemma same_motion x y s : same_display s (PtrAddMotionEvent x y s).
Proof.
  unfold PtrAddMotionEvent. destruct (last_motion s) as [sx sy]. eapply same_trans; [|apply same_last].
  destruct (_ || _); [apply same_events|apply same_refl].
Qed.

(** ** Buttons *)

Lemma has_bit z (i : nat) : has z (Z.shiftl 1 (Z.of_nat i)) = Z.testbit z (Z.of_nat i).
Proof.
  unfold has. rewrite Z.shiftl_1_l.
  assert (Z.land z (2 ^ Z.of_nat i) = if Z.testbit z (Z.of_nat i) then 2 ^ Z.of_nat i else 0) as ->.
  { apply Z.bits_inj'. intros n Hn. rewrite Z.land_spec, Z.pow2_bits_eqb by lia. destruct (Z.eqb_spec (Z.of_nat i) n) as [<-|Hne].
    - rewrite andb_true_r. destruct (Z.testbit z (Z.of_nat i)); [by rewrite Z.pow2_bits_true by lia|by rewrite Z.bits_0].
    - rewrite andb_false_r. destruct (Z.testbit z (Z.of_nat i)); [by rewrite Z.pow2_bits_false by lia|by rewrite Z.bits_0]. }
  destruct (Z.testbit z (Z.of_nat i)); [|done]. assert (0 < 2 ^ Z.of_nat i) by (apply Z.pow_pos_nonneg; lia).
  by rewrite (proj2 (Z.eqb_neq _ _)) by lia.
Qed.

(** The events for the bits in which the masks differ. *)
Definition mask_events (mask old : Z) : list xevent :=
  flat_map (fun i => if Z.testbit (Z.lxor mask old) (Z.of_nat i) then [x_button (Z.testbit mask (Z.of_nat i)) (Z.of_nat i + 1)] else []) (seq 0 10).

Lemma button_event_spec mask s : PtrAddButtonEvent mask s = set_buttons (g_button_mask s) mask (add_events (mask_events mask (g_old_button_mask s)) s).
Proof.
  unfold PtrAddButtonEvent, mask_events.
  assert (forall l s, fold_left (fun s i => button_turn mask i s) l s =
    add_events (flat_map (fun i => if Z.testbit (Z.lxor mask (g_old_button_mask s)) (Z.of_nat i)
      then [x_button (Z.testbit mask (Z.of_nat i)) (Z.of_nat i + 1)] else []) l) s) as ->; [|by destruct s].
  clear s. induction l as [|i l IH]; intros s; cbn [fold_left flat_map].
  { destruct s. unfold add_events. cbn. by rewrite app_nil_r. }
  rewrite IH. unfold button_turn. rewrite !has_bit. destruct (Z.testbit (Z.lxor mask (g_old_button_mask s)) (Z.of_nat i)); [|done].
  unfold rdpEnqueueButton, add_events. cbn. by rewrite <-app_assoc.
Qed.

Lemma same_button mask s : same_display s (PtrAddButtonEvent mask s).
Proof. rewrite button_event_spec. eapply same_trans; [apply same_events|apply same_buttons]. Qed.

Lemma flat_map_one {A} (k : nat) (f : nat -> list A) : (k < 10)%nat -> flat_map (fun i => if (i =? k)%nat then f i else []) (seq 0 10) = f k.
Proof. intros Hk. do 10 (destruct k as [|k]; [cbn; by rewrite ?app_nil_r|]). lia. Qed.

(** Setting and clearing bit [k] of a mask. *)
Lemma set_bit_events mask (k : nat) : (k < 10)%nat ->
  mask_events (Z.lor mask (2 ^ Z.of_nat k)) mask = if Z.testbit mask (Z.of_nat k) then [] else [x_button true (Z.of_nat k + 1)].
Proof.
  intros Hk. unfold mask_events. rewrite <-(flat_map_one k (fun i => if Z.testbit mask (Z.of_nat i) then [] else [x_button true (Z.of_nat i + 1)]) Hk).
  apply List.flat_map_ext. intros i. rewrite Z.lxor_spec, Z.lor_spec, Z.pow2_bits_eqb by lia.
  destruct (Nat.eqb_spec i k) as [->|Hne].
  - rewrite Z.eqb_refl, orb_true_r. by destruct (Z.testbit mask (Z.of_nat k)).
  - rewrite (proj2 (Z.eqb_neq (Z.of_nat k) (Z.of_nat i))) by lia. rewrite orb_false_r, xorb_nilpotent. done.
Qed.

Lemma clear_bit_events mask (k : nat) : (k < 10)%nat ->
  mask_events (Z.land mask (Z.lnot (2 ^ Z.of_nat k))) mask = if Z.testbit mask (Z.of_nat k) then [x_button false (Z.of_nat k + 1)] else [].
Proof.
  intros Hk. unfold mask_events. rewrite <-(flat_map_one k (fun i => if Z.testbit mask (Z.of_nat i) then [x_button false (Z.of_nat i + 1)] else []) Hk).
  apply List.flat_map_ext. intros i. rewrite Z.lxor_spec, Z.land_spec, Z.lnot_spec, Z.pow2_bits_eqb by lia.
  destruct (Nat.eqb_spec i k) as [->|Hne].
  - rewrite Z.eqb_refl, andb_false_r. by destruct (Z.testbit mask (Z.of_nat k)).
  - rewrite (proj2 (Z.eqb_neq (Z.of_nat k) (Z.of_nat i))) by lia. rewrite andb_true_r, xorb_nilpotent. done.
Qed.

(** The buttons of a pointer device as a set: pressing a pressed button and
    releasing a released one are no events. *)
Inductive button_act := b_press (n : Z) | b_release (n : Z).

Definition button_step (a : button_act) (B : gset Z) : gset Z :=
  match a with b_press n => {[n]} ∪ B | b_release n => B ∖ {[n]} end.

Definition button_out (a : button_act) (B : gset Z) : list xevent :=
  match a with
  | b_press n => if decide (n ∈ B) then [] else [x_button true n]
  | b_release n => if decide (n ∈ B) then [x_button false n] else []
  end.

Fixpoint buttons_run (l : list button_act) (B : gset Z) : list xevent * gset Z :=
  match l with
  | [] => ([], B)
  | a :: l => let '(out, B') := buttons_run l (button_step a B) in (button_out a B ++ out, B')
  end.

Lemma buttons_run_app l1 l2 B :
  buttons_run (l1 ++ l2) B = ((buttons_run l1 B).1 ++ (buttons_run l2 (buttons_run l1 B).2).1, (buttons_run l2 (buttons_run l1 B).2).2).
Proof.
  revert B. induction l1 as [|a l1 IH]; intros B; cbn [List.app buttons_run fst snd]; [by destruct (buttons_run l2 B)|]. rewrite IH.
  destruct (buttons_run l1 (button_step a B)) as [o1 B1]. cbn. by rewrite app_assoc.
Qed.

(** The masks agree and have the bits of the pressed buttons. *)
Definition buttons_rel (s : x11) (B : gset Z) : Prop :=
  g_old_button_mask s = g_button_mask s /\
  forall n, n ∈ B <-> exists k : nat, (k < 10)%nat /\ n = Z.of_nat k + 1 /\ Z.testbit (g_button_mask s) (Z.of_nat k) = true.

Lemma rel_bit s B (k : nat) : buttons_rel s B -> (k < 10)%nat -> Z.testbit (g_button_mask s) (Z.of_nat k) = bool_decide (Z.of_nat k + 1 ∈ B).
Proof.
  intros [_ H] Hk. apply eq_bool_prop_intro. rewrite bool_decide_spec, Is_true_true, H. split.
  - intros E. by exists k.
  - intros (k' & _ & E & Hb). by assert (k' = k) as -> by lia.
Qed.

Lemma press_rel (k : nat) s B : buttons_rel s B -> (k < 10)%nat ->
  buttons_rel (press_button (2 ^ Z.of_nat k) s) (button_step (b_press (Z.of_nat k + 1)) B) /\
  xevents (press_button (2 ^ Z.of_nat k) s) = xevents s ++ button_out (b_press (Z.of_nat k + 1)) B.
Proof.
  intros R Hk. pose proof (rel_bit s B k R Hk) as Hb. destruct R as [E H]. unfold press_button. rewrite button_event_spec. cbv zeta. cbn [g_button_mask g_old_button_mask set_buttons add_events xevents button_step button_out].
  rewrite E, set_bit_events, Hb by done. unfold buttons_rel. cbn [g_button_mask g_old_button_mask set_buttons add_events xevents]. split; [split; [done|]|].
  - intros n. rewrite elem_of_union, elem_of_singleton, H. split.
    + intros [->|(k' & ? & ? & ?)]; [exists k|exists k']; (split; [done|]; split; [done|]).
      * rewrite Z.lor_spec, Z.pow2_bits_true by lia. apply orb_true_r.
      * rewrite Z.lor_spec. apply orb_true_iff. by left.
    + intros (k' & Hk' & En & Hb'). rewrite Z.lor_spec, Z.pow2_bits_eqb in Hb' by lia. apply orb_true_iff in Hb' as [Hb'|Hb'%Z.eqb_eq].
      * right. by exists k'.
      * left. lia.
  - by destruct (decide (Z.of_nat k + 1 ∈ B)); [rewrite bool_decide_true|rewrite bool_decide_false].
Qed.

Lemma release_rel (k : nat) s B : buttons_rel s B -> (k < 10)%nat ->
  buttons_rel (release_button (2 ^ Z.of_nat k) s) (button_step (b_release (Z.of_nat k + 1)) B) /\
  xevents (release_button (2 ^ Z.of_nat k) s) = xevents s ++ button_out (b_release (Z.of_nat k + 1)) B.
Proof.
  intros R Hk. pose proof (rel_bit s B k R Hk) as Hb. destruct R as [E H]. unfold release_button. rewrite button_event_spec. cbv zeta. cbn [g_button_mask g_old_button_mask set_buttons add_events xevents button_step button_out].
  rewrite E, clear_bit_events, Hb by done. unfold buttons_rel. cbn [g_button_mask g_old_button_mask set_buttons add_events xevents]. split; [split; [done|]|].
  - intros n. rewrite elem_of_difference, elem_of_singleton, H. split.
    + intros [(k' & ? & -> & Hb') Hne]. exists k'. split; [done|]. split; [done|].
      rewrite Z.land_spec, Z.lnot_spec, Z.pow2_bits_eqb, Hb', (proj2 (Z.eqb_neq _ _)) by lia. done.
    + intros (k' & Hk' & En & Hb'). rewrite Z.land_spec, Z.lnot_spec, Z.pow2_bits_eqb in Hb' by lia.
      apply andb_true_iff in Hb' as [Hb' Hn]. apply negb_true_iff, Z.eqb_neq in Hn. split; [by exists k'|lia].
  - by destruct (decide (Z.of_nat k + 1 ∈ B)); [rewrite bool_decide_true|rewrite bool_decide_false].
Qed.

(** The events of the pointer that a client sends. *)
Inductive pointer_event := pe_mouse (flags x y : Z) | pe_extended (flags x y : Z).

Definition pointer_step (s : x11) (e : pointer_event) : x11 :=
  match e with pe_mouse f x y => mouse_event f x y s | pe_extended f x y => extended_mouse_event f x y s end.

Definition up_down (down : bool) (n : Z) : button_act := if down then b_press n else b_release n.

(** What an event says about the buttons: X numbers them left 1, middle 2,
    right 3, wheel 4 and 5, extra buttons 8 and 9. *)
Definition event_buttons (e : pointer_event) : list button_act :=
  match e with
  | pe_mouse f _ _ =>
      let down := has f PTR_FLAGS_DOWN in
      if has f PTR_FLAGS_WHEEL then
        let n := if has f PTR_FLAGS_WHEEL_NEGATIVE then 5 else 4 in [b_press n; b_release n]
      else if has f PTR_FLAGS_BUTTON1 then [up_down down 1]
      else if has f PTR_FLAGS_BUTTON2 then [up_down down 3]
      else if has f PTR_FLAGS_BUTTON3 then [up_down down 2]
      else []
  | pe_extended f _ _ =>
      let down := has f PTR_XFLAGS_DOWN in
      if has f PTR_XFLAGS_BUTTON1 then [up_down down 8]
      else if has f PTR_XFLAGS_BUTTON2 then [up_down down 9]
      else []
  end.

Definition button_events (l : list xevent) : list xevent := List.filter (fun e => match e with x_button _ _ => true | _ => false end) l.

Lemma motion_rel x y s B : buttons_rel s B -> buttons_rel (PtrAddMotionEvent x y s) B /\
  button_events (xevents (PtrAddMotionEvent x y s)) = button_events (xevents s).
Proof.
  intros R. unfold PtrAddMotionEvent. destruct (last_motion s) as [sx sy]. destruct (_ || _); [|done]. split; [done|].
  cbn. unfold button_events. rewrite List.filter_app. apply app_nil_r.
Qed.

Lemma change_rel (down : bool) (k : nat) s B : buttons_rel s B -> (k < 10)%nat ->
  let a := up_down down (Z.of_nat k + 1) in
  buttons_rel (change_button down (2 ^ Z.of_nat k) s) (button_step a B) /\
  xevents (change_button down (2 ^ Z.of_nat k) s) = xevents s ++ button_out a B.
Proof. destruct down; [apply press_rel|apply release_rel]. Qed.

Lemma out_buttons a B : button_events (button_out a B) = button_out a B.
Proof. destruct a; cbn; by destruct (decide _). Qed.

Lemma buttons_app l1 l2 : button_events (l1 ++ l2) = button_events l1 ++ button_events l2.
Proof. apply List.filter_app. Qed.

(** One event. *)
Lemma pointer_rel e s B : buttons_rel s B ->
  buttons_rel (pointer_step s e) (buttons_run (event_buttons e) B).2 /\
  button_events (xevents (pointer_step s e)) = button_events (xevents s) ++ (buttons_run (event_buttons e) B).1.
Proof.
  intros R.
  assert (forall s1 down k, buttons_rel s1 B -> button_events (xevents s1) = button_events (xevents s) -> (k < 10)%nat ->
    buttons_rel (change_button down (2 ^ Z.of_nat k) s1) (buttons_run [up_down down (Z.of_nat k + 1)] B).2 /\
    button_events (xevents (change_button down (2 ^ Z.of_nat k) s1)) = button_events (xevents s) ++ (buttons_run [up_down down (Z.of_nat k + 1)] B).1) as Hone.
  { intros s1 down k R1 E1 Hk. destruct (change_rel down k s1 B R1 Hk) as [R2 E2]. cbn [buttons_run fst snd]. split; [done|].
    rewrite E2, buttons_app, E1, out_buttons, app_nil_r. done. }
  assert (forall s1 k, buttons_rel s1 B -> button_events (xevents s1) = button_events (xevents s) -> (k < 10)%nat ->
    let l := [b_press (Z.of_nat k + 1); b_release (Z.of_nat k + 1)] in
    buttons_rel (release_button (2 ^ Z.of_nat k) (press_button (2 ^ Z.of_nat k) s1)) (buttons_run l B).2 /\
    button_events (xevents (release_button (2 ^ Z.of_nat k) (press_button (2 ^ Z.of_nat k) s1))) = button_events (xevents s) ++ (buttons_run l B).1) as Htwo.
  { intros s1 k R1 E1 Hk. destruct (press_rel k s1 B R1 Hk) as [R2 E2]. destruct (release_rel k _ _ R2 Hk) as [R3 E3]. cbn [buttons_run fst snd]. split; [done|].
    rewrite E3, E2, !buttons_app, E1, !out_buttons, app_nil_r, <-app_assoc. done. }
  assert (forall (b : bool) x y, buttons_rel (if b then PtrAddMotionEvent x y s else s) B /\
    button_events (xevents (if b then PtrAddMotionEvent x y s else s)) = button_events (xevents s)) as Hmove.
  { intros [] x y; [by apply motion_rel|done]. }
  assert (forall s1, button_events (xevents s1) = button_events (xevents s) -> button_events (xevents s1) = button_events (xevents s) ++ []) as Hnil.
  { intros s1. by rewrite app_nil_r. }
  destruct e as [f x y|f x y]; cbn [pointer_step event_buttons].
  - unfold mouse_event. cbv zeta. edestruct (Hmove (has f PTR_FLAGS_MOVE || has f PTR_FLAGS_DOWN)) as [Rm Em].
    destruct (has f PTR_FLAGS_WHEEL); [destruct (has f PTR_FLAGS_WHEEL_NEGATIVE); [apply (Htwo _ 4%nat); [exact Rm|exact Em|lia]|apply (Htwo _ 3%nat); [exact Rm|exact Em|lia]]|].
    destruct (has f PTR_FLAGS_BUTTON1); [apply (Hone _ _ 0%nat); [exact Rm|exact Em|lia]|]. destruct (has f PTR_FLAGS_BUTTON2); [apply (Hone _ _ 2%nat); [exact Rm|exact Em|lia]|].
    destruct (has f PTR_FLAGS_BUTTON3); [apply (Hone _ _ 1%nat); [exact Rm|exact Em|lia]|]. split; [apply Rm|apply Hnil, Em].
  - unfold extended_mouse_event. cbv zeta. edestruct (Hmove (has f PTR_FLAGS_MOVE || has f PTR_XFLAGS_DOWN)) as [Rm Em].
    destruct (has f PTR_XFLAGS_BUTTON1); [apply (Hone _ _ 7%nat); [exact Rm|exact Em|lia]|]. destruct (has f PTR_XFLAGS_BUTTON2); [apply (Hone _ _ 8%nat); [exact Rm|exact Em|lia]|].
    split; [apply Rm|apply Hnil, Em].
Qed.
(** A list of events. *)
Lemma pointers_rel l s B : buttons_rel s B ->
  buttons_rel (fold_left pointer_step l s) (buttons_run (flat_map event_buttons l) B).2 /\
  button_events (xevents (fold_left pointer_step l s)) = button_events (xevents s) ++ (buttons_run (flat_map event_buttons l) B).1.
Proof.
  revert s B. induction l as [|e l IH]; intros s B R; cbn [fold_left flat_map].
  { split; [exact R|]. cbn. by rewrite app_nil_r. }
  destruct (pointer_rel e s B R) as [R1 E1]. destruct (IH _ _ R1) as [R2 E2]. rewrite buttons_run_app. cbn [fst snd].
  split; [exact R2|]. by rewrite E2, E1, app_assoc.
Qed.

(** ** The keyboard *)

Lemma same_key press k s : same_display s (rdpEnqueueKey press k s).
Proof. unfold rdpEnqueueKey. by destruct (_ && _). Qed.

Lemma same_sync a b k s : same_display s (kbdSyncState a b k s).
Proof. unfold kbdSyncState. destruct (Bool.eqb _ _); [apply same_refl|]. eapply same_trans; apply same_key. Qed.

Lemma same_change down m s : same_display s (change_button down m s).
Proof. destruct down; cbn; unfold press_button, release_button; (eapply same_trans; [|apply same_button]; apply same_buttons). Qed.

Lemma same_pointer e s : same_display s (pointer_step s e).
Proof.
  assert (forall (b : bool) x y, same_display s (if b then PtrAddMotionEvent x y s else s)) as Hm.
  { intros [] x y; [apply same_motion|apply same_refl]. }
  assert (forall m s', same_display s s' -> same_display s (release_button m (press_button m s'))) as Hc.
  { intros m s' H. eapply same_trans; [exact H|]. eapply same_trans; [apply (same_change true)|apply (same_change false)]. }
  destruct e as [f x y|f x y]; cbn [pointer_step]; unfold mouse_event, extended_mouse_event; cbv zeta;
    repeat match goal with |- context[if has ?a ?b then change_button _ _ _ else _] => destruct (has a b) eqn:?
                         | |- context[if has ?a ?b then release_button _ _ else _] => destruct (has a b) eqn:?
                         | |- context[if has ?a ?b then (if _ then _ else _) else _] => destruct (has a b) eqn:? end;
    try (apply Hc); try apply Hm; (eapply same_trans; [apply Hm|apply same_change]).
Qed.

(** What a key event adds: the press or release, after a release when the last
    event pressed the same key. *)
Definition key_out (last : option bool * Z) (press : bool) (k : Z) : list xevent :=
  (if press && bool_decide (last = (Some true, k)) then [x_key false k] else []) ++ [x_key press k].

Lemma key_spec press k s : xevents (rdpEnqueueKey press k s) = xevents s ++ key_out (last_key s) press k /\ last_key (rdpEnqueueKey press k s) = (Some press, k).
Proof.
  unfold rdpEnqueueKey, key_out. destruct (_ && _); cbn; (split; [|done]); [by rewrite <-app_assoc|done].
Qed.
(** *** Locks *)

(** The lock of a mask is on after the events. *)
Definition locked (l : list xevent) (m : Z) : bool := negb (Z.land (xkb_state l) m =? 0).

Definition lock_keys : list (Z * Z) := [(66, LockMask); (77, find_vmod NumLock); (78, find_vmod ScrollLock)].

(** The key is down after the events. *)
Definition is_down (k : Z) (l : list xevent) : bool :=
  fold_left (fun d e => match e with x_key press k' => if k' =? k then press else d | _ => d end) l false.

(** How an X server keeps its locks: pressing a lock key that is up changes its
    own lock, releasing one changes none. *)
Definition lock_laws : Prop :=
  forall k m, (k, m) ∈ lock_keys -> forall k' m', (k', m') ∈ lock_keys -> forall l,
    (is_down k l = false -> locked (l ++ [x_key true k]) m' = xorb (k =? k') (locked l m')) /\
    locked (l ++ [x_key false k]) m' = locked l m'.

Lemma is_down_app k l1 l2 : is_down k l1 = false -> is_down k (l1 ++ l2) = is_down k l2.
Proof. intros H. unfold is_down in *. by rewrite fold_left_app, H. Qed.

(** Keys that are pressed and released once. *)
Lemma click_lock k m k' m' last l : lock_laws -> (k, m) ∈ lock_keys -> (k', m') ∈ lock_keys -> is_down k l = false ->
  locked (l ++ key_out last true k ++ key_out (Some true, k) false k) m' = xorb (k =? k') (locked l m') /\
  forall c, is_down c l = false -> is_down c (l ++ key_out last true k ++ key_out (Some true, k) false k) = false.
Proof.
  intros Hl Hk Hk' Hd. destruct (Hl k m Hk k' m' Hk' l) as [H1 H2]. unfold key_out. cbn [andb List.app]. split.
  - case_bool_decide; cbn [andb List.app]; rewrite ?app_nil_r.
    + replace (l ++ [x_key false k; x_key true k; x_key false k]) with (((l ++ [x_key false k]) ++ [x_key true k]) ++ [x_key false k])
        by (by rewrite <-!app_assoc).
      rewrite (proj2 (Hl k m Hk k' m' Hk' _)), (proj1 (Hl k m Hk k' m' Hk' _)), H2; [done|].
      rewrite is_down_app by done. cbn. by rewrite Z.eqb_refl.
    + replace (l ++ [x_key true k; x_key false k]) with ((l ++ [x_key true k]) ++ [x_key false k]) by (by rewrite <-app_assoc).
      by rewrite (proj2 (Hl k m Hk k' m' Hk' _)), H1.
  - intros c Hc. rewrite is_down_app by done. case_bool_decide; cbn; by destruct (k =? c).
Qed.

(** One call of [kbdSyncState], with the state of the lock as it is. *)
Lemma sync_lock k m k' m' a f s : lock_laws -> (k, m) ∈ lock_keys -> (k', m') ∈ lock_keys -> is_down k (xevents s) = false ->
  negb (a =? 0) = locked (xevents s) m ->
  let s' := kbdSyncState a f k s in
  (k' <> k -> locked (xevents s') m' = locked (xevents s) m') /\
  (locked (xevents s') m = negb (f =? 0)) /\ (forall c, is_down c (xevents s) = false -> is_down c (xevents s') = false).
Proof.
  intros Hl Hk Hk' Hd Ha. cbv zeta. unfold kbdSyncState. rewrite Ha.
  set (s' := rdpEnqueueKey false k (rdpEnqueueKey true k s)).
  assert (xevents s' = xevents s ++ key_out (last_key s) true k ++ key_out (Some true, k) false k) as E.
  { unfold s'. destruct (key_spec true k s) as [E1 E2]. destruct (key_spec false k (rdpEnqueueKey true k s)) as [E3 _].
    by rewrite E3, E1, E2, app_assoc. }
  destruct (Bool.eqb (locked (xevents s) m) (negb (f =? 0))) eqn:Eb.
  - apply Bool.eqb_prop in Eb. by rewrite Eb.
  - rewrite E. destruct (click_lock k m k' m' (last_key s) (xevents s) Hl Hk Hk' Hd) as [H1 H2].
    destruct (click_lock k m k m (last_key s) (xevents s) Hl Hk Hk Hd) as [H3 _]. rewrite H1, H3, Z.eqb_refl. split; [|split; [|done]].
    + intros Hne. by rewrite (proj2 (Z.eqb_neq _ _)) by congruence.
    + apply Bool.eqb_false_iff in Eb. destruct (locked (xevents s) m), (f =? 0); cbn in *; congruence.
Qed.

(** After a synchronisation the locks are those of the client. *)
Lemma sync_event_locks flags s : lock_laws -> master = true -> (forall k m, (k, m) ∈ lock_keys -> is_down k (xevents s) = false) ->
  let l := xevents (KbdAddSyncEvent flags s) in
  locked l LockMask = has flags KBD_SYNC_CAPS_LOCK /\ locked l (find_vmod NumLock) = has flags KBD_SYNC_NUM_LOCK /\
  locked l (find_vmod ScrollLock) = has flags KBD_SYNC_SCROLL_LOCK.
Proof.
  intros Hl Hm Hd. cbv zeta. unfold KbdAddSyncEvent. rewrite Hm. cbn [negb]. set (st := xkb_state (xevents s)).
  assert ((66, LockMask) ∈ lock_keys) as K1 by (apply list_elem_of_In; cbn; tauto).
  assert ((77, find_vmod NumLock) ∈ lock_keys) as K2 by (apply list_elem_of_In; cbn; tauto).
  assert ((78, find_vmod ScrollLock) ∈ lock_keys) as K3 by (apply list_elem_of_In; cbn; tauto).
  set (s1 := kbdSyncState _ _ 66 s).
  pose proof (fun k' m' K => sync_lock 66 _ k' m' _ (Z.land flags KBD_SYNC_CAPS_LOCK) s Hl K1 K (Hd _ _ K1) eq_refl) as H1.
  fold st s1 in H1. destruct (H1 _ _ K1) as (_ & L1 & D1). destruct (H1 _ _ K2) as (F12 & _ & _). destruct (H1 _ _ K3) as (F13 & _ & _).
  specialize (F12 ltac:(done)). specialize (F13 ltac:(done)).
  set (s2 := kbdSyncState _ _ 77 s1).
  pose proof (fun k' m' K => sync_lock 77 _ k' m' (Z.land st (find_vmod NumLock)) (Z.land flags KBD_SYNC_NUM_LOCK) s1 Hl K2 K
    (D1 _ (Hd _ _ K2)) (eq_sym F12)) as H2. fold s2 in H2.
  destruct (H2 _ _ K1) as (F21 & L2 & D2). destruct (H2 _ _ K3) as (F23 & _ & _). specialize (F21 ltac:(done)). specialize (F23 ltac:(done)).
  set (s3 := kbdSyncState _ _ 78 s2).
  assert (negb (Z.land st (find_vmod ScrollLock) =? 0) = locked (xevents s2) (find_vmod ScrollLock)) as Hst by by rewrite F23, F13.
  pose proof (fun k' m' K => sync_lock 78 _ k' m' _ (Z.land flags KBD_SYNC_SCROLL_LOCK) s2 Hl K3 K (D2 _ (D1 _ (Hd _ _ K3))) Hst) as H3. fold s3 in H3.
  destruct (H3 _ _ K1) as (F31 & L3 & _). destruct (H3 _ _ K2) as (F32 & _ & _).
  rewrite F31, F32, L3, F21, L2, L1 by done. done.
Qed.

Lemma same_sync_event flags s : same_display s (KbdAddSyncEvent flags s).
Proof. unfold KbdAddSyncEvent. destruct (negb master); [apply same_refl|]. do 3 (eapply same_trans; [|apply same_sync]); apply same_refl. Qed.

Lemma same_unicode f c s : same_display s (KbdAddUnicodeEvent f c s).
Proof.
  unfold KbdAddUnicodeEvent. destruct (_ =? 0); [apply same_refl|]. destruct (has _ _); [apply same_key|].
  eapply same_trans; apply same_key.
Qed.
End Input.

(** ** What the core sees *)

(** The state of a connection as its messages show it: closed, or open with the
    framebuffer that is attached. *)
Inductive view := v_closed | v_open (fb : option SharedFramebuffer.RDS_MSG_SHARED_FRAMEBUFFER).

(** A framebuffer whose lines are in its segment, which the core accepts
    (DisplayFacts.v). *)
Definition shared_ok (m : gmap Z Z) (f : SharedFramebuffer.RDS_MSG_SHARED_FRAMEBUFFER) : Prop :=
  exists size, m !! SharedFramebuffer.segmentId f = Some size /\
    fb_fits (SharedFramebuffer.width f) (SharedFramebuffer.height f) (SharedFramebuffer.scanline f) size.

Definition is_attach (f : SharedFramebuffer.RDS_MSG_SHARED_FRAMEBUFFER) : bool := negb (Z.land (SharedFramebuffer.flags f) 1 =? 0).

(** The protocol of a module: a framebuffer is attached when there is none and
    detached when there is one, and everything else is sent while one is
    attached; what is painted lies in it and is read from its segment. *)
Inductive view_step (m : gmap Z Z) : view -> output -> view -> Prop :=
| vs_accept : view_step m v_closed o_accept (v_open None)
| vs_disconnect fb : view_step m (v_open fb) o_disconnect v_closed
| vs_attach c f : is_attach f = true -> shared_ok m f ->
    view_step m (v_open None) (o_message (Msg c (mSharedFramebuffer f))) (v_open (Some f))
| vs_detach c f f' : is_attach f = false -> view_step m (v_open (Some f')) (o_message (Msg c (mSharedFramebuffer f))) (v_open None)
| vs_paint c p f : paint_fits (SharedFramebuffer.width f) (SharedFramebuffer.height f) p ->
    PaintRect.fbSegmentId p = SharedFramebuffer.segmentId f ->
    view_step m (v_open (Some f)) (o_message (Msg c (mPaintRect p))) (v_open (Some f))
| vs_other c b f : match b with mSharedFramebuffer _ | mPaintRect _ => False | _ => True end ->
    view_step m (v_open (Some f)) (o_message (Msg c b)) (v_open (Some f)).

Inductive views (m : gmap Z Z) : list output -> view -> Prop :=
| views_nil : views m [] v_closed
| views_snoc l o v v' : views m l v -> view_step m v o v' -> views m (l ++ [o]) v'.

Lemma view_step_mono m m' v o v' : m ⊆ m' -> view_step m v o v' -> view_step m' v o v'.
Proof.
  intros Hm H. destruct H; try by econstructor. apply vs_attach; [done|]. destruct H0 as (size & E & Hf). exists size. split; [|done].
  by eapply lookup_weaken.
Qed.

Lemma views_mono m m' l v : m ⊆ m' -> views m l v -> views m' l v.
Proof. intros Hm. induction 1; [constructor|]. eapply views_snoc; [done|]. by eapply view_step_mono. Qed.

(** ** The invariant *)

Record screen_inv (x : x11) : Prop := {
  so_width : screen_size (Screen.width (screen x));
  so_height : screen_size (Screen.height (screen x));
  so_root : root_width x = Screen.width (screen x) /\ root_height x = Screen.height (screen x);
  so_depth : 16 < Screen.depth (screen x) <= 32;
  so_bytes : Screen.bytesPerPixel (screen x) = 4;
  so_scanline : is_i32 (Screen.scanline (screen x));
  so_segment : 0 < Screen.segmentId (screen x) < 2 ^ 31;
  so_memory : is_Some (Screen.pfbMemory (screen x));
  so_shared c : shared_ok (segments x) (SharedFramebuffer.mk c (Screen.width (screen x)) (Screen.height (screen x)) (Screen.scanline (screen x))
    (Screen.segmentId (screen x)) (Screen.depth (screen x)) (Screen.bytesPerPixel (screen x)));
}.

(** The framebuffer of the screen as it is attached. *)
Definition shared_of (x : x11) : SharedFramebuffer.RDS_MSG_SHARED_FRAMEBUFFER :=
  let s := screen x in
  SharedFramebuffer.mk 1 (Screen.width s) (Screen.height s) (Screen.scanline s) (Screen.segmentId s) (Screen.depth s) (Screen.bytesPerPixel s).

Record x11_ok (x : x11) : Prop := {
  xo_screen : screen_inv x;
  xo_randr : exists r, randr x = Some r /\ Forall mode_ok (modes r);
  xo_client : client_pipe x = false -> g_active x = false;
  xo_attached : Screen.fbAttached (screen x) <> 0 -> g_connected x = true /\ g_active x = true;
  xo_view : exists v, views (segments x) (outputs x) v /\
    if client_pipe x then
      g_connected x = true /\ v = v_open (if Screen.fbAttached (screen x) =? 0 then None else Some (shared_of x))
    else v = v_closed;
}.

(** An active connection has a client. *)
Lemma active_client x : x11_ok x -> g_active x = true -> client_pipe x = true.
Proof. intros O Ha. destruct (client_pipe x) eqn:E; [done|]. by rewrite (xo_client _ O E) in Ha. Qed.

Section Module.
Context {W : WStream} {L : WStreamLaws W} {P : Pipe} {PL : PipeLaws P} {F : WindowOrder} {I : InputFlags} {X : XServer}.
Context (common0 : RDS_MSG_COMMON).
Abbreviation service := (rdsBackend x11).

(** A message that can be written. *)
Definition writable (t : Z) (b : msg_body) : Prop :=
  ok_body b /\ u32 t = server_type b /\ 0 <= server_type b /\
  Z.of_nat (length (wire_msg (common (set_type t (Msg common0 tt))) b)) < 2 ^ 31.

Lemma write_update_ok t b (bk : service) : writable t b -> usable (OutboundStream bk) ->
  exists bk', write_update common0 t b bk = Some bk' /\ usable (OutboundStream bk') /\ InboundStream bk' = InboundStream bk /\
    app bk' = add_output (o_message (Msg (common (set_type t (Msg common0 tt))) b)) (app bk).
Proof.
  intros (Hok & Ht & H0 & Hl) Hu. unfold write_update.
  destruct (server_outbound_spec bk (common (set_type t (Msg common0 tt))) b Hok Ht H0 Hu Hl) as (st & bk' & -> & (_ & Hi & Ha & _) & Hu' & _).
  eexists. split; [reflexivity|]. split; [done|]. split; [done|]. unfold upd. cbn. by rewrite Ha.
Qed.

(** The state after [rdp_attach_framebuffer]. *)
Definition attach_x (x : x11) : x11 :=
  if Screen.fbAttached (screen x) =? 0
  then set_screen (Screen.set_attached 1 (screen x))
         (add_output (o_message (Msg (common (set_type RDS_SERVER_SHARED_FRAMEBUFFER (Msg common0 tt))) (framebuffer_message 1 x))) x)
  else x.

Lemma framebuffer_writable fl x : screen_inv x -> is_u32 fl -> writable RDS_SERVER_SHARED_FRAMEBUFFER (framebuffer_message fl x).
Proof.
  intros S Hfl. pose proof (so_width _ S) as H1. pose proof (so_height _ S) as H2. pose proof (so_depth _ S) as H3. pose proof (so_bytes _ S) as H4.
  pose proof (so_scanline _ S) as H5. pose proof (so_segment _ S) as H6. unfold screen_size in *.
  split; [|split; [done|split; [done|reflexivity]]].
  unfold ok_body. cbn. unfold SharedFramebuffer.ok_shared_framebuffer, is_u32, is_i32 in *. cbn. lia.
Qed.

Lemma attach_ok_ (bk : service) : screen_inv (app bk) -> g_active (app bk) = true -> usable (OutboundStream bk) ->
  exists bk', rdp_attach_framebuffer common0 bk = Some (0, bk') /\ usable (OutboundStream bk') /\ InboundStream bk' = InboundStream bk /\
    app bk' = attach_x (app bk).
Proof.
  intros S Ha Hu. unfold rdp_attach_framebuffer, attach_x. rewrite Ha. cbn [negb].
  destruct (Screen.fbAttached (screen (app bk)) =? 0); [|by exists bk].
  destruct (write_update_ok RDS_SERVER_SHARED_FRAMEBUFFER (framebuffer_message 1 (app bk)) bk) as (bk' & -> & Hu' & Hi & Ea);
    [by apply framebuffer_writable|done|]. cbn [mbind option_bind].
  eexists. split; [reflexivity|]. split; [done|]. split; [done|]. unfold upd. cbn. by rewrite Ea.
Qed.

(** The screen, the connection and the other globals in which two states may
    agree. *)
Definition same_screen (x x' : x11) : Prop :=
  screen x' = screen x /\ root_width x' = root_width x /\ root_height x' = root_height x /\ segments x' = segments x.

Lemma screen_inv_same x x' : same_screen x x' -> screen_inv x -> screen_inv x'.
Proof. intros (E1 & E2 & E3 & E4) [H1 H2 H3 H4 H5 H6 H7 H8 H9]. split; rewrite ?E1, ?E2, ?E3, ?E4; done. Qed.

Lemma attach_x_ok x : x11_ok x -> g_connected x = true -> g_active x = true ->
  x11_ok (attach_x x) /\ Screen.fbAttached (screen (attach_x x)) <> 0 /\ g_connected (attach_x x) = true /\ g_active (attach_x x) = true /\
  screen_inv (attach_x x) /\ Screen.set_attached 0 (screen (attach_x x)) = Screen.set_attached 0 (screen x).
Proof.
  intros O Hc Ha. unfold attach_x. destruct (Z.eqb_spec (Screen.fbAttached (screen x)) 0) as [E|E].
  2: { split_and!; try done; apply O. }
  assert (screen_inv (set_screen (Screen.set_attached 1 (screen x)) x)) as S.
  { destruct (xo_screen _ O) as [H1 H2 H3 H4 H5 H6 H7 H8 H9]. by split. }
  set (x' := set_screen _ _). assert (screen_inv x') as S' by (by apply (screen_inv_same (set_screen (Screen.set_attached 1 (screen x)) x))).
  split; [|split_and!; (done || exact S')]. pose proof (active_client x O Ha) as Hcl. destruct O as [O1 O2 O3 O4 (v & Hv & Hcv)]. rewrite Hcl in Hcv.
  split; try done. exists (v_open (Some (shared_of x))). cbn. rewrite Hcl. split; [|by split]. eapply views_snoc; [exact Hv|].
  destruct Hcv as [_ ->]. rewrite E. apply vs_attach; [done|]. apply (so_shared _ O1).
Qed.

(** A message that leaves the framebuffer alone. *)
Definition update_ok (x : x11) (b : msg_body) : Prop :=
  match b with
  | mSharedFramebuffer _ => False
  | mPaintRect p => paint_fits (Screen.width (screen x)) (Screen.height (screen x)) p /\ PaintRect.fbSegmentId p = Screen.segmentId (screen x)
  | _ => True
  end.

Lemma send_update_ok t b (bk : service) : x11_ok (app bk) -> usable (OutboundStream bk) -> writable t b -> update_ok (app bk) b ->
  exists bk', rdp_send_update common0 t b bk = Some (0, bk') /\ usable (OutboundStream bk') /\ InboundStream bk' = InboundStream bk /\ x11_ok (app bk') /\
    app bk' = (if g_connected (app bk) && g_active (app bk)
               then add_output (o_message (Msg (common (set_type t (Msg common0 tt))) b)) (attach_x (app bk)) else app bk).
Proof.
  intros O Hu Hw Hb. unfold rdp_send_update. destruct (g_connected (app bk)) eqn:Hc, (g_active (app bk)) eqn:Ha; cbn [andb]; try by exists bk.
  destruct (attach_ok_ bk (xo_screen _ O) Ha Hu) as (bk1 & -> & Hu1 & Hi1 & E1). cbn [mbind option_bind].
  destruct (write_update_ok t b bk1 Hw Hu1) as (bk2 & -> & Hu2 & Hi2 & E2). cbn [mbind option_bind].
  exists bk2. split; [done|]. split; [done|]. split; [congruence|]. rewrite E1 in E2. split; [|done]. rewrite E2.
  destruct (attach_x_ok (app bk) O Hc Ha) as (O1 & Hf & Hc1 & Ha1 & S1 & Es). pose proof (active_client _ O1 Ha1) as Hcl. destruct O1 as [H1 H2 H3 H4 (v & Hv & Hcv)].
  split; try done; [by apply (screen_inv_same (attach_x (app bk)))|].
  exists v. split; [|done]. eapply views_snoc; [exact Hv|]. rewrite Hcl in Hcv. destruct Hcv as [_ ->].
  destruct (Z.eqb_spec (Screen.fbAttached (screen (attach_x (app bk)))) 0) as [?|_]; [done|].
  assert (forall (f : Screen.rdpScreenInfoRec -> Z), (forall s, f (Screen.set_attached 0 s) = f s) -> f (screen (attach_x (app bk))) = f (screen (app bk))) as Ef.
  { intros f Hf'. rewrite <-(Hf' (screen (attach_x (app bk)))), Es. apply Hf'. }
  destruct b; try (by apply vs_other); try done. destruct Hb as [Hb1 Hb2]. apply vs_paint; cbn.
  - by rewrite (Ef Screen.width), (Ef Screen.height).
  - by rewrite (Ef Screen.segmentId).
Qed.

Definition detach_x (x : x11) : x11 :=
  if Screen.fbAttached (screen x) =? 0 then x
  else set_screen (Screen.set_attached 0 (screen x))
         (add_output (o_message (Msg (common (set_type RDS_SERVER_SHARED_FRAMEBUFFER (Msg common0 tt))) (framebuffer_message 0 x))) x).

Lemma detach_ok_ (bk : service) : x11_ok (app bk) -> usable (OutboundStream bk) ->
  exists bk', rdp_detach_framebuffer common0 bk = Some (0, bk') /\ usable (OutboundStream bk') /\ InboundStream bk' = InboundStream bk /\
    app bk' = detach_x (app bk).
Proof.
  intros O Hu. unfold rdp_detach_framebuffer, detach_x. destruct (Z.eqb_spec (Screen.fbAttached (screen (app bk))) 0) as [E|E]; [by exists bk|].
  destruct (xo_attached _ O E) as [Hc Ha]. unfold rdp_send_update. rewrite Hc, Ha. cbn [andb].
  destruct (attach_ok_ bk (xo_screen _ O) Ha Hu) as (bk1 & -> & Hu1 & Hi1 & E1). cbn [mbind option_bind].
  destruct (write_update_ok RDS_SERVER_SHARED_FRAMEBUFFER (framebuffer_message 0 (app bk)) bk1) as (bk2 & -> & Hu2 & Hi2 & E2);
    [by apply framebuffer_writable; [apply O|]|done|]. cbn [mbind option_bind].
  eexists. split; [reflexivity|]. split; [done|]. split; [cbn; congruence|]. unfold upd. cbn. rewrite E2, E1. unfold attach_x.
  by rewrite (proj2 (Z.eqb_neq _ _) E).
Qed.

(** The connection and the input are left alone. *)
Definition keeps (x x' : x11) : Prop :=
  g_connected x' = g_connected x /\ g_active x' = g_active x /\ server_pipe x' = server_pipe x /\ client_pipe x' = client_pipe x /\
  g_button_mask x' = g_button_mask x /\ g_old_button_mask x' = g_old_button_mask x /\ last_motion x' = last_motion x /\ last_key x' = last_key x /\
  xevents x' = xevents x.

Lemma keeps_refl x : keeps x x.
Proof. by repeat split. Qed.

Lemma keeps_trans x1 x2 x3 : keeps x1 x2 -> keeps x2 x3 -> keeps x1 x3.
Proof. unfold keeps. intros (?&?&?&?&?&?&?&?&?) (?&?&?&?&?&?&?&?&?). repeat split; congruence. Qed.

(** What remains of the invariant while the screen changes. *)
Record detached (x : x11) : Prop := {
  dt_depth : 16 < Screen.depth (screen x) <= 32;
  dt_randr : exists r, randr x = Some r /\ Forall mode_ok (modes r);
  dt_client : client_pipe x = false -> g_active x = false;
  dt_attached : Screen.fbAttached (screen x) = 0;
  dt_view : exists v, views (segments x) (outputs x) v /\
    if client_pipe x then g_connected x = true /\ v = v_open None else v = v_closed;
}.

Lemma detach_x_ok x : x11_ok x -> detached (detach_x x).
Proof.
  intros O. unfold detach_x. destruct (Z.eqb_spec (Screen.fbAttached (screen x)) 0) as [E|E].
  - destruct O as [S R Hcl Hatt (v & Hv & Hcv)]. split; try done; [apply S|]. exists v. split; [done|].
    destruct (client_pipe x); [|done]. by rewrite E in Hcv.
  - destruct (xo_attached _ O E) as [Hc Ha]. pose proof (active_client _ O Ha) as Hp. destruct O as [S R Hcl Hatt (v & Hv & Hcv)].
    split; try done; [apply S|]. exists (v_open None). cbn. rewrite Hp in Hcv |- *. split; [|done].
    eapply views_snoc; [exact Hv|]. destruct Hcv as [_ ->]. rewrite (proj2 (Z.eqb_neq _ _) E). by apply vs_detach.
Qed.

Lemma tiles_bound w h : screen_size w -> screen_size h -> 16384 * ((w + 63) / 64 * ((h + 63) / 64)) < 2 ^ 31.
Proof.
  unfold screen_size. intros Hw Hh.
  assert (0 <= (w + 63) / 64 < 257) by (split; [apply Z.div_pos|apply Z.div_lt_upper_bound]; lia).
  assert (0 <= (h + 63) / 64 < 257) by (split; [apply Z.div_pos|apply Z.div_lt_upper_bound]; lia). nia.
Qed.

(** The segment for a screen of [w] by [h] pixels. *)
Lemma alloc_ok shmmin shm w h x : detached x -> screen_size w -> screen_size h -> shmmin < 2 ^ 31 -> 0 < shm < 2 ^ 31 -> segments x !! shm = None ->
  Screen.width (screen x) = w -> Screen.height (screen x) = h -> root_width x = w -> root_height x = h -> Screen.pfbMemory (screen x) = None ->
  exists x', rdpScreenFrameBufferAlloc shmmin shm x = Some x' /\ x11_ok x' /\ keeps x x' /\ root_width x' = w /\ root_height x' = h.
Proof.
  intros [Hd R Hcl Hatt (v & Hv & Hcv)] Hw Hh Hmin Hshm Hfresh Ew Eh Erw Erh Em. pose proof Hw as Hw'. pose proof Hh as Hh'. unfold screen_size in Hw', Hh'.
  unfold rdpScreenFrameBufferAlloc, rdpScreenBitsPerPixel. rewrite Ew, Eh.
  rewrite (proj2 (Z.eqb_neq (Screen.depth (screen x)) 1)), (proj2 (Z.leb_gt (Screen.depth (screen x)) 8)), (proj2 (Z.leb_gt (Screen.depth (screen x)) 16)) by lia.
  change (32 / 8) with 4. pose proof (rem16 (w * 4) ltac:(lia)). rewrite (int_ok (w * 4)) by lia. cbn [mbind option_bind].
  rewrite (int_ok (w * 4 + _)) by lia. cbn [mbind option_bind]. set (sc := w * 4 + Z.rem (w * 4) 16) in *. rewrite (int_ok (sc * h)) by nia. cbn [mbind option_bind].
  set (size := if (0 <? shmmin) && (sc * h <? shmmin) then shmmin else sc * h). cbn [Screen.pfbMemory Screen.set_layout]. rewrite Em.
  assert (sc * h <= size) as Hsize.
  { unfold size. destruct (Z.ltb_spec 0 shmmin), (Z.ltb_spec (sc * h) shmmin); cbn; lia. }
  rewrite (proj2 (Z.ltb_ge shm 0)) by lia. eexists. split; [reflexivity|]. split; [|done].
  assert (segments x ⊆ <[shm:=size]> (segments x)) as Hsub by by apply insert_subseteq.
  split; cbn; try done.
  - split; cbn; rewrite ?Ew, ?Eh; try done; [unfold is_i32; lia|]. intros c. exists size. split; [apply lookup_insert_eq|]. cbn.
    split; [|split; lia]. unfold desktop_ok, desktop_size, size_ok. split; [lia|]. split; [lia|]. split; [lia|]. split; [lia|].
    by apply tiles_bound.
  - exists v. rewrite Hatt. split; [by eapply views_mono|done].
Qed.

(** ** The size of the screen *)

(** Segments are numbered from 1 on, and a new one has a new number as long as
    there is one. *)
Definition segments_left (m : gmap Z Z) : Prop := Z.of_nat (size m) < 2 ^ 31 - 1.

Definition shm_law (shmmin : Z) (shmget : gmap Z Z -> Z) : Prop :=
  shmmin < 2 ^ 31 /\ forall m, segments_left m -> 0 < shmget m < 2 ^ 31 /\ m !! shmget m = None.

Context (shmmin : Z) (shmget : gmap Z Z -> Z) (set_modes : bool) (Hshm : shm_law shmmin shmget).

(** There is room for the mode of the size and for one more segment. *)
Definition mode_room (w h : Z) (x : x11) : Prop :=
  segments_left (segments x) /\ forall r, randr x = Some r -> (w, h) ∈ modes r \/ (length (modes r) < modeCount)%nat.

Lemma x11_ok_randr r x : x11_ok x -> Forall mode_ok (modes r) -> x11_ok (set_randr (Some r) x).
Proof.
  intros [S R Hcl Hatt Hv] Hr. split; try done; [by apply (screen_inv_same x)|]. by exists r.
Qed.

Lemma set_size_ok w h (bk : service) : x11_ok (app bk) -> usable (OutboundStream bk) -> 0 <= w <= 16384 -> 0 <= h <= 16384 -> mode_room w h (app bk) ->
  exists b bk', rdpRRScreenSetSize common0 shmmin shmget set_modes 2 w h bk = Some (b, bk') /\ usable (OutboundStream bk') /\
    InboundStream bk' = InboundStream bk /\ x11_ok (app bk') /\ keeps (app bk) (app bk') /\
    (1 <= w -> 1 <= h -> Screen.width (screen (app bk')) = w /\ Screen.height (screen (app bk')) = h).
Proof.
  intros O Hu Hw Hh Hroom. destruct (xo_randr _ O) as (r & Er & Hr). cbn [rdpRRScreenSetSize]. rewrite Er.
  destruct (Z.ltb_spec w 1), (Z.ltb_spec h 1); cbn [orb]; try (exists false, bk; split_and!; (done || apply keeps_refl || lia)).
  assert (screen_size w) as Sw by (unfold screen_size; lia). assert (screen_size h) as Sh by (unfold screen_size; lia).
  destruct (mode_select_ok set_modes w h (modes r)) as (st & l' & -> & Hl' & _); [by split|done|by apply (proj2 Hroom)|]. cbn [mbind option_bind].
  set (bk0 := upd _ bk). assert (x11_ok (app bk0)) as O0 by by apply x11_ok_randr.
  destruct (detach_ok_ bk0 O0 Hu) as (bk1 & -> & Hu1 & Hi1 & E1). cbn [mbind option_bind].
  pose proof (detach_x_ok _ O0) as D1. rewrite <-E1 in D1.
  assert (is_Some (Screen.pfbMemory (screen (app bk1)))) as Hm.
  { rewrite E1. unfold detach_x. destruct (_ =? 0); apply (so_memory _ (xo_screen _ O0)). }
  assert (randr (app bk1) = Some (mk_randr w h l')) as Er1 by (rewrite E1; unfold detach_x; by destruct (_ =? 0)).
  set (bk2 := upd (fun x => set_root _ _ _) bk1). destruct (Screen.pfbMemory (screen (app bk2))) as [mem|] eqn:Em.
  2: { cbn in Em. rewrite Em in Hm. by destruct Hm. }
  set (bk3 := upd rdpScreenFrameBufferFree bk2). destruct Hshm as [Hmin Hget]. destruct (Hget (segments (app bk3))) as [Hs Hf].
  { cbn. rewrite E1. unfold detach_x. destruct (_ =? 0); apply Hroom. }
  assert (i16 w = w /\ i16 h = h) as [Ew Eh] by (unfold i16; rewrite !Z.mod_small; lia).
  destruct (alloc_ok shmmin (shmget (segments (app bk3))) w h (app bk3)) as (x' & -> & O' & Hk & Rw & Rh); try done.
  { destruct D1 as [? ? ? ? ?]. by split. }
  cbn [mbind option_bind]. unfold upd at 1 2. cbn [app]. rewrite Rw, Rh. cbn [rr_width rr_height]. rewrite !Z.eqb_refl. cbn [negb orb].
  eexists true, _. split; [reflexivity|]. cbn. split; [done|]. split; [done|]. split; [done|]. split.
  { eapply keeps_trans; [|exact Hk]. cbn. rewrite E1. unfold detach_x. by destruct (_ =? 0). }
  intros _ _. destruct (so_root _ (xo_screen _ O')) as [<- <-]. done.
Qed.

Lemma capabilities_ok m (bk : service) : x11_ok (app bk) -> usable (OutboundStream bk) -> client_pipe (app bk) = true ->
  0 <= Capabilities.DesktopWidth (body m) <= 16384 -> 0 <= Capabilities.DesktopHeight (body m) <= 16384 ->
  mode_room (Capabilities.DesktopWidth (body m)) (Capabilities.DesktopHeight (body m)) (app bk) ->
  exists bk', rds_client_capabilities common0 shmmin shmget set_modes bk m = Some (0, bk') /\ usable (OutboundStream bk') /\
    InboundStream bk' = InboundStream bk /\ x11_ok (app bk') /\ g_active (app bk') = true /\
    (1 <= Capabilities.DesktopWidth (body m) -> 1 <= Capabilities.DesktopHeight (body m) ->
     Screen.width (screen (app bk')) = Capabilities.DesktopWidth (body m) /\ Screen.height (screen (app bk')) = Capabilities.DesktopHeight (body m)).
Proof.
  set (w := Capabilities.DesktopWidth _). set (h := Capabilities.DesktopHeight _). intros O Hu Hcl Hw Hh Hroom. unfold rds_client_capabilities. fold w h.
  rewrite !i32_id by (unfold is_i32; lia).
  assert (exists bk', (if negb (root_width (app bk) =? w) || negb (root_height (app bk) =? h) then RRScreenSizeSet common0 shmmin shmget set_modes w h bk else Some bk)
    = Some bk' /\ usable (OutboundStream bk') /\ InboundStream bk' = InboundStream bk /\ x11_ok (app bk') /\ keeps (app bk) (app bk') /\
    (1 <= w -> 1 <= h -> Screen.width (screen (app bk')) = w /\ Screen.height (screen (app bk')) = h)) as (bk1 & -> & Hu1 & Hi1 & O1 & Hk & Hs).
  { destruct (Z.eqb_spec (root_width (app bk)) w) as [Ew|], (Z.eqb_spec (root_height (app bk)) h) as [Eh|]; cbn [negb orb].
    1: { exists bk. split; [done|]. split; [done|]. split; [done|]. split; [done|]. split; [apply keeps_refl|]. destruct (so_root _ (xo_screen _ O)) as [<- <-]. done. }
    all: unfold RRScreenSizeSet; rewrite !u16_id by (unfold is_u16; lia);
      destruct (set_size_ok w h bk O Hu Hw Hh Hroom) as (b & bk' & -> & H1 & H2 & H3 & H4 & H5); cbn [mbind option_bind]; by exists bk'. }
  cbn [mbind option_bind]. eexists. split; [reflexivity|]. split; [done|]. split; [done|]. split; [|split; [done|exact Hs]].
  destruct O1 as [S R Hcl1 Hatt (v & Hv & Hcv)]. split; cbn; try done; [by apply (screen_inv_same (app bk1))| | |by exists v].
  - destruct Hk as (_ & _ & _ & Hk & _). congruence.
  - intros E. split; [by apply Hatt|done].
Qed.
(** ** Runs *)

(** What happens to the module: the core connects (the parameters are the
    answers of the operating system), sends a message, which the transport
    hands to the interface, or is lost; the X server draws into an area, sends
    an update or changes the size of the screen. *)
Inductive x11_act :=
| xa_accept (created : bool) (p : option pipe)
| xa_event (c : RDS_MSG_COMMON) (e : client_body)
| xa_lost
| xa_area (framebuffer0 : PaintRect.framebuffer_ptr) (x y w h : Z)
| xa_update (type : Z) (b : msg_body)
| xa_resize (w h : Z).

Abbreviation interface := (x11_client common0 shmmin shmget set_modes).

(** [g_Bpp]: the bytes of a pixel. *)
Definition x11_step (g_Bpp : Z) (a : x11_act) (bk : service) : option service :=
  match a with
  | xa_accept created p =>
      if client_pipe (app bk) then Some bk else
      if server_pipe (app bk) then Some (snd (rds_service_accept created p bk)) else Some bk
  | xa_event c e => if client_pipe (app bk) then snd <$> call_client interface bk c e else Some bk
  | xa_lost => if client_pipe (app bk) then Some (snd (rds_service_disconnect bk)) else Some bk
  | xa_area f x y w h => rdp_send_area_update common0 g_Bpp f x y w h bk
  | xa_update t b => snd <$> rdp_send_update common0 t b bk
  | xa_resize w h => snd <$> rdpRRScreenSetSize common0 shmmin shmget set_modes 2 w h bk
  end.

Definition size_allowed (w h : Z) (x : x11) : Prop := 0 <= w <= 16384 /\ 0 <= h <= 16384 /\ mode_room w h x.

(** What a step relies on. *)
Definition x11_act_ok (a : x11_act) (x : x11) : Prop :=
  match a with
  | xa_event _ (cCapabilities b) => size_allowed (Capabilities.DesktopWidth b) (Capabilities.DesktopHeight b) x
  | xa_area _ x y w h => small_coord x /\ small_coord y /\ small_size w /\ small_size h
  | xa_update t b => writable t b /\ match b with mSharedFramebuffer _ | mPaintRect _ => False | _ => True end
  | xa_resize w h => size_allowed w h x
  | _ => True
  end.

Definition service_ok (bk : service) : Prop := x11_ok (app bk) /\ usable (OutboundStream bk).

Lemma x11_ok_same x x' : same_display x x' -> x11_ok x -> x11_ok x'.
Proof.
  intros (E1 & E2 & E3 & E4 & E5 & E6 & E7 & E8 & E9 & E10) [S R Hcl Hatt Hv].
  split; unfold shared_of; rewrite ?E1, ?E2, ?E3, ?E4, ?E5, ?E6, ?E7, ?E8, ?E9, ?E10; try done. by apply (screen_inv_same x).
Qed.

Lemma upd_ok f (bk : service) : same_display (app bk) (f (app bk)) -> service_ok bk -> service_ok (upd f bk).
Proof. intros H [O Hu]. split; [|done]. by eapply x11_ok_same. Qed.

Lemma accept_step_ok created p (bk : service) : service_ok bk -> client_pipe (app bk) = false -> service_ok (snd (rds_service_accept created p bk)).
Proof.
  intros [[S R Hcl Hatt (v & Hv & Hcv)] Hu] Ecl. rewrite Ecl in Hcv. subst v. specialize (Hcl Ecl). unfold rds_service_accept.
  assert (forall c x', screen x' = Screen.set_attached 0 (screen (app bk)) -> root_width x' = root_width (app bk) -> root_height x' = root_height (app bk) ->
    segments x' = segments (app bk) -> c = Screen.fbAttached (screen x') -> screen_inv x') as Hs.
  { intros c x' E1 E2 E3 E4 _. destruct S as [H1 H2 H3 H4 H5 H6 H7 H8 H9]. split; rewrite ?E1, ?E2, ?E3, ?E4; done. }
  destruct created; cbn [snd].
  - destruct p as [p|]; (split; [|done]); cbn; (split; cbn; [by eapply Hs|done|done|done|]).
    + exists (v_open None). split; [|done]. eapply views_snoc; [exact Hv|constructor].
    + exists v_closed. by split.
  - split; [|done]. split; cbn; try done; [by apply (screen_inv_same (app bk))|]. rewrite Ecl. by exists v_closed.
Qed.

Lemma lost_step_ok (bk : service) : service_ok bk -> client_pipe (app bk) = true -> service_ok (snd (rds_service_disconnect bk)).
Proof.
  intros [[S R Hcl Hatt (v & Hv & Hcv)] Hu] Ecl. rewrite Ecl in Hcv. destruct Hcv as [_ ->]. split; [|done]. split; cbn; try done.
  - destruct S as [H1 H2 H3 H4 H5 H6 H7 H8 H9]. by split.
  - exists v_closed. split; [|done]. eapply views_snoc; [exact Hv|constructor].
Qed.

Lemma event_step_ok c e (bk : service) : service_ok bk -> client_pipe (app bk) = true -> x11_act_ok (xa_event c e) (app bk) ->
  exists st bk', call_client interface bk c e = Some (st, bk') /\ service_ok bk'.
Proof.
  intros O Hcl Ha. destruct e as [b|b|b|b|b|b|b|b]; cbn [call_client].
  - destruct O as [O Hu], Ha as (Hw & Hh & Hr). destruct (capabilities_ok (Msg c b) bk O Hu Hcl Hw Hh Hr) as (bk' & E & Hu' & _ & O' & _).
    exists 0, bk'. split; [exact E|]. by split.
  - eexists _, _. split; [reflexivity|]. apply upd_ok; [apply same_sync_event|done].
  - eexists _, _. split; [reflexivity|]. apply upd_ok; [apply same_key|done].
  - eexists _, _. split; [reflexivity|]. apply upd_ok; [apply same_key|done].
  - eexists _, _. split; [reflexivity|]. apply upd_ok; [apply same_unicode|done].
  - eexists _, _. split; [reflexivity|]. apply upd_ok; [apply (same_pointer (pe_mouse _ _ _))|done].
  - eexists _, _. split; [reflexivity|]. apply upd_ok; [apply (same_pointer (pe_extended _ _ _))|done].
  - by exists 0, bk.
Qed.

(** The paint message of an area. *)
Definition area_message (x : x11) (f : PaintRect.framebuffer_ptr) (r : RDS_RECT) : msg_body :=
  mPaintRect (PaintRect.mk (rect_x r) (rect_y r) (rect_width r) (rect_height r) 0 0 None 0 (u32 (Screen.segmentId (screen x))) f).

Lemma area_step_ok g_Bpp f x y w h (bk : service) : 0 <= g_Bpp <= 4 -> service_ok bk -> x11_act_ok (xa_area f x y w h) (app bk) ->
  exists r bk', area_rect (screen (app bk)) x y w h = Some r /\ rdp_send_area_update common0 g_Bpp f x y w h bk = Some bk' /\ service_ok bk' /\
    app bk' = match r with
              | Some r => if g_connected (app bk) && g_active (app bk)
                          then add_output (o_message (Msg (common (set_type RDS_SERVER_PAINT_RECT (Msg common0 tt))) (area_message (app bk) f r)))
                                 (attach_x (app bk))
                          else app bk
              | None => app bk
              end.
Proof.
  intros HB [O Hu] (Hx & Hy & Hw & Hh). pose proof (xo_screen _ O) as S. pose proof (so_width _ S) as Sw. pose proof (so_height _ S) as Sh.
  destruct (area_rect_ok (screen (app bk)) x y w h Sw Sh Hx Hy Hw Hh) as (r & E & Hr & _). exists r. unfold rdp_send_area_update. rewrite E. cbn [mbind option_bind].
  destruct r as [r|]; [|by exists bk]. destruct (Hr r eq_refl) as (H1 & H2 & H3 & H4 & H5 & H6). unfold screen_size in Sw, Sh.
  assert (rect_width r * rect_height r <= 16384 * 16384) by nia.
  rewrite int_ok by nia. cbn [mbind option_bind]. pose proof (so_segment _ S) as Hseg.
  assert (u32 (Screen.segmentId (screen (app bk))) = Screen.segmentId (screen (app bk))) as Eseg by (apply u32_id; unfold is_u32; lia).
  destruct (send_update_ok RDS_SERVER_PAINT_RECT (area_message (app bk) f r) bk O Hu) as (bk' & E' & Hu' & _ & O' & Ea); unfold area_message.
  - set (b := PaintRect.mk _ _ _ _ _ _ _ _ _ _). assert (PaintRect.ok_paint_rect b) as Hb.
    { unfold PaintRect.ok_paint_rect, b. cbn. rewrite Eseg. unfold is_u16, is_u32. lia. }
    split; [exact Hb|]. split; [done|]. split; [done|]. rewrite length_wire_msg.
    change (wire_body (mPaintRect b)) with (PaintRect.wire_paint_rect b). rewrite PaintRect.length_wire_paint_rect by exact Hb.
    cbn. destruct (_ =? 0); lia.
  - cbn. unfold paint_fits. rewrite Eseg. cbn. done.
  - exists bk'. split; [done|]. split; [|by split]. unfold area_message in E'. by rewrite E'.
Qed.
(** Every step that it is allowed to take is defined and keeps the invariant. *)
Lemma x11_step_ok g_Bpp a (bk : service) : 0 <= g_Bpp <= 4 -> service_ok bk -> x11_act_ok a (app bk) ->
  exists bk', x11_step g_Bpp a bk = Some bk' /\ service_ok bk'.
Proof.
  intros HB O Ha. destruct a as [created p|c e| |f x y w h|t b|w h]; cbn [x11_step].
  - destruct (client_pipe (app bk)) eqn:E; [by exists bk|]. destruct (server_pipe (app bk)); [|by exists bk].
    eexists. split; [reflexivity|]. by apply accept_step_ok.
  - destruct (client_pipe (app bk)) eqn:E; [|by exists bk]. destruct (event_step_ok c e bk O E Ha) as (st & bk' & -> & O'). by exists bk'.
  - destruct (client_pipe (app bk)) eqn:E; [|by exists bk]. eexists. split; [reflexivity|]. by apply lost_step_ok.
  - destruct (area_step_ok g_Bpp f x y w h bk HB O Ha) as (r & bk' & _ & E & O' & _). by exists bk'.
  - destruct Ha as [Hw Hb], O as [O Hu]. destruct (send_update_ok t b bk O Hu Hw) as (bk' & -> & Hu' & _ & O' & _); [by destruct b|]. by exists bk'.
  - destruct Ha as (Hw & Hh & Hr), O as [O Hu]. destruct (set_size_ok w h bk O Hu Hw Hh Hr) as (st & bk' & -> & Hu' & _ & O' & _). by exists bk'.
Qed.

(** Runs of allowed steps. *)
Inductive x11_runs (g_Bpp : Z) : service -> list x11_act -> service -> Prop :=
| xr_nil bk : x11_runs g_Bpp bk [] bk
| xr_cons bk a bk1 l bk2 : x11_act_ok a (app bk) -> x11_step g_Bpp a bk = Some bk1 -> x11_runs g_Bpp bk1 l bk2 -> x11_runs g_Bpp bk (a :: l) bk2.

Lemma x11_runs_ok g_Bpp bk l bk' : 0 <= g_Bpp <= 4 -> service_ok bk -> x11_runs g_Bpp bk l bk' -> service_ok bk'.
Proof.
  intros HB O H. induction H as [|bk a bk1 l bk2 Ha E _ IH]; [done|]. apply IH.
  destruct (x11_step_ok g_Bpp a bk HB O Ha) as (bk1' & E' & O'). by assert (bk1' = bk1) as <- by congruence.
Qed.

(** The conditions of a run are decidable, updates aside. *)
Definition size_allowedb (w h : Z) (x : x11) : bool :=
  (0 <=? w) && (w <=? 16384) && (0 <=? h) && (h <=? 16384) && (Z.of_nat (size (segments x)) <? 2 ^ 31 - 1) &&
  match randr x with Some r => bool_decide ((w, h) ∈ modes r) || (length (modes r) <? modeCount)%nat | None => true end.

Definition smallb (z : Z) : bool := (- 2 ^ 30 <=? z) && (z <? 2 ^ 30).

Definition x11_act_okb (a : x11_act) (x : x11) : bool :=
  match a with
  | xa_event _ (cCapabilities b) => size_allowedb (Capabilities.DesktopWidth b) (Capabilities.DesktopHeight b) x
  | xa_area _ x y w h => smallb x && smallb y && (0 <=? w) && (w <? 2 ^ 30) && (0 <=? h) && (h <? 2 ^ 30)
  | xa_update _ _ => false
  | xa_resize w h => size_allowedb w h x
  | _ => true
  end.

(** The run, when its conditions hold. *)
Fixpoint x11_run (g_Bpp : Z) (l : list x11_act) (bk : service) : option service :=
  match l with
  | [] => Some bk
  | a :: l => if x11_act_okb a (app bk) then bk ← x11_step g_Bpp a bk; x11_run g_Bpp l bk else None
  end.

Lemma size_allowed_intro w h x : size_allowedb w h x = true -> size_allowed w h x.
Proof.
  unfold size_allowedb, size_allowed, mode_room. rewrite !andb_true_iff, !Z.leb_le, Z.ltb_lt. intros [[[[[? ?] ?] ?] ?] Hm]. split_and!; try done.
  intros r E. rewrite E in Hm. apply orb_true_iff in Hm as [Hm|Hm]; [left; by apply bool_decide_eq_true in Hm|right; by apply Nat.ltb_lt].
Qed.

Lemma act_ok_intro a x : x11_act_okb a x = true -> x11_act_ok a x.
Proof.
  destruct a as [created p|c e| |f x1 y1 w1 h1|t b|w1 h1]; cbn; try done.
  - destruct e; try done. apply size_allowed_intro.
  - unfold smallb, small_coord, small_size. rewrite !andb_true_iff, !Z.leb_le, !Z.ltb_lt. tauto.
  - apply size_allowed_intro.
Qed.

Lemma x11_run_runs g_Bpp l bk bk' : x11_run g_Bpp l bk = Some bk' -> x11_runs g_Bpp bk l bk'.
Proof.
  revert bk. induction l as [|a l IH]; intros bk; cbn [x11_run]; [intros [= <-]; constructor|].
  destruct (x11_act_okb a (app bk)) eqn:Ha; [|done]. destruct (x11_step g_Bpp a bk) as [bk1|] eqn:E; [|done]. intros H.
  econstructor; [by apply act_ok_intro|done|by apply IH].
Qed.

(** *** The start of the X server *)

(** The arguments leave a screen that is not allocated; the depth is the one of
    the pixel format. *)
Definition globals_ok (g : ddx_globals) : Prop :=
  g_firstTime g = false ->
  1 <= g_Bpp (format g) <= 4 /\ g_bpp (format g) = Screen.depth (g_rdpScreen g) /\ Screen.pfbMemory (g_rdpScreen g) = None /\ Screen.fbAttached (g_rdpScreen g) = 0.

Lemma set_bpp_ok d f f' : set_bpp d f = (0, f') -> 1 <= g_Bpp f' <= 4 /\ g_bpp f' = d.
Proof.
  unfold set_bpp. repeat match goal with |- context[d =? ?n] => destruct (Z.eqb_spec d n) as [->|] end; intros [= <-]; cbn; lia.
Qed.

Lemma argument_ok a g n g' : globals_ok g -> ddxProcessArgument a g = Some (n, g') -> globals_ok g' /\ g_firstTime g' = false.
Proof.
  intros H. unfold ddxProcessArgument. set (g1 := if g_firstTime g then _ else g).
  assert (globals_ok g1 /\ g_firstTime g1 = false) as [H1 F1].
  { unfold g1. destruct (g_firstTime g) eqn:E; [|by split]. split; [|done]. intros _. cbn. split_and!; (done || lia). }
  destruct (H1 F1) as (B1 & D1 & M1 & A1). destruct a as [[[w h]|]|[d|]| |]; try done.
  - intros [= <- <-]. done.
  - destruct (set_bpp d (format g1)) as [rv f] eqn:E. destruct (Z.eqb_spec rv 0) as [->|]; cbn [negb]; [|done]. intros [= <- <-]. split; [|done].
    intros _. cbn. destruct (set_bpp_ok d _ _ E). done.
  - intros [= <- <-]. done.
  - intros [= <- <-]. done.
Qed.

Fixpoint ddx_arguments (l : list ddx_argument) (g : ddx_globals) : option ddx_globals :=
  match l with
  | [] => Some g
  | a :: l => '(_, g) ← ddxProcessArgument a g; ddx_arguments l g
  end.

Lemma arguments_ok l g g' : globals_ok g -> l <> [] -> ddx_arguments l g = Some g' -> globals_ok g' /\ g_firstTime g' = false.
Proof.
  revert g. induction l as [|a l IH]; intros g G Hne; [done|]. cbn [ddx_arguments].
  destruct (ddxProcessArgument a g) as [[n g1]|] eqn:E; [|done]. cbn [mbind option_bind]. destruct (argument_ok a g n g1 G E) as [G1 F1].
  destruct l as [|a' l]; [intros [= <-]; done|]. by apply IH.
Qed.

Lemma alloc_frame shmmin' shm r w h x : rdpScreenFrameBufferAlloc shmmin' shm (set_randr r (set_root w h x)) =
  (fun x' => set_randr r (set_root w h x')) <$> rdpScreenFrameBufferAlloc shmmin' shm x.
Proof.
  unfold rdpScreenFrameBufferAlloc. cbn [screen segments set_randr set_root]. destruct (int (_ * _)) as [a|]; cbn [mbind option_bind fmap option_fmap option_map]; [|done].
  destruct (int (a + _)) as [b|]; cbn [mbind option_bind fmap option_fmap option_map]; [|done]. destruct (int (b * _)) as [c|]; cbn [mbind option_bind fmap option_fmap option_map]; [|done].
  cbn [Screen.pfbMemory Screen.set_layout]. destruct (Screen.pfbMemory _); [done|]. by destruct (shm <? 0).
Qed.

Lemma standard_ok shmmax : Forall mode_ok (List.filter (offered shmmax) g_StandardSizes) /\
  (length (List.filter (offered shmmax) g_StandardSizes) < modeCount)%nat.
Proof.
  split.
  - apply List.Forall_forall. intros m [Hm _]%List.filter_In. revert m Hm. apply List.Forall_forall.
    unfold g_StandardSizes, mode_ok, screen_size. repeat (apply List.Forall_cons; [cbn; lia|]). apply List.Forall_nil.
  - eapply Nat.le_lt_trans; [apply List.filter_length_le|]. cbn. unfold modeCount. lia.
Qed.

(** A depth of 24 or 32 bits and a size in the range. *)
Lemma screen_init_ok shmmax p0 endpoint g : globals_ok g -> g_firstTime g = false -> 16 < Screen.depth (g_rdpScreen g) <= 32 ->
  screen_size (Screen.width (g_rdpScreen g)) -> screen_size (Screen.height (g_rdpScreen g)) ->
  exists bk, rdpScreenInit shmmin shmget shmmax p0 endpoint g = Some bk /\ service_ok bk.
Proof.
  intros G Ff Hd Sw Sh. destruct (G Ff) as (_ & _ & Hm & Ha). unfold rdpScreenInit. set (x0 := mk_x11 _ _ _ _ _ _ _ _ _ _ _ _ _ _ _).
  set (w := Screen.width (g_rdpScreen g)) in *. set (h := Screen.height (g_rdpScreen g)) in *.
  assert (i16 w = w /\ i16 h = h) as [-> ->] by (unfold i16, screen_size in *; rewrite !Z.mod_small; lia).
  destruct (standard_ok shmmax) as [Hl Hlen].
  destruct (mode_select_ok true w h (List.filter (offered shmmax) g_StandardSizes)) as (st & l' & E & Hl' & _); [by split|done|by right|].
  set (r := mk_randr w h l') in *. destruct Hshm as [Hmin Hget]. destruct (Hget (segments x0)) as [Hs Hf]; [done|].
  destruct (alloc_ok shmmin (shmget (segments x0)) w h (set_randr (Some r) (set_root w h x0))) as (x1 & E1 & O1 & _); try done.
  { split; try done; [by exists r|]. exists v_closed. split; [constructor|done]. }
  rewrite alloc_frame in E1. destruct (rdpScreenFrameBufferAlloc _ _ x0) as [x2|]; [|done]. cbn [fmap option_fmap option_map] in E1. injection E1 as E1.
  cbn [mbind option_bind]. unfold rdpRRInit, rdpProbeModes. cbn [rr_width rr_height app freerds_service_new root_width root_height set_root].
  rewrite E. cbn [mbind option_bind]. eexists. split; [reflexivity|]. split.
  - cbn. rewrite <-E1 in O1. exact O1.
  - destruct (new_spec (Z.to_nat 8192)) as (buf & Hrep & Hlb). by exists buf, 0%nat, (Z.to_nat 8192); cbn [OutboundStream upd freerds_service_new]; rewrite Hlb.
Qed.
End Module.
