(* ===== verification/X11Cursor.v ===== *)
(** * The X11 module: the pointer

    module/X11/service/rdpInput.c: [rdpSpriteSetCursor] draws the cursor of the X
    server into a picture of 32 by 32 pixels, bottom line first, and sends it.
    Pixel data are bytes in the order of a little-endian machine; the products
    of coordinates do not overflow, since the sizes of a cursor have 16 bits.

    What the code uses of the headers of the X server and of FreeRDP is the
    class [CursorFormat]: the bytes of a line of pixels and of a line of bits,
    the order of bits in a byte, and the packing of a color. *)

From stdpp Require Import sets list.
From S2P Require Import Prelude WStream Message ClientMsg ServerMsg VarMsg SessionMsg WindowMsg MsgTable TableFacts Pipe Transport Outbound OutboundFacts X11 X11Facts.
#[local] Open Scope Z_scope.

Class CursorFormat := {
  PixmapBytePad : Z -> Z;  (* 32 bits per pixel *)
  BitmapBytePad : Z -> Z;
  LSBFirst : bool;  (* screenInfo.bitmapBitOrder == LSBFirst *)
  ARGB32 : Z -> Z -> Z -> Z -> Z;
}.

(** ** Pixels *)

Definition g_reverse_byte : list Z :=
  [0x00; 0x80; 0x40; 0xc0; 0x20; 0xa0; 0x60; 0xe0; 0x10; 0x90; 0x50; 0xd0; 0x30; 0xb0; 0x70; 0xf0;
   0x08; 0x88; 0x48; 0xc8; 0x28; 0xa8; 0x68; 0xe8; 0x18; 0x98; 0x58; 0xd8; 0x38; 0xb8; 0x78; 0xf8;
   0x04; 0x84; 0x44; 0xc4; 0x24; 0xa4; 0x64; 0xe4; 0x14; 0x94; 0x54; 0xd4; 0x34; 0xb4; 0x74; 0xf4;
   0x0c; 0x8c; 0x4c; 0xcc; 0x2c; 0xac; 0x6c; 0xec; 0x1c; 0x9c; 0x5c; 0xdc; 0x3c; 0xbc; 0x7c; 0xfc;
   0x02; 0x82; 0x42; 0xc2; 0x22; 0xa2; 0x62; 0xe2; 0x12; 0x92; 0x52; 0xd2; 0x32; 0xb2; 0x72; 0xf2;
   0x0a; 0x8a; 0x4a; 0xca; 0x2a; 0xaa; 0x6a; 0xea; 0x1a; 0x9a; 0x5a; 0xda; 0x3a; 0xba; 0x7a; 0xfa;
   0x06; 0x86; 0x46; 0xc6; 0x26; 0xa6; 0x66; 0xe6; 0x16; 0x96; 0x56; 0xd6; 0x36; 0xb6; 0x76; 0xf6;
   0x0e; 0x8e; 0x4e; 0xce; 0x2e; 0xae; 0x6e; 0xee; 0x1e; 0x9e; 0x5e; 0xde; 0x3e; 0xbe; 0x7e; 0xfe;
   0x01; 0x81; 0x41; 0xc1; 0x21; 0xa1; 0x61; 0xe1; 0x11; 0x91; 0x51; 0xd1; 0x31; 0xb1; 0x71; 0xf1;
   0x09; 0x89; 0x49; 0xc9; 0x29; 0xa9; 0x69; 0xe9; 0x19; 0x99; 0x59; 0xd9; 0x39; 0xb9; 0x79; 0xf9;
   0x05; 0x85; 0x45; 0xc5; 0x25; 0xa5; 0x65; 0xe5; 0x15; 0x95; 0x55; 0xd5; 0x35; 0xb5; 0x75; 0xf5;
   0x0d; 0x8d; 0x4d; 0xcd; 0x2d; 0xad; 0x6d; 0xed; 0x1d; 0x9d; 0x5d; 0xdd; 0x3d; 0xbd; 0x7d; 0xfd;
   0x03; 0x83; 0x43; 0xc3; 0x23; 0xa3; 0x63; 0xe3; 0x13; 0x93; 0x53; 0xd3; 0x33; 0xb3; 0x73; 0xf3;
   0x0b; 0x8b; 0x4b; 0xcb; 0x2b; 0xab; 0x6b; 0xeb; 0x1b; 0x9b; 0x5b; 0xdb; 0x3b; 0xbb; 0x7b; 0xfb;
   0x07; 0x87; 0x47; 0xc7; 0x27; 0xa7; 0x67; 0xe7; 0x17; 0x97; 0x57; 0xd7; 0x37; 0xb7; 0x77; 0xf7;
   0x0f; 0x8f; 0x4f; 0xcf; 0x2f; 0xaf; 0x6f; 0xef; 0x1f; 0x9f; 0x5f; 0xdf; 0x3f; 0xbf; 0x7f; 0xff].

Definition load8 (data : list Z) (i : Z) : option Z := if i <? 0 then None else data !! Z.to_nat i.

Definition store (bs data : list Z) (i : Z) : option (list Z) :=
  if (i <? 0) || (Z.of_nat (length data) <? i + Z.of_nat (length bs)) then None
  else Some (splice (Z.to_nat i) bs data).

Definition load32 (data : list Z) (k : Z) : option Z :=
  if (k <? 0) || (Z.of_nat (length data) <? 4 * k + 4) then None
  else Some (le_val (take 4 (drop (Z.to_nat (4 * k)) data))).

(** The four tests at the start of both functions. *)
Definition outside (x y width height : Z) : bool := (x <? 0) || (y <? 0) || (width <=? x) || (height <=? y).

Definition get_pixel_safe (data : list Z) (x y width height bpp : Z) : option Z :=
  if outside x y width height then Some 0 else
  if bpp =? 1 then
    let width := (width + 7) / 8 in
    c ← load8 data (y * width + x / 8);
    c ← g_reverse_byte !! Z.to_nat c;
    Some (if has c (Z.shiftr 0x80 (x mod 8)) then 1 else 0)
  else if bpp =? 32 then load32 data (y * width + x)
  else Some 0.

Definition set_pixel_safe (data : list Z) (x y width height bpp pixel : Z) : option (list Z) :=
  if outside x y width height then Some data else
  if bpp =? 1 then
    let width := (width + 7) / 8 in
    let start := y * width + x / 8 in
    c ← load8 data start;
    let bit := Z.shiftr 0x80 (x mod 8) in
    store [u8 (if Z.testbit pixel 0 then Z.lor c bit else Z.land c (Z.lnot bit))] data start
  else if bpp =? 24 then store [u8 pixel; u8 (Z.shiftr pixel 8); u8 (Z.shiftr pixel 16)] data (3 * (y * width + x))
  else if bpp =? 32 then store (le32 pixel) data (4 * (y * width + x))
  else Some data.

(** ** The cursor *)

Record cursor_bits := mk_bits {
  cb_width : Z; cb_height : Z; xhot : Z; yhot : Z;
  argb : option (list Z); source : option (list Z); mask : option (list Z);
}.

Record cursor := mk_cursor { bits : option cursor_bits; fore : Z * Z * Z; back : Z * Z * Z }.

(** [for] loops over a range, with the state that their body changes. *)
Fixpoint for_each {A S} (l : list A) (body_ : A -> S -> option S) (s : S) : option S :=
  match l with
  | [] => Some s
  | a :: l => s ← body_ a s; for_each l body_ s
  end.

Section Cursor.
Context {W : WStream} {P : Pipe} {F : WindowOrder} {C : CursorFormat}.
Context (common0 : RDS_MSG_COMMON).

(** A byte outside of the line is undefined. *)
Definition GetBit (line : list Z) (x : Z) : option bool :=
  let m := if LSBFirst then Z.shiftl 1 (Z.land x 7) else Z.shiftr 0x80 (Z.land x 7) in
  c ← load8 line (Z.shiftr x 3);
  Some (has c m).

Definition draw_argb (data : list Z) (b : cursor_bits) (cur_data : list Z) : option (list Z) :=
  for_each (seqZ 0 32) (fun j =>
    for_each (seqZ 0 32) (fun i cur_data =>
      p ← get_pixel_safe data i j (PixmapBytePad (cb_width b) / 4) (cb_height b) 32;
      set_pixel_safe cur_data i (31 - j) 32 32 32 p)) cur_data.

Definition cursor_pixel (fg bg : Z) (srcLine mskLine : list Z) (j : Z) : option Z :=
  match GetBit mskLine j with
  | None => None
  | Some true => (fun s : bool => if s then fg else bg) <$> GetBit srcLine j
  | Some false => Some (ARGB32 0 0 0 0)
  end.

Definition color_of (c : Z * Z * Z) : Z := let '(r, g, b) := c in ARGB32 0xff r g b.

(** [srcLine] and [mskLine] advance by [stride] with [i]. *)
Definition draw_bits (src msk : list Z) (fg bg : Z) (b : cursor_bits) (cur_data : list Z) : option (list Z) :=
  let stride := BitmapBytePad (cb_width b) in
  for_each (seqZ 0 (cb_height b)) (fun i =>
    for_each (seqZ 0 (cb_width b)) (fun j cur_data =>
      p ← cursor_pixel fg bg (drop (Z.to_nat (i * stride)) src) (drop (Z.to_nat (i * stride)) msk) j;
      set_pixel_safe cur_data j (31 - i) 32 32 32 p)) cur_data.

(** The width and height of the message are not set ([w0], [h0]).  A cursor
    without [argb], whose mask is [NULL], is undefined when it has a pixel. *)
Definition rdpSpriteSetCursor (w0 h0 : Z) (pCurs : option cursor) (bk : rdsBackend x11) : option (rdsBackend x11) :=
  match pCurs with
  | Some (mk_cursor (Some b) fg bg) =>
      let cur_data := replicate (32 * 32 * 4) 0 in
      let cur_mask := replicate (32 * (32 / 8)) 0 in
      drawn ← match argb b with
              | Some data => Some <$> draw_argb data b cur_data
              | None =>
                  match source b with
                  | None => Some None
                  | Some src =>
                      Some <$> draw_bits src (default [] (mask b)) (color_of fg) (color_of bg) b cur_data
                  end
              end;
      match drawn with
      | None => Some bk
      | Some d =>
          '(_, bk) ← rdp_send_update common0 RDS_SERVER_SET_POINTER
            (mSetPointer (SetPointer.mk 32 (xhot b) (yhot b) w0 h0 0 0 (Some d) (Some cur_mask))) bk;
          Some bk
      end
  | _ => Some bk
  end.
End Cursor.

(** ** Pixels, lemmas *)

(** The table reverses the bits: bit [shift] of a byte from the left is bit
    [shift] of its reverse from the right. *)
Lemma reverse_byte_spec c shift : 0 <= c < 256 -> 0 <= shift < 8 ->
  exists r, g_reverse_byte !! Z.to_nat c = Some r /\ has r (Z.shiftr 0x80 shift) = Z.testbit c shift.
Proof.
  intros Hc Hs.
  assert (forallb (fun c => forallb (fun shift => match g_reverse_byte !! Z.to_nat c with
    | Some r => Bool.eqb (has r (Z.shiftr 0x80 shift)) (Z.testbit c shift) | None => false end) (seqZ 0 8)) (seqZ 0 256) = true) as H by (vm_compute; reflexivity).
  rewrite forallb_forall in H. specialize (H c ltac:(apply list_elem_of_In, elem_of_seqZ; lia)).
  rewrite forallb_forall in H. specialize (H shift ltac:(apply list_elem_of_In, elem_of_seqZ; lia)).
  destruct (g_reverse_byte !! Z.to_nat c) as [r|]; [|done]. exists r. split; [done|]. by apply Bool.eqb_prop.
Qed.

Lemma store_inside bs d i : 0 <= i -> i + Z.of_nat (length bs) <= Z.of_nat (length d) -> store bs d i = Some (splice (Z.to_nat i) bs d).
Proof. intros H1 H2. unfold store. rewrite (proj2 (Z.ltb_ge _ _)), (proj2 (Z.ltb_ge _ _)) by lia. done. Qed.

Lemma load_splice (k k' : nat) v d : (4 * k + 4 <= length d)%nat -> (4 * k' + 4 <= length d)%nat ->
  take 4 (drop (4 * k') (splice (4 * k) (le32 v) d)) = if decide (k' = k) then le32 v else take 4 (drop (4 * k') d).
Proof.
  intros Hk Hk'. unfold splice. destruct (decide (k' = k)) as [->|Hne].
  - rewrite drop_app_length' by (rewrite length_take; lia). by rewrite take_app_length' by (by rewrite length_le).
  - destruct (decide (k' < k)%nat).
    + rewrite drop_app_le by (rewrite length_take; lia). rewrite take_app_le by (rewrite length_drop, length_take; lia).
      rewrite !take_drop_commute, take_take. do 2 f_equal. lia.
    + rewrite drop_app_ge by (rewrite length_take; lia). rewrite length_take, Nat.min_l by lia. rewrite drop_app_ge by (rewrite length_le; lia).
      rewrite length_le, drop_drop. do 2 f_equal. lia.
Qed.

(** Pixel [(x, y)] of a picture of 32 by 32 pixels. *)
Definition pixel (d : list Z) (x y : Z) : option Z := load32 d (y * 32 + x).

Lemma pixel_in d x y : length d = 4096%nat -> 0 <= x < 32 -> 0 <= y < 32 ->
  pixel d x y = Some (le_val (take 4 (drop (4 * Z.to_nat (y * 32 + x)) d))).
Proof.
  intros Hd Hx Hy. unfold pixel, load32. rewrite (proj2 (Z.ltb_ge _ _)), (proj2 (Z.ltb_ge _ _)) by lia. cbn [orb].
  by rewrite Z2Nat.inj_mul by lia.
Qed.

Lemma set_pixel32 d x y p : length d = 4096%nat -> exists d', set_pixel_safe d x y 32 32 32 p = Some d' /\ length d' = 4096%nat /\
  forall x' y', 0 <= x' < 32 -> 0 <= y' < 32 -> pixel d' x' y' = if decide (x' = x /\ y' = y) then Some (u32 p) else pixel d x' y'.
Proof.
  intros Hd. unfold set_pixel_safe, outside. cbn [Z.eqb Pos.eqb].
  destruct (Z.ltb_spec x 0); cbn [orb]; [exists d; split_and!; try done; intros; by rewrite decide_False by lia|].
  destruct (Z.ltb_spec y 0); cbn [orb]; [exists d; split_and!; try done; intros; by rewrite decide_False by lia|].
  destruct (Z.leb_spec 32 x); cbn [orb]; [exists d; split_and!; try done; intros; by rewrite decide_False by lia|].
  destruct (Z.leb_spec 32 y); cbn [orb]; [exists d; split_and!; try done; intros; by rewrite decide_False by lia|].
  rewrite store_inside by (rewrite ?length_le; lia). eexists. split; [reflexivity|].
  assert (length (splice (Z.to_nat (4 * (y * 32 + x))) (le32 p) d) = 4096%nat) as Hl by (rewrite length_splice; rewrite ?length_le; lia).
  split; [done|]. intros x' y' Hx' Hy'. rewrite !pixel_in by done. rewrite Z2Nat.inj_mul by lia. change (Z.to_nat 4) with 4%nat.
  rewrite load_splice by lia. destruct (decide (x' = x /\ y' = y)) as [[-> ->]|Hne].
  - rewrite decide_True by done. by rewrite le_val_le32.
  - rewrite decide_False by lia. done.
Qed.

(** ** Loops *)

(** An invariant on what has been done. *)
Lemma for_each_inv {A S} (Inv : list A -> S -> Prop) l (body_ : A -> S -> option S) s :
  Inv [] s -> (forall done_ a s, a ∈ l -> Inv done_ s -> exists s', body_ a s = Some s' /\ Inv (done_ ++ [a]) s') ->
  exists s', for_each l body_ s = Some s' /\ Inv l s'.
Proof.
  intros H0 Hstep. assert (forall l2 l1 s, l = l1 ++ l2 -> Inv l1 s -> exists s', for_each l2 body_ s = Some s' /\ Inv l s') as H.
  { intros l2. induction l2 as [|a l2 IH]; intros l1 s1 E H1; cbn [for_each].
    - exists s1. rewrite app_nil_r in E. by subst.
    - destruct (Hstep l1 a s1) as (s2 & -> & H2); [rewrite E; set_solver|done|]. cbn [mbind option_bind].
      apply (IH (l1 ++ [a])); [by rewrite <-app_assoc|done]. }
  by apply (H l []).
Qed.

(** The pixels of [D] are drawn, the others are not. *)
Definition drawn (value : Z -> Z -> Z) (D : Z -> Z -> Prop) (d : list Z) : Prop :=
  length d = 4096%nat /\ forall x y, 0 <= x < 32 -> 0 <= y < 32 ->
    (D x y -> pixel d x (31 - y) = Some (u32 (value x y))) /\ (~ D x y -> pixel d x (31 - y) = Some 0).

Lemma drawn_ext value (D1 D2 : Z -> Z -> Prop) d : (forall x y, D1 x y <-> D2 x y) -> drawn value D1 d -> drawn value D2 d.
Proof. intros H [Hl Hd]. split; [done|]. intros x y Hx Hy. rewrite <-H. by apply Hd. Qed.

(** Two loops that draw [value x y] at [x] and [31 - y]. *)
Lemma draw_loops (value : Z -> Z -> Z) (xs ys : list Z) (step : Z -> Z -> list Z -> option (list Z)) d :
  (forall x y d, x ∈ xs -> y ∈ ys -> step y x d = set_pixel_safe d x (31 - y) 32 32 32 (value x y)) ->
  drawn value (fun _ _ => False) d ->
  exists d', for_each ys (fun y => for_each xs (step y)) d = Some d' /\ drawn value (fun x y => x ∈ xs /\ y ∈ ys) d'.
Proof.
  intros Hstep Hd. apply (for_each_inv (fun ys' => drawn value (fun x y => x ∈ xs /\ y ∈ ys'))).
  { eapply drawn_ext; [|exact Hd]. intros x y. rewrite elem_of_nil. tauto. }
  intros ys' y d1 Hy H1.
  destruct (for_each_inv (fun xs' => drawn value (fun x' y' => (x' ∈ xs /\ y' ∈ ys') \/ (x' ∈ xs' /\ y' = y))) xs (step y) d1) as (d2 & E2 & H2).
  - eapply drawn_ext; [|exact H1]. intros x' y'. rewrite elem_of_nil. tauto.
  - intros xs' x d2 Hx [Hl2 H2]. rewrite Hstep by done. destruct (set_pixel32 d2 x (31 - y) (value x y) Hl2) as (d3 & -> & Hl3 & H3).
    exists d3. split; [done|]. split; [done|]. intros x' y' Hx' Hy'. rewrite H3, elem_of_app, list_elem_of_singleton by lia.
    destruct (decide (x' = x /\ 31 - y' = 31 - y)) as [[-> Ey]|Hne].
    + assert (y' = y) as -> by lia. split; [done|tauto].
    + destruct (H2 x' y' Hx' Hy') as [Ha Hb]. assert (~ (x' = x /\ y' = y)) by (intros [-> ->]; tauto). split; intros; [apply Ha|apply Hb]; tauto.
  - exists d2. split; [done|]. eapply drawn_ext; [|exact H2]. intros x' y'. cbn. rewrite elem_of_app, list_elem_of_singleton. tauto.
Qed.

Definition blank : list Z := replicate (32 * 32 * 4) 0.

Lemma blank_drawn value : drawn value (fun _ _ => False) blank.
Proof.
  split; [apply length_replicate|]. intros x y Hx Hy. split; [done|]. intros _. rewrite pixel_in by (lia || apply length_replicate).
  unfold blank. rewrite drop_replicate, take_replicate, Nat.min_l by lia. done.
Qed.

Section CursorFacts.
Context {W : WStream} {L : WStreamLaws W} {P : Pipe} {PL : PipeLaws P} {F : WindowOrder} {C : CursorFormat}.
Context (common0 : RDS_MSG_COMMON).

(** *** Colored cursors *)

(** The pixels of a cursor, when all lines are there. *)
Definition argb_pixel (data : list Z) (w h x y : Z) : Z :=
  if (x <? w) && (y <? h) then le_val (take 4 (drop (4 * Z.to_nat (y * w + x)) data)) else 0.

Lemma draw_argb_ok data b : 0 <= cb_width b -> 0 <= cb_height b -> PixmapBytePad (cb_width b) = 4 * cb_width b ->
  Z.of_nat (length data) = 4 * cb_width b * cb_height b ->
  exists d, draw_argb data b blank = Some d /\ drawn (argb_pixel data (cb_width b) (cb_height b)) (fun x y => 0 <= x < 32 /\ 0 <= y < 32) d.
Proof.
  set (w := cb_width b). set (h := cb_height b). intros Hw Hh Hpad Hlen. unfold draw_argb. fold w h. rewrite Hpad, (Z.mul_comm 4 w), Z.div_mul by done.
  destruct (draw_loops (argb_pixel data w h) (seqZ 0 32) (seqZ 0 32)
    (fun j i cur => p ← get_pixel_safe data i j w h 32; set_pixel_safe cur i (31 - j) 32 32 32 p) blank) as (d & E & Hd).
  - intros x y d [Hx _]%elem_of_seqZ [Hy _]%elem_of_seqZ. unfold get_pixel_safe, outside, argb_pixel.
    rewrite (proj2 (Z.ltb_ge x 0)), (proj2 (Z.ltb_ge y 0)) by lia. cbn [orb Z.eqb Pos.eqb].
    destruct (Z.leb_spec w x), (Z.leb_spec h y), (Z.ltb_spec x w), (Z.ltb_spec y h); try lia; cbn [orb andb mbind option_bind]; try done.
    unfold load32. rewrite (proj2 (Z.ltb_ge (y * w + x) 0)) by nia. rewrite (proj2 (Z.ltb_ge (Z.of_nat (length data)) _)) by nia. cbn [orb mbind option_bind].
    by rewrite Z2Nat.inj_mul by nia.
  - apply blank_drawn.
  - exists d. split; [exact E|]. eapply drawn_ext; [|exact Hd]. intros x y. cbn beta. rewrite !elem_of_seqZ. lia.
Qed.

(** *** Cursors of two colors *)

Definition bit_of (line : list Z) (x : Z) : bool := default false (GetBit line x).

Definition bits_pixel (src msk : list Z) (fg bg stride x y : Z) : Z :=
  let line := drop (Z.to_nat (y * stride)) in
  if bit_of (line msk) x then if bit_of (line src) x then fg else bg else ARGB32 0 0 0 0.

Lemma get_bit_ok line x : 0 <= x -> x < 8 * Z.of_nat (length line) -> GetBit line x = Some (bit_of line x).
Proof.
  intros H0 Hx. unfold bit_of. assert (is_Some (GetBit line x)) as [b ->]; [|done]. unfold GetBit, load8.
  rewrite (Z.shiftr_div_pow2 x 3) by lia. change (2 ^ 3) with 8. assert (0 <= x / 8 < Z.of_nat (length line)) as Hd.
  { split; [apply Z.div_pos; lia|]. apply Z.div_lt_upper_bound; lia. }
  rewrite (proj2 (Z.ltb_ge _ _)) by lia.
  destruct (lookup_lt_is_Some_2 line (Z.to_nat (x / 8))) as [c ->]; [lia|]. cbn. by eexists.
Qed.

Lemma draw_bits_ok src msk fg bg b : 0 <= cb_width b -> 0 <= cb_height b -> cb_width b <= 8 * BitmapBytePad (cb_width b) ->
  Z.of_nat (length src) = BitmapBytePad (cb_width b) * cb_height b -> length msk = length src ->
  exists d, draw_bits src msk fg bg b blank = Some d /\
    drawn (bits_pixel src msk fg bg (BitmapBytePad (cb_width b))) (fun x y => 0 <= x < cb_width b /\ 0 <= y < cb_height b) d.
Proof.
  set (w := cb_width b). set (h := cb_height b). intros Hw Hh Hpad Hs Hm. unfold draw_bits. fold w h. set (st := BitmapBytePad w) in *.
  destruct (draw_loops (bits_pixel src msk fg bg st) (seqZ 0 w) (seqZ 0 h)
    (fun i j cur => p ← cursor_pixel fg bg (drop (Z.to_nat (i * st)) src) (drop (Z.to_nat (i * st)) msk) j; set_pixel_safe cur j (31 - i) 32 32 32 p) blank)
    as (d & E & Hd).
  - intros x y d Hx%elem_of_seqZ Hy%elem_of_seqZ. unfold cursor_pixel, bits_pixel.
    assert (forall l, Z.of_nat (length l) = st * h -> GetBit (drop (Z.to_nat (y * st)) l) x = Some (bit_of (drop (Z.to_nat (y * st)) l) x)) as Hget.
    { intros l Hl. apply get_bit_ok; [lia|]. rewrite length_drop. assert (0 <= st) by lia. assert (0 <= y * st) by nia. assert (y * st + st <= st * h) by nia. lia. }
    rewrite Hget by lia. destruct (bit_of (drop _ msk) x); [|done]. rewrite Hget by lia. done.
  - apply blank_drawn.
  - exists d. split; [exact E|]. eapply drawn_ext; [|exact Hd]. intros x y. cbn beta. rewrite !elem_of_seqZ. lia.
Qed.

(** *** The message *)

Definition pointer_message (w0 h0 : Z) (b : cursor_bits) (d : list Z) : msg_body :=
  mSetPointer (SetPointer.mk 32 (xhot b) (yhot b) w0 h0 0 0 (Some d) (Some (replicate (32 * (32 / 8)) 0))).

Lemma pointer_writable w0 h0 b d : is_u32 (xhot b) -> is_u32 (yhot b) -> length d = 4096%nat ->
  writable common0 RDS_SERVER_SET_POINTER (pointer_message w0 h0 b d).
Proof.
  intros Hx Hy Hd. set (m := SetPointer.mk 32 (xhot b) (yhot b) w0 h0 0 0 (Some d) (Some (replicate (32 * (32 / 8)) 0))).
  assert (SetPointer.ok_set_pointer m) as Hok.
  { split; [done|]. split; [done|]. split; [split; vm_compute; congruence|]. split; [split; vm_compute; congruence|]. split; [split; vm_compute; congruence|].
    split; [exists d; split; [done|]; rewrite Hd; vm_compute; congruence|]. eexists. split; [reflexivity|]. vm_compute. congruence. }
  split; [exact Hok|]. split; [done|]. split; [done|]. rewrite length_wire_msg.
  change (wire_body (pointer_message w0 h0 b d)) with (SetPointer.wire_set_pointer (SetPointer.norm_set_pointer m)).
  rewrite SetPointer.length_wire_set_pointer by exact Hok. vm_compute. congruence.
Qed.

(** What is drawn for a cursor, and where. *)
Definition cursor_image (b : cursor_bits) (fg bg : Z * Z * Z) : (Z -> Z -> Z) * (Z -> Z -> Prop) :=
  match argb b, source b with
  | Some data, _ => (argb_pixel data (cb_width b) (cb_height b), fun x y => 0 <= x < 32 /\ 0 <= y < 32)
  | None, Some src => (bits_pixel src (default [] (mask b)) (color_of fg) (color_of bg) (BitmapBytePad (cb_width b)),
                       fun x y => 0 <= x < cb_width b /\ 0 <= y < cb_height b)
  | None, None => (fun _ _ => 0, fun _ _ => False)
  end.

(** All lines of the cursor are there. *)
Definition cursor_ok (b : cursor_bits) : Prop :=
  0 <= cb_width b /\ 0 <= cb_height b /\ is_u32 (xhot b) /\ is_u32 (yhot b) /\
  PixmapBytePad (cb_width b) = 4 * cb_width b /\ cb_width b <= 8 * BitmapBytePad (cb_width b) /\
  match argb b, source b with
  | Some data, _ => Z.of_nat (length data) = 4 * cb_width b * cb_height b
  | None, Some src => Z.of_nat (length src) = BitmapBytePad (cb_width b) * cb_height b /\ length (default [] (mask b)) = length src
  | None, None => False
  end.

Lemma cursor_spec w0 h0 b fg bg (bk : rdsBackend x11) : cursor_ok b -> service_ok bk -> g_connected (app bk) = true -> g_active (app bk) = true ->
  exists d bk', rdpSpriteSetCursor common0 w0 h0 (Some (mk_cursor (Some b) fg bg)) bk = Some bk' /\ service_ok bk' /\ drawn (fst (cursor_image b fg bg)) (snd (cursor_image b fg bg)) d /\ app bk' = add_output (o_message (Msg (common (set_type RDS_SERVER_SET_POINTER (Msg common0 tt))) (pointer_message w0 h0 b d))) (attach_x common0 (app bk)).
Proof.
  intros (Hw & Hh & Hx & Hy & Hpp & Hbp & Hb) [O Hu] Hc Ha.
  assert (exists d, drawn (fst (cursor_image b fg bg)) (snd (cursor_image b fg bg)) d /\ rdpSpriteSetCursor common0 w0 h0 (Some (mk_cursor (Some b) fg bg)) bk =
      ('(_, bk) ← rdp_send_update common0 RDS_SERVER_SET_POINTER (pointer_message w0 h0 b d) bk; Some bk)) as (d & Hd & ->).
  { unfold rdpSpriteSetCursor, cursor_image. fold blank. destruct (argb b) as [data|].
    - destruct (draw_argb_ok data b Hw Hh Hpp Hb) as (d & -> & Hd). by exists d.
    - destruct (source b) as [src|]; [|done]. destruct Hb as [Hs Hm].
      destruct (draw_bits_ok src (default [] (mask b)) (color_of fg) (color_of bg) b Hw Hh Hbp Hs Hm) as (d & -> & Hd). by exists d. }
  destruct (send_update_ok common0 RDS_SERVER_SET_POINTER (pointer_message w0 h0 b d) bk O Hu) as (bk' & -> & Hu' & _ & O' & Ea).
  - apply pointer_writable; [done|done|apply Hd].
  - done.
  - exists d, bk'. rewrite Hc, Ha in Ea. split; [done|]. split; [by split|]. by split.
Qed.
End CursorFacts.
