(* ===== verification/X11Draw.v ===== *)
(** * The X11 module: drawing

    module/X11/service/rdpGCOps.c, rdpDraw.c and rdpWindow.c: the operations of
    the X server that draw.  Each one calls the operation that it wraps and then
    reports what has been drawn, as areas of the framebuffer or as orders.  The
    result of a definition here is the list of these calls ([command]); none of
    them depends on the result of another.  [draws] says which pixels an operation
    changes, [marked] which pixels a list of messages changes; [perform_covers]
    and [commands_run] relate them.

    The regions of the X server are the class [XRegion] with its laws; what the
    messages leave uninitialised is a parameter.  Boxes, points, segments and
    rectangles have 16-bit fields. *)

From stdpp Require Import sets list.
From S2P Require Import Prelude WStream Message ClientMsg ServerMsg VarMsg SessionMsg WindowMsg MsgTable TableFacts Pipe Transport Outbound OutboundFacts PipelineFacts EncoderFacts DisplayFacts X11 X11Facts.
#[local] Open Scope Z_scope.

Record BoxRec := mk_box { bx1 : Z; by1 : Z; bx2 : Z; by2 : Z }.
Record xRectangle := mk_xrect { rx : Z; ry : Z; rw : Z; rh : Z }.
Record xSegment := mk_segment { sx1 : Z; sy1 : Z; sx2 : Z; sy2 : Z }.

Definition in_box (b : BoxRec) (px py : Z) : Prop := bx1 b <= px < bx2 b /\ by1 b <= py < by2 b.
Definition in_xrect (r : xRectangle) (px py : Z) : Prop := rx r <= px < rx r + rw r /\ ry r <= py < ry r + rh r.

(** A pixel whose coordinates have 16 bits. *)
Definition is_i16 (z : Z) : Prop := - 2 ^ 15 <= z < 2 ^ 15 - 1.

Class XRegion := {
  region : Type;
  REGION_RECTS : region -> list BoxRec;
  RegionNull : region;  (* RegionInit(&reg, NullBox, 0) *)
  RegionInit : BoxRec -> region;
  RegionIntersect : region -> region -> region;
  RegionTranslate : region -> Z -> Z -> region;
  RegionFromRects : list xRectangle -> region;
  RegionContainsRect : region -> BoxRec -> bool;  (* == rgnIN *)
  RegionExtents : region -> BoxRec;
  RegionNotEmpty : region -> bool;
}.

Definition in_region `{XRegion} (r : region) (px py : Z) : Prop := exists b, b ∈ REGION_RECTS r /\ in_box b px py.

(** What a region contains. *)
Class XRegionLaws (X : XRegion) : Prop := {
  region_init b px py : in_region (RegionInit b) px py <-> in_box b px py;
  region_intersect r1 r2 px py : in_region (RegionIntersect r1 r2) px py <-> in_region r1 px py /\ in_region r2 px py;
  region_translate r dx dy px py : is_i16 px -> is_i16 py -> in_region (RegionTranslate r dx dy) px py <-> in_region r (px - dx) (py - dy);
  region_rects l px py : is_i16 px -> is_i16 py -> in_region (RegionFromRects l) px py <-> exists r, r ∈ l /\ in_xrect r px py;
  region_extents r px py : in_region r px py -> in_box (RegionExtents r) px py;
  region_empty r px py : RegionNotEmpty r = false -> ~ in_region r px py;
}.

(** ** Calls *)

Inductive command :=
| c_area (x y w h : Z)  (* rdp_send_area_update *)
| c_set_clip (x y w h : Z)
| c_reset_clip
| c_update (type : Z) (b : msg_body).  (* rdp_send_update *)

Definition area_of (b : BoxRec) : command := c_area (bx1 b) (by1 b) (bx2 b - bx1 b) (by2 b - by1 b).
Definition clip_to (b : BoxRec) : command := c_set_clip (bx1 b) (by1 b) (bx2 b - bx1 b) (by2 b - by1 b).

(** [box.x1 = x; box.y1 = y; box.x2 = box.x1 + w; box.y2 = box.y1 + h;] *)
Definition box_at (x y w h : Z) : BoxRec :=
  let x1 := i16 x in let y1 := i16 y in mk_box x1 y1 (i16 (x1 + w)) (i16 (y1 + h)).

Section Draw.
Context {X : XRegion}.

(** ** Drawables and graphics contexts *)

Inductive drawable_type := DRAWABLE_PIXMAP | DRAWABLE_WINDOW (viewable : bool) (borderClip clipList : region).

Record drawable := mk_drawable { d_type : drawable_type; d_x : Z; d_y : Z; d_width : Z; d_height : Z }.

Record gc := mk_gc {
  alu : Z; fgPixel : Z; lineWidth : Z; line_solid : bool; fillStyle : Z; IncludeInferiors : bool;
  clientClip : option region; clipOrg : Z * Z;
}.

Record font := mk_font {
  f_ascent : Z; f_descent : Z;
  max_ascent : Z; max_descent : Z; max_rightSideBearing : Z; max_characterWidth : Z; min_leftSideBearing : Z;
}.

(** The screen and the pixel mask for colors; the fields of messages that are
    not set. *)
Context (s : Screen.rdpScreenInfoRec) (g_Bpp_mask_ : Z) (line0 : LineTo.RDS_MSG_LINE_TO) (rop0 : Z).

Definition rdp_get_clip (d : drawable) (g : gc) : Z * region :=
  match d_type d with
  | DRAWABLE_PIXMAP =>
      match clientClip g with
      | Some r => (if RegionContainsRect r (mk_box 0 0 (i16 (d_width d)) (i16 (d_height d))) then 1 else 2, r)
      | None => (1, RegionNull)
      end
  | DRAWABLE_WINDOW viewable borderClip clipList =>
      if negb viewable then (0, RegionNull) else
      let temp := if IncludeInferiors g then borderClip else clipList in
      if negb (RegionNotEmpty temp) then (0, RegionNull) else
      let r := match clientClip g with
               | Some c => RegionIntersect (RegionTranslate c (d_x d + fst (clipOrg g)) (d_y d + snd (clipOrg g))) temp
               | None => temp
               end in
      (if RegionContainsRect r (mk_box 0 0 (i16 (Screen.width s)) (i16 (Screen.height s))) then 1 else 2, r)
  end.

(** The tests that set [post_process]. *)
Definition post_process (d : drawable) : bool := match d_type d with DRAWABLE_WINDOW viewable _ _ => viewable | DRAWABLE_PIXMAP => false end.

(** [cd = rdp_get_clip(&clip_reg, ...)] of a drawable that needs reporting,
    and the two branches that follow. *)
Definition reporting (d : drawable) (g : gc) (unclipped : list command) (clipped : region -> list command) : list command :=
  if negb (post_process d) then [] else
  let '(cd, r) := rdp_get_clip d g in
  if cd =? 1 then unclipped else if cd =? 2 then clipped r else [].

(** [for (j = REGION_NUM_RECTS(r) - 1; j >= 0; j--) rdp_send_area_update(...)] *)
Definition areas (r : region) : list command := area_of <$> rev (REGION_RECTS r).

(** The same loop with a clipping region and [cmds] in its body. *)
Definition per_clip (boxes : list BoxRec) (cmds : list command) : list command := flat_map (fun b => clip_to b :: cmds) boxes.

(** ** Operations of graphics contexts *)

Definition rdpFillSpans (d : drawable) (g : gc) : list command := reporting d g [] (fun _ => []).
Definition rdpSetSpans (d : drawable) (g : gc) : list command := reporting d g [] (fun _ => []).

Definition rdpPutImage (d : drawable) (g : gc) (x y w h : Z) : list command :=
  let area := c_area (d_x d + x) (d_y d + y) w h in
  reporting d g [area] (fun r => per_clip (rev (REGION_RECTS r)) [area] ++ [c_reset_clip]).

Definition screen_blt (x y w h sx sy : Z) : command := c_update RDS_SERVER_SCREEN_BLT (mScreenBlt (ScreenBlt.mk x y w h rop0 sx sy)).

Definition rdpCopyAreaWndToWnd (src dst : drawable) (g : gc) (srcx srcy w h dstx dsty : Z) : list command :=
  let blt := screen_blt (d_x dst + dstx) (d_y dst + dsty) w h (d_x src + srcx) (d_y src + srcy) in
  let '(cd, r) := rdp_get_clip dst g in
  if cd =? 1 then [blt] else
  if cd =? 2 then
    if (0 <? length (REGION_RECTS r))%nat then
      let dx := dstx - srcx in
      let dy := dsty - srcy in
      let boxes := if (dy <? 0) || ((dy =? 0) && (dx <? 0)) then REGION_RECTS r else rev (REGION_RECTS r) in
      per_clip boxes [blt] ++ [c_reset_clip]
    else []
  else [].

(** The part of [rdpCopyArea] and of [rdpCopyPlane] after the original call. *)
Definition report_copy (d : drawable) (g : gc) (w h dstx dsty : Z) : list command :=
  reporting d g [c_area (d_x d + dstx) (d_y d + dsty) w h] (fun r =>
    if (0 <? length (REGION_RECTS r))%nat then
      let r := RegionIntersect r (RegionInit (box_at (d_x d + dstx) (d_y d + dsty) w h)) in
      if (length (REGION_RECTS r) <? 10)%nat then areas r else [area_of (RegionExtents r)]
    else []).

Definition GXcopy : Z := 3.

Definition rdpCopyArea (src dst : drawable) (g : gc) (srcx srcy w h dstx dsty : Z) : list command :=
  if post_process src && post_process dst && (alu g =? GXcopy)
  then rdpCopyAreaWndToWnd src dst g srcx srcy w h dstx dsty
  else report_copy dst g w h dstx dsty.

Definition rdpCopyPlane (dst : drawable) (g : gc) (w h dstx dsty : Z) : list command := report_copy dst g w h dstx dsty.

Definition opaque_rect (g : gc) (x y w h : Z) : command :=
  c_update RDS_SERVER_OPAQUE_RECT (mOpaqueRect (OpaqueRect.mk x y w h (rdp_convert_color g_Bpp_mask_ s (fgPixel g)))).

(** [total_box] is not used. *)
Definition rdpPolyPoint (d : drawable) (g : gc) (in_pts : list (Z * Z)) : list command :=
  let points := (fun '(x, y) => opaque_rect g (i16 (d_x d + x)) (i16 (d_y d + y)) 1 1) <$> in_pts in
  reporting d g points (fun r =>
    if (0 <? length in_pts)%nat && (0 <? length (REGION_RECTS r))%nat
    then per_clip (rev (REGION_RECTS r)) points ++ [c_reset_clip] else []).

(** The end points of the segments after the first point [x1], [y1]. *)
Fixpoint polyline (origin : bool) (dx dy x1 y1 : Z) (pts : list (Z * Z)) : list xSegment :=
  match pts with
  | [] => []
  | (x, y) :: pts =>
      let x2 := if origin then i16 (x + dx) else i16 (x1 + x) in
      let y2 := if origin then i16 (y + dy) else i16 (y1 + y) in
      mk_segment x1 y1 x2 y2 :: polyline origin dx dy x2 y2 pts
  end.

Definition line_to (g : gc) (l : xSegment) : command :=
  c_update RDS_SERVER_LINE_TO (mLineTo (LineTo.mk (LineTo.backMode line0) (sx1 l) (sy1 l) (sx2 l) (sy2 l) (LineTo.backColor line0)
    (rdp_convert_opcode (alu g)) 0 (lineWidth g) (rdp_convert_color g_Bpp_mask_ s (fgPixel g)))).

(** [origin]: [mode == CoordModeOrigin].  Without points [nseg] is -1, which is
    not 0. *)
Definition rdpPolylines (d : drawable) (g : gc) (origin : bool) (pptInit : list (Z * Z)) : list command :=
  let segs := match pptInit with
              | [] => []
              | (x, y) :: pts => polyline origin (d_x d) (d_y d) (i16 (x + d_x d)) (i16 (y + d_y d)) pts
              end in
  let lines := line_to g <$> segs in
  let nseg := Z.of_nat (length pptInit) - 1 in
  reporting d g lines (fun r =>
    if negb (nseg =? 0) && (0 <? length (REGION_RECTS r))%nat
    then per_clip (rev (REGION_RECTS r)) lines ++ [c_reset_clip] else []).

Definition rdpPolySegment (d : drawable) (g : gc) (pSegs : list xSegment) : list command :=
  let segs := (fun l => mk_segment (i16 (sx1 l + d_x d)) (i16 (sy1 l + d_y d)) (i16 (sx2 l + d_x d)) (i16 (sy2 l + d_y d))) <$> pSegs in
  let lines := line_to g <$> segs in
  reporting d g lines (fun r =>
    if (0 <? length pSegs)%nat then per_clip (rev (REGION_RECTS r)) lines ++ [c_reset_clip] else []).

(** The four sides of a rectangle. *)
Definition outline (d : drawable) (lineWidth_ : Z) (r : xRectangle) : list xRectangle :=
  let lw := if lineWidth_ <? 1 then 1 else lineWidth_ in
  let up := lw / 2 in
  let down := 1 + (lw - 1) / 2 in
  let x := rx r + d_x d in
  let y := ry r + d_y d in
  let inner := Z.max (rh r - (up + down)) 0 in
  [mk_xrect (i16 (x - up)) (i16 (y - up)) (u16 (rw r + up + down)) (u16 lw);
   mk_xrect (i16 (x - up)) (i16 (y + down)) (u16 lw) (u16 inner);
   mk_xrect (i16 (x + rw r - up)) (i16 (y + down)) (u16 lw) (u16 inner);
   mk_xrect (i16 (x - up)) (i16 (y + rh r - up)) (u16 (rw r + up + down)) (u16 lw)].

Definition rdpPolyRectangle (d : drawable) (g : gc) (rects : list xRectangle) : list command :=
  let sides := flat_map (outline d (lineWidth g)) rects in
  reporting d g
    ((fun r => if line_solid g then opaque_rect g (rx r) (ry r) (rw r) (rh r) else c_area (rx r) (ry r) (rw r) (rh r)) <$> sides)
    (fun r =>
      if (0 <? length rects)%nat then
        let r := RegionIntersect r (RegionFromRects sides) in
        if line_solid g
        then (fun b => opaque_rect g (bx1 b) (by1 b) (bx2 b - bx1 b) (by2 b - by1 b)) <$> rev (REGION_RECTS r)
        else areas r
      else []).

(** The boxes of arcs, and the report that [rdpPolyArc] and [rdpPolyFillArc]
    share. *)
Definition arc_rect (d : drawable) (g : gc) (a : xRectangle) : xRectangle :=
  let lw := if lineWidth g =? 0 then 1 else lineWidth g in
  let extra := lw / 2 in
  mk_xrect (i16 (rx a - extra + d_x d)) (i16 (ry a - extra + d_y d)) (u16 (rw a + lw)) (u16 (rh a + lw)).

Definition report_arcs (d : drawable) (g : gc) (arcs : list xRectangle) : list command :=
  let tmpRegion := RegionFromRects (arc_rect d g <$> arcs) in
  if (0 <? length arcs)%nat then reporting d g (areas tmpRegion) (fun r => areas (RegionIntersect tmpRegion r)) else [].

Definition rdpPolyArc (d : drawable) (g : gc) (parcs : list xRectangle) : list command := report_arcs d g parcs.
Definition rdpPolyFillArc (d : drawable) (g : gc) (parcs : list xRectangle) : list command := report_arcs d g parcs.

(** A box that is reported as a whole, or where it is not clipped. *)
Definition report_box (d : drawable) (g : gc) (b : BoxRec) : list command :=
  reporting d g [area_of b] (fun r => areas (RegionIntersect r (RegionInit b))).

Definition polygon_box (d : drawable) (pts : list (Z * Z)) : BoxRec :=
  match pts with
  | [] => mk_box 0 0 0 0
  | (x, y) :: pts =>
      let minx := foldl (fun m p => if fst p <? m then fst p else m) x pts in
      let maxx := foldl (fun m p => if m <? fst p then fst p else m) x pts in
      let miny := foldl (fun m p => if snd p <? m then snd p else m) y pts in
      let maxy := foldl (fun m p => if m <? snd p then snd p else m) y pts in
      mk_box (i16 (d_x d + minx)) (i16 (d_y d + miny)) (i16 (d_x d + maxx + 1)) (i16 (d_y d + maxy + 1))
  end.

Definition rdpFillPolygon (d : drawable) (g : gc) (pts : list (Z * Z)) : list command := report_box d g (polygon_box d pts).

(** The loops of [rdpPolyFillRect]: a solid fill has an order. *)
Definition report_fill (g : gc) (r : region) : list command :=
  let rop := rdp_dstblt_rop (alu g) in
  if (fillStyle g =? 0) && negb (rop =? 0)
  then (fun b => c_update RDS_SERVER_DSTBLT (mDstBlt (DstBlt.mk (bx1 b) (by1 b) (bx2 b - bx1 b) (by2 b - by1 b) rop))) <$> rev (REGION_RECTS r)
  else areas r.

Definition rdpPolyFillRect (d : drawable) (g : gc) (rects : list xRectangle) : list command :=
  let fill_reg := RegionTranslate (RegionFromRects rects) (d_x d) (d_y d) in
  reporting d g (report_fill g fill_reg) (fun r => report_fill g (RegionIntersect r fill_reg)).

Definition GetTextBoundingBox (d : drawable) (f : font) (x y n : Z) : BoxRec :=
  let maxAscent := if max_ascent f <? f_ascent f then f_ascent f else max_ascent f in
  let maxDescent := if max_descent f <? f_descent f then f_descent f else max_descent f in
  let maxCharWidth := if max_characterWidth f <? max_rightSideBearing f then max_rightSideBearing f else max_characterWidth f in
  let x1 := i16 (d_x d + x) in
  let y1 := i16 (d_y d + y - maxAscent) in
  mk_box (if min_leftSideBearing f <? 0 then i16 (x1 + min_leftSideBearing f) else x1) y1
    (i16 (x1 + maxCharWidth * n)) (i16 (y1 + maxAscent + maxDescent)).

Definition report_text (d : drawable) (g : gc) (f : font) (x y n : Z) : list command :=
  if n =? 0 then [] else report_box d g (GetTextBoundingBox d f x y n).

Definition rdpPolyText8 := report_text.
Definition rdpPolyText16 := report_text.
Definition rdpImageText8 := report_text.
Definition rdpImageText16 := report_text.
Definition rdpImageGlyphBlt := report_text.
Definition rdpPolyGlyphBlt := report_text.

Definition rdpPushPixels (d : drawable) (g : gc) (w h x y : Z) : list command :=
  reporting d g [c_area (d_x d + x) (d_y d + y) w h] (fun r => areas (RegionIntersect r (RegionInit (box_at (d_x d + x) (d_y d + y) w h)))).

(** ** Pictures and windows *)

Definition rdpRestoreAreas (exposed : region) : list command := areas exposed.

Definition rdpComposite (d : drawable) (pCompositeClip : option region) (xDst yDst width height : Z) : list command :=
  if negb (post_process d) then [] else
  let b := box_at (d_x d + xDst) (d_y d + yDst) width height in
  match pCompositeClip with
  | Some clip => areas (RegionIntersect (RegionInit b) clip)
  | None => [area_of b]
  end.

(** A glyph: its offset, size and advance. *)
Record glyph := mk_glyph { g_x : Z; g_y : Z; g_width : Z; g_height : Z; g_xOff : Z; g_yOff : Z }.

Definition MAXSHORT : Z := 32767.
Definition MINSHORT : Z := -32768.

Definition glyph_step (st : Z * Z * BoxRec) (gl : glyph) : Z * Z * BoxRec :=
  let '(x, y, e) := st in
  let x1 := Z.max (x - g_x gl) MINSHORT in
  let y1 := Z.max (y - g_y gl) MINSHORT in
  let x2 := Z.min (x1 + g_width gl) MAXSHORT in
  let y2 := Z.min (y1 + g_height gl) MAXSHORT in
  (x + g_xOff gl, y + g_yOff gl,
   mk_box (if x1 <? bx1 e then i16 x1 else bx1 e) (if y1 <? by1 e then i16 y1 else by1 e)
          (if bx2 e <? x2 then i16 x2 else bx2 e) (if by2 e <? y2 then i16 y2 else by2 e)).

(** A list of glyphs with the offset of its start. *)
Definition GlyphExtents (lists : list (Z * Z * list glyph)) : BoxRec :=
  snd (foldl (fun st '(xOff, yOff, glyphs) => let '(x, y, e) := st in foldl glyph_step (x + xOff, y + yOff, e) glyphs)
    (0, 0, mk_box MAXSHORT MAXSHORT MINSHORT MINSHORT) lists).

Definition rdpGlyphs (lists : list (Z * Z * list glyph)) : list command := [area_of (GlyphExtents lists)].

Definition rdpCopyWindow (d : drawable) (borderClip : region) (oldx oldy : Z) (prgnSrc : region) : list command :=
  let dx := d_x d - oldx in
  let dy := d_y d - oldy in
  let order {A} (l : list A) := if (dy <? 0) || ((dy =? 0) && (dx <? 0)) then l else rev l in
  let blts := (fun b => screen_blt (bx1 b + dx) (by1 b + dy) (bx2 b - bx1 b) (by2 b - by1 b) (bx1 b) (by1 b)) <$> order (REGION_RECTS prgnSrc) in
  per_clip (order (REGION_RECTS borderClip)) blts ++ [c_reset_clip].

Definition rdpClearToBackground (d : drawable) (clipList : region) (x y w h : Z) (generateExposures : bool) : list command :=
  if generateExposures then [] else
  let b := if (0 <? w) && (0 <? h) then box_at x y w h else box_at (d_x d) (d_y d) (d_width d) (d_height d) in
  areas (RegionIntersect (RegionInit b) clipList).

(** ** One operation of a graphics context

    The operations for text are the same function here; [rdpFillSpans] and
    [rdpSetSpans], which report nothing, are left out. *)

Inductive operation :=
| op_put_image (x y w h : Z)
| op_copy_area (src : drawable) (srcx srcy w h dstx dsty : Z)
| op_copy_plane (w h dstx dsty : Z)
| op_points (pts : list (Z * Z))
| op_lines (origin : bool) (pts : list (Z * Z))
| op_segments (segs : list xSegment)
| op_rectangles (rects : list xRectangle)
| op_arcs (arcs : list xRectangle)
| op_polygon (pts : list (Z * Z))
| op_fill_rects (rects : list xRectangle)
| op_fill_arcs (arcs : list xRectangle)
| op_text (f : font) (x y n : Z)
| op_push_pixels (w h x y : Z).

Definition perform (d : drawable) (g : gc) (op : operation) : list command :=
  match op with
  | op_put_image x y w h => rdpPutImage d g x y w h
  | op_copy_area src srcx srcy w h dstx dsty => rdpCopyArea src d g srcx srcy w h dstx dsty
  | op_copy_plane w h dstx dsty => rdpCopyPlane d g w h dstx dsty
  | op_points pts => rdpPolyPoint d g pts
  | op_lines origin pts => rdpPolylines d g origin pts
  | op_segments segs => rdpPolySegment d g segs
  | op_rectangles rects => rdpPolyRectangle d g rects
  | op_arcs arcs => rdpPolyArc d g arcs
  | op_polygon pts => rdpFillPolygon d g pts
  | op_fill_rects rects => rdpPolyFillRect d g rects
  | op_fill_arcs arcs => rdpPolyFillArc d g arcs
  | op_text f x y n => rdpPolyText8 d g f x y n
  | op_push_pixels w h x y => rdpPushPixels d g w h x y
  end.

(** ** What an operation draws *)

(** The pixels of a line of some width between two points. *)
Context (line : Z -> Z -> Z -> Z -> Z -> Z -> Z -> Prop).

(** The segments of a polyline in the coordinates of the screen. *)
Fixpoint path (origin : bool) (dx dy x1 y1 : Z) (pts : list (Z * Z)) : list xSegment :=
  match pts with
  | [] => []
  | (x, y) :: pts =>
      let x2 := if origin then dx + x else x1 + x in
      let y2 := if origin then dy + y else y1 + y in
      mk_segment x1 y1 x2 y2 :: path origin dx dy x2 y2 pts
  end.

Definition path_of (d : drawable) (origin : bool) (pts : list (Z * Z)) : list xSegment :=
  match pts with [] => [] | (x, y) :: pts => path origin (d_x d) (d_y d) (d_x d + x) (d_y d + y) pts end.

Definition on_line (w : Z) (l : xSegment) (px py : Z) : Prop := line w (sx1 l) (sy1 l) (sx2 l) (sy2 l) px py.

Definition moved (d : drawable) (l : xSegment) : xSegment := mk_segment (sx1 l + d_x d) (sy1 l + d_y d) (sx2 l + d_x d) (sy2 l + d_y d).

(** Between the edges of the stroke of a rectangle. *)
Definition on_stroke (d : drawable) (lw : Z) (r : xRectangle) (px py : Z) : Prop :=
  let x := d_x d + rx r in
  let y := d_y d + ry r in
  let up := lw / 2 in
  let down := (lw + 1) / 2 in
  x - up <= px < x + rw r + down /\ y - up <= py < y + rh r + down /\
  ~ (x + down <= px < x + rw r - up /\ y + down <= py < y + rh r - up).

(** Between the least and the greatest coordinates of the points. *)
Definition among (pts : list (Z * Z)) (px py : Z) : Prop :=
  (exists p, p ∈ pts /\ fst p <= px) /\ (exists p, p ∈ pts /\ px <= fst p) /\ (exists p, p ∈ pts /\ snd p <= py) /\ (exists p, p ∈ pts /\ py <= snd p).

(** The pixels that an operation may change, without the clipping.  The points of
    [op_points] and [op_polygon] are relative to the window (CoordModeOrigin); the
    code does not look at their mode. *)
Definition draws (d : drawable) (g : gc) (op : operation) (px py : Z) : Prop :=
  match op with
  | op_put_image x y w h | op_push_pixels w h x y => in_area (d_x d + x) (d_y d + y) w h px py
  | op_copy_area _ _ _ w h dstx dsty | op_copy_plane w h dstx dsty => in_area (d_x d + dstx) (d_y d + dsty) w h px py
  | op_points pts => (px - d_x d, py - d_y d) ∈ pts
  | op_lines origin pts => exists l, l ∈ path_of d origin pts /\ on_line (lineWidth g) l px py
  | op_segments segs => exists l, l ∈ segs /\ on_line (lineWidth g) (moved d l) px py
  | op_rectangles rects => exists r, r ∈ rects /\ on_stroke d (Z.max 1 (lineWidth g)) r px py
  | op_arcs arcs => exists a, a ∈ arcs /\
      let lw := Z.max 1 (lineWidth g) in
      in_xrect (mk_xrect (rx a - lw / 2) (ry a - lw / 2) (rw a + lw) (rh a + lw)) (px - d_x d) (py - d_y d)
  | op_fill_arcs rects | op_fill_rects rects => exists r, r ∈ rects /\ in_xrect r (px - d_x d) (py - d_y d)
  | op_polygon pts => among pts (px - d_x d) (py - d_y d)
  | op_text f x y n => 0 < n /\
      d_x d + x + Z.min 0 (min_leftSideBearing f) <= px < d_x d + x + Z.max (max_characterWidth f) (max_rightSideBearing f) * n /\
      d_y d + y - Z.max (f_ascent f) (max_ascent f) <= py < d_y d + y + Z.max (f_descent f) (max_descent f)
  end.

(** The clipping of a window. *)
Definition visible (d : drawable) (g : gc) (px py : Z) : Prop :=
  match d_type d with
  | DRAWABLE_PIXMAP => False
  | DRAWABLE_WINDOW viewable borderClip clipList =>
      viewable = true /\ in_region (if IncludeInferiors g then borderClip else clipList) px py /\
      forall c, clientClip g = Some c -> in_region c (px - (d_x d + fst (clipOrg g))) (py - (d_y d + snd (clipOrg g)))
  end.

(** A coordinate that has 16 bits. *)
Definition fits (z : Z) : Prop := - 2 ^ 15 <= z < 2 ^ 15.

Definition segment_fits (l : xSegment) : Prop := fits (sx1 l) /\ fits (sy1 l) /\ fits (sx2 l) /\ fits (sy2 l).

Definition area_fits (x y w h : Z) : Prop := fits x /\ fits y /\ fits (x + w) /\ fits (y + h).

(** A rectangle that keeps its place and size when it is widened by [lw]. *)
Definition rect_fits (d : drawable) (lw : Z) (r : xRectangle) : Prop :=
  0 <= rw r /\ 0 <= rh r /\ area_fits (d_x d + rx r - lw) (d_y d + ry r - lw) (rw r + 2 * lw) (rh r + 2 * lw).

(** The coordinates with which an operation computes. *)
Definition op_fits (d : drawable) (g : gc) (op : operation) : Prop :=
  0 <= lineWidth g /\
  match op with
  | op_put_image _ _ _ _ | op_points _ => True
  | op_copy_area _ _ _ w h x y | op_copy_plane w h x y | op_push_pixels w h x y => area_fits (d_x d + x) (d_y d + y) w h
  | op_lines origin pts => Forall segment_fits (path_of d origin pts)
  | op_segments segs => Forall (fun l => segment_fits (moved d l)) segs
  | op_rectangles rects | op_arcs rects | op_fill_arcs rects => Forall (rect_fits d (Z.max 1 (lineWidth g))) rects
  | op_fill_rects rects => Forall (fun r => area_fits (rx r) (ry r) (rw r) (rh r)) rects
  | op_polygon pts => Forall (fun p => area_fits (d_x d + fst p) (d_y d + snd p) 1 1) pts
  | op_text f x y n =>
      let b := mk_box (d_x d + x + Z.min 0 (min_leftSideBearing f)) (d_y d + y - Z.max (f_ascent f) (max_ascent f))
                 (d_x d + x + Z.max (max_characterWidth f) (max_rightSideBearing f) * n) (d_y d + y + Z.max (f_descent f) (max_descent f)) in
      fits (d_x d + x) /\ fits (bx1 b) /\ fits (by1 b) /\ fits (bx2 b) /\ fits (by2 b)
  end.

(** ** What is reported *)

(** The pixels of a message, and the clipping region after it. *)
Definition body_marks (b : msg_body) (px py : Z) : Prop :=
  match b with
  | mPaintRect p => in_area (PaintRect.nLeftRect p) (PaintRect.nTopRect p) (PaintRect.nWidth p) (PaintRect.nHeight p) px py
  | mOpaqueRect r => in_area (OpaqueRect.nLeftRect r) (OpaqueRect.nTopRect r) (OpaqueRect.nWidth r) (OpaqueRect.nHeight r) px py
  | mDstBlt r => in_area (DstBlt.nLeftRect r) (DstBlt.nTopRect r) (DstBlt.nWidth r) (DstBlt.nHeight r) px py
  | mScreenBlt r => in_area (ScreenBlt.nLeftRect r) (ScreenBlt.nTopRect r) (ScreenBlt.nWidth r) (ScreenBlt.nHeight r) px py
  | mLineTo l => line (LineTo.penWidth l) (LineTo.nXStart l) (LineTo.nYStart l) (LineTo.nXEnd l) (LineTo.nYEnd l) px py
  | _ => False
  end.

Definition body_clip (b : msg_body) (clip : option (Z * Z * Z * Z)) : option (Z * Z * Z * Z) :=
  match b with
  | mSetClippingRegion r =>
      if SetClippingRegion.bNullRegion r =? 0
      then Some (SetClippingRegion.nLeftRect r, SetClippingRegion.nTopRect r, SetClippingRegion.nWidth r, SetClippingRegion.nHeight r)
      else None
  | _ => clip
  end.

Definition in_clip (clip : option (Z * Z * Z * Z)) (px py : Z) : Prop :=
  match clip with Some (x, y, w, h) => in_area x y w h px py | None => True end.

(** A pixel that one of the messages changes, with the clipping region that is
    set at that time. *)
Fixpoint marked (clip : option (Z * Z * Z * Z)) (l : list msg_body) (px py : Z) : Prop :=
  match l with
  | [] => False
  | b :: l => in_clip clip px py /\ body_marks b px py \/ marked (body_clip b clip) l px py
  end.

(** A call as a message, an area as it is asked for. *)
Definition body_of (c : command) : msg_body :=
  match c with
  | c_area x y w h => mPaintRect (PaintRect.mk x y w h 0 0 None 0 0 PaintRect.fb_wild)
  | c_set_clip x y w h => mSetClippingRegion (SetClippingRegion.mk 0 x y w h)
  | c_reset_clip => mSetClippingRegion (SetClippingRegion.mk 1 0 0 0 0)
  | c_update _ b => b
  end.

Definition reported (l : list command) (px py : Z) : Prop := marked None (body_of <$> l) px py.
End Draw.

(** ** Facts *)

Lemma i16_fits z : fits z -> i16 z = z.
Proof. unfold fits, i16. intros H. rewrite Z.mod_small; lia. Qed.

Lemma is_i16_fits z : is_i16 z -> fits z.
Proof. unfold is_i16, fits. lia. Qed.

Section Facts.
Context {X : XRegion} {XL : XRegionLaws X}.
Context (line : Z -> Z -> Z -> Z -> Z -> Z -> Z -> Prop).
Abbreviation marked := (marked line).
Abbreviation reported := (reported line).
Abbreviation body_marks := (body_marks line).

Lemma in_area_of b px py : in_box b px py -> body_marks (body_of (area_of b)) px py.
Proof. unfold in_box. cbn. unfold in_area. lia. Qed.

Lemma marked_app_l clip l1 l2 px py : marked clip l1 px py -> marked clip (l1 ++ l2) px py.
Proof. revert clip. induction l1 as [|b l1 IH]; intros clip; [by intros []|]. intros [H|H]; [by left|right]. by apply IH. Qed.

(** Without changes of the clipping region, one message is enough. *)
Lemma marked_elem clip l b px py : Forall (fun b => forall clip, body_clip b clip = clip) l -> b ∈ l -> in_clip clip px py -> body_marks b px py ->
  marked clip l px py.
Proof.
  intros Hl Hb Hc Hm. induction Hl as [|b' l Hb' Hl IH]; [by apply not_elem_of_nil in Hb|].
  apply elem_of_cons in Hb as [->|Hb]; [by left|right]. rewrite Hb'. by apply IH.
Qed.

(** A clipping region replaces the one before. *)
Lemma marked_set clip l x y w h l' px py : marked (Some (x, y, w, h)) l' px py ->
  marked clip (l ++ body_of (c_set_clip x y w h) :: l') px py.
Proof. intros H. revert clip. induction l as [|b l IH]; intros clip; right; [exact H|apply IH]. Qed.

(** Calls that leave the clipping region. *)
Definition keeps_clip (c : command) : Prop := forall clip, body_clip (body_of c) clip = clip.

Lemma reported_elem l c px py : Forall keeps_clip l -> c ∈ l -> body_marks (body_of c) px py -> reported l px py.
Proof.
  intros Hl Hc Hm. apply (marked_elem None _ (body_of c)); [|by apply list_elem_of_fmap_2|done|done]. by apply List.Forall_map.
Qed.

Lemma reported_per_clip boxes cmds rest px py b c : Forall keeps_clip cmds -> b ∈ boxes -> in_box b px py -> c ∈ cmds ->
  body_marks (body_of c) px py -> reported (per_clip boxes cmds ++ rest) px py.
Proof.
  intros Hk Hb Hin Hc Hm. apply list_elem_of_split in Hb as (l1 & l2 & ->). unfold X11Draw.reported, per_clip.
  rewrite flat_map_app, !fmap_app. cbn [flat_map]. rewrite fmap_app. cbn [fmap list_fmap]. rewrite <- !(assoc (++)). apply marked_set.
  cbn [List.app]. apply marked_app_l. apply (marked_elem _ _ (body_of c)); [by apply List.Forall_map|by apply list_elem_of_fmap_2| |done].
  unfold in_box in Hin. unfold in_clip, in_area. lia.
Qed.

Lemma keeps_one c l : keeps_clip c -> Forall keeps_clip l -> Forall keeps_clip (c :: l).
Proof. by constructor. Qed.

Lemma keeps_fmap {A} (f : A -> command) l : (forall a, keeps_clip (f a)) -> Forall keeps_clip (f <$> l).
Proof. intros H. induction l; cbn; constructor; [apply H|done]. Qed.

Lemma reported_areas r px py : in_region r px py -> reported (areas r) px py.
Proof.
  intros (b & Hb & Hin). apply (reported_elem _ (area_of b)).
  - by apply keeps_fmap.
  - apply list_elem_of_fmap_2. rewrite list_elem_of_In, <- in_rev, <- list_elem_of_In. exact Hb.
  - by apply in_area_of.
Qed.

Lemma elem_of_rev {A} (a : A) l : a ∈ rev l <-> a ∈ l.
Proof. by rewrite !list_elem_of_In, <- in_rev. Qed.

Context (s : Screen.rdpScreenInfoRec).

(** A visible pixel lies in the clipping region of the window. *)
Lemma visible_clip d g px py : is_i16 px -> is_i16 py -> visible d g px py ->
  post_process d = true /\ exists cd r, rdp_get_clip s d g = (cd, r) /\ (cd = 1 \/ cd = 2) /\ in_region r px py.
Proof.
  intros Ix Iy. unfold visible, post_process, rdp_get_clip. destruct (d_type d) as [|viewable bc cl]; [by intros []|].
  intros (-> & Hin & Hc). split; [done|]. cbn [negb].
  destruct (RegionNotEmpty _) eqn:E; [|by apply (region_empty _ px py) in E]. cbn [negb]. eexists _, _. split; [reflexivity|].
  split; [destruct (RegionContainsRect _ _); tauto|].
  destruct (clientClip g) as [c|]; [|done]. apply region_intersect. split; [|done]. apply region_translate; auto.
Qed.

Lemma reporting_covers d g unclipped clipped px py : is_i16 px -> is_i16 py -> visible d g px py ->
  reported unclipped px py -> (forall r, in_region r px py -> reported (clipped r) px py) ->
  reported (reporting s d g unclipped clipped) px py.
Proof.
  intros Ix Iy V Hu Hc. destruct (visible_clip d g px py Ix Iy V) as (Hp & cd & r & E & Hcd & Hin). unfold reporting. rewrite Hp, E.
  destruct Hcd as [-> | ->]; [exact Hu|]. by apply Hc.
Qed.

(** A region that contains a pixel has rectangles. *)
Lemma in_region_rects r px py : in_region r px py -> (0 <? length (REGION_RECTS r))%nat = true.
Proof. intros (b & Hb & _). destruct (REGION_RECTS r); [by apply not_elem_of_nil in Hb|done]. Qed.

(** Calls in the clipping region of every rectangle. *)
Lemma clipped_calls r boxes cmds rest c px py : (forall b, b ∈ boxes <-> b ∈ REGION_RECTS r) -> in_region r px py -> Forall keeps_clip cmds ->
  c ∈ cmds -> body_marks (body_of c) px py -> reported (per_clip boxes cmds ++ rest) px py.
Proof. intros Hr (b & Hb & Hin) Hk Hc Hm. eapply reported_per_clip; [done|by apply Hr|done|done|done]. Qed.

Lemma reported_one c px py : body_marks (body_of c) px py -> reported [c] px py.
Proof. intros H. by left. Qed.

(** A box that is intersected with the clipping region. *)
Lemma box_at_fits x y w h px py : area_fits x y w h -> in_box (box_at x y w h) px py <-> in_area x y w h px py.
Proof. intros (Hx & Hy & Hw & Hh). unfold box_at, in_box, in_area. cbn. rewrite (i16_fits x), (i16_fits y) by done. by rewrite !i16_fits. Qed.

Lemma reported_box r b px py : in_region r px py -> in_box b px py -> reported (areas (RegionIntersect r (RegionInit b))) px py.
Proof. intros Hr Hb. apply reported_areas, region_intersect. split; [done|]. by apply region_init. Qed.

Lemma report_box_covers d g b px py : is_i16 px -> is_i16 py -> visible d g px py -> in_box b px py -> reported (report_box s d g b) px py.
Proof.
  intros Ix Iy V Hb. apply reporting_covers; [done..| |intros r Hr; by apply reported_box]. by apply reported_one, in_area_of.
Qed.

Lemma report_copy_covers d g w h x y px py : is_i16 px -> is_i16 py -> visible d g px py -> area_fits (d_x d + x) (d_y d + y) w h ->
  in_area (d_x d + x) (d_y d + y) w h px py -> reported (report_copy s d g w h x y) px py.
Proof.
  intros Ix Iy V Hf Ha. apply reporting_covers; [done..|by apply reported_one|]. intros r Hr. rewrite (in_region_rects r px py Hr).
  cbv zeta. destruct (_ <? 10)%nat; [apply reported_box; [done|by apply box_at_fits]|].
  apply reported_one, in_area_of, region_extents, region_intersect. split; [done|]. by apply region_init, box_at_fits.
Qed.

Context (mask : Z) (line0 : LineTo.RDS_MSG_LINE_TO) (rop0 : Z).

(** Orders that are sent once, or in every rectangle of the clipping region. *)
Lemma orders_cover d g cmds (guard : region -> bool) c px py : is_i16 px -> is_i16 py -> visible d g px py -> Forall keeps_clip cmds ->
  c ∈ cmds -> body_marks (body_of c) px py -> (forall r, in_region r px py -> guard r = true) ->
  reported (reporting s d g cmds (fun r => if guard r then per_clip (rev (REGION_RECTS r)) cmds ++ [c_reset_clip] else [])) px py.
Proof.
  intros Ix Iy V Hk Hc Hm Hg. apply reporting_covers; [done..|by eapply reported_elem|]. intros r Hr. rewrite Hg by done.
  eapply (clipped_calls r); [intros b; apply elem_of_rev|done..].
Qed.

Lemma put_image_covers d g x y w h px py : is_i16 px -> is_i16 py -> visible d g px py -> in_area (d_x d + x) (d_y d + y) w h px py ->
  reported (rdpPutImage s d g x y w h) px py.
Proof.
  intros Ix Iy V Ha. unfold rdpPutImage. eapply (orders_cover d g _ (fun _ => true)); [done..| |by apply list_elem_of_singleton|exact Ha|done].
  by constructor.
Qed.

Lemma copy_windows_covers src d g srcx srcy w h x y px py : is_i16 px -> is_i16 py -> visible d g px py ->
  in_area (d_x d + x) (d_y d + y) w h px py -> reported (rdpCopyAreaWndToWnd s rop0 src d g srcx srcy w h x y) px py.
Proof.
  intros Ix Iy V Ha. destruct (visible_clip d g px py Ix Iy V) as (_ & cd & r & E & Hcd & Hin). unfold rdpCopyAreaWndToWnd. rewrite E.
  destruct Hcd as [-> | ->]; cbn [Z.eqb Pos.eqb]; [by apply reported_one|]. rewrite (in_region_rects r px py Hin).
  eapply (clipped_calls r); [|done| |by apply list_elem_of_singleton|exact Ha]; [|by constructor].
  intros b. destruct (_ || _); [done|apply elem_of_rev].
Qed.

Lemma points_cover d g pts px py : is_i16 px -> is_i16 py -> visible d g px py -> (px - d_x d, py - d_y d) ∈ pts ->
  reported (rdpPolyPoint s mask d g pts) px py.
Proof.
  intros Ix Iy V Hp. unfold rdpPolyPoint. set (cmds := _ <$> pts).
  eapply (orders_cover d g cmds _ (opaque_rect s mask g (i16 (d_x d + (px - d_x d))) (i16 (d_y d + (py - d_y d))) 1 1)); [done..| | | |].
  - apply keeps_fmap. by intros [x y].
  - apply list_elem_of_fmap. by exists (px - d_x d, py - d_y d).
  - cbn. replace (d_x d + (px - d_x d)) with px by lia. replace (d_y d + (py - d_y d)) with py by lia.
    rewrite !i16_fits by (by apply is_i16_fits). unfold in_area. lia.
  - intros r Hr. rewrite (in_region_rects r px py Hr). destruct pts; [by apply not_elem_of_nil in Hp|done].
Qed.

(** The segments as they are computed. *)
Lemma polyline_path origin dx dy pts : forall x1 y1, Forall segment_fits (path origin dx dy x1 y1 pts) ->
  polyline origin dx dy x1 y1 pts = path origin dx dy x1 y1 pts.
Proof.
  induction pts as [|[x y] pts IH]; intros x1 y1; [done|]. cbn. intros H. apply List.Forall_cons_iff in H as [(_ & _ & Hx & Hy) H]. cbn in Hx, Hy.
  rewrite (Z.add_comm x), (Z.add_comm y).
  assert ((if origin then i16 (dx + x) else i16 (x1 + x)) = (if origin then dx + x else x1 + x)) as -> by (destruct origin; by apply i16_fits).
  assert ((if origin then i16 (dy + y) else i16 (y1 + y)) = (if origin then dy + y else y1 + y)) as -> by (destruct origin; by apply i16_fits).
  by rewrite IH.
Qed.

Lemma lines_cover d g origin pts px py : is_i16 px -> is_i16 py -> visible d g px py -> Forall segment_fits (path_of d origin pts) ->
  (exists l, l ∈ path_of d origin pts /\ on_line line (lineWidth g) l px py) -> reported (rdpPolylines s mask line0 d g origin pts) px py.
Proof.
  intros Ix Iy V Hf (l & Hl & Hp). destruct pts as [|[x y] pts]; [by apply not_elem_of_nil in Hl|]. unfold rdpPolylines. cbn [path_of] in Hf, Hl.
  destruct pts as [|[x2 y2] pts]; [by apply not_elem_of_nil in Hl|].
  assert (fits (d_x d + x) /\ fits (d_y d + y)) as [Hx Hy] by (cbn in Hf; apply List.Forall_cons_iff in Hf as [(? & ? & _) _]; done).
  rewrite (Z.add_comm x), (Z.add_comm y), (i16_fits _ Hx), (i16_fits _ Hy), polyline_path by done.
  eapply (orders_cover d g _ _ (line_to s mask line0 g l)); [done..|by apply keeps_fmap|by apply list_elem_of_fmap_2|exact Hp|].
  intros r Hr. rewrite (in_region_rects r px py Hr). destruct (Z.eqb_spec (Z.of_nat (length ((x, y) :: (x2, y2) :: pts)) - 1) 0) as [E|]; [|done].
  cbn [length] in E. lia.
Qed.

Lemma segments_cover d g segs px py : is_i16 px -> is_i16 py -> visible d g px py -> Forall (fun l => segment_fits (moved d l)) segs ->
  (exists l, l ∈ segs /\ on_line line (lineWidth g) (moved d l) px py) -> reported (rdpPolySegment s mask line0 d g segs) px py.
Proof.
  intros Ix Iy V Hf (l & Hl & Hp). unfold rdpPolySegment. set (move := fun l : xSegment => _ : xSegment).
  assert (move l = moved d l) as E.
  { apply list_elem_of_In in Hl. rewrite List.Forall_forall in Hf. destruct (Hf l Hl) as (H1 & H2 & H3 & H4). unfold move, moved. by rewrite !i16_fits. }
  eapply (orders_cover d g _ (fun _ => (0 <? length segs)%nat) (line_to s mask line0 g (moved d l)));
    [done..|by apply keeps_fmap| |exact Hp|].
  - apply list_elem_of_fmap_2. rewrite <- E. by apply list_elem_of_fmap_2.
  - intros r Hr. destruct segs; [by apply not_elem_of_nil in Hl|done].
Qed.

(** The four sides of a rectangle are its stroke. *)
Lemma half_up lw : 1 + (lw - 1) / 2 = (lw + 1) / 2.
Proof. replace (lw + 1) with (lw - 1 + 1 * 2) by lia. rewrite Z.div_add; lia. Qed.

Lemma outline_covers d lw r px py : 0 <= lw -> rect_fits d (Z.max 1 lw) r -> on_stroke d (Z.max 1 lw) r px py ->
  exists q, q ∈ outline d lw r /\ in_xrect q px py.
Proof.
  intros Hlw (Hw & Hh & H1 & H2 & H3 & H4). unfold on_stroke, outline.
  assert ((if lw <? 1 then 1 else lw) = Z.max 1 lw) as -> by (destruct (Z.ltb_spec lw 1); lia).
  set (k := Z.max 1 lw) in *. rewrite half_up.
  assert (1 <= k) by lia. clearbody k.
  assert (k / 2 + (k + 1) / 2 = k /\ 0 <= k / 2 <= (k + 1) / 2) as [Hk1 Hk2] by (Z.div_mod_to_equations; lia).
  set (up := k / 2) in *. set (down := (k + 1) / 2) in *. clearbody up down. unfold fits in *. cbn in H1, H2, H3, H4.
  rewrite !i16_fits by (unfold fits; lia). unfold u16. rewrite !Z.mod_small by lia. intros (Px & Py & Hn).
  destruct (Z_lt_dec py (ry r + d_y d + down)).
  { eexists. split; [by left|]. unfold in_xrect. cbn. lia. }
  destruct (Z_le_dec (ry r + d_y d + rh r - up) py).
  { eexists. split; [right; right; right; by left|]. unfold in_xrect. cbn. lia. }
  destruct (Z_lt_dec px (rx r + d_x d + down)).
  - eexists. split; [right; by left|]. unfold in_xrect. cbn. lia.
  - eexists. split; [right; right; by left|]. unfold in_xrect. cbn. lia.
Qed.

Lemma rectangles_cover d g rects px py : is_i16 px -> is_i16 py -> visible d g px py -> 0 <= lineWidth g ->
  Forall (rect_fits d (Z.max 1 (lineWidth g))) rects ->
  (exists r, r ∈ rects /\ on_stroke d (Z.max 1 (lineWidth g)) r px py) -> reported (rdpPolyRectangle s mask d g rects) px py.
Proof.
  intros Ix Iy V Hlw Hf (r & Hr & Hs). rewrite List.Forall_forall in Hf. apply list_elem_of_In in Hr.
  destruct (outline_covers d (lineWidth g) r px py Hlw (Hf r Hr) Hs) as (q & Hq & Hin).
  assert (q ∈ flat_map (outline d (lineWidth g)) rects) as Hq'.
  { apply list_elem_of_In, in_flat_map. exists r. split; [done|]. by apply list_elem_of_In. }
  unfold rdpPolyRectangle. set (sides := flat_map _ rects) in *. apply reporting_covers; [done..| |].
  - set (f := fun r : xRectangle => _ : command). apply (reported_elem _ (f q)); [|by apply list_elem_of_fmap_2|by unfold f; destruct (line_solid g)].
    apply keeps_fmap. intros r'. unfold f. by destruct (line_solid g).
  - intros c Hc. destruct rects as [|r' rects]; [by apply in_nil in Hr|]. cbn [length Nat.ltb Nat.leb].
    assert (in_region (RegionIntersect c (RegionFromRects sides)) px py) as (b & Hb & Hb').
    { apply region_intersect. split; [done|]. apply region_rects; [done..|]. by exists q. }
    destruct (line_solid g); [|apply reported_areas; by exists b].
    set (f := fun b : BoxRec => _ : command). apply (reported_elem _ (f b)); [by apply keeps_fmap| |by apply in_area_of].
    apply list_elem_of_fmap_2. by apply elem_of_rev.
Qed.

(** Arcs are reported with the line around them. *)
Lemma arcs_cover d g arcs px py : is_i16 px -> is_i16 py -> visible d g px py -> 0 <= lineWidth g ->
  Forall (rect_fits d (Z.max 1 (lineWidth g))) arcs ->
  (exists a, a ∈ arcs /\ let lw := Z.max 1 (lineWidth g) in
     in_xrect (mk_xrect (rx a - lw / 2) (ry a - lw / 2) (rw a + lw) (rh a + lw)) (px - d_x d) (py - d_y d)) ->
  reported (report_arcs s d g arcs) px py.
Proof.
  intros Ix Iy V Hlw Hf (a & Ha & Hin). rewrite List.Forall_forall in Hf. pose proof Ha as Ha'. apply list_elem_of_In in Ha'.
  destruct (Hf a Ha') as (Hw & Hh & H1 & H2 & H3 & H4). unfold fits in *.
  assert (in_xrect (arc_rect d g a) px py) as Ha''.
  { unfold arc_rect. assert ((if lineWidth g =? 0 then 1 else lineWidth g) = Z.max 1 (lineWidth g)) as -> by (destruct (Z.eqb_spec (lineWidth g) 0); lia).
    set (k := Z.max 1 (lineWidth g)) in *. assert (1 <= k) by lia. clearbody k.
    assert (0 <= k / 2 <= k) by (Z.div_mod_to_equations; lia). set (e := k / 2) in *. clearbody e. cbn zeta in Hin.
    rewrite !i16_fits by (unfold fits; lia). unfold u16. rewrite !Z.mod_small by lia. unfold in_xrect in *. cbn in *. lia. }
  assert (in_region (RegionFromRects (arc_rect d g <$> arcs)) px py) as Hr.
  { apply region_rects; [done..|]. exists (arc_rect d g a). split; [by apply list_elem_of_fmap_2|done]. }
  unfold report_arcs. destruct arcs as [|a' arcs]; [by apply not_elem_of_nil in Ha|]. cbn [length Nat.ltb Nat.leb].
  apply reporting_covers; [done..|by apply reported_areas|]. intros r Hr'. by apply reported_areas, region_intersect.
Qed.

(** A filled arc lies within its line. *)
Lemma filled_arc lw a px py : 1 <= lw -> in_xrect a px py -> in_xrect (mk_xrect (rx a - lw / 2) (ry a - lw / 2) (rw a + lw) (rh a + lw)) px py.
Proof. intros H. assert (0 <= lw / 2 <= lw) by (Z.div_mod_to_equations; lia). unfold in_xrect. cbn. lia. Qed.

(** The least and the greatest coordinate. *)
Lemma min_fold (f : Z * Z -> Z) pts : forall x, foldl (fun m p => if f p <? m then f p else m) x pts <= x /\
  (forall p, p ∈ pts -> foldl (fun m p => if f p <? m then f p else m) x pts <= f p) /\
  (foldl (fun m p => if f p <? m then f p else m) x pts = x \/ exists p, p ∈ pts /\ foldl (fun m p => if f p <? m then f p else m) x pts = f p).
Proof.
  induction pts as [|p pts IH]; intros x; cbn [foldl].
  - split; [lia|]. split; [|by left]. intros p Hp. by apply not_elem_of_nil in Hp.
  - destruct (IH (if f p <? x then f p else x)) as (H1 & H2 & H3). set (m := foldl _ _ _) in *. clearbody m.
    split; [destruct (Z.ltb_spec (f p) x); lia|]. split.
    + intros p' [->|Hp]%elem_of_cons; [destruct (Z.ltb_spec (f p) x); lia|by apply H2].
    + destruct H3 as [H3|(p' & Hp' & H3)]; [|right; exists p'; split; [by right|done]].
      destruct (f p <? x); [right; exists p; split; [by left|done]|by left].
Qed.

Lemma max_fold (f : Z * Z -> Z) pts x : foldl (fun m p => if m <? f p then f p else m) x pts = - foldl (fun m p => if - f p <? m then - f p else m) (- x) pts.
Proof.
  revert x. induction pts as [|p pts IH]; intros x; cbn [foldl]; [lia|]. rewrite IH. f_equal. f_equal.
  destruct (Z.ltb_spec x (f p)), (Z.ltb_spec (- f p) (- x)); lia.
Qed.

Lemma least_ok (f : Z * Z -> Z) p pts : let m := foldl (fun m p => if f p <? m then f p else m) (f p) pts in
  (forall q, q ∈ p :: pts -> m <= f q) /\ exists q, q ∈ p :: pts /\ m = f q.
Proof.
  destruct (min_fold f pts (f p)) as (H1 & H2 & H3). cbn zeta. split.
  - intros q [->|Hq]%elem_of_cons; [done|by apply H2].
  - destruct H3 as [H3|(q & Hq & H3)]; [exists p; split; [by left|done]|exists q; split; [by right|done]].
Qed.

Lemma greatest_ok (f : Z * Z -> Z) p pts : let m := foldl (fun m p => if m <? f p then f p else m) (f p) pts in
  (forall q, q ∈ p :: pts -> f q <= m) /\ exists q, q ∈ p :: pts /\ m = f q.
Proof.
  cbn zeta. rewrite max_fold. destruct (least_ok (fun p => - f p) p pts) as (H1 & q & Hq & E). split.
  - intros q' Hq'. specialize (H1 q' Hq'). lia.
  - exists q. split; [done|lia].
Qed.

Lemma polygon_covers d pts px py : Forall (fun p => area_fits (d_x d + fst p) (d_y d + snd p) 1 1) pts ->
  among pts (px - d_x d) (py - d_y d) -> in_box (polygon_box d pts) px py.
Proof.
  rewrite List.Forall_forall. intros Hf ((p1 & P1 & H1) & (p2 & P2 & H2) & (p3 & P3 & H3) & (p4 & P4 & H4)).
  destruct pts as [|[x y] pts]; [by apply not_elem_of_nil in P1|]. unfold polygon_box.
  destruct (least_ok fst (x, y) pts) as (Lx & q1 & Q1 & E1). destruct (greatest_ok fst (x, y) pts) as (Gx & q2 & Q2 & E2).
  destruct (least_ok snd (x, y) pts) as (Ly & q3 & Q3 & E3). destruct (greatest_ok snd (x, y) pts) as (Gy & q4 & Q4 & E4).
  cbn [fst snd] in *. set (minx := foldl _ x pts) in *. set (maxx := foldl _ x pts) in *. set (miny := foldl _ y pts) in *. set (maxy := foldl _ y pts) in *.
  apply Lx in P1. apply Gx in P2. apply Ly in P3. apply Gy in P4. clearbody minx maxx miny maxy.
  apply list_elem_of_In, Hf in Q1 as (F1 & _). apply list_elem_of_In, Hf in Q2 as (_ & _ & F2 & _).
  apply list_elem_of_In, Hf in Q3 as (_ & F3 & _). apply list_elem_of_In, Hf in Q4 as (_ & _ & _ & F4). rewrite <- E1 in F1. rewrite <- E2 in F2. rewrite <- E3 in F3. rewrite <- E4 in F4.
  unfold in_box. cbn. rewrite !i16_fits by done. lia.
Qed.

Lemma fill_rects_cover d g rects px py : is_i16 px -> is_i16 py -> visible d g px py ->
  Forall (fun r => area_fits (rx r) (ry r) (rw r) (rh r)) rects -> (exists r, r ∈ rects /\ in_xrect r (px - d_x d) (py - d_y d)) ->
  reported (rdpPolyFillRect s d g rects) px py.
Proof.
  intros Ix Iy V Hf (q & Hq & Hin). rewrite List.Forall_forall in Hf. pose proof Hq as Hq'. apply list_elem_of_In, Hf in Hq' as (H1 & H2 & H3 & H4).
  assert (in_region (RegionTranslate (RegionFromRects rects) (d_x d) (d_y d)) px py) as Hr.
  { apply region_translate; [done..|]. unfold in_xrect in Hin. unfold fits in *. apply region_rects; [unfold is_i16; lia..|]. by exists q. }
  assert (forall r, in_region r px py -> reported (report_fill g r) px py) as H.
  { intros r Hr'. unfold report_fill. cbv zeta. destruct (_ && _); [|by apply reported_areas]. destruct Hr' as (b & Hb & Hin').
    set (f := fun b : BoxRec => _ : command). apply (reported_elem _ (f b)); [by apply keeps_fmap| |by apply in_area_of].
    apply list_elem_of_fmap_2. by apply elem_of_rev. }
  apply reporting_covers; [done..|by apply H|]. intros r Hr'. by apply H, region_intersect.
Qed.

Lemma text_covers d g f x y n px py : is_i16 px -> is_i16 py -> visible d g px py -> op_fits d g (op_text f x y n) -> draws line d g (op_text f x y n) px py ->
  reported (report_text s d g f x y n) px py.
Proof.
  intros Ix Iy V (_ & F0 & F1 & F2 & F3 & F4) (Hn & Hx & Hy). cbn in F1, F2, F3, F4. unfold report_text. destruct (Z.eqb_spec n 0) as [->|_]; [lia|].
  apply report_box_covers; [done..|]. unfold GetTextBoundingBox.
  assert ((if max_ascent f <? f_ascent f then f_ascent f else max_ascent f) = Z.max (f_ascent f) (max_ascent f)) as -> by (destruct (Z.ltb_spec (max_ascent f) (f_ascent f)); lia).
  assert ((if max_descent f <? f_descent f then f_descent f else max_descent f) = Z.max (f_descent f) (max_descent f)) as -> by (destruct (Z.ltb_spec (max_descent f) (f_descent f)); lia).
  assert ((if max_characterWidth f <? max_rightSideBearing f then max_rightSideBearing f else max_characterWidth f) = Z.max (max_characterWidth f) (max_rightSideBearing f)) as ->
    by (destruct (Z.ltb_spec (max_characterWidth f) (max_rightSideBearing f)); lia).
  set (a := Z.max (f_ascent f) _) in *. set (e := Z.max (f_descent f) _) in *. set (k := Z.max (max_characterWidth f) _) in *. clearbody a e k.
  rewrite (i16_fits _ F0), (i16_fits _ F2). replace (d_y d + y - a + a + e) with (d_y d + y + e) by lia. rewrite (i16_fits _ F3), (i16_fits _ F4).
  assert ((if min_leftSideBearing f <? 0 then i16 (d_x d + x + min_leftSideBearing f) else d_x d + x) = d_x d + x + Z.min 0 (min_leftSideBearing f)) as ->.
  { destruct (Z.ltb_spec (min_leftSideBearing f) 0); [|lia]. rewrite Z.min_r in * by lia. by apply i16_fits. }
  unfold in_box. cbn. lia.
Qed.

(** Every visible pixel that an operation changes is reported. *)
Lemma perform_covers d g op px py : is_i16 px -> is_i16 py -> visible d g px py -> op_fits d g op -> draws line d g op px py ->
  reported (perform s mask line0 rop0 d g op) px py.
Proof.
  intros Ix Iy V Hf Hd. pose proof Hf as [Hlw Hf']. destruct op; cbn [perform draws] in *.
  - by apply put_image_covers.
  - unfold rdpCopyArea. destruct (_ && _); [by apply copy_windows_covers|by apply report_copy_covers].
  - by apply report_copy_covers.
  - by apply points_cover.
  - by apply lines_cover.
  - by apply segments_cover.
  - by apply rectangles_cover.
  - by apply arcs_cover.
  - apply report_box_covers; [done..|]. by apply polygon_covers.
  - by apply fill_rects_cover.
  - apply arcs_cover; [done..|]. destruct Hd as (a & Ha & Hin). exists a. split; [done|]. apply filled_arc; [lia|done].
  - by apply text_covers.
  - apply reporting_covers; [done..|by apply reported_one|]. intros r Hr. apply reported_box; [done|by apply box_at_fits].
Qed.
End Facts.

(** ** The calls in the module *)

Section Run.
Context {W : WStream} {L : WStreamLaws W} {P : Pipe} {PL : PipeLaws P} {F : WindowOrder}.
Context (common0 : RDS_MSG_COMMON) (g_Bpp : Z) (f : PaintRect.framebuffer_ptr).
Context (line : Z -> Z -> Z -> Z -> Z -> Z -> Z -> Prop).
Abbreviation service := (rdsBackend x11).

Definition run_command (c : command) (bk : service) : option service :=
  match c with
  | c_area x y w h => rdp_send_area_update common0 g_Bpp f x y w h bk
  | c_set_clip x y w h => snd <$> rdp_set_clip common0 x y w h bk
  | c_reset_clip => snd <$> rdp_reset_clip common0 bk
  | c_update t b => snd <$> rdp_send_update common0 t b bk
  end.

Fixpoint run_commands (l : list command) (bk : service) : option service :=
  match l with [] => Some bk | c :: l => bk ← run_command c bk; run_commands l bk end.

(** Arguments in the range of their types, messages that can be written. *)
Definition command_ok (c : command) : Prop :=
  match c with
  | c_area x y w h => small_coord x /\ small_coord y /\ small_size w /\ small_size h
  | c_set_clip _ _ _ _ | c_reset_clip => writable common0 RDS_SERVER_SET_CLIPPING_REGION (body_of c)
  | c_update t b => writable common0 t b /\ match b with mSharedFramebuffer _ | mPaintRect _ => False | _ => True end
  end.

(** The messages among the outputs. *)
Definition bodies (l : list output) : list msg_body := omap (fun o => match o with o_message (Msg _ b) => Some b | _ => None end) l.

Definition on_screen (bk : service) (px py : Z) : Prop := 0 <= px < Screen.width (screen (app bk)) /\ 0 <= py < Screen.height (screen (app bk)).

Definition core_active (bk : service) : Prop := service_ok bk /\ g_connected (app bk) = true /\ g_active (app bk) = true.

(** [sent] shows as much as [l]. *)
Definition shows (bk : service) (l : list msg_body) (sent : list output) : Prop :=
  forall clip px py, on_screen bk px py -> (marked line clip l px py -> marked line clip (bodies sent) px py).

Lemma marked_app_r clip l1 l2 px py : marked line (foldl (fun c b => body_clip b c) clip l1) l2 px py -> marked line clip (l1 ++ l2) px py.
Proof. revert clip. induction l1 as [|b l1 IH]; intros clip H; [done|]. right. by apply IH. Qed.

(** The state after a message. *)
Definition sent_x (x : x11) (t : Z) (b : msg_body) : x11 := add_output (o_message (Msg (common (set_type t (Msg common0 tt))) b)) (attach_x common0 x).

Lemma sent_x_output x t b : exists pre, outputs (sent_x x t b) = outputs x ++ pre /\
  bodies pre = (if Screen.fbAttached (screen x) =? 0 then [framebuffer_message 1 x] else []) ++ [b].
Proof. unfold sent_x, attach_x. destruct (_ =? 0); cbn; [|by eexists]. rewrite <- app_assoc. by eexists. Qed.

Lemma sent_x_same x t b : Screen.width (screen (sent_x x t b)) = Screen.width (screen x) /\ Screen.height (screen (sent_x x t b)) = Screen.height (screen x) /\
  g_connected (sent_x x t b) = g_connected x /\ g_active (sent_x x t b) = g_active x.
Proof. unfold sent_x, attach_x. by destruct (_ =? 0). Qed.

(** The step of one call. *)
Definition command_step (c : command) (bk bk' : service) : Prop :=
  core_active bk' /\ Screen.width (screen (app bk')) = Screen.width (screen (app bk)) /\
  Screen.height (screen (app bk')) = Screen.height (screen (app bk)) /\
  exists sent, outputs (app bk') = outputs (app bk) ++ sent /\ forall clip px py, on_screen bk px py ->
    foldl (fun c b => body_clip b c) clip (bodies sent) = body_clip (body_of c) clip /\
    (in_clip clip px py -> body_marks line (body_of c) px py -> marked line clip (bodies sent) px py).

Lemma sent_step c t b (bk bk' : service) : core_active bk -> service_ok bk' -> app bk' = sent_x (app bk) t b ->
  (forall clip, body_clip b clip = body_clip (body_of c) clip) ->
  (forall px py, on_screen bk px py -> body_marks line (body_of c) px py -> body_marks line b px py) -> command_step c bk bk'.
Proof.
  intros (O & Hc & Ha) O' E Hclip Hm. destruct (sent_x_same (app bk) t b) as (E1 & E2 & E3 & E4). rewrite <- E in E1, E2, E3, E4.
  split; [unfold core_active; by rewrite E3, E4|]. split; [done|]. split; [done|].
  destruct (sent_x_output (app bk) t b) as (pre & Eo & Eb). exists pre. split; [by rewrite E|]. intros clip px py Hs. rewrite Eb.
  destruct (_ =? 0); cbn; rewrite Hclip; (split; [done|]); intros Hin Hb; [right; left|left]; (split; [done|by apply Hm]).
Qed.

Lemma command_runs c (bk : service) : 0 <= g_Bpp <= 4 -> core_active bk -> command_ok c ->
  exists bk', run_command c bk = Some bk' /\ command_step c bk bk'.
Proof.
  intros HB A Hc. pose proof A as (O & Hcn & Ha).
  assert (forall t b, writable common0 t b -> match b with mSharedFramebuffer _ | mPaintRect _ => False | _ => True end -> b = body_of c ->
    exists bk', rdp_send_update common0 t b bk = Some (0, bk') /\ command_step c bk bk') as Hsend.
  { intros t b Hw Hb E. destruct O as [O Hu]. destruct (send_update_ok common0 t b bk O Hu Hw) as (bk' & E' & Hu' & _ & O' & Ea); [by destruct b|].
    rewrite Hcn, Ha in Ea. exists bk'. split; [done|]. eapply (sent_step c t b); [done|by split|exact Ea| |]; by rewrite E. }
  destruct c as [x y w h|x y w h| |t b]; cbn [run_command].
  - destruct Hc as (Hx & Hy & Hw & Hh). pose proof (xo_screen _ (proj1 O)) as S.
    destruct (area_rect_ok (screen (app bk)) x y w h (so_width _ S) (so_height _ S) Hx Hy Hw Hh) as (r & Er & _ & Hcov).
    destruct (area_step_ok common0 g_Bpp f x y w h bk HB O (conj Hx (conj Hy (conj Hw Hh)))) as (r' & bk' & Er' & E & O' & Ea).
    rewrite Er in Er'. injection Er' as <-. exists bk'. split; [done|]. rewrite Hcn, Ha in Ea. destruct r as [r|].
    + eapply sent_step; [done|done|exact Ea|done|]. intros px py [Vx Vy] Hin. by destruct (Hcov px py Hin Vx Vy) as (r' & [= <-] & Hin').
    + split; [unfold core_active; by rewrite Ea|]. split; [by rewrite Ea|]. split; [by rewrite Ea|]. exists []. split; [by rewrite Ea, app_nil_r|].
      intros clip px py [Vx Vy]. split; [done|]. intros _ Hin. by destruct (Hcov px py Hin Vx Vy) as (? & ? & _).
  - destruct (Hsend _ _ Hc I eq_refl) as (bk' & E & Hs). exists bk'. unfold rdp_set_clip. cbn [body_of] in E. by rewrite E.
  - destruct (Hsend _ _ Hc I eq_refl) as (bk' & E & Hs). exists bk'. unfold rdp_reset_clip. cbn [body_of] in E. by rewrite E.
  - destruct Hc as [Hw Hb]. destruct (Hsend t b Hw Hb eq_refl) as (bk' & E & Hs). exists bk'. by rewrite E.
Qed.

(** The calls of an operation: everything that they report on the screen is
    sent. *)
Lemma commands_run l : forall bk : service, 0 <= g_Bpp <= 4 -> core_active bk -> Forall command_ok l ->
  exists bk' sent, run_commands l bk = Some bk' /\ core_active bk' /\ outputs (app bk') = outputs (app bk) ++ sent /\ shows bk (body_of <$> l) sent.
Proof.
  induction l as [|c l IH]; intros bk HB A Hl.
  - exists bk, []. split; [done|]. split; [done|]. split; [by rewrite app_nil_r|]. by intros clip px py _ H.
  - apply List.Forall_cons_iff in Hl as [Hc Hl]. destruct (command_runs c bk HB A Hc) as (bk1 & E1 & A1 & Ew & Eh & sent1 & Eo1 & H1).
    destruct (IH bk1 HB A1 Hl) as (bk' & sent2 & E2 & A2 & Eo2 & H2). exists bk', (sent1 ++ sent2). cbn [run_commands]. rewrite E1. cbn [mbind option_bind].
    split; [done|]. split; [done|]. split; [by rewrite Eo2, Eo1, app_assoc|]. intros clip px py Hs. destruct (H1 clip px py Hs) as [Hclip Hmark].
    unfold bodies. rewrite omap_app. intros [[Hin Hb]|Hm]; [apply marked_app_l; by apply Hmark|]. apply marked_app_r. fold (bodies sent1). rewrite Hclip.
    apply H2; [|done]. unfold on_screen in *. by rewrite Ew, Eh.
Qed.
End Run.
