(* ===== verification/X11Theorems.v ===== *)
(** * Properties of the X11 module

    module/X11/service: the messages that the module sends, the areas that it
    reports, the input that it passes on, and its table of modes. *)

From stdpp Require Import gmap list.
From S2P Require Import Prelude WStream ListStream Message ClientMsg ServerMsg VarMsg SessionMsg WindowMsg MsgTable TableFacts Pipe Transport TransportFacts Queue Delivery Outbound OutboundFacts PipelineFacts EncoderFacts DisplayFacts Instances X11 X11Facts X11Cursor X11Draw.
#[local] Open Scope Z_scope.

(** ** A concrete X server *)

(** The bits of FreeRDP's headers. *)
#[local] Instance freerdp_flags : InputFlags := {
  PTR_FLAGS_WHEEL := 0x200; PTR_FLAGS_WHEEL_NEGATIVE := 0x100; PTR_FLAGS_MOVE := 0x800; PTR_FLAGS_DOWN := 0x8000;
  PTR_FLAGS_BUTTON1 := 0x1000; PTR_FLAGS_BUTTON2 := 0x2000; PTR_FLAGS_BUTTON3 := 0x4000;
  PTR_XFLAGS_DOWN := 0x8000; PTR_XFLAGS_BUTTON1 := 1; PTR_XFLAGS_BUTTON2 := 2;
  KBD_FLAGS_EXTENDED := 0x100; KBD_FLAGS_DOWN := 0x4000; KBD_FLAGS_RELEASE := 0x8000;
  KBD_SYNC_SCROLL_LOCK := 1; KBD_SYNC_NUM_LOCK := 2; KBD_SYNC_CAPS_LOCK := 4;
  KBDEXT := 0x100; LockMask := 2;
}.

(** The bit of a lock key: Lock, and Mod2 and Mod3 for the other locks. *)
Definition lock_exponent (k : Z) : option nat := if k =? 66 then Some 1%nat else if k =? 77 then Some 4%nat else if k =? 78 then Some 5%nat else None.

Definition toggle (k m : Z) : Z := match lock_exponent k with Some i => Z.lxor m (2 ^ Z.of_nat i) | None => m end.

(** The events so far and the locks. *)
Definition lock_step (s : list xevent * Z) (e : xevent) : list xevent * Z :=
  (fst s ++ [e], match e with x_key true k => if is_down k (fst s) then snd s else toggle k (snd s) | _ => snd s end).

Definition lock_state (l : list xevent) : Z := snd (fold_left lock_step l ([], 0)).

#[local] Instance demo_server : XServer := {
  GetVirtualKeyCodeFromVirtualScanCode c _ := c;
  GetKeycodeFromVirtualKeyCode c := c;
  minKeyCode := 8; maxKeyCode := 20;
  keysyms c := [c + 89];
  master := true;
  vmods := [(other_vmod, 8); (NumLock, 16); (ScrollLock, 32)];
  xkb_state := lock_state;
}.

Lemma lock_prefix l : fst (fold_left lock_step l ([], 0)) = l.
Proof. induction l as [|e l IH] using rev_ind; [done|]. rewrite fold_left_app. cbn. by rewrite IH. Qed.

Lemma lock_state_snoc l e : lock_state (l ++ [e]) = match e with x_key true k => if is_down k l then lock_state l else toggle k (lock_state l) | _ => lock_state l end.
Proof. unfold lock_state. rewrite fold_left_app. cbn. by rewrite lock_prefix. Qed.

Lemma demo_lock_laws : lock_laws.
Proof.
  assert (forall k m, (k, m) ∈ lock_keys -> exists i, lock_exponent k = Some i /\ m = Z.shiftl 1 (Z.of_nat i)) as Hk.
  { intros k m. unfold lock_keys. rewrite !elem_of_cons, elem_of_nil. cbn.
    intros [[= -> ->]|[[= -> ->]|[[= -> ->]|[]]]]; eexists; (split; [reflexivity|reflexivity]). }
  intros k m K k' m' K' l. destruct (Hk k m K) as (i & Ei & _). destruct (Hk k' m' K') as (j & Ej & ->).
  assert (forall l, locked l (Z.shiftl 1 (Z.of_nat j)) = Z.testbit (lock_state l) (Z.of_nat j)) as E by (intros l'; apply has_bit).
  rewrite !E, !lock_state_snoc. split; [|done]. intros ->. unfold toggle. rewrite Ei, Z.lxor_spec, Z.pow2_bits_eqb by lia.
  assert ((Z.of_nat i =? Z.of_nat j) = (k =? k')) as ->; [|apply xorb_comm].
  unfold lock_exponent in Ei, Ej.
  destruct (Z.eqb_spec k 66), (Z.eqb_spec k 77), (Z.eqb_spec k 78), (Z.eqb_spec k' 66), (Z.eqb_spec k' 77), (Z.eqb_spec k' 78);
    try lia; try discriminate; injection Ei as <-; injection Ej as <-; subst; reflexivity.
Qed.

(** Segments numbered in turn. *)
Definition demo_shmget (m : gmap Z Z) : Z :=
  default 0 (snd <$> list_find (fun n => m !! n = None) (seqZ 1 (Z.of_nat (size m) + 1))).

Lemma demo_shm_law : shm_law 1 demo_shmget.
Proof.
  split; [lia|]. intros m Hm. unfold segments_left in Hm. unfold demo_shmget.
  destruct (list_find _ _) as [[i n]|] eqn:E; cbn.
  - apply list_find_Some in E as (Hi & Hn & _). apply lookup_seqZ in Hi as [-> Hi]. split; [lia|done].
  - exfalso. apply list_find_None in E.
    assert (list_to_set (seqZ 1 (Z.of_nat (size m) + 1)) ⊆ dom m) as Hsub.
    { intros n Hn%elem_of_list_to_set. rewrite List.Forall_forall in E. apply list_elem_of_In in Hn. specialize (E n Hn). apply elem_of_dom. by destruct (m !! n). }
    apply subseteq_size in Hsub. rewrite size_dom, size_list_to_set, length_seqZ in Hsub by apply NoDup_seqZ. lia.
Qed.

(** ** The protocol of the module *)

(** C11. Whatever arguments the X server is started with (a
    size in the range of the RandR extension, a depth of 24 to 32 bits), whoever
    connects and is lost, and whatever input is sent and areas are drawn, in any
    order: in every run whose steps meet [x11_act_ok] the next step that meets
    it is defined, and the messages on the pipe follow the protocol [view_step].
    Nothing is sent before the framebuffer is attached; a framebuffer is
    attached when there is none and detached when there is one, its lines lie in
    its segment, and every rectangle that is painted lies in the framebuffer
    that is attached at that time. [x11_act_ok] restricts the sizes: a size that
    the client announces or the screen is set to has sides of 0 to 16384, the
    table of the 64 modes has it or has room for it, and there is room for
    another segment (the code checks none of this, and other sizes overflow or
    leave the table); areas have coordinates and sizes below 2^30, and the other
    messages are well-formed and are neither a paint message nor a framebuffer.
    *)
Theorem x11_follows_protocol {W : WStream} {L : WStreamLaws W} {P : Pipe} {PL : PipeLaws P} {F : WindowOrder} {I : InputFlags} {X : XServer}
    common0 shmmin shmget set_modes shmmax p0 endpoint args s0 f0 g :
  shm_law shmmin shmget -> args <> [] -> ddx_arguments args (mk_globals s0 f0 true) = Some g ->
  24 <= Screen.depth (g_rdpScreen g) <= 32 -> screen_size (Screen.width (g_rdpScreen g)) -> screen_size (Screen.height (g_rdpScreen g)) ->
  exists bk0, rdpScreenInit shmmin shmget shmmax p0 endpoint g = Some bk0 /\
    forall l bk, x11_runs common0 shmmin shmget set_modes (g_Bpp (format g)) bk0 l bk ->
      (exists v, views (segments (app bk)) (outputs (app bk)) v) /\
      forall a, x11_act_ok common0 a (app bk) ->
        exists bk', x11_step common0 shmmin shmget set_modes (g_Bpp (format g)) a bk = Some bk'.
Proof.
  intros Hshm Hne Hargs Hd Sw Sh. destruct (arguments_ok args (mk_globals s0 f0 true) g) as [G Ff]; [by intros|done|done|].
  destruct (screen_init_ok shmmin shmget Hshm shmmax p0 endpoint g G Ff ltac:(lia) Sw Sh) as (bk0 & E0 & O0).
  assert (0 <= g_Bpp (format g) <= 4) as HB by (destruct (G Ff) as [? _]; lia).
  exists bk0. split; [done|]. intros l bk R.
  pose proof (x11_runs_ok common0 shmmin shmget set_modes Hshm _ bk0 l bk HB O0 R) as O. split.
  - destruct (xo_view _ (proj1 O)) as (v & Hv & _). by exists v.
  - intros a Ha. destruct (x11_step_ok common0 shmmin shmget set_modes Hshm _ a bk HB O Ha) as (bk' & E & _). by exists bk'.
Qed.

Definition x11_header : RDS_MSG_COMMON := mk_common 0 0 0 (mk_rect 0 0 0 0).
Definition no_screen : Screen.rdpScreenInfoRec := Screen.mk 0 0 0 0 0 0 0 None 0 0 0 0.
Definition no_format : pixel_format := mk_format 16 2 0xFFFF 5 6 5.
Definition x11_arguments : list ddx_argument := [arg_geometry (Some (1280, 720)); arg_uds].
Definition x11_globals : ddx_globals := mk_globals (Screen.set_size 1280 720 (Screen.mk 1024 768 24 0 0 0 0 None 0 0 0 0)) (mk_format 24 4 0xFFFFFF 8 8 8) false.
Definition idle_pipe : pipe := LPipe [] [] [] 100.

Definition x11_capabilities (w h : Z) : x11_act := xa_event x11_header (cCapabilities (Capabilities.mk 1 w h 32 4 0 1)).

(** The core connects, asks for another size and draws; it is lost and comes
    back. *)
Definition x11_usual_run : list x11_act :=
  [xa_area PaintRect.fb_wild 0 0 10 10; xa_accept true (Some idle_pipe); xa_area PaintRect.fb_wild 0 0 10 10; x11_capabilities 1000 700;
   xa_area PaintRect.fb_wild (-5) 20 100 50; xa_area PaintRect.fb_wild 990 690 100 50; xa_event x11_header (cMouseEvent (MouseEvent.mk 0x9000 5 6));
   xa_resize 800 600; xa_area PaintRect.fb_wild 1 2 3 4; xa_lost; xa_area PaintRect.fb_wild 1 2 3 4; xa_accept true (Some idle_pipe);
   x11_capabilities 800 600; xa_area PaintRect.fb_wild 1 2 3 4].

Lemma x11_follows_protocol_witness : exists (bk0 bk : rdsBackend x11),
  rdpScreenInit 1 demo_shmget 0 idle_pipe true x11_globals = Some bk0 /\
  x11_runs x11_header 1 demo_shmget true 4 bk0 x11_usual_run bk /\ exists v, views (segments (app bk)) (outputs (app bk)) v.
Proof.
  destruct (x11_follows_protocol (P := list_pipe) x11_header 1 demo_shmget true 0 idle_pipe true x11_arguments no_screen no_format x11_globals) as (bk0 & E & H).
  - exact demo_shm_law.
  - discriminate.
  - reflexivity.
  - vm_compute. split; discriminate.
  - vm_compute. split; discriminate.
  - vm_compute. split; discriminate.
  - assert (match rdpScreenInit 1 demo_shmget 0 idle_pipe true x11_globals with
            | Some bk0 => bool_decide (is_Some (x11_run x11_header 1 demo_shmget true 4 x11_usual_run bk0)) | None => false end = true) as R
      by (vm_compute; reflexivity).
    rewrite E in R. apply bool_decide_eq_true in R as [bk R]. apply x11_run_runs in R.
    exists bk0, bk. split; [exact E|]. split; [exact R|]. apply (H _ _ R).
Defined.

(** ** Areas *)

(** C19. While the core is connected and active,
    [rdp_send_area_update] reports what is drawn: every pixel of the area that
    is visible lies in a rectangle that is painted, and the rectangles lie on
    the screen and name its segment. A paint message is only sent while the
    framebuffer is attached: it was attached before the call, or the message
    that attaches this framebuffer (its size, its scanline and its segment) is
    in front of the paint message in what is sent. The area is rounded to blocks
    of 16 pixels and may lie partly or completely outside; its coordinates and
    its size are below 2^30. *)
Theorem x11_damage_is_sent {W : WStream} {L : WStreamLaws W} {P : Pipe} {PL : PipeLaws P} {F : WindowOrder}
    common0 g_Bpp f x y w h (bk : rdsBackend x11) :
  service_ok bk -> g_connected (app bk) = true -> g_active (app bk) = true -> 0 <= g_Bpp <= 4 ->
  small_coord x -> small_coord y -> small_size w -> small_size h ->
  exists bk' sent, rdp_send_area_update common0 g_Bpp f x y w h bk = Some bk' /\ outputs (app bk') = outputs (app bk) ++ sent /\
    (forall cx cy, in_area x y w h cx cy -> 0 <= cx < Screen.width (screen (app bk)) -> 0 <= cy < Screen.height (screen (app bk)) ->
       exists c p, o_message (Msg c (mPaintRect p)) ∈ sent /\
         in_area (PaintRect.nLeftRect p) (PaintRect.nTopRect p) (PaintRect.nWidth p) (PaintRect.nHeight p) cx cy) /\
    (forall c p, o_message (Msg c (mPaintRect p)) ∈ sent ->
       paint_fits (Screen.width (screen (app bk))) (Screen.height (screen (app bk))) p /\
       PaintRect.fbSegmentId p = Screen.segmentId (screen (app bk)) /\ Screen.fbAttached (screen (app bk')) <> 0) /\
    (forall l1 l2 c p, sent = l1 ++ o_message (Msg c (mPaintRect p)) :: l2 ->
       Screen.fbAttached (screen (app bk)) <> 0 \/ exists c', o_message (Msg c' (mSharedFramebuffer (shared_of (app bk)))) ∈ l1).
Proof.
  intros O Hc Ha HB Hx Hy Hw Hh. pose proof (xo_screen _ (proj1 O)) as S.
  destruct (area_rect_ok (screen (app bk)) x y w h (so_width _ S) (so_height _ S) Hx Hy Hw Hh) as (r & Er & Hr & Hcov).
  destruct (area_step_ok common0 g_Bpp f x y w h bk HB O (conj Hx (conj Hy (conj Hw Hh)))) as (r' & bk' & Er' & E & _ & Ea).
  rewrite Er in Er'. injection Er' as <-. exists bk'. destruct r as [r|].
  2: { exists []. rewrite app_nil_r. split; [done|]. split; [by rewrite Ea|]. split; [|split].
       - intros cx cy Hin Vx Vy. by destruct (Hcov cx cy Hin Vx Vy) as (? & ? & _).
       - intros c p H. by apply not_elem_of_nil in H.
       - intros l1 l2 c p H. by destruct l1. }
  rewrite Hc, Ha in Ea. cbn [andb] in Ea.
  set (m := o_message (Msg _ (area_message (app bk) f r))) in Ea.
  assert (exists pre, outputs (attach_x common0 (app bk)) = outputs (app bk) ++ pre /\
    (forall c p, o_message (Msg c (mPaintRect p)) ∉ pre) /\
    (Screen.fbAttached (screen (app bk)) <> 0 \/ exists c', o_message (Msg c' (mSharedFramebuffer (shared_of (app bk)))) ∈ pre)) as (pre & Epre & Hpre & Hat).
  { unfold attach_x. destruct (Z.eqb_spec (Screen.fbAttached (screen (app bk))) 0) as [Hz|Hz].
    - eexists [_]. split; [reflexivity|]. split; [intros c p; rewrite list_elem_of_singleton; discriminate|].
      right. eexists. apply list_elem_of_singleton. reflexivity.
    - exists []. rewrite app_nil_r. split; [reflexivity|]. split; [intros c p; apply not_elem_of_nil|by left]. }
  exists (pre ++ [m]). split; [done|]. split; [rewrite Ea; cbn; by rewrite Epre, app_assoc|]. split; [|split].
  - intros cx cy Hin Vx Vy. destruct (Hcov cx cy Hin Vx Vy) as (r' & [= <-] & Hin'). eexists _, _. split.
    + apply elem_of_app. right. apply list_elem_of_singleton. reflexivity.
    + exact Hin'.
  - intros c p [Hp|Hp]%elem_of_app; [by destruct (Hpre c p)|]. apply list_elem_of_singleton in Hp. injection Hp as _ ->.
    pose proof (so_segment _ S). destruct (Hr r eq_refl) as (? & ? & ? & ? & ? & ?). split; [done|]. split.
    + apply u32_id. unfold is_u32. lia.
    + rewrite Ea. apply (attach_x_ok common0 (app bk) (proj1 O) Hc Ha).
  - intros l1 l2 c p Hs. destruct Hat as [?|[c' Hc']]; [by left|]. right. exists c'. destruct l2 as [|o l2] using rev_ind.
    + apply app_inj_tail in Hs as [<- _]. exact Hc'.
    + rewrite app_comm_cons, app_assoc in Hs. apply app_inj_tail in Hs as [Hs _]. destruct (Hpre c p). rewrite Hs. apply elem_of_app. right. left.
Qed.

(** A module with an active core. *)
Lemma active_service : exists bk : rdsBackend x11, service_ok bk /\ (g_connected (app bk) = true /\ g_active (app bk) = true) /\
  Screen.width (screen (app bk)) = 1000 /\ Screen.height (screen (app bk)) = 700.
Proof.
  destruct (screen_init_ok 1 demo_shmget demo_shm_law 0 idle_pipe true x11_globals) as (bk0 & E0 & O0);
    [intros _; vm_compute; repeat split; discriminate|reflexivity|vm_compute; repeat split; discriminate..|].
  pose (active (o : option (rdsBackend x11)) := match o with Some bk => g_connected (app bk) && g_active (app bk) && (Screen.width (screen (app bk)) =? 1000) && (Screen.height (screen (app bk)) =? 700) | None => false end).
  assert (match rdpScreenInit 1 demo_shmget 0 idle_pipe true x11_globals with
          | Some bk0 => active (x11_run x11_header 1 demo_shmget true 4 [xa_accept true (Some idle_pipe); x11_capabilities 1000 700] bk0)
          | None => false end = true) as R by (vm_compute; reflexivity).
  rewrite E0 in R. unfold active in R. destruct (x11_run _ _ _ _ _ _ bk0) as [bk|] eqn:Er; [|discriminate R]. rewrite !andb_true_iff, !Z.eqb_eq in R. destruct R as [[R1 Rw] Rh].
  exists bk. split; [|by split]. eapply x11_runs_ok; [exact demo_shm_law| |exact O0|eapply x11_run_runs; exact Er]. lia.
Qed.

Lemma x11_damage_is_sent_witness : exists (bk bk' : rdsBackend x11) sent,
  rdp_send_area_update x11_header 4 PaintRect.fb_wild (-5) 20 100 50 bk = Some bk' /\ outputs (app bk') = outputs (app bk) ++ sent.
Proof.
  destruct active_service as (bk & O & (Hc & Ha) & _).
  destruct (x11_damage_is_sent x11_header 4 PaintRect.fb_wild (-5) 20 100 50 bk O Hc Ha) as (bk' & sent & E & Eo & _).
  - lia.
  - split; [vm_compute; discriminate|reflexivity].
  - split; [vm_compute; discriminate|reflexivity].
  - split; [vm_compute; discriminate|reflexivity].
  - split; [vm_compute; discriminate|reflexivity].
  - exists bk, bk', sent. split; [exact E|exact Eo].
Defined.

(** ** The pointer *)

(** C20. The cursor of the X server reaches the core: the message that is sent while
    the core is active has a picture of 32 by 32 pixels, and its pixel in
    column [x] of line [y] from below is the pixel of the cursor in line [y]
    from above: the color of a colored cursor, the foreground, the background
    or transparent for one of two colors, and 0 where the cursor has no pixel.
    A larger cursor is cut off; no byte outside of the cursor or of the picture
    is touched. *)
Theorem x11_pointer_is_drawn {W : WStream} {L : WStreamLaws W} {P : Pipe} {PL : PipeLaws P} {F : WindowOrder} {C : CursorFormat}
    common0 w0 h0 b fg bg (bk : rdsBackend x11) :
  cursor_ok b -> service_ok bk -> g_connected (app bk) = true -> g_active (app bk) = true ->
  exists c d pre bk', rdpSpriteSetCursor common0 w0 h0 (Some (mk_cursor (Some b) fg bg)) bk = Some bk' /\
    outputs (app bk') = outputs (app bk) ++ pre ++ [o_message (Msg c (pointer_message w0 h0 b d))] /\ length d = 4096%nat /\
    forall x y, 0 <= x < 32 -> 0 <= y < 32 ->
      (snd (cursor_image b fg bg) x y -> pixel d x (31 - y) = Some (u32 (fst (cursor_image b fg bg) x y))) /\
      (~ snd (cursor_image b fg bg) x y -> pixel d x (31 - y) = Some 0).
Proof.
  intros Hb O Hc Ha. destruct (cursor_spec common0 w0 h0 b fg bg bk Hb O Hc Ha) as (d & bk' & E & _ & [Hl Hd] & Ea).
  assert (exists pre, outputs (attach_x common0 (app bk)) = outputs (app bk) ++ pre) as [pre Epre].
  { unfold attach_x. destruct (_ =? 0); [by eexists [_]|exists []; by rewrite app_nil_r]. }
  eexists _, d, pre, bk'. split; [exact E|]. split; [|split; [exact Hl|exact Hd]]. rewrite Ea. cbn. by rewrite Epre, <-app_assoc.
Qed.

#[local] Instance demo_cursor_format : CursorFormat := {
  PixmapBytePad w := 4 * w;
  BitmapBytePad w := (w + 31) / 32 * 4;
  LSBFirst := true;
  ARGB32 a r g b := Z.lor (Z.lor (Z.shiftl a 24) (Z.shiftl r 16)) (Z.lor (Z.shiftl g 8) b);
}.

(** A cursor of two by two pixels. *)
Definition small_cursor : cursor_bits := mk_bits 2 2 1 1 (Some (le32 1 ++ le32 2 ++ le32 3 ++ le32 4)) None None.

Lemma x11_pointer_is_drawn_witness : exists (bk bk' : rdsBackend x11) d,
  rdpSpriteSetCursor x11_header 0 0 (Some (mk_cursor (Some small_cursor) (0, 0, 0) (0, 0, 0))) bk = Some bk' /\
  pixel d 0 31 = Some 1 /\ pixel d 1 31 = Some 2 /\ pixel d 0 30 = Some 3 /\ pixel d 1 30 = Some 4 /\ pixel d 2 30 = Some 0.
Proof.
  destruct active_service as (bk & O & (Hc & Ha) & _).
  destruct (x11_pointer_is_drawn x11_header 0 0 small_cursor (0, 0, 0) (0, 0, 0) bk) as (c & d & pre & bk' & E & _ & _ & Hd).
  - vm_compute. repeat split; discriminate.
  - exact O.
  - exact Hc.
  - exact Ha.
  - exists bk, bk', d. split; [exact E|].
    split; [apply (proj1 (Hd 0 0 ltac:(lia) ltac:(lia))); cbn; lia|]. split; [apply (proj1 (Hd 1 0 ltac:(lia) ltac:(lia))); cbn; lia|]. split; [apply (proj1 (Hd 0 1 ltac:(lia) ltac:(lia))); cbn; lia|].
    split; [apply (proj1 (Hd 1 1 ltac:(lia) ltac:(lia))); cbn; lia|apply (proj1 (Hd 2 1 ltac:(lia) ltac:(lia))); cbn; lia].
Defined.

(** ** Drawing *)

(** C18. What the X server draws reaches the core, for the
    operations of a graphics context except FillSpans and SetSpans, which report
    nothing (images, copies, points, lines, segments, rectangles, arcs,
    polygons, fills of rectangles, text), on a window with any clipping region
    and any clipping of the graphics context: while the core is connected and
    active, the calls of the wrapper are defined, and every pixel of the screen
    that is visible and that the operation draws is changed by one of the
    messages that they send, within the clipping region that is set at that
    time. The conditions: the coordinates of the operation have 16 bits, and
    points and polygons are given relative to the window ([op_fits]); the orders
    that the operation is turned into can be carried by the protocol
    ([command_ok]): the coordinates and sizes of an OpaqueRect, a ScreenBlt and
    a clipping region are from 0 to 65535. This leaves out such orders at
    negative positions, which windows partly off the left or upper edge cause
    and which the protocol truncates; lines and areas, which are sent with 32
    bits or as parts of the picture, may be negative. *)
Theorem x11_drawing_is_sent {W : WStream} {L : WStreamLaws W} {P : Pipe} {PL : PipeLaws P} {F : WindowOrder} {XR : XRegion} {XL : XRegionLaws XR}
    common0 g_Bpp f mask line0 rop0 line d g op (bk : rdsBackend x11) :
  core_active bk -> 0 <= g_Bpp <= 4 -> op_fits d g op -> Forall (command_ok common0) (perform (screen (app bk)) mask line0 rop0 d g op) ->
  exists bk' sent, run_commands common0 g_Bpp f (perform (screen (app bk)) mask line0 rop0 d g op) bk = Some bk' /\ core_active bk' /\
    outputs (app bk') = outputs (app bk) ++ sent /\
    forall px py, on_screen bk px py -> visible d g px py -> draws line d g op px py -> marked line None (bodies sent) px py.
Proof.
  intros A HB Hf Hok. destruct (commands_run common0 g_Bpp f line _ bk HB A Hok) as (bk' & sent & E & A' & Eo & Hs).
  exists bk', sent. split; [done|]. split; [done|]. split; [done|]. intros px py Hp V Hd. apply Hs; [done|].
  pose proof (xo_screen _ (proj1 (proj1 A))) as S. pose proof (so_width _ S) as Hw. pose proof (so_height _ S) as Hh.
  unfold screen_size in Hw, Hh. destruct Hp as [Hx Hy]. apply perform_covers; [unfold is_i16; lia..|done|done|done].
Qed.

(** Regions as lists of boxes. *)
Definition box_meet (a b : BoxRec) : BoxRec :=
  mk_box (Z.max (bx1 a) (bx1 b)) (Z.max (by1 a) (by1 b)) (Z.min (bx2 a) (bx2 b)) (Z.min (by2 a) (by2 b)).
Definition box_join (a b : BoxRec) : BoxRec :=
  mk_box (Z.min (bx1 a) (bx1 b)) (Z.min (by1 a) (by1 b)) (Z.max (bx2 a) (bx2 b)) (Z.max (by2 a) (by2 b)).
Definition box_within (a b : BoxRec) : bool := (bx1 b <=? bx1 a) && (by1 b <=? by1 a) && (bx2 a <=? bx2 b) && (by2 a <=? by2 b).

#[local] Instance box_regions : XRegion := {
  region := list BoxRec;
  REGION_RECTS l := l;
  RegionNull := [];
  RegionInit b := [b];
  RegionIntersect l1 l2 := flat_map (fun a => box_meet a <$> l2) l1;
  RegionTranslate l dx dy := (fun b => mk_box (bx1 b + dx) (by1 b + dy) (bx2 b + dx) (by2 b + dy)) <$> l;
  RegionFromRects l := (fun r => mk_box (rx r) (ry r) (rx r + rw r) (ry r + rh r)) <$> l;
  RegionContainsRect l b := existsb (box_within b) l;
  RegionExtents l := match l with [] => mk_box 0 0 0 0 | b :: l => foldr box_join b l end;
  RegionNotEmpty l := negb (length l =? 0)%nat;
}.

Lemma box_join_in b l px py : in_box b px py \/ (exists a, a ∈ l /\ in_box a px py) -> in_box (foldr box_join b l) px py.
Proof.
  induction l as [|c l IH]; cbn [foldr]; [intros [H|(a & Ha & _)]; [done|by apply not_elem_of_nil in Ha]|]. intros H.
  assert (in_box c px py \/ in_box (foldr box_join b l) px py) as H'.
  { destruct H as [H|(a & [->|Ha]%elem_of_cons & H)]; [right; apply IH; by left|by left|right; apply IH; right; by exists a]. }
  unfold in_box, box_join in *. cbn. lia.
Qed.

#[local] Instance box_region_laws : XRegionLaws box_regions.
Proof.
  split; unfold in_region; cbn.
  - intros b px py. split; [intros (b' & ->%list_elem_of_singleton & H); done|]. intros H. exists b. split; [by apply list_elem_of_singleton|done].
  - intros r1 r2 px py. split.
    + intros (b & Hb & Hin). apply list_elem_of_In, in_flat_map in Hb as (a & Ha & Hb). apply list_elem_of_In, list_elem_of_fmap in Hb as (c & -> & Hc).
      apply list_elem_of_In in Ha. unfold in_box, box_meet in *. cbn in Hin. split; [exists a|exists c]; (split; [done|lia]).
    + intros [(a & Ha & Hina) (c & Hc & Hinc)]. exists (box_meet a c). split; [|unfold in_box, box_meet in *; cbn; lia].
      apply list_elem_of_In, in_flat_map. exists a. split; [by apply list_elem_of_In|]. by apply list_elem_of_In, list_elem_of_fmap_2.
  - intros r dx dy px py _ _. split.
    + intros (b & (a & -> & Ha)%list_elem_of_fmap & Hin). exists a. split; [done|]. unfold in_box in *. cbn in Hin. lia.
    + intros (a & Ha & Hin). eexists. split; [by apply list_elem_of_fmap_2|]. unfold in_box in *. cbn. lia.
  - intros l px py _ _. split.
    + intros (b & (a & -> & Ha)%list_elem_of_fmap & Hin). exists a. by split.
    + intros (a & Ha & Hin). eexists. split; [by apply list_elem_of_fmap_2|done].
  - intros [|b r] px py (a & Ha & Hin); [by apply not_elem_of_nil in Ha|]. apply box_join_in.
    apply elem_of_cons in Ha as [->|Ha]; [by left|right; by exists a].
  - intros [|b r] px py; [|done]. intros _ (a & Ha & _). by apply not_elem_of_nil in Ha.
Qed.

(** A window in two parts, a client that clips to its upper left corner, and two
    rectangles that are cleared. *)
Definition demo_window : drawable := mk_drawable (DRAWABLE_WINDOW true [] [mk_box 100 50 200 150; mk_box 100 150 160 200]) 100 50 100 150.
Definition demo_gc : gc := mk_gc 0 0 1 true 0 false (Some [mk_box 0 0 80 120]) (5, 5).
Definition demo_fill : operation := op_fill_rects [mk_xrect 10 10 30 30; mk_xrect 50 50 60 60].
Definition no_line : LineTo.RDS_MSG_LINE_TO := LineTo.mk 0 0 0 0 0 0 0 0 0 0.

Definition demo_screen : Screen.rdpScreenInfoRec := Screen.set_size 1000 700 no_screen.

Lemma demo_orders_ok : Forall (command_ok x11_header) (perform demo_screen 0xFFFFFF no_line 0 demo_window demo_gc demo_fill).
Proof.
  set (l := perform _ _ _ _ _ _ _). vm_compute in l. subst l.
  repeat constructor; try reflexivity; discriminate.
Qed.

Lemma x11_drawing_is_sent_witness : exists (bk bk' : rdsBackend x11) sent,
  run_commands x11_header 4 PaintRect.fb_wild (perform (screen (app bk)) 0xFFFFFF no_line 0 demo_window demo_gc demo_fill) bk = Some bk' /\
  outputs (app bk') = outputs (app bk) ++ sent /\ marked (fun _ _ _ _ _ _ _ => False) None (bodies sent) 170 120.
Proof.
  destruct active_service as (bk & O & (Hc & Ha) & Ew & Eh).
  destruct (x11_drawing_is_sent x11_header 4 PaintRect.fb_wild 0xFFFFFF no_line 0 (fun _ _ _ _ _ _ _ => False) demo_window demo_gc demo_fill bk)
    as (bk' & sent & E & _ & Eo & H).
  - split; [exact O|]. split; [exact Hc|exact Ha].
  - lia.
  - split; [vm_compute; discriminate|]. repeat constructor; vm_compute; discriminate.
  - assert (perform (screen (app bk)) 0xFFFFFF no_line 0 demo_window demo_gc demo_fill = perform demo_screen 0xFFFFFF no_line 0 demo_window demo_gc demo_fill) as ->
      by (unfold perform, demo_fill, rdpPolyFillRect, reporting, rdp_get_clip; rewrite Ew, Eh; reflexivity).
    apply demo_orders_ok.
  - exists bk, bk', sent. split; [exact E|]. split; [exact Eo|]. apply H.
    + unfold on_screen. rewrite Ew, Eh. lia.
    + split; [reflexivity|]. split.
      * exists (mk_box 100 50 200 150). split; [by left|]. vm_compute. repeat split; discriminate.
      * intros c Ec. injection Ec as <-. eexists. split; [by left|]. vm_compute. repeat split; discriminate.
    + exists (mk_xrect 50 50 60 60). split; [right; by left|]. vm_compute. repeat split; discriminate.
Defined.

(** ** Input *)

(** C31. The button masks of the module are a set of pressed buttons: over any list of
    pointer events of the client the X server gets exactly the presses and
    releases of that set, in order. A button that is already pressed is not
    pressed again and one that is not pressed is not released; a turn of the
    wheel is a press and a release; motion never adds a button event. *)
Theorem x11_buttons_follow_client {I : InputFlags} (l : list pointer_event) (s : x11) :
  g_button_mask s = 0 -> g_old_button_mask s = 0 ->
  let '(out, B) := buttons_run (flat_map event_buttons l) ∅ in
  button_events (xevents (fold_left pointer_step l s)) = button_events (xevents s) ++ out /\
  buttons_rel (fold_left pointer_step l s) B.
Proof.
  intros E1 E2. assert (buttons_rel s ∅) as R.
  { split; [congruence|]. intros n. rewrite E1. split; [by intros ?%elem_of_empty|]. intros (k & _ & _ & Hb). by rewrite Z.bits_0 in Hb. }
  destruct (pointers_rel l s ∅ R) as [R' E']. by destruct (buttons_run _ ∅) as [out B].
Qed.

Definition x11_idle : x11 := mk_x11 (g_rdpScreen x11_globals) 1280 720 None false false true false 0 0 (0, 0) (None, 0) ∅ [] [].

(** Press left, press right, press left again, wheel, release left. *)
Definition clicks : list pointer_event :=
  [pe_mouse 0x9000 5 6; pe_mouse 0xA000 5 6; pe_mouse 0x9000 7 7; pe_mouse 0x200 0 0; pe_mouse 0x1000 7 7; pe_extended 0x8001 1 1].

Lemma x11_buttons_follow_client_witness :
  button_events (xevents (fold_left pointer_step clicks x11_idle)) =
    [x_button true 1; x_button true 3; x_button true 4; x_button false 4; x_button false 1; x_button true 8].
Proof.
  pose proof (x11_buttons_follow_client clicks x11_idle eq_refl eq_refl) as H.
  destruct (buttons_run (flat_map event_buttons clicks) ∅) as [out B] eqn:E. destruct H as [H _]. rewrite H.
  vm_compute in E. injection E as <- _. reflexivity.
Defined.

(** After a synchronisation of the keyboard, Caps Lock, Num Lock and Scroll Lock of
    the X server are as the client says, whatever they were before, when none
    of the lock keys is held down. *)
Theorem x11_locks_follow_client {I : InputFlags} {X : XServer} flags (s : x11) :
  lock_laws -> master = true -> (forall k m, (k, m) ∈ lock_keys -> is_down k (xevents s) = false) ->
  let l := xevents (KbdAddSyncEvent flags s) in
  locked l LockMask = has flags KBD_SYNC_CAPS_LOCK /\ locked l (find_vmod NumLock) = has flags KBD_SYNC_NUM_LOCK /\
  locked l (find_vmod ScrollLock) = has flags KBD_SYNC_SCROLL_LOCK.
Proof. apply sync_event_locks. Qed.

Lemma x11_locks_follow_client_witness :
  let l := xevents (KbdAddSyncEvent 2 (KbdAddSyncEvent 5 x11_idle)) in 
  locked l LockMask = false /\ locked l (find_vmod NumLock) = true /\ locked l (find_vmod ScrollLock) = false.
Proof.
  destruct (x11_locks_follow_client 2 (KbdAddSyncEvent 5 x11_idle)) as (H1 & H2 & H3).
  - exact demo_lock_laws.
  - reflexivity.
  - intros k m H. unfold lock_keys in H. rewrite !elem_of_cons, elem_of_nil in H.
    destruct H as [H|[H|[H|[]]]]; injection H as -> _; reflexivity.
  - split; [rewrite H1; reflexivity|]. split; [rewrite H2; reflexivity|rewrite H3; reflexivity].
Defined.

(** ** The table of modes *)

(** C39. [rdpProbeModes] allocates a table for 64 modes and [rdpModeAdd] never grows it:
    once 64 modes are there, a size that has none makes [rdpModeSelect], and
    with it the change of the screen size, write past the end of the table. *)
Theorem mode_table_is_not_grown {W : WStream} {P : Pipe} {F : WindowOrder} common0 shmmin shmget set_modes fuel w h (bk : rdsBackend x11) r :
  randr (app bk) = Some r -> Forall mode_ok (modes r) -> length (modes r) = 64%nat -> mode_ok (w, h) -> (w, h) ∉ modes r ->
  rdpRRScreenSetSize common0 shmmin shmget set_modes fuel w h bk = None.
Proof.
  intros Er Hr Hlen Hm Hn. destruct fuel as [|fuel]; [done|]. cbn [rdpRRScreenSetSize]. rewrite Er.
  destruct Hm as [Hw Hh]. cbn in Hw, Hh. rewrite (proj2 (Z.ltb_ge w 1)), (proj2 (Z.ltb_ge h 1)) by (unfold screen_size in *; lia). cbn [orb].
  rewrite mode_full; [done|by split|done|done|]. cbn [modes]. unfold modeCount. lia.
Qed.

(** Sizes that a client can ask for. *)
Definition many_modes : list (Z * Z) := map (fun n => (1920 - n, 1080)) (seqZ 0 64).
Definition crowded : rdsBackend x11 := mk_backend true idle_pipe (Stream_New 64) (Stream_New 64) (set_randr (Some (mk_randr 1920 1080 many_modes)) x11_idle).

Lemma mode_table_is_not_grown_witness : rdpRRScreenSetSize x11_header 1 demo_shmget true 2 800 600 crowded = None.
Proof.
  apply (mode_table_is_not_grown x11_header 1 demo_shmget true 2 800 600 crowded (mk_randr 1920 1080 many_modes)).
  - reflexivity.
  - apply List.Forall_map, List.Forall_forall. intros n Hn. apply list_elem_of_In, elem_of_seqZ in Hn. unfold mode_ok, screen_size. cbn. lia.
  - reflexivity.
  - unfold mode_ok, screen_size. cbn. lia.
  - apply (bool_decide_unpack _). vm_compute. exact I.
Defined.
